(* ===== verification/_CoqProject ===== *)
-Q . S2P
Prelude.v
Double.v
ByteMem.v
PktCmn.v
PktCmnFacts.v
PacketHdrs.v
PacketHdrsFacts.v
ByteFrame.v
PktDesc.v
PktParser.v
PktParserFacts.v
TupleGen.v
TupleGenFacts.v
StreamVm.v
StreamVmFacts.v
StreamVmSpec.v
StreamVmThms.v
StreamVmLimits.v
StreamVmDemo.v
TrexStream.v
TrexStreamFacts.v
StreamsCompiler.v
StreamsCompilerFacts.v
DpNode.v
DpNodeFacts.v
DpCore.v
DpCoreFacts.v
DpCoreSteps.v
DpCoreThms.v
DpCoreDemo.v
PrioQueue.v
TimerWheel.v
TimerWheelFacts.v
TimerWheelThms.v
Histogram.v
RxHeader.v
CapTemplate.v
CapTemplateFacts.v
CapLoadFacts.v
CaptureFile.v
CaptureFacts.v
RxInsert.v
RxInsertFacts.v
RxCheck.v
RxCheckFacts.v
RxCheckFlows.v
RxCheckThms.v
RxTemplate.v
StreamsGraph.v
StreamsGraphFacts.v
PortEvents.v
StatelessPort.v
StatelessPortFacts.v
StatelessPortThms.v
FlowNode.v
FlowNodeFacts.v
MiniVm.v
MiniVmFacts.v
Plugins.v
MiniVmThms.v
PluginThms.v
SendNode.v
NatCheck.v
NatCheckFacts.v
Latency.v
LatencyFacts.v
LatencyMgr.v
LatencySend.v
TupleGenTotal.v
FlowGen.v
FlowGenFacts.v
FlowGenSteps.v
FlowGenInv.v
FlowGenMsgs.v
FlowGenOpen.v
FlowGenTurn.v
FlowGenRun.v
FlowGenCreate.v
FlowGenThms.v
LatencyThms.v
