(* ===== verification/Prelude.v ===== *)
(** * TRex traffic generator: a verification library

    TRex sends and receives traffic at line rate. Its stateless side takes streams
    from users over RPC, compiles them for the cores that serve a port, and runs them
    in the data path; its stateful side replays captured flows between generated
    clients and servers and can check, at the receiver, that every packet of every
    flow arrived in order. This library models the parts of [src/src] that decide
    what is sent, when, and what is reported, and proves what each part promises.

    ** Parts and files

    - Foundations. [Prelude.v] (this file): faults, the error monad [res], words,
      lists with checked access. [Double.v]: the doubles of C++ as binary64 values of
      the Standard Library's SpecFloat, conversions included. [ByteMem.v]: memory as
      byte lists, byte order, [pal/linux/pal_utl.h].
    - Packet headers. [PktCmn.v], [PktCmnFacts.v]: bit fields
      ([common/bitMan.h], [BigEndianBitManipulation.h]), the internet checksum
      ([CPktCmn.cpp]) and the IPv4 header ([IPHeader.h], [.inl]) as functions on a
      byte memory and the offset of the header. [PacketHdrs.v], [PacketHdrsFacts.v]: the
      Ethernet, VLAN, UDP, TCP, ICMP and IPv6 headers and MAC addresses of
      [common/Network/Packet]. [ByteFrame.v]: what a sequence of stores leaves alone.
    - Capture templates. [PktDesc.v]: the descriptor of a packet. [PktParser.v],
      [PktParserFacts.v]: the parser of captured packets and its flow table.
      [CapTemplate.v], [CapTemplateFacts.v], [CapLoadFacts.v]: the packets of a file
      become a template ([CCapFileFlowInfo] of [bp_sim.cpp]). [CaptureFile.v],
      [CaptureFacts.v]: the readers and writers of files ([common/captureFile.{h,cpp}],
      [pcap.{h,cpp}], [erf.{h,cpp}]), and the loop that loads a template from a reader.
      [RxInsert.v], [RxInsertFacts.v]: the header of the receive check in a packet on
      its way, and the pools its buffers come from. [RxTemplate.v]: a template sent in
      order is complete for the receive check.
    - Tuple generator. [TupleGen.v], [TupleGenFacts.v], [TupleGenTotal.v]: [tuple_gen.{h,cpp}] and
      [mac_mapping.h]: port allocators per address, pools of clients and servers,
      generators per thread and per template. Pools are shared between templates, so
      template generators act on a store of pools.
    - Field engine. [StreamVm.v]: [stateless/cp/trex_stream_vm.{h,cpp}]: the byte code
      and its interpreter, the instructions of the user, the compiler from one to the
      other. [StreamVmSpec.v]: its meaning on named variables. [StreamVmFacts.v],
      [StreamVmThms.v], [StreamVmLimits.v], [StreamVmDemo.v]: theorems and an instance.
    - Streams. [TrexStream.v], [TrexStreamFacts.v]: [trex_stream.{h,cpp}] and
      [trex_vm_splitter.cpp]. [StreamsCompiler.v], [StreamsCompilerFacts.v]: the first
      half of [trex_streams_compiler.cpp], checks and per-core copies. [StreamsGraph.v],
      [StreamsGraphFacts.v]: the second half, rate events, maximum rates, duration.
    - Control plane. [PortEvents.v]: [trex_dp_port_events.{h,cpp}].
      [StatelessPort.v], [StatelessPortFacts.v], [StatelessPortThms.v]:
      [trex_stateless_port.{h,cpp}] and [get_port_by_id] of [trex_stateless.cpp]: a port's
      owner, streams, state machine and messages, in a monad that keeps the state a
      throwing command leaves behind.
    - Data path. [DpNode.v], [DpNodeFacts.v]: the node of a stream in the scheduler
      ([stateless/dp/trex_stream_node.h]). [DpCore.v], [DpCoreFacts.v], [DpCoreSteps.v],
      [DpCoreThms.v], [DpCoreDemo.v]: [trex_stateless_dp_core.{h,cpp}], the messages of
      [stateless/messaging], and the turn of the scheduler ([bp_sim.cpp]) for stateless
      nodes. Nodes are allocated in a store, because streams point to each other.
    - Receive check. [PrioQueue.v]: the interface of std::priority_queue that the timer
      wheel needs, a class with its laws and an instance. [TimerWheel.v],
      [TimerWheelFacts.v], [TimerWheelThms.v]: [timer_wheel_pq.{h,cpp}]. [Histogram.v]:
      [time_histogram.{h,cpp}], [utl_jitter.h], [os_time.h].
      [RxHeader.v]: [rx_check_header.h]. [RxCheck.v], [RxCheckFacts.v], [RxCheckFlows.v],
      [RxCheckThms.v]: [rx_check.{h,cpp}].
    - Packets of generated flows ([bp_sim.{h,cpp}], [main_dpdk.cpp]). [FlowNode.v],
      [FlowNodeFacts.v]: the node of a flow ([CGenNode]) and the packet made for it from one
      of its template ([CFlowPktInfo]). [MiniVm.v], [MiniVmFacts.v], [MiniVmThms.v]: the mini
      VM that edits payloads, and TCP sequence numbers. [Plugins.v], [PluginThms.v]: RTSP, SIP,
      HTTP and dynamic payloads, and the interfaces that send a node. [SendNode.v]: what
      they put on the wire.
    - Flow generator ([CFlowGenListPerThread], [CNodeGenerator] and [CPolicer] of
      [bp_sim.{h,cpp}]). [FlowGen.v]: templates open flows, a flow is a node in a queue that
      sends a packet per turn. [FlowGenFacts.v]: the state, and the classes of what a thread
      asks of its interface and pool. [FlowGenSteps.v], [FlowGenInv.v], [FlowGenMsgs.v],
      [FlowGenOpen.v], [FlowGenTurn.v]: turns, messages, new flows, the invariant.
      [FlowGenRun.v], [FlowGenCreate.v], [FlowGenThms.v]: runs, and the threads that
      [Create] makes.
    - NAT manager. [NatCheck.v], [NatCheckFacts.v]: [nat_check.{h,cpp}].
    - Latency manager ([latency.{h,cpp}], [CSimplePacketParser] of [bp_sim.cpp]). [Latency.v]:
      the packets of the modes and a port: what it sends, and its check of any packet it
      receives. [LatencyMgr.v]: the manager, a record of its ports, the receive check and the
      NAT manager; its rounds, its receive paths and the loop of its thread.
      [LatencyFacts.v], [LatencySend.v], [LatencyThms.v]: received packets, sent packets, and
      links between ports.

    ** How the parts meet

    A user's streams go from the port's table ([StatelessPort.cp_start_traffic]) through
    the compiler ([StreamsCompiler.compile_all], which splits VMs by
    [TrexStream.split] and compiles them by [StreamVm.compile]) to a start message per
    core, which the core turns into linked nodes ([DpCore.start_traffic]); every node
    sends packets, running its byte code on each ([DpNode], [StreamVm.run]). When its
    last burst is over the core sends an event to the control plane, which
    [PortEvents.event_handle] counts.

    A capture file is read packet by packet ([CaptureFile.ReadPacket]) through the
    parser ([PktParser.ProcessPacket]) into a template ([CaptureFile.load_file], which
    does what [CapTemplate.load_cap_file] does with the list of the packets, then
    [update_info]), whose numbers the generator writes into its packets
    ([RxInsert.rxcheck_header]) and the receive check reads ([RxCheck.handle_packet]).

    A thread of the flow generator ([FlowGen.turn]) opens flows with clients, servers and
    ports of the tuple generator ([TupleGen.CClientPool_GenerateTuple]) and hands the node of a flow
    and the packet that is due to its interface ([Plugins.core_send_node]), which makes the
    packet ([FlowNode.update_pkt_info], or the mini VM for a plugin) and puts in the header of
    the receive check. On the other side the latency manager looks at every packet
    ([Latency.check_packet]): its own are counted and timed, the header of the receive check goes
    to [RxCheck.handle_packet], the option of a learn packet to [NatCheck.handle_packet_ipv4],
    whose messages bring the translation back to the flow ([FlowGen.handel_nat_flow]).

    ** What the theorems show

    - Field engine: compiled byte code refines the named semantics; compiled programs
      run without a fault; variables walk their ranges; memory layout; the byte code
      round-trips; the interpreter ends on any program.
    - Streams: the compiler accepts exactly the well-formed graphs; the cores' objects
      together send what the streams ask for; the splitter partitions ranges; the rate
      graph is computed for accepted sets of streams, loops included, whose multi-bursts have
      bursts.
    - Control plane: the state machine of a port, by induction on reachable states, and
      the protocol that ends a run when the last core has reported.
    - Data path: no turn of the scheduler faults while messages respect the ports'
      states; starts, stops, bursts and exits do what they promise.
    - Tuple generator: exclusive ports, bounded search, fair choice of clients,
      disjoint shares of the threads, clusters of flows.
    - Receive check: the wheel with lazy timers implements a map of deadlines; timers
      run out and flows age; a flow is closed as complete exactly when its packets
      arrived in order; the manager's invariant.
    - Capture templates: the parser stays in its buffer (without [--ipv6]) and finds the
      headers; a file loads exactly if it holds one flow; packets are numbered per
      direction; the inserted header leaves a well-formed packet; from template to
      receive check.
    - Capture files: a template is loaded from the bytes of a libpcap file, in either byte
      order, as from its packets; what is saved is read back; no file makes the libpcap reader
      write outside its buffer or read on forever.
    - Packets of flows: the packet on the wire is the template's with the flow's
      addresses and ports and a right IP checksum (a TCP checksum stays the template's);
      plugins' programs fit their buffers, edited packets are well-formed and TCP
      sequence numbers follow the growth.
    - Flow generator: what [Create] makes is ready to run; no turn of a run fails, and its
      queue never runs dry; at the end of a run each flow has sent its packets in order and
      nothing is left.
    - NAT: every thread is told what its packets announced, in order, within 2 ms; a learn
      packet tells its receiver the flow that sent it.
    - Latency manager: a round sends the right packet on each port that may send; any
      received packet is handled, and counted once; losses are counted; over links that
      lose nothing no error is reported (an invariant of the ports and what is on the
      way); the packets of sampled flows, when they are plain IPv4 ones, reach the
      receive check as the headers that were put in.
    - Limits: inputs on which the code faults or does not do what it means to are
      theorems or examples of their own ([StreamVmLimits.v], [RxCheckFlows.v],
      [StreamsGraphFacts.graph_without_events], [StreamsGraphFacts.graph_zero_bursts],
      [DpCoreThms.idle_port_message_aborts], [PacketHdrsFacts.urgent_offset_swapped],
      [PktParserFacts.flow_key_same_host],
      [TupleGenFacts.CClientPool_Create_mac_bounds],
      [LatencyThms.learned_addrs_odd_port], [LatencyThms.icmp_number_restarts],
      [LatencyThms.reset_counts_error], [CaptureFacts.snapped_packet_swallows_next],
      [CaptureFacts.load_short_file], [CaptureFacts.erf_empty_record_overflows]).

    ** Fuel and bounds

    Loops that are not structural run on fuel, and running out is a fault of its own
    ([OutOfFuel]) that the theorems exclude: the interpreter takes one unit per byte of
    the program; the walk of a root in the rate graph one per stream of the hash; the
    breadth-first search of the compiler one per root and node (and two); the settling
    of the timer wheel one per queued timer; the loop over due timers one per queued
    timer; the reading of a capture file one per byte of the file, of which a packet
    takes 16 or more; the loop over the options of an IP header 33, as every turn takes
    eight bytes or more off a length of at most 255. Of the loops that wait for the
    environment, the flow generator's is a relation ([FlowGen.flush_loop]) and the
    latency manager's is structural on the list of what the environment does. Words are
    [Z] with their wrap-around written out ([u8], [u16], [u32], [u64], [s32]).

    ** Arguments of the model

    Code outside [src/] and the environment are arguments: the result of [malloc] (the
    bytes it returns), random draws, the clock, the generator of packet buffers, the
    priority queue of the C++ library (with the laws of the standard), the line speed
    and the cores that the platform reports; for the flow generator also the interface it
    sends with and the pool of nodes (the classes [NodeSender] and [NodePool], with
    [core_send_node] as an instance of the first), for the receivers the packets that
    arrive, the room on the rings and the moment of [stop].

    ** Not modelled

    The RPC server and its JSON commands, the publisher, the YAML configuration, the
    platform layer and the message rings (input and output around the modelled parts;
    rings are lists of messages); the DPDK application, but for the interface that sends
    a node; functions that only print or produce JSON; freeing of memory, except where
    the code checks it. [BP_ASSERT] is taken as the debug build defines it. Vendored
    code ([dpdk_lib18], [external_libs], gtest) and the Python control plane are outside
    the scope of the library.*)

From stdpp Require Export base tactics option list list_numbers numbers gmap strings.
From Stdlib Require Export ZArith Lia.

Open Scope Z_scope.

(** ** Faults and the error monad

    The C++ code stops in four ways: a failed [assert], an access outside an
    object, a null pointer dereference or an integer division by zero (the
    last three are undefined behaviour), or a thrown [TrexException].  Every
    operation that can stop returns a [res]. *)

Inductive fault : Type :=
  | AssertFail
  | OutOfBounds
  | NullDeref
  | DivByZero
  | OutOfFuel
  | Thrown (msg : string).

#[export] Instance fault_eq_dec : EqDecision fault.
Proof. solve_decision. Defined.

Inductive res (A : Type) : Type :=
  | Ok (a : A)
  | Err (e : fault).
Arguments Ok {A} a.
Arguments Err {A} e.

#[export] Instance res_eq_dec {A} `{EqDecision A} : EqDecision (res A).
Proof. solve_decision. Defined.

#[export] Instance res_ret : MRet res := fun A a => Ok a.
#[export] Instance res_bind : MBind res := fun A B k m =>
  match m with Ok a => k a | Err e => Err e end.
#[export] Instance res_fmap : FMap res := fun A B f m =>
  match m with Ok a => Ok (f a) | Err e => Err e end.

(** [c_assert b] is the C macro [assert(b)]. *)
Definition c_assert (b : bool) : res unit := if b then Ok tt else Err AssertFail.

Definition throw {A} (msg : string) : res A := Err (Thrown msg).

(** An array access: out of range is undefined behaviour. *)
Definition get_idx {A} (l : list A) (i : Z) : res A :=
  if decide (0 <= i) then
    match l !! Z.to_nat i with Some x => Ok x | None => Err OutOfBounds end
  else Err OutOfBounds.

Definition set_idx {A} (l : list A) (i : Z) (x : A) : res (list A) :=
  if decide (0 <= i < Z.of_nat (length l)) then Ok (<[Z.to_nat i := x]> l)
  else Err OutOfBounds.

Definition zlength {A} (l : list A) : Z := Z.of_nat (length l).

(** ** Machine integers

    A [w]-bit unsigned integer is a [Z] in [0, 2^w); assignment to a variable
    of the type wraps. *)

Definition u8 (x : Z) : Z := x mod 256.
Definition u16 (x : Z) : Z := x mod 65536.
Definition u32 (x : Z) : Z := x mod 4294967296.
Definition u64 (x : Z) : Z := x mod 18446744073709551616.

(** Conversion of an unsigned representation to the signed type of the same
    width (two's complement). *)
Definition s8 (x : Z) : Z := (x + 128) mod 256 - 128.
Definition s16 (x : Z) : Z := (x + 32768) mod 65536 - 32768.
Definition s32 (x : Z) : Z := (x + 2147483648) mod 4294967296 - 2147483648.
Definition s64 (x : Z) : Z :=
  (x + 9223372036854775808) mod 18446744073709551616 - 9223372036854775808.

Ltac unfold_words := unfold u8, u16, u32, u64, s8, s16, s32, s64 in *.

(** Linear arithmetic through the word operations. *)
Ltac word_lia := unfold_words; Z.div_mod_to_equations; lia.

Lemma u8_range x : 0 <= u8 x < 256. Proof. word_lia. Qed.
Lemma u16_range x : 0 <= u16 x < 65536. Proof. word_lia. Qed.
Lemma u32_range x : 0 <= u32 x < 4294967296. Proof. word_lia. Qed.
Lemma u64_range x : 0 <= u64 x < 18446744073709551616. Proof. word_lia. Qed.

Lemma u8_id x : 0 <= x < 256 -> u8 x = x. Proof. apply Z.mod_small. Qed.
Lemma u16_id x : 0 <= x < 65536 -> u16 x = x. Proof. apply Z.mod_small. Qed.
Lemma u32_id x : 0 <= x < 4294967296 -> u32 x = x. Proof. apply Z.mod_small. Qed.
Lemma u64_id x : 0 <= x < 18446744073709551616 -> u64 x = x.
Proof. apply Z.mod_small. Qed.

Create HintDb words.
#[export] Hint Resolve u8_range u16_range u32_range u64_range : words.
#[export] Hint Rewrite u8_id u16_id u32_id u64_id using lia : words.

(** ** Inversion of the error monad *)

Lemma bind_Ok {A B} (m : res A) (k : A -> res B) b :
  (m ≫= k) = Ok b <-> exists a, m = Ok a /\ k a = Ok b.
Proof.
  split.
  - destruct m as [a|e]; simpl; [|discriminate]. eauto.
  - intros (a & -> & H). exact H.
Qed.

Lemma c_assert_Ok b u : c_assert b = Ok u <-> b = true.
Proof. unfold c_assert. destruct b, u; split; congruence. Qed.

Lemma get_idx_Ok {A} (l : list A) i x :
  get_idx l i = Ok x <-> 0 <= i /\ l !! Z.to_nat i = Some x.
Proof.
  unfold get_idx. case_decide as Hi; [|split; [discriminate|lia]].
  destruct (l !! Z.to_nat i); split; intros; naive_solver.
Qed.

Lemma get_idx_total {A} (l : list A) i :
  0 <= i < zlength l -> exists x, get_idx l i = Ok x.
Proof.
  unfold zlength. intros Hi. unfold get_idx. rewrite decide_True by lia.
  destruct (lookup_lt_is_Some_2 l (Z.to_nat i)) as [x ->]; [lia|eauto].
Qed.

Lemma set_idx_Ok {A} (l l' : list A) i x :
  set_idx l i x = Ok l' <->
  0 <= i < zlength l /\ l' = <[Z.to_nat i := x]> l.
Proof.
  unfold set_idx, zlength. case_decide; split; intros; naive_solver.
Qed.

Lemma set_idx_in {A} (l : list A) i x :
  0 <= i < zlength l -> set_idx l i x = Ok (<[Z.to_nat i := x]> l).
Proof. intros Hi. by apply set_idx_Ok. Qed.

Lemma zlength_app {A} (a b : list A) : zlength (a ++ b) = zlength a + zlength b.
Proof. unfold zlength. rewrite length_app. lia. Qed.
Lemma set_idx_zlength {A} (l l' : list A) i x :
  set_idx l i x = Ok l' -> zlength l' = zlength l.
Proof.
  intros [_ ->]%set_idx_Ok. unfold zlength. by rewrite length_insert.
Qed.

(** [res_inv H] splits a successful run of a bind chain into its steps. *)
Ltac res_inv H :=
  repeat match type of H with
  | (_ ≫= _) = Ok _ =>
      let a := fresh "v" in let Ha := fresh "Hv" in
      apply bind_Ok in H; destruct H as (a & Ha & H); simpl in H
  end.

Ltac res_inv_all :=
  repeat match goal with
  | H : (_ ≫= _) = Ok _ |- _ =>
      apply bind_Ok in H; destruct H as (? & ? & H); simpl in H
  | H : Ok _ = Ok _ |- _ => injection H as H
  | H : Err _ = Ok _ |- _ => discriminate H
  | H : mret _ = Ok _ |- _ => unfold mret, res_ret in H
  | H : c_assert _ = Ok _ |- _ => apply c_assert_Ok in H
  end; simplify_eq/=.
