(* ===== verification/Double.v ===== *)
(** * C doubles

    The [double] of C++ as IEEE binary64 values with round to nearest, from the
    Standard Library's [SpecFloat]. *)

From S2P Require Import Prelude.
From Stdlib Require Export SpecFloat.

Definition double := spec_float.
Definition double_of_Z (z : Z) : double := binary_normalize 53 1024 z 0 false.
Definition double_add (a b : double) : double := SFadd 53 1024 a b.
Definition double_sub (a b : double) : double := SFsub 53 1024 a b.
Definition double_mul (a b : double) : double := SFmul 53 1024 a b.
Definition double_div (a b : double) : double := SFdiv 53 1024 a b.
Definition double_ltb (a b : double) : bool := SFltb a b.
Definition double_leb (a b : double) : bool := SFleb a b.
Definition double_eqb (a b : double) : bool := SFeqb a b.

(** ** The order of doubles

    Comparison of the numbers (all but NaN) is the lexicographic order of a
    triple: where the value lies, exponent, mantissa. *)

Definition is_number (a : double) : bool := match a with S754_nan => false | _ => true end.

Definition double_key (a : double) : Z * Z * Z :=
  match a with
  | S754_nan => (0, 0, 0)
  | S754_infinity true => (-2, 0, 0)
  | S754_finite true m e => (-1, - e, - Z.pos m)
  | S754_zero _ => (0, 0, 0)
  | S754_finite false m e => (1, e, Z.pos m)
  | S754_infinity false => (2, 0, 0)
  end.

Definition key_lt (a b : Z * Z * Z) : Prop :=
  let '(a1, a2, a3) := a in let '(b1, b2, b3) := b in
  a1 < b1 \/ (a1 = b1 /\ (a2 < b2 \/ (a2 = b2 /\ a3 < b3))).

Lemma double_ltb_key a b :
  is_number a = true -> is_number b = true ->
  double_ltb a b = true <-> key_lt (double_key a) (double_key b).
Proof.
  intros Ha Hb. unfold double_ltb, SFltb, SFcompare.
  destruct a as [[]|[]| |[] ma ea], b as [[]|[]| |[] mb eb]; try done; simpl;
    try (split; [done|lia]); try (split; [lia|done]).
  all: destruct (Z.compare_spec ea eb); simpl; try (split; intros; done || lia).
  all: change (Pos.compare_cont Eq ma mb) with (Pos.compare ma mb).
  all: destruct (Pos.compare_spec ma mb); simpl; split; intros; done || lia.
Qed.

Lemma key_lt_trans a b c : key_lt a b -> key_lt b c -> key_lt a c.
Proof. destruct a as [[]], b as [[]], c as [[]]. simpl. lia. Qed.

Lemma key_not_lt_trans a b c : ~ key_lt b a -> ~ key_lt c b -> ~ key_lt c a.
Proof. destruct a as [[]], b as [[]], c as [[]]. simpl. lia. Qed.

Lemma double_ltb_irrefl a : is_number a = true -> double_ltb a a = false.
Proof.
  intros Ha. destruct (double_ltb a a) eqn:E; [|done].
  apply double_ltb_key in E; [|done..]. destruct (double_key a) as [[]]. simpl in E. lia.
Qed.

(** [a <= b], as the negation of [b < a]. *)
Lemma double_not_ltb_trans a b c :
  is_number a = true -> is_number b = true -> is_number c = true ->
  double_ltb b a = false -> double_ltb c b = false -> double_ltb c a = false.
Proof.
  intros Ha Hb Hc H1 H2. destruct (double_ltb c a) eqn:E; [|done]. exfalso.
  apply double_ltb_key in E; [|done..].
  assert (N1 : ~ key_lt (double_key b) (double_key a)) by (rewrite <- double_ltb_key by done; congruence).
  assert (N2 : ~ key_lt (double_key c) (double_key b)) by (rewrite <- double_ltb_key by done; congruence).
  exact (key_not_lt_trans _ _ _ N1 N2 E).
Qed.

Lemma double_ltb_not_ltb a b :
  is_number a = true -> is_number b = true -> double_ltb a b = true -> double_ltb b a = false.
Proof.
  intros Ha Hb E. destruct (double_ltb b a) eqn:E'; [|done]. exfalso.
  apply double_ltb_key in E, E'; [|done..].
  destruct (double_key a) as [[]], (double_key b) as [[]]. simpl in *. lia.
Qed.

Lemma double_ltb_trans a b c :
  is_number a = true -> is_number b = true -> is_number c = true ->
  double_ltb a b = true -> double_ltb b c = true -> double_ltb a c = true.
Proof.
  intros Ha Hb Hc H1 H2. apply double_ltb_key in H1, H2; [|done..].
  apply double_ltb_key; [done..|]. exact (key_lt_trans _ _ _ H1 H2).
Qed.

Lemma double_ltb_le_trans a b c :
  is_number a = true -> is_number b = true -> is_number c = true ->
  double_ltb a b = true -> double_ltb c b = false -> double_ltb a c = true.
Proof.
  intros Ha Hb Hc H1 H2. destruct (double_ltb a c) eqn:E; [done|].
  exfalso. rewrite <- not_false_iff_true in H1. apply H1.
  by apply double_not_ltb_trans with c.
Qed.

(** A point in time the wheel accepts. *)
Definition good_time (x : double) : bool := is_number x && double_ltb (double_of_Z 0) x.

Lemma good_time_number x : good_time x = true -> is_number x = true.
Proof. intros [? ?]%andb_true_iff. done. Qed.

Lemma good_time_pos x : good_time x = true -> double_ltb (double_of_Z 0) x = true.
Proof. intros [? ?]%andb_true_iff. done. Qed.

(** ** Conversions

    [(uint32_t) x] for a double. C leaves values out of the range of the type
    undefined; compilers for x86-64 truncate to a signed 64-bit integer (the
    smallest one when the value does not fit) and keep the low 32 bits. *)

Definition double_trunc (x : double) : option Z :=
  match x with
  | S754_zero _ => Some 0
  | S754_finite s m e =>
      let v := if 0 <=? e then Z.shiftl (Z.pos m) e else Z.shiftr (Z.pos m) (- e) in
      Some (if s then - v else v)
  | _ => None
  end.

Definition u32_of_double (x : double) : Z :=
  match double_trunc x with
  | Some v => if (-9223372036854775808 <=? v) && (v <=? 9223372036854775807) then u32 v else 0
  | None => 0
  end.

Definition double_opp (x : double) : double := SFopp x.

(** [(int) x]: compilers for x86-64 give the smallest value when [x] does not fit. *)
Definition i32_of_double (x : double) : Z :=
  match double_trunc x with
  | Some v => if (-2147483648 <=? v) && (v <=? 2147483647) then v else -2147483648
  | None => -2147483648
  end.

(** [std::max(a, b)]. *)
Definition double_max (a b : double) : double := if double_ltb a b then b else a.
