(* ===== verification/ByteMem.v ===== *)
(** * Byte memory and byte order

    A memory object (a packet, the flow variables, a program) is the list of
    its bytes, each a [Z] in [0, 256).  Multi-byte accesses are those of a
    little-endian host, the only one the code supports; an access that is not
    inside the object is undefined behaviour, [Err OutOfBounds].  The byte
    order macros are those of [src/src/pal/linux/pal_utl.h]. *)

From S2P Require Import Prelude.

Notation bytes := (list Z).

Definition byte_ok (b : Z) : Prop := 0 <= b < 256.
Notation bytes_ok := (Forall byte_ok).

(** ** Little-endian integers *)

Fixpoint le_split (n : nat) (v : Z) : bytes :=
  match n with
  | O => []
  | S n => v mod 256 :: le_split n (v / 256)
  end.

Fixpoint le_combine (l : bytes) : Z :=
  match l with
  | [] => 0
  | b :: l => b + 256 * le_combine l
  end.

Lemma length_le_split n v : length (le_split n v) = n.
Proof. revert v. induction n; intros; simpl; congruence. Qed.

Lemma le_split_ok n v : bytes_ok (le_split n v).
Proof.
  revert v. induction n as [|n IH]; intros v; simpl; constructor; [|apply IH].
  unfold byte_ok. Z.div_mod_to_equations. lia.
Qed.

Lemma le_combine_range l :
  bytes_ok l -> 0 <= le_combine l < 256 ^ Z.of_nat (length l).
Proof.
  induction 1 as [|b l Hb _ IH]; [simpl; lia|].
  cbn [le_combine length]. unfold byte_ok in Hb.
  rewrite Nat2Z.inj_succ, Z.pow_succ_r by lia. lia.
Qed.

Lemma le_combine_split n v : le_combine (le_split n v) = v mod 256 ^ Z.of_nat n.
Proof.
  revert v. induction n as [|n IH]; intros v.
  - simpl. by rewrite Z.mod_1_r.
  - cbn [le_split le_combine]. rewrite IH, Nat2Z.inj_succ, Z.pow_succ_r by lia.
    rewrite Z.rem_mul_r by lia. done.
Qed.

Lemma le_split_combine l :
  bytes_ok l -> le_split (length l) (le_combine l) = l.
Proof.
  induction 1 as [|b l Hb Hl IH]; [done|]. cbn [le_split le_combine length].
  unfold byte_ok in Hb.
  replace ((b + 256 * le_combine l) mod 256) with b by (Z.div_mod_to_equations; lia).
  replace ((b + 256 * le_combine l) / 256) with (le_combine l)
    by (Z.div_mod_to_equations; lia).
  by rewrite IH.
Qed.

Lemma le_split_mod n v : le_split n (v mod 256 ^ Z.of_nat n) = le_split n v.
Proof.
  rewrite <- le_combine_split. rewrite <- (length_le_split n v) at 1.
  apply le_split_combine, le_split_ok.
Qed.

(** ** Loads and stores *)

Definition ld (n : nat) (m : bytes) (off : Z) : res Z :=
  if decide (0 <= off /\ off + Z.of_nat n <= zlength m) then
    Ok (le_combine (take n (drop (Z.to_nat off) m)))
  else Err OutOfBounds.

Definition splice (m : bytes) (off : nat) (new : bytes) : bytes :=
  take off m ++ new ++ drop (off + length new) m.

Definition st (n : nat) (m : bytes) (off v : Z) : res bytes :=
  if decide (0 <= off /\ off + Z.of_nat n <= zlength m) then
    Ok (splice m (Z.to_nat off) (le_split n v))
  else Err OutOfBounds.

Notation ld8 := (ld 1). Notation ld16 := (ld 2).
Notation ld32 := (ld 4). Notation ld64 := (ld 8).
Notation st8 := (st 1). Notation st16 := (st 2).
Notation st32 := (st 4). Notation st64 := (st 8).

Definition in_range (n : nat) (m : bytes) (off : Z) : Prop :=
  0 <= off /\ off + Z.of_nat n <= zlength m.

Lemma ld_Ok n m off :
  in_range n m off -> ld n m off = Ok (le_combine (take n (drop (Z.to_nat off) m))).
Proof. intros. unfold ld. by rewrite decide_True. Qed.

Lemma st_Ok n m off v :
  in_range n m off -> st n m off v = Ok (splice m (Z.to_nat off) (le_split n v)).
Proof. intros. unfold st. by rewrite decide_True. Qed.

Lemma ld_inv n m off v : ld n m off = Ok v -> in_range n m off.
Proof. unfold ld. case_decide; [done|discriminate]. Qed.

Lemma st_inv n m off v m' :
  st n m off v = Ok m' -> in_range n m off /\ m' = splice m (Z.to_nat off) (le_split n v).
Proof. unfold st. case_decide; [intros [= <-]; done|discriminate]. Qed.

Lemma in_range_nat n m off :
  in_range n m off -> (Z.to_nat off + n <= length m)%nat.
Proof. unfold in_range, zlength. lia. Qed.

Lemma ld_range n m off v :
  bytes_ok m -> ld n m off = Ok v -> 0 <= v < 256 ^ Z.of_nat n.
Proof.
  intros Hm E. pose proof (in_range_nat _ _ _ (ld_inv _ _ _ _ E)) as Hr.
  rewrite ld_Ok in E by by eapply ld_inv. injection E as <-.
  assert (Hb : bytes_ok (take n (drop (Z.to_nat off) m)))
    by by apply Forall_take, Forall_drop.
  apply le_combine_range in Hb. rewrite length_take, length_drop in Hb.
  replace (n `min` (length m - Z.to_nat off))%nat with n in Hb by lia. done.
Qed.

Lemma length_splice m off new :
  (off + length new <= length m)%nat -> length (splice m off new) = length m.
Proof.
  intros. unfold splice. rewrite !length_app, length_take, length_drop. lia.
Qed.

Lemma splice_lookup m off new i :
  (off + length new <= length m)%nat ->
  splice m off new !! i =
    if decide (off <= i < off + length new)%nat then new !! (i - off)%nat else m !! i.
Proof.
  intros Hr. unfold splice. case_decide as Hi.
  - rewrite lookup_app_r by (rewrite length_take; lia). rewrite length_take.
    replace (off `min` length m)%nat with off by lia.
    apply lookup_app_l. lia.
  - destruct (decide (i < off)%nat).
    + rewrite lookup_app_l by (rewrite length_take; lia). by apply lookup_take_lt.
    + rewrite lookup_app_r by (rewrite length_take; lia). rewrite length_take.
      replace (off `min` length m)%nat with off by lia.
      rewrite lookup_app_r by lia. rewrite lookup_drop. f_equal. lia.
Qed.

Lemma st_zlength n m off v m' : st n m off v = Ok m' -> zlength m' = zlength m.
Proof.
  intros [Hr ->]%st_inv. apply in_range_nat in Hr. unfold zlength.
  rewrite length_splice by (rewrite length_le_split; lia). done.
Qed.

Lemma splice_ok m off new : bytes_ok m -> bytes_ok new -> bytes_ok (splice m off new).
Proof.
  intros Hm Hn. unfold splice. apply Forall_app; split; [by apply Forall_take|].
  apply Forall_app; split; [done|by apply Forall_drop].
Qed.

Lemma st_ok n m off v m' : bytes_ok m -> st n m off v = Ok m' -> bytes_ok m'.
Proof. intros Hm [_ ->]%st_inv. apply splice_ok; [done|apply le_split_ok]. Qed.

(** The bytes outside the stored range do not change. *)
Lemma st_lookup n m off v m' i :
  st n m off v = Ok m' ->
  m' !! i = if decide (Z.to_nat off <= i < Z.to_nat off + n)%nat
            then le_split n v !! (i - Z.to_nat off)%nat else m !! i.
Proof.
  intros [Hr ->]%st_inv. apply in_range_nat in Hr.
  rewrite splice_lookup by (rewrite length_le_split; lia).
  by rewrite length_le_split.
Qed.

Lemma take_drop_ext (m m' : bytes) o n :
  length m = length m' ->
  (forall i, (o <= i < o + n)%nat -> m !! i = m' !! i) ->
  take n (drop o m) = take n (drop o m').
Proof.
  intros Hl Hi. apply list_eq. intros k.
  destruct (decide (k < n)%nat).
  - rewrite !lookup_take_lt, !lookup_drop by lia. apply Hi. lia.
  - rewrite !lookup_take_ge by lia. done.
Qed.

(** Reading what was written, and reading elsewhere. *)
Lemma ld_st_same n m off v m' :
  st n m off v = Ok m' -> ld n m' off = Ok (v mod 256 ^ Z.of_nat n).
Proof.
  intros E. pose proof (st_zlength _ _ _ _ _ E) as Hz.
  pose proof (st_inv _ _ _ _ _ E) as [Hr ->].
  rewrite ld_Ok by (unfold in_range in *; lia). f_equal. rewrite <- le_combine_split.
  f_equal. apply list_eq. intros k. apply in_range_nat in Hr.
  destruct (decide (k < n)%nat).
  - rewrite lookup_take_lt, lookup_drop by lia.
    rewrite splice_lookup by (rewrite length_le_split; lia).
    rewrite length_le_split, decide_True by lia. f_equal. lia.
  - rewrite lookup_take_ge by lia. symmetry. apply lookup_ge_None.
    rewrite length_le_split. lia.
Qed.

Lemma ld_st_other n k m off off' v m' :
  st n m off v = Ok m' ->
  off' + Z.of_nat k <= off \/ off + Z.of_nat n <= off' ->
  ld k m' off' = ld k m off'.
Proof.
  intros E Hd. pose proof (st_zlength _ _ _ _ _ E) as Hz.
  pose proof (proj1 (st_inv _ _ _ _ _ E)) as Hr.
  unfold ld. rewrite Hz. case_decide as Hr'; [|done]. do 2 f_equal.
  apply take_drop_ext.
  - unfold zlength in Hz. lia.
  - intros i Hi. rewrite (st_lookup _ _ _ _ _ i E), decide_False; [done|].
    unfold in_range in Hr. lia.
Qed.

(** ** Byte order ([pal_utl.h]) *)

Definition PAL_NTOHS (x : Z) : Z :=
  let x := u16 x in
  Z.lor (Z.land (Z.shiftr x 8) 255) (Z.shiftl (Z.land x 255) 8).

Definition PAL_LONGSWAP (x : Z) : Z :=
  Z.lor (Z.lor (Z.lor (Z.shiftl (Z.land x 255) 24)
                      (Z.shiftl (Z.land (Z.shiftr x 8) 255) 16))
               (Z.shiftl (Z.land (Z.shiftr x 16) 255) 8))
        (Z.land (Z.shiftr x 24) 255).

Definition PAL_NTOHL (x : Z) : Z := PAL_LONGSWAP (u32 x).

Definition pal_ntohl64 (x : Z) : Z :=
  let x := u64 x in
  let high := Z.shiftr x 32 in
  let low := Z.land x 4294967295 in
  Z.lor (Z.shiftl (PAL_LONGSWAP low) 32) (PAL_LONGSWAP high).

Lemma lor_shiftl_add a b n :
  0 <= n -> 0 <= b < 2 ^ n -> Z.lor (Z.shiftl a n) b = a * 2 ^ n + b.
Proof.
  intros Hn Hb. rewrite <- Z.shiftl_mul_pow2 by done.
  assert (Hz : Z.land (Z.shiftl a n) b = 0).
  { apply Z.bits_inj'. intros k Hk. rewrite Z.land_spec, Z.bits_0.
    destruct (Z.lt_ge_cases k n).
    - by rewrite Z.shiftl_spec_low.
    - rewrite <- (Z.mod_small b (2 ^ n)), Z.mod_pow2_bits_high by lia.
      apply andb_false_r. }
  rewrite <- Z.lxor_lor by done. by rewrite Z.add_nocarry_lxor.
Qed.

Lemma land_255 x : Z.land x 255 = x mod 256.
Proof. change 255 with (Z.ones 8). by rewrite Z.land_ones. Qed.

Lemma land_65535 x : Z.land x 65535 = x mod 65536.
Proof. change 65535 with (Z.ones 16). by rewrite Z.land_ones. Qed.

Lemma land_u32 x : Z.land x 4294967295 = x mod 4294967296.
Proof. change 4294967295 with (Z.ones 32). by rewrite Z.land_ones. Qed.

(** Byte [i] of an integer. *)
Definition byte_of (i x : Z) : Z := (x / 2 ^ (8 * i)) mod 256.

Lemma byte_of_range i x : 0 <= byte_of i x < 256.
Proof. unfold byte_of. apply Z.mod_pos_bound. lia. Qed.

Lemma shiftr_land_byte i x : 0 <= i -> Z.land (Z.shiftr x (8 * i)) 255 = byte_of i x.
Proof. intros. by rewrite land_255, Z.shiftr_div_pow2 by lia. Qed.

Lemma PAL_NTOHS_eq x : PAL_NTOHS x = byte_of 0 x * 256 + byte_of 1 x.
Proof.
  unfold PAL_NTOHS. rewrite Z.lor_comm. rewrite (shiftr_land_byte 1) by lia.
  rewrite lor_shiftl_add by (lia || apply byte_of_range).
  rewrite land_255. unfold byte_of. change (2 ^ (8 * 0)) with 1.
  change (2 ^ (8 * 1)) with 256. change (2 ^ 8) with 256. word_lia.
Qed.

Lemma PAL_LONGSWAP_eq x :
  PAL_LONGSWAP x =
    byte_of 0 x * 16777216 + byte_of 1 x * 65536 + byte_of 2 x * 256 + byte_of 3 x.
Proof.
  unfold PAL_LONGSWAP.
  rewrite (shiftr_land_byte 1), (shiftr_land_byte 2), (shiftr_land_byte 3) by lia.
  rewrite land_255. replace (x mod 256) with (byte_of 0 x)
    by (unfold byte_of; change (2 ^ (8 * 0)) with 1; by rewrite Z.div_1_r).
  pose proof (byte_of_range 0 x). pose proof (byte_of_range 1 x).
  pose proof (byte_of_range 2 x). pose proof (byte_of_range 3 x).
  rewrite <- !Z.lor_assoc. rewrite (lor_shiftl_add (byte_of 2 x)) by (simpl; lia).
  rewrite (lor_shiftl_add (byte_of 1 x)) by (simpl; lia).
  rewrite (lor_shiftl_add (byte_of 0 x)) by (simpl; lia).
  simpl. lia.
Qed.

Ltac unfold_bytes :=
  unfold byte_of in *; change (2 ^ (8 * 0)) with 1 in *;
  change (2 ^ (8 * 1)) with 256 in *; change (2 ^ (8 * 2)) with 65536 in *;
  change (2 ^ (8 * 3)) with 16777216 in *.

Lemma PAL_NTOHS_range x : 0 <= PAL_NTOHS x < 65536.
Proof.
  rewrite PAL_NTOHS_eq.
  pose proof (byte_of_range 0 x). pose proof (byte_of_range 1 x). lia.
Qed.

Lemma PAL_LONGSWAP_range x : 0 <= PAL_LONGSWAP x < 4294967296.
Proof.
  rewrite PAL_LONGSWAP_eq.
  pose proof (byte_of_range 0 x). pose proof (byte_of_range 1 x).
  pose proof (byte_of_range 2 x). pose proof (byte_of_range 3 x). lia.
Qed.

Lemma PAL_NTOHL_range x : 0 <= PAL_NTOHL x < 4294967296.
Proof. apply PAL_LONGSWAP_range. Qed.

Lemma PAL_NTOHS_involutive x : 0 <= x < 65536 -> PAL_NTOHS (PAL_NTOHS x) = x.
Proof. intros. rewrite !PAL_NTOHS_eq. unfold_bytes. Z.div_mod_to_equations. lia. Qed.

Lemma byte_of_sum b0 b1 b2 b3 :
  0 <= b0 < 256 -> 0 <= b1 < 256 -> 0 <= b2 < 256 -> 0 <= b3 < 256 ->
  let x := b0 * 16777216 + b1 * 65536 + b2 * 256 + b3 in
  byte_of 0 x = b3 /\ byte_of 1 x = b2 /\ byte_of 2 x = b1 /\ byte_of 3 x = b0.
Proof. intros. unfold x. unfold_bytes. Z.div_mod_to_equations. lia. Qed.

Lemma PAL_LONGSWAP_involutive x :
  0 <= x < 4294967296 -> PAL_LONGSWAP (PAL_LONGSWAP x) = x.
Proof.
  intros Hx. rewrite !PAL_LONGSWAP_eq.
  destruct (byte_of_sum (byte_of 0 x) (byte_of 1 x) (byte_of 2 x) (byte_of 3 x))
    as (-> & -> & -> & ->); try apply byte_of_range.
  unfold_bytes. Z.div_mod_to_equations. lia.
Qed.

Lemma PAL_NTOHL_involutive x : 0 <= x < 4294967296 -> PAL_NTOHL (PAL_NTOHL x) = x.
Proof.
  intros Hx. unfold PAL_NTOHL. rewrite (u32_id x) by done.
  rewrite u32_id by apply PAL_LONGSWAP_range. by apply PAL_LONGSWAP_involutive.
Qed.

Lemma pal_ntohl64_range x : 0 <= pal_ntohl64 x < 18446744073709551616.
Proof.
  unfold pal_ntohl64; cbv zeta. pose proof (PAL_LONGSWAP_range (Z.land (u64 x) 4294967295)).
  pose proof (PAL_LONGSWAP_range (Z.shiftr (u64 x) 32)).
  rewrite lor_shiftl_add by (change (2 ^ 32) with 4294967296; lia).
  change (2 ^ 32) with 4294967296. lia.
Qed.

(** Storing a swapped value is storing the bytes in network order. *)
Definition be_split (n : nat) (v : Z) : bytes := rev (le_split n v).

Lemma le_split_NTOHS v : le_split 2 (PAL_NTOHS v) = be_split 2 v.
Proof.
  rewrite PAL_NTOHS_eq. unfold be_split. cbn [le_split rev app]. unfold_bytes.
  f_equal; [|f_equal]; Z.div_mod_to_equations; lia.
Qed.

Lemma le_split_LONGSWAP v : le_split 4 (PAL_LONGSWAP v) = be_split 4 v.
Proof.
  rewrite PAL_LONGSWAP_eq.
  destruct (byte_of_sum (byte_of 0 v) (byte_of 1 v) (byte_of 2 v) (byte_of 3 v))
    as (E0 & E1 & E2 & E3); try apply byte_of_range.
  set (w := byte_of 0 v * 16777216 + _ + _ + _) in *.
  unfold be_split. cbn [le_split rev app]. unfold_bytes.
  rewrite Z.div_1_r in *. rewrite !Z.div_div by lia.
  change (256 * 256 * 256) with 16777216. change (256 * 256) with 65536.
  by rewrite E0, E1, E2, E3.
Qed.

Lemma le_split_NTOHL v : le_split 4 (PAL_NTOHL v) = be_split 4 v.
Proof.
  unfold PAL_NTOHL. rewrite le_split_LONGSWAP. unfold be_split. f_equal.
  exact (le_split_mod 4 v).
Qed.

Lemma le_split_app n k v :
  le_split (n + k) v = le_split n v ++ le_split k (v / 256 ^ Z.of_nat n).
Proof.
  revert v. induction n as [|n IH]; intros v.
  - simpl. by rewrite Z.div_1_r.
  - cbn [le_split Nat.add app]. f_equal. rewrite IH. do 2 f_equal.
    rewrite Nat2Z.inj_succ, Z.pow_succ_r by lia. by rewrite Z.div_div by lia.
Qed.

Lemma le_split_ntohl64 v : le_split 8 (pal_ntohl64 v) = be_split 8 v.
Proof.
  unfold pal_ntohl64; cbv zeta. set (x := u64 v).
  rewrite land_u32. rewrite Z.shiftr_div_pow2 by lia.
  pose proof (PAL_LONGSWAP_range (x / 2 ^ 32)) as Hh.
  pose proof (PAL_LONGSWAP_range (x mod 4294967296)) as Hl.
  set (h := PAL_LONGSWAP (x / 2 ^ 32)) in *.
  set (l := PAL_LONGSWAP (x mod 4294967296)) in *.
  rewrite lor_shiftl_add by (change (2 ^ 32) with 4294967296; lia).
  assert (Hxl : be_split 8 v = be_split 4 (x / 2 ^ 32) ++ be_split 4 (x mod 4294967296)).
  { unfold be_split. rewrite <- rev_app_distr. f_equal.
    rewrite <- (le_split_mod 8 v). change (v mod 256 ^ Z.of_nat 8) with x.
    change (le_split 8 x) with (le_split (4 + 4) x).
    rewrite (le_split_app 4 4 x). f_equal. symmetry. exact (le_split_mod 4 x). }
  rewrite Hxl. change (le_split 8 ?y) with (le_split (4 + 4) y).
  rewrite (le_split_app 4 4).
  change (256 ^ Z.of_nat 4) with 4294967296. change (2 ^ 32) with 4294967296 in *. f_equal.
  - rewrite <- le_split_LONGSWAP. fold h. rewrite <- le_split_mod. symmetry.
    rewrite <- le_split_mod. symmetry. change (256 ^ Z.of_nat 4) with 4294967296.
    f_equal. by rewrite Z.add_comm, Z.mod_add.
  - rewrite <- le_split_LONGSWAP. fold l. f_equal. Z.div_mod_to_equations. lia.
Qed.
