(* ===== verification/PktCmn.v ===== *)
(** * Packet headers: bit fields, internet checksum, IPv4 header
    ([src/src/common/bitMan.h], [src/src/common/BigEndianBitManipulation.h],
    [src/src/common/Network/Packet/CPktCmn.cpp],
    [src/src/common/Network/Packet/IPHeader.h] and [.inl])

    A header is the part of a packet (a byte memory) that starts at an
    offset, as in the code, where header objects are casts of packet
    pointers. *)

From S2P Require Import Prelude ByteMem.

(** ** Bit fields counted from the most significant bit ([bitMan.h])

    [w] is the width of the template parameter [T]; all operands are
    unsigned. *)

Definition wrap (w x : Z) : Z := x mod 2 ^ w.

Definition btGetShift (w stopbit : Z) : Z := wrap w (w - stopbit - 1).

Definition btGetMask (w startbit stopbit : Z) : Z :=
  wrap w (Z.shiftl (Z.shiftl 1 (stopbit - startbit + 1) - 1) (btGetShift w stopbit)).

Definition btGetMaskBitBigE (w a startbit stopbit : Z) : Z :=
  if w =? stopbit - startbit + 1 then a
  else
    let mask := btGetMask w startbit stopbit in
    let shift := btGetShift w stopbit in
    wrap w (Z.shiftr (Z.land a mask) shift).

Definition btSetMaskBitBigE (w a startbit stopbit newval : Z) : Z :=
  if w =? stopbit - startbit + 1 then newval
  else
    let mask := btGetMask w startbit stopbit in
    let shift := btGetShift w stopbit in
    wrap w (Z.lor (Z.land a (Z.lnot mask)) (Z.land (Z.shiftl newval shift) mask)).

Definition getMaskBit8 (a startbit stopbit : Z) : Z := btGetMaskBitBigE 8 a startbit stopbit.
Definition getMaskBit16 (a startbit stopbit : Z) : Z := btGetMaskBitBigE 16 a startbit stopbit.
Definition getMaskBit32 (a startbit stopbit : Z) : Z := btGetMaskBitBigE 32 a startbit stopbit.
Definition setMaskBit8 (a startbit stopbit newVal : Z) : Z :=
  btSetMaskBitBigE 8 a startbit stopbit newVal.
Definition setMaskBit16 (a startbit stopbit newVal : Z) : Z :=
  btSetMaskBitBigE 16 a startbit stopbit newVal.
Definition setMaskBit32 (a startbit stopbit newVal : Z) : Z :=
  btSetMaskBitBigE 32 a startbit stopbit newVal.

(** The little-endian counting variants. *)
Definition btGetMaskBit (w a startbit stopbit : Z) : Z :=
  btGetMaskBitBigE w a (w - 1 - startbit) (w - 1 - stopbit).
Definition btSetMaskBit (w a startbit stopbit newval : Z) : Z :=
  btSetMaskBitBigE w a (w - 1 - startbit) (w - 1 - stopbit) newval.

(** ** The internet checksum ([CPktCmn.cpp]) *)

Definition PKT_NTOHS (x : Z) : Z := PAL_NTOHS x.
Definition PKT_NTOHL (x : Z) : Z := PAL_NTOHL x.
Definition PKT_HTONS (x : Z) : Z := PAL_NTOHS x.
Definition PKT_HTONL (x : Z) : Z := PAL_NTOHL x.

(** [while(len>1)]: the pointer, the remaining length and the sum; a fuel of
    [len/2 + 1] is enough. *)
Fixpoint cs_loop (fuel : nat) (m : bytes) (off len sum : Z) : res (Z * Z * Z) :=
  match fuel with
  | O => Err OutOfFuel
  | S f =>
      if len >? 1 then
        w ← ld16 m off;
        cs_loop f m (off + 2) (u16 (len - 2)) (sum + PKT_NTOHS w)
      else Ok (off, len, sum)
  end.

(** [while(sum >> 16)]: two rounds are enough for a 31-bit sum. *)
Fixpoint cs_fold (fuel : nat) (sum : Z) : res Z :=
  match fuel with
  | O => Err OutOfFuel
  | S f =>
      if negb (Z.shiftr sum 16 =? 0)
      then cs_fold f (Z.land sum 65535 + Z.shiftr sum 16)
      else Ok sum
  end.

Definition cs_fuel (len : Z) : nat := S (Z.to_nat (len / 2)).
Definition fold_fuel : nat := 3.

Definition pkt_InetChecksum (m : bytes) (data len : Z) : res Z :=
  '(data, len, sum) ← cs_loop (cs_fuel len) m data len 0;
  sum ← (if negb (len =? 0) then
           w ← ld16 m data; Ok (sum + Z.land (PKT_NTOHS w) 65280)
         else Ok sum);
  sum ← cs_fold fold_fuel sum;
  Ok (PKT_NTOHS (u16 (Z.lnot sum))).

Definition pkt_InetChecksum2 (m : bytes) (data len : Z) (m2 : bytes) (data2 len2 : Z)
    : res Z :=
  '(_, _, sum) ← cs_loop (cs_fuel len) m data len 0;
  '(data2, len2, sum) ← cs_loop (cs_fuel len2) m2 data2 len2 sum;
  sum ← (if negb (len2 =? 0) then
           w ← ld16 m2 data2; Ok (sum + Z.land (PKT_NTOHS w) 65280)
         else Ok sum);
  sum ← cs_fold fold_fuel sum;
  Ok (PKT_NTOHS (u16 (Z.lnot sum))).

Definition pkt_UpdateInetChecksum (csFieldFromPacket oldVal newVal : Z) : res Z :=
  let newCS := u16 (Z.lnot (PKT_NTOHS csFieldFromPacket)) in
  let newCS := u32 (newCS + u16 (Z.lnot (PKT_NTOHS oldVal))) in
  let newCS := u32 (newCS + u16 (PKT_NTOHS newVal)) in
  newCS ← cs_fold fold_fuel newCS;
  Ok (PKT_NTOHS (u16 (Z.lnot newCS))).

Definition pkt_SubtractInetChecksum (checksum csToSubtract : Z) : res Z :=
  let newCS := u16 (Z.lnot (PKT_NTOHS checksum)) in
  let newCS := u32 (newCS + u16 (PKT_NTOHS csToSubtract)) in
  newCS ← cs_fold fold_fuel newCS;
  Ok (PKT_NTOHS (u16 (Z.lnot newCS))).

Definition pkt_AddInetChecksum (checksum csToAdd : Z) : res Z :=
  let newCS := u16 (Z.lnot (PKT_NTOHS checksum)) in
  let newCS := u32 (newCS + u16 (PKT_NTOHS (Z.lnot csToAdd))) in
  newCS ← cs_fold fold_fuel newCS;
  Ok (PKT_NTOHS (u16 (Z.lnot newCS))).

(** ** The IPv4 header ([IPHeader.h], [IPHeader.inl]) *)

Definition IPV4_HDR_LEN : Z := 20.
Definition IP_DefaultSize : Z := 20.

(** Field offsets of the class layout. *)
Definition o_Ver_HeaderLength : Z := 0.
Definition o_Tos : Z := 1.
Definition o_Length : Z := 2.
Definition o_Id : Z := 4.
Definition o_Frag : Z := 6.
Definition o_TTL : Z := 8.
Definition o_Protocol : Z := 9.
Definition o_Checksum : Z := 10.
Definition o_Source : Z := 12.
Definition o_Destination : Z := 16.

Section IPHeader.
(** [ip] is the offset of the header in the packet [m]. *)
Implicit Types (m : bytes) (ip : Z).

Definition IP_setVersion m ip (argVersion : Z) : res bytes :=
  v ← ld8 m (ip + o_Ver_HeaderLength);
  st8 m (ip + o_Ver_HeaderLength) (setMaskBit8 v 0 3 argVersion).
Definition IP_getVersion m ip : res Z :=
  v ← ld8 m (ip + o_Ver_HeaderLength); Ok (getMaskBit8 v 0 3).

Definition IP_getHeaderLength m ip : res Z :=
  v ← ld8 m (ip + o_Ver_HeaderLength); Ok (u8 (Z.shiftl (getMaskBit8 v 4 7) 2)).
Definition IP_setHeaderLength m ip (argLength : Z) : res bytes :=
  v ← ld8 m (ip + o_Ver_HeaderLength);
  st8 m (ip + o_Ver_HeaderLength) (setMaskBit8 v 4 7 (Z.shiftr argLength 2)).
Definition IP_getSize m ip : res Z := IP_getHeaderLength m ip.
Definition IP_getOptionLen m ip : res Z :=
  l ← IP_getHeaderLength m ip; Ok (u8 (l - IP_DefaultSize)).

Definition IP_setTOS m ip (argTOS : Z) : res bytes := st8 m (ip + o_Tos) argTOS.
Definition IP_getTOS m ip : res Z := ld8 m (ip + o_Tos).

Definition IP_setTotalLength m ip (argLength : Z) : res bytes :=
  st16 m (ip + o_Length) (PKT_NTOHS argLength).
Definition IP_getTotalLength m ip : res Z :=
  v ← ld16 m (ip + o_Length); Ok (PKT_NTOHS v).

Definition IP_getId m ip : res Z := v ← ld16 m (ip + o_Id); Ok (PKT_NTOHS v).
Definition IP_setId m ip (argID : Z) : res bytes := st16 m (ip + o_Id) (PKT_NTOHS argID).

Definition IP_getFragmentOffset m ip : res Z :=
  v ← ld16 m (ip + o_Frag);
  Ok (u16 (Z.shiftl (Z.land (PKT_NTOHS v) 8191) 3)).
Definition IP_isMoreFragments m ip : res bool :=
  v ← ld16 m (ip + o_Frag); Ok (negb (Z.land (PKT_NTOHS v) 8192 =? 0)).
Definition IP_isDontFragment m ip : res bool :=
  v ← ld16 m (ip + o_Frag); Ok (negb (Z.land (PKT_NTOHS v) 16384 =? 0)).
Definition IP_setFragment m ip (argOffset : Z) (argMoreFrag argDontFrag : bool)
    : res bytes :=
  let w := setMaskBit16 0 3 15 argOffset in
  let w := setMaskBit16 w 1 1 (if argDontFrag then 1 else 0) in
  let w := setMaskBit16 w 2 2 (if argMoreFrag then 1 else 0) in
  st16 m (ip + o_Frag) (PKT_NTOHS w).

Definition IP_isFirstFragment m ip : res bool :=
  o ← IP_getFragmentOffset m ip; mf ← IP_isMoreFragments m ip; Ok ((o =? 0) && mf).
Definition IP_isMiddleFragment m ip : res bool :=
  o ← IP_getFragmentOffset m ip; mf ← IP_isMoreFragments m ip;
  Ok (negb (o =? 0) && mf).
Definition IP_isFragmented m ip : res bool :=
  o ← IP_getFragmentOffset m ip; mf ← IP_isMoreFragments m ip;
  Ok (negb (o =? 0) || mf).
Definition IP_isLastFragment m ip : res bool :=
  o ← IP_getFragmentOffset m ip; mf ← IP_isMoreFragments m ip;
  Ok (negb (o =? 0) && negb mf).
Definition IP_isNotFirstFragment m ip : res bool :=
  f ← IP_isFragmented m ip; ff ← IP_isFirstFragment m ip; Ok (f && negb ff).

Definition IP_getTimeToLive m ip : res Z := ld8 m (ip + o_TTL).
Definition IP_setTimeToLive m ip (argTTL : Z) : res bytes := st8 m (ip + o_TTL) argTTL.
Definition IP_getProtocol m ip : res Z := ld8 m (ip + o_Protocol).
Definition IP_setProtocol m ip (argProtocol : Z) : res bytes :=
  st8 m (ip + o_Protocol) argProtocol.

Definition IP_getSourceIp m ip : res Z :=
  v ← ld32 m (ip + o_Source); Ok (PKT_NTOHL v).
Definition IP_setSourceIp m ip (a : Z) : res bytes := st32 m (ip + o_Source) (PKT_NTOHL a).
Definition IP_getDestIp m ip : res Z :=
  v ← ld32 m (ip + o_Destination); Ok (PKT_NTOHL v).
Definition IP_setDestIp m ip (a : Z) : res bytes :=
  st32 m (ip + o_Destination) (PKT_NTOHL a).

Definition IP_isMulticast m ip : res bool :=
  d ← IP_getDestIp m ip; Ok (Z.land d 240 =? 224).
Definition IP_isBroadcast m ip : res bool :=
  d ← IP_getDestIp m ip; Ok (d =? 4294967295).

Definition IP_getChecksum m ip : res Z :=
  v ← ld16 m (ip + o_Checksum); Ok (PKT_NTOHS v).
Definition IP_isChecksumOK m ip : res bool :=
  n ← IP_getSize m ip; c ← pkt_InetChecksum m ip (u16 n); Ok (c =? 0).

(** Incremental updates. *)
Definition IP_updateTos m ip (newTos : Z) : res bytes :=
  oldWord ← ld16 m ip;
  m ← st8 m (ip + o_Tos) newTos;
  newWord ← ld16 m ip;
  cs ← ld16 m (ip + o_Checksum);
  cs ← pkt_UpdateInetChecksum cs oldWord newWord;
  st16 m (ip + o_Checksum) cs.

Definition IP_update_addr m ip (field ipnew : Z) : res bytes :=
  old ← ld32 m (ip + field);
  let new_src := PKT_NTOHL ipnew in
  cs ← ld16 m (ip + o_Checksum);
  cs ← pkt_UpdateInetChecksum cs (Z.shiftr (Z.land old 4294901760) 16)
         (Z.shiftr (Z.land new_src 4294901760) 16);
  m ← st16 m (ip + o_Checksum) cs;
  cs ← ld16 m (ip + o_Checksum);
  cs ← pkt_UpdateInetChecksum cs (Z.land old 65535) (Z.land new_src 65535);
  m ← st16 m (ip + o_Checksum) cs;
  st32 m (ip + field) new_src.

Definition IP_updateIpDst m ip (ipsrc : Z) : res bytes :=
  IP_update_addr m ip o_Destination ipsrc.
Definition IP_updateIpSrc m ip (ipsrc : Z) : res bytes :=
  IP_update_addr m ip o_Source ipsrc.

Definition IP_updateTotalLength m ip (newlen : Z) : res bytes :=
  oldLen ← ld16 m (ip + o_Length);
  m ← st16 m (ip + o_Length) (PKT_NTOHS newlen);
  newLen ← ld16 m (ip + o_Length);
  cs ← ld16 m (ip + o_Checksum);
  cs ← pkt_UpdateInetChecksum cs oldLen newLen;
  st16 m (ip + o_Checksum) cs.

Definition IP_updateCheckSum m ip : res bytes :=
  m ← st16 m (ip + o_Checksum) 0;
  n ← IP_getSize m ip;
  cs ← pkt_InetChecksum m ip (u16 n);
  st16 m (ip + o_Checksum) cs.

Definition IP_swapSrcDest m ip : res bytes :=
  tmp ← ld32 m (ip + o_Destination);
  src ← ld32 m (ip + o_Source);
  m ← st32 m (ip + o_Destination) src;
  st32 m (ip + o_Source) tmp.

End IPHeader.
