(* ===== verification/PktCmnFacts.v ===== *)
(** * Facts about bit fields, checksums and the IPv4 header *)

From S2P Require Import Prelude ByteMem PktCmn.

(** ** The one's complement sum *)

(** The fixed point of folding the carries of [s] into 16 bits. *)
Definition fold16 (s : Z) : Z := if s =? 0 then 0 else (s - 1) mod 65535 + 1.

Lemma fold16_range s : 0 <= fold16 s <= 65535.
Proof. unfold fold16. destruct (s =? 0); [lia|]. Z.div_mod_to_equations. lia. Qed.

Lemma fold16_small s : 0 <= s < 65536 -> fold16 s = s.
Proof.
  intros. unfold fold16. destruct (Z.eqb_spec s 0); [lia|]. rewrite Z.mod_small; lia.
Qed.

Lemma fold16_mod s : 0 <= s -> fold16 s mod 65535 = s mod 65535.
Proof.
  intros. unfold fold16. destruct (Z.eqb_spec s 0) as [->|]; [done|].
  Z.div_mod_to_equations. lia.
Qed.

Lemma fold16_carry s : 0 <= s -> fold16 (s mod 65536 + s / 65536) = fold16 s.
Proof.
  intros. unfold fold16.
  destruct (Z.eqb_spec s 0) as [->|]; [done|].
  destruct (Z.eqb_spec (s mod 65536 + s / 65536) 0).
  - Z.div_mod_to_equations. lia.
  - Z.div_mod_to_equations. lia.
Qed.

(** The value all valid sums fold to. *)
Lemma fold16_valid s : 0 < s -> (fold16 s = 65535 <-> s mod 65535 = 0).
Proof.
  intros. unfold fold16. destruct (Z.eqb_spec s 0); [lia|].
  Z.div_mod_to_equations. lia.
Qed.

Lemma cs_fold_step f s :
  0 <= s -> cs_fold (S f) s =
    if decide (s < 65536) then Ok s else cs_fold f (s mod 65536 + s / 65536).
Proof.
  intros. cbn [cs_fold]. rewrite land_65535, Z.shiftr_div_pow2 by lia.
  change (2 ^ 16) with 65536.
  destruct (Z.eqb_spec (s / 65536) 0); cbn [negb]; case_decide; try done;
    Z.div_mod_to_equations; lia.
Qed.

Lemma cs_fold_eq s : 0 <= s < 2147483648 -> cs_fold fold_fuel s = Ok (fold16 s).
Proof.
  intros Hs. unfold fold_fuel. rewrite cs_fold_step by lia.
  case_decide; [by rewrite fold16_small by lia|].
  rewrite <- (fold16_carry s) by lia. set (s1 := s mod 65536 + s / 65536).
  assert (0 <= s1 < 98304) by (unfold s1; Z.div_mod_to_equations; lia).
  rewrite cs_fold_step by lia. case_decide; [by rewrite fold16_small by lia|].
  rewrite <- (fold16_carry s1) by lia. set (s2 := s1 mod 65536 + s1 / 65536).
  assert (0 <= s2 < 65536) by (unfold s2; Z.div_mod_to_equations; lia).
  rewrite cs_fold_step by lia. rewrite decide_True by lia.
  by rewrite fold16_small.
Qed.

Lemma u16_lnot x : 0 <= x < 65536 -> u16 (Z.lnot x) = 65535 - x.
Proof. intros. unfold Z.lnot. word_lia. Qed.

(** ** Sums of big-endian words of a packet *)

Definition byte_at (m : bytes) (i : Z) : Z := default 0 (m !! Z.to_nat i).
Definition word_at (m : bytes) (i : Z) : Z := byte_at m i * 256 + byte_at m (i + 1).

Fixpoint wsum (m : bytes) (off : Z) (n : nat) : Z :=
  match n with O => 0 | S n => word_at m off + wsum m (off + 2) n end.

Lemma byte_at_range m i : bytes_ok m -> 0 <= byte_at m i < 256.
Proof.
  intros Hm. unfold byte_at. destruct (m !! Z.to_nat i) as [b|] eqn:E; simpl; [|lia].
  by apply (Forall_lookup_1 _ _ _ _ Hm E).
Qed.

Lemma word_at_range m i : bytes_ok m -> 0 <= word_at m i < 65536.
Proof.
  intros Hm. unfold word_at. pose proof (byte_at_range m i Hm).
  pose proof (byte_at_range m (i + 1) Hm). lia.
Qed.

Lemma wsum_range m n : forall off, bytes_ok m -> 0 <= wsum m off n <= 65535 * Z.of_nat n.
Proof.
  induction n as [|n IH]; intros off Hm; cbn [wsum]; [lia|].
  specialize (IH (off + 2) Hm). pose proof (word_at_range m off Hm). lia.
Qed.

Lemma lookup_in_range (m : bytes) i :
  0 <= i < zlength m -> m !! Z.to_nat i = Some (byte_at m i).
Proof.
  unfold zlength, byte_at. intros Hi.
  destruct (lookup_lt_is_Some_2 m (Z.to_nat i)) as [b ->]; [lia|done].
Qed.

Lemma take_drop_2 m off :
  in_range 2 m off -> take 2 (drop (Z.to_nat off) m) = [byte_at m off; byte_at m (off + 1)].
Proof.
  intros Hr. unfold in_range in Hr. pose proof (lookup_in_range m off ltac:(lia)) as H0.
  pose proof (lookup_in_range m (off + 1) ltac:(lia)) as H1.
  apply list_eq. intros k. destruct k as [|[|k]].
  - rewrite lookup_take_lt, lookup_drop, Nat.add_0_r by lia. done.
  - rewrite lookup_take_lt, lookup_drop by lia. simpl.
    by replace (Z.to_nat off + 1)%nat with (Z.to_nat (off + 1)) by lia.
  - rewrite lookup_take_ge by lia. done.
Qed.

(** Loading a word and swapping it gives the big-endian value. *)
Lemma ld16_word m off :
  bytes_ok m -> in_range 2 m off ->
  exists w, ld16 m off = Ok w /\ 0 <= w < 65536 /\ PKT_NTOHS w = word_at m off.
Proof.
  intros Hm Hr. rewrite ld_Ok, take_drop_2 by done. eexists. split; [done|].
  pose proof (byte_at_range m off Hm). pose proof (byte_at_range m (off + 1) Hm).
  cbn [le_combine]. split; [lia|]. unfold PKT_NTOHS. rewrite PAL_NTOHS_eq.
  unfold word_at. unfold_bytes. Z.div_mod_to_equations. lia.
Qed.

Lemma cs_loop_eq n : forall m off sum,
  bytes_ok m -> 0 <= off -> off + 2 * Z.of_nat n <= zlength m -> Z.of_nat n < 32768 ->
  cs_loop (S n) m off (2 * Z.of_nat n) sum
  = Ok (off + 2 * Z.of_nat n, 0, sum + wsum m off n).
Proof.
  induction n as [|n IH]; intros m off sum Hm Ho Hl Hn.
  - cbn [wsum]. simpl. do 2 f_equal; [f_equal|]; lia.
  - remember (S n) as n'. cbn [cs_loop].
    destruct (Z.gtb_spec (2 * Z.of_nat n') 1); [|lia].
    destruct (ld16_word m off Hm) as (w & -> & Hw & Hword); [unfold in_range; lia|].
    cbn [mbind res_bind]. rewrite Hword. subst n'.
    replace (u16 (2 * Z.of_nat (S n) - 2)) with (2 * Z.of_nat n) by (rewrite u16_id; lia).
    rewrite IH by (done || lia). cbn [wsum]. do 2 f_equal; [f_equal|]; lia.
Qed.

(** The checksum of an even number of bytes. *)
Lemma pkt_InetChecksum_even m off n :
  bytes_ok m -> 0 <= off -> off + 2 * Z.of_nat n <= zlength m -> Z.of_nat n < 32768 ->
  pkt_InetChecksum m off (2 * Z.of_nat n)
  = Ok (PAL_NTOHS (65535 - fold16 (wsum m off n))).
Proof.
  intros Hm Ho Hl Hn. unfold pkt_InetChecksum, cs_fuel.
  replace (Z.to_nat (2 * Z.of_nat n / 2)) with n
    by (rewrite Z.mul_comm, Z.div_mul by lia; lia).
  rewrite cs_loop_eq by done. cbn [mbind res_bind]. simpl (negb (0 =? 0)). cbn iota.
  cbn [mbind res_bind]. pose proof (wsum_range m n off Hm).
  rewrite Z.add_0_l, cs_fold_eq by lia. cbn [mbind res_bind].
  pose proof (fold16_range (wsum m off n)).
  rewrite u16_lnot by lia. done.
Qed.

(** ** Replacing one word *)

Lemma wsum_ext m m' n : forall off,
  (forall i, off <= i < off + 2 * Z.of_nat n -> byte_at m i = byte_at m' i) ->
  wsum m off n = wsum m' off n.
Proof.
  induction n as [|n IH]; intros off He; cbn [wsum]; [done|].
  unfold word_at. rewrite (He off), (He (off + 1)) by lia. f_equal.
  apply IH. intros. apply He. lia.
Qed.

Lemma wsum_app m a b : forall off,
  wsum m off (a + b) = wsum m off a + wsum m (off + 2 * Z.of_nat a) b.
Proof.
  induction a as [|a IH]; intros off; cbn [wsum Nat.add].
  - rewrite Z.add_0_r. lia.
  - rewrite IH. replace (off + 2 + 2 * Z.of_nat a) with (off + 2 * Z.of_nat (S a)) by lia. lia.
Qed.

(** [m'] differs from [m] at most in the [len] bytes from [f]. *)
Definition same_except (m m' : bytes) (f len : Z) : Prop :=
  zlength m' = zlength m /\ forall i, 0 <= i -> i < f \/ f + len <= i -> byte_at m' i = byte_at m i.

Lemma wsum_replace m m' off n k :
  0 <= off -> (k < n)%nat -> same_except m m' (off + 2 * Z.of_nat k) 2 ->
  wsum m' off n = wsum m off n - word_at m (off + 2 * Z.of_nat k)
                  + word_at m' (off + 2 * Z.of_nat k).
Proof.
  intros Ho Hk [_ He]. replace n with (k + S (n - k - 1))%nat by lia.
  rewrite !wsum_app. cbn [wsum].
  rewrite (wsum_ext m' m k off) by (intros; apply He; lia).
  rewrite (wsum_ext m' m (n - k - 1) (off + 2 * Z.of_nat k + 2))
    by (intros; apply He; lia). lia.
Qed.

Lemma st_same_except n m f v m' :
  st n m f v = Ok m' -> same_except m m' f (Z.of_nat n).
Proof.
  intros E. split; [by eapply st_zlength|]. intros i Hi Ho. unfold byte_at.
  pose proof (proj1 (st_inv _ _ _ _ _ E)) as Hr. unfold in_range in Hr.
  rewrite (st_lookup _ _ _ _ _ _ E), decide_False; [done|]. lia.
Qed.

Lemma st16_word m f v m' :
  st16 m f v = Ok m' -> word_at m' f = PAL_NTOHS (u16 v).
Proof.
  intros E. pose proof (proj1 (st_inv _ _ _ _ _ E)) as Hr. unfold in_range in Hr.
  unfold word_at, byte_at. rewrite !(st_lookup _ _ _ _ _ _ E).
  rewrite !decide_True by lia.
  replace (Z.to_nat f - Z.to_nat f)%nat with O by lia.
  replace (Z.to_nat (f + 1) - Z.to_nat f)%nat with 1%nat by lia.
  cbn [le_split lookup list_lookup default]. rewrite PAL_NTOHS_eq. unfold_bytes.
  unfold u16. simpl. Z.div_mod_to_equations. lia.
Qed.

Lemma st_total n m f v : in_range n m f -> exists m', st n m f v = Ok m'.
Proof. intros. rewrite st_Ok by done. eauto. Qed.

(** ** The IPv4 header *)

Definition ihl (m : bytes) (ip : Z) : Z := byte_at m ip mod 16.

(** A complete header: at least the 20 fixed bytes, all of it in the packet. *)
Record ip_header (m : bytes) (ip : Z) : Prop := {
  ih_bytes : bytes_ok m;
  ih_pos : 0 <= ip;
  ih_len : 5 <= ihl m ip;
  ih_in : ip + 4 * ihl m ip <= zlength m
}.

Lemma ihl_range m ip : 0 <= ihl m ip < 16.
Proof. unfold ihl. apply Z.mod_pos_bound. lia. Qed.

Lemma ld8_byte m off : in_range 1 m off -> ld8 m off = Ok (byte_at m off).
Proof.
  intros Hr. rewrite ld_Ok by done. f_equal. unfold in_range in Hr.
  assert (E : take 1 (drop (Z.to_nat off) m) = [byte_at m off]).
  { apply list_eq. intros [|k].
    - rewrite lookup_take_lt, lookup_drop, Nat.add_0_r by lia.
      by rewrite (lookup_in_range m off) by lia.
    - rewrite lookup_take_ge by lia. done. }
  rewrite E. cbn [le_combine]. lia.
Qed.

Lemma getMaskBit8_low v : 0 <= v < 256 -> getMaskBit8 v 4 7 = v mod 16.
Proof.
  intros Hv. unfold getMaskBit8, btGetMaskBitBigE.
  change (8 =? 7 - 4 + 1) with false. cbv zeta iota.
  change (btGetMask 8 4 7) with (Z.ones 4). change (btGetShift 8 7) with 0.
  rewrite Z.land_ones, Z.shiftr_0_r by lia. unfold wrap. change (2 ^ 4) with 16.
  change (2 ^ 8) with 256. Z.div_mod_to_equations. lia.
Qed.

Lemma IP_getHeaderLength_eq m ip :
  bytes_ok m -> 0 <= ip < zlength m -> IP_getHeaderLength m ip = Ok (4 * ihl m ip).
Proof.
  intros Hm Hi. unfold IP_getHeaderLength, o_Ver_HeaderLength. rewrite Z.add_0_r.
  rewrite ld8_byte by (unfold in_range; lia). cbn [mbind res_bind].
  pose proof (byte_at_range m ip Hm). pose proof (ihl_range m ip).
  rewrite getMaskBit8_low by done. fold (ihl m ip).
  rewrite Z.shiftl_mul_pow2 by lia. change (2 ^ 2) with 4.
  rewrite u8_id by lia. f_equal. lia.
Qed.

Lemma PAL_NTOHS_0 x : 0 <= x < 65536 -> (PAL_NTOHS x =? 0) = (x =? 0).
Proof.
  intros Hx. destruct (Z.eqb_spec x 0) as [->|Hn]; [done|].
  apply Z.eqb_neq. intros E. apply Hn.
  rewrite <- (PAL_NTOHS_involutive x) by done. rewrite E. done.
Qed.

Definition hdr_sum (m : bytes) (ip : Z) : Z := wsum m ip (Z.to_nat (2 * ihl m ip)).

Lemma hdr_checksum m ip :
  ip_header m ip ->
  pkt_InetChecksum m ip (u16 (4 * ihl m ip)) = Ok (PAL_NTOHS (65535 - fold16 (hdr_sum m ip))).
Proof.
  intros [Hm Hp Hl Hi]. pose proof (ihl_range m ip). rewrite u16_id by lia.
  replace (4 * ihl m ip) with (2 * Z.of_nat (Z.to_nat (2 * ihl m ip))) by lia.
  rewrite pkt_InetChecksum_even by (done || lia). done.
Qed.

Lemma IP_isChecksumOK_eq m ip :
  ip_header m ip -> IP_isChecksumOK m ip = Ok (fold16 (hdr_sum m ip) =? 65535).
Proof.
  intros Hh. pose proof Hh as [Hm Hp Hl Hi]. pose proof (ihl_range m ip).
  unfold IP_isChecksumOK, IP_getSize.
  rewrite IP_getHeaderLength_eq by (done || lia). cbn [mbind res_bind].
  rewrite hdr_checksum by done. cbn [mbind res_bind]. f_equal.
  pose proof (fold16_range (hdr_sum m ip)). rewrite PAL_NTOHS_0 by lia.
  destruct (Z.eqb_spec (fold16 (hdr_sum m ip)) 65535);
    [apply Z.eqb_eq|apply Z.eqb_neq]; lia.
Qed.

(** The sum of a header is positive: its first byte is not zero. *)
Lemma hdr_sum_pos m ip : ip_header m ip -> 0 < hdr_sum m ip.
Proof.
  intros [Hm Hp Hl Hi]. unfold hdr_sum.
  destruct (Z.to_nat (2 * ihl m ip)) as [|n] eqn:En; [lia|]. cbn [wsum].
  pose proof (wsum_range m n (ip + 2) Hm). pose proof (byte_at_range m (ip + 1) Hm).
  pose proof (byte_at_range m ip Hm).
  assert (5 <= byte_at m ip) by (unfold ihl in Hl; Z.div_mod_to_equations; lia).
  unfold word_at. lia.
Qed.

(** A store behind the first byte keeps the header a header. *)
Lemma st_ip_header n m ip f v m' :
  ip_header m ip -> st n m (ip + f) v = Ok m' -> 1 <= f ->
  ip_header m' ip /\ ihl m' ip = ihl m ip.
Proof.
  intros [Hm Hp Hl Hi] E Hf. pose proof (st_same_except _ _ _ _ _ E) as [Hz He].
  assert (Hih : ihl m' ip = ihl m ip) by (unfold ihl; rewrite He by lia; done).
  split; [|done]. split; [by eapply st_ok|done|lia|lia].
Qed.

Lemma hdr_in_range n m ip f :
  ip_header m ip -> 0 <= f -> f + Z.of_nat n <= 20 -> in_range n m (ip + f).
Proof. intros [Hm Hp Hl Hi] Hf Hn. unfold in_range. lia. Qed.

(** Storing the 16-bit word [2k] bytes into the header. *)
Lemma hdr_sum_st16 m ip f v m' :
  ip_header m ip -> st16 m (ip + f) v = Ok m' -> 2 <= f <= 18 -> f mod 2 = 0 ->
  hdr_sum m' ip = hdr_sum m ip - word_at m (ip + f) + PAL_NTOHS (u16 v).
Proof.
  intros Hh E Hf He. pose proof Hh as [Hm Hp Hl Hi].
  destruct (st_ip_header 2 m ip f v m' Hh E) as [Hh' Hih]; [lia|].
  unfold hdr_sum. rewrite Hih.
  assert (Hfk : f = 2 * Z.of_nat (Z.to_nat (f / 2))) by (Z.div_mod_to_equations; lia).
  rewrite (wsum_replace m m' ip _ (Z.to_nat (f / 2))).
  - rewrite <- Hfk. by rewrite (st16_word _ _ _ _ E).
  - lia.
  - Z.div_mod_to_equations. lia.
  - rewrite <- Hfk. exact (st_same_except _ _ _ _ _ E).
Qed.

(** The recomputed checksum: the frame, and the sum of the new header. *)
Lemma IP_updateCheckSum_spec m ip :
  ip_header m ip ->
  exists m' h, IP_updateCheckSum m ip = Ok m'
  /\ same_except m m' (ip + o_Checksum) 2 /\ ip_header m' ip
  /\ 0 <= h /\ hdr_sum m' ip = h + (65535 - fold16 h).
Proof.
  intros Hh. pose proof Hh as [Hm Hp Hl Hi]. unfold IP_updateCheckSum.
  destruct (st_total 2 m (ip + o_Checksum) 0) as (m1 & E1);
    [apply hdr_in_range; done|].
  rewrite E1. cbn [mbind res_bind].
  destruct (st_ip_header _ _ _ _ _ _ Hh E1 ltac:(done)) as [Hh1 Hih1].
  pose proof Hh1 as [Hm1 _ Hl1 Hi1]. unfold IP_getSize.
  rewrite IP_getHeaderLength_eq by (done || lia). cbn [mbind res_bind].
  rewrite hdr_checksum by done. cbn [mbind res_bind].
  set (c := 65535 - fold16 (hdr_sum m1 ip)).
  destruct (st_total 2 m1 (ip + o_Checksum) (PAL_NTOHS c)) as (m2 & E2);
    [apply hdr_in_range; done|].
  exists m2, (hdr_sum m1 ip). rewrite E2.
  destruct (st_ip_header _ _ _ _ _ _ Hh1 E2 ltac:(done)) as [Hh2 Hih2].
  split; [done|]. pose proof (st_same_except _ _ _ _ _ E1) as [Hz1 He1].
  pose proof (st_same_except _ _ _ _ _ E2) as [Hz2 He2].
  split; [split; [lia|intros i H0 H1; rewrite He2, He1 by done; done]|].
  split; [done|]. split; [pose proof (hdr_sum_pos _ _ Hh1); lia|].
  rewrite (hdr_sum_st16 _ _ _ _ _ Hh1 E2) by done.
  rewrite (st16_word _ _ _ _ E1). change (PAL_NTOHS (u16 0)) with 0.
  pose proof (fold16_range (hdr_sum m1 ip)).
  rewrite u16_id by apply PAL_NTOHS_range. rewrite PAL_NTOHS_involutive by lia. lia.
Qed.

(** A recomputed header checksum verifies.  For every complete IPv4
    header, options included, [updateCheckSum] succeeds, changes only the two
    bytes of the checksum field, and [isChecksumOK] then holds. *)
Theorem IP_updateCheckSum_ok (m : bytes) (ip : Z) :
  ip_header m ip ->
  exists m', IP_updateCheckSum m ip = Ok m' /\ IP_isChecksumOK m' ip = Ok true
  /\ same_except m m' (ip + o_Checksum) 2 /\ bytes_ok m'.
Proof.
  intros Hh. destruct (IP_updateCheckSum_spec m ip Hh) as (m' & h & E & Hs & Hh' & H0 & Hsum).
  exists m'. split; [done|]. split; [|split; [done|apply Hh']].
  rewrite IP_isChecksumOK_eq by done. f_equal. apply Z.eqb_eq.
  pose proof (hdr_sum_pos _ _ Hh') as Hpos. apply fold16_valid; [done|].
  pose proof (fold16_mod h H0) as Hmod. rewrite Hsum. Z.div_mod_to_equations. lia.
Qed.

Definition demo_ip_header : bytes :=
  [69; 0; 0; 84; 0; 1; 64; 0; 64; 1; 18; 52; 10; 0; 0; 1; 10; 0; 0; 2].

Lemma demo_ip_header_ok : ip_header demo_ip_header 0.
Proof.
  split; [|lia|vm_compute; congruence|vm_compute; congruence].
  repeat constructor; vm_compute; congruence.
Qed.

Lemma IP_updateCheckSum_ok_witness :
  exists m', IP_updateCheckSum demo_ip_header 0 = Ok m' /\ IP_isChecksumOK m' 0 = Ok true.
Proof.
  destruct (IP_updateCheckSum_ok demo_ip_header 0 demo_ip_header_ok) as (m' & E & Hok & _).
  exists m'. split; [exact E|exact Hok].
Defined.

(** ** Incremental checksum updates *)

Definition raw16 (x : Z) : Prop := 0 <= x < 65536.

(** The new checksum, in network order, modulo 65535. *)
Lemma pkt_UpdateInetChecksum_mod cs old new :
  raw16 cs -> raw16 old -> raw16 new ->
  exists cs', pkt_UpdateInetChecksum cs old new = Ok cs' /\ raw16 cs'
  /\ PAL_NTOHS cs' mod 65535
     = (PAL_NTOHS cs + PAL_NTOHS old - PAL_NTOHS new) mod 65535.
Proof.
  intros Hc Ho Hn. unfold pkt_UpdateInetChecksum, PKT_NTOHS, raw16 in *.
  pose proof (PAL_NTOHS_range cs). pose proof (PAL_NTOHS_range old).
  pose proof (PAL_NTOHS_range new).
  rewrite (u16_lnot (PAL_NTOHS cs)), (u16_lnot (PAL_NTOHS old)) by done.
  rewrite (u16_id (PAL_NTOHS new)) by done.
  rewrite (u32_id (65535 - PAL_NTOHS cs + (65535 - PAL_NTOHS old))) by lia.
  rewrite u32_id by lia. set (s := 65535 - _ + _ + _).
  assert (Hs : s = 65535 - PAL_NTOHS cs + (65535 - PAL_NTOHS old) + PAL_NTOHS new) by done.
  rewrite cs_fold_eq by lia. cbn [mbind res_bind].
  pose proof (fold16_range s). rewrite u16_lnot by lia.
  eexists. split; [reflexivity|]. split; [apply PAL_NTOHS_range|].
  rewrite PAL_NTOHS_involutive by lia.
  pose proof (fold16_mod s ltac:(lia)). Z.div_mod_to_equations. lia.
Qed.

Lemma ld16_raw m off :
  bytes_ok m -> in_range 2 m off ->
  exists w, ld16 m off = Ok w /\ raw16 w /\ PAL_NTOHS w = word_at m off.
Proof. exact (ld16_word m off). Qed.

Lemma valid_iff m ip :
  ip_header m ip -> (IP_isChecksumOK m ip = Ok true <-> hdr_sum m ip mod 65535 = 0).
Proof.
  intros Hh. rewrite IP_isChecksumOK_eq by done.
  rewrite <- fold16_valid by by apply hdr_sum_pos.
  split; [intros [= E%Z.eqb_eq]; done|intros E; f_equal; by apply Z.eqb_eq].
Qed.

(** The sum before and after [updateTotalLength]. *)
Lemma IP_updateTotalLength_sum m ip newlen :
  ip_header m ip -> raw16 newlen ->
  exists m', IP_updateTotalLength m ip newlen = Ok m' /\ ip_header m' ip
  /\ hdr_sum m' ip mod 65535 = hdr_sum m ip mod 65535
  /\ IP_getTotalLength m' ip = Ok newlen.
Proof.
  intros Hh Hn. pose proof Hh as [Hm Hp Hl Hi]. unfold IP_updateTotalLength.
  destruct (ld16_raw m (ip + o_Length) Hm) as (old & Eo & Ho & Hwo);
    [by apply hdr_in_range|].
  rewrite Eo. cbn [mbind res_bind].
  destruct (st_total 2 m (ip + o_Length) (PKT_NTOHS newlen)) as (m1 & E1);
    [by apply hdr_in_range|].
  rewrite E1. cbn [mbind res_bind].
  destruct (st_ip_header _ _ _ _ _ _ Hh E1 ltac:(done)) as [Hh1 Hih1].
  pose proof (st16_word _ _ _ _ E1) as Hw1.
  pose proof (hdr_sum_st16 _ _ _ _ _ Hh E1 ltac:(done) ltac:(done)) as Hs1.
  destruct (ld16_raw m1 (ip + o_Length)) as (new & En & Hnr & Hwn);
    [apply Hh1|by apply hdr_in_range|].
  rewrite En. cbn [mbind res_bind].
  destruct (ld16_raw m1 (ip + o_Checksum)) as (cs & Ec & Hc & Hwc);
    [apply Hh1|by apply hdr_in_range|].
  rewrite Ec. cbn [mbind res_bind].
  destruct (pkt_UpdateInetChecksum_mod cs old new Hc Ho Hnr) as (cs' & Eu & Hc' & Hmod).
  rewrite Eu. cbn [mbind res_bind].
  destruct (st_total 2 m1 (ip + o_Checksum) cs') as (m2 & E2); [by apply hdr_in_range|].
  destruct (st_ip_header _ _ _ _ _ _ Hh1 E2 ltac:(done)) as [Hh2 Hih2].
  exists m2. split; [done|]. split; [done|]. split.
  - rewrite (hdr_sum_st16 _ _ _ _ _ Hh1 E2) by done. rewrite Hs1.
    rewrite (u16_id cs') by exact Hc'. unfold raw16 in *.
    rewrite <- Hw1, <- Hwn, <- Hwc, <- Hwo.
    Z.div_mod_to_equations. lia.
  - unfold IP_getTotalLength.
    rewrite (ld_st_other 2 2 m1 (ip + o_Checksum) (ip + o_Length) cs' m2 E2)
      by (unfold o_Checksum, o_Length; lia).
    rewrite (ld_st_same _ _ _ _ _ E1). cbn [mbind res_bind]. f_equal.
    unfold PKT_NTOHS. rewrite Z.mod_small by (exact (PAL_NTOHS_range newlen)).
    by apply PAL_NTOHS_involutive.
Qed.

Lemma land_hi x : 0 <= x < 4294967296 -> Z.shiftr (Z.land x 4294901760) 16 = x / 65536.
Proof.
  intros Hx. rewrite Z.shiftr_land. change (Z.shiftr 4294901760 16) with (Z.ones 16).
  rewrite Z.land_ones, Z.shiftr_div_pow2 by lia. change (2 ^ 16) with 65536.
  Z.div_mod_to_equations. lia.
Qed.

(** A 32-bit field is two words. *)
Lemma ld32_words m off :
  bytes_ok m -> in_range 4 m off ->
  exists v, ld32 m off = Ok v /\ 0 <= v < 4294967296
  /\ PAL_NTOHS (v mod 65536) = word_at m off
  /\ PAL_NTOHS (v / 65536) = word_at m (off + 2).
Proof.
  intros Hm Hr. destruct (ld16_raw m off Hm) as (w1 & E1 & H1 & W1);
    [unfold in_range in *; lia|].
  destruct (ld16_raw m (off + 2) Hm) as (w2 & E2 & H2 & W2);
    [unfold in_range in *; lia|].
  exists (w1 + 65536 * w2). unfold raw16 in *. unfold in_range in Hr.
  rewrite ld_Ok in E1, E2 by (unfold in_range; lia).
  rewrite take_drop_2 in E1, E2 by (unfold in_range; lia).
  injection E1 as E1. injection E2 as E2. split; [|split; [lia|]].
  - rewrite ld_Ok by (unfold in_range; lia). f_equal.
    assert (Ht : take 4 (drop (Z.to_nat off) m) =
      [byte_at m off; byte_at m (off + 1)] ++ [byte_at m (off + 2); byte_at m (off + 2 + 1)]).
    { rewrite <- (take_drop_2 m off), <- (take_drop_2 m (off + 2))
        by (unfold in_range; lia).
      change 4%nat with (2 + 2)%nat. rewrite <- take_take_drop, drop_drop.
      do 3 f_equal. lia. }
    rewrite Ht. cbn [app le_combine] in *. lia.
  - replace ((w1 + 65536 * w2) mod 65536) with w1 by (Z.div_mod_to_equations; lia).
    replace ((w1 + 65536 * w2) / 65536) with w2 by (Z.div_mod_to_equations; lia).
    done.
Qed.

Lemma st32_words m f v m' :
  st32 m f v = Ok m' -> 0 <= v < 4294967296 ->
  word_at m' f = PAL_NTOHS (v mod 65536) /\ word_at m' (f + 2) = PAL_NTOHS (v / 65536).
Proof.
  intros E Hv. pose proof (proj1 (st_inv _ _ _ _ _ E)) as Hr. unfold in_range in Hr.
  assert (Hb : forall k, (k < 4)%nat ->
    byte_at m' (f + Z.of_nat k) = default 0 (le_split 4 v !! k)).
  { intros k Hk. unfold byte_at. rewrite (st_lookup _ _ _ _ _ _ E), decide_True by lia.
    do 2 f_equal. lia. }
  unfold word_at. pose proof (Hb 0%nat ltac:(lia)) as B0.
  pose proof (Hb 1%nat ltac:(lia)) as B1. pose proof (Hb 2%nat ltac:(lia)) as B2.
  pose proof (Hb 3%nat ltac:(lia)) as B3. rewrite Z.add_0_r in B0.
  replace (f + 2 + 1) with (f + Z.of_nat 3) by lia.
  change (f + 1) with (f + Z.of_nat 1). change (f + 2) with (f + Z.of_nat 2).
  rewrite B0, B1, B2, B3. cbn [le_split lookup list_lookup default].
  rewrite !PAL_NTOHS_eq. unfold_bytes. simpl. split; Z.div_mod_to_equations; lia.
Qed.

Lemma hdr_sum_st32 m ip f v m' :
  ip_header m ip -> st32 m (ip + f) v = Ok m' -> f = 12 \/ f = 16 ->
  0 <= v < 4294967296 ->
  hdr_sum m' ip = hdr_sum m ip - word_at m (ip + f) - word_at m (ip + f + 2)
                  + PAL_NTOHS (v mod 65536) + PAL_NTOHS (v / 65536).
Proof.
  intros Hh E Hf Hv. pose proof Hh as [Hm Hp Hl Hi].
  destruct (st_ip_header 4 m ip f v m' Hh E) as [Hh' Hih]; [lia|].
  destruct (st32_words _ _ _ _ E Hv) as [W1 W2].
  pose proof (st_same_except _ _ _ _ _ E) as [Hz He].
  unfold hdr_sum. rewrite Hih.
  set (n := Z.to_nat (2 * ihl m ip)). set (k := Z.to_nat (f / 2)).
  assert (Hk : 2 * Z.of_nat k = f) by (destruct Hf as [->| ->]; done).
  assert (Hkn : (k + 2 <= n)%nat) by (destruct Hf as [->| ->]; lia).
  replace n with (k + (2 + (n - k - 2)))%nat by lia.
  rewrite !wsum_app. rewrite Hk. cbn [wsum].
  rewrite (wsum_ext m' m k ip) by (intros; apply He; lia).
  rewrite (wsum_ext m' m (n - k - 2)) by (intros; apply He; lia).
  rewrite W1, W2. lia.
Qed.

Lemma IP_update_addr_sum m ip f a :
  ip_header m ip -> f = o_Source \/ f = o_Destination -> 0 <= a < 4294967296 ->
  exists m', IP_update_addr m ip f a = Ok m' /\ ip_header m' ip
  /\ hdr_sum m' ip mod 65535 = hdr_sum m ip mod 65535
  /\ (v ← ld32 m' (ip + f); Ok (PKT_NTOHL v)) = Ok a.
Proof.
  intros Hh Hf Ha. pose proof Hh as [Hm Hp Hl Hi]. unfold IP_update_addr.
  assert (Hfc : f = 12 \/ f = 16) by exact Hf.
  assert (Hr4 : forall m1, ip_header m1 ip -> in_range 4 m1 (ip + f))
    by (intros; apply hdr_in_range; [done|lia|lia]).
  assert (Hrc : forall m1, ip_header m1 ip -> in_range 2 m1 (ip + o_Checksum))
    by (intros; by apply hdr_in_range).
  destruct (ld32_words m (ip + f) Hm (Hr4 m Hh)) as (old & Eo & Ho & Wo1 & Wo2).
  rewrite Eo. cbn [mbind res_bind].
  pose proof (PAL_NTOHL_range a) as Hna. fold (PKT_NTOHL a) in Hna.
  set (nw := PKT_NTOHL a) in *. rewrite !land_hi, !land_65535 by done.
  destruct (ld16_raw m (ip + o_Checksum) Hm (Hrc m Hh)) as (cs & Ec & Hc & Wc).
  rewrite Ec. cbn [mbind res_bind].
  assert (Hrng : forall x, 0 <= x < 4294967296 -> raw16 (x / 65536) /\ raw16 (x mod 65536))
    by (intros; unfold raw16; split; Z.div_mod_to_equations; lia).
  destruct (Hrng old Ho) as [Ho1 Ho2]. destruct (Hrng nw Hna) as [Hn1 Hn2].
  destruct (pkt_UpdateInetChecksum_mod cs _ _ Hc Ho1 Hn1) as (c1 & -> & Hc1 & M1).
  cbn [mbind res_bind].
  destruct (st_total 2 m (ip + o_Checksum) c1 (Hrc m Hh)) as (m1 & E1).
  rewrite E1. cbn [mbind res_bind].
  destruct (st_ip_header _ _ _ _ _ _ Hh E1 ltac:(done)) as [Hh1 Hih1].
  rewrite (ld_st_same _ _ _ _ _ E1). cbn [mbind res_bind].
  change (256 ^ Z.of_nat 2) with 65536. rewrite (Z.mod_small c1 65536) by done.
  destruct (pkt_UpdateInetChecksum_mod c1 _ _ Hc1 Ho2 Hn2) as (c2 & -> & Hc2 & M2).
  cbn [mbind res_bind].
  destruct (st_total 2 m1 (ip + o_Checksum) c2 (Hrc m1 Hh1)) as (m2 & E2).
  rewrite E2. cbn [mbind res_bind].
  destruct (st_ip_header _ _ _ _ _ _ Hh1 E2 ltac:(done)) as [Hh2 Hih2].
  destruct (st_total 4 m2 (ip + f) nw (Hr4 m2 Hh2)) as (m3 & E3).
  destruct (st_ip_header _ _ _ _ _ _ Hh2 E3 ltac:(lia)) as [Hh3 Hih3].
  exists m3. split; [done|]. split; [done|]. split.
  - rewrite (hdr_sum_st32 _ _ _ _ _ Hh2 E3 Hfc Hna).
    assert (Hw : forall i, ip + 12 <= i -> word_at m2 i = word_at m i).
    { pose proof (st_same_except _ _ _ _ _ E1) as [_ He1].
      pose proof (st_same_except _ _ _ _ _ E2) as [_ He2].
      unfold o_Checksum in He1, He2. intros i Hge. unfold word_at.
      by rewrite !He2, !He1 by lia. }
    rewrite !Hw by lia.
    rewrite (hdr_sum_st16 _ _ _ _ _ Hh1 E2), (hdr_sum_st16 _ _ _ _ _ Hh E1) by done.
    rewrite (st16_word _ _ _ _ E1). rewrite (u16_id c1), (u16_id c2) by done.
    rewrite <- Wc, <- Wo1, <- Wo2. clear -M1 M2. Z.div_mod_to_equations. lia.
  - rewrite (ld_st_same _ _ _ _ _ E3). cbn [mbind res_bind]. f_equal.
    change (256 ^ Z.of_nat 4) with 4294967296. rewrite Z.mod_small by done.
    by apply PAL_NTOHL_involutive.
Qed.

(** Incremental checksum updates are sound.  Changing the total length,
    the source or the destination address of a complete IPv4 header with
    [updateTotalLength], [updateIpSrc] or [updateIpDst] stores the new value and
    keeps the checksum as valid (or as invalid) as it was, without summing the
    header again. *)
Theorem IP_incremental_updates (m : bytes) (ip : Z) :
  ip_header m ip ->
  (forall newlen, 0 <= newlen < 65536 ->
     exists m', IP_updateTotalLength m ip newlen = Ok m'
     /\ IP_getTotalLength m' ip = Ok newlen
     /\ IP_isChecksumOK m' ip = IP_isChecksumOK m ip)
  /\ (forall a, 0 <= a < 4294967296 ->
     exists m', IP_updateIpSrc m ip a = Ok m'
     /\ IP_getSourceIp m' ip = Ok a
     /\ IP_isChecksumOK m' ip = IP_isChecksumOK m ip)
  /\ (forall a, 0 <= a < 4294967296 ->
     exists m', IP_updateIpDst m ip a = Ok m'
     /\ IP_getDestIp m' ip = Ok a
     /\ IP_isChecksumOK m' ip = IP_isChecksumOK m ip).
Proof.
  intros Hh.
  assert (Hsame : forall m', ip_header m' ip ->
    hdr_sum m' ip mod 65535 = hdr_sum m ip mod 65535 ->
    IP_isChecksumOK m' ip = IP_isChecksumOK m ip).
  { intros m' Hh' Hs. pose proof (valid_iff m ip Hh) as V. pose proof (valid_iff m' ip Hh') as V'.
    rewrite Hs, <- V in V'. rewrite !IP_isChecksumOK_eq in * by done.
    destruct (_ =? _), (_ =? _); naive_solver. }
  split; [|split]; intros x Hx.
  - destruct (IP_updateTotalLength_sum m ip x Hh Hx) as (m' & E & Hh' & Hs & Hg). eauto.
  - destruct (IP_update_addr_sum m ip o_Source x Hh) as (m' & E & Hh' & Hs & Hg); auto.
    exists m'. eauto.
  - destruct (IP_update_addr_sum m ip o_Destination x Hh) as (m' & E & Hh' & Hs & Hg); auto.
    exists m'. eauto.
Qed.

Lemma IP_incremental_updates_witness :
  exists m', IP_updateIpSrc demo_ip_header 0 3232235777 = Ok m'
  /\ IP_getSourceIp m' 0 = Ok 3232235777
  /\ IP_isChecksumOK m' 0 = IP_isChecksumOK demo_ip_header 0.
Proof.
  apply (proj1 (proj2 (IP_incremental_updates demo_ip_header 0 demo_ip_header_ok))).
  lia.
Defined.

(** ** Bit fields *)

Section BitFields.
Context (w startbit stopbit : Z) (Hf : 0 <= startbit <= stopbit) (Hs : stopbit < w).

Lemma btGetShift_eq : btGetShift w stopbit = w - stopbit - 1.
Proof.
  unfold btGetShift, wrap. apply Z.mod_small.
  pose proof (Z.pow_gt_lin_r 2 w ltac:(lia) ltac:(lia)). lia.
Qed.

Lemma btGetMask_testbit i :
  0 <= i -> Z.testbit (btGetMask w startbit stopbit) i
  = (w - stopbit - 1 <=? i) && (i <? w - startbit).
Proof.
  intros Hi. unfold btGetMask, wrap. rewrite btGetShift_eq.
  rewrite <- Z.land_ones, Z.land_spec, Z.shiftl_spec by lia.
  replace (Z.shiftl 1 (stopbit - startbit + 1) - 1) with (Z.ones (stopbit - startbit + 1))
    by (rewrite Z.ones_equiv, Z.shiftl_mul_pow2 by lia; lia).
  destruct (Z.leb_spec (w - stopbit - 1) i); simpl.
  - rewrite !Z.testbit_ones by lia.
    destruct (Z.ltb_spec i (w - startbit));
      destruct (Z.ltb_spec (i - (w - stopbit - 1)) (stopbit - startbit + 1));
      destruct (Z.ltb_spec i w); destruct (Z.leb_spec 0 i);
      destruct (Z.leb_spec 0 (i - (w - stopbit - 1))); simpl; done || lia.
  - rewrite (Z.testbit_neg_r _ (i - _)) by lia. done.
Qed.

Lemma btGetMaskBitBigE_testbit a j :
  w <> stopbit - startbit + 1 -> 0 <= j ->
  Z.testbit (btGetMaskBitBigE w a startbit stopbit) j
  = (j <? stopbit - startbit + 1) && Z.testbit a (j + (w - stopbit - 1)).
Proof.
  intros Hw Hj. unfold btGetMaskBitBigE. rewrite (proj2 (Z.eqb_neq _ _)) by done.
  unfold wrap. rewrite <- Z.land_ones, Z.land_spec, btGetShift_eq by lia.
  rewrite Z.shiftr_spec, Z.land_spec, btGetMask_testbit, Z.testbit_ones by lia.
  destruct (Z.testbit a (j + (w - stopbit - 1))); simpl; [|by rewrite andb_false_r].
  destruct (Z.ltb_spec j (stopbit - startbit + 1));
    destruct (Z.leb_spec (w - stopbit - 1) (j + (w - stopbit - 1)));
    destruct (Z.ltb_spec (j + (w - stopbit - 1)) (w - startbit));
    destruct (Z.ltb_spec j w); destruct (Z.leb_spec 0 j); simpl; done || lia.
Qed.

Lemma btSetMaskBitBigE_testbit a v i :
  w <> stopbit - startbit + 1 -> 0 <= i < w ->
  Z.testbit (btSetMaskBitBigE w a startbit stopbit v) i
  = if (w - stopbit - 1 <=? i) && (i <? w - startbit)
    then Z.testbit v (i - (w - stopbit - 1)) else Z.testbit a i.
Proof.
  intros Hw Hi. unfold btSetMaskBitBigE. rewrite (proj2 (Z.eqb_neq _ _)) by done.
  unfold wrap. rewrite <- Z.land_ones, Z.land_spec, btGetShift_eq by lia.
  rewrite Z.lor_spec, !Z.land_spec, Z.lnot_spec, Z.shiftl_spec by lia.
  rewrite btGetMask_testbit, Z.testbit_ones by lia.
  destruct (Z.leb_spec 0 i); [|lia]. destruct (Z.ltb_spec i w); [|lia].
  destruct ((w - stopbit - 1 <=? i) && (i <? w - startbit)); simpl;
    rewrite ?andb_true_r, ?andb_false_r, ?orb_false_r; done.
Qed.

End BitFields.

Lemma bits_get_set_same (w s e a v : Z) :
  0 <= s <= e -> e < w ->
  btGetMaskBitBigE w (btSetMaskBitBigE w a s e v) s e
  = (if w =? e - s + 1 then v else v mod 2 ^ (e - s + 1)).
Proof.
  intros Hf Hs. destruct (Z.eqb_spec w (e - s + 1)) as [Hw|Hw].
  - unfold btGetMaskBitBigE, btSetMaskBitBigE. by rewrite <- Hw, Z.eqb_refl.
  - apply Z.bits_inj'. intros j Hj.
    rewrite btGetMaskBitBigE_testbit by done.
    destruct (Z.ltb_spec j (e - s + 1)); simpl.
    + rewrite btSetMaskBitBigE_testbit by (done || lia).
      rewrite (proj2 (Z.leb_le _ _)), (proj2 (Z.ltb_lt _ _)) by lia. simpl.
      rewrite Z.mod_pow2_bits_low by lia. f_equal. lia.
    + by rewrite Z.mod_pow2_bits_high by lia.
Qed.

Lemma bits_get_set_other (w s e s' e' a v : Z) :
  0 <= s <= e -> e < w -> 0 <= s' <= e' -> e' < w -> e' < s \/ e < s' ->
  btGetMaskBitBigE w (btSetMaskBitBigE w a s e v) s' e' = btGetMaskBitBigE w a s' e'.
Proof.
  intros Hf Hs Hf' Hs' Hd. apply Z.bits_inj'. intros j Hj.
  assert (w <> e' - s' + 1) by lia.
  rewrite !btGetMaskBitBigE_testbit by done.
  destruct (Z.ltb_spec j (e' - s' + 1)); simpl; [|done].
  rewrite btSetMaskBitBigE_testbit by (done || lia).
  destruct (Z.leb_spec (w - e - 1) (j + (w - e' - 1)));
    destruct (Z.ltb_spec (j + (w - e' - 1)) (w - s)); simpl; done || lia.
Qed.

(** The same for the fields that are counted from the least significant bit. *)
Lemma bits_le_get_set_same (w s e a v : Z) :
  0 <= e <= s -> s < w -> w <> s - e + 1 ->
  btGetMaskBit w (btSetMaskBit w a s e v) s e = v mod 2 ^ (s - e + 1).
Proof.
  intros Hf Hs Hw. unfold btGetMaskBit, btSetMaskBit. rewrite bits_get_set_same by lia.
  replace (w - 1 - e - (w - 1 - s) + 1) with (s - e + 1) by lia.
  by destruct (Z.eqb_spec w (s - e + 1)).
Qed.

Lemma bits_le_get_set_other (w s e s' e' a v : Z) :
  0 <= e <= s -> s < w -> 0 <= e' <= s' -> s' < w -> s' < e \/ s < e' ->
  btGetMaskBit w (btSetMaskBit w a s e v) s' e' = btGetMaskBit w a s' e'.
Proof. intros. unfold btGetMaskBit, btSetMaskBit. apply bits_get_set_other; lia. Qed.

(** Bit field round trip.  For every width and every field inside it,
    reading back a field that was just written gives the written value reduced
    to the size of the field, and reading any field that does not overlap it
    gives what it held before. *)
Theorem bitfield_roundtrip (w s e : Z) (a v : Z) :
  0 <= s <= e -> e < w ->
  btGetMaskBitBigE w (btSetMaskBitBigE w a s e v) s e
  = (if w =? e - s + 1 then v else v mod 2 ^ (e - s + 1))
  /\ (forall s' e', 0 <= s' <= e' -> e' < w -> e' < s \/ e < s' ->
        btGetMaskBitBigE w (btSetMaskBitBigE w a s e v) s' e'
        = btGetMaskBitBigE w a s' e').
Proof.
  intros Hf Hs. split; [by apply bits_get_set_same|].
  intros. by apply bits_get_set_other.
Qed.

Lemma bitfield_roundtrip_witness :
  getMaskBit8 (setMaskBit8 69 4 7 6) 4 7 = 6
  /\ getMaskBit8 (setMaskBit8 69 4 7 6) 0 3 = 4.
Proof.
  destruct (bitfield_roundtrip 8 4 7 69 6 ltac:(lia) ltac:(lia)) as [E D]. split.
  - exact E.
  - exact (D 0 3 ltac:(lia) ltac:(lia) ltac:(lia)).
Defined.
