(* ===== verification/PacketHdrs.v ===== *)
(** * Ethernet, VLAN, UDP, TCP, ICMP and IPv6 headers

    Models [src/src/common/Network/Packet/{EthernetHeader,VLANHeader,UdpHeader,
    TcpHeader,IcmpHeader,IPv6Header}.{h,inl}], [VLANHeader.cpp], [MacAddress.h] and
    the pseudo header of [IPHeader.h]. As for IPv4, a header is a part of a byte
    memory that starts at an offset. *)

From S2P Require Import Prelude ByteMem PktCmn.

(** ** Fields in network byte order *)

Definition get_be16 (m : bytes) (off : Z) : res Z := v ← ld16 m off; Ok (PKT_NTOHS v).
Definition set_be16 (m : bytes) (off v : Z) : res bytes := st16 m off (PKT_NTOHS v).
Definition get_be32 (m : bytes) (off : Z) : res Z := v ← ld32 m off; Ok (PKT_NTOHL v).
Definition set_be32 (m : bytes) (off v : Z) : res bytes := st32 m off (PKT_NTOHL v).

(** ** Ethernet *)

Definition ETH_IP : Z := 0x0800.
Definition ETH_VLAN : Z := 0x8100.
Definition ETH_ARP : Z := 0x0806.
Definition ETH_IPv6 : Z := 0x86DD.
Definition ETH_MPLS_Unicast : Z := 0x8847.
Definition ETH_MPLS_Multicast : Z := 0x8848.

Section Ethernet.
Implicit Types (m : bytes) (e : Z).
Definition ETH_setNextProtocol m e (argProtocol : Z) : res bytes := set_be16 m (e + 12) argProtocol.
Definition ETH_getNextProtocol m e : res Z := get_be16 m (e + 12).
Definition ETH_getVlanTag m e : res Z := get_be16 m (e + 14).
Definition ETH_getVlanProtocol m e : res Z := get_be16 m (e + 16).
End Ethernet.

(** ** MAC addresses *)

(** [operator ==] *)
Fixpoint mac_eq_loop (n : nat) (a b : bytes) : bool :=
  match n, a, b with
  | S n, x :: a, y :: b => if negb (x =? y) then false else mac_eq_loop n a b
  | _, _, _ => true
  end.
Definition mac_eq (a b : bytes) : bool := mac_eq_loop 6 a b.

Definition mac_default : bytes := [0xca; 0xfe; 0xde; 0xad; 0xbe; 0xef].
Definition mac_isInvalidAddress (a : bytes) : bool :=
  mac_eq a [0; 0; 0; 0; 0; 0] || mac_eq a mac_default.
Definition mac_setIdentifierAsBogusAddr (m : bytes) (a identifier : Z) : res bytes :=
  st32 m a identifier.
Definition mac_getIdentifierFromBogusAddr (m : bytes) (a : Z) : res Z := ld32 m a.

(** ** VLAN *)

Section VLAN.
Implicit Types (m : bytes) (v : Z).
Definition VLAN_setVlanTag m v (data : Z) : res bytes := set_be16 m v data.
Definition VLAN_getVlanTag m v : res Z := get_be16 m v.

Definition VLAN_setTagUserPriorty m v (p : Z) : res bytes :=
  t ← ld16 m v; st16 m v (setMaskBit16 t 0 2 p).
Definition VLAN_getTagUserPriorty m v : res Z :=
  t ← ld16 m v; Ok (u8 (getMaskBit16 t 0 2)).
Definition VLAN_setTagCFI m v (isSet : bool) : res bytes :=
  t ← ld16 m v; st16 m v (setMaskBit16 t 3 3 (if isSet then 1 else 0)).
Definition VLAN_getTagCFI m v : res bool := t ← ld16 m v; Ok (getMaskBit16 t 3 3 =? 1).
Definition VLAN_getTagID m v : res Z := t ← ld16 m v; Ok (getMaskBit16 t 4 15).
Definition VLAN_setTagID m v (id : Z) : res bytes :=
  t ← ld16 m v; st16 m v (setMaskBit16 t 4 15 id).
Definition VLAN_incrementTagID m v (inc_value : Z) : res bytes :=
  t ← ld16 m v;
  cur ← VLAN_getTagID m v;
  st16 m v (setMaskBit16 t 4 15 (Z.land 4095 (cur + Z.land 4095 inc_value))).

Definition VLAN_getNextProtocolNetOrder m v : res Z := ld16 m (v + 2).
Definition VLAN_getNextProtocolHostOrder m v : res Z := get_be16 m (v + 2).
Definition VLAN_setNextProtocolFromHostOrder m v (p : Z) : res bytes := set_be16 m (v + 2) p.
Definition VLAN_setNextProtocolFromNetOrder m v (p : Z) : res bytes := st16 m (v + 2) p.

(** The header object is [m] at [v]; the packet is another memory. *)
Definition VLAN_setFromPkt m v (pkt : bytes) (data : Z) : res bytes :=
  t ← ld16 pkt data;
  m ← VLAN_setVlanTag m v t;
  p ← ld16 pkt (data + 2);
  VLAN_setNextProtocolFromNetOrder m v p.
Definition VLAN_reconstructPkt m v (pkt : bytes) (dest : Z) : res bytes :=
  t ← VLAN_getVlanTag m v;
  pkt ← st16 pkt dest t;
  p ← VLAN_getNextProtocolNetOrder m v;
  st16 pkt (dest + 2) p.
End VLAN.

(** ** The pseudo header *)

(** [IPPseudoHeader]: twelve bytes, filled by [calcCheckSum] of UDP. *)
Definition pseudo_header (m : bytes) (ip length : Z) : res bytes :=
  src ← IP_getSourceIp m ip;
  dst ← IP_getDestIp m ip;
  proto ← IP_getProtocol m ip;
  Ok (le_split 4 (PKT_NTOHL src) ++ le_split 4 (PKT_NTOHL dst) ++
      [0; proto] ++ le_split 2 (PKT_NTOHS length)).
Definition pseudo_inetChecksum (p : bytes) : res Z := pkt_InetChecksum p 0 12.

(** ** UDP *)

Section UDP.
Implicit Types (m : bytes) (u : Z).
Definition UDP_setSourcePort m u (p : Z) : res bytes := set_be16 m u p.
Definition UDP_getSourcePort m u : res Z := get_be16 m u.
Definition UDP_setDestPort m u (p : Z) : res bytes := set_be16 m (u + 2) p.
Definition UDP_getDestPort m u : res Z := get_be16 m (u + 2).
Definition UDP_setLength m u (l : Z) : res bytes := set_be16 m (u + 4) l.
Definition UDP_getLength m u : res Z := get_be16 m (u + 4).
Definition UDP_setChecksum m u (c : Z) : res bytes := set_be16 m (u + 6) c.
Definition UDP_getChecksum m u : res Z := get_be16 m (u + 6).

(** The IP header is in the same packet. *)
Definition UDP_calcCheckSum m u (ip : Z) : res Z :=
  tl ← IP_getTotalLength m ip;
  hl ← IP_getHeaderLength m ip;
  let length := u16 (tl - hl) in
  pseudo ← pseudo_header m ip length;
  theChecksum ← pkt_InetChecksum m u length;
  pc ← pseudo_inetChecksum pseudo;
  pkt_AddInetChecksum theChecksum pc.
Definition UDP_updateCheckSum m u (ip : Z) : res bytes :=
  m ← UDP_setChecksum m u 0;
  c ← UDP_calcCheckSum m u ip;
  st16 m (u + 6) c.
Definition UDP_isCheckSumOk m u (ip : Z) : res bool :=
  c ← UDP_calcCheckSum m u ip; Ok (PKT_NTOHS c =? 0).
Definition UDP_swapSrcDest m u : res bytes :=
  tmp ← ld16 m (u + 2);
  s ← ld16 m u;
  m ← st16 m (u + 2) s;
  st16 m u tmp.
End UDP.

(** ** TCP *)

Definition TCP_FIN : Z := 0x01.
Definition TCP_SYN : Z := 0x02.
Definition TCP_RST : Z := 0x04.
Definition TCP_PSH : Z := 0x08.
Definition TCP_ACK : Z := 0x10.
Definition TCP_URG : Z := 0x20.

Section TCP.
Implicit Types (m : bytes) (t : Z).
Definition TCP_setSourcePort m t (p : Z) : res bytes := set_be16 m t p.
Definition TCP_getSourcePort m t : res Z := get_be16 m t.
Definition TCP_setDestPort m t (p : Z) : res bytes := set_be16 m (t + 2) p.
Definition TCP_getDestPort m t : res Z := get_be16 m (t + 2).
Definition TCP_setSeqNumber m t (n : Z) : res bytes := set_be32 m (t + 4) n.
Definition TCP_getSeqNumber m t : res Z := get_be32 m (t + 4).
Definition TCP_setAckNumber m t (n : Z) : res bytes := set_be32 m (t + 8) n.
Definition TCP_getAckNumber m t : res Z := get_be32 m (t + 8).
Definition TCP_setHeaderLength m t (l : Z) : res bytes :=
  v ← ld8 m (t + 12); st8 m (t + 12) (setMaskBit8 v 0 3 (Z.shiftr l 2)).
Definition TCP_getHeaderLength m t : res Z :=
  v ← ld8 m (t + 12); Ok (u8 (Z.shiftl (getMaskBit8 v 0 3) 2)).
Definition TCP_setFlag m t (data : Z) : res bytes :=
  v ← ld8 m (t + 13); st8 m (t + 13) (btSetMaskBit 8 v 5 0 data).
Definition TCP_getFlags m t : res Z := v ← ld8 m (t + 13); Ok (Z.land v 0x3f).

(** The six setters and getters of single flags. *)
Definition TCP_set_one_flag m t (flag : Z) (toSet : bool) : res bytes :=
  v ← ld8 m (t + 13);
  st8 m (t + 13) (if toSet then Z.lor v flag else Z.land v (Z.lnot flag)).
Definition TCP_get_one_flag m t (flag : Z) : res bool :=
  v ← TCP_getFlags m t; Ok (negb (Z.land v flag =? 0)).
Definition TCP_setFinFlag m t := TCP_set_one_flag m t TCP_FIN.
Definition TCP_getFinFlag m t := TCP_get_one_flag m t TCP_FIN.
Definition TCP_setSynFlag m t := TCP_set_one_flag m t TCP_SYN.
Definition TCP_getSynFlag m t := TCP_get_one_flag m t TCP_SYN.
Definition TCP_setResetFlag m t := TCP_set_one_flag m t TCP_RST.
Definition TCP_getResetFlag m t := TCP_get_one_flag m t TCP_RST.
Definition TCP_setPushFlag m t := TCP_set_one_flag m t TCP_PSH.
Definition TCP_getPushFlag m t := TCP_get_one_flag m t TCP_PSH.
Definition TCP_setAckFlag m t := TCP_set_one_flag m t TCP_ACK.
Definition TCP_getAckFlag m t := TCP_get_one_flag m t TCP_ACK.
Definition TCP_setUrgentFlag m t := TCP_set_one_flag m t TCP_URG.
Definition TCP_getUrgentFlag m t := TCP_get_one_flag m t TCP_URG.

Definition TCP_setWindowSize m t (w : Z) : res bytes := set_be16 m (t + 14) w.
Definition TCP_getWindowSize m t : res Z := get_be16 m (t + 14).
Definition TCP_setChecksum m t (c : Z) : res bytes := set_be16 m (t + 16) c.
Definition TCP_getChecksum m t : res Z := get_be16 m (t + 16).
(** The setter stores the value as it is. *)
Definition TCP_setUrgentOffset m t (o : Z) : res bytes := st16 m (t + 18) o.
Definition TCP_getUrgentOffset m t : res Z := get_be16 m (t + 18).
End TCP.

(** ** ICMP *)

Section ICMP.
Implicit Types (m : bytes) (i : Z).
Definition ICMP_setType m i (v : Z) : res bytes := st8 m i v.
Definition ICMP_getType m i : res Z := ld8 m i.
Definition ICMP_setCode m i (v : Z) : res bytes := st8 m (i + 1) v.
Definition ICMP_getCode m i : res Z := ld8 m (i + 1).
Definition ICMP_setChecksum m i (v : Z) : res bytes := set_be16 m (i + 2) v.
Definition ICMP_getChecksum m i : res Z := get_be16 m (i + 2).
Definition ICMP_setId m i (v : Z) : res bytes := set_be16 m (i + 4) v.
Definition ICMP_getId m i : res Z := get_be16 m (i + 4).
Definition ICMP_setSeqNum m i (v : Z) : res bytes := set_be16 m (i + 6) v.
Definition ICMP_getSeqNum m i : res Z := get_be16 m (i + 6).
Definition ICMP_calcCheckSum m i (len : Z) : res Z := pkt_InetChecksum m i len.
Definition ICMP_updateCheckSum m i (len : Z) : res bytes :=
  m ← ICMP_setChecksum m i 0;
  c ← ICMP_calcCheckSum m i len;
  st16 m (i + 2) c.
Definition ICMP_isCheckSumOk m i (len : Z) : res bool :=
  c ← ICMP_calcCheckSum m i len; Ok (PKT_NTOHS c =? 0).
End ICMP.

(** ** IPv6 *)

Definition IPV6_HDR_LEN : Z := 40.
Definition IPV6_16b_ADDR_GROUPS : nat := 8.
Definition IPV6_16b_ADDR_GROUPS_MSB : nat := 6.

(** A loop over the 16-bit groups of an address, and one that writes them. *)
Fixpoint get_groups (n : nat) (m : bytes) (off : Z) : res (list Z) :=
  match n with
  | O => Ok []
  | S n => v ← get_be16 m off; l ← get_groups n m (off + 2); Ok (v :: l)
  end.
Fixpoint set_groups (n : nat) (m : bytes) (off : Z) (addr : list Z) : res bytes :=
  match n with
  | O => Ok m
  | S n =>
      match addr with
      | [] => Err OutOfBounds
      | v :: addr => m ← set_be16 m off v; set_groups n m (off + 2) addr
      end
  end.

Section IPv6.
Implicit Types (m : bytes) (ip : Z).
Definition IPv6_getVersion m ip : res Z := v ← get_be32 m ip; Ok (u8 (getMaskBit32 v 0 3)).
Definition IPv6_setVersion m ip (x : Z) : res bytes :=
  v ← get_be32 m ip; set_be32 m ip (setMaskBit32 v 0 3 x).
Definition IPv6_getTrafficClass m ip : res Z := v ← get_be32 m ip; Ok (u16 (getMaskBit32 v 4 11)).
Definition IPv6_setTrafficClass m ip (x : Z) : res bytes :=
  v ← get_be32 m ip; set_be32 m ip (setMaskBit32 v 4 11 x).
Definition IPv6_getFlowLabel m ip : res Z := v ← get_be32 m ip; Ok (getMaskBit32 v 12 31).
Definition IPv6_setFlowLabel m ip (x : Z) : res bytes :=
  v ← get_be32 m ip; set_be32 m ip (setMaskBit32 v 12 31 x).
Definition IPv6_getPayloadLen m ip : res Z := get_be16 m (ip + 4).
Definition IPv6_setPayloadLen m ip (x : Z) : res bytes := set_be16 m (ip + 4) x.
Definition IPv6_getNextHdr m ip : res Z := ld8 m (ip + 6).
Definition IPv6_setNextHdr m ip (x : Z) : res bytes := st8 m (ip + 6) x.
Definition IPv6_getHopLimit m ip : res Z := ld8 m (ip + 7).
Definition IPv6_setHopLimit m ip (x : Z) : res bytes := st8 m (ip + 7) x.

Definition IPv6_getSourceIpv6 m ip : res (list Z) := get_groups IPV6_16b_ADDR_GROUPS m (ip + 8).
Definition IPv6_setSourceIpv6 m ip (a : list Z) : res bytes :=
  set_groups IPV6_16b_ADDR_GROUPS m (ip + 8) a.
Definition IPv6_getDestIpv6 m ip : res (list Z) := get_groups IPV6_16b_ADDR_GROUPS m (ip + 24).
Definition IPv6_setDestIpv6 m ip (a : list Z) : res bytes :=
  set_groups IPV6_16b_ADDR_GROUPS m (ip + 24) a.
Definition IPv6_updateIpv6Src m ip (a : list Z) : res bytes :=
  set_groups IPV6_16b_ADDR_GROUPS m (ip + 8) a.
Definition IPv6_updateIpv6Dst m ip (a : list Z) : res bytes :=
  set_groups IPV6_16b_ADDR_GROUPS m (ip + 24) a.
Definition IPv6_updateMSBIpv6Src m ip (a : list Z) : res bytes :=
  set_groups IPV6_16b_ADDR_GROUPS_MSB m (ip + 8) a.
Definition IPv6_updateMSBIpv6Dst m ip (a : list Z) : res bytes :=
  set_groups IPV6_16b_ADDR_GROUPS_MSB m (ip + 24) a.
Definition IPv6_updateLSBIpv6Src m ip (a : Z) : res bytes := set_be32 m (ip + 20) a.
Definition IPv6_updateLSBIpv6Dst m ip (a : Z) : res bytes := set_be32 m (ip + 36) a.

Fixpoint swap_groups (n : nat) (m : bytes) (src dst : Z) : res bytes :=
  match n with
  | O => Ok m
  | S n =>
      tmp ← ld16 m dst;
      s ← ld16 m src;
      m ← st16 m dst s;
      m ← st16 m src tmp;
      swap_groups n m (src + 2) (dst + 2)
  end.
Definition IPv6_swapSrcDest m ip : res bytes :=
  swap_groups IPV6_16b_ADDR_GROUPS m (ip + 8) (ip + 24).
End IPv6.
