(* ===== verification/PacketHdrsFacts.v ===== *)
(** * Facts about Ethernet, VLAN, UDP, TCP, ICMP and IPv6 headers

    Fields read back what was written, checksums that were just computed verify,
    and a VLAN header survives its round trip through a packet. *)

From S2P Require Import Prelude ByteMem PktCmn PktCmnFacts PacketHdrs.

(** ** Fields *)

Lemma set_be16_Ok m off v : in_range 2 m off -> exists m', set_be16 m off v = Ok m'.
Proof. apply st_total. Qed.

Lemma get_set_be16 m off v m' :
  0 <= v < 65536 -> set_be16 m off v = Ok m' -> get_be16 m' off = Ok v.
Proof.
  intros Hv E. unfold get_be16. rewrite (ld_st_same _ _ _ _ _ E). cbn [mbind res_bind].
  unfold PKT_NTOHS. change (256 ^ Z.of_nat 2) with 65536. pose proof (PAL_NTOHS_range v).
  by rewrite Z.mod_small, PAL_NTOHS_involutive.
Qed.

Lemma get_set_be32 m off v m' :
  0 <= v < 4294967296 -> set_be32 m off v = Ok m' -> get_be32 m' off = Ok v.
Proof.
  intros Hv E. unfold get_be32. rewrite (ld_st_same _ _ _ _ _ E). cbn [mbind res_bind].
  unfold PKT_NTOHL. change (256 ^ Z.of_nat 4) with 4294967296. pose proof (PAL_NTOHL_range v).
  by rewrite Z.mod_small, PAL_NTOHL_involutive.
Qed.

Lemma get_be16_other m off v m' off' :
  set_be16 m off v = Ok m' -> off' + 2 <= off \/ off + 2 <= off' ->
  get_be16 m' off' = get_be16 m off'.
Proof. intros E Hd. unfold get_be16. by rewrite (ld_st_other _ 2 _ _ off' _ _ E) by done. Qed.

(** [setUrgentOffset] does not swap the bytes that [getUrgentOffset] swaps. *)
Example urgent_offset_swapped :
  (m ← TCP_setUrgentOffset (replicate 20 0) 0 1; TCP_getUrgentOffset m 0) = Ok 256.
Proof. reflexivity. Qed.

(** ** TCP flags *)

Lemma TCP_flags_Ok m t flag toSet :
  in_range 1 m (t + 13) ->
  exists v m', ld8 m (t + 13) = Ok v /\ TCP_set_one_flag m t flag toSet = Ok m' /\
    ld8 m' (t + 13) = Ok ((if toSet then Z.lor v flag else Z.land v (Z.lnot flag)) mod 256).
Proof.
  intros Hr. eexists. unfold TCP_set_one_flag. rewrite ld_Ok by done. cbn [mbind res_bind].
  match goal with |- context [st8 m (t + 13) ?x] => destruct (st_total 1 m (t + 13) x Hr) as [m' E] end.
  exists m'. split; [done|]. split; [done|]. by rewrite (ld_st_same _ _ _ _ _ E).
Qed.

(** A flag that was set or cleared is read as such, the five others as before; [i] and
    [j] are their bits. *)
Lemma TCP_one_flag m t i j toSet m' :
  in_range 1 m (t + 13) -> 0 <= i < 6 -> 0 <= j < 6 ->
  TCP_set_one_flag m t (2 ^ i) toSet = Ok m' ->
  TCP_get_one_flag m' t (2 ^ j) = if i =? j then Ok toSet else TCP_get_one_flag m t (2 ^ j).
Proof.
  intros Hr Hi Hj E.
  destruct (TCP_flags_Ok m t (2 ^ i) toSet Hr) as (v & m1 & Hv & E' & Hv').
  rewrite E in E'. injection E' as <-.
  assert (Hbit : forall a, negb (Z.land (Z.land a 63) (2 ^ j) =? 0) = Z.testbit a j).
  { intros a. assert (Hl : Z.land (Z.land a 63) (2 ^ j) = if Z.testbit a j then 2 ^ j else 0).
    { apply Z.bits_inj'. intros n Hn. rewrite !Z.land_spec, Z.pow2_bits_eqb by lia.
      change 63 with (Z.ones 6). rewrite Z.testbit_ones_nonneg by lia.
      destruct (Z.eqb_spec j n) as [<-|Hne].
      - rewrite (proj2 (Z.ltb_lt j 6)) by lia. destruct (Z.testbit a j); simpl.
        + by rewrite Z.pow2_bits_true by lia.
        + by rewrite Z.bits_0.
      - rewrite andb_false_r. destruct (Z.testbit a j); [|by rewrite Z.bits_0].
        rewrite Z.pow2_bits_false by lia. done. }
    rewrite Hl. destruct (Z.testbit a j); [|done].
    assert (0 < 2 ^ j) by (apply Z.pow_pos_nonneg; lia). by destruct (Z.eqb_spec (2 ^ j) 0); lia. }
  unfold TCP_get_one_flag, TCP_getFlags. rewrite Hv, Hv'. cbn [mbind res_bind]. rewrite !Hbit.
  change 256 with (2 ^ 8). rewrite Z.mod_pow2_bits_low by lia.
  destruct toSet.
  - rewrite Z.lor_spec, Z.pow2_bits_eqb by lia.
    destruct (Z.eqb_spec i j); [by rewrite orb_true_r|by rewrite orb_false_r].
  - rewrite Z.land_spec, Z.lnot_spec, Z.pow2_bits_eqb by lia.
    destruct (Z.eqb_spec i j); simpl; [by rewrite andb_false_r|by rewrite andb_true_r].
Qed.

(** ** VLAN *)

(** Taking a header from a packet and writing it into one copies its four bytes. *)
Lemma VLAN_roundtrip m v pkt data m' pkt' dest :
  bytes_ok pkt -> in_range 2 m v -> in_range 2 m (v + 2) ->
  VLAN_setFromPkt m v pkt data = Ok m' ->
  in_range 2 pkt' dest -> in_range 2 pkt' (dest + 2) ->
  exists pkt'', VLAN_reconstructPkt m' v pkt' dest = Ok pkt'' /\
    ld16 pkt'' dest = ld16 pkt data /\ ld16 pkt'' (dest + 2) = ld16 pkt (data + 2).
Proof.
  intros Hok Hv Hv2 Hset Hd Hd2. unfold VLAN_setFromPkt, VLAN_setVlanTag in Hset.
  destruct (ld16 pkt data) as [t|] eqn:Et; [|done]. cbn [mbind res_bind] in Hset.
  destruct (set_be16 m v t) as [m1|] eqn:E1; [|done]. cbn [mbind res_bind] in Hset.
  destruct (ld16 pkt (data + 2)) as [p|] eqn:Ep; [|done]. cbn [mbind res_bind] in Hset.
  apply (ld_range 2) in Et as Ht; [|done]. apply (ld_range 2) in Ep as Hp; [|done].
  change (256 ^ Z.of_nat 2) with 65536 in Ht, Hp.
  unfold VLAN_setNextProtocolFromNetOrder in Hset.
  unfold VLAN_reconstructPkt, VLAN_getVlanTag, get_be16.
  rewrite (ld_st_other _ 2 _ _ v _ _ Hset) by lia.
  pose proof (get_set_be16 m v t m1 Ht E1) as Hg. unfold get_be16 in Hg. rewrite Hg.
  cbn [mbind res_bind]. destruct (st_total 2 pkt' dest t Hd) as [q1 Eq1]. rewrite Eq1.
  cbn [mbind res_bind]. unfold VLAN_getNextProtocolNetOrder. rewrite (ld_st_same _ _ _ _ _ Hset).
  cbn [mbind res_bind]. change (256 ^ Z.of_nat 2) with 65536. rewrite Z.mod_small by done.
  assert (Hr : in_range 2 q1 (dest + 2)) by (unfold in_range in *; by rewrite (st_zlength _ _ _ _ _ Eq1)).
  destruct (st_total 2 q1 (dest + 2) p Hr) as [q2 Eq2]. rewrite Eq2. exists q2.
  split; [done|]. rewrite (ld_st_other _ 2 _ _ dest _ _ Eq2) by lia.
  rewrite (ld_st_same _ _ _ _ _ Eq1), (ld_st_same _ _ _ _ _ Eq2).
  change (256 ^ Z.of_nat 2) with 65536. by rewrite !Z.mod_small.
Qed.

(** The id is incremented modulo 4096; priority and CFI stay. *)
Lemma VLAN_increment m v inc m' id p c :
  bytes_ok m -> VLAN_getTagID m v = Ok id -> VLAN_getTagUserPriorty m v = Ok p ->
  VLAN_getTagCFI m v = Ok c -> 0 <= inc -> VLAN_incrementTagID m v inc = Ok m' ->
  VLAN_getTagID m' v = Ok ((id + inc) mod 4096) /\ VLAN_getTagUserPriorty m' v = Ok p /\
  VLAN_getTagCFI m' v = Ok c.
Proof.
  intros Hok Hid Hp Hc Hinc. unfold VLAN_incrementTagID. rewrite Hid.
  unfold VLAN_getTagID, VLAN_getTagUserPriorty, VLAN_getTagCFI in *.
  destruct (ld16 m v) as [t|] eqn:Et; [|done]. cbn [mbind res_bind] in *.
  injection Hid as Hid. injection Hp as Hp. injection Hc as Hc. intros E.
  rewrite (ld_st_same _ _ _ _ _ E). cbn [mbind res_bind].
  change (256 ^ Z.of_nat 2) with (2 ^ 16).
  set (n := Z.land 4095 (id + Z.land 4095 inc)) in *.
  assert (Hw : setMaskBit16 t 4 15 n mod 2 ^ 16 = setMaskBit16 t 4 15 n).
  { unfold setMaskBit16, btSetMaskBitBigE. change (16 =? 15 - 4 + 1) with false. cbn iota.
    unfold wrap. by rewrite Z.mod_mod by done. }
  rewrite Hw. unfold getMaskBit16, setMaskBit16 in *.
  rewrite bits_get_set_same, !bits_get_set_other by lia.
  change (16 =? 15 - 4 + 1) with false. cbn iota. rewrite Hp, Hc. split; [|done].
  subst n. rewrite !(Z.land_comm 4095). change 4095 with (Z.ones 12). rewrite !Z.land_ones by lia.
  change (2 ^ (15 - 4 + 1)) with (2 ^ 12). rewrite Z.mod_mod, Zplus_mod_idemp_r by done. done.
Qed.

(** ** Checksums *)

(** The sum of the words of [len] bytes, the last padded with zero. *)
Definition isum (m : bytes) (off len : Z) : Z :=
  wsum m off (Z.to_nat (len / 2)) + (if len mod 2 =? 0 then 0 else byte_at m (off + len - 1) * 256).

Lemma cs_loop_any n r : forall m off sum,
  bytes_ok m -> 0 <= off -> 0 <= r <= 1 -> off + 2 * Z.of_nat n <= zlength m -> Z.of_nat n < 32768 ->
  cs_loop (S n) m off (2 * Z.of_nat n + r) sum = Ok (off + 2 * Z.of_nat n, r, sum + wsum m off n).
Proof.
  induction n as [|n IH]; intros m off sum Hm Ho Hr Hl Hn.
  - cbn [wsum cs_loop]. destruct (Z.gtb_spec (2 * Z.of_nat 0 + r) 1); [lia|].
    do 2 f_equal; [f_equal|]; lia.
  - remember (S n) as n'. cbn [cs_loop].
    destruct (Z.gtb_spec (2 * Z.of_nat n' + r) 1); [|lia].
    destruct (ld16_word m off Hm) as (w & -> & Hw & Hword); [unfold in_range; lia|].
    cbn [mbind res_bind]. rewrite Hword. subst n'.
    replace (u16 (2 * Z.of_nat (S n) + r - 2)) with (2 * Z.of_nat n + r) by (rewrite u16_id; lia).
    rewrite IH by (done || lia). cbn [wsum]. do 2 f_equal; [f_equal|]; lia.
Qed.

Lemma land_high a b : 0 <= a < 256 -> 0 <= b < 256 -> Z.land (a * 256 + b) 65280 = a * 256.
Proof.
  intros Ha Hb. change 256 with (2 ^ 8). rewrite <- (lor_shiftl_add a b 8), Z.land_lor_distr_l by lia.
  change 65280 with (Z.shiftl (Z.ones 8) 8). rewrite <- Z.shiftl_land, Z.land_ones by lia.
  rewrite Z.mod_small by lia.
  assert (Z.land b (Z.shiftl (Z.ones 8) 8) = 0) as ->.
  { apply Z.bits_inj'. intros k Hk. rewrite Z.land_spec, Z.bits_0.
    destruct (Z.ltb_spec k 8).
    - rewrite Z.shiftl_spec_low by lia. apply andb_false_r.
    - rewrite <- (Z.mod_small b (2 ^ 8)), Z.mod_pow2_bits_high by lia. done. }
  rewrite Z.lor_0_r, Z.shiftl_mul_pow2 by lia. done.
Qed.

Lemma pkt_InetChecksum_any m off len :
  bytes_ok m -> 0 <= off -> 0 <= len < 65536 -> off + len + len mod 2 <= zlength m ->
  pkt_InetChecksum m off len = Ok (PAL_NTOHS (65535 - fold16 (isum m off len))) /\
  0 <= isum m off len < 2147483648.
Proof.
  intros Hm Ho Hlen Hl. set (n := Z.to_nat (len / 2)). set (r := len mod 2) in *.
  assert (Hdec : len = 2 * Z.of_nat n + r) by (unfold n, r; Z.div_mod_to_equations; lia).
  assert (Hr : 0 <= r <= 1) by (unfold r; Z.div_mod_to_equations; lia).
  pose proof (wsum_range m n off Hm) as Hs. pose proof (byte_at_range m (off + len - 1) Hm) as Hb.
  assert (Hsum : 0 <= isum m off len < 2147483648).
  { unfold isum. fold n r. destruct (r =? 0); lia. }
  split; [|done]. unfold pkt_InetChecksum, cs_fuel. fold n. rewrite Hdec at 1.
  rewrite cs_loop_any by (done || lia). cbn [mbind res_bind].
  assert (Hlast : (if negb (r =? 0) then
      w ← ld16 m (off + 2 * Z.of_nat n); Ok (0 + wsum m off n + Z.land (PKT_NTOHS w) 65280)
    else Ok (0 + wsum m off n)) = Ok (isum m off len)).
  { unfold isum. fold n r. destruct (r =? 0) eqn:E0; simpl; [f_equal; lia|].
    destruct (ld16_word m (off + 2 * Z.of_nat n) Hm) as (w & -> & _ & Hw); [unfold in_range; lia|].
    cbn [mbind res_bind]. f_equal. unfold word_at in Hw.
    replace (off + 2 * Z.of_nat n) with (off + len - 1) in Hw by lia.
    pose proof (byte_at_range m (off + len - 1 + 1) Hm). rewrite Hw, land_high by lia. lia. }
  rewrite Hlast. cbn [mbind res_bind]. rewrite cs_fold_eq by done. cbn [mbind res_bind].
  pose proof (fold16_range (isum m off len)). by rewrite u16_lnot by lia.
Qed.

(** Storing a word of the summed bytes. *)
Lemma isum_st16 m off len k v m' :
  0 <= off -> 0 <= k -> 2 * k + 2 <= len -> st16 m (off + 2 * k) v = Ok m' ->
  isum m' off len = isum m off len - word_at m (off + 2 * k) + PAL_NTOHS (u16 v).
Proof.
  intros Ho Hk Hl E. pose proof (st_same_except _ _ _ _ _ E) as Hs. unfold isum.
  rewrite (wsum_replace m m' off _ (Z.to_nat k)).
  - replace (off + 2 * Z.of_nat (Z.to_nat k)) with (off + 2 * k) by lia.
    rewrite (st16_word _ _ _ _ E). destruct (Z.eqb_spec (len mod 2) 0); [lia|].
    rewrite (proj2 Hs (off + len - 1)); [lia|Z.div_mod_to_equations; lia|].
    right. change (Z.of_nat 2) with 2. Z.div_mod_to_equations. lia.
  - done.
  - Z.div_mod_to_equations. lia.
  - replace (off + 2 * Z.of_nat (Z.to_nat k)) with (off + 2 * k) by lia. done.
Qed.

Lemma isum_mod_valid s : 0 < s -> s mod 65535 = 0 -> (PAL_NTOHS (PAL_NTOHS (65535 - fold16 s)) =? 0) = true.
Proof.
  intros Hs Hm. rewrite (proj2 (fold16_valid s Hs) Hm). done.
Qed.

Lemma ICMP_updateCheckSum_ok m i len :
  bytes_ok m -> 0 <= i -> 4 <= len < 65536 -> i + len + len mod 2 <= zlength m ->
  exists m', ICMP_updateCheckSum m i len = Ok m' /\ ICMP_isCheckSumOk m' i len = Ok true /\
    same_except m m' (i + 2) 2.
Proof.
  intros Hm Hi Hlen Hl. unfold ICMP_updateCheckSum, ICMP_setChecksum, ICMP_calcCheckSum.
  assert (Hmod : 0 <= len mod 2) by (apply Z.mod_pos_bound; lia).
  destruct (set_be16_Ok m (i + 2) 0) as [m1 E1]; [unfold in_range; lia|]. rewrite E1.
  cbn [mbind res_bind]. unfold set_be16 in E1. change (PKT_NTOHS 0) with 0 in E1.
  pose proof (st_ok _ _ _ _ _ Hm E1) as Hm1. pose proof (st_zlength _ _ _ _ _ E1) as Hz1.
  destruct (pkt_InetChecksum_any m1 i len Hm1 Hi ltac:(lia) ltac:(lia)) as [Hcs Hr]. rewrite Hcs.
  cbn [mbind res_bind]. set (h := isum m1 i len) in *.
  destruct (st_total 2 m1 (i + 2) (PAL_NTOHS (65535 - fold16 h))) as [m2 E2]; [unfold in_range; lia|].
  rewrite E2. exists m2. split; [done|]. pose proof (st_zlength _ _ _ _ _ E2) as Hz2.
  pose proof (st_same_except _ _ _ _ _ E1) as [_ Hs1]. pose proof (st_same_except _ _ _ _ _ E2) as [_ Hs2].
  split; [|split; [lia|intros; rewrite Hs2, Hs1; done]].
  unfold ICMP_isCheckSumOk, ICMP_calcCheckSum.
  destruct (pkt_InetChecksum_any m2 i len (st_ok _ _ _ _ _ Hm1 E2) Hi ltac:(lia) ltac:(lia)) as [-> _].
  cbn [mbind res_bind]. f_equal. pose proof (fold16_range h). pose proof (fold16_mod h ltac:(lia)).
  assert (Hsum : isum m2 i len = h + (65535 - fold16 h)).
  { replace (i + 2) with (i + 2 * 1) in E1, E2 by lia.
    rewrite (isum_st16 m1 i len 1 _ m2 Hi ltac:(lia) ltac:(lia) E2), (st16_word _ _ _ _ E1).
    change (PAL_NTOHS (u16 0)) with 0. rewrite u16_id by apply PAL_NTOHS_range.
    rewrite PAL_NTOHS_involutive by lia. fold h. lia. }
  apply isum_mod_valid; rewrite Hsum.
  - destruct (decide (h = 0)) as [-> |]; [vm_compute; done|lia].
  - Z.div_mod_to_equations. lia.
Qed.

(** *** UDP *)

Lemma NTOHS_lnot x : 0 <= x < 65536 -> PAL_NTOHS (Z.lnot x) = 65535 - PAL_NTOHS x.
Proof.
  intros Hx. rewrite !PAL_NTOHS_eq. unfold Z.lnot. unfold_bytes. Z.div_mod_to_equations. lia.
Qed.

Lemma pkt_AddInetChecksum_eq a b :
  0 <= a <= 65535 -> 0 <= b <= 65535 ->
  pkt_AddInetChecksum (PAL_NTOHS (65535 - a)) (PAL_NTOHS (65535 - b))
    = Ok (PAL_NTOHS (65535 - fold16 (a + b))).
Proof.
  intros Ha Hb. unfold pkt_AddInetChecksum, PKT_NTOHS.
  rewrite PAL_NTOHS_involutive, u16_lnot, NTOHS_lnot, PAL_NTOHS_involutive
    by (try lia; apply PAL_NTOHS_range).
  rewrite u16_id by lia. replace (65535 - (65535 - b)) with b by lia.
  replace (65535 - (65535 - a) + b) with (a + b) by lia.
  replace (u32 (a + b)) with (a + b) by word_lia. rewrite cs_fold_eq by lia. cbn [mbind res_bind].
  pose proof (fold16_range (a + b)). by rewrite u16_lnot by lia.
Qed.

Lemma pseudo_header_Ok m ip n :
  bytes_ok m -> 0 <= ip -> ip + 20 <= zlength m ->
  exists p, pseudo_header m ip n = Ok p /\ bytes_ok p /\ zlength p = 12.
Proof.
  intros Hm Hi Hl. unfold pseudo_header, IP_getSourceIp, IP_getDestIp, IP_getProtocol,
    o_Source, o_Destination, o_Protocol.
  rewrite (ld_Ok 4 m (ip + 12)), (ld_Ok 4 m (ip + 16)) by (unfold in_range; lia).
  rewrite (ld8_byte m (ip + 9)) by (unfold in_range; lia). cbn [mbind res_bind].
  eexists. split; [reflexivity|]. split.
  - pose proof (byte_at_range m (ip + 9) Hm). rewrite !Forall_app.
    split_and!; try apply le_split_ok. repeat constructor; unfold byte_ok; lia.
  - unfold zlength. rewrite !length_app, !length_le_split. reflexivity.
Qed.

(** The checksum over a datagram of [len] bytes, whose IP header gives that length. *)
Lemma UDP_calc_eq m u ip tl hl :
  ip_header m ip -> IP_getTotalLength m ip = Ok tl -> IP_getHeaderLength m ip = Ok hl ->
  0 <= tl - hl < 65536 -> 0 <= u -> u + (tl - hl) + (tl - hl) mod 2 <= zlength m ->
  exists p, pseudo_header m ip (tl - hl) = Ok p /\ 0 <= isum p 0 12 /\
    UDP_calcCheckSum m u ip
      = Ok (PAL_NTOHS (65535 - fold16 (fold16 (isum m u (tl - hl)) + fold16 (isum p 0 12)))).
Proof.
  intros Hh Htl Hhl Hlen Hu Hl. pose proof (ih_bytes _ _ Hh) as Hm.
  pose proof (ih_len _ _ Hh) as H5. pose proof (ih_in _ _ Hh) as Hin. pose proof (ih_pos _ _ Hh) as Hpos.
  unfold UDP_calcCheckSum. rewrite Htl, Hhl. cbn [mbind res_bind]. rewrite u16_id by lia.
  destruct (pseudo_header_Ok m ip (tl - hl) Hm Hpos ltac:(lia)) as (p & Hph & Hp & Hlp).
  exists p. rewrite Hph. cbn [mbind res_bind].
  destruct (pkt_InetChecksum_any m u (tl - hl) Hm Hu Hlen Hl) as [-> Hs]. cbn [mbind res_bind].
  destruct (pkt_InetChecksum_any p 0 12 Hp ltac:(lia) ltac:(lia)) as [Hpc Hps]; [by rewrite Hlp|].
  unfold pseudo_inetChecksum. rewrite Hpc. cbn [mbind res_bind].
  split; [done|]. split; [lia|]. apply pkt_AddInetChecksum_eq; apply fold16_range.
Qed.

(** A recomputed UDP checksum verifies. In a packet with a complete IPv4 header
    and, behind it, a datagram of the length the IP header leaves for it (at least
    eight bytes; for an odd length the packet has room for a byte of padding),
    [updateCheckSum] succeeds, changes only the two bytes of the checksum field, and
    [isCheckSumOk] then holds. *)
Theorem UDP_updateCheckSum_ok (m : bytes) (u ip tl hl : Z) :
  ip_header m ip -> IP_getTotalLength m ip = Ok tl -> IP_getHeaderLength m ip = Ok hl ->
  8 <= tl - hl < 65536 -> ip + hl <= u -> u + (tl - hl) + (tl - hl) mod 2 <= zlength m ->
  exists m', UDP_updateCheckSum m u ip = Ok m' /\ UDP_isCheckSumOk m' u ip = Ok true /\
    same_except m m' (u + 6) 2 /\ bytes_ok m'.
Proof.
  intros Hh Htl Hhl Hlen Hu Hl.
  pose proof (ih_pos _ _ Hh) as Hpos. pose proof (ih_len _ _ Hh) as H5. pose proof (ih_in _ _ Hh) as Hin.
  pose proof (ih_bytes _ _ Hh) as Hm. set (len := tl - hl) in *.
  assert (Hmod : 0 <= len mod 2) by (apply Z.mod_pos_bound; lia).
  assert (Hhl' : hl = 4 * ihl m ip).
  { rewrite IP_getHeaderLength_eq in Hhl by (done || lia). by injection Hhl. }
  unfold UDP_updateCheckSum, UDP_setChecksum.
  destruct (set_be16_Ok m (u + 6) 0) as [m1 E1]; [unfold in_range; lia|]. rewrite E1.
  cbn [mbind res_bind]. unfold set_be16 in E1. change (PKT_NTOHS 0) with 0 in E1.
  replace (u + 6) with (ip + (u + 6 - ip)) in E1 by lia.
  assert (Hkeep : forall m m' v, ip_header m ip -> hl = 4 * ihl m ip -> zlength m = zlength m ->
    st16 m (ip + (u + 6 - ip)) v = Ok m' ->
    ip_header m' ip /\ hl = 4 * ihl m' ip /\ zlength m' = zlength m /\
    IP_getTotalLength m' ip = IP_getTotalLength m ip /\
    IP_getHeaderLength m' ip = IP_getHeaderLength m ip /\
    forall n, pseudo_header m' ip n = pseudo_header m ip n).
  { intros a a' v Ha Hhla _ E. destruct (st_ip_header 2 a ip _ v a' Ha E) as [Ha' Hia]; [lia|].
    split; [done|]. split; [by rewrite Hia|]. split; [by eapply st_zlength|].
    unfold pseudo_header, IP_getTotalLength, IP_getHeaderLength, IP_getSourceIp, IP_getDestIp,
      IP_getProtocol, o_Length, o_Ver_HeaderLength, o_Source, o_Destination, o_Protocol.
    pose proof (ih_len _ _ Ha).
    rewrite (ld_st_other _ 2 _ _ (ip + 2) _ _ E), (ld_st_other _ 1 _ _ (ip + 0) _ _ E) by lia.
    rewrite (ld_st_other _ 4 _ _ (ip + 12) _ _ E), (ld_st_other _ 4 _ _ (ip + 16) _ _ E) by lia.
    rewrite (ld_st_other _ 1 _ _ (ip + 9) _ _ E) by lia. done. }
  destruct (Hkeep m m1 0 Hh Hhl' eq_refl E1) as (Hh1 & Hhl1 & Hz1 & Htl1 & Hg1 & Hp1).
  rewrite Htl in Htl1. rewrite Hhl in Hg1.
  destruct (UDP_calc_eq m1 u ip tl hl Hh1 Htl1 Hg1) as (p & Hp & Hps & Hcalc); [fold len; lia..|].
  rewrite Hcalc. cbn [mbind res_bind]. fold len. fold len in Hp. set (h := isum m1 u len) in *.
  set (q := fold16 (fold16 h + fold16 (isum p 0 12))).
  replace (u + 6) with (ip + (u + 6 - ip)) by lia.
  destruct (st_total 2 m1 (ip + (u + 6 - ip)) (PAL_NTOHS (65535 - q))) as [m2 E2]; [unfold in_range; lia|].
  rewrite E2. exists m2. split; [done|].
  destruct (Hkeep m1 m2 _ Hh1 Hhl1 eq_refl E2) as (Hh2 & Hhl2 & Hz2 & Htl2 & Hg2 & Hp2).
  rewrite Htl1 in Htl2. rewrite Hg1 in Hg2.
  pose proof (st_same_except _ _ _ _ _ E1) as [_ Hs1]. pose proof (st_same_except _ _ _ _ _ E2) as [_ Hs2].
  split; [|split; [split; [lia|intros; rewrite Hs2, Hs1; done]|apply Hh2]].
  destruct (UDP_calc_eq m2 u ip tl hl Hh2 Htl2 Hg2) as (p' & Hp' & _ & Hcalc'); [fold len; lia..|].
  fold len in Hp', Hcalc'. rewrite Hp2, Hp in Hp'. injection Hp' as <-.
  unfold UDP_isCheckSumOk. rewrite Hcalc'. cbn [mbind res_bind]. f_equal.
  assert (Hh0 : 0 <= h) by (apply (pkt_InetChecksum_any m1 u len (ih_bytes _ _ Hh1)); lia).
  pose proof (fold16_range (fold16 h + fold16 (isum p 0 12))) as Hq. fold q in Hq.
  assert (Hsum : isum m2 u len = h + (65535 - q)).
  { replace (ip + (u + 6 - ip)) with (u + 2 * 3) in E1, E2 by lia.
    rewrite (isum_st16 m1 u len 3 _ m2 ltac:(lia) ltac:(lia) ltac:(lia) E2), (st16_word _ _ _ _ E1).
    change (PAL_NTOHS (u16 0)) with 0. rewrite u16_id by apply PAL_NTOHS_range.
    rewrite PAL_NTOHS_involutive by lia. fold h. lia. }
  pose proof (fold16_range h). pose proof (fold16_mod h Hh0).
  pose proof (fold16_range (isum p 0 12)). pose proof (fold16_mod (isum p 0 12) Hps).
  pose proof (fold16_mod (fold16 h + fold16 (isum p 0 12)) ltac:(lia)) as Hqm. fold q in Hqm.
  pose proof (fold16_range (isum m2 u len)). pose proof (fold16_mod (isum m2 u len) ltac:(lia)) as Hm2.
  assert (Hmod0 : (fold16 (isum m2 u len) + fold16 (isum p 0 12)) mod 65535 = 0).
  { rewrite Hsum in Hm2 |- *. Z.div_mod_to_equations. lia. }
  apply isum_mod_valid; [|done].
  destruct (decide (fold16 (isum p 0 12) = 0)) as [Hp0|]; [|lia].
  rewrite Hp0, Z.add_0_r in Hmod0. rewrite Hm2 in Hmod0.
  assert (Hpos2 : 0 < isum m2 u len).
  { destruct (decide (h = 0)) as [Hz|]; [|lia]. unfold q in Hsum. rewrite Hz, Hp0 in Hsum.
    rewrite Hsum. vm_compute. done. }
  rewrite (proj2 (fold16_valid _ Hpos2) Hmod0). lia.
Qed.

Definition demo_udp_packet : bytes :=
  [69; 0; 0; 31; 0; 1; 64; 0; 64; 17; 0; 0; 10; 0; 0; 1; 10; 0; 0; 2;
   4; 1; 0; 53; 0; 11; 222; 173; 1; 2; 3; 0].

Lemma UDP_updateCheckSum_ok_witness :
  exists m', UDP_updateCheckSum demo_udp_packet 20 0 = Ok m' /\ UDP_isCheckSumOk m' 20 0 = Ok true.
Proof.
  assert (Hh : ip_header demo_udp_packet 0).
  { split; [|lia|vm_compute; congruence|vm_compute; congruence].
    repeat constructor; vm_compute; congruence. }
  destruct (UDP_updateCheckSum_ok demo_udp_packet 20 0 31 20 Hh eq_refl eq_refl)
    as (m' & E & Hok & _); [lia|lia|vm_compute; congruence|].
  exists m'. split; [exact E|exact Hok].
Defined.

(** ** IPv6 addresses *)

Lemma set_groups_other n : forall m off addr m' o,
  set_groups n m off addr = Ok m' -> o + 2 <= off \/ off + 2 * Z.of_nat n <= o ->
  get_be16 m' o = get_be16 m o.
Proof.
  induction n as [|n IH]; intros m off addr m' o; simpl set_groups; [by intros [= <-]|].
  destruct addr as [|v addr]; [done|]. destruct (set_be16 m off v) as [m1|] eqn:E1; [|done].
  cbn [mbind res_bind]. intros E Ho. rewrite (IH _ _ _ _ _ E) by lia.
  apply (get_be16_other _ _ _ _ _ E1). lia.
Qed.

(** An address reads back as it was written. *)
Lemma groups_roundtrip n : forall m off addr m',
  Forall (fun v => 0 <= v < 65536) addr -> length addr = n ->
  set_groups n m off addr = Ok m' -> get_groups n m' off = Ok addr.
Proof.
  induction n as [|n IH]; intros m off addr m' Hv Hl; [by destruct addr|].
  destruct addr as [|v addr]; [done|]. apply Forall_cons in Hv as [Hv Hvs]. simpl.
  destruct (set_be16 m off v) as [m1|] eqn:E1; [|done]. cbn [mbind res_bind]. intros E.
  rewrite (set_groups_other _ _ _ _ _ _ E) by lia. rewrite (get_set_be16 _ _ _ _ Hv E1).
  cbn [mbind res_bind]. rewrite (IH _ _ _ _ Hvs ltac:(by injection Hl) E). done.
Qed.

(** The four low bytes [updateLSBIpv6Src] writes are the last two groups. *)
Example LSB_groups :
  (m ← IPv6_updateLSBIpv6Src (replicate 40 0) 0 0x0a0b0c0d; IPv6_getSourceIpv6 m 0)
    = Ok [0; 0; 0; 0; 0; 0; 0x0a0b; 0x0c0d].
Proof. reflexivity. Qed.
