(* ===== verification/ByteFrame.v ===== *)
(** * Frames

    What a sequence of stores leaves alone: [frame m m' l] says that [m'] is [m] but for
    the regions [l]. Fields that lie outside them are read as before. *)

From S2P Require Import Prelude ByteMem PktCmn PktCmnFacts PacketHdrs PacketHdrsFacts.

(** [apart f n l]: the [n] bytes at [f] meet none of the regions. *)
Definition apart (f n : Z) (l : list (Z * Z)) : Prop :=
  Forall (fun r => f + n <= fst r \/ fst r + snd r <= f) l.

Record frame (m m' : bytes) (l : list (Z * Z)) : Prop := {
  fr_len : zlength m' = zlength m;
  fr_ok : bytes_ok m';
  fr_same : forall j, 0 <= j -> apart j 1 l -> byte_at m' j = byte_at m j }.

Ltac apart_tac :=
  unfold apart in *; cbn [app] in *; rewrite ?Forall_cons, ?Forall_nil in *; cbn [fst snd] in *; lia.

Lemma apart_app f n l l' : apart f n (l ++ l') <-> apart f n l /\ apart f n l'.
Proof. apply Forall_app. Qed.

Lemma frame_refl m l : bytes_ok m -> frame m m l.
Proof. by split. Qed.

Lemma frame_trans m1 m2 m3 l l' : frame m1 m2 l -> frame m2 m3 l' -> frame m1 m3 (l ++ l').
Proof.
  intros [Hz1 _ He1] [Hz2 Hok He2]. split; [lia|done|].
  intros j Hj [Ha Ha']%apart_app. by rewrite He2, He1.
Qed.

Lemma frame_weaken m m' l l' :
  frame m m' l -> (forall j, apart j 1 l' -> apart j 1 l) -> frame m m' l'.
Proof. intros [Hz Hok He] Hs. split; [done..|]. intros j Hj Ha. by apply He, Hs. Qed.

Lemma frame_same_except m m' f n : bytes_ok m' -> same_except m m' f n -> frame m m' [(f, n)].
Proof.
  intros Hok [Hz He]. split; [done..|]. intros j Hj [Ha _]%Forall_cons. cbn in Ha. apply He; lia.
Qed.

Lemma frame_st n m f v m' : bytes_ok m -> st n m f v = Ok m' -> frame m m' [(f, Z.of_nat n)].
Proof.
  intros Hm E. apply frame_same_except; [by eapply st_ok|by eapply st_same_except].
Qed.

Lemma frame_ld n m m' l off :
  frame m m' l -> apart off (Z.of_nat n) l -> ld n m' off = ld n m off.
Proof.
  intros [Hz _ He] Ha. unfold ld, in_range. rewrite Hz. case_decide as Hr; [|done]. do 2 f_equal.
  apply list_eq. intros k. destruct (decide (k < n)%nat); [|by rewrite !lookup_take_ge by lia].
  rewrite !lookup_take_lt, !lookup_drop by lia.
  replace (Z.to_nat off + k)%nat with (Z.to_nat (off + Z.of_nat k)) by lia.
  rewrite !lookup_in_range by lia. f_equal. apply He; [lia|].
  eapply Forall_impl; [exact Ha|]. cbn. intros. lia.
Qed.

Lemma frame_be16 m m' l off : frame m m' l -> apart off 2 l -> get_be16 m' off = get_be16 m off.
Proof. intros Hf Ha. unfold get_be16. by rewrite (frame_ld 2 _ _ _ _ Hf) by done. Qed.

Lemma frame_byte m m' l j : frame m m' l -> 0 <= j -> apart j 1 l -> byte_at m' j = byte_at m j.
Proof. intros []. auto. Qed.

(** ** The IP header *)

Lemma frame_ip_header m m' l ip :
  frame m m' l -> ip_header m ip -> apart ip 1 l -> ip_header m' ip /\ ihl m' ip = ihl m ip.
Proof.
  intros Hf [Hm Hp Hl Hi] Ha.
  assert (Hih : ihl m' ip = ihl m ip) by (unfold ihl; by erewrite frame_byte).
  split; [|done]. destruct Hf. split; [done..|lia|lia].
Qed.

(** A header that is left alone keeps its checksum. *)
Lemma frame_checksum m m' l ip :
  frame m m' l -> ip_header m ip -> apart ip (4 * ihl m ip) l ->
  IP_isChecksumOK m' ip = IP_isChecksumOK m ip.
Proof.
  intros Hf Hh Ha. pose proof Hh as [Hm Hp Hl Hi]. pose proof (ihl_range m ip).
  destruct (frame_ip_header m m' l ip Hf Hh) as [Hh' Hih].
  { eapply Forall_impl; [exact Ha|]. cbn. intros. lia. }
  rewrite !IP_isChecksumOK_eq by done. unfold hdr_sum. rewrite Hih. do 3 f_equal.
  apply wsum_ext. intros j Hj. eapply frame_byte; [done|lia|].
  eapply Forall_impl; [exact Ha|]. cbn. intros. lia.
Qed.

Lemma IP_update_addr_frame m ip f a m' :
  bytes_ok m -> IP_update_addr m ip f a = Ok m' -> frame m m' [(ip + 10, 2); (ip + f, 4)].
Proof.
  intros Hm E. unfold IP_update_addr in E.
  apply bind_Ok in E as (old & _ & E). apply bind_Ok in E as (cs & _ & E).
  apply bind_Ok in E as (c1 & _ & E). apply bind_Ok in E as (m1 & E1 & E).
  apply bind_Ok in E as (cs2 & _ & E). apply bind_Ok in E as (c2 & _ & E).
  apply bind_Ok in E as (m2 & E2 & E). unfold o_Checksum in *.
  pose proof (frame_st 2 _ _ _ _ Hm E1) as F1. pose proof (frame_st 2 _ _ _ _ (fr_ok _ _ _ F1) E2) as F2.
  pose proof (frame_st 4 _ _ _ _ (fr_ok _ _ _ F2) E) as F3.
  eapply frame_weaken; [exact (frame_trans _ _ _ _ _ F1 (frame_trans _ _ _ _ _ F2 F3))|].
  intros j Ha. apart_tac.
Qed.

(** Both addresses: the header stays one, with the addresses given. *)
Lemma update_addrs m ip src dst :
  ip_header m ip -> 0 <= src < 4294967296 -> 0 <= dst < 4294967296 ->
  exists m', (p ← IP_updateIpSrc m ip src; IP_updateIpDst p ip dst) = Ok m' /\ ip_header m' ip /\
    ihl m' ip = ihl m ip /\ IP_getSourceIp m' ip = Ok src /\ IP_getDestIp m' ip = Ok dst /\
    frame m m' [(ip + 10, 2); (ip + 12, 8)].
Proof.
  intros Hh Hs Hd. pose proof Hh as [Hm Hp Hl Hi].
  destruct (IP_update_addr_sum m ip o_Source src Hh) as (m1 & E1 & Hh1 & _ & Hsrc); [by left|done|].
  pose proof (IP_update_addr_frame _ _ _ _ _ Hm E1) as F1.
  destruct (IP_update_addr_sum m1 ip o_Destination dst Hh1) as (m2 & E2 & Hh2 & _ & Hdst); [by right|done|].
  pose proof (IP_update_addr_frame _ _ _ _ _ (fr_ok _ _ _ F1) E2) as F2.
  exists m2. unfold IP_updateIpSrc, IP_updateIpDst. rewrite E1. cbn [mbind res_bind].
  assert (F : frame m m2 [(ip + 10, 2); (ip + 12, 8)]).
  { eapply frame_weaken; [exact (frame_trans _ _ _ _ _ F1 F2)|]. unfold o_Source, o_Destination.
    intros j Ha. apart_tac. }
  split; [done|]. split; [done|]. split.
  { unfold ihl. erewrite frame_byte; [done|exact F|lia|apart_tac]. }
  split; [|split; [exact Hdst|exact F]].
  unfold IP_getSourceIp. rewrite (frame_ld 4 _ _ _ _ F2); [exact Hsrc|].
  unfold o_Source, o_Destination. apart_tac.
Qed.

(** The recomputed checksum: valid, and all that changes. *)
Lemma updateCheckSum_frame m ip :
  ip_header m ip ->
  exists m', IP_updateCheckSum m ip = Ok m' /\ IP_isChecksumOK m' ip = Ok true /\ ip_header m' ip /\
    ihl m' ip = ihl m ip /\ frame m m' [(ip + 10, 2)].
Proof.
  intros Hh. destruct (IP_updateCheckSum_spec m ip Hh) as (m' & h & E & Hs & Hh' & H0 & Hsum).
  pose proof (ih_bytes _ _ Hh') as Hok. pose proof (ih_pos _ _ Hh) as Hpos.
  exists m'. split; [done|]. split.
  { rewrite valid_iff by done. pose proof (fold16_mod h H0) as Hmod. rewrite Hsum.
    Z.div_mod_to_equations. lia. }
  split; [done|]. pose proof (frame_same_except _ _ _ _ Hok Hs) as F. split; [|exact F].
  unfold ihl, o_Checksum in *. erewrite frame_byte; [done|exact F|lia|apart_tac].
Qed.

(** ** Fields of two bytes *)

Lemma set_be16_frame m off v :
  bytes_ok m -> in_range 2 m off -> 0 <= v < 65536 ->
  exists m', set_be16 m off v = Ok m' /\ get_be16 m' off = Ok v /\ frame m m' [(off, 2)].
Proof.
  intros Hm Hr Hv. destruct (set_be16_Ok m off v Hr) as [m' E]. exists m'. split; [done|].
  split; [by eapply get_set_be16|]. exact (frame_st 2 _ _ _ _ Hm E).
Qed.

Lemma st_frame n m off v :
  bytes_ok m -> in_range n m off ->
  exists m', st n m off v = Ok m' /\ ld n m' off = Ok (v mod 256 ^ Z.of_nat n) /\
    frame m m' [(off, Z.of_nat n)].
Proof.
  intros Hm Hr. destruct (st_total n m off v Hr) as [m' E]. exists m'. split; [done|].
  split; [by eapply ld_st_same|by eapply frame_st].
Qed.


(** ** Buffers with a common beginning *)

Record agree (k : Z) (m m' : bytes) : Prop := {
  ag_l : k <= zlength m;
  ag_r : k <= zlength m';
  ag_same : forall j, 0 <= j < k -> byte_at m' j = byte_at m j }.

Lemma agree_byte k m m' j : agree k m m' -> 0 <= j < k -> byte_at m' j = byte_at m j.
Proof. intros []. auto. Qed.

Lemma agree_ld n k m m' off :
  agree k m m' -> 0 <= off -> off + Z.of_nat n <= k -> ld n m' off = ld n m off.
Proof.
  intros [Hl Hr He] Ho Hk. unfold ld. rewrite !decide_True by (unfold in_range; lia). do 2 f_equal.
  apply list_eq. intros i. destruct (decide (i < n)%nat); [|by rewrite !lookup_take_ge by lia].
  rewrite !lookup_take_lt, !lookup_drop by lia.
  replace (Z.to_nat off + i)%nat with (Z.to_nat (off + Z.of_nat i)) by lia.
  rewrite !lookup_in_range by lia. f_equal. apply He. lia.
Qed.

Lemma agree_be16 k m m' off : agree k m m' -> 0 <= off -> off + 2 <= k -> get_be16 m' off = get_be16 m off.
Proof. intros Ha Ho Hk. unfold get_be16. by rewrite (agree_ld 2 k m m') by done. Qed.

Lemma agree_ip_header k m m' ip :
  agree k m m' -> bytes_ok m' -> ip_header m ip -> ip + 4 * ihl m ip <= k ->
  ip_header m' ip /\ ihl m' ip = ihl m ip.
Proof.
  intros Ha Hok [Hm Hp Hl Hi] Hk.
  assert (Hih : ihl m' ip = ihl m ip) by (unfold ihl in *; rewrite (agree_byte k m m') by (done || lia); done).
  split; [|done]. destruct Ha. split; [done..|lia|lia].
Qed.

Lemma agree_checksum k m m' ip :
  agree k m m' -> bytes_ok m' -> ip_header m ip -> ip + 4 * ihl m ip <= k ->
  IP_isChecksumOK m' ip = IP_isChecksumOK m ip.
Proof.
  intros Ha Hok Hh Hk. destruct (agree_ip_header k m m' ip) as [Hh' Hih]; try done.
  pose proof Hh as [Hm Hp Hl Hi]. rewrite !IP_isChecksumOK_eq by done. unfold hdr_sum. rewrite Hih.
  do 3 f_equal. apply wsum_ext. intros j Hj. apply (agree_byte k); [done|lia].
Qed.

(** A copy to the beginning of a buffer. *)
Lemma mem_copy_start dst src n :
  bytes_ok dst -> bytes_ok src -> 0 <= n -> n <= zlength src -> n <= zlength dst ->
  exists m, splice dst 0 (take (Z.to_nat n) src) = m /\ bytes_ok m /\ zlength m = zlength dst /\ agree n src m.
Proof.
  intros Hd Hs Hn H1 H2. unfold zlength in *. eexists. split; [reflexivity|].
  assert (Hl : length (take (Z.to_nat n) src) = Z.to_nat n) by (rewrite length_take; lia).
  assert (Hz : length (splice dst 0 (take (Z.to_nat n) src)) = length dst).
  { rewrite length_splice; lia. }
  split; [apply splice_ok; [done|by apply Forall_take]|]. split; [by rewrite Hz|].
  split; unfold zlength; [lia|lia|]. intros j Hj. unfold byte_at.
  rewrite splice_lookup, Hl by lia. rewrite decide_True by lia.
  replace (Z.to_nat j - 0)%nat with (Z.to_nat j) by lia. by rewrite lookup_take_lt by lia.
Qed.

(** The first [k] bytes of a buffer and others behind them. *)
Lemma agree_app_take k m rest :
  0 <= k <= zlength m -> agree k m (take (Z.to_nat k) m ++ rest).
Proof.
  intros Hk. unfold zlength in *. split; [unfold zlength; lia| |].
  - unfold zlength. rewrite length_app, length_take. lia.
  - intros j Hj. unfold byte_at. rewrite lookup_app_l by (rewrite length_take; lia).
    by rewrite lookup_take_lt by lia.
Qed.
