(* ===== verification/PktDesc.v ===== *)
(** * The descriptor of a template packet

    Models [CPacketDescriptor] and [CPacketDescriptorPerDir] of [src/src/bp_sim.h]: what
    a packet is within its flow, in the bits of one word and a few numbers. *)

From S2P Require Import Prelude Double PktCmn.

(** [btSetMaskBit32], [btGetMaskBit32] *)
Definition set32 (a startbit stopbit v : Z) : Z := btSetMaskBit 32 a startbit stopbit v.
Definition get32 (a startbit stopbit : Z) : Z := btGetMaskBit 32 a startbit stopbit.
Definition b2z (b : bool) : Z := if b then 1 else 0.

Definition IS_SWAP : Z := 0.
Definition IS_VALID : Z := 1.
Definition PROTO_S : Z := 3.
Definition PROTO_E : Z := 2.
Definition IS_INIT_SIDE : Z := 4.
Definition IS_LAST_PKT : Z := 5.
Definition IS_RTT : Z := 6.
Definition IS_PCAP_TIMING : Z := 7.
Definition PLUGIN_ENABLE : Z := 13.
Definition BOTH_DIR_FLOW : Z := 14.
Definition LEARN_MODE_ENABLE : Z := 15.

(** ** Per direction *)

Record CPacketDescriptorPerDir : Type := mkPerDir { m_dir_pkt_num : Z; m_max_dir_flow_pkts : Z }.
Definition PerDir_new : CPacketDescriptorPerDir := mkPerDir 0 0.

Definition SetMaxPkts (val : Z) (d : CPacketDescriptorPerDir) : res CPacketDescriptorPerDir :=
  _ ← c_assert (val <? 65000); Ok (mkPerDir (m_dir_pkt_num d) (u16 val)).
Definition SetPktNum (pkt_id : Z) (d : CPacketDescriptorPerDir) : res CPacketDescriptorPerDir :=
  _ ← c_assert (pkt_id <? 65000); Ok (mkPerDir (u16 pkt_id) (m_max_dir_flow_pkts d)).

(** ** The descriptor *)

(** [m_per_dir] holds the side of the client first. *)
Record CPacketDescriptor : Type := mkDesc {
  pd_flags : Z;
  m_flow_pkt_num : Z;
  pd_plugin_id : Z;
  m_max_flow_pkts : Z;
  m_max_flow_aging : Z;
  dir_client : CPacketDescriptorPerDir;
  dir_server : CPacketDescriptorPerDir }.

(** [Clear] leaves the directions alone. *)
Definition desc_clear (d : CPacketDescriptor) : CPacketDescriptor :=
  mkDesc 0 0 0 0 0 (dir_client d) (dir_server d).

Definition set_flags (f : Z) (d : CPacketDescriptor) : CPacketDescriptor :=
  mkDesc f (m_flow_pkt_num d) (pd_plugin_id d) (m_max_flow_pkts d) (m_max_flow_aging d)
    (dir_client d) (dir_server d).
Definition set_bits (s e v : Z) (d : CPacketDescriptor) : CPacketDescriptor :=
  set_flags (set32 (pd_flags d) s e v) d.
Definition set_bit (i : Z) (b : bool) (d : CPacketDescriptor) : CPacketDescriptor :=
  set_bits i i (b2z b) d.
Definition is_bit (i : Z) (d : CPacketDescriptor) : bool := negb (get32 (pd_flags d) i i =? 0).

Definition getPluginId (d : CPacketDescriptor) : Z := pd_plugin_id d.
Definition SetPluginId (plugin_id : Z) (d : CPacketDescriptor) : CPacketDescriptor :=
  mkDesc (pd_flags d) (m_flow_pkt_num d) plugin_id (m_max_flow_pkts d) (m_max_flow_aging d)
    (dir_client d) (dir_server d).

Definition IsLearn := is_bit LEARN_MODE_ENABLE.
Definition SetLearn := set_bit LEARN_MODE_ENABLE.
Definition IsPluginEnable := is_bit PLUGIN_ENABLE.
Definition SetPluginEnable := set_bit PLUGIN_ENABLE.
Definition IsBiDirectionalFlow := is_bit BOTH_DIR_FLOW.
Definition SetBiPluginEnable := set_bit BOTH_DIR_FLOW.

Definition SetFlowPktNum (pkt_id : Z) (d : CPacketDescriptor) : CPacketDescriptor :=
  mkDesc (pd_flags d) (u16 pkt_id) (pd_plugin_id d) (m_max_flow_pkts d) (m_max_flow_aging d)
    (dir_client d) (dir_server d).
Definition getFlowPktNum (d : CPacketDescriptor) : Z := m_flow_pkt_num d.

Definition SetFlowId (flow_id : Z) : CPacketDescriptor -> CPacketDescriptor := set_bits 12 8 flow_id.
Definition getFlowId (d : CPacketDescriptor) : Z := get32 (pd_flags d) 12 8.

Definition SetPcapTiming := set_bit IS_PCAP_TIMING.
Definition IsPcapTiming := is_bit IS_PCAP_TIMING.
Definition IsRtt := is_bit IS_RTT.
Definition SetRtt := set_bit IS_RTT.
Definition IsInitSide := is_bit IS_INIT_SIDE.
Definition SetInitSide := set_bit IS_INIT_SIDE.
Definition IsSwapTuple := is_bit IS_SWAP.
Definition SetSwapTuple := set_bit IS_SWAP.
Definition IsValidPkt := is_bit IS_VALID.
Definition SetIsValidPkt := set_bit IS_VALID.

Definition SetIsTcp (is_valid : bool) := set_bits PROTO_S PROTO_E (if is_valid then 1 else 0).
Definition IsTcp (d : CPacketDescriptor) : bool := get32 (pd_flags d) PROTO_S PROTO_E =? 1.
Definition SetIsUdp (is_valid : bool) := set_bits PROTO_S PROTO_E (if is_valid then 2 else 0).
Definition IsUdp (d : CPacketDescriptor) : bool := get32 (pd_flags d) PROTO_S PROTO_E =? 2.
Definition SetIsIcmp (is_valid : bool) := set_bits PROTO_S PROTO_E (if is_valid then 3 else 0).
Definition IsIcmp (d : CPacketDescriptor) : bool := get32 (pd_flags d) PROTO_S PROTO_E =? 3.

Definition SetId (_id : Z) : CPacketDescriptor -> CPacketDescriptor := set_bits 31 16 _id.
Definition desc_getId (d : CPacketDescriptor) : Z := get32 (pd_flags d) 31 16.
Definition SetIsLastPkt := set_bit IS_LAST_PKT.
Definition IsLastPkt := is_bit IS_LAST_PKT.

Definition SetMaxPktsPerFlow (pkts : Z) (d : CPacketDescriptor) : res CPacketDescriptor :=
  _ ← c_assert (pkts <? 65000);
  Ok (mkDesc (pd_flags d) (m_flow_pkt_num d) (pd_plugin_id d) pkts (m_max_flow_aging d)
        (dir_client d) (dir_server d)).
Definition GetMaxPktsPerFlow (d : CPacketDescriptor) : Z := m_max_flow_pkts d.

(** The longest gap of a flow, doubled and with five seconds to spare, in a [uint16_t]. *)
Definition flow_timeout (sec : double) : Z :=
  let sec := double_add (double_mul sec (double_of_Z 2)) (double_of_Z 5) in
  let sec := if double_ltb (double_of_Z 65000) sec then double_of_Z 65000 else sec in
  u16 (i32_of_double sec).
Definition SetMaxFlowTimeout (sec : double) (d : CPacketDescriptor) : CPacketDescriptor :=
  mkDesc (pd_flags d) (m_flow_pkt_num d) (pd_plugin_id d) (m_max_flow_pkts d) (flow_timeout sec)
    (dir_client d) (dir_server d).
Definition GetMaxFlowTimeout (d : CPacketDescriptor) : Z := m_max_flow_aging d.

Definition GetDirInfo (d : CPacketDescriptor) : CPacketDescriptorPerDir :=
  if IsInitSide d then dir_client d else dir_server d.
(** Writing through the pointer [GetDirInfo] returns. *)
Definition upd_DirInfo (x : CPacketDescriptorPerDir) (d : CPacketDescriptor) : CPacketDescriptor :=
  if IsInitSide d
  then mkDesc (pd_flags d) (m_flow_pkt_num d) (pd_plugin_id d) (m_max_flow_pkts d)
         (m_max_flow_aging d) x (dir_server d)
  else mkDesc (pd_flags d) (m_flow_pkt_num d) (pd_plugin_id d) (m_max_flow_pkts d)
         (m_max_flow_aging d) (dir_client d) x.

Definition IsOneDirectionalFlow (d : CPacketDescriptor) : bool :=
  (m_max_dir_flow_pkts (dir_client d) =? GetMaxPktsPerFlow d) ||
  (m_max_dir_flow_pkts (dir_server d) =? GetMaxPktsPerFlow d).
