(* ===== verification/PktParser.v ===== *)
(** * The packet parser

    Models [CCapPktRaw] of [src/src/common/captureFile.{h,cpp}] and [CFlowKey],
    [CPacketIndication], [CPacketParser] and the flow table of [src/src/bp_sim.{h,cpp}]:
    a packet of a capture file is classified, its headers are located and the key of
    its flow is computed.

    Pointers into the packet are offsets from its start ([getBasePtr]). *)

From S2P Require Import Prelude Double ByteMem PktCmn PacketHdrs PktDesc.

Definition MAX_PKT_SIZE : Z := 2048.
Definition MAX_BUF_SIZE : Z := 2048.
Definition FIRST_PKT_SIZE : Z := 64.

(** [raw] is the whole buffer, of which the first [pkt_len] bytes are the packet. *)
Record CCapPktRaw : Type := mkRaw {
  raw : bytes; pkt_len : Z; pkt_cnt : Z; time_sec : Z; time_nsec : Z }.

Definition getTotalLen (p : CCapPktRaw) : Z := pkt_len p.
Definition get_time (p : CCapPktRaw) : double :=
  double_add (double_of_Z (time_sec p)) (double_div (double_of_Z (time_nsec p)) (double_of_Z 1000000000)).
Definition set_raw (m : bytes) (p : CCapPktRaw) : CCapPktRaw :=
  mkRaw m (pkt_len p) (pkt_cnt p) (time_sec p) (time_nsec p).
Definition set_pkt_len (n : Z) (p : CCapPktRaw) : CCapPktRaw :=
  mkRaw (raw p) (u16 n) (pkt_cnt p) (time_sec p) (time_nsec p).

(** The copy constructor: a buffer of just the packet. *)
Definition raw_clone (obj : CCapPktRaw) : res CCapPktRaw :=
  _ ← c_assert ((0 <? pkt_len obj) && (pkt_len obj <? MAX_PKT_SIZE));
  if decide (pkt_len obj <= zlength (raw obj)) then
    Ok (mkRaw (take (Z.to_nat (pkt_len obj)) (raw obj)) (pkt_len obj) (pkt_cnt obj)
          (time_sec obj) (time_nsec obj))
  else Err OutOfBounds.

(** [memcpy] of [n] bytes between two buffers. *)
Definition mem_copy (dst : bytes) (doff : Z) (src : bytes) (soff n : Z) : res bytes :=
  if decide (0 <= n /\ 0 <= soff /\ soff + n <= zlength src /\ 0 <= doff /\ doff + n <= zlength dst)
  then Ok (splice dst (Z.to_nat doff) (take (Z.to_nat n) (drop (Z.to_nat soff) src)))
  else Err OutOfBounds.

(** ** Keys and counters *)

Record CFlowKey : Type := mkFlowKey {
  m_ipaddr1 : Z; m_ipaddr2 : Z; m_port1 : Z; m_port2 : Z;
  m_ip_proto : Z; m_l2_proto : Z; m_vrfid : Z }.

#[export] Instance CFlowKey_eq_dec : EqDecision CFlowKey.
Proof. solve_decision. Defined.
#[export] Instance CFlowKey_countable : Countable CFlowKey.
Proof.
  apply (inj_countable'
    (fun k => (m_ipaddr1 k, m_ipaddr2 k, m_port1 k, m_port2 k, m_ip_proto k, m_l2_proto k, m_vrfid k))
    (fun '(a, b, c, d, e, f, g) => mkFlowKey a b c d e f g)).
  by intros [].
Defined.

Definition FlowKey_clean : CFlowKey := mkFlowKey 0 0 0 0 0 0 0.

(** The counters of [CCPacketParserCounters]. *)
Inductive pcnt : Type :=
  | c_pkt | c_ipv4 | c_ipv6 | c_non_ip | c_vlan | c_arp | c_mpls
  | c_non_valid_ipv4_ver | c_non_valid_ipv6_ver | c_ip_checksum_error | c_ip_length_error
  | c_ipv6_length_error | c_ip_not_first_fragment_error | c_ip_ttl_is_zero_error
  | c_ip_multicast_error | c_ip_header_options
  | c_non_tcp_udp | c_non_tcp_udp_ah | c_non_tcp_udp_esp | c_non_tcp_udp_icmp
  | c_non_tcp_udp_gre | c_non_tcp_udp_ip | c_tcp_header_options
  | c_tcp_udp_pkt_length_error | c_tcp | c_udp | c_valid_udp_tcp.

#[export] Instance pcnt_eq_dec : EqDecision pcnt.
Proof. solve_decision. Defined.

Definition CCPacketParserCounters : Type := pcnt -> Z.
Definition cinc (c : pcnt) (k : CCPacketParserCounters) : CCPacketParserCounters :=
  fun c' => if decide (c' = c) then u64 (k c + 1) else k c'.

(** [Clear] forgets four of the counters; [k] is what they held. *)
Definition counters_clear (k : CCPacketParserCounters) : CCPacketParserCounters :=
  fun c => match c with
           | c_ipv4 | c_ipv6 | c_non_valid_ipv6_ver | c_ipv6_length_error => k c
           | _ => 0
           end.

Definition getTotalErrors (k : CCPacketParserCounters) : Z :=
  u64 (k c_non_ip + k c_arp + k c_mpls + k c_non_valid_ipv4_ver + k c_ip_checksum_error +
       k c_ip_length_error + k c_ip_not_first_fragment_error + k c_ip_ttl_is_zero_error +
       k c_ip_multicast_error + k c_non_tcp_udp_ah + k c_non_tcp_udp_esp +
       k c_non_tcp_udp_icmp + k c_non_tcp_udp_gre + k c_non_tcp_udp_ip +
       k c_tcp_udp_pkt_length_error).

(** ** The indication *)

Record CPacketIndication : Type := mkInd {
  m_cap_ipg : double;
  m_packet : CCapPktRaw;
  m_ether : option Z;
  m_l3 : option Z;
  m_is_ipv6 : bool;
  m_l4 : option Z;
  m_payload : option Z;
  m_payload_len : Z;
  m_packet_padding : Z;
  m_flow_key : CFlowKey;
  m_desc : CPacketDescriptor;
  m_ether_offset : Z; m_ip_offset : Z; m_udp_tcp_offset : Z; m_payload_offset : Z }.

Definition ind_set_packet (x : CCapPktRaw) (i : CPacketIndication) : CPacketIndication :=
  mkInd (m_cap_ipg i) x (m_ether i) (m_l3 i) (m_is_ipv6 i) (m_l4 i) (m_payload i) (m_payload_len i)
    (m_packet_padding i) (m_flow_key i) (m_desc i)
    (m_ether_offset i) (m_ip_offset i) (m_udp_tcp_offset i) (m_payload_offset i).
Definition ind_set_ether (x : option Z) (i : CPacketIndication) : CPacketIndication :=
  mkInd (m_cap_ipg i) (m_packet i) x (m_l3 i) (m_is_ipv6 i) (m_l4 i) (m_payload i) (m_payload_len i)
    (m_packet_padding i) (m_flow_key i) (m_desc i)
    (m_ether_offset i) (m_ip_offset i) (m_udp_tcp_offset i) (m_payload_offset i).
Definition ind_set_l3 (x : option Z) (v6 : bool) (i : CPacketIndication) : CPacketIndication :=
  mkInd (m_cap_ipg i) (m_packet i) (m_ether i) x v6 (m_l4 i) (m_payload i) (m_payload_len i)
    (m_packet_padding i) (m_flow_key i) (m_desc i)
    (m_ether_offset i) (m_ip_offset i) (m_udp_tcp_offset i) (m_payload_offset i).
Definition ind_set_l4 (x : option Z) (i : CPacketIndication) : CPacketIndication :=
  mkInd (m_cap_ipg i) (m_packet i) (m_ether i) (m_l3 i) (m_is_ipv6 i) x (m_payload i) (m_payload_len i)
    (m_packet_padding i) (m_flow_key i) (m_desc i)
    (m_ether_offset i) (m_ip_offset i) (m_udp_tcp_offset i) (m_payload_offset i).
Definition ind_set_payload (x : option Z) (len : Z) (i : CPacketIndication) : CPacketIndication :=
  mkInd (m_cap_ipg i) (m_packet i) (m_ether i) (m_l3 i) (m_is_ipv6 i) (m_l4 i) x len
    (m_packet_padding i) (m_flow_key i) (m_desc i)
    (m_ether_offset i) (m_ip_offset i) (m_udp_tcp_offset i) (m_payload_offset i).
Definition ind_set_padding (x : Z) (i : CPacketIndication) : CPacketIndication :=
  mkInd (m_cap_ipg i) (m_packet i) (m_ether i) (m_l3 i) (m_is_ipv6 i) (m_l4 i) (m_payload i)
    (m_payload_len i) (u16 x) (m_flow_key i) (m_desc i)
    (m_ether_offset i) (m_ip_offset i) (m_udp_tcp_offset i) (m_payload_offset i).
Definition ind_set_key (x : CFlowKey) (i : CPacketIndication) : CPacketIndication :=
  mkInd (m_cap_ipg i) (m_packet i) (m_ether i) (m_l3 i) (m_is_ipv6 i) (m_l4 i) (m_payload i)
    (m_payload_len i) (m_packet_padding i) x (m_desc i)
    (m_ether_offset i) (m_ip_offset i) (m_udp_tcp_offset i) (m_payload_offset i).
Definition ind_set_desc (x : CPacketDescriptor) (i : CPacketIndication) : CPacketIndication :=
  mkInd (m_cap_ipg i) (m_packet i) (m_ether i) (m_l3 i) (m_is_ipv6 i) (m_l4 i) (m_payload i)
    (m_payload_len i) (m_packet_padding i) (m_flow_key i) x
    (m_ether_offset i) (m_ip_offset i) (m_udp_tcp_offset i) (m_payload_offset i).
Definition ind_set_ipg (x : double) (i : CPacketIndication) : CPacketIndication :=
  mkInd x (m_packet i) (m_ether i) (m_l3 i) (m_is_ipv6 i) (m_l4 i) (m_payload i)
    (m_payload_len i) (m_packet_padding i) (m_flow_key i) (m_desc i)
    (m_ether_offset i) (m_ip_offset i) (m_udp_tcp_offset i) (m_payload_offset i).
Definition ind_set_offsets (e ip l4 pl : Z) (i : CPacketIndication) : CPacketIndication :=
  mkInd (m_cap_ipg i) (m_packet i) (m_ether i) (m_l3 i) (m_is_ipv6 i) (m_l4 i) (m_payload i)
    (m_payload_len i) (m_packet_padding i) (m_flow_key i) (m_desc i) (u8 e) (u8 ip) (u8 l4) (u8 pl).

(** A pointer the code asserts not to be null. *)
Definition ptr (p : option Z) : res Z :=
  match p with Some x => Ok x | None => Err AssertFail end.

Definition getEtherOffset (i : CPacketIndication) : res Z := ptr (m_ether i).
Definition getIpOffset (i : CPacketIndication) : res Z := ptr (m_l3 i).
Definition getTcpOffset (i : CPacketIndication) : res Z := ptr (m_l4 i).
Definition getPayloadOffset (i : CPacketIndication) : Z := default 0 (m_payload i).
Definition getIpAppOptionOffset (i : CPacketIndication) : res Z :=
  o ← getIpOffset i; Ok (o + (if m_is_ipv6 i then 40 else IP_DefaultSize)).

Definition ind_clean (i : CPacketIndication) : CPacketIndication :=
  ind_set_payload None 0 (ind_set_l4 None (ind_set_l3 None (m_is_ipv6 i)
    (ind_set_ether None (ind_set_desc (desc_clear (m_desc i)) i)))).

Definition UpdateOffsets (i : CPacketIndication) : res CPacketIndication :=
  e ← getEtherOffset i; ip ← getIpOffset i; l4 ← getTcpOffset i;
  Ok (ind_set_offsets e ip l4 (getPayloadOffset i) i).

Definition UpdatePacketPadding (i : CPacketIndication) : res CPacketIndication :=
  ip ← getIpOffset i;
  tl ← IP_getTotalLength (raw (m_packet i)) ip;
  Ok (ind_set_padding (getTotalLen (m_packet i) - (tl + ip)) i).

Definition getTTL (i : CPacketIndication) : res Z :=
  ip ← getIpOffset i;
  if m_is_ipv6 i then IPv6_getHopLimit (raw (m_packet i)) ip
  else IP_getTimeToLive (raw (m_packet i)) ip.
Definition setTTL (ttl : Z) (i : CPacketIndication) : res CPacketIndication :=
  ip ← getIpOffset i;
  m ← (if m_is_ipv6 i then IPv6_setHopLimit (raw (m_packet i)) ip ttl
       else m ← IP_setTimeToLive (raw (m_packet i)) ip ttl; IP_updateCheckSum m ip);
  Ok (ind_set_packet (set_raw m (m_packet i)) i).

(** [Clone]: the offsets into a fresh copy [pkt] are those of [obj]. *)
Definition ind_clone (obj : CPacketIndication) (pkt : CCapPktRaw) : res CPacketIndication :=
  e ← getEtherOffset obj; ip ← getIpOffset obj; l4 ← getTcpOffset obj;
  let pl := getPayloadOffset obj in
  Ok (mkInd (m_cap_ipg obj) pkt (Some e) (Some ip) (m_is_ipv6 obj) (Some l4)
        (if pl =? 0 then None else Some pl) (m_payload_len obj) (m_packet_padding obj)
        (m_flow_key obj) (m_desc obj)
        (m_ether_offset obj) (m_ip_offset obj) (m_udp_tcp_offset obj) (m_payload_offset obj)).

(** ** The key of the flow *)

(** The key, and whether the packet goes from the smaller address to the larger. *)
Definition flow_key (ip_src ip_dst src_port dst_port proto : Z) : CFlowKey * bool :=
  if ip_dst <? ip_src then (mkFlowKey ip_dst ip_src dst_port src_port proto 0 0, false)
  else (mkFlowKey ip_src ip_dst src_port dst_port proto 0 0, true).

Definition SetKey (i : CPacketIndication) : res CPacketIndication :=
  let m := raw (m_packet i) in
  ip ← getIpOffset i;
  '(ip_src, ip_dst, proto) ←
    (if m_is_ipv6 i then
       s ← IPv6_getSourceIpv6 m ip;
       d ← IPv6_getDestIpv6 m ip;
       s6 ← get_idx s 6; s7 ← get_idx s 7; d6 ← get_idx d 6; d7 ← get_idx d 7;
       p ← IPv6_getNextHdr m ip;
       Ok (u32 (Z.lor (Z.shiftl s6 16) s7), u32 (Z.lor (Z.shiftl d6 16) d7), p)
     else
       s ← IP_getSourceIp m ip; d ← IP_getDestIp m ip; p ← IP_getProtocol m ip; Ok (s, d, p));
  l4 ← getTcpOffset i;
  src_port ← UDP_getSourcePort m l4;
  dst_port ← UDP_getDestPort m l4;
  let '(key, swap) := flow_key ip_src ip_dst src_port dst_port proto in
  let desc := SetIsValidPkt true (m_desc i) in
  let desc := if swap then SetSwapTuple true desc else desc in
  Ok (ind_set_key key (ind_set_desc desc i)).

(** ** Processing a packet *)

(** The counters of the parser and the indication, as a stage leaves them; [false]
    when the stage gave the packet up. *)
Notation pstate := (CCPacketParserCounters * CPacketIndication)%type.

(** [ProcessIpPacketProtocol]: the offset behind the TCP or UDP header, or [None] for
    the result 1. *)
Definition ProcessIpPacketProtocol (st : pstate) (protocol offset : Z)
  : res (pstate * option Z) :=
  let '(k, i) := st in
  r ← (if protocol =? 0x06 then
         let i := ind_set_l4 (Some offset) (ind_set_desc (SetIsTcp true (m_desc i)) i) in
         len ← TCP_getHeaderLength (raw (m_packet i)) offset;
         let k := if 5 * 4 <? len then cinc c_tcp_header_options k else k in
         Ok (cinc c_tcp k, i, Some (offset + len))
       else if protocol =? 0x11 then
         let i := ind_set_l4 (Some offset) (ind_set_desc (SetIsUdp true (m_desc i)) i) in
         Ok (cinc c_udp k, i, Some (offset + 8))
       else
         let c := if protocol =? 0x33 then c_non_tcp_udp_ah
                  else if protocol =? 0x32 then c_non_tcp_udp_esp
                  else if (protocol =? 0x01) || (protocol =? 0x3A) then c_non_tcp_udp_icmp
                  else if protocol =? 0x2F then c_non_tcp_udp_gre
                  else if protocol =? 0x04 then c_non_ip
                  else c_non_tcp_udp in
         Ok (cinc c k, i, None));
  let '(k, i, o) := r in
  match o with
  | None => Ok ((k, i), None)
  | Some offset =>
      if getTotalLen (m_packet i) <? offset then Ok ((cinc c_tcp_udp_pkt_length_error k, i), None)
      else Ok ((k, i), Some offset)
  end.

(** Give up, counting [c]. *)
Definition give_up_on (c : pcnt) (k : CCPacketParserCounters) (i : CPacketIndication) : res pstate :=
  Ok (cinc c k, i).

Definition pad_len (n : Z) (p : CCapPktRaw) : CCapPktRaw :=
  let p := set_pkt_len n p in if pkt_len p <? 60 then set_pkt_len 60 p else p.

Definition ProcessIpPacket (k : CCPacketParserCounters) (i : CPacketIndication) (offset : Z)
  : res pstate :=
  let m := raw (m_packet i) in
  let total := getTotalLen (m_packet i) in
  ip ← getIpOffset i;
  let k := cinc c_pkt k in
  ver ← IP_getVersion m ip;
  if negb (ver =? 4) then give_up_on c_non_valid_ipv4_ver k i
  else
    let k := cinc c_ipv4 k in
    tl ← IP_getTotalLength m ip;
    if u32 total <? u32 (tl + offset) then give_up_on c_ip_length_error k i
    else
      let ip_offset := u16 offset in
      hl ← IP_getHeaderLength m ip;
      let k := if 5 * 4 <? hl then cinc c_ip_header_options k else k in
      if u32 total <? u32 (hl + offset) then give_up_on c_ip_length_error k i
      else
        let offset := offset + hl in
        ttl ← IP_getTimeToLive m ip;
        if ttl =? 0 then give_up_on c_ip_ttl_is_zero_error k i
        else
          nff ← IP_isNotFirstFragment m ip;
          if (nff : bool) then give_up_on c_ip_not_first_fragment_error k i
          else
            protocol ← IP_getProtocol m ip;
            '((k, i), o) ← ProcessIpPacketProtocol (k, i) protocol offset;
            match o with
            | None => Ok (k, i)
            | Some offset =>
                let payload_offset_from_ip := u16 (offset - ip_offset) in
                if tl <? payload_offset_from_ip then give_up_on c_tcp_udp_pkt_length_error k i
                else if MAX_BUF_SIZE - FIRST_PKT_SIZE <? pkt_len (m_packet i) then
                  give_up_on c_tcp_udp_pkt_length_error k i
                else
                  let i := ind_set_packet (pad_len (tl + ip) (m_packet i)) i in
                  let k := cinc c_valid_udp_tcp k in
                  let i := ind_set_payload (Some offset) (u16 (tl - payload_offset_from_ip)) i in
                  i ← UpdatePacketPadding i;
                  i ← SetKey i;
                  Ok (k, i)
            end.

Section Ipv6.
(** [--ipv6], and the upper 96 bits of the addresses it uses. *)
Context (is_ipv6_enable : bool) (m_src_ipv6 m_dst_ipv6 : list Z).

Definition ProcessIpv6Packet (k : CCPacketParserCounters) (i : CPacketIndication) (offset : Z)
  : res pstate :=
  let m := raw (m_packet i) in
  let total := getTotalLen (m_packet i) in
  ip ← getIpOffset i;
  let k := cinc c_pkt k in
  ver ← IPv6_getVersion m ip;
  if negb (ver =? 6) then give_up_on c_non_valid_ipv6_ver k i
  else
    let k := cinc c_ipv6 k in
    pl ← IPv6_getPayloadLen m ip;
    if u32 total <? u32 (pl + offset + IPV6_HDR_LEN) then give_up_on c_ipv6_length_error k i
    else
      m ← IPv6_updateMSBIpv6Src m ip m_src_ipv6;
      m ← IPv6_updateMSBIpv6Dst m ip m_dst_ipv6;
      let i := ind_set_packet (set_raw m (m_packet i)) i in
      protocol ← IPv6_getNextHdr m ip;
      '((k, i), o) ← ProcessIpPacketProtocol (k, i) protocol (offset + IPV6_HDR_LEN);
      match o with
      | None => Ok (k, i)
      | Some offset =>
          let real_pkt_size := u16 (pl + ip + IPV6_HDR_LEN) in
          let i := ind_set_packet (pad_len real_pkt_size (m_packet i)) i in
          let k := cinc c_valid_udp_tcp k in
          let i := ind_set_payload (Some offset) pl i in
          let i := ind_set_padding (getTotalLen (m_packet i) - real_pkt_size) i in
          _ ← c_assert (real_pkt_size <=? getTotalLen (m_packet i));
          i ← SetKey i;
          Ok (k, i)
      end.

(** [ConvertPacketToIpv6InPlace]: the IPv4 header at [offset] becomes an IPv6 one.
    [cbuff] is a static buffer of [MAX_PKT_SIZE] bytes; [None] when the lengths of the
    IPv4 header contradict each other. *)
Definition ConvertPacketToIpv6InPlace (cbuff : bytes) (i : CPacketIndication) (offset : Z)
  : res (option CPacketIndication) :=
  let m := raw (m_packet i) in
  b ← mem_copy cbuff 0 m 0 offset;
  b ← st16 b 12 (PKT_HTONS ETH_IPv6);
  b ← mem_copy b offset (replicate (Z.to_nat IPV6_HDR_LEN) 0) 0 IPV6_HDR_LEN;
  b ← IPv6_setVersion b offset 6;
  tl ← IP_getTotalLength m offset;
  hl ← IP_getHeaderLength m offset;
  if tl <? hl then Ok None
  else
    let p_len := u16 (tl - hl) in
    b ← IPv6_setPayloadLen b offset p_len;
    l4_proto ← IP_getProtocol m offset;
    b ← IPv6_setNextHdr b offset l4_proto;
    b ← IPv6_setHopLimit b offset 64;
    s ← IP_getSourceIp m offset;
    b ← IPv6_updateLSBIpv6Src b offset s;
    d ← IP_getDestIp m offset;
    b ← IPv6_updateLSBIpv6Dst b offset d;
    let ipv4_offset := u16 (offset + hl) in
    let ipv6_offset := u16 (offset + IPV6_HDR_LEN) in
    b ← mem_copy b ipv6_offset m ipv4_offset p_len;
    let ipv6_offset := u16 (ipv6_offset + p_len) in
    m ← mem_copy m 0 b 0 ipv6_offset;
    Ok (Some (ind_set_l3 (m_l3 i) true
                (ind_set_packet (set_pkt_len ipv6_offset (set_raw m (m_packet i))) i))).

(** The offset of the IP header and whether it is IPv6, or the counter of what the
    frame is instead. *)
Definition ether_payload (m : bytes) : res (pcnt + Z * bool) :=
  p ← ETH_getNextProtocol m 0;
  if p =? ETH_IP then Ok (inr (14, false))
  else if p =? ETH_IPv6 then Ok (inr (14, true))
  else if p =? ETH_VLAN then
    v ← ETH_getVlanProtocol m 0;
    if v =? ETH_IP then Ok (inr (18, false))
    else if v =? ETH_IPv6 then Ok (inr (18, true))
    else if (v =? ETH_MPLS_Multicast) || (v =? ETH_MPLS_Unicast) then Ok (inl c_mpls)
    else if v =? ETH_ARP then Ok (inl c_arp)
    else Ok (inl c_non_ip)
  else if p =? ETH_ARP then Ok (inl c_arp)
  else if (p =? ETH_MPLS_Multicast) || (p =? ETH_MPLS_Unicast) then Ok (inl c_mpls)
  else Ok (inl c_non_ip).

(** [_ProcessPacket]; without [--ipv6] an IPv6 packet ends the process ([exit]). *)
Definition process_packet (cbuff : bytes) (k : CCPacketParserCounters) (i : CPacketIndication)
    (pkt : CCapPktRaw) : res pstate :=
  let i := ind_set_ether (Some 0) (ind_clean (ind_set_packet pkt i)) in
  let i := ind_set_l3 (m_l3 i) false i in
  p ← ETH_getNextProtocol (raw pkt) 0;
  let k := if p =? ETH_VLAN then cinc c_vlan k else k in
  e ← ether_payload (raw pkt);
  match e with
  | inl c => Ok (cinc c k, i)
  | inr (offset, v6) =>
      let i := ind_set_l3 (Some offset) v6 i in
      if negb v6 && (u32 (getTotalLen pkt) <? 14 + 20) then Ok (cinc c_ip_length_error k, i)
      else if v6 && negb is_ipv6_enable then throw "--ipv6 must be set to process ipv6 packets"
      else
        i' ← (if is_ipv6_enable && negb v6 then ConvertPacketToIpv6InPlace cbuff i offset
              else Ok (Some i));
        match i' with
        | None => Ok (k, i)
        | Some i => if m_is_ipv6 i then ProcessIpv6Packet k i offset else ProcessIpPacket k i offset
        end
  end.

Definition ind_ProcessPacket (cbuff : bytes) (k : CCPacketParserCounters) (i : CPacketIndication)
    (pkt : CCapPktRaw) : res pstate :=
  '(k, i) ← process_packet cbuff k i pkt;
  i ← (if IsValidPkt (m_desc i) then UpdateOffsets i else Ok i);
  Ok (k, i).

(** [CPacketParser::ProcessPacket] *)
Definition ProcessPacket (cbuff : bytes) (k : CCPacketParserCounters) (i : CPacketIndication)
    (pkt : CCapPktRaw) : res (bool * pstate) :=
  '(k, i) ← ind_ProcessPacket cbuff k i pkt;
  Ok (IsValidPkt (m_desc i), (k, i)).
End Ipv6.

(** ** The flow table *)

(** [CFlow]; the table hands out pointers, here the key of the flow. *)
Record CFlow : Type := mkFlow { is_fif_swap : bool; fl_pkt_id : Z; fl_flow_id : Z }.
Definition CFlow_new : CFlow := mkFlow false 0 0.

Record CFlowTableStats : Type := mkFtStats {
  ft_lookup : Z; ft_found : Z; ft_fif : Z; ft_add : Z; ft_remove : Z; ft_fif_err : Z; ft_active : Z }.
Definition FlowTableStats_clear : CFlowTableStats := mkFtStats 0 0 0 0 0 0 0.

Record CFlowTable : Type := mkFlowTable { ft_stats : CFlowTableStats; ft_map : gmap CFlowKey CFlow }.
Definition FlowTable_create : CFlowTable := mkFlowTable FlowTableStats_clear ∅.

Definition ft_process (key : CFlowKey) (t : CFlowTable) : CFlow * bool * CFlowTable :=
  let s := ft_stats t in
  match ft_map t !! key with
  | Some f =>
      (f, false, mkFlowTable (mkFtStats (u64 (ft_lookup s + 1)) (u64 (ft_found s + 1)) (ft_fif s)
                                (ft_add s) (ft_remove s) (ft_fif_err s) (ft_active s)) (ft_map t))
  | None =>
      (CFlow_new, true,
       mkFlowTable (mkFtStats (u64 (ft_lookup s + 1)) (ft_found s) (u64 (ft_fif s + 1))
                      (u64 (ft_add s + 1)) (ft_remove s) (ft_fif_err s) (u64 (ft_active s + 1)))
         (<[key := CFlow_new]> (ft_map t)))
  end.

Definition ft_remove_key (key : CFlowKey) (t : CFlowTable) : res CFlowTable :=
  let s := ft_stats t in
  match ft_map t !! key with
  | Some _ =>
      Ok (mkFlowTable (mkFtStats (ft_lookup s) (ft_found s) (ft_fif s) (ft_add s)
                         (u64 (ft_remove s + 1)) (ft_fif_err s) (u64 (ft_active s - 1)))
            (delete key (ft_map t)))
  | None => Err AssertFail
  end.
Definition ft_set (key : CFlowKey) (f : CFlow) (t : CFlowTable) : CFlowTable :=
  mkFlowTable (ft_stats t) (<[key := f]> (ft_map t)).
Definition ft_remove_all (t : CFlowTable) : CFlowTable := mkFlowTable (ft_stats t) ∅.
Definition ft_count (t : CFlowTable) : Z := Z.of_nat (size (ft_map t)).
