(* ===== verification/PktParserFacts.v ===== *)
(** * Facts about the packet parser

    The key of a flow is that of its two directions; the parser reads inside the
    buffer of a packet and, when it accepts one, locates its headers inside the packet. *)

From S2P Require Import Prelude Double ByteMem PktCmn PktCmnFacts PacketHdrs PacketHdrsFacts PktDesc PktParser.

(** ** Descriptor bits *)

Lemma get_set_bit i b d : 0 <= i < 32 -> is_bit i (set_bit i b d) = b.
Proof.
  intros Hi. unfold is_bit, set_bit, set_bits, get32, set32. simpl.
  rewrite bits_le_get_set_same by lia. replace (i - i + 1) with 1 by lia.
  by destruct b.
Qed.

Lemma get_set_bit_other i s e v d :
  0 <= i < 32 -> 0 <= e <= s -> s < 32 -> i < e \/ s < i -> is_bit i (set_bits s e v d) = is_bit i d.
Proof.
  intros. unfold is_bit, set_bits, get32, set32. simpl.
  by rewrite bits_le_get_set_other by lia.
Qed.

Lemma get_set_field s e v d :
  0 <= e <= s -> s < 32 -> s - e < 31 -> get32 (pd_flags (set_bits s e v d)) s e = v mod 2 ^ (s - e + 1).
Proof. intros. unfold set_bits, get32, set32. simpl. by rewrite bits_le_get_set_same by lia. Qed.

Lemma get_set_field_other s e s' e' v d :
  0 <= e <= s -> s < 32 -> 0 <= e' <= s' -> s' < 32 -> s' < e \/ s < e' ->
  get32 (pd_flags (set_bits s e v d)) s' e' = get32 (pd_flags d) s' e'.
Proof. intros. unfold set_bits, get32, set32. simpl. by rewrite bits_le_get_set_other by lia. Qed.

(** ** Keys *)

(** The packets of the other direction have the same key and the other orientation. *)
Lemma flow_key_sym s d sp dp p :
  s ≠ d -> flow_key d s dp sp p = (fst (flow_key s d sp dp p), negb (snd (flow_key s d sp dp p))).
Proof.
  intros Hne. unfold flow_key. destruct (Z.ltb_spec d s); destruct (Z.ltb_spec s d); try lia; done.
Qed.

(** Packets with one key belong to one flow, in the same or in opposite directions. *)
Lemma flow_key_inj s d sp dp p s' d' sp' dp' p' k b b' :
  flow_key s d sp dp p = (k, b) -> flow_key s' d' sp' dp' p' = (k, b') ->
  p = p' /\ (b = b' /\ s = s' /\ d = d' /\ sp = sp' /\ dp = dp' \/
             b = negb b' /\ s = d' /\ d = s' /\ sp = dp' /\ dp = sp').
Proof.
  unfold flow_key. destruct (d <? s), (d' <? s'); intros [= <- <-] [= -> -> -> -> ->]; naive_solver.
Qed.

(** Between ports of one host the two directions have different keys. *)
Lemma flow_key_same_host s sp dp p :
  sp ≠ dp -> fst (flow_key s s sp dp p) ≠ fst (flow_key s s dp sp p).
Proof. intros Hne. unfold flow_key. rewrite Z.ltb_irrefl. simpl. intros [= ? _]. done. Qed.

(** ** Reading *)

Lemma getMaskBit8_high v : 0 <= v < 256 -> getMaskBit8 v 0 3 = v / 16.
Proof.
  intros Hv. unfold getMaskBit8, btGetMaskBitBigE.
  change (8 =? 3 - 0 + 1) with false. cbv zeta iota.
  change (btGetMask 8 0 3) with 240. change (btGetShift 8 3) with 4.
  change 240 with (Z.shiftl (Z.ones 4) 4). rewrite Z.shiftr_land, Z.shiftr_shiftl_l by lia.
  rewrite Z.sub_diag, Z.shiftl_0_r, Z.land_ones, Z.shiftr_div_pow2 by lia.
  unfold wrap. change (2 ^ 4) with 16. change (2 ^ 8) with 256. Z.div_mod_to_equations. lia.
Qed.

Lemma TCP_getHeaderLength_Ok m t :
  bytes_ok m -> in_range 1 m (t + 12) -> exists l, TCP_getHeaderLength m t = Ok l /\ 0 <= l <= 60.
Proof.
  intros Hm Hr. unfold TCP_getHeaderLength. rewrite ld8_byte by done. cbn [mbind res_bind].
  eexists. split; [done|]. unfold in_range in Hr. pose proof (byte_at_range m (t + 12) Hm).
  rewrite getMaskBit8_high, Z.shiftl_mul_pow2 by lia. change (2 ^ 2) with 4.
  rewrite u8_id; Z.div_mod_to_equations; lia.
Qed.

Lemma IP_getHeaderLength_Ok m ip :
  bytes_ok m -> 0 <= ip < zlength m -> exists l, IP_getHeaderLength m ip = Ok l /\ 0 <= l <= 60.
Proof.
  intros Hm Hr. rewrite IP_getHeaderLength_eq by done. eexists. split; [done|].
  pose proof (ihl_range m ip). lia.
Qed.

Lemma IP_getTotalLength_Ok m ip :
  0 <= ip -> ip + 4 <= zlength m -> exists l, IP_getTotalLength m ip = Ok l /\ 0 <= l < 65536.
Proof.
  intros Hi Hl. unfold IP_getTotalLength, o_Length. rewrite ld_Ok by (unfold in_range; lia).
  eexists. split; [done|]. apply PAL_NTOHS_range.
Qed.

(** Everything a stage may read of the IP header. *)
Lemma IP_reads m ip :
  0 <= ip -> ip + 20 <= zlength m ->
  (exists v, IP_getVersion m ip = Ok v) /\ (exists v, IP_getTimeToLive m ip = Ok v) /\
  (exists v, IP_isNotFirstFragment m ip = Ok v) /\ (exists v, IP_getProtocol m ip = Ok v) /\
  (exists v, IP_getSourceIp m ip = Ok v) /\ (exists v, IP_getDestIp m ip = Ok v).
Proof.
  intros Hi Hl. unfold IP_getVersion, IP_getTimeToLive, IP_isNotFirstFragment, IP_isFragmented,
    IP_isFirstFragment, IP_getFragmentOffset, IP_isMoreFragments, IP_getProtocol, IP_getSourceIp,
    IP_getDestIp, o_Ver_HeaderLength, o_TTL, o_Frag, o_Protocol, o_Source, o_Destination.
  rewrite (ld_Ok 1 m (ip + 0)), (ld_Ok 1 m (ip + 8)), (ld_Ok 2 m (ip + 6)), (ld_Ok 1 m (ip + 9)),
    (ld_Ok 4 m (ip + 12)), (ld_Ok 4 m (ip + 16)) by (unfold in_range; lia).
  split_and!; eexists; reflexivity.
Qed.

Lemma UDP_ports_Ok m u :
  0 <= u -> u + 4 <= zlength m ->
  exists s d, UDP_getSourcePort m u = Ok s /\ UDP_getDestPort m u = Ok d /\
    0 <= s < 65536 /\ 0 <= d < 65536.
Proof.
  intros Hu Hl. unfold UDP_getSourcePort, UDP_getDestPort, get_be16.
  rewrite (ld_Ok 2 m u), (ld_Ok 2 m (u + 2)) by (unfold in_range; lia).
  eexists _, _. split; [reflexivity|]. split; [reflexivity|]. split; apply PAL_NTOHS_range.
Qed.

(** ** Errors *)

(** The counters [getTotalErrors] adds. *)
Definition is_err (c : pcnt) : bool :=
  match c with
  | c_non_ip | c_arp | c_mpls | c_non_valid_ipv4_ver | c_ip_checksum_error | c_ip_length_error
  | c_ip_not_first_fragment_error | c_ip_ttl_is_zero_error | c_ip_multicast_error
  | c_non_tcp_udp_ah | c_non_tcp_udp_esp | c_non_tcp_udp_icmp | c_non_tcp_udp_gre
  | c_non_tcp_udp_ip | c_tcp_udp_pkt_length_error => true
  | _ => false
  end.
Definition same_errs (k k' : CCPacketParserCounters) : Prop := forall c, is_err c = true -> k' c = k c.

Lemma same_errs_refl k : same_errs k k.
Proof. done. Qed.
Lemma same_errs_trans k k' k'' : same_errs k k' -> same_errs k' k'' -> same_errs k k''.
Proof. intros H1 H2 c Hc. by rewrite (H2 c Hc), (H1 c Hc). Qed.
Lemma same_errs_cinc c k k' : is_err c = false -> same_errs k k' -> same_errs k (cinc c k').
Proof.
  intros Hc Hk c' Hc'. unfold cinc. rewrite decide_False; [by apply Hk|]. intros ->. congruence.
Qed.
Lemma same_errs_total k k' : same_errs k k' -> getTotalErrors k' = getTotalErrors k.
Proof. intros Hk. unfold getTotalErrors. by rewrite !Hk by done. Qed.
Ltac errs := repeat first [apply same_errs_cinc; [reflexivity|] | case_match | apply same_errs_refl].

(** ** IPv4 *)

(** A packet in a buffer of the size the readers use. *)
Record in_buffer (p : CCapPktRaw) : Prop := {
  ib_ok : bytes_ok (raw p);
  ib_buf : MAX_PKT_SIZE <= zlength (raw p);
  ib_len : 0 <= pkt_len p <= MAX_PKT_SIZE }.

(** The headers the parser found in the packet [p], whose IPv4 header is at [ip]. *)
Definition headers_found (p : CCapPktRaw) (ip : Z) (i : CPacketIndication) : Prop :=
  let m := raw p in
  exists hl l4 tl src dst proto sp dp,
    IP_getHeaderLength m ip = Ok hl /\ IP_getTotalLength m ip = Ok tl /\
    IP_getProtocol m ip = Ok proto /\ IP_getSourceIp m ip = Ok src /\ IP_getDestIp m ip = Ok dst /\
    (proto = 6 /\ IsTcp (m_desc i) = true /\ TCP_getHeaderLength m (ip + hl) = Ok l4 \/
     proto = 17 /\ IsUdp (m_desc i) = true /\ l4 = 8) /\
    UDP_getSourcePort m (ip + hl) = Ok sp /\ UDP_getDestPort m (ip + hl) = Ok dp /\
    m_l3 i = Some ip /\ m_l4 i = Some (ip + hl) /\ m_payload i = Some (ip + hl + l4) /\
    0 <= hl /\ 0 <= l4 /\ hl + l4 <= tl /\ ip + tl <= pkt_len p /\
    m_payload_len i = tl - hl - l4 /\
    raw (m_packet i) = m /\ pkt_len (m_packet i) = Z.max 60 (ip + tl) /\
    pkt_len p <= MAX_BUF_SIZE - FIRST_PKT_SIZE /\
    pkt_cnt (m_packet i) = pkt_cnt p /\ time_sec (m_packet i) = time_sec p /\
    time_nsec (m_packet i) = time_nsec p /\ m_is_ipv6 i = false /\
    (m_flow_key i, IsSwapTuple (m_desc i)) = flow_key src dst sp dp proto.

(** The parser leaves the flags from the fourth bit on alone. *)
Definition same_high (d d' : CPacketDescriptor) : Prop :=
  forall b, 4 <= b < 32 -> is_bit b d' = is_bit b d.

Lemma same_high_set s e v d : 0 <= e <= s -> s < 4 -> same_high d (set_bits s e v d).
Proof. intros ? ? b Hb. by apply get_set_bit_other; lia. Qed.

Lemma set_proto_bits v d :
  IsValidPkt (set_bits PROTO_S PROTO_E v d) = IsValidPkt d /\
  IsSwapTuple (set_bits PROTO_S PROTO_E v d) = IsSwapTuple d /\
  same_high d (set_bits PROTO_S PROTO_E v d).
Proof.
  unfold IsValidPkt, IsSwapTuple, PROTO_S, PROTO_E, IS_VALID, IS_SWAP.
  rewrite !get_set_bit_other by lia. split_and!; try done. by apply same_high_set; lia.
Qed.

Lemma protocol_spec k i protocol offset :
  bytes_ok (raw (m_packet i)) -> 0 <= offset -> offset + 20 <= zlength (raw (m_packet i)) ->
  exists k' i' o, ProcessIpPacketProtocol (k, i) protocol offset = Ok (k', i', o) /\
    m_packet i' = m_packet i /\ m_l3 i' = m_l3 i /\ m_is_ipv6 i' = m_is_ipv6 i /\ m_ether i' = m_ether i /\
    IsValidPkt (m_desc i') = IsValidPkt (m_desc i) /\ IsSwapTuple (m_desc i') = IsSwapTuple (m_desc i) /\
    same_high (m_desc i) (m_desc i') /\
    match o with
    | Some off =>
        same_errs k k' /\ m_l4 i' = Some offset /\ off <= pkt_len (m_packet i) /\ 0 <= off - offset <= 60 /\
        (protocol = 6 /\ IsTcp (m_desc i') = true /\
           TCP_getHeaderLength (raw (m_packet i)) offset = Ok (off - offset) \/
         protocol = 17 /\ IsUdp (m_desc i') = true /\ off - offset = 8)
    | None => True
    end.
Proof.
  intros Hm Ho Hl. unfold ProcessIpPacketProtocol.
  destruct (TCP_getHeaderLength_Ok (raw (m_packet i)) offset Hm) as (len & Hlen & Hr); [unfold in_range; lia|].
  destruct (Z.eqb_spec protocol 0x06) as [->|H6]; [|destruct (Z.eqb_spec protocol 0x11) as [->|H17]].
  - cbn [ind_set_l4 ind_set_desc m_packet]. rewrite Hlen. cbn [mbind res_bind].
    cbn [ind_set_l4 ind_set_desc m_packet]. unfold getTotalLen.
    destruct (set_proto_bits 1 (m_desc i)) as (Hv & Hs & Hh).
    destruct (pkt_len (m_packet i) <? offset + len) eqn:Hlt; eexists _, _, _; (split; [reflexivity|]);
      do 4 (split; [done|]); (split; [exact Hv|]); (split; [exact Hs|]);
      (split; [exact Hh|]); [done|].
    apply Z.ltb_ge in Hlt. replace (offset + len - offset) with len by lia.
    split; [by errs|]. repeat (split; [done || lia|]). left. split; [done|]. split; [|done].
    change (get32 (pd_flags (set_bits PROTO_S PROTO_E 1 (m_desc i))) PROTO_S PROTO_E =? 1 = true).
    by rewrite get_set_field.
  - cbn [mbind res_bind]. cbn [ind_set_l4 ind_set_desc m_packet]. unfold getTotalLen.
    destruct (set_proto_bits 2 (m_desc i)) as (Hv & Hs & Hh).
    destruct (pkt_len (m_packet i) <? offset + 8) eqn:Hlt; eexists _, _, _; (split; [reflexivity|]);
      do 4 (split; [done|]); (split; [exact Hv|]); (split; [exact Hs|]);
      (split; [exact Hh|]); [done|].
    apply Z.ltb_ge in Hlt. replace (offset + 8 - offset) with 8 by lia.
    split; [by errs|]. repeat (split; [done || lia|]). right. split; [done|]. split; [|done].
    change (get32 (pd_flags (set_bits PROTO_S PROTO_E 2 (m_desc i))) PROTO_S PROTO_E =? 2 = true).
    by rewrite get_set_field.
  - cbn [mbind res_bind]. eexists _, _, None. by split_and!.
Qed.

Lemma get_swap_valid d b :
  is_bit IS_SWAP d = false ->
  IsSwapTuple (if b : bool then SetSwapTuple true (SetIsValidPkt true d) else SetIsValidPkt true d) = b /\
  IsValidPkt (if b then SetSwapTuple true (SetIsValidPkt true d) else SetIsValidPkt true d) = true.
Proof.
  intros Hs. unfold IsSwapTuple, IsValidPkt, SetSwapTuple, SetIsValidPkt.
  destruct b; split; rewrite ?get_set_bit by (unfold IS_SWAP, IS_VALID; lia); try done.
  - unfold set_bit at 1. rewrite get_set_bit_other by (unfold IS_SWAP, IS_VALID; lia).
    by rewrite get_set_bit by (unfold IS_VALID; lia).
  - unfold set_bit. by rewrite get_set_bit_other by (unfold IS_SWAP, IS_VALID; lia).
Qed.

(** The length the packet is given: that of its IP packet, at least 60. *)
Lemma pad_len_eq n p :
  0 <= n < 65536 ->
  raw (pad_len n p) = raw p /\ pkt_len (pad_len n p) = Z.max 60 n /\ pkt_cnt (pad_len n p) = pkt_cnt p /\
  time_sec (pad_len n p) = time_sec p /\ time_nsec (pad_len n p) = time_nsec p.
Proof.
  intros Hn. unfold pad_len. cbn [set_pkt_len pkt_len]. rewrite u16_id by lia.
  destruct (Z.ltb_spec n 60); cbn [set_pkt_len raw pkt_len pkt_cnt time_sec time_nsec]; rewrite ?u16_id by lia; split_and!; try done; lia.
Qed.

(** [SetKey] of an IPv4 packet. *)
Lemma SetKey_ipv4 i ip l4 :
  m_l3 i = Some ip -> m_l4 i = Some l4 -> m_is_ipv6 i = false ->
  0 <= ip -> ip + 20 <= zlength (raw (m_packet i)) -> 0 <= l4 -> l4 + 4 <= zlength (raw (m_packet i)) ->
  IsSwapTuple (m_desc i) = false ->
  exists src dst proto sp dp key swap desc,
    IP_getSourceIp (raw (m_packet i)) ip = Ok src /\ IP_getDestIp (raw (m_packet i)) ip = Ok dst /\
    IP_getProtocol (raw (m_packet i)) ip = Ok proto /\
    UDP_getSourcePort (raw (m_packet i)) l4 = Ok sp /\ UDP_getDestPort (raw (m_packet i)) l4 = Ok dp /\
    flow_key src dst sp dp proto = (key, swap) /\
    SetKey i = Ok (ind_set_key key (ind_set_desc desc i)) /\
    IsSwapTuple desc = swap /\ IsValidPkt desc = true /\
    IsTcp desc = IsTcp (m_desc i) /\ IsUdp desc = IsUdp (m_desc i) /\ same_high (m_desc i) desc.
Proof.
  intros H3 H4 H6 Hi Hl Hi' Hl' Hs.
  destruct (IP_reads (raw (m_packet i)) ip Hi Hl) as (_ & _ & _ & [proto Hp] & [src Hsrc] & [dst Hdst]).
  destruct (UDP_ports_Ok (raw (m_packet i)) l4 Hi' Hl') as (sp & dp & Hsp & Hdp & _).
  destruct (flow_key src dst sp dp proto) as [key swap] eqn:Hk.
  destruct (get_swap_valid (m_desc i) swap Hs) as [Hsw Hv].
  eexists src, dst, proto, sp, dp, key, swap, _. do 6 (split; [done|]). split; [|split; [exact Hsw|split; [exact Hv|]]].
  - unfold SetKey, getIpOffset, getTcpOffset. rewrite H3, H4, H6. cbn [ptr mbind res_bind].
    rewrite Hsrc, Hdst, Hp. cbn [mbind res_bind]. rewrite Hsp, Hdp. cbn [mbind res_bind].
    rewrite Hk. done.
  - unfold IsTcp, IsUdp, SetSwapTuple, SetIsValidPkt, set_bit, PROTO_S, PROTO_E, IS_SWAP, IS_VALID.
    assert (Hh : forall d b, same_high d (set_bits 1 1 b d) /\ same_high d (set_bits 0 0 b d))
      by (intros; split; apply same_high_set; lia).
    destruct swap; rewrite !get_set_field_other by lia; split_and!; try done; try apply Hh.
    intros b Hb. etransitivity; apply Hh; done.
Qed.

(** What [ProcessIpPacket] leaves of a packet it accepts, or gives up. *)
Definition ipv4_result (p : CCapPktRaw) (ip : Z) (k k' : CCPacketParserCounters)
    (i i' : CPacketIndication) : Prop :=
  m_ether i' = m_ether i /\
  if IsValidPkt (m_desc i')
  then headers_found p ip i' /\ same_high (m_desc i) (m_desc i') /\ same_errs k k'
  else m_packet i' = p.

Lemma give_up_result p k0 k i ip c :
  m_packet i = p -> IsValidPkt (m_desc i) = false ->
  exists k' i', give_up_on c k i = Ok (k', i') /\ ipv4_result p ip k0 k' i i'.
Proof. intros Hp Hv. eexists _, _. split; [done|]. split; [done|]. by rewrite Hv. Qed.

Lemma ProcessIpPacket_spec p k i ip :
  in_buffer p -> m_packet i = p -> m_l3 i = Some ip -> m_is_ipv6 i = false -> 0 <= ip <= 18 ->
  IsValidPkt (m_desc i) = false -> IsSwapTuple (m_desc i) = false ->
  exists k' i', ProcessIpPacket k i ip = Ok (k', i') /\ ipv4_result p ip k k' i i'.
Proof.
  intros [Hm Hb Hl] Hp H3 H6 Hip Hv Hs.
  change MAX_PKT_SIZE with 2048 in *.
  destruct (IP_reads (raw p) ip) as ([ver Ever] & [ttl Ettl] & [nff Enff] & [proto Eproto] & _); [lia..|].
  destruct (IP_getTotalLength_Ok (raw p) ip) as (tl & Etl & Htl); [lia..|].
  destruct (IP_getHeaderLength_Ok (raw p) ip Hm) as (hl & Ehl & Hhl); [lia|].
  unfold ProcessIpPacket, getIpOffset. rewrite H3, Hp. cbn [ptr mbind res_bind].
  rewrite Ever. cbn [mbind res_bind]. destruct (negb (ver =? 4)); [by apply give_up_result|].
  rewrite Etl. cbn [mbind res_bind]. unfold getTotalLen. rewrite !u32_id by lia.
  destruct (Z.ltb_spec (pkt_len p) (tl + ip)) as [?|Htot]; [by apply give_up_result|].
  rewrite Ehl. cbn [mbind res_bind]. rewrite !u32_id by lia.
  destruct (Z.ltb_spec (pkt_len p) (hl + ip)) as [?|Hhlt]; [by apply give_up_result|].
  rewrite Ettl. cbn [mbind res_bind]. destruct (ttl =? 0); [by apply give_up_result|].
  rewrite Enff. cbn [mbind res_bind]. destruct nff; [by apply give_up_result|].
  rewrite Eproto. cbn [mbind res_bind].
  edestruct (protocol_spec (if 5 * 4 <? hl then cinc c_ip_header_options (cinc c_ipv4 (cinc c_pkt k))
                            else cinc c_ipv4 (cinc c_pkt k)) i proto (ip + hl))
    as (k' & i' & o & -> & Hp' & H3' & H6' & He' & Hv' & Hs' & Hh' & Ho); [rewrite ?Hp; try done; lia..|].
  cbn [mbind res_bind]. rewrite Hp in Hp', Ho.
  destruct o as [off|]; [|eexists _, _; split; [done|]; split; [done|]; by rewrite Hv', Hv].
  destruct Ho as (Herr & H4 & Hoff & Hlen & Hproto). rewrite !u16_id by (rewrite ?u16_id; lia).
  assert (Hgive : forall c, exists k'' i'', give_up_on c k' i' = Ok (k'', i'') /\ ipv4_result p ip k k'' i i'').
  { intros c. eexists _, _. split; [done|]. split; [done|]. by rewrite Hv', Hv. }
  destruct (Z.ltb_spec tl (off - ip)) as [?|Hpay]; [apply Hgive|].
  rewrite Hp'. destruct (Z.ltb_spec (MAX_BUF_SIZE - FIRST_PKT_SIZE) (pkt_len p)) as [?|Hbig]; [apply Hgive|]. destruct (pad_len_eq (tl + ip) p) as (Hraw & Hpl & Hcnt & Hsec & Hnsec); [lia|].
  unfold UpdatePacketPadding, getIpOffset. cbn [ind_set_payload ind_set_packet m_l3 m_packet].
  rewrite H3', H3, Hraw. cbn [ptr mbind res_bind]. rewrite Etl, (u16_id (tl - (off - ip))) by lia.
  cbn [mbind res_bind].
  edestruct (SetKey_ipv4 (ind_set_padding (getTotalLen (pad_len (tl + ip) p) - (tl + ip))
              (ind_set_payload (Some off) (tl - (off - ip)) (ind_set_packet (pad_len (tl + ip) p) i'))) ip (ip + hl))
    as (src & dst & pr & sp & dp & key & swap & desc & Hsrc & Hdst & Hpr & Hsp & Hdp & Hk & -> & Hsw & Hvd & Ht & Hu & Hhd);
    [cbn; rewrite ?Hraw, ?H3', ?Hs', ?H6'; try done; lia..|].
  cbn in Hsrc, Hdst, Hpr, Hsp, Hdp. rewrite Hraw in Hsrc, Hdst, Hpr, Hsp, Hdp.
  eexists _, _. split; [done|]. split; [done|]. cbn. rewrite Hvd. split.
  2: { split; [intros b Hr; etransitivity; [by apply Hhd|by apply Hh']|]. apply same_errs_cinc; [done|]. eapply same_errs_trans; [|exact Herr]. by errs. }
  exists hl, (off - (ip + hl)), tl, src, dst, pr, sp, dp. cbn.
  assert (pr = proto) as -> by congruence. rewrite Ht, Hu, Hraw, Hpl, Hcnt, Hsec, Hnsec, Hk, H3', H3, H4, Hsw, H6', H6.
  split_and!; try done; try lia; try (f_equal; lia).
Qed.

(** ** A whole packet *)

Lemma get_be16_Ok m off : 0 <= off -> off + 2 <= zlength m -> exists v, get_be16 m off = Ok v.
Proof. intros. unfold get_be16. rewrite ld_Ok by (unfold in_range; lia). by eexists. Qed.

Lemma ether_payload_Ok m :
  18 <= zlength m ->
  exists e, ether_payload m = Ok e /\
    match e with inl _ => True | inr (offset, _) => offset = 14 \/ offset = 18 end.
Proof.
  intros Hm. unfold ether_payload, ETH_getNextProtocol, ETH_getVlanProtocol.
  destruct (get_be16_Ok m (0 + 12)) as [p ->]; [lia..|]. cbn [mbind res_bind].
  destruct (get_be16_Ok m (0 + 16)) as [v ->]; [lia..|]. cbn [mbind res_bind].
  repeat match goal with
         | |- context [if ?b then _ else _] => destruct b
         end; eexists; (split; [reflexivity|]); cbn; tauto.
Qed.

(** What the parser leaves of a packet it accepts: its IPv4 header is at [ip], and the
    8-bit copies of the offsets are exact. *)
Definition ipv4_accepted (p : CCapPktRaw) (i : CPacketIndication) : Prop :=
  exists ip, ether_payload (raw p) = Ok (inr (ip, false)) /\ headers_found p ip i /\
    m_ether i = Some 0 /\ m_ether_offset i = 0 /\ m_ip_offset i = ip /\
    m_l4 i = Some (m_udp_tcp_offset i) /\ m_payload i = Some (m_payload_offset i) /\
    forall b, 4 <= b < 32 -> is_bit b (m_desc i) = false.

Lemma TCP_getHeaderLength_range m t l :
  bytes_ok m -> TCP_getHeaderLength m t = Ok l -> 0 <= l <= 60.
Proof.
  intros Hm Ht. destruct (decide (in_range 1 m (t + 12))) as [Hr|Hr].
  - destruct (TCP_getHeaderLength_Ok m t Hm Hr) as (l' & E & ?). congruence.
  - unfold TCP_getHeaderLength, ld in Ht. rewrite decide_False in Ht by done. discriminate.
Qed.

Lemma headers_found_offsets p ip i :
  bytes_ok (raw p) -> 0 <= ip <= 18 -> ip < zlength (raw p) -> headers_found p ip i ->
  exists l4 pl, m_l3 i = Some ip /\ m_l4 i = Some l4 /\ m_payload i = Some pl /\
    0 <= l4 < 256 /\ 0 <= pl < 256.
Proof.
  intros Hm Hip Hz (hl & l4 & tl & src & dst & proto & sp & dp & Hhl & _ & _ & _ & _ & Hp & _ & _ & H3 & H4 & H5 & _).
  destruct (IP_getHeaderLength_Ok (raw p) ip Hm) as (hl' & E & Hr); [lia|].
  assert (hl' = hl) as -> by congruence.
  exists (ip + hl), (ip + hl + l4). split_and!; try done; try lia.
  all: destruct Hp as [(_ & _ & Ht)|(_ & _ & ->)]; [apply TCP_getHeaderLength_range in Ht; [|done]|]; lia.
Qed.

Lemma UpdateOffsets_accepted p ip i :
  in_buffer p -> 0 <= ip <= 18 -> ether_payload (raw p) = Ok (inr (ip, false)) ->
  m_ether i = Some 0 -> headers_found p ip i -> (forall b, 4 <= b < 32 -> is_bit b (m_desc i) = false) ->
  exists i', UpdateOffsets i = Ok i' /\ m_desc i' = m_desc i /\ ipv4_accepted p i'.
Proof.
  intros [Hm Hb Hl] Hip He H2 Hf Hhigh. change MAX_PKT_SIZE with 2048 in *.
  destruct (headers_found_offsets p ip i Hm) as (l4 & pl & H3 & H4 & H5 & Hr4 & Hr5); [lia..|done|].
  unfold UpdateOffsets, getEtherOffset, getIpOffset, getTcpOffset, getPayloadOffset.
  rewrite H2, H3, H4, H5. cbn [ptr mbind res_bind default from_option].
  eexists. split; [reflexivity|]. split; [done|]. exists ip. split; [done|]. split; [exact Hf|].
  cbn. by rewrite !u8_id, H4, H5 by lia.
Qed.

Lemma get32_0 s e : get32 0 s e = 0.
Proof.
  unfold get32, btGetMaskBit, btGetMaskBitBigE. rewrite Z.land_0_l, Z.shiftr_0_l.
  by destruct (_ =? _).
Qed.

Lemma desc_cleared d :
  IsValidPkt (desc_clear d) = false /\ IsSwapTuple (desc_clear d) = false /\
  forall b, 4 <= b < 32 -> is_bit b (desc_clear d) = false.
Proof.
  split; [by vm_compute|]. split; [by vm_compute|]. intros b Hb.
  unfold is_bit, get32. cbn [desc_clear pd_flags]. by rewrite get32_0.
Qed.

(** The indication [process_packet] starts a packet with. *)
Definition start_ind (i : CPacketIndication) (p : CCapPktRaw) : CPacketIndication :=
  let i := ind_set_ether (Some 0) (ind_clean (ind_set_packet p i)) in ind_set_l3 (m_l3 i) false i.

Lemma start_ind_fields l v6 i p :
  let j := ind_set_l3 (Some l) v6 (start_ind i p) in
  m_packet j = p /\ m_ether j = Some 0 /\ m_l3 j = Some l /\ m_is_ipv6 j = v6 /\
  m_desc j = desc_clear (m_desc i) /\ m_packet (start_ind i p) = p /\
  m_desc (start_ind i p) = desc_clear (m_desc i).
Proof. by destruct i. Qed.

(** What becomes of a frame without [--ipv6], once its Ethernet header is read. *)
Lemma process_packet_eq s6 d6 cbuff k i p v e :
  get_be16 (raw p) (0 + 12) = Ok v -> ether_payload (raw p) = Ok e ->
  exists k', same_errs k k' /\ process_packet false s6 d6 cbuff k i p =
    match e with
    | inl c => Ok (cinc c k', start_ind i p)
    | inr (_, true) => throw "--ipv6 must be set to process ipv6 packets"
    | inr (offset, false) =>
        let j := ind_set_l3 (Some offset) false (start_ind i p) in
        if u32 (getTotalLen p) <? 14 + 20 then Ok (cinc c_ip_length_error k', j)
        else ProcessIpPacket k' j offset
    end.
Proof.
  intros Hv He. exists (if v =? ETH_VLAN then cinc c_vlan k else k). split; [by errs|].
  unfold process_packet, ETH_getNextProtocol. rewrite Hv. cbn [mbind res_bind].
  rewrite He. cbn [mbind res_bind]. destruct e as [c|[offset []]]; cbn [negb andb]; try reflexivity.
Qed.

(** The offsets are copied when the packet is valid. *)
Lemma ProcessPacket_eq v6 s6 d6 cbuff k i p r :
  process_packet v6 s6 d6 cbuff k i p = r ->
  ProcessPacket v6 s6 d6 cbuff k i p =
    match r with
    | Ok (k', i') =>
        if IsValidPkt (m_desc i') then i'' ← UpdateOffsets i'; Ok (IsValidPkt (m_desc i''), (k', i''))
        else Ok (IsValidPkt (m_desc i'), (k', i'))
    | Err e => Err e
    end.
Proof.
  intros <-. unfold ProcessPacket, ind_ProcessPacket.
  destruct (process_packet v6 s6 d6 cbuff k i p) as [[k' i']|e]; cbn [mbind res_bind]; [|done].
  destruct (IsValidPkt (m_desc i')) eqn:E; cbn [mbind res_bind]; [|by rewrite E].
  by destruct (UpdateOffsets i').
Qed.

Lemma ProcessPacket_ipv4 s6 d6 cbuff k i p :
  in_buffer p ->
  (exists k' i', ProcessPacket false s6 d6 cbuff k i p = Ok (IsValidPkt (m_desc i'), (k', i')) /\
     if IsValidPkt (m_desc i') then ipv4_accepted p i' /\ same_errs k k' else m_packet i' = p) \/
  (exists offset, ether_payload (raw p) = Ok (inr (offset, true)) /\
     ProcessPacket false s6 d6 cbuff k i p = throw "--ipv6 must be set to process ipv6 packets").
Proof.
  intros Hib. pose proof Hib as [Hm Hb Hl]. change MAX_PKT_SIZE with 2048 in *.
  destruct (ether_payload_Ok (raw p)) as (e & He & Hoff); [lia|].
  destruct (get_be16_Ok (raw p) (0 + 12)) as [v Hv]; [lia..|].
  destruct (process_packet_eq s6 d6 cbuff k i p v e Hv He) as (k0 & Hk0 & Hrun).
  rewrite (ProcessPacket_eq _ _ _ _ _ _ _ _ Hrun). clear Hrun.
  destruct (desc_cleared (m_desc i)) as (Hcv & Hcs & Hch).
  destruct e as [c|[offset []]].
  { left. exists (cinc c k0), (start_ind i p).
    destruct (start_ind_fields 0 false i p) as (_ & _ & _ & _ & _ & Hp & ->). by rewrite Hcv. }
  { right. by exists offset. }
  left. destruct (start_ind_fields offset false i p) as (Hp & H2 & H3 & H6 & Hd & _).
  cbv zeta. set (j := ind_set_l3 (Some offset) false (start_ind i p)) in *. clearbody j.
  destruct (u32 (getTotalLen p) <? 14 + 20).
  { exists (cinc c_ip_length_error k0), j. by rewrite Hd, Hcv. }
  destruct (ProcessIpPacket_spec p k0 j offset) as (k' & i' & -> & He' & Hres);
    [done|done|done|done|lia|by rewrite Hd|by rewrite Hd|].
  rewrite H2 in He'. destruct (IsValidPkt (m_desc i')) eqn:Hval; [|exists k', i'; by rewrite Hval].
  destruct Hres as (Hf & Hhigh & Herr).
  destruct (UpdateOffsets_accepted p offset i') as (i'' & -> & Hd2 & Hacc); [done|lia|done|done|done| |].
  { intros b Hr. rewrite Hhigh, Hd by done. by apply Hch. }
  cbn [mbind res_bind]. exists k', i''. split; [done|]. rewrite Hd2, Hval. split; [done|].
  by eapply same_errs_trans.
Qed.

(** C13: without [--ipv6], in a buffer of 2048 bytes, the parser reads no byte outside the
    buffer whatever the frame holds: it returns, or ends the process because the frame is an
    IPv6 one. A frame it accepts is an IPv4 one of TCP or UDP whose headers follow each
    other inside the packet, and its payload, its offsets, its length and the key and
    direction of its flow are those the headers tell; no error is counted; a frame it gives
    up is left as it was. (With [--ipv6] the conversion of a frame to IPv6 can write outside
    the buffer: this is not claimed.) *)
Theorem ProcessPacket_ipv4_ok s6 d6 cbuff k i p :
  in_buffer p ->
  (exists k' i', ProcessPacket false s6 d6 cbuff k i p = Ok (IsValidPkt (m_desc i'), (k', i')) /\
     if IsValidPkt (m_desc i') then ipv4_accepted p i' /\ getTotalErrors k' = getTotalErrors k else m_packet i' = p) \/
  (exists offset, ether_payload (raw p) = Ok (inr (offset, true)) /\
     ProcessPacket false s6 d6 cbuff k i p = throw "--ipv6 must be set to process ipv6 packets").
Proof.
  intros Hib. destruct (ProcessPacket_ipv4 s6 d6 cbuff k i p Hib) as [(k' & i' & E & H)|?]; [left|by right].
  exists k', i'. split; [done|]. destruct (IsValidPkt _); [|done].
  split; [apply H|by apply same_errs_total, H].
Qed.

(** A UDP packet of 60 bytes, 10.0.0.1:1025 to 10.0.0.2:53, with ten bytes of payload. *)
Definition demo_udp : bytes :=
  replicate 12 1 ++ [8; 0] ++
  [0x45; 0; 0; 38; 0; 1; 0; 0; 64; 17; 0; 0; 10; 0; 0; 1; 10; 0; 0; 2] ++
  [4; 1; 0; 53; 0; 18; 0; 0] ++ replicate 18 7.
Definition demo_pkt : CCapPktRaw := mkRaw (demo_udp ++ replicate 1988 0) 60 1 0 0.
Definition demo_ind : CPacketIndication :=
  mkInd (double_of_Z 0) (mkRaw [] 0 0 0 0) None None false None None 0 0 FlowKey_clean
    (mkDesc 0 0 0 0 0 PerDir_new PerDir_new) 0 0 0 0.

Lemma demo_in_buffer : in_buffer demo_pkt.
Proof.
  split; [|vm_compute; discriminate|vm_compute; split; discriminate].
  apply Forall_app. split; [|by apply Forall_replicate].
  repeat constructor; vm_compute; congruence.
Qed.

Lemma ProcessPacket_ipv4_ok_witness :
  in_buffer demo_pkt /\
  ((exists k' i', ProcessPacket false [] [] [] (fun _ => 0) demo_ind demo_pkt =
        Ok (IsValidPkt (m_desc i'), (k', i')) /\
     if IsValidPkt (m_desc i') then ipv4_accepted demo_pkt i' /\ getTotalErrors k' = getTotalErrors (fun _ => 0) else m_packet i' = demo_pkt) \/
   (exists offset, ether_payload (raw demo_pkt) = Ok (inr (offset, true)) /\
     ProcessPacket false [] [] [] (fun _ => 0) demo_ind demo_pkt =
       throw "--ipv6 must be set to process ipv6 packets")).
Proof.
  split; [exact demo_in_buffer|]. exact (ProcessPacket_ipv4_ok [] [] [] (fun _ => 0) demo_ind demo_pkt demo_in_buffer).
Defined.

(** The demonstration packet is accepted: its key starts at the smaller address. *)
Example demo_accepted :
  match ProcessPacket false [] [] [] (fun _ => 0) demo_ind demo_pkt with
  | Ok (b, (_, i)) => (b, m_flow_key i, m_payload_len i, m_payload_offset i, m_packet_padding i)
  | Err _ => (false, FlowKey_clean, 0, 0, 0)
  end = (true, mkFlowKey 0x0a000001 0x0a000002 1025 53 17 0 0, 10, 42, 8).
Proof. by vm_compute. Qed.
