(* ===== verification/TupleGen.v ===== *)
(** * Tuple generator ([src/src/tuple_gen.h], [src/src/tuple_gen.cpp],
    [src/src/mac_mapping.h])

    The generator of the (client IP, client port, server IP) triples of the
    simulated flows: per-IP port allocators ([CIpInfo], [CIpInfoL]), pools of
    IPs ([CIpPool], [CClientPool], [CServerPool], [CServerPoolSimple]), the
    per-thread generator [CTupleGeneratorSmart] that owns the pools, and the
    per-template generator [CTupleTemplateGeneratorSmart] that draws from two
    of them.  Pools are shared between templates, so the template generator
    is a function on the store of pools. *)

From S2P Require Import Prelude Double.

(** ** MAC addresses *)

Definition INUSED : Z := 0.
Definition UNUSED : Z := 1.

Record mac_addr_align_t := MkMac { mac : list Z; inused : Z }.

Record CFlowGenListMac := MkMacList {
  is_mac_info_configured : bool;
  m_mac_info : gmap Z mac_addr_align_t
}.

Definition is_mac_exist (l : CFlowGenListMac) (ip : Z) : bool :=
  if is_mac_info_configured l then bool_decide (is_Some (m_mac_info l !! ip))
  else false.

Definition get_mac_addr_by_ip (l : CFlowGenListMac) (ip : Z)
    : option mac_addr_align_t :=
  if is_mac_exist l ip then m_mac_info l !! ip else None.

(** ** The tuple *)

Record CTupleBase := MkTuple {
  t_client_ip : Z;
  t_client_idx : Z;
  t_server_ip : Z;
  t_server_idx : Z;
  t_client_mac : mac_addr_align_t;
  t_client_port : Z;
  t_server_port : Z
}.

Definition setClient (ip : Z) (t : CTupleBase) : CTupleBase :=
  MkTuple ip (t_client_idx t) (t_server_ip t) (t_server_idx t)
    (t_client_mac t) (t_client_port t) (t_server_port t).
Definition setClientId (id : Z) (t : CTupleBase) : CTupleBase :=
  MkTuple (t_client_ip t) id (t_server_ip t) (t_server_idx t)
    (t_client_mac t) (t_client_port t) (t_server_port t).
Definition setServer (ip : Z) (t : CTupleBase) : CTupleBase :=
  MkTuple (t_client_ip t) (t_client_idx t) ip (t_server_idx t)
    (t_client_mac t) (t_client_port t) (t_server_port t).
Definition setServerId (id : Z) (t : CTupleBase) : CTupleBase :=
  MkTuple (t_client_ip t) (t_client_idx t) (t_server_ip t) id
    (t_client_mac t) (t_client_port t) (t_server_port t).
Definition setClientPort (port : Z) (t : CTupleBase) : CTupleBase :=
  MkTuple (t_client_ip t) (t_client_idx t) (t_server_ip t) (t_server_idx t)
    (t_client_mac t) port (t_server_port t).
Definition setClientMac (m : option mac_addr_align_t) (t : CTupleBase) : CTupleBase :=
  MkTuple (t_client_ip t) (t_client_idx t) (t_server_ip t) (t_server_idx t)
    (match m with
     | Some mi => MkMac (mac mi) INUSED
     | None => MkMac (mac (t_client_mac t)) UNUSED
     end) (t_client_port t) (t_server_port t).

Definition setClientTuple (ip : Z) (m : option mac_addr_align_t) (port : Z)
    (t : CTupleBase) : CTupleBase :=
  setClientPort port (setClientMac m (setClient ip t)).
Definition setClientAll2 (id ip port : Z) (t : CTupleBase) : CTupleBase :=
  setClientPort port (setClient ip (setClientId id t)).
Definition setServerAll (id ip : Z) (t : CTupleBase) : CTupleBase :=
  setServer ip (setServerId id t).
Definition getServerAll (t : CTupleBase) : Z * Z :=
  (t_server_idx t, t_server_ip t).

(** ** Port allocators *)

Definition MAX_PORT : Z := 64000.
Definition MIN_PORT : Z := 1024.
Definition ILLEGAL_PORT : Z := 0.

Inductive IP_DIST_t := cdSEQ_DIST | cdRANDOM_DIST | cdNORMAL_DIST | cdMAX_DIST.

#[export] Instance IP_DIST_t_eq_dec : EqDecision IP_DIST_t.
Proof. solve_decision. Defined.

(** [CIpInfoL]: only a running port number. *)
Definition CIpInfoL_init : Z := MIN_PORT.

Definition CIpInfoL_get_new_free_port (m_curr_port : Z) : Z * Z :=
  let cur := if m_curr_port >? MAX_PORT then MIN_PORT else m_curr_port in
  (cur, u16 (cur + 1)).

(** [CIpInfo]: one bit per port; the bit set is the set of ports in use. *)
Record CIpInfo := MkIpInfo { m_bitmap_port : gset Z; m_head_port : Z }.

Definition CIpInfo_init : CIpInfo := MkIpInfo ∅ MIN_PORT.

Definition is_port_legal (port : Z) : bool :=
  negb ((port >=? MAX_PORT) || (port <? MIN_PORT)).

(** For an illegal port the C++ code returns [PORT_IN_USE], which is 1. *)
Definition is_port_available (s : CIpInfo) (port : Z) : bool :=
  if negb (is_port_legal port) then true
  else bool_decide (port ∉ m_bitmap_port s).

(** The search loop; [cnt] is the number of busy ports seen.  It ends after
    at most 21 iterations, so a fuel of 21 is enough. *)
Fixpoint find_free_loop (fuel : nat) (s : CIpInfo) (cnt head : Z) : option Z :=
  match fuel with
  | O => None
  | S f =>
      if is_port_available s head then Some head
      else
        let cnt := u16 (cnt + 1) in
        if cnt >? 20 then Some head
        else
          let head := u16 (head + 1) in
          let head := if head >=? MAX_PORT then MIN_PORT else head in
          find_free_loop f s cnt head
  end.

Definition get_next_free_port_by_bit (s : CIpInfo) : res CIpInfo :=
  let head := if negb (is_port_legal (m_head_port s)) then MIN_PORT
              else m_head_port s in
  match find_free_loop 21 s 0 head with
  | Some h => Ok (MkIpInfo (m_bitmap_port s) h)
  | None => Err OutOfFuel
  end.

Definition CIpInfo_get_new_free_port (s : CIpInfo) : res (Z * CIpInfo) :=
  s ← get_next_free_port_by_bit s;
  if negb (is_port_available s (m_head_port s)) then
    Ok (ILLEGAL_PORT, MkIpInfo (m_bitmap_port s) MIN_PORT)
  else
    let r := m_head_port s in
    let head := u16 (r + 1) in
    let head := if head >? MAX_PORT then MIN_PORT else head in
    Ok (r, MkIpInfo ({[ r ]} ∪ m_bitmap_port s) head).

Definition CIpInfo_return_port (s : CIpInfo) (a : Z) : res CIpInfo :=
  _ ← c_assert (is_port_legal a);
  _ ← c_assert (bool_decide (a ∈ m_bitmap_port s));
  Ok (MkIpInfo (m_bitmap_port s ∖ {[ a ]}) (m_head_port s)).

Definition CIpInfo_return_all_ports (s : CIpInfo) : CIpInfo := MkIpInfo ∅ MIN_PORT.

(** ** IP information: the class hierarchy over [CIpInfoBase] *)

Inductive port_alloc :=
  | PortsL (m_curr_port : Z)      (* CClientInfoL, CServerInfoL *)
  | PortsBit (s : CIpInfo).       (* CClientInfo, CServerInfo *)

Record CIpInfoBase := MkInfo {
  i_ip : Z;
  i_ports : port_alloc;
  i_is_client : bool;
  i_mac : option mac_addr_align_t
}.

Definition set_ports (i : CIpInfoBase) (p : port_alloc) : CIpInfoBase :=
  MkInfo (i_ip i) p (i_is_client i) (i_mac i).

(** Virtual [get_new_free_port], [return_port] and [return_all_ports]. *)
Definition get_new_free_port (i : CIpInfoBase) : res (Z * CIpInfoBase) :=
  match i_ports i with
  | PortsL cur =>
      let '(r, cur) := CIpInfoL_get_new_free_port cur in
      Ok (r, set_ports i (PortsL cur))
  | PortsBit s =>
      '(r, s) ← CIpInfo_get_new_free_port s;
      Ok (r, set_ports i (PortsBit s))
  end.

Definition return_port (i : CIpInfoBase) (a : Z) : res CIpInfoBase :=
  match i_ports i with
  | PortsL _ => Ok i
  | PortsBit s => s ← CIpInfo_return_port s a; Ok (set_ports i (PortsBit s))
  end.

Definition info_return_all_ports (i : CIpInfoBase) : CIpInfoBase :=
  match i_ports i with
  | PortsL _ => set_ports i (PortsL MIN_PORT)
  | PortsBit s => set_ports i (PortsBit (CIpInfo_return_all_ports s))
  end.

(** Virtual [generate_tuple]. *)
Definition generate_tuple (i : CIpInfoBase) (t : CTupleBase)
    : res (CTupleBase * CIpInfoBase) :=
  if i_is_client i then
    '(port, i') ← get_new_free_port i;
    Ok (setClientTuple (i_ip i) (i_mac i) port t, i')
  else Ok (setServer (i_ip i) t, i).

Definition CClientInfo_new (m : option mac_addr_align_t) (ip : Z) : CIpInfoBase :=
  MkInfo ip (PortsBit CIpInfo_init) true m.
Definition CClientInfoL_new (m : option mac_addr_align_t) (ip : Z) : CIpInfoBase :=
  MkInfo ip (PortsL CIpInfoL_init) true m.
Definition CServerInfo_new (ip : Z) : CIpInfoBase :=
  MkInfo ip (PortsBit CIpInfo_init) false None.
Definition CServerInfoL_new (ip : Z) : CIpInfoBase :=
  MkInfo ip (PortsL CIpInfoL_init) false None.

(** ** Pools *)

(** The random index source: [std::default_random_engine] with
    [std::uniform_int_distribution<int>(0, hi)], of the C++ library.  Its
    documented contract is that a draw lies in [0, hi]. *)
Class UniformInt (G : Type) := {
  uniform_draw : Z -> G -> Z * G;
  uniform_draw_range : forall hi g, 0 <= hi -> 0 <= fst (uniform_draw hi g) <= hi
}.

(** [total_ip > (l_flow*t_cps/MAX_PORT)] *)
Definition use_large_info (total_ip : Z) (l_flow t_cps : double) : bool :=
  double_ltb (double_div (double_mul l_flow t_cps) (double_of_Z MAX_PORT))
        (double_of_Z total_ip).

Section Pools.
Context {G : Type} `{UniformInt G}.

(** [m_ip_info] is a vector of pointers, [None] is the null pointer;
    [p_rand_dis] is the upper bound of the allocated distribution, [None]
    when [rand_dis] was never allocated. *)
Record CIpPool := MkPool {
  p_ip_info : list (option CIpInfoBase);
  p_dist : IP_DIST_t;
  p_cur_idx : Z;
  p_active_alloc : Z;
  p_port_allocation_error : Z;
  p_generator : G;
  p_rand_dis : option Z
}.

Definition pool_set_infos (p : CIpPool) (l : list (option CIpInfoBase)) : CIpPool :=
  MkPool l (p_dist p) (p_cur_idx p) (p_active_alloc p)
    (p_port_allocation_error p) (p_generator p) (p_rand_dis p).
Definition pool_set_cur (p : CIpPool) (c : Z) (g : G) : CIpPool :=
  MkPool (p_ip_info p) (p_dist p) c (p_active_alloc p)
    (p_port_allocation_error p) g (p_rand_dis p).
Definition pool_set_counters (p : CIpPool) (active err : Z) : CIpPool :=
  MkPool (p_ip_info p) (p_dist p) (p_cur_idx p) active err
    (p_generator p) (p_rand_dis p).

(** [m_ip_info[idx]->...]: the index must be in range and the pointer set. *)
Definition pool_info (p : CIpPool) (idx : Z) : res CIpInfoBase :=
  o ← get_idx (p_ip_info p) idx;
  match o with Some i => Ok i | None => Err NullDeref end.

Definition pool_update_info (p : CIpPool) (idx : Z) (i : CIpInfoBase) : res CIpPool :=
  l ← set_idx (p_ip_info p) idx (Some i);
  Ok (pool_set_infos p l).

Definition set_dist (dist : IP_DIST_t) : IP_DIST_t :=
  match dist with cdMAX_DIST => cdSEQ_DIST | d => d end.

Definition get_total_ips (p : CIpPool) : Z := u32 (zlength (p_ip_info p)).

Definition CreateBase (p : CIpPool) : CIpPool :=
  MkPool (p_ip_info p) (p_dist p) 0 0 0 (p_generator p)
    (match p_dist p with
     | cdRANDOM_DIST => Some (s32 (u32 (get_total_ips p - 1)))
     | _ => p_rand_dis p
     end).

Definition get_random_idx (p : CIpPool) : res (Z * G) :=
  match p_rand_dis p with
  | None => Err NullDeref
  | Some hi => let '(r, g) := uniform_draw hi (p_generator p) in Ok (u32 r, g)
  end.

Definition inc_cur_idx (p : CIpPool) : res CIpPool :=
  match p_dist p with
  | cdRANDOM_DIST =>
      '(r, g) ← get_random_idx p; Ok (pool_set_cur p r g)
  | _ =>
      let c := u32 (p_cur_idx p + 1) in
      let c := if c >=? zlength (p_ip_info p) then 0 else c in
      Ok (pool_set_cur p c (p_generator p))
  end.

Definition generate_ip (p : CIpPool) : res (Z * CIpPool) :=
  let res_idx := p_cur_idx p in
  p ← inc_cur_idx p;
  Ok (res_idx, p).

Definition pool_get_ip (p : CIpPool) (idx : Z) : res Z :=
  i ← pool_info p idx; Ok (i_ip i).

Definition get_curr_ip (p : CIpPool) : res Z := pool_get_ip p (p_cur_idx p).

Definition pool_get_mac (p : CIpPool) (idx : Z) : res (option mac_addr_align_t) :=
  i ← pool_info p idx; Ok (i_mac i).

Definition is_valid_ip (p : CIpPool) (ip : Z) : res bool :=
  front ← pool_info p 0;
  back ← pool_info p (zlength (p_ip_info p) - 1);
  Ok ((ip >=? i_ip front) && (ip <=? i_ip back)).

(** The counters after one allocation that returned [port]. *)
Definition count_alloc (p : CIpPool) (port : Z) : CIpPool :=
  pool_set_counters p (u32 (p_active_alloc p + 1))
    (if port =? ILLEGAL_PORT then u32 (p_port_allocation_error p + 1)
     else p_port_allocation_error p).

Definition GenerateOnePort (p : CIpPool) (idx : Z) : res (Z * CIpPool) :=
  i ← pool_info p idx;
  '(port, i) ← get_new_free_port i;
  p ← pool_update_info p idx i;
  Ok (port, count_alloc p port).

Definition pool_FreePort (p : CIpPool) (id port : Z) : res CIpPool :=
  let p := pool_set_counters p (u32 (p_active_alloc p - 1))
             (p_port_allocation_error p) in
  i ← pool_info p id;
  i ← return_port i port;
  pool_update_info p id i.

Fixpoint return_all_infos (l : list (option CIpInfoBase))
    : res (list (option CIpInfoBase)) :=
  match l with
  | [] => Ok []
  | None :: _ => Err NullDeref
  | Some i :: l => l ← return_all_infos l; Ok (Some (info_return_all_ports i) :: l)
  end.

Definition pool_return_all_ports (p : CIpPool) : res CIpPool :=
  l ← return_all_infos (p_ip_info p); Ok (pool_set_infos p l).

Definition pool_Delete (p : CIpPool) : CIpPool := pool_set_infos p [].

(** *** Client pools *)

Record CClientPool := MkClientPool {
  cp_pool : CIpPool;
  cp_tcp_aging : Z;
  cp_udp_aging : Z
}.

Definition cp_set_pool (c : CClientPool) (p : CIpPool) : CClientPool :=
  MkClientPool p (cp_tcp_aging c) (cp_udp_aging c).

Definition CClientPool_GenerateTuple (c : CClientPool) (t : CTupleBase)
    : res (Z * CTupleBase * CClientPool) :=
  '(idx, p) ← generate_ip (cp_pool c);
  i ← pool_info p idx;
  '(t, i) ← generate_tuple i t;
  p ← pool_update_info p idx i;
  let t := setClientId idx t in
  Ok (idx, t, cp_set_pool c (count_alloc p (t_client_port t))).

(** The number of the IPs [min_ip, min_ip+n) that have no MAC. *)
Fixpoint missing_macs (l : CFlowGenListMac) (min_ip : Z) (n : nat) : Z :=
  match n with
  | O => 0
  | S n =>
      (match get_mac_addr_by_ip l (u32 min_ip) with None => 1 | Some _ => 0 end)
      + missing_macs l (min_ip + 1) n
  end.

(** One of the four creation loops: [new idx] is the object the loop stores
    at [idx], [None] when the iteration stores nothing. *)
Fixpoint fill_infos (new : Z -> option CIpInfoBase) (idx : Z) (n : nat)
    (l : list (option CIpInfoBase)) : res (list (option CIpInfoBase)) :=
  match n with
  | O => Ok l
  | S n =>
      l ← match new idx with
          | Some i => set_idx l idx (Some i)
          | None => Ok l
          end;
      fill_infos new (idx + 1) n l
  end.

Definition new_client (large : bool) (m : option mac_addr_align_t) (ip : Z)
    : CIpInfoBase :=
  if large then CClientInfoL_new m ip else CClientInfo_new m ip.

Definition new_server (large : bool) (ip : Z) : CIpInfoBase :=
  if large then CServerInfoL_new ip else CServerInfo_new ip.

(** [mac_info] is [None] for the null pointer. *)
Definition CClientPool_Create (g : G) (dist_value : IP_DIST_t)
    (min_ip max_ip : Z) (l_flow t_cps : double)
    (mac_info : option CFlowGenListMac) (has_mac_map : bool)
    (tcp_aging udp_aging : Z) : res CClientPool :=
  _ ← c_assert (max_ip >=? min_ip);
  let total_ip := u32 (max_ip - min_ip + 1) in
  let n := Z.to_nat total_ip in
  let avail_ip :=
    match has_mac_map, mac_info with
    | true, Some ml => u32 (total_ip - missing_macs ml min_ip n)
    | _, _ => total_ip
    end in
  let size := if negb (avail_ip =? 0) then avail_ip else total_ip in
  let large := use_large_info total_ip l_flow t_cps in
  infos ←
    (if has_mac_map then
       match mac_info with
       | None => if (n =? 0)%nat then Ok (replicate (Z.to_nat size) None)
                 else Err NullDeref
       | Some ml =>
           fill_infos (fun idx =>
             match get_mac_addr_by_ip ml (u32 (min_ip + idx)) with
             | Some m => Some (new_client large (Some m) (u32 (min_ip + idx)))
             | None => None
             end) 0 n (replicate (Z.to_nat size) None)
       end
     else
       fill_infos (fun idx => Some (new_client large None (u32 (min_ip + idx))))
         0 n (replicate (Z.to_nat size) None));
  Ok (MkClientPool
        (CreateBase (MkPool infos (set_dist dist_value) 0 0 0 g None))
        tcp_aging udp_aging).

(** *** Server pools *)

Inductive CServerPoolBase :=
  | CServerPoolSimple (m_max_server_ip m_min_server_ip m_cur_server_ip : Z)
  | CServerPool (gen : CIpPool).

Definition CServerPool_Create (g : G) (dist_value : IP_DIST_t)
    (min_ip max_ip : Z) (l_flow t_cps : double) : res CServerPoolBase :=
  let total_ip := u32 (max_ip - min_ip + 1) in
  let n := Z.to_nat total_ip in
  let large := use_large_info total_ip l_flow t_cps in
  infos ← fill_infos (fun idx => Some (new_server large (u32 (min_ip + idx))))
            0 n (replicate n None);
  Ok (CServerPool (CreateBase (MkPool infos (set_dist dist_value) 0 0 0 g None))).

Definition CServerPoolSimple_Create (min_ip max_ip : Z) : CServerPoolBase :=
  CServerPoolSimple max_ip min_ip min_ip.

Definition server_GenerateTuple (s : CServerPoolBase) (t : CTupleBase)
    : res (CTupleBase * CServerPoolBase) :=
  match s with
  | CServerPoolSimple mx mn cur =>
      let t := setServer cur t in
      let cur := u32 (cur + 1) in
      let cur := if cur >? mx then mn else cur in
      Ok (t, CServerPoolSimple mx mn cur)
  | CServerPool gen =>
      '(idx, gen) ← generate_ip gen;
      ip ← pool_get_ip gen idx;
      Ok (setServerAll idx ip t, CServerPool gen)
  end.

Definition server_GenerateOnePort (s : CServerPoolBase) (idx : Z)
    : res (Z * CServerPoolBase) :=
  match s with
  | CServerPoolSimple _ _ _ => Ok (0, s)
  | CServerPool gen => '(port, gen) ← GenerateOnePort gen idx; Ok (port, CServerPool gen)
  end.

Definition server_get_total_ips (s : CServerPoolBase) : Z :=
  match s with
  | CServerPoolSimple mx mn _ => u32 (mx - mn + 1)
  | CServerPool gen => u32 (zlength (p_ip_info gen))
  end.

(** ** The generator of one thread *)

Record CTupleGeneratorSmart := MkGen {
  g_id : Z;
  g_thread_id : Z;
  g_client_pool : list CClientPool;
  g_server_pool : list CServerPoolBase;
  g_was_init : bool;
  g_has_mac_mapping : bool
}.

Definition gen_Create (id thread_id : Z) (has_mac : bool)
    (g : CTupleGeneratorSmart) : CTupleGeneratorSmart :=
  MkGen id thread_id (g_client_pool g) (g_server_pool g) true has_mac.

Definition gen_Delete (g : CTupleGeneratorSmart) : CTupleGeneratorSmart :=
  MkGen (g_id g) (g_thread_id g) [] [] false false.

Definition gen_set_clients (g : CTupleGeneratorSmart) (l : list CClientPool) :=
  MkGen (g_id g) (g_thread_id g) l (g_server_pool g) (g_was_init g)
    (g_has_mac_mapping g).
Definition gen_set_servers (g : CTupleGeneratorSmart) (l : list CServerPoolBase) :=
  MkGen (g_id g) (g_thread_id g) (g_client_pool g) l (g_was_init g)
    (g_has_mac_mapping g).

Definition add_client_pool (rng : G) (client_dist : IP_DIST_t)
    (min_client max_client : Z) (l_flow t_cps : double)
    (mac_info : option CFlowGenListMac) (tcp_aging udp_aging : Z)
    (g : CTupleGeneratorSmart) : res CTupleGeneratorSmart :=
  _ ← c_assert (max_client >=? min_client);
  pool ← CClientPool_Create rng client_dist min_client max_client l_flow t_cps
           mac_info (g_has_mac_mapping g) tcp_aging udp_aging;
  Ok (gen_set_clients g (g_client_pool g ++ [pool])).

Definition add_server_pool (rng : G) (server_dist : IP_DIST_t)
    (min_server max_server : Z) (l_flow t_cps : double) (is_bundling : bool)
    (g : CTupleGeneratorSmart) : res CTupleGeneratorSmart :=
  _ ← c_assert (max_server >=? min_server);
  pool ← (if is_bundling
          then CServerPool_Create rng server_dist min_server max_server l_flow t_cps
          else Ok (CServerPoolSimple_Create min_server max_server));
  Ok (gen_set_servers g (g_server_pool g ++ [pool])).

(** The sums of [uint32_t] counters over the pools. *)
Fixpoint sum32 {A} (f : A -> Z) (acc : Z) (l : list A) : Z :=
  match l with
  | [] => acc
  | x :: l => sum32 f (u32 (acc + f x)) l
  end.

Definition ActiveSockets (g : CTupleGeneratorSmart) : Z :=
  sum32 (fun c => p_active_alloc (cp_pool c)) 0 (g_client_pool g).
Definition getTotalClients (g : CTupleGeneratorSmart) : Z :=
  sum32 (fun c => get_total_ips (cp_pool c)) 0 (g_client_pool g).
Definition getTotalServers (g : CTupleGeneratorSmart) : Z :=
  sum32 server_get_total_ips 0 (g_server_pool g).
Definition getErrorAllocationCounter (g : CTupleGeneratorSmart) : Z :=
  sum32 (fun c => p_port_allocation_error (cp_pool c)) 0 (g_client_pool g).
Definition SocketsPerClient : Z := MAX_PORT - MIN_PORT + 1.
Definition MaxSockets (g : CTupleGeneratorSmart) : Z :=
  u32 (SocketsPerClient * getTotalClients g).

Definition gen_FreePort (pool_idx id port : Z) (g : CTupleGeneratorSmart)
    : res CTupleGeneratorSmart :=
  c ← get_idx (g_client_pool g) pool_idx;
  p ← pool_FreePort (cp_pool c) id port;
  l ← set_idx (g_client_pool g) pool_idx (cp_set_pool c p);
  Ok (gen_set_clients g l).

Definition get_tcp_aging (pool_idx : Z) (g : CTupleGeneratorSmart) : res Z :=
  c ← get_idx (g_client_pool g) pool_idx; Ok (cp_tcp_aging c).
Definition get_udp_aging (pool_idx : Z) (g : CTupleGeneratorSmart) : res Z :=
  c ← get_idx (g_client_pool g) pool_idx; Ok (cp_udp_aging c).

(** ** The generator of one template

    [tt_client_pool] and [tt_server_pool] are the indices of the pools the
    C++ object points to. *)

Record CTupleTemplateGeneratorSmart := MkTemplate {
  tt_client_pool : Z;
  tt_server_pool : Z;
  tt_w : Z;
  tt_cnt : Z;
  tt_server_ip : Z;
  tt_cache_client_ip : Z;
  tt_cache_client_idx : Z;
  tt_cache_server_ip : Z;
  tt_cache_server_idx : Z;
  tt_is_single_server : bool
}.

Definition SetW (w : Z) (tt : CTupleTemplateGeneratorSmart) :=
  MkTemplate (tt_client_pool tt) (tt_server_pool tt) w 0 (tt_server_ip tt)
    (tt_cache_client_ip tt) (tt_cache_client_idx tt) (tt_cache_server_ip tt)
    (tt_cache_server_idx tt) (tt_is_single_server tt).

Definition SetSingleServer (is_single : bool) (server_ip dual_port_index dual_mask : Z)
    (tt : CTupleTemplateGeneratorSmart) :=
  MkTemplate (tt_client_pool tt) (tt_server_pool tt) (tt_w tt) (tt_cnt tt)
    (u32 (server_ip + dual_mask * dual_port_index))
    (tt_cache_client_ip tt) (tt_cache_client_idx tt) (tt_cache_server_ip tt)
    (tt_cache_server_idx tt) is_single.

(** [Create]; the cache fields the C++ constructor leaves uninitialised are
    those of [tt]. *)
Definition template_Create (g : CTupleGeneratorSmart) (c_pool s_pool : Z)
    (tt : CTupleTemplateGeneratorSmart) : res CTupleTemplateGeneratorSmart :=
  _ ← get_idx (g_client_pool g) c_pool;
  _ ← get_idx (g_server_pool g) s_pool;
  Ok (SetW 1 (MkTemplate c_pool s_pool (tt_w tt) (tt_cnt tt) 0
        (tt_cache_client_ip tt) (tt_cache_client_idx tt) (tt_cache_server_ip tt)
        (tt_cache_server_idx tt) false)).

Definition tt_set_cnt (tt : CTupleTemplateGeneratorSmart) (cnt : Z) :=
  MkTemplate (tt_client_pool tt) (tt_server_pool tt) (tt_w tt) cnt (tt_server_ip tt)
    (tt_cache_client_ip tt) (tt_cache_client_idx tt) (tt_cache_server_ip tt)
    (tt_cache_server_idx tt) (tt_is_single_server tt).
Definition tt_set_client (tt : CTupleTemplateGeneratorSmart) (ip idx : Z) :=
  MkTemplate (tt_client_pool tt) (tt_server_pool tt) (tt_w tt) (tt_cnt tt)
    (tt_server_ip tt) ip idx (tt_cache_server_ip tt)
    (tt_cache_server_idx tt) (tt_is_single_server tt).
Definition tt_set_server (tt : CTupleTemplateGeneratorSmart) (idx ip : Z) :=
  MkTemplate (tt_client_pool tt) (tt_server_pool tt) (tt_w tt) (tt_cnt tt)
    (tt_server_ip tt) (tt_cache_client_ip tt) (tt_cache_client_idx tt) ip idx
    (tt_is_single_server tt).

(** [m_client_gen->GenerateTuple(tuple); m_server_gen->GenerateTuple(tuple);] *)
Definition draw_client_server (tt : CTupleTemplateGeneratorSmart)
    (g : CTupleGeneratorSmart) (t : CTupleBase)
    : res (CTupleBase * CTupleGeneratorSmart) :=
  c ← get_idx (g_client_pool g) (tt_client_pool tt);
  '(_, t, c) ← CClientPool_GenerateTuple c t;
  cl ← set_idx (g_client_pool g) (tt_client_pool tt) c;
  s ← get_idx (g_server_pool g) (tt_server_pool tt);
  '(t, s) ← server_GenerateTuple s t;
  sl ← set_idx (g_server_pool g) (tt_server_pool tt) s;
  Ok (t, gen_set_servers (gen_set_clients g cl) sl).

(** [m_client_gen->GenerateOnePort(m_cache_client_idx)] *)
Definition GenerateOneSourcePort (tt : CTupleTemplateGeneratorSmart)
    (g : CTupleGeneratorSmart) : res (Z * CTupleGeneratorSmart) :=
  c ← get_idx (g_client_pool g) (tt_client_pool tt);
  '(port, p) ← GenerateOnePort (cp_pool c) (tt_cache_client_idx tt);
  cl ← set_idx (g_client_pool g) (tt_client_pool tt) (cp_set_pool c p);
  Ok (port, gen_set_clients g cl).

Definition template_GenerateTuple (tt : CTupleTemplateGeneratorSmart)
    (g : CTupleGeneratorSmart) (t : CTupleBase)
    : res (CTupleBase * CTupleTemplateGeneratorSmart * CTupleGeneratorSmart) :=
  '(t, tt, g) ←
    (if tt_w tt =? 1 then
       '(t, g) ← draw_client_server tt g t;
       Ok (t, tt_set_client tt (t_client_ip t) (t_client_idx t), g)
     else
       '(t, tt, g) ←
         (if tt_cnt tt =? 0 then
            '(t, g) ← draw_client_server tt g t;
            let tt := tt_set_client tt (t_client_ip t) (t_client_idx t) in
            let '(sidx, sip) := getServerAll t in
            Ok (t, tt_set_server tt sidx sip, g)
          else
            let t := setServerAll (tt_cache_server_idx tt) (tt_cache_server_ip tt) t in
            '(port, g) ← GenerateOneSourcePort tt g;
            Ok (setClientAll2 (tt_cache_client_idx tt) (tt_cache_client_ip tt) port t,
                tt, g));
       let cnt := u16 (tt_cnt tt + 1) in
       let cnt := if cnt >=? tt_w tt then 0 else cnt in
       Ok (t, tt_set_cnt tt cnt, g));
  let t := if tt_is_single_server tt then setServer (tt_server_ip tt) t else t in
  Ok (t, tt, g).

End Pools.

Arguments CIpPool : clear implicits.
Arguments CClientPool : clear implicits.
Arguments CServerPoolBase : clear implicits.
Arguments CTupleGeneratorSmart : clear implicits.

(** ** Configuration of the pools *)

Record CTupleGenPoolYaml := MkPoolYaml {
  y_dist : IP_DIST_t;
  y_ip_start : Z;
  y_ip_end : Z;
  y_number_of_clients_per_gb : Z;
  y_min_clients : Z;
  y_dual_interface_mask : Z;
  y_tcp_aging_sec : Z;
  y_udp_aging_sec : Z;
  y_name : string;
  y_is_bundling : bool
}.

Definition getTotalIps (p : CTupleGenPoolYaml) : Z :=
  u32 (y_ip_end p - y_ip_start p + 1).

Definition pool_yaml_is_valid (num_threads : Z) (p : CTupleGenPoolYaml) : bool :=
  if y_ip_start p >? y_ip_end p then false
  else
    let ips := u32 (y_ip_end p - y_ip_start p + 1) in
    if ips <? num_threads then false
    else if ips >? 1000000 then false
    else true.

Definition copy_global_pool_para (src dst : CTupleGenPoolYaml) : CTupleGenPoolYaml :=
  let pick (f : CTupleGenPoolYaml -> Z) := if f src =? 0 then f dst else f src in
  MkPoolYaml (y_dist src) (y_ip_start src) (y_ip_end src)
    (pick y_number_of_clients_per_gb) (pick y_min_clients)
    (pick y_dual_interface_mask) (pick y_tcp_aging_sec) (pick y_udp_aging_sec)
    (y_name src) (y_is_bundling src).

Record CTupleGenYamlInfo := MkYamlInfo {
  yi_client_pool : list CTupleGenPoolYaml;
  yi_server_pool : list CTupleGenPoolYaml
}.

Definition yaml_info_is_valid (num_threads : Z) (yi : CTupleGenYamlInfo) : bool :=
  forallb (pool_yaml_is_valid num_threads) (yi_client_pool yi)
  && forallb (pool_yaml_is_valid num_threads) (yi_server_pool yi).

(** [for (uint8_t i=0; i<size; i++)]: with 256 pools or more and no match
    the counter wraps and the loop does not end, hence the [option]. *)
Fixpoint find_pool_id (name : string) (i : Z) (l : list CTupleGenPoolYaml)
    : option Z :=
  match l with
  | [] => None
  | p :: l => if decide (y_name p = name) then Some i else find_pool_id name (i + 1) l
  end.

Definition get_pool_id (l : list CTupleGenPoolYaml) (name : string) : option Z :=
  match find_pool_id name 0 (take 256 l) with
  | Some i => Some i
  | None => if zlength l <? 256 then Some 0 else None
  end.

Definition get_client_pool_id (yi : CTupleGenYamlInfo) (name : string) : option Z :=
  get_pool_id (yi_client_pool yi) name.
Definition get_server_pool_id (yi : CTupleGenYamlInfo) (name : string) : option Z :=
  get_pool_id (yi_server_pool yi) name.

(** ** Splitting a pool between threads and dual ports *)

Record CIpPortion := MkPortion { portion_ip_start : Z; portion_ip_end : Z }.

Definition split_ips (thread_id total_threads dual_port_id : Z)
    (poolinfo : CTupleGenPoolYaml) : res CIpPortion :=
  if total_threads =? 0 then Err DivByZero
  else
    let chunks := getTotalIps poolinfo / total_threads in
    _ ← c_assert (chunks >? 0);
    let dual_if_mask := u32 (dual_port_id * y_dual_interface_mask poolinfo) in
    let ip_start := u32 (y_ip_start poolinfo + thread_id * chunks + dual_if_mask) in
    Ok (MkPortion ip_start (u32 (ip_start + chunks - 1))).
