(* ===== verification/TupleGenFacts.v ===== *)
(** * Facts about the tuple generator *)

From S2P Require Import Prelude Double TupleGen.

(** ** [CIpInfo]: the bit-map port allocator *)

Definition port_ok (p : Z) : Prop := MIN_PORT <= p < MAX_PORT.

Record CIpInfo_wf (s : CIpInfo) : Prop := {
  wf_used : forall p, p ∈ m_bitmap_port s -> port_ok p;
  wf_head : MIN_PORT <= m_head_port s <= MAX_PORT
}.

(** The [k]-th candidate of a search that starts at port [h]: the legal
    ports are scanned cyclically. *)
Definition cyc (h k : Z) : Z := MIN_PORT + (h - MIN_PORT + k) mod (MAX_PORT - MIN_PORT).

(** Where the next search starts. *)
Definition search_start (s : CIpInfo) : Z :=
  if is_port_legal (m_head_port s) then m_head_port s else MIN_PORT.

Ltac unfold_ports :=
  unfold port_ok, cyc, search_start, is_port_legal, MIN_PORT, MAX_PORT, ILLEGAL_PORT in *.

Lemma is_port_legal_iff p : is_port_legal p = true <-> port_ok p.
Proof. unfold_ports. lia. Qed.

Lemma is_port_legal_false p : is_port_legal p = false <-> ~ port_ok p.
Proof. unfold_ports. lia. Qed.

Lemma is_port_available_ok s p :
  port_ok p -> is_port_available s p = bool_decide (p ∉ m_bitmap_port s).
Proof.
  intros Hp%is_port_legal_iff. unfold is_port_available. by rewrite Hp.
Qed.

Lemma cyc_ok h k : port_ok (cyc h k).
Proof. unfold_ports. Z.div_mod_to_equations. lia. Qed.

Lemma cyc_0 h : port_ok h -> cyc h 0 = h.
Proof. unfold_ports. intros. rewrite Z.mod_small; lia. Qed.

(** One step of the search loop moves to the next candidate. *)
Lemma cyc_next h k :
  port_ok h -> 0 <= k ->
  (let h' := u16 (h + 1) in cyc (if h' >=? MAX_PORT then MIN_PORT else h') k)
  = cyc h (k + 1).
Proof.
  unfold_ports. intros Hh Hk. simpl. rewrite u16_id by lia.
  destruct (Z.geb_spec (h + 1) 64000).
  - replace h with 63999 by lia. f_equal. Z.div_mod_to_equations. lia.
  - f_equal. f_equal. lia.
Qed.

Lemma next_head_ok h :
  port_ok h ->
  port_ok (let h' := u16 (h + 1) in if h' >=? MAX_PORT then MIN_PORT else h').
Proof.
  unfold_ports. intros. simpl. rewrite u16_id by lia.
  destruct (Z.geb_spec (h + 1) 64000); lia.
Qed.

#[export] Hint Resolve cyc_ok next_head_ok : ports.

(** The loop returns the first free candidate, or the last one inspected. *)
Lemma find_free_loop_spec s fuel : forall cnt h,
  port_ok h -> 0 <= cnt <= 20 -> 21 - cnt <= Z.of_nat fuel ->
  exists k, 0 <= k <= 20 - cnt
    /\ find_free_loop fuel s cnt h = Some (cyc h k)
    /\ (forall j, 0 <= j < k -> cyc h j ∈ m_bitmap_port s)
    /\ (cyc h k ∈ m_bitmap_port s -> k = 20 - cnt).
Proof.
  induction fuel as [|fuel IH]; intros cnt h Hh Hc Hf; [lia|].
  simpl. rewrite is_port_available_ok by done.
  case_bool_decide as Hav.
  - exists 0. rewrite cyc_0 by done. repeat split; [lia|lia|lia|done].
  - rewrite u16_id by lia.
    destruct (Z.gtb_spec (cnt + 1) 20).
    + exists 0. rewrite cyc_0 by done. repeat split; [lia|lia|lia|lia].
    + destruct (IH (cnt + 1) _ (next_head_ok h Hh)) as (k & Hk & Hr & Hb & Hl);
        [lia|lia|].
      exists (k + 1). rewrite <- (cyc_next h k) by (done || lia).
      split; [lia|]. split; [exact Hr|]. split.
      * intros j Hj. destruct (decide (j = 0)) as [->|].
        -- by rewrite cyc_0.
        -- replace j with (j - 1 + 1) by lia. rewrite <- cyc_next by (done || lia).
           apply Hb. lia.
      * intros Hin. specialize (Hl Hin). lia.
Qed.

Lemma search_start_ok s : port_ok (search_start s).
Proof.
  unfold search_start. destruct (is_port_legal _) eqn:E.
  - by apply is_port_legal_iff.
  - unfold_ports. lia.
Qed.

(** What one allocation does, in terms of the candidates of the search. *)
Definition alloc_post (s : CIpInfo) (r : Z) (s' : CIpInfo) : Prop :=
  (exists k, 0 <= k <= 20
     /\ r = cyc (search_start s) k
     /\ r ∉ m_bitmap_port s
     /\ (forall j, 0 <= j < k -> cyc (search_start s) j ∈ m_bitmap_port s)
     /\ m_bitmap_port s' = {[ r ]} ∪ m_bitmap_port s
     /\ m_head_port s' = r + 1)
  \/ (r = ILLEGAL_PORT
     /\ (forall j, 0 <= j <= 20 -> cyc (search_start s) j ∈ m_bitmap_port s)
     /\ m_bitmap_port s' = m_bitmap_port s
     /\ m_head_port s' = MIN_PORT).

Lemma alloc_cases s :
  exists r s', CIpInfo_get_new_free_port s = Ok (r, s') /\ alloc_post s r s'.
Proof.
  unfold CIpInfo_get_new_free_port, get_next_free_port_by_bit.
  destruct (find_free_loop_spec s 21 0 (search_start s))
    as (k & Hk & Hr & Hb & Hl); [apply search_start_ok|lia|lia|].
  replace (if negb (is_port_legal (m_head_port s)) then MIN_PORT else m_head_port s)
    with (search_start s) by (unfold search_start; by destruct (is_port_legal _)).
  rewrite Hr. cbn [mbind res_bind m_bitmap_port m_head_port].
  rewrite is_port_available_ok by apply cyc_ok. cbn [m_bitmap_port].
  pose proof (cyc_ok (search_start s) k) as Hck.
  case_bool_decide as Hav; cbn [negb]; eexists _, _; (split; [reflexivity|]).
  - left. exists k. cbn [m_bitmap_port m_head_port].
    repeat split; try done; try lia.
    unfold port_ok, MAX_PORT, MIN_PORT in *. rewrite u16_id by lia.
    destruct (Z.gtb_spec (cyc (search_start s) k + 1) 64000); lia.
  - right. specialize (Hl Hav). cbn.
    repeat split; try done.
    intros j Hj. destruct (decide (j = k)) as [->|]; [done|]. apply Hb. lia.
Qed.

Lemma search_start_MIN : port_ok MIN_PORT.
Proof. unfold_ports. lia. Qed.

Lemma alloc_post_wf s r s' : CIpInfo_wf s -> alloc_post s r s' -> CIpInfo_wf s'.
Proof.
  intros Hwf [(k & Hk & -> & Hr & Hb & Hu & Hh)|(-> & Hb & Hu & Hh)].
  - pose proof (cyc_ok (search_start s) k) as Hc. split.
    + rewrite Hu. intros p [->%elem_of_singleton|Hp]%elem_of_union; [done|].
      by apply (wf_used s Hwf).
    + rewrite Hh. unfold port_ok in Hc. lia.
  - split; [rewrite Hu; apply (wf_used s Hwf)|].
    rewrite Hh. unfold_ports. lia.
Qed.

Lemma return_port_Ok s a :
  CIpInfo_wf s -> a ∈ m_bitmap_port s ->
  CIpInfo_return_port s a = Ok (MkIpInfo (m_bitmap_port s ∖ {[ a ]}) (m_head_port s)).
Proof.
  intros Hwf Ha. unfold CIpInfo_return_port.
  rewrite (proj2 (is_port_legal_iff a)) by by apply (wf_used s Hwf).
  by rewrite bool_decide_true.
Qed.

(** ** What a port allocator promises to the flow generator *)

Class PortAllocator (S : Type) := {
  pa_alloc : S -> res (Z * S);
  pa_release : S -> Z -> res S;
  pa_used : S -> gset Z;
  pa_wf : S -> Prop;
  pa_used_ok : forall s p, pa_wf s -> p ∈ pa_used s -> port_ok p;
  pa_alloc_ok : forall s, pa_wf s ->
    exists r s', pa_alloc s = Ok (r, s') /\ pa_wf s' /\
      ((r = ILLEGAL_PORT /\ pa_used s' = pa_used s) \/
       (port_ok r /\ r ∉ pa_used s /\ pa_used s' = {[ r ]} ∪ pa_used s));
  pa_release_ok : forall s p, pa_wf s -> p ∈ pa_used s ->
    exists s', pa_release s p = Ok s' /\ pa_wf s' /\ pa_used s' = pa_used s ∖ {[ p ]}
}.

(** A client that allocates ports and frees ports it holds.  Its ledger is
    the set of the ports it was given and has not freed. *)
Inductive client_step {S} `{PortAllocator S} :
    gset Z * S -> gset Z * S -> Prop :=
  | step_alloc held s r s' :
      pa_alloc s = Ok (r, s') ->
      client_step (held, s)
        (if decide (r = ILLEGAL_PORT) then held else {[ r ]} ∪ held, s')
  | step_free held s p s' :
      p ∈ held -> pa_release s p = Ok s' ->
      client_step (held, s) (held ∖ {[ p ]}, s').

Lemma port_ok_not_illegal p : port_ok p -> p <> ILLEGAL_PORT.
Proof. unfold_ports. lia. Qed.

(** The ledger and the allocator agree along every run. *)
Lemma client_ledger {S} `{PortAllocator S} (c c' : gset Z * S) :
  rtc client_step c c' ->
  pa_wf c.2 -> pa_used c.2 = c.1 ->
  pa_wf c'.2 /\ pa_used c'.2 = c'.1.
Proof.
  induction 1 as [c|c1 c2 c3 Hst _ IH]; [done|].
  intros Hwf Hu. apply IH; clear IH.
  - destruct Hst as [held s r s' Ha|held s p s' Hp Hr]; simpl in *.
    + destruct (pa_alloc_ok s Hwf) as (r1 & s1 & E & Hwf' & _). congruence.
    + destruct (pa_release_ok s p Hwf) as (s1 & E & Hwf' & _); [set_solver|congruence].
  - destruct Hst as [held s r s' Ha|held s p s' Hp Hr]; simpl in *.
    + destruct (pa_alloc_ok s Hwf) as (r1 & s1 & E & Hwf' & Hcase).
      rewrite Ha in E. injection E as <- <-.
      destruct Hcase as [[-> ->]|(Hr & _ & ->)].
      * by rewrite decide_True.
      * rewrite decide_False by by apply port_ok_not_illegal. by rewrite Hu.
    + destruct (pa_release_ok s p Hwf) as (s1 & E & Hwf' & Hs1); [set_solver|].
      rewrite Hr in E. injection E as <-. by rewrite Hs1, Hu.
Qed.

Lemma CIpInfo_alloc_ok s : CIpInfo_wf s ->
  exists r s', CIpInfo_get_new_free_port s = Ok (r, s') /\ CIpInfo_wf s' /\
    ((r = ILLEGAL_PORT /\ m_bitmap_port s' = m_bitmap_port s) \/
     (port_ok r /\ r ∉ m_bitmap_port s /\ m_bitmap_port s' = {[ r ]} ∪ m_bitmap_port s)).
Proof.
  intros Hwf. destruct (alloc_cases s) as (r & s' & E & Hp).
  exists r, s'. split; [done|]. split; [by eapply alloc_post_wf|].
  destruct Hp as [(k & _ & Hr & Hf & _ & Hu & _)|(-> & _ & Hu & _)].
  - right. split; [subst r; apply cyc_ok|done].
  - by left.
Qed.

Lemma CIpInfo_release_ok s p : CIpInfo_wf s -> p ∈ m_bitmap_port s ->
  exists s', CIpInfo_return_port s p = Ok s' /\ CIpInfo_wf s' /\
    m_bitmap_port s' = m_bitmap_port s ∖ {[ p ]}.
Proof.
  intros Hwf Hp. eexists. split; [by apply return_port_Ok|]. split; [|done].
  split; simpl; [|apply (wf_head s Hwf)].
  intros q Hq. apply (wf_used s Hwf). set_solver.
Qed.

#[export] Instance CIpInfo_PortAllocator : PortAllocator CIpInfo := {
  pa_alloc := CIpInfo_get_new_free_port;
  pa_release := CIpInfo_return_port;
  pa_used := m_bitmap_port;
  pa_wf := CIpInfo_wf;
  pa_used_ok := fun s p Hwf => wf_used s Hwf p;
  pa_alloc_ok := CIpInfo_alloc_ok;
  pa_release_ok := CIpInfo_release_ok
}.

Lemma CIpInfo_init_wf : CIpInfo_wf CIpInfo_init.
Proof. split; simpl; [set_solver|unfold_ports; lia]. Qed.

(** C15: Port exclusivity.  Along every run of a client that starts from a new
    [CIpInfo] (allocations interleaved with frees of ports it holds), the
    bit map is exactly the set of ports the client holds; the next allocation
    does not fault and returns either 0 or a legal port nobody holds; and
    [return_port] of every held port passes its two assertions. *)
Theorem CIpInfo_ports_exclusive (held : gset Z) (s : CIpInfo) :
  rtc (client_step (S := CIpInfo)) (∅, CIpInfo_init) (held, s) ->
  m_bitmap_port s = held
  /\ (exists r s', CIpInfo_get_new_free_port s = Ok (r, s') /\
        (r = ILLEGAL_PORT \/ (port_ok r /\ r ∉ held)))
  /\ (forall p, p ∈ held -> exists s', CIpInfo_return_port s p = Ok s').
Proof.
  intros Hrun. destruct (client_ledger _ _ Hrun) as [Hwf Hu];
    [apply CIpInfo_init_wf|done|]. simpl in *.
  split; [done|]. split.
  - destruct (CIpInfo_alloc_ok s Hwf) as (r & s' & E & _ & Hc).
    exists r, s'. split; [done|]. rewrite <- Hu. naive_solver.
  - intros p Hp. destruct (CIpInfo_release_ok s p Hwf) as (s' & E & _);
      [by rewrite Hu|]. eauto.
Qed.

Lemma CIpInfo_ports_exclusive_witness :
  exists held s, 1024 ∉ held /\ 1025 ∈ held /\ m_bitmap_port s = held.
Proof.
  exists (({[ 1025 ]} ∪ ({[ 1024 ]} ∪ ∅)) ∖ {[ 1024 ]}),
    (MkIpInfo (({[ 1025 ]} ∪ ({[ 1024 ]} ∪ ∅)) ∖ {[ 1024 ]}) 1026).
  split; [set_solver|]. split; [set_solver|].
  refine (proj1 (CIpInfo_ports_exclusive _ _ _)).
  eapply rtc_l.
  { exact (step_alloc ∅ CIpInfo_init 1024 (MkIpInfo ({[ 1024 ]} ∪ ∅) 1025) eq_refl). }
  eapply rtc_l.
  { exact (step_alloc ({[ 1024 ]} ∪ ∅) (MkIpInfo ({[ 1024 ]} ∪ ∅) 1025) 1025
             (MkIpInfo ({[ 1025 ]} ∪ ({[ 1024 ]} ∪ ∅)) 1026) eq_refl). }
  eapply rtc_l.
  { exact (step_free (({[ 1025 ]} ∪ ({[ 1024 ]} ∪ ∅)))
             (MkIpInfo ({[ 1025 ]} ∪ ({[ 1024 ]} ∪ ∅)) 1026) 1024
             (MkIpInfo (({[ 1025 ]} ∪ ({[ 1024 ]} ∪ ∅)) ∖ {[ 1024 ]}) 1026)
             ltac:(set_solver) eq_refl). }
  apply rtc_refl.
Defined.

(** Bounded first-fit search.  [get_new_free_port] always terminates; it
    returns 0 exactly when the 21 ports that cyclically follow the head are
    all in use (even if another port is free), and then leaves the bit map
    alone and rewinds the head; otherwise it returns the first free one of
    them, marks exactly that port and moves the head behind it. *)
Theorem CIpInfo_first_fit (s : CIpInfo) :
  exists r s', CIpInfo_get_new_free_port s = Ok (r, s')
  /\ (r = ILLEGAL_PORT <->
        forall j, 0 <= j <= 20 -> cyc (search_start s) j ∈ m_bitmap_port s)
  /\ (r = ILLEGAL_PORT -> m_bitmap_port s' = m_bitmap_port s
        /\ m_head_port s' = MIN_PORT)
  /\ (r <> ILLEGAL_PORT -> exists k, 0 <= k <= 20 /\ r = cyc (search_start s) k
        /\ r ∉ m_bitmap_port s
        /\ (forall j, 0 <= j < k -> cyc (search_start s) j ∈ m_bitmap_port s)
        /\ m_bitmap_port s' = {[ r ]} ∪ m_bitmap_port s
        /\ m_head_port s' = r + 1).
Proof.
  destruct (alloc_cases s) as (r & s' & E & Hp). exists r, s'. split; [done|].
  destruct Hp as [(k & Hk & Hr & Hf & Hb & Hu & Hh)|(-> & Hb & Hu & Hh)].
  - assert (r <> ILLEGAL_PORT) by (subst r; apply port_ok_not_illegal, cyc_ok).
    repeat split; try done; [intros Hall; subst r; by destruct (Hf (Hall k Hk))|].
    intros _. by exists k.
  - repeat split; done.
Qed.

(** ** [CIpInfoL]: the running port number *)

Fixpoint CIpInfoL_run (n : nat) (cur : Z) : list Z :=
  match n with
  | O => []
  | S n => let '(r, cur) := CIpInfoL_get_new_free_port cur in r :: CIpInfoL_run n cur
  end.

Lemma CIpInfoL_step cur :
  MIN_PORT <= cur <= MAX_PORT + 1 ->
  exists cur', CIpInfoL_get_new_free_port cur
    = (MIN_PORT + (cur - MIN_PORT) mod SocketsPerClient, cur')
  /\ MIN_PORT <= cur' <= MAX_PORT + 1
  /\ (cur' - MIN_PORT) mod SocketsPerClient
     = (cur - MIN_PORT + 1) mod SocketsPerClient.
Proof.
  unfold CIpInfoL_get_new_free_port, SocketsPerClient, MIN_PORT, MAX_PORT. intros Hc.
  destruct (Z.gtb_spec cur 64000); eexists.
  - replace cur with 64001 by lia. split; [reflexivity|]. done.
  - rewrite u16_id by lia. rewrite (Z.mod_small (cur - 1024)) by lia.
    split; [by replace (1024 + (cur - 1024)) with cur by lia|].
    split; [lia|]. f_equal. lia.
Qed.

Lemma CIpInfoL_run_lookup n : forall cur k,
  MIN_PORT <= cur <= MAX_PORT + 1 -> (k < n)%nat ->
  CIpInfoL_run n cur !! k
  = Some (MIN_PORT + (cur - MIN_PORT + Z.of_nat k) mod SocketsPerClient).
Proof.
  induction n as [|n IH]; intros cur k Hc Hk; [lia|]. cbn [CIpInfoL_run].
  destruct (CIpInfoL_step cur Hc) as (cur' & -> & Hc' & Hm).
  destruct k as [|k]; simpl.
  - by rewrite Z.add_0_r.
  - rewrite IH by (done || lia). do 2 f_equal.
    rewrite <- (Zplus_mod_idemp_l (cur' - MIN_PORT)), Hm, Zplus_mod_idemp_l.
    f_equal. lia.
Qed.

(** The allocator of large pools cycles through the
    [SocketsPerClient] ports [MIN_PORT .. MAX_PORT]: the [k]-th port is given
    by the closed form, and ports handed out fewer than [SocketsPerClient]
    allocations apart are different. *)
Theorem CIpInfoL_cycle (n : nat) (cur : Z) (k : nat) :
  MIN_PORT <= cur <= MAX_PORT + 1 -> (k < n)%nat ->
  CIpInfoL_run n cur !! k
  = Some (MIN_PORT + (cur - MIN_PORT + Z.of_nat k) mod SocketsPerClient)
  /\ (forall j, (k < j < n)%nat -> Z.of_nat (j - k) < SocketsPerClient ->
        CIpInfoL_run n cur !! k <> CIpInfoL_run n cur !! j).
Proof.
  intros Hc Hk. split; [by apply CIpInfoL_run_lookup|].
  intros j Hj Hd Heq. rewrite !CIpInfoL_run_lookup in Heq by (done || lia).
  injection Heq as Heq.
  change SocketsPerClient with 62977 in *. change MIN_PORT with 1024 in *.
  assert (Z.of_nat (j - k) = Z.of_nat j - Z.of_nat k) by lia.
  Z.div_mod_to_equations. lia.
Qed.

Lemma CIpInfoL_cycle_witness :
  CIpInfoL_run 3 64000 !! 1%nat = Some 1024.
Proof.
  rewrite (proj1 (CIpInfoL_cycle 3 64000 1 ltac:(vm_compute; split; discriminate)
    ltac:(lia))). reflexivity.
Defined.

(** ** Pools: the choice of the IP *)

Section PoolFacts.
Context {G : Type} `{UniformInt G}.
Implicit Types (p : CIpPool G).

Fixpoint generate_ips (n : nat) (p : CIpPool G) : res (list Z * CIpPool G) :=
  match n with
  | O => Ok ([], p)
  | S n =>
      '(i, p) ← generate_ip p;
      '(l, p) ← generate_ips n p;
      Ok (i :: l, p)
  end.

Definition pool_wf p : Prop :=
  0 < zlength (p_ip_info p) < 4294967296
  /\ 0 <= p_cur_idx p < zlength (p_ip_info p)
  /\ (p_dist p = cdRANDOM_DIST ->
        p_rand_dis p = Some (zlength (p_ip_info p) - 1)).

Lemma generate_ip_step p :
  pool_wf p ->
  exists p', generate_ip p = Ok (p_cur_idx p, p') /\ pool_wf p'
    /\ p_ip_info p' = p_ip_info p /\ p_dist p' = p_dist p
    /\ (p_dist p <> cdRANDOM_DIST ->
          p_cur_idx p' = (p_cur_idx p + 1) mod zlength (p_ip_info p)).
Proof.
  intros (Hn & Hc & Hr). unfold generate_ip, inc_cur_idx.
  assert (Hseq : forall c, c = (if u32 (p_cur_idx p + 1) >=? zlength (p_ip_info p)
                    then 0 else u32 (p_cur_idx p + 1)) ->
      0 <= c < zlength (p_ip_info p)
      /\ c = (p_cur_idx p + 1) mod zlength (p_ip_info p)).
  { intros c ->. destruct (decide (p_cur_idx p + 1 = zlength (p_ip_info p))) as [E|E].
    - rewrite E, Z.mod_same by lia.
      destruct (Z.geb_spec (u32 (zlength (p_ip_info p))) (zlength (p_ip_info p))) as [|Hlt];
        [lia|]. rewrite u32_id in Hlt by lia. lia.
    - rewrite u32_id by lia. rewrite Z.mod_small by lia.
      destruct (Z.geb_spec (p_cur_idx p + 1) (zlength (p_ip_info p))); lia. }
  unfold get_random_idx.
  destruct (p_dist p) eqn:Ed.
  2: { rewrite (Hr eq_refl).
    pose proof (uniform_draw_range (zlength (p_ip_info p) - 1) (p_generator p) ltac:(lia)).
    destruct (uniform_draw (zlength (p_ip_info p) - 1) (p_generator p)) as [r g].
    simpl in *. eexists. split; [reflexivity|]. unfold pool_wf. simpl.
    rewrite u32_id by lia. rewrite Ed. repeat split; auto; try lia; congruence. }
  all: eexists; (split; [reflexivity|]); unfold pool_wf; simpl;
    destruct (Hseq _ eq_refl) as [Hb He];
    repeat split; try done; try lia; try congruence.
Qed.

Lemma generate_ips_seq n : forall p,
  pool_wf p -> p_dist p <> cdRANDOM_DIST ->
  exists p', generate_ips n p =
    Ok ((fun k => (p_cur_idx p + Z.of_nat k) mod zlength (p_ip_info p)) <$> seq 0 n, p')
    /\ pool_wf p'.
Proof.
  induction n as [|n IH]; intros p Hwf Hd; [by exists p|].
  destruct (generate_ip_step p Hwf) as (p1 & E1 & Hwf1 & Hi & Hd1 & Hcur).
  destruct (IH p1 Hwf1) as (p2 & E2 & Hwf2); [congruence|].
  exists p2. split; [|done]. simpl. rewrite E1. simpl. rewrite E2. simpl.
  rewrite Hi, (Hcur Hd). do 3 f_equal.
  - rewrite Z.add_0_r, Z.mod_small by (destruct Hwf; tauto). done.
  - rewrite <- fmap_S_seq, <- list_fmap_compose. apply list_fmap_ext.
    intros _ k _. unfold compose. rewrite Zplus_mod_idemp_l. f_equal. lia.
Qed.

(** Fair choice of the clients.  In a well-formed pool with the
    sequential (or the not implemented normal) distribution the [k]-th call
    of [generate_ip] returns the index [cur + k] modulo the size, so [n * size]
    calls use every IP [n] times; with the random distribution every returned
    index is in range. No call faults. *)
Theorem generate_ip_round_robin (p : CIpPool G) (n : nat) :
  pool_wf p ->
  exists l p', generate_ips n p = Ok (l, p') /\ pool_wf p' /\ length l = n
  /\ Forall (fun i => 0 <= i < zlength (p_ip_info p)) l
  /\ (p_dist p <> cdRANDOM_DIST -> forall k, (k < n)%nat ->
        l !! k = Some ((p_cur_idx p + Z.of_nat k) mod zlength (p_ip_info p))).
Proof.
  intros Hwf. revert p Hwf. induction n as [|n IH]; intros p Hwf.
  - exists [], p. simpl. repeat split; try done; [apply Hwf..|lia].
  - destruct (decide (p_dist p = cdRANDOM_DIST)) as [Hd|Hd].
    + destruct (generate_ip_step p Hwf) as (p1 & E1 & Hwf1 & Hi & Hd1 & _).
      destruct (IH p1 Hwf1) as (l & p2 & E2 & Hwf2 & Hl & Hb & _).
      exists (p_cur_idx p :: l), p2. simpl. rewrite E1. simpl. rewrite E2. simpl.
      rewrite Hi in Hb. destruct Hwf as (? & ? & ?).
      split; [done|]. split; [done|]. split; [lia|]. split; [by constructor|].
      done.
    + destruct (generate_ips_seq (S n) p Hwf Hd) as (p' & E & Hwf').
      eexists _, p'. split; [exact E|]. split; [done|].
      split; [by rewrite length_fmap, length_seq|].
      destruct Hwf as (Hn & _). split.
      * apply Forall_fmap, Forall_true. intros k. simpl. apply Z.mod_pos_bound. lia.
      * intros _ k Hk. by rewrite list_lookup_fmap, lookup_seq_lt.
Qed.

End PoolFacts.

(** ** Creation of the pools *)

Lemma zlength_replicate {A} n (x : A) : zlength (replicate n x) = Z.of_nat n.
Proof. unfold zlength. by rewrite length_replicate. Qed.

(** The creation loop succeeds exactly when it stores in range only. *)
Lemma fill_infos_spec new n : forall idx l,
  0 <= idx ->
  (exists l', fill_infos new idx n l = Ok l'
     /\ (forall i, idx <= i < idx + Z.of_nat n -> is_Some (new i) -> i < zlength l)
     /\ zlength l' = zlength l
     /\ forall k, 0 <= k < zlength l -> l' !! Z.to_nat k =
          if decide (idx <= k < idx + Z.of_nat n) then
            match new k with Some i => Some (Some i) | None => l !! Z.to_nat k end
          else l !! Z.to_nat k)
  \/ (fill_infos new idx n l = Err OutOfBounds
     /\ exists i, idx <= i < idx + Z.of_nat n /\ is_Some (new i) /\ zlength l <= i).
Proof.
  induction n as [|n IH]; intros idx l Hi.
  - left. exists l. simpl. split; [done|]. split; [lia|]. split; [done|].
    intros k Hk. rewrite decide_False by lia. done.
  - simpl. destruct (new idx) as [x|] eqn:En; simpl.
    + unfold set_idx. fold (zlength l). case_decide as Hr; simpl.
      2: { right. split; [done|]. exists idx. rewrite En. split; [lia|]. split; [done|lia]. }
      assert (Hzl : zlength (<[Z.to_nat idx:=Some x]> l) = zlength l)
        by (unfold zlength; by rewrite length_insert).
      destruct (IH (idx + 1) (<[Z.to_nat idx:=Some x]> l) ltac:(lia))
        as [(l' & -> & Hb & Hl & Hk)|(-> & i & Hri & Hsi & Hzi)]; rewrite Hzl in *.
      * left. exists l'. split; [done|]. split; [|split; [done|]].
        -- intros i Hrange Hs. destruct (decide (i = idx)) as [->|]; [lia|].
           apply Hb; [lia|done].
        -- intros k Hkr. rewrite Hk by done.
           destruct (decide (k = idx)) as [->|Hne].
           ++ rewrite decide_False by lia. rewrite decide_True by lia. rewrite En.
              apply list_lookup_insert_eq. unfold zlength in *. lia.
           ++ rewrite list_lookup_insert_ne by lia.
              repeat case_decide; done || lia.
      * right. split; [done|]. exists i. split; [lia|done].
    + destruct (IH (idx + 1) l ltac:(lia))
        as [(l' & -> & Hb & Hl & Hk)|(-> & i & Hri & Hsi & Hzi)].
      * left. exists l'. split; [done|]. split; [|split; [done|]].
        -- intros i Hrange Hs. destruct (decide (i = idx)) as [->|].
           ++ rewrite En in Hs. by destruct Hs.
           ++ apply Hb; [lia|done].
        -- intros k Hkr. rewrite Hk by done.
           destruct (decide (k = idx)) as [->|Hne].
           ++ rewrite decide_False by lia. rewrite decide_True by lia. by rewrite En.
           ++ repeat case_decide; done || lia.
      * right. split; [done|]. exists i. split; [lia|done].
Qed.

Section CreateFacts.
Context {G : Type} `{UniformInt G}.

(** A pool just created with [n] IPs from [min_ip]. *)
Definition fresh_pool (p : CIpPool G) (min_ip : Z) (n : Z) : Prop :=
  pool_wf p /\ zlength (p_ip_info p) = n
  /\ p_cur_idx p = 0 /\ p_active_alloc p = 0 /\ p_port_allocation_error p = 0
  /\ forall k, 0 <= k < n -> exists i, p_ip_info p !! Z.to_nat k = Some (Some i)
       /\ i_ip i = min_ip + k
       /\ (i_ports i = PortsBit CIpInfo_init \/ i_ports i = PortsL MIN_PORT).

Lemma CreateBase_fresh (g : G) dist infos min_ip n :
  0 < n < 2147483648 -> zlength infos = n ->
  (forall k, 0 <= k < n -> exists i, infos !! Z.to_nat k = Some (Some i)
       /\ i_ip i = min_ip + k
       /\ (i_ports i = PortsBit CIpInfo_init \/ i_ports i = PortsL MIN_PORT)) ->
  fresh_pool (CreateBase (MkPool infos (set_dist dist) 0 0 0 g None)) min_ip n.
Proof.
  intros Hn Hl Hi. unfold fresh_pool, pool_wf, CreateBase, get_total_ips. simpl.
  rewrite Hl, (u32_id n) by lia. repeat split; try done; try lia.
  intros ->. rewrite (u32_id (n - 1)) by lia. unfold s32.
  rewrite Z.mod_small by lia. f_equal. lia.
Qed.

(** Creation of a client pool without MAC mapping.  For every IP range of
    fewer than 2^31 addresses [Create] succeeds whatever the distribution and
    the load estimates, with one fresh allocator per IP, in address order, and
    all counters zero. *)
Theorem CClientPool_Create_no_mac (g : G) dist min_ip max_ip l_flow t_cps mi tcp udp :
  0 <= min_ip <= max_ip -> max_ip < 4294967296 -> max_ip - min_ip + 1 < 2147483648 ->
  exists c, CClientPool_Create g dist min_ip max_ip l_flow t_cps mi false tcp udp = Ok c
  /\ fresh_pool (cp_pool c) min_ip (max_ip - min_ip + 1)
  /\ cp_tcp_aging c = tcp /\ cp_udp_aging c = udp.
Proof.
  intros Hr Hm Hs. unfold CClientPool_Create. unfold c_assert.
  destruct (Z.geb_spec max_ip min_ip); [simpl|lia].
  rewrite (u32_id (max_ip - min_ip + 1)) by lia.
  destruct (Z.eqb_spec (max_ip - min_ip + 1) 0); [lia|]. simpl.
  set (large := use_large_info _ _ _).
  set (total := max_ip - min_ip + 1) in *.
  set (new := fun idx => Some (new_client large None (u32 (min_ip + idx)))).
  destruct (fill_infos_spec new (Z.to_nat total) 0 (replicate (Z.to_nat total) None) ltac:(lia))
    as [(l & -> & _ & Hl & Hk)|(_ & i & Hi & _ & Hz)];
    rewrite zlength_replicate in *; [|lia].
  rewrite Z2Nat.id in * by lia. simpl.
  eexists. split; [reflexivity|]. split; [|done]. cbn [cp_pool].
  apply CreateBase_fresh; [lia|lia|].
  intros k Hkr. rewrite Hk by lia. rewrite decide_True by lia.
  eexists. split; [reflexivity|]. unfold new_client.
  destruct large; simpl; (split; [rewrite u32_id by lia; lia|auto]).
Qed.

(** [present] counts the IPs of the range that have a MAC address. *)
Lemma missing_macs_range l n : forall ip, 0 <= missing_macs l ip n <= Z.of_nat n.
Proof.
  induction n as [|n IH]; intros ip; simpl; [lia|].
  specialize (IH (ip + 1)). destruct (get_mac_addr_by_ip l (u32 ip)); lia.
Qed.

(** The MAC mapping defect.  With a MAC map that covers some but not all
    IPs of the range, the vector is sized to the covered IPs but indexed by the
    offset in the whole range: creation stays in bounds exactly when every
    covered IP lies in the first [avail] offsets, otherwise it stores past the
    end of the vector. *)
Theorem CClientPool_Create_mac_bounds (g : G) dist min_ip max_ip l_flow t_cps ml tcp udp :
  0 <= min_ip <= max_ip -> max_ip < 4294967296 -> max_ip - min_ip + 1 < 4294967296 ->
  let total := max_ip - min_ip + 1 in
  let avail := total - missing_macs ml min_ip (Z.to_nat total) in
  let create := CClientPool_Create g dist min_ip max_ip l_flow t_cps (Some ml)
                  true tcp udp in
  0 < avail ->
  ((exists c, create = Ok c) <->
     forall k, 0 <= k < total ->
       is_Some (get_mac_addr_by_ip ml (u32 (min_ip + k))) -> k < avail)
  /\ ((exists k, avail <= k < total /\ is_Some (get_mac_addr_by_ip ml (u32 (min_ip + k))))
       <-> create = Err OutOfBounds).
Proof.
  intros Hr Hm Hs total avail create Ha. unfold create, CClientPool_Create, c_assert.
  destruct (Z.geb_spec max_ip min_ip); [simpl|lia]. fold total.
  pose proof (missing_macs_range ml (Z.to_nat total) min_ip) as Hmm.
  rewrite (u32_id total) by lia. fold avail. rewrite (u32_id avail) by lia.
  destruct (Z.eqb_spec avail 0); [lia|]. simpl.
  set (large := use_large_info _ _ _).
  set (new := fun idx => match get_mac_addr_by_ip ml (u32 (min_ip + idx)) with
     | Some m => Some (new_client large (Some m) (u32 (min_ip + idx)))
     | None => None end).
  assert (Hnew : forall k, is_Some (new k) <->
                   is_Some (get_mac_addr_by_ip ml (u32 (min_ip + k)))).
  { intros k. unfold new. destruct (get_mac_addr_by_ip _ _); split; intros Hsome;
      first [by destruct Hsome as [? [=]]|by eexists]. }
  destruct (fill_infos_spec new (Z.to_nat total) 0 (replicate (Z.to_nat avail) None)
              ltac:(lia)) as [(l & -> & Hb & _)|(-> & i & Hi & Hsi & Hz)];
    rewrite zlength_replicate, Z2Nat.id in * by lia; simpl; split.
  - split; [|eauto]. intros _ k Hk Hp%Hnew. rewrite Z2Nat.id in Hb by lia.
    apply Hb; [lia|done].
  - split; [|discriminate]. intros (k & Hk & Hp%Hnew).
    rewrite Z2Nat.id in Hb by lia. specialize (Hb k ltac:(lia) Hp). lia.
  - split; [by intros [c [=]]|]. intros Hall. apply Hnew, Hall in Hsi; lia.
  - split; [done|]. intros _. exists i. split; [lia|by apply Hnew].
Qed.

End CreateFacts.

(** A concrete random source, the MINSTD generator reduced to the range, to
    run the definitions. *)
Definition minstd_draw (hi g : Z) : Z * Z :=
  let g := (g * 16807) mod 2147483647 in (g mod (hi + 1), g).

Lemma minstd_range hi g : 0 <= hi -> 0 <= fst (minstd_draw hi g) <= hi.
Proof. intros. unfold minstd_draw. simpl. Z.div_mod_to_equations. lia. Qed.

#[export] Instance minstd : UniformInt Z := {
  uniform_draw := minstd_draw; uniform_draw_range := minstd_range }.

Definition d_one : double := double_of_Z 1.

Lemma CClientPool_Create_no_mac_witness :
  exists c, CClientPool_Create (G := Z) 1 cdRANDOM_DIST 167772161 167772163 d_one d_one
              None false 1 2 = Ok c
  /\ fresh_pool (cp_pool c) 167772161 3.
Proof.
  destruct (CClientPool_Create_no_mac (G := Z) 1 cdRANDOM_DIST 167772161 167772163
    d_one d_one None 1 2) as (c & E & F & _); [lia|lia|lia|].
  exists c. split; [exact E|exact F].
Defined.

(** The second of two IPs has a MAC, the first has none. *)
Definition sparse_macs : CFlowGenListMac :=
  MkMacList true {[ 168 := MkMac [2; 0; 0; 0; 0; 1] INUSED ]}.

Lemma CClientPool_Create_mac_bounds_witness :
  CClientPool_Create (G := Z) 1 cdSEQ_DIST 167 168 d_one d_one
    (Some sparse_macs) true 0 0 = Err OutOfBounds.
Proof.
  apply (proj2 (CClientPool_Create_mac_bounds (G := Z) 1 cdSEQ_DIST 167 168 d_one d_one
    sparse_macs 0 0 ltac:(lia) ltac:(lia) ltac:(lia) ltac:(vm_compute; reflexivity))).
  exists 1. split; [vm_compute; split; congruence|]. vm_compute. eauto.
Defined.

Lemma generate_ip_round_robin_witness :
  exists l p', generate_ips (G := Z) 5
    (CreateBase (MkPool [Some (CServerInfoL_new 1); Some (CServerInfoL_new 2);
       Some (CServerInfoL_new 3)] cdSEQ_DIST 0 0 0 1 None)) = Ok (l, p')
  /\ l = [0; 1; 2; 0; 1].
Proof.
  destruct (generate_ip_round_robin (G := Z) (CreateBase (MkPool
    [Some (CServerInfoL_new 1); Some (CServerInfoL_new 2); Some (CServerInfoL_new 3)]
    cdSEQ_DIST 0 0 0 1 None)) 5) as (l & p' & E & _).
  - unfold pool_wf. simpl. repeat split; try done.
  - exists l, p'. split; [exact E|]. vm_compute in E. congruence.
Defined.

(** ** Splitting the pools between threads *)

(** The portion of a thread, of a configuration that passes [is_valid]. *)
Lemma split_ips_at (pi : CTupleGenPoolYaml) (n dual t : Z) :
  0 <= y_ip_start pi -> 0 <= y_ip_end pi < 4294967296 -> 0 < n < 4294967296 ->
  pool_yaml_is_valid n pi = true ->
  let mask := dual * y_dual_interface_mask pi in
  0 <= mask -> y_ip_end pi + mask < 4294967296 -> 0 <= t < n ->
  let c := (y_ip_end pi - y_ip_start pi + 1) / n in
  1 <= c <= 1000000 /\ n * c <= y_ip_end pi - y_ip_start pi + 1 /\
  split_ips t n dual pi = Ok (MkPortion (y_ip_start pi + t * c + mask) (y_ip_start pi + t * c + mask + c - 1)).
Proof.
  intros Hs He Hn Hv mask Hm0 Hm Ht.
  unfold pool_yaml_is_valid in Hv.
  destruct (Z.gtb_spec (y_ip_start pi) (y_ip_end pi)) as [|Hle]; [done|].
  destruct (Z.ltb_spec (u32 (y_ip_end pi - y_ip_start pi + 1)) n) as [|Hge]; [done|].
  destruct (Z.gtb_spec (u32 (y_ip_end pi - y_ip_start pi + 1)) 1000000) as [|Hmax]; [done|].
  clear Hv. set (T := y_ip_end pi - y_ip_start pi + 1) in *.
  assert (HTe : T = y_ip_end pi - y_ip_start pi + 1) by done.
  assert (HT : u32 T = T) by (clearbody T; word_lia). rewrite HT in *. intros c.
  assert (Hc : 1 <= c /\ n * c <= T).
  { unfold c. split; [apply Z.div_le_lower_bound; lia|apply Z.mul_div_le; lia]. }
  assert (c <= 1000000) by nia. split; [lia|]. split; [lia|].
  unfold split_ips. destruct (Z.eqb_spec n 0); [lia|].
  unfold getTotalIps. fold T. rewrite HT. fold c. unfold c_assert.
  destruct (Z.gtb_spec c 0); [simpl|lia]. fold mask.
  assert (t * c + c <= n * c) by nia. assert (0 <= t * c) by nia.
  rewrite (u32_id mask) by lia. rewrite (u32_id (y_ip_start pi + t * c + mask)) by lia.
  rewrite u32_id by lia. done.
Qed.

(** Thread separation.  For a configuration that passes [is_valid], every
    thread [t < n] gets a portion (the assertion holds), the portion has the
    size [total / n], lies in the configured range shifted by the mask of the
    dual port, and the portions of two threads do not overlap. *)
Theorem split_ips_disjoint (pi : CTupleGenPoolYaml) (n dual : Z) :
  0 <= y_ip_start pi -> 0 <= y_ip_end pi < 4294967296 -> 0 < n < 4294967296 ->
  pool_yaml_is_valid n pi = true ->
  let mask := dual * y_dual_interface_mask pi in
  0 <= mask -> y_ip_end pi + mask < 4294967296 ->
  (forall t, 0 <= t < n -> exists po, split_ips t n dual pi = Ok po
     /\ y_ip_start pi + mask <= portion_ip_start po
     /\ portion_ip_end po <= y_ip_end pi + mask
     /\ portion_ip_end po - portion_ip_start po + 1
        = (y_ip_end pi - y_ip_start pi + 1) / n)
  /\ (forall t1 t2 po1 po2, 0 <= t1 -> t1 < t2 -> t2 < n ->
        split_ips t1 n dual pi = Ok po1 -> split_ips t2 n dual pi = Ok po2 ->
        portion_ip_end po1 < portion_ip_start po2).
Proof.
  intros Hs He Hn Hv mask Hm0 Hm.
  pose proof (fun t => split_ips_at pi n dual t Hs He Hn Hv Hm0 Hm) as Hat. cbv zeta in Hat. fold mask in Hat.
  set (c := (y_ip_end pi - y_ip_start pi + 1) / n) in *. split.
  - intros t Ht. destruct (Hat t Ht) as (Hc & Hnc & ->). eexists. split; [reflexivity|]. simpl.
    assert (t * c + c <= n * c) by nia. repeat split; nia || lia.
  - intros t1 t2 po1 po2 H1 H2 H3 E1 E2. destruct (Hat t1) as (Hc & Hnc & E1'); [lia|].
    destruct (Hat t2) as (_ & _ & E2'); [lia|]. rewrite E1' in E1. rewrite E2' in E2.
    injection E1 as <-. injection E2 as <-. simpl. nia.
Qed.

Definition pool_16_1 : CTupleGenPoolYaml :=
  MkPoolYaml cdSEQ_DIST 268435457 268435711 0 0 16777216 0 0 "default" false.

Lemma split_ips_disjoint_witness :
  exists po1 po2, split_ips 0 4 1 pool_16_1 = Ok po1 /\ split_ips 3 4 1 pool_16_1 = Ok po2
  /\ portion_ip_end po1 < portion_ip_start po2.
Proof.
  destruct (split_ips_disjoint pool_16_1 4 1 ltac:(done) ltac:(done) ltac:(done)
    ltac:(reflexivity) ltac:(vm_compute; congruence) ltac:(done)) as [Ht Hd].
  destruct (Ht 0) as (po1 & E1 & _); [lia|]. destruct (Ht 3) as (po2 & E2 & _); [lia|].
  exists po1, po2. split; [exact E1|]. split; [exact E2|].
  exact (Hd 0 3 po1 po2 ltac:(lia) ltac:(lia) ltac:(lia) E1 E2).
Defined.

(** ** The template generator *)

Section TemplateFacts.
Context {G : Type} `{UniformInt G}.
Implicit Types (g : CTupleGeneratorSmart G) (tt : CTupleTemplateGeneratorSmart).

(** [n] calls of [GenerateTuple] on the same tuple object. *)
Fixpoint template_run (n : nat) tt g (t : CTupleBase)
    : res (list CTupleBase * CTupleTemplateGeneratorSmart * CTupleGeneratorSmart G) :=
  match n with
  | O => Ok ([], tt, g)
  | S n =>
      '(t, tt, g) ← template_GenerateTuple tt g t;
      '(l, tt, g) ← template_run n tt g t;
      Ok (t :: l, tt, g)
  end.

(** The client and the server of a tuple, without the ports. *)
Definition endpoints (t : CTupleBase) : Z * Z * (Z * Z) :=
  (t_client_ip t, t_client_idx t, getServerAll t).

Definition cached_endpoints tt : Z * Z * (Z * Z) :=
  (tt_cache_client_ip tt, tt_cache_client_idx tt,
   (tt_cache_server_idx tt, tt_cache_server_ip tt)).

Lemma template_step tt g t t' tt' g' :
  tt_w tt <> 1 -> 0 <= tt_cnt tt < 65535 -> tt_is_single_server tt = false ->
  template_GenerateTuple tt g t = Ok (t', tt', g') ->
  endpoints t' = cached_endpoints tt'
  /\ (tt_cnt tt <> 0 -> cached_endpoints tt' = cached_endpoints tt)
  /\ tt_cnt tt' = (if tt_cnt tt + 1 >=? tt_w tt then 0 else tt_cnt tt + 1)
  /\ tt_w tt' = tt_w tt /\ tt_is_single_server tt' = false.
Proof.
  intros Hw Hc Hs. unfold template_GenerateTuple.
  destruct (Z.eqb_spec (tt_w tt) 1); [done|].
  destruct (Z.eqb_spec (tt_cnt tt) 0) as [Hz|Hz]; intros E.
  - apply bind_Ok in E as ([[t1 tt1] g1] & E & Hl).
    apply bind_Ok in E as ([[t2 tt2] g2] & E & Hl2).
    apply bind_Ok in E as ([t3 g3] & E & Hl3).
    cbn in Hl3. injection Hl3 as <- <- <-. cbn in Hl2. injection Hl2 as <- <- <-.
    cbn in Hl. rewrite Hs in Hl. injection Hl as <- <- <-.
    rewrite u16_id by lia. rewrite Hz. cbn. done.
  - apply bind_Ok in E as ([[t1 tt1] g1] & E & Hl).
    apply bind_Ok in E as ([[t2 tt2] g2] & E & Hl2).
    apply bind_Ok in E as ([port g3] & E & Hl3).
    cbn in Hl3. injection Hl3 as <- <- <-. cbn in Hl2. injection Hl2 as <- <- <-.
    cbn in Hl. rewrite Hs in Hl. injection Hl as <- <- <-.
    rewrite u16_id by lia. cbn. done.
Qed.

Lemma template_run_rest n : forall tt g t l tt' g',
  tt_w tt <> 1 -> 0 < tt_cnt tt -> tt_cnt tt + Z.of_nat n = tt_w tt ->
  tt_w tt < 65536 -> tt_is_single_server tt = false ->
  template_run n tt g t = Ok (l, tt', g') ->
  Forall (fun t => endpoints t = cached_endpoints tt) l
  /\ cached_endpoints tt' = cached_endpoints tt
  /\ ((0 < n)%nat -> tt_cnt tt' = 0).
Proof.
  induction n as [|n IH]; intros tt g t l tt' g' Hw Hc Hn Hmax Hs E.
  - injection E as <- <- <-. split; [done|]. split; [done|lia].
  - simpl in E. apply bind_Ok in E as ([[t1 tt1] g1] & E1 & E).
    apply bind_Ok in E as ([[l2 tt2] g2] & E2 & E). injection E as <- <- <-.
    destruct (template_step _ _ _ _ _ _ Hw ltac:(lia) Hs E1) as (He & Hk & Hcnt & Hw1 & Hs1).
    specialize (Hk ltac:(lia)). destruct n as [|n].
    + injection E2 as <- <- <-. split; [constructor; [congruence|done]|].
      split; [done|]. intros _. rewrite Hcnt. destruct (Z.geb_spec (tt_cnt tt + 1) (tt_w tt)); lia.
    + destruct (Z.geb_spec (tt_cnt tt + 1) (tt_w tt)); [lia|].
      destruct (IH tt1 g1 t1 l2 tt2 g2) as (Hf & Hce & Hz); try done; try congruence; try lia.
      rewrite Hk in Hf. split; [constructor; [congruence|done]|].
      split; [congruence|]. intros _. apply Hz. lia.
Qed.

Lemma template_run_length n : forall tt g t l tt' g',
  template_run n tt g t = Ok (l, tt', g') -> length l = n.
Proof.
  induction n as [|n IH]; intros tt g t l tt' g' E; [by injection E as <- <- <-|].
  simpl in E. apply bind_Ok in E as ([[t1 tt1] g1] & E1 & E).
  apply bind_Ok in E as ([[l2 tt2] g2] & E2 & E). injection E as <- <- <-.
  simpl. f_equal. by eapply IH.
Qed.

(** Flow clusters.  With a weight [w > 1] and no fixed server, the [w]
    tuples generated from the start of a cluster all carry the client and the
    server drawn by the first of them, and the generator is back at the start
    of a cluster: client and server pools advance once per [w] flows. *)
Theorem template_cluster tt g t l tt' g' (w : nat) :
  (1 < w)%nat -> tt_w tt = Z.of_nat w -> tt_w tt < 65536 ->
  tt_cnt tt = 0 -> tt_is_single_server tt = false ->
  template_run w tt g t = Ok (l, tt', g') ->
  length l = w /\ tt_cnt tt' = 0
  /\ exists e, Forall (fun t => endpoints t = e) l /\ cached_endpoints tt' = e.
Proof.
  intros Hw1 Hw Hmax Hc Hs E.
  split; [by eapply template_run_length|]. destruct w as [|w]; [lia|]. simpl in E.
  apply bind_Ok in E as ([[t1 tt1] g1] & E1 & E).
  apply bind_Ok in E as ([[l2 tt2] g2] & E2 & E). injection E as <- <- <-.
  destruct (template_step tt g t t1 tt1 g1 ltac:(lia) ltac:(lia) Hs E1)
    as (He & _ & Hcnt & Hw1' & Hs1).
  destruct (Z.geb_spec (tt_cnt tt + 1) (tt_w tt)); [lia|].
  destruct (template_run_rest w tt1 g1 t1 l2 tt2 g2) as (Hf & Hce & Hz); try done; try lia.
  split; [apply Hz; lia|]. exists (cached_endpoints tt1). split; [by constructor|done].
Qed.

End TemplateFacts.

(** A generator with one pool of two tracked clients and one simple server
    pool of two servers. *)
Definition demo_gen : CTupleGeneratorSmart Z :=
  MkGen 0 0
    [MkClientPool (CreateBase (MkPool [Some (CClientInfo_new None 16777217);
        Some (CClientInfo_new None 16777218)] cdSEQ_DIST 0 0 0 1 None)) 0 0]
    [CServerPoolSimple 805306370 805306369 805306369] true false.

Definition demo_tuple : CTupleBase := MkTuple 0 0 0 0 (MkMac [] UNUSED) 0 0.
Definition demo_template (w : Z) : CTupleTemplateGeneratorSmart :=
  MkTemplate 0 0 w 0 0 0 0 0 0 false.

Lemma template_cluster_witness :
  exists l tt' g', template_run (G := Z) 3 (demo_template 3) demo_gen demo_tuple
    = Ok (l, tt', g')
  /\ t_client_port <$> l = [1024; 1025; 1026]
  /\ exists e, Forall (fun t => endpoints t = e) l.
Proof.
  eexists _, _, _. split; [vm_compute; reflexivity|]. split; [reflexivity|].
  destruct (template_cluster (G := Z) (demo_template 3) demo_gen demo_tuple _ _ _ 3
    ltac:(lia) eq_refl ltac:(done) eq_refl eq_refl
    ltac:(vm_compute; reflexivity)) as (_ & _ & e & He & _).
  exists e. exact He.
Defined.

(** ** Allocation and release through a pool *)

Section FreePortFacts.
Context {G : Type} `{UniformInt G}.

Lemma pool_info_Ok (p : CIpPool G) idx i :
  pool_info p idx = Ok i <-> 0 <= idx /\ p_ip_info p !! Z.to_nat idx = Some (Some i).
Proof.
  unfold pool_info, get_idx. case_decide; [|split; [done|lia]].
  destruct (p_ip_info p !! Z.to_nat idx) as [[x|]|]; simpl; split; naive_solver.
Qed.

Lemma pool_update_info_total (p : CIpPool G) idx i i' :
  pool_info p idx = Ok i ->
  pool_update_info p idx i' = Ok (pool_set_infos p (<[Z.to_nat idx := Some i']> (p_ip_info p))).
Proof.
  intros [Hi Hl]%pool_info_Ok. apply lookup_lt_Some in Hl.
  unfold pool_update_info, set_idx. by rewrite decide_True by lia.
Qed.

Lemma pool_info_insert_eq (p : CIpPool G) idx i i' a e :
  pool_info p idx = Ok i ->
  pool_info (pool_set_counters (pool_set_infos p
    (<[Z.to_nat idx := Some i']> (p_ip_info p))) a e) idx = Ok i'.
Proof.
  intros [Hi Hl]%pool_info_Ok. apply pool_info_Ok. split; [done|].
  apply list_lookup_insert_eq. by apply lookup_lt_Some in Hl.
Qed.

Lemma pool_FreePort_bits (p : CIpPool G) id i s port :
  pool_info p id = Ok i -> i_ports i = PortsBit s ->
  pool_FreePort p id port =
    (s2 ← CIpInfo_return_port s port;
     Ok (pool_set_infos
          (pool_set_counters p (u32 (p_active_alloc p - 1)) (p_port_allocation_error p))
          (<[Z.to_nat id := Some (set_ports i (PortsBit s2))]> (p_ip_info p)))).
Proof.
  intros Hi Hp. unfold pool_FreePort.
  change (pool_info (pool_set_counters p (u32 (p_active_alloc p - 1))
            (p_port_allocation_error p)) id) with (pool_info p id).
  rewrite Hi. cbn [mbind res_bind]. unfold return_port. rewrite Hp.
  destruct (CIpInfo_return_port s port); [|done]. cbn [mbind res_bind].
  by rewrite (pool_update_info_total _ id i).
Qed.

(** Allocation followed by release.  On an IP with a bit-map allocator,
    [GenerateOnePort] never faults. If it returns a port, [FreePort] of
    that port restores the set of ports in use and the active counter; if the
    allocation failed (port 0, which the error counter records), [FreePort] of
    the returned port stops the program on the assertion of [return_port]. *)
Theorem alloc_then_free (p : CIpPool G) idx i s :
  pool_info p idx = Ok i -> i_ports i = PortsBit s -> CIpInfo_wf s ->
  0 <= p_active_alloc p < 4294967296 ->
  exists port p1, GenerateOnePort p idx = Ok (port, p1)
  /\ p_active_alloc p1 = u32 (p_active_alloc p + 1)
  /\ p_port_allocation_error p1 = (if port =? ILLEGAL_PORT
        then u32 (p_port_allocation_error p + 1) else p_port_allocation_error p)
  /\ (port = ILLEGAL_PORT -> pool_FreePort p1 idx port = Err AssertFail)
  /\ (port <> ILLEGAL_PORT -> port ∉ m_bitmap_port s /\
        exists p2 i2 s2, pool_FreePort p1 idx port = Ok p2
        /\ p_active_alloc p2 = p_active_alloc p
        /\ pool_info p2 idx = Ok i2 /\ i_ports i2 = PortsBit s2
        /\ m_bitmap_port s2 = m_bitmap_port s).
Proof.
  intros Hi Hp Hwf Ha.
  destruct (CIpInfo_alloc_ok s Hwf) as (r & s1 & E & Hwf1 & Hcase).
  set (i1 := set_ports i (PortsBit s1)).
  assert (Hgen : GenerateOnePort p idx = Ok (r, count_alloc (pool_set_infos p
            (<[Z.to_nat idx := Some i1]> (p_ip_info p))) r)).
  { unfold GenerateOnePort, get_new_free_port. rewrite Hi. cbn [mbind res_bind].
    rewrite Hp, E. cbn [mbind res_bind]. by rewrite (pool_update_info_total p idx i). }
  eexists _, _. split; [exact Hgen|].
  assert (Hpi : forall a e, pool_info (pool_set_counters (pool_set_infos p
     (<[Z.to_nat idx := Some i1]> (p_ip_info p))) a e) idx = Ok i1)
    by (intros; by apply (pool_info_insert_eq p idx i)).
  split; [done|]. split; [done|].
  rewrite (pool_FreePort_bits _ idx i1 s1) by (apply Hpi || done). split.
  - intros ->. unfold CIpInfo_return_port.
    rewrite (proj2 (is_port_legal_false ILLEGAL_PORT)) by (unfold_ports; lia). done.
  - intros Hr. destruct Hcase as [[-> _]|(Hok & Hnot & Hu)]; [done|]. split; [done|].
    rewrite return_port_Ok by (done || (rewrite Hu; set_solver)). cbn [mbind res_bind].
    eexists _, _, _. split; [reflexivity|]. split; [cbn; word_lia|]. split.
    { apply pool_info_Ok. apply pool_info_Ok in Hi as [Hge Hl]. split; [done|]. cbn.
      apply list_lookup_insert_eq. rewrite length_insert. by apply lookup_lt_Some in Hl. }
    split; [reflexivity|]. cbn. rewrite Hu. set_solver.
Qed.

End FreePortFacts.

Lemma alloc_then_free_witness :
  exists port p1 p2, GenerateOnePort (G := Z)
    (MkPool [Some (CClientInfo_new None 5)] cdSEQ_DIST 0 7 0 1 None) 0 = Ok (port, p1)
  /\ pool_FreePort p1 0 port = Ok p2 /\ p_active_alloc p2 = 7.
Proof.
  destruct (alloc_then_free (G := Z)
    (MkPool [Some (CClientInfo_new None 5)] cdSEQ_DIST 0 7 0 1 None) 0
    (CClientInfo_new None 5) CIpInfo_init eq_refl eq_refl CIpInfo_init_wf
    ltac:(simpl; lia)) as (port & p1 & E & _ & _ & _ & Hfree).
  assert (Hport : port = 1024) by (vm_compute in E; congruence).
  destruct Hfree as (_ & p2 & i2 & s2 & E2 & Ha & _); [rewrite Hport; vm_compute; congruence|].
  exists port, p1, p2. split; [exact E|]. split; [exact E2|exact Ha].
Defined.
