(* ===== verification/StreamVm.v ===== *)
(** * The stream VM: field engine of a stateless stream

    Models [src/src/stateless/cp/trex_stream_vm.h], [trex_stream_vm.cpp] and
    the writable prefix of [trex_stream.h].  The first half is the data path:
    the byte code ([StreamDPOp*] structs), its layout in a program and the
    interpreter [StreamDPVmInstructionsRunner::run].  The second half is the
    control path: the instructions a user adds, the table of flow variables,
    the initial memory and the compiler.

    The four structs of a group (8, 16, 32 and 64 bits) are one constructor
    with a [width]. *)

From S2P Require Import Prelude ByteMem PktCmn.

(** ** Widths *)

Inductive width : Type := W8 | W16 | W32 | W64.

#[export] Instance width_eq_dec : EqDecision width.
Proof. solve_decision. Defined.

Definition wbytes (w : width) : nat :=
  match w with W8 => 1 | W16 => 2 | W32 => 4 | W64 => 8 end.

(** Conversion to the unsigned type of the width. *)
Definition uw (w : width) (x : Z) : Z :=
  match w with W8 => u8 x | W16 => u16 x | W32 => u32 x | W64 => u64 x end.

(** Conversion to the signed type of the width. *)
Definition sw (w : width) (x : Z) : Z :=
  match w with W8 => s8 x | W16 => s16 x | W32 => s32 x | W64 => s64 x end.

(** ** The pseudo random numbers

    The seed is a 32-bit word of the flow variables: the data path passes the
    start of the flow variables as [per_thread_random]
    ([alloc_node_with_vm]), so it is addressed by an offset [rnd] in them.
    The two draws of [vm_rand32] and of [vm_rand64] are taken left to right
    (C++ leaves the order open). *)

Definition fastrand (g_seed : Z) : Z * Z :=
  let g_seed := u32 (214013 * g_seed + 2531011) in
  (g_seed, Z.land (Z.shiftr g_seed 16) 0x7FFF).

Definition vm_rand16 (fv : bytes) (rnd : Z) : res (bytes * Z) :=
  seed ← ld32 fv rnd;
  let '(seed, r) := fastrand seed in
  fv ← st32 fv rnd seed;
  Ok (fv, r).

Definition vm_rand32 (fv : bytes) (rnd : Z) : res (bytes * Z) :=
  '(fv, a) ← vm_rand16 fv rnd;
  '(fv, b) ← vm_rand16 fv rnd;
  Ok (fv, u32 (u32 (Z.shiftl a 16) + b)).

Definition vm_rand64 (fv : bytes) (rnd : Z) : res (bytes * Z) :=
  '(fv, a) ← vm_rand32 fv rnd;
  '(fv, b) ← vm_rand32 fv rnd;
  Ok (fv, u64 (u64 (Z.shiftl a 32) + b)).

Definition vm_rand (w : width) (fv : bytes) (rnd : Z) : res (bytes * Z) :=
  match w with
  | W8 | W16 => vm_rand16 fv rnd
  | W32 => vm_rand32 fv rnd
  | W64 => vm_rand64 fv rnd
  end.

(** ** The byte code *)

Inductive flow_var_op_e : Type :=
  | FLOW_VAR_OP_INC
  | FLOW_VAR_OP_DEC
  | FLOW_VAR_OP_RANDOM.

#[export] Instance flow_var_op_e_eq_dec : EqDecision flow_var_op_e.
Proof. solve_decision. Defined.

Inductive dp_op : Type :=
  | StreamDPOpFlowVar (w : width) (k : flow_var_op_e) (m_flow_offset m_min_val m_max_val : Z)
  | StreamDPOpIpv4Fix (m_offset : Z)
  | StreamDPOpPktWr (w : width) (m_flags m_offset m_val_offset m_pkt_offset : Z)
  | StreamDPOpClientsLimit
      (m_flow_offset m_flags m_pad m_min_port m_max_port m_min_ip m_max_ip m_limit_flows : Z)
  | StreamDPOpClientsUnLimit (m_flow_offset m_flags m_pad m_min_ip m_max_ip : Z).

(** *** Flow variables *)

Definition run_inc (w : width) (m_flow_offset m_min_val m_max_val : Z) (fv : bytes)
  : res bytes :=
  p ← ld (wbytes w) fv m_flow_offset;
  if p =? m_max_val then st (wbytes w) fv m_flow_offset m_min_val
  else st (wbytes w) fv m_flow_offset (uw w (p + 1)).

Definition run_dec (w : width) (m_flow_offset m_min_val m_max_val : Z) (fv : bytes)
  : res bytes :=
  p ← ld (wbytes w) fv m_flow_offset;
  if p =? m_min_val then st (wbytes w) fv m_flow_offset m_max_val
  else st (wbytes w) fv m_flow_offset (uw w (p - 1)).

(** The right operand of [%]: [(int)(m_max_val - m_min_val + 1)] converted to
    the type of the random number ([uint32_t], for 64 bits [uint64_t]). *)
Definition rand_divisor (w : width) (m_min_val m_max_val : Z) : Z :=
  match w with
  | W8 | W16 => u32 (s32 (m_max_val - m_min_val + 1))
  | W32 => u32 (s32 (u32 (m_max_val - m_min_val + 1)))
  | W64 => u64 (s32 (u64 (m_max_val - m_min_val + 1)))
  end.

Definition run_rand (w : width) (m_flow_offset m_min_val m_max_val : Z) (rnd : Z) (fv : bytes)
  : res bytes :=
  '(fv, r) ← vm_rand w fv rnd;
  let d := rand_divisor w m_min_val m_max_val in
  if d =? 0 then Err DivByZero
  else st (wbytes w) fv m_flow_offset (uw w (m_min_val + r mod d)).

(** *** Packet writes *)

Definition PKT_WR_IS_BIG : Z := 1.

Definition is_big (m_flags : Z) : bool := Z.land m_flags PKT_WR_IS_BIG =? PKT_WR_IS_BIG.

(** The byte swap of each width; the 8-bit write has none. *)
Definition to_big (w : width) (x : Z) : Z :=
  match w with
  | W8 => u8 x
  | W16 => PKT_HTONS x
  | W32 => PKT_HTONL x
  | W64 => pal_ntohl64 (u64 x)
  end.

Definition pkt_wr (w : width) (m_flags m_offset m_val_offset m_pkt_offset : Z)
    (fv pkt : bytes) : res bytes :=
  p_flow_var ← ld (wbytes w) fv m_offset;
  let v := p_flow_var + m_val_offset in
  if is_big m_flags then st (wbytes w) pkt m_pkt_offset (to_big w v)
  else st (wbytes w) pkt m_pkt_offset (uw w v).

Definition ipv4_fix_run (m_offset : Z) (pkt : bytes) : res bytes :=
  IP_updateCheckSum pkt m_offset.

(** *** Client variables: [cur_ip] at 0, [cur_port] at 4, [cur_flow_id] at 6 *)

Definition cur_ip : Z := 0.
Definition cur_port : Z := 4.
Definition cur_flow_id : Z := 6.
Definition sizeof_StreamDPFlowClient : Z := 10.

Definition clients_limit_run (m_flow_offset m_min_port m_max_port m_min_ip m_max_ip
    m_limit_flows : Z) (fv : bytes) : res bytes :=
  let lp := m_flow_offset in
  ip ← ld32 fv (lp + cur_ip);
  let ip := u32 (ip + 1) in
  fv ← st32 fv (lp + cur_ip) ip;
  fv ← (if ip >? m_max_ip then
          fv ← st32 fv (lp + cur_ip) m_min_ip;
          port ← ld16 fv (lp + cur_port);
          let port := u16 (port + 1) in
          fv ← st16 fv (lp + cur_port) port;
          if port >? m_max_port then st16 fv (lp + cur_port) m_min_port else Ok fv
        else Ok fv);
  if negb (m_limit_flows =? 0) then
    id ← ld32 fv (lp + cur_flow_id);
    let id := u32 (id + 1) in
    fv ← st32 fv (lp + cur_flow_id) id;
    if id >? m_limit_flows then
      fv ← st32 fv (lp + cur_flow_id) 1;
      fv ← st32 fv (lp + cur_ip) m_min_ip;
      st16 fv (lp + cur_port) m_min_port
    else Ok fv
  else Ok fv.

Definition CLIENT_UNLIMITED_MIN_PORT : Z := 1025.

Definition clients_unlimit_run (m_flow_offset m_min_ip m_max_ip : Z) (fv : bytes)
  : res bytes :=
  let lp := m_flow_offset in
  ip ← ld32 fv (lp + cur_ip);
  let ip := u32 (ip + 1) in
  fv ← st32 fv (lp + cur_ip) ip;
  if ip >? m_max_ip then
    fv ← st32 fv (lp + cur_ip) m_min_ip;
    port ← ld16 fv (lp + cur_port);
    let port := u16 (port + 1) in
    fv ← st16 fv (lp + cur_port) port;
    if port =? 0 then st16 fv (lp + cur_port) CLIENT_UNLIMITED_MIN_PORT else Ok fv
  else Ok fv.

(** *** One instruction on the flow variables and the packet *)

Definition exec (rnd : Z) (op : dp_op) (s : bytes * bytes) : res (bytes * bytes) :=
  let '(fv, pkt) := s in
  match op with
  | StreamDPOpFlowVar w FLOW_VAR_OP_INC o mn mx => fv ← run_inc w o mn mx fv; Ok (fv, pkt)
  | StreamDPOpFlowVar w FLOW_VAR_OP_DEC o mn mx => fv ← run_dec w o mn mx fv; Ok (fv, pkt)
  | StreamDPOpFlowVar w FLOW_VAR_OP_RANDOM o mn mx => fv ← run_rand w o mn mx rnd fv; Ok (fv, pkt)
  | StreamDPOpIpv4Fix o => pkt ← ipv4_fix_run o pkt; Ok (fv, pkt)
  | StreamDPOpPktWr w fl o v po => pkt ← pkt_wr w fl o v po fv pkt; Ok (fv, pkt)
  | StreamDPOpClientsLimit o _ _ minp maxp minip maxip lim =>
      fv ← clients_limit_run o minp maxp minip maxip lim fv; Ok (fv, pkt)
  | StreamDPOpClientsUnLimit o _ _ minip maxip =>
      fv ← clients_unlimit_run o minip maxip fv; Ok (fv, pkt)
  end.

(** *** Op codes and struct layouts (all structs are packed) *)

Definition widx (w : width) : Z := match w with W8 => 0 | W16 => 1 | W32 => 2 | W64 => 3 end.

Definition op_code (op : dp_op) : Z :=
  match op with
  | StreamDPOpFlowVar w FLOW_VAR_OP_INC _ _ _ => 7 + widx w     (* ditINC8.. *)
  | StreamDPOpFlowVar w FLOW_VAR_OP_DEC _ _ _ => 11 + widx w    (* ditDEC8.. *)
  | StreamDPOpFlowVar w FLOW_VAR_OP_RANDOM _ _ _ => 15 + widx w (* ditRANDOM8.. *)
  | StreamDPOpIpv4Fix _ => 19                                   (* ditFIX_IPV4_CS *)
  | StreamDPOpPktWr w _ _ _ _ => 20 + widx w                    (* itPKT_WR8.. *)
  | StreamDPOpClientsLimit _ _ _ _ _ _ _ _ => 24                (* itCLIENT_VAR *)
  | StreamDPOpClientsUnLimit _ _ _ _ _ => 25                    (* itCLIENT_VAR_UNLIMIT *)
  end.

Definition op_sizeof (op : dp_op) : Z :=
  match op with
  | StreamDPOpFlowVar w _ _ _ _ => 2 + 2 * Z.of_nat (wbytes w)
  | StreamDPOpIpv4Fix _ => 3
  | StreamDPOpPktWr w _ _ _ _ => 5 + Z.of_nat (wbytes w)
  | StreamDPOpClientsLimit _ _ _ _ _ _ _ _ => 20
  | StreamDPOpClientsUnLimit _ _ _ _ _ => 12
  end.

(** The bytes of a struct. *)
Definition encode (op : dp_op) : bytes :=
  le_split 1 (op_code op) ++
  match op with
  | StreamDPOpFlowVar w _ o mn mx =>
      le_split 1 o ++ le_split (wbytes w) mn ++ le_split (wbytes w) mx
  | StreamDPOpIpv4Fix o => le_split 2 o
  | StreamDPOpPktWr W8 fl o v po =>
      le_split 1 fl ++ le_split 1 o ++ le_split 1 v ++ le_split 2 po
  | StreamDPOpPktWr w fl o v po =>
      le_split 1 fl ++ le_split 1 o ++ le_split 2 po ++ le_split (wbytes w) v
  | StreamDPOpClientsLimit o fl pad minp maxp minip maxip lim =>
      le_split 1 o ++ le_split 1 fl ++ le_split 1 pad ++ le_split 2 minp ++ le_split 2 maxp ++
      le_split 4 minip ++ le_split 4 maxip ++ le_split 4 lim
  | StreamDPOpClientsUnLimit o fl pad minip maxip =>
      le_split 1 o ++ le_split 1 fl ++ le_split 1 pad ++ le_split 4 minip ++ le_split 4 maxip
  end.

(** The fields read through a struct pointer at [p]. *)
Definition fetch_flow_var (k : flow_var_op_e) (w : width) (prog : bytes) (p : Z) : res dp_op :=
  o ← ld8 prog (p + 1);
  mn ← ld (wbytes w) prog (p + 2);
  mx ← ld (wbytes w) prog (p + 2 + Z.of_nat (wbytes w));
  Ok (StreamDPOpFlowVar w k o mn mx).

Definition fetch_pkt_wr (w : width) (prog : bytes) (p : Z) : res dp_op :=
  fl ← ld8 prog (p + 1);
  o ← ld8 prog (p + 2);
  match w with
  | W8 =>
      v ← ld8 prog (p + 3); po ← ld16 prog (p + 4);
      Ok (StreamDPOpPktWr W8 fl o (sw W8 v) po)
  | _ =>
      po ← ld16 prog (p + 3); v ← ld (wbytes w) prog (p + 5);
      Ok (StreamDPOpPktWr w fl o (sw w v) po)
  end.

Definition fetch_ipv4_fix (prog : bytes) (p : Z) : res dp_op :=
  o ← ld16 prog (p + 1); Ok (StreamDPOpIpv4Fix o).

Definition fetch_clients_limit (prog : bytes) (p : Z) : res dp_op :=
  o ← ld8 prog (p + 1); fl ← ld8 prog (p + 2); pad ← ld8 prog (p + 3);
  minp ← ld16 prog (p + 4); maxp ← ld16 prog (p + 6);
  minip ← ld32 prog (p + 8); maxip ← ld32 prog (p + 12); lim ← ld32 prog (p + 16);
  Ok (StreamDPOpClientsLimit o fl pad minp maxp minip maxip lim).

Definition fetch_clients_unlimit (prog : bytes) (p : Z) : res dp_op :=
  o ← ld8 prog (p + 1); fl ← ld8 prog (p + 2); pad ← ld8 prog (p + 3);
  minip ← ld32 prog (p + 4); maxip ← ld32 prog (p + 8);
  Ok (StreamDPOpClientsUnLimit o fl pad minip maxip).

(** The [switch] of the interpreter. *)
Definition decode (prog : bytes) (p : Z) : res dp_op :=
  op_code ← ld8 prog p;
  match op_code with
  | 24 => fetch_clients_limit prog p
  | 25 => fetch_clients_unlimit prog p
  | 7 => fetch_flow_var FLOW_VAR_OP_INC W8 prog p
  | 8 => fetch_flow_var FLOW_VAR_OP_INC W16 prog p
  | 9 => fetch_flow_var FLOW_VAR_OP_INC W32 prog p
  | 10 => fetch_flow_var FLOW_VAR_OP_INC W64 prog p
  | 11 => fetch_flow_var FLOW_VAR_OP_DEC W8 prog p
  | 12 => fetch_flow_var FLOW_VAR_OP_DEC W16 prog p
  | 13 => fetch_flow_var FLOW_VAR_OP_DEC W32 prog p
  | 14 => fetch_flow_var FLOW_VAR_OP_DEC W64 prog p
  | 15 => fetch_flow_var FLOW_VAR_OP_RANDOM W8 prog p
  | 16 => fetch_flow_var FLOW_VAR_OP_RANDOM W16 prog p
  | 17 => fetch_flow_var FLOW_VAR_OP_RANDOM W32 prog p
  | 18 => fetch_flow_var FLOW_VAR_OP_RANDOM W64 prog p
  | 19 => fetch_ipv4_fix prog p
  | 20 => fetch_pkt_wr W8 prog p
  | 21 => fetch_pkt_wr W16 prog p
  | 22 => fetch_pkt_wr W32 prog p
  | 23 => fetch_pkt_wr W64 prog p
  | _ => Err AssertFail
  end.

(** [while (p < p_end)]; every instruction advances [p] by at least 3. *)
Fixpoint run_loop (fuel : nat) (rnd : Z) (prog : bytes) (p_end p : Z) (s : bytes * bytes)
  : res (bytes * bytes) :=
  match fuel with
  | O => Err OutOfFuel
  | S fuel =>
      if p <? p_end then
        op ← decode prog p;
        s ← exec rnd op s;
        run_loop fuel rnd prog p_end (p + op_sizeof op) s
      else Ok s
  end.

Definition run (rnd program_size : Z) (program flow_var pkt : bytes) : res (bytes * bytes) :=
  run_loop (S (Z.to_nat program_size)) rnd program program_size 0 (flow_var, pkt).

(** ** The instructions of a stream's VM *)

Inductive StreamVmInstruction : Type :=
  | FixChecksumIpv4 (m_pkt_offset : Z)
  | FlowMan (m_var_name : string) (m_size_bytes : Z) (m_op : flow_var_op_e)
      (m_init_value m_min_value m_max_value : Z)
  | FlowClient (m_var_name : string) (m_client_min m_client_max m_port_min m_port_max
      m_limit_num_flows m_flags : Z)
  | WriteToPkt (m_flow_var_name : string) (m_pkt_offset m_add_value : Z)
      (m_is_big_endian : bool).

(** The [INS_TYPE] tags. *)
Definition get_instruction_type (i : StreamVmInstruction) : Z :=
  match i with
  | FixChecksumIpv4 _ => 4        (* itFIX_IPV4_CS *)
  | FlowMan _ _ _ _ _ _ => 5      (* itFLOW_MAN *)
  | WriteToPkt _ _ _ _ => 6       (* itPKT_WR *)
  | FlowClient _ _ _ _ _ _ _ => 7 (* itFLOW_CLIENT *)
  end.

Definition is_splitable (i : StreamVmInstruction) : bool :=
  match i with FlowMan _ _ _ _ _ _ | FlowClient _ _ _ _ _ _ _ => true | _ => false end.

(** [get_splitable_range]: the virtual method of the two variable classes. *)
Definition get_ip_range (m_client_min m_client_max : Z) : Z :=
  u32 (m_client_max - m_client_min + 1).

Definition get_splitable_range (i : StreamVmInstruction) : Z :=
  match i with
  | FlowMan _ _ _ _ mn mx => u64 (mx - mn + 1)
  | FlowClient _ cmin cmax _ _ _ _ => get_ip_range cmin cmax
  | _ => 0
  end.

Definition get_bss_init_value (m_op : flow_var_op_e) (m_init_value m_min_value m_max_value : Z)
  : Z :=
  match m_op with
  | FLOW_VAR_OP_INC => if m_init_value =? m_min_value then m_max_value else u64 (m_init_value - 1)
  | FLOW_VAR_OP_DEC => if m_init_value =? m_max_value then m_min_value else u64 (m_init_value + 1)
  | FLOW_VAR_OP_RANDOM => m_init_value
  end.

Definition get_flow_var_size : Z := 4 + 2 + 4.

Definition is_unlimited_flows (m_flags : Z) : bool := Z.land m_flags 1 =? 1.

(** The three sanity checks; the operation is always one of the enumerators and
    the range check is empty in the source. *)
Definition sanity_check (m_size_bytes : Z) : res unit :=
  if (m_size_bytes =? 1) || (m_size_bytes =? 2) || (m_size_bytes =? 4) || (m_size_bytes =? 8)
  then Ok tt else throw "has non valid length".

(** ** The table of flow variables *)

Definition svMAX_FLOW_VAR : Z := 64.
Definition svMAX_PACKET_OFFSET_CHANGE : Z := 512.

Record VmFlowVarRec : Type := mkVmFlowVarRec {
  m_offset : Z;
  m_ins : option StreamVmInstruction;  (* NULL for the seed *)
  m_size_bytes : Z;
}.

Notation var_table := (gmap string VmFlowVarRec).

Definition is_random_ins (i : StreamVmInstruction) : bool :=
  match i with FlowMan _ _ FLOW_VAR_OP_RANDOM _ _ _ => true | _ => false end.

(** One turn of the second loop of [build_flow_var_table]. *)
Definition add_var (i : StreamVmInstruction) (s : var_table * Z) : res (var_table * Z) :=
  let '(t, off) := s in
  match i with
  | FlowMan name size _ _ _ _ =>
      _ ← sanity_check size;
      match t !! name with
      | Some _ => throw "flow variable name already exists"
      | None => Ok (<[name := mkVmFlowVarRec off (Some i) size]> t, u16 (off + size))
      end
  | FlowClient name _ _ _ _ _ _ =>
      match t !! (name +:+ ".ip"), t !! (name +:+ ".port"), t !! (name +:+ ".flow_limit") with
      | None, None, None =>
          let t := <[name +:+ ".ip" := mkVmFlowVarRec off (Some i) 4]> t in
          let t := <[name +:+ ".port" := mkVmFlowVarRec (off + 4) (Some i) 2]> t in
          let t := <[name +:+ ".flow_limit" := mkVmFlowVarRec (off + 6) (Some i) 4]> t in
          _ ← c_assert (sizeof_StreamDPFlowClient =? get_flow_var_size);
          Ok (t, u16 (off + get_flow_var_size))
      | _, _, _ => throw "client variable name already exists"
      end
  | _ => Ok s
  end.

Fixpoint add_vars (l : list StreamVmInstruction) (s : var_table * Z) : res (var_table * Z) :=
  match l with
  | [] => Ok s
  | i :: l =>
      s ← add_var i s;
      if snd s >? svMAX_FLOW_VAR then throw "too many flow varibles" else add_vars l s
  end.

(** Returns [m_is_random_var], [m_flow_var_offset] and [m_cur_var_offset]. *)
Definition build_flow_var_table (l : list StreamVmInstruction) : res (bool * var_table * Z) :=
  let m_is_random_var := existsb is_random_ins l in
  let s := if m_is_random_var
           then ({[ "___random___" := mkVmFlowVarRec 0 None 4 ]}, 4) else (∅, 0) in
  '(t, off) ← add_vars l s;
  Ok (m_is_random_var, t, off).

Definition get_var_offset (t : var_table) (name : string) : res Z :=
  match t !! name with
  | Some v => Ok (u16 (m_offset v))
  | None => Err AssertFail
  end.

(** ** The initial flow variables *)

(** A store through the pointer [p] into [m_bss], which advances it. *)
Definition bss_wr (n : nat) (v : Z) (s : option bytes * Z) : res (option bytes * Z) :=
  let '(bss, p) := s in
  match bss with
  | None => Err NullDeref
  | Some m => m ← st n m p v; Ok (Some m, p + Z.of_nat n)
  end.

Definition bss_ins (i : StreamVmInstruction) (s : option bytes * Z) : res (option bytes * Z) :=
  match i with
  | FlowMan _ size op init mn mx =>
      let v := get_bss_init_value op init mn mx in
      match size with
      | 1 => bss_wr 1 v s
      | 2 => bss_wr 2 v s
      | 4 => bss_wr 4 v s
      | 8 => bss_wr 8 v s
      | _ => Err AssertFail
      end
  | FlowClient _ cmin _ pmin _ _ flags =>
      s ← bss_wr 4 (if cmin >? 0 then cmin - 1 else cmin) s;
      s ← bss_wr 2 (if is_unlimited_flows flags then CLIENT_UNLIMITED_MIN_PORT else pmin) s;
      bss_wr 4 0 s
  | _ => Ok s
  end.

Fixpoint bss_loop (l : list StreamVmInstruction) (s : option bytes * Z)
  : res (option bytes * Z) :=
  match l with
  | [] => Ok s
  | i :: l => s ← bss_ins i s; bss_loop l s
  end.

Section Compile.
(** [malloc] and [rand] of the C library: a block of [n] bytes or NULL, and
    one draw. *)
Context (malloc : Z -> option bytes) (rand : Z).

Definition build_bss (m_is_random_var : bool) (m_cur_var_offset : Z)
    (l : list StreamVmInstruction) : res (option bytes) :=
  s ← (if m_is_random_var then bss_wr 4 rand (malloc m_cur_var_offset, 0)
       else Ok (malloc m_cur_var_offset, 0));
  '(bss, _) ← bss_loop l s;
  Ok bss.

(** ** The compiler *)

Definition add_field_cnt (new_cnt m_max_field_update : Z) : Z :=
  if u16 new_cnt >? m_max_field_update then u16 new_cnt else m_max_field_update.

Definition width_of_size (size : Z) : option width :=
  match size with
  | 1 => Some W8 | 2 => Some W16 | 4 => Some W32 | 8 => Some W64 | _ => None
  end.

(** One turn of the loop of [build_program]: the struct filled in for the
    instruction (none when its size is not 1, 2, 4 or 8) and the new
    [m_max_field_update]. *)
Definition build_ins (t : var_table) (m_pkt_size : Z) (i : StreamVmInstruction)
    (m_max_field_update : Z) : res (option dp_op * Z) :=
  match i with
  | FixChecksumIpv4 po =>
      let mf := add_field_cnt (po + 12) m_max_field_update in
      if po + IPV4_HDR_LEN >? m_pkt_size then throw "fix ipv4 command offset is too high"
      else Ok (Some (StreamDPOpIpv4Fix po), mf)
  | FlowMan name size op _ mn mx =>
      match width_of_size size with
      | Some w =>
          o ← get_var_offset t name;
          Ok (Some (StreamDPOpFlowVar w op (u8 o) (uw w mn) (uw w mx)), m_max_field_update)
      | None => Ok (None, m_max_field_update)
      end
  | WriteToPkt name po add big =>
      match t !! name with
      | None => throw "packet write with no valid flow varible name"
      | Some var =>
          if po + m_size_bytes var >? m_pkt_size
          then throw "packet write bigger than packet size"
          else
            let mf := add_field_cnt (po + m_size_bytes var) m_max_field_update in
            let fl := if big then PKT_WR_IS_BIG else 0 in
            o ← get_var_offset t name;
            match width_of_size (m_size_bytes var) with
            | Some w => Ok (Some (StreamDPOpPktWr w fl (u8 o) (sw w add) po), mf)
            | None => Ok (None, mf)
            end
      end
  | FlowClient name cmin cmax pmin pmax lim flags =>
      o ← get_var_offset t (name +:+ ".ip");
      if is_unlimited_flows flags
      then Ok (Some (StreamDPOpClientsUnLimit (u8 o) 0 0 cmin cmax), m_max_field_update)
      else Ok (Some (StreamDPOpClientsLimit (u8 o) 0 0 pmin pmax cmin cmax lim),
               m_max_field_update)
  end.

(** [add_command]: the bytes of the struct are appended to the program. *)
Definition add_command (m_inst_list : bytes) (op : option dp_op) : bytes :=
  match op with Some op => m_inst_list ++ encode op | None => m_inst_list end.

Fixpoint build_loop (t : var_table) (m_pkt_size : Z) (l : list StreamVmInstruction)
    (s : bytes * Z) : res (bytes * Z) :=
  match l with
  | [] => Ok s
  | i :: l =>
      let '(prog, mf) := s in
      '(op, mf) ← build_ins t m_pkt_size i mf;
      build_loop t m_pkt_size l (add_command prog op, mf)
  end.

Definition build_program (t : var_table) (m_pkt_size : Z) (l : list StreamVmInstruction)
  : res (bytes * Z) := build_loop t m_pkt_size l ([], 0).

(** [trex_stream.h]: the size of the writable first buffer of a packet. *)
Definition calc_writable_mbuf_size (max_offset_writable pkt_size : Z) : Z :=
  if pkt_size <=? 64 then pkt_size
  else if pkt_size <=? 128 then pkt_size
  else
    let non_writable := u16 (pkt_size - (max_offset_writable - 1)) in
    if non_writable <? 64 then pkt_size else u16 (max_offset_writable - 1).

(** The object.  [m_split_instr] is a pointer to an element of [m_inst_list]:
    its index. *)
Record StreamVm : Type := mkStreamVm {
  m_is_random_var : bool;
  m_is_compiled : bool;
  m_prefix_size : Z;
  m_pkt_size : Z;
  m_cur_var_offset : Z;
  m_max_field_update : Z;
  m_inst_list : list StreamVmInstruction;
  m_flow_var_offset : var_table;
  m_bss : option bytes;
  m_instructions : bytes;
  m_split_instr : option nat;
}.

Definition StreamVm_new : StreamVm :=
  mkStreamVm false false 0 0 0 0 [] ∅ None [] None.

Definition is_vm_empty (vm : StreamVm) : bool := match m_inst_list vm with [] => true | _ => false end.

Definition set_instructions (l : list StreamVmInstruction) (split : option nat) (vm : StreamVm)
  : StreamVm :=
  mkStreamVm (m_is_random_var vm) (m_is_compiled vm) (m_prefix_size vm) (m_pkt_size vm)
    (m_cur_var_offset vm) (m_max_field_update vm) l (m_flow_var_offset vm) (m_bss vm)
    (m_instructions vm) split.

Definition add_instruction (i : StreamVmInstruction) (vm : StreamVm) : StreamVm :=
  set_instructions (m_inst_list vm ++ [i]) (m_split_instr vm) vm.

Definition set_split_instruction (instr : option nat) (vm : StreamVm) : StreamVm :=
  set_instructions (m_inst_list vm) instr vm.

(** [copy_instructions]: the clones replace the list of [other]; its split
    pointer follows the one of [vm] when that one is in the list and is left
    alone otherwise. *)
Definition copy_instructions (vm other : StreamVm) : StreamVm :=
  set_instructions (m_inst_list vm)
    (match m_split_instr vm with
     | Some k => if decide (k < length (m_inst_list vm))%nat then Some k else m_split_instr other
     | None => m_split_instr other
     end) other.

(** Index of the first variable of that name. *)
Definition get_var_name (i : StreamVmInstruction) : option string :=
  match i with
  | FlowMan name _ _ _ _ _ | FlowClient name _ _ _ _ _ _ => Some name
  | _ => None
  end.

Definition lookup_var_by_name (vm : StreamVm) (var_name : string) : option nat :=
  fst <$> list_find (fun i => get_var_name i = Some var_name) (m_inst_list vm).

(** [compile]; on a throw the object is left half updated and the caller drops
    it. *)
Definition compile (pkt_len : Z) (vm : StreamVm) : res StreamVm :=
  if is_vm_empty vm then Ok vm
  else
    let l := m_inst_list vm in
    '(rv, t, off) ← build_flow_var_table l;
    bss ← build_bss rv off l;
    '(prog, mf) ← build_program t pkt_len l;
    if mf >? svMAX_PACKET_OFFSET_CHANGE then throw "maximum offset is bigger than maximum"
    else
      Ok (mkStreamVm rv true (calc_writable_mbuf_size mf pkt_len) pkt_len off mf l t bss prog
            (m_split_instr vm)).

(** ** The data path object *)

Record StreamVmDp : Type := mkStreamVmDp {
  m_bss_ptr : option bytes;
  m_program_ptr : option bytes;
  m_bss_size : Z;
  m_program_size : Z;
  m_max_pkt_offset_change : Z;
  dp_prefix_size : Z;
}.

(** [malloc] of [size] bytes followed by [memcpy] from [src]; [on_null] is what
    a NULL from [malloc] leads to (an assertion, or a copy through NULL). *)
Definition malloc_copy (on_null : fault) (src : bytes) (size : Z) : res bytes :=
  match malloc size with
  | None => Err on_null
  | Some _ => if decide (size <= zlength src) then Ok (take (Z.to_nat size) src)
              else Err OutOfBounds
  end.

Definition StreamVmDp_new (bss : option bytes) (bss_size : Z) (prog : option bytes)
    (prog_size max_pkt_offset prefix_size : Z) : res StreamVmDp :=
  '(bp, bs) ← match bss with
              | Some b =>
                  _ ← c_assert (negb (bss_size =? 0));
                  b ← malloc_copy AssertFail b bss_size; Ok (Some b, bss_size)
              | None => Ok (None, 0)
              end;
  '(pp, ps) ← match prog with
              | Some b =>
                  _ ← c_assert (negb (prog_size =? 0));
                  b ← malloc_copy NullDeref b prog_size; Ok (Some b, prog_size)
              | None => Ok (None, 0)
              end;
  Ok (mkStreamVmDp bp pp bs ps max_pkt_offset prefix_size).

Definition StreamVmDp_clone (d : StreamVmDp) : res StreamVmDp :=
  StreamVmDp_new (m_bss_ptr d) (m_bss_size d) (m_program_ptr d) (m_program_size d)
    (m_max_pkt_offset_change d) (dp_prefix_size d).

Definition clone_bss (d : StreamVmDp) : res bytes :=
  _ ← c_assert (m_bss_size d >? 0);
  match m_bss_ptr d with
  | Some b => malloc_copy AssertFail b (m_bss_size d)
  | None => Err NullDeref
  end.

(** [generate_dp_object]: NULL unless compiled; the program size is passed as
    a [uint16_t]. *)
Definition generate_dp_object (vm : StreamVm) : res (option StreamVmDp) :=
  if negb (m_is_compiled vm) then Ok None
  else
    d ← StreamVmDp_new (m_bss vm) (m_cur_var_offset vm) (Some (m_instructions vm))
          (u16 (zlength (m_instructions vm))) (m_max_field_update vm) (m_prefix_size vm);
    Ok (Some d).

End Compile.

(** ** A packet of a node with a VM

    [alloc_node_with_vm] ([trex_stateless_dp_core.cpp]): the writable prefix is
    copied to a fresh buffer of [prefix_size] bytes, the program runs on it with
    the node's flow variables, whose start is also the seed, and the constant
    rest of the packet is chained after it.  Returns the new flow variables and
    the bytes sent. *)
Definition alloc_node_with_vm (m_vm_program : bytes) (m_vm_program_size : Z)
    (m_vm_flow_var m_original_packet_data_prefix m_const : bytes) : res (bytes * bytes) :=
  '(fv, p) ← run 0 m_vm_program_size m_vm_program m_vm_flow_var m_original_packet_data_prefix;
  Ok (fv, p ++ m_const).
