(* ===== verification/StreamVmFacts.v ===== *)
(** * Properties of the stream VM

    The byte code: its encoding round-trips, an encoded program runs as the
    fold of its instructions, every run ends.  The compiler: the table of flow
    variables, the initial memory and the program it builds agree, so a compiled
    program runs without a fault on a packet of the compiled size, and its flow
    variables walk through their ranges. *)

From S2P Require Import Prelude ByteMem PktCmn PktCmnFacts StreamVm.

(** ** Reading fields of a concatenation *)

Lemma zlength_le_split n v : zlength (le_split n v) = Z.of_nat n.
Proof. unfold zlength. by rewrite length_le_split. Qed.

Lemma zlength_nonneg {A} (l : list A) : 0 <= zlength l.
Proof. unfold zlength. lia. Qed.

Lemma ld_app_r n pre m k : 0 <= k -> ld n (pre ++ m) (zlength pre + k) = ld n m k.
Proof.
  intros Hk. unfold ld. rewrite zlength_app. pose proof (zlength_nonneg pre).
  case_decide; case_decide; try lia; [|done]. do 3 f_equal. unfold zlength in *.
  rewrite drop_app_ge by lia. f_equal. lia.
Qed.

Lemma ld_split_r n a v m k :
  Z.of_nat a <= k -> ld n (le_split a v ++ m) k = ld n m (k - Z.of_nat a).
Proof.
  intros. rewrite <- (ld_app_r n (le_split a v) m) by lia.
  rewrite zlength_le_split. f_equal. lia.
Qed.

Lemma ld_split_0 n v m : ld n (le_split n v ++ m) 0 = Ok (v mod 256 ^ Z.of_nat n).
Proof.
  rewrite ld_Ok.
  - rewrite Z2Nat.inj_0, drop_0.
    rewrite take_app_le by (by rewrite length_le_split).
    rewrite take_ge by (by rewrite length_le_split).
    by rewrite le_combine_split.
  - unfold in_range. rewrite zlength_app, zlength_le_split. pose proof (zlength_nonneg m). lia.
Qed.

(** ** Well-formed instructions: every field fits its struct member *)

Definition wmax (w : width) : Z := 256 ^ Z.of_nat (wbytes w).
Definition ufit (n : nat) (x : Z) : Prop := 0 <= x < 256 ^ Z.of_nat n.
Definition sfit (w : width) (x : Z) : Prop := - wmax w <= 2 * x < wmax w.

Ltac ufit_lia :=
  unfold ufit in *;
  change (256 ^ Z.of_nat 1) with 256 in *; change (256 ^ Z.of_nat 2) with 65536 in *;
  change (256 ^ Z.of_nat 4) with 4294967296 in *; lia.

Definition op_ok (op : dp_op) : Prop :=
  match op with
  | StreamDPOpFlowVar w _ o mn mx => ufit 1 o /\ ufit (wbytes w) mn /\ ufit (wbytes w) mx
  | StreamDPOpIpv4Fix o => ufit 2 o
  | StreamDPOpPktWr w fl o v po => ufit 1 fl /\ ufit 1 o /\ sfit w v /\ ufit 2 po
  | StreamDPOpClientsLimit o fl pad minp maxp minip maxip lim =>
      ufit 1 o /\ ufit 1 fl /\ ufit 1 pad /\ ufit 2 minp /\ ufit 2 maxp /\
      ufit 4 minip /\ ufit 4 maxip /\ ufit 4 lim
  | StreamDPOpClientsUnLimit o fl pad minip maxip =>
      ufit 1 o /\ ufit 1 fl /\ ufit 1 pad /\ ufit 4 minip /\ ufit 4 maxip
  end.

Lemma ufit_mod n x : ufit n x -> x mod 256 ^ Z.of_nat n = x.
Proof. apply Z.mod_small. Qed.

Lemma sw_mod w v : sfit w v -> sw w (v mod 256 ^ Z.of_nat (wbytes w)) = v.
Proof.
  unfold sfit, wmax. destruct w; cbn [wbytes sw]; intros H; word_lia.
Qed.

Lemma length_encode op : zlength (encode op) = op_sizeof op.
Proof.
  destruct op as [w k|o|[]|o|o]; unfold encode, op_sizeof;
    rewrite ?zlength_app, ?zlength_le_split; cbn [wbytes]; lia.
Qed.

Lemma op_sizeof_pos op : 3 <= op_sizeof op.
Proof. destruct op as [[]| |[]| |]; simpl; lia. Qed.

Lemma op_code_range op : 7 <= op_code op < 256.
Proof. destruct op as [[] []| |[]| |]; simpl; lia. Qed.

(** ** Decoding what was encoded *)

Lemma decode_shift pre m : decode (pre ++ m) (zlength pre) = decode m 0.
Proof.
  unfold decode, fetch_clients_limit, fetch_clients_unlimit, fetch_flow_var, fetch_pkt_wr,
    fetch_ipv4_fix.
  rewrite <- (Z.add_0_r (zlength pre)) at 1. rewrite ld_app_r by lia.
  rewrite <- !Z.add_assoc, !ld_app_r by (simpl; lia). done.
Qed.

(** The opcode selects the fields of its own struct. *)
Definition fetch_of (op : dp_op) (prog : bytes) (p : Z) : res dp_op :=
  match op with
  | StreamDPOpFlowVar w k _ _ _ => fetch_flow_var k w prog p
  | StreamDPOpIpv4Fix _ => fetch_ipv4_fix prog p
  | StreamDPOpPktWr w _ _ _ _ => fetch_pkt_wr w prog p
  | StreamDPOpClientsLimit _ _ _ _ _ _ _ _ => fetch_clients_limit prog p
  | StreamDPOpClientsUnLimit _ _ _ _ _ => fetch_clients_unlimit prog p
  end.

Lemma decode_op_code op m :
  decode (le_split 1 (op_code op) ++ m) 0 = fetch_of op (le_split 1 (op_code op) ++ m) 0.
Proof.
  unfold decode. rewrite ld_split_0. pose proof (op_code_range op).
  rewrite Z.mod_small by lia. cbn [mbind res_bind].
  by destruct op as [[] []| |[]| |].
Qed.

Ltac ld_fields :=
  rewrite <- ?app_assoc;
  repeat (first [ rewrite ld_split_r by (simpl; lia)
                | match goal with |- context [ld ?n (le_split ?n _ ++ _) ?k] =>
                    replace k with 0 by (simpl; lia); rewrite ld_split_0 end ];
          cbn [mbind res_bind]).

Lemma decode_encode op post : op_ok op -> decode (encode op ++ post) 0 = Ok op.
Proof.
  intros Hok. unfold encode. rewrite <- app_assoc, decode_op_code.
  destruct op as [w k o mn mx|o|w fl o v po|o fl pad minp maxp minip maxip lim|o fl pad minip maxip];
    cbn [fetch_of op_ok] in *;
    unfold fetch_flow_var, fetch_ipv4_fix, fetch_pkt_wr, fetch_clients_limit,
      fetch_clients_unlimit; destruct_and? Hok.
  - ld_fields. by rewrite !ufit_mod by done.
  - ld_fields. by rewrite !ufit_mod by done.
  - destruct w; ld_fields; match goal with |- context [sw ?w _] => rewrite (sw_mod w) by done end;
      by rewrite !ufit_mod by done.
  - ld_fields. by rewrite !ufit_mod by done.
  - ld_fields. by rewrite !ufit_mod by done.
Qed.

(** ** Programs: concatenated instructions *)

Definition encode_prog (ops : list dp_op) : bytes := concat (encode <$> ops).

Fixpoint exec_list (rnd : Z) (ops : list dp_op) (s : bytes * bytes) : res (bytes * bytes) :=
  match ops with
  | [] => Ok s
  | op :: ops => s ← exec rnd op s; exec_list rnd ops s
  end.

Lemma encode_prog_cons op ops : encode_prog (op :: ops) = encode op ++ encode_prog ops.
Proof. done. Qed.

Lemma run_loop_encode rnd ops : forall fuel pre s,
  Forall op_ok ops -> (length (encode_prog ops) < fuel)%nat ->
  run_loop fuel rnd (pre ++ encode_prog ops) (zlength pre + zlength (encode_prog ops))
    (zlength pre) s
  = exec_list rnd ops s.
Proof.
  induction ops as [|op ops IH]; intros [|fuel] pre s Hok Hf; try (exfalso; simpl in *; lia).
  - cbn [run_loop]. destruct (Z.ltb_spec (zlength pre) (zlength pre + zlength (encode_prog [])));
      [simpl in *; unfold zlength in *; simpl in *; lia|done].
  - inversion Hok as [|? ? Hop Hops]; subst. cbn [run_loop].
    pose proof (op_sizeof_pos op) as Hpos. pose proof (length_encode op) as Hlen.
    rewrite encode_prog_cons in *. rewrite zlength_app.
    pose proof (zlength_nonneg (encode_prog ops)).
    destruct (Z.ltb_spec (zlength pre) (zlength pre + (zlength (encode op) + zlength (encode_prog ops))));
      [|lia].
    rewrite decode_shift, decode_encode by done. cbn [mbind res_bind exec_list].
    destruct (exec rnd op s) as [s'|]; [|done]. cbn [mbind res_bind].
    rewrite <- (IH fuel (pre ++ encode op) s') by
      (done || (rewrite length_app in Hf; unfold zlength in *; lia)).
    rewrite !zlength_app, app_assoc, Hlen. f_equal; lia.
Qed.

Lemma run_encode rnd ops fv pkt :
  Forall op_ok ops ->
  run rnd (zlength (encode_prog ops)) (encode_prog ops) fv pkt = exec_list rnd ops (fv, pkt).
Proof.
  intros Hok. unfold run.
  rewrite <- (run_loop_encode rnd ops (S (Z.to_nat (zlength (encode_prog ops)))) []) by
    (done || (unfold zlength; lia)).
  done.
Qed.

(** ** The table of flow variables *)

Definition valid_size (size : Z) : Prop := size = 1 \/ size = 2 \/ size = 4 \/ size = 8.

(** Entries lie below the current offset and do not overlap. *)
Record table_wf (t : var_table) (cur : Z) : Prop := {
  tw_cur : 0 <= cur;
  tw_in : forall n v, t !! n = Some v ->
    0 <= m_offset v /\ m_offset v + m_size_bytes v <= cur /\ valid_size (m_size_bytes v);
  tw_disj : forall n1 n2 v1 v2, t !! n1 = Some v1 -> t !! n2 = Some v2 -> n1 <> n2 ->
    m_offset v1 + m_size_bytes v1 <= m_offset v2 \/ m_offset v2 + m_size_bytes v2 <= m_offset v1
}.

Lemma table_wf_empty : table_wf ∅ 0.
Proof. split; [lia| |]; intros *; rewrite lookup_empty; discriminate. Qed.

Lemma table_wf_insert t cur n i size :
  table_wf t cur -> t !! n = None -> valid_size size ->
  table_wf (<[n := mkVmFlowVarRec cur i size]> t) (cur + size).
Proof.
  intros [Hc Hin Hd] Hn Hs. assert (0 < size) by (destruct Hs as [|[|[|]]]; lia).
  split; [lia| |].
  - intros n' v. rewrite lookup_insert_Some. intros [[<- <-]|[Hne Hv]].
    + cbn [m_offset m_size_bytes]. split; [lia|]. split; [lia|done].
    + destruct (Hin _ _ Hv) as (?&?&?). split; [lia|]. split; [lia|done].
  - intros n1 n2 v1 v2. rewrite !lookup_insert_Some.
    intros [[<- <-]|[Hne1 Hv1]] [[<- <-]|[Hne2 Hv2]] Hne; cbn [m_offset m_size_bytes].
    + done.
    + destruct (Hin _ _ Hv2) as (?&?&?). lia.
    + destruct (Hin _ _ Hv1) as (?&?&?). lia.
    + by eapply Hd.
Qed.

(** What the table says of an instruction it was built from. *)
Definition declared (t : var_table) (i : StreamVmInstruction) : Prop :=
  match i with
  | FlowMan name size _ _ _ _ =>
      valid_size size /\ exists o, t !! name = Some (mkVmFlowVarRec o (Some i) size)
  | FlowClient name _ _ _ _ _ _ => exists o,
      t !! (name +:+ ".ip") = Some (mkVmFlowVarRec o (Some i) 4) /\
      t !! (name +:+ ".port") = Some (mkVmFlowVarRec (o + 4) (Some i) 2) /\
      t !! (name +:+ ".flow_limit") = Some (mkVmFlowVarRec (o + 6) (Some i) 4)
  | _ => True
  end.

Lemma declared_mono t t' i : t ⊆ t' -> declared t i -> declared t' i.
Proof.
  intros Hs. destruct i; simpl; try done.
  - intros [Hv [o Ho]]. split; [done|]. exists o. by eapply lookup_weaken.
  - intros (o & H1 & H2 & H3). exists o. split_and!; by eapply lookup_weaken.
Qed.

Lemma sanity_check_Ok size u : sanity_check size = Ok u -> valid_size size.
Proof.
  unfold sanity_check, valid_size. destruct (_ || _) eqn:E; [|discriminate].
  rewrite !orb_true_iff, !Z.eqb_eq in E. tauto.
Qed.

Lemma append_inj_r (s a b : string) : s +:+ a = s +:+ b -> a = b.
Proof. induction s; simpl; intros H; [done|]. injection H as H. auto. Qed.

Lemma table_sub_insert (t t' : var_table) n v : t' !! n = None -> t ⊆ t' -> t ⊆ <[n := v]> t'.
Proof. intros Hn Hs. etrans; [done|]. by apply insert_subseteq. Qed.

Lemma add_var_spec i t off t' off' :
  table_wf t off -> off <= svMAX_FLOW_VAR -> add_var i (t, off) = Ok (t', off') ->
  table_wf t' off' /\ t ⊆ t' /\ declared t' i /\ off <= off'.
Proof.
  intros Hwf Hmax E. unfold svMAX_FLOW_VAR in Hmax. pose proof (tw_cur _ _ Hwf) as H0.
  destruct i as [po|name size op init mn mx|name cmin cmax pmin pmax lim fl|name po add big];
    cbn [add_var] in E; try (injection E as <- <-; split_and!; [done..|lia]).
  - destruct (sanity_check size) as [u|] eqn:Hsz; [|discriminate]. cbn [mbind res_bind] in E.
    apply sanity_check_Ok in Hsz.
    assert (0 < size <= 8) by (destruct Hsz as [|[|[|]]]; lia).
    destruct (t !! name) eqn:Hn; [discriminate|]. injection E as <- <-.
    rewrite u16_id by lia. split_and!; [by apply table_wf_insert|by apply insert_subseteq| |lia].
    simpl. split; [done|]. exists off. by rewrite lookup_insert_eq.
  - destruct (t !! (name +:+ ".ip")) eqn:H1; [discriminate|].
    destruct (t !! (name +:+ ".port")) eqn:H2; [discriminate|].
    destruct (t !! (name +:+ ".flow_limit")) eqn:H3; [discriminate|].
    cbn [c_assert mbind res_bind] in E. simpl in E. injection E as <- <-.
    unfold get_flow_var_size. rewrite u16_id by lia.
    assert (Hne : forall a b : string, a <> b -> name +:+ a <> name +:+ b)
      by (intros a b Hab Heq; by apply Hab, (append_inj_r name)).
    assert (Hwf1 := table_wf_insert t off (name +:+ ".ip")
      (Some (FlowClient name cmin cmax pmin pmax lim fl)) 4 Hwf H1 ltac:(unfold valid_size; lia)).
    assert (Hwf2 := table_wf_insert _ _ (name +:+ ".port")
      (Some (FlowClient name cmin cmax pmin pmax lim fl)) 2 Hwf1
      ltac:(rewrite lookup_insert_ne by (by apply Hne); done) ltac:(unfold valid_size; lia)).
    assert (Hwf3 := table_wf_insert _ _ (name +:+ ".flow_limit")
      (Some (FlowClient name cmin cmax pmin pmax lim fl)) 4 Hwf2
      ltac:(rewrite !lookup_insert_ne by (by apply Hne); done) ltac:(unfold valid_size; lia)).
    replace (off + 4 + 2) with (off + 6) in Hwf3 by lia.
    replace (off + 6 + 4) with (off + (4 + 2 + 4)) in Hwf3 by lia.
    split_and!; [done| | |lia].
    + eapply table_sub_insert; [by rewrite !lookup_insert_ne by (by apply Hne)|].
      eapply table_sub_insert; [by rewrite !lookup_insert_ne by (by apply Hne)|].
      by eapply table_sub_insert.
    + simpl. exists off.
      rewrite !(lookup_insert_ne _ (name +:+ ".flow_limit")) by (by apply Hne).
      rewrite !(lookup_insert_ne _ (name +:+ ".port")) by (by apply Hne).
      by rewrite !lookup_insert_eq.
Qed.

Lemma add_vars_spec l : forall t off t' off',
  table_wf t off -> off <= svMAX_FLOW_VAR -> add_vars l (t, off) = Ok (t', off') ->
  table_wf t' off' /\ t ⊆ t' /\ Forall (declared t') l /\ off' <= svMAX_FLOW_VAR.
Proof.
  induction l as [|i l IH]; intros t off t' off' Hwf Hmax E; cbn [add_vars] in E.
  - injection E as <- <-. split_and!; [done..|constructor|done].
  - destruct (add_var i (t, off)) as [[t1 off1]|] eqn:E1; [|discriminate].
    cbn [mbind res_bind snd] in E.
    destruct (Z.gtb_spec off1 svMAX_FLOW_VAR) as [|Hle]; [discriminate|].
    destruct (add_var_spec _ _ _ _ _ Hwf Hmax E1) as (Hwf1 & Hs1 & Hd1 & Hle1).
    destruct (IH _ _ _ _ Hwf1 Hle E) as (Hwf' & Hs' & Hd' & Hmax').
    split_and!; [done|by etrans| |done]. constructor; [|done].
    by eapply declared_mono.
Qed.

Lemma build_flow_var_table_spec l rv t off :
  build_flow_var_table l = Ok (rv, t, off) ->
  rv = existsb is_random_ins l /\ table_wf t off /\ Forall (declared t) l
  /\ off <= svMAX_FLOW_VAR /\ (rv = true -> t !! "___random___" = Some (mkVmFlowVarRec 0 None 4)).
Proof.
  unfold build_flow_var_table. intros E. apply bind_Ok in E as ([t1 off1] & E & H).
  injection H as <- <- <-. split; [done|].
  assert (Hs : table_wf {[ "___random___" := mkVmFlowVarRec 0 None 4 ]} 4).
  { rewrite <- insert_empty. apply (table_wf_insert ∅ 0); [apply table_wf_empty|done|].
    unfold valid_size. lia. }
  destruct (existsb is_random_ins l).
  - apply add_vars_spec in E as (? & Hsub & ? & ?); [|done|done]. split_and!; try done.
    intros _. eapply lookup_weaken; [|done]. apply lookup_singleton_eq.
  - apply add_vars_spec in E as (? & Hsub & ? & ?); [|apply table_wf_empty|done].
    by split_and!.
Qed.
