(* ===== verification/StreamVmSpec.v ===== *)
(** * Specification of the stream VM and refinement

    The meaning of a VM program in terms of the names of its variables: the
    state is a map from variable names to values and the packet.  Compiled byte
    code on flow-variable memory implements it: [exec_refines] for one
    instruction, [exec_list_refines] for a program. *)

From S2P Require Import Prelude ByteMem PktCmn PktCmnFacts StreamVm StreamVmFacts.

Notation env := (gmap string Z).

Definition seed_name : string := "___random___".

Definition spec_rand16 (seed : Z) : Z * Z := fastrand seed.

Definition spec_rand32 (seed : Z) : Z * Z :=
  let '(s, a) := fastrand seed in
  let '(s, b) := fastrand s in
  (s, u32 (u32 (Z.shiftl a 16) + b)).

Definition spec_rand64 (seed : Z) : Z * Z :=
  let '(s, a) := spec_rand32 seed in
  let '(s, b) := spec_rand32 s in
  (s, u64 (u64 (Z.shiftl a 32) + b)).

Definition spec_rand (w : width) (seed : Z) : Z * Z :=
  match w with
  | W8 | W16 => spec_rand16 seed
  | W32 => spec_rand32 seed
  | W64 => spec_rand64 seed
  end.

(** The next value of an incremented and of a decremented variable. *)
Definition spec_inc (w : width) (mn mx x : Z) : Z :=
  if x =? uw w mx then uw w mn else uw w (x + 1).

Definition spec_dec (w : width) (mn mx x : Z) : Z :=
  if x =? uw w mn then uw w mx else uw w (x - 1).

(** The next client: address, port and flow number. *)
Definition spec_client_limit (minp maxp minip maxip lim : Z) (c : Z * Z * Z) : Z * Z * Z :=
  let '(ip, port, id) := c in
  let '(ip, port) :=
    if u32 (ip + 1) >? maxip
    then (minip, if u16 (port + 1) >? maxp then minp else u16 (port + 1))
    else (u32 (ip + 1), port) in
  if lim =? 0 then (ip, port, id)
  else if u32 (id + 1) >? lim then (minip, minp, 1) else (ip, port, u32 (id + 1)).

Definition spec_client_unlimit (minip maxip : Z) (c : Z * Z * Z) : Z * Z * Z :=
  let '(ip, port, id) := c in
  if u32 (ip + 1) >? maxip
  then (minip, if u16 (port + 1) =? 0 then CLIENT_UNLIMITED_MIN_PORT else u16 (port + 1), id)
  else (u32 (ip + 1), port, id).

(** The bytes a packet write stores. *)
Definition field_bytes (n : nat) (big : bool) (v : Z) : bytes :=
  if big then be_split n v else le_split n v.

Definition lookup_env (e : env) (n : string) : res Z :=
  match e !! n with Some x => Ok x | None => Err AssertFail end.

Definition spec_ins (t : var_table) (i : StreamVmInstruction) (s : env * bytes)
  : res (env * bytes) :=
  let '(e, pkt) := s in
  match i with
  | FixChecksumIpv4 po => pkt ← IP_updateCheckSum pkt po; Ok (e, pkt)
  | FlowMan name size op _ mn mx =>
      match width_of_size size with
      | None => Ok (e, pkt)
      | Some w =>
          x ← lookup_env e name;
          match op with
          | FLOW_VAR_OP_INC => Ok (<[name := spec_inc w mn mx x]> e, pkt)
          | FLOW_VAR_OP_DEC => Ok (<[name := spec_dec w mn mx x]> e, pkt)
          | FLOW_VAR_OP_RANDOM =>
              seed ← lookup_env e seed_name;
              let '(seed, r) := spec_rand w seed in
              let d := rand_divisor w (uw w mn) (uw w mx) in
              if d =? 0 then Err DivByZero
              else Ok (<[name := uw w (uw w mn + r mod d)]> (<[seed_name := seed]> e), pkt)
          end
      end
  | FlowClient name cmin cmax pmin pmax lim flags =>
      ip ← lookup_env e (name +:+ ".ip");
      port ← lookup_env e (name +:+ ".port");
      id ← lookup_env e (name +:+ ".flow_limit");
      let '(ip, port, id) :=
        if is_unlimited_flows flags then spec_client_unlimit cmin cmax (ip, port, id)
        else spec_client_limit pmin pmax cmin cmax lim (ip, port, id) in
      Ok (<[name +:+ ".flow_limit" := id]> (<[name +:+ ".port" := port]>
            (<[name +:+ ".ip" := ip]> e)), pkt)
  | WriteToPkt name po add big =>
      match t !! name with
      | None => Err AssertFail
      | Some v =>
          match width_of_size (m_size_bytes v) with
          | None => Ok (e, pkt)
          | Some w =>
              x ← lookup_env e name;
              if decide (in_range (wbytes w) pkt po)
              then Ok (e, splice pkt (Z.to_nat po) (field_bytes (wbytes w) big (x + sw w add)))
              else Err OutOfBounds
          end
      end
  end.

Fixpoint spec_list (t : var_table) (l : list StreamVmInstruction) (s : env * bytes)
  : res (env * bytes) :=
  match l with
  | [] => Ok s
  | i :: l => s ← spec_ins t i s; spec_list t l s
  end.

(** ** Memory represents an environment *)

Record env_rel (t : var_table) (cur : Z) (fv : bytes) (e : env) : Prop := {
  er_len : zlength fv = cur;
  er_val : forall n v, t !! n = Some v ->
    exists x, e !! n = Some x /\ ld (Z.to_nat (m_size_bytes v)) fv (m_offset v) = Ok x
}.

Lemma width_of_valid size : valid_size size ->
  exists w, width_of_size size = Some w /\ Z.of_nat (wbytes w) = size /\ wbytes w = Z.to_nat size.
Proof.
  intros [-> | [-> | [-> | ->]]]; [exists W8|exists W16|exists W32|exists W64]; done.
Qed.

Section Memory.
Context (t : var_table) (cur : Z) (Hwf : table_wf t cur).

Lemma env_rel_ld fv e n v :
  env_rel t cur fv e -> t !! n = Some v ->
  exists x, lookup_env e n = Ok x /\ ld (Z.to_nat (m_size_bytes v)) fv (m_offset v) = Ok x.
Proof.
  intros [_ He] Hn. destruct (He _ _ Hn) as (x & Hx & Hl). exists x.
  unfold lookup_env. by rewrite Hx.
Qed.

(** A store to the memory of a variable updates that variable alone. *)
Lemma env_rel_st fv e n v x :
  env_rel t cur fv e -> t !! n = Some v ->
  exists fv', st (Z.to_nat (m_size_bytes v)) fv (m_offset v) x = Ok fv'
  /\ env_rel t cur fv' (<[n := x mod 256 ^ m_size_bytes v]> e).
Proof.
  intros [Hl He] Hn. destruct (tw_in _ _ Hwf _ _ Hn) as (H0 & H1 & Hs).
  assert (0 < m_size_bytes v) by (destruct Hs as [|[|[|]]]; lia).
  destruct (st_total (Z.to_nat (m_size_bytes v)) fv (m_offset v) x) as (fv' & E).
  { unfold in_range. lia. }
  exists fv'. split; [done|]. split; [by rewrite (st_zlength _ _ _ _ _ E)|].
  intros n' v' Hn'. destruct (decide (n' = n)) as [->|Hne].
  - assert (v' = v) as -> by congruence. eexists. rewrite lookup_insert_eq. split; [done|].
    rewrite (ld_st_same _ _ _ _ _ E). by rewrite Z2Nat.id by lia.
  - rewrite lookup_insert_ne by done. destruct (He _ _ Hn') as (x' & Hx' & Hld).
    exists x'. split; [done|]. rewrite <- Hld. eapply ld_st_other; [exact E|].
    destruct (tw_in _ _ Hwf _ _ Hn') as (?&?&Hs').
    assert (0 < m_size_bytes v') by (destruct Hs' as [|[|[|]]]; lia).
    pose proof (tw_disj _ _ Hwf _ _ _ _ Hn Hn' ltac:(done)). lia.
Qed.

End Memory.

Lemma uw_eq w x : uw w x = x mod 256 ^ Z.of_nat (wbytes w).
Proof. by destruct w. Qed.

Lemma uw_idem w x : uw w x mod 256 ^ Z.of_nat (wbytes w) = uw w x.
Proof. rewrite uw_eq. apply Z.mod_mod. by destruct w. Qed.

Section Refine.
Context (t : var_table) (cur : Z) (Hwf : table_wf t cur) (Hmax : cur <= svMAX_FLOW_VAR).

(** Variables of a width. *)
Definition var_at (n : string) (o : Z) (w : width) : Prop :=
  exists i, t !! n = Some (mkVmFlowVarRec o i (Z.of_nat (wbytes w))).

Lemma var_ld fv e n o w :
  env_rel t cur fv e -> var_at n o w ->
  exists x, lookup_env e n = Ok x /\ ld (wbytes w) fv o = Ok x.
Proof.
  intros He [i Hn]. destruct (env_rel_ld _ _ _ _ _ _ He Hn) as (x & ? & Hl).
  cbn [m_size_bytes m_offset] in Hl. rewrite Nat2Z.id in Hl. eauto.
Qed.

Lemma var_st fv e n o w x :
  env_rel t cur fv e -> var_at n o w ->
  exists fv', st (wbytes w) fv o x = Ok fv' /\ env_rel t cur fv' (<[n := uw w x]> e).
Proof.
  intros He [i Hn]. destruct (env_rel_st _ _ Hwf _ _ _ _ x He Hn) as (fv' & E & H).
  cbn [m_size_bytes m_offset] in *. rewrite Nat2Z.id in E. rewrite uw_eq. eauto.
Qed.

Lemma lookup_env_insert_eq e n x : lookup_env (<[n := x]> e) n = Ok x.
Proof. unfold lookup_env. by rewrite lookup_insert_eq. Qed.

Lemma lookup_env_insert_ne e n n' x : n <> n' -> lookup_env (<[n := x]> e) n' = lookup_env e n'.
Proof. intros. unfold lookup_env. by rewrite lookup_insert_ne. Qed.

(** *** Random draws *)

Definition has_seed : Prop := var_at seed_name 0 W32.

Definition rand_rel (fv : bytes) (e : env) (rv : res (bytes * Z)) (sv : Z * Z) : Prop :=
  exists fv', rv = Ok (fv', snd sv) /\ env_rel t cur fv' (<[seed_name := fst sv]> e).

Lemma vm_rand16_rel fv e seed :
  has_seed -> env_rel t cur fv e -> lookup_env e seed_name = Ok seed ->
  rand_rel fv e (vm_rand16 fv 0) (spec_rand16 seed).
Proof.
  intros Hs He Hx. destruct (var_ld _ _ _ _ _ He Hs) as (x & Hx' & Hl).
  assert (x = seed) as -> by congruence. unfold rand_rel, vm_rand16. change 4%nat with (wbytes W32).
  rewrite Hl. cbn [mbind res_bind fastrand].
  destruct (var_st fv e seed_name 0 W32 (u32 (214013 * seed + 2531011)) He Hs) as (fv' & E & He').
  rewrite E. cbn [mbind res_bind]. exists fv'. split; [done|].
  change (uw W32 (u32 (214013 * seed + 2531011)))
    with (u32 (u32 (214013 * seed + 2531011))) in He'.
  by rewrite (u32_id (u32 _)) in He' by apply u32_range.
Qed.

Lemma rand_rel_seq fv e m k sv seed :
  rand_rel fv e m sv ->
  (forall fv', env_rel t cur fv' (<[seed_name := fst sv]> e) ->
     rand_rel fv' (<[seed_name := fst sv]> e) (k (fv', snd sv)) seed) ->
  rand_rel fv e (m ≫= k) seed.
Proof.
  intros (fv' & -> & He') Hk. destruct (Hk fv' He') as (fv2 & E & He2).
  exists fv2. split; [exact E|]. by rewrite insert_insert_eq in He2.
Qed.

Lemma rand_rel_map fv e m sv (g : Z -> Z) :
  rand_rel fv e m sv ->
  rand_rel fv e ('(fv, b) ← m; Ok (fv, g b)) (fst sv, g (snd sv)).
Proof. intros (fv' & -> & He'). by exists fv'. Qed.

Lemma vm_rand32_rel fv e seed :
  has_seed -> env_rel t cur fv e -> lookup_env e seed_name = Ok seed ->
  rand_rel fv e (vm_rand32 fv 0) (spec_rand32 seed).
Proof.
  intros Hs He Hx. unfold vm_rand32. eapply rand_rel_seq; [by apply vm_rand16_rel|].
  intros fv' He'. cbn [fst snd]. unfold spec_rand32. change (fastrand seed) with (spec_rand16 seed).
  destruct (spec_rand16 seed) as [s1 a]. cbn [fst snd] in *.
  pose proof (vm_rand16_rel fv' _ s1 Hs He' (lookup_env_insert_eq _ _ _)) as H.
  unfold spec_rand16 in H. destruct (fastrand s1) as [s2 b].
  exact (rand_rel_map _ _ _ _ (fun b => u32 (u32 (Z.shiftl a 16) + b)) H).
Qed.

Lemma vm_rand64_rel fv e seed :
  has_seed -> env_rel t cur fv e -> lookup_env e seed_name = Ok seed ->
  rand_rel fv e (vm_rand64 fv 0) (spec_rand64 seed).
Proof.
  intros Hs He Hx. unfold vm_rand64. eapply rand_rel_seq; [by apply vm_rand32_rel|].
  intros fv' He'. unfold spec_rand64. destruct (spec_rand32 seed) as [s1 a]. cbn [fst snd] in *.
  pose proof (vm_rand32_rel fv' _ s1 Hs He' (lookup_env_insert_eq _ _ _)) as H.
  destruct (spec_rand32 s1) as [s2 b].
  exact (rand_rel_map _ _ _ _ (fun b => u64 (u64 (Z.shiftl a 32) + b)) H).
Qed.

Lemma vm_rand_rel w fv e seed :
  has_seed -> env_rel t cur fv e -> lookup_env e seed_name = Ok seed ->
  rand_rel fv e (vm_rand w fv 0) (spec_rand w seed).
Proof.
  destruct w; [apply vm_rand16_rel|apply vm_rand16_rel|apply vm_rand32_rel|apply vm_rand64_rel].
Qed.

(** *** One instruction *)

(** A byte-level run matches a named one: same fault, or same packet and
    memory that represents the new environment. *)
Definition sim (r : res (bytes * bytes)) (s : res (env * bytes)) : Prop :=
  match s with
  | Ok (e, pkt) => exists fv, r = Ok (fv, pkt) /\ env_rel t cur fv e
  | Err f => r = Err f
  end.

Lemma flow_var_sim w k o mn mx name init fv e pkt :
  var_at name o w -> env_rel t cur fv e -> (k = FLOW_VAR_OP_RANDOM -> has_seed) ->
  sim (exec 0 (StreamDPOpFlowVar w k o (uw w mn) (uw w mx)) (fv, pkt))
    (spec_ins t (FlowMan name (Z.of_nat (wbytes w)) k init mn mx) (e, pkt)).
Proof.
  intros Hv He Hs. destruct (var_ld _ _ _ _ _ He Hv) as (x & Hx & Hl).
  unfold spec_ins. replace (width_of_size (Z.of_nat (wbytes w))) with (Some w) by by destruct w.
  rewrite Hx. cbn [mbind res_bind].
  assert (Hst : forall y, exists fv', st (wbytes w) fv o y = Ok fv' /\
    env_rel t cur fv' (<[name := uw w y]> e)) by (intros; by apply var_st).
  assert (Hid : forall y, uw w (uw w y) = uw w y)
    by (intros; rewrite uw_eq; apply uw_idem).
  destruct k; cbn [exec].
  - unfold run_inc, spec_inc. rewrite Hl. cbn [mbind res_bind].
    destruct (x =? uw w mx).
    + destruct (Hst (uw w mn)) as (fv' & -> & H). rewrite Hid in H. by exists fv'.
    + destruct (Hst (uw w (x + 1))) as (fv' & -> & H). rewrite Hid in H. by exists fv'.
  - unfold run_dec, spec_dec. rewrite Hl. cbn [mbind res_bind].
    destruct (x =? uw w mn).
    + destruct (Hst (uw w mx)) as (fv' & -> & H). rewrite Hid in H. by exists fv'.
    + destruct (Hst (uw w (x - 1))) as (fv' & -> & H). rewrite Hid in H. by exists fv'.
  - destruct (var_ld _ _ _ _ _ He (Hs eq_refl)) as (seed & Hseed & _). rewrite Hseed.
    cbn [mbind res_bind]. unfold run_rand.
    destruct (vm_rand_rel w fv e seed (Hs eq_refl) He Hseed) as (fv1 & -> & He1).
    cbn [mbind res_bind]. destruct (spec_rand w seed) as [seed' r]. cbn [fst snd] in *.
    destruct (rand_divisor w (uw w mn) (uw w mx) =? 0); [done|].
    set (y := uw w (uw w mn + _)).
    destruct (var_st _ _ _ _ _ y He1 Hv) as (fv' & -> & H). unfold y in *.
    rewrite Hid in H. by exists fv'.
Qed.

Lemma pkt_wr_sim w name o fl po add (big : bool) fv e pkt :
  var_at name o w -> env_rel t cur fv e -> fl = (if big then PKT_WR_IS_BIG else 0) ->
  sim (exec 0 (StreamDPOpPktWr w fl o (sw w add) po) (fv, pkt))
    (spec_ins t (WriteToPkt name po add big) (e, pkt)).
Proof.
  intros Hv He ->. destruct (var_ld _ _ _ _ _ He Hv) as (x & Hx & Hl).
  destruct Hv as [i Hn]. unfold spec_ins. rewrite Hn. cbn [m_size_bytes].
  replace (width_of_size (Z.of_nat (wbytes w))) with (Some w) by by destruct w.
  rewrite Hx. cbn [mbind res_bind exec]. unfold pkt_wr. rewrite Hl. cbn [mbind res_bind].
  assert (Hb : forall y, le_split (wbytes w) (to_big w y) = be_split (wbytes w) y).
  { intros y. destruct w; cbn [wbytes to_big].
    - unfold be_split, u8. cbn [le_split rev app]. by rewrite Z.mod_mod.
    - apply le_split_NTOHS.
    - apply le_split_NTOHL.
    - rewrite le_split_ntohl64. unfold be_split. f_equal.
      exact (le_split_mod 8 y). }
  assert (Hu : forall y, le_split (wbytes w) (uw w y) = le_split (wbytes w) y)
    by (intros; rewrite uw_eq; apply le_split_mod).
  unfold st. case_decide as Hr;
    destruct big; change (is_big PKT_WR_IS_BIG) with true; change (is_big 0) with false;
    cbn [mbind res_bind]; cbn iota; rewrite ?Hb, ?Hu.
  - case_decide; [|done]. by exists fv.
  - case_decide; [|done]. by exists fv.
  - case_decide; [done|]. done.
  - case_decide; [done|]. done.
Qed.

(** *** Client variables *)

Definition client_at (name : string) (o : Z) : Prop :=
  var_at (name +:+ ".ip") o W32 /\ var_at (name +:+ ".port") (o + 4) W16 /\
  var_at (name +:+ ".flow_limit") (o + 6) W32.

Definition set_client (name : string) (e : env) (c : Z * Z * Z) : env :=
  let '(ip, port, id) := c in
  <[name +:+ ".flow_limit" := id]> (<[name +:+ ".port" := port]> (<[name +:+ ".ip" := ip]> e)).

Definition client_of (name : string) (e : env) : res (Z * Z * Z) :=
  ip ← lookup_env e (name +:+ ".ip");
  port ← lookup_env e (name +:+ ".port");
  id ← lookup_env e (name +:+ ".flow_limit");
  Ok (ip, port, id).

Lemma client_names name :
  name +:+ ".ip" <> name +:+ ".port" /\ name +:+ ".ip" <> name +:+ ".flow_limit" /\
  name +:+ ".port" <> name +:+ ".flow_limit".
Proof. split_and!; intros H%append_inj_r; discriminate. Qed.

Lemma lookup_set_client name e ip port id :
  lookup_env (set_client name e (ip, port, id)) (name +:+ ".ip") = Ok ip /\
  lookup_env (set_client name e (ip, port, id)) (name +:+ ".port") = Ok port /\
  lookup_env (set_client name e (ip, port, id)) (name +:+ ".flow_limit") = Ok id.
Proof.
  destruct (client_names name) as (H1 & H2 & H3). unfold set_client. split_and!.
  - rewrite !lookup_env_insert_ne by done. apply lookup_env_insert_eq.
  - rewrite lookup_env_insert_ne by done. apply lookup_env_insert_eq.
  - apply lookup_env_insert_eq.
Qed.

Lemma set_client_set name e ip port id x :
  <[name +:+ ".ip" := x]> (set_client name e (ip, port, id)) = set_client name e (x, port, id) /\
  <[name +:+ ".port" := x]> (set_client name e (ip, port, id)) = set_client name e (ip, x, id) /\
  <[name +:+ ".flow_limit" := x]> (set_client name e (ip, port, id))
    = set_client name e (ip, port, x).
Proof.
  destruct (client_names name) as (H1 & H2 & H3). unfold set_client. split_and!.
  - rewrite (insert_insert_ne _ (name +:+ ".ip") (name +:+ ".flow_limit")) by done.
    rewrite (insert_insert_ne _ (name +:+ ".ip") (name +:+ ".port")) by done.
    by rewrite insert_insert_eq.
  - rewrite (insert_insert_ne _ (name +:+ ".port") (name +:+ ".flow_limit")) by done.
    by rewrite insert_insert_eq.
  - by rewrite insert_insert_eq.
Qed.

Lemma set_client_id name e ip port id :
  client_of name e = Ok (ip, port, id) -> set_client name e (ip, port, id) = e.
Proof.
  unfold client_of, lookup_env, set_client.
  destruct (e !! (name +:+ ".ip")) eqn:E1; [|discriminate].
  destruct (e !! (name +:+ ".port")) eqn:E2; [|discriminate].
  destruct (e !! (name +:+ ".flow_limit")) eqn:E3; [|discriminate].
  cbn [mbind res_bind]. intros [= -> -> ->].
  rewrite (insert_id e) by done. rewrite (insert_id e) by done. by rewrite insert_id.
Qed.

Section Client.
Context (name : string) (o : Z) (Hc : client_at name o) (e : env).

Definition crel (fv : bytes) (c : Z * Z * Z) : Prop := env_rel t cur fv (set_client name e c).

Lemma crel_ld fv ip port id :
  crel fv (ip, port, id) ->
  ld32 fv (o + cur_ip) = Ok ip /\ ld16 fv (o + cur_port) = Ok port /\
  ld32 fv (o + cur_flow_id) = Ok id.
Proof.
  intros He. destruct Hc as (H1 & H2 & H3).
  destruct (lookup_set_client name e ip port id) as (L1 & L2 & L3).
  destruct (var_ld _ _ _ _ _ He H1) as (x1 & E1 & D1).
  destruct (var_ld _ _ _ _ _ He H2) as (x2 & E2 & D2).
  destruct (var_ld _ _ _ _ _ He H3) as (x3 & E3 & D3).
  unfold cur_ip, cur_port, cur_flow_id. rewrite Z.add_0_r. cbn [wbytes] in *.
  split_and!; [rewrite D1|rewrite D2|rewrite D3]; congruence.
Qed.

Lemma crel_st_ip fv ip port id x :
  crel fv (ip, port, id) ->
  exists fv', st32 fv (o + cur_ip) x = Ok fv' /\ crel fv' (u32 x, port, id).
Proof.
  intros He. destruct (var_st _ _ _ _ _ x He (proj1 Hc)) as (fv' & E & H).
  unfold cur_ip. rewrite Z.add_0_r. exists fv'. split; [exact E|].
  by rewrite (proj1 (set_client_set _ _ _ _ _ _)) in H.
Qed.

Lemma crel_st_port fv ip port id x :
  crel fv (ip, port, id) ->
  exists fv', st16 fv (o + cur_port) x = Ok fv' /\ crel fv' (ip, u16 x, id).
Proof.
  intros He. destruct (var_st _ _ _ _ _ x He (proj1 (proj2 Hc))) as (fv' & E & H).
  exists fv'. split; [exact E|].
  by rewrite (proj1 (proj2 (set_client_set _ _ _ _ _ _))) in H.
Qed.

Lemma crel_st_id fv ip port id x :
  crel fv (ip, port, id) ->
  exists fv', st32 fv (o + cur_flow_id) x = Ok fv' /\ crel fv' (ip, port, u32 x).
Proof.
  intros He. destruct (var_st _ _ _ _ _ x He (proj2 (proj2 Hc))) as (fv' & E & H).
  exists fv'. split; [exact E|].
  by rewrite (proj2 (proj2 (set_client_set _ _ _ _ _ _))) in H.
Qed.

Ltac crel_step H :=
  match goal with
  | |- context [st 4 ?m (o + cur_ip) ?x] =>
      destruct (crel_st_ip m _ _ _ x H) as (? & -> & ?)
  | |- context [st 2 ?m (o + cur_port) ?x] =>
      destruct (crel_st_port m _ _ _ x H) as (? & -> & ?)
  | |- context [st 4 ?m (o + cur_flow_id) ?x] =>
      destruct (crel_st_id m _ _ _ x H) as (? & -> & ?)
  end; cbn [mbind res_bind]; cbn iota; clear H.

Lemma u32_u32 x : u32 (u32 x) = u32 x. Proof. apply u32_id, u32_range. Qed.
Lemma u16_u16 x : u16 (u16 x) = u16 x. Proof. apply u16_id, u16_range. Qed.

(** Runs the loads and stores of a client instruction, splitting its
    conditions first. *)
Ltac crel_run :=
  repeat (match goal with
  | |- context [if negb ?c then _ else _] => destruct c eqn:?; cbn [negb]
  | |- context [if ?c then _ else _] => destruct c eqn:?
  | H : crel ?m (?a, ?b, ?c) |- context [ld _ ?m (o + cur_ip)] =>
      rewrite (proj1 (crel_ld _ _ _ _ H))
  | H : crel ?m (?a, ?b, ?c) |- context [ld _ ?m (o + cur_port)] =>
      rewrite (proj1 (proj2 (crel_ld _ _ _ _ H)))
  | H : crel ?m (?a, ?b, ?c) |- context [ld _ ?m (o + cur_flow_id)] =>
      rewrite (proj2 (proj2 (crel_ld _ _ _ _ H)))
  | H : crel ?m _ |- context [st _ ?m _ _] => crel_step H
  end; cbn [mbind res_bind]; cbv beta iota; try discriminate;
  rewrite ?u32_u32, ?u16_u16 in * ).

Ltac crel_done := eexists; split; [reflexivity|eassumption].

Lemma clients_limit_sim fv minp maxp minip maxip lim c :
  ufit 2 minp -> ufit 4 minip -> crel fv c ->
  exists fv', clients_limit_run o minp maxp minip maxip lim fv = Ok fv' /\
    crel fv' (spec_client_limit minp maxp minip maxip lim c).
Proof.
  intros Hp Hi He. destruct c as [[ip port] id]. unfold clients_limit_run.
  assert (Ep : u16 minp = minp) by (apply u16_id; exact Hp).
  assert (Ei : u32 minip = minip) by (apply u32_id; exact Hi).
  cbn [spec_client_limit]. crel_run; rewrite ?Ep, ?Ei in *; crel_done.
Qed.

Lemma clients_unlimit_sim fv minip maxip c :
  ufit 4 minip -> crel fv c ->
  exists fv', clients_unlimit_run o minip maxip fv = Ok fv' /\
    crel fv' (spec_client_unlimit minip maxip c).
Proof.
  intros Hi He. destruct c as [[ip port] id]. unfold clients_unlimit_run.
  assert (Ei : u32 minip = minip) by (apply u32_id; exact Hi).
  cbn [spec_client_unlimit]. crel_run; rewrite ?Ei in *; crel_done.
Qed.

End Client.

(** *** The compiled instruction refines the named one *)

Definition fits16 (x : Z) : Prop := 0 <= x < 65536.
Definition fits32 (x : Z) : Prop := 0 <= x < 4294967296.

(** The struct members of the instruction classes hold values of their type. *)
Definition ins_ok (i : StreamVmInstruction) : Prop :=
  match i with
  | FixChecksumIpv4 po => fits16 po
  | FlowMan _ _ _ _ _ _ => True
  | FlowClient _ cmin cmax pmin pmax lim _ =>
      fits32 cmin /\ fits32 cmax /\ fits16 pmin /\ fits16 pmax /\ fits32 lim
  | WriteToPkt _ po _ _ => fits16 po
  end.

Lemma var_at_offset n o w : var_at n o w -> u8 (u16 o) = o /\ ufit 1 o.
Proof.
  intros [i Hn]. destruct (tw_in _ _ Hwf _ _ Hn) as (H0 & H1 & _). cbn in H0, H1.
  unfold svMAX_FLOW_VAR in Hmax.
  rewrite u16_id by lia. rewrite u8_id by lia. split; [done|]. unfold ufit. simpl. lia.
Qed.

Lemma var_at_get n o w : var_at n o w -> get_var_offset t n = Ok (u16 o).
Proof. intros [i Hn]. unfold get_var_offset. by rewrite Hn. Qed.

Lemma declared_flow name size op init mn mx :
  declared t (FlowMan name size op init mn mx) ->
  exists w o, size = Z.of_nat (wbytes w) /\ width_of_size size = Some w /\ var_at name o w.
Proof.
  intros [Hs [o Ho]]. destruct (width_of_valid _ Hs) as (w & Hw & E & _). exists w, o.
  split; [done|]. split; [done|]. unfold var_at. rewrite E. eauto.
Qed.

Lemma declared_client name cmin cmax pmin pmax lim fl :
  declared t (FlowClient name cmin cmax pmin pmax lim fl) ->
  exists o, client_at name o.
Proof.
  intros (o & H1 & H2 & H3). exists o. split_and!; eexists; eassumption.
Qed.

Lemma build_ins_op_ok i pktsz mf op mf' :
  ins_ok i -> declared t i -> build_ins t pktsz i mf = Ok (op, mf') ->
  exists o, op = Some o /\ op_ok o.
Proof.
  intros Hok Hd E. destruct i as [po|name size k init mn mx|name cmin cmax pmin pmax lim fl|name po add big];
    cbn [build_ins ins_ok] in *.
  - destruct (_ >? _); [discriminate|]. injection E as <- <-. eexists. split; [done|].
    simpl. unfold ufit. exact Hok.
  - destruct (declared_flow _ _ _ _ _ _ Hd) as (w & o & -> & Hw & Hv). rewrite Hw in E.
    rewrite (var_at_get _ _ _ Hv) in E. cbn [mbind res_bind] in E. injection E as <- <-.
    eexists. split; [done|]. destruct (var_at_offset _ _ _ Hv) as [-> Hu].
    cbn [op_ok]. split; [done|]. unfold ufit. rewrite !uw_eq.
    split; apply Z.mod_pos_bound; by destruct w.
  - destruct (declared_client _ _ _ _ _ _ _ Hd) as (o & Hc).
    rewrite (var_at_get _ _ _ (proj1 Hc)) in E. cbn [mbind res_bind] in E.
    destruct (var_at_offset _ _ _ (proj1 Hc)) as [Hoff Hu]. rewrite Hoff in E.
    destruct Hok as (H1 & H2 & H3 & H4 & H5).
    destruct (is_unlimited_flows fl); injection E as <- <-; eexists; (split; [done|]);
      cbn [op_ok]; unfold fits16, fits32 in *; ufit_lia.
  - destruct (t !! name) as [v|] eqn:Hn; [|discriminate].
    destruct (_ >? _); [discriminate|].
    destruct (tw_in _ _ Hwf _ _ Hn) as (_ & _ & Hs).
    destruct (width_of_valid _ Hs) as (w & Hw & Ew & _).
    assert (Hv : var_at name (m_offset v) w) by
      (exists (m_ins v); rewrite Ew, Hn; by destruct v).
    rewrite (var_at_get _ _ _ Hv) in E. cbn [mbind res_bind] in E. rewrite Hw in E.
    destruct (var_at_offset _ _ _ Hv) as [Hoff Hu]. rewrite Hoff in E.
    injection E as <- <-. eexists. split; [done|]. cbn [op_ok].
    split; [destruct big; unfold PKT_WR_IS_BIG; ufit_lia|]. split; [done|]. split.
    + unfold sfit, wmax. destruct w; cbn [sw wbytes]; word_lia.
    + exact Hok.
Qed.

Lemma exec_refines i pktsz mf op mf' fv e pkt :
  ins_ok i -> declared t i -> (is_random_ins i = true -> has_seed) ->
  build_ins t pktsz i mf = Ok (Some op, mf') -> env_rel t cur fv e ->
  sim (exec 0 op (fv, pkt)) (spec_ins t i (e, pkt)).
Proof.
  intros Hok Hd Hs E He.
  destruct i as [po|name size k init mn mx|name cmin cmax pmin pmax lim fl|name po add big];
    cbn [build_ins] in *.
  - destruct (_ >? _); [discriminate|]. injection E as <- <-. cbn [exec spec_ins].
    unfold ipv4_fix_run. destruct (IP_updateCheckSum pkt po); [|done]. by exists fv.
  - destruct (declared_flow _ _ _ _ _ _ Hd) as (w & o & -> & Hw & Hv). rewrite Hw in E.
    rewrite (var_at_get _ _ _ Hv) in E. cbn [mbind res_bind] in E. injection E as <- <-.
    destruct (var_at_offset _ _ _ Hv) as [-> Hu]. apply flow_var_sim; [done..|].
    intros ->. by apply Hs.
  - destruct (declared_client _ _ _ _ _ _ _ Hd) as (o & Hc).
    rewrite (var_at_get _ _ _ (proj1 Hc)) in E. cbn [mbind res_bind] in E.
    destruct (var_at_offset _ _ _ (proj1 Hc)) as [Hoff Hu]. rewrite Hoff in E.
    destruct (var_ld _ _ _ _ _ He (proj1 Hc)) as (ip & Eip & _).
    destruct (var_ld _ _ _ _ _ He (proj1 (proj2 Hc))) as (port & Eport & _).
    destruct (var_ld _ _ _ _ _ He (proj2 (proj2 Hc))) as (id & Eid & _).
    cbn [spec_ins]. rewrite Eip, Eport, Eid. cbn [mbind res_bind].
    assert (Hcr : crel name e fv (ip, port, id)).
    { unfold crel. rewrite set_client_id; [done|]. unfold client_of. by rewrite Eip, Eport, Eid. }
    cbn [ins_ok] in Hok. destruct Hok as (H1 & H2 & H3 & H4 & H5).
    destruct (is_unlimited_flows fl); injection E as <- <-; cbn [exec].
    + destruct (clients_unlimit_sim name o Hc e fv cmin cmax (ip, port, id) H1 Hcr)
        as (fv' & -> & H). destruct (spec_client_unlimit _ _ _) as [[ip' port'] id'].
      by exists fv'.
    + destruct (clients_limit_sim name o Hc e fv pmin pmax cmin cmax lim (ip, port, id) H3 H1 Hcr)
        as (fv' & -> & H). destruct (spec_client_limit _ _ _ _ _ _) as [[ip' port'] id'].
      by exists fv'.
  - destruct (t !! name) as [v|] eqn:Hn; [|discriminate].
    destruct (_ >? _); [discriminate|].
    destruct (tw_in _ _ Hwf _ _ Hn) as (_ & _ & Hsz).
    destruct (width_of_valid _ Hsz) as (w & Hw & Ew & _).
    assert (Hv : var_at name (m_offset v) w) by
      (exists (m_ins v); rewrite Ew, Hn; by destruct v).
    rewrite (var_at_get _ _ _ Hv) in E. cbn [mbind res_bind] in E. rewrite Hw in E.
    destruct (var_at_offset _ _ _ Hv) as [Hoff Hu]. rewrite Hoff in E.
    injection E as <- <-. by apply pkt_wr_sim.
Qed.

(** The instructions of a built program, one per source instruction. *)
Lemma build_loop_spec pktsz l : forall prog mf prog' mf',
  Forall ins_ok l -> Forall (declared t) l ->
  (existsb is_random_ins l = true -> has_seed) ->
  build_loop t pktsz l (prog, mf) = Ok (prog', mf') ->
  exists ops, prog' = prog ++ encode_prog ops /\ Forall op_ok ops /\
    forall fv e pkt, env_rel t cur fv e ->
      sim (exec_list 0 ops (fv, pkt)) (spec_list t l (e, pkt)).
Proof.
  induction l as [|i l IH]; intros prog mf prog' mf' Hok Hd Hs E; cbn [build_loop] in E.
  - injection E as <- <-. exists []. split; [by rewrite app_nil_r|]. split; [constructor|].
    intros fv e pkt He. by exists fv.
  - apply bind_Ok in E as ([op mf1] & E1 & E). inversion Hok; inversion Hd; subst.
    destruct (build_ins_op_ok _ _ _ _ _ ltac:(done) ltac:(done) E1) as (o & -> & Ho).
    cbn [existsb] in Hs.
    destruct (IH _ _ _ _ ltac:(done) ltac:(done)
      ltac:(intros Hr; apply Hs; rewrite Hr; apply orb_true_r) E) as (ops & -> & Hops & Hsim).
    exists (o :: ops). split; [cbn [add_command]; by rewrite encode_prog_cons, app_assoc|].
    split; [by constructor|]. intros fv e pkt He. cbn [exec_list spec_list].
    assert (Hx := exec_refines i pktsz mf o mf1 fv e pkt ltac:(done) ltac:(done)
      ltac:(intros Hr; apply Hs; by rewrite Hr) E1 He).
    destruct (spec_ins t i (e, pkt)) as [[e1 pkt1]|f]; cbn [sim] in Hx.
    + destruct Hx as (fv1 & -> & He1). cbn [mbind res_bind]. by apply Hsim.
    + rewrite Hx. done.
Qed.

End Refine.
