(* ===== verification/StreamVmThms.v ===== *)
(** * Theorems on the compiled stream VM

    Built on the refinement of [StreamVmSpec.v]: what [StreamVm::compile]
    produces, what its initial memory holds, that the program runs without a
    fault on packets of the compiled size, that variables walk their ranges, and
    the inputs on which the code stops. *)

From S2P Require Import Prelude ByteMem PktCmn PktCmnFacts StreamVm StreamVmFacts StreamVmSpec.

(** ** Names of a program *)

Definition var_names (i : StreamVmInstruction) : list string :=
  match i with
  | FlowMan name _ _ _ _ _ => [name]
  | FlowClient name _ _ _ _ _ _ => [name +:+ ".ip"; name +:+ ".port"; name +:+ ".flow_limit"]
  | _ => []
  end.

Definition all_names (l : list StreamVmInstruction) : list string := concat (var_names <$> l).

Lemma add_var_names i t off t' off' :
  add_var i (t, off) = Ok (t', off') ->
  NoDup (var_names i) /\ (forall n, n ∈ var_names i -> t !! n = None) /\
  (forall n, is_Some (t !! n) -> is_Some (t' !! n)) /\
  (forall n, n ∈ var_names i -> is_Some (t' !! n)).
Proof.
  intros E. destruct i as [po|name size op init mn mx|name cmin cmax pmin pmax lim fl|name po add big];
    cbn [add_var var_names] in *.
  - injection E as <- <-. split_and!; [apply NoDup_nil_2|..]; try done; by intros ? ?%elem_of_nil.
  - destruct (sanity_check size); [|discriminate]. cbn [mbind res_bind] in E.
    destruct (t !! name) eqn:Hn; [discriminate|]. injection E as <- <-. split_and!.
    + apply NoDup_singleton.
    + by intros n ->%list_elem_of_singleton.
    + intros n Hs. rewrite lookup_insert_is_Some. destruct (decide (name = n)); auto.
    + intros n ->%list_elem_of_singleton. by rewrite lookup_insert_eq.
  - destruct (t !! (name +:+ ".ip")) eqn:H1; [discriminate|].
    destruct (t !! (name +:+ ".port")) eqn:H2; [discriminate|].
    destruct (t !! (name +:+ ".flow_limit")) eqn:H3; [discriminate|].
    cbn [c_assert mbind res_bind] in E. simpl in E. injection E as <- <-.
    destruct (client_names name) as (N1 & N2 & N3). split_and!.
    + rewrite !NoDup_cons, !not_elem_of_cons. split_and!; try done; try apply not_elem_of_nil.
      apply NoDup_nil_2.
    + intros n. rewrite !elem_of_cons, elem_of_nil. naive_solver.
    + intros n Hs. rewrite !lookup_insert_is_Some'. auto.
    + intros n. rewrite !elem_of_cons, elem_of_nil, !lookup_insert_is_Some'. naive_solver.
  - injection E as <- <-. split_and!; [apply NoDup_nil_2|..]; try done; by intros ? ?%elem_of_nil.
Qed.

Lemma add_vars_names l : forall t off t' off',
  add_vars l (t, off) = Ok (t', off') ->
  NoDup (all_names l) /\ (forall n, n ∈ all_names l -> t !! n = None).
Proof.
  induction l as [|i l IH]; intros t off t' off' E; cbn [add_vars] in E.
  - split; [apply NoDup_nil_2|]. by intros n ?%elem_of_nil.
  - destruct (add_var i (t, off)) as [[t1 off1]|] eqn:E1; [|discriminate].
    cbn [mbind res_bind] in E. destruct (_ >? _); [discriminate|].
    destruct (add_var_names _ _ _ _ _ E1) as (Hnd & Hnone & Hmono & Hin).
    destruct (IH _ _ _ _ E) as (Hnd' & Hnone').
    unfold all_names in *. cbn [fmap list_fmap concat]. split.
    + apply NoDup_app. split; [done|]. split; [|done]. intros n Hn Hn'.
      destruct (Hin _ Hn) as [v Hv]. rewrite (Hnone' _ Hn') in Hv. discriminate.
    + intros n [Hn|Hn]%elem_of_app; [by apply Hnone|].
      destruct (t !! n) as [u|] eqn:Ht; [|done]. destruct (Hmono n) as [v Hv]; [by eexists|].
      rewrite (Hnone' _ Hn) in Hv. discriminate.
Qed.

Lemma build_flow_var_table_names l rv t off :
  build_flow_var_table l = Ok (rv, t, off) ->
  NoDup (all_names l) /\ (rv = true -> seed_name ∉ all_names l).
Proof.
  unfold build_flow_var_table. intros E. apply bind_Ok in E as ([t1 off1] & E & H).
  injection H as <- <- <-. destruct (existsb is_random_ins l);
    destruct (add_vars_names _ _ _ _ _ E) as [Hnd Hnone]; (split; [done|]); [|done].
  intros _ Hin. specialize (Hnone _ Hin). unfold seed_name in Hnone.
  by rewrite lookup_singleton_eq in Hnone.
Qed.

(** ** An instruction touches only its own names and the seed *)

Lemma spec_ins_frame t i e pkt e' pkt' n :
  spec_ins t i (e, pkt) = Ok (e', pkt') -> n ∉ var_names i ->
  (is_random_ins i = true -> n <> seed_name) -> e' !! n = e !! n.
Proof.
  intros E Hn Hs. destruct i as [po|name size op init mn mx|name cmin cmax pmin pmax lim fl|name po add big];
    cbn [spec_ins var_names is_random_ins] in *.
  - apply bind_Ok in E as (? & _ & E). by injection E as <- <-.
  - apply not_elem_of_cons in Hn as [Hn _].
    destruct (width_of_size size) as [w|]; [|by injection E as <- <-].
    apply bind_Ok in E as (x & _ & E). destruct op.
    + injection E as <- <-. by rewrite lookup_insert_ne.
    + injection E as <- <-. by rewrite lookup_insert_ne.
    + apply bind_Ok in E as (seed & _ & E). destruct (spec_rand w seed) as [seed' r].
      cbv zeta in E. destruct (_ =? 0); [discriminate|]. injection E as <- <-.
      rewrite lookup_insert_ne by done. rewrite lookup_insert_ne; [done|].
      intros <-. by apply Hs.
  - rewrite !not_elem_of_cons in Hn. destruct Hn as (N1 & N2 & N3 & _).
    apply bind_Ok in E as (ip & _ & E). apply bind_Ok in E as (port & _ & E).
    apply bind_Ok in E as (id & _ & E).
    destruct (if is_unlimited_flows fl then _ else _) as [[ip' port'] id'].
    injection E as <- <-. by rewrite !lookup_insert_ne.
  - destruct (t !! name); [|discriminate].
    destruct (width_of_size _); [|by injection E as <- <-].
    apply bind_Ok in E as (x & _ & E). case_decide; [|discriminate]. by injection E as <- <-.
Qed.

Lemma spec_list_frame t l n : forall e pkt e' pkt',
  spec_list t l (e, pkt) = Ok (e', pkt') -> n ∉ all_names l ->
  (existsb is_random_ins l = true -> n <> seed_name) -> e' !! n = e !! n.
Proof.
  induction l as [|i l IH]; intros e pkt e' pkt' E Hn Hs; cbn [spec_list] in E.
  - by injection E as <- <-.
  - apply bind_Ok in E as ([e1 pkt1] & E1 & E).
    unfold all_names in *. cbn [fmap list_fmap concat existsb] in *.
    apply not_elem_of_app in Hn as [Hn1 Hn2].
    rewrite (IH _ _ _ _ E Hn2) by (intros Hr; apply Hs; rewrite Hr; apply orb_true_r).
    eapply spec_ins_frame; [done..|]. intros Hr. apply Hs. by rewrite Hr.
Qed.

Lemma spec_list_app t l1 l2 s :
  spec_list t (l1 ++ l2) s = (s ← spec_list t l1 s; spec_list t l2 s).
Proof.
  revert s. induction l1 as [|i l1 IH]; intros s; cbn [spec_list app]; [done|].
  destruct (spec_ins t i s); cbn [mbind res_bind]; [apply IH|done].
Qed.

(** The value a program leaves in a non-random variable. *)
Definition spec_step (w : width) (k : flow_var_op_e) (mn mx x : Z) : Z :=
  match k with
  | FLOW_VAR_OP_INC => spec_inc w mn mx x
  | FLOW_VAR_OP_DEC => spec_dec w mn mx x
  | FLOW_VAR_OP_RANDOM => x
  end.

Lemma existsb_app_r {A} (f : A -> bool) l1 l2 : existsb f l2 = true -> existsb f (l1 ++ l2) = true.
Proof. intros. rewrite existsb_app. by rewrite H, orb_true_r. Qed.

Lemma existsb_app_l {A} (f : A -> bool) l1 l2 : existsb f l1 = true -> existsb f (l1 ++ l2) = true.
Proof. intros. rewrite existsb_app. by rewrite H. Qed.

(** An instruction of a program acts on its own names as if it were alone. *)
Lemma spec_list_at t l e pkt e' pkt' i :
  spec_list t l (e, pkt) = Ok (e', pkt') ->
  NoDup (all_names l) -> (existsb is_random_ins l = true -> seed_name ∉ all_names l) -> i ∈ l ->
  exists e1 p1 e2 p2, spec_ins t i (e1, p1) = Ok (e2, p2) /\
    forall n, n ∈ var_names i -> e1 !! n = e !! n /\ e' !! n = e2 !! n.
Proof.
  intros E Hnd Hs Hin. apply list_elem_of_split in Hin as (l1 & l2 & ->).
  rewrite spec_list_app in E. apply bind_Ok in E as ([e1 pkt1] & E1 & E).
  cbn [spec_list] in E. apply bind_Ok in E as ([e2 pkt2] & E2 & E3).
  unfold all_names in *. rewrite fmap_app, concat_app in *. cbn [fmap list_fmap concat] in *.
  apply NoDup_app in Hnd as (Hnd1 & Hdisj & Hnd2). apply NoDup_app in Hnd2 as (_ & Hdisj2 & _).
  exists e1, pkt1, e2, pkt2. split; [done|]. intros n Hn.
  assert (Hseed : existsb is_random_ins (l1 ++ i :: l2) = true -> n <> seed_name).
  { intros Hr ->. apply (Hs Hr). rewrite !elem_of_app. auto. }
  split.
  - eapply spec_list_frame; [exact E1| |].
    + intros Hin. apply (Hdisj _ Hin), elem_of_app. by left.
    + intros Hr. apply Hseed. by apply existsb_app_l.
  - eapply spec_list_frame; [exact E3|by apply Hdisj2|].
    intros Hr. apply Hseed. apply existsb_app_r. cbn [existsb]. rewrite Hr. apply orb_true_r.
Qed.

Lemma spec_list_var t l e pkt e' pkt' name size w k init mn mx x :
  spec_list t l (e, pkt) = Ok (e', pkt') ->
  NoDup (all_names l) -> (existsb is_random_ins l = true -> seed_name ∉ all_names l) ->
  FlowMan name size k init mn mx ∈ l -> width_of_size size = Some w -> k <> FLOW_VAR_OP_RANDOM ->
  e !! name = Some x -> e' !! name = Some (spec_step w k mn mx x).
Proof.
  intros E Hnd Hs Hin Hw Hk Hx.
  destruct (spec_list_at _ _ _ _ _ _ _ E Hnd Hs Hin) as (e1 & p1 & e2 & p2 & E2 & He).
  destruct (He name) as [H1 H2]; [apply list_elem_of_here|]. rewrite H2.
  cbn [spec_ins] in E2. rewrite Hw in E2. unfold lookup_env in E2. rewrite H1, Hx in E2.
  cbn [mbind res_bind] in E2. destruct k; [..|done]; injection E2 as <- <-;
    by rewrite lookup_insert_eq.
Qed.

(** The next client of a client variable. *)
Definition spec_client (cmin cmax pmin pmax lim fl : Z) (c : Z * Z * Z) : Z * Z * Z :=
  if is_unlimited_flows fl then spec_client_unlimit cmin cmax c
  else spec_client_limit pmin pmax cmin cmax lim c.

Lemma spec_list_client t l e pkt e' pkt' name cmin cmax pmin pmax lim fl c :
  spec_list t l (e, pkt) = Ok (e', pkt') ->
  NoDup (all_names l) -> (existsb is_random_ins l = true -> seed_name ∉ all_names l) ->
  FlowClient name cmin cmax pmin pmax lim fl ∈ l -> client_of name e = Ok c ->
  client_of name e' = Ok (spec_client cmin cmax pmin pmax lim fl c).
Proof.
  intros E Hnd Hs Hin Hc.
  destruct (spec_list_at _ _ _ _ _ _ _ E Hnd Hs Hin) as (e1 & p1 & e2 & p2 & E2 & He).
  cbn [var_names] in He.
  destruct (He (name +:+ ".ip")) as [H1 H1']; [apply list_elem_of_here|].
  destruct (He (name +:+ ".port")) as [H2 H2'];
    [apply list_elem_of_further, list_elem_of_here|].
  destruct (He (name +:+ ".flow_limit")) as [H3 H3'];
    [apply list_elem_of_further, list_elem_of_further, list_elem_of_here|].
  unfold client_of, lookup_env in Hc |- *. rewrite H1', H2', H3'.
  cbn [spec_ins] in E2. unfold lookup_env in E2. rewrite H1, H2, H3 in E2.
  apply bind_Ok in Hc as (ip & Eip & Hc). apply bind_Ok in Hc as (port & Eport & Hc).
  apply bind_Ok in Hc as (id & Eid & Hc). injection Hc as <-.
  rewrite Eip, Eport, Eid in E2. cbn [mbind res_bind] in E2.
  unfold spec_client. destruct (if is_unlimited_flows fl then _ else _) as [[ip' port'] id'].
  injection E2 as <- <-. destruct (client_names name) as (N1 & N2 & N3).
  rewrite (lookup_insert_ne _ (name +:+ ".flow_limit") (name +:+ ".ip")) by congruence.
  rewrite (lookup_insert_ne _ (name +:+ ".flow_limit") (name +:+ ".port")) by congruence.
  rewrite (lookup_insert_ne _ (name +:+ ".port") (name +:+ ".ip")) by congruence.
  by rewrite !lookup_insert_eq.
Qed.

(** ** The initial memory *)

(** The environment a memory represents. *)
Definition mem_env (t : var_table) (m : bytes) : env :=
  omap (fun v => match ld (Z.to_nat (m_size_bytes v)) m (m_offset v) with
                 | Ok x => Some x | Err _ => None end) t.

Lemma mem_env_rel t cur m : table_wf t cur -> zlength m = cur -> env_rel t cur m (mem_env t m).
Proof.
  intros Hwf Hm. split; [done|]. intros n v Hn. destruct (tw_in _ _ Hwf _ _ Hn) as (H0 & H1 & Hs).
  assert (0 < m_size_bytes v) by (destruct Hs as [|[|[|]]]; lia).
  assert (Hr : in_range (Z.to_nat (m_size_bytes v)) m (m_offset v)) by (unfold in_range; lia).
  unfold mem_env. rewrite lookup_omap, Hn. cbn. rewrite ld_Ok by done. eauto.
Qed.

Lemma env_rel_lookup t cur m e n v x :
  env_rel t cur m e -> t !! n = Some v ->
  ld (Z.to_nat (m_size_bytes v)) m (m_offset v) = Ok x -> e !! n = Some x.
Proof. intros [_ He] Hn Hl. destruct (He _ _ Hn) as (y & Hy & Hl'). congruence. Qed.

(** The value the memory holds for the variables of an instruction. *)
Definition holds (t : var_table) (m : bytes) (n : string) (x : Z) : Prop :=
  exists v, t !! n = Some v /\
    ld (Z.to_nat (m_size_bytes v)) m (m_offset v) = Ok (x mod 256 ^ m_size_bytes v).

Definition inited (t : var_table) (m : bytes) (i : StreamVmInstruction) : Prop :=
  match i with
  | FlowMan name _ op init mn mx => holds t m name (get_bss_init_value op init mn mx)
  | FlowClient name cmin _ pmin _ _ flags =>
      holds t m (name +:+ ".ip") (if cmin >? 0 then cmin - 1 else cmin) /\
      holds t m (name +:+ ".port")
        (if is_unlimited_flows flags then CLIENT_UNLIMITED_MIN_PORT else pmin) /\
      holds t m (name +:+ ".flow_limit") 0
  | _ => True
  end.

(** [m'] extends the initialised part of [m] below [off]. *)
Definition mem_ext (off : Z) (m m' : bytes) : Prop :=
  zlength m' = zlength m /\ forall n o, o + Z.of_nat n <= off -> ld n m' o = ld n m o.

Lemma holds_ext t off m m' n x v :
  mem_ext off m m' -> t !! n = Some v -> 0 <= m_size_bytes v ->
  m_offset v + m_size_bytes v <= off -> holds t m n x -> holds t m' n x.
Proof.
  intros [_ He] Hv H0 Ho (v' & Hv' & Hl). assert (v' = v) as -> by congruence.
  exists v. split; [done|]. rewrite He by lia. done.
Qed.

Lemma mem_ext_trans off off' m1 m2 m3 :
  off <= off' -> mem_ext off m1 m2 -> mem_ext off' m2 m3 -> mem_ext off m1 m3.
Proof.
  intros Hle [Hz1 He1] [Hz2 He2]. split; [lia|]. intros n o Ho. rewrite He2, He1 by lia. done.
Qed.

Lemma bss_wr_spec n v m p :
  0 <= p -> p + Z.of_nat n <= zlength m ->
  exists m', bss_wr n v (Some m, p) = Ok (Some m', p + Z.of_nat n) /\
    ld n m' p = Ok (v mod 256 ^ Z.of_nat n) /\ mem_ext p m m'.
Proof.
  intros H0 Hl. destruct (st_total n m p v) as (m' & E); [by unfold in_range|].
  exists m'. unfold bss_wr. rewrite E. split; [done|]. split; [by eapply ld_st_same|].
  split; [by eapply st_zlength|]. intros k o Ho. eapply ld_st_other; [done|lia].
Qed.

Lemma bss_ins_spec i t off t1 off1 m :
  0 <= off -> off <= svMAX_FLOW_VAR -> add_var i (t, off) = Ok (t1, off1) -> off1 <= zlength m ->
  exists m1, bss_ins i (Some m, off) = Ok (Some m1, off1) /\ mem_ext off m m1 /\ inited t1 m1 i.
Proof.
  unfold svMAX_FLOW_VAR. intros H0 Hmax E Hl.
  assert (Hrefl : mem_ext off m m) by done.
  destruct i as [po|name size op init mn mx|name cmin cmax pmin pmax lim fl|name po add big];
    cbn [add_var] in E; try (injection E as <- <-; exists m; split_and!; by simpl).
  - destruct (sanity_check size) as [u|] eqn:Hsz; [|discriminate]. cbn [mbind res_bind] in E.
    apply sanity_check_Ok in Hsz. destruct (t !! name); [discriminate|]. injection E as <- <-.
    destruct (width_of_valid _ Hsz) as (w & _ & Ew & En).
    assert (0 < size <= 8) by (destruct Hsz as [|[|[|]]]; lia).
    rewrite u16_id in Hl |- * by lia.
    destruct (bss_wr_spec (wbytes w) (get_bss_init_value op init mn mx) m off)
      as (m1 & E1 & L1 & X1); [lia..|].
    exists m1. split; [|split; [done|]].
    + rewrite Ew in E1. cbn [bss_ins]. rewrite <- E1.
      destruct Hsz as [-> | [-> | [-> | ->]]]; destruct w; done || discriminate.
    + cbn [inited]. eexists. split; [apply lookup_insert_eq|]. cbn [m_size_bytes m_offset].
      rewrite <- Ew. rewrite Nat2Z.id. done.
  - destruct (t !! (name +:+ ".ip")); [discriminate|].
    destruct (t !! (name +:+ ".port")); [discriminate|].
    destruct (t !! (name +:+ ".flow_limit")); [discriminate|].
    cbn [c_assert mbind res_bind] in E. simpl in E. injection E as <- <-.
    unfold get_flow_var_size in *. rewrite u16_id in Hl |- * by lia.
    destruct (client_names name) as (N1 & N2 & N3).
    set (vi := if cmin >? 0 then cmin - 1 else cmin).
    set (vp := if is_unlimited_flows fl then CLIENT_UNLIMITED_MIN_PORT else pmin).
    destruct (bss_wr_spec 4 vi m off) as (m1 & E1 & L1 & X1); [lia..|].
    destruct (bss_wr_spec 2 vp m1 (off + 4)) as (m2 & E2 & L2 & X2);
      [lia|rewrite (proj1 X1); lia|].
    destruct (bss_wr_spec 4 0 m2 (off + 4 + 2)) as (m3 & E3 & L3 & X3);
      [lia|rewrite (proj1 X2), (proj1 X1); lia|].
    change (Z.of_nat 4) with 4 in *. change (Z.of_nat 2) with 2 in *.
    exists m3. split; [|split].
    + cbn [bss_ins]. fold vi vp. rewrite E1. cbn [mbind res_bind]. rewrite E2.
      cbn [mbind res_bind]. rewrite E3. do 2 f_equal. lia.
    + eapply (mem_ext_trans off (off + 4)); [lia|done|].
      eapply (mem_ext_trans (off + 4) (off + 4 + 2)); [lia|done|done].
    + cbn [inited]. fold vi vp. unfold holds. split_and!; eexists.
      * split; [rewrite !lookup_insert_ne by done; apply lookup_insert_eq|].
        cbn [m_size_bytes m_offset]. rewrite (proj2 X3), (proj2 X2) by lia. exact L1.
      * split; [rewrite lookup_insert_ne by done; apply lookup_insert_eq|].
        cbn [m_size_bytes m_offset]. rewrite (proj2 X3) by lia. exact L2.
      * split; [apply lookup_insert_eq|].
        cbn [m_size_bytes m_offset]. replace (off + 6) with (off + 4 + 2) by lia. exact L3.
Qed.

Lemma inited_mono t t' cur off m m' i :
  table_wf t cur -> cur <= off -> t ⊆ t' -> mem_ext off m m' -> inited t m i -> inited t' m' i.
Proof.
  intros Hwf Hc Hs Hm.
  assert (Hh : forall n x, holds t m n x -> holds t' m' n x).
  { intros n x (v & Hv & Hl). destruct (tw_in _ _ Hwf _ _ Hv) as (H0 & H1 & Hsz).
    assert (0 < m_size_bytes v) by (destruct Hsz as [|[|[|]]]; lia).
    eapply (holds_ext t' off m m' n x v); [done| |lia|lia|].
    - by eapply lookup_weaken.
    - exists v. split; [by eapply lookup_weaken|done]. }
  destruct i; simpl; naive_solver.
Qed.

Lemma bss_loop_spec l : forall t off t' off' m,
  table_wf t off -> off <= svMAX_FLOW_VAR -> add_vars l (t, off) = Ok (t', off') ->
  off' <= zlength m ->
  exists m', bss_loop l (Some m, off) = Ok (Some m', off') /\ mem_ext off m m' /\
    Forall (inited t' m') l /\ off <= off'.
Proof.
  induction l as [|i l IH]; intros t off t' off' m Hwf Hmax E Hl; cbn [add_vars] in E.
  - injection E as <- <-. exists m. split_and!; [done..|constructor|lia].
  - destruct (add_var i (t, off)) as [[t1 off1]|] eqn:E1; [|discriminate].
    cbn [mbind res_bind snd] in E.
    destruct (Z.gtb_spec off1 svMAX_FLOW_VAR) as [|Hle]; [discriminate|].
    destruct (add_var_spec _ _ _ _ _ Hwf Hmax E1) as (Hwf1 & Hs1 & Hd1 & Hle1).
    assert (Hoff : off1 <= off').
    { clear -E Hwf1 Hle. revert t1 off1 Hwf1 Hle E. induction l as [|j l IHl];
        intros t1 off1 Hwf1 Hle E; cbn [add_vars] in E; [injection E as _ <-; lia|].
      destruct (add_var j (t1, off1)) as [[t2 off2]|] eqn:E2; [|discriminate].
      cbn [mbind res_bind snd] in E. destruct (Z.gtb_spec off2 svMAX_FLOW_VAR); [discriminate|].
      destruct (add_var_spec _ _ _ _ _ Hwf1 Hle E2) as (Hwf2 & _ & _ & Hle2).
      specialize (IHl _ _ Hwf2 ltac:(lia) E). lia. }
    destruct (bss_ins_spec i t off t1 off1 m (tw_cur _ _ Hwf) Hmax E1 ltac:(lia))
      as (m1 & Eb & X1 & I1).
    destruct (IH _ _ _ _ m1 Hwf1 Hle E) as (m' & Eb' & X' & I' & _);
      [rewrite (proj1 X1); lia|].
    destruct (add_vars_spec _ _ _ _ _ Hwf1 Hle E) as (_ & Hs' & _ & _).
    exists m'. cbn [bss_loop]. rewrite Eb. cbn [mbind res_bind]. split; [done|].
    split; [by eapply (mem_ext_trans off off1)|]. split; [|lia]. constructor; [|done].
    by eapply (inited_mono t1 t' off1 off1).
Qed.

(** ** What [compile] produces *)

(** [malloc] as its manual describes it, with memory left: a block of the size
    asked for; for size 0 NULL or an empty block. *)
Definition malloc_ok (malloc : Z -> option bytes) : Prop :=
  (forall n, 0 < n -> exists b, malloc n = Some b /\ zlength b = n) /\
  (malloc 0 = None \/ malloc 0 = Some []).

Lemma add_var_zero i t off t1 off1 p :
  0 <= off -> off <= svMAX_FLOW_VAR -> add_var i (t, off) = Ok (t1, off1) -> off1 <= 0 ->
  t1 = t /\ bss_ins i (None, p) = Ok (None, p).
Proof.
  unfold svMAX_FLOW_VAR. intros H0 Hmax E Hz.
  destruct i as [po|name size op init mn mx|name cmin cmax pmin pmax lim fl|name po add big];
    cbn [add_var] in E; try (by injection E as <- <-).
  - exfalso. destruct (sanity_check size) as [u|] eqn:Hsz; [|discriminate].
    cbn [mbind res_bind] in E. apply sanity_check_Ok in Hsz.
    assert (0 < size <= 8) by (destruct Hsz as [|[|[|]]]; lia).
    destruct (t !! name); [discriminate|]. injection E as <- <-. rewrite u16_id in Hz by lia. lia.
  - exfalso. destruct (t !! (name +:+ ".ip")); [discriminate|].
    destruct (t !! (name +:+ ".port")); [discriminate|].
    destruct (t !! (name +:+ ".flow_limit")); [discriminate|].
    cbn [c_assert mbind res_bind] in E. simpl in E. injection E as <- <-.
    unfold get_flow_var_size in Hz. rewrite u16_id in Hz by lia. lia.
Qed.

Lemma bss_loop_zero l : forall t off t' off' p,
  table_wf t off -> off <= svMAX_FLOW_VAR -> add_vars l (t, off) = Ok (t', off') -> off' <= 0 ->
  bss_loop l (None, p) = Ok (None, p) /\ off <= off' /\ t' = t.
Proof.
  induction l as [|i l IH]; intros t off t' off' p Hwf Hmax E Hz; cbn [add_vars] in E.
  - injection E as <- <-. done.
  - destruct (add_var i (t, off)) as [[t1 off1]|] eqn:E1; [|discriminate].
    cbn [mbind res_bind snd] in E.
    destruct (Z.gtb_spec off1 svMAX_FLOW_VAR) as [|Hle]; [discriminate|].
    destruct (add_var_spec _ _ _ _ _ Hwf Hmax E1) as (Hwf1 & _ & _ & Hle1).
    destruct (IH _ _ _ _ p Hwf1 Hle E Hz) as (Eb & Hle' & ->).
    destruct (add_var_zero i t off t1 off1 p (tw_cur _ _ Hwf) Hmax E1 ltac:(lia)) as [-> Ei].
    cbn [bss_loop]. rewrite Ei. cbn [mbind res_bind]. split; [done|]. split; [lia|done].
Qed.

(** The initial memory of a compiled VM. *)
Definition bss_spec (t : var_table) (cur : Z) (l : list StreamVmInstruction)
    (malloc : Z -> option bytes) (bss : option bytes) : Prop :=
  match bss with
  | Some m => zlength m = cur /\ Forall (inited t m) l
  | None => cur = 0 /\ malloc 0 = None
  end.

Lemma seed_table_wf : table_wf {[ seed_name := mkVmFlowVarRec 0 None 4 ]} 4.
Proof.
  rewrite <- insert_empty. apply (table_wf_insert ∅ 0); [apply table_wf_empty|done|].
  unfold valid_size. lia.
Qed.

Lemma build_bss_spec malloc rand l rv t off :
  malloc_ok malloc -> build_flow_var_table l = Ok (rv, t, off) ->
  exists bss, build_bss malloc rand rv off l = Ok bss /\ bss_spec t off l malloc bss.
Proof.
  intros [Hpos Hzero] E. unfold build_flow_var_table in E.
  apply bind_Ok in E as ([t1 off1] & E & H). injection H as <- <- <-. unfold build_bss.
  destruct (existsb is_random_ins l) eqn:Hr.
  - assert (H4 : 4 <= off1).
    { destruct (bss_loop_spec l _ 4 t1 off1 (replicate (Z.to_nat off1) 0) seed_table_wf
        ltac:(done) E) as (_ & _ & _ & _ & Hle); [|done].
      destruct (add_vars_spec _ _ _ _ _ seed_table_wf ltac:(done) E) as (Hwf & _).
      unfold zlength. rewrite length_replicate. pose proof (tw_cur _ _ Hwf). lia. }
    destruct (Hpos off1 ltac:(lia)) as (m & -> & Hm).
    destruct (bss_wr_spec 4 rand m 0) as (m1 & -> & _ & X1); [lia|simpl; lia|].
    cbn [mbind res_bind]. change (0 + Z.of_nat 4) with 4.
    destruct (bss_loop_spec l _ 4 t1 off1 m1 seed_table_wf ltac:(done) E)
      as (m' & -> & X' & I & _); [rewrite (proj1 X1); lia|].
    cbn [mbind res_bind]. exists (Some m'). split; [done|]. split; [|done].
    rewrite (proj1 X'), (proj1 X1). done.
  - cbn [mbind res_bind].
    destruct (add_vars_spec _ _ _ _ _ table_wf_empty ltac:(done) E) as (Hwf & _).
    pose proof (tw_cur _ _ Hwf) as H0. destruct (malloc off1) as [m|] eqn:Em.
    + assert (Hm : zlength m = off1).
      { destruct (decide (off1 = 0)) as [->|]; [|destruct (Hpos off1) as (? & ? & ?); [lia|congruence]].
        destruct Hzero as [Hz|Hz]; rewrite Hz in Em; [discriminate|]. by injection Em as <-. }
      destruct (bss_loop_spec l _ 0 t1 off1 m table_wf_empty ltac:(done) E)
        as (m' & -> & X' & I & _); [lia|]. cbn [mbind res_bind]. exists (Some m').
      split; [done|]. split; [|done]. rewrite (proj1 X'). done.
    + assert (off1 = 0) as ->.
      { destruct (decide (off1 = 0)); [done|]. destruct (Hpos off1) as (? & ? & ?); [lia|congruence]. }
      destruct (bss_loop_zero l _ 0 t1 0 0 table_wf_empty ltac:(done) E ltac:(done)) as (-> & _).
      cbn [mbind res_bind]. exists None. done.
Qed.

(** Everything a successful compilation establishes. *)
Record compiled (malloc : Z -> option bytes) (pkt_len : Z) (l : list StreamVmInstruction)
    (vm' : StreamVm) : Prop := {
  cp_insts : m_inst_list vm' = l;
  cp_flag : m_is_compiled vm' = true;
  cp_wf : table_wf (m_flow_var_offset vm') (m_cur_var_offset vm');
  cp_max : m_cur_var_offset vm' <= svMAX_FLOW_VAR;
  cp_decl : Forall (declared (m_flow_var_offset vm')) l;
  cp_seed : existsb is_random_ins l = true -> has_seed (m_flow_var_offset vm');
  cp_names : NoDup (all_names l);
  cp_seed_free : existsb is_random_ins l = true -> seed_name ∉ all_names l;
  cp_bss : malloc_ok malloc ->
    bss_spec (m_flow_var_offset vm') (m_cur_var_offset vm') l malloc (m_bss vm');
  cp_prog : build_loop (m_flow_var_offset vm') pkt_len l ([], 0)
            = Ok (m_instructions vm', m_max_field_update vm');
  cp_field : m_max_field_update vm' <= svMAX_PACKET_OFFSET_CHANGE;
  cp_prefix : m_prefix_size vm' = calc_writable_mbuf_size (m_max_field_update vm') pkt_len
}.

Lemma compile_compiled malloc rand pkt_len vm vm' :
  is_vm_empty vm = false -> compile malloc rand pkt_len vm = Ok vm' ->
  compiled malloc pkt_len (m_inst_list vm) vm'.
Proof.
  intros He E. unfold compile in E. rewrite He in E.
  apply bind_Ok in E as ([[rv t] off] & Et & E). apply bind_Ok in E as (bss & Eb & E).
  apply bind_Ok in E as ([prog mf] & Ep & E).
  destruct (Z.gtb_spec mf svMAX_PACKET_OFFSET_CHANGE) as [|Hmf]; [discriminate|].
  injection E as <-.
  destruct (build_flow_var_table_spec _ _ _ _ Et) as (-> & Hwf & Hd & Hmax & Hs).
  destruct (build_flow_var_table_names _ _ _ _ Et) as (Hnd & Hsf).
  split; cbn; try done.
  - intros Hr. exists None. by apply Hs.
  - intros Hm. destruct (build_bss_spec malloc rand _ _ _ _ Hm Et) as (bss' & Eb' & Hb).
    assert (bss' = bss) as <- by congruence. done.
Qed.

Lemma compiled_run malloc pkt_len l vm' :
  compiled malloc pkt_len l vm' -> Forall ins_ok l ->
  forall fv e pkt, env_rel (m_flow_var_offset vm') (m_cur_var_offset vm') fv e ->
    sim (m_flow_var_offset vm') (m_cur_var_offset vm')
      (run 0 (zlength (m_instructions vm')) (m_instructions vm') fv pkt)
      (spec_list (m_flow_var_offset vm') l (e, pkt)).
Proof.
  intros [] Hok fv e pkt He.
  destruct (build_loop_spec _ _ cp_wf0 cp_max0 _ _ _ _ _ _ Hok cp_decl0 cp_seed0 cp_prog0)
    as (ops & Hprog & Hops & Hsim).
  rewrite Hprog. cbn [app]. rewrite run_encode by done. by apply Hsim.
Qed.

(** ** Writes inside the packet *)

(** One past the last packet byte an instruction updates (0: none). *)
Definition ins_end (t : var_table) (i : StreamVmInstruction) : Z :=
  match i with
  | FixChecksumIpv4 po => po + 12
  | WriteToPkt name po _ _ => match t !! name with Some v => po + m_size_bytes v | None => 0 end
  | _ => 0
  end.

Lemma build_ins_end t pktsz i mf op mf' :
  ins_ok i -> (forall n v, t !! n = Some v -> 0 < m_size_bytes v <= 8) -> pktsz < 65536 ->
  build_ins t pktsz i mf = Ok (op, mf') ->
  ins_end t i <= pktsz \/ ins_end t i = 0.
Proof.
  intros Hok Ht Hp E. destruct i as [po|name size op' init mn mx|name cmin cmax pmin pmax lim fl|name po add big];
    cbn [build_ins ins_end ins_ok] in *; try (by right).
  - destruct (Z.gtb_spec (po + IPV4_HDR_LEN) pktsz); [discriminate|]. unfold IPV4_HDR_LEN in *. lia.
  - destruct (t !! name); [|discriminate]. destruct (Z.gtb_spec (po + m_size_bytes v) pktsz); [discriminate|]. lia.
Qed.

Lemma add_field_cnt_max x mf : 0 <= x < 65536 -> add_field_cnt x mf = Z.max mf x.
Proof.
  intros. unfold add_field_cnt. rewrite u16_id by done. destruct (Z.gtb_spec x mf); lia.
Qed.

Lemma build_ins_field t pktsz i mf op mf' :
  ins_ok i -> (forall n v, t !! n = Some v -> 0 < m_size_bytes v <= 8) -> pktsz < 65536 ->
  0 <= mf -> build_ins t pktsz i mf = Ok (op, mf') -> mf' = Z.max mf (ins_end t i).
Proof.
  intros Hok Ht Hp Hmf E. destruct i as [po|name size op' init mn mx|name cmin cmax pmin pmax lim fl|name po add big];
    cbn [build_ins ins_end ins_ok] in *.
  - destruct (Z.gtb_spec (po + IPV4_HDR_LEN) pktsz); [discriminate|]. injection E as _ <-.
    unfold IPV4_HDR_LEN, fits16 in *. apply add_field_cnt_max. lia.
  - destruct (width_of_size size); [|injection E as _ <-; lia].
    apply bind_Ok in E as (o & _ & E). injection E as _ <-. lia.
  - apply bind_Ok in E as (o & _ & E). destruct (is_unlimited_flows fl); injection E as _ <-; lia.
  - destruct (t !! name) as [v|] eqn:Hn; [|discriminate]. specialize (Ht _ _ Hn).
    destruct (Z.gtb_spec (po + m_size_bytes v) pktsz); [discriminate|].
    apply bind_Ok in E as (o & _ & E). unfold fits16 in *. rewrite add_field_cnt_max in E by lia.
    destruct (width_of_size _); by injection E as _ <-.
Qed.

(** The maximum is attained, and bounds every instruction. *)
Lemma build_loop_field t pktsz l : forall prog mf prog' mf',
  Forall ins_ok l -> (forall n v, t !! n = Some v -> 0 < m_size_bytes v <= 8) -> pktsz < 65536 ->
  0 <= mf -> build_loop t pktsz l (prog, mf) = Ok (prog', mf') ->
  mf <= mf' /\ Forall (fun i => ins_end t i <= mf') l /\
  Forall (fun i => ins_end t i <= pktsz \/ ins_end t i = 0) l /\
  (mf' = mf \/ exists i, i ∈ l /\ ins_end t i = mf').
Proof.
  induction l as [|i l IH]; intros prog mf prog' mf' Hok Ht Hp Hmf E; cbn [build_loop] in E.
  - injection E as <- <-. split_and!; [lia|constructor|constructor|by left].
  - apply bind_Ok in E as ([op mf1] & E1 & E). inversion Hok; subst.
    pose proof (build_ins_field _ _ _ _ _ _ ltac:(done) Ht Hp Hmf E1) as Hmf1.
    pose proof (build_ins_end _ _ _ _ _ _ ltac:(done) Ht Hp E1) as Hend.
    assert (Hpos : 0 <= mf1) by lia.
    destruct (IH _ _ _ _ ltac:(done) Ht Hp Hpos E) as (H1' & H2' & H3' & H4).
    split_and!; [lia|constructor; [lia|done]|by constructor|].
    destruct H4 as [H4|(j & Hj & H4)].
    + destruct (Z.max_spec mf (ins_end t i)) as [[_ Hm]|[_ Hm]].
      * right. exists i. split; [apply list_elem_of_here|lia].
      * left. lia.
    + right. exists j. split; [by apply list_elem_of_further|done].
Qed.

Lemma table_sizes t cur n v : table_wf t cur -> t !! n = Some v -> 0 < m_size_bytes v <= 8.
Proof. intros Hwf Hn. destruct (tw_in _ _ Hwf _ _ Hn) as (_ & _ & [|[|[|]]]); lia. Qed.

(** ** Running on a packet of the compiled size *)

Definition touches (t : var_table) (i : StreamVmInstruction) (b : Z) : Prop :=
  match i with
  | FixChecksumIpv4 po => po + 10 <= b < po + 12
  | WriteToPkt name po _ _ => exists v, t !! name = Some v /\ po <= b < po + m_size_bytes v
  | _ => False
  end.

(** Every fixed-up header is complete in the packet and the program does not
    write the byte that holds its length. *)
Definition hdr_safe (t : var_table) (l : list StreamVmInstruction) (pkt : bytes) : Prop :=
  forall po, FixChecksumIpv4 po ∈ l ->
    ip_header pkt po /\ forall i, i ∈ l -> ~ touches t i po.

(** The divisor of a random variable is not zero. *)
Definition rand_ok (i : StreamVmInstruction) : Prop :=
  match i with
  | FlowMan _ size FLOW_VAR_OP_RANDOM _ mn mx =>
      forall w, width_of_size size = Some w -> rand_divisor w (uw w mn) (uw w mx) <> 0
  | _ => True
  end.

Record pkt_state (t : var_table) (l : list StreamVmInstruction) (pkt_len : Z)
    (e : env) (pkt : bytes) : Prop := {
  ps_len : zlength pkt = pkt_len;
  ps_bytes : bytes_ok pkt;
  ps_hdr : hdr_safe t l pkt;
  ps_env : forall n, is_Some (t !! n) -> is_Some (e !! n)
}.

Lemma hdr_safe_same_except t l i pkt pkt' f len :
  hdr_safe t l pkt -> i ∈ l -> same_except pkt pkt' f len -> bytes_ok pkt' ->
  (forall b, f <= b < f + len -> touches t i b) -> hdr_safe t l pkt'.
Proof.
  intros Hh Hi [Hz He] Hb Ht po Hpo. destruct (Hh po Hpo) as [[H1 H2 H3 H4] Hn].
  split; [|done]. assert (Hbyte : byte_at pkt' po = byte_at pkt po).
  { apply He; [done|]. destruct (decide (f <= po < f + len)) as [Hin|]; [|lia].
    exfalso. by apply (Hn i Hi), Ht. }
  split; [done|done|unfold ihl in *; by rewrite Hbyte|].
  unfold ihl in *. rewrite Hbyte. lia.
Qed.

Lemma field_bytes_ok n big v : bytes_ok (field_bytes n big v).
Proof.
  unfold field_bytes, be_split. destruct big; [|apply le_split_ok].
  apply Forall_rev, le_split_ok.
Qed.

Lemma length_field_bytes n big v : length (field_bytes n big v) = n.
Proof. unfold field_bytes, be_split. destruct big; rewrite ?length_rev; apply length_le_split. Qed.

Lemma splice_same_except m off new :
  0 <= off -> off + Z.of_nat (length new) <= zlength m ->
  same_except m (splice m (Z.to_nat off) new) off (Z.of_nat (length new)).
Proof.
  intros H0 Hl. unfold zlength in Hl. split; [unfold zlength; by rewrite length_splice by lia|].
  intros i Hi Ho. unfold byte_at. rewrite splice_lookup by lia.
  rewrite decide_False by lia. done.
Qed.

Lemma insert_is_Some_env (e : env) n x n' : is_Some (e !! n') -> is_Some (<[n := x]> e !! n').
Proof. intros. rewrite lookup_insert_is_Some'. auto. Qed.

Lemma spec_ins_safe t cur l pkt_len i e pkt :
  table_wf t cur -> Forall (declared t) l -> i ∈ l -> rand_ok i ->
  (is_random_ins i = true -> is_Some (t !! seed_name)) ->
  ins_ok i -> ins_end t i <= pkt_len -> 
  (match i with WriteToPkt name _ _ _ => is_Some (t !! name) | _ => True end) ->
  pkt_state t l pkt_len e pkt ->
  exists e' pkt', spec_ins t i (e, pkt) = Ok (e', pkt') /\ pkt_state t l pkt_len e' pkt'.
Proof.
  intros Hwf Hd Hi Hr Hseed Hok Hend Hname [Hl Hb Hh He].
  assert (Hde : declared t i) by (rewrite Forall_forall in Hd; by apply Hd).
  assert (Hlk : forall n, is_Some (t !! n) -> exists x, lookup_env e n = Ok x).
  { intros n Hn. destruct (He n Hn) as [x Hx]. exists x. unfold lookup_env. by rewrite Hx. }
  destruct i as [po|name size k init mn mx|name cmin cmax pmin pmax lim fl|name po add big];
    cbn [spec_ins].
  - destruct (Hh po Hi) as [Hip _].
    destruct (IP_updateCheckSum_spec pkt po Hip) as (pkt' & h & -> & Hs & Hip' & _).
    exists e, pkt'. split; [done|]. split; [by rewrite (proj1 Hs)|apply Hip'| |done].
    eapply (hdr_safe_same_except t l (FixChecksumIpv4 po)); [done..|apply Hip'|].
    unfold o_Checksum. simpl. lia.
  - destruct (declared_flow t _ _ _ _ _ _ Hde) as (w & o & -> & Hw & [iv Hv]). rewrite Hw.
    destruct (Hlk name) as (x & ->); [by eexists|]. cbn [mbind res_bind].
    destruct k.
    1,2: eexists _, pkt; split; [done|]; split; try done;
         intros n Hn; apply insert_is_Some_env; by apply He.
    destruct (Hlk seed_name (Hseed eq_refl)) as (seed & ->). cbn [mbind res_bind].
    destruct (spec_rand w seed) as [seed' r]. cbv zeta.
    destruct (Z.eqb_spec (rand_divisor w (uw w mn) (uw w mx)) 0) as [Hz|_];
      [by apply (Hr w Hw) in Hz|].
    eexists _, pkt; split; [done|]; split; try done.
    intros n Hn. do 2 apply insert_is_Some_env. by apply He.
  - destruct (declared_client t _ _ _ _ _ _ _ Hde) as (o & [iv1 H1] & [iv2 H2] & [iv3 H3]).
    destruct (Hlk (name +:+ ".ip")) as (ip & ->); [by eexists|].
    destruct (Hlk (name +:+ ".port")) as (port & ->); [by eexists|].
    destruct (Hlk (name +:+ ".flow_limit")) as (id & ->); [by eexists|].
    cbn [mbind res_bind].
    destruct (if is_unlimited_flows fl then _ else _) as [[ip' port'] id'].
    eexists _, pkt; split; [done|]; split; try done.
    intros n Hn. do 3 apply insert_is_Some_env. by apply He.
  - destruct Hname as [v Hv]. rewrite Hv. cbn [ins_end] in Hend. rewrite Hv in Hend.
    destruct (tw_in _ _ Hwf _ _ Hv) as (_ & _ & Hsz).
    destruct (width_of_valid _ Hsz) as (w & -> & Ew & _).
    destruct (Hlk name) as (x & ->); [by eexists|]. cbn [mbind res_bind].
    cbn [ins_ok] in Hok. unfold fits16 in Hok.
    assert (Hrng : in_range (wbytes w) pkt po) by (unfold in_range; lia).
    rewrite decide_True by done. set (fb := field_bytes _ _ _).
    assert (Hlen : length fb = wbytes w) by apply length_field_bytes.
    assert (Hse : same_except pkt (splice pkt (Z.to_nat po) fb) po (m_size_bytes v)).
    { rewrite <- Ew, <- Hlen. apply splice_same_except; lia. }
    exists e, (splice pkt (Z.to_nat po) fb). split; [done|].
    assert (Hb' : bytes_ok (splice pkt (Z.to_nat po) fb))
      by (apply splice_ok; [done|apply field_bytes_ok]).
    split; [by rewrite (proj1 Hse)|done| |done].
    eapply (hdr_safe_same_except t l (WriteToPkt name po add big)); [done..|].
    intros b Hbb. simpl. by exists v.
Qed.

Definition name_known (t : var_table) (i : StreamVmInstruction) : Prop :=
  match i with WriteToPkt name _ _ _ => is_Some (t !! name) | _ => True end.

Lemma build_loop_names t pktsz l : forall s s',
  build_loop t pktsz l s = Ok s' -> Forall (name_known t) l.
Proof.
  induction l as [|i l IH]; intros [prog mf] s' E; cbn [build_loop] in E; [constructor|].
  apply bind_Ok in E as ([op mf1] & E1 & E). constructor; [|by eapply IH].
  destruct i; try done. cbn [build_ins name_known] in *. destruct (t !! m_flow_var_name); [done|discriminate].
Qed.

Lemma spec_list_safe t cur L pkt_len : forall l e pkt,
  table_wf t cur -> Forall (declared t) L -> 0 <= pkt_len ->
  (existsb is_random_ins L = true -> is_Some (t !! seed_name)) ->
  Forall ins_ok L -> Forall rand_ok L -> Forall (name_known t) L ->
  Forall (fun i => ins_end t i <= pkt_len \/ ins_end t i = 0) L ->
  l ⊆ L -> pkt_state t L pkt_len e pkt ->
  exists e' pkt', spec_list t l (e, pkt) = Ok (e', pkt') /\ pkt_state t L pkt_len e' pkt'.
Proof.
  intros l. induction l as [|i l IH]; intros e pkt Hwf Hd Hp Hs Hok Hr Hn Hend Hsub Hst;
    cbn [spec_list]; [by exists e, pkt|].
  assert (Hi : i ∈ L) by (apply Hsub, list_elem_of_here).
  rewrite Forall_forall in Hok, Hr, Hn, Hend.
  destruct (spec_ins_safe t cur L pkt_len i e pkt Hwf Hd Hi (Hr _ Hi)) as (e1 & pkt1 & -> & Hst1).
  - intros Hri. apply Hs. apply existsb_exists. exists i. split; [by apply list_elem_of_In|done].
  - by apply Hok.
  - destruct (Hend _ Hi); lia.
  - by apply Hn.
  - done.
  - assert (Hl : l ⊆ L) by (intros j Hj; by apply Hsub, list_elem_of_further).
    cbn [mbind res_bind]. apply IH; try done; by rewrite Forall_forall.
Qed.

(** The hypotheses under which a compiled program cannot fault on [pkt]. *)
Record runnable (l : list StreamVmInstruction) (vm' : StreamVm) (pkt_len : Z) (pkt : bytes)
  : Prop := {
  rn_ok : Forall ins_ok l;
  rn_rand : Forall rand_ok l;
  rn_len : zlength pkt = pkt_len;
  rn_max : pkt_len < 65536;
  rn_bytes : bytes_ok pkt;
  rn_hdr : hdr_safe (m_flow_var_offset vm') l pkt
}.

Lemma compiled_spec_safe malloc pkt_len l vm' pkt e :
  compiled malloc pkt_len l vm' -> runnable l vm' pkt_len pkt ->
  (forall n, is_Some (m_flow_var_offset vm' !! n) -> is_Some (e !! n)) ->
  exists e' pkt', spec_list (m_flow_var_offset vm') l (e, pkt) = Ok (e', pkt') /\
    pkt_state (m_flow_var_offset vm') l pkt_len e' pkt'.
Proof.
  intros [] [] He.
  destruct (build_loop_field _ _ _ _ _ _ _ rn_ok0 (fun n v => table_sizes _ _ n v cp_wf0)
    rn_max0 ltac:(done) cp_prog0) as (_ & _ & Hend & _).
  eapply (spec_list_safe _ _ l pkt_len l); try done.
  - rewrite <- rn_len0. apply zlength_nonneg.
  - intros Hr. destruct (cp_seed0 Hr) as [i Hi]. by eexists.
  - by eapply build_loop_names.
Qed.

Lemma env_rel_env t cur m e n : env_rel t cur m e -> is_Some (t !! n) -> is_Some (e !! n).
Proof. intros [_ He] [v Hv]. destruct (He _ _ Hv) as (x & Hx & _). by eexists. Qed.

(** One packet of a runnable VM. *)
Lemma compiled_packet malloc pkt_len l vm' pkt fv e :
  compiled malloc pkt_len l vm' -> runnable l vm' pkt_len pkt ->
  env_rel (m_flow_var_offset vm') (m_cur_var_offset vm') fv e ->
  exists fv' e' pkt',
    run 0 (zlength (m_instructions vm')) (m_instructions vm') fv pkt = Ok (fv', pkt') /\
    spec_list (m_flow_var_offset vm') l (e, pkt) = Ok (e', pkt') /\
    env_rel (m_flow_var_offset vm') (m_cur_var_offset vm') fv' e' /\
    pkt_state (m_flow_var_offset vm') l pkt_len e' pkt'.
Proof.
  intros Hc Hr He.
  destruct (compiled_spec_safe _ _ _ _ _ e Hc Hr (fun n => env_rel_env _ _ _ _ n He))
    as (e' & pkt' & Es & Hst).
  pose proof (compiled_run _ _ _ _ Hc (rn_ok _ _ _ _ Hr) fv e pkt He) as Hsim.
  rewrite Es in Hsim. destruct Hsim as (fv' & E & He'). exists fv', e', pkt'. done.
Qed.

(** ** Streams of packets: each starts from the same packet *)

Fixpoint send (k : nat) (prog pkt fv : bytes) : res (bytes * list bytes) :=
  match k with
  | O => Ok (fv, [])
  | S k =>
      '(fv, p) ← alloc_node_with_vm prog (zlength prog) fv pkt [];
      '(fv, ps) ← send k prog pkt fv;
      Ok (fv, p :: ps)
  end.

(** A property of the environment that every run of the program advances. *)
Lemma send_inv malloc pkt_len l vm' pkt (Q : nat -> env -> Prop) :
  compiled malloc pkt_len l vm' -> runnable l vm' pkt_len pkt ->
  (forall j e e' pkt pkt', Q j e ->
     spec_list (m_flow_var_offset vm') l (e, pkt) = Ok (e', pkt') -> Q (S j) e') ->
  forall k j fv e, env_rel (m_flow_var_offset vm') (m_cur_var_offset vm') fv e -> Q j e ->
    exists fv' ps e', send k (m_instructions vm') pkt fv = Ok (fv', ps) /\ length ps = k /\
      env_rel (m_flow_var_offset vm') (m_cur_var_offset vm') fv' e' /\ Q (j + k)%nat e'.
Proof.
  intros Hc Hr HQ k. induction k as [|k IH]; intros j fv e He Hx; cbn [send].
  - exists fv, [], e. by rewrite Nat.add_0_r.
  - destruct (compiled_packet _ _ _ _ _ _ _ Hc Hr He) as (fv1 & e1 & pkt1 & E & Es & He1 & _).
    unfold alloc_node_with_vm. rewrite E. cbn [mbind res_bind].
    destruct (IH (S j) fv1 e1 He1 (HQ _ _ _ _ _ Hx Es)) as (fv' & ps & e' & -> & Hl & He' & Hx').
    cbn [mbind res_bind]. exists fv', ((pkt1 ++ []) :: ps), e'.
    split; [done|]. split; [simpl; by rewrite Hl|]. split; [done|].
    by replace (j + S k)%nat with (S j + k)%nat by lia.
Qed.

(** ** The claims *)

(** C1: Compilation is correct.  A compiled program, interpreted byte by byte on
    any flow-variable memory of the compiled size, does to the named variables and
    to the packet what the instruction list says, instruction by instruction:
    same packet, same variable values, and a fault exactly when the list has one. *)
Theorem compile_refines (malloc : Z -> option bytes) (rand pkt_len : Z) (vm vm' : StreamVm)
    (fv pkt : bytes) :
  is_vm_empty vm = false -> compile malloc rand pkt_len vm = Ok vm' ->
  Forall ins_ok (m_inst_list vm) -> zlength fv = m_cur_var_offset vm' ->
  let t := m_flow_var_offset vm' in
  match spec_list t (m_inst_list vm) (mem_env t fv, pkt) with
  | Ok (e, pkt') => exists fv',
      run 0 (zlength (m_instructions vm')) (m_instructions vm') fv pkt = Ok (fv', pkt') /\
      env_rel t (m_cur_var_offset vm') fv' e
  | Err f => run 0 (zlength (m_instructions vm')) (m_instructions vm') fv pkt = Err f
  end.
Proof.
  intros He E Hok Hfv t. pose proof (compile_compiled _ _ _ _ _ He E) as Hc.
  exact (compiled_run _ _ _ _ Hc Hok fv _ pkt (mem_env_rel _ _ _ (cp_wf _ _ _ _ Hc) Hfv)).
Qed.

(** The memory layout of a compiled VM.  Variables lie inside a memory of at
    most 64 bytes and never overlap, and the initial memory holds, at the place
    the table gives, the value one step before the initial value of every flow
    variable and the start of every client range. *)
Theorem compile_memory (malloc : Z -> option bytes) (rand pkt_len : Z) (vm vm' : StreamVm) :
  is_vm_empty vm = false -> compile malloc rand pkt_len vm = Ok vm' -> malloc_ok malloc ->
  table_wf (m_flow_var_offset vm') (m_cur_var_offset vm') /\ m_cur_var_offset vm' <= 64 /\
  Forall (declared (m_flow_var_offset vm')) (m_inst_list vm) /\
  bss_spec (m_flow_var_offset vm') (m_cur_var_offset vm') (m_inst_list vm) malloc (m_bss vm').
Proof.
  intros He E Hm. pose proof (compile_compiled _ _ _ _ _ He E) as []. by auto.
Qed.

(** A compiled VM runs.  On every packet of the compiled size whose fixed-up
    IPv4 headers are complete and keep their length byte, and with no random
    range whose divisor is zero, the program succeeds, keeps the sizes, and leaves
    a packet on which the same holds: so it never faults, on any number of
    packets. *)
Theorem compiled_vm_safe (malloc : Z -> option bytes) (rand pkt_len : Z) (vm vm' : StreamVm)
    (fv pkt : bytes) :
  is_vm_empty vm = false -> compile malloc rand pkt_len vm = Ok vm' ->
  runnable (m_inst_list vm) vm' pkt_len pkt -> zlength fv = m_cur_var_offset vm' ->
  exists fv' pkt',
    run 0 (zlength (m_instructions vm')) (m_instructions vm') fv pkt = Ok (fv', pkt') /\
    zlength fv' = m_cur_var_offset vm' /\ runnable (m_inst_list vm) vm' pkt_len pkt'.
Proof.
  intros He E Hr Hfv. pose proof (compile_compiled _ _ _ _ _ He E) as Hc.
  destruct (compiled_packet _ _ _ _ _ _ _ Hc Hr (mem_env_rel _ _ _ (cp_wf _ _ _ _ Hc) Hfv))
    as (fv' & e' & pkt' & Erun & _ & He' & Hst).
  exists fv', pkt'. split; [done|]. split; [apply He'|]. destruct Hr, Hst. by split.
Qed.

(** The value of a variable after [k + 1] packets. *)
Definition walk (op : flow_var_op_e) (init mn mx k : Z) : Z :=
  match op with
  | FLOW_VAR_OP_INC => mn + (init - mn + k) mod (mx - mn + 1)
  | FLOW_VAR_OP_DEC => mx - (mx - init + k) mod (mx - mn + 1)
  | FLOW_VAR_OP_RANDOM => init
  end.

Lemma mod_succ a n : 0 < n -> (a + 1) mod n = if a mod n =? n - 1 then 0 else a mod n + 1.
Proof.
  intros Hn. pose proof (Z.mod_pos_bound a n Hn). pose proof (Z.div_mod a n ltac:(lia)) as Ha.
  destruct (Z.eqb_spec (a mod n) (n - 1)).
  - symmetry. apply (Z.mod_unique_pos _ _ (a / n + 1)); nia.
  - symmetry. apply (Z.mod_unique_pos _ _ (a / n)); nia.
Qed.

Lemma uw_id w x : 0 <= x < wmax w -> uw w x = x.
Proof. intros. rewrite uw_eq. by apply Z.mod_small. Qed.

Lemma walk_range op init mn mx k : mn <= init <= mx -> mn <= walk op init mn mx k <= mx.
Proof.
  intros. destruct op; cbn [walk]; [| |lia].
  - pose proof (Z.mod_pos_bound (init - mn + k) (mx - mn + 1)). lia.
  - pose proof (Z.mod_pos_bound (mx - init + k) (mx - mn + 1)). lia.
Qed.

Lemma walk_step w op init mn mx k :
  op <> FLOW_VAR_OP_RANDOM -> 0 <= mn <= init -> init <= mx < wmax w ->
  walk op init mn mx (k + 1) = spec_step w op mn mx (walk op init mn mx k).
Proof.
  intros Hop H1 H2. pose proof (walk_range op init mn mx k ltac:(lia)) as Hr.
  destruct op; [..|done]; cbn [walk spec_step] in *; unfold spec_inc, spec_dec;
    rewrite (uw_id w mn), (uw_id w mx) by lia; rewrite Z.add_assoc, mod_succ by lia.
  - set (a := (init - mn + k) mod (mx - mn + 1)) in *.
    destruct (Z.eqb_spec a (mx - mn + 1 - 1)), (Z.eqb_spec (mn + a) mx); try lia.
    rewrite uw_id; lia.
  - set (a := (mx - init + k) mod (mx - mn + 1)) in *.
    destruct (Z.eqb_spec a (mx - mn + 1 - 1)), (Z.eqb_spec (mx - a) mn); try lia.
    rewrite uw_id; lia.
Qed.

Lemma walk_init w op init mn mx :
  op <> FLOW_VAR_OP_RANDOM -> 0 <= mn <= init -> init <= mx < wmax w ->
  uw w (get_bss_init_value op init mn mx) = walk op init mn mx (-1).
Proof.
  intros Hop H1 H2. assert (Hw : wmax w <= 18446744073709551616) by (unfold wmax; by destruct w).
  destruct op; [..|done]; cbn [walk get_bss_init_value].
  - destruct (Z.eqb_spec init mn) as [->|].
    + rewrite uw_id by lia. replace (mn - mn + -1) with (mx - mn + (-1) * (mx - mn + 1)) by lia.
      rewrite Z.mod_add, Z.mod_small by lia. lia.
    + rewrite u64_id by lia. rewrite uw_id by lia. rewrite Z.mod_small by lia. lia.
  - destruct (Z.eqb_spec init mx) as [->|].
    + rewrite uw_id by lia. replace (mx - mx + -1) with (mx - mn + (-1) * (mx - mn + 1)) by lia.
      rewrite Z.mod_add, Z.mod_small by lia. lia.
    + rewrite u64_id by lia. rewrite uw_id by lia. rewrite Z.mod_small by lia. lia.
Qed.

(** C38: Flow variables walk their range. Take a compiled VM, with memory, and a packet of
    the stream's length below 65536 on which it can run: the members of the instructions are
    words of their width, the range of a random variable can be drawn from (its divisor is
    not zero), and every IP header whose checksum is fixed up lies in the packet and is not
    written at the byte that holds its length. Then the VM runs on any number of packets in
    a row, and in its memory, after [k + 1] of them, an incremented (decremented) variable
    with its initial value in its range holds this value moved up (down) by [k] in the cycle
    of the range: after the first packet it holds the initial value, and it never leaves the
    range, whatever the other instructions of such a program are. (What the packets carry is
    the business of the instructions that write variables, see [compile_refines].) *)
Theorem flow_var_walk (malloc : Z -> option bytes) (rand pkt_len : Z) (vm vm' : StreamVm)
    (bss pkt : bytes) (name : string) (size : Z) (w : width) (op : flow_var_op_e)
    (init mn mx : Z) (k : nat) :
  is_vm_empty vm = false -> compile malloc rand pkt_len vm = Ok vm' -> malloc_ok malloc ->
  runnable (m_inst_list vm) vm' pkt_len pkt -> m_bss vm' = Some bss ->
  FlowMan name size op init mn mx ∈ m_inst_list vm -> width_of_size size = Some w ->
  op <> FLOW_VAR_OP_RANDOM -> 0 <= mn <= init -> init <= mx < wmax w ->
  exists fv ps v, send (S k) (m_instructions vm') pkt bss = Ok (fv, ps) /\ length ps = S k /\
    m_flow_var_offset vm' !! name = Some v /\
    ld (wbytes w) fv (m_offset v) = Ok (walk op init mn mx (Z.of_nat k)) /\
    mn <= walk op init mn mx (Z.of_nat k) <= mx.
Proof.
  intros He E Hm Hr Hb Hin Hw Hop H1 H2.
  pose proof (compile_compiled _ _ _ _ _ He E) as Hc.
  pose proof (cp_bss _ _ _ _ Hc Hm) as Hbss. rewrite Hb in Hbss. destruct Hbss as [Hlen Hinit].
  rewrite Forall_forall in Hinit. destruct (Hinit _ Hin) as (v & Hv & Hl).
  pose proof (mem_env_rel _ _ _ (cp_wf _ _ _ _ Hc) Hlen) as He0.
  pose proof (cp_decl _ _ _ _ Hc) as Hd. rewrite Forall_forall in Hd.
  destruct (declared_flow _ _ _ _ _ _ _ (Hd _ Hin)) as (w' & o & -> & Hw' & [i Hv']).
  assert (w' = w) as -> by congruence. assert (v = mkVmFlowVarRec o i (Z.of_nat (wbytes w))) as -> by congruence.
  cbn [m_size_bytes m_offset] in *. rewrite <- uw_eq, (walk_init w) in Hl by done.
  pose (P := fun j : nat => walk op init mn mx (Z.of_nat j - 1)).
  destruct (send_inv _ _ _ _ pkt (fun j e => e !! name = Some (P j)) Hc Hr) with
    (k := S k) (j := 0%nat) (fv := bss) (e := mem_env (m_flow_var_offset vm') bss)
    as (fv & ps & e' & Es & Hps & He' & Hx).
  - intros j e e' p p' Hx Es.
    replace (P (S j)) with (spec_step w op mn mx (P j)).
    + eapply spec_list_var; [exact Es| | |done..]; apply Hc.
    + unfold P. rewrite <- (walk_step w) by done. f_equal. lia.
  - done.
  - eapply env_rel_lookup; [done..|]. cbn [m_size_bytes m_offset]. by rewrite Hl.
  - exists fv, ps, (mkVmFlowVarRec o i (Z.of_nat (wbytes w))). split_and!; try done.
    + destruct (er_val _ _ _ _ He' _ _ Hv) as (x & Hx' & Hld). cbn [m_size_bytes m_offset] in *.
      rewrite Nat2Z.id in Hld. rewrite Hld. f_equal. rewrite Hx in Hx'. injection Hx' as <-.
      unfold P. f_equal. lia.
    + apply walk_range; lia.
    + apply walk_range; lia.
Qed.

(** ** Client variables *)

(** Address, port and flow number after [k + 1] packets: addresses run first,
    then ports; a positive limit restarts after that many flows. *)
Definition client_walk (cmin cmax pmin pmax lim k : Z) : Z * Z * Z :=
  let j := if lim =? 0 then k else k mod lim in
  let n := cmax - cmin + 1 in
  (cmin + j mod n, pmin + (j / n) mod (pmax - pmin + 1), if lim =? 0 then 0 else j + 1).

Record client_range (cmin cmax pmin pmax lim : Z) : Prop := {
  cr_ip : 0 < cmin <= cmax; cr_ip_max : cmax < 4294967295;
  cr_port : 0 <= pmin <= pmax; cr_port_max : pmax < 65535;
  cr_lim : 0 <= lim < 4294967295
}.

Lemma div_succ a n : 0 < n -> (a + 1) / n = if a mod n =? n - 1 then a / n + 1 else a / n.
Proof.
  intros Hn. pose proof (mod_succ a n Hn) as Hm. pose proof (Z.div_mod a n ltac:(lia)).
  pose proof (Z.div_mod (a + 1) n ltac:(lia)). pose proof (Z.mod_pos_bound a n Hn).
  destruct (Z.eqb_spec (a mod n) (n - 1)); nia.
Qed.

Lemma client_walk_step cmin cmax pmin pmax lim k :
  client_range cmin cmax pmin pmax lim -> 0 <= k ->
  spec_client_limit pmin pmax cmin cmax lim (client_walk cmin cmax pmin pmax lim k)
  = client_walk cmin cmax pmin pmax lim (k + 1).
Proof.
  intros [H1 H2 H3 H4 H5] Hk. unfold client_walk, spec_client_limit.
  set (n := cmax - cmin + 1). set (m := pmax - pmin + 1).
  assert (Hnext : forall j, 0 <= j ->
    (if u32 (cmin + j mod n + 1) >? cmax
     then (cmin, if u16 (pmin + (j / n) mod m + 1) >? pmax then pmin
                 else u16 (pmin + (j / n) mod m + 1))
     else (u32 (cmin + j mod n + 1), pmin + (j / n) mod m))
    = (cmin + (j + 1) mod n, pmin + ((j + 1) / n) mod m)).
  { intros j Hj. pose proof (Z.mod_pos_bound j n ltac:(lia)).
    pose proof (Z.mod_pos_bound (j / n) m ltac:(lia)).
    rewrite (mod_succ j n), (div_succ j n) by lia.
    rewrite u32_id, u16_id by lia.
    destruct (Z.gtb_spec (cmin + j mod n + 1) cmax), (Z.eqb_spec (j mod n) (n - 1));
      try lia; [|f_equal; lia].
    rewrite (mod_succ (j / n) m) by lia.
    destruct (Z.gtb_spec (pmin + (j / n) mod m + 1) pmax), (Z.eqb_spec ((j / n) mod m) (m - 1));
      try lia; f_equal; lia. }
  destruct (Z.eqb_spec lim 0) as [->|Hlim].
  - rewrite Hnext by lia. done.
  - pose proof (Z.mod_pos_bound k lim ltac:(lia)). rewrite Hnext by lia.
    rewrite u32_id by lia. rewrite (mod_succ k lim) by lia.
    destruct (Z.gtb_spec (k mod lim + 1 + 1) lim), (Z.eqb_spec (k mod lim) (lim - 1)); try lia.
    + rewrite Z.mod_0_l, Z.div_0_l, Z.mod_0_l by lia. do 2 f_equal; lia.
    + done.
Qed.

Lemma client_walk_init cmin cmax pmin pmax lim :
  client_range cmin cmax pmin pmax lim ->
  spec_client_limit pmin pmax cmin cmax lim (cmin - 1, pmin, 0)
  = client_walk cmin cmax pmin pmax lim 0.
Proof.
  intros [H1 H2 H3 H4 H5]. unfold client_walk, spec_client_limit.
  replace (if lim =? 0 then 0 else 0 mod lim) with 0
    by (destruct (Z.eqb_spec lim 0); [done|by rewrite Z.mod_0_l]).
  rewrite Z.mod_0_l, Z.div_0_l, Z.mod_0_l by lia. rewrite u32_id by lia.
  destruct (Z.gtb_spec (cmin - 1 + 1) cmax); [lia|].
  destruct (Z.eqb_spec lim 0); [do 2 f_equal; lia|].
  change (u32 (0 + 1)) with 1. destruct (Z.gtb_spec 1 lim); [lia|]. do 2 f_equal; lia.
Qed.

(** A client variable enumerates its flows.  With a range that stays below
    the largest address and port, after [k + 1] packets the address is [k] steps
    up the address range, the port moves once per full round of addresses, and
    with a flow limit the sequence restarts after exactly that many flows. *)
Theorem client_var_walk (malloc : Z -> option bytes) (rand pkt_len : Z) (vm vm' : StreamVm)
    (bss pkt : bytes) (name : string) (cmin cmax pmin pmax lim fl : Z) (k : nat) :
  is_vm_empty vm = false -> compile malloc rand pkt_len vm = Ok vm' -> malloc_ok malloc ->
  runnable (m_inst_list vm) vm' pkt_len pkt -> m_bss vm' = Some bss ->
  FlowClient name cmin cmax pmin pmax lim fl ∈ m_inst_list vm -> is_unlimited_flows fl = false ->
  client_range cmin cmax pmin pmax lim ->
  exists fv ps o, send (S k) (m_instructions vm') pkt bss = Ok (fv, ps) /\ length ps = S k /\
    client_at (m_flow_var_offset vm') name o /\
    let '(ip, port, id) := client_walk cmin cmax pmin pmax lim (Z.of_nat k) in
    ld32 fv (o + cur_ip) = Ok ip /\ ld16 fv (o + cur_port) = Ok port /\
    ld32 fv (o + cur_flow_id) = Ok id.
Proof.
  intros He E Hm Hr Hb Hin Hfl Hrange.
  pose proof (compile_compiled _ _ _ _ _ He E) as Hc.
  pose proof (cp_bss _ _ _ _ Hc Hm) as Hbss. rewrite Hb in Hbss. destruct Hbss as [Hlen Hinit].
  rewrite Forall_forall in Hinit. destruct (Hinit _ Hin) as (I1 & I2 & I3).
  pose proof (mem_env_rel _ _ _ (cp_wf _ _ _ _ Hc) Hlen) as He0.
  pose proof (cp_decl _ _ _ _ Hc) as Hd. rewrite Forall_forall in Hd.
  destruct (declared_client _ _ _ _ _ _ _ _ (Hd _ Hin)) as (o & Hat).
  pose (P := fun j : nat => match j with
    | O => (cmin - 1, pmin, 0) | S j => client_walk cmin cmax pmin pmax lim (Z.of_nat j) end).
  destruct (send_inv _ _ _ _ pkt (fun j e => client_of name e = Ok (P j)) Hc Hr) with
    (k := S k) (j := 0%nat) (fv := bss) (e := mem_env (m_flow_var_offset vm') bss)
    as (fv & ps & e' & Es & Hps & He' & Hx).
  - intros j e e' p p' Hx Es.
    erewrite (spec_list_client _ _ _ _ _ _ name) by (exact Es || exact Hin || exact Hx || apply Hc).
    unfold spec_client. rewrite Hfl. f_equal. destruct j as [|j]; cbn [P].
    + by apply client_walk_init.
    + rewrite client_walk_step by (done || lia). f_equal. lia.
  - done.
  - destruct Hrange as [R1 R2 R3 R4 R5].
    assert (Hlk : forall n x, holds (m_flow_var_offset vm') bss n x ->
      forall v, m_flow_var_offset vm' !! n = Some v ->
      lookup_env (mem_env (m_flow_var_offset vm') bss) n = Ok (x mod 256 ^ m_size_bytes v)).
    { intros n x (v & Hv & Hl) v' Hv'. assert (v' = v) as -> by congruence. unfold lookup_env.
      by rewrite (env_rel_lookup _ _ _ _ _ _ _ He0 Hv Hl). }
    destruct Hat as ([i1 A1] & [i2 A2] & [i3 A3]).
    unfold client_of. rewrite (Hlk _ _ I1 _ A1), (Hlk _ _ I2 _ A2), (Hlk _ _ I3 _ A3).
    cbn [mbind res_bind P m_size_bytes wbytes].
    destruct (Z.gtb_spec cmin 0); [|lia]. rewrite Hfl.
    change (256 ^ Z.of_nat 4) with 4294967296. change (256 ^ Z.of_nat 2) with 65536.
    rewrite !Z.mod_small by lia. done.
  - exists fv, ps, o. split; [done|]. split; [done|]. split; [done|]. cbn [Nat.add P] in Hx.
    destruct (client_walk cmin cmax pmin pmax lim (Z.of_nat k)) as [[ip port] id].
    eapply (crel_ld (m_flow_var_offset vm') (m_cur_var_offset vm') name o Hat e').
    unfold crel. by rewrite set_client_id.
Qed.
