(* ===== verification/StreamVmLimits.v ===== *)
(** * Encoding, termination and limits of the stream VM

    The byte code round-trips; the interpreter always ends; the data path
    object is a faithful copy; random draws stay in range or divide by zero; a VM
    without variables aborts; the writable prefix of a long packet is one byte
    short. *)

From S2P Require Import Prelude ByteMem PktCmn PktCmnFacts StreamVm StreamVmFacts StreamVmSpec StreamVmThms.

(** The byte code round-trips.  Whatever precedes and follows it, the
    interpreter reads back exactly the instruction that was appended, and the
    number of bytes it advances by is the number appended. *)
Theorem byte_code_roundtrip (pre post : bytes) (op : dp_op) :
  op_ok op ->
  decode (add_command pre (Some op) ++ post) (zlength pre) = Ok op /\
  zlength (add_command pre (Some op)) = zlength pre + op_sizeof op.
Proof.
  intros Hok. cbn [add_command]. rewrite <- app_assoc, decode_shift, decode_encode by done.
  by rewrite zlength_app, length_encode.
Qed.

Lemma byte_code_roundtrip_witness :
  decode (add_command [7; 8] (Some (StreamDPOpPktWr W16 1 4 (-2) 300)) ++ [9]) 2
  = Ok (StreamDPOpPktWr W16 1 4 (-2) 300).
Proof.
  refine (proj1 (byte_code_roundtrip [7; 8] [9] (StreamDPOpPktWr W16 1 4 (-2) 300) _)).
  split_and!; vm_compute; split; congruence.
Defined.

(** ** Every run ends *)

Lemma ld_fuel n m o : ld n m o <> Err OutOfFuel.
Proof. unfold ld. case_decide; congruence. Qed.

Lemma st_fuel n m o v : st n m o v <> Err OutOfFuel.
Proof. unfold st. case_decide; congruence. Qed.

Lemma bind_fuel {A B} (m : res A) (k : A -> res B) :
  m <> Err OutOfFuel -> (forall a, k a <> Err OutOfFuel) -> (m ≫= k) <> Err OutOfFuel.
Proof. intros Hm Hk. destruct m; cbn [mbind res_bind]; [apply Hk|].
  intros [= ->]. by apply Hm.
Qed.

Lemma cs_loop_fuel n : forall m off len sum,
  0 <= len < 65536 -> len / 2 < Z.of_nat n -> cs_loop n m off len sum <> Err OutOfFuel.
Proof.
  induction n as [|n IH]; intros m off len sum Hl Hn;
    [exfalso; Z.div_mod_to_equations; lia|].
  cbn [cs_loop]. destruct (Z.gtb_spec len 1); [|done].
  apply bind_fuel; [apply ld_fuel|]. intros w.
  apply IH; rewrite u16_id by lia; [lia|]. Z.div_mod_to_equations. lia.
Qed.

Lemma cs_loop_sum n : forall m off len sum r,
  cs_loop n m off len sum = Ok r -> 0 <= sum -> sum <= snd r <= sum + 65535 * Z.of_nat n.
Proof.
  induction n as [|n IH]; intros m off len sum r E Hs; cbn [cs_loop] in E; [done|].
  destruct (len >? 1); [|injection E as <-; cbn [snd]; lia].
  apply bind_Ok in E as (w & _ & E). pose proof (PAL_NTOHS_range w). unfold PKT_NTOHS in *.
  apply IH in E; lia.
Qed.

Lemma Zland_le_r a b : 0 <= a -> 0 <= b -> Z.land a b <= b.
Proof.
  intros Ha Hb. rewrite <- (Z2N.id a), <- (Z2N.id b), <- N2Z.inj_land by done.
  apply N2Z.inj_le, N.land_le_r.
Qed.

Lemma pkt_InetChecksum_fuel m off len :
  0 <= len < 32768 -> pkt_InetChecksum m off len <> Err OutOfFuel.
Proof.
  intros Hl. unfold pkt_InetChecksum.
  assert (Hf : cs_loop (cs_fuel len) m off len 0 <> Err OutOfFuel).
  { apply cs_loop_fuel; [lia|]. unfold cs_fuel. Z.div_mod_to_equations. lia. }
  destruct (cs_loop (cs_fuel len) m off len 0) as [[[d l] s]|f] eqn:E;
    [|intros [= ->]; by apply Hf].
  apply cs_loop_sum in E; [|lia]. cbn [snd] in E. unfold cs_fuel in E.
  assert (Hs : 0 <= s <= 65535 * 16385) by (Z.div_mod_to_equations; lia).
  cbn [mbind res_bind].
  assert (Hfold : forall x, 0 <= x < 2147483648 ->
    (sum ← cs_fold fold_fuel x; Ok (PKT_NTOHS (u16 (Z.lnot sum)))) <> Err OutOfFuel)
    by (intros x Hx; rewrite cs_fold_eq by lia; discriminate).
  destruct (negb (l =? 0)).
  - destruct (ld16 m d) as [w|f] eqn:Ew; cbn [mbind res_bind].
    + apply Hfold. pose proof (PAL_NTOHS_range w) as Hw. unfold PKT_NTOHS.
      assert (0 <= Z.land (PAL_NTOHS w) 65280) by (apply Z.land_nonneg; lia).
      pose proof (Zland_le_r (PAL_NTOHS w) 65280 ltac:(lia) ltac:(lia)).
      lia.
    + intros [= ->]. by apply (ld_fuel 2 m d).
  - cbn [mbind res_bind]. apply Hfold. lia.
Qed.

Lemma IP_getHeaderLength_range m ip n : IP_getHeaderLength m ip = Ok n -> 0 <= n < 256.
Proof.
  unfold IP_getHeaderLength. intros E. apply bind_Ok in E as (v & _ & E). injection E as <-.
  apply u8_range.
Qed.

Lemma IP_updateCheckSum_fuel m ip : IP_updateCheckSum m ip <> Err OutOfFuel.
Proof.
  unfold IP_updateCheckSum. apply bind_fuel; [apply st_fuel|]. intros m1.
  destruct (IP_getSize m1 ip) as [n|f] eqn:E; cbn [mbind res_bind].
  - apply IP_getHeaderLength_range in E. apply bind_fuel; [|intros; apply st_fuel].
    apply pkt_InetChecksum_fuel. rewrite u16_id by lia. lia.
  - intros [= ->]. unfold IP_getSize, IP_getHeaderLength in E.
    revert E. apply bind_fuel; [apply ld_fuel|done].
Qed.

Ltac fuel_step :=
  first [ apply ld_fuel | apply st_fuel | apply IP_updateCheckSum_fuel | discriminate
        | apply bind_fuel; [|intros ?]
        | match goal with
          | |- (if ?b then _ else _) <> _ => destruct b
          | |- (let '(_, _) := ?p in _) <> _ => destruct p
          end ].

Lemma exec_fuel rnd op s : exec rnd op s <> Err OutOfFuel.
Proof.
  destruct s as [fv pkt].
  destruct op as [w [| |] o mn mx|o|w fl o v po|o fl pad minp maxp minip maxip lim|o fl pad minip maxip];
    cbn [exec]; unfold run_inc, run_dec, run_rand, ipv4_fix_run, pkt_wr, clients_limit_run,
      clients_unlimit_run, vm_rand; cbv zeta;
    try destruct w; unfold vm_rand64, vm_rand32, vm_rand16, fastrand; cbv zeta;
    repeat fuel_step.
Qed.

Lemma decode_fuel prog p : decode prog p <> Err OutOfFuel.
Proof.
  unfold decode. apply bind_fuel; [apply ld_fuel|]. intros c.
  unfold fetch_clients_limit, fetch_clients_unlimit, fetch_flow_var, fetch_pkt_wr, fetch_ipv4_fix.
  repeat (fuel_step || match goal with |- context [match ?x with _ => _ end] => destruct x end).
Qed.

Lemma decode_pos prog p op : decode prog p = Ok op -> 3 <= op_sizeof op.
Proof. intros _. apply op_sizeof_pos. Qed.

Lemma run_loop_fuel rnd prog p_end fuel : forall p s,
  (0 < fuel)%nat -> p_end - p < Z.of_nat fuel -> run_loop fuel rnd prog p_end p s <> Err OutOfFuel.
Proof.
  induction fuel as [|fuel IH]; intros p s H0 Hf; [lia|]. cbn [run_loop].
  destruct (Z.ltb_spec p p_end); [|done].
  destruct (decode prog p) as [op|f] eqn:E; cbn [mbind res_bind];
    [|intros [= ->]; by apply (decode_fuel prog p)].
  pose proof (op_sizeof_pos op).
  apply bind_fuel; [apply exec_fuel|]. intros s'. apply IH; lia.
Qed.

(** The interpreter ends on every program, well formed or not: it executes
    the program, stops at the assertion on an unknown op code or at a fault of an
    instruction, and never needs more steps than the program has bytes. *)
Theorem run_terminates (rnd program_size : Z) (program flow_var pkt : bytes) :
  run rnd program_size program flow_var pkt <> Err OutOfFuel.
Proof. unfold run. apply run_loop_fuel; lia. Qed.

(** ** The data path object *)

Lemma malloc_copy_all malloc f b : malloc_ok malloc -> 0 < zlength b ->
  malloc_copy malloc f b (zlength b) = Ok b.
Proof.
  intros [Hp _] Hb. unfold malloc_copy. destruct (Hp _ Hb) as (x & -> & _).
  rewrite decide_True by lia. unfold zlength. by rewrite Nat2Z.id, firstn_all.
Qed.

Lemma encode_prog_pos l t pktsz s s' :
  build_loop t pktsz l s = Ok s' -> zlength (fst s) <= zlength (fst s').
Proof.
  revert s. induction l as [|i l IH]; intros [prog mf] E; cbn [build_loop] in E.
  - injection E as <-. cbn. lia.
  - apply bind_Ok in E as ([op mf1] & _ & E). apply IH in E. cbn [fst] in *.
    destruct op as [op|]; cbn [add_command] in E; [|done].
    rewrite zlength_app, length_encode in E. pose proof (op_sizeof_pos op). lia.
Qed.

Lemma build_loop_pos t cur l pktsz prog mf :
  table_wf t cur -> Forall (declared t) l -> l <> [] -> cur <= svMAX_FLOW_VAR -> Forall ins_ok l ->
  build_loop t pktsz l ([], 0) = Ok (prog, mf) -> 0 < zlength prog.
Proof.
  intros Hwf Hd Hl Hmax Hok E. destruct l as [|i l]; [done|]. cbn [build_loop] in E.
  apply bind_Ok in E as ([op mf1] & E1 & E). inversion Hd; inversion Hok; subst.
  destruct (build_ins_op_ok _ _ Hwf Hmax _ _ _ _ _ ltac:(done) ltac:(done) E1) as (o & -> & _).
  apply encode_prog_pos in E. cbn [fst add_command app] in E. rewrite length_encode in E.
  pose proof (op_sizeof_pos o). lia.
Qed.

(** The data path object is a copy.  For a compiled VM with a variable and a
    program of less than 64 KB, [generate_dp_object] gives an object with exactly
    the program and initial memory of the compiler, cloning that object gives the
    same object, and a node that clones its memory starts from the initial one. *)
Theorem dp_object_copy (malloc : Z -> option bytes) (rand pkt_len : Z) (vm vm' : StreamVm) :
  is_vm_empty vm = false -> compile malloc rand pkt_len vm = Ok vm' -> malloc_ok malloc ->
  Forall ins_ok (m_inst_list vm) -> 0 < m_cur_var_offset vm' ->
  zlength (m_instructions vm') < 65536 ->
  exists d bss, generate_dp_object malloc vm' = Ok (Some d) /\ m_bss vm' = Some bss /\
    m_program_ptr d = Some (m_instructions vm') /\
    m_program_size d = zlength (m_instructions vm') /\
    clone_bss malloc d = Ok bss /\ StreamVmDp_clone malloc d = Ok d.
Proof.
  intros He E Hm Hok Hcur Hsz. pose proof (compile_compiled _ _ _ _ _ He E) as Hc.
  pose proof (cp_bss _ _ _ _ Hc Hm) as Hb.
  destruct (m_bss vm') as [bss|] eqn:Eb; [|cbn in Hb; lia]. destruct Hb as [Hlen _].
  assert (Hprog : 0 < zlength (m_instructions vm')).
  { destruct Hc. eapply (build_loop_pos _ _ (m_inst_list vm)); try done.
    intros Hnil. unfold is_vm_empty in He. by rewrite Hnil in He. }
  unfold generate_dp_object. rewrite (cp_flag _ _ _ _ Hc), Eb. cbn [negb].
  rewrite u16_id by lia. unfold StreamVmDp_new, StreamVmDp_clone, clone_bss.
  rewrite <- Hlen in *.
  destruct (Z.eqb_spec (zlength bss) 0); [lia|].
  destruct (Z.eqb_spec (zlength (m_instructions vm')) 0); [lia|].
  cbn [negb c_assert mbind res_bind]. rewrite !malloc_copy_all by done. cbn [mbind res_bind].
  eexists _, bss. do 4 (split; [done|]). cbn.
  destruct (Z.gtb_spec (zlength bss) 0); [|lia]. cbn [c_assert mbind res_bind].
  unfold StreamVmDp_new. cbn [m_bss_ptr m_bss_size m_program_ptr m_program_size
    m_max_pkt_offset_change dp_prefix_size].
  destruct (Z.eqb_spec (zlength bss) 0); [lia|].
  destruct (Z.eqb_spec (zlength (m_instructions vm')) 0); [lia|].
  cbn [negb c_assert mbind res_bind]. by rewrite !malloc_copy_all by done.
Qed.

(** A VM without variables aborts.  When no instruction declares a variable
    (for instance a checksum fix-up alone) the memory is empty, and either the
    data path object or its first use stops at an assertion, whatever
    [malloc(0)] returns. *)
Theorem vm_without_variables_aborts (malloc : Z -> option bytes) (rand pkt_len : Z)
    (vm vm' : StreamVm) :
  is_vm_empty vm = false -> compile malloc rand pkt_len vm = Ok vm' -> malloc_ok malloc ->
  m_cur_var_offset vm' = 0 ->
  generate_dp_object malloc vm' = Err AssertFail \/
  exists d, generate_dp_object malloc vm' = Ok (Some d) /\ clone_bss malloc d = Err AssertFail.
Proof.
  intros He E Hm Hcur. pose proof (compile_compiled _ _ _ _ _ He E) as Hc.
  pose proof (cp_bss _ _ _ _ Hc Hm) as Hb. unfold generate_dp_object.
  rewrite (cp_flag _ _ _ _ Hc), Hcur. cbn [negb]. unfold StreamVmDp_new.
  destruct (m_bss vm') as [bss|]; [by left|]. cbn [mbind res_bind].
  destruct (Z.eqb_spec (u16 (zlength (m_instructions vm'))) 0) as [|Hp]; [by left|].
  cbn [negb c_assert mbind res_bind]. pose proof (u16_range (zlength (m_instructions vm'))).
  right. unfold malloc_copy. destruct Hm as [Hpos _].
  destruct (Hpos (u16 (zlength (m_instructions vm'))) ltac:(lia)) as (x & -> & _).
  rewrite decide_True by (unfold u16; pose proof (zlength_nonneg (m_instructions vm'));
    Z.div_mod_to_equations; lia).
  cbn [mbind res_bind]. eexists. split; [done|]. done.
Qed.

(** ** The writable prefix *)

Lemma IP_updateCheckSum_inv m ip m' :
  IP_updateCheckSum m ip = Ok m' -> ip + 12 <= zlength m /\ zlength m' = zlength m.
Proof.
  unfold IP_updateCheckSum. intros E. apply bind_Ok in E as (m1 & E1 & E).
  apply bind_Ok in E as (n & _ & E). apply bind_Ok in E as (cs & _ & E).
  pose proof (st_zlength _ _ _ _ _ E1). pose proof (st_zlength _ _ _ _ _ E).
  apply st_inv in E1 as [Hr _]. unfold in_range, o_Checksum in Hr. lia.
Qed.

Lemma spec_ins_reach t cur i e pkt e' pkt' :
  table_wf t cur -> declared t i -> ins_ok i -> spec_ins t i (e, pkt) = Ok (e', pkt') ->
  zlength pkt' = zlength pkt /\ (ins_end t i <= zlength pkt \/ ins_end t i = 0).
Proof.
  intros Hwf Hd Hok E.
  destruct i as [po|name size op init mn mx|name cmin cmax pmin pmax lim fl|name po add big];
    cbn [spec_ins ins_end] in *.
  - apply bind_Ok in E as (p & E1 & E). injection E as _ <-.
    apply IP_updateCheckSum_inv in E1. lia.
  - destruct (width_of_size size); [|injection E as _ <-; by auto].
    apply bind_Ok in E as (x & _ & E). destruct op.
    1,2: injection E as _ <-; by auto.
    apply bind_Ok in E as (seed & _ & E). destruct (spec_rand w seed). cbv zeta in E.
    destruct (_ =? 0); [discriminate|]. injection E as _ <-. by auto.
  - apply bind_Ok in E as (ip & _ & E). apply bind_Ok in E as (port & _ & E).
    apply bind_Ok in E as (id & _ & E).
    destruct (if is_unlimited_flows fl then _ else _) as [[ip' port'] id'].
    injection E as _ <-. by auto.
  - destruct (t !! name) as [v|] eqn:Hv; [|discriminate].
    destruct (tw_in _ _ Hwf _ _ Hv) as (_ & _ & Hsz).
    destruct (width_of_valid _ Hsz) as (w & Hw & Ew & _). rewrite Hw in E.
    apply bind_Ok in E as (x & _ & E). case_decide as Hr; [|discriminate].
    injection E as _ <-. unfold in_range, zlength in *. rewrite length_splice; [lia|].
    rewrite length_field_bytes. lia.
Qed.

Lemma spec_list_reach t cur l : forall e pkt e' pkt',
  table_wf t cur -> Forall (declared t) l -> Forall ins_ok l ->
  spec_list t l (e, pkt) = Ok (e', pkt') ->
  Forall (fun i => ins_end t i <= zlength pkt \/ ins_end t i = 0) l.
Proof.
  induction l as [|i l IH]; intros e pkt e' pkt' Hwf Hd Hok E; [constructor|].
  cbn [spec_list] in E. apply bind_Ok in E as ([e1 p1] & E1 & E).
  inversion Hd; inversion Hok; subst.
  destruct (spec_ins_reach _ _ _ _ _ _ _ Hwf ltac:(done) ltac:(done) E1) as [Hz Hi].
  constructor; [done|]. rewrite <- Hz. by eapply IH.
Qed.

(** The writable prefix is one byte short.  For a packet of more than 128
    bytes of which at least 64 follow the updated part, the buffer the program
    runs on ends before the last byte the program updates: on a prefix of the
    compiled size no run succeeds, for any variable values. *)
Theorem prefix_one_byte_short (malloc : Z -> option bytes) (rand pkt_len : Z)
    (vm vm' : StreamVm) (fv prefix : bytes) (s : bytes * bytes) :
  is_vm_empty vm = false -> compile malloc rand pkt_len vm = Ok vm' ->
  Forall ins_ok (m_inst_list vm) -> zlength fv = m_cur_var_offset vm' ->
  128 < pkt_len < 65536 -> 0 < m_max_field_update vm' ->
  64 <= pkt_len - (m_max_field_update vm' - 1) ->
  zlength prefix = m_prefix_size vm' ->
  run 0 (zlength (m_instructions vm')) (m_instructions vm') fv prefix <> Ok s.
Proof.
  intros He E Hok Hfv Hlen Hmf Hroom Hp Hrun.
  pose proof (compile_compiled _ _ _ _ _ He E) as Hc.
  pose proof (compiled_run _ _ _ _ Hc Hok fv _ prefix
    (mem_env_rel _ _ _ (cp_wf _ _ _ _ Hc) Hfv)) as Hsim. rewrite Hrun in Hsim.
  destruct (spec_list _ _ _) as [[e' pkt']|] eqn:Es; [|discriminate].
  destruct Hc as [_ _ Hwf _ Hd _ _ _ _ Hprog Hfield Hpre].
  pose proof (spec_list_reach _ _ _ _ _ _ _ Hwf Hd Hok Es) as Hreach.
  assert (Hlt : pkt_len < 65536) by lia.
  destruct (build_loop_field _ _ _ _ _ _ _ Hok (fun n v => table_sizes _ _ n v Hwf)
    Hlt ltac:(done) Hprog) as (_ & _ & _ & [Hm|(i & Hi & Hm)]); [lia|].
  rewrite Forall_forall in Hreach. specialize (Hreach _ Hi).
  unfold svMAX_PACKET_OFFSET_CHANGE in *. rewrite Hpre in Hp.
  unfold calc_writable_mbuf_size in Hp.
  destruct (Z.leb_spec pkt_len 64), (Z.leb_spec pkt_len 128); try lia. cbv zeta in Hp.
  rewrite u16_id in Hp by lia.
  destruct (Z.ltb_spec (pkt_len - (m_max_field_update vm' - 1)) 64); [lia|].
  rewrite u16_id in Hp by lia. lia.
Qed.

(** ** Random variables *)

(** Random values stay in their range when the divisor of the source is the
    size of the range: always for 8 and 16 bits, for 32 bits unless the range is
    the full one, for 64 bits when it has less than 2^31 values.  The full
    32-bit range and the 64-bit ranges of a multiple of 2^32 values divide by
    zero. *)
Theorem random_range (w : width) (mn mx r : Z) :
  0 <= mn <= mx -> mx < wmax w -> 0 <= r ->
  let d := rand_divisor w mn mx in
  ((w = W64 -> mx - mn + 1 < 2147483648) -> (w = W32 -> mx - mn + 1 < 4294967296) ->
    d <> 0 /\ mn <= uw w (mn + r mod d) <= mx) /\
  (w = W32 \/ w = W64 -> (mx - mn + 1) mod 4294967296 = 0 ->
    forall o rnd fv, (exists fv' x, vm_rand w fv rnd = Ok (fv', x)) ->
      run_rand w o mn mx rnd fv = Err DivByZero).
Proof.
  intros H1 H2 Hr d. split.
  - intros H64 H32. assert (Hd : d = mx - mn + 1).
    { unfold d, rand_divisor. unfold wmax in H2. destruct w; cbn [wbytes] in H2.
      1,2: change (256 ^ Z.of_nat 1) with 256 in H2; change (256 ^ Z.of_nat 2) with 65536 in H2;
        word_lia.
      - specialize (H32 eq_refl). change (256 ^ Z.of_nat 4) with 4294967296 in H2. word_lia.
      - specialize (H64 eq_refl). word_lia. }
    pose proof (Z.mod_pos_bound r d ltac:(lia)). split; [lia|]. rewrite uw_id; lia.
  - intros Hw Hfull o rnd fv (fv' & x & E). unfold run_rand. rewrite E. cbn [mbind res_bind].
    assert (rand_divisor w mn mx = 0) as ->; [|done].
    destruct Hw as [-> | ->]; unfold rand_divisor; word_lia.
Qed.
