(* ===== verification/StreamVmDemo.v ===== *)
(** * A concrete stream VM

    An instance on which the hypotheses of the stream VM theorems hold: an
    incremented byte, a random word and a client range written into a 64 byte
    packet, and the checksum fix-up. *)

From S2P Require Import Prelude ByteMem PktCmn PktCmnFacts StreamVm StreamVmFacts StreamVmSpec StreamVmThms StreamVmLimits.

Definition demo_malloc (n : Z) : option bytes := Some (replicate (Z.to_nat n) 170).

Lemma demo_malloc_ok : malloc_ok demo_malloc.
Proof.
  split; [|by right]. intros n Hn. eexists. split; [done|]. unfold zlength.
  rewrite length_replicate. lia.
Qed.

Definition demo_insts : list StreamVmInstruction :=
  [ FlowMan "a" 1 FLOW_VAR_OP_INC 5 3 7;
    FlowMan "r" 4 FLOW_VAR_OP_RANDOM 0 100 200;
    FlowClient "c" 268435457 268435460 1025 1030 0 0;
    WriteToPkt "a" 40 0 true;
    WriteToPkt "r" 42 0 true;
    WriteToPkt "c.ip" 26 0 true;
    FixChecksumIpv4 14 ].

Definition demo_vm : StreamVm := foldl (fun vm i => add_instruction i vm) StreamVm_new demo_insts.

Definition demo_vm' : StreamVm :=
  match compile demo_malloc 12345 64 demo_vm with Ok vm => vm | Err _ => StreamVm_new end.

Definition demo_bss : bytes := match m_bss demo_vm' with Some b => b | None => [] end.

Definition demo_pkt : bytes := replicate 14 0 ++ demo_ip_header ++ replicate 30 0.

Lemma demo_compile : compile demo_malloc 12345 64 demo_vm = Ok demo_vm'.
Proof. vm_compute. reflexivity. Qed.

Lemma demo_insts_eq : m_inst_list demo_vm = demo_insts.
Proof. reflexivity. Qed.

Lemma demo_ins_ok : Forall ins_ok (m_inst_list demo_vm).
Proof. rewrite demo_insts_eq. repeat constructor; vm_compute; congruence. Qed.

Lemma demo_bss_eq : m_bss demo_vm' = Some demo_bss.
Proof. vm_compute. reflexivity. Qed.

Lemma demo_ip : ip_header demo_pkt 14.
Proof.
  split; [|lia|vm_compute; congruence|vm_compute; congruence].
  repeat constructor; vm_compute; congruence.
Qed.

Lemma demo_untouched i : i ∈ demo_insts -> ~ touches (m_flow_var_offset demo_vm') i 14.
Proof.
  unfold demo_insts. rewrite !elem_of_cons, elem_of_nil.
  intros [-> | [-> | [-> | [-> | [-> | [-> | [-> | []]]]]]]]; cbn [touches];
    try tauto; try lia; intros (v & Hv & Hb); vm_compute in Hv; injection Hv as <-;
    cbn [m_size_bytes] in Hb; lia.
Qed.

Lemma demo_runnable : runnable (m_inst_list demo_vm) demo_vm' 64 demo_pkt.
Proof.
  split; [apply demo_ins_ok| |done|done| |].
  - rewrite demo_insts_eq. repeat constructor. intros w [= <-]. vm_compute. congruence.
  - apply demo_ip.
  - rewrite demo_insts_eq. intros po. unfold demo_insts. rewrite !elem_of_cons, elem_of_nil.
    intros [|[|[|[|[|[|[Heq|[]]]]]]]]; try discriminate. injection Heq as ->.
    split; [apply demo_ip|]. intros i. apply demo_untouched.
Qed.

Lemma compile_refines_witness :
  exists fv' pkt', run 0 (zlength (m_instructions demo_vm')) (m_instructions demo_vm') demo_bss demo_pkt
    = Ok (fv', pkt').
Proof.
  pose proof (compile_refines demo_malloc 12345 64 demo_vm demo_vm' demo_bss demo_pkt
    eq_refl demo_compile demo_ins_ok ltac:(vm_compute; reflexivity)) as H.
  cbv zeta in H.
  destruct (spec_list _ _ _) as [[e p]|f] eqn:E.
  - destruct H as (fv' & H & _). exists fv', p. exact H.
  - exfalso. revert E. vm_compute. discriminate.
Defined.

Lemma compile_memory_witness :
  bss_spec (m_flow_var_offset demo_vm') 19 (m_inst_list demo_vm) demo_malloc (m_bss demo_vm').
Proof.
  exact (proj2 (proj2 (proj2 (compile_memory demo_malloc 12345 64 demo_vm demo_vm'
    eq_refl demo_compile demo_malloc_ok)))).
Defined.

Lemma compiled_vm_safe_witness :
  exists fv' pkt', run 0 (zlength (m_instructions demo_vm')) (m_instructions demo_vm') demo_bss demo_pkt
    = Ok (fv', pkt') /\ runnable (m_inst_list demo_vm) demo_vm' 64 pkt'.
Proof.
  destruct (compiled_vm_safe demo_malloc 12345 64 demo_vm demo_vm' demo_bss demo_pkt
    eq_refl demo_compile demo_runnable ltac:(vm_compute; reflexivity))
    as (fv' & pkt' & E & _ & Hr).
  exists fv', pkt'. split; [exact E|exact Hr].
Defined.

Lemma flow_var_walk_witness :
  exists fv ps v, send 4 (m_instructions demo_vm') demo_pkt demo_bss = Ok (fv, ps) /\
    m_flow_var_offset demo_vm' !! "a" = Some v /\ ld8 fv (m_offset v) = Ok 3.
Proof.
  assert (Hin : FlowMan "a" 1 FLOW_VAR_OP_INC 5 3 7 ∈ m_inst_list demo_vm)
    by (rewrite demo_insts_eq; apply list_elem_of_here).
  destruct (flow_var_walk demo_malloc 12345 64 demo_vm demo_vm' demo_bss demo_pkt "a" 1 W8
    FLOW_VAR_OP_INC 5 3 7 3 eq_refl demo_compile demo_malloc_ok demo_runnable demo_bss_eq Hin
    eq_refl ltac:(discriminate) ltac:(lia) ltac:(vm_compute; split; congruence))
    as (fv & ps & v & E & _ & Hv & Hl & _).
  exists fv, ps, v. split; [exact E|]. split; [exact Hv|exact Hl].
Defined.

Lemma client_var_walk_witness :
  exists fv ps o, send 6 (m_instructions demo_vm') demo_pkt demo_bss = Ok (fv, ps) /\
    ld32 fv (o + cur_ip) = Ok 268435458 /\ ld16 fv (o + cur_port) = Ok 1026.
Proof.
  assert (Hin : FlowClient "c" 268435457 268435460 1025 1030 0 0 ∈ m_inst_list demo_vm)
    by (rewrite demo_insts_eq; do 2 apply list_elem_of_further; apply list_elem_of_here).
  destruct (client_var_walk demo_malloc 12345 64 demo_vm demo_vm' demo_bss demo_pkt "c"
    268435457 268435460 1025 1030 0 0 5 eq_refl demo_compile demo_malloc_ok demo_runnable
    demo_bss_eq Hin eq_refl ltac:(split; lia)) as (fv & ps & o & E & _ & _ & Hip & Hport & _).
  exists fv, ps, o. split; [exact E|]. split; [exact Hip|exact Hport].
Defined.

Lemma dp_object_copy_witness :
  exists d bss, generate_dp_object demo_malloc demo_vm' = Ok (Some d) /\
    clone_bss demo_malloc d = Ok bss.
Proof.
  destruct (dp_object_copy demo_malloc 12345 64 demo_vm demo_vm' eq_refl demo_compile
    demo_malloc_ok demo_ins_ok ltac:(vm_compute; reflexivity) ltac:(vm_compute; reflexivity))
    as (d & bss & E & _ & _ & _ & Hc & _).
  exists d, bss. split; [exact E|exact Hc].
Defined.

(** A checksum fix-up alone. *)
Definition demo_fix_vm : StreamVm := add_instruction (FixChecksumIpv4 14) StreamVm_new.

Definition demo_fix_vm' : StreamVm :=
  match compile demo_malloc 12345 64 demo_fix_vm with Ok vm => vm | Err _ => StreamVm_new end.

Lemma vm_without_variables_aborts_witness :
  generate_dp_object demo_malloc demo_fix_vm' = Err AssertFail \/
  exists d, generate_dp_object demo_malloc demo_fix_vm' = Ok (Some d) /\
    clone_bss demo_malloc d = Err AssertFail.
Proof.
  apply (vm_without_variables_aborts demo_malloc 12345 64 demo_fix_vm demo_fix_vm');
    [reflexivity|vm_compute; reflexivity|apply demo_malloc_ok|vm_compute; reflexivity].
Defined.

(** One byte variable written at offset 30 of a 252 byte packet. *)
Definition demo_long_vm : StreamVm :=
  add_instruction (WriteToPkt "a" 30 0 true)
    (add_instruction (FlowMan "a" 1 FLOW_VAR_OP_INC 5 3 7) StreamVm_new).

Definition demo_long_vm' : StreamVm :=
  match compile demo_malloc 12345 252 demo_long_vm with Ok vm => vm | Err _ => StreamVm_new end.

Lemma prefix_one_byte_short_witness :
  zlength (replicate 30 0) = m_prefix_size demo_long_vm' /\
  forall s, run 0 (zlength (m_instructions demo_long_vm')) (m_instructions demo_long_vm') [4]
    (replicate 30 0) <> Ok s.
Proof.
  split; [vm_compute; reflexivity|]. intros s.
  refine (prefix_one_byte_short demo_malloc 12345 252 demo_long_vm demo_long_vm' [4]
    (replicate 30 0) s _ _ _ _ _ _ _ _).
  - reflexivity.
  - vm_compute. reflexivity.
  - repeat constructor; vm_compute; congruence.
  - vm_compute. reflexivity.
  - lia.
  - vm_compute. reflexivity.
  - vm_compute. congruence.
  - vm_compute. reflexivity.
Defined.

Lemma random_range_witness :
  7 <= uw W16 (7 + 12345 mod rand_divisor W16 7 9) <= 9 /\
  run_rand W32 4 0 4294967295 0 (replicate 8 0) = Err DivByZero.
Proof.
  split.
  - apply (random_range W16 7 9 12345); [lia|vm_compute; reflexivity|lia|discriminate|discriminate].
  - apply (random_range W32 0 4294967295 0); [lia|vm_compute; reflexivity|lia|by left|done|].
    eexists _, _. vm_compute. reflexivity.
Defined.

(** A client range that ends at port 65535 continues at port 0, below its
    smallest port. *)
Example client_port_wraps :
  clients_limit_run 0 1025 65535 1 4 0 (le_split 4 4 ++ le_split 2 65535 ++ le_split 4 0)
  = Ok (le_split 4 1 ++ le_split 2 0 ++ le_split 4 0).
Proof. vm_compute. reflexivity. Qed.
