(* ===== verification/TrexStream.v ===== *)
(** * Streams and the VM splitter

    Models the stream object and the stream table of
    [src/src/stateless/cp/trex_stream.h], [trex_stream.cpp], and
    [trex_vm_splitter.cpp], which divides the range of one variable between the
    data path cores. *)

From S2P Require Import Prelude Double ByteMem PktCmn StreamVm.

(** ** The stream *)

Definition stNONE : Z := 0.
Definition stCONTINUOUS : Z := 4.
Definition stSINGLE_BURST : Z := 5.
Definition stMULTI_BURST : Z := 6.

Definition MIN_PKT_SIZE_BYTES : Z := 1.
Definition MAX_PKT_SIZE_BYTES : Z := 9000.

(** [CStreamPktData]: the bytes (NULL before [clone]) and their number. *)
Record CStreamPktData : Type := mkPktData { binary : option bytes; len : Z }.

Record RxCheck : Type := mkRxCheck {
  rx_enable : bool; rx_seq_enabled : bool; rx_latency : bool; rx_stream_id : Z
}.

(** The JSON copy of the stream is left out: nothing here reads it. *)
Record TrexStream : Type := mkTrexStream {
  ts_type : Z;
  ts_port_id : Z;
  ts_stream_id : Z;
  ts_isg_usec : double;
  ts_next_stream_id : Z;
  ts_enabled : bool;
  ts_self_start : bool;
  ts_vm : StreamVm;
  ts_vm_dp : option StreamVmDp;
  ts_pkt : CStreamPktData;
  ts_rx_check : RxCheck;
  ts_pps : double;
  ts_burst_total_pkts : Z;
  ts_num_bursts : Z;
  ts_ibg_usec : double;
}.

Definition TrexStream_new (type port_id stream_id : Z) : TrexStream :=
  mkTrexStream type port_id stream_id (double_of_Z 0) (-1) false false StreamVm_new None
    (mkPktData None 0) (mkRxCheck false false false 0) (double_of_Z (-1)) 0 1 (double_of_Z 0).

Definition set_vm (vm : StreamVm) (dp : option StreamVmDp) (s : TrexStream) : TrexStream :=
  mkTrexStream (ts_type s) (ts_port_id s) (ts_stream_id s) (ts_isg_usec s) (ts_next_stream_id s)
    (ts_enabled s) (ts_self_start s) vm dp (ts_pkt s) (ts_rx_check s) (ts_pps s)
    (ts_burst_total_pkts s) (ts_num_bursts s) (ts_ibg_usec s).

(** The fields the stream compiler adjusts on a core's copy. *)
Definition set_ids_rate (my_stream_id next_stream_id : Z) (pps : double) (pkts : Z)
    (s : TrexStream) : TrexStream :=
  mkTrexStream (ts_type s) (ts_port_id s) my_stream_id (ts_isg_usec s) next_stream_id
    (ts_enabled s) (ts_self_start s) (ts_vm s) (ts_vm_dp s) (ts_pkt s) (ts_rx_check s) pps
    pkts (ts_num_bursts s) (ts_ibg_usec s).

Definition set_multi_burst (burst_total_pkts num_bursts : Z) (ibg_usec : double) (s : TrexStream)
  : TrexStream :=
  mkTrexStream (ts_type s) (ts_port_id s) (ts_stream_id s) (ts_isg_usec s) (ts_next_stream_id s)
    (ts_enabled s) (ts_self_start s) (ts_vm s) (ts_vm_dp s) (ts_pkt s) (ts_rx_check s) (ts_pps s)
    burst_total_pkts num_bursts ibg_usec.

Definition set_single_burst (burst_total_pkts : Z) (s : TrexStream) : TrexStream :=
  set_multi_burst burst_total_pkts 1 (double_of_Z 0) s.

Definition is_dp_next_stream (s : TrexStream) : bool := negb (ts_next_stream_id s <? 0).

Definition get_burst_length_usec (s : TrexStream) : double :=
  double_mul (double_mul (double_div (double_of_Z (ts_burst_total_pkts s)) (ts_pps s))
    (double_of_Z 1000)) (double_of_Z 1000).

Definition get_bps (s : TrexStream) : double :=
  double_mul (double_mul (ts_pps s) (double_of_Z (len (ts_pkt s) + 4))) (double_of_Z 8).

(** [CStreamPktData::clone]: [len] is a [uint16_t]. *)
Definition pkt_clone (in_binary : bytes) (in_pkt_size : Z) : res CStreamPktData :=
  if decide (0 <= in_pkt_size <= zlength in_binary)
  then Ok (mkPktData (Some (take (Z.to_nat in_pkt_size) in_binary)) (u16 in_pkt_size))
  else Err OutOfBounds.

Section Clone.
Context (malloc : Z -> option bytes).

(** [TrexStream::clone]: the data path object and the packet are copied, the
    VM instructions are not. *)
Definition TrexStream_clone (s : TrexStream) : res TrexStream :=
  dp ← match ts_vm_dp s with
       | Some d => d ← StreamVmDp_clone malloc d; Ok (Some d)
       | None => Ok None
       end;
  pkt ← match binary (ts_pkt s) with
        | Some b => pkt_clone b (len (ts_pkt s))
        | None => if len (ts_pkt s) =? 0 then Ok (mkPktData (Some []) 0) else Err NullDeref
        end;
  Ok (mkTrexStream (ts_type s) (ts_port_id s) (ts_stream_id s) (ts_isg_usec s)
        (ts_next_stream_id s) (ts_enabled s) (ts_self_start s) StreamVm_new dp pkt
        (ts_rx_check s) (ts_pps s) (ts_burst_total_pkts s) (ts_num_bursts s) (ts_ibg_usec s)).

Definition release_dp_object (s : TrexStream) : TrexStream := set_vm (ts_vm s) None s.

(** [vm_compile]; [rand] is the draw of the C library the compilation uses. *)
Definition vm_compile (rand : Z) (s : TrexStream) : res TrexStream :=
  if is_vm_empty (ts_vm s) then Ok s
  else
    vm ← compile malloc rand (len (ts_pkt s)) (ts_vm s);
    dp ← generate_dp_object malloc vm;
    Ok (set_vm vm dp s).

(** ** The splitter

    [rand i] is the draw used by the compilation for core [i]. *)
Context (rand : nat -> Z).

(** [duplicate_vm] *)
Definition duplicate_vm (stream : TrexStream) (core_streams : list TrexStream)
  : list TrexStream :=
  map (fun c => set_vm (copy_instructions (ts_vm stream) (ts_vm c)) (ts_vm_dp c) c) core_streams.

(** The range a core gets. *)
Definition set_range (start last : Z) (i : StreamVmInstruction) : res StreamVmInstruction :=
  match i with
  | FlowMan name size op _ _ _ =>
      Ok (FlowMan name size op
            (match op with FLOW_VAR_OP_DEC => last | _ => start end) start last)
  | FlowClient name _ _ pmin pmax lim flags =>
      Ok (FlowClient name (u32 start) (u32 last) pmin pmax lim flags)
  | _ => Err NullDeref
  end.

(** The write through the core's own split pointer. *)
Definition set_core_range (start last : Z) (c : TrexStream) : res TrexStream :=
  match m_split_instr (ts_vm c) with
  | None => Err NullDeref
  | Some k =>
      match m_inst_list (ts_vm c) !! k with
      | None => Err OutOfBounds
      | Some i =>
          i ← set_range start last i;
          Ok (set_vm (set_instructions (<[k := i]> (m_inst_list (ts_vm c)))
                (m_split_instr (ts_vm c)) (ts_vm c)) (ts_vm_dp c) c)
      end
  end.

(** The [for] over the core streams, from core number [k]. *)
Fixpoint split_loop (k : nat) (range_part start last : Z) (core_streams : list TrexStream)
  : res (list TrexStream) :=
  match core_streams with
  | [] => Ok []
  | c :: cs =>
      c ← set_core_range start last c;
      c ← vm_compile (rand k) c;
      let start := u64 (last + 1) in
      let last := u64 (start + range_part - 1) in
      cs ← split_loop (S k) range_part start last cs;
      Ok (c :: cs)
  end.

(** [split_by_flow_var] and [split_by_flow_client_var] from the check of the
    range on; [None] when the variable is not split. *)
Definition split_by_range (m_dp_core_count range first : Z) (stream : TrexStream)
    (core_streams : list TrexStream) : res (option (list TrexStream)) :=
  if range <? m_dp_core_count then Ok None
  else
    let cs := duplicate_vm stream core_streams in
    if m_dp_core_count =? 0 then Err DivByZero
    else
      let range_part := range / m_dp_core_count in
      let leftover := range mod m_dp_core_count in
      let start := first in
      let last := u64 (start + range_part + leftover - 1) in
      cs ← split_loop 0 range_part start last cs;
      Ok (Some cs).

Definition split_internal (m_dp_core_count : Z) (stream : TrexStream)
    (core_streams : list TrexStream) : res (option (list TrexStream)) :=
  match m_split_instr (ts_vm stream) with
  | None => Ok None
  | Some k =>
      match m_inst_list (ts_vm stream) !! k with
      | Some (FlowMan name size op init mn mx) =>
          match op with
          | FLOW_VAR_OP_RANDOM => Ok None
          | _ => split_by_range m_dp_core_count (u64 (mx - mn + 1)) mn stream core_streams
          end
      | Some (FlowClient name cmin cmax pmin pmax lim flags) =>
          split_by_range m_dp_core_count (get_ip_range cmin cmax) cmin stream core_streams
      | Some _ => throw "VM splitter : cannot split by instruction"
      | None => Err OutOfBounds
      end
  end.

(** The clone of the reference stream's data path object for every core. *)
Fixpoint clone_dp_loop (d : option StreamVmDp) (core_streams : list TrexStream)
  : res (list TrexStream) :=
  match core_streams with
  | [] => Ok []
  | c :: cs =>
      match d with
      | None => Err NullDeref
      | Some x =>
          x ← StreamVmDp_clone malloc x;
          cs ← clone_dp_loop d cs;
          Ok (set_vm (ts_vm c) (Some x) c :: cs)
      end
  end.

(** [split]: the reference stream and the core streams after it. *)
Definition split (stream : TrexStream) (core_streams : list TrexStream)
  : res (TrexStream * list TrexStream) :=
  if is_vm_empty (ts_vm stream) then Ok (stream, core_streams)
  else
    let m_dp_core_count := u8 (zlength core_streams) in
    rc ← split_internal m_dp_core_count stream core_streams;
    match rc with
    | Some cs => Ok (stream, cs)
    | None =>
        stream ← vm_compile (rand 0) stream;
        cs ← clone_dp_loop (ts_vm_dp stream) core_streams;
        Ok (set_vm (ts_vm stream) None stream, cs)
    end.

End Clone.

(** ** The stream table, by stream id *)

Notation TrexStreamTable := (gmap Z TrexStream).

(** [unordered_map<int, ...>]: the [uint32_t] id is converted to [int]. *)
Definition get_stream_by_id (stream_id : Z) (t : TrexStreamTable) : option TrexStream :=
  t !! s32 stream_id.

Definition remove_stream (s : TrexStream) (t : TrexStreamTable) : TrexStreamTable :=
  delete (s32 (ts_stream_id s)) t.

Definition table_add_stream (s : TrexStream) (t : TrexStreamTable) : TrexStreamTable :=
  let t := match get_stream_by_id (ts_stream_id s) t with
           | Some old => remove_stream old t | None => t end in
  <[s32 (ts_stream_id s) := s]> t.

Definition remove_and_delete_all_streams (t : TrexStreamTable) : TrexStreamTable := ∅.

Definition get_id_list (t : TrexStreamTable) : list Z := map (fun p => u32 (fst p)) (map_to_list t).

Definition get_object_list (t : TrexStreamTable) : list TrexStream := map snd (map_to_list t).

Definition table_size (t : TrexStreamTable) : Z := Z.of_nat (size t).
