(* ===== verification/TrexStreamFacts.v ===== *)
(** * Properties of the VM splitter and the stream table

    The ranges the splitter gives to the cores partition the range of the split
    variable; when it does not split, every core gets the same program. *)

From S2P Require Import Prelude Double ByteMem PktCmn StreamVm TrexStream.

(** The range of a variable instruction. *)
Definition var_range (i : StreamVmInstruction) : option (Z * Z) :=
  match i with
  | FlowMan _ _ _ _ mn mx => Some (mn, mx)
  | FlowClient _ cmin cmax _ _ _ _ => Some (cmin, cmax)
  | _ => None
  end.

(** The core sends the value: its split variable's range holds it. *)
Definition core_covers (k : nat) (c : TrexStream) (x : Z) : Prop :=
  exists i s e, m_inst_list (ts_vm c) !! k = Some i /\ var_range i = Some (s, e) /\ s <= x <= e.

(** The cores of a list divide [lo .. hi] from left to right; the program of
    each is [l] with the instruction [i0] at [k] restricted. *)
Inductive chained (l : list StreamVmInstruction) (k : nat) (i0 : StreamVmInstruction) :
    Z -> Z -> list TrexStream -> Prop :=
  | chained_nil hi : chained l k i0 (hi + 1) hi []
  | chained_cons lo e hi i c cs :
      lo <= e -> e <= hi -> set_range lo e i0 = Ok i -> var_range i = Some (lo, e) ->
      m_inst_list (ts_vm c) = <[k := i]> l ->
      chained l k i0 (e + 1) hi cs -> chained l k i0 lo hi (c :: cs).

Lemma chained_covers l k i0 lo hi cs :
  (k < length l)%nat -> chained l k i0 lo hi cs ->
  forall x, (lo <= x <= hi ->
      exists j c, cs !! j = Some c /\ core_covers k c x /\
        forall j' c', cs !! j' = Some c' -> core_covers k c' x -> j' = j) /\
    (forall j c, cs !! j = Some c -> core_covers k c x -> lo <= x <= hi).
Proof.
  intros Hk. induction 1 as [hi|lo e hi i c cs H1 H2 Hset Hr Hl Hch IH]; intros x.
  - split; [lia|]. intros j c. by rewrite lookup_nil.
  - specialize (IH x) as [IH1 IH2].
    assert (Hc : core_covers k c x <-> lo <= x <= e).
    { unfold core_covers. rewrite Hl, list_lookup_insert_eq by done. split.
      - intros (i' & s & e' & [= <-] & Hr' & Hx). rewrite Hr in Hr'. by injection Hr' as <- <-.
      - intros Hx. exists i, lo, e. done. }
    split.
    + intros Hx. destruct (decide (x <= e)) as [Hle|Hgt].
      * exists O, c. split; [done|]. split; [apply Hc; lia|]. intros [|j'] c' Hj' Hc'; [done|].
        exfalso. specialize (IH2 j' c' Hj' Hc'). lia.
      * destruct (IH1 ltac:(lia)) as (j & c1 & Hj & Hc1 & Hu). exists (S j), c1.
        split; [done|]. split; [done|]. intros [|j'] c' Hj' Hc'.
        -- injection Hj' as ->. apply Hc in Hc'. lia.
        -- f_equal. by eapply Hu.
    + intros [|j] c' Hj Hc'.
      * injection Hj as ->. apply Hc in Hc'. lia.
      * specialize (IH2 j c' Hj Hc'). lia.
Qed.

Section Splitter.
Context (malloc : Z -> option bytes) (rand : nat -> Z).

Lemma compile_insts r n vm vm' : compile malloc r n vm = Ok vm' -> m_inst_list vm' = m_inst_list vm.
Proof.
  unfold compile. intros E. destruct (is_vm_empty vm); [by injection E as <-|].
  apply bind_Ok in E as ([[rv t] off] & _ & E). apply bind_Ok in E as (bss & _ & E).
  apply bind_Ok in E as ([prog mf] & _ & E). destruct (_ >? _); [discriminate|].
  by injection E as <-.
Qed.

Lemma vm_compile_insts r c c' :
  vm_compile malloc r c = Ok c' -> m_inst_list (ts_vm c') = m_inst_list (ts_vm c).
Proof.
  unfold vm_compile. intros E. destruct (is_vm_empty _); [by injection E as <-|].
  apply bind_Ok in E as (vm & Ev & E). apply bind_Ok in E as (dp & _ & E). injection E as <-.
  by eapply compile_insts.
Qed.

(** A core after [duplicate_vm]. *)
Definition fresh_core (l : list StreamVmInstruction) (k : nat) (c : TrexStream) : Prop :=
  m_inst_list (ts_vm c) = l /\ m_split_instr (ts_vm c) = Some k.

Lemma split_loop_chained l k i0 bound part cs : forall j s e cs',
  l !! k = Some i0 -> bound <= 18446744073709551616 ->
  (forall a b, 0 <= a <= b -> b < bound -> exists i, set_range a b i0 = Ok i /\ var_range i = Some (a, b)) ->
  Forall (fresh_core l k) cs -> cs <> [] -> 0 <= s <= e -> 1 <= part ->
  e + (zlength cs - 1) * part < bound ->
  split_loop malloc rand j part s e cs = Ok cs' ->
  chained l k i0 s (e + (zlength cs - 1) * part) cs' /\ length cs' = length cs.
Proof.
  induction cs as [|c cs IH]; intros j s e cs' Hk Hb Hset Hf Hne Hs Hp Hhi E; [done|].
  inversion Hf as [|? ? [Hl Hsp] Hf']; subst. cbn [split_loop] in E.
  apply bind_Ok in E as (c1 & E1 & E). apply bind_Ok in E as (c2 & E2 & E). cbv zeta in E.
  apply bind_Ok in E as (cs2 & E3 & E). injection E as <-.
  assert (Hz : zlength (c :: cs) = 1 + zlength cs) by (unfold zlength; simpl; lia).
  assert (Hz0 : 0 <= zlength cs) by (unfold zlength; lia). rewrite Hz in *.
  destruct (Hset s e Hs ltac:(nia)) as (i & Hi & Hr).
  unfold set_core_range in E1. rewrite Hsp, Hk, Hi in E1. cbn [mbind res_bind] in E1.
  injection E1 as <-. apply vm_compile_insts in E2. cbn in E2.
  destruct cs as [|c' cs].
  - cbn [split_loop] in E3. injection E3 as <-. split; [|done].
    change (zlength []) with 0 in *. replace (e + (1 + 0 - 1) * part) with e by lia.
    eapply (chained_cons _ _ _ s e); [lia|lia|exact Hi|exact Hr|exact E2|]. constructor.
  - assert (Hz1 : 1 <= zlength (c' :: cs)) by (unfold zlength; simpl; lia).
    rewrite (u64_id (e + 1)) in E3 by nia. rewrite (u64_id (e + 1 + part - 1)) in E3 by nia.
    replace (e + 1 + part - 1) with (e + part) in E3 by lia.
    destruct (IH _ (e + 1) (e + part) cs2 Hk Hb Hset Hf' ltac:(done) ltac:(lia) Hp ltac:(nia) E3)
      as [Hch Hlen].
    split; [|simpl in *; congruence].
    eapply (chained_cons _ _ _ s e); [lia|nia|exact Hi|exact Hr|exact E2|].
    replace (e + (1 + zlength (c' :: cs) - 1) * part)
      with (e + part + (zlength (c' :: cs) - 1) * part) by lia. exact Hch.
Qed.

Lemma duplicate_fresh s cs k :
  m_split_instr (ts_vm s) = Some k -> (k < length (m_inst_list (ts_vm s)))%nat ->
  Forall (fresh_core (m_inst_list (ts_vm s)) k) (duplicate_vm s cs).
Proof.
  intros Hs Hk. unfold duplicate_vm. induction cs as [|c cs IH]; constructor; [|exact IH].
  split; [done|]. cbn. rewrite Hs. by rewrite decide_True by done.
Qed.

Lemma split_by_range_chained s cs cs' k i0 lo hi bound :
  m_split_instr (ts_vm s) = Some k -> m_inst_list (ts_vm s) !! k = Some i0 ->
  1 <= zlength cs < 256 -> 0 <= lo <= hi -> hi < bound -> bound <= 18446744073709551616 ->
  (forall a b, 0 <= a <= b -> b < bound -> exists i, set_range a b i0 = Ok i /\ var_range i = Some (a, b)) ->
  split_by_range malloc rand (zlength cs) (hi - lo + 1) lo s cs = Ok (Some cs') ->
  chained (m_inst_list (ts_vm s)) k i0 lo hi cs' /\ length cs' = length cs.
Proof.
  intros Hs Hk Hn Hlo Hhi Hb Hset E. unfold split_by_range in E.
  destruct (Z.ltb_spec (hi - lo + 1) (zlength cs)); [discriminate|].
  destruct (Z.eqb_spec (zlength cs) 0) as [|Hnz]; [lia|]. cbv zeta in E.
  apply bind_Ok in E as (cs2 & E & H1). injection H1 as <-.
  set (n := zlength cs) in *. set (range := hi - lo + 1) in *.
  pose proof (Z.div_mod range n ltac:(lia)) as Hdm. pose proof (Z.mod_pos_bound range n ltac:(lia)).
  assert (Hpart : 1 <= range / n) by (apply Z.div_le_lower_bound; lia).
  assert (Hlast : 0 <= lo + range / n + range mod n - 1 < 18446744073709551616) by nia.
  rewrite u64_id in E by exact Hlast.
  assert (Hzd : zlength (duplicate_vm s cs) = n) by (unfold zlength, duplicate_vm, n; by rewrite length_map).
  destruct (split_loop_chained (m_inst_list (ts_vm s)) k i0 bound (range / n) (duplicate_vm s cs) 0
    lo (lo + range / n + range mod n - 1) cs2) as [Hch Hlen]; try done.
  - apply duplicate_fresh; [done|]. by eapply lookup_lt_Some.
  - intros Hnil. rewrite Hnil in Hzd. unfold zlength in Hzd at 1. simpl in Hzd. lia.
  - lia.
  - rewrite Hzd. nia.
  - rewrite Hzd in Hch.
    replace (lo + range / n + range mod n - 1 + (n - 1) * (range / n)) with hi in Hch by nia.
    split; [done|]. rewrite Hlen. unfold duplicate_vm. by rewrite length_map.
Qed.

(** The bounds a splittable variable has in its class. *)
Definition range_fits (i : StreamVmInstruction) : Prop :=
  match i with
  | FlowMan _ _ _ _ mn mx => 0 <= mn <= mx /\ mx < 18446744073709551616
  | FlowClient _ cmin cmax _ _ _ _ => 0 <= cmin <= cmax /\ cmax < 4294967296
  | _ => False
  end.

(** C33: The splitter partitions the variable's range.  When it splits over the
    cores' copies, every value of the range belongs to the restricted variable of
    exactly one core and no core has a value outside it; the rest of every
    core's program is that of the stream. *)
Theorem split_partition (s : TrexStream) (cs cs' : list TrexStream) (k : nat)
    (i0 : StreamVmInstruction) (lo hi : Z) :
  m_split_instr (ts_vm s) = Some k -> m_inst_list (ts_vm s) !! k = Some i0 ->
  range_fits i0 -> var_range i0 = Some (lo, hi) -> 1 <= zlength cs < 256 ->
  split_internal malloc rand (u8 (zlength cs)) s cs = Ok (Some cs') ->
  length cs' = length cs /\
  (forall x, lo <= x <= hi -> exists j c, cs' !! j = Some c /\ core_covers k c x /\
     forall j' c', cs' !! j' = Some c' -> core_covers k c' x -> j' = j) /\
  (forall j c x, cs' !! j = Some c -> core_covers k c x -> lo <= x <= hi) /\
  (forall j c, cs' !! j = Some c -> exists i,
     m_inst_list (ts_vm c) = <[k := i]> (m_inst_list (ts_vm s))).
Proof.
  intros Hs Hk Hfit Hr Hn E. rewrite u8_id in E by lia. unfold split_internal in E.
  rewrite Hs, Hk in E.
  assert (Hch : chained (m_inst_list (ts_vm s)) k i0 lo hi cs' /\ length cs' = length cs).
  { destruct i0 as [|name size op init mn mx|name cmin cmax pmin pmax lim fl|]; try done;
      injection Hr as -> ->; cbn [range_fits] in Hfit.
    - assert (Hrange : hi - lo + 1 < 18446744073709551616 \/ lo = 0 /\ hi = 18446744073709551615) by lia.
      destruct Hrange as [Hrange|[-> ->]].
      + rewrite u64_id in E by lia.
        assert (Hset : forall a b, 0 <= a <= b -> b < 18446744073709551616 -> exists i,
          set_range a b (FlowMan name size op init lo hi) = Ok i /\ var_range i = Some (a, b))
          by (intros; by eexists).
        destruct op; try discriminate;
          (eapply (split_by_range_chained s cs cs' k _ lo hi 18446744073709551616);
             [exact Hs|exact Hk|exact Hn|lia|lia|lia|exact Hset|exact E]).
      + exfalso. change (u64 (18446744073709551615 - 0 + 1)) with 0 in E.
        unfold split_by_range in E. destruct (Z.ltb_spec 0 (zlength cs)); [|lia].
        destruct op; discriminate.
    - unfold get_ip_range in E.
      assert (Hrange : hi - lo + 1 < 4294967296 \/ lo = 0 /\ hi = 4294967295) by lia.
      destruct Hrange as [Hrange|[-> ->]].
      + rewrite u32_id in E by lia.
        assert (Hset : forall a b, 0 <= a <= b -> b < 4294967296 -> exists i,
          set_range a b (FlowClient name lo hi pmin pmax lim fl) = Ok i /\ var_range i = Some (a, b)).
        { intros a b Ha Hb. eexists. split; [done|]. cbn [var_range]. by rewrite !u32_id by lia. }
        eapply (split_by_range_chained s cs cs' k _ lo hi 4294967296);
          [exact Hs|exact Hk|exact Hn|lia|lia|lia|exact Hset|exact E].
      + exfalso. change (u32 (4294967295 - 0 + 1)) with 0 in E.
        unfold split_by_range in E. destruct (Z.ltb_spec 0 (zlength cs)); [|lia]. discriminate. }
  destruct Hch as [Hch Hlen]. apply lookup_lt_Some in Hk as Hlt.
  pose proof (chained_covers _ _ _ _ _ _ Hlt Hch) as Hcov.
  split; [done|]. split; [intros x; by apply Hcov|]. split; [intros j c x; by apply Hcov|].
  clear -Hch. induction Hch as [|lo e hi i c cs H1 H2 Hset Hr Hl _ IH]; intros j c' Hj.
  - by rewrite lookup_nil in Hj.
  - destruct j as [|j]; [|by eapply IH]. injection Hj as <-. by exists i.
Qed.

End Splitter.

(** A stream with a byte variable 3..12 split over three cores. *)
Definition demo_split_vm : StreamVm :=
  set_split_instruction (Some 0%nat)
    (add_instruction (WriteToPkt "a" 30 0 true)
      (add_instruction (FlowMan "a" 1 FLOW_VAR_OP_INC 3 3 12) StreamVm_new)).

Definition demo_split_stream : TrexStream :=
  set_vm demo_split_vm None
    (mkTrexStream stCONTINUOUS 0 1 (double_of_Z 0) (-1) true true StreamVm_new None
       (mkPktData (Some (replicate 64 0)) 64) (mkRxCheck false false false 0) (double_of_Z 10) 0 1
       (double_of_Z 0)).

Definition demo_cores : list TrexStream :=
  replicate 3 (set_vm StreamVm_new None demo_split_stream).

Definition demo_split_malloc (n : Z) : option bytes := Some (replicate (Z.to_nat n) 0).

Definition demo_split : list TrexStream :=
  match split_internal demo_split_malloc (fun _ => 0) (u8 (zlength demo_cores)) demo_split_stream
          demo_cores with
  | Ok (Some cs) => cs | _ => [] end.

Lemma split_partition_witness :
  length demo_split = 3%nat /\
  exists j c, demo_split !! j = Some c /\ core_covers 0 c 9.
Proof.
  destruct (split_partition demo_split_malloc (fun _ => 0) demo_split_stream demo_cores demo_split 0
    (FlowMan "a" 1 FLOW_VAR_OP_INC 3 3 12) 3 12 eq_refl eq_refl ltac:(cbn; lia) eq_refl
    ltac:(vm_compute; split; congruence) ltac:(vm_compute; reflexivity)) as (Hl & Hc & _).
  split; [exact Hl|]. destruct (Hc 9 ltac:(lia)) as (j & c & Hj & Hcov & _).
  exists j, c. split; [exact Hj|exact Hcov].
Defined.

(** ** The stream table *)

(** Every stream is stored under its own id. *)
Definition table_ok (t : TrexStreamTable) : Prop :=
  forall k s, t !! k = Some s -> s32 (ts_stream_id s) = k.

(** The stream table is a finite map by stream id.  A stream that was added
    is the one found under its id, other ids are not affected, also when the id
    was in use; a removed stream is not found; the table stays indexed by the ids
    of its streams. *)
Theorem stream_table_map (s : TrexStream) (id : Z) (t : TrexStreamTable) :
  0 <= ts_stream_id s < 4294967296 -> 0 <= id < 4294967296 -> table_ok t ->
  get_stream_by_id id (table_add_stream s t) =
    (if decide (id = ts_stream_id s) then Some s else get_stream_by_id id t) /\
  get_stream_by_id id (remove_stream s t) =
    (if decide (id = ts_stream_id s) then None else get_stream_by_id id t) /\
  table_ok (table_add_stream s t) /\ table_ok (remove_stream s t) /\
  table_size (table_add_stream s t) =
    table_size t + (match get_stream_by_id (ts_stream_id s) t with Some _ => 0 | None => 1 end).
Proof.
  intros Hs Hid Ht. assert (Hinj : s32 id = s32 (ts_stream_id s) <-> id = ts_stream_id s)
    by (split; [word_lia|by intros ->]).
  assert (Hadd : table_add_stream s t = <[s32 (ts_stream_id s) := s]> t).
  { unfold table_add_stream, get_stream_by_id. destruct (t !! s32 (ts_stream_id s)) as [old|] eqn:Ho; [|done].
    unfold remove_stream. rewrite (Ht _ _ Ho). apply insert_delete_eq. }
  rewrite Hadd. unfold get_stream_by_id, remove_stream, table_size. split_and!.
  - case_decide as Hd; [rewrite Hd; apply lookup_insert_eq|].
    apply lookup_insert_ne. intros H. by apply Hd, Hinj.
  - case_decide as Hd; [rewrite Hd; apply lookup_delete_eq|].
    apply lookup_delete_ne. intros H. by apply Hd, Hinj.
  - intros k x [[<- <-]|[_ Hx]]%lookup_insert_Some; [done|by apply Ht].
  - intros k x [_ Hx]%lookup_delete_Some. by apply Ht.
  - destruct (t !! s32 (ts_stream_id s)) eqn:Ho.
    + rewrite map_size_insert_Some by by eexists. lia.
    + rewrite map_size_insert_None by done. lia.
Qed.

Definition demo_table : TrexStreamTable := {[ 1 := demo_split_stream ]}.

Lemma demo_table_ok : table_ok demo_table.
Proof. unfold demo_table. intros k x [<- <-]%lookup_singleton_Some. reflexivity. Qed.

Lemma stream_table_map_witness :
  get_stream_by_id 1 (table_add_stream demo_split_stream demo_table) = Some demo_split_stream.
Proof.
  exact (proj1 (stream_table_map demo_split_stream 1 demo_table
    ltac:(vm_compute; split; congruence) ltac:(lia) demo_table_ok)).
Defined.
