(* ===== verification/StreamsCompiler.v ===== *)
(** * The streams compiler

    Models [src/src/stateless/cp/trex_streams_compiler.cpp] up to the rate graph:
    the checks on the graph of streams and the per-core copies that are sent to
    the data path. *)

From S2P Require Import Prelude Double ByteMem PktCmn StreamVm TrexStream.

(** ** The graph of streams

    A [GraphNode*] is the node of an id or the dead end.  The map's own iteration
    order is the order of [map_to_list]. *)

Inductive gref : Type := DeadEnd | NodeId (id : Z).

Record GraphNode : Type := mkGraphNode {
  gn_stream : TrexStream;
  gn_next : option gref;
  gn_parents : list Z;
  gn_marked : bool;
  gn_compressed_stream_id : Z;
}.

Record GraphNodeMap : Type := mkGraphNodeMap {
  m_nodes : gmap Z GraphNode;
  m_roots : list Z;
  m_dead_end_marked : bool;
  m_dead_end_parents : list Z;
}.

Definition GraphNodeMap_new : GraphNodeMap := mkGraphNodeMap ∅ [] false [].

Definition set_nodes (n : gmap Z GraphNode) (g : GraphNodeMap) : GraphNodeMap :=
  mkGraphNodeMap n (m_roots g) (m_dead_end_marked g) (m_dead_end_parents g).

(** [get]: the id is a [uint32_t], compared with [(uint32_t)-1]. *)
Definition gm_get (stream_id : Z) (g : GraphNodeMap) : option gref :=
  if u32 stream_id =? 4294967295 then Some DeadEnd
  else match m_nodes g !! u32 stream_id with Some _ => Some (NodeId (u32 stream_id)) | None => None end.

Definition gm_has (stream_id : Z) (g : GraphNodeMap) : bool :=
  match gm_get stream_id g with Some _ => true | None => false end.

Definition gm_add (n : GraphNode) (g : GraphNodeMap) : bool * GraphNodeMap :=
  let id := ts_stream_id (gn_stream n) in
  if gm_has id g then (false, g)
  else (true, mkGraphNodeMap (<[id := n]> (m_nodes g))
                (if ts_self_start (gn_stream n) then m_roots g ++ [id] else m_roots g)
                (m_dead_end_marked g) (m_dead_end_parents g)).

Definition set_marked (b : bool) (n : GraphNode) : GraphNode :=
  mkGraphNode (gn_stream n) (gn_next n) (gn_parents n) b (gn_compressed_stream_id n).

Definition set_next (r : gref) (n : GraphNode) : GraphNode :=
  mkGraphNode (gn_stream n) (Some r) (gn_parents n) (gn_marked n) (gn_compressed_stream_id n).

Definition push_parent (p : Z) (n : GraphNode) : GraphNode :=
  mkGraphNode (gn_stream n) (gn_next n) (gn_parents n ++ [p]) (gn_marked n)
    (gn_compressed_stream_id n).

Definition clear_marks (g : GraphNodeMap) : GraphNodeMap :=
  set_nodes (set_marked false <$> m_nodes g) g.

Definition get_unmarked (g : GraphNodeMap) : list Z :=
  map fst (filter (fun p => gn_marked (snd p) = false) (map_to_list (m_nodes g))).

(** ** The checks *)

Definition check_stream (s : TrexStream) : res unit :=
  if (ts_type s =? stCONTINUOUS) && negb (ts_next_stream_id s =? -1)
  then throw "continous stream cannot point to another stream" else Ok tt.

Fixpoint allocate_loop (streams : list TrexStream) (compressed_stream_id : Z) (g : GraphNodeMap)
  : res GraphNodeMap :=
  match streams with
  | [] => Ok g
  | s :: streams =>
      if negb (ts_enabled s) then allocate_loop streams compressed_stream_id g
      else
        _ ← check_stream s;
        if gm_has (ts_stream_id s) g then throw "duplicate instance of stream id"
        else
          let '(ok, g) := gm_add (mkGraphNode s None [] false (s32 compressed_stream_id)) g in
          _ ← c_assert ok;
          allocate_loop streams (u32 (compressed_stream_id + 1)) g
  end.

Definition allocate_pass (streams : list TrexStream) (g : GraphNodeMap) : res GraphNodeMap :=
  allocate_loop streams 0 g.

Definition gm_push_parent (r : gref) (p : Z) (g : GraphNodeMap) : GraphNodeMap :=
  match r with
  | DeadEnd => mkGraphNodeMap (m_nodes g) (m_roots g) (m_dead_end_marked g)
                 (m_dead_end_parents g ++ [p])
  | NodeId id => set_nodes (alter (push_parent p) id (m_nodes g)) g
  end.

Fixpoint direct_loop (ids : list (Z * GraphNode)) (g : GraphNodeMap) : res GraphNodeMap :=
  match ids with
  | [] => Ok g
  | (id, n) :: ids =>
      match gm_get (ts_next_stream_id (gn_stream n)) g with
      | None => throw "stream is pointing on non existent stream"
      | Some r =>
          let g := set_nodes (alter (set_next r) id (m_nodes g)) g in
          direct_loop ids (gm_push_parent r (ts_stream_id (gn_stream n)) g)
      end
  end.

(** The warnings: a stream and the streams that trigger it. *)
Definition parent_warnings (g : GraphNodeMap) : list (Z * list Z) :=
  map (fun p => (fst p, gn_parents (snd p)))
    (filter (fun p => 0 < Z.of_nat (length (gn_parents (snd p)))) (map_to_list (m_nodes g))).

Definition direct_pass (g : GraphNodeMap) : res (GraphNodeMap * list (Z * list Z)) :=
  g ← direct_loop (map_to_list (m_nodes g)) g;
  Ok (g, parent_warnings g).

(** Marks and successor of a referenced node. *)
Definition ref_marked (r : gref) (g : GraphNodeMap) : bool :=
  match r with
  | DeadEnd => m_dead_end_marked g
  | NodeId id => match m_nodes g !! id with Some n => gn_marked n | None => false end
  end.

Definition mark_ref (r : gref) (g : GraphNodeMap) : GraphNodeMap :=
  match r with
  | DeadEnd => mkGraphNodeMap (m_nodes g) (m_roots g) true (m_dead_end_parents g)
  | NodeId id => set_nodes (alter (set_marked true) id (m_nodes g)) g
  end.

Definition ref_next (r : gref) (g : GraphNodeMap) : option gref :=
  match r with
  | DeadEnd => None
  | NodeId id => match m_nodes g !! id with Some n => gn_next n | None => None end
  end.

(** [while (!next_nodes.empty())]: the head of the list is the back of the
    vector.  A turn either marks a node or drops a marked one, so there are at
    most as many turns as roots, nodes and the dead end together. *)
Fixpoint bfs_loop (fuel : nat) (next_nodes : list gref) (g : GraphNodeMap) : res GraphNodeMap :=
  match fuel with
  | O => Err OutOfFuel
  | S fuel =>
      match next_nodes with
      | [] => Ok g
      | r :: next_nodes =>
          if ref_marked r g then bfs_loop fuel next_nodes g
          else
            let g := mark_ref r g in
            match ref_next r g with
            | Some r' => bfs_loop fuel (r' :: next_nodes) g
            | None => bfs_loop fuel next_nodes g
            end
      end
  end.

Definition bfs_fuel (g : GraphNodeMap) : nat := length (m_roots g) + size (m_nodes g) + 2.

Definition check_for_unreachable_streams (g : GraphNodeMap) : res GraphNodeMap :=
  let g := clear_marks g in
  g ← bfs_loop (bfs_fuel g) (rev (map NodeId (m_roots g))) g;
  match get_unmarked g with
  | [] => Ok g
  | _ => throw "stream is unreachable from any other stream"
  end.

(** Returns the nodes and the warnings. *)
Definition pre_compile_check (streams : list TrexStream) : res (GraphNodeMap * list (Z * list Z)) :=
  g ← allocate_pass streams GraphNodeMap_new;
  '(g, w) ← direct_pass g;
  g ← check_for_unreachable_streams g;
  Ok (g, w).

(** ** The compiled objects *)

Record TrexStreamsCompiledObj : Type := mkCompiledObj {
  m_objs : list TrexStream;
  m_all_continues : bool;
  co_port_id : Z;
}.

Definition add_compiled_stream (s : TrexStream) (o : TrexStreamsCompiledObj)
  : TrexStreamsCompiledObj :=
  mkCompiledObj (m_objs o ++ [s]) (m_all_continues o) (co_port_id o).

Section CompileStreams.
Context (malloc : Z -> option bytes) (rand : nat -> nat -> Z).

Fixpoint clone_streams (l : list TrexStream) : res (list TrexStream) :=
  match l with
  | [] => Ok []
  | s :: l => s ← TrexStream_clone malloc s; l ← clone_streams l; Ok (s :: l)
  end.

(** [TrexStreamsCompiledObj::clone]: [m_all_continues] is not copied. *)
Definition CompiledObj_clone (o : TrexStreamsCompiledObj) : res TrexStreamsCompiledObj :=
  l ← clone_streams (m_objs o); Ok (mkCompiledObj l false (co_port_id o)).

Definition compressed_of (stream_id : Z) (g : GraphNodeMap) : res Z :=
  match gm_get stream_id g with
  | Some (NodeId id) =>
      match m_nodes g !! id with Some n => Ok (gn_compressed_stream_id n) | None => Err NullDeref end
  | Some DeadEnd => Ok (-1)
  | None => Err NullDeref
  end.

(** The copies of the stream, one per core. *)
Fixpoint core_copies (n : nat) (new_id new_next_id : Z) (rate : double) (pkts : Z)
    (s : TrexStream) : res (list TrexStream) :=
  match n with
  | O => Ok []
  | S n =>
      c ← TrexStream_clone malloc s;
      cs ← core_copies n new_id new_next_id rate pkts s;
      Ok (set_ids_rate new_id new_next_id rate (u32 pkts) c :: cs)
  end.

(** [core_streams[0]->m_burst_total_pkts += burst_remainder] *)
Definition add_remainder (burst_remainder : Z) (cs : list TrexStream) : res (list TrexStream) :=
  match cs with
  | [] => Err OutOfBounds
  | c :: cs =>
      Ok (set_ids_rate (ts_stream_id c) (ts_next_stream_id c) (ts_pps c)
            (u32 (ts_burst_total_pkts c + burst_remainder)) c :: cs)
  end.

Fixpoint add_to_objs (cs : list TrexStream) (objs : list TrexStreamsCompiledObj)
  : res (list TrexStreamsCompiledObj) :=
  match cs, objs with
  | [], objs => Ok objs
  | c :: cs, o :: objs => objs ← add_to_objs cs objs; Ok (add_compiled_stream c o :: objs)
  | _ :: _, [] => Err OutOfBounds
  end.

(** [k] numbers the compiled streams, for the draws of their compilations.  The
    splitter leaves a compiled VM in the reference stream, which no later step
    reads. *)
Definition compile_stream (k : nat) (s : TrexStream) (factor : double) (dp_core_count : Z)
    (objs : list TrexStreamsCompiledObj) (g : GraphNodeMap)
  : res (list TrexStreamsCompiledObj) :=
  new_id ← compressed_of (ts_stream_id s) g;
  _ ← c_assert (0 <=? new_id);
  new_next_id ← (if 0 <=? ts_next_stream_id s then compressed_of (ts_next_stream_id s) g
                 else Ok (-1));
  if dp_core_count =? 0 then Err DivByZero
  else
    let per_core_rate := double_mul (ts_pps s) (double_div factor (double_of_Z dp_core_count)) in
    let per_core_burst_total_pkts := s32 (ts_burst_total_pkts s / dp_core_count) in
    cs ← core_copies (Z.to_nat dp_core_count) new_id new_next_id per_core_rate
           per_core_burst_total_pkts s;
    let burst_remainder :=
      s32 (u32 (ts_burst_total_pkts s - per_core_burst_total_pkts * dp_core_count)) in
    cs ← add_remainder burst_remainder cs;
    '(_, cs) ← split malloc (rand k) s cs;
    add_to_objs cs objs.

Fixpoint compile_streams (k : nat) (streams : list TrexStream) (factor : double)
    (dp_core_count : Z) (objs : list TrexStreamsCompiledObj) (g : GraphNodeMap)
  : res (list TrexStreamsCompiledObj) :=
  match streams with
  | [] => Ok objs
  | s :: streams =>
      if negb (ts_enabled s) then compile_streams k streams factor dp_core_count objs g
      else
        objs ← compile_stream k s factor dp_core_count objs g;
        compile_streams (S k) streams factor dp_core_count objs g
  end.

(** [compile_internal] on an empty vector of objects; the warnings are the
    second component. *)
Definition compile_internal (port_id : Z) (streams : list TrexStream) (dp_core_count : Z)
    (factor : double) : res (list TrexStreamsCompiledObj * list (Z * list Z)) :=
  '(g, w) ← pre_compile_check streams;
  let all_continues := forallb (fun s => ts_type s =? stCONTINUOUS) streams in
  let objs := replicate (Z.to_nat dp_core_count) (mkCompiledObj [] all_continues port_id) in
  objs ← compile_streams 0 streams factor dp_core_count objs g;
  Ok (objs, w).

(** [compile]: a [TrexException] becomes [false] and its message. *)
Definition compile_all (port_id : Z) (streams : list TrexStream) (dp_core_count : Z)
    (factor : double) : res (string + list TrexStreamsCompiledObj) :=
  match compile_internal port_id streams dp_core_count factor with
  | Ok (objs, _) => Ok (inr objs)
  | Err (Thrown msg) => Ok (inl msg)
  | Err f => Err f
  end.

End CompileStreams.
