(* ===== verification/StreamsCompilerFacts.v ===== *)
(** * Properties of the streams compiler

    [pre_compile_check] accepts exactly the stream lists whose graph is well
    formed: [pre_compile_check_iff].  The ids of the compiled streams are the
    positions the data path expects, and bursts are divided without loss. *)

From S2P Require Import Prelude Double ByteMem PktCmn StreamVm TrexStream StreamsCompiler.

(** ** The specification of the checks *)

Definition enabled (streams : list TrexStream) : list TrexStream :=
  filter (fun s => ts_enabled s = true) streams.

Definition ids (l : list TrexStream) : list Z := map ts_stream_id l.

Definition stream_ok (s : TrexStream) : Prop := 0 <= ts_stream_id s < 4294967296.

(** A stream that starts by itself, or that one of these points to. *)
Inductive reachable (l : list TrexStream) : Z -> Prop :=
  | reach_root s : s ∈ l -> ts_self_start s = true -> reachable l (ts_stream_id s)
  | reach_next s s' : s ∈ l -> s' ∈ l -> reachable l (ts_stream_id s) ->
      u32 (ts_next_stream_id s) = ts_stream_id s' -> reachable l (ts_stream_id s').

Record graph_ok (l : list TrexStream) : Prop := {
  go_cont : forall s, s ∈ l -> ts_type s = stCONTINUOUS -> ts_next_stream_id s = -1;
  go_ids : NoDup (ids l);
  go_dead : forall s, s ∈ l -> ts_stream_id s <> 4294967295;
  go_next : forall s, s ∈ l ->
    u32 (ts_next_stream_id s) = 4294967295 \/ u32 (ts_next_stream_id s) ∈ ids l;
  go_reach : forall s, s ∈ l -> reachable l (ts_stream_id s)
}.

(** ** The first pass *)

Definition new_node (s : TrexStream) (c : Z) : GraphNode := mkGraphNode s None [] false (s32 c).

(** The map after the nodes of [l] were added, numbered from [c]. *)
Fixpoint alloc_result (l : list TrexStream) (c : Z) (g : GraphNodeMap) : GraphNodeMap :=
  match l with
  | [] => g
  | s :: l => alloc_result l (u32 (c + 1))
      (mkGraphNodeMap (<[ts_stream_id s := new_node s c]> (m_nodes g))
         (if ts_self_start s then m_roots g ++ [ts_stream_id s] else m_roots g)
         (m_dead_end_marked g) (m_dead_end_parents g))
  end.

(** What the first pass checks. *)
Record alloc_ok (l : list TrexStream) (g : GraphNodeMap) : Prop := {
  ao_cont : forall s, s ∈ l -> ts_type s = stCONTINUOUS -> ts_next_stream_id s = -1;
  ao_ids : NoDup (ids l);
  ao_new : forall s, s ∈ l -> ts_stream_id s <> 4294967295 /\ m_nodes g !! ts_stream_id s = None
}.

Lemma check_stream_iff s :
  check_stream s = Ok tt /\ (ts_type s = stCONTINUOUS -> ts_next_stream_id s = -1) \/
  (exists m, check_stream s = Err (Thrown m)) /\ ts_type s = stCONTINUOUS /\ ts_next_stream_id s <> -1.
Proof.
  unfold check_stream. destruct (Z.eqb_spec (ts_type s) stCONTINUOUS), (Z.eqb_spec (ts_next_stream_id s) (-1));
    cbn [andb negb]; [left; auto|right; split; [by eexists|auto]|left; done|left; done].
Qed.

Lemma gm_has_false s g : stream_ok s ->
  gm_has (ts_stream_id s) g = false <->
  ts_stream_id s <> 4294967295 /\ m_nodes g !! ts_stream_id s = None.
Proof.
  intros Hs. unfold gm_has, gm_get. rewrite u32_id by exact Hs.
  destruct (Z.eqb_spec (ts_stream_id s) 4294967295); [split; [discriminate|tauto]|].
  destruct (m_nodes g !! ts_stream_id s); split; naive_solver.
Qed.

Lemma ids_elem s l : s ∈ l -> ts_stream_id s ∈ ids l.
Proof. intros. apply list_elem_of_fmap. by exists s. Qed.

Lemma elem_ids i l : i ∈ ids l -> exists s, s ∈ l /\ ts_stream_id s = i.
Proof. intros (s & -> & Hs)%list_elem_of_fmap. by exists s. Qed.

Lemma alloc_ok_cons s l g c :
  alloc_ok (s :: l) g <->
  (ts_type s = stCONTINUOUS -> ts_next_stream_id s = -1) /\
  (ts_stream_id s <> 4294967295 /\ m_nodes g !! ts_stream_id s = None) /\
  alloc_ok l (mkGraphNodeMap (<[ts_stream_id s := new_node s c]> (m_nodes g))
         (if ts_self_start s then m_roots g ++ [ts_stream_id s] else m_roots g)
         (m_dead_end_marked g) (m_dead_end_parents g)).
Proof.
  split.
  - intros [Hc Hn Ho]. cbn [ids map] in Hn. apply NoDup_cons in Hn as [Hni Hn].
    assert (Hs : s ∈ s :: l) by apply list_elem_of_here.
    split; [by apply Hc|]. split; [by apply Ho|].
    split; [|done|].
    + intros s' Hs'. by apply Hc, list_elem_of_further.
    + intros s' Hs'. destruct (Ho s') as [H1 H2]; [by apply list_elem_of_further|].
      split; [done|]. cbn [m_nodes]. rewrite lookup_insert_ne; [done|].
      intros Heq. apply Hni. rewrite Heq. by apply ids_elem.
  - intros (Hc & (H1 & H2) & [Hc' Hn Ho]). split.
    + intros s' [->|Hs']%elem_of_cons; [done|by apply Hc'].
    + cbn [ids map]. apply NoDup_cons. split; [|done].
      intros (s' & Hs' & Heq)%elem_ids. destruct (Ho s' Hs') as [_ Hl].
      cbn [m_nodes] in Hl. rewrite Heq, lookup_insert_eq in Hl. discriminate.
    + intros s' [->|Hs']%elem_of_cons; [done|]. destruct (Ho s' Hs') as [H3 H4].
      split; [done|]. cbn [m_nodes] in H4. by apply lookup_insert_None in H4 as [? _].
Qed.

Lemma allocate_loop_spec streams : forall c g,
  Forall stream_ok streams ->
  alloc_ok (enabled streams) g /\
    allocate_loop streams c g = Ok (alloc_result (enabled streams) c g) \/
  ~ alloc_ok (enabled streams) g /\ exists m, allocate_loop streams c g = Err (Thrown m).
Proof.
  induction streams as [|s streams IH]; intros c g Hok.
  - left. split; [|done]. split; [|apply NoDup_nil_2|]; intros s Hs; by apply elem_of_nil in Hs.
  - inversion Hok as [|? ? Hs Hok']; subst. cbn [allocate_loop]. unfold enabled in *.
    destruct (ts_enabled s) eqn:He; cbn [negb].
    + rewrite filter_cons_True by done. cbn [alloc_result].
      rewrite (alloc_ok_cons s (filter _ streams) g c).
      destruct (check_stream_iff s) as [[-> Hc]|((m & ->) & Ht & Hn)].
      * cbn [mbind res_bind]. destruct (gm_has (ts_stream_id s) g) eqn:Hh.
        -- right. split; [|by eexists]. intros (_ & Hf & _).
           apply (gm_has_false s g Hs) in Hf. congruence.
        -- pose proof (proj1 (gm_has_false s g Hs) Hh) as Hf.
           unfold gm_add. cbn [gn_stream]. rewrite Hh. cbn [c_assert mbind res_bind].
           destruct (IH (u32 (c + 1)) (mkGraphNodeMap (<[ts_stream_id s := new_node s c]> (m_nodes g))
             (if ts_self_start s then m_roots g ++ [ts_stream_id s] else m_roots g)
             (m_dead_end_marked g) (m_dead_end_parents g)) Hok') as [[Ha E]|[Ha E]];
             [left|right]; (split; [tauto|exact E]).
      * right. split; [tauto|by eexists].
    + rewrite filter_cons_False by congruence. by apply IH.
Qed.

(** The nodes of the first pass: one per stream, numbered in order. *)
Lemma alloc_result_lookup l : forall c g id n,
  alloc_ok l g -> 0 <= c -> c + Z.of_nat (length l) < 2147483648 ->
  m_nodes (alloc_result l c g) !! id = Some n <->
  (exists k s, l !! k = Some s /\ ts_stream_id s = id /\ n = new_node s (c + Z.of_nat k)) \/
  m_nodes g !! id = Some n.
Proof.
  induction l as [|s l IH]; intros c g id n Hok H0 Hc; cbn [alloc_result].
  - split; [by right|]. intros [(k & s & Hk & _)|]; [|done]. by rewrite lookup_nil in Hk.
  - apply (alloc_ok_cons s l g c) in Hok as (_ & (Hd & Hnone) & Hok).
    cbn [length] in Hc. rewrite u32_id by lia. rewrite (IH (c + 1) _ id n Hok) by lia.
    cbn [m_nodes]. rewrite lookup_insert_Some. split.
    + intros [(k & s' & Hk & Hid & ->)|[[<- <-]|[_ Hg]]].
      * left. exists (S k), s'. split_and!; [done..|]. f_equal. lia.
      * left. exists O, s. split_and!; [done..|]. f_equal. lia.
      * by right.
    + intros [([|k] & s' & Hk & Hid & ->)|Hg].
      * right. left. injection Hk as ->. split; [done|]. f_equal. lia.
      * left. exists k, s'. split_and!; [done..|]. f_equal. lia.
      * right. right. split; [|done]. intros <-. congruence.
Qed.

Lemma alloc_result_frame l : forall c g,
  m_roots (alloc_result l c g) = m_roots g ++ ids (filter (fun s => ts_self_start s = true) l) /\
  m_dead_end_marked (alloc_result l c g) = m_dead_end_marked g.
Proof.
  induction l as [|s l IH]; intros c g; cbn [alloc_result].
  - by rewrite app_nil_r.
  - destruct (IH (u32 (c + 1)) (mkGraphNodeMap (<[ts_stream_id s := new_node s c]> (m_nodes g))
         (if ts_self_start s then m_roots g ++ [ts_stream_id s] else m_roots g)
         (m_dead_end_marked g) (m_dead_end_parents g))) as [-> ->]. split; [|done].
    cbn [m_roots]. destruct (ts_self_start s) eqn:Hs.
    + rewrite filter_cons_True by done. cbn [ids map]. by rewrite <- app_assoc.
    + by rewrite filter_cons_False by congruence.
Qed.

(** ** The second pass *)

(** Everything of a node but its parents. *)
Definition core (n : GraphNode) : TrexStream * option gref * bool * Z :=
  (gn_stream n, gn_next n, gn_marked n, gn_compressed_stream_id n).

Definition core_at (g : GraphNodeMap) (id : Z) : option (TrexStream * option gref * bool * Z) :=
  core <$> m_nodes g !! id.

Lemma gm_get_core x g g' :
  (forall id, is_Some (core_at g id) <-> is_Some (core_at g' id)) -> gm_get x g = gm_get x g'.
Proof.
  intros H. unfold gm_get. destruct (_ =? _); [done|]. specialize (H (u32 x)).
  unfold core_at in H. rewrite !fmap_is_Some in H.
  destruct (m_nodes g !! u32 x), (m_nodes g' !! u32 x); try done; exfalso.
  - destruct H as [H _]. destruct H as [? ?]; [by eexists|discriminate].
  - destruct H as [_ H]. destruct H as [? ?]; [by eexists|discriminate].
Qed.

Lemma core_push_parent r p g id : core_at (gm_push_parent r p g) id = core_at g id.
Proof.
  destruct r as [|i]; [done|]. unfold core_at. cbn [gm_push_parent set_nodes m_nodes].
  destruct (decide (i = id)) as [->|Hne].
  - rewrite lookup_alter_eq. by destruct (m_nodes g !! id).
  - by rewrite lookup_alter_ne.
Qed.

Lemma core_set_next r i g id :
  core_at (set_nodes (alter (set_next r) i (m_nodes g)) g) id =
    if decide (i = id)
    then (fun c => (fst (fst (fst c)), Some r, snd (fst c), snd c)) <$> core_at g id
    else core_at g id.
Proof.
  unfold core_at. cbn [set_nodes m_nodes]. case_decide as Hd.
  - subst. rewrite lookup_alter_eq. by destruct (m_nodes g !! id).
  - by rewrite lookup_alter_ne.
Qed.

Lemma frame_push_parent r p g :
  m_roots (gm_push_parent r p g) = m_roots g /\
  m_dead_end_marked (gm_push_parent r p g) = m_dead_end_marked g.
Proof. by destruct r. Qed.

(** A node after the second pass over the ids of [l]. *)
Definition directed (l : list (Z * GraphNode)) (g : GraphNodeMap) (id : Z)
    (c : TrexStream * option gref * bool * Z) : TrexStream * option gref * bool * Z :=
  (fst (fst (fst c)),
   (if decide (id ∈ map fst l) then gm_get (ts_next_stream_id (fst (fst (fst c)))) g
    else snd (fst (fst c))),
   snd (fst c), snd c).

Lemma direct_loop_spec l : forall g,
  NoDup (map fst l) ->
  (forall id n, (id, n) ∈ l -> exists n0, m_nodes g !! id = Some n0 /\ gn_stream n0 = gn_stream n) ->
  (forall id n, (id, n) ∈ l -> gm_has (ts_next_stream_id (gn_stream n)) g = true) /\
    (exists g', direct_loop l g = Ok g' /\ m_roots g' = m_roots g /\
       m_dead_end_marked g' = m_dead_end_marked g /\
       forall id, core_at g' id = directed l g id <$> core_at g id) \/
  (exists id n, (id, n) ∈ l /\ gm_has (ts_next_stream_id (gn_stream n)) g = false) /\
    exists m, direct_loop l g = Err (Thrown m).
Proof.
  induction l as [|[i n] l IH]; intros g Hnd Hin.
  - left. split; [intros ? ? H; by apply elem_of_nil in H|]. exists g. split_and!; try done.
    intros id. unfold directed. cbn [map]. destruct (core_at g id) as [[[[s nx] m] c]|]; [|done].
    cbn. case_decide as Hd; [by apply elem_of_nil in Hd|done].
  - cbn [direct_loop map fst] in *. apply NoDup_cons in Hnd as [Hni Hnd].
    destruct (Hin i n) as (n0 & Hn0 & Hs0); [apply list_elem_of_here|].
    destruct (gm_get (ts_next_stream_id (gn_stream n)) g) as [r|] eqn:Hg.
    2:{ right. split; [|by eexists]. exists i, n. split; [apply list_elem_of_here|].
        unfold gm_has. by rewrite Hg. }
    set (g1 := set_nodes (alter (set_next r) i (m_nodes g)) g).
    set (g2 := gm_push_parent r (ts_stream_id (gn_stream n)) g1).
    assert (Hcore : forall id, core_at g2 id = directed [(i, n)] g id <$> core_at g id).
    { intros id. unfold g2. rewrite core_push_parent. unfold g1. rewrite core_set_next.
      unfold directed. cbn [map fst]. case_decide as Hd.
      - subst id. unfold core_at. rewrite Hn0. cbn. rewrite decide_True by apply list_elem_of_here.
        by rewrite Hs0, Hg.
      - destruct (core_at g id) as [[[[s nx] m] c]|]; [|done]. cbn.
        rewrite decide_False; [done|]. rewrite list_elem_of_singleton. congruence. }
    assert (Hget : forall x, gm_get x g2 = gm_get x g).
    { intros x. apply gm_get_core. intros id. rewrite Hcore. by rewrite fmap_is_Some. }
    destruct (IH g2 Hnd) as [[Hall (g' & E & Hr & Hm & Hc)]|[(id & n' & Hid & Hh) (m & E)]].
    + intros id n' Hid. destruct (Hin id n') as (n1 & Hn1 & Hs1); [by apply list_elem_of_further|].
      specialize (Hcore id). unfold core_at in Hcore. rewrite Hn1 in Hcore.
      destruct (m_nodes g2 !! id) as [n2|]; [|discriminate]. exists n2. split; [done|].
      unfold core, directed in Hcore. simpl in Hcore. injection Hcore as H1 _ _ _. congruence.
    + left. split.
      * intros id n' [[= -> ->]|Hid]%elem_of_cons; [unfold gm_has; by rewrite Hg|].
        specialize (Hall _ _ Hid). unfold gm_has in *. by rewrite Hget in Hall.
      * exists g'. split; [exact E|]. destruct (frame_push_parent r (ts_stream_id (gn_stream n)) g1) as [F1 F2].
        fold g2 in F1, F2. split; [by rewrite Hr|]. split; [by rewrite Hm|].
        intros id. rewrite Hc, Hcore. destruct (core_at g id) as [[[[s nx] mk] c]|]; [|done].
        unfold directed. cbn. do 4 f_equal. rewrite Hget.
        destruct (decide (id ∈ map fst l)) as [H1|H1].
        -- by rewrite decide_True by by apply list_elem_of_further.
        -- destruct (decide (id ∈ [i])) as [H2|H2].
           ++ rewrite decide_True; [done|]. apply list_elem_of_singleton in H2 as ->.
              apply list_elem_of_here.
           ++ rewrite decide_False; [done|]. intros [->|H3]%elem_of_cons; [|done].
              apply H2, list_elem_of_here.
    + right. split; [|by exists m]. exists id, n'. split; [by apply list_elem_of_further|].
      unfold gm_has in *. by rewrite Hget in Hh.
Qed.

(** ** The reachability check *)

Inductive greach (g : GraphNodeMap) : gref -> Prop :=
  | greach_root id : id ∈ m_roots g -> greach g (NodeId id)
  | greach_next r r' : greach g r -> ref_next r g = Some r' -> greach g r'.

Definition valid_ref (g : GraphNodeMap) (r : gref) : Prop :=
  match r with DeadEnd => True | NodeId id => is_Some (m_nodes g !! id) end.

(** All references of the graph lead to nodes of the graph. *)
Definition closed_graph (g : GraphNodeMap) : Prop :=
  (forall id, id ∈ m_roots g -> is_Some (m_nodes g !! id)) /\
  (forall r r', ref_next r g = Some r' -> valid_ref g r').

Definition links (g : GraphNodeMap) : gmap Z (option gref) := gn_next <$> m_nodes g.

Lemma ref_next_links r g g' : links g = links g' -> ref_next r g = ref_next r g'.
Proof.
  intros H. destruct r as [|id]; [done|]. cbn [ref_next].
  assert (Hl : links g !! id = links g' !! id) by by rewrite H.
  unfold links in Hl. rewrite !lookup_fmap in Hl.
  destruct (m_nodes g !! id), (m_nodes g' !! id); try discriminate; [|done].
  cbn in Hl. by injection Hl as ->.
Qed.

Lemma valid_ref_links r g g' : links g = links g' -> valid_ref g r -> valid_ref g' r.
Proof.
  intros H. destruct r as [|id]; [done|]. cbn [valid_ref].
  assert (Hl : links g !! id = links g' !! id) by by rewrite H.
  unfold links in Hl. rewrite !lookup_fmap in Hl. intros [n Hn]. rewrite Hn in Hl.
  destruct (m_nodes g' !! id); [by eexists|discriminate].
Qed.

Lemma links_mark r g : links (mark_ref r g) = links g.
Proof.
  destruct r as [|id]; [done|]. apply map_eq. intros i. unfold links.
  rewrite !lookup_fmap. cbn [mark_ref set_nodes m_nodes].
  destruct (decide (id = i)) as [->|Hne].
  - rewrite lookup_alter_eq. by destruct (m_nodes g !! i).
  - by rewrite lookup_alter_ne.
Qed.

Lemma marked_mark r r' g :
  valid_ref g r -> ref_marked r' (mark_ref r g) = true <-> r' = r \/ ref_marked r' g = true.
Proof.
  intros Hv. destruct r as [|id], r' as [|id']; cbn [mark_ref ref_marked m_dead_end_marked m_nodes set_nodes];
    try naive_solver.
  destruct (decide (id' = id)) as [->|Hne].
  - rewrite lookup_alter_eq. destruct Hv as [n Hn]. rewrite Hn. cbn. naive_solver.
  - rewrite lookup_alter_ne by done. naive_solver.
Qed.

Definition unmarked (g : GraphNodeMap) : nat :=
  size (filter (fun p => gn_marked (snd p) = false) (m_nodes g)) +
  (if m_dead_end_marked g then 0 else 1).

Lemma unmarked_mark r g :
  valid_ref g r -> ref_marked r g = false -> S (unmarked (mark_ref r g)) = unmarked g.
Proof.
  intros Hv Hm. unfold unmarked. destruct r as [|id]; cbn [ref_marked] in Hm;
    cbn [mark_ref set_nodes m_nodes m_dead_end_marked].
  - rewrite Hm. lia.
  - destruct Hv as [n Hn]. rewrite Hn in Hm.
    replace (filter (fun p : Z * GraphNode => gn_marked (snd p) = false)
               (alter (set_marked true) id (m_nodes g)))
      with (delete id (filter (fun p : Z * GraphNode => gn_marked (snd p) = false) (m_nodes g))).
    + assert (Hs : filter (fun p : Z * GraphNode => gn_marked (snd p) = false) (m_nodes g) !! id = Some n)
        by by apply map_lookup_filter_Some.
      rewrite map_size_delete_Some by by eexists.
      assert (size (filter (fun p : Z * GraphNode => gn_marked (snd p) = false) (m_nodes g)) <> 0%nat).
      { intros H0%map_size_empty_inv. by rewrite H0 in Hs. }
      lia.
    + apply map_eq. intros i. apply option_eq. intros x.
      rewrite lookup_delete_Some, !map_lookup_filter_Some. destruct (decide (id = i)) as [->|Hne].
      * rewrite lookup_alter_eq, Hn. cbn. naive_solver.
      * rewrite lookup_alter_ne by done. naive_solver.
Qed.

Record bfs_inv (g0 g : GraphNodeMap) (stack : list gref) : Prop := {
  bi_links : links g = links g0;
  bi_roots : m_roots g = m_roots g0;
  bi_sound : forall r, ref_marked r g = true \/ r ∈ stack -> greach g0 r;
  bi_start : forall id, id ∈ m_roots g0 -> ref_marked (NodeId id) g = true \/ NodeId id ∈ stack;
  bi_closed : forall r r', ref_marked r g = true -> ref_next r g0 = Some r' ->
    ref_marked r' g = true \/ r' ∈ stack
}.

Lemma greach_valid g r : closed_graph g -> greach g r -> valid_ref g r.
Proof. intros [H1 H2]. induction 1; [by apply H1|by eapply H2]. Qed.

Lemma bfs_loop_spec g0 : closed_graph g0 -> forall fuel stack g,
  bfs_inv g0 g stack -> (length stack + unmarked g < fuel)%nat ->
  exists g', bfs_loop fuel stack g = Ok g' /\ bfs_inv g0 g' [].
Proof.
  intros Hcl fuel. induction fuel as [|fuel IH]; intros stack g Hi Hf; [lia|].
  destruct stack as [|r stack]; cbn [bfs_loop]; [by exists g|]. cbn [length] in Hf.
  pose proof Hi as [Hl Hro Hs Hst Hc].
  destruct (ref_marked r g) eqn:Hm.
  - apply IH; [|lia]. split; [done|done| | |].
    + intros r' [H|H]; apply Hs; [by left|right; by apply list_elem_of_further].
    + intros id Hid. destruct (Hst id Hid) as [H|[<-|H]%elem_of_cons]; auto.
    + intros r1 r2 H1 H2. destruct (Hc r1 r2 H1 H2) as [H|[->|H]%elem_of_cons]; auto.
  - assert (Hr : greach g0 r) by (apply Hs; right; apply list_elem_of_here).
    assert (Hv : valid_ref g r)
      by (eapply valid_ref_links; [symmetry; exact Hl|]; by eapply greach_valid).
    pose proof (unmarked_mark r g Hv Hm) as Hu.
    assert (Hn : ref_next r (mark_ref r g) = ref_next r g0)
      by (apply ref_next_links; rewrite links_mark; exact Hl).
    assert (Hinv : forall stack', (forall x, x ∈ stack -> x ∈ stack') ->
      (forall x, x ∈ stack' -> x ∈ stack \/ ref_next r g0 = Some x) ->
      (forall x, ref_next r g0 = Some x -> x ∈ stack') ->
      bfs_inv g0 (mark_ref r g) stack').
    { intros stack' Hsub Hsup Hnx. split.
      - by rewrite links_mark.
      - destruct r; exact Hro.
      - intros r' [H|H].
        + apply marked_mark in H as [->|H]; [done| |done]. apply Hs. by left.
        + destruct (Hsup _ H) as [H'|H']; [apply Hs; right; by apply list_elem_of_further|].
          by eapply greach_next.
      - intros id Hid. destruct (Hst id Hid) as [H|[<-|H]%elem_of_cons].
        + left. apply marked_mark; auto.
        + left. apply marked_mark; auto.
        + right. auto.
      - intros r1 r2 H1 H2. apply marked_mark in H1 as [->|H1]; [|  |done].
        + right. by apply Hnx.
        + destruct (Hc r1 r2 H1 H2) as [H|[->|H]%elem_of_cons].
          * left. apply marked_mark; auto.
          * left. apply marked_mark; auto.
          * right. auto. }
    rewrite Hn. destruct (ref_next r g0) as [r'|] eqn:Hnx.
    + apply IH; [|cbn [length]; lia]. apply Hinv.
      * intros x Hx. by apply list_elem_of_further.
      * intros x [->|Hx]%elem_of_cons; auto.
      * intros x [= ->]. apply list_elem_of_here.
    + apply IH; [|lia]. apply Hinv; [done|auto|discriminate].
Qed.

Lemma clear_marks_links g : links (clear_marks g) = links g.
Proof.
  apply map_eq. intros i. unfold links, clear_marks. cbn [set_nodes m_nodes].
  rewrite !lookup_fmap. by destruct (m_nodes g !! i).
Qed.

(** The third pass accepts exactly the graphs without an unreachable node. *)
Lemma check_unreachable_spec g :
  closed_graph g -> m_dead_end_marked g = false ->
  (forall id, is_Some (m_nodes g !! id) -> greach g (NodeId id)) /\
    (exists g', check_for_unreachable_streams g = Ok g' /\
       forall id n, m_nodes g' !! id = Some n -> gn_marked n = true) \/
  (exists id, is_Some (m_nodes g !! id) /\ ~ greach g (NodeId id)) /\
    exists m, check_for_unreachable_streams g = Err (Thrown m).
Proof.
  intros Hcl Hd. unfold check_for_unreachable_streams. set (g0 := clear_marks g).
  cbv zeta. change (m_roots g0) with (m_roots g).
  assert (Hlk : links g0 = links g) by apply clear_marks_links.
  assert (Hcl0 : closed_graph g0).
  { destruct Hcl as [H1 H2]. split.
    - intros id Hid. apply (valid_ref_links (NodeId id) g g0); [done|]. by apply H1.
    - intros r r' Hr. apply (valid_ref_links r' g g0); [done|]. apply (H2 r).
      by rewrite <- (ref_next_links r g0 g). }
  assert (Hgr : forall r, greach g0 r <-> greach g r).
  { intros r. split; induction 1.
    - by apply greach_root.
    - eapply greach_next; [done|]. by rewrite <- (ref_next_links _ g0 g).
    - by apply greach_root.
    - eapply greach_next; [done|]. by rewrite (ref_next_links _ g0 g). }
  assert (Hunm : forall r, ref_marked r g0 = false).
  { intros [|id]; [exact Hd|]. cbn [ref_marked]. unfold g0, clear_marks. cbn [set_nodes m_nodes].
    rewrite lookup_fmap. by destruct (m_nodes g !! id). }
  destruct (bfs_loop_spec g0 Hcl0 (bfs_fuel g0) (rev (map NodeId (m_roots g))) g0) as (g' & E & [Hl Hr Hs Hst Hc]).
  - split; [done|done| | |].
    + intros r [H|H]; [by rewrite Hunm in H|].
      apply list_elem_of_In, in_rev, in_map_iff in H as (id & <- & Hid).
      apply greach_root. by apply list_elem_of_In.
    + intros id Hid. right. apply list_elem_of_In, in_rev. rewrite rev_involutive.
      by apply in_map, list_elem_of_In.
    + intros r r' H. by rewrite Hunm in H.
  - unfold bfs_fuel, unmarked. rewrite length_rev, length_map.
    pose proof (map_size_filter (fun p : Z * GraphNode => gn_marked (snd p) = false) (m_nodes g0)).
    change (m_roots g0) with (m_roots g). change (m_dead_end_marked g0) with (m_dead_end_marked g).
    rewrite Hd. lia.
  - rewrite E. cbn [mbind res_bind].
    assert (Hmk : forall r, ref_marked r g' = true <-> greach g r).
    { intros r. split; intros H.
      - apply Hgr, Hs. by left.
      - apply Hgr in H. induction H as [id Hid|r r' H IHr Hn].
        + destruct (Hst id Hid) as [?|?%elem_of_nil]; done.
        + destruct (Hc r r' IHr Hn) as [?|?%elem_of_nil]; done. }
    assert (Hdom : forall id, is_Some (m_nodes g' !! id) <-> is_Some (m_nodes g !! id)).
    { intros id. split; intros H.
      - apply (valid_ref_links (NodeId id) g' g); [congruence|done].
      - apply (valid_ref_links (NodeId id) g g'); [congruence|done]. }
    destruct (get_unmarked g') as [|x xs] eqn:Hu.
    + assert (Hall : forall id n, m_nodes g' !! id = Some n -> gn_marked n = true).
      { intros id n Hn. destruct (gn_marked n) eqn:Hm; [done|]. exfalso.
        assert (Hin : id ∈ get_unmarked g').
        { unfold get_unmarked. apply list_elem_of_fmap. exists (id, n). split; [done|].
          apply list_elem_of_filter. split; [done|]. by apply elem_of_map_to_list. }
        rewrite Hu in Hin. by apply elem_of_nil in Hin. }
      left. split; [|by exists g']. intros id Hid. apply Hmk. cbn [ref_marked].
      destruct (proj2 (Hdom id) Hid) as [n Hn]. rewrite Hn. by eapply Hall.
    + right. split; [|by eexists]. exists x.
      assert (Hin : x ∈ get_unmarked g') by (rewrite Hu; apply list_elem_of_here).
      unfold get_unmarked in Hin. apply list_elem_of_fmap in Hin as ([id n] & -> & Hin).
      apply list_elem_of_filter in Hin as [Hm Hin]. cbn in Hm.
      apply elem_of_map_to_list in Hin. split; [apply Hdom; by eexists|].
      intros Hg. apply Hmk in Hg. cbn [ref_marked fst] in Hg. rewrite Hin in Hg. congruence.
Qed.

(** ** The three passes together *)

Lemma enabled_ok streams : Forall stream_ok streams -> Forall stream_ok (enabled streams).
Proof.
  rewrite !Forall_forall. intros H s [_ Hs]%list_elem_of_filter. by apply H.
Qed.

Lemma NoDup_ids_inj l s s' :
  NoDup (ids l) -> s ∈ l -> s' ∈ l -> ts_stream_id s = ts_stream_id s' -> s = s'.
Proof.
  intros Hnd (i & Hi)%list_elem_of_lookup (j & Hj)%list_elem_of_lookup Heq.
  assert (i = j) as ->; [|congruence].
  eapply (NoDup_lookup (ids l)); [done| |].
  - unfold ids. by rewrite list_lookup_fmap, Hi.
  - unfold ids. by rewrite list_lookup_fmap, Hj, Heq.
Qed.

Section Passes.
Context (E : list TrexStream) (Hlen : Z.of_nat (length E) < 2147483648)
  (Hok : Forall stream_ok E) (Ha : alloc_ok E GraphNodeMap_new).

Let g1 := alloc_result E 0 GraphNodeMap_new.

Lemma alloc_node id n :
  m_nodes g1 !! id = Some n <->
  exists k s, E !! k = Some s /\ ts_stream_id s = id /\ n = new_node s (Z.of_nat k).
Proof.
  unfold g1. rewrite alloc_result_lookup by (done || lia). split.
  - intros [H|H]; [exact H|]. discriminate.
  - intros H. left. exact H.
Qed.

Lemma alloc_node_in id : is_Some (m_nodes g1 !! id) <-> id ∈ ids E.
Proof.
  split.
  - intros [n (k & s & Hk & <- & _)%alloc_node]. apply ids_elem.
    by eapply list_elem_of_lookup_2.
  - intros (s & Hs & <-)%elem_ids. apply list_elem_of_lookup in Hs as [k Hk].
    exists (new_node s (Z.of_nat k)). apply alloc_node. by exists k, s.
Qed.

Lemma alloc_core id c :
  core_at g1 id = Some c -> exists k s, E !! k = Some s /\ ts_stream_id s = id /\
    c = core (new_node s (Z.of_nat k)).
Proof.
  unfold core_at. destruct (m_nodes g1 !! id) as [n|] eqn:Hn; [|discriminate]. intros [= <-].
  apply alloc_node in Hn as (k & s & Hk & Hid & ->). by exists k, s.
Qed.

Lemma alloc_get x :
  gm_get x g1 = if u32 x =? 4294967295 then Some DeadEnd
                else if decide (u32 x ∈ ids E) then Some (NodeId (u32 x)) else None.
Proof.
  unfold gm_get. destruct (_ =? _); [done|]. case_decide as Hd.
  - apply alloc_node_in in Hd as [n ->]. done.
  - destruct (m_nodes g1 !! u32 x) eqn:Hn; [|done]. exfalso. apply Hd, alloc_node_in. by eexists.
Qed.

Lemma alloc_roots id : id ∈ m_roots g1 <-> exists s, s ∈ E /\ ts_self_start s = true /\ ts_stream_id s = id.
Proof.
  unfold g1. rewrite (proj1 (alloc_result_frame E 0 GraphNodeMap_new)). cbn [GraphNodeMap_new m_roots app].
  split.
  - intros (s & Hs & <-)%elem_ids. apply list_elem_of_filter in Hs as [H1 H2]. by exists s.
  - intros (s & Hs & H1 & <-). apply ids_elem. by apply list_elem_of_filter.
Qed.

Section Directed.
Context (g2 : GraphNodeMap) (Hr : m_roots g2 = m_roots g1)
  (Hc : forall id, core_at g2 id = directed (map_to_list (m_nodes g1)) g1 id <$> core_at g1 id)
  (Hnext : forall s, s ∈ E ->
    u32 (ts_next_stream_id s) = 4294967295 \/ u32 (ts_next_stream_id s) ∈ ids E).

Lemma directed_node s k :
  E !! k = Some s ->
  exists n, m_nodes g2 !! ts_stream_id s = Some n /\ gn_stream n = s /\
    gn_next n = gm_get (ts_next_stream_id s) g1 /\ gn_compressed_stream_id n = s32 (Z.of_nat k).
Proof.
  intros Hk. assert (Hn : m_nodes g1 !! ts_stream_id s = Some (new_node s (Z.of_nat k)))
    by (apply alloc_node; by exists k, s).
  specialize (Hc (ts_stream_id s)). unfold core_at in Hc. rewrite Hn in Hc.
  destruct (m_nodes g2 !! ts_stream_id s) as [n|]; [|discriminate]. exists n. split; [done|].
  unfold directed, core in Hc. simpl in Hc. rewrite decide_True in Hc.
  - by injection Hc as -> -> _ ->.
  - apply list_elem_of_fmap. exists (ts_stream_id s, new_node s (Z.of_nat k)). split; [done|].
    by apply elem_of_map_to_list.
Qed.

Lemma directed_in id : is_Some (m_nodes g2 !! id) <-> id ∈ ids E.
Proof.
  rewrite <- alloc_node_in. specialize (Hc id). unfold core_at in Hc.
  destruct (m_nodes g1 !! id), (m_nodes g2 !! id); try discriminate; split; intros [? ?];
    try discriminate; by eexists.
Qed.

Lemma directed_ref_next id r' : ref_next (NodeId id) g2 = Some r' ->
  exists s, s ∈ E /\ ts_stream_id s = id /\ gm_get (ts_next_stream_id s) g1 = Some r'.
Proof.
  cbn [ref_next]. destruct (m_nodes g2 !! id) as [n|] eqn:Hn; [|discriminate]. intros Hx.
  assert (Hin : id ∈ ids E) by (apply directed_in; by eexists).
  apply elem_ids in Hin as (s & Hs & <-). apply list_elem_of_lookup in Hs as [k Hk].
  destruct (directed_node s k Hk) as (n' & Hn' & _ & Hnx & _).
  assert (n' = n) as -> by congruence. exists s. split; [by eapply list_elem_of_lookup_2|].
  split; [done|]. congruence.
Qed.

Lemma directed_closed : closed_graph g2.
Proof.
  split.
  - intros id. rewrite Hr. intros (s & Hs & _ & <-)%alloc_roots. apply directed_in. by apply ids_elem.
  - intros [|id] r'; [discriminate|]. intros (s & Hs & <- & Hg)%directed_ref_next.
    rewrite alloc_get in Hg. destruct (_ =? _); [by injection Hg as <-|].
    case_decide as Hd; [|discriminate]. injection Hg as <-. by apply directed_in.
Qed.

Lemma reachable_in id : reachable E id -> exists s, s ∈ E /\ ts_stream_id s = id.
Proof. destruct 1; eauto. Qed.

Lemma greach_reachable r : greach g2 r ->
  match r with DeadEnd => True | NodeId id => reachable E id end.
Proof.
  induction 1 as [id Hid|r r' _ IH Hn].
  - rewrite Hr in Hid. apply alloc_roots in Hid as (s & Hs & H1 & <-). by apply reach_root.
  - destruct r as [|id]; [discriminate|]. apply directed_ref_next in Hn as (s & Hs & <- & Hg).
    rewrite alloc_get in Hg. destruct (_ =? _); [by injection Hg as <-|].
    case_decide as Hd; [|discriminate]. injection Hg as <-.
    apply elem_ids in Hd as (s' & Hs' & Heq). rewrite <- Heq. by apply (reach_next E s s').
Qed.

Lemma reachable_greach id : reachable E id -> greach g2 (NodeId id).
Proof.
  induction 1 as [s Hs H1|s s' Hs Hs' _ IH Heq].
  - apply greach_root. rewrite Hr. apply alloc_roots. by exists s.
  - eapply greach_next; [exact IH|]. apply list_elem_of_lookup in Hs as [k Hk].
    destruct (directed_node s k Hk) as (n & Hn & _ & Hnx & _). cbn [ref_next].
    rewrite Hn, Hnx, alloc_get, Heq.
    destruct (Z.eqb_spec (ts_stream_id s') 4294967295) as [H0|_].
    + by destruct (ao_new _ _ Ha s' Hs') as [? _].
    + rewrite decide_True by by apply ids_elem. done.
Qed.

End Directed.
End Passes.

(** A list the compiler accepts is compiled from this graph. *)
Record checked_graph (E : list TrexStream) (g : GraphNodeMap) : Prop := {
  cg_node : forall k s, E !! k = Some s ->
    exists n, m_nodes g !! ts_stream_id s = Some n /\ gn_stream n = s /\
      gn_compressed_stream_id n = Z.of_nat k;
  cg_in : forall id, is_Some (m_nodes g !! id) -> id ∈ ids E
}.

Lemma s32_small x : 0 <= x < 2147483648 -> s32 x = x.
Proof. intros. word_lia. Qed.

Lemma bfs_loop_core fuel : forall stack g g',
  bfs_loop fuel stack g = Ok g' ->
  forall id, (fun n => (gn_stream n, gn_compressed_stream_id n)) <$> m_nodes g' !! id
           = (fun n => (gn_stream n, gn_compressed_stream_id n)) <$> m_nodes g !! id.
Proof.
  induction fuel as [|fuel IH]; intros stack g g' E id; [discriminate|]. cbn [bfs_loop] in E.
  destruct stack as [|r stack]; [by injection E as <-|].
  destruct (ref_marked r g); [by eapply IH|].
  assert (Hm : (fun n => (gn_stream n, gn_compressed_stream_id n)) <$> m_nodes (mark_ref r g) !! id
           = (fun n => (gn_stream n, gn_compressed_stream_id n)) <$> m_nodes g !! id).
  { destruct r as [|i]; [done|]. cbn [mark_ref set_nodes m_nodes].
    destruct (decide (i = id)) as [->|Hne]; [|by rewrite lookup_alter_ne].
    rewrite lookup_alter_eq. by destruct (m_nodes g !! id). }
  rewrite <- Hm. destruct (ref_next r (mark_ref r g)); by eapply IH.
Qed.

Lemma pre_compile_check_spec streams :
  Forall stream_ok streams -> Z.of_nat (length streams) < 2147483648 ->
  graph_ok (enabled streams) /\
    (exists g w, pre_compile_check streams = Ok (g, w) /\ checked_graph (enabled streams) g) \/
  ~ graph_ok (enabled streams) /\ exists m, pre_compile_check streams = Err (Thrown m).
Proof.
  intros Hok Hlen. unfold pre_compile_check, allocate_pass.
  assert (HlenE : Z.of_nat (length (enabled streams)) < 2147483648).
  { unfold enabled. pose proof (length_filter (fun s => ts_enabled s = true) streams). lia. }
  pose proof (enabled_ok _ Hok) as HokE.
  destruct (allocate_loop_spec streams 0 GraphNodeMap_new Hok) as [[Ha ->]|[Hna (m & ->)]].
  2:{ right. split; [|by eexists]. intros [H1 H2 H3 _ _]. apply Hna. split; [done|done|].
      intros s Hs. split; [by apply H3|done]. }
  cbn [mbind res_bind]. set (E := enabled streams) in *. set (g1 := alloc_result E 0 GraphNodeMap_new).
  assert (Hstr : forall id n, (id, n) ∈ map_to_list (m_nodes g1) ->
    exists s, s ∈ E /\ ts_stream_id s = id /\ gn_stream n = s).
  { intros id n (k & s & Hk & <- & ->)%elem_of_map_to_list%(alloc_node E HlenE Ha).
    exists s. split; [by eapply list_elem_of_lookup_2|done]. }
  unfold direct_pass.
  destruct (direct_loop_spec (map_to_list (m_nodes g1)) g1) as [[Hall (g2 & -> & Hr & Hm & Hc)]|[Hno (m & ->)]].
  - apply NoDup_fst_map_to_list.
  - intros id n Hin. exists n. split; [|done]. by apply elem_of_map_to_list.
  - cbn [mbind res_bind].
    assert (Hnext : forall s, s ∈ E ->
      u32 (ts_next_stream_id s) = 4294967295 \/ u32 (ts_next_stream_id s) ∈ ids E).
    { intros s Hs. apply list_elem_of_lookup in Hs as [k Hk].
      assert (Hn : m_nodes g1 !! ts_stream_id s = Some (new_node s (Z.of_nat k)))
        by (apply (alloc_node E HlenE Ha); by exists k, s).
      specialize (Hall (ts_stream_id s) (new_node s (Z.of_nat k))).
      rewrite elem_of_map_to_list in Hall. specialize (Hall Hn). unfold gm_has in Hall.
      cbn [new_node gn_stream] in Hall. unfold g1 in Hall. rewrite alloc_get in Hall by done.
      destruct (Z.eqb_spec (u32 (ts_next_stream_id s)) 4294967295); [by left|].
      right. case_decide; [done|discriminate]. }
    assert (Hdead : m_dead_end_marked g2 = false).
    { rewrite Hm. unfold g1. by rewrite (proj2 (alloc_result_frame E 0 GraphNodeMap_new)). }
    destruct (check_unreachable_spec g2) as [[Hreach (g' & Eg & Hmk)]|[(id & Hid & Hnr) (m & ->)]];
      [by apply (directed_closed E HlenE Ha g2)|done| |].
    + rewrite Eg. left. split.
      * pose proof Ha as [H1 H2 H3]. split; try done.
        -- intros s Hs. by apply H3.
        -- intros s Hs. apply (greach_reachable E HlenE Ha g2 Hr Hc (NodeId (ts_stream_id s))).
           apply Hreach. apply (directed_in E HlenE Ha g2 Hc). by apply ids_elem.
      * exists g', (parent_warnings g2). split; [done|].
        unfold check_for_unreachable_streams in Eg. apply bind_Ok in Eg as (g3 & Eb & Eg).
        destruct (get_unmarked g3); [|discriminate]. injection Eg as <-.
        pose proof (bfs_loop_core _ _ _ _ Eb) as Hcore.
        assert (Hcm : forall id, (fun n => (gn_stream n, gn_compressed_stream_id n)) <$> m_nodes g3 !! id
          = (fun n => (gn_stream n, gn_compressed_stream_id n)) <$> m_nodes g2 !! id).
        { intros id. rewrite Hcore. cbn [clear_marks set_nodes m_nodes]. rewrite lookup_fmap.
          by destruct (m_nodes g2 !! id). }
        split.
        -- intros k s Hk. destruct (directed_node E HlenE Ha g2 Hc s k Hk) as (n & Hn & Hs & _ & Hcmp).
           specialize (Hcm (ts_stream_id s)). rewrite Hn in Hcm.
           destruct (m_nodes g3 !! ts_stream_id s) as [n3|]; [|discriminate].
           cbn in Hcm. injection Hcm as E1 E2. exists n3. split; [done|]. split; [congruence|].
           rewrite E2, Hcmp. apply s32_small. apply lookup_lt_Some in Hk. lia.
        -- intros id [n3 Hn3]. apply (directed_in E HlenE Ha g2 Hc). specialize (Hcm id).
           rewrite Hn3 in Hcm. destruct (m_nodes g2 !! id); [by eexists|discriminate].
    + right. split; [|by eexists]. intros [_ _ _ _ Hg]. apply Hnr.
      apply (directed_in E HlenE Ha g2 Hc) in Hid. apply elem_ids in Hid as (s & Hs & <-).
      apply (reachable_greach E HlenE Ha g2 Hr Hc). by apply Hg.
  - right. split; [|by eexists]. intros [_ _ _ Hg _].
    destruct Hno as (id & n & Hin & Hf). destruct (Hstr _ _ Hin) as (s & Hs & _ & Hgn).
    unfold gm_has in Hf. unfold g1 in Hf. rewrite Hgn, alloc_get in Hf by done.
    destruct (Hg s Hs) as [H|H].
    + rewrite H in Hf. simpl in Hf. discriminate.
    + destruct (_ =? _); [discriminate|]. rewrite decide_True in Hf by done. discriminate.
Qed.

(** C34: The graph checks accept exactly the well formed graphs. With every enabled stream's
    id a 32-bit number, and fewer than 2^31 streams, [pre_compile_check] succeeds when the
    enabled streams have distinct ids, none has the id 4294967295 (the compiler's own dead
    end, -1 as a 32-bit number), continuous ones have no successor, not even themselves,
    every successor exists, and each stream is reachable from a stream that starts by
    itself; otherwise it throws. It always ends. *)
Theorem pre_compile_check_iff (streams : list TrexStream) :
  Forall stream_ok streams -> Z.of_nat (length streams) < 2147483648 ->
  ((exists r, pre_compile_check streams = Ok r) <-> graph_ok (enabled streams)) /\
  ((exists m, pre_compile_check streams = Err (Thrown m)) <-> ~ graph_ok (enabled streams)).
Proof.
  intros Hok Hlen.
  destruct (pre_compile_check_spec streams Hok Hlen) as [[Hg (g & w & -> & _)]|[Hg (m & ->)]].
  - split; split; try tauto; [by eexists|by intros [? ?]].
  - split; split; try tauto; [by intros [? ?]|by eexists].
Qed.

Definition demo_stream (id next : Z) (root : bool) : TrexStream :=
  mkTrexStream stSINGLE_BURST 0 id (double_of_Z 0) next true root StreamVm_new None
    (mkPktData (Some (replicate 64 0)) 64) (mkRxCheck false false false 0) (double_of_Z 100) 1001 1
    (double_of_Z 0).

Definition demo_streams : list TrexStream :=
  [demo_stream 7 9 true; demo_stream 9 5 false; demo_stream 5 7 false].

Lemma demo_streams_ok : Forall stream_ok demo_streams.
Proof. repeat constructor; vm_compute; congruence. Qed.

Lemma pre_compile_check_iff_witness : graph_ok (enabled demo_streams).
Proof.
  apply (pre_compile_check_iff demo_streams demo_streams_ok ltac:(vm_compute; reflexivity)).
  eexists. vm_compute. reflexivity.
Defined.

(** ** The copies of the cores *)

(** Everything but the VM and its data path object. *)
Definition same_meta (c c' : TrexStream) : Prop :=
  set_vm StreamVm_new None c = set_vm StreamVm_new None c'.

Lemma same_meta_set_vm c vm dp : same_meta c (set_vm vm dp c).
Proof. by destruct c. Qed.

Lemma Forall2_refl_meta (P : TrexStream -> TrexStream -> Prop) l :
  (forall c, P c c) -> Forall2 P l l.
Proof. intros H. induction l; by constructor. Qed.

Section Meta.
Context (malloc : Z -> option bytes) (rand : nat -> Z).

Lemma vm_compile_meta r c c' : vm_compile malloc r c = Ok c' -> same_meta c c'.
Proof.
  unfold vm_compile. intros E. destruct (is_vm_empty _); [by injection E as <-|].
  apply bind_Ok in E as (vm & _ & E). apply bind_Ok in E as (dp & _ & E).
  injection E as <-. apply same_meta_set_vm.
Qed.

Lemma set_core_range_meta s e c c' : set_core_range s e c = Ok c' -> same_meta c c'.
Proof.
  unfold set_core_range. intros E. destruct (m_split_instr _); [|discriminate].
  destruct (_ !! _); [|discriminate]. apply bind_Ok in E as (i & _ & E).
  injection E as <-. apply same_meta_set_vm.
Qed.

Lemma split_loop_meta cs : forall k part s e cs',
  split_loop malloc rand k part s e cs = Ok cs' -> Forall2 same_meta cs cs'.
Proof.
  induction cs as [|c cs IH]; intros k part s e cs' E; cbn [split_loop] in E.
  - by injection E as <-.
  - apply bind_Ok in E as (c1 & E1 & E). apply bind_Ok in E as (c2 & E2 & E).
    cbv zeta in E. apply bind_Ok in E as (cs2 & E3 & E). injection E as <-.
    constructor; [|by eapply IH]. apply set_core_range_meta in E1. apply vm_compile_meta in E2.
    unfold same_meta in *. congruence.
Qed.

Lemma duplicate_vm_meta s cs : Forall2 same_meta cs (duplicate_vm s cs).
Proof.
  unfold duplicate_vm. induction cs as [|c cs IH]; constructor; [|exact IH].
  apply same_meta_set_vm.
Qed.

Lemma clone_dp_loop_meta d cs : forall cs',
  clone_dp_loop malloc d cs = Ok cs' -> Forall2 same_meta cs cs'.
Proof.
  induction cs as [|c cs IH]; intros cs' E; cbn [clone_dp_loop] in E.
  - by injection E as <-.
  - destruct d as [d|]; [|discriminate]. apply bind_Ok in E as (x & _ & E).
    apply bind_Ok in E as (cs2 & E2 & E). injection E as <-.
    constructor; [apply same_meta_set_vm|by apply IH].
Qed.

Lemma Forall2_meta_trans l1 l2 l3 :
  Forall2 same_meta l1 l2 -> Forall2 same_meta l2 l3 -> Forall2 same_meta l1 l3.
Proof.
  intros H12. revert l3. induction H12 as [|c1 c2 l1 l2 Hc _ IH]; intros l3 H23;
    inversion H23; subst; constructor; [unfold same_meta in *; congruence|auto].
Qed.

Lemma split_meta s cs s' cs' : split malloc rand s cs = Ok (s', cs') -> Forall2 same_meta cs cs'.
Proof.
  unfold split. intros E. destruct (is_vm_empty _).
  { injection E as _ <-. by apply Forall2_refl_meta. }
  apply bind_Ok in E as (rc & Er & E). destruct rc as [cs2|].
  - injection E as _ <-. unfold split_internal in Er.
    destruct (m_split_instr _) as [k|]; [|discriminate].
    assert (Hr : forall n r f, split_by_range malloc rand n r f s cs = Ok (Some cs2) ->
      Forall2 same_meta cs cs2).
    { intros n r f E. unfold split_by_range in E. destruct (_ <? _); [discriminate|].
      destruct (_ =? _); [discriminate|]. cbv zeta in E. apply bind_Ok in E as (cs3 & E & H).
      injection H as <-. apply split_loop_meta in E.
      eapply Forall2_meta_trans; [apply duplicate_vm_meta|exact E]. }
    destruct (_ !! k) as [[]|]; try discriminate; [|by eapply Hr].
    destruct m_op; try discriminate; by eapply Hr.
  - apply bind_Ok in E as (s2 & _ & E). apply bind_Ok in E as (cs2 & E & H).
    injection H as _ <-. by eapply clone_dp_loop_meta.
Qed.

End Meta.

(** What a core's copy [c] of stream [s] is, with its new ids. *)
Definition core_copy (s : TrexStream) (new_id new_next_id : Z) (rate : double) (c : TrexStream)
  : Prop :=
  ts_stream_id c = new_id /\ ts_next_stream_id c = new_next_id /\ ts_pps c = rate /\
  ts_type c = ts_type s /\ ts_port_id c = ts_port_id s /\ ts_self_start c = ts_self_start s /\
  ts_enabled c = ts_enabled s /\ ts_isg_usec c = ts_isg_usec s /\
  ts_num_bursts c = ts_num_bursts s /\ ts_ibg_usec c = ts_ibg_usec s.

Definition zsum (l : list Z) : Z := foldr Z.add 0 l.

Section Copies.
Context (malloc : Z -> option bytes).

Lemma TrexStream_clone_meta s c : TrexStream_clone malloc s = Ok c ->
  core_copy s (ts_stream_id s) (ts_next_stream_id s) (ts_pps s) c.
Proof.
  unfold TrexStream_clone. intros E. apply bind_Ok in E as (d & _ & E).
  apply bind_Ok in E as (p & _ & E). injection E as <-. by split_and!.
Qed.

Lemma core_copies_spec n new_id new_next_id rate pkts s : forall cs,
  core_copies malloc n new_id new_next_id rate pkts s = Ok cs ->
  length cs = n /\
  Forall (fun c => core_copy s new_id new_next_id rate c /\ ts_burst_total_pkts c = u32 pkts) cs.
Proof.
  induction n as [|n IH]; intros cs E; cbn [core_copies] in E.
  - injection E as <-. by split.
  - apply bind_Ok in E as (c & Ec & E). apply bind_Ok in E as (cs' & Ecs & E). injection E as <-.
    destruct (IH _ Ecs) as [Hl Hall]. split; [simpl; congruence|]. constructor; [|done].
    apply TrexStream_clone_meta in Ec. unfold core_copy in *. simpl. tauto.
Qed.

Lemma same_meta_copy s i n r c c' : same_meta c c' ->
  core_copy s i n r c -> core_copy s i n r c' /\ ts_burst_total_pkts c' = ts_burst_total_pkts c.
Proof.
  unfold same_meta, core_copy. intros H. destruct c, c'. simpl in *. injection H as <-. subst.
  intros (?&?&?&?&?&?&?&?&?&?). by split_and!.
Qed.

Lemma zsum_same x l : Forall (fun y => y = x) l -> zsum l = Z.of_nat (length l) * x.
Proof. induction 1 as [|y l -> _ IH]; [done|]. cbn [zsum foldr length] in *. fold (zsum l). lia. Qed.

End Copies.

(** The bursts of the cores add up. *)
Lemma burst_parts total n :
  0 <= total < 4294967296 -> 1 <= n < 256 ->
  let per := s32 (total / n) in
  let rem := s32 (u32 (total - per * n)) in
  u32 (u32 per + rem) + (n - 1) * u32 per = total.
Proof.
  intros Ht Hn per rem. destruct (decide (n = 1)) as [->|Hn1].
  - unfold rem, per. rewrite Z.div_1_r, Z.mul_1_r. word_lia.
  - assert (Hq : 0 <= total / n < 2147483648) by (Z.div_mod_to_equations; nia).
    assert (Hper : per = total / n) by (unfold per; word_lia).
    pose proof (Z.div_mod total n ltac:(lia)). pose proof (Z.mod_pos_bound total n ltac:(lia)).
    assert (Hrem : rem = total mod n).
    { unfold rem. rewrite Hper. replace (total - total / n * n) with (total mod n) by lia. word_lia. }
    rewrite Hper, Hrem. rewrite (u32_id (total / n)) by lia. rewrite u32_id by nia. nia.
Qed.

(** The row of copies of one stream. *)
Record core_row (E : list TrexStream) (n : Z) (s : TrexStream) (k : nat) (cs : list TrexStream)
  : Prop := {
  row_len : zlength cs = n;
  row_copy : exists next rate, Forall (core_copy s (Z.of_nat k) next rate) cs /\
    (if 0 <=? ts_next_stream_id s
     then exists k' s', E !! k' = Some s' /\ ts_stream_id s' = ts_next_stream_id s /\ next = Z.of_nat k'
     else next = -1);
  row_burst : zsum (map ts_burst_total_pkts cs) = ts_burst_total_pkts s
}.

Lemma add_to_objs_spec cs : forall objs objs',
  add_to_objs cs objs = Ok objs' -> length cs = length objs ->
  length objs' = length objs /\
  forall i o, objs !! i = Some o -> exists c, cs !! i = Some c /\
    objs' !! i = Some (add_compiled_stream c o).
Proof.
  induction cs as [|c cs IH]; intros objs objs' E Hl; destruct objs as [|o objs]; try discriminate;
    cbn [add_to_objs] in E.
  - injection E as <-. split; [done|]. intros i o. by rewrite lookup_nil.
  - apply bind_Ok in E as (objs2 & E & H). injection H as <-. injection Hl as Hl.
    destruct (IH _ _ E Hl) as [Hl2 Hi]. split; [simpl; congruence|].
    intros [|i] o' Ho; [injection Ho as <-; by exists c|]. by apply Hi.
Qed.

Record stream_fields (s : TrexStream) : Prop := {
  sf_id : stream_ok s;
  sf_next : -2147483648 <= ts_next_stream_id s < 2147483648;
  sf_burst : 0 <= ts_burst_total_pkts s < 4294967296
}.

Section CompileInternal.
Context (malloc : Z -> option bytes) (rand : nat -> nat -> Z).

Section Graph.
Context (E : list TrexStream) (g : GraphNodeMap) (Hgo : graph_ok E) (Hcg : checked_graph E g)
  (HE : Forall stream_fields E).

Lemma compressed_of_pos k s : E !! k = Some s -> compressed_of (ts_stream_id s) g = Ok (Z.of_nat k).
Proof.
  intros Hk. pose proof (list_elem_of_lookup_2 _ _ _ Hk) as Hs.
  destruct (cg_node _ _ Hcg k s Hk) as (n & Hn & _ & Hc).
  rewrite Forall_forall in HE. pose proof (sf_id _ (HE _ Hs)) as Hid. unfold stream_ok in Hid.
  unfold compressed_of, gm_get. rewrite u32_id by lia.
  destruct (Z.eqb_spec (ts_stream_id s) 4294967295); [by destruct (go_dead _ Hgo s Hs)|].
  rewrite Hn. by rewrite Hn, Hc.
Qed.

Lemma compressed_of_next x v : 0 <= x < 2147483648 -> compressed_of x g = Ok v ->
  exists k' s', E !! k' = Some s' /\ ts_stream_id s' = x /\ v = Z.of_nat k'.
Proof.
  intros Hx Hv. assert (Hin : x ∈ ids E).
  { unfold compressed_of, gm_get in Hv. rewrite u32_id in Hv by lia.
    destruct (Z.eqb_spec x 4294967295); [lia|].
    destruct (m_nodes g !! x) as [nd|] eqn:Hn; [|discriminate].
    apply (cg_in _ _ Hcg). by eexists. }
  apply elem_ids in Hin as (s' & Hs' & <-). apply list_elem_of_lookup in Hs' as [k' Hk'].
  exists k', s'. split; [done|]. split; [done|]. rewrite (compressed_of_pos k' s' Hk') in Hv.
  by injection Hv as <-.
Qed.

Lemma compile_stream_spec j k s factor n objs objs' :
  1 <= n < 256 -> E !! k = Some s -> length objs = Z.to_nat n ->
  compile_stream malloc rand j s factor n objs g = Ok objs' ->
  exists cs, core_row E n s k cs /\ length objs' = length objs /\
    forall i o, objs !! i = Some o -> exists c, cs !! i = Some c /\
      objs' !! i = Some (add_compiled_stream c o).
Proof.
  intros Hn Hk Ho Hc. pose proof HE as HE'. rewrite Forall_forall in HE'.
  destruct (HE' s (list_elem_of_lookup_2 _ _ _ Hk)) as [_ Hnext Hburst].
  unfold compile_stream in Hc. rewrite (compressed_of_pos k s Hk) in Hc.
  cbn [mbind res_bind] in Hc. apply bind_Ok in Hc as (u & _ & Hc).
  apply bind_Ok in Hc as (nx & Hnx & Hc).
  destruct (Z.eqb_spec n 0); [lia|]. cbv zeta in Hc.
  apply bind_Ok in Hc as (cs0 & E0 & Hc). apply bind_Ok in Hc as (cs1 & E1 & Hc).
  apply bind_Ok in Hc as ([s2 cs2] & E2 & Hc).
  destruct (core_copies_spec malloc _ _ _ _ _ _ _ E0) as [Hl0 Hall0].
  destruct cs0 as [|c0 cs0]; [discriminate|]. cbn [add_remainder] in E1. injection E1 as <-.
  inversion Hall0 as [|? ? [Hc0 Hb0] Hall]; subst.
  pose proof (split_meta malloc _ _ _ _ _ E2) as Hm.
  assert (Hl2 : length cs2 = Z.to_nat n) by (rewrite <- (Forall2_length _ _ _ Hm); exact Hl0).
  destruct (add_to_objs_spec _ _ _ Hc ltac:(lia)) as [Hlo Hi].
  exists cs2. split; [|by split]. inversion Hm as [|? c2 ? cs2' Hm0 Hm' Heq1 Heq2]; subst.
  set (rate := double_mul _ _) in *.
  destruct (same_meta_copy s (Z.of_nat k) nx rate _ c2 Hm0) as [Hc2 Hb2].
  { unfold core_copy in *. simpl. destruct Hc0 as (?&?&?&?&?&?&?&?&?&?). by split_and!. }
  assert (Hrest : Forall (core_copy s (Z.of_nat k) nx rate) cs2' /\
    Forall (fun y => y = u32 (s32 (ts_burst_total_pkts s / n))) (map ts_burst_total_pkts cs2')).
  { clear -Hm' Hall. induction Hm' as [|a b la lb Hab _ IH]; [by split|].
    inversion Hall as [|? ? [Ha Hba] Hall']; subst. destruct (IH Hall') as [H1 H2].
    destruct (same_meta_copy s (Z.of_nat k) nx rate a b Hab Ha) as [Hb Hbb].
    cbn [map]. split; constructor; try done. congruence. }
  destruct Hrest as [Hr1 Hr2]. split.
  - unfold zlength. lia.
  - exists nx, rate. split; [by constructor|].
    destruct (Z.leb_spec 0 (ts_next_stream_id s)); [|by injection Hnx as <-].
    apply compressed_of_next in Hnx; [done|lia].
  - pose proof (zsum_same _ _ Hr2) as Hsum. cbn [map]. unfold zsum in *. cbn [foldr].
    rewrite Hb2. cbn [set_ids_rate ts_burst_total_pkts]. rewrite Hb0, Hsum, length_map.
    pose proof (burst_parts (ts_burst_total_pkts s) n Hburst Hn) as Hbp. cbv zeta in Hbp.
    simpl in Hl2. replace (Z.of_nat (length cs2')) with (n - 1) by lia. exact Hbp.
Qed.

(** The objects after the first [j] enabled streams. *)
Definition rows (n : Z) (j : nat) (objs : list TrexStreamsCompiledObj) : Prop :=
  length objs = Z.to_nat n /\ (forall o, o ∈ objs -> length (m_objs o) = j) /\
  forall k s, (k < j)%nat -> E !! k = Some s -> exists cs, core_row E n s k cs /\
    forall i o, objs !! i = Some o -> exists c, cs !! i = Some c /\ m_objs o !! k = Some c.

Lemma compile_streams_spec n factor streams : forall j objs objs',
  1 <= n < 256 -> (j <= length E)%nat -> drop j E = enabled streams -> rows n j objs ->
  compile_streams malloc rand j streams factor n objs g = Ok objs' ->
  rows n (length E) objs'.
Proof.
  induction streams as [|s streams IH]; intros j objs objs' Hn Hj Hd Hr Hc; cbn [compile_streams] in Hc.
  - injection Hc as <-. apply (f_equal length) in Hd. rewrite length_drop in Hd. simpl in Hd.
    by replace (length E) with j by lia.
  - unfold enabled in Hd. destruct (ts_enabled s) eqn:He; cbn [negb] in Hc.
    2:{ rewrite filter_cons_False in Hd by congruence. by apply (IH j objs). }
    rewrite filter_cons_True in Hd by done.
    apply bind_Ok in Hc as (objs1 & E1 & Hc). destruct Hr as (H1 & H2 & H3).
    assert (Hk : E !! j = Some s).
    { rewrite <- (Nat.add_0_r j), <- lookup_drop, Hd. done. }
    destruct (compile_stream_spec j j s factor n objs objs1 Hn Hk H1 E1) as (cs & Hrow & Hl & Hi).
    apply lookup_lt_Some in Hk as Hlt.
    apply (IH (S j) objs1 objs' Hn); [lia| | |exact Hc].
    + replace (S j) with (j + 1)%nat by lia. rewrite <- drop_drop, Hd. done.
    + assert (Hat : forall i o1, objs1 !! i = Some o1 -> exists o c, objs !! i = Some o /\
        cs !! i = Some c /\ o1 = add_compiled_stream c o).
      { intros i o1 Ho1. apply lookup_lt_Some in Ho1 as Hlt1. rewrite Hl in Hlt1.
        destruct (lookup_lt_is_Some_2 objs i Hlt1) as [o Ho].
        destruct (Hi i o Ho) as (c & Hc1 & Hc2). exists o, c. split; [done|]. split; [done|].
        congruence. }
      split; [lia|]. split.
      * intros o1 (i & Ho1)%list_elem_of_lookup. destruct (Hat i o1 Ho1) as (o & c & Ho & _ & ->).
        cbn [add_compiled_stream m_objs]. rewrite length_app.
        rewrite (H2 o) by by eapply list_elem_of_lookup_2. simpl. lia.
      * intros k s' Hk' Hs'. destruct (decide (k = j)) as [->|Hne].
        -- assert (s' = s) as -> by congruence. exists cs. split; [done|]. intros i o1 Ho1.
           destruct (Hat i o1 Ho1) as (o & c & Ho & Hci & ->). exists c. split; [done|].
           cbn [add_compiled_stream m_objs].
           rewrite lookup_app_r; rewrite (H2 o) by (by eapply list_elem_of_lookup_2); [|lia].
           by rewrite Nat.sub_diag.
        -- destruct (H3 k s' ltac:(lia) Hs') as (cs' & Hrow' & Hi'). exists cs'. split; [done|].
           intros i o1 Ho1. destruct (Hat i o1 Ho1) as (o & c & Ho & _ & ->).
           destruct (Hi' i o Ho) as (c' & Hc1 & Hc2). exists c'. split; [done|].
           cbn [add_compiled_stream m_objs]. rewrite lookup_app_l; [done|].
           by eapply lookup_lt_Some.
Qed.

End Graph.

(** C3: The compiled objects of the cores.  When the compiler succeeds on [n]
    cores there is an object per core, each with one stream per enabled stream, in
    order; the stream at position [k] has id [k], points to the position of its
    successor (or to none), keeps the settings of the source stream, and the burst
    sizes of the cores add up to that of the source. *)
Theorem compile_internal_cores (port_id n : Z) (streams : list TrexStream) (factor : double)
    (objs : list TrexStreamsCompiledObj) (w : list (Z * list Z)) :
  Forall stream_fields streams -> Z.of_nat (length streams) < 2147483648 -> 1 <= n < 256 ->
  compile_internal malloc rand port_id streams n factor = Ok (objs, w) ->
  length objs = Z.to_nat n /\
  (forall o, o ∈ objs -> length (m_objs o) = length (enabled streams)) /\
  forall k s, enabled streams !! k = Some s -> exists cs, core_row (enabled streams) n s k cs /\
    forall i o, objs !! i = Some o -> exists c, cs !! i = Some c /\ m_objs o !! k = Some c.
Proof.
  intros Hf Hlen Hn E. unfold compile_internal in E.
  assert (Hok : Forall stream_ok streams) by (eapply Forall_impl; [exact Hf|intros s []; done]).
  assert (HfE : Forall stream_fields (enabled streams)).
  { rewrite Forall_forall in Hf |- *. intros s [_ Hs]%list_elem_of_filter. by apply Hf. }
  destruct (pre_compile_check_spec streams Hok Hlen) as [[Hg (g & w' & Ep & Hcg)]|[_ (m & Ep)]];
    rewrite Ep in E; [|discriminate].
  cbn [mbind res_bind] in E. apply bind_Ok in E as (objs1 & E & H). injection H as <- <-.
  set (objs0 := replicate _ _) in E.
  assert (Hr0 : rows (enabled streams) n 0 objs0).
  { split; [by apply length_replicate|]. split; [|intros k s Hk; lia].
    intros o Ho. by apply elem_of_replicate in Ho as [-> _]. }
  destruct (compile_streams_spec (enabled streams) g Hg Hcg HfE n factor streams 0 objs0 objs1 Hn
    ltac:(lia) eq_refl Hr0 E) as (H1 & H2 & H3).
  split; [done|]. split; [done|]. intros k s Hk. apply H3; [|done]. by eapply lookup_lt_Some.
Qed.

End CompileInternal.

Definition demo_objs : list TrexStreamsCompiledObj :=
  match compile_internal (fun _ => None) (fun _ _ => 0) 0 demo_streams 2 (double_of_Z 1) with
  | Ok (objs, _) => objs | Err _ => [] end.

Lemma compile_internal_cores_witness :
  length demo_objs = 2%nat /\ forall o, o ∈ demo_objs -> length (m_objs o) = 3%nat.
Proof.
  destruct (compile_internal_cores (fun _ => None) (fun _ _ => 0) 0 2 demo_streams (double_of_Z 1)
    demo_objs [(7, [5]); (9, [7]); (5, [9])]) as (H1 & H2 & _).
  - repeat constructor; vm_compute; congruence.
  - vm_compute. reflexivity.
  - lia.
  - vm_compute. reflexivity.
  - split; [exact H1|exact H2].
Defined.
