(* ===== verification/DpNode.v ===== *)
(** * Stateless nodes

    Models [src/src/stateless/dp/trex_stream_node.h] and the methods of
    [CDpOneStream] and [CGenNodeStateless] in [trex_stateless_dp_core.cpp]: the
    node that the scheduler keeps per stream, and what happens to it on each
    packet. *)

From S2P Require Import Prelude Double ByteMem PktCmn StreamVm TrexStream.

Inductive stream_state_t : Type := ss_FREE_RESUSE | ss_INACTIVE | ss_ACTIVE.

#[export] Instance stream_state_eq_dec : EqDecision stream_state_t.
Proof. solve_decision. Defined.

(** [m_cache_mbuf] with the flag that says what it is. *)
Inductive node_mbuf : Type :=
  | NoMbuf
  | CacheMbuf (pkt : bytes)
  | ConstMbuf (rest : bytes).

(** [CGenNodeStateless].  [m_next_stream] is the address of a node of the pool;
    [m_dir] is the direction flag, [m_src_port] the size of the prefix. *)
Record CGenNodeStateless : Type := mkNode {
  m_time : double;
  m_next_time_offset : double;
  m_ibg_sec : double;
  m_state : stream_state_t;
  m_port_id : Z;
  m_stream_type : Z;
  m_pause : bool;
  m_single_burst : Z;
  m_single_burst_refill : Z;
  m_multi_bursts : Z;
  m_ref_stream_info : option TrexStream;
  m_next_stream : option Z;
  m_dir : bool;
  m_cache_mbuf : node_mbuf;
  m_src_port : Z;
  m_original_packet_data_prefix : bytes;
  m_vm_flow_var : bytes;
  m_vm_program : bytes;
  m_vm_program_size : Z;
}.

(** Updates of the fields the scheduler writes. *)
Definition upd_node (time : double) (st : stream_state_t) (single multi : Z)
    (n : CGenNodeStateless) : CGenNodeStateless :=
  mkNode time (m_next_time_offset n) (m_ibg_sec n) st (m_port_id n) (m_stream_type n) (m_pause n)
    single (m_single_burst_refill n) multi (m_ref_stream_info n) (m_next_stream n) (m_dir n)
    (m_cache_mbuf n) (m_src_port n) (m_original_packet_data_prefix n) (m_vm_flow_var n)
    (m_vm_program n) (m_vm_program_size n).

Definition set_time (t : double) (n : CGenNodeStateless) : CGenNodeStateless :=
  upd_node t (m_state n) (m_single_burst n) (m_multi_bursts n) n.

Definition set_state (st : stream_state_t) (n : CGenNodeStateless) : CGenNodeStateless :=
  upd_node (m_time n) st (m_single_burst n) (m_multi_bursts n) n.

Definition set_flow_var (fv : bytes) (n : CGenNodeStateless) : CGenNodeStateless :=
  mkNode (m_time n) (m_next_time_offset n) (m_ibg_sec n) (m_state n) (m_port_id n)
    (m_stream_type n) (m_pause n) (m_single_burst n) (m_single_burst_refill n) (m_multi_bursts n)
    (m_ref_stream_info n) (m_next_stream n) (m_dir n) (m_cache_mbuf n) (m_src_port n)
    (m_original_packet_data_prefix n) fv (m_vm_program n) (m_vm_program_size n).

(** The fields the port operations write. *)
Definition upd_port_fields (offset : double) (pause : bool) (ref : option TrexStream)
    (next : option Z) (n : CGenNodeStateless) : CGenNodeStateless :=
  mkNode (m_time n) offset (m_ibg_sec n) (m_state n) (m_port_id n) (m_stream_type n) pause
    (m_single_burst n) (m_single_burst_refill n) (m_multi_bursts n) ref next (m_dir n)
    (m_cache_mbuf n) (m_src_port n) (m_original_packet_data_prefix n) (m_vm_flow_var n)
    (m_vm_program n) (m_vm_program_size n).

Definition set_pause (enable : bool) (n : CGenNodeStateless) : CGenNodeStateless :=
  upd_port_fields (m_next_time_offset n) enable (m_ref_stream_info n) (m_next_stream n) n.

Definition set_next_stream (next : option Z) (n : CGenNodeStateless) : CGenNodeStateless :=
  upd_port_fields (m_next_time_offset n) (m_pause n) (m_ref_stream_info n) next n.

Definition update_rate (factor : double) (n : CGenNodeStateless) : CGenNodeStateless :=
  upd_port_fields (double_div (m_next_time_offset n) factor) (m_pause n) (m_ref_stream_info n)
    (m_next_stream n) n.

(** [bp_sim.h] *)
Definition usec_to_sec (usec : double) : double := double_div usec (double_of_Z 1000000).

Definition is_mask_for_free (n : CGenNodeStateless) : bool :=
  bool_decide (m_state n = ss_FREE_RESUSE).

Definition mark_for_free (n : CGenNodeStateless) : CGenNodeStateless :=
  upd_port_fields (m_next_time_offset n) (m_pause n) None None (set_state ss_FREE_RESUSE n).

Definition update_refresh_time (cur_time : double) (n : CGenNodeStateless)
  : res CGenNodeStateless :=
  match m_ref_stream_info n with
  | None => Err NullDeref
  | Some s => Ok (set_time (double_add cur_time (usec_to_sec (ts_isg_usec s))) n)
  end.

(** The refresh of the flow variables is compiled out ([#if 0]). *)
Definition refresh (n : CGenNodeStateless) : res CGenNodeStateless :=
  match m_ref_stream_info n with
  | None => Err NullDeref
  | Some s => Ok (upd_node (m_time n) ss_ACTIVE (m_single_burst_refill n) (u32 (ts_num_bursts s)) n)
  end.

Definition get_stream_id (n : CGenNodeStateless) : res Z :=
  match m_state n with
  | ss_FREE_RESUSE => Ok (-1)
  | _ => match m_ref_stream_info n with
         | None => Err AssertFail
         | Some s => Ok (s32 (ts_stream_id s))
         end
  end.

(** ** The packet counters of a burst

    What [handle_multi_burst] does to the node itself after the packet; [true]
    when the last packet of the last burst has gone. *)
Definition multi_burst_tick (n : CGenNodeStateless) : CGenNodeStateless * bool :=
  let single := u32 (m_single_burst n - 1) in
  if single >? 0 then
    (upd_node (double_add (m_time n) (m_next_time_offset n)) (m_state n) single
       (m_multi_bursts n) n, false)
  else
    let multi := u32 (m_multi_bursts n - 1) in
    if multi =? 0 then (upd_node (m_time n) ss_INACTIVE single multi n, true)
    else (upd_node (double_add (m_time n) (m_ibg_sec n)) (m_state n) (m_single_burst_refill n)
            multi n, false).

Definition continues_tick (n : CGenNodeStateless) : CGenNodeStateless :=
  set_time (double_add (m_time n) (m_next_time_offset n)) n.

(** ** The packet a node sends

    [CRteMemPool] ([bp_sim.h]): the buffer comes from the smallest pool whose
    size is above the packet's; [avail] says whether the pool (a DPDK object) has
    one left. *)
Inductive mbuf_pool : Type := mbuf_pool_128 | mbuf_pool_256 | mbuf_pool_512 | mbuf_pool_1024 | big_mbuf_pool.

Definition MAX_BUF_SIZE : Z := 2048.

Section Packet.
Context (malloc : Z -> option bytes) (avail : mbuf_pool -> bool).

Definition rte_pktmbuf_alloc (p : mbuf_pool) : res mbuf_pool := _ ← c_assert (avail p); Ok p.

Definition pktmbuf_alloc (size : Z) : res mbuf_pool :=
  if size <? 128 then rte_pktmbuf_alloc mbuf_pool_128
  else if size <? 256 then rte_pktmbuf_alloc mbuf_pool_256
  else if size <? 512 then rte_pktmbuf_alloc mbuf_pool_512
  else if size <? 1024 then rte_pktmbuf_alloc mbuf_pool_1024
  else _ ← c_assert (size <? MAX_BUF_SIZE); rte_pktmbuf_alloc big_mbuf_pool.

(** [CCoreEthIFStateless::send_node] ([main_dpdk.cpp]) up to the transmit
    queue: the node afterwards and the packet. *)
Definition node_packet (n : CGenNodeStateless) : res (CGenNodeStateless * bytes) :=
  match m_cache_mbuf n with
  | CacheMbuf p => Ok (n, p)
  | other =>
      _ ← pktmbuf_alloc (m_src_port n);
      let rest := match other with ConstMbuf r => r | _ => [] end in
      '(fv, p) ← alloc_node_with_vm (m_vm_program n) (m_vm_program_size n) (m_vm_flow_var n)
                   (m_original_packet_data_prefix n) rest;
      Ok (set_flow_var fv n, p)
  end.

(** ** Building a node

    The interface of the core: the port id of each direction and the MAC
    addresses (destination and source, 12 bytes) configured for it. *)
Record CCoreEthIF : Type := mkCoreEthIF { if_ports : list Z; dst_src_mac : Z -> bytes }.

Definition CS_INVALID : Z := 255.

Definition port_id_to_dir (v_if : CCoreEthIF) (port_id : Z) : Z :=
  match list_find (fun p => p = port_id) (take 2 (if_ports v_if)) with
  | Some (i, _) => Z.of_nat i
  | None => CS_INVALID
  end.

(** [update_mac_addr_from_global_cfg]: 12 bytes are written at [p], which has
    [room] bytes, whatever the length of the packet. *)
Definition update_mac_addr_from_global_cfg (v_if : CCoreEthIF) (dir room : Z) (p : bytes)
  : res bytes :=
  _ ← c_assert (dir <? 2);
  if room <? 12 then Err OutOfBounds
  else Ok (take (length p) (take 12 (dst_src_mac v_if dir) ++ drop 12 p)).

(** The data room of a packet buffer: the smallest pool holds 128 bytes. *)
Definition MBUF_ROOM : Z := 128.

(** The counters by stream type. *)
Definition burst_fields (s : TrexStream) : res (Z * Z * Z * double) :=
  if ts_type s =? stCONTINUOUS then Ok (ts_type s, 0, 0, double_of_Z 0)
  else if ts_type s =? stSINGLE_BURST then
    Ok (stMULTI_BURST, u32 (ts_burst_total_pkts s), 1, double_of_Z 0)
  else if ts_type s =? stMULTI_BURST then
    Ok (ts_type s, u32 (ts_burst_total_pkts s), u32 (ts_num_bursts s),
        usec_to_sec (ts_ibg_usec s))
  else Err AssertFail.

(** The packet of a stream without a VM, and with one: buffer, size of the
    prefix, prefix, flow variables, program and its size. *)
Definition plain_mbuf (v_if : CCoreEthIF) (dir pkt_size : Z) (stream_pkt : bytes)
  : res (node_mbuf * Z * bytes * bytes * bytes * Z) :=
  _ ← pktmbuf_alloc pkt_size;
  p ← update_mac_addr_from_global_cfg v_if dir MBUF_ROOM (take (Z.to_nat pkt_size) stream_pkt);
  Ok (CacheMbuf p, 0, [], [], [], 0).

Definition vm_mbuf (v_if : CCoreEthIF) (dir pkt_size : Z) (stream_pkt : bytes) (d : StreamVmDp)
  : res (node_mbuf * Z * bytes * bytes * bytes * Z) :=
  fv ← clone_bss malloc d;
  prog ← match m_program_ptr d with Some b => Ok b | None => Err NullDeref end;
  m ← (if pkt_size >? dp_prefix_size d then
         let const_pkt_size := u16 (pkt_size - dp_prefix_size d) in
         _ ← pktmbuf_alloc const_pkt_size;
         Ok (ConstMbuf (take (Z.to_nat const_pkt_size)
               (drop (Z.to_nat (dp_prefix_size d)) stream_pkt)))
       else Ok NoMbuf);
  let header_size := if dp_prefix_size d >? pkt_size then pkt_size else dp_prefix_size d in
  _ ← c_assert (negb (header_size =? 0));
  p ← malloc_copy malloc AssertFail stream_pkt header_size;
  p ← update_mac_addr_from_global_cfg v_if dir header_size p;
  Ok (m, header_size, p, fv, prog, u16 (m_program_size d)).

(** The node [add_stream] builds for a stream, and the data path copy of the
    stream. *)
Definition build_node (v_if : CCoreEthIF) (m_cur_time_sec : double) (stream : TrexStream)
  : res CGenNodeStateless :=
  dp_stream ← TrexStream_clone malloc stream;
  let dir := port_id_to_dir v_if (ts_port_id stream) in
  let stream_pkt := default [] (binary (ts_pkt stream)) in
  let pkt_size := u16 (len (ts_pkt stream)) in
  '(stype, single, multi, ibg) ← burst_fields stream;
  '(mbuf, size, prefix, fv, prog, prog_size) ←
    match ts_vm_dp dp_stream with
    | None => plain_mbuf v_if dir pkt_size stream_pkt
    | Some d => vm_mbuf v_if dir pkt_size stream_pkt d
    end;
  Ok (mkNode (double_add m_cur_time_sec (usec_to_sec (ts_isg_usec stream)))
        (double_div (double_of_Z 1) (ts_pps stream)) ibg
        (if ts_self_start stream then ss_ACTIVE else ss_INACTIVE)
        (u8 (ts_port_id stream)) stype false single single multi (Some dp_stream) None
        (negb (dir =? 0)) mbuf size prefix fv prog prog_size).

End Packet.
