(* ===== verification/DpNodeFacts.v ===== *)
(** * Bursts and packets of a node *)

From S2P Require Import Prelude Double ByteMem PktCmn StreamVm TrexStream DpNode.

(** ** Counting down a burst *)

(** The node after [k] packets of a burst. *)
Fixpoint ticks (k : nat) (n : CGenNodeStateless) : CGenNodeStateless :=
  match k with O => n | S k => fst (multi_burst_tick (ticks k n)) end.

(** How many times an unsigned 32-bit counter that is decremented before it is
    compared with zero goes round. *)
Definition burst_len (x : Z) : Z := if x =? 0 then 4294967296 else x.

Lemma burst_len_pos x : 0 <= x < 4294967296 -> 0 < burst_len x <= 4294967296.
Proof. unfold burst_len. destruct (Z.eqb_spec x 0); lia. Qed.

Lemma u32_countdown x j :
  0 <= x < 4294967296 -> 0 <= j < burst_len x ->
  u32 (u32 (x - j) - 1) = u32 (x - (j + 1)) /\
  (u32 (x - (j + 1)) = 0 <-> j + 1 = burst_len x).
Proof.
  unfold burst_len. destruct (Z.eqb_spec x 0) as [->|Hx]; intros H Hj.
  - split; [word_lia|]. split; intros; word_lia.
  - split; [word_lia|]. rewrite u32_id by lia. lia.
Qed.

Definition burst_at (s m : Z) (k : Z) (n0 n : CGenNodeStateless) : Prop :=
  m_single_burst n = u32 (s - k mod burst_len s) /\
  m_multi_bursts n = u32 (m - k / burst_len s) /\
  m_state n = ss_ACTIVE /\ m_single_burst_refill n = s /\
  m_ibg_sec n = m_ibg_sec n0 /\ m_next_time_offset n = m_next_time_offset n0.

(** One packet. *)
Lemma burst_step s m k n0 n :
  0 <= s < 4294967296 -> 0 <= m < 4294967296 -> 0 <= k < burst_len s * burst_len m ->
  burst_at s m k n0 n ->
  snd (multi_burst_tick n) = (k + 1 =? burst_len s * burst_len m) /\
  (k + 1 < burst_len s * burst_len m -> burst_at s m (k + 1) n0 (fst (multi_burst_tick n))).
Proof.
  intros Hs Hm Hk (Es & Em & Est & Er & Ei & Eo).
  pose proof (burst_len_pos s Hs) as Ps. pose proof (burst_len_pos m Hm) as Pm.
  set (L := burst_len s) in *. set (M := burst_len m) in *.
  set (j := k mod L) in *. set (q := k / L) in *.
  assert (Hj : 0 <= j < L) by (apply Z.mod_pos_bound; lia).
  assert (Ek : k = L * q + j) by (apply Z.div_mod; lia).
  assert (Hq : 0 <= q < M) by (split; [apply Z.div_pos; lia|apply Z.div_lt_upper_bound; lia]).
  destruct (u32_countdown s j Hs Hj) as [Ed Ez]. fold L in Ez.
  destruct (u32_countdown m q Hm Hq) as [Ed' Ez']. fold M in Ez'.
  pose proof (u32_range (s - (j + 1))) as Hr.
  unfold multi_burst_tick. rewrite Es, Ed.
  destruct (Z.gtb_spec (u32 (s - (j + 1))) 0) as [Hpos|Hzero]; simpl.
  - assert (j + 1 < L) by lia.
    assert (Ediv : (k + 1) / L = q) by (symmetry; apply Z.div_unique with (j + 1); lia).
    assert (Emod : (k + 1) mod L = j + 1) by (symmetry; apply Z.mod_unique with q; lia).
    split.
    + symmetry. apply Z.eqb_neq. nia.
    + intros _. unfold burst_at. fold L. rewrite Ediv, Emod. simpl. by split_and!.
  - assert (Ej : j + 1 = L) by (apply Ez; lia).
    assert (Ediv : (k + 1) / L = q + 1) by (symmetry; apply Z.div_unique with 0; lia).
    assert (Emod : (k + 1) mod L = 0) by (symmetry; apply Z.mod_unique with (q + 1); lia).
    rewrite Em, Ed'. destruct (Z.eqb_spec (u32 (m - (q + 1))) 0) as [Hz|Hnz]; simpl.
    + apply Ez' in Hz. split; [symmetry; apply Z.eqb_eq; nia|]. nia.
    + assert (q + 1 <> M) by (intros E; by apply Hnz, Ez').
      split; [symmetry; apply Z.eqb_neq; nia|]. intros _. unfold burst_at. fold L.
      rewrite Ediv, Emod. simpl. rewrite Z.sub_0_r, u32_id by lia. by split_and!.
Qed.

(** The counters of a node started with [s] packets per burst and [m] bursts, where a count of zero
    stands for 2^32: it is active, with the counters that remain, until the last of [s * m]
    ticks, and inactive after it. *)
Theorem burst_counters (n : CGenNodeStateless) (s m : Z) (k : nat) :
  0 <= s < 4294967296 -> 0 <= m < 4294967296 ->
  m_state n = ss_ACTIVE -> m_single_burst n = s -> m_single_burst_refill n = s ->
  m_multi_bursts n = m -> Z.of_nat k < burst_len s * burst_len m ->
  let n' := ticks k n in
  m_state n' = ss_ACTIVE /\
  m_single_burst n' = u32 (s - Z.of_nat k mod burst_len s) /\
  m_multi_bursts n' = u32 (m - Z.of_nat k / burst_len s) /\
  (snd (multi_burst_tick n') = true <-> Z.of_nat k + 1 = burst_len s * burst_len m) /\
  (snd (multi_burst_tick n') = true -> m_state (fst (multi_burst_tick n')) = ss_INACTIVE).
Proof.
  intros Hs Hm Hst Es Er Em Hk.
  assert (Hat : burst_at s m (Z.of_nat k) n (ticks k n)).
  { induction k as [|k IH]; simpl.
    - unfold burst_at. pose proof (burst_len_pos s Hs).
      rewrite Z.mod_0_l, Z.div_0_l, !Z.sub_0_r, !u32_id by lia. by split_and!.
    - destruct (burst_step s m (Z.of_nat k) n (ticks k n) Hs Hm) as [_ Hstep]; [lia|apply IH; lia|].
      replace (Z.of_nat (S k)) with (Z.of_nat k + 1) by lia. apply Hstep. lia. }
  destruct (burst_step s m (Z.of_nat k) n (ticks k n) Hs Hm) as [Hend _]; [lia|done|].
  destruct Hat as (A & B & C & _). simpl. split_and!; try done.
  - by rewrite Hend, Z.eqb_eq.
  - unfold multi_burst_tick. destruct (_ >? 0); [done|]. by destruct (_ =? 0).
Qed.

Lemma burst_counters_witness :
  let n := mkNode (double_of_Z 0) (double_of_Z 1) (double_of_Z 2) ss_ACTIVE 0 stMULTI_BURST false
             3 3 2 None None false NoMbuf 0 [] [] [] 0 in
  m_single_burst (ticks 4 n) = 2 /\ m_multi_bursts (ticks 4 n) = 1 /\
  snd (multi_burst_tick (ticks 5 n)) = true.
Proof.
  intros n.
  destruct (burst_counters n 3 2 4 ltac:(lia) ltac:(lia) eq_refl eq_refl eq_refl eq_refl eq_refl)
    as (_ & A & B & _).
  destruct (burst_counters n 3 2 5 ltac:(lia) ltac:(lia) eq_refl eq_refl eq_refl eq_refl eq_refl)
    as (_ & _ & _ & C & _).
  split; [exact A|]. split; [exact B|]. apply C. reflexivity.
Defined.

(** ** Building the node of a stream without a VM *)

Section Plain.
Context (malloc : Z -> option bytes) (avail : mbuf_pool -> bool) (v_if : CCoreEthIF).

(** A stream as the control plane can produce it, without a VM. *)
Record plain_stream (s : TrexStream) (b : bytes) : Prop := {
  pl_vm : ts_vm_dp s = None;
  pl_type : ts_type s = stCONTINUOUS \/ ts_type s = stSINGLE_BURST \/ ts_type s = stMULTI_BURST;
  pl_binary : binary (ts_pkt s) = Some b;
  pl_len : 0 <= len (ts_pkt s) <= zlength b /\ len (ts_pkt s) < 65536;
  pl_dir : port_id_to_dir v_if (ts_port_id s) < 2;
}.

Context (Havail : forall p, avail p = true).

Lemma pktmbuf_alloc_Ok size :
  if size <? MAX_BUF_SIZE then is_Some (match pktmbuf_alloc avail size with Ok p => Some p | _ => None end)
  else pktmbuf_alloc avail size = Err AssertFail.
Proof.
  unfold pktmbuf_alloc, rte_pktmbuf_alloc, MAX_BUF_SIZE.
  destruct (Z.ltb_spec size 2048) as [Hs|Hs].
  - repeat case_match; simpl in *; rewrite Havail in *; simpl in *; simplify_eq; done.
  - by destruct (Z.ltb_spec size 128), (Z.ltb_spec size 256), (Z.ltb_spec size 512), (Z.ltb_spec size 1024);
      try lia.
Qed.

Lemma build_node_plain t s b :
  plain_stream s b ->
  if len (ts_pkt s) <? MAX_BUF_SIZE then
    exists n p, build_node malloc avail v_if t s = Ok n /\ m_cache_mbuf n = CacheMbuf p
  else build_node malloc avail v_if t s = Err AssertFail.
Proof.
  intros [Hvm Hty Hb [Hl Hl16] Hd]. unfold build_node, TrexStream_clone. rewrite Hvm, Hb. simpl.
  unfold pkt_clone. rewrite decide_True by done. simpl.
  assert (exists ty sg mu ibg, burst_fields s = Ok (ty, sg, mu, ibg)) as (ty & sg & mu & ibg & ->).
  { unfold burst_fields. destruct Hty as [-> | [-> | ->]]; simpl; eauto 6. }
  simpl. unfold plain_mbuf. rewrite (u16_id (len _)) by lia.
  pose proof (pktmbuf_alloc_Ok (len (ts_pkt s))) as Hp.
  destruct (len (ts_pkt s) <? MAX_BUF_SIZE); [|by rewrite Hp].
  destruct (pktmbuf_alloc avail (len (ts_pkt s))); [|by destruct Hp]. simpl.
  unfold update_mac_addr_from_global_cfg. destruct (Z.ltb_spec (port_id_to_dir v_if (ts_port_id s)) 2); [|lia].
  simpl. eauto.
Qed.

(** A packet buffer holds less than 2048 bytes.  With every pool well
    stocked, the data path builds the node of a stream without a VM when its
    packet is shorter than that; for a longer packet, up to the 9000 bytes the
    control plane accepts, the assertion of the packet allocator fails and the
    process ends. *)
Theorem plain_packet_limit (t : double) (s : TrexStream) (b : bytes) :
  plain_stream s b ->
  (len (ts_pkt s) < 2048 -> exists n p, build_node malloc avail v_if t s = Ok n /\
     m_cache_mbuf n = CacheMbuf p) /\
  (2048 <= len (ts_pkt s) <= MAX_PKT_SIZE_BYTES ->
     build_node malloc avail v_if t s = Err AssertFail).
Proof.
  intros H. pose proof (build_node_plain t s b H) as Hp. unfold MAX_BUF_SIZE in Hp.
  destruct (Z.ltb_spec (len (ts_pkt s)) 2048); split; intros; done || lia.
Qed.

End Plain.

Definition demo_if : CCoreEthIF := mkCoreEthIF [0; 1] (fun _ => repeat 7 12).

Definition demo_stream (type port size : Z) (self_start : bool) (next : Z) (pkts : Z) : TrexStream :=
  mkTrexStream type port 0 (double_of_Z 0) next true self_start StreamVm_new None
    (mkPktData (Some (repeat 0 (Z.to_nat size))) size) (mkRxCheck false false false 0) (double_of_Z 1)
    pkts 1 (double_of_Z 0).

Lemma demo_stream_plain type port size ss next pkts :
  type = stCONTINUOUS \/ type = stSINGLE_BURST -> 0 <= port < 2 -> 0 <= size < 65536 ->
  plain_stream demo_if (demo_stream type port size ss next pkts) (repeat 0 (Z.to_nat size)).
Proof.
  intros Ht Hp Hs. split; simpl; try done.
  - naive_solver.
  - split; [|lia]. unfold zlength. rewrite repeat_length. lia.
  - assert (port = 0 \/ port = 1) as [-> | ->] by lia; reflexivity.
Qed.

Lemma plain_packet_limit_witness :
  build_node (fun _ => None) (fun _ => true) demo_if (double_of_Z 0)
    (demo_stream stCONTINUOUS 0 2048 true (-1) 0) = Err AssertFail.
Proof.
  apply (plain_packet_limit (fun _ => None) (fun _ => true) demo_if (fun _ => eq_refl) (double_of_Z 0) _
    (repeat 0 (Z.to_nat 2048))).
  - apply demo_stream_plain; [by left|lia|lia].
  - simpl. unfold MAX_PKT_SIZE_BYTES. lia.
Defined.
