(* ===== verification/DpCore.v ===== *)
(** * The stateless data path core

    Models [src/src/stateless/dp/trex_stateless_dp_core.{h,cpp}], the messages of
    [src/src/stateless/messaging/trex_stateless_messaging.{h,cpp}], and the part of
    the scheduler of [src/src/bp_sim.cpp] that runs stateless nodes. *)

From S2P Require Import Prelude Double ByteMem PktCmn StreamVm TrexStream StreamsCompiler DpNode.

(** ** Data *)

Inductive port_state_e : Type := ppSTATE_IDLE | ppSTATE_TRANSMITTING | ppSTATE_PAUSE.
Inductive dp_state_e : Type := STATE_IDLE | STATE_TRANSMITTING | STATE_TERMINATE.

#[export] Instance port_state_eq_dec : EqDecision port_state_e.
Proof. solve_decision. Defined.
#[export] Instance dp_state_eq_dec : EqDecision dp_state_e.
Proof. solve_decision. Defined.

(** [CDpOneStream]: the address of the node and the stream of the data path. *)
Record CDpOneStream : Type := mkOneStream { m_node : Z; m_dp_stream : option TrexStream }.

Record TrexStatelessDpPerPort : Type := mkPerPort {
  pp_state : port_state_e;
  m_active_streams : Z;
  m_active_nodes : list CDpOneStream;
  m_event_id : Z;
}.

(** [create]; the event id has no initial value in the code. *)
Definition PerPort_create (event_id : Z) : TrexStatelessDpPerPort :=
  mkPerPort ppSTATE_IDLE 0 [] event_id.

Definition NUM_PORTS_PER_CORE : Z := 2.

(** Messages of the control plane.  [m_core] of the stop message is set for the
    ones the data path schedules itself. *)
Inductive cp_msg : Type :=
  | TrexStatelessDpStart (port_id event_id : Z) (obj : TrexStreamsCompiledObj) (duration : double)
  | TrexStatelessDpPause (port_id : Z)
  | TrexStatelessDpResume (port_id : Z)
  | TrexStatelessDpStop (port_id : Z) (stop_only_for_event_id : bool) (event_id : Z) (core : bool)
  | TrexStatelessDpQuit
  | TrexStatelessDpCanQuit
  | TrexStatelessDpUpdate (port_id : Z) (factor : double).

(** [TrexDpPortEventMsg], always [EVENT_STOP] here. *)
Record TrexDpPortEventMsg : Type := mkPortEvent { pe_thread_id : Z; pe_port_id : Z; pe_event_id : Z }.

(** The node types of the scheduler that a stateless core uses. *)
Inductive gen_node : Type :=
  | STATELESS_PKT (n : CGenNodeStateless)
  | FLOW_SYNC (time : double)
  | EXIT_SCHED (time : double)
  | COMMAND (time : double) (cmd : cp_msg).

Definition gen_time (g : gen_node) : double :=
  match g with
  | STATELESS_PKT n => m_time n
  | FLOW_SYNC t | EXIT_SCHED t | COMMAND t _ => t
  end.

(** [TrexStatelessDpCore] with the fields of its [CFlowGenListPerThread]: the
    node pool by address, the priority queue as the collection of addresses in
    it, and what was sent. *)
Record TrexStatelessDpCore : Type := mkCore {
  pool : gmap Z gen_node;
  m_p_queue : list Z;
  m_cur_time_sec : double;
  m_non_active_nodes : Z;
  m_terminated_by_master : bool;
  dp_state : dp_state_e;
  m_ports : list TrexStatelessDpPerPort;
  m_ring_from_cp : list cp_msg;
  m_ring_to_cp : list TrexDpPortEventMsg;
  sent : list (Z * bool * bytes);
}.

(** ** Updates *)

Definition set_pool (p : gmap Z gen_node) (c : TrexStatelessDpCore) : TrexStatelessDpCore :=
  mkCore p (m_p_queue c) (m_cur_time_sec c) (m_non_active_nodes c) (m_terminated_by_master c)
    (dp_state c) (m_ports c) (m_ring_from_cp c) (m_ring_to_cp c) (sent c).

Definition set_queue (q : list Z) (c : TrexStatelessDpCore) : TrexStatelessDpCore :=
  mkCore (pool c) q (m_cur_time_sec c) (m_non_active_nodes c) (m_terminated_by_master c)
    (dp_state c) (m_ports c) (m_ring_from_cp c) (m_ring_to_cp c) (sent c).

Definition set_cur_time (t : double) (c : TrexStatelessDpCore) : TrexStatelessDpCore :=
  mkCore (pool c) (m_p_queue c) t (m_non_active_nodes c) (m_terminated_by_master c)
    (dp_state c) (m_ports c) (m_ring_from_cp c) (m_ring_to_cp c) (sent c).

Definition set_non_active (k : Z) (c : TrexStatelessDpCore) : TrexStatelessDpCore :=
  mkCore (pool c) (m_p_queue c) (m_cur_time_sec c) k (m_terminated_by_master c)
    (dp_state c) (m_ports c) (m_ring_from_cp c) (m_ring_to_cp c) (sent c).

Definition set_core_state (term : bool) (st : dp_state_e) (c : TrexStatelessDpCore)
  : TrexStatelessDpCore :=
  mkCore (pool c) (m_p_queue c) (m_cur_time_sec c) (m_non_active_nodes c) term st (m_ports c)
    (m_ring_from_cp c) (m_ring_to_cp c) (sent c).

Definition set_ports (ps : list TrexStatelessDpPerPort) (c : TrexStatelessDpCore)
  : TrexStatelessDpCore :=
  mkCore (pool c) (m_p_queue c) (m_cur_time_sec c) (m_non_active_nodes c)
    (m_terminated_by_master c) (dp_state c) ps (m_ring_from_cp c) (m_ring_to_cp c) (sent c).

Definition set_rings (from : list cp_msg) (to : list TrexDpPortEventMsg)
    (c : TrexStatelessDpCore) : TrexStatelessDpCore :=
  mkCore (pool c) (m_p_queue c) (m_cur_time_sec c) (m_non_active_nodes c)
    (m_terminated_by_master c) (dp_state c) (m_ports c) from to (sent c).

Definition log_sent (a : Z) (dir : bool) (p : bytes) (c : TrexStatelessDpCore)
  : TrexStatelessDpCore :=
  mkCore (pool c) (m_p_queue c) (m_cur_time_sec c) (m_non_active_nodes c)
    (m_terminated_by_master c) (dp_state c) (m_ports c) (m_ring_from_cp c) (m_ring_to_cp c)
    (sent c ++ [(a, dir, p)]).

Definition set_pp_state (st : port_state_e) (p : TrexStatelessDpPerPort) : TrexStatelessDpPerPort :=
  mkPerPort st (m_active_streams p) (m_active_nodes p) (m_event_id p).
Definition set_active_streams (k : Z) (p : TrexStatelessDpPerPort) : TrexStatelessDpPerPort :=
  mkPerPort (pp_state p) k (m_active_nodes p) (m_event_id p).
Definition set_active_nodes (l : list CDpOneStream) (p : TrexStatelessDpPerPort)
  : TrexStatelessDpPerPort :=
  mkPerPort (pp_state p) (m_active_streams p) l (m_event_id p).
Definition set_event_id (e : Z) (p : TrexStatelessDpPerPort) : TrexStatelessDpPerPort :=
  mkPerPort (pp_state p) (m_active_streams p) (m_active_nodes p) e.

(** A node that is used must be in the pool: anything else is a use after
    free. *)
Definition get_node (a : Z) (c : TrexStatelessDpCore) : res gen_node :=
  match pool c !! a with Some g => Ok g | None => Err OutOfBounds end.

Definition get_sl (a : Z) (c : TrexStatelessDpCore) : res CGenNodeStateless :=
  match pool c !! a with Some (STATELESS_PKT n) => Ok n | _ => Err OutOfBounds end.

Definition put_sl (a : Z) (n : CGenNodeStateless) (c : TrexStatelessDpCore)
  : TrexStatelessDpCore := set_pool (<[a := STATELESS_PKT n]> (pool c)) c.

(** [m_p_queue.push] / [add_node], and [pop] of the top, whose address is
    given. *)
Definition push (a : Z) (c : TrexStatelessDpCore) : TrexStatelessDpCore :=
  set_queue (m_p_queue c ++ [a]) c.

Fixpoint remove_one (a : Z) (q : list Z) : list Z :=
  match q with
  | [] => []
  | b :: q => if b =? a then q else b :: remove_one a q
  end.

Definition pop (a : Z) (c : TrexStatelessDpCore) : TrexStatelessDpCore :=
  set_queue (remove_one a (m_p_queue c)) c.

Section Core.
Context (malloc : Z -> option bytes) (avail : mbuf_pool -> bool).
(** The node pool: the address of a free node. *)
Context (mempool_get : gmap Z gen_node -> option Z).
Context (v_if : CCoreEthIF) (m_thread_id m_local_port_offset : Z).

(** [create_node]; an empty pool ends the process ([rte_exit]). *)
Definition create_node (g : gen_node) (c : TrexStatelessDpCore) : res (Z * TrexStatelessDpCore) :=
  match mempool_get (pool c) with
  | None => throw "cant allocate object , need more"
  | Some a => Ok (a, set_pool (<[a := g]> (pool c)) c)
  end.

(** [on_node_remove] *)
Definition on_node_remove (cmd : cp_msg) (c : TrexStatelessDpCore) : res TrexStatelessDpCore :=
  match cmd with
  | TrexStatelessDpStop _ _ _ true =>
      _ ← c_assert (m_non_active_nodes c >? 0);
      Ok (set_non_active (u32 (m_non_active_nodes c - 1)) c)
  | _ => Ok c
  end.

(** [free_node]; the buffers of a stateless node go with it. *)
Definition free_node (a : Z) (c : TrexStatelessDpCore) : res TrexStatelessDpCore :=
  g ← get_node a c;
  c ← match g with COMMAND _ cmd => on_node_remove cmd c | _ => Ok c end;
  Ok (set_pool (delete a (pool c)) c).

(** ** Ports *)

(** [get_port_db]: the local index of a port. *)
Definition get_port_db (port_id : Z) (c : TrexStatelessDpCore) : res (Z * TrexStatelessDpPerPort) :=
  _ ← c_assert ((m_local_port_offset =? port_id) || (m_local_port_offset + 1 =? port_id));
  let local_port_id := u8 (port_id - m_local_port_offset) in
  _ ← c_assert (local_port_id <? NUM_PORTS_PER_CORE);
  p ← get_idx (m_ports c) local_port_id;
  Ok (local_port_id, p).

Definition put_port (i : Z) (p : TrexStatelessDpPerPort) (c : TrexStatelessDpCore)
  : TrexStatelessDpCore := set_ports (<[Z.to_nat i := p]> (m_ports c)) c.

(** [for (auto dp_stream : m_active_nodes)] with the check of the port id and a
    check and an update of the node. *)
Fixpoint for_nodes (port_id : Z) (check : CGenNodeStateless -> bool)
    (f : CGenNodeStateless -> CGenNodeStateless) (l : list CDpOneStream)
    (c : TrexStatelessDpCore) : res TrexStatelessDpCore :=
  match l with
  | [] => Ok c
  | s :: l =>
      n ← get_sl (m_node s) c;
      _ ← c_assert (m_port_id n =? port_id);
      _ ← c_assert (check n);
      for_nodes port_id check f l (put_sl (m_node s) (f n) c)
  end.

Definition resume_traffic (port_id : Z) (c : TrexStatelessDpCore) : res TrexStatelessDpCore :=
  '(i, p) ← get_port_db port_id c;
  _ ← c_assert (bool_decide (pp_state p = ppSTATE_PAUSE));
  c ← for_nodes port_id m_pause (set_pause false) (m_active_nodes p) c;
  Ok (put_port i (set_pp_state ppSTATE_TRANSMITTING p) c).

Definition pause_traffic (port_id : Z) (c : TrexStatelessDpCore) : res TrexStatelessDpCore :=
  '(i, p) ← get_port_db port_id c;
  _ ← c_assert (bool_decide (pp_state p = ppSTATE_TRANSMITTING));
  c ← for_nodes port_id (fun n => negb (m_pause n)) (set_pause true) (m_active_nodes p) c;
  Ok (put_port i (set_pp_state ppSTATE_PAUSE p) c).

Definition update_traffic (port_id : Z) (factor : double) (c : TrexStatelessDpCore)
  : res TrexStatelessDpCore :=
  '(i, p) ← get_port_db port_id c;
  _ ← c_assert (bool_decide (pp_state p = ppSTATE_TRANSMITTING)
                || bool_decide (pp_state p = ppSTATE_PAUSE));
  for_nodes port_id (fun _ => true) (update_rate factor) (m_active_nodes p) c.

(** [CDpOneStream::Delete] and [DeleteOnlyStream]. *)
Definition OneStream_Delete (s : CDpOneStream) (c : TrexStatelessDpCore)
  : res TrexStatelessDpCore :=
  n ← get_sl (m_node s) c;
  _ ← c_assert (bool_decide (m_state n = ss_INACTIVE));
  free_node (m_node s) c.

Definition DeleteOnlyStream (s : CDpOneStream) (c : TrexStatelessDpCore)
  : res TrexStatelessDpCore :=
  _ ← c_assert (bool_decide (is_Some (m_dp_stream s))); Ok c.

(** The loop of [stop_traffic], with the port's count of active streams. *)
Fixpoint stop_nodes (port_id : Z) (l : list CDpOneStream) (active : Z) (c : TrexStatelessDpCore)
  : res (Z * TrexStatelessDpCore) :=
  match l with
  | [] => Ok (active, c)
  | s :: l =>
      n ← get_sl (m_node s) c;
      _ ← c_assert (m_port_id n =? port_id);
      if bool_decide (m_state n = ss_ACTIVE) then
        c ← DeleteOnlyStream s (put_sl (m_node s) (mark_for_free n) c);
        stop_nodes port_id l (u32 (active - 1)) c
      else
        c ← OneStream_Delete s c;
        stop_nodes port_id l active c
  end.

(** [TrexStatelessDpPerPort::stop_traffic] *)
Definition port_stop_traffic (i port_id : Z) (stop_on_id : bool) (event_id : Z)
    (p : TrexStatelessDpPerPort) (c : TrexStatelessDpCore) : res (bool * TrexStatelessDpCore) :=
  match pp_state p with
  | ppSTATE_IDLE => _ ← c_assert (m_active_streams p =? 0); Ok (false, c)
  | _ =>
      if stop_on_id && negb (event_id =? m_event_id p) then Ok (false, c)
      else
        '(active, c) ← stop_nodes port_id (m_active_nodes p) (m_active_streams p) c;
        _ ← c_assert (active =? 0);
        Ok (true, put_port i (mkPerPort ppSTATE_IDLE active [] (m_event_id p)) c)
  end.

(** [stop_traffic]: the control plane is told; the ring is taken to have room. *)
Definition stop_traffic (port_id : Z) (stop_on_id : bool) (event_id : Z)
    (c : TrexStatelessDpCore) : res TrexStatelessDpCore :=
  '(i, p) ← get_port_db port_id c;
  '(stopped, c) ← port_stop_traffic i port_id stop_on_id event_id p c;
  if negb stopped then Ok c
  else
    Ok (set_rings (m_ring_from_cp c)
          (m_ring_to_cp c ++ [mkPortEvent m_thread_id port_id (m_event_id p)]) c).

(** [update_number_of_active_streams] on the port of local index [i]. *)
Definition update_number_of_active_streams (i d : Z) (p : TrexStatelessDpPerPort)
    (c : TrexStatelessDpCore) : bool * TrexStatelessDpCore :=
  let k := u32 (m_active_streams p - d) in
  (k =? 0, put_port i (set_active_streams k p) c).

(** [set_stateless_next_node] *)
Definition set_stateless_next_node (cur : CGenNodeStateless) (next_node : option Z)
    (c : TrexStatelessDpCore) : res (bool * TrexStatelessDpCore) :=
  '(i, p) ← get_port_db (m_port_id cur) c;
  '(schedule, to_stop_port, c) ←
    match next_node with
    | None =>
        let '(stop, c) := update_number_of_active_streams i 1 p c in Ok (false, stop, c)
    | Some b =>
        nx ← get_sl b c;
        match m_state nx with
        | ss_FREE_RESUSE => Err AssertFail
        | ss_INACTIVE => nx ← refresh nx; Ok (true, false, put_sl b nx c)
        | ss_ACTIVE =>
            let '(stop, c) := update_number_of_active_streams i 1 p c in Ok (false, stop, c)
        end
    end;
  c ← (if to_stop_port : bool then stop_traffic (m_port_id cur) false 0 c else Ok c);
  Ok (schedule, c).

(** ** Sending *)

Definition send_node (a : Z) (c : TrexStatelessDpCore) : res TrexStatelessDpCore :=
  n ← get_sl a c;
  '(n', pkt) ← node_packet avail n;
  Ok (log_sent a (m_dir n) pkt (put_sl a n' c)).

Definition handle_continues (a : Z) (c : TrexStatelessDpCore) : res TrexStatelessDpCore :=
  n ← get_sl a c;
  c ← (if m_pause n then Ok c else send_node a c);
  n ← get_sl a c;
  Ok (push a (put_sl a (continues_tick n) c)).

Definition handle_multi_burst (a : Z) (c : TrexStatelessDpCore) : res TrexStatelessDpCore :=
  c ← send_node a c;
  n ← get_sl a c;
  let '(n, done) := multi_burst_tick n in
  let c := put_sl a n c in
  if negb done then Ok (push a c)
  else
    '(schedule, c) ← set_stateless_next_node n (m_next_stream n) c;
    match schedule, m_next_stream n with
    | true, Some b =>
        nx ← get_sl b c;
        nx ← update_refresh_time (m_time n) nx;
        Ok (push b (put_sl b nx c))
    | _, _ => Ok c
    end.

(** [CGenNodeStateless::handle] *)
Definition handle_sl (a : Z) (c : TrexStatelessDpCore) : res TrexStatelessDpCore :=
  n ← get_sl a c;
  if m_stream_type n =? stCONTINUOUS then handle_continues a c
  else if m_stream_type n =? stMULTI_BURST then handle_multi_burst a c
  else Err AssertFail.

(** ** Starting *)

(** [add_port_duration] *)
Definition add_port_duration (duration : double) (port_id event_id : Z) (c : TrexStatelessDpCore)
  : res TrexStatelessDpCore :=
  if double_ltb (double_of_Z 0) duration then
    '(a, c) ← create_node (COMMAND (double_add (m_cur_time_sec c) duration)
                             (TrexStatelessDpStop port_id true event_id true)) c;
    Ok (push a (set_non_active (u32 (m_non_active_nodes c + 1)) c))
  else Ok c.

(** [add_stream] for the port of local index [i]: creating the node comes before
    building it, so the pool is checked first. *)
Definition add_stream (i : Z) (stream : TrexStream) (c : TrexStatelessDpCore)
  : res TrexStatelessDpCore :=
  '(a, _) ← create_node (FLOW_SYNC (double_of_Z 0)) c;
  n ← build_node malloc avail v_if (m_cur_time_sec c) stream;
  p ← get_idx (m_ports c) i;
  let active := bool_decide (m_state n = ss_ACTIVE) in
  let c := put_sl a n c in
  let c := put_port i
    (mkPerPort (pp_state p) (if active then u32 (m_active_streams p + 1) else m_active_streams p)
       (m_active_nodes p ++ [mkOneStream a (m_ref_stream_info n)]) (m_event_id p)) c in
  Ok (if active then push a c else c).

Fixpoint add_streams (i port_id : Z) (l : list TrexStream) (c : TrexStatelessDpCore)
  : res TrexStatelessDpCore :=
  match l with
  | [] => Ok c
  | s :: l =>
      _ ← c_assert (port_id =? ts_port_id s);
      c ← add_stream i s c;
      add_streams i port_id l c
  end.

(** The second loop: [cnt] numbers the streams. *)
Fixpoint link_streams (active_nodes : list CDpOneStream) (cnt : Z) (l : list TrexStream)
    (c : TrexStatelessDpCore) : res TrexStatelessDpCore :=
  match l with
  | [] => Ok c
  | s :: l =>
      c ← (if is_dp_next_stream s then
             let stream_id := ts_next_stream_id s in
             _ ← c_assert (stream_id <? zlength active_nodes);
             src ← get_idx active_nodes cnt;
             dst ← get_idx active_nodes stream_id;
             n ← get_sl (m_node src) c;
             Ok (put_sl (m_node src) (set_next_stream (Some (m_node dst)) n) c)
           else Ok c);
      link_streams active_nodes (cnt + 1) l c
  end.

(** [start_traffic] *)
Definition start_traffic (obj : TrexStreamsCompiledObj) (duration : double) (event_id : Z)
    (c : TrexStatelessDpCore) : res TrexStatelessDpCore :=
  '(i, p) ← get_port_db (co_port_id obj) c;
  let p := set_event_id event_id (set_active_streams 0 p) in
  let c := put_port i p c in
  _ ← c_assert (zlength (m_active_nodes p) =? 0);
  c ← add_streams i (co_port_id obj) (m_objs obj) c;
  p ← get_idx (m_ports c) i;
  _ ← c_assert (zlength (m_active_nodes p) =? zlength (m_objs obj));
  c ← link_streams (m_active_nodes p) 0 (m_objs obj) c;
  let c := put_port i (set_pp_state ppSTATE_TRANSMITTING p) c in
  let c := set_core_state (m_terminated_by_master c) STATE_TRANSMITTING c in
  if double_ltb (double_of_Z 0) duration
  then add_port_duration duration (co_port_id obj) event_id c else Ok c.

(** ** Messages *)

(** [are_all_ports_idle] *)
Definition are_all_ports_idle (c : TrexStatelessDpCore) : bool :=
  forallb (fun p => bool_decide (pp_state p = ppSTATE_IDLE)) (m_ports c).

(** [add_global_duration] *)
Definition add_global_duration (duration : double) (c : TrexStatelessDpCore)
  : res TrexStatelessDpCore :=
  if double_ltb (double_of_Z 0) duration then
    '(a, c) ← create_node (EXIT_SCHED (double_add (m_cur_time_sec c) duration)) c;
    Ok (push a c)
  else Ok c.

Definition quit_main_loop (c : TrexStatelessDpCore) : res TrexStatelessDpCore :=
  add_global_duration (double_div (double_of_Z 1) (double_of_Z 10000))
    (set_core_state true STATE_TERMINATE c).

Definition schedule_exit (c : TrexStatelessDpCore) : res TrexStatelessDpCore :=
  '(a, c) ← create_node (COMMAND (m_cur_time_sec c) TrexStatelessDpCanQuit) c;
  Ok (push a c).

(** [handle] of a message, with its quit flag afterwards. *)
Definition msg_handle (m : cp_msg) (c : TrexStatelessDpCore) : res (bool * TrexStatelessDpCore) :=
  match m with
  | TrexStatelessDpStart port_id event_id obj duration =>
      c ← start_traffic obj duration event_id c; Ok (false, c)
  | TrexStatelessDpPause port_id => c ← pause_traffic port_id c; Ok (false, c)
  | TrexStatelessDpResume port_id => c ← resume_traffic port_id c; Ok (false, c)
  | TrexStatelessDpStop port_id on_id event_id _ =>
      c ← stop_traffic port_id on_id event_id c; Ok (false, c)
  | TrexStatelessDpQuit => c ← quit_main_loop c; Ok (false, c)
  | TrexStatelessDpCanQuit => Ok (are_all_ports_idle c, c)
  | TrexStatelessDpUpdate port_id factor => c ← update_traffic port_id factor c; Ok (false, c)
  end.

(** [handle_cp_msg]: the quit flag is not read. *)
Definition handle_cp_msg (m : cp_msg) (c : TrexStatelessDpCore) : res TrexStatelessDpCore :=
  '(_, c) ← msg_handle m c; Ok c.

Fixpoint handle_cp_msgs (l : list cp_msg) (c : TrexStatelessDpCore) : res TrexStatelessDpCore :=
  match l with
  | [] => Ok c
  | m :: l => c ← handle_cp_msg m c; handle_cp_msgs l c
  end.

(** The ring is emptied. *)
Definition periodic_check_for_cp_messages (c : TrexStatelessDpCore) : res TrexStatelessDpCore :=
  handle_cp_msgs (m_ring_from_cp c) (set_rings [] (m_ring_to_cp c) c).

(** ** The scheduler *)

Definition SYNC_TIME_OUT : double := double_div (double_of_Z 1) (double_of_Z 1000).

(** One turn of [flush_file] (and [handle_slow_messages]) for the node at the
    top of the queue; [true] when the scheduler exits. *)
Definition handle_top (a : Z) (c : TrexStatelessDpCore) : res (bool * TrexStatelessDpCore) :=
  g ← get_node a c;
  match g with
  | STATELESS_PKT n =>
      let c := pop a c in
      c ← (if is_mask_for_free n then free_node a c else handle_sl a c);
      Ok (false, c)
  | FLOW_SYNC t =>
      let c := pop a (set_cur_time t c) in
      c ← periodic_check_for_cp_messages c;
      if zlength (m_p_queue c) =? m_non_active_nodes c then
        c ← free_node a c; Ok (true, c)
      else
        Ok (false, push a (set_pool (<[a := FLOW_SYNC (double_add t SYNC_TIME_OUT)]> (pool c)) c))
  | EXIT_SCHED t => c ← free_node a (pop a c); Ok (true, c)
  | COMMAND t cmd =>
      '(quit, c) ← msg_handle cmd (pop a c);
      c ← free_node a c;
      Ok (quit, c)
  end.

(** The top of the priority queue: no element is earlier.  Which of several
    equally early ones comes first is left open. *)
Definition is_top (c : TrexStatelessDpCore) (a : Z) : Prop :=
  a ∈ m_p_queue c /\
  forall b ga gb, b ∈ m_p_queue c -> pool c !! a = Some ga -> pool c !! b = Some gb ->
    double_ltb (gen_time gb) (gen_time ga) = false.

(** [flush_file], with messages [ms] of the control plane arriving after each
    turn. *)
Definition deliver (ms : list cp_msg) (c : TrexStatelessDpCore) : TrexStatelessDpCore :=
  set_rings (m_ring_from_cp c ++ ms) (m_ring_to_cp c) c.

Inductive flush_file : TrexStatelessDpCore -> TrexStatelessDpCore -> Prop :=
  | flush_exit c a c' :
      is_top c a -> handle_top a c = Ok (true, c') -> flush_file c c'
  | flush_turn c a c1 ms c' :
      is_top c a -> handle_top a c = Ok (false, c1) -> flush_file (deliver ms c1) c' ->
      flush_file c c'.

(** [remove_all]: the queue is emptied; a stateless node in it must have been
    marked. *)
Fixpoint remove_all (q : list Z) (c : TrexStatelessDpCore) : res TrexStatelessDpCore :=
  match q with
  | [] => Ok c
  | a :: q =>
      g ← get_node a c;
      _ ← match g with STATELESS_PKT n => c_assert (is_mask_for_free n) | _ => Ok tt end;
      c ← free_node a (set_queue q c);
      remove_all q c
  end.

(** The end of [start_scheduler]. *)
Definition after_flush (c : TrexStatelessDpCore) : res TrexStatelessDpCore :=
  match dp_state c with
  | STATE_TERMINATE => Ok c
  | _ => c ← remove_all (m_p_queue c) c;
         Ok (set_core_state (m_terminated_by_master c) STATE_IDLE c)
  end.

(** The start of [start_scheduler]. *)
Definition add_sync_node (c : TrexStatelessDpCore) : res TrexStatelessDpCore :=
  '(a, c) ← create_node (FLOW_SYNC (double_add (m_cur_time_sec c) SYNC_TIME_OUT)) c;
  Ok (push a c).

End Core.

(** [TrexStatelessDpCore::create]; [event_id] stands for the uninitialised
    fields. *)
Definition DpCore_create (event_id : Z) : TrexStatelessDpCore :=
  mkCore ∅ [] (double_of_Z 0) 0 false STATE_IDLE
    (replicate (Z.to_nat NUM_PORTS_PER_CORE) (PerPort_create event_id)) [] [] [].
