(* ===== verification/DpCoreFacts.v ===== *)
(** * Invariant of the stateless data path core

    What holds of the node pool, the priority queue and the two ports between
    any two turns of the scheduler, and that every operation keeps it. *)

From S2P Require Import Prelude Double ByteMem PktCmn StreamVm TrexStream StreamsCompiler DpNode DpCore.

(** ** Counting active nodes *)

Definition act (P : gmap Z gen_node) (a : Z) : bool :=
  match P !! a with Some (STATELESS_PKT n) => bool_decide (m_state n = ss_ACTIVE) | _ => false end.

Fixpoint act_count (P : gmap Z gen_node) (l : list Z) : Z :=
  match l with [] => 0 | a :: l => Z.b2z (act P a) + act_count P l end.

Lemma act_count_range P l : 0 <= act_count P l <= zlength l.
Proof.
  unfold zlength. induction l as [|a l IH]; simpl; [lia|]. destruct (act P a); simpl; lia.
Qed.

Lemma act_count_frame P P' l :
  (forall b, b ∈ l -> act P' b = act P b) -> act_count P' l = act_count P l.
Proof.
  induction l as [|a l IH]; simpl; intros H; [done|].
  rewrite H, IH; [done| |]; [intros b Hb; apply H|]; set_solver.
Qed.

Lemma act_count_update P P' l a :
  NoDup l -> a ∈ l -> (forall b, b ≠ a -> act P' b = act P b) ->
  act_count P' l = act_count P l - Z.b2z (act P a) + Z.b2z (act P' a).
Proof.
  intros Hnd Ha H. induction Hnd as [|b l Hb Hnd IH]; simpl; [by apply elem_of_nil in Ha|].
  apply elem_of_cons in Ha as [-> | Ha].
  - rewrite (act_count_frame P P' l); [lia|]. intros d Hd. apply H. set_solver.
  - rewrite (IH Ha), (H b) by set_solver. lia.
Qed.

(** ** Stop commands in the queue *)

Definition is_stop_cmd (P : gmap Z gen_node) (a : Z) : bool :=
  match P !! a with
  | Some (COMMAND _ (TrexStatelessDpStop _ _ _ true)) => true | _ => false end.

Fixpoint stop_count (P : gmap Z gen_node) (l : list Z) : Z :=
  match l with [] => 0 | a :: l => Z.b2z (is_stop_cmd P a) + stop_count P l end.

Lemma stop_count_app P l l' : stop_count P (l ++ l') = stop_count P l + stop_count P l'.
Proof. induction l as [|a l IH]; simpl; lia. Qed.

Lemma stop_count_range P l : 0 <= stop_count P l <= zlength l.
Proof.
  unfold zlength. induction l as [|a l IH]; simpl; [lia|]. destruct (is_stop_cmd P a); simpl; lia.
Qed.

Lemma stop_count_frame P P' l :
  (forall b, b ∈ l -> is_stop_cmd P' b = is_stop_cmd P b) -> stop_count P' l = stop_count P l.
Proof.
  induction l as [|a l IH]; simpl; intros H; [done|].
  rewrite H, IH; [done| |]; [intros b Hb; apply H|]; set_solver.
Qed.

Lemma stop_count_perm P l l' : l ≡ₚ l' -> stop_count P l = stop_count P l'.
Proof. induction 1; simpl; lia. Qed.

Lemma stop_count_all P l a : stop_count P l = zlength l -> a ∈ l -> is_stop_cmd P a = true.
Proof.
  induction l as [|b l IH]; simpl; intros H Ha; [by apply elem_of_nil in Ha|].
  unfold zlength in *. simpl in H. pose proof (stop_count_range P l) as Hr. unfold zlength in Hr.
  apply elem_of_cons in Ha as [-> | Ha]; [|apply IH; [|done]];
    destruct (is_stop_cmd P b); simpl in *; done || lia.
Qed.

Lemma nodup_size (P : gmap Z gen_node) (l : list Z) :
  NoDup l -> (forall a, a ∈ l -> is_Some (P !! a)) -> zlength l <= Z.of_nat (size P).
Proof.
  intros Hnd H. unfold zlength. rewrite <- size_dom.
  rewrite <- (size_list_to_set (C := gset Z) l Hnd).
  apply Nat2Z.inj_le, subseteq_size. intros a Ha. apply elem_of_list_to_set in Ha.
  by apply elem_of_dom, H.
Qed.

Lemma remove_one_perm a q : a ∈ q -> q ≡ₚ a :: remove_one a q.
Proof.
  induction q as [|b q IH]; intros Ha; [by apply elem_of_nil in Ha|]. simpl.
  destruct (Z.eqb_spec b a) as [->|Hb]; [done|].
  apply elem_of_cons in Ha as [-> | Ha]; [done|]. rewrite (IH Ha) at 1. apply perm_swap.
Qed.

(** ** Nodes that can always send

    A node without a VM holds its packet; one with a VM has a set of values of
    its flow variables on which the program always succeeds. *)
Definition sendable (avail : mbuf_pool -> bool) (n : CGenNodeStateless) : Prop :=
  exists ok : bytes -> Prop, ok (m_vm_flow_var n) /\
    forall fv, ok fv ->
      exists fv' pkt, node_packet avail (set_flow_var fv n) = Ok (set_flow_var fv' n, pkt) /\ ok fv'.

Lemma sendable_cache avail n p : m_cache_mbuf n = CacheMbuf p -> sendable avail n.
Proof.
  intros H. exists (fun _ => True). split; [done|]. intros fv _. exists fv, p. split; [|done].
  unfold node_packet. simpl. by rewrite H.
Qed.

(** The fields the invariant reads. *)
Definition same_meta (n n' : CGenNodeStateless) : Prop :=
  m_state n' = m_state n /\ m_port_id n' = m_port_id n /\ m_stream_type n' = m_stream_type n /\
  m_pause n' = m_pause n /\ m_ref_stream_info n' = m_ref_stream_info n /\
  m_next_stream n' = m_next_stream n.

(** The fields sending reads. *)
Definition same_packet (n n' : CGenNodeStateless) : Prop :=
  m_cache_mbuf n' = m_cache_mbuf n /\ m_src_port n' = m_src_port n /\
  m_original_packet_data_prefix n' = m_original_packet_data_prefix n /\
  m_vm_flow_var n' = m_vm_flow_var n /\ m_vm_program n' = m_vm_program n /\
  m_vm_program_size n' = m_vm_program_size n.

Lemma node_packet_inv avail n n' pkt :
  node_packet avail n = Ok (n', pkt) -> exists fv, n' = set_flow_var fv n.
Proof.
  unfold node_packet. destruct (m_cache_mbuf n).
  2: { intros [= <- <-]. exists (m_vm_flow_var n). by destruct n. }
  all: intros E; res_inv_all; destruct_and?; match goal with
    | H : (let '(_, _) := ?x in _) = Ok _ |- _ => destruct x; simplify_eq/= end; eauto.
Qed.

Lemma node_packet_frame avail n n' fv fv' pkt :
  same_packet n n' -> node_packet avail (set_flow_var fv n) = Ok (set_flow_var fv' n, pkt) ->
  node_packet avail (set_flow_var fv n') = Ok (set_flow_var fv' n', pkt).
Proof.
  intros (Hc & Hp & Hb & Hf & Hg & Hs). unfold node_packet. simpl. rewrite Hc, Hp, Hb, Hg, Hs.
  destruct (m_cache_mbuf n).
  2: { intros [= E1 <-]. by rewrite E1. }
  all: intros E; res_inv_all; rewrite H; simpl;
    destruct x0 as [fv1 p1]; simplify_eq/=;
    match goal with H : alloc_node_with_vm _ _ _ _ _ = _ |- _ => rewrite H end; done.
Qed.

Lemma sendable_frame avail n n' : same_packet n n' -> sendable avail n -> sendable avail n'.
Proof.
  intros Hs (ok & H0 & H). exists ok. destruct Hs as (Hc & Hp & Hb & Hf & Hg & Hz).
  split; [by rewrite Hf|]. intros fv Hfv. destruct (H fv Hfv) as (fv' & pkt & E & Hok).
  exists fv', pkt. split; [|done]. eapply node_packet_frame; [|exact E]. by repeat split.
Qed.

Lemma set_flow_var_id n : set_flow_var (m_vm_flow_var n) n = n.
Proof. by destruct n. Qed.

Lemma sendable_send avail n :
  sendable avail n ->
  exists n' pkt, node_packet avail n = Ok (n', pkt) /\ sendable avail n' /\ same_meta n n' /\
    (exists fv, n' = set_flow_var fv n).
Proof.
  intros (ok & H0 & H). destruct (H _ H0) as (fv' & pkt & E & Hok).
  rewrite set_flow_var_id in E. exists (set_flow_var fv' n), pkt.
  split; [done|]. split; [|split; [by repeat split|by eexists]].
  exists ok. split; [done|]. intros fv Hfv. destruct (H fv Hfv) as (fv2 & pkt2 & E2 & Hok2).
  exists fv2, pkt2. by split.
Qed.

(** ** The invariant *)

Definition owned (p : TrexStatelessDpPerPort) : list Z := map m_node (m_active_nodes p).

Section Invariant.
Context (avail : mbuf_pool -> bool) (off POOL : Z).

(** A node in the list of the port of local index [i]. *)
Record node_in (st : port_state_e) (i : nat) (nodes : list Z) (n : CGenNodeStateless) : Prop := {
  ni_port : m_port_id n = off + Z.of_nat i;
  ni_type : m_stream_type n = stCONTINUOUS \/ m_stream_type n = stMULTI_BURST;
  ni_pause : m_pause n = bool_decide (st = ppSTATE_PAUSE);
  ni_ref : is_Some (m_ref_stream_info n);
  ni_next : forall b, m_next_stream n = Some b -> b ∈ nodes;
  ni_send : sendable avail n;
}.

(** [x] is how far the count of active streams is ahead, [starting] the port
    whose start is under way. *)
Record port_inv (x : nat -> Z) (starting : option nat) (P : gmap Z gen_node) (i : nat)
    (p : TrexStatelessDpPerPort) : Prop := {
  pi_nodup : NoDup (owned p);
  pi_node : forall a, a ∈ owned p ->
    exists n, P !! a = Some (STATELESS_PKT n) /\ m_state n <> ss_FREE_RESUSE /\
      node_in (pp_state p) i (owned p) n;
  pi_stream : forall s, s ∈ m_active_nodes p -> is_Some (m_dp_stream s);
  pi_idle : starting <> Some i -> pp_state p = ppSTATE_IDLE -> m_active_nodes p = [];
  pi_count : m_active_streams p = act_count P (owned p) + x i;
}.

(** [q] is the queue, with the node that is being handled while it is out of
    it. *)
Record inv_at (q : list Z) (x : nat -> Z) (starting : option nat) (c : TrexStatelessDpCore)
  : Prop := {
  iv_ports : length (m_ports c) = 2%nat;
  iv_port : forall i p, m_ports c !! i = Some p -> port_inv x starting (pool c) i p;
  iv_nodup : NoDup q;
  iv_queue : forall a, a ∈ q -> is_Some (pool c !! a);
  iv_sl : forall a n, pool c !! a = Some (STATELESS_PKT n) -> m_state n = ss_INACTIVE <-> a ∉ q;
  iv_owned : forall a n, pool c !! a = Some (STATELESS_PKT n) -> m_state n <> ss_FREE_RESUSE ->
    exists i p, m_ports c !! i = Some p /\ a ∈ owned p;
  iv_cmd : forall a t m, pool c !! a = Some (COMMAND t m) ->
    m = TrexStatelessDpCanQuit \/
    exists (j : nat) ev, (j < 2)%nat /\ m = TrexStatelessDpStop (off + Z.of_nat j) true ev true;
  iv_exit : forall a t, pool c !! a = Some (EXIT_SCHED t) -> dp_state c = STATE_TERMINATE;
  iv_non_active : m_non_active_nodes c = stop_count (pool c) q;
  iv_size : Z.of_nat (size (pool c)) <= POOL;
}.

Definition x0 : nat -> Z := fun _ => 0.
Definition x1 (i : nat) : nat -> Z := fun j => if decide (j = i) then 1 else 0.

Definition inv (c : TrexStatelessDpCore) : Prop := inv_at (m_p_queue c) x0 None c.

Lemma inv_at_perm q q' x s c : q ≡ₚ q' -> inv_at q x s c -> inv_at q' x s c.
Proof.
  intros Hp []. split; try done.
  - by rewrite <- Hp.
  - intros a Ha. apply iv_queue0. by rewrite Hp.
  - intros a n Ha. etransitivity; [apply (iv_sl0 a n Ha)|by rewrite Hp].
  - rewrite iv_non_active0. by apply stop_count_perm.
Qed.

(** The invariant reads only these fields. *)
Lemma inv_at_ext q x s c c' :
  pool c' = pool c -> m_ports c' = m_ports c -> m_non_active_nodes c' = m_non_active_nodes c ->
  dp_state c' = dp_state c -> inv_at q x s c -> inv_at q x s c'.
Proof. intros E1 E2 E3 E4 []. split; rewrite ?E1, ?E2, ?E3, ?E4; done. Qed.

(** A node is in the list of one port only. *)
Lemma owned_unique q x s c i j p p' a :
  inv_at q x s c -> m_ports c !! i = Some p -> m_ports c !! j = Some p' ->
  a ∈ owned p -> a ∈ owned p' -> i = j.
Proof.
  intros H Hi Hj Ha Ha'.
  destruct (pi_node _ _ _ _ _ (iv_port _ _ _ _ H _ _ Hi) _ Ha) as (n & E & _ & Hn).
  destruct (pi_node _ _ _ _ _ (iv_port _ _ _ _ H _ _ Hj) _ Ha') as (n' & E' & _ & Hn').
  destruct Hn, Hn'. simplify_eq. lia.
Qed.

Lemma get_sl_Ok a c n : get_sl a c = Ok n <-> pool c !! a = Some (STATELESS_PKT n).
Proof.
  unfold get_sl. destruct (pool c !! a) as [[]|]; split; intros; simplify_eq; done.
Qed.

Lemma size_insert_some (P : gmap Z gen_node) a g :
  is_Some (P !! a) -> size (<[a := g]> P) = size P.
Proof.
  intros [g' E]. rewrite <- (insert_id P a g' E) at 2. rewrite !map_size_insert, E. done.
Qed.

(** Replacing a node of a port: [q'], [x'] are the new queue and offsets. *)
Lemma inv_put q q' x x' s c a n n' i p :
  inv_at q x s c -> pool c !! a = Some (STATELESS_PKT n) -> m_ports c !! i = Some p ->
  a ∈ owned p -> m_state n' <> ss_FREE_RESUSE -> node_in (pp_state p) i (owned p) n' ->
  NoDup q' -> (forall b, b <> a -> b ∈ q' <-> b ∈ q) -> (m_state n' = ss_INACTIVE <-> a ∉ q') ->
  stop_count (pool c) q' = stop_count (pool c) q ->
  (forall j, x' j = x j + (if decide (j = i) then
     Z.b2z (bool_decide (m_state n = ss_ACTIVE)) - Z.b2z (bool_decide (m_state n' = ss_ACTIVE))
     else 0)) ->
  inv_at q' x' s (put_sl a n' c).
Proof.
  intros H Ea Ei Hown Hst Hn' Hnd Hq Haq Hsc Hx.
  assert (Hfr : forall b, b <> a -> act (<[a:=STATELESS_PKT n']> (pool c)) b = act (pool c) b).
  { intros b Hb. unfold act. by rewrite lookup_insert_ne by congruence. }
  split; simpl.
  - apply H.
  - intros j pj Ej. pose proof (iv_port _ _ _ _ H _ _ Ej) as Hp. split; try apply Hp.
    + intros b Hb. destruct (decide (b = a)) as [->|Hne].
      * rewrite lookup_insert_eq. exists n'.
        assert (i = j) as -> by eauto using owned_unique. simplify_eq. by repeat split; try apply Hn'.
      * rewrite lookup_insert_ne by congruence. by apply Hp.
    + rewrite (pi_count _ _ _ _ _ Hp), Hx. destruct (decide (j = i)) as [->|Hne].
      * assert (pj = p) as -> by congruence.
        rewrite (act_count_update (pool c) (<[a:=STATELESS_PKT n']> (pool c)) (owned p) a);
          [|apply Hp|done|done].
        unfold act. rewrite lookup_insert_eq, Ea. lia.
      * rewrite (act_count_frame (pool c) (<[a:=STATELESS_PKT n']> (pool c))); [lia|]. intros b Hb. apply Hfr. intros ->.
        apply Hne. eauto using owned_unique.
  - done.
  - intros b Hb. destruct (decide (b = a)) as [->|Hne]; [by rewrite lookup_insert_eq|].
    rewrite lookup_insert_ne by congruence. apply H. by apply Hq.
  - intros b nb. destruct (decide (b = a)) as [->|Hne].
    + rewrite lookup_insert_eq. by intros [= <-].
    + rewrite lookup_insert_ne by congruence. intros Eb. rewrite (Hq b Hne). by apply H.
  - intros b nb. destruct (decide (b = a)) as [->|Hne]; [by eauto|].
    rewrite lookup_insert_ne by congruence. apply H.
  - intros b t m. destruct (decide (b = a)) as [->|Hne]; [by rewrite lookup_insert_eq|].
    rewrite lookup_insert_ne by congruence. apply H.
  - intros b t. destruct (decide (b = a)) as [->|Hne]; [by rewrite lookup_insert_eq|].
    rewrite lookup_insert_ne by congruence. apply H.
  - rewrite (iv_non_active _ _ _ _ H), <- Hsc. symmetry. apply stop_count_frame. intros b _.
    unfold is_stop_cmd. destruct (decide (b = a)) as [->|Hne];
      [by rewrite lookup_insert_eq, Ea|by rewrite lookup_insert_ne by congruence].
  - rewrite size_insert_some; [apply H|by rewrite Ea].
Qed.

(** Replacing a port whose list of nodes stays. *)
Lemma inv_put_port q x x' s s' c i p p' :
  inv_at q x s c -> m_ports c !! i = Some p -> m_active_nodes p' = m_active_nodes p ->
  (s' <> Some i -> pp_state p' = ppSTATE_IDLE -> m_active_nodes p = []) ->
  (forall j, j <> i -> s' <> Some j -> s <> Some j) ->
  bool_decide (pp_state p' = ppSTATE_PAUSE) = bool_decide (pp_state p = ppSTATE_PAUSE) ->
  (forall j, x' j = x j + (if decide (j = i) then m_active_streams p' - m_active_streams p else 0)) ->
  inv_at q x' s' (put_port (Z.of_nat i) p' c).
Proof.
  intros H Ei En Hidle Hs Hpause Hx. pose proof (lookup_lt_Some _ _ _ Ei) as Hlt.
  unfold put_port. rewrite Nat2Z.id. assert (Eo : owned p' = owned p) by (unfold owned; by rewrite En).
  split; simpl; try apply H.
  - rewrite length_insert. apply H.
  - intros j pj. destruct (decide (j = i)) as [->|Hne].
    + rewrite list_lookup_insert_eq by done. intros [= <-].
      pose proof (iv_port _ _ _ _ H _ _ Ei) as Hp. split; rewrite ?Eo, ?En; try apply Hp; try done.
      * intros a Ha. destruct (pi_node _ _ _ _ _ Hp a Ha) as (n & Ea & Hst & Hn).
        exists n. split; [done|]. split; [done|]. destruct Hn. split; try done. by rewrite Hpause.
      * rewrite Hx, decide_True by done. rewrite <- (Z.add_cancel_r _ _ (m_active_streams p)).
        rewrite (pi_count _ _ _ _ _ Hp) at 2. lia.
    + rewrite list_lookup_insert_ne by congruence. intros Ej.
      destruct (iv_port _ _ _ _ H _ _ Ej). split; try done.
      { intros Hn. by apply pi_idle0, Hs. }
      rewrite Hx, decide_False by done. lia.
  - intros a n Ha Hst. destruct (iv_owned _ _ _ _ H a n Ha Hst) as (j & pj & Ej & Hown).
    destruct (decide (j = i)) as [->|Hne].
    + exists i, p'. rewrite list_lookup_insert_eq by done. split; [done|]. rewrite Eo. congruence.
    + exists j, pj. by rewrite list_lookup_insert_ne by congruence.
Qed.

(** Taking the top off the queue, and putting a node on it. *)
Lemma inv_pop c a :
  inv c -> a ∈ m_p_queue c -> inv_at (a :: m_p_queue (pop a c)) x0 None (pop a c).
Proof.
  intros H Ha. eapply inv_at_perm; [by apply remove_one_perm|].
  by eapply inv_at_ext; [..|exact H].
Qed.

Lemma not_in_pop c a : NoDup (m_p_queue c) -> a ∈ m_p_queue c -> a ∉ m_p_queue (pop a c).
Proof.
  intros Hnd Ha. rewrite (remove_one_perm _ _ Ha) in Hnd.
  apply NoDup_cons in Hnd as [Hnot _]. exact Hnot.
Qed.

Lemma inv_size_lt q x s c a :
  inv_at q x s c -> pool c !! a = None -> a ∉ q.
Proof. intros H E Ha. destruct (iv_queue _ _ _ _ H _ Ha) as [g Eg]. by rewrite E in Eg. Qed.

(** A new node that is not of a stream. *)
Lemma inv_new q x s c a g :
  inv_at q x s c -> pool c !! a = None -> Z.of_nat (size (pool c)) < POOL ->
  match g with
  | STATELESS_PKT _ => False
  | FLOW_SYNC _ => True
  | EXIT_SCHED _ => dp_state c = STATE_TERMINATE
  | COMMAND _ m => m = TrexStatelessDpCanQuit \/
      exists (j : nat) ev, (j < 2)%nat /\ m = TrexStatelessDpStop (off + Z.of_nat j) true ev true
  end ->
  inv_at (q ++ [a]) x s
    (set_non_active (m_non_active_nodes c + Z.b2z (is_stop_cmd (<[a := g]> (pool c)) a))
       (set_pool (<[a := g]> (pool c)) c)).
Proof.
  intros H Ea Hsz Hg. pose proof (inv_size_lt _ _ _ _ _ H Ea) as Haq.
  assert (Hne : forall b h, pool c !! b = Some h -> b <> a) by congruence.
  assert (Hget : forall b h, b <> a -> <[a := g]> (pool c) !! b = Some h -> pool c !! b = Some h)
    by (intros b h Hb; by rewrite lookup_insert_ne by congruence).
  assert (Hput : forall b h, pool c !! b = Some h -> <[a := g]> (pool c) !! b = Some h)
    by (intros b h Eb; rewrite lookup_insert_ne; [done|by apply not_eq_sym, (Hne _ _ Eb)]).
  split; simpl.
  - apply H.
  - intros i p Ei. pose proof (iv_port _ _ _ _ H _ _ Ei) as Hp. split; try apply Hp.
    + intros b Hb. destruct (pi_node _ _ _ _ _ Hp b Hb) as (n & Eb & Hn). eauto.
    + rewrite (act_count_frame (pool c) (<[a := g]> (pool c))); [apply Hp|]. intros b Hb.
      destruct (pi_node _ _ _ _ _ Hp b Hb) as (n & Eb & _). unfold act. by rewrite Eb, (Hput _ _ Eb).
  - apply NoDup_app. split; [apply H|]. split; [|apply NoDup_singleton].
    intros b Hb ->%list_elem_of_singleton. done.
  - intros b [Hb | ->%list_elem_of_singleton]%elem_of_app; [|by rewrite lookup_insert_eq].
    destruct (iv_queue _ _ _ _ H _ Hb) as [h Eb]. eauto.
  - intros b n Eb. destruct (decide (b = a)) as [->|Hb].
    { rewrite lookup_insert_eq in Eb. by simplify_eq. }
    rewrite (iv_sl _ _ _ _ H b n (Hget _ _ Hb Eb)). set_solver.
  - intros b n Eb. destruct (decide (b = a)) as [->|Hb].
    { rewrite lookup_insert_eq in Eb. by simplify_eq. }
    apply (iv_owned _ _ _ _ H b n (Hget _ _ Hb Eb)).
  - intros b t m Eb. destruct (decide (b = a)) as [->|Hb].
    { rewrite lookup_insert_eq in Eb. by simplify_eq. }
    apply (iv_cmd _ _ _ _ H b t m (Hget _ _ Hb Eb)).
  - intros b t Eb. destruct (decide (b = a)) as [->|Hb].
    { rewrite lookup_insert_eq in Eb. by simplify_eq. }
    apply (iv_exit _ _ _ _ H b t (Hget _ _ Hb Eb)).
  - rewrite stop_count_app, (stop_count_frame (pool c) (<[a := g]> (pool c)) q); simpl;
      [rewrite (iv_non_active _ _ _ _ H); lia|].
    intros b Hb. destruct (iv_queue _ _ _ _ H _ Hb) as [h Eb].
    unfold is_stop_cmd. by rewrite Eb, (Hput _ _ Eb).
  - rewrite map_size_insert_None by done. lia.
Qed.

(** Returning a node that is at the head of [q] and no port has. *)
Lemma inv_free a q x s c g :
  inv_at (a :: q) x s c -> pool c !! a = Some g ->
  match g with STATELESS_PKT n => m_state n = ss_FREE_RESUSE | _ => True end ->
  POOL < 4294967296 ->
  exists c', free_node a c = Ok c' /\ inv_at q x s c' /\ m_p_queue c' = m_p_queue c /\
    pool c' = delete a (pool c) /\ m_ports c' = m_ports c /\ dp_state c' = dp_state c /\
    m_ring_from_cp c' = m_ring_from_cp c.
Proof.
  intros H Ea Hg Hpool. pose proof (iv_nodup _ _ _ _ H) as [Haq Hnd]%NoDup_cons.
  pose proof (iv_non_active _ _ _ _ H) as Hna. simpl in Hna.
  pose proof (stop_count_range (pool c) q) as Hr.
  assert (Hq : zlength (a :: q) <= POOL).
  { etransitivity; [|apply (iv_size _ _ _ _ H)]. apply nodup_size; apply H. }
  unfold zlength in *. simpl in Hq.
  set (c' := set_pool (delete a (pool c)) (set_non_active (stop_count (pool c) q) c)).
  assert (Eres : free_node a c = Ok c').
  { unfold free_node, get_node. rewrite Ea. simpl. unfold is_stop_cmd in Hna. rewrite Ea in Hna.
    unfold c'. destruct g as [| | |t m]; simpl in *; rewrite ?Z.add_0_l in Hna;
      try (rewrite <- Hna; by destruct c).
    destruct m; simpl in *; rewrite ?Z.add_0_l in Hna; try (rewrite <- Hna; by destruct c).
    destruct core; simpl in *; rewrite ?Z.add_0_l in Hna; [|rewrite <- Hna; by destruct c].
    destruct (Z.gtb_spec (m_non_active_nodes c) 0) as [_|?]; [|lia]. simpl.
    rewrite u32_id by lia. by replace (m_non_active_nodes c - 1) with (stop_count (pool c) q) by lia. }
  assert (Hown : forall i p, m_ports c !! i = Some p -> a ∉ owned p).
  { intros i p Ei Ha. destruct (pi_node _ _ _ _ _ (iv_port _ _ _ _ H _ _ Ei) _ Ha) as (n & E & Hst & _).
    rewrite Ea in E. simplify_eq. }
  assert (Hdel : forall b h, delete a (pool c) !! b = Some h -> pool c !! b = Some h)
    by (intros b h Eb; by apply lookup_delete_Some in Eb as [_ ?]).
  exists c'. split; [exact Eres|]. split; [|done]. split; simpl.
  - apply H.
  - intros i p Ei. pose proof (iv_port _ _ _ _ H _ _ Ei) as Hp. split; try apply Hp.
    + intros b Hb. destruct (pi_node _ _ _ _ _ Hp b Hb) as (n & Eb & Hn). exists n.
      rewrite lookup_delete_ne; [done|]. intros <-. by apply (Hown _ _ Ei).
    + rewrite (act_count_frame (pool c) (delete a (pool c))); [apply Hp|]. intros b Hb.
      unfold act. rewrite lookup_delete_ne; [done|]. intros <-. by apply (Hown _ _ Ei).
  - done.
  - intros b Hb. rewrite lookup_delete_ne by congruence. apply H. set_solver.
  - intros b n Eb. rewrite (iv_sl _ _ _ _ H b n (Hdel _ _ Eb)).
    apply lookup_delete_Some in Eb as [Hne _]. set_solver.
  - intros b n Eb. apply (iv_owned _ _ _ _ H b n (Hdel _ _ Eb)).
  - intros b t m Eb. apply (iv_cmd _ _ _ _ H b t m (Hdel _ _ Eb)).
  - intros b t Eb. apply (iv_exit _ _ _ _ H b t (Hdel _ _ Eb)).
  - symmetry. apply stop_count_frame. intros b Hb. unfold is_stop_cmd.
    by rewrite lookup_delete_ne by congruence.
  - rewrite map_size_delete, Ea. pose proof (iv_size _ _ _ _ H). simpl. lia.
Qed.

(** What an operation on the nodes of the ports leaves alone. *)
Definition keeps (c c' : TrexStatelessDpCore) : Prop :=
  m_ring_from_cp c' = m_ring_from_cp c /\ dp_state c' = dp_state c /\
  (forall b t, pool c !! b = Some (FLOW_SYNC t) -> pool c' !! b = Some (FLOW_SYNC t)) /\
  (forall b, b ∈ m_p_queue c -> b ∈ m_p_queue c') /\
  length (m_ports c') = length (m_ports c) /\
  (forall b t, pool c !! b = Some (FLOW_SYNC t) -> b ∈ m_p_queue c' -> b ∈ m_p_queue c).

Lemma keeps_refl c : keeps c c.
Proof. by repeat split. Qed.

Lemma keeps_trans c1 c2 c3 : keeps c1 c2 -> keeps c2 c3 -> keeps c1 c3.
Proof. intros (?&?&?&?&?&?) (?&?&?&?&?&?). split_and!; try congruence; eauto. Qed.

Lemma keeps_put_sl a n n' c : pool c !! a = Some (STATELESS_PKT n) -> keeps c (put_sl a n' c).
Proof.
  intros E. repeat split; simpl; auto. intros b t Eb.
  rewrite lookup_insert_ne; [done|]. intros ->. congruence.
Qed.

Lemma keeps_put_port i p c : keeps c (put_port i p c).
Proof. repeat split; simpl; auto. by rewrite length_insert. Qed.

Lemma keeps_push a n c : pool c !! a = Some (STATELESS_PKT n) -> keeps c (push a c).
Proof.
  intros Ea. repeat split; simpl; auto; [set_solver|].
  intros b t Eb [? | ->%list_elem_of_singleton]%elem_of_app; [done|congruence].
Qed.

(** ** Stopping a port *)

Fixpoint stop_pool (l : list Z) (P : gmap Z gen_node) : gmap Z gen_node :=
  match l with
  | [] => P
  | a :: l =>
      stop_pool l (match P !! a with
                   | Some (STATELESS_PKT n) =>
                       if bool_decide (m_state n = ss_ACTIVE)
                       then <[a := STATELESS_PKT (mark_for_free n)]> P else delete a P
                   | _ => P
                   end)
  end.

Definition stopped (g : option gen_node) : option gen_node :=
  match g with
  | Some (STATELESS_PKT n) =>
      if bool_decide (m_state n = ss_ACTIVE) then Some (STATELESS_PKT (mark_for_free n)) else None
  | g => g
  end.

Lemma stop_pool_lookup l P b :
  NoDup l -> stop_pool l P !! b = if decide (b ∈ l) then stopped (P !! b) else P !! b.
Proof.
  intros Hnd. revert P. induction Hnd as [|a l Ha Hnd IH]; intros P; simpl; [done|].
  rewrite IH. destruct (decide (b = a)) as [->|Hne].
  - rewrite decide_False, decide_True by set_solver. unfold stopped.
    destruct (P !! a) as [[n| | |]|] eqn:E; rewrite ?E; try done.
    case_bool_decide; [apply lookup_insert_eq|apply lookup_delete_eq].
  - assert (Hfr : match P !! a with
        | Some (STATELESS_PKT n) => if bool_decide (m_state n = ss_ACTIVE)
            then <[a := STATELESS_PKT (mark_for_free n)]> P else delete a P
        | _ => P end !! b = P !! b).
    { destruct (P !! a) as [[]|]; try done. case_bool_decide;
        [by rewrite lookup_insert_ne by congruence|by rewrite lookup_delete_ne by congruence]. }
    rewrite Hfr. destruct (decide (b ∈ l)), (decide (b ∈ a :: l)); set_solver.
Qed.

Lemma stop_pool_size l P : (size (stop_pool l P) <= size P)%nat.
Proof.
  revert P. induction l as [|a l IH]; intros P; simpl; [done|].
  etransitivity; [apply IH|]. destruct (P !! a) as [[]|] eqn:E; try done.
  case_bool_decide; [by rewrite size_insert_some by (rewrite E; eauto)|].
  rewrite map_size_delete, E. simpl. lia.
Qed.

Lemma set_pool_id c : set_pool (pool c) c = c. Proof. by destruct c. Qed.
Lemma put_sl_pool a n c : put_sl a n c = set_pool (<[a := STATELESS_PKT n]> (pool c)) c.
Proof. done. Qed.

Lemma stop_nodes_Ok port_id l k c :
  NoDup (map m_node l) ->
  (forall s, s ∈ l -> is_Some (m_dp_stream s) /\
     exists n, pool c !! m_node s = Some (STATELESS_PKT n) /\ m_port_id n = port_id /\
       m_state n <> ss_FREE_RESUSE) ->
  0 <= k -> act_count (pool c) (map m_node l) + k < 4294967296 ->
  stop_nodes port_id l (act_count (pool c) (map m_node l) + k) c =
    Ok (k, set_pool (stop_pool (map m_node l) (pool c)) c).
Proof.
  revert c. induction l as [|s l IH]; simpl; intros c Hnd Hl Hk Hb.
  { rewrite Z.add_0_l. by rewrite set_pool_id. }
  apply NoDup_cons in Hnd as [Hs Hnd].
  destruct (Hl s (list_elem_of_here _ _)) as ([d Ed] & n & En & Hp & Hst).
  unfold get_sl at 1. rewrite En. simpl. rewrite Hp, Z.eqb_refl. simpl.
  assert (Hfr : forall (g : gmap Z gen_node -> gmap Z gen_node) c1, pool c1 = g (pool c) ->
      (forall b, b <> m_node s -> g (pool c) !! b = pool c !! b) ->
      act_count (pool c1) (map m_node l) = act_count (pool c) (map m_node l) /\
      forall s', s' ∈ l -> is_Some (m_dp_stream s') /\
        exists n, pool c1 !! m_node s' = Some (STATELESS_PKT n) /\ m_port_id n = port_id /\
          m_state n <> ss_FREE_RESUSE).
  { intros g c1 E1 Hg. split.
    - apply act_count_frame. intros b Hbl. unfold act. rewrite E1, Hg; [done|]. by intros ->.
    - intros s' Hs'. rewrite E1, Hg; [apply Hl; by apply list_elem_of_further|].
      intros E. apply Hs. rewrite <- E. by apply list_elem_of_In, in_map, list_elem_of_In. }
  unfold act in *. rewrite En in *. case_bool_decide as Ha; simpl in *.
  - unfold DeleteOnlyStream. rewrite Ed. simpl.
    destruct (Hfr (fun P => <[m_node s := STATELESS_PKT (mark_for_free n)]> P)
      (put_sl (m_node s) (mark_for_free n) c) eq_refl) as [Ec Hl'].
    { intros b Hne; cbv beta. apply lookup_insert_ne; congruence. }
    pose proof (act_count_range (pool c) (map m_node l)).
    rewrite u32_id by lia.
    replace (1 + act_count (pool c) (map m_node l) + k - 1) with
      (act_count (pool (put_sl (m_node s) (mark_for_free n) c)) (map m_node l) + k) by lia.
    rewrite IH; [by destruct c|done|done|done|]. rewrite Ec. lia.
  - unfold OneStream_Delete, get_sl. rewrite En. simpl.
    assert (m_state n = ss_INACTIVE) as Ei by (destruct (m_state n); congruence).
    rewrite Ei. simpl. unfold free_node, get_node. rewrite En. simpl.
    destruct (Hfr (fun P => delete (m_node s) P)
      (set_pool (delete (m_node s) (pool c)) c) eq_refl) as [Ec Hl'].
    { intros b Hne; cbv beta. apply lookup_delete_ne; congruence. }
    rewrite Z.add_0_l, <- Ec.
    rewrite (IH (set_pool (delete (m_node s) (pool c)) c)); [by destruct c|done|done|done|].
    rewrite Ec. lia.
Qed.

(** The two local ports have 8-bit ids, and counts of nodes fit 32 bits. *)
Context (Hoff : 0 <= off <= 254) (HPOOL : POOL < 4294967296).

Lemma active_bound q x s c i p :
  inv_at q x s c -> m_ports c !! i = Some p -> 0 <= act_count (pool c) (owned p) < 4294967296.
Proof.
  intros H Ei. pose proof (act_count_range (pool c) (owned p)).
  pose proof (iv_port _ _ _ _ H _ _ Ei) as Hp. pose proof (iv_size _ _ _ _ H).
  assert (zlength (owned p) <= Z.of_nat (size (pool c))); [|lia].
  apply nodup_size; [apply Hp|]. intros a Ha.
  destruct (pi_node _ _ _ _ _ Hp a Ha) as (n & E & _). by rewrite E.
Qed.

(** [get_port_db] on a port of the core. *)
Lemma get_port_db_Ok q x s c (i : nat) :
  inv_at q x s c -> (i < 2)%nat ->
  exists p, m_ports c !! i = Some p /\
    get_port_db off (off + Z.of_nat i) c = Ok (Z.of_nat i, p).
Proof.
  intros H Hi. destruct (lookup_lt_is_Some_2 (m_ports c) i) as [p Ep]; [rewrite (iv_ports _ _ _ _ H); lia|].
  exists p. split; [done|]. unfold get_port_db.
  assert ((off =? off + Z.of_nat i) || (off + 1 =? off + Z.of_nat i) = true) as ->.
  { destruct (Z.eqb_spec off (off + Z.of_nat i)), (Z.eqb_spec (off + 1) (off + Z.of_nat i)); done || lia. }
  simpl. replace (off + Z.of_nat i - off) with (Z.of_nat i) by lia. rewrite u8_id by lia.
  destruct (Z.ltb_spec (Z.of_nat i) NUM_PORTS_PER_CORE) as [_|?]; [|unfold NUM_PORTS_PER_CORE in *; lia].
  simpl. assert (get_idx (m_ports c) (Z.of_nat i) = Ok p) as ->; [|done].
  apply get_idx_Ok. rewrite Nat2Z.id. split; [lia|done].
Qed.

Definition stop_state (i : nat) (p : TrexStatelessDpPerPort) (c : TrexStatelessDpCore)
  : TrexStatelessDpCore :=
  put_port (Z.of_nat i) (mkPerPort ppSTATE_IDLE 0 [] (m_event_id p))
    (set_pool (stop_pool (owned p) (pool c)) c).

Lemma inv_stop q c i p :
  inv_at q x0 None c -> m_ports c !! i = Some p -> inv_at q x0 None (stop_state i p c).
Proof.
  intros H Ei. pose proof (iv_port _ _ _ _ H _ _ Ei) as Hp. pose proof (pi_nodup _ _ _ _ _ Hp) as Hnd.
  pose proof (lookup_lt_Some _ _ _ Ei) as Hlt.
  set (P' := stop_pool (owned p) (pool c)).
  assert (Hlk : forall b, P' !! b = if decide (b ∈ owned p) then stopped (pool c !! b) else pool c !! b)
    by (intros b; by apply stop_pool_lookup).
  assert (Hother : forall b g, P' !! b = Some g -> (forall n, g = STATELESS_PKT n -> m_state n <> ss_FREE_RESUSE) ->
    pool c !! b = Some g /\ b ∉ owned p).
  { intros b g. rewrite Hlk. case_decide as Hb; [|done].
    destruct (pi_node _ _ _ _ _ Hp b Hb) as (n & En & Hst & _). rewrite En. simpl.
    case_bool_decide; [|done]. intros [= <-] Hg. by destruct (Hg _ eq_refl). }
  unfold stop_state, put_port. rewrite Nat2Z.id. fold P'. split; simpl.
  - rewrite length_insert. apply H.
  - intros j pj. destruct (decide (j = i)) as [->|Hne].
    { rewrite list_lookup_insert_eq by done. intros [= <-].
      split; simpl; unfold owned; simpl; try done; [apply NoDup_nil_2|..];
        intros ? []%elem_of_nil. }
    rewrite list_lookup_insert_ne by congruence. intros Ej.
    pose proof (iv_port _ _ _ _ H _ _ Ej) as Hj.
    assert (Hout : forall a, a ∈ owned pj -> a ∉ owned p)
      by (intros a Ha Ha'; apply Hne; eauto using owned_unique).
    split; try apply Hj.
    + intros a Ha. destruct (pi_node _ _ _ _ _ Hj a Ha) as (n & En & Hn). exists n.
      rewrite Hlk, decide_False by eauto. done.
    + rewrite (act_count_frame (pool c) P'); [apply Hj|]. intros b Hb. unfold act.
      by rewrite Hlk, decide_False by eauto.
  - apply H.
  - intros a Ha. rewrite Hlk. case_decide as Hb; [|by apply H].
    destruct (pi_node _ _ _ _ _ Hp a Hb) as (n & En & Hst & _). rewrite En. simpl.
    case_bool_decide as Hact; [done|]. apply (iv_sl _ _ _ _ H a n En) in Ha; [done|].
    destruct (m_state n); congruence.
  - intros a n. rewrite Hlk. case_decide as Hb; [|by apply H].
    destruct (pi_node _ _ _ _ _ Hp a Hb) as (n' & En & Hst & _). rewrite En. simpl.
    case_bool_decide as Hact; [|done]. intros [= <-]. simpl. split; [done|]. intros Ha.
    apply (iv_sl _ _ _ _ H a n' En) in Ha. congruence.
  - intros a n Ea Hst. destruct (Hother _ _ Ea) as [Ea' Hnot]; [by intros ? [= <-]|].
    destruct (iv_owned _ _ _ _ H a n Ea' Hst) as (j & pj & Ej & Hown). exists j, pj.
    rewrite list_lookup_insert_ne; [done|]. intros ->. by simplify_eq.
  - intros a t m Ea. destruct (Hother _ _ Ea) as [Ea' _]; [done|]. by apply (iv_cmd _ _ _ _ H a t m).
  - intros a t Ea. destruct (Hother _ _ Ea) as [Ea' _]; [done|]. by apply (iv_exit _ _ _ _ H a t).
  - rewrite (iv_non_active _ _ _ _ H). symmetry. apply stop_count_frame. intros b _.
    unfold is_stop_cmd. rewrite Hlk. case_decide as Hb; [|done].
    destruct (pi_node _ _ _ _ _ Hp b Hb) as (n & En & _ & _). rewrite En. simpl.
    by case_bool_decide.
  - pose proof (iv_size _ _ _ _ H). pose proof (stop_pool_size (owned p) (pool c)).
    unfold P'. lia.
Qed.

(** The loop of a stop on a consistent port. *)
Lemma stop_nodes_inv q c i p :
  inv_at q x0 None c -> m_ports c !! i = Some p ->
  stop_nodes (off + Z.of_nat i) (m_active_nodes p) (m_active_streams p) c =
    Ok (0, set_pool (stop_pool (owned p) (pool c)) c).
Proof.
  intros H Ei. pose proof (iv_port _ _ _ _ H _ _ Ei) as Hp.
  rewrite (pi_count _ _ _ _ _ Hp). pose proof (active_bound _ _ _ _ _ _ H Ei).
  apply stop_nodes_Ok; [apply Hp| |unfold x0; lia|unfold owned, x0 in *; lia].
  intros s Hs. split; [by apply Hp|].
  destruct (pi_node _ _ _ _ _ Hp (m_node s)) as (n & En & Hst & Hn).
  { apply list_elem_of_In, in_map, list_elem_of_In, Hs. }
  exists n. destruct Hn. by repeat split.
Qed.

Lemma stop_state_keeps i p c :
  NoDup (owned p) -> keeps c (stop_state i p c).
Proof. clear Hoff HPOOL.
  intros Hnd. split_and!; simpl; auto.
  - intros b t E. rewrite stop_pool_lookup, E by done. by case_decide.
  - by rewrite length_insert.
Qed.

Lemma put_port_id i p c : m_ports c !! i = Some p -> put_port (Z.of_nat i) p c = c.
Proof.
  intros E. unfold put_port, set_ports. rewrite Nat2Z.id, (list_insert_id _ _ _ E). by destruct c.
Qed.

(** A stop: nothing on an idle port or for another start, else the port is
    stopped and the control plane told. *)
Lemma stop_traffic_Ok tid q c i on_id ev :
  inv_at q x0 None c -> (i < 2)%nat ->
  exists p, m_ports c !! i = Some p /\
    stop_traffic tid off (off + Z.of_nat i) on_id ev c = Ok
      (if bool_decide (pp_state p = ppSTATE_IDLE) || (on_id && negb (ev =? m_event_id p)) then c
       else set_rings (m_ring_from_cp c)
              (m_ring_to_cp c ++ [mkPortEvent tid (off + Z.of_nat i) (m_event_id p)])
              (stop_state i p c)).
Proof.
  intros H Hi. destruct (get_port_db_Ok _ _ _ _ _ H Hi) as (p & Ep & Edb). exists p. split; [done|].
  unfold stop_traffic. rewrite Edb. simpl. unfold port_stop_traffic.
  pose proof (stop_nodes_inv _ _ _ _ H Ep) as Estop.
  assert (Hidle : pp_state p = ppSTATE_IDLE -> m_active_streams p = 0).
  { intros E. pose proof (iv_port _ _ _ _ H _ _ Ep) as Hp. rewrite (pi_count _ _ _ _ _ Hp).
    unfold owned. by rewrite (pi_idle _ _ _ _ _ Hp). }
  destruct (pp_state p) eqn:Est; simpl.
  - rewrite Hidle by done. done.
  - destruct (on_id && negb (ev =? m_event_id p)); simpl; [done|]. by rewrite Estop.
  - destruct (on_id && negb (ev =? m_event_id p)); simpl; [done|]. by rewrite Estop.
Qed.

Lemma stop_traffic_inv tid q c i on_id ev :
  inv_at q x0 None c -> (i < 2)%nat ->
  exists c', stop_traffic tid off (off + Z.of_nat i) on_id ev c = Ok c' /\
    inv_at q x0 None c' /\ m_p_queue c' = m_p_queue c /\ keeps c c'.
Proof.
  intros H Hi. destruct (stop_traffic_Ok tid q c i on_id ev H Hi) as (p & Ep & ->).
  eexists. split; [done|].
  pose proof (pi_nodup _ _ _ _ _ (iv_port _ _ _ _ H _ _ Ep)) as Hnd.
  destruct (_ || _); [by split_and!|]. split_and!; [|done|].
  - eapply inv_at_ext; [..|by apply (inv_stop _ _ _ _ H Ep)]; done.
  - by apply (stop_state_keeps i p c Hnd).
Qed.

(** ** Sending *)

Lemma node_in_meta st i l n n' :
  same_meta n n' -> sendable avail n' -> node_in st i l n -> node_in st i l n'.
Proof.
  intros (_ & Hp & Ht & Hpa & Hr & Hn) Hs []. split; try congruence.
  intros b. rewrite Hn. auto.
Qed.

(** Replacing a node by one with the same control fields. *)
Lemma inv_put_meta q x s c a n n' :
  inv_at q x s c -> pool c !! a = Some (STATELESS_PKT n) -> m_state n <> ss_FREE_RESUSE ->
  same_meta n n' -> sendable avail n' -> inv_at q x s (put_sl a n' c).
Proof.
  intros H Ea Hst Hm Hs. destruct (iv_owned _ _ _ _ H a n Ea Hst) as (i & p & Ei & Hown).
  destruct (pi_node _ _ _ _ _ (iv_port _ _ _ _ H _ _ Ei) _ Hown) as (n0 & E0 & _ & Hn).
  rewrite Ea in E0. simplify_eq. destruct Hm as (Em & Hrest).
  eapply (inv_put q q x x s c a n0 n' i p); try done.
  - by rewrite Em.
  - eapply node_in_meta; [|done|done]. by split.
  - apply H.
  - rewrite Em. by apply H.
  - intros j. rewrite Em. case_decide; lia.
Qed.

Lemma send_node_inv q x s c a n :
  inv_at q x s c -> pool c !! a = Some (STATELESS_PKT n) -> m_state n <> ss_FREE_RESUSE ->
  exists c' fv pkt, send_node avail a c = Ok c' /\ inv_at q x s c' /\
    c' = log_sent a (m_dir n) pkt (put_sl a (set_flow_var fv n) c) /\ sendable avail (set_flow_var fv n).
Proof.
  intros H Ea Hst. destruct (iv_owned _ _ _ _ H a n Ea Hst) as (i & p & Ei & Hown).
  destruct (pi_node _ _ _ _ _ (iv_port _ _ _ _ H _ _ Ei) _ Hown) as (n0 & E0 & _ & Hn).
  rewrite Ea in E0. simplify_eq.
  destruct (sendable_send _ _ (ni_send _ _ _ _ Hn)) as (n' & pkt & Ep & Hs & Hm & fv & ->).
  exists (log_sent a (m_dir n0) pkt (put_sl a (set_flow_var fv n0) c)), fv, pkt.
  split; [|split; [|done]].
  - unfold send_node, get_sl. rewrite Ea. simpl. by rewrite Ep.
  - eapply inv_at_ext; [..|eapply inv_put_meta; [exact H|exact Ea|done|exact Hm|exact Hs]]; done.
Qed.

(** The ticks keep what sending reads. *)
Lemma tick_packet n n' : upd_node (m_time n') (m_state n') (m_single_burst n') (m_multi_bursts n') n = n' ->
  same_packet n n'.
Proof. intros <-. by repeat split. Qed.

Lemma multi_burst_tick_meta n n' :
  multi_burst_tick n = (n', false) -> same_meta n n' /\ same_packet n n'.
Proof.
  unfold multi_burst_tick. destruct (_ >? 0); [intros [= <-]; by repeat split|].
  destruct (_ =? 0); [done|]. intros [= <-]. by repeat split.
Qed.

Lemma multi_burst_tick_done n n' :
  multi_burst_tick n = (n', true) ->
  m_state n' = ss_INACTIVE /\ same_meta n (set_state (m_state n) n') /\ same_packet n n'.
Proof.
  unfold multi_burst_tick. destruct (_ >? 0); [done|].
  destruct (_ =? 0); [|done]. intros [= <-]. by repeat split.
Qed.

Lemma inv_push a q c :
  inv_at (a :: q) x0 None c -> m_p_queue c = q -> inv (push a c).
Proof.
  intros H <-. unfold inv. simpl. eapply inv_at_ext; [..|eapply inv_at_perm; [|exact H]]; try done.
  apply Permutation_cons_append.
Qed.

Lemma active_not_free n : m_state n = ss_ACTIVE -> m_state n <> ss_FREE_RESUSE.
Proof. congruence. Qed.

(** The node of a stream that is not free is in the list of its port. *)
Lemma inv_node q x s c a n :
  inv_at q x s c -> pool c !! a = Some (STATELESS_PKT n) -> m_state n <> ss_FREE_RESUSE ->
  exists i p, m_ports c !! i = Some p /\ a ∈ owned p /\ (i < 2)%nat /\
    node_in (pp_state p) i (owned p) n.
Proof.
  intros H Ea Hst. destruct (iv_owned _ _ _ _ H a n Ea Hst) as (i & p & Ei & Hown).
  destruct (pi_node _ _ _ _ _ (iv_port _ _ _ _ H _ _ Ei) _ Hown) as (n0 & E0 & _ & Hn).
  rewrite Ea in E0. simplify_eq. exists i, p. split_and!; try done.
  rewrite <- (iv_ports _ _ _ _ H). by apply lookup_lt_Some in Ei.
Qed.

Lemma handle_continues_inv a q c n :
  inv_at (a :: q) x0 None c -> m_p_queue c = q -> pool c !! a = Some (STATELESS_PKT n) ->
  m_state n = ss_ACTIVE ->
  exists c', handle_continues avail a c = Ok c' /\ inv c' /\ keeps c c'.
Proof.
  intros H Hq Ea Hst%active_not_free. unfold handle_continues.
  rewrite (proj2 (get_sl_Ok a c n) Ea). simpl.
  assert (exists c1 n1, (if m_pause n then Ok c else send_node avail a c) = Ok c1 /\
    inv_at (a :: q) x0 None c1 /\ m_p_queue c1 = q /\ pool c1 !! a = Some (STATELESS_PKT n1) /\
    m_state n1 <> ss_FREE_RESUSE /\ sendable avail n1 /\ keeps c c1)
    as (c1 & n1 & -> & H1 & Hq1 & Ea1 & Hst1 & Hs1 & Hk1).
  { destruct (m_pause n).
    - destruct (inv_node _ _ _ _ _ _ H Ea Hst) as (i & p & _ & _ & _ & Hn).
      exists c, n. split_and!; try done. apply Hn.
    - destruct (send_node_inv _ _ _ _ _ _ H Ea Hst) as (c1 & fv & pkt & -> & H1 & -> & Hs).
      eexists _, (set_flow_var fv n). split_and!; try done; [apply lookup_insert_eq|].
      by apply (keeps_put_sl a n (set_flow_var fv n)). }
  simpl. rewrite (proj2 (get_sl_Ok a c1 n1) Ea1). simpl. eexists. split; [done|].
  split.
  - apply (inv_push _ q); [|done]. eapply inv_put_meta; try done.
    eapply sendable_frame; [|done]. by repeat split.
  - eapply keeps_trans; [done|]. eapply keeps_trans; [|eapply keeps_push, lookup_insert_eq].
    by eapply keeps_put_sl.
Qed.

(** The finished node [cur], already inactive in the pool and out of the queue,
    hands over to its next stream or leaves the count. *)
Lemma set_next_node_inv tid q i p a cur c :
  inv_at q (x1 i) None c -> m_ports c !! i = Some p -> a ∈ owned p ->
  pool c !! a = Some (STATELESS_PKT cur) -> m_state cur = ss_INACTIVE ->
  (exists c', set_stateless_next_node tid off cur (m_next_stream cur) c = Ok (false, c') /\
     inv_at q x0 None c' /\ m_p_queue c' = m_p_queue c /\ keeps c c') \/
  (exists b nx s, m_next_stream cur = Some b /\ pool c !! b = Some (STATELESS_PKT nx) /\
     m_state nx = ss_INACTIVE /\ b ∈ owned p /\ m_ref_stream_info nx = Some s /\
     set_stateless_next_node tid off cur (m_next_stream cur) c =
       Ok (true, put_sl b (upd_node (m_time nx) ss_ACTIVE (m_single_burst_refill nx)
                             (u32 (ts_num_bursts s)) nx) c)).
Proof.
  intros H Ei Ha Ea Hst. pose proof (iv_port _ _ _ _ H _ _ Ei) as Hp.
  destruct (pi_node _ _ _ _ _ Hp _ Ha) as (n0 & E0 & _ & Hn). rewrite Ea in E0. simplify_eq.
  assert (Hi : (i < 2)%nat) by (rewrite <- (iv_ports _ _ _ _ H); by apply lookup_lt_Some in Ei).
  destruct (get_port_db_Ok _ _ _ _ _ H Hi) as (p' & Ep & Edb).
  rewrite Ei in Ep. injection Ep as <-.
  unfold set_stateless_next_node. rewrite (ni_port _ _ _ _ Hn), Edb. simpl.
  pose proof (active_bound _ _ _ _ _ _ H Ei) as Hb. pose proof (pi_count _ _ _ _ _ Hp) as Hcnt.
  assert (Hdec : inv_at q x0 None
      (put_port (Z.of_nat i) (set_active_streams (act_count (pool c) (owned p)) p) c)).
  { eapply (inv_put_port q (x1 i) x0 None None c i p); try done.
    - simpl. intros _. by apply Hp.
    - intros j. unfold x0, x1 in *. simpl. rewrite decide_True in Hcnt by done. case_decide; lia. }
  assert (Hk : u32 (m_active_streams p - 1) = act_count (pool c) (owned p)).
  { rewrite Hcnt. unfold x1. rewrite decide_True by done. rewrite u32_id; lia. }
  assert (Hleave : exists c', ('(schedule, to_stop_port, c1) ←
      (let '(stop, c1) := update_number_of_active_streams (Z.of_nat i) 1 p c in
       Ok (false, stop, c1));
     c2 ← (if to_stop_port : bool then stop_traffic tid off (off + Z.of_nat i) false 0 c1 else Ok c1);
     Ok (schedule : bool, c2)) = Ok (false, c') /\
     inv_at q x0 None c' /\ m_p_queue c' = m_p_queue c /\ keeps c c').
  { unfold update_number_of_active_streams. rewrite Hk. simpl.
    destruct (act_count (pool c) (owned p) =? 0).
    - destruct (stop_traffic_inv tid _ _ i false 0 Hdec Hi) as (c' & -> & H' & Hq' & Hkp).
      exists c'. split_and!; try done. eapply keeps_trans; [apply keeps_put_port|done].
    - eexists. split; [done|]. split; [done|]. split; [done|]. apply keeps_put_port. }
  destruct (m_next_stream n0) as [b|] eqn:En; [|by left].
  destruct (pi_node _ _ _ _ _ Hp b (ni_next _ _ _ _ Hn b En)) as (nx & Eb & Hnf & Hnx).
  unfold get_sl. rewrite Eb. simpl. destruct (m_state nx) eqn:Es; [done| |by left].
  right. destruct (ni_ref _ _ _ _ Hnx) as [s Es']. exists b, nx, s. split_and!; try done.
  - by apply (ni_next _ _ _ _ Hn).
  - unfold refresh. by rewrite Es'.
Qed.

Lemma put_put_sl b n n' c : put_sl b n' (put_sl b n c) = put_sl b n' c.
Proof. unfold put_sl, set_pool. simpl. by rewrite insert_insert_eq. Qed.

(** The last packet of the last burst: the node becomes inactive. *)
Lemma inv_deactivate a q c n n' i p :
  inv_at (a :: q) x0 None c -> pool c !! a = Some (STATELESS_PKT n) -> m_state n = ss_ACTIVE ->
  m_ports c !! i = Some p -> a ∈ owned p -> m_state n' = ss_INACTIVE ->
  node_in (pp_state p) i (owned p) n' -> inv_at q (x1 i) None (put_sl a n' c).
Proof.
  intros H Ea Hst Ei Hown Hst' Hn'. pose proof (iv_nodup _ _ _ _ H) as [Haq Hnd]%NoDup_cons.
  eapply (inv_put (a :: q) q x0 (x1 i)); try done.
  - by rewrite Hst'.
  - intros b Hb. set_solver.
  - simpl. unfold is_stop_cmd. by rewrite Ea.
  - intros j. rewrite Hst, Hst'. unfold x0, x1. case_decide; simpl; lia.
Qed.

(** The next stream is activated and queued. *)
Lemma inv_activate b q c n n' i p :
  inv_at q (x1 i) None c -> pool c !! b = Some (STATELESS_PKT n) -> m_state n = ss_INACTIVE ->
  m_ports c !! i = Some p -> b ∈ owned p -> m_state n' = ss_ACTIVE ->
  node_in (pp_state p) i (owned p) n' -> inv_at (b :: q) x0 None (put_sl b n' c).
Proof.
  intros H Eb Hst Ei Hown Hst' Hn'. pose proof (proj1 (iv_sl _ _ _ _ H _ _ Eb) Hst) as Hbq.
  eapply (inv_put q (b :: q) (x1 i) x0); try done.
  - by rewrite Hst'.
  - apply NoDup_cons. split; [done|apply H].
  - intros d Hd. set_solver.
  - rewrite Hst'. set_solver.
  - simpl. unfold is_stop_cmd. by rewrite Eb.
  - intros j. rewrite Hst, Hst'. unfold x0, x1. case_decide; simpl; lia.
Qed.

Lemma handle_multi_burst_inv tid a q c n :
  inv_at (a :: q) x0 None c -> m_p_queue c = q -> pool c !! a = Some (STATELESS_PKT n) ->
  m_state n = ss_ACTIVE ->
  exists c', handle_multi_burst avail tid off a c = Ok c' /\ inv c' /\ keeps c c'.
Proof.
  intros H Hq Ea Hst. pose proof (active_not_free _ Hst) as Hnf. unfold handle_multi_burst.
  destruct (send_node_inv _ _ _ _ _ _ H Ea Hnf) as (c1 & fv & pkt & -> & H1 & E1 & Hs). simpl.
  set (n1 := set_flow_var fv n) in *.
  assert (Ea1 : pool c1 !! a = Some (STATELESS_PKT n1)) by (rewrite E1; apply lookup_insert_eq).
  assert (Hk1 : keeps c c1) by (rewrite E1; apply (keeps_put_sl a n n1); done).
  assert (Hq1 : m_p_queue c1 = q) by by rewrite E1.
  assert (Hst1 : m_state n1 = ss_ACTIVE) by exact Hst. clearbody n1. clear Hst. rename Hst1 into Hst.
  clear Ea E1 H Hnf. rewrite (proj2 (get_sl_Ok a c1 n1) Ea1). simpl.
  pose proof (active_not_free _ Hst) as Hnf.
  destruct (multi_burst_tick n1) as [n2 done] eqn:Et. destruct done; simpl.
  2: { destruct (multi_burst_tick_meta _ _ Et) as [Hm Hpk]. eexists. split; [done|]. split.
       - apply (inv_push _ q); [|done]. eapply inv_put_meta; try done. by eapply sendable_frame.
       - eapply keeps_trans; [done|]. eapply keeps_trans; [|eapply keeps_push, lookup_insert_eq].
         by eapply keeps_put_sl. }
  destruct (multi_burst_tick_done _ _ Et) as (Hst2 & Hm & Hpk).
  destruct (inv_node _ _ _ _ _ _ H1 Ea1 Hnf) as (i & p & Ei & Hown & Hi & Hn1).
  assert (Hn2 : node_in (pp_state p) i (owned p) n2).
  { assert (Hs2 : sendable avail n2) by (by eapply sendable_frame).
    destruct (node_in_meta _ _ _ n1 _ Hm (sendable_frame _ n1 (set_state _ n2) Hpk Hs) Hn1). by split. }
  pose proof (inv_deactivate _ _ _ _ _ _ _ H1 Ea1 Hst Ei Hown Hst2 Hn2) as H2.
  assert (Hk2 : keeps c (put_sl a n2 c1)) by (eapply keeps_trans; [done|]; by eapply keeps_put_sl).
  assert (Ea2 : pool (put_sl a n2 c1) !! a = Some (STATELESS_PKT n2)) by apply lookup_insert_eq.
  destruct (set_next_node_inv tid q i p a n2 _ H2 Ei Hown Ea2 Hst2)
    as [(c' & -> & H' & Hq' & Hk')|(b & nx & s & Hnx & Eb & Hnst & Hob & Hsr & ->)].
  - simpl. exists c'. split; [done|]. split; [|by eapply keeps_trans].
    unfold inv. rewrite Hq'. simpl. by rewrite Hq1.
  - simpl. rewrite Hnx. unfold get_sl. simpl. rewrite lookup_insert_eq. simpl.
    unfold update_refresh_time. simpl. rewrite Hsr. simpl. eexists. split; [done|].
    rewrite put_put_sl. split.
    + apply (inv_push _ q); [|done]. eapply inv_activate; try done.
      destruct (pi_node _ _ _ _ _ (iv_port _ _ _ _ H2 _ _ Ei) _ Hob) as (nx' & Eb' & _ & Hnx').
      rewrite Eb in Eb'. simplify_eq. destruct Hnx'. split; try done.
      eapply sendable_frame; [|done]. by repeat split.
    + eapply keeps_trans; [done|]. eapply keeps_trans; [|eapply keeps_push, lookup_insert_eq]. by eapply keeps_put_sl.
Qed.

Lemma handle_sl_inv tid a q c n :
  inv_at (a :: q) x0 None c -> m_p_queue c = q -> pool c !! a = Some (STATELESS_PKT n) ->
  m_state n = ss_ACTIVE ->
  exists c', handle_sl avail tid off a c = Ok c' /\ inv c' /\ keeps c c'.
Proof.
  intros H Hq Ea Hst. unfold handle_sl. rewrite (proj2 (get_sl_Ok a c n) Ea). simpl.
  destruct (inv_node _ _ _ _ _ _ H Ea (active_not_free _ Hst)) as (i & p & _ & _ & _ & Hn).
  destruct (ni_type _ _ _ _ Hn) as [Ht|Ht]; rewrite Ht; simpl.
  - by eapply handle_continues_inv.
  - by eapply handle_multi_burst_inv.
Qed.

(** ** Updates of all the nodes of a port *)

Fixpoint map_pool (f : CGenNodeStateless -> CGenNodeStateless) (l : list Z)
    (P : gmap Z gen_node) : gmap Z gen_node :=
  match l with
  | [] => P
  | a :: l => map_pool f l (match P !! a with
                            | Some (STATELESS_PKT n) => <[a := STATELESS_PKT (f n)]> P
                            | _ => P end)
  end.

Definition map_sl (f : CGenNodeStateless -> CGenNodeStateless) (g : gen_node) : gen_node :=
  match g with STATELESS_PKT n => STATELESS_PKT (f n) | g => g end.

Lemma map_pool_lookup f l P b :
  NoDup l -> map_pool f l P !! b = if decide (b ∈ l) then map_sl f <$> (P !! b) else P !! b.
Proof. clear Hoff HPOOL.
  intros Hnd. revert P. induction Hnd as [|a l Ha Hnd IH]; intros P; simpl; [done|].
  rewrite IH. destruct (decide (b = a)) as [->|Hne].
  - rewrite decide_False, decide_True by set_solver.
    destruct (P !! a) as [[n| | |]|] eqn:E; rewrite ?E; try done. apply lookup_insert_eq.
  - assert (Hfr : match P !! a with
        | Some (STATELESS_PKT n) => <[a := STATELESS_PKT (f n)]> P | _ => P end !! b = P !! b).
    { destruct (P !! a) as [[]|]; try done. by rewrite lookup_insert_ne by congruence. }
    rewrite Hfr. destruct (decide (b ∈ l)), (decide (b ∈ a :: l)); set_solver.
Qed.

Lemma map_pool_size f l P : size (map_pool f l P) = size P.
Proof. clear Hoff HPOOL.
  revert P. induction l as [|a l IH]; intros P; simpl; [done|]. rewrite IH.
  destruct (P !! a) as [[]|] eqn:E; try done. by rewrite size_insert_some by (rewrite E; eauto).
Qed.

Lemma for_nodes_Ok port_id check f l c :
  NoDup (map m_node l) ->
  (forall s, s ∈ l -> exists n, pool c !! m_node s = Some (STATELESS_PKT n) /\
     m_port_id n = port_id /\ check n = true) ->
  for_nodes port_id check f l c = Ok (set_pool (map_pool f (map m_node l) (pool c)) c).
Proof. clear Hoff HPOOL.
  revert c. induction l as [|s l IH]; simpl; intros c Hnd Hl; [by rewrite set_pool_id|].
  apply NoDup_cons in Hnd as [Hs Hnd].
  destruct (Hl s (list_elem_of_here _ _)) as (n & En & Hp & Hc).
  rewrite (proj2 (get_sl_Ok _ _ _) En). simpl. rewrite Hp, Z.eqb_refl, Hc, En. simpl.
  rewrite IH; [by destruct c|done|]. intros s' Hs'. simpl.
  rewrite lookup_insert_ne; [apply Hl; by apply list_elem_of_further|].
  intros E. apply Hs. rewrite E. by apply list_elem_of_In, in_map, list_elem_of_In.
Qed.

Definition map_state (i : nat) (p : TrexStatelessDpPerPort) (st : port_state_e)
    (f : CGenNodeStateless -> CGenNodeStateless) (c : TrexStatelessDpCore) : TrexStatelessDpCore :=
  put_port (Z.of_nat i) (set_pp_state st p) (set_pool (map_pool f (owned p) (pool c)) c).

(** [f] keeps everything but the pause flag and the rate. *)
Definition port_update (f : CGenNodeStateless -> CGenNodeStateless) : Prop :=
  forall n, m_state (f n) = m_state n /\ m_port_id (f n) = m_port_id n /\
    m_stream_type (f n) = m_stream_type n /\ m_ref_stream_info (f n) = m_ref_stream_info n /\
    m_next_stream (f n) = m_next_stream n /\ same_packet n (f n).

Lemma inv_map_state q c i p st f :
  inv_at q x0 None c -> m_ports c !! i = Some p -> port_update f -> st <> ppSTATE_IDLE ->
  (forall n, m_pause n = bool_decide (pp_state p = ppSTATE_PAUSE) ->
     m_pause (f n) = bool_decide (st = ppSTATE_PAUSE)) ->
  inv_at q x0 None (map_state i p st f c).
Proof.
  intros H Ei Hf Hidle Hpause. pose proof (iv_port _ _ _ _ H _ _ Ei) as Hp.
  pose proof (lookup_lt_Some _ _ _ Ei) as Hlt. set (P' := map_pool f (owned p) (pool c)).
  assert (Hlk : forall b, P' !! b = if decide (b ∈ owned p) then map_sl f <$> (pool c !! b) else pool c !! b)
    by (intros b; apply map_pool_lookup, Hp).
  assert (Hinv : forall b g, P' !! b = Some g -> exists g0, pool c !! b = Some g0 /\ (g = g0 \/ g = map_sl f g0)).
  { intros b g. rewrite Hlk. destruct (decide (b ∈ owned p)); [|eauto].
    intros (g0 & ? & ?)%fmap_Some. eauto. }
  assert (Hact : forall b, act P' b = act (pool c) b).
  { intros b. unfold act. rewrite Hlk. destruct (decide (b ∈ owned p)); [|done].
    destruct (pool c !! b) as [[]|]; try done. simpl. by destruct (Hf n) as [-> _]. }
  unfold map_state, put_port. rewrite Nat2Z.id. fold P'. split; simpl; try apply H.
  - rewrite length_insert. apply H.
  - intros j pj. destruct (decide (j = i)) as [->|Hne].
    + rewrite list_lookup_insert_eq by done. intros [= <-]. split; simpl; try apply Hp; [| |].
      * intros a Ha. destruct (pi_node _ _ _ _ _ Hp a Ha) as (n & En & Hst & Hn).
        exists (f n). rewrite Hlk, decide_True, En by done.
        destruct (Hf n) as (E1 & E2 & E3 & E4 & E5 & E6). split; [done|]. rewrite E1. split; [done|].
        destruct Hn. split; rewrite ?E2, ?E3, ?E4, ?E5; auto. by eapply sendable_frame.
      * done.
      * rewrite (pi_count _ _ _ _ _ Hp). symmetry. f_equal. by apply act_count_frame.
    + rewrite list_lookup_insert_ne by congruence. intros Ej.
      pose proof (iv_port _ _ _ _ H _ _ Ej) as Hj. split; try apply Hj.
      * intros a Ha. destruct (pi_node _ _ _ _ _ Hj a Ha) as (n & En & Hn). exists n.
        rewrite Hlk, decide_False; [done|]. intros Ha'. apply Hne. eauto using owned_unique.
      * rewrite (pi_count _ _ _ _ _ Hj). symmetry. f_equal. by apply act_count_frame.
  - intros a Ha. rewrite Hlk. destruct (iv_queue _ _ _ _ H a Ha) as [g ->]. by destruct (decide (a ∈ owned p)).
  - intros a n Ea. destruct (Hinv _ _ Ea) as (g0 & E0 & [<- | Eg]); [by apply H|].
    destruct g0; simplify_eq/=. destruct (Hf n0) as [-> _]. by apply H.
  - intros a n Ea Hst. assert (exists n0, pool c !! a = Some (STATELESS_PKT n0) /\ m_state n0 = m_state n)
      as (n0 & E0 & Es).
    { destruct (Hinv _ _ Ea) as (g0 & E0 & [<- | Eg]); [by eauto|].
      destruct g0; simplify_eq/=. destruct (Hf n0) as [E _]. eauto. }
    rewrite <- Es in Hst. destruct (iv_owned _ _ _ _ H a n0 E0 Hst) as (j & pj & Ej & Hown).
    destruct (decide (j = i)) as [->|Hne]; [exists i|exists j, pj].
    + eexists. rewrite list_lookup_insert_eq by done. split; [done|]. unfold owned in *. simpl. by simplify_eq.
    + by rewrite list_lookup_insert_ne by congruence.
  - intros a t m Ea. destruct (Hinv _ _ Ea) as (g0 & E0 & [<- | Eg]); [by eapply iv_cmd|].
    destruct g0; simplify_eq/=. by eapply iv_cmd.
  - intros a t Ea. destruct (Hinv _ _ Ea) as (g0 & E0 & [<- | Eg]); [by eapply iv_exit|].
    destruct g0; simplify_eq/=. by eapply iv_exit.
  - rewrite (iv_non_active _ _ _ _ H). symmetry. apply stop_count_frame. intros b _.
    unfold is_stop_cmd. rewrite Hlk. destruct (decide (b ∈ owned p)); [|done]. by destruct (pool c !! b) as [[]|].
  - unfold P'. rewrite map_pool_size. apply H.
Qed.

Lemma map_state_keeps i p st f c : NoDup (owned p) -> keeps c (map_state i p st f c).
Proof. clear Hoff HPOOL.
  intros Hnd. repeat split; simpl; auto.
  - intros b t E. rewrite map_pool_lookup, E by done. by case_decide.
  - by rewrite length_insert.
Qed.

End Invariant.
