(* ===== verification/DpCoreSteps.v ===== *)
(** * The operations of the data path core keep its invariant

    Every message of the control plane that respects the state of the port it is
    for, and every turn of the scheduler. *)

From S2P Require Import Prelude Double ByteMem PktCmn StreamVm TrexStream StreamsCompiler DpNode DpCore DpCoreFacts.

(** What the code relies on of the node pool ([rte_mempool]): it gives out
    addresses that are not in use, and has [POOL] of them. *)
Record mempool_ok (mempool_get : gmap Z gen_node -> option Z) (POOL : Z) : Prop := {
  mp_fresh : forall P a, mempool_get P = Some a -> P !! a = None;
  mp_room : forall P, Z.of_nat (size P) < POOL -> is_Some (mempool_get P);
}.

Section Steps.
Context (malloc : Z -> option bytes) (avail : mbuf_pool -> bool).
Context (mempool_get : gmap Z gen_node -> option Z) (v_if : CCoreEthIF) (tid off POOL : Z).
Context (Hoff : 0 <= off <= 254) (HPOOL : POOL < 4294967296) (Hmp : mempool_ok mempool_get POOL).

Notation inv_at := (inv_at avail off POOL).
Notation inv := (inv avail off POOL).
Notation node_in := (node_in avail off).

(** ** Pause, resume and update *)

Lemma set_pause_update b : port_update (set_pause b).
Proof. by repeat split. Qed.

Lemma update_rate_update f : port_update (update_rate f).
Proof. by repeat split. Qed.

Lemma port_for_nodes q c i p check f :
  inv_at q x0 None c -> m_ports c !! i = Some p ->
  (forall n, node_in (pp_state p) i (owned p) n -> check n = true) ->
  for_nodes (off + Z.of_nat i) check f (m_active_nodes p) c =
    Ok (set_pool (map_pool f (owned p) (pool c)) c).
Proof.
  intros H Ei Hc. pose proof (iv_port _ _ _ _ _ _ _ H _ _ Ei) as Hp.
  apply for_nodes_Ok; [apply Hp|]. intros s Hs.
  destruct (pi_node _ _ _ _ _ _ _ Hp (m_node s)) as (n & En & _ & Hn).
  { apply list_elem_of_In, in_map, list_elem_of_In, Hs. }
  exists n. split; [done|]. split; [apply Hn|by apply Hc].
Qed.

Lemma pause_traffic_Ok q c i p :
  inv_at q x0 None c -> m_ports c !! i = Some p -> (i < 2)%nat ->
  pause_traffic off (off + Z.of_nat i) c =
    if bool_decide (pp_state p = ppSTATE_TRANSMITTING)
    then Ok (map_state i p ppSTATE_PAUSE (set_pause true) c) else Err AssertFail.
Proof.
  intros H Ei Hi. destruct (get_port_db_Ok _ _ _ _ _ _ _ _ H Hi) as (p' & Ep & Edb).
  rewrite Ei in Ep. injection Ep as <-. unfold pause_traffic. rewrite Edb. simpl.
  case_bool_decide as Hst; simpl; [|done].
  rewrite (port_for_nodes _ _ _ _ _ _ H Ei); [done|]. intros n Hn.
  rewrite (ni_pause _ _ _ _ _ _ Hn), Hst. done.
Qed.

Lemma resume_traffic_Ok q c i p :
  inv_at q x0 None c -> m_ports c !! i = Some p -> (i < 2)%nat ->
  resume_traffic off (off + Z.of_nat i) c =
    if bool_decide (pp_state p = ppSTATE_PAUSE)
    then Ok (map_state i p ppSTATE_TRANSMITTING (set_pause false) c) else Err AssertFail.
Proof.
  intros H Ei Hi. destruct (get_port_db_Ok _ _ _ _ _ _ _ _ H Hi) as (p' & Ep & Edb).
  rewrite Ei in Ep. injection Ep as <-. unfold resume_traffic. rewrite Edb. simpl.
  case_bool_decide as Hst; simpl; [|done].
  rewrite (port_for_nodes _ _ _ _ _ _ H Ei); [done|]. intros n Hn.
  rewrite (ni_pause _ _ _ _ _ _ Hn), Hst. done.
Qed.

Lemma update_traffic_Ok q c i p factor :
  inv_at q x0 None c -> m_ports c !! i = Some p -> (i < 2)%nat ->
  update_traffic off (off + Z.of_nat i) factor c =
    if bool_decide (pp_state p = ppSTATE_IDLE) then Err AssertFail
    else Ok (map_state i p (pp_state p) (update_rate factor) c).
Proof.
  intros H Ei Hi. destruct (get_port_db_Ok _ _ _ _ _ _ _ _ H Hi) as (p' & Ep & Edb).
  rewrite Ei in Ep. injection Ep as <-. unfold update_traffic. rewrite Edb. simpl.
  rewrite (port_for_nodes _ _ _ _ _ _ H Ei) by done. unfold map_state.
  assert (Eid : set_pp_state (pp_state p) p = p) by by destruct p.
  assert (Eput : forall P, put_port (Z.of_nat i) p (set_pool P c) = set_pool P c)
    by (intros P; by apply put_port_id).
  rewrite Eid, Eput. by destruct (pp_state p).
Qed.

Lemma keeps_queue_map i p st f c : m_p_queue (map_state i p st f c) = m_p_queue c.
Proof. done. Qed.

(** ** Starting a port *)

(** What [add_stream] gives a new node. *)
Lemma build_node_fields t s n :
  build_node malloc avail v_if t s = Ok n ->
  m_port_id n = u8 (ts_port_id s) /\
  (m_stream_type n = stCONTINUOUS \/ m_stream_type n = stMULTI_BURST) /\
  m_pause n = false /\ is_Some (m_ref_stream_info n) /\ m_next_stream n = None /\
  m_state n = (if ts_self_start s then ss_ACTIVE else ss_INACTIVE).
Proof.
  unfold build_node. intros E. apply bind_Ok in E as (d & _ & E).
  apply bind_Ok in E as ([[[ty sg] mu] ibg] & Eb & E).
  apply bind_Ok in E as ([[[[[mb sz] pre] fv] prog] psz] & _ & E). injection E as <-. simpl.
  split_and!; try done.
  unfold burst_fields in Eb.
  destruct (ts_type s =? stCONTINUOUS) eqn:E1; [apply Z.eqb_eq in E1; simplify_eq; by left|].
  destruct (ts_type s =? stSINGLE_BURST); [simplify_eq; by right|].
  destruct (ts_type s =? stMULTI_BURST) eqn:E3; [|done]. apply Z.eqb_eq in E3. simplify_eq. by right.
Qed.

(** A new node in the list of the port that is being started. *)
Lemma inv_add_node q c i p a n d k :
  inv_at q x0 (Some i) c -> m_ports c !! i = Some p -> pool c !! a = None ->
  Z.of_nat (size (pool c)) < POOL -> node_in (pp_state p) i (owned p ++ [a]) n ->
  m_state n <> ss_FREE_RESUSE -> is_Some d ->
  k = m_active_streams p + Z.b2z (bool_decide (m_state n = ss_ACTIVE)) ->
  inv_at (if bool_decide (m_state n = ss_ACTIVE) then q ++ [a] else q) x0 (Some i)
    (put_port (Z.of_nat i)
       (mkPerPort (pp_state p) k (m_active_nodes p ++ [mkOneStream a d]) (m_event_id p))
       (put_sl a n c)).
Proof.
  intros H Ei Ea Hsz Hn Hnf Hd ->. pose proof (lookup_lt_Some _ _ _ Ei) as Hlt.
  pose proof (iv_port _ _ _ _ _ _ _ H _ _ Ei) as Hp.
  assert (Haq : a ∉ q) by by eapply inv_size_lt.
  assert (Hne : forall b h, pool c !! b = Some h -> b <> a) by congruence.
  assert (Hget : forall b h, b <> a -> <[a := STATELESS_PKT n]> (pool c) !! b = Some h ->
    pool c !! b = Some h) by (intros b h Hb; by rewrite lookup_insert_ne by congruence).
  assert (Hput : forall b h, pool c !! b = Some h -> <[a := STATELESS_PKT n]> (pool c) !! b = Some h)
    by (intros b h Eb; rewrite lookup_insert_ne; [done|by apply not_eq_sym, (Hne _ _ Eb)]).
  assert (Hown : forall j pj, m_ports c !! j = Some pj -> a ∉ owned pj).
  { intros j pj Ej Ha. destruct (pi_node _ _ _ _ _ _ _ (iv_port _ _ _ _ _ _ _ H _ _ Ej) _ Ha) as (m & Em & _).
    congruence. }
  assert (Hcnt : forall l, a ∉ l -> act_count (<[a := STATELESS_PKT n]> (pool c)) l = act_count (pool c) l).
  { intros l Hl. apply act_count_frame. intros b Hb. unfold act. rewrite lookup_insert_ne; [done|].
    by intros ->. }
  set (q' := if bool_decide (m_state n = ss_ACTIVE) then q ++ [a] else q).
  assert (Hq' : forall b, b <> a -> b ∈ q' <-> b ∈ q) by (intros b Hb; unfold q'; case_bool_decide; set_solver).
  unfold put_port. rewrite Nat2Z.id. split; simpl.
  - rewrite length_insert. apply H.
  - intros j pj. destruct (decide (j = i)) as [->|Hji].
    + rewrite list_lookup_insert_eq by done. intros [= <-].
      assert (Eo : forall ps e, owned (mkPerPort ps e (m_active_nodes p ++ [mkOneStream a d]) (m_event_id p)) =
        owned p ++ [a]) by (intros; unfold owned; simpl; by rewrite map_app).
      split; rewrite ?Eo; simpl.
      * apply NoDup_app. split; [apply Hp|]. split; [|apply NoDup_singleton].
        intros b Hb ->%list_elem_of_singleton. by apply (Hown _ _ Ei).
      * intros b [Hb | ->%list_elem_of_singleton]%elem_of_app.
        -- destruct (pi_node _ _ _ _ _ _ _ Hp b Hb) as (m & Em & Hst & Hm). exists m.
           split; [by apply Hput|]. split; [done|]. destruct Hm. split; try done.
           intros e He. apply elem_of_app. left. auto.
        -- exists n. rewrite lookup_insert_eq. done.
      * intros s [Hs | ->%list_elem_of_singleton]%elem_of_app; [by apply Hp|done].
      * done.
      * rewrite (pi_count _ _ _ _ _ _ _ Hp). unfold x0.
        assert (Eapp : forall P l l', act_count P (l ++ l') = act_count P l + act_count P l')
          by (intros P l l'; induction l; simpl; lia).
        rewrite Eapp, Hcnt by eauto. simpl. unfold act. rewrite lookup_insert_eq. lia.
    + rewrite list_lookup_insert_ne by congruence. intros Ej.
      pose proof (iv_port _ _ _ _ _ _ _ H _ _ Ej) as Hj. split; try apply Hj.
      * intros b Hb. destruct (pi_node _ _ _ _ _ _ _ Hj b Hb) as (m & Em & Hm). eauto.
      * rewrite Hcnt by eauto. apply Hj.
  - unfold q'. case_bool_decide; [|apply H]. apply NoDup_app. split; [apply H|].
    split; [|apply NoDup_singleton]. by intros b Hb ->%list_elem_of_singleton.
  - intros b Hb. destruct (decide (b = a)) as [->|Hba]; [by rewrite lookup_insert_eq|].
    rewrite lookup_insert_ne by congruence. apply H. by apply Hq'.
  - intros b m Eb. destruct (decide (b = a)) as [->|Hba].
    + rewrite lookup_insert_eq in Eb. simplify_eq. unfold q'.
      destruct (m_state m) eqn:Es; [done|by rewrite bool_decide_false by done|].
      rewrite bool_decide_true by done. split; [done|]. set_solver.
    + rewrite (iv_sl _ _ _ _ _ _ _ H b m (Hget _ _ Hba Eb)). by rewrite Hq'.
  - intros b m Eb Hst. destruct (decide (b = a)) as [->|Hba].
    + exists i. eexists. rewrite list_lookup_insert_eq by done. split; [done|].
      unfold owned. simpl. rewrite map_app. set_solver.
    + destruct (iv_owned _ _ _ _ _ _ _ H b m (Hget _ _ Hba Eb) Hst) as (j & pj & Ej & Ho).
      destruct (decide (j = i)) as [->|Hji]; [exists i|exists j, pj].
      * eexists. rewrite list_lookup_insert_eq by done. split; [done|].
        unfold owned in *. simpl. rewrite map_app. apply elem_of_app. left. congruence.
      * by rewrite list_lookup_insert_ne by congruence.
  - intros b t m Eb. destruct (decide (b = a)) as [->|Hba]; [by rewrite lookup_insert_eq in Eb|].
    by apply (iv_cmd _ _ _ _ _ _ _ H b t), Hget.
  - intros b t Eb. destruct (decide (b = a)) as [->|Hba]; [by rewrite lookup_insert_eq in Eb|].
    by apply (iv_exit _ _ _ _ _ _ _ H b t), Hget.
  - assert (Hs : stop_count (<[a := STATELESS_PKT n]> (pool c)) q = stop_count (pool c) q).
    { apply stop_count_frame. intros b Hb. unfold is_stop_cmd. rewrite lookup_insert_ne; [done|by intros ->]. }
    rewrite (iv_non_active _ _ _ _ _ _ _ H). unfold q'. case_bool_decide; [|done].
    rewrite stop_count_app, Hs. simpl. unfold is_stop_cmd. rewrite lookup_insert_eq. simpl. lia.
  - rewrite map_size_insert_None by done. lia.
Qed.

(** A stream the data path can be started with: the control plane's side of the
    contract of [add_stream]. *)
Definition startable (i : nat) (count : Z) (s : TrexStream) : Prop :=
  ts_port_id s = off + Z.of_nat i /\ ts_next_stream_id s < count /\
  forall t, exists n, build_node malloc avail v_if t s = Ok n /\ sendable avail n.

(** The node at [a] is the one built for [s]. *)
Definition node_of (c : TrexStatelessDpCore) (s : TrexStream) (a : Z) : Prop :=
  exists n, pool c !! a = Some (STATELESS_PKT n) /\
    build_node malloc avail v_if (m_cur_time_sec c) s = Ok n.

Definition extended (c c' : TrexStatelessDpCore) : Prop :=
  keeps c c' /\ m_cur_time_sec c' = m_cur_time_sec c /\
  forall b g, pool c !! b = Some g -> pool c' !! b = Some g.

Lemma extended_trans c1 c2 c3 : extended c1 c2 -> extended c2 c3 -> extended c1 c3.
Proof.
  intros (? & ? & ?) (? & ? & ?). split_and!; [by eapply keeps_trans|congruence|eauto].
Qed.

Lemma active_le_size q x s c i p :
  inv_at q x s c -> m_ports c !! i = Some p ->
  0 <= act_count (pool c) (owned p) <= Z.of_nat (size (pool c)).
Proof.
  intros H Ei. pose proof (act_count_range (pool c) (owned p)).
  pose proof (iv_port _ _ _ _ _ _ _ H _ _ Ei) as Hp.
  assert (zlength (owned p) <= Z.of_nat (size (pool c))); [|lia].
  apply nodup_size; [apply Hp|]. intros a Ha.
  destruct (pi_node _ _ _ _ _ _ _ Hp a Ha) as (n & E & _). by rewrite E.
Qed.

Lemma add_stream_inv i c p s count :
  inv_at (m_p_queue c) x0 (Some i) c -> m_ports c !! i = Some p -> pp_state p = ppSTATE_IDLE ->
  (i < 2)%nat -> startable i count s -> Z.of_nat (size (pool c)) < POOL ->
  exists a n c',
    add_stream malloc avail mempool_get v_if (Z.of_nat i) s c = Ok c' /\
    inv_at (m_p_queue c') x0 (Some i) c' /\
    build_node malloc avail v_if (m_cur_time_sec c) s = Ok n /\ pool c !! a = None /\
    pool c' = <[a := STATELESS_PKT n]> (pool c) /\ keeps c c' /\
    m_cur_time_sec c' = m_cur_time_sec c /\
    exists k, m_ports c' !! i = Some (mkPerPort (pp_state p) k
      (m_active_nodes p ++ [mkOneStream a (m_ref_stream_info n)]) (m_event_id p)).
Proof.
  intros H Ei Hidle Hi (Hport & _ & Hb) Hsz.
  destruct (mp_room _ _ Hmp (pool c) Hsz) as [a Ea].
  pose proof (mp_fresh _ _ Hmp _ _ Ea) as Hfree.
  destruct (Hb (m_cur_time_sec c)) as (n & En & Hs).
  destruct (build_node_fields _ _ _ En) as (Fp & Ft & Fpa & Fr & Fn & Fst).
  assert (Hget : get_idx (m_ports c) (Z.of_nat i) = Ok p)
    by (apply get_idx_Ok; rewrite Nat2Z.id; split; [lia|done]).
  pose proof (active_le_size _ _ _ _ _ _ H Ei) as Hcnt.
  pose proof (pi_count _ _ _ _ _ _ _ (iv_port _ _ _ _ _ _ _ H _ _ Ei)) as Hact.
  unfold x0 in Hact.
  assert (Hk : (if bool_decide (m_state n = ss_ACTIVE) then u32 (m_active_streams p + 1)
      else m_active_streams p) = m_active_streams p + Z.b2z (bool_decide (m_state n = ss_ACTIVE))).
  { case_bool_decide; simpl; [|lia]. rewrite u32_id; lia. }
  assert (Hn : node_in (pp_state p) i (owned p ++ [a]) n).
  { split; try done.
    - rewrite Fp, Hport, u8_id; [done|lia].
    - by rewrite Fpa, Hidle.
    - by rewrite Fn. }
  assert (Hnf : m_state n <> ss_FREE_RESUSE) by (rewrite Fst; by destruct (ts_self_start s)).
  pose proof (inv_add_node _ _ _ _ a n (m_ref_stream_info n) _ H Ei Hfree Hsz Hn Hnf Fr eq_refl) as H'.
  rewrite <- Hk in H'. exists a, n. unfold add_stream, create_node. rewrite Ea. simpl.
  rewrite En. simpl. rewrite Hget. simpl. eexists. split; [done|].
  assert (Hlk : forall b g, pool c !! b = Some g -> <[a := STATELESS_PKT n]> (pool c) !! b = Some g)
    by (intros b g Eb; rewrite lookup_insert_ne; [done|congruence]).
  pose proof (lookup_lt_Some _ _ _ Ei) as Hlt.
  case_bool_decide; simpl; (split; [eapply inv_at_ext; [..|exact H']; done|]);
    (split; [done|]); (split; [done|]); (split; [done|]).
  - split; [repeat split; simpl; auto; [set_solver|by rewrite length_insert|]|].
    { intros b t Eb [? | ->%list_elem_of_singleton]%elem_of_app; [done|congruence]. }
    split; [done|]. eexists. rewrite Nat2Z.id. by apply list_lookup_insert_eq.
  - split; [repeat split; simpl; auto; by rewrite length_insert|].
    split; [done|]. eexists. rewrite Nat2Z.id. by apply list_lookup_insert_eq.
Qed.

Lemma add_streams_inv i l c p count :
  inv_at (m_p_queue c) x0 (Some i) c -> m_ports c !! i = Some p -> pp_state p = ppSTATE_IDLE ->
  (i < 2)%nat -> Forall (startable i count) l -> Z.of_nat (size (pool c)) + zlength l <= POOL ->
  exists c' p' la,
    add_streams malloc avail mempool_get v_if (Z.of_nat i) (off + Z.of_nat i) l c = Ok c' /\
    inv_at (m_p_queue c') x0 (Some i) c' /\ m_ports c' !! i = Some p' /\
    pp_state p' = ppSTATE_IDLE /\ m_event_id p' = m_event_id p /\
    owned p' = owned p ++ la /\ Forall2 (node_of c') l la /\ extended c c' /\
    Z.of_nat (size (pool c')) = Z.of_nat (size (pool c)) + zlength l.
Proof.
  revert c p. induction l as [|s l IH]; intros c p H Ei Hidle Hi Hl Hsz; simpl.
  { exists c, p, []. rewrite app_nil_r. unfold zlength. simpl.
    do 7 (split; [done|]). split; [|lia]. split; [apply keeps_refl|done]. }
  apply Forall_cons in Hl as [Hs Hl]. unfold zlength in *. simpl in Hsz.
  assert (Hsz1 : Z.of_nat (size (pool c)) < POOL) by lia.
  destruct (add_stream_inv i c p s count H Ei Hidle Hi Hs Hsz1)
    as (a & n & c1 & E1 & H1 & En & Ha & Ep & Hk & Ht & k & Ei1).
  rewrite (proj1 Hs), Z.eqb_refl. simpl. rewrite E1. simpl.
  assert (Hs1 : Z.of_nat (size (pool c1)) = Z.of_nat (size (pool c)) + 1)
    by (rewrite Ep, map_size_insert_None by done; lia).
  destruct (IH c1 _ H1 Ei1) as (c' & p' & la & E' & H' & Ei' & Hst' & Hev & Ho & Hn & Hx & Hz);
    try done; [lia|].
  exists c', p', (a :: la). split; [done|]. split; [done|]. split; [done|]. split; [done|].
  split; [done|]. split; [|split; [|split]].
  - rewrite Ho. unfold owned. simpl. rewrite map_app, <- app_assoc. done.
  - constructor; [|done]. exists n. destruct Hx as (_ & Ht' & Hx). rewrite Ht', Ht. split; [|done].
    apply Hx. rewrite Ep. apply lookup_insert_eq.
  - eapply extended_trans; [|done]. split_and!; try done. intros b g Eb. rewrite Ep.
    rewrite lookup_insert_ne; [done|congruence].
  - rewrite Hz, Hs1. lia.
Qed.

(** A node linked to the node of its next stream. *)
Definition link (la : list Z) (s : TrexStream) (n : CGenNodeStateless) : CGenNodeStateless :=
  if is_dp_next_stream s then set_next_stream (la !! Z.to_nat (ts_next_stream_id s)) n else n.

Lemma get_idx_owned p k a :
  owned p !! k = Some a ->
  exists s, get_idx (m_active_nodes p) (Z.of_nat k) = Ok s /\ m_node s = a.
Proof.
  unfold owned. rewrite list_lookup_fmap. intros (s & E & ->)%fmap_Some. exists s. split; [|done].
  apply get_idx_Ok. rewrite Nat2Z.id. split; [lia|done].
Qed.

(** One turn of the loop. *)
Lemma link_one q i p c s k a :
  inv_at q x0 (Some i) c -> m_ports c !! i = Some p -> owned p !! k = Some a ->
  ts_next_stream_id s < zlength (m_active_nodes p) ->
  exists n, pool c !! a = Some (STATELESS_PKT n) /\
    (if is_dp_next_stream s then
       _ ← c_assert (ts_next_stream_id s <? zlength (m_active_nodes p));
       src ← get_idx (m_active_nodes p) (Z.of_nat k);
       dst ← get_idx (m_active_nodes p) (ts_next_stream_id s);
       n ← get_sl (m_node src) c;
       Ok (put_sl (m_node src) (set_next_stream (Some (m_node dst)) n) c)
     else Ok c) = Ok (put_sl a (link (owned p) s n) c) /\
    inv_at q x0 (Some i) (put_sl a (link (owned p) s n) c).
Proof.
  intros H Ei Ek Hnext. pose proof (iv_port _ _ _ _ _ _ _ H _ _ Ei) as Hp.
  assert (Ha : a ∈ owned p) by by eapply list_elem_of_lookup_2.
  destruct (pi_node _ _ _ _ _ _ _ Hp a Ha) as (n & En & Hst & Hn).
  exists n. split; [done|]. unfold link. destruct (is_dp_next_stream s) eqn:Eid.
  2: { assert (Eput : put_sl a n c = c) by (unfold put_sl; rewrite insert_id by done; by destruct c).
       rewrite Eput. by split. }
  unfold is_dp_next_stream in Eid. destruct (Z.ltb_spec (ts_next_stream_id s) 0) as [|Hge]; [done|].
  destruct (Z.ltb_spec (ts_next_stream_id s) (zlength (m_active_nodes p))) as [_|?]; [|lia]. simpl.
  destruct (get_idx_owned _ _ _ Ek) as (src & Esrc & Hsrc). rewrite Esrc. simpl. rewrite Hsrc.
  destruct (lookup_lt_is_Some_2 (owned p) (Z.to_nat (ts_next_stream_id s))) as [b Eb].
  { unfold owned. rewrite length_map. unfold zlength in *. lia. }
  rewrite Eb. destruct (get_idx_owned _ _ _ Eb) as (dst & Edst & <-).
  rewrite Z2Nat.id in Edst by lia. rewrite Edst. simpl.
  rewrite (proj2 (get_sl_Ok _ _ _) En). simpl. split; [done|].
  eapply (inv_put avail off POOL q q x0 x0); try done.
  - destruct Hn. split; try done.
    + simpl. intros e [= <-]. by eapply list_elem_of_lookup_2.
    + eapply sendable_frame; [|done]. by repeat split.
  - apply H.
  - exact (iv_sl _ _ _ _ _ _ _ H a n En).
  - intros j. case_decide; simpl; lia.
Qed.

Lemma link_streams_inv q i p l : forall c k,
  inv_at q x0 (Some i) c -> m_ports c !! i = Some p ->
  (k + length l <= length (m_active_nodes p))%nat ->
  Forall (fun s => ts_next_stream_id s < zlength (m_active_nodes p)) l ->
  exists c', link_streams (m_active_nodes p) (Z.of_nat k) l c = Ok c' /\
    inv_at q x0 (Some i) c' /\ m_ports c' = m_ports c /\ m_p_queue c' = m_p_queue c /\
    keeps c c' /\ m_cur_time_sec c' = m_cur_time_sec c /\ m_ring_to_cp c' = m_ring_to_cp c /\
    size (pool c') = size (pool c) /\ m_terminated_by_master c' = m_terminated_by_master c /\
    (forall b, b ∉ drop k (owned p) -> pool c' !! b = pool c !! b) /\
    (forall j s a n, l !! j = Some s -> owned p !! (k + j)%nat = Some a ->
       pool c !! a = Some (STATELESS_PKT n) ->
       pool c' !! a = Some (STATELESS_PKT (link (owned p) s n))).
Proof.
  induction l as [|s l IH]; intros c k H Ei Hlen Hl; simpl.
  { exists c. by split_and!. }
  simpl in Hlen. apply Forall_cons in Hl as [Hs Hl].
  destruct (lookup_lt_is_Some_2 (owned p) k) as [a Ek].
  { unfold owned. rewrite length_map. lia. }
  destruct (link_one _ _ _ _ _ _ _ H Ei Ek Hs) as (n & En & -> & H1). simpl.
  replace (Z.of_nat k + 1) with (Z.of_nat (S k)) by lia.
  destruct (IH (put_sl a (link (owned p) s n) c) (S k)) as
    (c' & -> & H' & Ep & Eq & Hk & Et & Er & Esz & Etm & Hfr & Hlk); try done; [lia|].
  assert (Hnd : NoDup (owned p)) by apply (iv_port _ _ _ _ _ _ _ H _ _ Ei).
  assert (Hdrop : drop k (owned p) = a :: drop (S k) (owned p)) by by apply drop_S.
  assert (Hanot : a ∉ drop (S k) (owned p)).
  { rewrite <- (take_drop k (owned p)), Hdrop in Hnd. apply NoDup_app in Hnd as (_ & _ & Hnd).
    by apply NoDup_cons in Hnd as [? _]. }
  exists c'. split; [done|]. split; [done|]. split; [done|]. split; [done|].
  split; [eapply keeps_trans; [by eapply keeps_put_sl|done]|].
  split; [done|]. split; [done|]. split; [|split; [done|split]].
  - rewrite Esz. simpl. apply size_insert_some. by rewrite En.
  - intros b Hb. rewrite Hdrop in Hb. rewrite Hfr by set_solver. simpl.
    rewrite lookup_insert_ne; [done|]. intros <-. set_solver.
  - intros [|j] s' a' n' Ej Ea' En'; simpl in Ej.
    + rewrite Nat.add_0_r in Ea'. simplify_eq. rewrite Hfr by done. apply lookup_insert_eq.
    + apply (Hlk j s' a' n' Ej); [by rewrite <- Nat.add_succ_comm in Ea'|].
      simpl. rewrite lookup_insert_ne; [done|]. intros <-.
      pose proof (NoDup_lookup _ _ _ _ Hnd Ek Ea'). lia.
Qed.

(** Scheduler nodes that an operation leaves in place. *)
Definition survives (c c' : TrexStatelessDpCore) : Prop :=
  (forall b t, pool c !! b = Some (FLOW_SYNC t) -> pool c' !! b = Some (FLOW_SYNC t)) /\
  (forall b, b ∈ m_p_queue c -> b ∈ m_p_queue c') /\
  (forall b t, pool c !! b = Some (FLOW_SYNC t) -> b ∈ m_p_queue c' -> b ∈ m_p_queue c).

Lemma keeps_survives c c' : keeps c c' -> survives c c'.
Proof. intros (_ & _ & ? & ? & _ & ?). by split_and!. Qed.

Lemma survives_trans c1 c2 c3 : survives c1 c2 -> survives c2 c3 -> survives c1 c3.
Proof. intros (? & ? & ?) (? & ? & ?). split_and!; eauto. Qed.

(** Scheduling a node that is not of a stream. *)
Lemma create_node_inv c g :
  inv c -> Z.of_nat (size (pool c)) < POOL ->
  match g with
  | STATELESS_PKT _ => False
  | FLOW_SYNC _ => True
  | EXIT_SCHED _ => dp_state c = STATE_TERMINATE
  | COMMAND _ m => m = TrexStatelessDpCanQuit \/
      exists (j : nat) ev, (j < 2)%nat /\ m = TrexStatelessDpStop (off + Z.of_nat j) true ev true
  end ->
  exists a, create_node mempool_get g c = Ok (a, set_pool (<[a := g]> (pool c)) c) /\
    pool c !! a = None /\
    forall k, k = m_non_active_nodes c + Z.b2z (is_stop_cmd (<[a := g]> (pool c)) a) ->
      inv (push a (set_non_active k (set_pool (<[a := g]> (pool c)) c))) /\
      survives c (push a (set_non_active k (set_pool (<[a := g]> (pool c)) c))).
Proof.
  intros H Hsz Hg. destruct (mp_room _ _ Hmp (pool c) Hsz) as [a Ea].
  pose proof (mp_fresh _ _ Hmp _ _ Ea) as Hfree. exists a. unfold create_node. rewrite Ea.
  split; [done|]. split; [done|]. intros k ->. split.
  - pose proof (inv_new _ _ _ _ _ _ _ a g H Hfree Hsz Hg) as H'.
    eapply inv_at_ext; [..|exact H']; done.
  - split_and!; simpl; [|set_solver|].
    + intros b t Eb. rewrite lookup_insert_ne; [done|congruence].
    + intros b t Eb [? | ->%list_elem_of_singleton]%elem_of_app; [done|congruence].
Qed.

Lemma add_port_duration_inv d i ev c :
  inv c -> (i < 2)%nat -> Z.of_nat (size (pool c)) < POOL ->
  exists c', add_port_duration mempool_get d (off + Z.of_nat i) ev c = Ok c' /\ inv c' /\
    survives c c' /\ m_ports c' = m_ports c /\ dp_state c' = dp_state c /\
    (forall b g, pool c !! b = Some g -> pool c' !! b = Some g).
Proof.
  intros H Hi Hsz. unfold add_port_duration. destruct (double_ltb (double_of_Z 0) d).
  2: { exists c. by split_and!. }
  set (g := COMMAND _ _). destruct (create_node_inv c g H Hsz) as (a & -> & Hfree & Hinv).
  { right. exists i, ev. by split. }
  simpl. eexists. split; [done|].
  pose proof (iv_non_active _ _ _ _ _ _ _ H) as Hna. pose proof (stop_count_range (pool c) (m_p_queue c)).
  assert (zlength (m_p_queue c) <= Z.of_nat (size (pool c))) by (apply nodup_size; apply H).
  destruct (Hinv (u32 (m_non_active_nodes c + 1))) as [Hi1 Hs1].
  { unfold is_stop_cmd, g. rewrite lookup_insert_eq. simpl. rewrite u32_id; lia. }
  split_and!; try done; [apply Hs1..|]. intros b h Eb. simpl. rewrite lookup_insert_ne; [done|congruence].
Qed.

(** The start message the data path accepts. *)
Definition start_ok (i : nat) (obj : TrexStreamsCompiledObj) (c : TrexStatelessDpCore) : Prop :=
  (i < 2)%nat /\ co_port_id obj = off + Z.of_nat i /\ dp_state c <> STATE_TERMINATE /\
  (exists p, m_ports c !! i = Some p /\ pp_state p = ppSTATE_IDLE) /\
  Forall (startable i (zlength (m_objs obj))) (m_objs obj) /\
  Z.of_nat (size (pool c)) + zlength (m_objs obj) + 1 <= POOL.

(** The port after a start: one node per stream, linked. *)
Definition started (i : nat) (obj : TrexStreamsCompiledObj) (ev : Z) (t : double)
    (c : TrexStatelessDpCore) : Prop :=
  exists p la, m_ports c !! i = Some p /\ pp_state p = ppSTATE_TRANSMITTING /\
    m_event_id p = ev /\ owned p = la /\
    Forall2 (fun s a => exists n, build_node malloc avail v_if t s = Ok n /\
                                  pool c !! a = Some (STATELESS_PKT (link la s n)))
      (m_objs obj) la.

Lemma inv_core_state term st c :
  inv c -> dp_state c <> STATE_TERMINATE -> inv (set_core_state term st c).
Proof.
  intros H Hst. destruct H. split; simpl; try done. intros a t Ea.
  by specialize (iv_exit a t Ea).
Qed.

Lemma start_traffic_inv i obj d ev c :
  inv c -> start_ok i obj c ->
  exists c', start_traffic malloc avail mempool_get v_if off obj d ev c = Ok c' /\
    inv c' /\ survives c c' /\ dp_state c' = STATE_TRANSMITTING /\
    started i obj ev (m_cur_time_sec c) c'.
Proof.
  intros H (Hi & Hport & Hterm & (p & Ei & Hidle) & Hstr & Hroom).
  destruct (get_port_db_Ok _ _ _ _ _ _ _ _ H Hi) as (p' & Ep & Edb).
  rewrite Ei in Ep. injection Ep as <-. unfold start_traffic. rewrite Hport, Edb. simpl.
  pose proof (iv_port _ _ _ _ _ _ _ H _ _ Ei) as Hp.
  assert (Hnil : m_active_nodes p = []) by by apply (pi_idle _ _ _ _ _ _ _ Hp).
  pose proof (pi_count _ _ _ _ _ _ _ Hp) as Hcnt. unfold owned, x0 in Hcnt. rewrite Hnil in Hcnt.
  simpl in Hcnt. set (p1 := set_event_id ev (set_active_streams 0 p)).
  set (c1 := put_port (Z.of_nat i) p1 c).
  assert (H1 : inv_at (m_p_queue c1) x0 (Some i) c1).
  { eapply (inv_put_port _ _ _ _ x0 x0 None (Some i)); try done.
    intros j. simpl. case_decide; lia. }
  rewrite Hnil. simpl.
  assert (Ei1 : m_ports c1 !! i = Some p1).
  { simpl. rewrite Nat2Z.id. apply list_lookup_insert_eq. by eapply lookup_lt_Some. }
  destruct (add_streams_inv i (m_objs obj) c1 p1 (zlength (m_objs obj)) H1 Ei1)
    as (c2 & p2 & la & -> & H2 & Ei2 & Hst2 & Hev2 & Ho2 & Hn2 & (Hk2 & Ht2 & Hx2) & Hsz2);
    try done; [simpl; lia|].
  assert (Ho2' : owned p2 = la) by (rewrite Ho2; unfold owned; simpl; by rewrite Hnil).
  simpl. assert (get_idx (m_ports c2) (Z.of_nat i) = Ok p2) as ->
    by (apply get_idx_Ok; rewrite Nat2Z.id; split; [lia|done]). simpl.
  assert (Hlen : length (m_active_nodes p2) = length (m_objs obj)).
  { rewrite (Forall2_length _ _ _ Hn2), <- Ho2'. unfold owned. by rewrite length_map. }
  unfold zlength at 1 2. rewrite Hlen, Z.eqb_refl. simpl.
  destruct (link_streams_inv (m_p_queue c2) i p2 (m_objs obj) c2 0 H2 Ei2)
    as (c3 & E3 & H3 & Ep3 & Eq3 & Hk3 & Et3 & _ & Esz3 & _ & _ & Hlk3).
  { lia. }
  { eapply Forall_impl; [exact Hstr|]. intros s (_ & Hs & _). unfold zlength in *. by rewrite Hlen. }
  change (Z.of_nat 0) with 0 in E3. rewrite E3. simpl.
  set (p3 := set_pp_state ppSTATE_TRANSMITTING p2).
  set (c4 := set_core_state _ STATE_TRANSMITTING (put_port (Z.of_nat i) p3 c3)).
  assert (Ei3 : m_ports c3 !! i = Some p2) by by rewrite Ep3.
  assert (Ei4 : m_ports c4 !! i = Some p3).
  { simpl. rewrite Nat2Z.id. apply list_lookup_insert_eq. by eapply lookup_lt_Some. }
  assert (H4 : inv c4).
  { apply inv_core_state.
    - unfold DpCoreFacts.inv. simpl. rewrite Eq3. eapply (inv_put_port _ _ _ _ x0 x0 (Some i) None); try done.
      + intros j Hj _. congruence.
      + simpl. by rewrite Hst2.
      + intros j. simpl. case_decide; lia.
    - destruct Hk3 as (_ & E & _), Hk2 as (_ & E' & _). simpl. by rewrite E, E'. }
  assert (Hsv : survives c c4).
  { apply keeps_survives in Hk2, Hk3. by apply (survives_trans c c2). }
  assert (Hstarted : started i obj ev (m_cur_time_sec c) c4).
  { exists p3, la. split_and!; try done. apply Forall2_lookup. intros k. 
    rewrite Forall2_lookup in Hn2. specialize (Hn2 k). inversion Hn2 as [s a (n & En & Eb) Es Ea|];
      [|constructor]. constructor. exists n. rewrite Ht2 in Eb. split; [done|].
    simpl. rewrite <- Ho2'. apply (Hlk3 k s a n); [done|simpl; by rewrite Ho2'|done]. }
  change (S754_zero false) with (double_of_Z 0).
  destruct (double_ltb (double_of_Z 0) d) eqn:Ed; [|exists c4; by split_and!].
  destruct (add_port_duration_inv d i ev c4 H4 Hi) as (c5 & E5 & H5 & Hs5 & Ep5 & Ed5 & Hx5).
  { simpl. rewrite Esz3, Hsz2. simpl. lia. }
  exists c5. split; [done|]. split; [done|]. split; [by eapply survives_trans|].
  split; [by rewrite Ed5|]. destruct Hstarted as (pp & l & A & B & C & D & E).
  exists pp, l. rewrite Ep5. split_and!; try done. eapply Forall2_impl; [exact E|].
  intros s a (n & ? & ?). exists n. split; [done|]. by apply Hx5.
Qed.

(** ** Messages *)

(** What the data path expects of a message of the control plane. *)
Definition on_port (P : port_state_e -> Prop) (port_id : Z) (c : TrexStatelessDpCore) : Prop :=
  exists (i : nat) p, (i < 2)%nat /\ port_id = off + Z.of_nat i /\ m_ports c !! i = Some p /\
    P (pp_state p).

Definition msg_ok (m : cp_msg) (c : TrexStatelessDpCore) : Prop :=
  match m with
  | TrexStatelessDpStart _ _ obj _ => exists i, start_ok i obj c
  | TrexStatelessDpPause port_id => on_port (fun st => st = ppSTATE_TRANSMITTING) port_id c
  | TrexStatelessDpResume port_id => on_port (fun st => st = ppSTATE_PAUSE) port_id c
  | TrexStatelessDpStop port_id _ _ _ => on_port (fun _ => True) port_id c
  | TrexStatelessDpQuit => Z.of_nat (size (pool c)) < POOL
  | TrexStatelessDpCanQuit => True
  | TrexStatelessDpUpdate port_id _ => on_port (fun st => st <> ppSTATE_IDLE) port_id c
  end.

Lemma map_state_inv q c i p st f :
  inv_at q x0 None c -> m_ports c !! i = Some p -> port_update f -> st <> ppSTATE_IDLE ->
  (forall n, m_pause n = bool_decide (pp_state p = ppSTATE_PAUSE) ->
     m_pause (f n) = bool_decide (st = ppSTATE_PAUSE)) ->
  inv_at q x0 None (map_state i p st f c) /\ survives c (map_state i p st f c).
Proof.
  intros H Ei Hf Hst Hp. split; [by apply inv_map_state|].
  apply keeps_survives, map_state_keeps, (iv_port _ _ _ _ _ _ _ H _ _ Ei).
Qed.

Lemma quit_inv c :
  inv c -> Z.of_nat (size (pool c)) < POOL ->
  exists c', quit_main_loop mempool_get c = Ok c' /\ inv c' /\ survives c c'.
Proof.
  intros H Hsz. set (c1 := set_core_state true STATE_TERMINATE c).
  assert (H1 : inv c1) by (destruct H; by split).
  unfold quit_main_loop, add_global_duration. fold c1.
  change (double_ltb _ _) with true. cbv iota.
  set (g := EXIT_SCHED _). destruct (create_node_inv c1 g H1) as (a & E & Hfree & Hinv); [done|done|].
  rewrite E. simpl. eexists. split; [done|].
  destruct (Hinv (m_non_active_nodes c1)) as [Hi Hs].
  { unfold is_stop_cmd, g. rewrite lookup_insert_eq. simpl. lia. }
  split; [eapply inv_at_ext; [..|exact Hi]; done|].
  destruct Hs as (A & B & C). split_and!; [exact A|exact B|exact C].
Qed.

Lemma msg_handle_inv m c :
  inv c -> msg_ok m c ->
  exists quit c', msg_handle malloc avail mempool_get v_if tid off m c = Ok (quit, c') /\
    inv c' /\ survives c c' /\ (quit = true -> are_all_ports_idle c' = true).
Proof.
  intros H. destruct m as [port ev obj d|port|port|port on_id ev core| | |port f]; simpl.
  - intros (i & Hs). destruct (start_traffic_inv i obj d ev c H Hs) as (c' & -> & H' & Hsv & _).
    exists false, c'. by split_and!.
  - intros (i & p & Hi & -> & Ei & Hst). rewrite (pause_traffic_Ok _ _ _ _ H Ei Hi).
    rewrite bool_decide_true by done. simpl.
    destruct (map_state_inv _ _ _ _ ppSTATE_PAUSE _ H Ei (set_pause_update true)); try done.
    eexists false, _. by split_and!.
  - intros (i & p & Hi & -> & Ei & Hst). rewrite (resume_traffic_Ok _ _ _ _ H Ei Hi).
    rewrite bool_decide_true by done. simpl.
    destruct (map_state_inv _ _ _ _ ppSTATE_TRANSMITTING _ H Ei (set_pause_update false)); try done.
    eexists false, _. by split_and!.
  - intros (i & p & Hi & -> & Ei & _).
    destruct (stop_traffic_inv _ _ _ HPOOL tid _ _ i on_id ev H Hi) as (c' & -> & H' & Eq & Hk).
    exists false, c'. split; [done|]. split; [by unfold DpCoreFacts.inv; rewrite Eq|].
    split; [by apply keeps_survives|done].
  - intros Hsz. destruct (quit_inv c H Hsz) as (c' & -> & H' & Hs). exists false, c'. by split_and!.
  - intros _. exists (are_all_ports_idle c), c. by split_and!.
  - intros (i & p & Hi & -> & Ei & Hst). rewrite (update_traffic_Ok _ _ _ _ f H Ei Hi).
    rewrite bool_decide_false by done. simpl.
    destruct (map_state_inv _ _ _ _ (pp_state p) _ H Ei (update_rate_update f)); try done.
    eexists false, _. by split_and!.
Qed.

(** Every message of a batch is accepted in the state the ones before it
    lead to. *)
Fixpoint msgs_ok (l : list cp_msg) (c : TrexStatelessDpCore) : Prop :=
  match l with
  | [] => True
  | m :: l => msg_ok m c /\
      forall c', handle_cp_msg malloc avail mempool_get v_if tid off m c = Ok c' -> msgs_ok l c'
  end.

Lemma handle_cp_msgs_inv l c :
  inv c -> msgs_ok l c ->
  exists c', handle_cp_msgs malloc avail mempool_get v_if tid off l c = Ok c' /\
    inv c' /\ survives c c'.
Proof.
  revert c. induction l as [|m l IH]; intros c H; simpl; [intros _; by exists c|].
  intros [Hm Hl]. destruct (msg_handle_inv m c H Hm) as (quit & c1 & E & H1 & Hs1 & _).
  unfold handle_cp_msg in *. rewrite E in *. simpl in *.
  destruct (IH c1 H1 (Hl c1 eq_refl)) as (c' & -> & H' & Hs'). exists c'. split; [done|]. split; [done|].
  by eapply survives_trans.
Qed.

(** ** The synchronisation node *)

Lemma inv_drop a q x s c :
  inv_at (a :: q) x s c ->
  (forall g, pool c !! a = Some g -> match g with STATELESS_PKT _ => False | _ => True end) ->
  is_stop_cmd (pool c) a = false -> inv_at q x s c.
Proof.
  intros H Hg Hs. pose proof (iv_nodup _ _ _ _ _ _ _ H) as [Ha Hnd]%NoDup_cons.
  pose proof (iv_non_active _ _ _ _ _ _ _ H) as Hna. simpl in Hna. rewrite Hs in Hna.
  destruct H. split; try done.
  - intros b Hb. apply iv_queue. set_solver.
  - intros b n Eb. etransitivity; [apply (iv_sl b n Eb)|].
    assert (b <> a) by (intros ->; by apply (Hg _ Eb)). set_solver.
Qed.

Lemma inv_hold a q x s c t :
  inv_at q x s c -> a ∉ q -> pool c !! a = Some (FLOW_SYNC t) -> inv_at (a :: q) x s c.
Proof.
  intros H Ha Ea. destruct H. split; try done.
  - by apply NoDup_cons.
  - intros b [-> | Hb]%elem_of_cons; [by rewrite Ea|by apply iv_queue].
  - intros b n Eb. etransitivity; [apply (iv_sl b n Eb)|].
    assert (b <> a) by congruence. set_solver.
  - simpl. unfold is_stop_cmd. by rewrite Ea.
Qed.

(** Another time for a synchronisation node. *)
Lemma inv_sync_time q x s c a t t' :
  inv_at q x s c -> pool c !! a = Some (FLOW_SYNC t) ->
  inv_at q x s (set_pool (<[a := FLOW_SYNC t']> (pool c)) c).
Proof.
  intros H Ea.
  assert (Hget : forall b g, <[a := FLOW_SYNC t']> (pool c) !! b = Some g ->
    b = a /\ g = FLOW_SYNC t' \/ b <> a /\ pool c !! b = Some g).
  { intros b g. destruct (decide (b = a)) as [->|Hb]; [rewrite lookup_insert_eq; intros [= <-]; by left|].
    rewrite lookup_insert_ne by congruence. by right. }
  assert (Hsl : forall b n, pool c !! b = Some (STATELESS_PKT n) ->
    <[a := FLOW_SYNC t']> (pool c) !! b = Some (STATELESS_PKT n)).
  { intros b n Eb. rewrite lookup_insert_ne; [done|congruence]. }
  assert (Hact : forall b, act (<[a := FLOW_SYNC t']> (pool c)) b = act (pool c) b).
  { intros b. unfold act. destruct (decide (b = a)) as [->|Hb];
      [by rewrite lookup_insert_eq, Ea|by rewrite lookup_insert_ne by congruence]. }
  split; simpl; try apply H.
  - intros i p Ei. pose proof (iv_port _ _ _ _ _ _ _ H _ _ Ei) as Hp. split; try apply Hp.
    + intros b Hb. destruct (pi_node _ _ _ _ _ _ _ Hp b Hb) as (n & Eb & Hn). eauto.
    + rewrite (act_count_frame (pool c) (<[a := FLOW_SYNC t']> (pool c))) by auto. apply Hp.
  - intros b Hb. destruct (decide (b = a)) as [->|Hne]; [by rewrite lookup_insert_eq|].
    rewrite lookup_insert_ne by congruence. by apply H.
  - intros b n Eb. destruct (Hget _ _ Eb) as [[_ ?]|[_ ?]]; [done|by apply H].
  - intros b n Eb. destruct (Hget _ _ Eb) as [[_ ?]|[_ ?]]; [done|by apply H].
  - intros b t1 m Eb. destruct (Hget _ _ Eb) as [[_ ?]|[_ ?]]; [done|by eapply iv_cmd].
  - intros b t1 Eb. destruct (Hget _ _ Eb) as [[_ ?]|[_ ?]]; [done|by eapply iv_exit].
  - rewrite (iv_non_active _ _ _ _ _ _ _ H). symmetry. apply stop_count_frame. intros b _.
    unfold is_stop_cmd. destruct (decide (b = a)) as [->|Hb];
      [by rewrite lookup_insert_eq, Ea|by rewrite lookup_insert_ne by congruence].
  - rewrite size_insert_some by (by rewrite Ea). apply H.
Qed.

(** ** One turn of the scheduler *)

(** No queued node belongs to a stream that is still on. *)
Definition quiet (c : TrexStatelessDpCore) : Prop :=
  forall a n, a ∈ m_p_queue c -> pool c !! a = Some (STATELESS_PKT n) -> m_state n = ss_FREE_RESUSE.

Definition has_sync (c : TrexStatelessDpCore) : Prop :=
  exists a t, a ∈ m_p_queue c /\ pool c !! a = Some (FLOW_SYNC t).

(** What a turn leads to. *)
Definition turn_result (ex : bool) (c c' : TrexStatelessDpCore) : Prop :=
  if ex then dp_state c' = STATE_TERMINATE \/ quiet c' else has_sync c -> has_sync c'.

Lemma has_sync_survives c c' :
  has_sync c -> survives c c' -> has_sync c'.
Proof. intros (a & t & Ha & Ea) (A & B & _). exists a, t. auto. Qed.

Lemma has_sync_pop a c g :
  pool c !! a = Some g -> (match g with FLOW_SYNC _ => False | _ => True end) ->
  a ∈ m_p_queue c -> has_sync c -> has_sync (pop a c).
Proof.
  intros Ea Hg Ha (b & t & Hb & Eb). exists b, t. split; [|done].
  rewrite (remove_one_perm _ _ Ha) in Hb. apply elem_of_cons in Hb as [-> | Hb]; [|exact Hb].
  rewrite Ea in Eb. by simplify_eq.
Qed.

Lemma idle_quiet c : inv c -> are_all_ports_idle c = true -> quiet c.
Proof.
  intros H Hid a n Ha Ea. destruct (decide (m_state n = ss_FREE_RESUSE)) as [|Hst]; [done|].
  destruct (iv_owned _ _ _ _ _ _ _ H a n Ea Hst) as (i & p & Ei & Hown). exfalso.
  unfold are_all_ports_idle in Hid. rewrite forallb_forall in Hid.
  assert (Hpi : pp_state p = ppSTATE_IDLE).
  { eapply bool_decide_eq_true_1. apply Hid, list_elem_of_In. by eapply list_elem_of_lookup_2. }
  unfold owned in Hown. rewrite (pi_idle _ _ _ _ _ _ _ (iv_port _ _ _ _ _ _ _ H _ _ Ei)) in Hown by done.
  by apply elem_of_nil in Hown.
Qed.

Definition turn_msgs_ok (a : Z) (c : TrexStatelessDpCore) : Prop :=
  forall t, pool c !! a = Some (FLOW_SYNC t) ->
    msgs_ok (m_ring_from_cp c) (set_rings [] (m_ring_to_cp c) (pop a (set_cur_time t c))).

Lemma sync_turn a t c :
  inv c -> a ∈ m_p_queue c -> pool c !! a = Some (FLOW_SYNC t) -> turn_msgs_ok a c ->
  exists ex c', handle_top malloc avail mempool_get v_if tid off a c = Ok (ex, c') /\
    inv c' /\ turn_result ex c c'.
Proof.
  intros H Ha Ea Hm. unfold handle_top, get_node. rewrite Ea. simpl.
  unfold periodic_check_for_cp_messages. specialize (Hm t Ea).
  set (c1 := set_rings [] _ (pop a (set_cur_time t c))) in *.
  assert (H0 : inv_at (a :: m_p_queue c1) x0 None c1).
  { eapply inv_at_ext; [..|exact (inv_pop avail off POOL c a H Ha)]; done. }
  assert (Ea1 : pool c1 !! a = Some (FLOW_SYNC t)) by done.
  assert (Hnot : a ∉ m_p_queue c1) by (pose proof (iv_nodup _ _ _ _ _ _ _ H0) as [? _]%NoDup_cons; done).
  assert (H1 : inv c1).
  { eapply inv_drop; [exact H0| |].
    - intros g Eg. rewrite Ea1 in Eg. by simplify_eq.
    - unfold is_stop_cmd. by rewrite Ea1. }
  change (m_ring_from_cp (pop a (set_cur_time t c))) with (m_ring_from_cp c).
  destruct (handle_cp_msgs_inv _ _ H1 Hm) as (c2 & -> & H2 & (A & B & C)). simpl.
  pose proof (A _ _ Ea1) as Ea2. assert (Hnot2 : a ∉ m_p_queue c2) by (intros Hin; eapply Hnot, C; done).
  destruct (Z.eqb_spec (zlength (m_p_queue c2)) (m_non_active_nodes c2)) as [Hlen|Hlen].
  - pose proof (inv_hold _ _ _ _ _ _ H2 Hnot2 Ea2) as Hh.
    destruct (inv_free _ _ _ a _ _ _ _ _ Hh Ea2 I HPOOL) as (c' & -> & H' & Eq & Ep & _).
    simpl. exists true, c'. split; [done|]. split; [by unfold DpCoreFacts.inv; rewrite Eq|].
    right. intros b n Hb Eb. rewrite Eq in Hb. rewrite Ep in Eb. apply lookup_delete_Some in Eb as [_ Eb].
    rewrite (iv_non_active _ _ _ _ _ _ _ H2) in Hlen.
    pose proof (stop_count_all _ _ b (eq_sym Hlen) Hb) as Hs. unfold is_stop_cmd in Hs.
    by rewrite Eb in Hs.
  - eexists false, _. split; [done|].
    set (t' := double_add t SYNC_TIME_OUT). split.
    + apply (inv_push avail off POOL a (m_p_queue c2)); [|done].
      eapply inv_hold; [by eapply inv_sync_time|done|]. simpl. apply lookup_insert_eq.
    + intros _. exists a, t'. simpl. split; [set_solver|apply lookup_insert_eq].
Qed.

Lemma node_turn a n c :
  inv c -> a ∈ m_p_queue c -> pool c !! a = Some (STATELESS_PKT n) ->
  exists c', handle_top malloc avail mempool_get v_if tid off a c = Ok (false, c') /\
    inv c' /\ turn_result false c c'.
Proof.
  intros H Ha Ea. unfold handle_top, get_node. rewrite Ea. simpl.
  pose proof (inv_pop _ _ _ c a H Ha) as H0.
  assert (Hsync : has_sync c -> has_sync (pop a c)) by (by apply (has_sync_pop a c (STATELESS_PKT n))).
  unfold is_mask_for_free. case_bool_decide as Hst.
  - destruct (inv_free _ _ _ a _ _ _ _ _ H0 Ea Hst HPOOL) as (c' & -> & H' & Eq & Ep & _). simpl.
    exists c'. split; [done|]. split; [by unfold DpCoreFacts.inv; rewrite Eq|].
    intros (b & t & Hb & Eb)%Hsync. exists b, t. rewrite Eq, Ep. split; [done|].
    rewrite lookup_delete_ne; [done|]. intros ->. simpl in Eb. congruence.
  - assert (m_state n = ss_ACTIVE) as Hact.
    { destruct (m_state n) eqn:Es; try done. apply (iv_sl _ _ _ _ _ _ _ H a n Ea) in Es. done. }
    destruct (handle_sl_inv _ _ _ Hoff HPOOL tid a _ _ n H0 eq_refl Ea Hact) as (c' & -> & H' & Hk).
    simpl. exists c'. split; [done|]. split; [done|].
    intros Hs. eapply has_sync_survives; [by apply Hsync|by apply keeps_survives].
Qed.

Lemma command_turn a t m c :
  inv c -> a ∈ m_p_queue c -> pool c !! a = Some (COMMAND t m) ->
  exists ex c', handle_top malloc avail mempool_get v_if tid off a c = Ok (ex, c') /\
    inv c' /\ turn_result ex c c'.
Proof.
  intros H Ha Ea. unfold handle_top, get_node. rewrite Ea. simpl.
  pose proof (inv_pop _ _ _ c a H Ha) as H0. set (q := m_p_queue (pop a c)) in *.
  assert (Hsync : has_sync c -> has_sync (pop a c)) by (by apply (has_sync_pop a c (COMMAND t m))).
  assert (exists quit c1, msg_handle malloc avail mempool_get v_if tid off m (pop a c) = Ok (quit, c1) /\
    inv_at (a :: q) x0 None c1 /\ m_p_queue c1 = q /\ pool c1 !! a = Some (COMMAND t m) /\
    (has_sync (pop a c) -> has_sync c1) /\ (quit = true -> are_all_ports_idle c1 = true))
    as (quit & c1 & -> & H1 & Eq1 & Ea1 & Hs1 & Hq1).
  { destruct (iv_cmd _ _ _ _ _ _ _ H a t m Ea) as [-> | (j & ev & Hj & ->)]; simpl.
    - exists (are_all_ports_idle (pop a c)), (pop a c). by split_and!.
    - destruct (stop_traffic_Ok _ _ _ HPOOL tid _ _ j true ev H0 Hj) as (p & Ep & E).
      rewrite E. simpl. eexists false, _. split; [done|].
      pose proof (iv_port _ _ _ _ _ _ _ H0 _ _ Ep) as Hp.
      destruct (_ || _); [by split_and!|].
      pose proof (inv_stop _ _ _ _ _ _ _ H0 Ep) as H1. split; [eapply inv_at_ext; [..|exact H1]; done|].
      split; [done|]. split; [|split; [|done]].
      + simpl. rewrite stop_pool_lookup by apply Hp. change (pool (pop a c)) with (pool c).
        rewrite Ea. by destruct (decide (a ∈ owned p)).
      + intros Hs. eapply has_sync_survives; [exact Hs|].
        destruct (keeps_survives _ _ (stop_state_keeps j p (pop a c) (pi_nodup _ _ _ _ _ _ _ Hp)))
          as (A & B & C). by split_and!. }
  simpl. destruct (inv_free _ _ _ a _ _ _ _ _ H1 Ea1 I HPOOL) as (c' & -> & H' & Eq & Ep & Epo & _).
  simpl. exists quit, c'. split; [done|].
  assert (Hinv : inv c') by (unfold DpCoreFacts.inv; by rewrite Eq, Eq1). split; [done|].
  destruct quit; simpl.
  - right. apply idle_quiet; [done|]. unfold are_all_ports_idle in *. rewrite Epo. by apply Hq1.
  - intros (b & t1 & Hb & Eb)%Hsync%Hs1. exists b, t1. rewrite Eq, Ep. split; [done|].
    rewrite lookup_delete_ne; [done|]. intros ->. congruence.
Qed.

Lemma turn_inv a c :
  inv c -> a ∈ m_p_queue c -> turn_msgs_ok a c ->
  exists ex c', handle_top malloc avail mempool_get v_if tid off a c = Ok (ex, c') /\
    inv c' /\ turn_result ex c c'.
Proof.
  intros H Ha Hm. destruct (iv_queue _ _ _ _ _ _ _ H a Ha) as [[n|t|t|t m] Ea].
  - destruct (node_turn a n c H Ha Ea) as (c' & E & H' & Hr). by exists false, c'.
  - by eapply sync_turn.
  - pose proof (inv_pop _ _ _ c a H Ha) as H0. unfold handle_top, get_node. rewrite Ea. simpl.
    destruct (inv_free _ _ _ a _ _ _ _ _ H0 Ea I HPOOL) as (c' & -> & H' & Eq & _ & _ & Ed & _).
    simpl. exists true, c'. split; [done|]. split; [by unfold DpCoreFacts.inv; rewrite Eq|].
    left. rewrite Ed. by eapply (iv_exit _ _ _ _ _ _ _ H).
  - by eapply command_turn.
Qed.

(** ** Shutting down *)

Lemma remove_all_inv q c :
  inv_at q x0 None c -> (forall a n, a ∈ q -> pool c !! a = Some (STATELESS_PKT n) ->
    m_state n = ss_FREE_RESUSE) -> m_p_queue c = q ->
  exists c', remove_all q c = Ok c' /\ inv c' /\ m_p_queue c' = [] /\ dp_state c' = dp_state c.
Proof.
  revert c. induction q as [|a q IH]; intros c H Hq Eq; simpl.
  { exists c. split_and!; try done. unfold DpCoreFacts.inv. by rewrite Eq. }
  destruct (iv_queue _ _ _ _ _ _ _ H a (list_elem_of_here _ _)) as [g Ea].
  unfold get_node. rewrite Ea. simpl.
  assert (Hg : match g with STATELESS_PKT n => m_state n = ss_FREE_RESUSE | _ => True end).
  { destruct g; try done. apply (Hq a n); [by apply list_elem_of_here|done]. }
  assert ((match g with STATELESS_PKT n => c_assert (is_mask_for_free n) | _ => Ok tt end) = Ok tt) as ->.
  { destruct g; try done. unfold is_mask_for_free. by rewrite Hg. }
  simpl. assert (H1 : inv_at (a :: q) x0 None (set_queue q c)) by (eapply inv_at_ext; [..|exact H]; done).
  destruct (inv_free _ _ _ a q _ _ _ g H1 Ea Hg HPOOL) as (c1 & -> & H2 & Eq1 & Ep & _ & Ed & _).
  simpl. destruct (IH c1 H2) as (c' & E' & H' & Eq' & Ed').
  - intros b n Hb. rewrite Ep. intros [_ Eb]%lookup_delete_Some.
    apply (Hq b n); [by apply list_elem_of_further|done].
  - by rewrite Eq1.
  - exists c'. split_and!; try done. by rewrite Ed', Ed.
Qed.

End Steps.
