(* ===== verification/DpCoreThms.v ===== *)
(** * Properties of the stateless data path core

    The scheduler never faults while the control plane respects the state of the
    ports, and hands over and shuts down cleanly; what a start, a stop and a burst
    do; and the cases in which an assertion of the code fails. *)

From S2P Require Import Prelude Double ByteMem PktCmn StreamVm TrexStream StreamsCompiler DpNode DpNodeFacts DpCore DpCoreFacts DpCoreSteps.

(** ** The scheduler *)

Section Scheduler.
Context (malloc : Z -> option bytes) (avail : mbuf_pool -> bool).
Context (mempool_get : gmap Z gen_node -> option Z) (v_if : CCoreEthIF) (tid off POOL : Z).

(** The messages that the turn of node [a] handles respect the ports. *)
Definition accepted (a : Z) (c : TrexStatelessDpCore) : Prop :=
  turn_msgs_ok malloc avail mempool_get v_if tid off POOL a c.

(** C2: A turn of the scheduler never faults.  In a consistent state, for every
    node that may be at the top of the queue, when the messages waiting (if the
    turn reads them) respect the states of the ports, no assertion fails and no
    freed node is used, the state stays consistent (in particular the count of
    active streams of each port is the number of its active nodes, and a node is
    queued exactly when it is not inactive), and the queue still holds the
    synchronisation node unless the scheduler exits. *)
Theorem dp_turn_safe (a : Z) (c : TrexStatelessDpCore) :
  0 <= off <= 254 -> POOL < 4294967296 -> mempool_ok mempool_get POOL ->
  inv avail off POOL c -> is_top c a -> accepted a c ->
  exists ex c', handle_top malloc avail mempool_get v_if tid off a c = Ok (ex, c') /\
    inv avail off POOL c' /\ (ex = false -> has_sync c -> has_sync c').
Proof.
  intros Hoff Hpool Hmp H [Ha _] Hm.
  destruct (turn_inv malloc avail _ v_if tid off POOL Hoff Hpool Hmp a c H Ha Hm) as (ex & c' & E & H' & Hr).
  exists ex, c'. split; [done|]. split; [done|]. intros ->. apply Hr.
Qed.

(** C35: The scheduler exits only when it is safe: unless the core was told to
    quit, the clean-up after the exit passes its assertions, empties the queue,
    leaves no pending stop command and no active stream on any port, and the core
    is idle. *)
Theorem dp_exit_clean (a : Z) (c c' : TrexStatelessDpCore) :
  0 <= off <= 254 -> POOL < 4294967296 -> mempool_ok mempool_get POOL ->
  inv avail off POOL c -> is_top c a -> accepted a c ->
  handle_top malloc avail mempool_get v_if tid off a c = Ok (true, c') ->
  dp_state c' <> STATE_TERMINATE ->
  exists c'', after_flush c' = Ok c'' /\ inv avail off POOL c'' /\ m_p_queue c'' = [] /\
    m_non_active_nodes c'' = 0 /\ dp_state c'' = STATE_IDLE /\
    forall i p, m_ports c'' !! i = Some p -> m_active_streams p = 0.
Proof.
  intros Hoff Hpool Hmp H [Ha _] Hm E Hst.
  destruct (turn_inv malloc avail _ v_if tid off POOL Hoff Hpool Hmp a c H Ha Hm)
    as (ex & c1 & E1 & H' & Hr).
  rewrite E in E1. simplify_eq. simpl in Hr. destruct Hr as [?|Hq]; [done|].
  unfold after_flush.
  destruct (remove_all_inv avail off POOL Hpool _ _ H' Hq eq_refl) as (c2 & E2 & H2 & Eq2 & Ed2).
  exists (set_core_state (m_terminated_by_master c2) STATE_IDLE c2).
  assert (Eres : match dp_state c1 with STATE_TERMINATE => Ok c1
      | _ => c ← remove_all (m_p_queue c1) c1; Ok (set_core_state (m_terminated_by_master c) STATE_IDLE c)
      end = Ok (set_core_state (m_terminated_by_master c2) STATE_IDLE c2)).
  { rewrite E2. by destruct (dp_state c1). }
  split; [exact Eres|]. assert (H3 : inv avail off POOL (set_core_state (m_terminated_by_master c2) STATE_IDLE c2)).
  { apply inv_core_state; [done|]. by rewrite Ed2. }
  split; [done|]. split; [done|]. split.
  { pose proof (iv_non_active _ _ _ _ _ _ _ H3) as Hna. simpl in Hna. by rewrite Eq2 in Hna. }
  split; [done|]. intros i p Ei. pose proof (iv_port _ _ _ _ _ _ _ H3 i p Ei) as Hp.
  rewrite (pi_count _ _ _ _ _ _ _ Hp). unfold x0. rewrite Z.add_0_r.
  assert (Hall : forall l, (forall b, b ∈ l -> b ∈ owned p) -> act_count (pool c2) l = 0); [|by apply Hall].
  intros l. induction l as [|b l IH]; intros Hl; simpl; [done|]. rewrite IH by set_solver.
  destruct (pi_node _ _ _ _ _ _ _ Hp b) as (n & En & _); [set_solver|].
  unfold act. simpl in En |- *. rewrite En. case_bool_decide as Hact; [|done].
  assert (Hb : b ∉ m_p_queue c2) by (rewrite Eq2; apply not_elem_of_nil).
  apply (iv_sl _ _ _ _ _ _ _ H2 b n En) in Hb. congruence.
Qed.

(** ** Starting and stopping a port *)

(** C36: A start on an idle port succeeds and builds the ring of nodes the streams
    describe: the port transmits under the event id of the start, it has one node
    per stream, in order, built from the stream and linked to the node of its next
    stream, and exactly the nodes of the self-started streams are queued. *)
Theorem start_traffic_spec (i : nat) (obj : TrexStreamsCompiledObj) (d : double) (ev : Z)
    (c : TrexStatelessDpCore) :
  0 <= off <= 254 -> POOL < 4294967296 -> mempool_ok mempool_get POOL ->
  inv avail off POOL c -> start_ok malloc avail v_if off POOL i obj c ->
  exists c' p la, start_traffic malloc avail mempool_get v_if off obj d ev c = Ok c' /\
    inv avail off POOL c' /\ m_ports c' !! i = Some p /\ pp_state p = ppSTATE_TRANSMITTING /\
    m_event_id p = ev /\ map m_node (m_active_nodes p) = la /\
    Forall2 (fun s a => exists n,
      build_node malloc avail v_if (m_cur_time_sec c) s = Ok n /\
      pool c' !! a = Some (STATELESS_PKT (link la s n)) /\
      (a ∈ m_p_queue c' <-> ts_self_start s = true)) (m_objs obj) la.
Proof.
  intros Hoff Hpool Hmp H Hs.
  destruct (start_traffic_inv malloc avail _ v_if off POOL Hoff Hpool Hmp i obj d ev c H Hs)
    as (c' & E & H' & _ & _ & p & la & Ei & Hst & Hev & Ho & Hall).
  exists c', p, la. split_and!; try done. eapply Forall2_impl; [exact Hall|].
  intros s a (n & En & Ea). exists n. split_and!; [done|done|].
  destruct (build_node_fields _ _ _ _ _ _ En) as (_ & _ & _ & _ & _ & Hstate).
  assert (Hls : m_state (link la s n) = m_state n) by (unfold link; by destruct (is_dp_next_stream s)).
  pose proof (iv_sl _ _ _ _ _ _ _ H' a _ Ea) as Hiff. rewrite Hls, Hstate in Hiff.
  destruct (ts_self_start s).
  - split; [done|]. intros _. destruct (decide (a ∈ m_p_queue c')) as [|Hno]; [done|].
    by apply Hiff in Hno.
  - split; [|done]. intros Ha. by destruct (proj1 Hiff eq_refl).
Qed.

(** C37: A stop of a transmitting or paused port (of the current event, when it is
    for one event) leaves the port idle and empty; every node of the port that is
    still allocated is marked to be freed; the queue and the other port are
    untouched; and the control plane gets the stop event of that start.  On an
    idle port, or for the event of an earlier start, a stop does nothing. *)
Theorem stop_traffic_spec (i : nat) (p : TrexStatelessDpPerPort) (on_id : bool) (ev : Z)
    (c : TrexStatelessDpCore) :
  POOL < 4294967296 -> inv avail off POOL c -> m_ports c !! i = Some p ->
  exists c', stop_traffic tid off (off + Z.of_nat i) on_id ev c = Ok c' /\
    inv avail off POOL c' /\
    if bool_decide (pp_state p = ppSTATE_IDLE) || (on_id && negb (ev =? m_event_id p)) then c' = c
    else
      m_ports c' = <[i := mkPerPort ppSTATE_IDLE 0 [] (m_event_id p)]> (m_ports c) /\
      m_p_queue c' = m_p_queue c /\
      m_ring_to_cp c' = m_ring_to_cp c ++ [mkPortEvent tid (off + Z.of_nat i) (m_event_id p)] /\
      forall a n, pool c' !! a = Some (STATELESS_PKT n) -> m_port_id n = off + Z.of_nat i ->
        m_state n = ss_FREE_RESUSE.
Proof.
  intros Hpool H Ei.
  assert (Hi : (i < 2)%nat) by (rewrite <- (iv_ports _ _ _ _ _ _ _ H); by apply lookup_lt_Some in Ei).
  destruct (stop_traffic_Ok avail off POOL Hpool tid _ _ i on_id ev H Hi) as (p' & Ep & ->).
  rewrite Ei in Ep. injection Ep as <-. eexists. split; [done|].
  destruct (_ || _); [done|]. pose proof (inv_stop _ _ _ _ _ _ _ H Ei) as H'.
  split; [eapply inv_at_ext; [..|exact H']; done|].
  split; [simpl; by rewrite Nat2Z.id|]. split; [done|]. split; [done|].
  intros a n Ea Hport. destruct (decide (m_state n = ss_FREE_RESUSE)) as [|Hst]; [done|].
  destruct (inv_node _ _ _ _ _ _ _ _ _ H' Ea Hst) as (j & pj & Ej & Hown & _ & Hn).
  pose proof (ni_port _ _ _ _ _ _ Hn) as Hpj. assert (j = i) as -> by lia.
  simpl in Ej. rewrite Nat2Z.id, list_lookup_insert_eq in Ej by (by eapply lookup_lt_Some).
  simplify_eq. by apply elem_of_nil in Hown.
Qed.

(** ** Bursts *)

(** The packets that the node at address [a] has sent, and their direction. *)
Definition sent_by (a : Z) (c : TrexStatelessDpCore) : list (bool * bytes) :=
  (fun x => (x.1.2, x.2)) <$> filter (fun x => x.1.1 = a) (sent c).

(** What happens between the turns of a node: the rest of the core goes on, the node
    is left alone. *)
Definition leaves (a : Z) (c c' : TrexStatelessDpCore) : Prop :=
  inv avail off POOL c' /\ pool c' !! a = pool c !! a /\ sent_by a c' = sent_by a c.

(** A run of the core from [c], in which the node at [a] has had [k] turns of the scheduler. *)
Inductive burst_run (a : Z) (c : TrexStatelessDpCore) : nat -> TrexStatelessDpCore -> Prop :=
  | burst_start : burst_run a c 0 c
  | burst_own k c1 n c' : burst_run a c k c1 -> is_top c1 a -> pool c1 !! a = Some (STATELESS_PKT n) ->
      handle_top malloc avail mempool_get v_if tid off a c1 = Ok (false, c') -> burst_run a c (S k) c'
  | burst_others k c1 c' : burst_run a c k c1 -> leaves a c1 c' -> burst_run a c k c'.

(** Between its bursts' first and last packets: [k] packets are out. *)
Record bursting (a s m k : Z) (n0 : CGenNodeStateless) (c : TrexStatelessDpCore) : Prop := {
  bu_inv : inv avail off POOL c;
  bu_node : exists n, pool c !! a = Some (STATELESS_PKT n) /\ burst_at s m k n0 n /\
    m_stream_type n = stMULTI_BURST /\ m_next_stream n = m_next_stream n0 /\ m_dir n = m_dir n0 }.

(** It has sent its last packet. *)
Definition burst_over (a : Z) (c : TrexStatelessDpCore) : Prop :=
  inv avail off POOL c /\ forall n, pool c !! a = Some (STATELESS_PKT n) -> m_state n = ss_INACTIVE.

Lemma sent_by_log a b dir p c : sent_by a (log_sent b dir p c) = sent_by a c ++ if decide (b = a) then [(dir, p)] else [].
Proof.
  unfold sent_by, log_sent. cbn [sent]. rewrite filter_app, fmap_app. f_equal. case_decide as Hb.
  - subst b. rewrite filter_cons_True by done. done.
  - rewrite filter_cons_False by done. done.
Qed.

Lemma free_node_frame a c c' : free_node a c = Ok c' -> m_p_queue c' = m_p_queue c /\ sent c' = sent c.
Proof.
  unfold free_node. intros E. res_inv_all. subst. destruct x; [by simplify_eq..|].
  unfold on_node_remove in *. repeat case_match; simplify_eq; res_inv_all; by simplify_eq.
Qed.

Lemma stop_nodes_frame port l : forall active c k c',
  stop_nodes port l active c = Ok (k, c') -> m_p_queue c' = m_p_queue c /\ sent c' = sent c.
Proof.
  induction l as [|x l IH]; intros active c k c' E; cbn [stop_nodes] in E; [by simplify_eq|].
  apply bind_Ok in E as (n & _ & E). apply bind_Ok in E as (? & _ & E). case_bool_decide.
  - apply bind_Ok in E as (c1 & E1 & E). apply IH in E as [-> ->]. unfold DeleteOnlyStream in E1. res_inv_all. by subst.
  - apply bind_Ok in E as (c1 & E1 & E). apply IH in E as [-> ->]. unfold OneStream_Delete in E1. res_inv_all. by eapply free_node_frame.
Qed.

Lemma stop_traffic_frame port on_id ev c c' :
  stop_traffic tid off port on_id ev c = Ok c' -> m_p_queue c' = m_p_queue c /\ sent c' = sent c.
Proof.
  unfold stop_traffic, port_stop_traffic. intros E. apply bind_Ok in E as ([i p] & _ & E). apply bind_Ok in E as ([b c1] & E1 & E).
  assert (m_p_queue c1 = m_p_queue c /\ sent c1 = sent c) as [Hq Hs].
  { destruct (pp_state p); [res_inv_all; by simplify_eq|..]; (destruct (_ && _); [by simplify_eq|]);
      apply bind_Ok in E1 as ([k c2] & E1 & E2); apply stop_nodes_frame in E1; res_inv_all; by simplify_eq. }
  destruct b; cbn [negb] in E; injection E as <-; done.
Qed.

Lemma set_next_frame cur nx c b c' :
  set_stateless_next_node tid off cur nx c = Ok (b, c') -> m_p_queue c' = m_p_queue c /\ sent c' = sent c.
Proof.
  unfold set_stateless_next_node. intros E. apply bind_Ok in E as ([i p] & _ & E). apply bind_Ok in E as ([[sch stop] c1] & E1 & E).
  apply bind_Ok in E as (c2 & E2 & E). simplify_eq.
  assert (m_p_queue c1 = m_p_queue c /\ sent c1 = sent c) as [Hq Hs].
  { unfold update_number_of_active_streams in E1. destruct nx as [x|]; [|by simplify_eq/=].
    apply bind_Ok in E1 as (n & _ & E1). destruct (m_state n); [done|apply bind_Ok in E1 as (? & _ & E1)|]; by simplify_eq/=. }
  destruct stop; [|by simplify_eq]. apply stop_traffic_frame in E2. by rewrite <- Hq, <- Hs.
Qed.

Lemma sent_by_same a c c' : sent c' = sent c -> sent_by a c' = sent_by a c.
Proof. intros E. unfold sent_by. by rewrite E. Qed.

(** A turn of the node sends one packet. *)
Lemma own_turn a s m k n0 c c' :
  0 <= off <= 254 -> POOL < 4294967296 ->
  0 <= s < 4294967296 -> 0 <= m < 4294967296 -> 0 <= k < burst_len s * burst_len m -> m_next_stream n0 <> Some a ->
  bursting a s m k n0 c -> a ∈ m_p_queue c -> handle_top malloc avail mempool_get v_if tid off a c = Ok (false, c') ->
  exists p, sent_by a c' = sent_by a c ++ [(m_dir n0, p)] /\
    (k + 1 < burst_len s * burst_len m -> bursting a s m (k + 1) n0 c') /\
    (k + 1 = burst_len s * burst_len m -> burst_over a c').
Proof.
  intros Hoff Hpool Hs Hm Hk Hnext [Hinv (n & En & Hat & Hty & Hnx & Hdir)] Ha E.
  destruct (node_turn malloc avail mempool_get v_if tid off POOL Hoff Hpool a n c Hinv Ha En) as (c1 & E1 & Hinv' & _).
  rewrite E in E1. injection E1 as <-.
  unfold handle_top, get_node in E. rewrite En in E. cbn [mbind res_bind] in E. apply bind_Ok in E as (c2 & E & [= ->]).
  pose proof Hat as (_ & _ & Hst & _). unfold is_mask_for_free in E. rewrite Hst in E. cbn [bool_decide decide] in E.
  unfold handle_sl in E. assert (En' : get_sl a (pop a c) = Ok n) by by apply get_sl_Ok. rewrite En' in E. cbn [mbind res_bind] in E.
  rewrite Hty in E. change (stMULTI_BURST =? stCONTINUOUS) with false in E. change (stMULTI_BURST =? stMULTI_BURST) with true in E. cbv iota in E.
  unfold handle_multi_burst, send_node in E. rewrite En' in E. cbn [mbind res_bind] in E.
  destruct (node_packet avail n) as [[n1 pkt]|] eqn:Ep; [|done]. cbn [mbind res_bind] in E.
  destruct (node_packet_inv _ _ _ _ Ep) as [fv ->].
  set (c3 := log_sent a (m_dir n) pkt (put_sl a (set_flow_var fv n) (pop a c))) in *.
  assert (Hs3 : sent_by a c3 = sent_by a c ++ [(m_dir n0, pkt)]).
  { unfold c3. rewrite sent_by_log, decide_True, Hdir by done. done. }
  assert (En3 : get_sl a c3 = Ok (set_flow_var fv n)) by (apply get_sl_Ok; apply lookup_insert_eq).
  rewrite En3 in E. cbn [mbind res_bind] in E.
  destruct (burst_step s m k n0 (set_flow_var fv n) Hs Hm Hk Hat) as [Hdone Hstep].
  destruct (multi_burst_tick (set_flow_var fv n)) as [n2 done] eqn:Et. cbn [fst snd] in Hdone, Hstep.
  exists pkt. destruct done; cbn [negb] in E; symmetry in Hdone.
  - apply Z.eqb_eq in Hdone. apply bind_Ok in E as ([sch c4] & E4 & E). apply set_next_frame in E4 as [Hq4 Hs4].
    assert (Hnx2 : m_next_stream n2 = m_next_stream n0).
    { destruct (multi_burst_tick_done _ _ Et) as (_ & (_ & _ & _ & _ & _ & Hn) & _). cbn in Hn. congruence. }
    assert (sent c' = sent c4 /\ (a ∈ m_p_queue c' -> a ∈ m_p_queue c4)) as [Hs5 Hq5].
    { destruct sch; [|by simplify_eq]. destruct (m_next_stream n2) as [b|] eqn:Enx2; [|by simplify_eq]. res_inv_all. split; [done|]. cbn.
      intros [? | ->%list_elem_of_singleton]%elem_of_app; [done|]. congruence. }
    split; [rewrite (sent_by_same a c4 c' Hs5), (sent_by_same a _ c4 Hs4); exact Hs3|]. split; [lia|]. intros _.
    split; [exact Hinv'|]. intros n' En'2. apply (iv_sl _ _ _ _ _ _ _ Hinv' a n' En'2). intros Hin. apply Hq5 in Hin. rewrite Hq4 in Hin.
    exact (not_in_pop c a (iv_nodup _ _ _ _ _ _ _ Hinv) Ha Hin).
  - apply Z.eqb_neq in Hdone. injection E as <-. split; [exact Hs3|]. split; [|lia]. intros Hlt. split; [exact Hinv'|].
    exists n2. split; [apply lookup_insert_eq|]. split; [by apply Hstep|].
    destruct (multi_burst_tick_meta _ _ Et) as [(_ & _ & Ht & _ & _ & Hn) _]. cbn in Ht, Hn. split_and!; [congruence..|].
    rewrite <- Hdir. unfold multi_burst_tick in Et. repeat case_match; simplify_eq; done.
Qed.

Lemma leaves_bursting a s m k n0 c c' : bursting a s m k n0 c -> leaves a c c' -> bursting a s m k n0 c'.
Proof. intros [_ (n & En & H)] (Hi & Hp & _). split; [done|]. exists n. by rewrite Hp. Qed.

Lemma leaves_over a c c' : burst_over a c -> leaves a c c' -> burst_over a c'.
Proof. intros [_ H] (Hi & Hp & _). split; [done|]. by rewrite Hp. Qed.

(** C39: a multi-burst node, not its own next stream, that is started with [s] packets per
    burst and [m] bursts, where a count of zero stands for 2^32, sends exactly [s * m]
    packets. In any run of the core from a consistent state, whatever else the core does between
    the turns of the node as long as it leaves the node alone (does not stop or update its port,
    nor starts the node again): every turn of the node sends one packet; until the last one it
    is queued, with the counters that remain, and its next turn succeeds; after the
    last one it is out of the queue, or freed with its port, and has no further turn. *)
Theorem burst_sends_all (a s m : Z) (n : CGenNodeStateless) (c : TrexStatelessDpCore) (k : nat) (c' : TrexStatelessDpCore) :
  0 <= off <= 254 -> POOL < 4294967296 -> inv avail off POOL c ->
  0 <= s < 4294967296 -> 0 <= m < 4294967296 -> pool c !! a = Some (STATELESS_PKT n) ->
  m_stream_type n = stMULTI_BURST -> m_state n = ss_ACTIVE -> m_single_burst n = s -> m_single_burst_refill n = s ->
  m_multi_bursts n = m -> m_next_stream n <> Some a -> burst_run a c k c' ->
  let total := burst_len s * burst_len m in
  Z.of_nat k <= total /\
  (exists ps, sent_by a c' = sent_by a c ++ ((fun p => (m_dir n, p)) <$> ps) /\ length ps = k) /\
  (Z.of_nat k < total ->
    a ∈ m_p_queue c' /\ (exists c'', handle_top malloc avail mempool_get v_if tid off a c' = Ok (false, c'')) /\
    exists n', pool c' !! a = Some (STATELESS_PKT n') /\ m_state n' = ss_ACTIVE /\
      m_single_burst n' = u32 (s - Z.of_nat k mod burst_len s) /\ m_multi_bursts n' = u32 (m - Z.of_nat k / burst_len s)) /\
  (Z.of_nat k = total -> a ∉ m_p_queue c' \/ forall n', pool c' !! a <> Some (STATELESS_PKT n')).
Proof.
  intros Hoff Hpool Hinv Hs Hm En Hty Hst E1 E2 E3 Hnext Hrun total.
  pose proof (burst_len_pos s Hs) as Hps0. pose proof (burst_len_pos m Hm) as Hpm0.
  assert (Hin : forall k c1, bursting a s m k n c1 -> exists n', pool c1 !! a = Some (STATELESS_PKT n') /\ burst_at s m k n n' /\ a ∈ m_p_queue c1).
  { intros j c1 [Hi (n' & En' & Hat & _)]. exists n'. split_and!; [done..|]. destruct (decide (a ∈ m_p_queue c1)) as [|Hno]; [done|].
    apply (iv_sl _ _ _ _ _ _ _ Hi a n' En') in Hno. destruct Hat as (_ & _ & Hact & _). congruence. }
  assert (Hmain : (exists ps, sent_by a c' = sent_by a c ++ ((fun p => (m_dir n, p)) <$> ps) /\ length ps = k) /\
    (Z.of_nat k < total /\ bursting a s m (Z.of_nat k) n c' \/ Z.of_nat k = total /\ burst_over a c')).
  { induction Hrun as [|k c1 n1 c' Hrun IH [Htop _] En1 E|k c1 c' Hrun IH Hl].
    - split; [exists []; by rewrite app_nil_r|]. left. split; [unfold total; nia|]. split; [done|]. exists n. split; [done|]. split; [|done].
      unfold burst_at. rewrite Z.mod_0_l, Z.div_0_l, !Z.sub_0_r, !u32_id by lia. by split_and!.
    - destruct IH as [(ps & Hps & Hlen) [[Hk Hb]|[_ [Hi Hov]]]].
      + destruct (own_turn a s m (Z.of_nat k) n c1 c') as (p & Hp & Hlt & Heq); try done; [lia|].
        replace (Z.of_nat (S k)) with (Z.of_nat k + 1) by lia. split.
        * exists (ps ++ [p]). rewrite Hp, Hps, fmap_app, app_assoc, length_app, Hlen. split; [done|cbn; lia].
        * destruct (decide (Z.of_nat k + 1 < total)); [left; split; [done|by apply Hlt]|right]. split; [lia|]. apply Heq. fold total. lia.
      + exfalso. specialize (Hov n1 En1). by apply (iv_sl _ _ _ _ _ _ _ Hi a n1 En1) in Hov.
    - destruct IH as [(ps & Hps & Hlen) Hor]. split; [exists ps; split; [|done]; by rewrite (proj2 (proj2 Hl))|].
      destruct Hor as [[Hk Hb]|[Hk Hb]]; [left; split; [done|by eapply leaves_bursting]|right; split; [done|by eapply leaves_over]]. }
  destruct Hmain as [Hps Hor]. split; [destruct Hor; lia|]. split; [exact Hps|]. split.
  - intros Hk. destruct Hor as [[_ Hb]|]; [|lia]. destruct (Hin _ _ Hb) as (n' & En' & (A & B & C & _) & Hq). split; [done|].
    split; [|by exists n']. destruct (node_turn malloc avail mempool_get v_if tid off POOL Hoff Hpool a n' c' (bu_inv _ _ _ _ _ _ Hb) Hq En') as (c'' & E & _). by exists c''.
  - intros Hk. destruct Hor as [[? _]|[_ [Hi Hov]]]; [lia|]. destruct (pool c' !! a) as [[n'| | |]|] eqn:Ea; [left|by right..].
    apply (iv_sl _ _ _ _ _ _ _ Hi a n' Ea). by apply Hov.
Qed.

(** C40: A message to pause, resume or update a port that is idle on this core
    ends the process: the assertion on the port's state fails.  (The stop of a
    port whose last burst ended comes from the data path itself, so the control
    plane may not have seen it yet.) *)
Theorem idle_port_message_aborts (i : nat) (p : TrexStatelessDpPerPort) (factor : double)
    (c : TrexStatelessDpCore) :
  inv avail off POOL c -> m_ports c !! i = Some p -> pp_state p = ppSTATE_IDLE ->
  let handle m := handle_cp_msg malloc avail mempool_get v_if tid off m c in
  handle (TrexStatelessDpUpdate (off + Z.of_nat i) factor) = Err AssertFail /\
  handle (TrexStatelessDpPause (off + Z.of_nat i)) = Err AssertFail /\
  handle (TrexStatelessDpResume (off + Z.of_nat i)) = Err AssertFail.
Proof.
  intros H Ei Hst handle.
  assert (Hi : (i < 2)%nat) by (rewrite <- (iv_ports _ _ _ _ _ _ _ H); by apply lookup_lt_Some in Ei).
  unfold handle, handle_cp_msg. simpl.
  rewrite (update_traffic_Ok _ _ _ _ _ _ _ factor H Ei Hi), (pause_traffic_Ok _ _ _ _ _ _ _ H Ei Hi),
    (resume_traffic_Ok _ _ _ _ _ _ _ H Ei Hi), Hst. done.
Qed.

End Scheduler.
