(* ===== verification/DpCoreDemo.v ===== *)
(** * A running data path core

    A node pool of ten nodes, a core with ports 0 and 1, and the properties of the
    core applied to it. *)

From S2P Require Import Prelude Double ByteMem PktCmn StreamVm TrexStream StreamsCompiler DpNode DpNodeFacts DpCore DpCoreFacts DpCoreSteps DpCoreThms.

Definition demo_get (P : gmap Z gen_node) : option Z :=
  snd <$> list_find (fun a => P !! a = None) (seqZ 0 10).

Lemma demo_mempool : mempool_ok demo_get 10.
Proof.
  split; unfold demo_get.
  - intros P a H. apply fmap_Some in H as ([k a'] & H & ->).
    by apply list_find_Some in H as (_ & H & _).
  - intros P Hsz. destruct (list_find _ _) as [x|] eqn:E; [done|].
    apply list_find_None in E. exfalso.
    assert (Hle : zlength (seqZ 0 10) <= Z.of_nat (size P)).
    { apply nodup_size; [apply NoDup_seqZ|]. intros a Ha.
      rewrite Forall_forall in E. specialize (E a Ha). by destruct (P !! a). }
    unfold zlength in Hle. rewrite length_seqZ in Hle. lia.
Qed.

Notation malloc0 := (fun _ : Z => None).
Notation avail0 := (fun _ : mbuf_pool => true).

Lemma inv_create avail off POOL ev : 0 <= POOL -> inv avail off POOL (DpCore_create ev).
Proof.
  intros HP. split; simpl; try done.
  - intros i p Hi. assert (p = PerPort_create ev) as ->.
    { apply list_elem_of_lookup_2, elem_of_cons in Hi as [? | Hi]; [done|].
      by apply list_elem_of_singleton in Hi. }
    split; simpl; try done; [apply NoDup_nil_2|..]; intros ? []%elem_of_nil.
  - apply NoDup_nil_2.
  - by intros ? []%elem_of_nil.
Qed.

(** The core when the scheduler starts. *)
Definition core0 : TrexStatelessDpCore :=
  match add_sync_node demo_get (DpCore_create 0) with Ok c => c | Err _ => DpCore_create 0 end.

Lemma core0_inv : inv avail0 0 10 core0.
Proof.
  set (c := DpCore_create 0). assert (H : inv avail0 0 10 c) by (by apply inv_create).
  destruct (create_node_inv malloc0 avail0 _ 0 10 ltac:(lia) ltac:(lia) demo_mempool c
    (FLOW_SYNC (double_add (m_cur_time_sec c) SYNC_TIME_OUT)) H) as (a & E & _ & Hi); [done|done|].
  unfold core0, add_sync_node. fold c. rewrite E. simpl.
  destruct (Hi 0) as [Hinv _]; [unfold is_stop_cmd; by rewrite lookup_insert_eq|].
  eapply inv_at_ext; [..|exact Hinv]; done.
Qed.

(** A burst of two packets that triggers a burst of three. *)
Definition demo_obj : TrexStreamsCompiledObj :=
  mkCompiledObj [demo_stream stSINGLE_BURST 0 64 true 1 2; demo_stream stSINGLE_BURST 0 64 false (-1) 3]
    false 0.

Definition core1 : TrexStatelessDpCore :=
  deliver [TrexStatelessDpStart 0 5 demo_obj (double_of_Z 0)] core0.

Lemma core1_inv : inv avail0 0 10 core1.
Proof. eapply inv_at_ext; [..|exact core0_inv]; done. Qed.

Lemma demo_startable ss next count pkts :
  next < count -> startable malloc0 avail0 demo_if 0 0 count
    (demo_stream stSINGLE_BURST 0 64 ss next pkts).
Proof.
  intros Hn. split; [done|]. split; [done|]. intros t.
  pose proof (build_node_plain malloc0 avail0 demo_if (fun _ => eq_refl) t
    (demo_stream stSINGLE_BURST 0 64 ss next pkts) _
    (demo_stream_plain stSINGLE_BURST 0 64 ss next pkts ltac:(by right) ltac:(lia) ltac:(lia)))
    as (n & p & E & Hc).
  exists n. split; [exact E|]. by apply (sendable_cache _ _ p).
Qed.

Lemma demo_start_ok c :
  dp_state c = STATE_IDLE -> m_ports c = m_ports core0 -> Z.of_nat (size (pool c)) <= 7 ->
  start_ok malloc0 avail0 demo_if 0 10 0 demo_obj c.
Proof.
  intros Hst Hp Hsz. split_and!; [lia|done|by rewrite Hst| | |].
  2: { unfold demo_obj, zlength. simpl.
       constructor; [by apply demo_startable|]. constructor; [by apply demo_startable|constructor]. }
  - exists (PerPort_create 0). by rewrite Hp.
  - unfold zlength. simpl. lia.
Qed.

Lemma core1_accepted : accepted malloc0 avail0 demo_get demo_if 0 0 10 0 core1.
Proof.
  intros t Et. split; [|done]. exists 0%nat. apply demo_start_ok; [reflexivity|reflexivity|].
  vm_compute. discriminate.
Qed.

Lemma core1_top : is_top core1 0.
Proof.
  assert (Hq : m_p_queue core1 = [0]) by (vm_compute; reflexivity).
  split; rewrite Hq; [by apply list_elem_of_here|].
  intros b ga gb Hb E1 E2. apply list_elem_of_singleton in Hb as ->. rewrite E1 in E2.
  injection E2 as <-. assert (Hg : pool core1 !! 0 = Some (FLOW_SYNC SYNC_TIME_OUT)) by (vm_compute; reflexivity).
  rewrite Hg in E1. injection E1 as <-. vm_compute. reflexivity.
Qed.

Lemma dp_turn_safe_witness :
  exists ex c', handle_top malloc0 avail0 demo_get demo_if 0 0 0 core1 = Ok (ex, c') /\
    inv avail0 0 10 c' /\ (ex = false -> has_sync core1 -> has_sync c').
Proof.
  apply (dp_turn_safe malloc0 avail0 demo_get demo_if 0 0 10); [lia|lia|apply demo_mempool|
    apply core1_inv|apply core1_top|apply core1_accepted].
Defined.

Lemma start_traffic_spec_witness :
  exists c' p la, start_traffic malloc0 avail0 demo_get demo_if 0 demo_obj (double_of_Z 0) 5 core0 = Ok c' /\
    inv avail0 0 10 c' /\ m_ports c' !! 0%nat = Some p /\ pp_state p = ppSTATE_TRANSMITTING /\
    m_event_id p = 5 /\ map m_node (m_active_nodes p) = la /\
    Forall2 (fun s a => exists n,
      build_node malloc0 avail0 demo_if (m_cur_time_sec core0) s = Ok n /\
      pool c' !! a = Some (STATELESS_PKT (link la s n)) /\
      (a ∈ m_p_queue c' <-> ts_self_start s = true)) (m_objs demo_obj) la.
Proof.
  apply (start_traffic_spec malloc0 avail0 demo_get demo_if 0 10); [lia|lia|apply demo_mempool|
    apply core0_inv|].
  apply demo_start_ok; [reflexivity|reflexivity|]. vm_compute. discriminate.
Defined.

Lemma idle_port_message_aborts_witness :
  handle_cp_msg malloc0 avail0 demo_get demo_if 0 0 (TrexStatelessDpUpdate 1 (double_of_Z 2)) core0 =
    Err AssertFail.
Proof.
  destruct (idle_port_message_aborts malloc0 avail0 demo_get demo_if 0 0 10 1 (PerPort_create 0)
    (double_of_Z 2) core0 core0_inv eq_refl eq_refl) as [H _]. exact H.
Defined.

(** The scheduler exits on a synchronisation turn with an empty queue. *)
Lemma core0_accepted : accepted malloc0 avail0 demo_get demo_if 0 0 10 0 core0.
Proof. intros t Et. done. Qed.

Lemma core0_top : is_top core0 0.
Proof.
  assert (Hq : m_p_queue core0 = [0]) by (vm_compute; reflexivity).
  split; rewrite Hq; [by apply list_elem_of_here|].
  intros b ga gb Hb E1 E2. apply list_elem_of_singleton in Hb as ->. rewrite E1 in E2.
  injection E2 as <-. assert (Hg : pool core0 !! 0 = Some (FLOW_SYNC SYNC_TIME_OUT)) by (vm_compute; reflexivity).
  rewrite Hg in E1. injection E1 as <-. vm_compute. reflexivity.
Qed.

Definition core0_exit : TrexStatelessDpCore :=
  match handle_top malloc0 avail0 demo_get demo_if 0 0 0 core0 with Ok (_, c) => c | Err _ => core0 end.

Lemma dp_exit_clean_witness :
  exists c'', after_flush core0_exit = Ok c'' /\ inv avail0 0 10 c'' /\ m_p_queue c'' = [] /\
    m_non_active_nodes c'' = 0 /\ dp_state c'' = STATE_IDLE /\
    forall i p, m_ports c'' !! i = Some p -> m_active_streams p = 0.
Proof.
  apply (dp_exit_clean malloc0 avail0 demo_get demo_if 0 0 10 0 core0); [lia|lia|apply demo_mempool|
    apply core0_inv|apply core0_top|apply core0_accepted|vm_compute; reflexivity|
    vm_compute; discriminate].
Defined.

(** The core after the start of the two bursts, and its stop. *)
Definition core2 : TrexStatelessDpCore :=
  match start_traffic malloc0 avail0 demo_get demo_if 0 demo_obj (double_of_Z 0) 5 core0 with
  | Ok c => c | Err _ => core0 end.

Lemma core2_inv : inv avail0 0 10 core2.
Proof.
  destruct (start_traffic_inv malloc0 avail0 demo_get demo_if 0 10 ltac:(lia) ltac:(lia) demo_mempool
    0 demo_obj (double_of_Z 0) 5 core0 core0_inv) as (c' & E & H & _).
  { apply demo_start_ok; [reflexivity|reflexivity|]. vm_compute. discriminate. }
  unfold core2. by rewrite E.
Qed.

Definition port2 : TrexStatelessDpPerPort :=
  match m_ports core2 !! 0%nat with Some p => p | None => PerPort_create 0 end.

Lemma stop_traffic_spec_witness :
  exists c', stop_traffic 0 0 0 true 5 core2 = Ok c' /\
    m_ports c' = <[0%nat := mkPerPort ppSTATE_IDLE 0 [] 5]> (m_ports core2).
Proof.
  destruct (stop_traffic_spec avail0 0 0 10 0 port2 true 5 core2 ltac:(lia) core2_inv)
    as (c' & E & _ & H); [vm_compute; reflexivity|].
  exists c'. split; [exact E|].
  replace (bool_decide (pp_state port2 = ppSTATE_IDLE) || (true && negb (5 =? m_event_id port2)))
    with false in H by (vm_compute; reflexivity).
  destruct H as [H _]. rewrite H. replace (m_event_id port2) with 5 by (vm_compute; reflexivity).
  reflexivity.
Defined.

(** ** The two bursts run to their end

    [run_sched k c] takes [k] turns, each on the first of the earliest nodes. *)
Definition pick (c : TrexStatelessDpCore) : option Z :=
  foldr (fun a best => match best with
         | None => Some a
         | Some b =>
             match pool c !! a, pool c !! b with
             | Some ga, Some gb => if double_ltb (gen_time gb) (gen_time ga) then Some b else Some a
             | _, _ => Some a
             end
         end) None (m_p_queue c).

Fixpoint run_sched (k : nat) (c : TrexStatelessDpCore) : res (bool * TrexStatelessDpCore) :=
  match k with
  | O => Ok (false, c)
  | S k =>
      match pick c with
      | None => Err NullDeref
      | Some a =>
          '(ex, c) ← handle_top malloc0 avail0 demo_get demo_if 0 0 a c;
          if ex : bool then Ok (true, c) else run_sched k c
      end
  end.

(** Five packets are sent, two by the first node and three by the second, the
    port stops itself and the control plane is told once. *)
Example two_bursts :
  match run_sched 5000 core1 with
  | Ok (ex, c) => (ex, map (fun x => fst (fst x)) (sent c), m_ring_to_cp c, m_p_queue c)
  | Err _ => (false, [], [], [])
  end = (true, [1; 1; 2; 2; 2], [mkPortEvent 0 0 5], []).
Proof. vm_compute. reflexivity. Qed.

(** ** The first burst, packet by packet

    After the start, the first node has a turn and the synchronisation node
    another: one of the two packets is out, and the node waits for its next turn. *)
Definition turn_of (a : Z) (c : TrexStatelessDpCore) : TrexStatelessDpCore :=
  match handle_top malloc0 avail0 demo_get demo_if 0 0 a c with Ok (_, c') => c' | Err _ => c end.

Lemma turn_of_inv a c :
  inv avail0 0 10 c -> a ∈ m_p_queue c -> m_ring_from_cp c = [] -> inv avail0 0 10 (turn_of a c).
Proof.
  intros H Ha Hr.
  destruct (turn_inv malloc0 avail0 demo_get demo_if 0 0 10 ltac:(lia) ltac:(lia) demo_mempool a c H Ha)
    as (ex & c' & E & H' & _); [intros t _; by rewrite Hr|].
  unfold turn_of. by rewrite E.
Qed.

Lemma core2_top : is_top core2 1.
Proof.
  assert (Hq : m_p_queue core2 = [0; 1]) by (vm_compute; reflexivity).
  split; rewrite Hq; [set_solver|]. intros b ga gb Hb.
  assert (b = 0 \/ b = 1) as [-> | ->] by set_solver; vm_compute; intros; simplify_eq; reflexivity.
Qed.

Lemma burst_sends_all_witness :
  exists n p, pool core2 !! 1 = Some (STATELESS_PKT n) /\
    sent_by 1 (turn_of 0 (turn_of 1 core2)) = [(m_dir n, p)] /\
    1 ∈ m_p_queue (turn_of 0 (turn_of 1 core2)) /\
    exists n', pool (turn_of 0 (turn_of 1 core2)) !! 1 = Some (STATELESS_PKT n') /\ m_single_burst n' = 1.
Proof.
  destruct (pool core2 !! 1) as [[n| | |]|] eqn:En; try (vm_compute in En; discriminate En).
  assert (Hrun : burst_run malloc0 avail0 demo_get demo_if 0 0 10 1 core2 1 (turn_of 0 (turn_of 1 core2))).
  { assert (Hi : inv avail0 0 10 (turn_of 1 core2)).
    { apply turn_of_inv; [apply core2_inv|apply core2_top|vm_compute; reflexivity]. }
    apply (burst_others _ _ _ _ _ _ _ _ _ _ (turn_of 1 core2)).
    - eapply (burst_own _ _ _ _ _ _ _ _ _ _ core2); [apply burst_start|apply core2_top|exact En|vm_compute; reflexivity].
    - split_and!; [|vm_compute; reflexivity..]. apply turn_of_inv; [exact Hi|apply list_elem_of_here|]; vm_compute; reflexivity. }
  destruct (burst_sends_all malloc0 avail0 demo_get demo_if 0 0 10 1 2 1 n core2 1 (turn_of 0 (turn_of 1 core2)) ltac:(lia) ltac:(lia)
    core2_inv ltac:(lia) ltac:(lia) En) as (_ & (ps & Hps & Hlen) & Hlt & _);
    try (vm_compute in En; injection En as <-; vm_compute; (reflexivity || discriminate)); [exact Hrun|].
  destruct ps as [|p [|]]; try discriminate Hlen. exists n, p. split; [reflexivity|]. split; [exact Hps|].
  destruct (Hlt eq_refl) as (Hq & _ & n' & En' & _ & Hb & _). split; [exact Hq|]. exists n'. by split.
Defined.
