(* ===== verification/PrioQueue.v ===== *)
(** * std::priority_queue of pointers

    The interface the timer wheel uses: a queue of pointers whose comparator reads
    a time through the pointer, so the key of an element can change while it is
    queued. [PQueue] holds the operations, [PQueueOk] what the C++ standard
    promises of them, [sorted_queue] an implementation by a sorted list. *)

From S2P Require Import Prelude Double.
From Stdlib Require Import Sorted.

(** [pq_elems] lists the queued pointers in no particular order. *)
Class PQueue (Q : Type) : Type := {
  pq_new : Q;
  pq_push : (Z -> double) -> Z -> Q -> Q;
  pq_top : Q -> option Z;
  pq_pop : (Z -> double) -> Q -> Q;
  pq_elems : Q -> list Z }.

(** [pq_ordered key q]: the keys are numbers and [q] is arranged by them. The top
    may have been given another key before it is popped ([pq_pop_ordered]). *)
Class PQueueOk (Q : Type) `{PQueue Q} : Type := {
  pq_ordered : (Z -> double) -> Q -> Prop;
  pq_new_elems : pq_elems (pq_new (Q := Q)) = [];
  pq_new_ordered key : pq_ordered key pq_new;
  pq_push_elems key a q : pq_elems (pq_push key a q) ≡ₚ a :: pq_elems q;
  pq_push_ordered key a q :
    is_number (key a) = true -> pq_ordered key q -> pq_ordered key (pq_push key a q);
  pq_top_None q : pq_top q = None -> pq_elems q = [];
  pq_pop_elems key q a : pq_top q = Some a -> pq_elems q ≡ₚ a :: pq_elems (pq_pop key q);
  pq_top_least key q a b :
    pq_ordered key q -> pq_top q = Some a -> b ∈ pq_elems q ->
    double_ltb (key b) (key a) = false;
  pq_pop_ordered key key' q a :
    pq_ordered key q -> pq_top q = Some a -> NoDup (pq_elems q) ->
    (forall b, b ≠ a -> key' b = key b) -> pq_ordered key' (pq_pop key' q);
  pq_ordered_ext key key' q :
    (forall b, b ∈ pq_elems q -> key' b = key b) -> pq_ordered key q -> pq_ordered key' q }.

(** ** Sorted lists *)

Fixpoint sorted_insert (key : Z -> double) (a : Z) (q : list Z) : list Z :=
  match q with
  | [] => [a]
  | b :: q' => if double_ltb (key a) (key b) then a :: q else b :: sorted_insert key a q'
  end.

#[export] Instance sorted_queue : PQueue (list Z) := {
  pq_new := [];
  pq_push := sorted_insert;
  pq_top := head;
  pq_pop _ := tail;
  pq_elems q := q }.

Definition key_le (key : Z -> double) (a b : Z) : Prop := double_ltb (key b) (key a) = false.

Lemma sorted_insert_elems key a q : sorted_insert key a q ≡ₚ a :: q.
Proof.
  induction q as [|b q IH]; simpl; [done|]. destruct (double_ltb _ _); [done|].
  rewrite IH. apply perm_swap.
Qed.

Lemma sorted_insert_ordered key a q :
  (forall b, b ∈ a :: q -> is_number (key b) = true) ->
  StronglySorted (key_le key) q -> StronglySorted (key_le key) (sorted_insert key a q).
Proof.
  intros Hn Hs. induction Hs as [|b q Hs IH Hb]; simpl; [repeat constructor|].
  destruct (double_ltb (key a) (key b)) eqn:E.
  - constructor; [by constructor|]. constructor.
    + apply double_ltb_not_ltb; [apply Hn; set_solver..|done].
    + rewrite Forall_forall in *. intros c Hc.
      apply double_not_ltb_trans with (key b); [apply Hn; set_solver..| |by apply Hb].
      apply double_ltb_not_ltb; [apply Hn; set_solver..|done].
  - constructor; [apply IH; set_solver|].
    rewrite Forall_forall in *. intros c Hc.
    rewrite (sorted_insert_elems key a q) in Hc. apply elem_of_cons in Hc as [-> | Hc]; [done|auto].
Qed.

#[export] Program Instance sorted_queue_ok : PQueueOk (list Z) := {
  pq_ordered key q :=
    (forall b, b ∈ q -> is_number (key b) = true) /\ StronglySorted (key_le key) q }.
Next Obligation. done. Qed.
Next Obligation. intros key. split; [set_solver|constructor]. Qed.
Next Obligation. apply sorted_insert_elems. Qed.
Next Obligation.
  intros key a q Ha [Hn Hs]. simpl in *. split.
  - intros b. rewrite sorted_insert_elems. set_solver.
  - apply sorted_insert_ordered; [|done]. set_solver.
Qed.
Next Obligation. by intros [|]. Qed.
Next Obligation. intros key [|b q] a [= ->]. done. Qed.
Next Obligation.
  intros key [|c q] a b [Hn Hs] [= ->] Hb. simpl in *. inversion_clear Hs as [|? ? _ Hf].
  apply elem_of_cons in Hb as [-> | Hb].
  - apply double_ltb_irrefl. apply Hn. set_solver.
  - by eapply Forall_forall in Hf.
Qed.
Next Obligation.
  intros key key' [|c q] a [Hn Hs] [= ->] Hnd Hk. simpl in *.
  apply NoDup_cons in Hnd as [Ha Hnd]. inversion_clear Hs as [|? ? Hs' _].
  assert (Hk' : forall b, b ∈ q -> key' b = key b) by (intros b Hb; apply Hk; set_solver).
  split; [intros b Hb; rewrite Hk' by done; apply Hn; set_solver|].
  clear -Hs' Hk'. induction Hs' as [|b q Hs IH Hb]; constructor; [apply IH; set_solver|].
  rewrite Forall_forall in *. intros c Hc. unfold key_le. rewrite !Hk' by set_solver. by apply Hb.
Qed.
Next Obligation.
  intros key key' q Hk [Hn Hs]. simpl in *.
  split; [intros b Hb; rewrite Hk by done; auto|].
  clear Hn. induction Hs as [|b q Hs IH Hb]; constructor; [apply IH; set_solver|].
  rewrite Forall_forall in *. intros c Hc. unfold key_le. rewrite !Hk by set_solver. by apply Hb.
Qed.
