(* ===== verification/TimerWheel.v ===== *)
(** * The timer wheel

    Models [src/src/timer_wheel_pq.{h,cpp}]: timers with lazy restart (a later
    expiry is noted in the timer and honoured when the timer reaches the top of
    the queue) and lazy stop (a stopped timer stays queued, without a flow, until
    it reaches the top). *)

From S2P Require Import Prelude Double PrioQueue.

(** [CFlowTimer]; [m_flow] is the handle it points back to, [None] when null. *)
Record CFlowTimer : Type := mkFlowTimer {
  m_time : double;
  m_updated_time : double;
  m_flow : option Z }.

(** [CFlowTimer::CFlowTimer] with the two fields [restart_timer] sets next. *)
Definition new_timer (time : double) (flow : Z) : CFlowTimer :=
  mkFlowTimer time (double_of_Z (-1)) (Some flow).

Definition is_valid (t : CFlowTimer) : bool := bool_decide (is_Some (m_flow t)).

Definition set_m_time (x : double) (t : CFlowTimer) : CFlowTimer :=
  mkFlowTimer x (m_updated_time t) (m_flow t).
Definition set_m_updated_time (x : double) (t : CFlowTimer) : CFlowTimer :=
  mkFlowTimer (m_time t) x (m_flow t).
Definition clear_m_flow (t : CFlowTimer) : CFlowTimer :=
  mkFlowTimer (m_time t) (m_updated_time t) None.

(** [timer->m_updated_time > 0.0 && (timer->m_updated_time > timer->m_time)] *)
Definition is_updated (t : CFlowTimer) : bool :=
  double_ltb (double_of_Z 0) (m_updated_time t) && double_ltb (m_time t) (m_updated_time t).

(** The wheel with the memory it works on: the timers by address, and of every
    [CFlowTimerHandle] (named by a number) the pointer [m_timer], absent when
    null. *)
Record CTimerWheel (Q : Type) : Type := mkWheel {
  m_pq : Q;
  timers : gmap Z CFlowTimer;
  handle_timer : gmap Z Z;
  m_st_alloc : Z;
  m_st_free : Z;
  m_st_start : Z;
  m_st_stop : Z;
  m_st_handle : Z }.
Arguments mkWheel {Q}.
Arguments m_pq {Q}.
Arguments timers {Q}.
Arguments handle_timer {Q}.
Arguments m_st_alloc {Q}.
Arguments m_st_free {Q}.
Arguments m_st_start {Q}.
Arguments m_st_stop {Q}.
Arguments m_st_handle {Q}.

(** The comparator's view of the memory. *)
Definition time_of (h : gmap Z CFlowTimer) (a : Z) : double :=
  match h !! a with Some t => m_time t | None => double_of_Z 0 end.

Section Wheel.
Context {Q : Type} `{PQueue Q} {S : Type}.
(** [m_callback] of a handle, null or a function of the handle. The callbacks of
    the program do not use the wheel. *)
Context (m_callback : Z -> option (S -> res S)).

Definition CTimerWheel_new : CTimerWheel Q := mkWheel pq_new ∅ ∅ 0 0 0 0 0.

Definition set_timers (h : gmap Z CFlowTimer) (w : CTimerWheel Q) : CTimerWheel Q :=
  mkWheel (m_pq w) h (handle_timer w) (m_st_alloc w) (m_st_free w) (m_st_start w)
    (m_st_stop w) (m_st_handle w).
Definition set_pq (q : Q) (w : CTimerWheel Q) : CTimerWheel Q :=
  mkWheel q (timers w) (handle_timer w) (m_st_alloc w) (m_st_free w) (m_st_start w)
    (m_st_stop w) (m_st_handle w).
Definition set_handle_timer (h : gmap Z Z) (w : CTimerWheel Q) : CTimerWheel Q :=
  mkWheel (m_pq w) (timers w) h (m_st_alloc w) (m_st_free w) (m_st_start w)
    (m_st_stop w) (m_st_handle w).
Definition inc_alloc (w : CTimerWheel Q) : CTimerWheel Q :=
  mkWheel (m_pq w) (timers w) (handle_timer w) (u32 (m_st_alloc w + 1)) (m_st_free w)
    (m_st_start w) (m_st_stop w) (m_st_handle w).
Definition inc_free (w : CTimerWheel Q) : CTimerWheel Q :=
  mkWheel (m_pq w) (timers w) (handle_timer w) (m_st_alloc w) (u32 (m_st_free w + 1))
    (m_st_start w) (m_st_stop w) (m_st_handle w).
Definition inc_start (w : CTimerWheel Q) : CTimerWheel Q :=
  mkWheel (m_pq w) (timers w) (handle_timer w) (m_st_alloc w) (m_st_free w)
    (u32 (m_st_start w + 1)) (m_st_stop w) (m_st_handle w).
Definition inc_stop (w : CTimerWheel Q) : CTimerWheel Q :=
  mkWheel (m_pq w) (timers w) (handle_timer w) (m_st_alloc w) (m_st_free w) (m_st_start w)
    (u32 (m_st_stop w + 1)) (m_st_handle w).
Definition inc_handle (w : CTimerWheel Q) : CTimerWheel Q :=
  mkWheel (m_pq w) (timers w) (handle_timer w) (m_st_alloc w) (m_st_free w) (m_st_start w)
    (m_st_stop w) (u32 (m_st_handle w + 1)).

(** A timer that is used must not have been deleted. *)
Definition get_timer (a : Z) (w : CTimerWheel Q) : res CFlowTimer :=
  match timers w !! a with Some t => Ok t | None => Err OutOfBounds end.
Definition put_timer (a : Z) (t : CFlowTimer) (w : CTimerWheel Q) : CTimerWheel Q :=
  set_timers (<[a := t]> (timers w)) w.

(** [m_pq.push(t)], [m_pq.pop()]. *)
Definition tw_push (a : Z) (w : CTimerWheel Q) : CTimerWheel Q :=
  set_pq (pq_push (time_of (timers w)) a (m_pq w)) w.
Definition tw_pop (w : CTimerWheel Q) : CTimerWheel Q :=
  set_pq (pq_pop (time_of (timers w)) (m_pq w)) w.

(** [delete timer] *)
Definition delete_timer (a : Z) (w : CTimerWheel Q) : CTimerWheel Q :=
  set_timers (delete a (timers w)) w.

(** [new CFlowTimer()] at an unused address, started and queued. *)
Definition start_new (k : Z) (new_time : double) (w : CTimerWheel Q) : CTimerWheel Q :=
  let a := fresh (dom (timers w)) in
  let w := put_timer a (new_timer new_time k) (inc_alloc w) in
  tw_push a (set_handle_timer (<[k := a]> (handle_timer w)) w).

Definition restart_timer (k : Z) (new_time : double) (w : CTimerWheel Q)
  : res (CTimerWheel Q) :=
  let w := inc_start w in
  match handle_timer w !! k with
  | None => Ok (start_new k new_time w)
  | Some a =>
      t ← get_timer a w;
      if double_ltb (m_time t) new_time then
        Ok (put_timer a (set_m_updated_time new_time t) w)
      else
        Ok (start_new k new_time (put_timer a (clear_m_flow t) w))
  end.

Definition stop_timer (k : Z) (w : CTimerWheel Q) : res (CTimerWheel Q) :=
  match handle_timer w !! k with
  | None => Ok w
  | Some a =>
      t ← get_timer a w;
      let w := put_timer a (clear_m_flow t) (inc_stop w) in
      Ok (set_handle_timer (delete k (handle_timer w)) w)
  end.

(** The loop [peek_top_time] and [handle] have in common: stopped timers are
    freed, restarted ones are moved to their new time, until a timer that runs out
    next is on top (its address and contents are returned) or the queue is empty. *)
Fixpoint settle_loop (fuel : nat) (w : CTimerWheel Q)
  : res (CTimerWheel Q * option (Z * CFlowTimer)) :=
  match fuel with
  | O => Err OutOfFuel
  | Datatypes.S fuel =>
      match pq_top (m_pq w) with
      | None => Ok (w, None)
      | Some a =>
          t ← get_timer a w;
          if negb (is_valid t) then
            settle_loop fuel (delete_timer a (inc_free (tw_pop w)))
          else if is_updated t then
            let w := tw_pop (put_timer a (set_m_time (m_updated_time t) t) w) in
            settle_loop fuel (tw_push a w)
          else Ok (w, Some (a, t))
      end
  end.

(** Every turn of the loop frees a timer or uses up an update. *)
Definition settle_fuel (w : CTimerWheel Q) : nat := Datatypes.S (length (pq_elems (m_pq w))).
Definition settle (w : CTimerWheel Q) : res (CTimerWheel Q * option (Z * CFlowTimer)) :=
  settle_loop (settle_fuel w) w.

(** [None] is the return value false. *)
Definition peek_top_time (w : CTimerWheel Q) : res (CTimerWheel Q * option double) :=
  '(w, r) ← settle w;
  match r with
  | None => Ok (w, None)
  | Some (_, t) =>
      _ ← c_assert (is_valid t);
      Ok (w, Some (m_time t))
  end.

Definition run_callback (k : Z) (s : S) : res S :=
  match m_callback k with Some f => f s | None => Ok s end.

Definition handle (w : CTimerWheel Q) (s : S) : res (CTimerWheel Q * S * bool) :=
  '(w, r) ← settle w;
  match r with
  | None => Ok (w, s, false)
  | Some (a, t) =>
      _ ← c_assert (is_valid t);
      match m_flow t with
      | None => Err NullDeref
      | Some k =>
          let w := put_timer a (clear_m_flow t) (inc_handle w) in
          let w := set_handle_timer (delete k (handle_timer w)) w in
          s ← run_callback k s;
          Ok (delete_timer a (inc_free (tw_pop w)), s, true)
      end
  end.

Fixpoint drain_loop (fuel : nat) (w : CTimerWheel Q) (s : S) : res (CTimerWheel Q * S) :=
  match fuel with
  | O => Err OutOfFuel
  | Datatypes.S fuel =>
      '(w, r) ← peek_top_time w;
      match r with
      | Some _ => '(w, s, _) ← handle w s; drain_loop fuel w s
      | None => Ok (w, s)
      end
  end.

Fixpoint events_loop (fuel : nat) (now : double) (w : CTimerWheel Q) (s : S)
  : res (CTimerWheel Q * S) :=
  match fuel with
  | O => Err OutOfFuel
  | Datatypes.S fuel =>
      '(w, r) ← peek_top_time w;
      match r with
      | Some min_time =>
          if double_ltb min_time now then
            '(w, s, _) ← handle w s; events_loop fuel now w s
          else Ok (w, s)
      | None => Ok (w, s)
      end
  end.

(** Every turn but the last ends a timer. *)
Definition drain_all (w : CTimerWheel Q) (s : S) : res (CTimerWheel Q * S) :=
  drain_loop (settle_fuel w) w s.
Definition try_handle_events (now : double) (w : CTimerWheel Q) (s : S)
  : res (CTimerWheel Q * S) := events_loop (settle_fuel w) now w s.
End Wheel.
