(* ===== verification/TimerWheelFacts.v ===== *)
(** * The timer wheel implements a map of deadlines

    The invariant of the wheel and, for every operation, what it does to the
    abstract wheel: a map from the running handles to the times they run out. *)

From S2P Require Import Prelude Double PrioQueue TimerWheel.
From Stdlib Require Import Sorted.

(** ** Timers *)

Definition timer_ok (t : CFlowTimer) : Prop :=
  good_time (m_time t) = true /\ is_number (m_updated_time t) = true.

(** When a timer runs out. *)
Definition expiry (t : CFlowTimer) : double := if is_updated t then m_updated_time t else m_time t.

Lemma is_updated_later t :
  timer_ok t -> is_updated t = double_ltb (m_time t) (m_updated_time t).
Proof.
  intros [Ht Hu]. unfold is_updated. destruct (double_ltb (m_time t) _) eqn:E; [|apply andb_false_r].
  rewrite andb_true_r. apply double_ltb_trans with (m_time t); try done.
  - by apply good_time_number.
  - by apply good_time_pos.
Qed.

Lemma expiry_number t : timer_ok t -> is_number (expiry t) = true.
Proof.
  intros [Ht Hu]. unfold expiry. destruct (is_updated t); [done|]. by apply good_time_number.
Qed.

Lemma expiry_later t : timer_ok t -> double_ltb (expiry t) (m_time t) = false.
Proof.
  intros Hok. pose proof Hok as [Ht%good_time_number Hu]. unfold expiry.
  rewrite is_updated_later by done. destruct (double_ltb (m_time t) _) eqn:E.
  - by apply double_ltb_not_ltb.
  - by apply double_ltb_irrefl.
Qed.

Lemma new_timer_ok x k : good_time x = true -> timer_ok (new_timer x k).
Proof. done. Qed.

Lemma new_timer_expiry x k : good_time x = true -> expiry (new_timer x k) = x.
Proof.
  intros Hx. unfold expiry. rewrite is_updated_later by by apply new_timer_ok. simpl.
  rewrite double_ltb_not_ltb; [done|done|by apply good_time_number|].
  apply double_ltb_trans with (double_of_Z 0);
    [done|done|by apply good_time_number|done|by apply good_time_pos].
Qed.

Lemma update_timer_ok t x : timer_ok t -> is_number x = true -> timer_ok (set_m_updated_time x t).
Proof. intros [Ht Hu] Hx. done. Qed.

Lemma update_timer_expiry t x :
  timer_ok t -> is_number x = true -> double_ltb (m_time t) x = true ->
  expiry (set_m_updated_time x t) = x.
Proof.
  intros Ht Hx Hlt. unfold expiry. rewrite is_updated_later by by apply update_timer_ok.
  simpl. by rewrite Hlt.
Qed.

Lemma move_timer_good t : timer_ok t -> is_updated t = true -> good_time (m_updated_time t) = true.
Proof.
  intros [Ht Hu] Hup. unfold is_updated in Hup. apply andb_true_iff in Hup as [Hup _].
  apply andb_true_iff. done.
Qed.

Lemma move_timer_not_updated t :
  timer_ok t -> is_updated t = true -> is_updated (set_m_time (m_updated_time t) t) = false.
Proof.
  intros [Ht Hu] Hup. unfold is_updated. simpl. rewrite double_ltb_irrefl by done. apply andb_false_r.
Qed.

Lemma move_timer_expiry t :
  timer_ok t -> is_updated t = true -> expiry (set_m_time (m_updated_time t) t) = expiry t.
Proof.
  intros Ht Hup. unfold expiry at 1. rewrite move_timer_not_updated by done.
  unfold expiry. by rewrite Hup.
Qed.

Lemma clear_timer_ok t : timer_ok t -> timer_ok (clear_m_flow t).
Proof. done. Qed.

Section Facts.
Context {Q : Type} `{PQueueOk Q} {S : Type}.
Implicit Types w : CTimerWheel Q.

(** ** The invariant *)

Record tw_ok (w : CTimerWheel Q) : Prop := {
  ok_nodup : NoDup (pq_elems (m_pq w));
  ok_queued a : a ∈ pq_elems (m_pq w) <-> is_Some (timers w !! a);
  ok_ordered : pq_ordered (time_of (timers w)) (m_pq w);
  ok_timers a t : timers w !! a = Some t -> timer_ok t;
  ok_back a t k :
    timers w !! a = Some t -> m_flow t = Some k -> handle_timer w !! k = Some a;
  ok_fwd k a :
    handle_timer w !! k = Some a -> exists t, timers w !! a = Some t /\ m_flow t = Some k;
  ok_count : u32 (m_st_alloc w - m_st_free w) = u32 (zlength (pq_elems (m_pq w))) }.

(** The abstract wheel. *)
Definition tw_abs (w : CTimerWheel Q) : gmap Z double :=
  omap (fun a => expiry <$> timers w !! a) (handle_timer w).

Lemma tw_abs_lookup w k :
  tw_abs w !! k = handle_timer w !! k ≫= fun a => expiry <$> timers w !! a.
Proof. apply lookup_omap. Qed.

Lemma tw_abs_Some w k d :
  tw_ok w -> tw_abs w !! k = Some d <->
  exists a t, handle_timer w !! k = Some a /\ timers w !! a = Some t /\ expiry t = d.
Proof.
  intros Hok. rewrite tw_abs_lookup. split.
  - intros (a & Ha & (t & Ht & ->)%fmap_Some)%bind_Some. eauto.
  - intros (a & t & -> & Ht & <-). simpl. by rewrite Ht.
Qed.

Lemma tw_abs_None w k : tw_ok w -> tw_abs w !! k = None <-> handle_timer w !! k = None.
Proof.
  intros Hok. rewrite tw_abs_lookup. destruct (handle_timer w !! k) as [a|] eqn:E; [|done].
  destruct (ok_fwd w Hok k a E) as (t & Ht & _). simpl. by rewrite Ht.
Qed.

Lemma tw_new_ok : tw_ok CTimerWheel_new /\ tw_abs CTimerWheel_new = ∅.
Proof.
  split; [|apply omap_empty]. split; simpl; try done.
  - rewrite pq_new_elems. constructor.
  - intros a. rewrite pq_new_elems, lookup_empty. split; [by intros ?%elem_of_nil|by intros []].
  - apply pq_new_ordered.
  - by rewrite pq_new_elems.
Qed.

Lemma time_of_insert h a t b : time_of (<[a := t]> h) b = if decide (a = b) then m_time t else time_of h b.
Proof.
  unfold time_of. destruct (decide (a = b)) as [-> | Hne].
  - by rewrite lookup_insert_eq.
  - by rewrite lookup_insert_ne.
Qed.

Lemma write_is_Some (h : gmap Z CFlowTimer) a t t' b :
  h !! a = Some t -> is_Some (<[a := t']> h !! b) <-> is_Some (h !! b).
Proof.
  intros Ha. rewrite lookup_insert_is_Some. split.
  - intros [<- | [_ Hb]]; [by rewrite Ha|done].
  - intros Hb. by destruct (decide (a = b)); [left|right].
Qed.

(** A write to a timer that keeps its time keeps the queue ordered. *)
Lemma ordered_same_time h a t t' (q : Q) :
  h !! a = Some t -> m_time t' = m_time t -> pq_ordered (time_of h) q ->
  pq_ordered (time_of (<[a := t']> h)) q.
Proof.
  intros Ha Ht. apply pq_ordered_ext. intros b _. rewrite time_of_insert.
  destruct (decide (a = b)) as [<- | ]; [|done]. unfold time_of. by rewrite Ha.
Qed.

(** ** Stopping *)

Definition unlink (k a : Z) (t : CFlowTimer) (w : CTimerWheel Q) : CTimerWheel Q :=
  set_handle_timer (delete k (handle_timer w)) (put_timer a (clear_m_flow t) w).

Lemma unlink_ok k a t w :
  tw_ok w -> handle_timer w !! k = Some a -> timers w !! a = Some t ->
  tw_ok (unlink k a t w) /\ tw_abs (unlink k a t w) = delete k (tw_abs w).
Proof.
  intros Hok Hk Ha. destruct (ok_fwd w Hok k a Hk) as (t' & Ha' & Ht). simplify_eq.
  split; [split; simpl|apply map_eq; intros k'].
  - apply (ok_nodup w Hok).
  - intros b. by rewrite (ok_queued w Hok), (write_is_Some _ _ _ _ _ Ha).
  - eapply ordered_same_time; [done| |apply (ok_ordered w Hok)]. done.
  - intros b u [[<- <-]|[Hne Hb]]%lookup_insert_Some; [apply clear_timer_ok|];
      by eapply (ok_timers w Hok).
  - intros b u k' [[<- <-]|[Hne Hb]]%lookup_insert_Some Hu; [done|].
    pose proof (ok_back w Hok b u k' Hb Hu) as Hk'.
    rewrite lookup_delete_ne; [done|]. congruence.
  - intros k' b [Hne Hk']%lookup_delete_Some.
    destruct (ok_fwd w Hok k' b Hk') as (u & Hb & Hu). exists u. split; [|done].
    rewrite lookup_insert_ne; [done|]. congruence.
  - apply (ok_count w Hok).
  - rewrite tw_abs_lookup. simpl. destruct (decide (k' = k)) as [-> | Hne].
    + by rewrite !lookup_delete_eq.
    + rewrite !lookup_delete_ne, tw_abs_lookup by done.
      destruct (handle_timer w !! k') as [b|] eqn:Hb; simpl; [|done].
      rewrite lookup_insert_ne; [done|]. intros ->.
      destruct (ok_fwd w Hok k' b Hb) as (u & Hu & ?). congruence.
Qed.

(** ** Starting *)

Lemma start_new_ok k x w :
  tw_ok w -> handle_timer w !! k = None -> good_time x = true ->
  tw_ok (start_new k x w) /\ tw_abs (start_new k x w) = <[k := x]> (tw_abs w).
Proof.
  intros Hok Hk Hx. unfold start_new.
  assert (Hfresh : timers (inc_alloc w) !! fresh (dom (timers w)) = None)
    by (apply not_elem_of_dom, is_fresh).
  set (a := fresh (dom (timers w))) in *. clearbody a. simpl in Hfresh.
  assert (Hq : a ∉ pq_elems (m_pq w)) by (rewrite (ok_queued w Hok), Hfresh; by intros []).
  assert (Hnone : forall k', handle_timer w !! k' ≠ Some a).
  { intros k' Hk'. destruct (ok_fwd w Hok k' a Hk') as (t & Ht & _). congruence. }
  split; [split; simpl|apply map_eq; intros k'].
  - rewrite pq_push_elems. apply NoDup_cons. split; [done|apply (ok_nodup w Hok)].
  - intros b. rewrite pq_push_elems, elem_of_cons, (ok_queued w Hok), lookup_insert_is_Some.
    destruct (decide (a = b)) as [<- | ]; naive_solver.
  - apply pq_push_ordered.
    + rewrite time_of_insert, decide_True by done. by apply good_time_number.
    + eapply pq_ordered_ext, (ok_ordered w Hok). intros b Hb.
      rewrite time_of_insert, decide_False; [done|]. by intros ->.
  - intros b t [[<- <-]|[_ Hb]]%lookup_insert_Some; [by apply new_timer_ok|].
    by eapply (ok_timers w Hok).
  - intros b t k' [[<- <-]|[Hne Hb]]%lookup_insert_Some Ht.
    + simpl in Ht. simplify_eq. apply lookup_insert_eq.
    + pose proof (ok_back w Hok b t k' Hb Ht). rewrite lookup_insert_ne; [done|]. congruence.
  - intros k' b [[<- <-]|[Hne Hb]]%lookup_insert_Some.
    + exists (new_timer x k). by rewrite lookup_insert_eq.
    + destruct (ok_fwd w Hok k' b Hb) as (t & Ht & ?). exists t.
      rewrite lookup_insert_ne; [done|]. intros ->. by apply (Hnone k').
  - pose proof (ok_count w Hok) as Hc. unfold zlength in *. rewrite pq_push_elems. simpl length.
    unfold_words. Z.div_mod_to_equations. lia.
  - rewrite tw_abs_lookup. simpl. destruct (decide (k' = k)) as [-> | Hne].
    + rewrite !lookup_insert_eq. simpl. rewrite lookup_insert_eq. simpl.
      by rewrite new_timer_expiry.
    + rewrite !(lookup_insert_ne _ k), tw_abs_lookup by done.
      destruct (handle_timer w !! k') as [b|] eqn:Hb; simpl; [|done].
      rewrite lookup_insert_ne; [done|]. intros ->. by apply (Hnone k').
Qed.

(** ** Postponing *)

Lemma postpone_ok k a t x w :
  tw_ok w -> handle_timer w !! k = Some a -> timers w !! a = Some t ->
  is_number x = true -> double_ltb (m_time t) x = true ->
  let w' := put_timer a (set_m_updated_time x t) w in
  tw_ok w' /\ tw_abs w' = <[k := x]> (tw_abs w).
Proof.
  intros Hok Hk Ha Hx Hlt w'. pose proof (ok_timers w Hok a t Ha) as Ht.
  destruct (ok_fwd w Hok k a Hk) as (? & Ha' & Hf). simplify_eq.
  split; [split; simpl|apply map_eq; intros k'].
  - apply (ok_nodup w Hok).
  - intros b. by rewrite (ok_queued w Hok), (write_is_Some _ _ _ _ _ Ha).
  - eapply ordered_same_time; [done| |apply (ok_ordered w Hok)]. done.
  - intros b u [[<- <-]|[Hne Hb]]%lookup_insert_Some; [by apply update_timer_ok|].
    by eapply (ok_timers w Hok).
  - intros b u k' [[<- <-]|[Hne Hb]]%lookup_insert_Some Hu; [|by eapply (ok_back w Hok)].
    by eapply (ok_back w Hok).
  - intros k' b Hk'. destruct (ok_fwd w Hok k' b Hk') as (u & Hb & Hu).
    destruct (decide (a = b)) as [<- | Hne].
    + exists (set_m_updated_time x t). rewrite lookup_insert_eq. split; [done|]. simpl. congruence.
    + exists u. by rewrite lookup_insert_ne.
  - apply (ok_count w Hok).
  - rewrite tw_abs_lookup. simpl. destruct (decide (k' = k)) as [-> | Hne].
    + rewrite lookup_insert_eq, Hk. simpl. rewrite lookup_insert_eq. simpl.
      by rewrite update_timer_expiry.
    + rewrite (lookup_insert_ne _ k), tw_abs_lookup by done.
      destruct (handle_timer w !! k') as [b|] eqn:Hb; simpl; [|done].
      rewrite lookup_insert_ne; [done|]. intros ->.
      destruct (ok_fwd w Hok k' b Hb) as (u & Hu & ?). congruence.
Qed.

(** ** One turn of the loop *)

(** A stopped timer on top is freed. *)
Definition drop (a : Z) (w : CTimerWheel Q) : CTimerWheel Q :=
  delete_timer a (inc_free (tw_pop w)).

Lemma drop_ok a t w :
  tw_ok w -> pq_top (m_pq w) = Some a -> timers w !! a = Some t -> is_valid t = false ->
  tw_ok (drop a w) /\ tw_abs (drop a w) = tw_abs w.
Proof.
  intros Hok Htop Ha Hv. apply bool_decide_eq_false in Hv.
  set (key := time_of (timers w)).
  pose proof (pq_pop_elems key _ _ Htop) as Hel.
  assert (Hnd : NoDup (a :: pq_elems (pq_pop key (m_pq w)))) by (rewrite <- Hel; apply (ok_nodup w Hok)).
  apply NoDup_cons in Hnd as [Hna Hnd].
  assert (Hnone : forall k', handle_timer w !! k' ≠ Some a).
  { intros k' Hk'. destruct (ok_fwd w Hok k' a Hk') as (t' & Ht' & Hk). simplify_eq.
    apply Hv. by rewrite Hk. }
  split; [split; simpl; fold key|apply map_eq; intros k'].
  - done.
  - intros b. rewrite lookup_delete_is_Some, <- (ok_queued w Hok), Hel, elem_of_cons.
    naive_solver.
  - eapply pq_ordered_ext with key.
    + intros b Hb. unfold key, time_of. rewrite lookup_delete_ne; [done|]. by intros ->.
    + eapply (pq_pop_ordered key key); [apply (ok_ordered w Hok)|done|apply (ok_nodup w Hok)|done].
  - intros b u [_ Hb]%lookup_delete_Some. by eapply (ok_timers w Hok).
  - intros b u k' [_ Hb]%lookup_delete_Some. by eapply (ok_back w Hok).
  - intros k' b Hk'. destruct (ok_fwd w Hok k' b Hk') as (u & Hu & ?). exists u.
    rewrite lookup_delete_ne; [done|]. intros ->. by apply (Hnone k').
  - pose proof (ok_count w Hok) as Hc. unfold zlength in *. rewrite Hel in Hc. simpl length in Hc.
    unfold_words. Z.div_mod_to_equations. lia.
  - rewrite !tw_abs_lookup. simpl. destruct (handle_timer w !! k') as [b|] eqn:Hb; simpl; [|done].
    rewrite lookup_delete_ne; [done|]. intros ->. by apply (Hnone k').
Qed.

(** A restarted timer on top moves to its new time. *)
Definition move (a : Z) (t : CFlowTimer) (w : CTimerWheel Q) : CTimerWheel Q :=
  tw_push a (tw_pop (put_timer a (set_m_time (m_updated_time t) t) w)).

Lemma move_elems a t w :
  pq_top (m_pq w) = Some a -> pq_elems (m_pq (move a t w)) ≡ₚ pq_elems (m_pq w).
Proof. intros Htop. simpl. rewrite pq_push_elems. symmetry. by apply pq_pop_elems. Qed.

Lemma move_ok a t w :
  tw_ok w -> pq_top (m_pq w) = Some a -> timers w !! a = Some t -> is_updated t = true ->
  tw_ok (move a t w) /\ tw_abs (move a t w) = tw_abs w.
Proof.
  intros Hok Htop Ha Hup. pose proof (move_elems a t w Htop) as Hel.
  pose proof (ok_timers w Hok a t Ha) as Ht.
  assert (Htk : forall k b u, timers w !! b = Some u -> m_flow u = Some k ->
    exists u', timers (move a t w) !! b = Some u' /\ m_flow u' = Some k).
  { intros k b u Hb Hu. simpl. destruct (decide (a = b)) as [<- | Hne].
    - simplify_eq. rewrite lookup_insert_eq. eauto.
    - rewrite lookup_insert_ne; eauto. }
  split; [split|apply map_eq; intros k'].
  - rewrite Hel. apply (ok_nodup w Hok).
  - intros b. rewrite Hel, (ok_queued w Hok). simpl. by rewrite (write_is_Some _ _ _ _ _ Ha).
  - simpl. apply pq_push_ordered.
    + rewrite time_of_insert, decide_True by done. apply Ht.
    + eapply pq_pop_ordered; [apply (ok_ordered w Hok)|done|apply (ok_nodup w Hok)|].
      intros b Hb. rewrite time_of_insert, decide_False; congruence.
  - simpl. intros b u [[<- <-]|[_ Hb]]%lookup_insert_Some; [|by eapply (ok_timers w Hok)].
    split; [by apply move_timer_good|apply Ht].
  - simpl. intros b u k' [[<- <-]|[_ Hb]]%lookup_insert_Some Hu; by eapply (ok_back w Hok).
  - intros k' b Hk'. destruct (ok_fwd w Hok k' b Hk') as (u & Hu & ?). by eapply Htk.
  - pose proof (ok_count w Hok) as Hc. unfold zlength in *. rewrite Hel. done.
  - rewrite !tw_abs_lookup. simpl. destruct (handle_timer w !! k') as [b|] eqn:Hb; simpl; [|done].
    destruct (decide (a = b)) as [<- | Hne].
    + rewrite lookup_insert_eq, Ha. simpl. by rewrite move_timer_expiry.
    + by rewrite lookup_insert_ne.
Qed.

(** ** The loop ends *)

(** Timers the loop still has work with. *)
Definition busy (h : gmap Z CFlowTimer) (a : Z) : bool :=
  match h !! a with Some t => negb (is_valid t) || is_updated t | None => false end.

Definition busy_count (h : gmap Z CFlowTimer) (l : list Z) : nat :=
  length (filter (fun a => busy h a = true) l).

Lemma busy_count_perm h l l' : l ≡ₚ l' -> busy_count h l = busy_count h l'.
Proof. intros Hl. unfold busy_count. by rewrite Hl. Qed.

Lemma busy_count_cons h a l : busy_count h (a :: l) = (Nat.b2n (busy h a) + busy_count h l)%nat.
Proof. unfold busy_count. rewrite filter_cons. destruct (busy h a); by case_decide. Qed.

Lemma busy_count_frame h h' l :
  (forall b, b ∈ l -> h' !! b = h !! b) -> busy_count h' l = busy_count h l.
Proof.
  induction l as [|a l IH]; intros Hl; [done|]. rewrite !busy_count_cons.
  rewrite IH by (intros; apply Hl; set_solver). unfold busy. rewrite Hl by set_solver. done.
Qed.

Lemma busy_count_le h l : (busy_count h l <= length l)%nat.
Proof. apply length_filter. Qed.

Lemma drop_busy a t w :
  tw_ok w -> pq_top (m_pq w) = Some a -> timers w !! a = Some t -> is_valid t = false ->
  busy_count (timers w) (pq_elems (m_pq w)) =
  Datatypes.S (busy_count (timers (drop a w)) (pq_elems (m_pq (drop a w)))).
Proof.
  intros Hok Htop Ha Hv. pose proof (pq_pop_elems (time_of (timers w)) _ _ Htop) as Hel.
  pose proof (ok_nodup w Hok) as Hnd. rewrite Hel in Hnd. apply NoDup_cons in Hnd as [Hna _].
  rewrite (busy_count_perm _ _ _ Hel), busy_count_cons. unfold busy at 1. rewrite Ha, Hv.
  simpl. f_equal. symmetry. apply busy_count_frame. intros b Hb. rewrite lookup_delete_ne; [done|].
  by intros ->.
Qed.

Lemma move_busy a t w :
  tw_ok w -> pq_top (m_pq w) = Some a -> timers w !! a = Some t ->
  is_valid t = true -> is_updated t = true ->
  busy_count (timers w) (pq_elems (m_pq w)) =
  Datatypes.S (busy_count (timers (move a t w)) (pq_elems (m_pq (move a t w)))).
Proof.
  intros Hok Htop Ha Hv Hup. pose proof (pq_pop_elems (time_of (timers w)) _ _ Htop) as Hel.
  pose proof (ok_nodup w Hok) as Hnd. rewrite Hel in Hnd. apply NoDup_cons in Hnd as [Hna _].
  rewrite (busy_count_perm _ _ _ (move_elems a t w Htop)), (busy_count_perm _ _ _ Hel).
  rewrite (busy_count_perm _ _ _ Hel), !busy_count_cons.
  assert (busy (timers w) a = true) as -> by (unfold busy; by rewrite Ha, Hv, Hup).
  assert (busy (timers (move a t w)) a = false) as ->.
  { unfold busy. simpl. rewrite lookup_insert_eq.
    rewrite move_timer_not_updated by (done || by eapply (ok_timers w Hok)).
    unfold is_valid in *. simpl. by rewrite Hv. }
  simpl. f_equal. symmetry. apply busy_count_frame. intros b Hb. rewrite lookup_insert_ne; [done|]. by intros ->.
Qed.

(** What the loop leaves: the same abstract wheel, and on top a running timer that
    is up to date, unless the queue is empty. *)
Definition settled (w w' : CTimerWheel Q) (r : option (Z * CFlowTimer)) : Prop :=
  tw_ok w' /\ tw_abs w' = tw_abs w /\
  (length (pq_elems (m_pq w')) <= length (pq_elems (m_pq w)))%nat /\
  match r with
  | None => pq_elems (m_pq w') = []
  | Some (a, t) => pq_top (m_pq w') = Some a /\ timers w' !! a = Some t /\
      is_valid t = true /\ is_updated t = false
  end.

Lemma settle_loop_spec fuel w :
  tw_ok w -> (busy_count (timers w) (pq_elems (m_pq w)) < fuel)%nat ->
  exists w' r, settle_loop fuel w = Ok (w', r) /\ settled w w' r.
Proof.
  revert w. induction fuel as [|fuel IH]; intros w Hok Hf; [lia|]. simpl.
  destruct (pq_top (m_pq w)) as [a|] eqn:Htop.
  2:{ exists w, None. split_and!; try done. split_and!; try done. by apply pq_top_None. }
  assert (Hin : a ∈ pq_elems (m_pq w))
    by (rewrite (pq_pop_elems (time_of (timers w)) _ _ Htop); set_solver).
  apply (ok_queued w Hok) in Hin as [t Ha].
  unfold get_timer. rewrite Ha. simpl.
  destruct (is_valid t) eqn:Hv; simpl; [destruct (is_updated t) eqn:Hup|].
  - pose proof (move_busy a t w Hok Htop Ha Hv Hup).
    destruct (move_ok a t w Hok Htop Ha Hup) as [Hok' Habs].
    destruct (IH (move a t w) Hok') as (w' & r & Hrun & ? & ? & Hle & ?); [lia|].
    exists w', r. rewrite (move_elems a t w Htop) in Hle. split; [exact Hrun|]. split_and!; try done. congruence.
  - exists w, (Some (a, t)). split; [done|]. split_and!; done.
  - pose proof (drop_busy a t w Hok Htop Ha Hv).
    destruct (drop_ok a t w Hok Htop Ha Hv) as [Hok' Habs].
    destruct (IH (drop a w) Hok') as (w' & r & Hrun & ? & ? & Hle & ?); [lia|].
    exists w', r. split; [exact Hrun|]. unfold settled.
    rewrite (pq_pop_elems (time_of (timers w)) _ _ Htop).
    split_and!; [done|congruence| |done]. simpl in *. lia.
Qed.

Lemma settle_spec w : tw_ok w -> exists w' r, settle w = Ok (w', r) /\ settled w w' r.
Proof.
  intros Hok. apply settle_loop_spec; [done|]. unfold settle_fuel.
  pose proof (busy_count_le (timers w) (pq_elems (m_pq w))). lia.
Qed.
End Facts.
