(* ===== verification/TimerWheelThms.v ===== *)
(** * The timer wheel: theorems

    Every operation of the wheel against the map of deadlines, and the two loops
    that let timers run out. *)

From S2P Require Import Prelude Double PrioQueue TimerWheel TimerWheelFacts.

(** ** The abstract wheel *)

(** No deadline of [A] is before [d]. *)
Definition least (A : gmap Z double) (d : double) : Prop :=
  forall k d', A !! k = Some d' -> double_ltb d' d = false.

(** The timers [l] run out one after the other, the earliest first, and leave [A']. *)
Inductive fires : gmap Z double -> list Z -> gmap Z double -> Prop :=
  | fires_nil A : fires A [] A
  | fires_cons A k d l A' :
      A !! k = Some d -> least A d -> fires (delete k A) l A' -> fires A (k :: l) A'.

Lemma fires_Some A l A' k d : fires A l A' -> A' !! k = Some d <-> A !! k = Some d /\ k ∉ l.
Proof.
  induction 1 as [|A k' d' l A' Hk _ _ IH].
  - set_solver.
  - rewrite IH, lookup_delete_Some, not_elem_of_cons. naive_solver.
Qed.

Lemma fires_deadline A l A' k : fires A l A' -> k ∈ l -> exists d, A !! k = Some d.
Proof.
  induction 1 as [|A k' d' l A' Hk _ _ IH]; [by intros ?%elem_of_nil|].
  intros [-> | Hin]%elem_of_cons; [eauto|].
  destruct (IH Hin) as [d [_ Hd]%lookup_delete_Some]. eauto.
Qed.

Lemma fires_before A k1 d1 l A' now :
  A !! k1 = Some d1 -> least A d1 -> double_ltb d1 now = true ->
  fires (delete k1 A) l A' ->
  (forall k d, delete k1 A !! k = Some d -> k ∈ l <-> double_ltb d now = true) ->
  fires A (k1 :: l) A' /\
  forall k d, A !! k = Some d -> k ∈ k1 :: l <-> double_ltb d now = true.
Proof.
  intros Hk Hle Hlt Hl Hin. split; [by apply fires_cons with d1|].
  intros k d Hd. rewrite elem_of_cons. destruct (decide (k = k1)) as [-> | Hne]; [naive_solver|].
  rewrite <- (Hin k d) by (by rewrite lookup_delete_ne). naive_solver.
Qed.

Section Thms.
Context {Q : Type} `{PQueueOk Q} {S : Type}.
Context (m_callback : Z -> option (S -> res S)).
Implicit Types w : CTimerWheel Q.

(** The callbacks of a list of handles, in order. *)
Fixpoint run_callbacks (l : list Z) (s : S) : res S :=
  match l with
  | [] => Ok s
  | k :: l => s ← run_callback m_callback k s; run_callbacks l s
  end.

(** ** The timer on top *)

Lemma abs_deadline w k d :
  tw_ok w -> tw_abs w !! k = Some d -> is_number d = true.
Proof.
  intros Hok (a & t & _ & Ht & <-)%tw_abs_Some; [|done].
  apply expiry_number. by eapply (ok_timers w Hok).
Qed.

Lemma top_least w a t k :
  tw_ok w -> pq_top (m_pq w) = Some a -> timers w !! a = Some t ->
  is_updated t = false -> m_flow t = Some k ->
  tw_abs w !! k = Some (m_time t) /\ least (tw_abs w) (m_time t).
Proof.
  intros Hok Htop Ha Hup Hk. split.
  - apply tw_abs_Some; [done|]. exists a, t. split; [by eapply (ok_back w Hok)|].
    split; [done|]. unfold expiry. by rewrite Hup.
  - intros k' d' (b & u & Hb & Hu & <-)%tw_abs_Some; [|done].
    pose proof (ok_timers w Hok b u Hu) as Hok_u.
    pose proof (ok_timers w Hok a t Ha) as [Ht%good_time_number _].
    assert (Hbq : b ∈ pq_elems (m_pq w)) by (apply (ok_queued w Hok); eauto).
    pose proof (pq_top_least _ _ _ _ (ok_ordered w Hok) Htop Hbq) as Hle.
    unfold time_of in Hle. rewrite Ha, Hu in Hle.
    apply double_not_ltb_trans with (m_time u); try done.
    + apply good_time_number, Hok_u.
    + by apply expiry_number.
    + by apply expiry_later.
Qed.

Lemma settled_empty w w' : settled w w' None -> tw_abs w = ∅.
Proof.
  intros (Hok & <- & _ & Hel). apply map_empty. intros k.
  apply tw_abs_None; [done|]. destruct (handle_timer w' !! k) as [a|] eqn:Hk; [|done].
  destruct (ok_fwd w' Hok k a Hk) as (t & Ht & _).
  assert (a ∈ pq_elems (m_pq w')) as Hin by (apply (ok_queued w' Hok); eauto).
  rewrite Hel in Hin. by apply elem_of_nil in Hin.
Qed.

Lemma settled_top w w' a t :
  settled w w' (Some (a, t)) ->
  exists k, m_flow t = Some k /\ handle_timer w' !! k = Some a /\
    tw_abs w !! k = Some (m_time t) /\ least (tw_abs w) (m_time t).
Proof.
  intros (Hok & <- & _ & Htop & Ha & Hv & Hup).
  apply bool_decide_eq_true_1 in Hv as [k Hk]. exists k.
  split; [done|]. split; [by eapply (ok_back w' Hok)|]. by apply top_least with a.
Qed.

Lemma settled_valid w w' a t : settled w w' (Some (a, t)) -> is_valid t = true.
Proof. intros (_ & _ & _ & _ & _ & Hv & _). done. Qed.

(** ** [peek_top_time] and [handle] *)

Lemma peek_spec w :
  tw_ok w -> exists w' r, peek_top_time w = Ok (w', r) /\ tw_ok w' /\ tw_abs w' = tw_abs w /\
    (length (pq_elems (m_pq w')) <= length (pq_elems (m_pq w)))%nat /\
    match r with
    | None => tw_abs w = ∅
    | Some d => is_number d = true /\ least (tw_abs w) d /\ exists k, tw_abs w !! k = Some d
    end.
Proof.
  intros Hok. unfold peek_top_time.
  destruct (settle_spec w Hok) as (w' & [[a t]|] & -> & Hset); simpl.
  - rewrite (settled_valid _ _ _ _ Hset). simpl. exists w', (Some (m_time t)).
    destruct (settled_top _ _ _ _ Hset) as (k & _ & _ & Hk & Hle).
    pose proof (abs_deadline _ _ _ Hok Hk).
    destruct Hset as (Hok' & Habs & Hlen & _). split_and!; try done. eauto.
  - exists w', None. pose proof (settled_empty _ _ Hset) as He.
    destruct Hset as (Hok' & Habs & Hlen & _). split_and!; done.
Qed.

Lemma handle_spec w s :
  tw_ok w ->
  (tw_abs w = ∅ /\ exists w', handle m_callback w s = Ok (w', s, false) /\
     tw_ok w' /\ tw_abs w' = ∅) \/
  exists k d w', tw_abs w !! k = Some d /\ least (tw_abs w) d /\
    handle m_callback w s = (s' ← run_callback m_callback k s; Ok (w', s', true)) /\
    tw_ok w' /\ tw_abs w' = delete k (tw_abs w) /\
    (length (pq_elems (m_pq w')) < length (pq_elems (m_pq w)))%nat.
Proof.
  intros Hok. unfold handle.
  destruct (settle_spec w Hok) as (w1 & [[a t]|] & -> & Hset); simpl.
  2:{ left. pose proof (settled_empty _ _ Hset) as He. split; [done|]. exists w1.
      destruct Hset as (Hok' & Habs & _). split_and!; congruence || done. }
  right. rewrite (settled_valid _ _ _ _ Hset). simpl.
  destruct (settled_top _ _ _ _ Hset) as (k & Hf & Hk & Hd & Hle). rewrite Hf.
  destruct Hset as (Hok1 & Habs & Hlen & Htop & Ha & _).
  assert (Hh : tw_ok (inc_handle w1)) by (destruct Hok1; by split).
  destruct (unlink_ok k a t (inc_handle w1) Hh Hk Ha) as [Hok2 Habs2].
  destruct (drop_ok a (clear_m_flow t) (unlink k a t (inc_handle w1)) Hok2 Htop) as [Hok3 Habs3];
    [apply lookup_insert_eq|done|].
  exists k, (m_time t), (drop a (unlink k a t (inc_handle w1))). split_and!; try done.
  - rewrite Habs3, Habs2, <- Habs. done.
  - simpl. pose proof (pq_pop_elems (time_of (<[a:=clear_m_flow t]> (timers w1))) _ _ Htop) as Hel.
    apply Permutation_length in Hel. simpl in Hel. lia.
Qed.

(** ** [restart_timer] and [stop_timer] *)

Lemma inc_start_ok w : tw_ok w -> tw_ok (inc_start w).
Proof. intros []. by split. Qed.

Lemma restart_spec w k x :
  tw_ok w -> good_time x = true ->
  exists w', restart_timer k x w = Ok w' /\ tw_ok w' /\ tw_abs w' = <[k := x]> (tw_abs w).
Proof.
  intros Hok%inc_start_ok Hx. change (tw_abs w) with (tw_abs (inc_start w)).
  unfold restart_timer. generalize dependent (inc_start w). clear w. intros w Hok.
  destruct (handle_timer w !! k) as [a|] eqn:Hk.
  2:{ destruct (start_new_ok k x w Hok Hk Hx). eauto. }
  destruct (ok_fwd w Hok k a Hk) as (t & Ha & Hf). unfold get_timer. rewrite Ha. simpl.
  destruct (double_ltb (m_time t) x) eqn:Hlt.
  - destruct (postpone_ok k a t x w Hok Hk Ha (good_time_number _ Hx) Hlt). eauto.
  - destruct (unlink_ok k a t w Hok Hk Ha) as [Hok' Habs].
    destruct (start_new_ok k x (unlink k a t w) Hok') as [Hok2 Habs2];
      [apply lookup_delete_eq|done|].
    exists (start_new k x (unlink k a t w)). split; [|split; [done|]].
    + unfold start_new, unlink. simpl. by rewrite insert_delete_eq.
    + by rewrite Habs2, Habs, insert_delete_eq.
Qed.

Lemma stop_spec w k :
  tw_ok w -> exists w', stop_timer k w = Ok w' /\ tw_ok w' /\ tw_abs w' = delete k (tw_abs w).
Proof.
  intros Hok. unfold stop_timer. destruct (handle_timer w !! k) as [a|] eqn:Hk.
  - destruct (ok_fwd w Hok k a Hk) as (t & Ha & Hf). unfold get_timer. rewrite Ha. simpl.
    assert (Hok' : tw_ok (inc_stop w)) by (destruct Hok; by split).
    destruct (unlink_ok k a t (inc_stop w) Hok' Hk Ha). eexists. split; [done|]. done.
  - exists w. split_and!; try done. rewrite delete_id; [done|]. by apply tw_abs_None.
Qed.

(** ** The loops *)

Lemma events_loop_spec now fuel w s :
  tw_ok w -> is_number now = true -> (length (pq_elems (m_pq w)) < fuel)%nat ->
  exists w' l, fires (tw_abs w) l (tw_abs w') /\
    events_loop m_callback fuel now w s = (s' ← run_callbacks l s; Ok (w', s')) /\
    tw_ok w' /\ forall k d, tw_abs w !! k = Some d -> k ∈ l <-> double_ltb d now = true.
Proof.
  revert w s. induction fuel as [|fuel IH]; intros w s Hok Hnow Hf; [lia|]. simpl.
  destruct (peek_spec w Hok) as (w1 & r & -> & Hok1 & Habs1 & Hlen1 & Hr). simpl.
  destruct r as [d|].
  2:{ exists w1, []. rewrite Habs1, Hr. split_and!; try done. constructor. }
  destruct Hr as (Hd & Hle & k0 & Hk0). destruct (double_ltb d now) eqn:Hlt.
  2:{ exists w1, []. rewrite Habs1. split_and!; try done; [constructor|].
      intros k d' Hk. split; [by intros ?%elem_of_nil|]. intros Hlt'. exfalso.
      assert (double_ltb d' now = false); [|congruence].
      apply double_not_ltb_trans with d; try done; [exact (abs_deadline _ _ _ Hok Hk)|by eapply Hle]. }
  rewrite <- Habs1 in Hk0, Hle.
  destruct (handle_spec w1 s Hok1) as [[He _]|(k1 & d1 & w2 & Hk1 & Hle1 & -> & Hok2 & Habs2 & Hlen2)].
  { rewrite He in Hk0. by rewrite lookup_empty in Hk0. }
  assert (Hd1 : double_ltb d1 now = true).
  { apply not_false_iff_true. intros Hn. assert (double_ltb d now = false); [|congruence].
    apply double_not_ltb_trans with d1; try done; [exact (abs_deadline _ _ _ Hok1 Hk1)|by eapply Hle1]. }
  rewrite <- Habs1.
  destruct (run_callback m_callback k1 s) as [s1|e] eqn:Hcb; simpl.
  - destruct (IH w2 s1 Hok2 Hnow) as (w' & l & Hl & -> & Hok' & Hin); [lia|].
    rewrite Habs2 in Hl, Hin. destruct (fires_before _ _ _ _ _ _ Hk1 Hle1 Hd1 Hl Hin).
    exists w', (k1 :: l). split_and!; try done. simpl. by rewrite Hcb.
  - destruct (IH w2 s Hok2 Hnow) as (w' & l & Hl & _ & Hok' & Hin); [lia|].
    rewrite Habs2 in Hl, Hin. destruct (fires_before _ _ _ _ _ _ Hk1 Hle1 Hd1 Hl Hin).
    exists w', (k1 :: l). split_and!; try done. simpl. by rewrite Hcb.
Qed.

Lemma events_spec now w s :
  tw_ok w -> is_number now = true ->
  exists w' l, fires (tw_abs w) l (tw_abs w') /\
    try_handle_events m_callback now w s = (s' ← run_callbacks l s; Ok (w', s')) /\
    tw_ok w' /\ forall k d, tw_abs w !! k = Some d -> k ∈ l <-> double_ltb d now = true.
Proof. intros Hok Hnow. apply events_loop_spec; [done..|]. unfold settle_fuel. lia. Qed.

Lemma drain_loop_spec fuel w s :
  tw_ok w -> (length (pq_elems (m_pq w)) < fuel)%nat ->
  exists w' l, fires (tw_abs w) l ∅ /\
    drain_loop m_callback fuel w s = (s' ← run_callbacks l s; Ok (w', s')) /\
    tw_ok w' /\ tw_abs w' = ∅.
Proof.
  revert w s. induction fuel as [|fuel IH]; intros w s Hok Hf; [lia|]. simpl.
  destruct (peek_spec w Hok) as (w1 & r & -> & Hok1 & Habs1 & Hlen1 & Hr). simpl.
  destruct r as [d|].
  2:{ exists w1, []. rewrite Habs1, Hr. split_and!; try done. constructor. }
  destruct Hr as (_ & _ & k0 & Hk0). rewrite <- Habs1 in Hk0.
  destruct (handle_spec w1 s Hok1) as [[He _]|(k1 & d1 & w2 & Hk1 & Hle1 & -> & Hok2 & Habs2 & Hlen2)].
  { rewrite He in Hk0. by rewrite lookup_empty in Hk0. }
  assert (Hfire : forall l, fires (tw_abs w2) l ∅ -> fires (tw_abs w) (k1 :: l) ∅).
  { intros l Hl. rewrite <- Habs1. apply fires_cons with d1; [done..|]. by rewrite <- Habs2. }
  destruct (run_callback m_callback k1 s) as [s1|e] eqn:Hcb; simpl.
  - destruct (IH w2 s1 Hok2) as (w' & l & Hl & -> & Hok' & He); [lia|].
    exists w', (k1 :: l). split_and!; auto. simpl. by rewrite Hcb.
  - destruct (IH w2 s Hok2) as (w' & l & Hl & _ & Hok' & He); [lia|].
    exists w', (k1 :: l). split_and!; auto. simpl. by rewrite Hcb.
Qed.

Lemma drain_spec w s :
  tw_ok w -> exists w' l, fires (tw_abs w) l ∅ /\
    drain_all m_callback w s = (s' ← run_callbacks l s; Ok (w', s')) /\
    tw_ok w' /\ tw_abs w' = ∅.
Proof. intros Hok. apply drain_loop_spec; [done|]. unfold settle_fuel. lia. Qed.

(** ** The claims *)

(** C27: The wheel with lazy stop and lazy restart implements a map from handles to
    deadlines. From a well-formed wheel every operation ends, without touching a
    deleted timer, in a well-formed wheel; restart_timer sets the deadline of the
    handle whether the new one is earlier or later than the old one, stop_timer
    removes it, peek_top_time returns the earliest deadline and changes nothing
    (false exactly when no timer runs), and handle removes a handle with the
    earliest deadline and calls its callback once. *)
Theorem tw_refines_map (w : CTimerWheel Q) (k : Z) (x : double) (s : S)
    (Hok : tw_ok w) (Hx : good_time x = true) :
  (exists w', restart_timer k x w = Ok w' /\ tw_ok w' /\ tw_abs w' = <[k := x]> (tw_abs w)) /\
  (exists w', stop_timer k w = Ok w' /\ tw_ok w' /\ tw_abs w' = delete k (tw_abs w)) /\
  (exists w' r, peek_top_time w = Ok (w', r) /\ tw_ok w' /\ tw_abs w' = tw_abs w /\
     match r with
     | None => tw_abs w = ∅
     | Some d => least (tw_abs w) d /\ exists k', tw_abs w !! k' = Some d
     end) /\
  ((tw_abs w = ∅ /\
     exists w', handle m_callback w s = Ok (w', s, false) /\ tw_ok w' /\ tw_abs w' = ∅) \/
   exists k' d w', tw_abs w !! k' = Some d /\ least (tw_abs w) d /\
     handle m_callback w s = (s' ← run_callback m_callback k' s; Ok (w', s', true)) /\
     tw_ok w' /\ tw_abs w' = delete k' (tw_abs w)).
Proof.
  split_and!.
  - by apply restart_spec.
  - by apply stop_spec.
  - destruct (peek_spec w Hok) as (w' & r & ? & ? & ? & _ & Hr). exists w', r.
    split_and!; try done. destruct r; naive_solver.
  - destruct (handle_spec w s Hok) as [?|(k' & d & w' & ? & ? & ? & ? & ? & _)]; [by left|].
    right. exists k', d, w'. done.
Qed.

(** C32: Timers run out. From a well-formed wheel try_handle_events(now) ends, having
    called the callbacks of exactly the handles whose deadline is before now, the
    earliest first and each once, and every other timer still runs; drain_all does
    the same with all of them and leaves the queue without a running timer. (If a
    callback fails the whole call fails the same way.) *)
Theorem tw_events_fire (w : CTimerWheel Q) (now : double) (s : S)
    (Hok : tw_ok w) (Hnow : is_number now = true) :
  (exists w' l, fires (tw_abs w) l (tw_abs w') /\
     try_handle_events m_callback now w s = (s' ← run_callbacks l s; Ok (w', s')) /\
     tw_ok w' /\
     forall k d, tw_abs w !! k = Some d -> k ∈ l <-> double_ltb d now = true) /\
  (exists w' l, fires (tw_abs w) l ∅ /\
     drain_all m_callback w s = (s' ← run_callbacks l s; Ok (w', s')) /\
     tw_ok w' /\ tw_abs w' = ∅).
Proof. split; [by apply events_spec|by apply drain_spec]. Qed.
End Thms.

(** ** A wheel with three timers *)

Fixpoint restarts {Q} `{PQueue Q} (l : list (Z * Z)) (w : CTimerWheel Q) : res (CTimerWheel Q) :=
  match l with
  | [] => Ok w
  | (k, x) :: l => w ← restart_timer k (double_of_Z x) w; restarts l w
  end.

Lemma restarts_ok {Q} `{PQueueOk Q} l (w w' : CTimerWheel Q) :
  tw_ok w -> forallb (fun e => good_time (double_of_Z e.2)) l = true ->
  restarts l w = Ok w' -> tw_ok w'.
Proof.
  revert w. induction l as [|[k x] l IH]; simpl; intros w Hok Hg Hrun; [by simplify_eq|].
  apply andb_true_iff in Hg as [Hx Hg].
  destruct (restart_spec w k (double_of_Z x) Hok Hx) as (w1 & Hw1 & Hok1 & _).
  rewrite Hw1 in Hrun. by apply IH with w1.
Qed.

(** Timer 1 is postponed, timer 2 is moved forward. *)
Definition demo_restarts : list (Z * Z) := [(1, 10); (2, 5); (3, 1); (1, 20); (2, 3)].
Definition demo_wheel : CTimerWheel (list Z) :=
  match restarts demo_restarts CTimerWheel_new with Ok w => w | Err _ => CTimerWheel_new end.

(** The callback logs the handle. *)
Definition demo_log (k : Z) : option (list Z -> res (list Z)) := Some (fun s => Ok (s ++ [k])).

Lemma demo_wheel_ok : tw_ok demo_wheel.
Proof.
  apply (restarts_ok demo_restarts CTimerWheel_new); [apply tw_new_ok|reflexivity|].
  vm_compute. reflexivity.
Qed.

Example demo_events :
  (let '(w, s) := match try_handle_events demo_log (double_of_Z 10) demo_wheel [] with
                  | Ok r => r | Err _ => (demo_wheel, []) end
   in (s, m_st_handle w, m_st_free w, tw_abs w !! 1)) = ([3; 2], 2, 3, Some (double_of_Z 20)).
Proof. vm_compute. reflexivity. Qed.

Example tw_refines_map_witness :
  exists w', restart_timer 2 (double_of_Z 7) demo_wheel = Ok w' /\ tw_ok w' /\
    tw_abs w' = <[2 := double_of_Z 7]> (tw_abs demo_wheel).
Proof. exact (proj1 (tw_refines_map demo_log demo_wheel 2 (double_of_Z 7) [] demo_wheel_ok eq_refl)). Defined.

Example tw_events_fire_witness :
  exists w' l, fires (tw_abs demo_wheel) l (tw_abs w') /\
    try_handle_events demo_log (double_of_Z 10) demo_wheel []
      = (s' ← run_callbacks demo_log l []; Ok (w', s')) /\ tw_ok w' /\
    forall k d, tw_abs demo_wheel !! k = Some d ->
      k ∈ l <-> double_ltb d (double_of_Z 10) = true.
Proof. exact (proj1 (tw_events_fire demo_log demo_wheel (double_of_Z 10) [] demo_wheel_ok eq_refl)). Defined.
