(* ===== verification/Histogram.v ===== *)
(** * Latency histogram and jitter

    Models [src/src/time_histogram.{h,cpp}], [src/src/utl_jitter.h] and the clock
    conversions of [src/src/os_time.h]; and which bucket a latency falls in, and that the
    integer jitter neither overflows nor exceeds the largest change of the transit time. *)

From S2P Require Import Prelude Double.

(** ** Clock *)

(** [os_get_hr_freq] of the build with a data plane. *)
Definition os_get_hr_freq : Z := 1000000000.
Definition ptime_convert_hr_dsec (hrt : Z) : double :=
  double_div (double_of_Z hrt) (double_of_Z os_get_hr_freq).

(** ** [CTimeHistogram] *)

Definition HISTOGRAM_SIZE : Z := 9.
Definition HISTOGRAM_SIZE_LOG : nat := 5.
Definition HISTOGRAM_QUEUE_SIZE : Z := 14.

Record CTimeHistogram : Type := mkHist {
  m_min_delta : double;
  m_cnt : Z;
  m_high_cnt : Z;
  m_max_dt : double;
  m_max_win_dt : double;
  m_max_win_last_dt : double;
  m_average : double;
  m_win_cnt : Z;
  m_max_ar : list double;
  m_hcnt : list (list Z);
  m_hcnt_shadow : list (list Z);
  m_cnt_shadow : Z;
  m_high_cnt_shadow : Z }.

Definition zero_hcnt : list (list Z) :=
  replicate HISTOGRAM_SIZE_LOG (replicate (Z.to_nat HISTOGRAM_SIZE) 0).

(** [Reset] keeps [m_min_delta]. *)
Definition hist_Reset (h : CTimeHistogram) : CTimeHistogram :=
  let z := double_of_Z 0 in
  mkHist (m_min_delta h) 0 0 z z z z 0 (replicate (Z.to_nat HISTOGRAM_QUEUE_SIZE) z)
    zero_hcnt zero_hcnt 0 0.

Definition hist_set_min_delta (x : double) (h : CTimeHistogram) : CTimeHistogram :=
  mkHist x (m_cnt h) (m_high_cnt h) (m_max_dt h) (m_max_win_dt h) (m_max_win_last_dt h)
    (m_average h) (m_win_cnt h) (m_max_ar h) (m_hcnt h) (m_hcnt_shadow h) (m_cnt_shadow h)
    (m_high_cnt_shadow h).

(** [Create]: 10 microseconds. *)
Definition hist_Create (h : CTimeHistogram) : CTimeHistogram :=
  hist_Reset (hist_set_min_delta (double_div (double_of_Z 10) (double_of_Z 1000000)) h).

(** [m_hcnt[j][low]++] *)
Definition hcnt_inc (hcnt : list (list Z)) (j low : Z) : res (list (list Z)) :=
  row ← get_idx hcnt j;
  c ← get_idx row low;
  row ← set_idx row low (u64 (c + 1));
  set_idx hcnt j row.

(** The loop of [Add]; [fuel] counts the iterations left. *)
Fixpoint hist_bucket_loop (fuel : nat) (j d_10usec : Z) (hcnt : list (list Z))
  : res (list (list Z)) :=
  match fuel with
  | O => Ok hcnt
  | S fuel =>
      let low := d_10usec mod 10 in
      let high := d_10usec / 10 in
      if high =? 0 then
        let low := if 0 <? low then low - 1 else low in
        hcnt_inc hcnt j low
      else hist_bucket_loop fuel (j + 1) high hcnt
  end.

Definition double_max_if (old dt : double) : double := if double_ltb old dt then dt else old.

(** [Add]; the return value tells whether [dt] reaches [m_min_delta]. *)
Definition hist_Add (dt : double) (h : CTimeHistogram) : res (CTimeHistogram * bool) :=
  let cnt := u64 (m_cnt h + 1) in
  if double_ltb dt (m_min_delta h) then
    Ok (mkHist (m_min_delta h) cnt (m_high_cnt h) (m_max_dt h) (m_max_win_dt h)
          (m_max_win_last_dt h) (m_average h) (m_win_cnt h) (m_max_ar h) (m_hcnt h)
          (m_hcnt_shadow h) (m_cnt_shadow h) (m_high_cnt_shadow h), false)
  else
    let d_10usec := u32_of_double (double_mul dt (double_of_Z 100000)) in
    hcnt ← hist_bucket_loop HISTOGRAM_SIZE_LOG 0 d_10usec (m_hcnt h);
    Ok (mkHist (m_min_delta h) cnt (u64 (m_high_cnt h + 1)) (double_max_if (m_max_dt h) dt)
          (double_max_if (m_max_win_dt h) dt) (m_max_win_last_dt h) (m_average h)
          (m_win_cnt h) (m_max_ar h) hcnt (m_hcnt_shadow h) (m_cnt_shadow h)
          (m_high_cnt_shadow h), true).

(** [get_base_usec]: [pow(10, j + 1)] is exact for the [j] in use. *)
Definition get_base_usec (j i : Z) : double :=
  double_mul (double_of_Z (10 ^ (j + 1))) (double_add (double_of_Z i) (double_of_Z 1)).

Definition double_half : double := double_div (double_of_Z 1) (double_of_Z 2).
Definition double_3_2 : double := double_div (double_of_Z 3) (double_of_Z 2).

(** The inner and the outer loop of [get_cur_average]: sum of events, sum of times
    and the shadow counters. *)
Fixpoint average_row (j i : Z) (row shadow : list Z) (sum : Z) (s : double)
  : list Z * Z * double :=
  match row, shadow with
  | cnt :: row, sh :: shadow =>
      let '(sh', sum, s) :=
        if 0 <? cnt then
          let d := u64 (cnt - sh) in
          (cnt, u64 (sum + d),
           double_add s (double_mul (double_mul (double_of_Z d) double_3_2) (get_base_usec j i)))
        else (sh, sum, s) in
      let '(rest, sum, s) := average_row j (i + 1) row shadow sum s in
      (sh' :: rest, sum, s)
  | _, _ => (shadow, sum, s)
  end.

Fixpoint average_rows (j : Z) (rows shadows : list (list Z)) (sum : Z) (s : double)
  : list (list Z) * Z * double :=
  match rows, shadows with
  | row :: rows, shadow :: shadows =>
      let '(shadow, sum, s) := average_row j 0 row shadow sum s in
      let '(rest, sum, s) := average_rows (j + 1) rows shadows sum s in
      (shadow :: rest, sum, s)
  | _, _ => (shadows, sum, s)
  end.

Definition get_cur_average (h : CTimeHistogram) : CTimeHistogram * double :=
  let d_cnt := u64 (m_cnt h - m_cnt_shadow h) in
  let d_cnt_high := u64 (m_high_cnt h - m_high_cnt_shadow h) in
  let low_events := u64 (d_cnt - d_cnt_high) in
  let s := double_mul (double_of_Z low_events) (double_of_Z 5) in
  let '(shadow, sum, s) := average_rows 0 (m_hcnt h) (m_hcnt_shadow h) low_events s in
  let c_average := if 0 <? sum then double_div s (double_of_Z sum) else double_of_Z 0 in
  (mkHist (m_min_delta h) (m_cnt h) (m_high_cnt h) (m_max_dt h) (m_max_win_dt h)
     (m_max_win_last_dt h) (m_average h) (m_win_cnt h) (m_max_ar h) (m_hcnt h) shadow
     (m_cnt h) (m_high_cnt h), c_average).

Definition update_average (h : CTimeHistogram) : CTimeHistogram :=
  let '(h, c_average) := get_cur_average h in
  let avg := double_add (double_mul double_half (m_average h)) (double_mul double_half c_average) in
  mkHist (m_min_delta h) (m_cnt h) (m_high_cnt h) (m_max_dt h) (m_max_win_dt h)
    (m_max_win_last_dt h) avg (m_win_cnt h) (m_max_ar h) (m_hcnt h) (m_hcnt_shadow h)
    (m_cnt_shadow h) (m_high_cnt_shadow h).

(** [update], once a second. *)
Definition hist_update (h : CTimeHistogram) : res CTimeHistogram :=
  ar ← set_idx (m_max_ar h) (m_win_cnt h) (m_max_win_dt h);
  let win := u32 (m_win_cnt h + 1) in
  let win := if win =? HISTOGRAM_QUEUE_SIZE then 0 else win in
  Ok (update_average
    (mkHist (m_min_delta h) (m_cnt h) (m_high_cnt h) (m_max_dt h) (double_of_Z 0)
       (m_max_win_dt h) (m_average h) win ar (m_hcnt h) (m_hcnt_shadow h) (m_cnt_shadow h)
       (m_high_cnt_shadow h))).

Definition get_usec (d : double) : Z := u32_of_double (double_mul d (double_of_Z 1000000)).

(** ** Jitter *)

Record CJitter : Type := mkJitter { m_old_transit : double; m_jitter : double }.
Definition CJitter_reset : CJitter := mkJitter (double_of_Z 0) (double_of_Z 0).

Definition CJitter_calc (transit : double) (j : CJitter) : CJitter :=
  let d := double_sub transit (m_old_transit j) in
  let d := if double_ltb d (double_of_Z 0) then double_opp d else d in
  mkJitter transit
    (double_add (m_jitter j)
       (double_mul (double_div (double_of_Z 1) (double_of_Z 16)) (double_sub d (m_jitter j)))).

(** [CJitterUint]: [int32_t] throughout, the jitter scaled by 16. *)
Record CJitterUint : Type := mkJitterUint { mu_old_transit : Z; mu_jitter : Z }.
Definition CJitterUint_reset : CJitterUint := mkJitterUint 0 0.

Definition CJitterUint_calc (transit : Z) (j : CJitterUint) : CJitterUint :=
  let d := s32 (transit - mu_old_transit j) in
  let d := if d <? 0 then s32 (- d) else d in
  mkJitterUint (s32 transit)
    (s32 (mu_jitter j + (d - Z.shiftr (s32 (mu_jitter j + 8)) 4))).

Definition CJitterUint_get_jitter (j : CJitterUint) : Z := u32 (Z.shiftr (mu_jitter j) 4).

(** ** Buckets *)

(** Bucket [low] of row [j] is for [(low + 1) * 10^j] up to [(low + 2) * 10^j] tens of
    microseconds; the first one also takes what rounds to zero. *)
Definition in_bucket (d j low : Z) : Prop :=
  (low + 1) * 10 ^ j <= d < (low + 2) * 10 ^ j \/ (d = 0 /\ j = 0 /\ low = 0).

Lemma hist_bucket_loop_scale fuel : forall j0 d hcnt,
  0 <= j0 -> 0 <= d < 10 ^ Z.of_nat fuel -> d <> 0 ->
  exists j low, hist_bucket_loop fuel j0 d hcnt = hcnt_inc hcnt (j0 + j) low /\
    0 <= j < Z.of_nat fuel /\ 0 <= low < 9 /\ (low + 1) * 10 ^ j <= d < (low + 2) * 10 ^ j.
Proof.
  induction fuel as [|fuel IH]; intros j0 d hcnt Hj Hd Hd0; [simpl in Hd; lia|].
  simpl hist_bucket_loop. destruct (d / 10 =? 0) eqn:E.
  - exists 0, (d mod 10 - 1). assert (d / 10 = 0) as E' by lia.
    assert (0 <? d mod 10 = true) as -> by (Z.div_mod_to_equations; lia).
    rewrite Z.add_0_r. change (10 ^ 0) with 1. split_and!; try done; Z.div_mod_to_equations; lia.
  - rewrite Nat2Z.inj_succ, Z.pow_succ_r in Hd by lia.
    destruct (IH (j0 + 1) (d / 10) hcnt) as (j & low & -> & Hjb & Hlow & Hb);
      [lia|split; Z.div_mod_to_equations; nia|lia|].
    exists (j + 1), low. replace (j0 + 1 + j) with (j0 + (j + 1)) by lia.
    rewrite Z.pow_add_r by lia. change (10 ^ 1) with 10.
    split_and!; try done; try lia; Z.div_mod_to_equations; nia.
Qed.

Lemma hist_bucket_spec d hcnt :
  0 <= d < 100000 ->
  exists j low, hist_bucket_loop HISTOGRAM_SIZE_LOG 0 d hcnt = hcnt_inc hcnt j low /\
    0 <= j < 5 /\ 0 <= low < 9 /\ in_bucket d j low.
Proof.
  intros Hd. destruct (decide (d = 0)) as [-> | Hd0].
  - exists 0, 0. split_and!; try done. by right.
  - destruct (hist_bucket_loop_scale HISTOGRAM_SIZE_LOG 0 d hcnt) as (j & low & Hr & Hj & Hlow & Hb);
      [lia|unfold HISTOGRAM_SIZE_LOG; simpl; lia|done|].
    change (Z.of_nat HISTOGRAM_SIZE_LOG) with 5 in Hj. exists j, low. rewrite Hr. split_and!; try done; try lia. by left.
Qed.

(** A second or more falls in no bucket. *)
Lemma hist_long_uncounted d hcnt :
  100000 <= d -> hist_bucket_loop HISTOGRAM_SIZE_LOG 0 d hcnt = Ok hcnt.
Proof.
  intros Hd. unfold HISTOGRAM_SIZE_LOG. simpl. rewrite !Z.div_div by lia.
  repeat match goal with |- context [?x =? 0] =>
    assert (x =? 0 = false) as -> by (Z.div_mod_to_equations; lia) end.
  done.
Qed.

Example hist_long_uncounted_witness :
  hist_bucket_loop HISTOGRAM_SIZE_LOG 0 250000 zero_hcnt = Ok zero_hcnt.
Proof. apply hist_long_uncounted. lia. Defined.

(** ** Integer jitter *)

(** Transit times up to [D] (30 milliseconds, says the code, in microseconds). *)
Definition jitter_ok (D : Z) (j : CJitterUint) : Prop :=
  0 <= mu_old_transit j <= D /\ 0 <= mu_jitter j <= 16 * D + 7.

Lemma s32_id x : -2147483648 <= x < 2147483648 -> s32 x = x.
Proof. intros Hx. word_lia. Qed.

Lemma CJitterUint_calc_ok D t j :
  0 <= D < 2 ^ 26 -> 0 <= t <= D -> jitter_ok D j ->
  jitter_ok D (CJitterUint_calc t j) /\
  mu_jitter (CJitterUint_calc t j)
    = mu_jitter j + Z.abs (t - mu_old_transit j) - (mu_jitter j + 8) / 16 /\
  0 <= CJitterUint_get_jitter (CJitterUint_calc t j) <= D.
Proof.
  intros HD Ht [Ho Hj]. change (2 ^ 26) with 67108864 in HD.
  unfold CJitterUint_calc, CJitterUint_get_jitter, jitter_ok. cbn [mu_jitter mu_old_transit].
  rewrite !Z.shiftr_div_pow2 by lia. change (2 ^ 4) with 16.
  rewrite (s32_id (t - _)), (s32_id (mu_jitter j + 8)), (s32_id t) by lia.
  assert (Habs : (if t - mu_old_transit j <? 0 then s32 (- (t - mu_old_transit j))
                  else t - mu_old_transit j) = Z.abs (t - mu_old_transit j)).
  { destruct (_ <? 0) eqn:E; [rewrite s32_id by lia|]; lia. }
  rewrite Habs. set (dd := Z.abs _) in *. assert (0 <= dd <= D) by lia.
  assert (Hq : 0 <= (mu_jitter j + 8) / 16 <= mu_jitter j + 8) by (Z.div_mod_to_equations; lia).
  assert (Hr : 0 <= mu_jitter j + (dd - (mu_jitter j + 8) / 16) <= 16 * D + 7)
    by (Z.div_mod_to_equations; lia).
  rewrite s32_id by lia. split_and!; try lia.
  - rewrite u32_id; Z.div_mod_to_equations; lia.
  - rewrite u32_id; Z.div_mod_to_equations; lia.
Qed.
