(* ===== verification/RxHeader.v ===== *)
(** * The headers the generator adds to its packets

    Models [src/src/rx_check_header.h]: the header of the receive check and the IP
    option that carries a flow id through a NAT device. *)

From S2P Require Import Prelude ByteMem PktCmn PktCmnFacts.

(** ** [CRx_check_header] *)

(** The fields, as numbers; the structure has 24 bytes. *)
Record CRx_check_header : Type := mkRxHeader {
  m_option_type : Z;
  m_option_len : Z;
  m_magic : Z;
  m_time_stamp : Z;
  rx_flow_id : Z;
  m_pkt_id : Z;
  rx_flow_size : Z;
  rx_flags : Z;
  m_template_id : Z;
  m_aging_sec : Z }.

Definition RX_CHECK_LEN : Z := 24.
Definition RX_CHECK_V4_OPT_TYPE : Z := 0x57.
Definition RX_CHECK_V4_OPT_LEN : Z := RX_CHECK_LEN.
Definition RX_CHECK_V6_OPT_TYPE : Z := 0x3c.
Definition RX_CHECK_V6_OPT_LEN : Z := (RX_CHECK_LEN - 8) / 8.
Definition RX_CHECK_V6_SF_OPT_TYPE : Z := 0x17.
Definition RX_CHECK_V6_SF_OPT_LEN : Z := RX_CHECK_LEN - 2.
Definition RX_CHECK_MAGIC : Z :=
  Z.lor (Z.shiftl (Z.land RX_CHECK_V6_SF_OPT_LEN 0xff) 8) RX_CHECK_V6_SF_OPT_TYPE.

Definition is_fif_dir (h : CRx_check_header) : bool := m_pkt_id h =? 0.
Definition is_eof_dir (h : CRx_check_header) : bool := m_pkt_id h =? rx_flow_size h - 1.

Definition set_rx_flags (f : Z) (h : CRx_check_header) : CRx_check_header :=
  mkRxHeader (m_option_type h) (m_option_len h) (m_magic h) (m_time_stamp h) (rx_flow_id h)
    (m_pkt_id h) (rx_flow_size h) f (m_template_id h) (m_aging_sec h).

(** [set_dir], [get_dir], [set_both_dir], [get_both_dir]: bits 0 and 1 of the
    flags, counted from the low end. *)
Definition set_dir (dir : Z) (h : CRx_check_header) : CRx_check_header :=
  set_rx_flags (btSetMaskBit 8 (rx_flags h) 0 0 (if dir =? 0 then 0 else 1)) h.
Definition get_dir (h : CRx_check_header) : Z :=
  if btGetMaskBit 8 (rx_flags h) 0 0 =? 0 then 0 else 1.
Definition set_both_dir (both : Z) (h : CRx_check_header) : CRx_check_header :=
  set_rx_flags (btSetMaskBit 8 (rx_flags h) 1 1 (if both =? 0 then 0 else 1)) h.
Definition get_both_dir (h : CRx_check_header) : bool :=
  negb (btGetMaskBit 8 (rx_flags h) 1 1 =? 0).

Definition rxh_clean : CRx_check_header := mkRxHeader 0 0 0 0 0 0 0 0 0 0.

(** ** [CNatOption] *)

Definition noIPV4_OPTION : Z := 0x10.
Definition noOPTION_LEN : Z := 0x8.
Definition noIPV4_MAGIC : Z := 0xEE.
Definition noIPV4_MAGIC_RX : Z := 0xED.
Definition noIPV6_OPTION_LEN : Z := noOPTION_LEN / 8 - 1.
Definition noIPV6_OPTION : Z := 0x3C.

(** The option is the eight bytes at [o] of the packet [m]. *)
Section NatOption.
Context (m : bytes) (o : Z).

Definition set_option_type (id : Z) : res bytes := st8 m o id.
Definition get_option_type : res Z := ld8 m o.
Definition set_option_len (len : Z) : res bytes := st8 m (o + 1) len.
Definition get_option_len : res Z := ld8 m (o + 1).
Definition set_thread_id (thread_id : Z) : res bytes := st8 m (o + 3) thread_id.
Definition get_thread_id : res Z := ld8 m (o + 3).
Definition set_magic (magic : Z) : res bytes := st8 m (o + 2) magic.
Definition get_magic : res Z := ld8 m (o + 2).
Definition set_rx_check (enable : bool) : res bytes :=
  if enable then set_magic noIPV4_MAGIC_RX else set_magic noIPV4_MAGIC.
Definition is_rx_check : res bool := g ← get_magic; Ok (g =? noIPV4_MAGIC_RX).
Definition set_fid (fid : Z) : res bytes := st32 m (o + 4) fid.
Definition get_fid : res Z := ld32 m (o + 4).

Definition ipv4_magic_word (magic : Z) : Z :=
  Z.shiftl noIPV4_OPTION 24 + Z.shiftl noOPTION_LEN 16 + Z.shiftl magic 8.
Definition is_valid_ipv4_magic_op0 : res bool :=
  v ← ld32 m o; Ok (Z.land (PKT_NTOHL v) 0xFFFFFF00 =? ipv4_magic_word noIPV4_MAGIC).
Definition is_valid_ipv4_magic_op1 : res bool :=
  v ← ld32 m o; Ok (Z.land (PKT_NTOHL v) 0xFFFFFF00 =? ipv4_magic_word noIPV4_MAGIC_RX).
Definition is_valid_ipv4_magic : res bool :=
  a ← is_valid_ipv4_magic_op0;
  if (a : bool) then Ok true else is_valid_ipv4_magic_op1.
Definition is_valid_ipv6_magic : res bool :=
  v ← ld32 m o;
  Ok (Z.land (PKT_NTOHL v) 0x00FFFF00 =? Z.shiftl noIPV6_OPTION_LEN 16 + Z.shiftl noIPV4_MAGIC 8).
End NatOption.

Definition set_init_ipv4_header (m : bytes) (o : Z) : res bytes :=
  m ← set_option_type m o noIPV4_OPTION;
  m ← set_option_len m o noOPTION_LEN;
  set_magic m o noIPV4_MAGIC.

Definition set_init_ipv6_header (m : bytes) (o : Z) : res bytes :=
  m ← set_option_len m o noIPV6_OPTION_LEN;
  set_magic m o noIPV4_MAGIC.

(** ** Facts: the direction bits do not disturb each other, and the magic tests of the NAT
    option in terms of the bytes of the packet *)

(** ** Direction bits *)

Lemma rx_flags_bits f :
  0 <= f < 256 -> forall b, b = 0 \/ b = 1 ->
  let w0 := btSetMaskBit 8 f 0 0 b in let w1 := btSetMaskBit 8 f 1 1 b in
  btGetMaskBit 8 w0 0 0 = b /\ btGetMaskBit 8 w0 1 1 = btGetMaskBit 8 f 1 1 /\
  btGetMaskBit 8 w1 1 1 = b /\ btGetMaskBit 8 w1 0 0 = btGetMaskBit 8 f 0 0.
Proof.
  intros Hf.
  assert (Hall : forallb (fun f => forallb (fun b =>
      let w0 := btSetMaskBit 8 f 0 0 b in let w1 := btSetMaskBit 8 f 1 1 b in
      (btGetMaskBit 8 w0 0 0 =? b) && (btGetMaskBit 8 w0 1 1 =? btGetMaskBit 8 f 1 1) &&
      (btGetMaskBit 8 w1 1 1 =? b) && (btGetMaskBit 8 w1 0 0 =? btGetMaskBit 8 f 0 0))
      [0; 1]) (seqZ 0 256) = true) by (vm_compute; reflexivity).
  rewrite forallb_forall in Hall. intros b Hb w0 w1.
  assert (Hin : In f (seqZ 0 256)) by (apply list_elem_of_In, elem_of_seqZ; lia).
  specialize (Hall f Hin). rewrite forallb_forall in Hall.
  specialize (Hall b ltac:(simpl; destruct Hb; auto)). fold w0 w1 in Hall.
  rewrite !andb_true_iff, !Z.eqb_eq in Hall. tauto.
Qed.

Lemma dir_roundtrip d h :
  0 <= rx_flags h < 256 ->
  get_dir (set_dir d h) = (if d =? 0 then 0 else 1) /\
  get_both_dir (set_dir d h) = get_both_dir h /\
  get_both_dir (set_both_dir d h) = negb (d =? 0) /\
  get_dir (set_both_dir d h) = get_dir h.
Proof.
  intros Hf. unfold get_dir, get_both_dir, set_dir, set_both_dir, set_rx_flags. simpl rx_flags.
  destruct (rx_flags_bits (rx_flags h) Hf (if d =? 0 then 0 else 1)) as (-> & -> & -> & ->);
    [destruct (d =? 0); lia|].
  destruct (d =? 0); done.
Qed.

(** ** The NAT option *)

Lemma land_high24 x : 0 <= x < 4294967296 -> Z.land x 0xFFFFFF00 = x / 256 * 256.
Proof.
  intros Hx. change 256 with (2 ^ 8).
  rewrite <- (Z.shiftl_mul_pow2 _ 8), <- (Z.shiftr_div_pow2 x 8) by lia.
  apply Z.bits_inj'. intros i Hi. rewrite Z.land_spec, Z.shiftl_spec by lia.
  change 0xFFFFFF00 with (Z.shiftl (Z.ones 24) 8). rewrite Z.shiftl_spec by lia.
  destruct (decide (i < 8)).
  - rewrite !(Z.testbit_neg_r _ (i - 8)) by lia. apply andb_false_r.
  - rewrite Z.shiftr_spec by lia. replace (i - 8 + 8) with i by lia.
    destruct (decide (i < 32)).
    + rewrite Z.ones_spec_low by lia. apply andb_true_r.
    + rewrite Z.ones_spec_high, andb_false_r by lia. symmetry.
      rewrite <- (Z.mod_small x (2 ^ 32)) by lia. apply Z.mod_pow2_bits_high. lia.
Qed.

Lemma nat_word m o :
  bytes_ok m -> in_range 4 m o ->
  exists v, ld32 m o = Ok v /\
    PKT_NTOHL v = byte_at m o * 16777216 + byte_at m (o + 1) * 65536
                  + byte_at m (o + 2) * 256 + byte_at m (o + 3).
Proof.
  intros Hm Hr. destruct (ld32_words m o Hm Hr) as (v & Hv & Hrange & Hlo & Hhi).
  exists v. split; [done|]. unfold word_at in Hlo, Hhi. replace (o + 2 + 1) with (o + 3) in Hhi by lia.
  unfold PKT_NTOHL, PAL_NTOHL. rewrite u32_id, PAL_LONGSWAP_eq by done.
  rewrite PAL_NTOHS_eq in Hlo, Hhi.
  assert (byte_of 0 (v mod 65536) = byte_of 0 v /\ byte_of 1 (v mod 65536) = byte_of 1 v /\
          byte_of 0 (v / 65536) = byte_of 2 v /\ byte_of 1 (v / 65536) = byte_of 3 v) as (E0 & E1 & E2 & E3).
  { unfold_bytes. split_and!; Z.div_mod_to_equations; lia. }
  rewrite E0, E1 in Hlo. rewrite E2, E3 in Hhi. lia.
Qed.

(** The option is recognised by its first three bytes. *)
Lemma ipv4_magic_bytes m o :
  bytes_ok m -> in_range 4 m o ->
  is_valid_ipv4_magic m o =
    Ok ((byte_at m o =? 0x10) && (byte_at m (o + 1) =? 8) &&
        ((byte_at m (o + 2) =? 0xEE) || (byte_at m (o + 2) =? 0xED))).
Proof.
  intros Hm Hr. destruct (nat_word m o Hm Hr) as (v & Hv & Hw).
  pose proof (byte_at_range m o Hm). pose proof (byte_at_range m (o + 1) Hm).
  pose proof (byte_at_range m (o + 2) Hm). pose proof (byte_at_range m (o + 3) Hm).
  unfold is_valid_ipv4_magic, is_valid_ipv4_magic_op0, is_valid_ipv4_magic_op1. rewrite Hv.
  cbn [mbind res_bind]. rewrite land_high24 by (rewrite Hw; lia). rewrite Hw.
  replace (_ / 256 * 256) with (byte_at m o * 16777216 + byte_at m (o + 1) * 65536
    + byte_at m (o + 2) * 256) by (Z.div_mod_to_equations; lia).
  change (ipv4_magic_word noIPV4_MAGIC) with (16 * 16777216 + 8 * 65536 + 238 * 256).
  change (ipv4_magic_word noIPV4_MAGIC_RX) with (16 * 16777216 + 8 * 65536 + 237 * 256).
  destruct (_ =? 16 * 16777216 + 8 * 65536 + 238 * 256) eqn:E1; [f_equal; lia|].
  f_equal. lia.
Qed.
