(* ===== verification/CapTemplate.v ===== *)
(** * Capture templates

    Models [CCapFileFlowInfo] and the offline part of [CFlowPktInfo] of
    [src/src/bp_sim.{h,cpp}]: the packets of a capture file become a template, whose
    packets know their flow, their direction and their number in it.

    The reader of the file is the list of the packets it returns. *)

From S2P Require Import Prelude Double ByteMem PktCmn PacketHdrs PktDesc PktParser RxHeader.

Definition TTL_RESERVE_DUPLICATE : Z := 0xff.

(** [exit]: the process ends. *)
Definition exit_process {A} : res A := Err (Thrown "exit").

(** [m_packet] and [m_pkt_indication.m_packet] are one object. [m_big_mbuf] is the buffer
    that every enabled socket has, with the packet from its 65th byte on. *)
Record CFlowPktInfo : Type := mkPktInfo {
  m_pkt_indication : CPacketIndication; m_big_mbuf : option bytes }.

Definition fpi_packet (p : CFlowPktInfo) : CCapPktRaw := m_packet (m_pkt_indication p).
Definition fpi_desc (p : CFlowPktInfo) : CPacketDescriptor := m_desc (m_pkt_indication p).
Definition fpi_upd (f : CPacketIndication -> CPacketIndication) (p : CFlowPktInfo) : CFlowPktInfo :=
  mkPktInfo (f (m_pkt_indication p)) (m_big_mbuf p).
Definition fpi_upd_desc (f : CPacketDescriptor -> CPacketDescriptor) (p : CFlowPktInfo)
  : CFlowPktInfo :=
  fpi_upd (fun i => ind_set_desc (f (m_desc i)) i) p.

(** Without a big packet the buffer stays as it is. *)
Definition alloc_const_mbuf (p : CFlowPktInfo) : res CFlowPktInfo :=
  let pkt := fpi_packet p in
  if FIRST_PKT_SIZE <? pkt_len pkt then
    if decide (pkt_len pkt <= zlength (raw pkt)) then
      _ ← c_assert (bool_decide (m_big_mbuf p = None));
      Ok (mkPktInfo (m_pkt_indication p)
            (Some (take (Z.to_nat (pkt_len pkt - FIRST_PKT_SIZE)) (drop (Z.to_nat FIRST_PKT_SIZE) (raw pkt)))))
    else Err OutOfBounds
  else Ok p.
Definition free_const_mbuf (p : CFlowPktInfo) : CFlowPktInfo := mkPktInfo (m_pkt_indication p) None.

Definition CFlowPktInfo_Create (pkt_ind : CPacketIndication) : res CFlowPktInfo :=
  pkt ← raw_clone (m_packet pkt_ind);
  ind ← ind_clone pkt_ind pkt;
  alloc_const_mbuf (mkPktInfo ind None).

(** ** Options of the template *)

(** [CCapPktRaw::append]: [junk] is what the new bytes hold. *)
Definition raw_append (junk : bytes) (p : CCapPktRaw) : res CCapPktRaw :=
  if decide (0 <= pkt_len p <= zlength (raw p)) then
    Ok (set_pkt_len (pkt_len p + zlength junk) (set_raw (take (Z.to_nat (pkt_len p)) (raw p) ++ junk) p))
  else Err OutOfBounds.

(** [RefreshPointers] *)
Definition ind_refresh (i : CPacketIndication) : CPacketIndication :=
  ind_set_payload (if m_payload_offset i =? 0 then None else Some (m_payload_offset i)) (m_payload_len i)
    (ind_set_l4 (Some (m_udp_tcp_offset i))
      (ind_set_l3 (Some (m_ip_offset i)) (m_is_ipv6 i)
        (ind_set_ether (Some (m_ether_offset i)) i))).

(** The offsets of what is behind the new option. *)
Definition shift_offsets (n : Z) (i : CPacketIndication) : CPacketIndication :=
  let l4 := if m_udp_tcp_offset i =? 0 then m_udp_tcp_offset i else m_udp_tcp_offset i + n in
  let pl := if m_payload_offset i =? 0 then m_payload_offset i else m_payload_offset i + n in
  ind_set_offsets (m_ether_offset i) (m_ip_offset i) l4 pl i.

(** Makes room of [junk]'s size behind an IP header of [hdr] bytes: the packet, and the
    offset of the room. *)
Definition make_room (hdr : Z) (junk : bytes) (i : CPacketIndication) : res (CPacketIndication * Z) :=
  let n := zlength junk in
  pkt ← raw_append junk (m_packet i);
  let p := u8 (m_ip_offset i + hdr) in
  let bytes_to_move := u16 (pkt_len pkt - p - n) in
  m ← mem_copy (raw pkt) (p + n) (raw pkt) p bytes_to_move;
  let i := ind_refresh (shift_offsets n (ind_set_packet (set_raw m pkt) i)) in
  Ok (i, p).

Definition ind_update_raw (f : bytes -> res bytes) (i : CPacketIndication) : res CPacketIndication :=
  m ← f (raw (m_packet i)); Ok (ind_set_packet (set_raw m (m_packet i)) i).

(** [None]: the options of the packet leave no room. *)
Definition push_ipv4_option_offline (junk : bytes) (p : CFlowPktInfo) : res (CFlowPktInfo * option Z) :=
  let n := zlength junk in
  let i := m_pkt_indication p in
  _ ← c_assert (n mod 4 =? 0);
  _ ← c_assert (negb (m_is_ipv6 i));
  ip ← getIpOffset i;
  hl ← IP_getHeaderLength (raw (m_packet i)) ip;
  if 60 <? hl + n then Ok (p, None)
  else
    '(i, room) ← make_room IP_DefaultSize junk i;
    ip ← getIpOffset i;
    i ← ind_update_raw (fun m => tl ← IP_getTotalLength m ip; IP_setTotalLength m ip (u16 (tl + n))) i;
    i ← ind_update_raw (fun m => hl ← IP_getHeaderLength m ip; IP_setHeaderLength m ip (u8 (hl + n))) i;
    i ← UpdatePacketPadding i;
    p ← alloc_const_mbuf (free_const_mbuf (mkPktInfo i (m_big_mbuf p)));
    Ok (p, Some room).

(** The padding is computed from the bytes where an IPv4 header has its length. *)
Definition push_ipv6_option_offline (junk : bytes) (p : CFlowPktInfo) : res (CFlowPktInfo * Z) :=
  let n := zlength junk in
  let i := m_pkt_indication p in
  _ ← c_assert (n mod 8 =? 0);
  _ ← c_assert (m_is_ipv6 i);
  '(i, room) ← make_room IPV6_HDR_LEN junk i;
  ip ← getIpOffset i;
  i ← ind_update_raw (fun m => pl ← IPv6_getPayloadLen m ip; IPv6_setPayloadLen m ip (u16 (pl + n))) i;
  i ← ind_update_raw (fun m => h ← IPv6_getNextHdr m ip; m ← st8 m room h;
                               IPv6_setNextHdr m ip noIPV6_OPTION) i;
  i ← UpdatePacketPadding i;
  p ← alloc_const_mbuf (free_const_mbuf (mkPktInfo i (m_big_mbuf p)));
  Ok (p, room).

(** The buffer of the sockets keeps the packet as it was before the option was filled. *)
Definition mask_as_learn (junk : bytes) (p : CFlowPktInfo) : res CFlowPktInfo :=
  let fill (set_init : bytes -> Z -> res bytes) room m :=
    m ← set_init m room; m ← set_fid m room 0; set_thread_id m room 0 in
  p ← (if m_is_ipv6 (m_pkt_indication p) then
         '(p, room) ← push_ipv6_option_offline junk p;
         i ← ind_update_raw (fill set_init_ipv6_header room) (m_pkt_indication p);
         Ok (mkPktInfo i (m_big_mbuf p))
       else
         '(p, room) ← push_ipv4_option_offline junk p;
         match room with
         | None => Err NullDeref
         | Some room =>
             i ← ind_update_raw (fill set_init_ipv4_header room) (m_pkt_indication p);
             ip ← getIpOffset i;
             i ← ind_update_raw (fun m => IP_updateCheckSum m ip) i;
             Ok (mkPktInfo i (m_big_mbuf p))
         end);
  Ok (fpi_upd_desc (SetLearn true) p).

(** ** The template *)

Record CCapFileFlowInfo : Type := mkCap {
  m_flow_pkts : list CFlowPktInfo;
  m_total_bytes : Z; m_total_flows : Z; m_total_errors : Z }.

Definition CapFile_Create : CCapFileFlowInfo := mkCap [] 0 0 0.
Definition cap_RemoveAll (_ : CCapFileFlowInfo) : CCapFileFlowInfo := mkCap [] 0 0 0.
Definition cap_Size (c : CCapFileFlowInfo) : Z := zlength (m_flow_pkts c).
Definition cap_set_pkts (l : list CFlowPktInfo) (c : CCapFileFlowInfo) : CCapFileFlowInfo :=
  mkCap l (m_total_bytes c) (m_total_flows c) (m_total_errors c).
Definition cap_GetPacket (index : Z) (c : CCapFileFlowInfo) : res CFlowPktInfo :=
  match m_flow_pkts c !! Z.to_nat (u32 index) with Some p => Ok p | None => Err AssertFail end.
Definition cap_Append (i : CPacketIndication) (c : CCapFileFlowInfo) : res CCapFileFlowInfo :=
  p ← CFlowPktInfo_Create i; Ok (cap_set_pkts (m_flow_pkts c ++ [p]) c).
(** Every packet of the template, changed. *)
Definition cap_map (f : CFlowPktInfo -> CFlowPktInfo) (c : CCapFileFlowInfo) : CCapFileFlowInfo :=
  cap_set_pkts (f <$> m_flow_pkts c) c.

Definition cap_ipg (p : CFlowPktInfo) : double := m_cap_ipg (m_pkt_indication p).
Definition set_cap_ipg (x : double) (p : CFlowPktInfo) : CFlowPktInfo := fpi_upd (ind_set_ipg x) p.

Definition update_pcap_mode : CCapFileFlowInfo -> CCapFileFlowInfo :=
  cap_map (fpi_upd_desc (SetPcapTiming true)).

Definition get_cap_file_length_sec (c : CCapFileFlowInfo) : double :=
  fold_left (fun sum p => double_add sum (cap_ipg p)) (m_flow_pkts c) (double_of_Z 0).

Definition update_min_ipg (min_ipg override_ipg : double) : CCapFileFlowInfo -> CCapFileFlowInfo :=
  cap_map (fun p =>
    let p := if double_ltb (cap_ipg p) min_ipg then set_cap_ipg override_ipg p else p in
    if double_ltb (cap_ipg p) override_ipg then set_cap_ipg override_ipg p else p).

(** [CCCapFileMemoryUsage]: how many packets need how large a buffer. *)
Record CCCapFileMemoryUsage : Type := mkMemUsage { mu_buf : list Z; mu_total_bytes : Z }.
Definition MASK_SIZE : nat := 6.
Definition mem_clear : CCCapFileMemoryUsage := mkMemUsage (replicate MASK_SIZE 0) 0.

Fixpoint size_class (fuel : nat) (size c_size : Z) : option nat :=
  match fuel with
  | O => None
  | S f => if size <? c_size then Some 0%nat else S <$> size_class f size (c_size * 2)
  end.
Definition add_size (size : Z) (u : CCCapFileMemoryUsage) : res CCCapFileMemoryUsage :=
  match size_class MASK_SIZE size 64 with
  | Some i => Ok (mkMemUsage (alter (fun n => u32 (n + 1)) i (mu_buf u)) (u64 (mu_total_bytes u + size)))
  | None => exit_process
  end.
Definition mem_Add (obj u : CCCapFileMemoryUsage) : CCCapFileMemoryUsage :=
  mkMemUsage (zip_with (fun a b => u32 (a + b)) (mu_buf u) (mu_buf obj))
    (u64 (mu_total_bytes u + mu_total_bytes obj)).
Definition get_total_memory (c : CCapFileFlowInfo) : res CCCapFileMemoryUsage :=
  foldl (fun r p =>
      u ← r;
      if FIRST_PKT_SIZE <? pkt_len (fpi_packet p) then add_size (pkt_len (fpi_packet p) - FIRST_PKT_SIZE) u
      else Ok u)
    (Ok mem_clear) (m_flow_pkts c).

(** ** Reading a file *)

Section Load.
Context (is_ipv6_enable : bool) (m_src_ipv6 m_dst_ipv6 : list Z) (cbuff : bytes).

(** The variables of the loop: [ld_last] is the time of the last packet, [ld_first] the
    key of the first flow, which stands for the pointer [first_flow]. *)
Record load_state : Type := mkLoad {
  ld_cap : CCapFileFlowInfo;
  ld_table : CFlowTable;
  ld_cnt : CCPacketParserCounters;
  ld_ind : CPacketIndication;
  ld_last : option double;
  ld_first : option CFlowKey;
  ld_fif_swap : bool }.

Definition is_initiator (fif_swap : bool) (i : CPacketIndication) : bool :=
  Bool.eqb fif_swap (IsSwapTuple (m_desc i)).
Definition mark_init (b : bool) (i : CPacketIndication) : CPacketIndication :=
  ind_set_desc (SetInitSide b (m_desc i)) i.

(** A reserved TTL is replaced. *)
Definition fix_ttl (i : CPacketIndication) : res CPacketIndication :=
  ttl ← getTTL i;
  if (ttl =? TTL_RESERVE_DUPLICATE) || (ttl =? TTL_RESERVE_DUPLICATE - 1)
  then setTTL (TTL_RESERVE_DUPLICATE - 4) i else Ok i.

Definition inc_flows (c : CCapFileFlowInfo) : CCapFileFlowInfo :=
  mkCap (m_flow_pkts c) (m_total_bytes c) (u64 (m_total_flows c + 1)) (m_total_errors c).
Definition inc_errors (n : Z) (c : CCapFileFlowInfo) : CCapFileFlowInfo :=
  mkCap (m_flow_pkts c) (m_total_bytes c) (m_total_flows c) (u64 (m_total_errors c + n)).
Definition add_bytes (n : Z) (c : CCapFileFlowInfo) : CCapFileFlowInfo :=
  mkCap (m_flow_pkts c) (u64 (m_total_bytes c + n)) (m_total_flows c) (m_total_errors c).

(** A packet of the flow [key], new ([is_fif]) or known, joins the template or is an
    error. The result is the template, the flow, the first flow and its orientation. *)
Definition place_packet (multi : bool) (is_fif : bool) (key : CFlowKey) (f : CFlow)
    (i : CPacketIndication) (s : load_state)
  : res (CCapFileFlowInfo * CFlow * option CFlowKey * bool * CPacketIndication) :=
  let c := ld_cap s in
  let swap := IsSwapTuple (m_desc i) in
  if is_fif then
    let f := mkFlow (is_fif_swap f) (fl_pkt_id f) (u32 (m_total_flows c)) in
    let i := ind_set_desc (SetFlowId (fl_flow_id f) (m_desc i)) i in
    if m_total_flows c =? 0 then
      let i := mark_init true i in
      c ← cap_Append i c;
      Ok (inc_flows c, mkFlow swap (fl_pkt_id f) (fl_flow_id f), Some key, swap, i)
    else if multi then
      let i := mark_init (is_initiator (ld_fif_swap s) i) i in
      c ← cap_Append i c;
      Ok (inc_flows c, mkFlow swap (fl_pkt_id f) (fl_flow_id f), ld_first s, ld_fif_swap s, i)
    else Ok (inc_errors 1 c, f, ld_first s, ld_fif_swap s, i)
  else
    let i := ind_set_desc (SetFlowId (fl_flow_id f) (m_desc i)) i in
    if multi then
      let i := mark_init (is_initiator (ld_fif_swap s) i) i in
      c ← cap_Append i c; Ok (c, f, ld_first s, ld_fif_swap s, i)
    else if decide (ld_first s = Some key) then
      let i := mark_init (is_initiator (is_fif_swap f) i) i in
      c ← cap_Append i c; Ok (c, f, ld_first s, ld_fif_swap s, i)
    else Ok (inc_errors 1 c, f, ld_first s, ld_fif_swap s, i).

(** One turn of the loop. *)
Definition load_packet (_id plugin_id : Z) (raw_packet : CCapPktRaw) (s : load_state)
  : res load_state :=
  let multi := negb (plugin_id =? 0) in
  let t := get_time raw_packet in
  if match ld_last s with Some last => double_ltb t last | None => false end then exit_process
  else
    '(ok, (k, i)) ← ProcessPacket is_ipv6_enable m_src_ipv6 m_dst_ipv6 cbuff (ld_cnt s) (ld_ind s) raw_packet;
    if negb (ok : bool) then exit_process
    else
      let i := ind_set_desc (SetId _id (SetPluginId plugin_id (SetPluginEnable multi (m_desc i)))) i in
      let key := m_flow_key i in
      let '(f, is_fif, table) := ft_process key (ld_table s) in
      let c := add_bytes (pkt_len (m_packet i)) (ld_cap s) in
      let i := ind_set_ipg (get_time (m_packet i)) i in
      let i := ind_set_desc (SetFlowPktNum (fl_pkt_id f) (m_desc i)) i in
      let f := mkFlow (is_fif_swap f) (u32 (fl_pkt_id f + 1)) (fl_flow_id f) in
      i ← fix_ttl i;
      '(c, f, first, fif_swap, i) ←
        place_packet multi is_fif key f i (mkLoad c table k i (Some t) (ld_first s) (ld_fif_swap s));
      Ok (mkLoad c (ft_set key f table) k i (Some t) first fif_swap).

(** The gaps: every packet but the last holds the time to the next one, and whether the
    next one goes the other way. *)
Fixpoint make_gaps (l : list CFlowPktInfo) : list CFlowPktInfo :=
  match l with
  | p :: ((q :: _) as rest) =>
      let p' := set_cap_ipg (double_sub (cap_ipg q) (cap_ipg p)) p in
      let p' := if Bool.eqb (IsInitSide (fpi_desc q)) (IsInitSide (fpi_desc p)) then p'
                else fpi_upd_desc (SetRtt true) p' in
      p' :: make_gaps rest
  | l => l
  end.

Definition set_last (f : CFlowPktInfo -> CFlowPktInfo) (c : CCapFileFlowInfo) : res CCapFileFlowInfo :=
  p ← cap_GetPacket (cap_Size c - 1) c;
  Ok (cap_set_pkts (<[Z.to_nat (cap_Size c - 1) := f p]> (m_flow_pkts c)) c).

(** What [load_cap_file] starts with: [junk] is what the memory of the counters holds, [i0] that
    of the indication. *)
Definition load_new (junk : CCPacketParserCounters) (i0 : CPacketIndication) : load_state :=
  mkLoad CapFile_Create FlowTable_create (counters_clear junk) i0 None None false.

(** Its end: 0 for a template without errors, else -1. *)
Definition load_finish (s : load_state) : res (CCapFileFlowInfo * Z) :=
  c ← set_last (fpi_upd_desc (SetIsLastPkt true)) (ld_cap s);
  let c := cap_set_pkts (make_gaps (m_flow_pkts c)) c in
  c ← set_last (set_cap_ipg (double_of_Z 0)) c;
  let c := inc_errors (getTotalErrors (ld_cnt s)) c in
  Ok (c, if 0 <? m_total_errors c then -1 else 0).

(** [load_cap_file] on the packets that the reader of the file gives. *)
Definition load_cap_file (junk : CCPacketParserCounters) (i0 : CPacketIndication)
    (pkts : list CCapPktRaw) (_id plugin_id : Z) : res (CCapFileFlowInfo * Z) :=
  s ← foldl (fun r p => s ← r; load_packet _id plugin_id p s) (Ok (load_new junk i0)) pkts;
  load_finish s.
End Load.

(** ** Numbering the packets *)

(** [CTmpFlowInfo]: the packets of each direction, the client's first. *)
Record CTmpFlowInfo : Type := mkTmpFlow {
  t_max_pkts : Z; t_max_aging : double; t_last_pkt : double; t_client : Z; t_server : Z }.
Definition tmp_new : CTmpFlowInfo := mkTmpFlow 0 (double_of_Z 0) (double_of_Z 0) 0 0.
Definition t_dir (init : bool) (f : CTmpFlowInfo) : Z := if init then t_client f else t_server f.

Definition tmp_packet (init : bool) (ctime : double) (f : CTmpFlowInfo) : CTmpFlowInfo :=
  let delta := double_sub ctime (t_last_pkt f) in
  mkTmpFlow (u32 (t_max_pkts f + 1))
    (if double_ltb (t_max_aging f) delta then delta else t_max_aging f) ctime
    (if init then u16 (t_client f + 1) else t_client f)
    (if init then t_server f else u16 (t_server f + 1)).

(** The first pass: numbers the packets and learns the flows. *)
Fixpoint learn_flows (l : list CFlowPktInfo) (ctime : double) (ft : gmap Z CTmpFlowInfo)
  : res (list CFlowPktInfo * gmap Z CTmpFlowInfo) :=
  match l with
  | [] => Ok ([], ft)
  | p :: rest =>
      let desc := fpi_desc p in
      let init := IsInitSide desc in
      let f := default tmp_new (ft !! getFlowId desc) in
      dir ← SetPktNum (t_dir init f) (GetDirInfo desc);
      let p := fpi_upd_desc (upd_DirInfo dir) p in
      '(rest, ft) ← learn_flows rest (double_add ctime (cap_ipg p))
                      (<[getFlowId desc := tmp_packet init ctime f]> ft);
      Ok (p :: rest, ft)
  end.

(** The second pass: tells a packet the size of its flow. *)
Definition tell_flow (ft : gmap Z CTmpFlowInfo) (p : CFlowPktInfo) : res CFlowPktInfo :=
  let desc := fpi_desc p in
  match ft !! getFlowId desc with
  | None => Err AssertFail
  | Some f =>
      let init := IsInitSide desc in
      let desc := if (0 <? t_client f) && (0 <? t_server f) then SetBiPluginEnable true desc else desc in
      dir ← SetMaxPkts (t_dir init f) (GetDirInfo desc);
      desc ← SetMaxPktsPerFlow (t_max_pkts f) (upd_DirInfo dir desc);
      Ok (fpi_upd_desc (fun _ => SetMaxFlowTimeout (t_max_aging f) desc) p)
  end.

Fixpoint tell_flows (ft : gmap Z CTmpFlowInfo) (l : list CFlowPktInfo) : res (list CFlowPktInfo) :=
  match l with
  | [] => Ok []
  | p :: l => p ← tell_flow ft p; l ← tell_flows ft l; Ok (p :: l)
  end.

Definition update_info (is_learn_mode : bool) (junk : bytes) (c : CCapFileFlowInfo)
  : res CCapFileFlowInfo :=
  '(l, ft) ← learn_flows (m_flow_pkts c) (double_of_Z 0) ∅;
  l ← tell_flows ft l;
  let c := cap_set_pkts l c in
  if is_learn_mode then
    p ← cap_GetPacket 0 c;
    if IsBiDirectionalFlow (fpi_desc p) then
      p ← mask_as_learn junk p;
      Ok (cap_set_pkts (<[0%nat := p]> (m_flow_pkts c)) c)
    else Ok c
  else Ok c.

(** ** Which templates the generator supports *)

Definition is_valid_packet (p : CFlowPktInfo) : res (option string) :=
  let i := m_pkt_indication p in
  e ← getEtherOffset i;
  if negb (e =? 0) then Ok (Some " supported template Ether offset start is 0 "%string)
  else
    ip ← getIpOffset i;
    if negb (ip =? 14) then Ok (Some " supported template ip offset is 14 "%string)
    else
      l4 ← getTcpOffset i;
      if m_is_ipv6 i then
        if negb (l4 =? 14 + 40)
        then Ok (Some " supported template tcp/udp offset is 54, no ipv6 option header is supported "%string)
        else Ok None
      else if negb (l4 =? 14 + 20)
        then Ok (Some " supported template tcp/udp offset is 34, no ipv4 option is allowed in this version "%string)
      else Ok None.

Fixpoint is_valid_packets (l : list CFlowPktInfo) : res (option string) :=
  match l with
  | [] => Ok None
  | p :: l => e ← is_valid_packet p; match e with None => is_valid_packets l | Some _ => Ok e end
  end.

(** [is_valid_template_load_time]: [None] for a valid template. *)
Definition is_valid_template_load_time (is_learn_mode : bool) (c : CCapFileFlowInfo)
  : res (option string) :=
  e ← is_valid_packets (m_flow_pkts c);
  match e with
  | Some _ => Ok e
  | None =>
      if is_learn_mode then
        p ← cap_GetPacket 0 c;
        Ok (if IsPluginEnable (fpi_desc p)
            then Some "plugins are not supported with --learn mode "%string else None)
      else Ok None
  end.
