(* ===== verification/CapTemplateFacts.v ===== *)
(** * Facts about capture templates

    The numbers a template gives its packets: within its flow and its direction every
    packet has the number of the packets before it, and knows how many there are. *)

From S2P Require Import Prelude Double ByteMem PktCmn PktCmnFacts PktDesc PktParser PktParserFacts CapTemplate.

(** ** Flows of a template *)

Definition in_flow (fid : Z) (p : CFlowPktInfo) : Prop := getFlowId (fpi_desc p) = fid.
Definition in_dir (fid : Z) (init : bool) (p : CFlowPktInfo) : Prop :=
  getFlowId (fpi_desc p) = fid /\ IsInitSide (fpi_desc p) = init.
#[export] Instance in_flow_dec fid p : Decision (in_flow fid p).
Proof. unfold in_flow. apply _. Defined.
#[export] Instance in_dir_dec fid init p : Decision (in_dir fid init p).
Proof. unfold in_dir. apply _. Defined.

(** How many packets a flow has, and how many of one direction. *)
Definition flow_size (fid : Z) (l : list CFlowPktInfo) : Z := zlength (filter (in_flow fid) l).
Definition dir_size (fid : Z) (init : bool) (l : list CFlowPktInfo) : Z :=
  zlength (filter (in_dir fid init) l).

(** The times of the packets of a flow, when the first packet of [l] is at [ctime]. *)
Fixpoint flow_times (fid : Z) (l : list CFlowPktInfo) (ctime : double) : list double :=
  match l with
  | [] => []
  | p :: l =>
      let rest := flow_times fid l (double_add ctime (cap_ipg p)) in
      if decide (in_flow fid p) then ctime :: rest else rest
  end.
(** The longest gap, at least [gap], of times that follow [last]. *)
Fixpoint longest_gap (last gap : double) (l : list double) : double :=
  match l with
  | [] => gap
  | t :: l =>
      let delta := double_sub t last in
      longest_gap t (if double_ltb gap delta then delta else gap) l
  end.

Lemma zlength_cons {A} (x : A) l : zlength (x :: l) = zlength l + 1.
Proof. unfold zlength. simpl. lia. Qed.
Lemma zlength_pos {A} (l : list A) : 0 <= zlength l.
Proof. unfold zlength. lia. Qed.

Lemma flow_size_cons fid p l :
  flow_size fid (p :: l) = (if decide (in_flow fid p) then 1 else 0) + flow_size fid l.
Proof. unfold flow_size. rewrite filter_cons. case_decide; rewrite ?zlength_cons; lia. Qed.
Lemma dir_size_cons fid init p l :
  dir_size fid init (p :: l) = (if decide (in_dir fid init p) then 1 else 0) + dir_size fid init l.
Proof. unfold dir_size. rewrite filter_cons. case_decide; rewrite ?zlength_cons; lia. Qed.
Lemma flow_size_dirs fid l : flow_size fid l = dir_size fid true l + dir_size fid false l.
Proof.
  induction l as [|p l IH]; [done|]. rewrite flow_size_cons, !dir_size_cons, IH.
  repeat case_decide; unfold in_flow, in_dir in *; destruct (IsInitSide (fpi_desc p));
    intuition (congruence || lia).
Qed.
Lemma flow_size_range fid l : 0 <= flow_size fid l <= zlength l.
Proof. unfold flow_size, zlength. pose proof (length_filter (in_flow fid) l). lia. Qed.
Lemma dir_size_range fid init l : 0 <= dir_size fid init l <= flow_size fid l.
Proof.
  pose proof (zlength_pos (filter (in_dir fid true) l)).
  pose proof (zlength_pos (filter (in_dir fid false) l)).
  rewrite flow_size_dirs. unfold dir_size in *. destruct init; lia.
Qed.

(** ** Descriptors *)

Lemma upd_DirInfo_eq dir d :
  pd_flags (upd_DirInfo dir d) = pd_flags d /\ GetDirInfo (upd_DirInfo dir d) = dir /\
  m_max_flow_pkts (upd_DirInfo dir d) = m_max_flow_pkts d /\
  m_max_flow_aging (upd_DirInfo dir d) = m_max_flow_aging d.
Proof.
  unfold upd_DirInfo, GetDirInfo, IsInitSide, is_bit.
  destruct (negb (get32 (pd_flags d) IS_INIT_SIDE IS_INIT_SIDE =? 0)) eqn:E; cbn [pd_flags];
    by rewrite E.
Qed.

(** Only the descriptor of a packet changes, and not the flags of its flow and direction. *)
Definition renumbered (p p' : CFlowPktInfo) : Prop :=
  exists d, p' = fpi_upd_desc (fun _ => d) p /\
    getFlowId d = getFlowId (fpi_desc p) /\ IsInitSide d = IsInitSide (fpi_desc p).

Lemma renumbered_dir p p' fid init :
  renumbered p p' -> in_dir fid init p' <-> in_dir fid init p.
Proof. intros (d & -> & Hf & Hi). unfold in_dir. change (fpi_desc (fpi_upd_desc (fun _ => d) p)) with d. by rewrite Hf, Hi. Qed.
Lemma renumbered_trans p p' p'' : renumbered p p' -> renumbered p' p'' -> renumbered p p''.
Proof.
  intros (d & -> & Hf & Hi) (d' & -> & Hf' & Hi'). exists d'.
  change (fpi_desc (fpi_upd_desc (fun _ => d) p)) with d in *. split; [done|]. by rewrite Hf', Hi'.
Qed.

(** The first pass leaves the flags alone. *)
Definition same_flags (p p' : CFlowPktInfo) : Prop :=
  exists d, p' = fpi_upd_desc (fun _ => d) p /\ pd_flags d = pd_flags (fpi_desc p).

Lemma same_flags_renumbered p p' :
  same_flags p p' ->
  renumbered p p' /\ IsBiDirectionalFlow (fpi_desc p') = IsBiDirectionalFlow (fpi_desc p).
Proof.
  intros (d & -> & Hd). split; [exists d; split; [done|]|];
    unfold getFlowId, IsInitSide, IsBiDirectionalFlow, is_bit; [by rewrite Hd|].
  change (fpi_desc (fpi_upd_desc (fun _ => d) p)) with d. by rewrite Hd.
Qed.

(** ** The first pass *)

Definition tmp (ft : gmap Z CTmpFlowInfo) (fid : Z) : CTmpFlowInfo := default tmp_new (ft !! fid).

(** What a template tells a flow, from the packets it has. *)
Definition learnt (fid : Z) (l : list CFlowPktInfo) (ctime : double) (f f' : CTmpFlowInfo) : Prop :=
  t_max_pkts f' = t_max_pkts f + flow_size fid l /\
  (forall init, t_dir init f' = t_dir init f + dir_size fid init l) /\
  t_max_aging f' = longest_gap (t_last_pkt f) (t_max_aging f) (flow_times fid l ctime).

(** No counter of a flow can overflow while [n] packets are added. *)
Definition room_for (n : Z) (f : CTmpFlowInfo) : Prop :=
  0 <= t_client f /\ 0 <= t_server f /\ 0 <= t_max_pkts f /\
  t_client f + n <= 65000 /\ t_server f + n <= 65000 /\ t_max_pkts f + n <= 65000.

Lemma tmp_packet_eq init ctime f n :
  room_for (n + 1) f -> 0 <= n ->
  room_for n (tmp_packet init ctime f) /\ t_max_pkts (tmp_packet init ctime f) = t_max_pkts f + 1 /\
  t_dir init (tmp_packet init ctime f) = t_dir init f + 1 /\
  t_dir (negb init) (tmp_packet init ctime f) = t_dir (negb init) f.
Proof.
  intros (Hc & Hs & Hm & Hc' & Hs' & Hm') Hn. unfold room_for, tmp_packet, t_dir.
  destruct init; cbn; rewrite ?u16_id, ?u32_id by lia; lia.
Qed.

Lemma room_for_le n m f : room_for n f -> m <= n -> room_for m f.
Proof. unfold room_for. lia. Qed.

Lemma t_dir_range n init f : room_for n f -> 0 <= t_dir init f <= 65000 - n.
Proof. unfold room_for, t_dir. destruct init; lia. Qed.

Lemma tmp_insert ft fid f fid' :
  tmp (<[fid := f]> ft) fid' = if decide (fid = fid') then f else tmp ft fid'.
Proof.
  unfold tmp. case_decide as E; [subst; by rewrite lookup_insert_eq|by rewrite lookup_insert_ne].
Qed.

Lemma learnt_cons fid p l ctime f' ft :
  room_for (zlength (p :: l)) (tmp ft (getFlowId (fpi_desc p))) ->
  learnt fid l (double_add ctime (cap_ipg p))
    (tmp (<[getFlowId (fpi_desc p) :=
             tmp_packet (IsInitSide (fpi_desc p)) ctime (tmp ft (getFlowId (fpi_desc p)))]> ft) fid) f' ->
  learnt fid (p :: l) ctime (tmp ft fid) f'.
Proof.
  rewrite zlength_cons. intros Hr (Hm & Hd & Ha). unfold learnt. rewrite flow_size_cons. cbn [flow_times].
  rewrite tmp_insert in Hm, Hd, Ha. set (init := IsInitSide (fpi_desc p)) in *.
  destruct (tmp_packet_eq init ctime _ _ Hr (zlength_pos l)) as (_ & Em & Ei & En).
  destruct (decide (in_flow fid p)) as [Hf|Hne]; unfold in_flow in *.
  - subst fid. rewrite decide_True in Hm, Hd, Ha by done. rewrite Em in Hm.
    split; [lia|]. split; [|exact Ha].
    intros b. rewrite Hd, dir_size_cons. destruct (decide (in_dir _ _ _)) as [Hb|Hb]; unfold in_dir in Hb; fold init in Hb.
    + destruct Hb as [_ <-]. lia.
    + assert (b = negb init) as -> by (destruct b, init; simpl; tauto). lia.
  - rewrite decide_False in Hm, Hd, Ha by done. split; [lia|]. split; [|exact Ha].
    intros b. rewrite Hd, dir_size_cons. rewrite decide_False; [lia|]. unfold in_dir. tauto.
Qed.

Lemma learn_flows_spec l : forall ctime ft,
  (forall fid, room_for (zlength l) (tmp ft fid)) ->
  exists l' ft', learn_flows l ctime ft = Ok (l', ft') /\ Forall2 same_flags l l' /\
    (forall p, p ∈ l -> is_Some (ft' !! getFlowId (fpi_desc p))) /\
    (forall fid, is_Some (ft !! fid) -> is_Some (ft' !! fid)) /\
    (forall fid, learnt fid l ctime (tmp ft fid) (tmp ft' fid)) /\
    (forall fid init, (fun p => m_dir_pkt_num (GetDirInfo (fpi_desc p))) <$> filter (in_dir fid init) l' =
                      seqZ (t_dir init (tmp ft fid)) (dir_size fid init l)).
Proof.
  induction l as [|p l IH]; intros ctime ft Hroom.
  - exists [], ft. split_and!; try done.
    + intros p Hp. by apply elem_of_nil in Hp.
    + intros fid. unfold learnt. change (flow_size fid []) with 0.
      split_and!; [lia|intros b; change (dir_size fid b []) with 0; lia|done].
  - set (fid0 := getFlowId (fpi_desc p)). set (init0 := IsInitSide (fpi_desc p)).
    pose proof (Hroom fid0) as Hr0. rewrite zlength_cons in Hr0. pose proof (zlength_pos l) as Hl.
    set (ft1 := <[fid0 := tmp_packet init0 ctime (tmp ft fid0)]> ft).
    destruct (tmp_packet_eq init0 ctime _ _ Hr0 Hl) as (Hr1 & _ & Hi & Hn).
    destruct (IH (double_add ctime (cap_ipg p)) ft1) as (l' & ft' & E & Hren & Hin & Hmono & Hlearn & Hnum).
    { intros fid. unfold ft1. rewrite tmp_insert. case_decide; [done|].
      eapply room_for_le; [apply Hroom|]. rewrite zlength_cons. lia. }
    pose proof (t_dir_range _ init0 _ Hr0) as Htd.
    set (dir := mkPerDir (t_dir init0 (tmp ft fid0)) (m_max_dir_flow_pkts (GetDirInfo (fpi_desc p)))).
    assert (Hset : SetPktNum (t_dir init0 (tmp ft fid0)) (GetDirInfo (fpi_desc p)) = Ok dir).
    { unfold SetPktNum, c_assert. replace (_ <? 65000) with true by lia. cbn. by rewrite u16_id by lia. }
    destruct (upd_DirInfo_eq dir (fpi_desc p)) as (Hfl & Hdi & _).
    assert (Hp : same_flags p (fpi_upd_desc (upd_DirInfo dir) p)) by by exists (upd_DirInfo dir (fpi_desc p)).
    exists (fpi_upd_desc (upd_DirInfo dir) p :: l'), ft'. split_and!.
    + cbn [learn_flows]. fold fid0 init0. fold (tmp ft fid0). rewrite Hset. cbn [mbind res_bind].
      fold ft1. change (cap_ipg (fpi_upd_desc (upd_DirInfo dir) p)) with (cap_ipg p). by rewrite E.
    + by constructor.
    + intros q [->|Hq]%elem_of_cons; [|by apply Hin]. apply Hmono. unfold ft1, fid0.
      rewrite lookup_insert_eq. by eexists.
    + intros fid Hs. apply Hmono. unfold ft1. destruct (decide (fid0 = fid)) as [->|];
        [rewrite lookup_insert_eq; by eexists|by rewrite lookup_insert_ne].
    + intros fid. apply learnt_cons; [apply Hroom|apply Hlearn].
    + intros fid init. specialize (Hnum fid init). rewrite filter_cons, dir_size_cons.
      unfold ft1 in Hnum. rewrite tmp_insert in Hnum.
      pose proof (renumbered_dir _ _ fid init (proj1 (same_flags_renumbered _ _ Hp))) as Hiff.
      destruct (decide (in_dir fid init p)) as [Hd|Hd].
      * rewrite decide_True by by apply Hiff. destruct Hd as [Hf Hb].
        rewrite decide_True in Hnum by done. fold init0 in Hb. rewrite <- Hb, Hi in Hnum.
        rewrite fmap_cons, <- Hb, Hnum, (seqZ_cons (t_dir init0 (tmp ft fid)))
          by (pose proof (zlength_pos (filter (in_dir fid init0) l)); unfold dir_size; lia).
        assert (fid0 = fid) as Hf0 by exact Hf. rewrite <- Hf0.
        f_equal; [|f_equal; lia].
        change (m_dir_pkt_num (GetDirInfo (upd_DirInfo dir (fpi_desc p))) = t_dir init0 (tmp ft fid0)).
        by rewrite Hdi.
      * rewrite decide_False by by intros ?%Hiff. rewrite Hnum. f_equal.
        case_decide as Hf; [|done]. subst fid. assert (init = negb init0) as ->; [|done].
        unfold in_dir in Hd. fold fid0 init0 in Hd. destruct init, init0; simpl; tauto.
Qed.

(** ** The second pass *)

(** What a packet [p'] of the template knows, where [p] was before, of the flow of [p]
    among the packets [l]. *)
Record told (l : list CFlowPktInfo) (p p' : CFlowPktInfo) : Prop := {
  td_same : renumbered p p';
  td_dir : m_max_dir_flow_pkts (GetDirInfo (fpi_desc p')) =
           dir_size (getFlowId (fpi_desc p)) (IsInitSide (fpi_desc p)) l;
  td_flow : GetMaxPktsPerFlow (fpi_desc p') = flow_size (getFlowId (fpi_desc p)) l;
  td_both : IsBiDirectionalFlow (fpi_desc p') =
            IsBiDirectionalFlow (fpi_desc p) ||
            (0 <? dir_size (getFlowId (fpi_desc p)) true l) &&
            (0 <? dir_size (getFlowId (fpi_desc p)) false l);
  td_aging : GetMaxFlowTimeout (fpi_desc p') =
             flow_timeout (longest_gap (double_of_Z 0) (double_of_Z 0)
                             (flow_times (getFlowId (fpi_desc p)) l (double_of_Z 0))) }.

(** The flow a packet is told of, as the first pass learnt it. *)
Definition knows (l : list CFlowPktInfo) (fid : Z) (f : CTmpFlowInfo) : Prop :=
  t_max_pkts f = flow_size fid l /\ (forall init, t_dir init f = dir_size fid init l) /\
  t_max_aging f = longest_gap (double_of_Z 0) (double_of_Z 0) (flow_times fid l (double_of_Z 0)).

Lemma set_both_bits b d :
  getFlowId (SetBiPluginEnable b d) = getFlowId d /\ IsInitSide (SetBiPluginEnable b d) = IsInitSide d /\
  IsBiDirectionalFlow (SetBiPluginEnable b d) = b /\ GetDirInfo (SetBiPluginEnable b d) = GetDirInfo d.
Proof.
  assert (Hi : IsInitSide (SetBiPluginEnable b d) = IsInitSide d).
  { unfold IsInitSide, SetBiPluginEnable, set_bit, IS_INIT_SIDE, BOTH_DIR_FLOW.
    by rewrite get_set_bit_other by lia. }
  split_and!; [| done | |].
  - unfold getFlowId, SetBiPluginEnable, set_bit, BOTH_DIR_FLOW. by rewrite get_set_field_other by lia.
  - unfold IsBiDirectionalFlow, SetBiPluginEnable. by apply get_set_bit.
  - unfold GetDirInfo. by rewrite Hi.
Qed.

Lemma tell_flow_spec ft l p f :
  zlength l < 65000 -> ft !! getFlowId (fpi_desc p) = Some f -> knows l (getFlowId (fpi_desc p)) f ->
  exists p', tell_flow ft p = Ok p' /\ told l p p' /\
    m_dir_pkt_num (GetDirInfo (fpi_desc p')) = m_dir_pkt_num (GetDirInfo (fpi_desc p)).
Proof.
  intros Hl Hf (Hm & Hd & Ha). unfold tell_flow. rewrite Hf. set (fid := getFlowId (fpi_desc p)) in *.
  set (init := IsInitSide (fpi_desc p)).
  pose proof (flow_size_range fid l) as Hfs. pose proof (dir_size_range fid init l) as Hds.
  pose proof (Hd true) as Hc. pose proof (Hd false) as Hs. unfold t_dir in Hc, Hs. rewrite Hc, Hs.
  set (d := if _ && _ then _ else _).
  assert (getFlowId d = fid /\ IsInitSide d = init /\ GetDirInfo d = GetDirInfo (fpi_desc p) /\
          IsBiDirectionalFlow d = IsBiDirectionalFlow (fpi_desc p) ||
             (0 <? dir_size fid true l) && (0 <? dir_size fid false l)) as (Hdf & Hdi & Hdd & Hdb).
  { unfold d. destruct (set_both_bits true (fpi_desc p)) as (E1 & E2 & E3 & E4).
    destruct (_ && _); rewrite ?E1, ?E2, ?E3, ?E4, ?orb_true_r, ?orb_false_r; done. }
  clearbody d. unfold SetMaxPkts, SetMaxPktsPerFlow, c_assert. rewrite Hd, Hm, Hdd.
  replace (dir_size fid init l <? 65000) with true by lia.
  replace (flow_size fid l <? 65000) with true by lia. cbn [mbind res_bind].
  rewrite u16_id by lia. set (dir := mkPerDir _ _).
  destruct (upd_DirInfo_eq dir d) as (Ufl & Udi & _).
  assert (Ui : IsInitSide (upd_DirInfo dir d) = IsInitSide d) by (unfold IsInitSide, is_bit; by rewrite Ufl).
  eexists. split; [done|]. split; [split|].
  - eexists. split; [done|]. unfold getFlowId, IsInitSide, is_bit in *. cbn [SetMaxFlowTimeout pd_flags].
    rewrite Ufl. done.
  - transitivity (m_max_dir_flow_pkts (GetDirInfo (upd_DirInfo dir d))); [|by rewrite Udi].
    unfold GetDirInfo, IsInitSide, is_bit. reflexivity.
  - reflexivity.
  - etransitivity; [|exact Hdb]. unfold IsBiDirectionalFlow, is_bit. cbn. by rewrite Ufl.
  - cbn. by rewrite Ha.
  - transitivity (m_dir_pkt_num (GetDirInfo (upd_DirInfo dir d))); [|by rewrite Udi].
    unfold GetDirInfo, IsInitSide, is_bit. reflexivity.
Qed.

Lemma tell_flows_spec ft l ps :
  zlength l < 65000 ->
  (forall p, p ∈ ps -> exists f, ft !! getFlowId (fpi_desc p) = Some f /\ knows l (getFlowId (fpi_desc p)) f) ->
  exists ps', tell_flows ft ps = Ok ps' /\
    Forall2 (fun p p' => told l p p' /\
               m_dir_pkt_num (GetDirInfo (fpi_desc p')) = m_dir_pkt_num (GetDirInfo (fpi_desc p))) ps ps'.
Proof.
  intros Hl. induction ps as [|p ps IH]; intros Hall; [by exists []; split; [|constructor]|].
  destruct (Hall p) as (f & Hf & Hk); [by left|].
  destruct (tell_flow_spec ft l p f Hl Hf Hk) as (p' & E & Ht & Hn).
  destruct IH as (ps' & Es & Hps); [intros q Hq; apply Hall; by right|].
  exists (p' :: ps'). cbn [tell_flows]. rewrite E. cbn [mbind res_bind]. rewrite Es. split; [done|].
  by constructor.
Qed.

(** A list that agrees on the direction of packets has the same packets in it. *)
Lemma filter_fmap_Forall2 {B} (P : CFlowPktInfo -> Prop) `{!forall p, Decision (P p)} (g : CFlowPktInfo -> B) l l' :
  Forall2 (fun p p' => (P p' <-> P p) /\ g p' = g p) l l' -> g <$> filter P l' = g <$> filter P l.
Proof.
  induction 1 as [|p p' l l' [Hiff Hg] _ IH]; [done|]. rewrite !filter_cons.
  destruct (decide (P p)) as [Hp|Hp].
  - rewrite decide_True by by apply Hiff. by rewrite !fmap_cons, Hg, IH.
  - by rewrite decide_False by by intros ?%Hiff.
Qed.

(** [told] looks at a packet only through its flow, its direction and its flags. *)
Lemma told_trans l p p' p'' :
  renumbered p p' -> IsBiDirectionalFlow (fpi_desc p') = IsBiDirectionalFlow (fpi_desc p) ->
  told l p' p'' -> told l p p''.
Proof.
  intros Hr Hb [Hs Hd Hf Hbo Ha]. pose proof Hr as (d & -> & Hfi & Hii).
  change (fpi_desc (fpi_upd_desc (fun _ => d) p)) with d in *. rewrite Hfi, Hii, Hb in *.
  split; try done. by eapply renumbered_trans.
Qed.

Lemma told_pass l l1 l2 :
  Forall2 same_flags l l1 ->
  Forall2 (fun p p' => told l p p' /\
             m_dir_pkt_num (GetDirInfo (fpi_desc p')) = m_dir_pkt_num (GetDirInfo (fpi_desc p))) l1 l2 ->
  Forall2 (told l) l l2.
Proof.
  intros H1 H2. apply Forall2_same_length_lookup_2.
  { by rewrite (Forall2_length _ _ _ H1), (Forall2_length _ _ _ H2). }
  intros k p p2 Hp Hp2. destruct (Forall2_lookup_l _ _ _ _ _ H1 Hp) as (p1 & Hp1 & Hs).
  destruct (Forall2_lookup_l _ _ _ _ _ H2 Hp1) as (p2' & Hp2' & Ht & _).
  assert (p2' = p2) as -> by congruence. destruct (same_flags_renumbered _ _ Hs) as [Hr Hb].
  by eapply told_trans.
Qed.

Lemma update_info_spec (c : CCapFileFlowInfo) (junk : bytes) :
  cap_Size c < 65000 ->
  exists l', update_info false junk c = Ok (cap_set_pkts l' c) /\
    Forall2 (told (m_flow_pkts c)) (m_flow_pkts c) l' /\
    forall fid init,
      (fun p => m_dir_pkt_num (GetDirInfo (fpi_desc p))) <$> filter (in_dir fid init) l' =
      seqZ 0 (dir_size fid init (m_flow_pkts c)).
Proof.
  unfold cap_Size. set (l := m_flow_pkts c). intros Hl.
  destruct (learn_flows_spec l (double_of_Z 0) ∅) as (l1 & ft & E & H1 & Hin & _ & Hlearn & Hnum).
  { intros fid. unfold tmp. rewrite lookup_empty. unfold room_for. cbn. lia. }
  assert (Hknows : forall p, p ∈ l1 -> exists f, ft !! getFlowId (fpi_desc p) = Some f /\
                                            knows l (getFlowId (fpi_desc p)) f).
  { intros p1 [k Hk]%list_elem_of_lookup. destruct (Forall2_lookup_r _ _ _ _ _ H1 Hk) as (p & Hp & Hs).
    destruct (same_flags_renumbered _ _ Hs) as [(d & -> & Hfd & _) _].
    change (fpi_desc (fpi_upd_desc (fun _ => d) p)) with d. rewrite Hfd.
    destruct (Hin p) as [f Hf]; [by eapply list_elem_of_lookup_2|]. exists f. split; [done|].
    destruct (Hlearn (getFlowId (fpi_desc p))) as (Hm & Hd & Ha).
    unfold tmp in Hm, Hd, Ha. rewrite Hf, lookup_empty in Hm, Hd, Ha. cbn in Hm, Ha. split; [done|].
    split; [|done]. intros init. rewrite Hd. by destruct init. }
  destruct (tell_flows_spec ft l l1 Hl Hknows) as (l2 & E2 & H2).
  exists l2. split_and!.
  - unfold update_info. fold l. rewrite E. cbn [mbind res_bind]. by rewrite E2.
  - by eapply told_pass.
  - intros fid init. specialize (Hnum fid init). unfold tmp in Hnum. rewrite lookup_empty in Hnum.
    assert (t_dir init (default tmp_new None) = 0) as Ht by by destruct init.
    rewrite Ht in Hnum. rewrite <- Hnum.
    apply filter_fmap_Forall2. eapply Forall2_impl; [exact H2|]. cbv beta. intros p p' [Htd Hn].
    split; [|done]. apply renumbered_dir. apply Htd.
Qed.

(** C18: outside learn mode, numbering a template of fewer than 65000 packets succeeds. Of
    every flow and direction its packets are numbered 0, 1, 2, ... in the order of the file;
    every packet then knows how many packets its direction and its flow have, whether the
    flow has both directions, and the time-out that the longest gap of the flow needs;
    nothing else of the template changes. (In learn mode [update_info] ends with
    [mask_as_learn] on the first packet, which changes that packet and may fail.) *)
Theorem update_info_ok (c : CCapFileFlowInfo) (junk : bytes) :
  cap_Size c < 65000 ->
  exists l', update_info false junk c = Ok (cap_set_pkts l' c) /\
    Forall2 (told (m_flow_pkts c)) (m_flow_pkts c) l' /\
    forall fid init,
      (fun p => m_dir_pkt_num (GetDirInfo (fpi_desc p))) <$> filter (in_dir fid init) l' =
      seqZ 0 (dir_size fid init (m_flow_pkts c)).
Proof. apply update_info_spec. Qed.

(** A template of two packets of one flow, from the two sides. *)
Definition two_packets : CCapFileFlowInfo :=
  let pkt init := mkPktInfo (ind_set_desc (SetInitSide init (mkDesc 0 0 0 0 0 PerDir_new PerDir_new)) demo_ind) None in
  mkCap [pkt true; pkt false] 120 1 0.

Lemma update_info_ok_witness :
  cap_Size two_packets < 65000 /\
  exists l', update_info false [] two_packets = Ok (cap_set_pkts l' two_packets) /\
    Forall2 (told (m_flow_pkts two_packets)) (m_flow_pkts two_packets) l' /\
    (fun p => m_dir_pkt_num (GetDirInfo (fpi_desc p))) <$> filter (in_dir 0 true) l' = [0].
Proof.
  assert (cap_Size two_packets < 65000) as H by (vm_compute; reflexivity). split; [exact H|].
  destruct (update_info_ok two_packets [] H) as (l' & E & Ht & Hn). exists l'.
  split; [exact E|]. split; [exact Ht|]. rewrite (Hn 0 true). vm_compute. reflexivity.
Defined.
