(* ===== verification/CapLoadFacts.v ===== *)
(** * Facts about loading a capture file

    A file of IPv4 packets, in the order of their times, becomes a template with one
    packet for each packet of the first flow. *)

From Stdlib Require Import Sorting.Sorted.
From S2P Require Import Prelude Double ByteMem PktCmn PktCmnFacts PktDesc PktParser PktParserFacts CapTemplate CapTemplateFacts.

(** ** The TTL *)

Lemma IP_updateCheckSum_total m ip :
  bytes_ok m -> 0 <= ip -> ip + 20 <= zlength m -> ip + 4 * ihl m ip <= zlength m -> 
  exists m', IP_updateCheckSum m ip = Ok m' /\ same_except m m' (ip + o_Checksum) 2 /\ bytes_ok m'.
Proof.
  intros Hm Hi Hl Hh. pose proof (ihl_range m ip). unfold IP_updateCheckSum.
  destruct (st_total 2 m (ip + o_Checksum) 0) as [m1 E1]; [unfold in_range, o_Checksum; lia|].
  rewrite E1. cbn [mbind res_bind]. pose proof (st_same_except _ _ _ _ _ E1) as [Hz He].
  assert (Hm1 : bytes_ok m1) by by eapply st_ok.
  assert (Hih : ihl m1 ip = ihl m ip) by (unfold ihl; rewrite He by (unfold o_Checksum; lia); done).
  unfold IP_getSize. rewrite IP_getHeaderLength_eq by (done || lia). cbn [mbind res_bind].
  rewrite u16_id by lia. rewrite Hih.
  replace (4 * ihl m ip) with (2 * Z.of_nat (Z.to_nat (2 * ihl m ip))) by lia.
  rewrite pkt_InetChecksum_even by (done || lia). cbn [mbind res_bind].
  edestruct (st_total 2 m1 (ip + o_Checksum)) as [m2 E2]; [unfold in_range, o_Checksum; lia|].
  rewrite E2. exists m2. split; [done|]. split; [|by eapply st_ok].
  pose proof (st_same_except _ _ _ _ _ E2) as [Hz2 He2]. split; [lia|].
  intros j Hj Ho. rewrite He2, He by (done || lia). done.
Qed.

Lemma ind_set_packet_id i : ind_set_packet (set_raw (raw (m_packet i)) (m_packet i)) i = i.
Proof. by destruct i as [? [] ? ? ? ? ? ? ? ? ? ? ? ? ?]. Qed.

Lemma fix_ttl_spec i ip :
  m_l3 i = Some ip -> m_is_ipv6 i = false -> bytes_ok (raw (m_packet i)) -> 0 <= ip ->
  ip + 20 <= zlength (raw (m_packet i)) -> ip + 4 * ihl (raw (m_packet i)) ip <= zlength (raw (m_packet i)) ->
  exists m', fix_ttl i = Ok (ind_set_packet (set_raw m' (m_packet i)) i) /\
    zlength m' = zlength (raw (m_packet i)) /\ byte_at m' (ip + o_TTL) < 254 /\
    (forall j, 0 <= j -> j < ip + o_TTL \/ j = ip + o_Protocol \/ ip + o_Source <= j ->
      byte_at m' j = byte_at (raw (m_packet i)) j) /\ bytes_ok m'.
Proof.
  intros H3 H6 Hm Hip Hl Hh. unfold fix_ttl, getTTL, getIpOffset. rewrite H3, H6. cbn [ptr mbind res_bind].
  set (m := raw (m_packet i)) in *. unfold IP_getTimeToLive.
  rewrite ld8_byte by (unfold in_range, o_TTL; lia). cbn [mbind res_bind].
  pose proof (byte_at_range m (ip + o_TTL) Hm) as Ht. change TTL_RESERVE_DUPLICATE with 255.
  destruct (_ || _) eqn:E.
  - unfold setTTL, getIpOffset. rewrite H3, H6. cbn [ptr mbind res_bind]. fold m. unfold IP_setTimeToLive.
    destruct (st_total 1 m (ip + o_TTL) (255 - 4)) as [m1 E1]; [unfold in_range, o_TTL; lia|].
    rewrite E1. cbn [mbind res_bind]. pose proof (st_same_except _ _ _ _ _ E1) as [Hz1 He1].
    destruct (IP_updateCheckSum_total m1 ip) as (m2 & E2 & [Hz2 He2] & Hok2);
      [by eapply st_ok|lia|lia|unfold ihl; rewrite He1 by (unfold o_TTL; lia); unfold ihl in Hh; lia|].
    rewrite E2. cbn [mbind res_bind]. exists m2. split; [done|]. split; [lia|]. split.
    + rewrite He2 by (unfold o_TTL, o_Checksum; lia). unfold byte_at.
      pose proof (proj1 (st_inv _ _ _ _ _ E1)) as Hr.
      rewrite (st_lookup _ _ _ _ _ _ E1), decide_True by (unfold in_range in Hr; lia).
      replace (Z.to_nat (ip + o_TTL) - Z.to_nat (ip + o_TTL))%nat with O by lia. done.
    + split; [|exact Hok2]. intros j Hj Ho. unfold o_TTL, o_Protocol, o_Source, o_Checksum in *.
      by rewrite He2, He1 by lia.
  - exists m. split; [by unfold m; rewrite ind_set_packet_id|].
    apply orb_false_iff in E as [E1 E2]. apply Z.eqb_neq in E1, E2. split; [done|]. split; [lia|]. split; [done|exact Hm].
Qed.

(** ** Copying the packet into the template *)

Lemma CFlowPktInfo_Create_spec i e ip l4 pl :
  m_ether i = Some e -> m_l3 i = Some ip -> m_l4 i = Some l4 -> m_payload i = Some pl -> 0 < pl ->
  0 < pkt_len (m_packet i) < MAX_PKT_SIZE -> pkt_len (m_packet i) <= zlength (raw (m_packet i)) ->
  exists t, CFlowPktInfo_Create i = Ok t /\
    m_pkt_indication t = ind_set_packet (set_raw (take (Z.to_nat (pkt_len (m_packet i))) (raw (m_packet i)))
                                           (m_packet i)) i.
Proof.
  intros He H3 H4 H5 Hpl Hlen Hz. unfold CFlowPktInfo_Create, raw_clone.
  replace ((0 <? pkt_len (m_packet i)) && (pkt_len (m_packet i) <? MAX_PKT_SIZE)) with true by lia.
  cbn [c_assert mbind res_bind]. rewrite decide_True by done. cbn [mbind res_bind].
  unfold ind_clone, getEtherOffset, getIpOffset, getTcpOffset, getPayloadOffset.
  rewrite He, H3, H4, H5. cbn [ptr mbind res_bind default from_option].
  replace (id pl =? 0) with false by (unfold id; lia).
  match goal with |- context [alloc_const_mbuf (mkPktInfo ?j None)] => set (ind := j) end.
  assert (Eq : ind = ind_set_packet (set_raw (take (Z.to_nat (pkt_len (m_packet i))) (raw (m_packet i)))
                                       (m_packet i)) i).
  { unfold ind, ind_set_packet, set_raw. by rewrite He, H3, H4, H5. }
  unfold alloc_const_mbuf. change (fpi_packet (mkPktInfo ind None)) with (m_packet ind).
  rewrite Eq. cbn [ind_set_packet m_packet set_raw pkt_len raw].
  destruct (FIRST_PKT_SIZE <? pkt_len (m_packet i)); [|by eexists].
  rewrite decide_True by (unfold zlength in *; rewrite length_take; lia).
  rewrite bool_decide_eq_true_2 by done. by eexists.
Qed.

(** ** One packet *)

Section Load.
Context (s6 d6 : list Z) (cbuff : bytes).

(** The parser accepts the packet as IPv4, whatever it did before. *)
Definition accepted (p : CCapPktRaw) : Prop :=
  in_buffer p /\
  forall k i, exists k' i', ProcessPacket false s6 d6 cbuff k i p = Ok (true, (k', i')).

(** The key of its flow, and whether it goes from the smaller address to the larger. *)
Definition packet_key (p : CCapPktRaw) : CFlowKey * bool :=
  match ProcessPacket false s6 d6 cbuff (fun _ => 0) demo_ind p with
  | Ok (_, (_, i)) => (m_flow_key i, IsSwapTuple (m_desc i))
  | Err _ => (FlowKey_clean, false)
  end.

Lemma accepted_run' p k i :
  accepted p ->
  exists k' i', ProcessPacket false s6 d6 cbuff k i p = Ok (true, (k', i')) /\
    same_errs k k' /\ ipv4_accepted p i'.
Proof.
  intros [Hib Hacc]. destruct (Hacc k i) as (k' & i' & E). exists k', i'. split; [done|].
  destruct (ProcessPacket_ipv4 s6 d6 cbuff k i p Hib) as [(k2 & i2 & E2 & H)|(offset & _ & E2)].
  - rewrite E in E2. injection E2 as Hv -> ->. rewrite <- Hv in H. by destruct H.
  - rewrite E in E2. discriminate.
Qed.

Lemma ipv4_accepted_key p i i' :
  ipv4_accepted p i -> ipv4_accepted p i' ->
  (m_flow_key i, IsSwapTuple (m_desc i)) = (m_flow_key i', IsSwapTuple (m_desc i')).
Proof.
  intros (ip & E & Hf & _) (ip' & E' & Hf' & _). rewrite E in E'. injection E' as <-.
  destruct Hf as (hl & l4 & tl & src & dst & proto & sp & dp & Ehl & _ & Epr & Esrc & Edst & _ & Esp & Edp &
    _ & _ & _ & _ & _ & _ & _ & _ & _ & _ & _ & _ & _ & _ & _ & Hk).
  destruct Hf' as (hl' & l4' & tl' & src' & dst' & proto' & sp' & dp' & Ehl' & _ & Epr' & Esrc' & Edst' & _ &
    Esp' & Edp' & _ & _ & _ & _ & _ & _ & _ & _ & _ & _ & _ & _ & _ & _ & _ & Hk').
  assert (hl = hl') by congruence. subst. congruence.
Qed.

Lemma accepted_run p k i :
  accepted p ->
  exists k' i', ProcessPacket false s6 d6 cbuff k i p = Ok (true, (k', i')) /\
    same_errs k k' /\ ipv4_accepted p i' /\ packet_key p = (m_flow_key i', IsSwapTuple (m_desc i')).
Proof.
  intros Ha. destruct (accepted_run' p k i Ha) as (k' & i' & E & Hk & Hi). exists k', i'.
  split_and!; try done. destruct (accepted_run' p (fun _ => 0) demo_ind Ha) as (k0 & i0 & E0 & _ & Hi0).
  unfold packet_key. rewrite E0. by apply (ipv4_accepted_key p).
Qed.

(** ** One turn of the loop *)

(** A packet of the file, parsed and marked, before it is placed: its number in its flow
    is [n]. *)
Record marked (_id n : Z) (p : CCapPktRaw) (i : CPacketIndication) : Prop := {
  mk_key : packet_key p = (m_flow_key i, IsSwapTuple (m_desc i));
  mk_id : desc_getId (m_desc i) = _id mod 65536;
  mk_num : getFlowPktNum (m_desc i) = n mod 65536;
  mk_flags : forall b, 4 <= b < 8 -> is_bit b (m_desc i) = false;
  mk_time : m_cap_ipg i = get_time p;
  mk_copy : exists e ip l4 pl, m_ether i = Some e /\ m_l3 i = Some ip /\ m_l4 i = Some l4 /\
    m_payload i = Some pl /\ 0 < pl /\ 0 <= ip /\ ip + 9 <= pkt_len (m_packet i) /\
    byte_at (raw (m_packet i)) (ip + o_TTL) < 254;
  mk_len : 0 < pkt_len (m_packet i) < MAX_PKT_SIZE;
  mk_raw : pkt_len (m_packet i) <= zlength (raw (m_packet i)) }.

(** What the accepted packet brings to the copy. *)
Lemma ipv4_accepted_copy p i :
  in_buffer p -> ipv4_accepted p i ->
  m_is_ipv6 i = false /\ get_time (m_packet i) = get_time p /\ bytes_ok (raw (m_packet i)) /\
  0 < pkt_len (m_packet i) < MAX_PKT_SIZE /\ pkt_len (m_packet i) <= zlength (raw (m_packet i)) /\
  exists ip l4 pl, m_ether i = Some 0 /\ m_l3 i = Some ip /\ m_l4 i = Some l4 /\ m_payload i = Some pl /\
    0 < pl /\ 0 <= ip /\ ip + 20 <= zlength (raw (m_packet i)) /\ ip + 9 <= pkt_len (m_packet i) /\
    ip + 4 * ihl (raw (m_packet i)) ip <= zlength (raw (m_packet i)).
Proof.
  intros [Hm Hb Hl] (ip & He & Hf & H2 & _ & _ & H4 & H5 & _).
  change MAX_PKT_SIZE with 2048 in *.
  destruct (ether_payload_Ok (raw p)) as (e & He' & Hip); [lia|]. rewrite He in He'. injection He' as <-. cbn in Hip.
  destruct Hf as (hl & l4 & tl & src & dst & proto & sp & dp & Ehl & _ & _ & _ & _ & _ & _ & _ & H3 & Hl4 & Hpl &
    Hhl & Hl4r & Hsum & Htl & _ & -> & Hlen & Hbig & _ & Hsec & Hnsec & H6 & _).
  change (MAX_BUF_SIZE - FIRST_PKT_SIZE) with 1984 in Hbig.
  rewrite IP_getHeaderLength_eq in Ehl by (done || lia). injection Ehl as Ehl.
  assert (Ht : get_time (m_packet i) = get_time p) by (unfold get_time; by rewrite Hsec, Hnsec).
  split_and!; try done; try lia. exists ip, (ip + hl), (ip + hl + l4). split_and!; try done; lia.
Qed.

(** The flags the loop sets before it looks at the flow. *)
Lemma load_flags _id plugin n d :
  (forall b, 4 <= b < 32 -> is_bit b d = false) ->
  let d' := SetFlowPktNum n (SetId _id (SetPluginId plugin (SetPluginEnable false d))) in
  IsSwapTuple d' = IsSwapTuple d /\ desc_getId d' = _id mod 65536 /\ getFlowPktNum d' = n mod 65536 /\
  forall b, 4 <= b < 8 -> is_bit b d' = false.
Proof.
  intros Hd. cbv zeta.
  assert (Hbit : forall b, 0 <= b < 13 ->
    is_bit b (SetFlowPktNum n (SetId _id (SetPluginId plugin (SetPluginEnable false d)))) = is_bit b d).
  { intros b Hb. change (is_bit b (set_bits 31 16 _id (SetPluginId plugin (set_bits 13 13 0 d))) = is_bit b d).
    rewrite get_set_bit_other by lia. exact (get_set_bit_other b 13 13 0 d ltac:(lia) ltac:(lia) ltac:(lia) ltac:(lia)). }
  split_and!.
  - apply Hbit. unfold IS_SWAP. lia.
  - change (get32 (pd_flags (set_bits 31 16 _id (SetPluginId plugin (SetPluginEnable false d)))) 31 16 = _id mod 65536).
    by rewrite get_set_field.
  - done.
  - intros b Hb. rewrite Hbit, Hd by lia. done.
Qed.

Lemma load_packet_run _id p s :
  accepted p ->
  match ld_last s with Some last => double_ltb (get_time p) last = false | None => True end ->
  exists k i,
    same_errs (ld_cnt s) k /\
    (let '(f, is_fif, table) := ft_process (m_flow_key i) (ld_table s) in
     marked _id (fl_pkt_id f) p i /\
     load_packet false s6 d6 cbuff _id 0 p s =
       ('(c, f, first, fif_swap, j) ←
          place_packet false is_fif (m_flow_key i) (mkFlow (is_fif_swap f) (u32 (fl_pkt_id f + 1)) (fl_flow_id f)) i
            (mkLoad (add_bytes (pkt_len (m_packet i)) (ld_cap s)) table k i (Some (get_time p))
               (ld_first s) (ld_fif_swap s));
        Ok (mkLoad c (ft_set (m_flow_key i) f table) k j (Some (get_time p)) first fif_swap))).
Proof.
  intros Ha Hlast. destruct (accepted_run p (ld_cnt s) (ld_ind s) Ha) as (k & i & E & Hk & Hi & Hkey).
  destruct (ipv4_accepted_copy p i (proj1 Ha) Hi)
    as (H6 & Ht & Hm & Hlen & Hz & ip & l4 & pl & He & H3 & H4 & H5 & Hpl & Hip & Hip20 & Hip9 & Hih).
  destruct (ft_process (m_flow_key i) (ld_table s)) as [[f is_fif] table] eqn:Eft.
  set (d := SetFlowPktNum (fl_pkt_id f) (SetId _id (SetPluginId 0 (SetPluginEnable false (m_desc i))))).
  set (i1 := ind_set_desc d (ind_set_ipg (get_time p) i)).
  destruct (fix_ttl_spec i1 ip) as (m' & Ettl & Hz' & Httl & _); try done.
  assert (Hhigh : forall b, 4 <= b < 32 -> is_bit b (m_desc i) = false).
  { destruct Hi as (? & _ & _ & _ & _ & _ & _ & _ & Hh). exact Hh. }
  destruct (load_flags _id 0 (fl_pkt_id f) (m_desc i) Hhigh) as (Hsw & Hid & Hnum & Hfl).
  exists k, (ind_set_packet (set_raw m' (m_packet i1)) i1). split; [done|].
  change (m_flow_key (ind_set_packet (set_raw m' (m_packet i1)) i1)) with (m_flow_key i). rewrite Eft.
  split.
  - split; try done.
    + rewrite Hkey. f_equal. by rewrite <- Hsw.
    + exists 0, ip, l4, pl. done.
    + change (pkt_len (m_packet i) <= zlength m'). change (zlength m' = zlength (raw (m_packet i))) in Hz'. lia.
  - unfold load_packet. change (negb (0 =? 0)) with false.
    replace (match ld_last s with Some last => double_ltb (get_time p) last | None => false end) with false
      by (destruct (ld_last s); done).
    rewrite E. cbn [mbind res_bind negb]. cbn [ind_set_desc m_flow_key]. rewrite Eft.
    cbn [ind_set_desc ind_set_ipg m_packet m_desc]. rewrite Ht.
    match goal with |- context [fix_ttl ?j] => change (fix_ttl j) with (fix_ttl i1) end.
    rewrite Ettl. done.
Qed.

(** A packet of the template, on the side [init], the [n]-th of the flow. *)
Record loaded (_id : Z) (init : bool) (n : Z) (p : CCapPktRaw) (t : CFlowPktInfo) : Prop := {
  lo_key : m_flow_key (m_pkt_indication t) = fst (packet_key p);
  lo_init : IsInitSide (fpi_desc t) = init;
  lo_flow : getFlowId (fpi_desc t) = 0;
  lo_id : desc_getId (fpi_desc t) = _id mod 65536;
  lo_num : getFlowPktNum (fpi_desc t) = n mod 65536;
  lo_ttl : exists ip, m_l3 (m_pkt_indication t) = Some ip /\ byte_at (raw (fpi_packet t)) (ip + o_TTL) < 254 }.

(** Not yet the last one, and not told of the next one. *)
Record fresh_pkt (p : CCapPktRaw) (t : CFlowPktInfo) : Prop := {
  fr_last : IsLastPkt (fpi_desc t) = false;
  fr_rtt : IsRtt (fpi_desc t) = false;
  fr_time : cap_ipg t = get_time p }.

Lemma place_flags init d :
  (forall b, 4 <= b < 8 -> is_bit b d = false) ->
  let d' := SetInitSide init (SetFlowId 0 d) in
  IsInitSide d' = init /\ getFlowId d' = 0 /\ desc_getId d' = desc_getId d /\
  getFlowPktNum d' = getFlowPktNum d /\ IsLastPkt d' = false /\ IsRtt d' = false.
Proof.
  intros Hd. cbv zeta. unfold IsInitSide, SetInitSide, getFlowId, SetFlowId, desc_getId, IsLastPkt, IsRtt,
    IS_INIT_SIDE, IS_LAST_PKT, IS_RTT. split_and!; try done.
  - by apply get_set_bit.
  - unfold set_bit. rewrite get_set_field_other by lia. by rewrite get_set_field by lia.
  - unfold set_bit. by rewrite !get_set_field_other by lia.
  - unfold set_bit. rewrite !get_set_bit_other by lia. apply Hd. lia.
  - unfold set_bit. rewrite !get_set_bit_other by lia. apply Hd. lia.
Qed.

Lemma byte_at_take m n j : 0 <= j < n -> byte_at (take (Z.to_nat n) m) j = byte_at m j.
Proof. intros Hj. unfold byte_at. by rewrite lookup_take_lt by lia. Qed.

Lemma append_marked _id n p i init c :
  marked _id n p i ->
  exists t, cap_Append (mark_init init (ind_set_desc (SetFlowId 0 (m_desc i)) i)) c =
              Ok (cap_set_pkts (m_flow_pkts c ++ [t]) c) /\
    loaded _id init n p t /\ fresh_pkt p t.
Proof.
  intros [Hk Hid Hn Hfl Ht (e & ip & l4 & pl & He & H3 & H4 & H5 & Hpl & Hip & Hip9 & Httl) Hlen Hraw].
  destruct (CFlowPktInfo_Create_spec (mark_init init (ind_set_desc (SetFlowId 0 (m_desc i)) i)) e ip l4 pl)
    as (t & Et & Ht'); try done.
  destruct (place_flags init (m_desc i) Hfl) as (E1 & E2 & E3 & E4 & E5 & E6).
  exists t. unfold cap_Append. rewrite Et. split; [done|].
  unfold fpi_desc, fpi_packet, cap_ipg. split; split; unfold fpi_desc, fpi_packet, cap_ipg; rewrite Ht'; try done.
  - by rewrite Hk.
  - exact (eq_trans E3 Hid).
  - exists ip. split; [done|]. cbn. rewrite byte_at_take by (unfold o_TTL; lia). done.
Qed.

(** ** The whole file *)

(** The packets of the flow [K], and how many others there are. *)
Definition mine (K : CFlowKey) (l : list CCapPktRaw) : list CCapPktRaw :=
  filter (fun p => fst (packet_key p) = K) l.
Definition strangers (K : CFlowKey) (l : list CCapPktRaw) : Z :=
  zlength (filter (fun p => fst (packet_key p) ≠ K) l).

(** The [n]-th packet of the template for the [n]-th packet of its flow, whose first one
    had the orientation [s0]. *)
Definition of_packet (R : CCapPktRaw -> CFlowPktInfo -> Prop) (_id : Z) (s0 : bool) (n : nat)
    (p : CCapPktRaw) (t : CFlowPktInfo) : Prop :=
  loaded _id (Bool.eqb s0 (snd (packet_key p))) (Z.of_nat n) p t /\ R p t.
Definition template_of (R : CCapPktRaw -> CFlowPktInfo -> Prop) (_id : Z) (s0 : bool)
    (ps : list CCapPktRaw) (ts : list CFlowPktInfo) : Prop :=
  length ts = length ps /\
  forall n p t, ps !! n = Some p -> ts !! n = Some t -> of_packet R _id s0 n p t.

Lemma template_of_snoc R _id s0 ps ts p t :
  template_of R _id s0 ps ts -> of_packet R _id s0 (length ps) p t ->
  template_of R _id s0 (ps ++ [p]) (ts ++ [t]).
Proof.
  intros [Hlen Hall] Ht. split; [rewrite !length_app, Hlen; done|]. intros n q u.
  rewrite !lookup_app_Some. intros [Hq|[Hn Hq]] [Hu|[Hn' Hu]].
  - by apply Hall.
  - apply lookup_lt_Some in Hq. lia.
  - apply lookup_lt_Some in Hu. lia.
  - rewrite Hlen in Hu. apply list_lookup_singleton_Some in Hq as [Hq0 <-].
    apply list_lookup_singleton_Some in Hu as [_ <-]. by replace n with (length ps) by lia.
Qed.

(** The state of the loop after the packets [l]. *)
Record load_inv (_id : Z) (K : CFlowKey) (s0 : bool) (k0 : CCPacketParserCounters) (l : list CCapPktRaw)
    (s : load_state) : Prop := {
  li_flows : m_total_flows (ld_cap s) = 1;
  li_first : ld_first s = Some K;
  li_flow : ft_map (ld_table s) !! K = Some (mkFlow s0 (zlength (mine K l)) 0);
  li_pkts : template_of fresh_pkt _id s0 (mine K l) (m_flow_pkts (ld_cap s));
  li_errs : m_total_errors (ld_cap s) = strangers K l;
  li_cnt : same_errs k0 (ld_cnt s);
  li_last : ld_last s = get_time <$> last l }.

Lemma is_initiator_flow s0 f i :
  is_initiator s0 (ind_set_desc (SetFlowId f (m_desc i)) i) = Bool.eqb s0 (IsSwapTuple (m_desc i)).
Proof.
  unfold is_initiator, IsSwapTuple, SetFlowId, IS_SWAP. cbn [ind_set_desc m_desc].
  by rewrite get_set_bit_other by lia.
Qed.

Lemma load_first _id p s :
  accepted p -> ld_cap s = CapFile_Create -> ft_map (ld_table s) = ∅ -> ld_last s = None ->
  exists s', load_packet false s6 d6 cbuff _id 0 p s = Ok s' /\
    load_inv _id (fst (packet_key p)) (snd (packet_key p)) (ld_cnt s) [p] s'.
Proof.
  intros Ha Hc Hft Hl. destruct (load_packet_run _id p s Ha) as (k & i & Hk & Hrun); [by rewrite Hl|].
  unfold ft_process in Hrun. rewrite Hft, lookup_empty in Hrun. destruct Hrun as [Hm ->].
  destruct (append_marked _id 0 p i true (add_bytes (pkt_len (m_packet i)) (ld_cap s)) Hm) as (t & Et & Hlo & Hfr).
  unfold place_packet. cbn [ld_cap]. rewrite Hc in *. cbn [CapFile_Create add_bytes m_total_flows] in *.
  change (0 =? 0) with true. cbn [fl_flow_id fl_pkt_id is_fif_swap]. change (u32 0) with 0. cbv iota. rewrite Et. cbn [mbind res_bind].
  eexists. split; [reflexivity|]. pose proof (mk_key _ _ _ _ Hm) as Hkey. rewrite Hkey. cbn [fst snd].
  assert (Hmine : mine (m_flow_key i) [p] = [p]).
  { unfold mine. rewrite filter_cons_True, filter_nil; [done|by rewrite Hkey]. }
  split; cbn [ld_cap ld_first ld_table ld_cnt ld_last inc_flows cap_set_pkts m_total_flows m_flow_pkts m_total_errors
    ft_set ft_map ft_stats CFlow_new fl_pkt_id]; try done.
  - by rewrite lookup_insert_eq, Hmine.
  - rewrite Hmine. apply (template_of_snoc _ _ _ [] []); [by split|]. split; [|done].
    rewrite Hkey. cbn [snd length]. by rewrite eqb_reflx.
  - unfold strangers. rewrite filter_cons_False, filter_nil; [done|]. rewrite Hkey. cbn. tauto.
Qed.

(** A packet of another flow is only counted. *)
Lemma load_stranger _id K f0 p s :
  accepted p -> match ld_last s with Some last => double_ltb (get_time p) last = false | None => True end ->
  m_total_flows (ld_cap s) = 1 -> ld_first s = Some K -> ft_map (ld_table s) !! K = Some f0 ->
  fst (packet_key p) ≠ K ->
  exists k c table i, load_packet false s6 d6 cbuff _id 0 p s =
      Ok (mkLoad (inc_errors 1 c) table k i (Some (get_time p)) (ld_first s) (ld_fif_swap s)) /\
    same_errs (ld_cnt s) k /\ m_flow_pkts c = m_flow_pkts (ld_cap s) /\ m_total_flows c = 1 /\
    m_total_errors c = m_total_errors (ld_cap s) /\ ft_map table !! K = Some f0.
Proof.
  intros Ha Ht Hf Hfi Hfl Hne. destruct (load_packet_run _id p s Ha Ht) as (k & i & Hk & Hrun).
  exists k. unfold ft_process in Hrun. unfold place_packet in Hrun. cbn [ld_first ld_cap] in Hrun.
  destruct (ft_map (ld_table s) !! m_flow_key i) as [f|] eqn:Ef; destruct Hrun as [Hm ->];
    pose proof (mk_key _ _ _ _ Hm) as Hkey; rewrite Hkey in Hne; cbn [fst] in Hne.
  - rewrite decide_False by congruence. cbn [mbind res_bind]. eexists _, _, _. split; [reflexivity|].
    split_and!; try done. cbn. by rewrite lookup_insert_ne.
  - cbn [add_bytes m_total_flows]. rewrite Hf. change (1 =? 0) with false. cbv iota. cbn [mbind res_bind].
    eexists _, _, _. split; [reflexivity|]. split_and!; try done. cbn. by rewrite !lookup_insert_ne.
Qed.

Lemma mine_snoc K l p :
  mine K (l ++ [p]) = mine K l ++ (if decide (fst (packet_key p) = K) then [p] else []) /\
  strangers K (l ++ [p]) = strangers K l + (if decide (fst (packet_key p) = K) then 0 else 1) /\
  0 <= zlength (mine K l) <= zlength l /\ 0 <= strangers K l <= zlength l.
Proof.
  unfold mine, strangers, zlength. rewrite !filter_app, !length_app.
  pose proof (length_filter (fun p => fst (packet_key p) = K) l).
  pose proof (length_filter (fun p => fst (packet_key p) ≠ K) l).
  split_and!; try lia.
  - by rewrite filter_cons, filter_nil.
  - rewrite filter_cons, filter_nil. repeat case_decide; simpl; try lia; tauto.
Qed.

Lemma load_next _id K s0 k0 l p s :
  load_inv _id K s0 k0 l s -> accepted p -> zlength l < 2 ^ 31 ->
  match last l with Some q => double_ltb (get_time p) (get_time q) = false | None => True end ->
  exists s', load_packet false s6 d6 cbuff _id 0 p s = Ok s' /\ load_inv _id K s0 k0 (l ++ [p]) s'.
Proof.
  intros [Hf Hfi Hfl Hp He Hcn Hla] Ha Hlen Ht.
  assert (Ht' : match ld_last s with Some last => double_ltb (get_time p) last = false | None => True end)
    by (rewrite Hla; by destruct (last l)).
  assert (Hlast : Some (get_time p) = get_time <$> last (l ++ [p])) by by rewrite last_snoc.
  destruct (mine_snoc K l p) as (Hmine & Hstr & Hmi & Hst).
  destruct (decide (fst (packet_key p) = K)) as [HK|HK].
  - destruct (load_packet_run _id p s Ha Ht') as (k & i & Hk & Hrun).
    assert (HKi : m_flow_key i = K).
    { unfold ft_process in Hrun. destruct (ft_map (ld_table s) !! m_flow_key i); destruct Hrun as [Hm _];
        pose proof (mk_key _ _ _ _ Hm) as Hkey; rewrite Hkey in HK; exact HK. }
    unfold ft_process in Hrun. rewrite HKi, Hfl in Hrun. destruct Hrun as [Hm ->].
    pose proof (mk_key _ _ _ _ Hm) as Hkey. rewrite HKi in Hkey.
    destruct (append_marked _id _ p i (Bool.eqb s0 (IsSwapTuple (m_desc i)))
                (add_bytes (pkt_len (m_packet i)) (ld_cap s)) Hm) as (t & Et & Hlo & Hfr).
    cbn [fl_pkt_id fl_flow_id is_fif_swap]. unfold place_packet. cbn [ld_cap ld_first fl_flow_id is_fif_swap].
    rewrite is_initiator_flow, decide_True by done. rewrite Et. cbn [mbind res_bind].
    eexists. split; [reflexivity|].
    split; cbn [ld_cap ld_first ld_table ld_cnt ld_last cap_set_pkts add_bytes m_total_flows m_flow_pkts
      m_total_errors ft_set ft_map]; try done.
    + rewrite lookup_insert_eq, Hmine. rewrite u32_id by lia. unfold zlength. rewrite length_app, Nat2Z.inj_add. done.
    + rewrite Hmine. apply template_of_snoc; [done|]. split; [|done]. rewrite Hkey. exact Hlo.
    + rewrite He, Hstr. lia.
    + by eapply same_errs_trans.
  - destruct (load_stranger _id K _ p s Ha Ht' Hf Hfi Hfl HK)
      as (k & c' & table' & i' & -> & Hk & Hp' & Hf' & He' & Hft'). eexists. split; [reflexivity|].
    rewrite app_nil_r in Hmine.
    split; cbn [ld_cap ld_first ld_table ld_cnt ld_last inc_errors m_total_flows m_flow_pkts m_total_errors]; try done.
    + by rewrite Hmine.
    + by rewrite Hmine, Hp'.
    + by rewrite He', He, Hstr, u64_id by lia.
    + by eapply same_errs_trans.
Qed.

(** The times of the packets do not go back. *)
Definition in_time : list CCapPktRaw -> Prop :=
  Sorted (fun p q => double_ltb (get_time q) (get_time p) = false).

Lemma load_rest _id K s0 k0 rest : forall p l s,
  load_inv _id K s0 k0 (l ++ [p]) s -> Forall accepted rest -> in_time (p :: rest) ->
  zlength (l ++ p :: rest) < 2 ^ 31 ->
  exists s', foldl (fun r p => s ← r; load_packet false s6 d6 cbuff _id 0 p s) (Ok s) rest = Ok s' /\
    load_inv _id K s0 k0 (l ++ p :: rest) s'.
Proof.
  induction rest as [|q rest IH]; intros p l s Hinv Ha Hs Hlen; [by exists s|].
  apply Forall_cons in Ha as [Hq Ha]. apply Sorted_inv in Hs as [Hs Hh]. apply HdRel_inv in Hh.
  assert (E : l ++ p :: q :: rest = (l ++ [p]) ++ q :: rest) by by rewrite <- app_assoc.
  destruct (load_next _id K s0 k0 (l ++ [p]) q s Hinv Hq) as (s' & Es & Hinv').
  - unfold zlength in *. rewrite length_app in *. simpl in *. lia.
  - by rewrite last_snoc.
  - destruct (IH q (l ++ [p]) s' Hinv' Ha Hs) as (s'' & Es' & Hinv''); [by rewrite <- E|].
    exists s''. rewrite E. split; [|done]. cbn [foldl mbind res_bind]. by rewrite Es.
Qed.

(** ** The end *)

Lemma loaded_set_bit _id init n p t b v :
  5 <= b <= 6 -> loaded _id init n p t -> loaded _id init n p (fpi_upd_desc (set_bit b v) t).
Proof.
  intros Hb [H1 H2 H3 H4 H5 H6].
  split; try done; unfold fpi_upd_desc, fpi_upd, fpi_desc in *; cbn [m_pkt_indication m_desc ind_set_desc].
  - unfold IsInitSide, set_bit, IS_INIT_SIDE in *. by rewrite get_set_bit_other by lia.
  - unfold getFlowId, set_bit in *. by rewrite get_set_field_other by lia.
  - unfold desc_getId, set_bit in *. by rewrite get_set_field_other by lia.
Qed.
Lemma loaded_set_ipg _id init n p t x : loaded _id init n p t -> loaded _id init n p (set_cap_ipg x t).
Proof. by intros []. Qed.

Lemma length_make_gaps l : length (make_gaps l) = length l.
Proof. induction l as [|p [|q l] IH]; [done..|]. cbn [make_gaps length] in *. by rewrite IH. Qed.

(** The gap of a packet [p] to the next one, [q]. *)
Definition with_gap (p q : CFlowPktInfo) : CFlowPktInfo :=
  let p' := set_cap_ipg (double_sub (cap_ipg q) (cap_ipg p)) p in
  if Bool.eqb (IsInitSide (fpi_desc q)) (IsInitSide (fpi_desc p)) then p'
  else fpi_upd_desc (SetRtt true) p'.

Lemma make_gaps_lookup l : forall n p,
  l !! n = Some p ->
  make_gaps l !! n = Some match l !! S n with Some q => with_gap p q | None => p end.
Proof.
  induction l as [|p0 [|q l] IH]; intros n p Hp; [done| |].
  - destruct n; [by injection Hp as <-|done].
  - change (make_gaps (p0 :: q :: l)) with (with_gap p0 q :: make_gaps (q :: l)).
    destruct n as [|n]; [by injection Hp as <-|].
    change ((with_gap p0 q :: make_gaps (q :: l)) !! S n) with (make_gaps (q :: l) !! n). by apply IH.
Qed.

(** What the end of the loop adds to the [n]-th packet, [p], of the packets [ps]. *)
Definition finished (ps : list CCapPktRaw) (n : nat) (p : CCapPktRaw) (t : CFlowPktInfo) : Prop :=
  IsLastPkt (fpi_desc t) = bool_decide (S n = length ps) /\
  match ps !! S n with
  | Some q => cap_ipg t = double_sub (get_time q) (get_time p) /\
              IsRtt (fpi_desc t) = xorb (snd (packet_key p)) (snd (packet_key q))
  | None => cap_ipg t = double_of_Z 0 /\ IsRtt (fpi_desc t) = false
  end.

Lemma set_last_spec f c :
  0 < cap_Size c < 2 ^ 32 ->
  exists l', set_last f c = Ok (cap_set_pkts l' c) /\ length l' = length (m_flow_pkts c) /\
    forall n t, m_flow_pkts c !! n = Some t ->
      l' !! n = Some (if decide (S n = length (m_flow_pkts c)) then f t else t).
Proof.
  intros Hs. unfold set_last, cap_GetPacket. unfold cap_Size, zlength in *. set (l := m_flow_pkts c) in *.
  rewrite u32_id by lia. destruct (lookup_lt_is_Some_2 l (Z.to_nat (Z.of_nat (length l) - 1))) as [t0 Ht0]; [lia|].
  rewrite Ht0. cbn [mbind res_bind]. eexists. split; [done|]. split; [by rewrite length_insert|].
  intros n t Ht. pose proof (lookup_lt_Some _ _ _ Ht). case_decide as Hn.
  - replace (Z.to_nat (Z.of_nat (length l) - 1)) with n in * by lia.
    rewrite list_lookup_insert_eq by done. by simplify_eq.
  - by rewrite list_lookup_insert_ne by lia.
Qed.

Lemma upd_bit t b b' v :
  0 <= b < 32 -> 0 <= b' < 32 ->
  is_bit b (fpi_desc (fpi_upd_desc (set_bit b' v) t)) = if decide (b = b') then v else is_bit b (fpi_desc t).
Proof.
  intros Hb Hb'. change (is_bit b (set_bit b' v (fpi_desc t)) = if decide (b = b') then v else is_bit b (fpi_desc t)).
  case_decide as E; [subst; by apply get_set_bit|]. unfold set_bit. apply get_set_bit_other; lia.
Qed.

Lemma finish_packet _id s0 ps ts n p t t2 :
  template_of fresh_pkt _id s0 ps ts -> ps !! n = Some p -> ts !! n = Some t ->
  (let t1 := if decide (S n = length ps) then fpi_upd_desc (SetIsLastPkt true) t else t in
   let t1' := match ts !! S n with
              | Some u => with_gap t1 (if decide (S (S n) = length ps) then fpi_upd_desc (SetIsLastPkt true) u else u)
              | None => t1 end in
   t2 = if decide (S n = length ps) then set_cap_ipg (double_of_Z 0) t1' else t1') ->
  loaded _id (Bool.eqb s0 (snd (packet_key p))) (Z.of_nat n) p t2 /\ finished ps n p t2.
Proof.
  intros [Hlen Hall] Hp Ht. cbv zeta. destruct (Hall n p t Hp Ht) as [Hlo [Hla Hrt Hti]].
  pose proof (lookup_lt_Some _ _ _ Hp) as Hn. unfold finished.
  destruct (decide (S n = length ps)) as [Hl|Hl].
  - assert (ps !! S n = None) as -> by (apply lookup_ge_None; lia).
    assert (ts !! S n = None) as -> by (apply lookup_ge_None; lia). intros ->.
    split; [by apply loaded_set_ipg, loaded_set_bit|]. rewrite bool_decide_eq_true_2 by done.
    split; [by apply (upd_bit t IS_LAST_PKT IS_LAST_PKT true)|]. split; [done|].
    rewrite <- Hrt. by apply (upd_bit t IS_RTT IS_LAST_PKT true).
  - destruct (lookup_lt_is_Some_2 ps (S n)) as [q Hq]; [lia|].
    destruct (lookup_lt_is_Some_2 ts (S n)) as [u Hu]; [lia|]. rewrite Hq, Hu. intros ->.
    destruct (Hall (S n) q u Hq Hu) as [Hlo' [_ _ Hti']].
    set (u' := if decide (S (S n) = length ps) then _ else _).
    assert (IsInitSide (fpi_desc u') = IsInitSide (fpi_desc u) /\ cap_ipg u' = cap_ipg u) as [Hiu Htu].
    { unfold u'. case_decide; [|done]. split; [|done].
      by apply (upd_bit u IS_INIT_SIDE IS_LAST_PKT true). }
    unfold with_gap. rewrite Hiu, Htu, (lo_init _ _ _ _ _ Hlo), (lo_init _ _ _ _ _ Hlo'), Hti, Hti'.
    rewrite bool_decide_eq_false_2 by done.
    destruct s0, (snd (packet_key p)), (snd (packet_key q)); cbn [Bool.eqb xorb];
      (split; [try apply loaded_set_bit; try (unfold IS_RTT; lia); by apply loaded_set_ipg|]); split; try done.
    all: try (split; [done|]; by apply (upd_bit _ IS_RTT IS_RTT true)).
    all: rewrite <- Hla; by apply (upd_bit (set_cap_ipg _ t) IS_LAST_PKT IS_RTT true).
Qed.

Lemma finish_template _id s0 ps c :
  template_of fresh_pkt _id s0 ps (m_flow_pkts c) -> 0 < zlength ps < 2 ^ 32 ->
  exists c1 c2 l2, set_last (fpi_upd_desc (SetIsLastPkt true)) c = Ok c1 /\
    set_last (set_cap_ipg (double_of_Z 0)) (cap_set_pkts (make_gaps (m_flow_pkts c1)) c1) = Ok c2 /\
    c2 = cap_set_pkts l2 c /\ length l2 = length ps /\
    forall n p, ps !! n = Some p -> exists t, l2 !! n = Some t /\
      loaded _id (Bool.eqb s0 (snd (packet_key p))) (Z.of_nat n) p t /\ finished ps n p t.
Proof.
  intros Ht Hs. pose proof Ht as [Hlen _].
  destruct (set_last_spec (fpi_upd_desc (SetIsLastPkt true)) c) as (l1 & E1 & Hl1 & Hn1).
  { unfold cap_Size, zlength in *. lia. }
  destruct (set_last_spec (set_cap_ipg (double_of_Z 0)) (cap_set_pkts (make_gaps l1) (cap_set_pkts l1 c)))
    as (l2 & E2 & Hl2 & Hn2).
  { unfold cap_Size, zlength in *. cbn [m_flow_pkts cap_set_pkts]. rewrite length_make_gaps. lia. }
  cbn [m_flow_pkts cap_set_pkts] in Hl2, Hn2. rewrite length_make_gaps, Hl1, Hlen in Hl2, Hn2. rewrite Hlen in Hl1, Hn1.
  eexists _, _, l2. split; [exact E1|]. split; [exact E2|]. split; [done|]. split; [done|].
  intros n p Hp. destruct (lookup_lt_is_Some_2 (m_flow_pkts c) n) as [t Hts].
  { rewrite Hlen. by eapply lookup_lt_Some. }
  pose proof (Hn2 _ _ (make_gaps_lookup _ _ _ (Hn1 _ _ Hts))) as Hfin. eexists. split; [exact Hfin|].
  apply (finish_packet _id s0 ps (m_flow_pkts c) n p t); try done. cbv zeta.
  destruct (m_flow_pkts c !! S n) as [u|] eqn:Eu; [by rewrite (Hn1 _ _ Eu)|].
  apply lookup_ge_None in Eu. assert (l1 !! S n = None) as -> by (apply lookup_ge_None; lia). done.
Qed.

(** C9: loading a file of a single-flow template. Of packets in the order of their times that the
    parser accepts as IPv4, loading succeeds exactly if all of them belong to the flow of
    the first one, in either direction, and else counts the others. The template has one
    packet for each packet of that flow, in their order: it knows its number, whether it
    comes from the side of the first packet, whether it is the last one, the time to the
    next one and whether that goes the other way; its TTL is none of the two that the
    receive check reserves. *)
Theorem load_cap_file_ok (junk : CCPacketParserCounters) (i0 : CPacketIndication) (p0 : CCapPktRaw)
    (rest : list CCapPktRaw) (_id : Z) :
  Forall accepted (p0 :: rest) -> in_time (p0 :: rest) -> zlength (p0 :: rest) < 2 ^ 31 ->
  let ps := mine (fst (packet_key p0)) (p0 :: rest) in
  let others := strangers (fst (packet_key p0)) (p0 :: rest) in
  exists c, load_cap_file false s6 d6 cbuff junk i0 (p0 :: rest) _id 0 =
      Ok (c, if others =? 0 then 0 else -1) /\
    m_total_flows c = 1 /\ m_total_errors c = others /\ length (m_flow_pkts c) = length ps /\
    forall n p, ps !! n = Some p -> exists t, m_flow_pkts c !! n = Some t /\
      loaded _id (Bool.eqb (snd (packet_key p0)) (snd (packet_key p))) (Z.of_nat n) p t /\
      finished ps n p t.
Proof.
  intros [Ha Hrest]%Forall_cons Hs Hlen. cbv zeta.
  set (s := mkLoad CapFile_Create FlowTable_create (counters_clear junk) i0 None None false).
  destruct (load_first _id p0 s Ha) as (s1 & E1 & Hinv1); try done.
  destruct (load_rest _id _ _ _ rest p0 [] s1 Hinv1 Hrest Hs Hlen) as (s2 & E2 & [Hf _ _ Ht He Hc _]).
  cbn [app] in Hf, Ht, He, Hc. set (K := fst (packet_key p0)) in *.
  pose proof (mine_snoc K (p0 :: rest) p0) as (_ & _ & Hmi & Hst).
  assert (Hpos : 0 < zlength (mine K (p0 :: rest))).
  { unfold mine. rewrite filter_cons_True by done. unfold zlength. simpl. lia. }
  destruct (finish_template _id (snd (packet_key p0)) _ _ Ht) as (c1 & c2 & l2 & Es1 & Es2 & -> & Hl2 & Hn2); [lia|].
  assert (Herr : getTotalErrors (ld_cnt s2) = 0) by by rewrite (same_errs_total _ _ Hc).
  unfold load_cap_file, load_new, load_finish. fold s. cbn [foldl]. cbn [mbind res_bind]. rewrite E1, E2. cbn [mbind res_bind].
  rewrite Es1. cbn [mbind res_bind]. rewrite Es2. cbn [mbind res_bind]. rewrite Herr.
  assert (He' : u64 (m_total_errors (ld_cap s2) + 0) = strangers K (p0 :: rest)).
  { rewrite He, Z.add_0_r, u64_id by lia. done. }
  exists (inc_errors 0 (cap_set_pkts l2 (ld_cap s2))).
  cbn [inc_errors m_total_flows m_total_errors m_flow_pkts cap_set_pkts]. rewrite He'. split; [|done].
  destruct (Z.ltb_spec 0 (strangers K (p0 :: rest))); destruct (Z.eqb_spec (strangers K (p0 :: rest)) 0); try lia; done.
Qed.
End Load.

Lemma demo_accepted_always : accepted [] [] [] demo_pkt.
Proof.
  split; [exact demo_in_buffer|]. intros k i.
  assert (match ProcessPacket false [] [] [] k i demo_pkt with Ok (b, _) => b | Err _ => false end = true) as H
    by (destruct i; vm_compute; reflexivity).
  destruct (ProcessPacket false [] [] [] k i demo_pkt) as [[b [k' i']]|]; [|discriminate].
  by exists k', i'; rewrite H.
Qed.

Lemma load_cap_file_ok_witness :
  exists c, load_cap_file false [] [] [] (fun _ => 0) demo_ind [demo_pkt; demo_pkt] 7 0 = Ok (c, 0) /\
    length (m_flow_pkts c) = 2%nat.
Proof.
  assert (Forall (accepted [] [] []) [demo_pkt; demo_pkt]) as Ha.
  { apply Forall_cons; split; [apply demo_accepted_always|]. apply Forall_singleton, demo_accepted_always. }
  assert (in_time [demo_pkt; demo_pkt]) as Ht.
  { apply Sorted_cons; [apply Sorted_cons; [apply Sorted_nil|apply HdRel_nil]|].
    apply HdRel_cons. vm_compute. reflexivity. }
  assert (strangers [] [] [] (fst (packet_key [] [] [] demo_pkt)) [demo_pkt; demo_pkt] = 0) as Hs
    by (vm_compute; reflexivity).
  assert (length (mine [] [] [] (fst (packet_key [] [] [] demo_pkt)) [demo_pkt; demo_pkt]) = 2%nat) as Hm
    by (vm_compute; reflexivity).
  destruct (load_cap_file_ok [] [] [] (fun _ => 0) demo_ind demo_pkt [demo_pkt] 7 Ha Ht eq_refl)
    as (c & E & _ & _ & Hl & _).
  rewrite Hs in E. rewrite Hm in Hl. exists c. split; [exact E|exact Hl].
Defined.
