(* ===== verification/CaptureFile.v ===== *)
(** * Capture files

    Models the readers and writers of [src/src/common]: libpcap ([pcap.{h,cpp}]), ERF
    ([erf.{h,cpp}]), the factories and [CErfCmp] ([captureFile.{h,cpp}]), and the loop of
    [CCapFileFlowInfo::load_cap_file] ([bp_sim.cpp]) that feeds a template from a reader.

    A file is its bytes. What [fopen] gives is [None] or the bytes; a file that is written
    takes as many bytes as the disk has room for. *)

From S2P Require Import Prelude Double ByteMem PktCmn PacketHdrs PktDesc PktParser CapTemplate.

(** ** The file functions of the standard library *)

Record rfile : Type := mkRFile { f_data : bytes; f_pos : Z }.
Definition fread (n : Z) (f : rfile) : bytes * rfile :=
  let d := take (Z.to_nat n) (drop (Z.to_nat (f_pos f)) (f_data f)) in
  (d, mkRFile (f_data f) (f_pos f + zlength d)).
(** [fseek] forward; the position may be behind the end. *)
Definition fseek_cur (n : Z) (f : rfile) : rfile := mkRFile (f_data f) (f_pos f + n).
Definition rewind (f : rfile) : rfile := mkRFile (f_data f) 0.

Record wfile : Type := mkWFile { w_data : bytes; w_room : Z }.
Definition fwrite (d : bytes) (f : wfile) : Z * wfile :=
  let d := take (Z.to_nat (w_room f)) d in
  (zlength d, mkWFile (w_data f ++ d) (w_room f - zlength d)).

(** The field of [n] bytes at [off] of a structure that was read. *)
Definition field (n : nat) (off : Z) (m : bytes) : Z := le_combine (take n (drop (Z.to_nat off) m)).

(** ** [CAlignMalloc], [CPktNsecTimeStamp], [CCapPktRaw] *)

Definition my_utl_align_up (num round : Z) : Z :=
  if Z.land num (round - 1) =? 0 then num else Z.land (num + round) (Z.lnot (round - 1)).

(** [floor] and the conversion to [uint32_t]. *)
Definition u32_floor (x : double) : Z :=
  let v := u32_of_double x in
  if double_ltb x (double_of_Z 0) && double_ltb x (double_opp (double_of_Z (u32 (- v)))) then u32 (v - 1) else v.

Definition NSEC_TO_SEC : double := double_of_Z 1000000000.
Definition CPktNsecTimeStamp (nsec : double) : Z * Z :=
  let sec := u32_floor nsec in
  (sec, u32_floor (double_mul (double_sub nsec (double_of_Z sec)) NSEC_TO_SEC)).
Definition set_new_time (new_time : double) (p : CCapPktRaw) : CCapPktRaw :=
  let '(s, n) := CPktNsecTimeStamp new_time in
  mkRaw (raw p) (pkt_len p) (pkt_cnt p) s n.

(** The constructors without and with a size. *)
Definition raw_new : CCapPktRaw := mkRaw (replicate (Z.to_nat MAX_PKT_SIZE) 0xee) 0 0 0 0.
Definition raw_new_size (size : Z) : CCapPktRaw := mkRaw (replicate (Z.to_nat size) 0xee) (u16 size) 0 0 0.
Definition CloneShalow (obj p : CCapPktRaw) : CCapPktRaw :=
  mkRaw (raw obj) (pkt_len obj) (pkt_cnt p) (time_sec p) (time_nsec p).

(** [flags]. *)
Definition setInterface (_if flags : Z) : Z := btSetMaskBit 16 flags 10 8 _if.
Definition getInterface (flags : Z) : Z := u8 (btGetMaskBit 16 flags 10 8).
Definition setDoNotFree (do_not_free : bool) (flags : Z) : Z := btSetMaskBit 16 flags 0 0 (if do_not_free then 1 else 0).
Definition getDoNotFree (flags : Z) : bool := negb (btGetMaskBit 16 flags 0 0 =? 0).

(** ** libpcap *)

Definition READER_MAX_PACKET_SIZE : Z := MAX_PKT_SIZE.
Definition MAGIC_NUM_FLIP : Z := 0xd4c3b2a1.
Definition MAGIC_NUM_DONT_FLIP : Z := 0xa1b2c3d4.
Definition PCAP_FILE_HEADER_LEN : Z := 24.
Definition SF_PKTHDR_LEN : Z := 16.

Record LibPCapReader : Type := mkPcapReader {
  pr_is_open : bool; pr_is_valid : bool; pr_is_flip : bool;
  pr_loops : Z; pr_file_size : Z; pr_file : rfile }.
Definition LibPCapReader_new : LibPCapReader := mkPcapReader false false false 0 0 (mkRFile [] 0).

Definition pr_set_file (f : rfile) (r : LibPCapReader) : LibPCapReader :=
  mkPcapReader (pr_is_open r) (pr_is_valid r) (pr_is_flip r) (pr_loops r) (pr_file_size r) f.
Definition pr_set_loops (n : Z) (r : LibPCapReader) : LibPCapReader :=
  mkPcapReader (pr_is_open r) (pr_is_valid r) (pr_is_flip r) n (pr_file_size r) (pr_file r).

(** [init] *)
Definition pcap_init (r : LibPCapReader) : bool * LibPCapReader :=
  let '(h, f) := fread PCAP_FILE_HEADER_LEN (pr_file r) in
  let set valid flip := mkPcapReader (pr_is_open r) valid flip (pr_loops r) (pr_file_size r) f in
  if zlength h <? PCAP_FILE_HEADER_LEN then (false, pr_set_file f r)
  else if field 4 0 h =? MAGIC_NUM_FLIP then (true, set true true)
  else if field 4 0 h =? MAGIC_NUM_DONT_FLIP then (true, set true false)
  else (false, set false (pr_is_flip r)).

(** [Create], on what [fopen] gives. *)
Definition pcap_Create (name : option bytes) (loops : Z) (r : LibPCapReader) : bool * LibPCapReader :=
  let r := pr_set_loops loops r in
  if pr_is_open r then (true, r)
  else
    match name with
    | None => (false, r)
    | Some data =>
        let r := mkPcapReader false (pr_is_valid r) (pr_is_flip r) loops (zlength data) (mkRFile data 0) in
        let '(ok, r) := pcap_init r in
        if (ok : bool) then
          (true, mkPcapReader true (pr_is_valid r) (pr_is_flip r) (pr_loops r) (pr_file_size r) (pr_file r))
        else (false, r)
    end.

Definition pcap_Rewind (r : LibPCapReader) : LibPCapReader :=
  if pr_is_open r then snd (pcap_init (pr_set_file (rewind (pr_file r)) r)) else r.

(** [sf_pkthdr_t], its fields in host order, and [flip]. *)
Record sf_pkthdr : Type := mkPktHdr { ts_sec : Z; ts_msec : Z; caplen : Z; sf_len : Z }.
Definition read_pkthdr (h : bytes) : sf_pkthdr := mkPktHdr (field 4 0 h) (field 4 4 h) (field 4 8 h) (field 4 12 h).
Definition flip (h : sf_pkthdr) : sf_pkthdr :=
  mkPktHdr (PAL_NTOHL (ts_sec h)) (PAL_NTOHL (ts_msec h)) (PAL_NTOHL (caplen h)) (PAL_NTOHL (sf_len h)).

(** [ReadPacket]: whether there is a packet, which is then in [p]. *)
Definition pcap_ReadPacket (r : LibPCapReader) (p : CCapPktRaw) : res (bool * LibPCapReader * CCapPktRaw) :=
  if negb (pr_is_valid r) || negb (pr_is_open r) then Ok (false, r, p)
  else
    let r := if (f_pos (pr_file r) =? pr_file_size r) && (0 <? pr_loops r)
             then snd (pcap_init (pr_set_file (rewind (pr_file r)) r)) else r in
    let '(h, f) := fread SF_PKTHDR_LEN (pr_file r) in
    let r := pr_set_file f r in
    if zlength h <? SF_PKTHDR_LEN then Ok (false, r, p)
    else
      let hdr := if pr_is_flip r then flip (read_pkthdr h) else read_pkthdr h in
      if READER_MAX_PACKET_SIZE <? sf_len hdr then exit_process
      else
        let '(d, f) := fread (sf_len hdr) f in
        let r := pr_set_file f r in
        m ← mem_copy (raw p) 0 d 0 (zlength d);
        let len := u16 (zlength d) in
        let nsec := u32 (ts_msec hdr * 1000) in
        if len <? sf_len hdr then Ok (false, r, mkRaw m 0 (pkt_cnt p) (ts_sec hdr) nsec)
        else
          let r := if 0 <? pr_loops r then pr_set_loops (pr_loops r - 1) r else r in
          Ok (true, r, mkRaw m len (u64 (pkt_cnt p + 1)) (ts_sec hdr) nsec).

Record LibPCapWriter : Type := mkPcapWriter { pw_is_open : bool; pw_pkt_count : Z; pw_timestamp : Z; pw_file : wfile }.

Definition pcap_file_header : bytes :=
  le_split 4 MAGIC_NUM_DONT_FLIP ++ le_split 2 2 ++ le_split 2 4 ++ le_split 4 0 ++ le_split 4 0 ++
  le_split 4 2000 ++ le_split 4 1.

(** [Create] and [init]: the file that [fopen] gives has [room]. *)
Definition pcap_writer_Create (opened : option Z) (w : LibPCapWriter) : bool * LibPCapWriter :=
  if pw_is_open w then (true, w)
  else
    match opened with
    | None => (false, w)
    | Some room =>
        let '(n, f) := fwrite pcap_file_header (mkWFile [] room) in
        (n =? PCAP_FILE_HEADER_LEN, mkPcapWriter (n =? PCAP_FILE_HEADER_LEN) 0 (pw_timestamp w) f)
    end.

Definition pkthdr_bytes (sec msec caplen len : Z) : bytes :=
  le_split 4 sec ++ le_split 4 msec ++ le_split 4 caplen ++ le_split 4 len.

(** The bytes of the packet that a writer takes from the buffer. *)
Definition raw_packet (p : CCapPktRaw) : res bytes :=
  if decide (0 <= pkt_len p <= zlength (raw p)) then Ok (take (Z.to_nat (pkt_len p)) (raw p)) else Err OutOfBounds.

Definition pcap_write_packet (p : CCapPktRaw) (w : LibPCapWriter) : res (bool * LibPCapWriter) :=
  if negb (pw_is_open w) then Ok (false, w)
  else
    d ← raw_packet p;
    let '(n1, f) := fwrite (pkthdr_bytes (time_sec p) (time_nsec p / 1000) (pkt_len p) (pkt_len p)) (pw_file w) in
    let '(n2, f) := fwrite d f in
    let bad := n1 + n2 <? SF_PKTHDR_LEN + pkt_len p in
    Ok (negb bad, mkPcapWriter true (if bad then pw_pkt_count w else u32 (pw_pkt_count w + 1)) (u64 (pw_timestamp w + 1)) f).
Definition get_pkt_count (w : LibPCapWriter) : Z := pw_pkt_count w.
Definition pcap_Close (w : LibPCapWriter) : LibPCapWriter :=
  mkPcapWriter false (pw_pkt_count w) (pw_timestamp w) (pw_file w).

(** ** ERF *)

Definition TYPE_ETH : Z := 2.
Definition MAX_ERF_PACKET : Z := READER_MAX_PACKET_SIZE.
Definition ERF_HEADER_LEN : Z := 16.

(** [erf_header_t], as it is read and written. *)
Record erf_record : Type := mkErf { er_ts : Z; er_type : Z; er_flags : Z; er_rlen : Z; er_lctr : Z; er_wlen : Z }.
Definition read_erf (h : bytes) : erf_record :=
  mkErf (field 8 0 h) (field 1 8 h) (field 1 9 h) (field 2 10 h) (field 2 12 h) (field 2 14 h).
Definition erf_bytes (h : erf_record) : bytes :=
  le_split 8 (er_ts h) ++ le_split 1 (er_type h) ++ le_split 1 (er_flags h) ++ le_split 2 (er_rlen h) ++
  le_split 2 (er_lctr h) ++ le_split 2 (er_wlen h).
Definition erf_packet_size (h : erf_record) : Z := u32 (PAL_NTOHS (er_rlen h) - ERF_HEADER_LEN).

(** The records [erf_open] looks at; the result is that of the function, 1 for a valid file. *)
Fixpoint erf_check (i : nat) (prevts : Z) (f : rfile) : Z * rfile :=
  match i with
  | O => (1, rewind f)
  | S i =>
      let '(b, f) := fread ERF_HEADER_LEN f in
      if zlength b <? ERF_HEADER_LEN then (1, rewind f)
      else
        let h := read_erf b in
        if (er_type h =? 0) || negb (er_type h =? TYPE_ETH) || negb (Z.land (er_flags h) 0xc0 =? 0) then (0, f)
        else if er_ts h <? prevts then (0, f)
        else erf_check i (er_ts h) (fseek_cur (erf_packet_size h) f)
  end.
Definition erf_open (f : rfile) : Z * rfile := erf_check 10 0 f.

(** The time of a record: seconds, and the fraction in nanoseconds. *)
Definition erf_nsec (frac : Z) : Z :=
  u32_of_double (double_mul (double_of_Z frac) (double_div (double_of_Z 1000000000) (double_of_Z 4294967296))).
Definition erf_frac (nsec : Z) : Z :=
  u32_of_double (double_mul (double_div (double_of_Z 42949672959) (double_of_Z 10))
                   (double_div (double_of_Z nsec) (double_of_Z 1000000000))).

(** [erf_read]: the result, and the packet that [p], [sec] and [nsec] point into. A length below
    zero asks [fread] for all there is. *)
Definition erf_read (f : rfile) (p : CCapPktRaw) : res (Z * rfile * CCapPktRaw) :=
  let '(b, f) := fread ERF_HEADER_LEN f in
  if zlength b <? ERF_HEADER_LEN then Ok (0, f, p)
  else
    let h := read_erf b in
    let packet_size := erf_packet_size h in
    if negb (er_type h =? TYPE_ETH) || negb (Z.land (er_flags h) 0xc0 =? 0) then Ok (-1, f, p)
    else
      _ ← c_assert (negb ((MAX_ERF_PACKET <=? packet_size) || (MAX_ERF_PACKET <? PAL_NTOHS (er_wlen h))));
      let f := fseek_cur 2 f in
      let realpkt_size := packet_size - 2 in
      let '(d, f) := fread (if realpkt_size <? 0 then zlength (f_data f) else realpkt_size) f in
      m ← mem_copy (raw p) 0 d 0 (zlength d);
      if zlength d =? realpkt_size then
        Ok (PAL_NTOHS (er_wlen h), f,
            mkRaw m (pkt_len p) (pkt_cnt p) (Z.shiftr (er_ts h) 32) (erf_nsec (Z.land (er_ts h) 0xffffffff)))
      else Ok (-1, f, set_raw m p).

Record CErfFileReader : Type := mkErfReader { er_loops : Z; er_file_size : Z; er_file : rfile }.
Definition erf_Create (name : option bytes) (loops : Z) : option CErfFileReader :=
  match name with
  | None => None
  | Some data =>
      let '(n, f) := erf_open (mkRFile data 0) in
      if n =? 1 then Some (mkErfReader loops (zlength data) f) else None
  end.
Definition erf_ReadPacket (r : CErfFileReader) (p : CCapPktRaw) : res (bool * CErfFileReader * CCapPktRaw) :=
  '(length, f, p) ← erf_read (er_file r) p;
  let r := mkErfReader (er_loops r) (er_file_size r) f in
  if 0 <? length then Ok (true, r, mkRaw (raw p) (u16 length) (u64 (pkt_cnt p + 1)) (time_sec p) (time_nsec p))
  else Ok (false, r, p).

(** The writer; [_if] is the interface in the flags of the packet. *)
Definition erf_write_packet (_if : Z) (p : CCapPktRaw) (f : wfile) : res (bool * wfile) :=
  let ts := u64 (Z.shiftl (time_sec p) 32 + erf_frac (time_nsec p)) in
  let size := pkt_len p in
  let total_size := u16 (size + ERF_HEADER_LEN + 2 + 4) in
  let align := Z.land total_size 7 in
  let align := if 0 <? align then 8 - align else align in
  let h := mkErf ts TYPE_ETH (u8 (4 + _if)) (PAL_NTOHS (total_size + align)) 0 (PAL_NTOHS (size + 4)) in
  d ← raw_packet p;
  let '(n1, f) := fwrite (erf_bytes h) f in
  let '(n2, f) := fwrite [0; 0] f in
  let '(n3, f) := fwrite d f in
  let '(n4, f) := fwrite (replicate (Z.to_nat (4 + align)) 0) f in
  Ok (negb (n1 + n2 + n3 + n4 <? total_size + align), f).

(** [CPcapFileWriter]: nanoseconds, and no result of [fwrite] is looked at. [m_cnt] wraps as an [int]. *)
Definition PCAP_NSEC_MAGIC : Z := 0xa1b23c4d.
Record CPcapFileWriter : Type := mkNsecWriter { nw_cnt : Z; nw_file : wfile }.
Definition nsec_Create (opened : option Z) : option CPcapFileWriter :=
  (fun room => mkNsecWriter 0 (mkWFile [] room)) <$> opened.
Definition nsec_file_header : bytes :=
  le_split 4 PCAP_NSEC_MAGIC ++ le_split 2 2 ++ le_split 2 4 ++ le_split 4 0 ++ le_split 4 0 ++
  le_split 4 2000 ++ le_split 4 1.
Definition nsec_write_packet (p : CCapPktRaw) (w : CPcapFileWriter) : res (bool * CPcapFileWriter) :=
  let f := if nw_cnt w =? 0 then snd (fwrite nsec_file_header (nw_file w)) else nw_file w in
  let f := snd (fwrite (pkthdr_bytes (time_sec p) (time_nsec p) (pkt_len p) (pkt_len p)) f) in
  d ← raw_packet p;
  Ok (true, mkNsecWriter (u32 (nw_cnt w + 1)) (snd (fwrite d f))).

(** ** The factory *)

Inductive CCapReader : Type := RdPcap (r : LibPCapReader) | RdErf (r : CErfFileReader).

(** [CreateReader]: [file] is what is under the name. *)
Definition CreateReader (file : option bytes) (loops : Z) : option CCapReader :=
  match file with
  | None => None
  | Some _ =>
      let '(ok, r) := pcap_Create file loops LibPCapReader_new in
      if (ok : bool) then Some (RdPcap r) else RdErf <$> erf_Create file loops
  end.

Definition ReadPacket (r : CCapReader) (p : CCapPktRaw) : res (bool * CCapReader * CCapPktRaw) :=
  match r with
  | RdPcap r => '(ok, r, p) ← pcap_ReadPacket r p; Ok (ok, RdPcap r, p)
  | RdErf r => '(ok, r, p) ← erf_ReadPacket r p; Ok (ok, RdErf r, p)
  end.

(** Every packet that a reader gives, with one buffer, up to [fuel]. *)
Fixpoint read_packets (fuel : nat) (r : CCapReader) (p : CCapPktRaw) : res (list CCapPktRaw) :=
  match fuel with
  | O => Err OutOfFuel
  | S fuel =>
      '(ok, r, p) ← ReadPacket r p;
      if negb (ok : bool) then Ok [] else l ← read_packets fuel r p; Ok (p :: l)
  end.

(** ** Comparing files *)

(** [Compare]; the interfaces of packets that are read are both zero. [abs_d] is the overload
    of [abs] that the compiler takes for the difference of times. *)
Definition raw_Compare (abs_d : double -> double) (dsec : double) (p obj : CCapPktRaw) : res bool :=
  if negb (pkt_len p =? pkt_len obj) then Ok false
  else if double_ltb dsec (abs_d (double_sub (get_time p) (get_time obj))) then Ok false
  else a ← raw_packet p; b ← raw_packet obj; Ok (bool_decide (a = b)).

Fixpoint compare_loop (abs_d : double -> double) (d_sec : double) (fuel : nat) (r1 r2 : CCapReader) (p1 p2 : CCapPktRaw)
  : res bool :=
  match fuel with
  | O => Err OutOfFuel
  | S fuel =>
      '(has1, r1, p1) ← ReadPacket r1 p1;
      '(has2, r2, p2) ← ReadPacket r2 p2;
      if negb (has1 : bool) || negb (has2 : bool) then Ok (Bool.eqb has1 has2)
      else
        same ← raw_Compare abs_d d_sec p1 p2;
        if (same : bool) then compare_loop abs_d d_sec fuel r1 r2 p1 p2 else Ok false
  end.
Definition CErfCmp_compare (abs_d : double -> double) (d_sec : double) (fuel : nat) (f1 f2 : option bytes) : res bool :=
  match CreateReader f1 0, CreateReader f2 0 with
  | Some r1, Some r2 => compare_loop abs_d d_sec fuel r1 r2 raw_new raw_new
  | _, _ => Ok false
  end.

(** ** A template from a file *)

Section LoadFile.
Context (is_ipv6_enable : bool) (m_src_ipv6 m_dst_ipv6 : list Z) (cbuff : bytes).

(** The loop: every packet is read into the one buffer [p], which the parser may change. *)
Fixpoint load_loop (fuel : nat) (_id plugin_id : Z) (r : CCapReader) (p : CCapPktRaw) (s : load_state) : res load_state :=
  match fuel with
  | O => Err OutOfFuel
  | S fuel =>
      '(ok, r, p) ← ReadPacket r p;
      if negb (ok : bool) then Ok s
      else
        s ← load_packet is_ipv6_enable m_src_ipv6 m_dst_ipv6 cbuff _id plugin_id p s;
        load_loop fuel _id plugin_id r (m_packet (ld_ind s)) s
  end.

(** Every packet takes 16 bytes of the file or more. *)
Definition load_fuel (data : bytes) : nat := S (length data).

Definition load_file (junk : CCPacketParserCounters) (i0 : CPacketIndication) (file : option bytes) (_id plugin_id : Z)
  : res (CCapFileFlowInfo * Z) :=
  match file, CreateReader file 0 with
  | Some data, Some r =>
      s ← load_loop (load_fuel data) _id plugin_id r raw_new (load_new junk i0);
      load_finish s
  | _, _ => Ok (CapFile_Create, -1)
  end.
End LoadFile.

(** [save_to_erf]: the packets of a template, in a file with [room]. *)
Definition save_loop {W : Type} (write : CCapPktRaw -> W -> res (bool * W)) (l : list CFlowPktInfo) (w : W) : res W :=
  foldl (fun r lp => w ← r; '(ok, w) ← write (fpi_packet lp) w; _ ← c_assert ok; Ok w) (Ok w) l.
Definition save_to_erf (pcap : bool) (opened : option Z) (c : CCapFileFlowInfo) : res (option bytes) :=
  if cap_Size c =? 0 then Ok None
  else if pcap then
    let '(ok, w) := pcap_writer_Create opened (mkPcapWriter false 0 0 (mkWFile [] 0)) in
    if negb ok then Ok None
    else w ← save_loop pcap_write_packet (m_flow_pkts c) w; Ok (Some (w_data (pw_file w)))
  else
    match opened with
    | None => Ok None
    | Some room => f ← save_loop (erf_write_packet 0) (m_flow_pkts c) (mkWFile [] room); Ok (Some (w_data f))
    end.
