(* ===== verification/CaptureFacts.v ===== *)
(** * Facts about capture files

    What is written is read back, whatever the byte order; a reader ends on any file and stays
    in its buffer; and a template is loaded from a file as from the list of its packets. *)

From S2P Require Import Prelude Double ByteMem PktCmn PktCmnFacts PacketHdrs ByteFrame PktDesc PktParser PktParserFacts CapTemplate CapTemplateFacts CapLoadFacts CaptureFile.

(** ** Reading and writing *)

Lemma fread_at n pre d post :
  0 <= n -> zlength d = n -> fread n (mkRFile (pre ++ d ++ post) (zlength pre)) = (d, mkRFile (pre ++ d ++ post) (zlength (pre ++ d))).
Proof.
  intros Hn Hd. unfold fread. cbn [f_data f_pos]. unfold zlength in *. rewrite Nat2Z.id, drop_app_length, take_app_length' by lia.
  f_equal. f_equal. rewrite length_app. lia.
Qed.

Lemma fread_end n pre : fread n (mkRFile pre (zlength pre)) = ([], mkRFile pre (zlength pre)).
Proof.
  unfold fread. cbn [f_data f_pos]. unfold zlength. rewrite Nat2Z.id, drop_all, take_nil. cbn [length]. by rewrite Z.add_0_r.
Qed.

Lemma fwrite_all d f : zlength d <= w_room f -> fwrite d f = (zlength d, mkWFile (w_data f ++ d) (w_room f - zlength d)).
Proof. intros Hd. unfold fwrite. unfold zlength in *. by rewrite take_ge by lia. Qed.

Lemma field_at n k a b v : zlength a = k -> 0 <= v < 256 ^ Z.of_nat n -> field n k (a ++ le_split n v ++ b) = v.
Proof.
  intros <- Hv. unfold field, zlength. rewrite Nat2Z.id, drop_app_length, take_app_length' by (by rewrite length_le_split).
  rewrite le_combine_split. by apply Z.mod_small.
Qed.

(** A field of what [le_split] makes: [l] is all of it. *)
Lemma field_of n k l v :
  l = take (Z.to_nat k) l ++ le_split n v ++ drop (Z.to_nat k + n)%nat l -> zlength (take (Z.to_nat k) l) = k ->
  0 <= v < 256 ^ Z.of_nat n -> field n k l = v.
Proof. intros E Hk Hv. rewrite E. by apply field_at. Qed.

(** ** The records of a libpcap file *)

(** A packet in a file: time in seconds and microseconds, and bytes. *)
Record cap_rec : Type := mkRec { rc_sec : Z; rc_usec : Z; rc_data : bytes }.
Record rec_ok (r : cap_rec) : Prop := {
  ro_sec : 0 <= rc_sec r < 4294967296;
  ro_usec : 0 <= rc_usec r < 4294967296;
  ro_len : zlength (rc_data r) <= READER_MAX_PACKET_SIZE;
  ro_data : bytes_ok (rc_data r) }.

(** In the byte order of the reader, or in the other one. *)
Definition order (flip : bool) (x : Z) : Z := if flip then PAL_NTOHL x else x.
Definition rec_header (flip : bool) (r : cap_rec) : bytes :=
  pkthdr_bytes (order flip (rc_sec r)) (order flip (rc_usec r)) (order flip (zlength (rc_data r))) (order flip (zlength (rc_data r))).
Definition rec_bytes (flip : bool) (r : cap_rec) : bytes := rec_header flip r ++ rc_data r.
Definition recs_bytes (flip : bool) (l : list cap_rec) : bytes := concat (rec_bytes flip <$> l).

(** The header of a file: 24 bytes, of which only the magic counts. *)
Definition file_header (flip : bool) (h : bytes) : Prop :=
  zlength h = PCAP_FILE_HEADER_LEN /\ field 4 0 h = if flip then MAGIC_NUM_FLIP else MAGIC_NUM_DONT_FLIP.

Lemma order_range (fl : bool) x : 0 <= x < 4294967296 -> 0 <= order fl x < 4294967296.
Proof. intros Hx. destruct fl; [apply PAL_NTOHL_range|done]. Qed.

Lemma read_pkthdr_bytes a b c d :
  0 <= a < 4294967296 -> 0 <= b < 4294967296 -> 0 <= c < 4294967296 -> 0 <= d < 4294967296 ->
  read_pkthdr (pkthdr_bytes a b c d) = mkPktHdr a b c d.
Proof.
  intros Ha Hb Hc Hd. unfold read_pkthdr.
  rewrite (field_of 4 0 _ a), (field_of 4 4 _ b), (field_of 4 8 _ c), (field_of 4 12 _ d) by (reflexivity || done). done.
Qed.

Lemma header_read (fl : bool) (r : cap_rec) :
  rec_ok r -> (if fl then flip (read_pkthdr (rec_header fl r)) else read_pkthdr (rec_header fl r)) =
    mkPktHdr (rc_sec r) (rc_usec r) (zlength (rc_data r)) (zlength (rc_data r)).
Proof.
  intros [Hs Hu Hl _]. pose proof (zlength_pos (rc_data r)). unfold READER_MAX_PACKET_SIZE, MAX_PKT_SIZE in Hl.
  unfold rec_header. rewrite read_pkthdr_bytes by (apply order_range; lia). unfold flip. cbn [ts_sec ts_msec caplen sf_len].
  destruct fl; cbn [order]; [|done]. rewrite !PAL_NTOHL_involutive by lia. done.
Qed.

(** The buffer of the readers. *)
Definition buffer (p : CCapPktRaw) : Prop := bytes_ok (raw p) /\ zlength (raw p) = MAX_PKT_SIZE.
(** [p] holds the packet of the record. *)
Record holds (r : cap_rec) (p : CCapPktRaw) : Prop := {
  hl_len : pkt_len p = zlength (rc_data r);
  hl_data : take (length (rc_data r)) (raw p) = rc_data r;
  hl_sec : time_sec p = rc_sec r;
  hl_nsec : time_nsec p = u32 (rc_usec r * 1000);
  hl_raw : buffer p }.

(** The reader, in an open file. *)
Definition in_file (fl : bool) (loops : Z) (data : bytes) (pos : Z) : LibPCapReader :=
  mkPcapReader true true fl loops (zlength data) (mkRFile data pos).

Lemma zlength_header (fl : bool) (r : cap_rec) : zlength (rec_header fl r) = 16.
Proof. unfold rec_header, pkthdr_bytes, zlength. by rewrite !length_app, !length_le_split. Qed.

Lemma read_record fl loops pre r post p :
  rec_ok r -> buffer p ->
  exists p', pcap_ReadPacket (in_file fl loops (pre ++ rec_bytes fl r ++ post) (zlength pre)) p =
      Ok (true, in_file fl (if 0 <? loops then loops - 1 else loops) (pre ++ rec_bytes fl r ++ post) (zlength (pre ++ rec_bytes fl r)), p') /\
    holds r p'.
Proof.
  intros Hr [Hb Hp]. pose proof Hr as [Hs Hu Hl Hd]. pose proof (zlength_header fl r) as Hh. pose proof (zlength_pos (rc_data r)).
  pose proof (zlength_pos post). change READER_MAX_PACKET_SIZE with 2048 in *. change MAX_PKT_SIZE with 2048 in *.
  set (data := pre ++ rec_bytes fl r ++ post). unfold pcap_ReadPacket, in_file. cbn [pr_is_valid pr_is_open negb orb pr_file f_pos pr_file_size pr_loops].
  rewrite (proj2 (Z.eqb_neq (zlength pre) (zlength data))).
  2: { unfold data, rec_bytes. rewrite !zlength_app. lia. }
  cbn [andb]. assert (E1 : fread SF_PKTHDR_LEN (mkRFile data (zlength pre)) = (rec_header fl r, mkRFile data (zlength (pre ++ rec_header fl r)))).
  { unfold data, rec_bytes. rewrite <- app_assoc. by apply fread_at. }
  cbn [pr_file]. rewrite E1. cbv beta iota zeta. cbn [pr_set_file pr_is_flip]. rewrite Hh. change (16 <? SF_PKTHDR_LEN) with false. cbv iota.
  rewrite (header_read fl r Hr). cbn [sf_len ts_msec ts_sec]. change READER_MAX_PACKET_SIZE with 2048.
  rewrite (proj2 (Z.ltb_ge 2048 (zlength (rc_data r)))) by lia.
  assert (E2 : fread (zlength (rc_data r)) (mkRFile data (zlength (pre ++ rec_header fl r))) =
    (rc_data r, mkRFile data (zlength ((pre ++ rec_header fl r) ++ rc_data r)))).
  { replace data with ((pre ++ rec_header fl r) ++ rc_data r ++ post) by (unfold data, rec_bytes; by rewrite <- !app_assoc).
    by apply fread_at. }
  rewrite E2. cbv beta iota zeta. unfold mem_copy. rewrite decide_True by lia. cbn [mbind res_bind pr_set_loops pr_loops].
  rewrite u16_id by lia. rewrite Z.ltb_irrefl. rewrite <- app_assoc. fold (rec_bytes fl r). eexists. split; [cbn [pr_loops pr_set_file]; destruct (0 <? loops); reflexivity|].
  change (Z.to_nat 0) with 0%nat. rewrite drop_0. unfold zlength in *. rewrite Nat2Z.id, firstn_all. split; cbn [pkt_len raw time_sec time_nsec]; try done.
  - unfold splice. rewrite take_0, app_nil_l. by rewrite take_app_length.
  - split; cbn [raw]; [by apply splice_ok|]. unfold zlength. rewrite length_splice by lia. change MAX_PKT_SIZE with 2048. lia.
Qed.

(** At the end of the file, without a loop and with one. *)
Lemma read_at_end fl data p : pcap_ReadPacket (in_file fl 0 data (zlength data)) p = Ok (false, in_file fl 0 data (zlength data), p).
Proof.
  unfold pcap_ReadPacket, in_file. cbn [pr_is_valid pr_is_open negb orb pr_file f_pos pr_file_size pr_loops]. rewrite Z.eqb_refl.
  cbn [andb Z.ltb Z.compare pr_file]. by rewrite fread_end.
Qed.

Lemma init_file fl h rest loops o v f0 sz :
  file_header fl h ->
  pcap_init (mkPcapReader o v f0 loops sz (mkRFile (h ++ rest) 0)) =
    (true, mkPcapReader o true fl loops sz (mkRFile (h ++ rest) PCAP_FILE_HEADER_LEN)).
Proof.
  intros [Hl Hm]. unfold pcap_init. cbn [pr_file].
  pose proof (fread_at PCAP_FILE_HEADER_LEN [] h rest ltac:(done) Hl) as E. cbn [app] in E. change (zlength (@nil Z)) with 0 in E.
  rewrite E, Hl. change (PCAP_FILE_HEADER_LEN <? PCAP_FILE_HEADER_LEN) with false. cbv iota zeta. rewrite Hm. by destruct fl.
Qed.

Lemma read_loops fl h rest loops p :
  file_header fl h -> 0 < loops ->
  pcap_ReadPacket (in_file fl loops (h ++ rest) (zlength (h ++ rest))) p = pcap_ReadPacket (in_file fl loops (h ++ rest) PCAP_FILE_HEADER_LEN) p.
Proof.
  intros Hh Hn. unfold pcap_ReadPacket, in_file. cbn [pr_is_valid pr_is_open negb orb pr_file f_pos pr_file_size pr_loops].
  rewrite Z.eqb_refl, (proj2 (Z.ltb_lt 0 loops)) by done. cbn [andb]. unfold pr_set_file, rewind. cbn [pr_is_open pr_is_valid pr_is_flip pr_loops pr_file_size f_data].
  rewrite (init_file fl h rest) by done. cbn [snd]. by destruct (PCAP_FILE_HEADER_LEN =? zlength (h ++ rest)).
Qed.

(** ** Reading a file to its end *)

Lemma CreateReader_pcap fl h rest loops :
  file_header fl h -> CreateReader (Some (h ++ rest)) loops = Some (RdPcap (in_file fl loops (h ++ rest) PCAP_FILE_HEADER_LEN)).
Proof.
  intros Hh. unfold CreateReader, pcap_Create, LibPCapReader_new, pr_set_loops. cbn [pr_is_open pr_is_valid pr_is_flip pr_file_size pr_file].
  by rewrite (init_file fl h rest).
Qed.

(** One pass over records: what is left of the loops after it. *)
Lemma read_pass fl l post : forall pre loops p fuel,
  Forall rec_ok l -> buffer p -> 0 <= loops ->
  exists l' p', Forall2 holds l l' /\ buffer p' /\
    read_packets (length l + fuel) (RdPcap (in_file fl loops (pre ++ recs_bytes fl l ++ post) (zlength pre))) p =
      (rest ← read_packets fuel (RdPcap (in_file fl (Z.max 0 (loops - zlength l)) (pre ++ recs_bytes fl l ++ post)
                                           (zlength (pre ++ recs_bytes fl l)))) p'; Ok (l' ++ rest)).
Proof.
  induction l as [|r l IH]; intros pre loops p fuel Hl Hp Hn.
  - exists [], p. split_and!; [done..|]. unfold recs_bytes. simpl. rewrite app_nil_r. rewrite Z.sub_0_r, Z.max_r by done.
    by destruct (read_packets fuel _ p).
  - apply Forall_cons in Hl as [Hr Hl]. assert (Hd : pre ++ recs_bytes fl (r :: l) ++ post = pre ++ rec_bytes fl r ++ (recs_bytes fl l ++ post)).
    { unfold recs_bytes. cbn [fmap list_fmap concat]. by rewrite <- app_assoc. }
    destruct (read_record fl loops pre r (recs_bytes fl l ++ post) p Hr Hp) as (p1 & E & Hh).
    destruct (IH (pre ++ rec_bytes fl r) (if 0 <? loops then loops - 1 else loops) p1 fuel Hl (hl_raw _ _ Hh)) as (l' & p' & Hl' & Hp' & E').
    { destruct (Z.ltb_spec 0 loops); lia. }
    exists (p1 :: l'), p'. split_and!; [by constructor|done|]. rewrite Hd. cbn [length plus read_packets ReadPacket]. rewrite E. cbn [mbind res_bind negb].
    replace ((pre ++ rec_bytes fl r) ++ recs_bytes fl l ++ post) with (pre ++ rec_bytes fl r ++ recs_bytes fl l ++ post) in E' by (by rewrite <- app_assoc).
    rewrite E'. replace (pre ++ recs_bytes fl (r :: l)) with ((pre ++ rec_bytes fl r) ++ recs_bytes fl l)
      by (unfold recs_bytes; cbn [fmap list_fmap concat]; by rewrite <- app_assoc).
    replace (Z.max 0 ((if 0 <? loops then loops - 1 else loops) - zlength l)) with (Z.max 0 (loops - zlength (r :: l)))
      by (unfold zlength; cbn [length]; destruct (Z.ltb_spec 0 loops); lia).
    repeat match goal with |- context [read_packets fuel ?r ?q] => destruct (read_packets fuel r q) end; done.
Qed.

Lemma read_packets_loops fl h rest loops p fuel :
  file_header fl h -> 0 < loops ->
  read_packets (S fuel) (RdPcap (in_file fl loops (h ++ rest) (zlength (h ++ rest)))) p =
    read_packets (S fuel) (RdPcap (in_file fl loops (h ++ rest) (zlength h))) p.
Proof. intros Hh Hn. cbn [read_packets ReadPacket]. rewrite (proj1 Hh). by rewrite read_loops. Qed.

(** [n] passes and one more. *)
Lemma read_passes fl h l : file_header fl h -> Forall rec_ok l -> forall n loops p fuel,
  buffer p -> 0 <= loops <= Z.of_nat (S n) * zlength l -> n = O \/ Z.of_nat n * zlength l < loops ->
  (length (concat (replicate (S n) l)) < fuel)%nat ->
  exists l', read_packets fuel (RdPcap (in_file fl loops (h ++ recs_bytes fl l) (zlength h))) p = Ok l' /\
    Forall2 holds (concat (replicate (S n) l)) l'.
Proof.
  intros Hh Hl. induction n as [|n IH]; intros loops p fuel Hp Hn Hlow Hf.
  - replace fuel with (length l + S (fuel - length l - 1))%nat by (cbn [replicate concat] in Hf; rewrite length_app in Hf; lia).
    destruct (read_pass fl l [] h loops p (S (fuel - length l - 1)) Hl Hp) as (l' & p' & Hl' & Hp' & E); [lia|].
    rewrite app_nil_r in E. rewrite E. rewrite Z.max_l by lia. cbn [read_packets ReadPacket]. rewrite read_at_end. cbn [mbind res_bind negb].
    exists l'. cbn [replicate concat]. by rewrite !app_nil_r.
  - destruct Hlow as [?|Hlow]; [done|]. rewrite !Nat2Z.inj_succ in *. pose proof (zlength_pos l).
    assert (Hf' : (length l + length (concat (replicate (S n) l)) < fuel)%nat) by (by rewrite <- length_app).
    destruct fuel as [|fuel]; [lia|].
    replace (S fuel) with (length l + S (fuel - length l))%nat by lia.
    destruct (read_pass fl l [] h loops p (S (fuel - length l)) Hl Hp) as (l1 & p1 & Hl1 & Hp1 & E); [lia|].
    rewrite app_nil_r in E. rewrite E. rewrite Z.max_r by nia. rewrite read_packets_loops by (done || nia).
    destruct (IH (loops - zlength l) p1 (S (fuel - length l))) as (l2 & E2 & Hl2); [done|nia|right; nia|lia|].
    rewrite E2. cbn [mbind res_bind]. exists (l1 ++ l2). split; [done|]. change (concat (replicate (S (S n)) l)) with (l ++ concat (replicate (S n) l)).
    by apply Forall2_app.
Qed.

Lemma length_recs_bytes fl l : (16 * length l <= length (recs_bytes fl l))%nat.
Proof.
  induction l as [|r l IH]; [done|]. unfold recs_bytes in *. cbn [fmap list_fmap concat length]. unfold rec_bytes at 1.
  rewrite !length_app. pose proof (zlength_header fl r). unfold zlength in *. lia.
Qed.

Lemma read_whole fl h l p :
  file_header fl h -> Forall rec_ok l -> buffer p ->
  exists l', read_packets (load_fuel (h ++ recs_bytes fl l)) (RdPcap (in_file fl 0 (h ++ recs_bytes fl l) PCAP_FILE_HEADER_LEN)) p = Ok l' /\
    Forall2 holds l l'.
Proof.
  intros Hh Hl Hp. destruct (read_passes fl h l Hh Hl 0 0 p (load_fuel (h ++ recs_bytes fl l)) Hp) as (l' & E & H2).
  - pose proof (zlength_pos l). lia.
  - by left.
  - cbn [replicate concat]. rewrite app_nil_r. unfold load_fuel. rewrite length_app. pose proof (length_recs_bytes fl l). lia.
  - rewrite (proj1 Hh) in E. exists l'. cbn [replicate concat] in H2. rewrite app_nil_r in H2. done.
Qed.

(** How often a reader goes through a file of [n] packets: [loops] counts packets. *)
Definition passes (loops n : Z) : nat := Z.to_nat (Z.max 1 ((loops + n - 1) / n)).

Lemma passes_bounds loops n :
  0 < n -> 0 <= loops ->
  0 <= loops <= Z.of_nat (passes loops n) * n /\ ((1 < passes loops n)%nat -> (Z.of_nat (passes loops n) - 1) * n < loops).
Proof.
  intros Hn Hl. unfold passes. pose proof (Z.div_mod (loops + n - 1) n ltac:(lia)). pose proof (Z.mod_pos_bound (loops + n - 1) n Hn).
  rewrite Z2Nat.id by lia. set (q := (loops + n - 1) / n) in *. split; [|intros Hq]; [nia|]. rewrite Z.max_r by lia. nia.
Qed.

(** Reading a libpcap file of either byte order gives its packets in their order, each with its
    bytes and its time in microseconds; asked for [loops] packets, the reader goes through the
    whole file as often as it takes to give that many, and never stops inside a pass. *)
Theorem pcap_file_read (fl : bool) (h : bytes) (l : list cap_rec) (loops : Z) (p : CCapPktRaw) (fuel : nat) :
  file_header fl h -> Forall rec_ok l -> 0 <= loops -> (l = [] -> loops = 0) -> buffer p ->
  (passes loops (zlength l) * length l < fuel)%nat ->
  exists r l', CreateReader (Some (h ++ recs_bytes fl l)) loops = Some r /\ read_packets fuel r p = Ok l' /\
    Forall2 holds (concat (replicate (passes loops (zlength l)) l)) l'.
Proof.
  intros Hh Hl Hn He Hp Hf. destruct (passes loops (zlength l)) as [|n] eqn:En; [unfold passes in En; lia|].
  assert (Hlen : length (concat (replicate (S n) l)) = (S n * length l)%nat).
  { clear. generalize (S n). intros m. induction m as [|m IH]; [done|]. cbn [replicate concat]. rewrite length_app, IH. done. }
  eexists. rewrite (CreateReader_pcap fl h _ loops Hh). rewrite <- (proj1 Hh).
  destruct (read_passes fl h l Hh Hl n loops p fuel Hp) as (l' & E & H2); [..|lia|by exists l'].
  - rewrite <- En. destruct (decide (l = [])) as [->|Hne]; [by rewrite He|]. pose proof (zlength_pos l).
    apply passes_bounds; [|lia]. destruct l; [done|unfold zlength; cbn [length]; lia].
  - destruct n as [|n]; [by left|right]. destruct (decide (l = [])) as [->|Hne]; [by rewrite He in En|]. pose proof (zlength_pos l).
    replace (Z.of_nat (S n)) with (Z.of_nat (passes loops (zlength l)) - 1) by lia. apply passes_bounds; [|lia|lia].
    destruct l; [done|unfold zlength; cbn [length]; lia].
Qed.

(** ** Writing a template and reading it back *)

(** What a file holds of a packet, and the packets that it can hold. *)
Definition rec_of (p : CCapPktRaw) : cap_rec :=
  mkRec (time_sec p) (time_nsec p / 1000) (take (Z.to_nat (pkt_len p)) (raw p)).
Record savable (p : CCapPktRaw) : Prop := {
  sv_ok : bytes_ok (raw p);
  sv_len : 0 <= pkt_len p <= zlength (raw p);
  sv_max : pkt_len p <= MAX_PKT_SIZE;
  sv_sec : 0 <= time_sec p < 4294967296;
  sv_nsec : 0 <= time_nsec p < 4294967296 }.

Lemma zlength_rec_of p : savable p -> zlength (rc_data (rec_of p)) = pkt_len p.
Proof. intros [_ Hl _ _ _]. unfold rec_of, zlength in *. cbn [rc_data]. rewrite length_take. lia. Qed.

Lemma rec_of_ok p : savable p -> rec_ok (rec_of p).
Proof.
  intros Hp. pose proof (zlength_rec_of p Hp) as Hz. destruct Hp as [Hb Hl Hm Hs Hn]. split; [done| |by rewrite Hz|by apply Forall_take].
  cbn [rec_of rc_usec]. pose proof (Z.div_mod (time_nsec p) 1000 ltac:(done)). pose proof (Z.mod_pos_bound (time_nsec p) 1000 ltac:(done)). lia.
Qed.

(** The bytes a packet takes in a file. *)
Definition room_of (p : CCapPktRaw) : Z := SF_PKTHDR_LEN + pkt_len p.
Definition room_for_all (l : list CCapPktRaw) : Z := foldr (fun p n => room_of p + n) 0 l.

Lemma write_record p cnt ts d room :
  savable p -> room_of p <= room ->
  pcap_write_packet p (mkPcapWriter true cnt ts (mkWFile d room)) =
    Ok (true, mkPcapWriter true (u32 (cnt + 1)) (u64 (ts + 1)) (mkWFile (d ++ rec_bytes false (rec_of p)) (room - room_of p))).
Proof.
  intros Hp Hr. pose proof (zlength_rec_of p Hp) as Hz. pose proof (zlength_header false (rec_of p)) as Hh. pose proof (sv_len p Hp).
  unfold rec_header, order in Hh. rewrite Hz in Hh. cbn [rc_sec rc_usec rec_of] in Hh. unfold room_of, SF_PKTHDR_LEN in *.
  unfold pcap_write_packet, raw_packet. cbn [pw_is_open negb pw_file pw_pkt_count pw_timestamp]. rewrite decide_True by done.
  cbn [mbind res_bind]. rewrite fwrite_all by (cbn [w_room]; lia). rewrite Hh. cbn [w_data w_room].
  change (take (Z.to_nat (pkt_len p)) (raw p)) with (rc_data (rec_of p)). rewrite fwrite_all by (cbn [w_room]; lia). rewrite Hz.
  cbn [w_data w_room]. change SF_PKTHDR_LEN with 16. rewrite Z.ltb_irrefl. unfold rec_bytes, rec_header, order. rewrite Hz. cbn [negb rc_sec rc_usec rec_of].
  rewrite <- app_assoc. by replace (room - 16 - pkt_len p) with (room - (16 + pkt_len p)) by lia.
Qed.

Lemma save_records l : forall cnt ts d room,
  Forall (fun t => savable (fpi_packet t)) l -> room_for_all (fpi_packet <$> l) <= room ->
  exists cnt' ts' room', save_loop pcap_write_packet l (mkPcapWriter true cnt ts (mkWFile d room)) =
    Ok (mkPcapWriter true cnt' ts' (mkWFile (d ++ recs_bytes false (rec_of <$> (fpi_packet <$> l))) room')).
Proof.
  induction l as [|t l IH]; intros cnt ts d room Hl Hr.
  - exists cnt, ts, room. unfold recs_bytes. cbn. by rewrite app_nil_r.
  - apply Forall_cons in Hl as [Ht Hl]. cbn [fmap list_fmap room_for_all foldr] in Hr. fold (room_for_all (fpi_packet <$> l)) in Hr.
    assert (0 <= room_for_all (fpi_packet <$> l)).
    { clear - Hl. induction Hl as [|u l Hu _ IH]; cbn [fmap list_fmap room_for_all foldr]; [done|]. fold (room_for_all (fpi_packet <$> l)).
      pose proof (sv_len _ Hu). unfold room_of, SF_PKTHDR_LEN. lia. }
    unfold save_loop. cbn [foldl]. cbn [mbind res_bind]. rewrite write_record by (done || lia). cbn [mbind res_bind c_assert].
    destruct (IH (u32 (cnt + 1)) (u64 (ts + 1)) (d ++ rec_bytes false (rec_of (fpi_packet t))) (room - room_of (fpi_packet t)) Hl) as (cnt' & ts' & room' & E);
      [lia|]. exists cnt', ts', room'. unfold save_loop in E. rewrite E. unfold recs_bytes. cbn [fmap list_fmap concat]. by rewrite <- app_assoc.
Qed.

(** What is read of a packet that was written. *)
Record reads_back (p q : CCapPktRaw) : Prop := {
  rb_len : pkt_len q = pkt_len p;
  rb_data : take (Z.to_nat (pkt_len p)) (raw q) = take (Z.to_nat (pkt_len p)) (raw p);
  rb_sec : time_sec q = time_sec p;
  rb_nsec : time_nsec q = time_nsec p / 1000 * 1000 }.

Lemma holds_reads_back p q : savable p -> holds (rec_of p) q -> reads_back p q.
Proof.
  intros Hp [Hl Hd Hs Hn _]. pose proof (zlength_rec_of p Hp) as Hz. split.
  - by rewrite Hl.
  - change (take (Z.to_nat (pkt_len p)) (raw p)) with (rc_data (rec_of p)). rewrite <- Hz. unfold zlength. by rewrite Nat2Z.id.
  - done.
  - rewrite Hn. cbn [rec_of rc_usec]. destruct Hp as [_ _ _ _ Hr]. rewrite u32_id; [done|].
    pose proof (Z.div_mod (time_nsec p) 1000 ltac:(done)). pose proof (Z.mod_pos_bound (time_nsec p) 1000 ltac:(done)). lia.
Qed.

Lemma pcap_file_header_ok : file_header false pcap_file_header.
Proof. done. Qed.

Lemma raw_new_buffer : buffer raw_new.
Proof. split; [apply Forall_replicate; unfold byte_ok; lia|done]. Qed.

(** C11: a template that is saved as a libpcap file, on a disk with room for it, and read again gives
    its packets in their order: the same bytes and lengths, the same seconds, and the nanoseconds
    rounded down to microseconds. *)
Theorem saved_template_reads_back (c : CCapFileFlowInfo) (room : Z) :
  m_flow_pkts c <> [] -> Forall (fun t => savable (fpi_packet t)) (m_flow_pkts c) ->
  PCAP_FILE_HEADER_LEN + room_for_all (fpi_packet <$> m_flow_pkts c) <= room ->
  exists data r l, save_to_erf true (Some room) c = Ok (Some data) /\ CreateReader (Some data) 0 = Some r /\
    read_packets (load_fuel data) r raw_new = Ok l /\ Forall2 reads_back (fpi_packet <$> m_flow_pkts c) l.
Proof.
  intros Hne Hs Hr. set (l := m_flow_pkts c) in *. assert (0 <= room_for_all (fpi_packet <$> l)).
  { clear - Hs. induction Hs as [|u l Hu _ IH]; cbn [fmap list_fmap room_for_all foldr]; [done|]. fold (room_for_all (fpi_packet <$> l)).
    pose proof (sv_len _ Hu). unfold room_of, SF_PKTHDR_LEN. lia. }
  destruct (save_records l 0 0 pcap_file_header (room - PCAP_FILE_HEADER_LEN) Hs) as (cnt & ts & room' & E); [lia|].
  assert (Hrec : Forall rec_ok (rec_of <$> (fpi_packet <$> l))).
  { apply Forall_fmap, Forall_fmap. apply (Forall_impl _ _ _ Hs). intros t Ht. by apply rec_of_ok. }
  destruct (read_whole false pcap_file_header _ raw_new pcap_file_header_ok Hrec raw_new_buffer) as (l' & E' & H2).
  eexists _, _, l'. split_and!; [|by apply CreateReader_pcap, pcap_file_header_ok|exact E'|].
  - unfold save_to_erf, cap_Size. fold l. rewrite (proj2 (Z.eqb_neq _ _)) by (destruct l; done).
    unfold pcap_writer_Create. cbn [pw_is_open]. change PCAP_FILE_HEADER_LEN with 24 in *.
    rewrite fwrite_all by (change (zlength pcap_file_header) with 24; cbn [w_room]; lia). change (zlength pcap_file_header) with 24.
    change (24 =? 24) with true. cbn [negb w_data w_room app pw_timestamp]. rewrite E. done.
  - apply Forall2_fmap_l in H2. clear - Hs H2. revert l' H2. induction Hs as [|t l Ht Hl IH]; intros l' H2; cbn [fmap list_fmap] in *.
    + by apply Forall2_nil_inv_l in H2 as ->.
    + apply Forall2_cons_inv_l in H2 as (q & l1 & Hq & H2 & ->). constructor; [by apply holds_reads_back|by apply IH].
Qed.

Lemma write_no_room p cnt ts d room :
  savable p -> 0 <= room < room_of p ->
  exists w, pcap_write_packet p (mkPcapWriter true cnt ts (mkWFile d room)) = Ok (false, w).
Proof.
  intros Hp Hr. pose proof (sv_len p Hp). unfold room_of in Hr. change SF_PKTHDR_LEN with 16 in Hr.
  unfold pcap_write_packet, raw_packet. cbn [pw_is_open negb pw_file]. rewrite decide_True by done. cbn [mbind res_bind].
  unfold fwrite. cbn [w_room w_data]. eexists. rewrite (proj2 (Z.ltb_lt _ _)); [done|]. change SF_PKTHDR_LEN with 16.
  unfold zlength. rewrite !length_take. lia.
Qed.

(** A disk without room for all packets ends the program at the first one that does not fit. *)
Theorem save_records_full l : forall cnt ts d room,
  Forall (fun t => savable (fpi_packet t)) l -> 0 <= room < room_for_all (fpi_packet <$> l) ->
  save_loop pcap_write_packet l (mkPcapWriter true cnt ts (mkWFile d room)) = Err AssertFail.
Proof.
  induction l as [|t l IH]; intros cnt ts d room Hl Hr; [cbn in Hr; lia|].
  apply Forall_cons in Hl as [Ht Hl]. cbn [fmap list_fmap room_for_all foldr] in Hr. fold (room_for_all (fpi_packet <$> l)) in Hr.
  unfold save_loop. cbn [foldl]. cbn [mbind res_bind]. destruct (decide (room < room_of (fpi_packet t))).
  - destruct (write_no_room (fpi_packet t) cnt ts d room Ht ltac:(lia)) as [w E]. rewrite E. cbn [mbind res_bind c_assert].
    clear. by induction l.
  - rewrite write_record by (done || lia). cbn [mbind res_bind c_assert]. apply IH; [done|lia].
Qed.

Lemma pcap_Rewind_ok fl loops h rest pos :
  file_header fl h -> pcap_Rewind (in_file fl loops (h ++ rest) pos) = in_file fl loops (h ++ rest) PCAP_FILE_HEADER_LEN.
Proof.
  intros Hh. unfold pcap_Rewind, in_file, pr_set_file, rewind. cbn [pr_is_open pr_is_valid pr_is_flip pr_loops pr_file_size pr_file f_data].
  by rewrite (init_file fl h rest).
Qed.

(** ** Any file *)

(** What a reader makes of a file: its packets, each in the buffer, or the end of the process. *)
Definition reads_or_exits (x : res (list CCapPktRaw)) : Prop :=
  (exists l, x = Ok l /\ Forall (fun q => 0 <= pkt_len q <= MAX_PKT_SIZE /\ zlength (raw q) = MAX_PKT_SIZE) l) \/ x = exit_process.

Lemma fread_range n data pos :
  0 <= pos <= zlength data -> exists d, fread n (mkRFile data pos) = (d, mkRFile data (pos + zlength d)) /\
    zlength d <= Z.max 0 n /\ pos + zlength d <= zlength data.
Proof.
  intros Hp. unfold fread. cbn [f_data f_pos]. eexists. split; [done|]. unfold zlength in *. rewrite length_take, length_drop. lia.
Qed.

Lemma pcap_ReadPacket_any o v fl sz data pos p :
  0 <= pos <= zlength data -> zlength (raw p) = MAX_PKT_SIZE ->
  pcap_ReadPacket (mkPcapReader o v fl 0 sz (mkRFile data pos)) p = exit_process \/
  exists ok pos' q, pcap_ReadPacket (mkPcapReader o v fl 0 sz (mkRFile data pos)) p = Ok (ok, mkPcapReader o v fl 0 sz (mkRFile data pos'), q) /\
    (ok = true -> pos + SF_PKTHDR_LEN <= pos' <= zlength data /\ 0 <= pkt_len q <= MAX_PKT_SIZE /\ zlength (raw q) = MAX_PKT_SIZE).
Proof.
  intros Hpos Hp. unfold pcap_ReadPacket. cbn [pr_is_valid pr_is_open pr_file f_pos pr_file_size pr_loops].
  destruct (negb v || negb o); [right; by exists false, pos, p|]. change (0 <? 0) with false. rewrite andb_false_r. cbn [pr_file].
  destruct (fread_range SF_PKTHDR_LEN data pos Hpos) as (h & E & Hh & Hph). rewrite E. cbn [pr_set_file pr_is_flip].
  pose proof (zlength_pos h). change SF_PKTHDR_LEN with 16 in *. destruct (Z.ltb_spec (zlength h) 16); [right; by eexists false, _, p|].
  set (hdr := if fl then flip (read_pkthdr h) else read_pkthdr h). change READER_MAX_PACKET_SIZE with 2048. change MAX_PKT_SIZE with 2048 in *.
  destruct (Z.ltb_spec 2048 (sf_len hdr)); [by left|right].
  destruct (fread_range (sf_len hdr) data (pos + zlength h)) as (d & Ed & Hd & Hpd); [lia|]. rewrite Ed. pose proof (zlength_pos d).
  unfold mem_copy. rewrite decide_True by lia. cbn [mbind res_bind]. rewrite u16_id by lia.
  destruct (zlength d <? sf_len hdr); [by eexists false, _, _|].
  eexists true, _, _. split; [done|]. intros _. cbn [pkt_len raw]. split; [lia|]. split; [lia|].
  unfold zlength in *. rewrite length_splice; [done|]. rewrite length_take, length_drop. lia.
Qed.

Lemma read_packets_any fuel : forall o v fl sz data pos p,
  0 <= pos <= zlength data -> zlength (raw p) = MAX_PKT_SIZE -> zlength data - pos < Z.of_nat fuel ->
  reads_or_exits (read_packets fuel (RdPcap (mkPcapReader o v fl 0 sz (mkRFile data pos))) p).
Proof.
  induction fuel as [|fuel IH]; intros o v fl sz data pos p Hpos Hp Hf; [lia|]. cbn [read_packets ReadPacket].
  destruct (pcap_ReadPacket_any o v fl sz data pos p Hpos Hp) as [E|(ok & pos' & q & E & Hok)]; rewrite E; [by right|].
  cbn [mbind res_bind]. destruct ok; cbn [negb]; [|by left; exists []]. destruct Hok as (Hp' & Hq & Hb); [done|].
  change SF_PKTHDR_LEN with 16 in Hp'. destruct (IH o v fl sz data pos' q) as [(l & El & Hl)|El]; [lia|done|lia| |]; rewrite El; [|by right].
  left. exists (q :: l). by rewrite Forall_cons.
Qed.

(** C12: whatever a file holds that is taken for a libpcap one, reading it ends, never writes outside
    the buffer, and gives packets of at most 2048 bytes; the process is ended by a longer one. *)
Theorem pcap_reads_any_file (data : bytes) (r : LibPCapReader) (p : CCapPktRaw) :
  CreateReader (Some data) 0 = Some (RdPcap r) -> zlength (raw p) = MAX_PKT_SIZE ->
  reads_or_exits (read_packets (load_fuel data) (RdPcap r) p).
Proof.
  intros E Hp. unfold CreateReader, pcap_Create, LibPCapReader_new, pr_set_loops in E. cbn [pr_is_open pr_is_valid pr_is_flip pr_file_size pr_file] in E.
  unfold pcap_init in E. cbn [pr_file pr_is_open pr_loops pr_file_size pr_is_flip] in E.
  destruct (fread_range PCAP_FILE_HEADER_LEN data 0) as (h & Eh & _ & Hh); [pose proof (zlength_pos data); lia|]. rewrite Eh in E.
  pose proof (zlength_pos h). cbv zeta in E.
  destruct (zlength h <? PCAP_FILE_HEADER_LEN); [by destruct (erf_Create (Some data) 0)|].
  destruct (field 4 0 h =? MAGIC_NUM_FLIP); [|destruct (field 4 0 h =? MAGIC_NUM_DONT_FLIP); [|by destruct (erf_Create (Some data) 0)]];
    cbn [pr_is_valid pr_is_flip pr_loops pr_file_size pr_file] in E; injection E as <-; apply read_packets_any; try done; unfold load_fuel, zlength in *; lia.
Qed.

(** ** Loading a template from a file *)

Section LoadFile.
Context (s6 d6 : list Z) (cbuff : bytes).

Lemma holds_in_buffer r p : rec_ok r -> holds r p -> in_buffer p.
Proof.
  intros [_ _ Hl _] [Hlen _ _ _ [Hb Hz]]. pose proof (zlength_pos (rc_data r)). split; [done|by rewrite Hz|]. rewrite Hlen. done.
Qed.

(** The packet the parser is at stays in the buffer when the loop has placed it. *)
Lemma place_packet_keeps multi is_fif key f i s c f' first sw i' :
  place_packet multi is_fif key f i s = Ok (c, f', first, sw, i') -> m_packet i' = m_packet i.
Proof.
  unfold place_packet. intros E.
  repeat first [case_match | match goal with H : (_ ≫= _) = Ok _ |- _ => apply bind_Ok in H as (? & _ & H) end]; by simplify_eq.
Qed.

Lemma load_packet_keeps _id plugin p s s' :
  in_buffer p -> zlength (raw p) = MAX_PKT_SIZE ->
  load_packet false s6 d6 cbuff _id plugin p s = Ok s' -> buffer (m_packet (ld_ind s')).
Proof.
  intros Hib Hz E. unfold load_packet in E.
  destruct (match ld_last s with Some last => _ | None => false end); [done|].
  destruct (ProcessPacket_ipv4 s6 d6 cbuff (ld_cnt s) (ld_ind s) p Hib) as [(k & i & Ep & Hres)|(? & _ & Ep)]; rewrite Ep in E; [|done].
  cbn [mbind res_bind] in E. destruct (IsValidPkt (m_desc i)) eqn:Ev; [|done]. cbn [negb] in E. destruct Hres as [Hacc _].
  destruct (ipv4_accepted_copy p i Hib Hacc) as (H6 & _ & Hm & _ & _ & ip & l4 & pl & _ & H3 & _ & _ & _ & Hip & Hip20 & _ & Hih).
  assert (Hraw : raw (m_packet i) = raw p) by (destruct Hacc as (? & _ & (? & ? & ? & ? & ? & ? & ? & ? & Hh) & _); apply Hh).
  destruct (ft_process _ _) as [[f is_fif] table].
  match type of E with (fix_ttl ?j ≫= _) = _ => destruct (fix_ttl_spec j ip) as (m' & Ettl & Hz' & _ & _ & Hok); try done; rewrite Ettl in E end.
  cbn [mbind res_bind] in E. apply bind_Ok in E as ([[[[c f'] first] sw] i'] & Epl & E). injection E as <-. cbn [ld_ind].
  rewrite (place_packet_keeps _ _ _ _ _ _ _ _ _ _ _ Epl). split; [exact Hok|]. rewrite <- Hz, <- Hraw. exact Hz'.
Qed.

(** Some packets that hold the records. *)
Lemma holders_exist l : Forall rec_ok l -> exists pkts, Forall2 holds l pkts.
Proof. intros Hl. destruct (read_pass false l [] [] 0 raw_new 0 Hl raw_new_buffer) as (pkts & _ & H & _); [done|by exists pkts]. Qed.

Lemma foldl_load_Err {S P} (f : P -> S -> res S) e l : foldl (fun r p => s ← r; f p s) (Err e) l = Err e.
Proof. induction l; [done|exact IHl]. Qed.

Lemma load_records fl _id plugin l : forall pre p s fuel,
  Forall rec_ok l -> buffer p -> (length l < fuel)%nat ->
  exists pkts, Forall2 holds l pkts /\
    load_loop false s6 d6 cbuff fuel _id plugin (RdPcap (in_file fl 0 (pre ++ recs_bytes fl l) (zlength pre))) p s =
      foldl (fun r q => s ← r; load_packet false s6 d6 cbuff _id plugin q s) (Ok s) pkts.
Proof.
  induction l as [|r l IH]; intros pre p s fuel Hl Hp Hf; (destruct fuel as [|fuel]; [lia|]); cbn [load_loop ReadPacket].
  - exists []. split; [done|]. unfold recs_bytes. cbn [fmap list_fmap concat]. rewrite app_nil_r, read_at_end. done.
  - apply Forall_cons in Hl as [Hr Hl]. unfold recs_bytes. cbn [fmap list_fmap concat]. fold (recs_bytes fl l).
    destruct (read_record fl 0 pre r (recs_bytes fl l) p Hr Hp) as (q & E & Hq). rewrite E. cbn [mbind res_bind negb].
    destruct (load_packet false s6 d6 cbuff _id plugin q s) as [s'|e] eqn:El; cbn [mbind res_bind].
    + destruct (IH (pre ++ rec_bytes fl r) (m_packet (ld_ind s')) s' fuel Hl) as (pkts & H2 & E2); [|cbn [length] in Hf; lia|].
      { apply (load_packet_keeps _id plugin q s); [by eapply holds_in_buffer|apply Hq|done]. }
      exists (q :: pkts). split; [by constructor|]. rewrite <- app_assoc in E2. change (0 <? 0) with false. cbv iota. rewrite E2.
      cbn [foldl]. cbn [mbind res_bind]. by rewrite El.
    + destruct (holders_exist l Hl) as [pkts Hpk]. exists (q :: pkts). split; [by constructor|]. cbn [foldl]. cbn [mbind res_bind]. rewrite El.
      by rewrite foldl_load_Err.
Qed.

(** C10: without [--ipv6], loading a template from a libpcap file, of either byte order and
    of packets of at most 2048 bytes that were captured in full, is loading it from the list
    of the packets in the file: the loop that reads and parses in turn, on one buffer that
    the parser may change, sees every packet as it is in the file and ends with the file. *)
Theorem load_file_pcap (fl : bool) (h : bytes) (l : list cap_rec) (junk : CCPacketParserCounters) (i0 : CPacketIndication) (_id plugin_id : Z) :
  file_header fl h -> Forall rec_ok l ->
  exists pkts, Forall2 holds l pkts /\
    load_file false s6 d6 cbuff junk i0 (Some (h ++ recs_bytes fl l)) _id plugin_id =
      load_cap_file false s6 d6 cbuff junk i0 pkts _id plugin_id.
Proof.
  intros Hh Hl. unfold load_file. rewrite (CreateReader_pcap fl h _ 0 Hh).
  destruct (load_records fl _id plugin_id l h raw_new (load_new junk i0) (load_fuel (h ++ recs_bytes fl l)) Hl raw_new_buffer) as (pkts & H2 & E).
  - unfold load_fuel. rewrite length_app. pose proof (length_recs_bytes fl l). lia.
  - exists pkts. split; [done|]. rewrite (proj1 Hh) in E. by rewrite E.
Qed.

(** A file of fewer than 16 bytes is taken for an ERF one without packets; then the last packet of the
    empty template is asked for, which is outside of it. *)
Theorem load_short_file (v6 : bool) (data : bytes) (junk : CCPacketParserCounters) (i0 : CPacketIndication) (_id plugin_id : Z) :
  zlength data < ERF_HEADER_LEN -> load_file v6 s6 d6 cbuff junk i0 (Some data) _id plugin_id = Err AssertFail.
Proof.
  intros Hd. assert (Ef : forall n, 16 <= n -> fread n (mkRFile data 0) = (data, mkRFile data (zlength data))).
  { intros n Hn. unfold fread. cbn [f_pos f_data]. change (drop (Z.to_nat 0) data) with data. change ERF_HEADER_LEN with 16 in Hd.
    unfold zlength in *. rewrite take_ge by lia. done. }
  unfold load_file, CreateReader, pcap_Create, LibPCapReader_new, pr_set_loops. cbn [pr_is_open pr_is_valid pr_is_flip].
  change ERF_HEADER_LEN with 16 in Hd. unfold pcap_init. cbn [pr_file]. rewrite Ef by done. cbv zeta.
  rewrite (proj2 (Z.ltb_lt (zlength data) PCAP_FILE_HEADER_LEN)) by (unfold PCAP_FILE_HEADER_LEN; lia). cbv iota.
  unfold erf_Create, erf_open. cbn [erf_check]. change ERF_HEADER_LEN with 16. rewrite Ef by done. rewrite (proj2 (Z.ltb_lt (zlength data) 16)) by done.
  change (1 =? 1) with true. cbv iota. cbn [fmap option_fmap option_map]. unfold load_fuel. cbn [load_loop ReadPacket].
  unfold erf_ReadPacket, erf_read. cbn [er_file]. unfold rewind. cbn [f_data]. change ERF_HEADER_LEN with 16. rewrite Ef by done.
  rewrite (proj2 (Z.ltb_lt (zlength data) 16)) by done. cbn [mbind res_bind]. change (0 <? 0) with false. cbn [negb mbind res_bind]. unfold load_finish, set_last, load_new. cbn [ld_cap]. cbn [load_new]. unfold cap_GetPacket. change (m_flow_pkts CapFile_Create) with (@nil CFlowPktInfo). by rewrite lookup_nil.
Qed.
End LoadFile.

(** A packet that was captured in part: its bytes are taken from what follows it. Of two packets, the
    first of 20 bytes with 4 captured, the reader gives one, which holds the header of the other. *)
Definition snapped_file : bytes :=
  pcap_file_header ++ (pkthdr_bytes 1 0 4 20 ++ [1; 2; 3; 4]) ++ (pkthdr_bytes 2 0 4 4 ++ [5; 6; 7; 8]).
Example snapped_packet_swallows_next :
  match CreateReader (Some snapped_file) 0 with
  | Some r => read_packets (load_fuel snapped_file) r raw_new | None => Err OutOfFuel end =
  Ok [mkRaw (([1; 2; 3; 4] ++ pkthdr_bytes 2 0 4 4) ++ replicate 2028 0xee) 20 1 1 0].
Proof. vm_compute. reflexivity. Qed.

(** ** ERF records *)

(** The record of a packet: padded to eight bytes behind four bytes for the frame check. *)
Definition erf_pad (p : CCapPktRaw) : Z :=
  let a := Z.land (pkt_len p + 22) 7 in if 0 <? a then 8 - a else a.
Definition erf_header_of (p : CCapPktRaw) : erf_record :=
  mkErf (u64 (Z.shiftl (time_sec p) 32 + erf_frac (time_nsec p))) TYPE_ETH 4
    (PAL_NTOHS (pkt_len p + 22 + erf_pad p)) 0 (PAL_NTOHS (pkt_len p + 4)).
Definition erf_payload (p : CCapPktRaw) : bytes := rc_data (rec_of p) ++ replicate (Z.to_nat (4 + erf_pad p)) 0.
Definition erf_rec (p : CCapPktRaw) : bytes := erf_bytes (erf_header_of p) ++ [0; 0] ++ erf_payload p.

Lemma erf_pad_range p : 0 <= erf_pad p < 8.
Proof.
  unfold erf_pad. pose proof (Z.land_ones (pkt_len p + 22) 3 ltac:(done)) as E. change (Z.ones 3) with 7 in E. rewrite E.
  pose proof (Z.mod_pos_bound (pkt_len p + 22) (2 ^ 3) ltac:(done)). change (2 ^ 3) with 8 in *. destruct (Z.ltb_spec 0 ((pkt_len p + 22) mod 8)); lia.
Qed.

Lemma zlength_erf_bytes h : zlength (erf_bytes h) = ERF_HEADER_LEN.
Proof. unfold erf_bytes, zlength. by rewrite !length_app, !length_le_split. Qed.

Lemma zlength_erf_payload p : savable p -> zlength (erf_payload p) = pkt_len p + 4 + erf_pad p.
Proof.
  intros Hp. unfold erf_payload. rewrite zlength_app, zlength_rec_of by done. unfold zlength. rewrite length_replicate.
  pose proof (erf_pad_range p). lia.
Qed.

Lemma zlength_erf_rec p : savable p -> zlength (erf_rec p) = pkt_len p + 22 + erf_pad p.
Proof.
  intros Hp. unfold erf_rec. rewrite !zlength_app, zlength_erf_bytes, zlength_erf_payload by done. change (zlength [0; 0]) with 2.
  unfold ERF_HEADER_LEN. lia.
Qed.

Lemma erf_written p d room :
  savable p -> zlength (erf_rec p) <= room ->
  erf_write_packet 0 p (mkWFile d room) = Ok (true, mkWFile (d ++ erf_rec p) (room - zlength (erf_rec p))).
Proof.
  intros Hp Hr. pose proof (zlength_erf_rec p Hp) as Hz. pose proof (erf_pad_range p). pose proof (zlength_rec_of p Hp) as Hd.
  pose proof (sv_len p Hp). pose proof (sv_max p Hp) as Hm. change MAX_PKT_SIZE with 2048 in Hm. rewrite Hz in *.
  unfold erf_write_packet, raw_packet. rewrite decide_True by done. cbn [mbind res_bind].
  replace (u16 (pkt_len p + ERF_HEADER_LEN + 2 + 4)) with (pkt_len p + 22) by (rewrite u16_id; unfold ERF_HEADER_LEN; lia).
  fold (erf_pad p). change (u8 (4 + 0)) with 4. fold (erf_header_of p). pose proof (zlength_erf_bytes (erf_header_of p)) as Hh.
  change ERF_HEADER_LEN with 16 in *. change (take (Z.to_nat (pkt_len p)) (raw p)) with (rc_data (rec_of p)).
  assert (Hf : zlength (replicate (Z.to_nat (4 + erf_pad p)) 0) = 4 + erf_pad p) by (unfold zlength; rewrite length_replicate; lia).
  do 4 (rewrite fwrite_all by (cbn [w_room]; rewrite ?Hh, ?Hd, ?Hf; change (zlength [0; 0]) with 2; lia); cbn [w_data w_room]).
  rewrite Hh, Hd, Hf. change (zlength [0; 0]) with 2.
  rewrite (proj2 (Z.ltb_ge _ _)) by lia. cbn [negb]. unfold erf_rec, erf_payload. rewrite <- !app_assoc.
  by replace (room - 16 - 2 - pkt_len p - (4 + erf_pad p)) with (room - (pkt_len p + 22 + erf_pad p)) by lia.
Qed.

Lemma read_erf_bytes h :
  0 <= er_ts h < 2 ^ 64 -> 0 <= er_type h < 256 -> 0 <= er_flags h < 256 -> 0 <= er_rlen h < 65536 -> 0 <= er_lctr h < 65536 ->
  0 <= er_wlen h < 65536 -> read_erf (erf_bytes h) = h.
Proof.
  intros H1 H2 H3 H4 H5 H6. unfold read_erf.
  rewrite (field_of 8 0 _ (er_ts h)), (field_of 1 8 _ (er_type h)), (field_of 1 9 _ (er_flags h)), (field_of 2 10 _ (er_rlen h)),
    (field_of 2 12 _ (er_lctr h)), (field_of 2 14 _ (er_wlen h)) by (reflexivity || done). by destruct h.
Qed.

Lemma erf_frac_range n : 0 <= erf_frac n < 4294967296.
Proof.
  unfold erf_frac, u32_of_double. destruct (double_trunc _) as [v|]; [|done]. destruct (_ && _); [apply u32_range|done].
Qed.

(** A packet that is written as an ERF record is read back with its bytes and four zero bytes of a
    frame check, which count; its seconds are those it had. *)
Theorem erf_written_packet_read (p : CCapPktRaw) (pre post : bytes) (q : CCapPktRaw) :
  savable p -> pkt_len p + 6 + erf_pad p < MAX_ERF_PACKET -> zlength (raw q) = MAX_PKT_SIZE ->
  (forall d room, zlength (erf_rec p) <= room ->
     erf_write_packet 0 p (mkWFile d room) = Ok (true, mkWFile (d ++ erf_rec p) (room - zlength (erf_rec p)))) /\
  exists q', erf_read (mkRFile (pre ++ erf_rec p ++ post) (zlength pre)) q =
      Ok (pkt_len p + 4, mkRFile (pre ++ erf_rec p ++ post) (zlength (pre ++ erf_rec p)), q') /\
    take (Z.to_nat (pkt_len p + 4)) (raw q') = take (Z.to_nat (pkt_len p)) (raw p) ++ [0; 0; 0; 0] /\
    time_sec q' = time_sec p /\ time_nsec q' = erf_nsec (erf_frac (time_nsec p)).
Proof.
  intros Hp Hmax Hq. pose proof (erf_frac_range (time_nsec p)) as Hfr. split; [intros d room; by apply erf_written|].
  pose proof (erf_pad_range p). pose proof (sv_len p Hp). pose proof (sv_sec p Hp). pose proof (zlength_erf_payload p Hp) as Hpl.
  unfold MAX_ERF_PACKET, READER_MAX_PACKET_SIZE in Hmax. change MAX_PKT_SIZE with 2048 in *.
  set (data := pre ++ erf_rec p ++ post). unfold erf_read.
  assert (E1 : fread ERF_HEADER_LEN (mkRFile data (zlength pre)) = (erf_bytes (erf_header_of p), mkRFile data (zlength (pre ++ erf_bytes (erf_header_of p))))).
  { unfold data, erf_rec. rewrite <- app_assoc. apply fread_at; [done|apply zlength_erf_bytes]. }
  rewrite E1, zlength_erf_bytes, Z.ltb_irrefl. clear E1.
  assert (Hts : er_ts (erf_header_of p) = time_sec p * 4294967296 + erf_frac (time_nsec p)).
  { cbn [erf_header_of er_ts]. rewrite Z.shiftl_mul_pow2 by done. rewrite u64_id; [done|]. change (2 ^ 32) with 4294967296. nia. }
  rewrite read_erf_bytes; [|rewrite Hts; change (2 ^ 64) with (4294967296 * 4294967296); nia|done|done|apply PAL_NTOHS_range|done|apply PAL_NTOHS_range].
  unfold erf_packet_size. rewrite Hts. cbn [erf_header_of er_type er_flags er_rlen er_wlen]. change (TYPE_ETH =? TYPE_ETH) with true.
  change (Z.land 4 192 =? 0) with true. cbn [negb orb]. rewrite !PAL_NTOHS_involutive by lia. change ERF_HEADER_LEN with 16.
  rewrite u32_id by lia. change MAX_ERF_PACKET with 2048. rewrite (proj2 (Z.leb_gt _ _)), (proj2 (Z.ltb_ge 2048 _)) by lia. cbn [orb negb c_assert mbind res_bind].
  rewrite (proj2 (Z.ltb_ge _ 0)) by lia. unfold fseek_cur. cbn [f_data f_pos].
  assert (E2 : fread (pkt_len p + 22 + erf_pad p - 16 - 2) (mkRFile data (zlength (pre ++ erf_bytes (erf_header_of p)) + 2)) =
    (erf_payload p, mkRFile data (zlength (pre ++ erf_rec p)))).
  { replace (zlength (pre ++ erf_bytes (erf_header_of p)) + 2) with (zlength (pre ++ erf_bytes (erf_header_of p) ++ [0; 0]))
      by (rewrite !zlength_app; change (zlength [0; 0]) with 2; lia).
    replace data with ((pre ++ erf_bytes (erf_header_of p) ++ [0; 0]) ++ erf_payload p ++ post) by (unfold data, erf_rec; by rewrite <- !app_assoc).
    replace (pre ++ erf_rec p) with ((pre ++ erf_bytes (erf_header_of p) ++ [0; 0]) ++ erf_payload p) by (unfold erf_rec; by rewrite <- !app_assoc).
    apply fread_at; lia. }
  rewrite E2. rewrite Hpl. replace (pkt_len p + 22 + erf_pad p - 16 - 2) with (pkt_len p + 4 + erf_pad p) by lia.
  unfold mem_copy. rewrite decide_True by lia. cbn [mbind res_bind]. rewrite Z.eqb_refl. eexists. split; [done|]. cbn [raw time_sec time_nsec].
  split; [|split].
  - change (Z.to_nat 0) with 0%nat. rewrite drop_0, (take_ge (erf_payload p)) by (unfold zlength in Hpl; lia). unfold splice. rewrite take_0. cbn [app].
    unfold erf_payload. rewrite <- app_assoc. change (take (Z.to_nat (pkt_len p)) (raw p)) with (rc_data (rec_of p)).
    pose proof (zlength_rec_of p Hp) as Hd. rewrite Z2Nat.inj_add by lia. rewrite <- Hd. unfold zlength. rewrite Nat2Z.id, take_app_add.
    rewrite Z2Nat.inj_add by lia. rewrite replicate_add, <- app_assoc. done.
  - rewrite Z.shiftr_div_pow2 by done. change (2 ^ 32) with 4294967296. rewrite Z.div_add_l by done. rewrite Z.div_small by lia. lia.
  - f_equal. pose proof (Z.land_ones (time_sec p * 4294967296 + erf_frac (time_nsec p)) 32 ltac:(done)) as E. change (Z.ones 32) with 0xffffffff in E.
    rewrite E. change (2 ^ 32) with 4294967296. rewrite Z.add_comm, Z.mod_add by done. by apply Z.mod_small.
Qed.

(** A record of 16 bytes, a header alone, is accepted by the check of a file, and reading it asks for all the
    rest of the file: more than the buffer takes. *)
Definition erf_empty_records : bytes := concat (replicate 10 (erf_bytes (mkErf 0 TYPE_ETH 4 (PAL_NTOHS 16) 0 (PAL_NTOHS 64)))) ++ replicate 2048 0.
Example erf_empty_record_overflows :
  match CreateReader (Some erf_empty_records) 0 with Some r => ReadPacket r raw_new | None => Err OutOfFuel end = Err OutOfBounds.
Proof. vm_compute. reflexivity. Qed.

(** A file in nanoseconds is none that the readers know. *)
Theorem nsec_file_not_read (rest : bytes) (loops : Z) : CreateReader (Some (nsec_file_header ++ rest)) loops = None.
Proof.
  unfold CreateReader, pcap_Create, LibPCapReader_new, pr_set_loops. cbn [pr_is_open pr_is_valid pr_is_flip]. unfold pcap_init. cbn [pr_file].
  pose proof (fread_at PCAP_FILE_HEADER_LEN [] nsec_file_header rest ltac:(done) eq_refl) as E. cbn [app] in E. change (zlength (@nil Z)) with 0 in E.
  rewrite E. clear E. change (zlength nsec_file_header <? PCAP_FILE_HEADER_LEN) with false. cbv iota zeta.
  change (field 4 0 nsec_file_header =? MAGIC_NUM_FLIP) with false. change (field 4 0 nsec_file_header =? MAGIC_NUM_DONT_FLIP) with false. cbv iota.
  unfold erf_Create, erf_open. cbn [erf_check].
  set (h := nsec_file_header). assert (Hh : h = take 16 h ++ drop 16 h) by (by rewrite take_drop). rewrite Hh, <- app_assoc.
  pose proof (fread_at ERF_HEADER_LEN [] (take 16 h) (drop 16 h ++ rest) ltac:(done) eq_refl) as E. cbn [app] in E. change (zlength (@nil Z)) with 0 in E.
  rewrite E. change (zlength (take 16 h) <? ERF_HEADER_LEN) with false. change (er_type (read_erf (take 16 h)) =? 0) with true. done.
Qed.

(** ** The theorems on concrete files *)

(** A file of the other byte order, with the UDP packet of [demo_pkt] twice. *)
Definition demo_rec : cap_rec := mkRec 5 7 demo_udp.
Definition flipped_header : bytes := [0xa1; 0xb2; 0xc3; 0xd4] ++ replicate 20 0.

Definition demo_cap : CCapFileFlowInfo :=
  let t := mkPktInfo (ind_set_packet demo_pkt demo_ind) None in mkCap [t; t] 120 1 0.

Lemma pcap_file_read_witness :
  exists r l, CreateReader (Some (flipped_header ++ recs_bytes true [demo_rec; demo_rec])) 3 = Some r /\
    read_packets 5 r raw_new = Ok l /\ Forall2 holds [demo_rec; demo_rec; demo_rec; demo_rec] l.
Proof.
  assert (rec_ok demo_rec) as Hr.
  { split; [done..|]. apply (bool_decide_unpack _). vm_compute. done. }
  apply (pcap_file_read true flipped_header [demo_rec; demo_rec] 3 raw_new 5); [done|by repeat constructor|done|done|exact raw_new_buffer|].
  vm_compute. lia.
Defined.

Lemma saved_template_reads_back_witness :
  exists data r l, save_to_erf true (Some 200) demo_cap = Ok (Some data) /\ CreateReader (Some data) 0 = Some r /\
    read_packets (load_fuel data) r raw_new = Ok l /\ length l = 2%nat.
Proof.
  destruct (saved_template_reads_back demo_cap 200) as (data & r & l & E1 & E2 & E3 & H2).
  - done.
  - assert (savable demo_pkt) as Hd by (split; [apply demo_in_buffer|vm_compute; split; discriminate|vm_compute; discriminate|done|done]).
    by repeat apply Forall_cons_2.
  - vm_compute. discriminate.
  - exists data, r, l. split_and!; [done..|]. by rewrite <- (Forall2_length _ _ _ H2).
Defined.

Lemma pcap_reads_any_file_witness :
  exists r, CreateReader (Some snapped_file) 0 = Some (RdPcap r) /\ reads_or_exits (read_packets (load_fuel snapped_file) (RdPcap r) raw_new).
Proof.
  eexists. split; [vm_compute; reflexivity|]. apply (pcap_reads_any_file snapped_file); vm_compute; reflexivity.
Defined.

Lemma load_file_pcap_witness :
  exists pkts, Forall2 holds [demo_rec; demo_rec] pkts /\
    load_file false [] [] [] (fun _ => 0) demo_ind (Some (flipped_header ++ recs_bytes true [demo_rec; demo_rec])) 7 0 =
      load_cap_file false [] [] [] (fun _ => 0) demo_ind pkts 7 0.
Proof.
  assert (rec_ok demo_rec) as Hr.
  { split; [done..|]. apply (bool_decide_unpack _). vm_compute. done. }
  apply (load_file_pcap [] [] [] true flipped_header [demo_rec; demo_rec]); [done|by repeat constructor].
Defined.
