(* ===== verification/RxInsert.v ===== *)
(** * The receive-check header of a packet

    Models [CFlowPktInfo::do_generate_new_mbuf_rxcheck] of [src/src/bp_sim.cpp]: the header
    of the receive check is put behind the fixed part of the IP header, in a second
    buffer that also takes over the rest of the first one. *)

From S2P Require Import Prelude Double ByteMem PktCmn PacketHdrs PktDesc PktParser RxHeader CapTemplate.

(** The 24 bytes of the structure. *)
Definition rxh_bytes (h : CRx_check_header) : bytes :=
  [u8 (m_option_type h); u8 (m_option_len h)] ++ le_split 2 (m_magic h) ++
  le_split 4 (m_time_stamp h) ++ le_split 8 (rx_flow_id h) ++ le_split 2 (m_pkt_id h) ++
  le_split 2 (rx_flow_size h) ++ [u8 (rx_flags h); u8 (m_template_id h)] ++ le_split 2 (m_aging_sec h).

(** What a receiver reads that casts a pointer to them to the structure. *)
Definition rxh_read (m : bytes) (o : Z) : res CRx_check_header :=
  option_type ← ld8 m o; option_len ← ld8 m (o + 1); magic ← ld16 m (o + 2);
  time_stamp ← ld32 m (o + 4); flow_id ← ld64 m (o + 8);
  pkt_id ← ld16 m (o + 16); flow_size ← ld16 m (o + 18);
  flags ← ld8 m (o + 20); template_id ← ld8 m (o + 21); aging_sec ← ld16 m (o + 22);
  Ok (mkRxHeader option_type option_len magic time_stamp flow_id pkt_id flow_size flags template_id aging_sec).

(** [updateCheckSum2]: the header is [len1] bytes of [m] at [ip] and [len2] bytes of [m2]. *)
Definition IP_updateCheckSum2 (m : bytes) (ip len1 : Z) (m2 : bytes) (len2 : Z) : res bytes :=
  m ← st16 m (ip + o_Checksum) 0;
  cs ← pkt_InetChecksum2 m ip len1 m2 0 len2;
  st16 m (ip + o_Checksum) cs.

(** What the header says of the packet with descriptor [desc], of the flow
    [node_flow_id]. *)
Definition rxcheck_header (desc : CPacketDescriptor) (node_flow_id time_stamp : Z)
    (option_type option_len : Z) (single_port : bool) : CRx_check_header :=
  let h pkt_id size :=
    mkRxHeader option_type option_len RX_CHECK_MAGIC time_stamp
      (Z.lor node_flow_id (u64 (Z.shiftl (Z.land (getFlowId desc) 0xf) 52)))
      (u16 pkt_id) (u16 size) 0 (u8 (desc_getId desc)) (GetMaxFlowTimeout desc) in
  if single_port then h (getFlowPktNum desc) (GetMaxPktsPerFlow desc)
  else
    set_both_dir (b2z (IsBiDirectionalFlow desc))
      (set_dir (b2z (IsInitSide desc))
         (h (m_dir_pkt_num (GetDirInfo desc)) (m_max_dir_flow_pkts (GetDirInfo desc)))).

(** [os_get_hr_tick_32] is [tick]; a flag makes it a constant. *)
Definition rx_time_stamp (is_rxcheck_const_ts : bool) (tick : Z) : Z :=
  if is_rxcheck_const_ts then 0xB3B2B1B0 else tick.

(** ** Buffers

    [CRteMemPool]: the pool with data room [size] gives a buffer that holds some bytes, or has none
    left, which ends the process. *)
Section Pools.
Context (pool_get : Z -> option bytes).

Definition alloc_from (size : Z) : res bytes :=
  match pool_get size with Some m => Ok m | None => Err AssertFail end.
Definition pktmbuf_alloc_small : res bytes := alloc_from FIRST_PKT_SIZE.
Definition pktmbuf_alloc (size : Z) : res bytes :=
  if size <? FIRST_PKT_SIZE then pktmbuf_alloc_small
  else if size <? 128 then alloc_from 128
  else if size <? 256 then alloc_from 256
  else if size <? 512 then alloc_from 512
  else if size <? 1024 then alloc_from 1024
  else _ ← c_assert (size <? MAX_BUF_SIZE); alloc_from MAX_BUF_SIZE.
End Pools.

(** The two buffers; [m1] is the memory of the first one, whose data are its first
    [data_len] bytes. *)
Record mbuf_pair : Type := mkPair { mb_first : bytes; mb_data_len : Z; mb_second : bytes }.

Definition mbuf_bytes (b : mbuf_pair) : bytes :=
  take (Z.to_nat (mb_data_len b)) (mb_first b) ++ mb_second b.

Definition do_generate_new_mbuf_rxcheck (pool_get : Z -> option bytes) (p : CFlowPktInfo) (desc : CPacketDescriptor)
    (node_flow_id time_stamp : Z) (single_port : bool) (m1 : bytes) (data_len : Z) : res mbuf_pair :=
  let i := m_pkt_indication p in
  let opt_len := RX_CHECK_LEN in
  let mp1_offset := u16 (m_ip_offset i + (if m_is_ipv6 i then IPV6_HDR_LEN else IP_DefaultSize)) in
  let move_len := u16 (data_len - mp1_offset) in
  let new_mbuf_size := u16 (move_len + opt_len) in
  new_mbuf ← pktmbuf_alloc pool_get new_mbuf_size;
  if zlength new_mbuf <? new_mbuf_size then Err NullDeref
  else if decide (mp1_offset + move_len <= zlength m1) then
    let moved := take (Z.to_nat move_len) (drop (Z.to_nat mp1_offset) m1) in
    let data_len := u16 (data_len - move_len) in
    let ip := 14 in
    if m_is_ipv6 i then
      save_header ← IPv6_getNextHdr m1 ip;
      m1 ← IPv6_setNextHdr m1 ip RX_CHECK_V6_OPT_TYPE;
      m1 ← IPv6_setHopLimit m1 ip TTL_RESERVE_DUPLICATE;
      pl ← IPv6_getPayloadLen m1 ip;
      m1 ← IPv6_setPayloadLen m1 ip (u16 (pl + RX_CHECK_LEN));
      let h := rxcheck_header desc node_flow_id time_stamp save_header RX_CHECK_V6_OPT_LEN single_port in
      Ok (mkPair m1 data_len (rxh_bytes h ++ moved))
    else
      current_opt_len ← IP_getHeaderLength m1 ip;
      m1 ← IP_setHeaderLength m1 ip (u8 (current_opt_len + opt_len));
      tl ← IP_getTotalLength m1 ip;
      m1 ← IP_setTotalLength m1 ip (u16 (tl + opt_len));
      m1 ← IP_setTimeToLive m1 ip TTL_RESERVE_DUPLICATE;
      let h := rxcheck_header desc node_flow_id time_stamp RX_CHECK_V4_OPT_TYPE RX_CHECK_V4_OPT_LEN single_port in
      let m2 := rxh_bytes h ++ moved in
      m1 ← IP_updateCheckSum2 m1 ip current_opt_len m2 opt_len;
      Ok (mkPair m1 data_len m2)
  else Err OutOfBounds.
