(* ===== verification/RxInsertFacts.v ===== *)
(** * Facts about the inserted header

    A packet with the receive-check header is again a well-formed packet: the header is an
    option of its IP header, whose checksum is right over both buffers. *)

From S2P Require Import Prelude Double ByteMem PktCmn PktCmnFacts PacketHdrs PktDesc PktParser PktParserFacts RxHeader CapTemplate RxInsert.

(** ** Bytes of two buffers *)

Lemma byte_at_app_l l1 l2 i : 0 <= i < zlength l1 -> byte_at (l1 ++ l2) i = byte_at l1 i.
Proof. unfold byte_at, zlength. intros. by rewrite lookup_app_l by lia. Qed.
Lemma byte_at_app_r l1 l2 i : 0 <= i -> byte_at (l1 ++ l2) (zlength l1 + i) = byte_at l2 i.
Proof.
  unfold byte_at, zlength. intros. rewrite lookup_app_r by lia. do 2 f_equal. lia.
Qed.
Lemma byte_at_take' m n j : 0 <= j < n -> byte_at (take (Z.to_nat n) m) j = byte_at m j.
Proof. intros Hj. unfold byte_at. by rewrite lookup_take_lt by lia. Qed.

Lemma wsum_app_r l1 l2 n : forall off, 0 <= off -> wsum (l1 ++ l2) (zlength l1 + off) n = wsum l2 off n.
Proof.
  induction n as [|n IH]; intros off Ho; cbn [wsum]; [done|]. unfold word_at.
  rewrite <- !Z.add_assoc, IH, !byte_at_app_r by lia. done.
Qed.

Lemma ld_same_except n m m' f len off :
  same_except m m' f len -> off + Z.of_nat n <= f \/ f + len <= off -> ld n m' off = ld n m off.
Proof.
  intros [Hz He] Ho. unfold ld, in_range. rewrite Hz. case_decide as Hr; [|done]. do 2 f_equal.
  apply list_eq. intros k. destruct (decide (k < n)%nat); [|by rewrite !lookup_take_ge by lia].
  rewrite !lookup_take_lt, !lookup_drop by lia.
  replace (Z.to_nat off + k)%nat with (Z.to_nat (off + Z.of_nat k)) by lia.
  rewrite !lookup_in_range by lia. f_equal. apply He; lia.
Qed.

(** Storing a byte. *)
Lemma st8_byte m f v m' : st8 m f v = Ok m' -> byte_at m' f = v mod 256.
Proof.
  intros E. pose proof (proj1 (st_inv _ _ _ _ _ E)) as Hr. unfold in_range in Hr.
  unfold byte_at. rewrite (st_lookup _ _ _ _ _ _ E), decide_True by lia.
  by replace (Z.to_nat f - Z.to_nat f)%nat with O by lia.
Qed.

(** The checksum of two buffers, the first of even length. *)
Lemma pkt_InetChecksum2_even m off n m2 off2 n2 :
  bytes_ok m -> 0 <= off -> off + 2 * Z.of_nat n <= zlength m -> Z.of_nat n < 16384 ->
  bytes_ok m2 -> 0 <= off2 -> off2 + 2 * Z.of_nat n2 <= zlength m2 -> Z.of_nat n2 < 16384 ->
  pkt_InetChecksum2 m off (2 * Z.of_nat n) m2 off2 (2 * Z.of_nat n2) =
  Ok (PAL_NTOHS (65535 - fold16 (wsum m off n + wsum m2 off2 n2))).
Proof.
  intros Hm Ho Hl Hn Hm2 Ho2 Hl2 Hn2. unfold pkt_InetChecksum2, cs_fuel.
  replace (Z.to_nat (2 * Z.of_nat n / 2)) with n by (rewrite Z.mul_comm, Z.div_mul by lia; lia).
  replace (Z.to_nat (2 * Z.of_nat n2 / 2)) with n2 by (rewrite Z.mul_comm, Z.div_mul by lia; lia).
  rewrite cs_loop_eq by (done || lia). cbn [mbind res_bind].
  rewrite cs_loop_eq by (done || lia). cbn [mbind res_bind].
  change (negb (0 =? 0)) with false. cbn [mbind res_bind].
  pose proof (wsum_range m n off Hm). pose proof (wsum_range m2 n2 off2 Hm2).
  rewrite Z.add_0_l, cs_fold_eq by lia. cbn [mbind res_bind].
  pose proof (fold16_range (wsum m off n + wsum m2 off2 n2)). by rewrite u16_lnot by lia.
Qed.

(** ** Fields of the IP header *)

Lemma IP_setHeaderLength_spec m ip l :
  bytes_ok m -> 0 <= ip < zlength m -> 0 <= l ->
  exists m', IP_setHeaderLength m ip l = Ok m' /\ same_except m m' ip 1 /\ bytes_ok m' /\
    ihl m' ip = (l / 4) mod 16.
Proof.
  intros Hm Hip Hl. unfold IP_setHeaderLength, o_Ver_HeaderLength. rewrite Z.add_0_r.
  rewrite ld8_byte by (unfold in_range; lia). cbn [mbind res_bind].
  set (v := setMaskBit8 _ _ _ _). destruct (st_total 1 m ip v) as [m' E]; [unfold in_range; lia|].
  exists m'. split; [done|]. split; [exact (st_same_except _ _ _ _ _ E)|]. split; [by eapply st_ok|].
  assert (Hv : 0 <= v < 256).
  { unfold v, setMaskBit8, btSetMaskBitBigE. change (8 =? 7 - 4 + 1) with false. cbv zeta iota.
    unfold wrap. apply Z.mod_pos_bound. lia. }
  unfold ihl. rewrite (st8_byte _ _ _ _ E), (Z.mod_small v) by lia.
  rewrite <- getMaskBit8_low by lia. unfold v, getMaskBit8, setMaskBit8.
  rewrite bits_get_set_same by lia. change (8 =? 7 - 4 + 1) with false. cbv iota.
  by rewrite Z.shiftr_div_pow2 by lia.
Qed.

Lemma IP_updateCheckSum2_spec m ip n m2 n2 :
  bytes_ok m -> 0 <= ip -> ip + 20 <= zlength m -> ip + 2 * Z.of_nat n <= zlength m -> 10 <= Z.of_nat n < 16384 ->
  bytes_ok m2 -> 2 * Z.of_nat n2 <= zlength m2 -> Z.of_nat n2 < 16384 ->
  exists m' h, IP_updateCheckSum2 m ip (2 * Z.of_nat n) m2 (2 * Z.of_nat n2) = Ok m' /\
    same_except m m' (ip + o_Checksum) 2 /\ bytes_ok m' /\ 0 <= h /\
    wsum m' ip n + wsum m2 0 n2 = h + (65535 - fold16 h).
Proof.
  intros Hm Hip Hl Hln Hn Hm2 Hl2 Hn2. unfold IP_updateCheckSum2.
  destruct (st_total 2 m (ip + o_Checksum) 0) as (m1 & E1); [unfold in_range, o_Checksum; lia|].
  rewrite E1. cbn [mbind res_bind]. pose proof (st_same_except _ _ _ _ _ E1) as [Hz1 He1].
  assert (Hm1 : bytes_ok m1) by exact (st_ok _ _ _ _ _ Hm E1).
  rewrite pkt_InetChecksum2_even by (done || lia). cbn [mbind res_bind].
  set (h := wsum m1 ip n + wsum m2 0 n2).
  destruct (st_total 2 m1 (ip + o_Checksum) (PAL_NTOHS (65535 - fold16 h))) as (m' & E2);
    [unfold in_range, o_Checksum; lia|].
  pose proof (st_same_except _ _ _ _ _ E2) as [Hz2 He2].
  pose proof (wsum_range m1 n ip Hm1). pose proof (wsum_range m2 n2 0 Hm2). pose proof (fold16_range h).
  exists m', h. rewrite E2. split; [done|].
  split; [split; [lia|intros i Hi0 Hi1; by rewrite He2, He1 by done]|].
  split; [exact (st_ok _ _ _ _ _ Hm1 E2)|]. split; [unfold h; lia|].
  rewrite (wsum_replace m1 m' ip n 5); [|lia|lia|by split].
  change (ip + 2 * Z.of_nat 5) with (ip + o_Checksum).
  rewrite (st16_word _ _ _ _ E1), (st16_word _ _ _ _ E2). change (PAL_NTOHS (u16 0)) with 0.
  rewrite u16_id by apply PAL_NTOHS_range. rewrite PAL_NTOHS_involutive by lia. unfold h. lia.
Qed.

(** ** The inserted header *)

Lemma length_rxh_bytes h : length (rxh_bytes h) = 24%nat.
Proof. unfold rxh_bytes. rewrite !length_app, !length_le_split. done. Qed.
Lemma rxh_bytes_ok h : bytes_ok (rxh_bytes h).
Proof.
  unfold rxh_bytes. rewrite !Forall_app.
  assert (Hu : forall x, byte_ok (u8 x)) by (intros x; unfold byte_ok, u8; apply Z.mod_pos_bound; lia).
  split_and!; try apply le_split_ok; repeat constructor; apply Hu.
Qed.

(** What the insertion does to a packet, of an IPv4 template without options, that the
    first buffer holds. *)
Record rx_packet (h : CRx_check_header) (m : bytes) (len : Z) (pkt : bytes) : Prop := {
  rp_ok : bytes_ok pkt;
  rp_len : zlength pkt = len + 24;
  rp_sum : IP_isChecksumOK pkt 14 = Ok true;
  rp_hlen : IP_getHeaderLength pkt 14 = Ok 44;
  rp_tlen : IP_getTotalLength pkt 14 = (tl ← IP_getTotalLength m 14; Ok (tl + 24));
  rp_ttl : IP_getTimeToLive pkt 14 = Ok 255;
  rp_hdr : take 24 (drop 34 pkt) = rxh_bytes h;
  rp_rest : drop 58 pkt = take (Z.to_nat (len - 34)) (drop 34 m);
  rp_same : forall j, 0 <= j < 34 -> j < 14 \/ j = 15 \/ 18 <= j < 22 \/ j = 23 \/ 26 <= j ->
    byte_at pkt j = byte_at m j }.

(** The stores into the fixed part of the header. *)
Lemma header_stores m tl :
  bytes_ok m -> 34 <= zlength m -> ihl m 14 = 5 ->
  IP_getTotalLength m 14 = Ok tl -> tl + 24 < 65536 ->
  exists m1 m2 m3, IP_setHeaderLength m 14 (u8 (20 + 24)) = Ok m1 /\
    IP_getTotalLength m1 14 = Ok tl /\ IP_setTotalLength m1 14 (u16 (tl + 24)) = Ok m2 /\
    IP_setTimeToLive m2 14 255 = Ok m3 /\ bytes_ok m3 /\ zlength m3 = zlength m /\ ihl m3 14 = 11 /\
    ld16 m3 16 = Ok (PAL_NTOHS (tl + 24)) /\ byte_at m3 22 = 255 /\
    forall j, 0 <= j -> j < 14 \/ j = 15 \/ 18 <= j < 22 \/ 23 <= j -> byte_at m3 j = byte_at m j.
Proof.
  intros Hm Hz Hih Htl Hb.
  destruct (IP_setHeaderLength_spec m 14 (u8 (20 + 24)) Hm) as (m1 & E1 & [Hz1 He1] & Hm1 & Hih1); [lia|done|].
  change (u8 (20 + 24) / 4 mod 16) with 11 in Hih1.
  destruct (IP_getTotalLength_Ok m 14) as (tl' & Etl & Hr); [lia|lia|]. rewrite Htl in Etl. injection Etl as <-.
  assert (Htl1 : IP_getTotalLength m1 14 = Ok tl).
  { rewrite <- Htl. unfold IP_getTotalLength, o_Length.
    rewrite (ld_same_except 2 m m1 14 1) by (try lia; by split). done. }
  destruct (st_total 2 m1 (14 + o_Length) (PAL_NTOHS (tl + 24))) as [m2 E2]; [unfold in_range, o_Length; lia|].
  pose proof (st_same_except _ _ _ _ _ E2) as [Hz2 He2].
  destruct (st_total 1 m2 (14 + o_TTL) 255) as [m3 E3]; [unfold in_range, o_TTL; lia|].
  pose proof (st_same_except _ _ _ _ _ E3) as [Hz3 He3]. unfold o_Length, o_TTL in *.
  exists m1, m2, m3. rewrite u16_id by lia.
  assert (Hm3 : bytes_ok m3) by (eapply st_ok; [|exact E3]; eapply st_ok; [|exact E2]; done).
  split_and!; try done; try lia.
  - unfold ihl in *. rewrite He3, He2 by lia. done.
  - etransitivity; [apply (ld_st_other 1 2 m2 22 16 255 m3); [exact E3|]; lia|].
    pose proof (ld_st_same _ _ _ _ _ E2) as EL. change (14 + 2) with 16 in EL. rewrite EL. f_equal. apply Z.mod_small. apply PAL_NTOHS_range.
  - exact (st8_byte _ _ _ _ E3).
  - intros j Hj Ho. rewrite He3, He2, He1 by lia. done.
Qed.

(** The packet of the two buffers, when the first one holds the headers. *)
Lemma rx_packet_intro h m m4 len tl moved hs :
  bytes_ok m4 -> 34 <= len <= zlength m -> zlength m4 = zlength m -> ihl m4 14 = 11 ->
  moved = take (Z.to_nat (len - 34)) (drop 34 m) -> bytes_ok moved ->
  IP_getTotalLength m 14 = Ok tl -> 0 <= tl -> tl + 24 < 65536 -> ld16 m4 16 = Ok (PAL_NTOHS (tl + 24)) ->
  byte_at m4 22 = 255 -> 0 <= hs ->
  wsum m4 14 10 + wsum (rxh_bytes h ++ moved) 0 12 = hs + (65535 - fold16 hs) ->
  (forall j, 0 <= j -> j < 14 \/ j = 15 \/ 18 <= j < 22 \/ j = 23 \/ 26 <= j -> byte_at m4 j = byte_at m j) ->
  rx_packet h m len (take (Z.to_nat 34) m4 ++ rxh_bytes h ++ moved).
Proof.
  intros Hm4 Hlen Hz Hih Hmv Hmvok Htl Htl0 Htlb Hld Httl Hhs Hsum Hsame.
  set (m2 := rxh_bytes h ++ moved). set (pkt := take (Z.to_nat 34) m4 ++ m2).
  assert (Hm2 : bytes_ok m2) by (apply Forall_app; split; [apply rxh_bytes_ok|done]).
  assert (Hz1 : zlength (take (Z.to_nat 34) m4) = 34) by (unfold zlength in *; rewrite length_take; lia).
  assert (Hzm : zlength moved = len - 34).
  { subst moved. unfold zlength in *. rewrite length_take, length_drop. lia. }
  assert (Hz2 : zlength m2 = len - 10).
  { unfold m2, zlength in *. rewrite length_app, length_rxh_bytes. lia. }
  assert (Hzp : zlength pkt = len + 24).
  { unfold pkt, zlength in *. rewrite length_app. lia. }
  assert (Hb : forall j, 0 <= j < 34 -> byte_at pkt j = byte_at m4 j).
  { intros j Hj. unfold pkt. by rewrite byte_at_app_l, byte_at_take' by lia. }
  assert (Hpok : bytes_ok pkt) by (apply Forall_app; split; [by apply Forall_take|done]).
  assert (Hih' : ihl pkt 14 = 11) by (unfold ihl in *; by rewrite Hb by lia).
  assert (Hhdr : ip_header pkt 14) by (split; try done; lia).
  assert (Hhs' : hdr_sum pkt 14 = hs + (65535 - fold16 hs)).
  { unfold hdr_sum. rewrite Hih'. change (Z.to_nat (2 * 11)) with (10 + 12)%nat. rewrite wsum_app, <- Hsum.
    f_equal; [apply wsum_ext; intros; apply Hb; lia|].
    change (14 + 2 * Z.of_nat 10) with (34 + 0). rewrite <- Hz1. unfold pkt. by rewrite wsum_app_r by lia. }
  split; try done.
  - rewrite (valid_iff _ _ Hhdr), Hhs'. pose proof (fold16_mod hs Hhs). Z.div_mod_to_equations. lia.
  - rewrite IP_getHeaderLength_eq, Hih' by (done || lia). done.
  - rewrite Htl. cbn [mbind res_bind]. unfold IP_getTotalLength, o_Length.
    assert (ld16 pkt (14 + 2) = ld16 m4 16) as ->.
    { unfold ld. rewrite !decide_True by (unfold in_range; lia). rewrite !take_drop_2 by (unfold in_range; lia).
      by rewrite !Hb by lia. }
    rewrite Hld. cbn [mbind res_bind]. f_equal. apply PAL_NTOHS_involutive. lia.
  - unfold IP_getTimeToLive, o_TTL. change (14 + 8) with 22.
    rewrite ld8_byte by (unfold in_range; lia). by rewrite Hb, Httl by lia.
  - unfold pkt. rewrite drop_app_length' by (unfold zlength in Hz1; lia). unfold m2.
    rewrite take_app_length' by by rewrite length_rxh_bytes. done.
  - unfold pkt. rewrite <- Hmv. change 58%nat with (34 + 24)%nat. rewrite <- drop_drop.
    rewrite drop_app_length' by (unfold zlength in Hz1; lia).
    unfold m2. by rewrite drop_app_length' by by rewrite length_rxh_bytes.
  - intros j Hj Ho. rewrite Hb by lia. apply Hsame; lia.
Qed.

Lemma rxcheck_insert_spec (pool_get : Z -> option bytes) (new_mbuf : bytes) (p : CFlowPktInfo) (desc : CPacketDescriptor) (fid ts : Z) (single : bool)
    (m : bytes) (len tl : Z) :
  bytes_ok m -> 34 <= len <= zlength m -> len < 65536 ->
  m_is_ipv6 (m_pkt_indication p) = false -> m_ip_offset (m_pkt_indication p) = 14 -> ihl m 14 = 5 ->
  IP_getTotalLength m 14 = Ok tl -> tl + 24 < 65536 ->
  pktmbuf_alloc pool_get (len - 10) = Ok new_mbuf -> len - 10 <= zlength new_mbuf ->
  exists b, do_generate_new_mbuf_rxcheck pool_get p desc fid ts single m len = Ok b /\
    rx_packet (rxcheck_header desc fid ts RX_CHECK_V4_OPT_TYPE RX_CHECK_V4_OPT_LEN single) m len (mbuf_bytes b).
Proof.
  intros Hm Hlen Hlen2 H6 Hip Hih Htl Htlb Hnew Hroom. unfold do_generate_new_mbuf_rxcheck. rewrite H6, Hip.
  set (h := rxcheck_header _ _ _ _ _ _).
  change (u16 (14 + IP_DefaultSize)) with 34. rewrite (u16_id (len - 34)) by lia. change RX_CHECK_LEN with 24.
  replace (u16 (len - 34 + 24)) with (len - 10) by (rewrite u16_id; lia). rewrite Hnew. cbn [mbind res_bind].
  rewrite (proj2 (Z.ltb_ge _ _)), decide_True by lia. rewrite IP_getHeaderLength_eq, Hih by (done || lia). cbn [mbind res_bind].
  destruct (header_stores m tl Hm) as (m1 & m2 & m3 & E1 & Et & E2 & E3 & Hm3 & Hz3 & Hih3 & Hld3 & Httl3 & Hs3);
    [lia|done|done|done|].
  change (4 * 5) with 20. rewrite E1. cbn [mbind res_bind].
  rewrite Et. cbn [mbind res_bind]. rewrite E2. cbn [mbind res_bind].
  change TTL_RESERVE_DUPLICATE with 255. rewrite E3. cbn [mbind res_bind].
  change (Z.to_nat 34) with 34%nat. set (moved := take (Z.to_nat (len - 34)) (drop 34 m)).
  assert (Hmv : bytes_ok moved) by by apply Forall_take, Forall_drop.
  destruct (IP_updateCheckSum2_spec m3 14 10 (rxh_bytes h ++ moved) 12)
    as (m4 & hs & E4 & [Hz4 He4] & Hm4 & Hhs & Hsum); try done; try lia.
  { apply Forall_app; split; [apply rxh_bytes_ok|done]. }
  { unfold zlength. rewrite length_app, length_rxh_bytes. lia. }
  change (2 * Z.of_nat 10) with 20 in E4. change (2 * Z.of_nat 12) with 24 in E4. rewrite E4. cbn [mbind res_bind].
  eexists. split; [done|]. unfold mbuf_bytes. cbn [mb_data_len mb_first mb_second].
  replace (u16 (len - (len - 34))) with 34 by (rewrite u16_id; lia). unfold o_Checksum in He4.
  destruct (IP_getTotalLength_Ok m 14) as (tl' & Etl & Hr); [lia|lia|]. rewrite Htl in Etl. injection Etl as <-.
  apply (rx_packet_intro h m m4 len tl moved hs); try done; try lia.
  - unfold ihl in *. by rewrite He4 by lia.
  - rewrite <- Hld3. apply (ld_same_except 2 m3 m4 24 2); [by split|lia].
  - by rewrite He4 by lia.
  - intros j Hj Ho. rewrite He4 by lia. apply Hs3; lia.
Qed.

(** With a second buffer from the pool, inserting the receive-check header into an IPv4 packet without options succeeds
    and gives a well-formed packet: 24 bytes longer, with the header as the option of an
    IP header of 44 bytes whose total length, reserved TTL and checksum, computed over two
    buffers, are right, the rest of the packet behind it, and nothing else changed. *)
Theorem rxcheck_insert_ok (pool_get : Z -> option bytes) (new_mbuf : bytes) (p : CFlowPktInfo) (desc : CPacketDescriptor) (fid ts : Z) (single : bool)
    (m : bytes) (len tl : Z) :
  bytes_ok m -> 34 <= len <= zlength m -> len < 65536 ->
  m_is_ipv6 (m_pkt_indication p) = false -> m_ip_offset (m_pkt_indication p) = 14 -> ihl m 14 = 5 ->
  IP_getTotalLength m 14 = Ok tl -> tl + 24 < 65536 ->
  pktmbuf_alloc pool_get (len - 10) = Ok new_mbuf -> len - 10 <= zlength new_mbuf ->
  exists b, do_generate_new_mbuf_rxcheck pool_get p desc fid ts single m len = Ok b /\
    rx_packet (rxcheck_header desc fid ts RX_CHECK_V4_OPT_TYPE RX_CHECK_V4_OPT_LEN single) m len (mbuf_bytes b).
Proof. apply rxcheck_insert_spec. Qed.

Lemma rxcheck_insert_ok_witness :
  let p := mkPktInfo (ind_set_offsets 0 14 34 42 demo_ind) None in
  exists b, do_generate_new_mbuf_rxcheck (fun _ => Some (replicate 2048 0)) p (m_desc demo_ind) 5 0 true demo_udp 60 = Ok b /\
    rx_packet (rxcheck_header (m_desc demo_ind) 5 0 RX_CHECK_V4_OPT_TYPE RX_CHECK_V4_OPT_LEN true) demo_udp 60
      (mbuf_bytes b).
Proof.
  intros p. apply (rxcheck_insert_ok _ (replicate 2048 0) p (m_desc demo_ind) 5 0 true demo_udp 60 38);
    try (vm_compute; reflexivity); try (vm_compute; split; congruence); try (vm_compute; congruence).
  repeat constructor; vm_compute; congruence.
Defined.
