(* ===== verification/RxCheck.v ===== *)
(** * The receive check

    Models [src/src/rx_check.{h,cpp}]: the packets the generator sent carry the
    number of their flow and their place in it; the check follows every flow, counts
    packets that are lost, repeated or out of order, and lets flows age. *)

From S2P Require Import Prelude Double PrioQueue TimerWheel Histogram RxHeader.

(** ** Flows *)

(** [CRxCheckFlowPerDir] *)
Record CRxCheckFlowPerDir : Type := mkPerDir {
  m_flow_size : Z;
  m_pkts : Z;
  m_seq : Z;
  pd_flags : Z }.

Definition CRxCheckFlowPerDir_new : CRxCheckFlowPerDir := mkPerDir 0 0 0 0.
Definition set_fif_seen (flow_per_dir : Z) (d : CRxCheckFlowPerDir) : CRxCheckFlowPerDir :=
  mkPerDir flow_per_dir 1 1 (Z.lor (pd_flags d) 2).
Definition is_fif_seen (d : CRxCheckFlowPerDir) : bool := Z.land (pd_flags d) 2 =? 2.
Definition inc_pkts (d : CRxCheckFlowPerDir) : CRxCheckFlowPerDir :=
  mkPerDir (m_flow_size d) (u16 (m_pkts d + 1)) (m_seq d) (pd_flags d).
Definition set_seq (seq : Z) (d : CRxCheckFlowPerDir) : CRxCheckFlowPerDir :=
  mkPerDir (m_flow_size d) (m_pkts d) (u16 seq) (pd_flags d).
Definition set_init_not_from_first_packet (d : CRxCheckFlowPerDir) : CRxCheckFlowPerDir :=
  mkPerDir (m_flow_size d) (m_pkts d) (m_seq d) (Z.lor (pd_flags d) 1).
Definition is_init_not_from_first_pkt (d : CRxCheckFlowPerDir) : bool := Z.land (pd_flags d) 2 =? 2.

(** [CRxCheckFlow]. Its timer handle lives in the wheel under the flow's number;
    [m_object1] tells whether the handle's pointer to the manager is set. *)
Record CRxCheckFlow : Type := mkFlow {
  m_flow_id : Z;
  m_dir0 : CRxCheckFlowPerDir;
  m_dir1 : CRxCheckFlowPerDir;
  m_object1 : bool;
  m_oo_err : Z;
  m_flags : Z }.

(** A new flow, whose number the program sets right after it is made. *)
Definition CRxCheckFlow_new (fid : Z) : CRxCheckFlow :=
  mkFlow fid CRxCheckFlowPerDir_new CRxCheckFlowPerDir_new false 0 0.

(** [m_dir[d]], for the directions 0 and 1. *)
Definition m_dir (d : Z) (f : CRxCheckFlow) : CRxCheckFlowPerDir :=
  if d =? 0 then m_dir0 f else m_dir1 f.
Definition put_dir (d : Z) (p : CRxCheckFlowPerDir) (f : CRxCheckFlow) : CRxCheckFlow :=
  if d =? 0 then mkFlow (m_flow_id f) p (m_dir1 f) (m_object1 f) (m_oo_err f) (m_flags f)
  else mkFlow (m_flow_id f) (m_dir0 f) p (m_object1 f) (m_oo_err f) (m_flags f).

Definition set_object1 (f : CRxCheckFlow) : CRxCheckFlow :=
  mkFlow (m_flow_id f) (m_dir0 f) (m_dir1 f) true (m_oo_err f) (m_flags f).
Definition inc_oo_err (f : CRxCheckFlow) : CRxCheckFlow :=
  mkFlow (m_flow_id f) (m_dir0 f) (m_dir1 f) (m_object1 f) (u16 (m_oo_err f + 1)) (m_flags f).
Definition or_flags (b : Z) (f : CRxCheckFlow) : CRxCheckFlow :=
  mkFlow (m_flow_id f) (m_dir0 f) (m_dir1 f) (m_object1 f) (m_oo_err f) (Z.lor (m_flags f) b).

Definition set_both_dir (f : CRxCheckFlow) : CRxCheckFlow := or_flags 2 f.
Definition is_both_dir (f : CRxCheckFlow) : bool := Z.land (m_flags f) 2 =? 2.
Definition set_aged_correctly (f : CRxCheckFlow) : CRxCheckFlow := or_flags 4 f.
Definition is_aged_correctly (f : CRxCheckFlow) : bool := Z.land (m_flags f) 4 =? 4.

Definition get_total_pkt_seen (f : CRxCheckFlow) : Z := u16 (m_pkts (m_dir0 f) + m_pkts (m_dir1 f)).
Definition get_total_pkt_expected (f : CRxCheckFlow) : Z :=
  u16 (m_flow_size (m_dir0 f) + m_flow_size (m_dir1 f)).

Definition is_all_pkts_seen (f : CRxCheckFlow) : bool :=
  if (m_pkts (m_dir0 f) =? m_flow_size (m_dir0 f)) && (m_pkts (m_dir1 f) =? m_flow_size (m_dir1 f))
  then
    let c := Z.b2z (0 <? m_flow_size (m_dir0 f)) + Z.b2z (0 <? m_flow_size (m_dir1 f)) in
    let expc := if is_both_dir f then 2 else 1 in
    if expc =? c then m_oo_err f =? 0 else false
  else false.

(** ** Counters *)

Inductive counter : Type :=
  | m_total_rx | m_total_rx_bytes | m_lookup | m_found | m_fif | m_add | m_remove | m_active
  | m_err_drop | m_err_aged | m_err_no_magic | m_err_wrong_pkt_id | m_err_fif_seen_twice
  | m_err_open_with_no_fif_pkt | m_err_oo_dup | m_err_oo_early | m_err_oo_late
  | m_err_flow_length_changed.

#[export] Instance counter_eq_dec : EqDecision counter.
Proof. solve_decision. Defined.

(** [CRxCheckFlowTableStats], a structure of [uint64_t] counters: the value of
    each field. *)
Definition CRxCheckFlowTableStats : Type := counter -> Z.
Definition stats_Clear : CRxCheckFlowTableStats := fun _ => 0.
Definition stat_add (c : counter) (n : Z) (s : CRxCheckFlowTableStats) : CRxCheckFlowTableStats :=
  fun c' => if decide (c' = c) then u64 (s c + n) else s c'.
Definition inc (c : counter) (s : CRxCheckFlowTableStats) : CRxCheckFlowTableStats :=
  stat_add c 1 s.

Definition get_total_err (s : CRxCheckFlowTableStats) : Z :=
  u64 (s m_err_drop + s m_err_aged + s m_err_no_magic + s m_err_wrong_pkt_id
       + s m_err_fif_seen_twice + s m_err_open_with_no_fif_pkt + s m_err_oo_dup
       + s m_err_oo_early + s m_err_oo_late + s m_err_flow_length_changed).

(** ** Templates *)

Definition MAX_TEMPLATES_STATS : Z := 32.
Definition MAX_TEMPLATES_STATS_MASK : Z := MAX_TEMPLATES_STATS - 1.

(** [CPerTemplateInfo] *)
Record CPerTemplateInfo : Type := mkTemplateInfo {
  ti_rx_pkts : Z;
  ti_jitter : CJitter;
  ti_errors : Z }.
Definition template_reset : CPerTemplateInfo := mkTemplateInfo 0 CJitter_reset 0.
Definition template_calc (dtime : double) (t : CPerTemplateInfo) : CPerTemplateInfo :=
  mkTemplateInfo (ti_rx_pkts t) (CJitter_calc dtime (ti_jitter t)) (ti_errors t).
Definition inc_rx_counter (t : CPerTemplateInfo) : CPerTemplateInfo :=
  mkTemplateInfo (u64 (ti_rx_pkts t + 1)) (ti_jitter t) (ti_errors t).
Definition inc_error_counter (t : CPerTemplateInfo) : CPerTemplateInfo :=
  mkTemplateInfo (ti_rx_pkts t) (ti_jitter t) (u64 (ti_errors t + 1)).
Definition get_jitter_usec (t : CPerTemplateInfo) : Z :=
  u32_of_double (double_mul (m_jitter (ti_jitter t)) (double_of_Z 1000000)).

(** [get_template]: the index of the slot. *)
Definition get_template (index : Z) : Z :=
  if index <? MAX_TEMPLATES_STATS_MASK then index else MAX_TEMPLATES_STATS_MASK.

(** [CPerTxthreadTemplateInfo], the counters of the sending side. *)
Definition CPerTxthreadTemplateInfo : Type := list Z.
Definition tx_templates_Clear : CPerTxthreadTemplateInfo :=
  replicate (Z.to_nat MAX_TEMPLATES_STATS) 0.
Definition inc_template (index : Z) (t : CPerTxthreadTemplateInfo) : res CPerTxthreadTemplateInfo :=
  let i := if index <? MAX_TEMPLATES_STATS then index else MAX_TEMPLATES_STATS - 1 in
  c ← get_idx t i;
  set_idx t i (u64 (c + 1)).
Definition tx_templates_Add (obj t : CPerTxthreadTemplateInfo) : CPerTxthreadTemplateInfo :=
  zip_with (fun a b => u64 (a + b)) t obj.

(** ** One packet of a flow *)

(** The part of [handle_packet] between the lookup and the timer: [lf] is the flow
    found, the result the flow, new or updated, the counters and [any_err]. *)
Definition fif_packet (rxh : CRx_check_header) (lf : option CRxCheckFlow)
    (s : CRxCheckFlowTableStats) : CRxCheckFlow * CRxCheckFlowTableStats * bool :=
  match lf with
  | None =>
      let f := set_object1 (CRxCheckFlow_new (rx_flow_id rxh)) in
      let f := if get_both_dir rxh then set_both_dir f else f in
      let f := put_dir (get_dir rxh) (set_fif_seen (rx_flow_size rxh) (m_dir (get_dir rxh) f)) f in
      (f, inc m_active (inc m_add (inc m_fif s)), false)
  | Some f =>
      let s := inc m_found s in
      let lpd := m_dir (get_dir rxh) f in
      if is_fif_seen lpd then
        let f := inc_oo_err f in
        let s := inc m_err_fif_seen_twice s in
        let '(f, s) :=
          if negb (m_flow_size lpd =? rx_flow_size rxh)
          then (inc_oo_err f, inc m_err_flow_length_changed s) else (f, s) in
        (put_dir (get_dir rxh) (inc_pkts lpd) f, s, true)
      else (put_dir (get_dir rxh) (set_fif_seen (rx_flow_size rxh) lpd) f, s, false)
  end.

(** The class of an out of order packet. *)
Definition count_out_of_order (c_seq pkt_id : Z) (s : CRxCheckFlowTableStats)
  : CRxCheckFlowTableStats :=
  if c_seq - 1 =? pkt_id then inc m_err_oo_dup s
  else if c_seq <? pkt_id then inc m_err_oo_late s
  else inc m_err_oo_early s.

Definition non_fif_packet (rxh : CRx_check_header) (lf : option CRxCheckFlow)
    (s : CRxCheckFlowTableStats) : CRxCheckFlow * CRxCheckFlowTableStats * bool :=
  match lf with
  | None =>
      let f := set_object1 (CRxCheckFlow_new (rx_flow_id rxh)) in
      let f := if get_both_dir rxh then set_both_dir f else f in
      let f := put_dir (get_dir rxh) (set_fif_seen (rx_flow_size rxh) (m_dir (get_dir rxh) f)) f in
      (inc_oo_err f, inc m_err_open_with_no_fif_pkt (inc m_active (inc m_add s)), true)
  | Some f =>
      let s := inc m_found s in
      let lpd := m_dir (get_dir rxh) f in
      if negb (is_fif_seen lpd) then
        (put_dir (get_dir rxh) (set_fif_seen (rx_flow_size rxh) lpd) f, s, false)
      else
        let '(f, s, any_err) :=
          if negb (m_flow_size lpd =? rx_flow_size rxh)
          then (inc_oo_err f, inc m_err_flow_length_changed s, true) else (f, s, false) in
        let c_seq := m_seq lpd in
        let '(f, s, any_err) :=
          if negb (c_seq =? m_pkt_id rxh)
          then (inc_oo_err f, count_out_of_order c_seq (m_pkt_id rxh) s, true)
          else (f, s, any_err) in
        let lpd := inc_pkts (set_seq (m_pkt_id rxh + 1) lpd) in
        (put_dir (get_dir rxh) lpd f, s, any_err)
  end.

Definition flow_packet (rxh : CRx_check_header) (lf : option CRxCheckFlow)
    (s : CRxCheckFlowTableStats) : CRxCheckFlow * CRxCheckFlowTableStats * bool :=
  if is_fif_dir rxh then fif_packet rxh lf s else non_fif_packet rxh lf s.

(** ** The manager *)

(** Everything but the wheel. The flow table owns the flows: a flow is named by
    its key. *)
Record RxTables : Type := mkTables {
  m_ft : gmap Z CRxCheckFlow;
  m_stats : CRxCheckFlowTableStats;
  m_hist : CTimeHistogram;
  m_template_info : list CPerTemplateInfo;
  m_on_drain : bool;
  m_cur_time : double }.

Definition set_ft (x : gmap Z CRxCheckFlow) (r : RxTables) : RxTables :=
  mkTables x (m_stats r) (m_hist r) (m_template_info r) (m_on_drain r) (m_cur_time r).
Definition set_stats (x : CRxCheckFlowTableStats) (r : RxTables) : RxTables :=
  mkTables (m_ft r) x (m_hist r) (m_template_info r) (m_on_drain r) (m_cur_time r).
Definition set_hist (x : CTimeHistogram) (r : RxTables) : RxTables :=
  mkTables (m_ft r) (m_stats r) x (m_template_info r) (m_on_drain r) (m_cur_time r).
Definition set_template_info (x : list CPerTemplateInfo) (r : RxTables) : RxTables :=
  mkTables (m_ft r) (m_stats r) (m_hist r) x (m_on_drain r) (m_cur_time r).
Definition set_on_drain (x : bool) (r : RxTables) : RxTables :=
  mkTables (m_ft r) (m_stats r) (m_hist r) (m_template_info r) x (m_cur_time r).
Definition rx_set_cur_time (x : double) (r : RxTables) : RxTables :=
  mkTables (m_ft r) (m_stats r) (m_hist r) (m_template_info r) (m_on_drain r) x.

(** [CRxCheckFlowTableMap::remove] *)
Definition ft_remove (fid : Z) (ft : gmap Z CRxCheckFlow) : gmap Z CRxCheckFlow * bool :=
  match ft !! fid with
  | Some _ => (delete fid ft, true)
  | None => (ft, false)
  end.

Definition update_template (index : Z) (f : CPerTemplateInfo -> CPerTemplateInfo) (r : RxTables)
  : res RxTables :=
  t ← get_idx (m_template_info r) (get_template index);
  l ← set_idx (m_template_info r) (get_template index) (f t);
  Ok (set_template_info l r).

Definition update_template_err (template_id : Z) (r : RxTables) : res RxTables :=
  update_template template_id inc_error_counter r.

Definition on_flow_end (lp : CRxCheckFlow) (r : RxTables) : RxTables :=
  let s := stat_add m_active (-1) (inc m_remove (m_stats r)) in
  let s :=
    if negb (m_on_drain r) then
      let exp := get_total_pkt_expected lp in
      let seen := get_total_pkt_seen lp in
      let s := if seen <? exp then stat_add m_err_drop (exp - seen) s else s in
      if negb (is_aged_correctly lp) then inc m_err_aged s else s
    else s in
  set_ft (fst (ft_remove (m_flow_id lp) (m_ft r))) (set_stats s r).

(** [flow_aging_callback]: the flow the handle belongs to must be there. *)
Definition flow_aging_callback (k : Z) (r : RxTables) : res RxTables :=
  match m_ft r !! k with
  | None => Err OutOfBounds
  | Some lp => _ ← c_assert (m_object1 lp); Ok (on_flow_end lp r)
  end.
Definition rx_callback (k : Z) : option (RxTables -> res RxTables) := Some (flow_aging_callback k).

Record RxCheckManager (Q : Type) : Type := mkManager { m_tw : CTimerWheel Q; tables : RxTables }.
Arguments mkManager {Q}.
Arguments m_tw {Q}.
Arguments tables {Q}.

Section Manager.
Context {Q : Type} `{PQueue Q}.
(** [start_time] of [os_time.h]. *)
Context (start_time : Z).

Definition now_sec (tick : Z) : double := ptime_convert_hr_dsec (u64 (tick - start_time)).

(** [Create], on a wheel just constructed. *)
Definition RxCheckManager_Create (h : CTimeHistogram) : RxCheckManager Q :=
  mkManager CTimerWheel_new
    (mkTables ∅ stats_Clear (hist_Create h)
       (replicate (Z.to_nat MAX_TEMPLATES_STATS) template_reset) false
       (double_div (double_of_Z 1) (double_of_Z 100000000))).

(** [Delete] frees the flows; the wheel keeps its timers. *)
Definition RxCheckManager_Delete (m : RxCheckManager Q) : RxCheckManager Q :=
  mkManager (m_tw m) (set_ft ∅ (tables m)).

Definition tw_handle (m : RxCheckManager Q) : res (RxCheckManager Q) :=
  '(w, r) ← try_handle_events rx_callback (m_cur_time (tables m)) (m_tw m) (tables m);
  Ok (mkManager w r).

Definition tw_drain (m : RxCheckManager Q) : res (RxCheckManager Q) :=
  '(w, r) ← drain_all rx_callback (m_tw m) (set_on_drain true (tables m));
  Ok (mkManager w (set_on_drain false r)).

(** When a flow ages: [m_cur_time+std::max(rxh->m_aging_sec,(uint16_t)5)]. *)
Definition aging_time (now : double) (rxh : CRx_check_header) : double :=
  double_add now (double_of_Z (Z.max (m_aging_sec rxh) 5)).

(** The timer, and the end of a complete flow. *)
Definition flow_timer (rxh : CRx_check_header) (lf : CRxCheckFlow) (m : RxCheckManager Q)
  : res (RxCheckManager Q) :=
  let fid := rx_flow_id rxh in
  w ← restart_timer fid (aging_time (m_cur_time (tables m)) rxh) (m_tw m);
  if is_all_pkts_seen lf then
    w ← stop_timer fid w;
    let lf := set_aged_correctly lf in
    Ok (mkManager w (on_flow_end lf (set_ft (<[fid := lf]> (m_ft (tables m))) (tables m))))
  else Ok (mkManager w (tables m)).

(** The latency statistics of a packet. *)
Definition latency_stats (rxh : CRx_check_header) (tick32 : Z) (r : RxTables) : res RxTables :=
  let d := u32 (tick32 - m_time_stamp rxh) in
  let dt := ptime_convert_hr_dsec d in
  '(h, _) ← hist_Add dt (m_hist r);
  update_template (m_template_id rxh) (fun t => inc_rx_counter (template_calc dt t)) (set_hist h r).

(** [handle_packet]. [tick] and [tick32] are what the clock shows when [now_sec]
    and [os_get_hr_tick_32] read it. *)
Definition handle_packet (tick tick32 : Z) (rxh : CRx_check_header) (m : RxCheckManager Q)
  : res (RxCheckManager Q) :=
  let r := tables m in
  let r := set_stats (inc m_total_rx (m_stats r)) r in
  if negb (m_magic rxh =? RX_CHECK_MAGIC) then
    r ← update_template_err (m_template_id rxh) (set_stats (inc m_err_no_magic (m_stats r)) r);
    Ok (mkManager (m_tw m) r)
  else if rx_flow_size rxh <? m_pkt_id rxh + 1 then
    r ← update_template_err (m_template_id rxh) (set_stats (inc m_err_wrong_pkt_id (m_stats r)) r);
    Ok (mkManager (m_tw m) r)
  else
    let r := rx_set_cur_time (now_sec tick) r in
    r ← latency_stats rxh tick32 r;
    let fid := rx_flow_id rxh in
    let '(lf, s, any_err) := flow_packet rxh (m_ft r !! fid) (inc m_lookup (m_stats r)) in
    let r := set_ft (<[fid := lf]> (m_ft r)) (set_stats s r) in
    r ← (if (any_err : bool) then update_template_err (m_template_id rxh) r else Ok r);
    m ← flow_timer rxh lf (mkManager (m_tw m) r);
    if Z.land (m_stats (tables m) m_lookup) 0xff =? 0 then tw_handle m else Ok m.

(** [getTemplateMaxJitter] *)
Definition getTemplateMaxJitter (r : RxTables) : Z :=
  foldl (fun res t => if res <? get_jitter_usec t then get_jitter_usec t else res) 0
    (m_template_info r).
End Manager.
