(* ===== verification/RxCheckFacts.v ===== *)
(** * Receive check: the invariant

    What holds of the manager between two calls: every flow of the table has one
    running timer and is incomplete, and the counters agree with the table. *)

From S2P Require Import Prelude Double PrioQueue TimerWheel TimerWheelFacts TimerWheelThms Histogram RxHeader RxCheck.

(** ** Counters *)

Lemma stat_add_eq c n s : stat_add c n s c = u64 (s c + n).
Proof. unfold stat_add. by rewrite decide_True. Qed.
Lemma stat_add_ne c c' n s : c' ≠ c -> stat_add c n s c' = s c'.
Proof. intros. unfold stat_add. by rewrite decide_False. Qed.

(** Evaluates the counters of a chain of updates. *)
Ltac stats := unfold inc; repeat (rewrite stat_add_eq || rewrite stat_add_ne by discriminate).

(** ** Histogram *)

Definition hist_ok (h : CTimeHistogram) : Prop :=
  length (m_hcnt h) = HISTOGRAM_SIZE_LOG /\
  Forall (fun row => length row = Z.to_nat HISTOGRAM_SIZE) (m_hcnt h).

Lemma hcnt_inc_Ok hcnt j low :
  length hcnt = HISTOGRAM_SIZE_LOG ->
  Forall (fun row => length row = Z.to_nat HISTOGRAM_SIZE) hcnt ->
  0 <= j < 5 -> 0 <= low < 9 ->
  exists hcnt', hcnt_inc hcnt j low = Ok hcnt' /\ length hcnt' = HISTOGRAM_SIZE_LOG /\
    Forall (fun row => length row = Z.to_nat HISTOGRAM_SIZE) hcnt'.
Proof.
  intros Hl Hrows Hj Hlow. unfold hcnt_inc. change (length hcnt = 5%nat) in Hl.
  destruct (get_idx_total hcnt j) as [row Hrow]; [unfold zlength; lia|].
  rewrite Hrow. simpl. apply get_idx_Ok in Hrow as [_ Hrow].
  assert (Hlen : length row = 9%nat) by by eapply (Forall_lookup_1 _ _ _ _ Hrows).
  destruct (get_idx_total row low) as [c ->]; [unfold zlength; lia|]. simpl.
  rewrite set_idx_in by (unfold zlength; lia). simpl.
  rewrite set_idx_in by (unfold zlength; lia).
  eexists. split; [done|]. rewrite length_insert. split; [done|].
  apply Forall_insert; [done|]. by rewrite length_insert.
Qed.

Lemma hist_bucket_loop_Ok fuel : forall j d hcnt,
  length hcnt = HISTOGRAM_SIZE_LOG ->
  Forall (fun row => length row = Z.to_nat HISTOGRAM_SIZE) hcnt ->
  0 <= j -> j + Z.of_nat fuel <= 5 ->
  exists hcnt', hist_bucket_loop fuel j d hcnt = Ok hcnt' /\
    length hcnt' = HISTOGRAM_SIZE_LOG /\
    Forall (fun row => length row = Z.to_nat HISTOGRAM_SIZE) hcnt'.
Proof.
  induction fuel as [|fuel IH]; intros j d hcnt Hl Hrows Hj Hf; simpl; [eauto|].
  destruct (d / 10 =? 0) eqn:Hd; [|apply IH; try done; lia].
  apply hcnt_inc_Ok; [done..|lia|].
  pose proof (Z.mod_pos_bound d 10). destruct (0 <? d mod 10) eqn:E; lia.
Qed.

Lemma hist_Add_Ok dt h : hist_ok h -> exists h' b, hist_Add dt h = Ok (h', b) /\ hist_ok h'.
Proof.
  intros [Hl Hrows]. unfold hist_Add. destruct (double_ltb dt _).
  - eexists _, _. split; [done|]. done.
  - destruct (hist_bucket_loop_Ok HISTOGRAM_SIZE_LOG 0
      (u32_of_double (double_mul dt (double_of_Z 100000))) (m_hcnt h) Hl Hrows)
      as (hcnt' & -> & Hl' & Hrows'); [lia|unfold HISTOGRAM_SIZE_LOG; lia|].
    simpl. eexists _, _. split; [done|]. done.
Qed.

(** ** Templates *)

Lemma get_template_range i : 0 <= i -> 0 <= get_template i < 32.
Proof.
  intros Hi. unfold get_template. change MAX_TEMPLATES_STATS_MASK with 31.
  destruct (i <? 31) eqn:E; lia.
Qed.

Lemma update_template_Ok i f r :
  length (m_template_info r) = 32%nat -> 0 <= i ->
  exists l, update_template i f r = Ok (set_template_info l r) /\ length l = 32%nat.
Proof.
  intros Hl Hi. pose proof (get_template_range i Hi) as Hr. unfold update_template.
  destruct (get_idx_total (m_template_info r) (get_template i)) as [t ->];
    [unfold zlength; lia|]. simpl.
  rewrite set_idx_in by (unfold zlength; lia). simpl. eexists. split; [done|].
  by rewrite length_insert.
Qed.

(** ** Flows *)

(** A flow of the table: named by its key, tied to the manager, incomplete. *)
Definition flow_ok (fid : Z) (f : CRxCheckFlow) : Prop :=
  m_flow_id f = fid /\ m_object1 f = true /\ (m_flags f = 0 \/ m_flags f = 2).

Lemma flow_ok_not_aged fid f : flow_ok fid f -> is_aged_correctly f = false.
Proof. unfold is_aged_correctly. by intros (_ & _ & [-> | ->]). Qed.

Lemma put_dir_ok fid d p f : flow_ok fid f -> flow_ok fid (put_dir d p f).
Proof. intros Hf. unfold put_dir. by destruct (d =? 0). Qed.
Lemma inc_oo_err_ok fid f : flow_ok fid f -> flow_ok fid (inc_oo_err f).
Proof. done. Qed.

Lemma new_flow_ok rxh :
  flow_ok (rx_flow_id rxh)
    (if get_both_dir rxh then set_both_dir (set_object1 (CRxCheckFlow_new (rx_flow_id rxh)))
     else set_object1 (CRxCheckFlow_new (rx_flow_id rxh))).
Proof. destruct (get_both_dir rxh); split_and!; try done; [by right|by left]. Qed.

Create HintDb flows.
#[export] Hint Resolve put_dir_ok inc_oo_err_ok new_flow_ok : flows.

(** What a packet of a flow does to the counters that account for the table. *)
Definition accounting (lf : option CRxCheckFlow) (s s' : CRxCheckFlowTableStats) : Prop :=
  match lf with
  | None => s' m_active = u64 (s m_active + 1) /\ s' m_add = u64 (s m_add + 1) /\
            s' m_found = s m_found
  | Some _ => s' m_active = s m_active /\ s' m_add = s m_add /\ s' m_found = u64 (s m_found + 1)
  end /\
  s' m_lookup = s m_lookup /\ s' m_total_rx = s m_total_rx /\ s' m_remove = s m_remove /\
  s' m_err_no_magic = s m_err_no_magic /\ s' m_err_wrong_pkt_id = s m_err_wrong_pkt_id.

(** All counters are 64-bit words. *)
Definition stats_range (s : CRxCheckFlowTableStats) : Prop := forall c, u64 (s c) = s c.

Lemma u64_u64 x : u64 (u64 x) = u64 x.
Proof. apply Z.mod_mod. done. Qed.

Lemma stat_add_range c n s : stats_range s -> stats_range (stat_add c n s).
Proof. intros Hs c'. unfold stat_add. case_decide; [apply u64_u64|apply Hs]. Qed.

Lemma inc_range c s : stats_range s -> stats_range (inc c s).
Proof. apply stat_add_range. Qed.
#[export] Hint Resolve inc_range stat_add_range : flows.

Lemma count_out_of_order_accounting q i s :
  stats_range s ->
  stats_range (count_out_of_order q i s) /\
  forall c, c ∉ [m_err_oo_dup; m_err_oo_late; m_err_oo_early] -> count_out_of_order q i s c = s c.
Proof.
  intros Hs. unfold count_out_of_order.
  destruct (q - 1 =? i); [|destruct (q <? i)]; (split; [auto with flows|]);
    intros c Hc; apply stat_add_ne; set_solver.
Qed.

Lemma flow_packet_ok rxh lf s :
  (forall f, lf = Some f -> flow_ok (rx_flow_id rxh) f) -> stats_range s ->
  exists f s' e, flow_packet rxh lf s = (f, s', e) /\ flow_ok (rx_flow_id rxh) f /\
    stats_range s' /\ accounting lf s s'.
Proof.
  intros Hlf Hs. unfold flow_packet, fif_packet, non_fif_packet.
  destruct (is_fif_dir rxh), lf as [f|].
  - specialize (Hlf f eq_refl).
    destruct (is_fif_seen _); [destruct (negb _)|]; eexists _, _, _;
      (split; [reflexivity|]); (split; [auto with flows|]); (split; [auto with flows|]);
      split_and!; stats; done.
  - eexists _, _, _. split; [reflexivity|]. split; [auto with flows|]. split; [auto with flows|].
    split_and!; stats; done.
  - specialize (Hlf f eq_refl). destruct (negb (is_fif_seen _)).
    { eexists _, _, _. split; [reflexivity|]. split; [auto with flows|].
      split; [auto with flows|]. split_and!; stats; done. }
    assert (Hr : stats_range (inc m_err_flow_length_changed (inc m_found s))
                 /\ stats_range (inc m_found s)) by auto with flows.
    destruct Hr as [Hr1 Hr2].
    destruct (count_out_of_order_accounting (m_seq (m_dir (get_dir rxh) f)) (m_pkt_id rxh) _ Hr1)
      as [Hr1' Ho1].
    destruct (count_out_of_order_accounting (m_seq (m_dir (get_dir rxh) f)) (m_pkt_id rxh) _ Hr2)
      as [Hr2' Ho2].
    destruct (negb (_ =? rx_flow_size rxh)), (negb (_ =? m_pkt_id rxh)); eexists _, _, _;
      (split; [reflexivity|]); (split; [auto with flows|]); (split; [done|]);
      split_and!; rewrite ?Ho1, ?Ho2 by set_solver; stats; done.
  - eexists _, _, _. split; [reflexivity|]. split; [auto with flows|]. split; [auto with flows|].
    split_and!; stats; done.
Qed.

(** ** The tables *)

Record tables_ok (r : RxTables) : Prop := {
  ok_flows fid f : m_ft r !! fid = Some f -> flow_ok fid f;
  ok_range : stats_range (m_stats r);
  ok_active : m_stats r m_active = u64 (Z.of_nat (size (m_ft r)));
  ok_balance : m_stats r m_active = u64 (m_stats r m_add - m_stats r m_remove);
  ok_lookup : m_stats r m_lookup = u64 (m_stats r m_found + m_stats r m_add);
  ok_total : m_stats r m_total_rx
    = u64 (m_stats r m_lookup + m_stats r m_err_no_magic + m_stats r m_err_wrong_pkt_id);
  ok_templates : length (m_template_info r) = 32%nat;
  ok_hist : hist_ok (m_hist r) }.

(** Packets of a flow that were announced and not seen. *)
Definition missing (f : CRxCheckFlow) : Z :=
  Z.max 0 (get_total_pkt_expected f - get_total_pkt_seen f).
Definition missing_at (ft : gmap Z CRxCheckFlow) (k : Z) : Z :=
  match ft !! k with Some f => missing f | None => 0 end.
Definition lost (ft : gmap Z CRxCheckFlow) (l : list Z) : Z :=
  foldr (fun k acc => missing_at ft k + acc) 0 l.

Lemma lost_frame ft ft' l : (forall k, k ∈ l -> ft' !! k = ft !! k) -> lost ft' l = lost ft l.
Proof.
  induction l as [|k l IH]; simpl; intros Hl; [done|]. rewrite IH by set_solver.
  unfold missing_at. by rewrite Hl by set_solver.
Qed.

(** The flows [l] age: [r'] is [r] without them, and every one is counted. *)
Definition aged (l : list Z) (r r' : RxTables) : Prop :=
  (forall k, m_ft r' !! k = if decide (k ∈ l) then None else m_ft r !! k) /\
  (m_hist r' = m_hist r /\ m_template_info r' = m_template_info r /\
   m_on_drain r' = m_on_drain r /\ m_cur_time r' = m_cur_time r) /\
  m_stats r' m_remove = u64 (m_stats r m_remove + zlength l) /\
  m_stats r' m_err_aged
    = u64 (m_stats r m_err_aged + if m_on_drain r then 0 else zlength l) /\
  m_stats r' m_err_drop
    = u64 (m_stats r m_err_drop + if m_on_drain r then 0 else lost (m_ft r) l) /\
  forall c, c ∉ [m_active; m_remove; m_err_aged; m_err_drop] -> m_stats r' c = m_stats r c.

Lemma aged_nil r : tables_ok r -> aged [] r r.
Proof.
  intros Hr. unfold aged. simpl. split_and!; try done.
  all: destruct (m_on_drain r); rewrite ?Z.add_0_r; symmetry; apply (ok_range r Hr).
Qed.

(** ** The end of a flow *)

Definition ended_aged (f : CRxCheckFlow) (r : RxTables) : bool :=
  negb (m_on_drain r) && negb (is_aged_correctly f).
Definition ended_lost (f : CRxCheckFlow) (r : RxTables) : Z :=
  if m_on_drain r then 0 else missing f.

Lemma on_flow_end_ft f r : m_ft (on_flow_end f r) = delete (m_flow_id f) (m_ft r).
Proof.
  unfold on_flow_end, ft_remove. simpl. destruct (m_ft r !! m_flow_id f) eqn:E; [done|].
  simpl. by rewrite delete_id.
Qed.

Lemma on_flow_end_stats f r :
  stats_range (m_stats r) ->
  let s := m_stats r in let s' := m_stats (on_flow_end f r) in
  stats_range s' /\ s' m_active = u64 (s m_active - 1) /\ s' m_remove = u64 (s m_remove + 1) /\
  s' m_err_aged = u64 (s m_err_aged + Z.b2z (ended_aged f r)) /\
  s' m_err_drop = u64 (s m_err_drop + ended_lost f r) /\
  forall c, c ∉ [m_active; m_remove; m_err_aged; m_err_drop] -> s' c = s c.
Proof.
  intros Hs. unfold on_flow_end, ended_aged, ended_lost, missing. simpl.
  destruct (m_on_drain r); simpl; [|destruct (_ <? _) eqn:E; destruct (is_aged_correctly f); simpl];
    (split; [auto with flows|]); split_and!; stats; rewrite ?Z.add_0_r;
    try done; try (symmetry; apply Hs).
  all: try (intros c Hc; rewrite !stat_add_ne by set_solver; done).
  all: rewrite ?Z.max_r, ?Z.max_l, ?Z.add_0_r by lia; try done; try (symmetry; apply Hs).
Qed.

Lemma on_flow_end_ok f r :
  tables_ok r -> is_Some (m_ft r !! m_flow_id f) -> tables_ok (on_flow_end f r).
Proof.
  intros Hr Hf. destruct (on_flow_end_stats f r (ok_range r Hr)) as (Hrange & Ha & Hrm & _ & _ & Ho).
  assert (Hsz : size (m_ft r) = S (size (m_ft (on_flow_end f r)))).
  { rewrite on_flow_end_ft, map_size_delete. destruct (m_ft r !! m_flow_id f) eqn:E; [|by destruct Hf].
    assert (size (m_ft r) ≠ 0%nat); [|lia]. intros H0%map_size_empty_inv. by rewrite H0, lookup_empty in E. }
  split; rewrite ?Ha, ?Hrm, ?Ho by set_solver; try apply Hr; [|done|..].
  - intros k g. rewrite on_flow_end_ft. intros [_ Hg]%lookup_delete_Some. by apply (ok_flows r Hr).
  - rewrite (ok_active r Hr), Hsz. word_lia.
  - rewrite (ok_balance r Hr). word_lia.
Qed.

Lemma aged_one k f r r' l :
  tables_ok r -> m_ft r !! k = Some f -> k ∉ l ->
  aged l (on_flow_end f r) r' -> aged (k :: l) r r'.
Proof.
  intros Hr Hk Hkl (Hft & (Hh & Ht & Hd & Hc) & Hrm & Hag & Hdr & Ho).
  pose proof (ok_flows r Hr k f Hk) as Hf. pose proof Hf as [Hid _].
  pose proof (flow_ok_not_aged _ _ Hf) as Hna.
  destruct (on_flow_end_stats f r (ok_range r Hr)) as (_ & _ & Hrm1 & Hag1 & Hdr1 & Ho1).
  unfold ended_aged in Hag1. rewrite Hna, andb_true_r in Hag1.
  rewrite Hrm1 in Hrm. rewrite Hag1 in Hag. rewrite Hdr1 in Hdr. unfold ended_lost in Hdr.
  change (m_on_drain (on_flow_end f r)) with (m_on_drain r) in Hag, Hdr.
  rewrite on_flow_end_ft, Hid in Hdr. rewrite (lost_frame (m_ft r)) in Hdr.
  2:{ intros j Hj. apply lookup_delete_ne. by intros ->. }
  unfold aged. split; [|split; [done|]].
  { intros j. rewrite Hft, on_flow_end_ft, Hid.
    destruct (decide (j ∈ l)), (decide (j ∈ k :: l)); [done|set_solver| |].
    - assert (j = k) as -> by set_solver. apply lookup_delete_eq.
    - apply lookup_delete_ne. set_solver. }
  unfold zlength in *. simpl length. simpl lost.
  unfold missing_at at 1. rewrite Hk. rewrite Hrm, Hag, Hdr. split_and!.
  - word_lia.
  - destruct (m_on_drain r); simpl; word_lia.
  - destruct (m_on_drain r); word_lia.
  - intros c Hc'. by rewrite Ho, Ho1.
Qed.

(** The callbacks of timers that run out, for a wheel and a table that agree. *)
Lemma callbacks_spec A l A' r :
  fires A l A' -> tables_ok r ->
  (forall fid, is_Some (A !! fid) <-> is_Some (m_ft r !! fid)) ->
  exists r', run_callbacks rx_callback l r = Ok r' /\ tables_ok r' /\ aged l r r' /\
    (forall fid, is_Some (A' !! fid) <-> is_Some (m_ft r' !! fid)).
Proof.
  intros Hf. revert r. induction Hf as [A|A k d l A' Hk Hle Hf IH]; intros r Hr Hsync.
  - exists r. split_and!; [done..| |done]. by apply aged_nil.
  - destruct (proj1 (Hsync k)) as [f Hfk]; [eauto|].
    pose proof (ok_flows r Hr k f Hfk) as (Hid & Hobj & _).
    assert (Hkl : k ∉ l).
    { intros Hin. destruct (fires_deadline _ _ _ _ Hf Hin) as [d' [? _]%lookup_delete_Some]. done. }
    destruct (IH (on_flow_end f r)) as (r' & Hrun & Hr' & Hag & Hsync').
    + apply on_flow_end_ok; [done|]. by rewrite Hid, Hfk.
    + intros fid. rewrite on_flow_end_ft, Hid, !lookup_delete_is_Some. by rewrite Hsync.
    + exists r'. split_and!; [|done| |done].
      * simpl. unfold run_callback, rx_callback, flow_aging_callback. rewrite Hfk, Hobj. exact Hrun.
      * by apply aged_one with f.
Qed.
