(* ===== verification/RxCheckFlows.v ===== *)
(** * Receive check: one flow

    The packets of one direction of a flow, as the check sees them: the flow is
    closed as complete exactly when they are the packets 0 to n-1 in order. *)

From S2P Require Import Prelude Double PrioQueue TimerWheel TimerWheelFacts Histogram RxHeader RxCheck RxCheckFacts.

(** A packet of the one-directional flow [fid] of [n] packets. *)
Record flow_hdr (fid d n : Z) (h : CRx_check_header) : Prop := {
  fh_fid : rx_flow_id h = fid;
  fh_size : rx_flow_size h = n;
  fh_dir : get_dir h = d;
  fh_both : get_both_dir h = false;
  fh_id : 0 <= m_pkt_id h < n }.

Definition in_order (ids : list Z) : Prop := ids = seqZ 0 (zlength ids).

Lemma in_order_app ids i : in_order (ids ++ [i]) <-> in_order ids /\ i = zlength ids.
Proof.
  unfold in_order, zlength. rewrite length_app. simpl length.
  assert (H : seqZ 0 (Z.of_nat (length ids + 1)) = seqZ 0 (Z.of_nat (length ids)) ++ [Z.of_nat (length ids)]).
  { rewrite Nat2Z.inj_add. change (Z.of_nat 1) with 1. rewrite seqZ_app by lia. done. }
  rewrite H. split.
  - intros [He Hi]%app_inj_tail. done.
  - intros [He ->]. by rewrite <- He.
Qed.

Section Track.
Context (fid d n : Z) (Hd : d = 0 \/ d = 1) (Hn : 0 < n < 65536).

(** What all flows here have in common: the other direction is unused. *)
Record track_shape (f : CRxCheckFlow) : Prop := {
  sh_flags : m_flags f = 0;
  sh_other : m_dir (1 - d) f = CRxCheckFlowPerDir_new;
  sh_size : m_flow_size (m_dir d f) = n;
  sh_seen : is_fif_seen (m_dir d f) = true }.

(** The flow after the packets [ids]. *)
Definition tracked (ids : list Z) (fo : option CRxCheckFlow) : Prop :=
  match fo with
  | None => ids = [] \/ ids = seqZ 0 n
  | Some f => track_shape f /\
      ((in_order ids /\ 1 <= zlength ids < n /\ m_oo_err f = 0 /\
        m_pkts (m_dir d f) = zlength ids /\ m_seq (m_dir d f) = zlength ids) \/
       (~ in_order ids /\ 1 <= m_oo_err f <= zlength ids))
  end.

Lemma put_dir_same p f : m_dir d (put_dir d p f) = p.
Proof. clear Hn. unfold m_dir, put_dir. destruct Hd as [-> | ->]; done. Qed.
Lemma put_dir_other p f : m_dir (1 - d) (put_dir d p f) = m_dir (1 - d) f.
Proof. clear Hn. unfold m_dir, put_dir. destruct Hd as [-> | ->]; done. Qed.
Lemma put_dir_rest p f : m_flags (put_dir d p f) = m_flags f /\ m_oo_err (put_dir d p f) = m_oo_err f.
Proof. clear Hn Hd. unfold put_dir. by destruct (d =? 0). Qed.
Lemma inc_oo_dir x f : m_dir x (inc_oo_err f) = m_dir x f.
Proof. clear Hn Hd. done. Qed.

Lemma is_all_pkts_seen_shape f :
  track_shape f -> is_all_pkts_seen f = (m_pkts (m_dir d f) =? n) && (m_oo_err f =? 0).
Proof.
  intros [Hfl Ho Hs _]. unfold is_all_pkts_seen, is_both_dir. rewrite Hfl.
  assert (0 <? n = true) as Hpos by lia.
  destruct Hd as [-> | ->]; unfold m_dir in *; simpl in Ho, Hs; rewrite Ho, Hs; simpl;
    rewrite ?andb_true_r, ?Hpos; by destruct (_ =? n).
Qed.

(** The flow is stored, or closed. *)
Definition stored (f : CRxCheckFlow) : option CRxCheckFlow :=
  if is_all_pkts_seen f then None else Some f.

Lemma tracked_in_order ids f :
  track_shape f -> in_order ids -> 1 <= zlength ids <= n -> m_oo_err f = 0 ->
  m_pkts (m_dir d f) = zlength ids -> m_seq (m_dir d f) = zlength ids ->
  tracked ids (stored f).
Proof.
  intros Hs Hin Hl Ho Hp Hq. unfold stored. rewrite (is_all_pkts_seen_shape f Hs), Ho, Hp.
  rewrite andb_true_r. destruct (zlength ids =? n) eqn:E.
  - right. unfold in_order in Hin. rewrite Hin. f_equal. lia.
  - split; [done|]. left. split_and!; done || lia.
Qed.

Lemma tracked_broken ids f :
  track_shape f -> ~ in_order ids -> 1 <= m_oo_err f <= zlength ids -> tracked ids (stored f).
Proof.
  intros Hs Hin Ho. unfold stored. rewrite (is_all_pkts_seen_shape f Hs).
  assert (m_oo_err f =? 0 = false) as -> by lia. rewrite andb_false_r.
  split; [done|]. by right.
Qed.

Lemma new_flow_shape :
  track_shape (put_dir d (set_fif_seen n CRxCheckFlowPerDir_new) (set_object1 (CRxCheckFlow_new fid))).
Proof.
  split; rewrite ?put_dir_same, ?put_dir_other; try done.
  - by destruct (put_dir_rest (set_fif_seen n CRxCheckFlowPerDir_new) (set_object1 (CRxCheckFlow_new fid))).
  - unfold m_dir. by destruct (1 - d =? 0).
Qed.

Lemma inc_oo_err_shape f : track_shape f -> track_shape (inc_oo_err f).
Proof. by intros []. Qed.

Lemma put_dir_shape f p :
  track_shape f -> m_flow_size p = n -> is_fif_seen p = true -> track_shape (put_dir d p f).
Proof.
  intros [] Hs Hf. split; rewrite ?put_dir_same, ?put_dir_other; try done.
  by rewrite (proj1 (put_dir_rest p f)).
Qed.

(** One more packet: [flow_packet] and the test of completeness. *)
Lemma tracked_step ids fo h s f s' e :
  tracked ids fo -> zlength ids < n -> flow_hdr fid d n h ->
  flow_packet h fo s = (f, s', e) -> tracked (ids ++ [m_pkt_id h]) (stored f).
Proof.
  intros Ht Hl [Hfid Hsz Hdir Hboth Hid] Hp.
  assert (Hlen : zlength (ids ++ [m_pkt_id h]) = zlength ids + 1)
    by (unfold zlength; rewrite length_app; simpl; lia).
  assert (Hl0 : 0 <= zlength ids) by (unfold zlength; lia).
  unfold flow_packet, fif_packet, non_fif_packet, is_fif_dir in Hp.
  rewrite Hdir, Hsz, Hfid, Hboth in Hp. destruct fo as [g|].
  - destruct Ht as [Hshape Hcase]. pose proof Hshape as [Hfl Hoth Hgs Hseen].
    rewrite Hseen, Hgs, Z.eqb_refl in Hp. cbn [negb] in Hp.
    destruct Hcase as [(Hin & Hk & Ho & Hpk & Hsq)|[Hnin Ho]].
    + destruct (m_pkt_id h =? 0) eqn:E0.
      * injection Hp as <- _ _. apply tracked_broken.
        -- apply put_dir_shape; [by apply inc_oo_err_shape|done..].
        -- rewrite in_order_app. lia.
        -- rewrite (proj2 (put_dir_rest _ _)). simpl. rewrite Ho, Hlen. word_lia.
      * rewrite Hsq in Hp. destruct (zlength ids =? m_pkt_id h) eqn:E1; cbn [negb] in Hp;
          injection Hp as <- _ _.
        -- apply tracked_in_order; rewrite ?put_dir_same, ?(proj2 (put_dir_rest _ _)), ?Hlen.
           ++ by apply put_dir_shape.
           ++ rewrite in_order_app. split; [done|lia].
           ++ lia.
           ++ done.
           ++ simpl. rewrite Hpk. word_lia.
           ++ simpl. word_lia.
        -- apply tracked_broken.
           ++ apply put_dir_shape; [by apply inc_oo_err_shape|done..].
           ++ rewrite in_order_app. lia.
           ++ rewrite (proj2 (put_dir_rest _ _)). simpl. rewrite Ho, Hlen. word_lia.
    + assert (Hnin' : ~ in_order (ids ++ [m_pkt_id h])) by (rewrite in_order_app; tauto).
      destruct (m_pkt_id h =? 0).
      * injection Hp as <- _ _. apply tracked_broken; [|done|].
        -- apply put_dir_shape; [by apply inc_oo_err_shape|done..].
        -- rewrite (proj2 (put_dir_rest _ _)). simpl. rewrite Hlen. word_lia.
      * destruct (negb (_ =? m_pkt_id h)); injection Hp as <- _ _;
          (apply tracked_broken; [|done|]);
          [apply put_dir_shape; [by apply inc_oo_err_shape|done..]| |by apply put_dir_shape|];
          rewrite (proj2 (put_dir_rest _ _)); simpl; rewrite Hlen; word_lia.
  - destruct Ht as [-> | ->]; [|unfold zlength in Hl; rewrite length_seqZ in Hl; lia].
    assert (Hdir0 : m_dir d (set_object1 (CRxCheckFlow_new fid)) = CRxCheckFlowPerDir_new)
      by (unfold m_dir; by destruct (d =? 0)).
    rewrite Hdir0 in Hp. destruct (m_pkt_id h =? 0) eqn:E0; injection Hp as <- _ _.
    + apply tracked_in_order; rewrite ?put_dir_same, ?(proj2 (put_dir_rest _ _)), ?Hlen; try done.
      * apply new_flow_shape.
      * rewrite in_order_app. split; [done|]. unfold zlength. simpl. lia.
      * unfold zlength. simpl. lia.
    + apply tracked_broken.
      * apply inc_oo_err_shape, new_flow_shape.
      * rewrite in_order_app. unfold zlength. simpl. lia.
      * simpl. rewrite (proj2 (put_dir_rest _ _)). unfold zlength. simpl. word_lia.
Qed.
End Track.

(** ** Concrete runs: the scenarios of the unit tests of [src/src/bp_gtest.cpp]
    ([TEST_F(rx_check, ...)]) *)

Definition demo_pkt (fid id size dir both : Z) : CRx_check_header :=
  RxHeader.set_both_dir both (RxHeader.set_dir dir
    (mkRxHeader 0x57 24 RX_CHECK_MAGIC 0 fid id size 0 0 10)).

Definition demo_manager : RxCheckManager (list Z) := RxCheckManager_Create (hist_Reset
  (mkHist (double_of_Z 0) 0 0 (double_of_Z 0) (double_of_Z 0) (double_of_Z 0) (double_of_Z 0)
     0 [] [] [] 0 0)).

(** One packet a millisecond. *)
Fixpoint demo_run (tick : Z) (l : list CRx_check_header) (m : RxCheckManager (list Z))
  : res (RxCheckManager (list Z)) :=
  match l with
  | [] => Ok m
  | p :: l => m ← handle_packet 0 tick tick p m; demo_run (tick + 1000000) l m
  end.

Definition demo_stats (l : list counter) (m : res (RxCheckManager (list Z))) : list Z :=
  match m with
  | Ok m => get_total_err (m_stats (tables m)) :: map (m_stats (tables m)) l
  | Err _ => []
  end.

Definition one_dir (ids : list Z) : list CRx_check_header := map (fun i => demo_pkt 7 i 10 0 0) ids.

(** [rx_check_normal] *)
Example rx_check_normal :
  demo_stats [m_add; m_remove; m_active] (demo_run 0 (one_dir [0;1;2;3;4;5;6;7;8;9]) demo_manager)
  = [0; 1; 1; 0].
Proof. vm_compute. reflexivity. Qed.

(** [rx_check_drop] *)
Example rx_check_drop :
  demo_stats [m_err_oo_late; m_add; m_remove]
    (m ← demo_run 0 (one_dir [0;1;2;3;5;6;7;8;9]) demo_manager; tw_drain m) = [1; 1; 1; 1].
Proof. vm_compute. reflexivity. Qed.

(** [rx_check_ooo] *)
Example rx_check_ooo :
  demo_stats [m_err_oo_early; m_err_oo_late]
    (m ← demo_run 0 (one_dir [0;1;2;3;5;4;6;7;8;9]) demo_manager; tw_drain m) = [3; 1; 2].
Proof. vm_compute. reflexivity. Qed.

(** [rx_check_ooo_1] *)
Example rx_check_ooo_1 :
  demo_stats [m_err_wrong_pkt_id; m_err_oo_late]
    (m ← demo_run 0 (one_dir [0;1;2;3;56565;4;6;7;8;9]) demo_manager; tw_drain m) = [2; 1; 1].
Proof. vm_compute. reflexivity. Qed.

(** [rx_check_ooo_2] *)
Example rx_check_ooo_2 :
  demo_stats [m_err_open_with_no_fif_pkt; m_err_oo_late]
    (m ← demo_run 0 (one_dir [7;1;2;3;4;5;6;0;8;9]) demo_manager; tw_drain m) = [3; 1; 1].
Proof. vm_compute. reflexivity. Qed.

(** [rx_check_normal_one_pkt_two_dir_err1] *)
Example rx_check_two_dir_err1 :
  demo_stats [m_err_oo_late; m_err_fif_seen_twice; m_add; m_remove]
    (demo_run 0 (map (fun i => demo_pkt 7 i 10 0 1) [0;1;2;3;4;5;6;7;8;9]
                 ++ map (fun i => demo_pkt 7 i 10 1 1) [7;1;2;3;4;5;6;0;8;9]) demo_manager)
  = [2; 1; 1; 1; 0].
Proof. vm_compute. reflexivity. Qed.

(** The first packet of the second direction may be any: here packet 0 of that
    direction is lost and packet 1 arrives twice, and no error is counted. *)
Example second_direction_unchecked :
  demo_stats [m_add; m_remove]
    (demo_run 0 (map (fun i => demo_pkt 7 i 1 0 1) [0] ++ map (fun i => demo_pkt 7 i 2 1 1) [1;1])
       demo_manager) = [0; 1; 1].
Proof. vm_compute. reflexivity. Qed.

(** Timers of deleted flows still point to them: letting them run out after Delete
    uses a freed flow. *)
Example drain_after_delete :
  (m ← demo_run 0 (one_dir [0;1;2]) demo_manager; tw_drain (RxCheckManager_Delete m))
  = Err OutOfBounds.
Proof. vm_compute. reflexivity. Qed.
