(* ===== verification/RxCheckThms.v ===== *)
(** * Receive check: theorems

    The invariant is kept by every operation, flows age, and the flows the check
    closes as complete are those whose packets all arrived in order. *)

From S2P Require Import Prelude Double PrioQueue TimerWheel TimerWheelFacts TimerWheelThms Histogram RxHeader RxCheck RxCheckFacts RxCheckFlows.

(** The fields of a header read from a packet. *)
Definition rxh_ok (h : CRx_check_header) : Prop :=
  0 <= m_pkt_id h < 65536 /\ 0 <= rx_flow_size h < 65536 /\ 0 <= m_template_id h < 256.

Section Thms.
Context {Q : Type} `{PQueueOk Q} (start_time : Z).
Implicit Types m : RxCheckManager Q.

(** What the clock shows: numbers, and a deadline after now. *)
Definition clock_ok (tick : Z) (rxh : CRx_check_header) : bool :=
  let now := now_sec start_time tick in
  is_number now && good_time (aging_time now rxh) && negb (double_ltb (aging_time now rxh) now).

Lemma clock_ok_inv tick rxh :
  clock_ok tick rxh = true ->
  is_number (now_sec start_time tick) = true /\
  good_time (aging_time (now_sec start_time tick) rxh) = true /\
  double_ltb (aging_time (now_sec start_time tick) rxh) (now_sec start_time tick) = false.
Proof. intros [[H1 H2]%andb_true_iff H3%negb_true_iff]%andb_true_iff. done. Qed.

(** The wheel runs a timer for exactly the flows of the table. *)
Definition in_sync (w : CTimerWheel Q) (r : RxTables) : Prop :=
  forall fid, is_Some (tw_abs w !! fid) <-> is_Some (m_ft r !! fid).

Record rx_ok m : Prop := {
  rx_tw : tw_ok (m_tw m);
  rx_tables : tables_ok (tables m);
  rx_sync : in_sync (m_tw m) (tables m);
  rx_clock : is_number (m_cur_time (tables m)) = true;
  rx_drain : m_on_drain (tables m) = false }.

Lemma tables_ok_frame r r' :
  tables_ok r -> m_ft r' = m_ft r -> m_stats r' = m_stats r -> m_hist r' = m_hist r ->
  m_template_info r' = m_template_info r -> tables_ok r'.
Proof. intros [] Hft Hs Hh Ht. split; rewrite ?Hft, ?Hs, ?Hh, ?Ht; done. Qed.

Lemma create_ok h : rx_ok (RxCheckManager_Create h).
Proof.
  destruct tw_new_ok as [Hw Ha]. split; try done.
  - split; simpl; try done.
    split; [done|]. repeat constructor.
  - intros fid. cbn [m_tw tables RxCheckManager_Create m_ft]. rewrite Ha. by rewrite !lookup_empty.
Qed.

(** ** Ageing *)

Lemma tw_handle_spec m :
  rx_ok m -> exists m' l, tw_handle m = Ok m' /\ rx_ok m' /\ aged l (tables m) (tables m') /\
    fires (tw_abs (m_tw m)) l (tw_abs (m_tw m')) /\
    (forall k d, tw_abs (m_tw m) !! k = Some d ->
       k ∈ l <-> double_ltb d (m_cur_time (tables m)) = true).
Proof.
  intros [Hw Hr Hs Hc Hd]. unfold tw_handle.
  destruct (events_spec rx_callback (m_cur_time (tables m)) (m_tw m) (tables m) Hw Hc)
    as (w' & l & Hf & -> & Hw' & Hin).
  destruct (callbacks_spec _ _ _ (tables m) Hf Hr Hs) as (r' & -> & Hr' & Hag & Hs').
  simpl. exists (mkManager w' r'), l. pose proof Hag as (_ & (_ & _ & Hd' & Hc') & _).
  split; [done|]. split; [|done]. split; simpl; congruence || done.
Qed.

Lemma tw_drain_spec m :
  rx_ok m -> exists m' r' l, tw_drain m = Ok m' /\ rx_ok m' /\ tables m' = set_on_drain false r' /\
    aged l (set_on_drain true (tables m)) r' /\ fires (tw_abs (m_tw m)) l ∅ /\
    tw_abs (m_tw m') = ∅.
Proof.
  intros [Hw Hr Hs Hc Hd]. unfold tw_drain.
  destruct (drain_spec rx_callback (m_tw m) (set_on_drain true (tables m)) Hw)
    as (w' & l & Hf & -> & Hw' & He).
  destruct (callbacks_spec _ _ _ (set_on_drain true (tables m)) Hf) as (r' & -> & Hr' & Hag & Hs');
    [by apply (tables_ok_frame (tables m))|done|].
  simpl. exists (mkManager w' (set_on_drain false r')), r', l.
  pose proof Hag as (_ & (_ & _ & Hd' & Hc') & _).
  split; [done|]. split; [|done]. split; simpl; try done.
  - by apply (tables_ok_frame r').
  - intros fid. rewrite He. apply Hs'.
  - by rewrite Hc'.
Qed.

(** ** One packet *)

Definition packet_stats (s : CRxCheckFlowTableStats) : CRxCheckFlowTableStats :=
  inc m_lookup (inc m_total_rx s).

(** The tables after the flow is written back. *)
Lemma packet_tables_ok rxh r r' f s e :
  tables_ok r -> flow_packet rxh (m_ft r !! rx_flow_id rxh) (packet_stats (m_stats r)) = (f, s, e) ->
  m_ft r' = <[rx_flow_id rxh := f]> (m_ft r) -> m_stats r' = s ->
  length (m_template_info r') = 32%nat -> hist_ok (m_hist r') -> tables_ok r'.
Proof.
  intros Hr Hp Hft Hst Ht Hh. set (fid := rx_flow_id rxh) in *.
  destruct (flow_packet_ok rxh (m_ft r !! fid) (packet_stats (m_stats r)))
    as (f' & s' & e' & Hp' & Hf & Hrange & Hacc & Hlk & Htot & Hrm & Hnm & Hwr).
  { intros g Hg. by apply (ok_flows r Hr). }
  { apply inc_range, inc_range, (ok_range r Hr). }
  rewrite Hp in Hp'. injection Hp' as <- <- <-.
  unfold packet_stats in *. unfold inc in Hacc, Hlk, Htot, Hrm, Hnm, Hwr.
  repeat (rewrite stat_add_eq in Hlk || rewrite stat_add_ne in Hlk by discriminate).
  repeat (rewrite stat_add_eq in Htot || rewrite stat_add_ne in Htot by discriminate).
  repeat (rewrite stat_add_ne in Hrm by discriminate).
  repeat (rewrite stat_add_ne in Hnm by discriminate).
  repeat (rewrite stat_add_ne in Hwr by discriminate).
  rewrite !stat_add_ne in Hacc by discriminate.
  pose proof (ok_active r Hr) as Ha. pose proof (ok_balance r Hr) as Hb.
  pose proof (ok_lookup r Hr) as Hl. pose proof (ok_total r Hr) as Hto.
  split; rewrite ?Hst; try done.
  - intros k g. rewrite Hft. intros [[<- <-]|[_ Hg]]%lookup_insert_Some; [done|].
    by apply (ok_flows r Hr).
  - rewrite Hft, map_size_insert. destruct (m_ft r !! fid); destruct Hacc as (-> & _); rewrite Ha; unfold id; word_lia.
  - destruct (m_ft r !! fid); destruct Hacc as (-> & -> & _); rewrite Hrm, ?Hb; word_lia.
  - destruct (m_ft r !! fid); destruct Hacc as (_ & -> & ->); rewrite Hlk, Hl; word_lia.
  - rewrite Htot, Hlk, Hnm, Hwr, Hto. word_lia.
Qed.

Lemma latency_stats_ok rxh tick32 r :
  tables_ok r -> rxh_ok rxh -> exists h l, latency_stats rxh tick32 r
    = Ok (set_template_info l (set_hist h r)) /\ hist_ok h /\ length l = 32%nat /\
    (ti_errors <$> l) = (ti_errors <$> m_template_info r).
Proof.
  intros Hr (_ & _ & Hti). unfold latency_stats.
  set (dt := ptime_convert_hr_dsec (u32 (tick32 - m_time_stamp rxh))).
  destruct (hist_Add_Ok dt (m_hist r) (ok_hist r Hr)) as (h & b & -> & Hh). simpl.
  pose proof (get_template_range (m_template_id rxh)) as Hg. unfold update_template. simpl.
  pose proof (ok_templates r Hr) as Hlen.
  destruct (get_idx_total (m_template_info r) (get_template (m_template_id rxh))) as [t Hgt];
    [unfold zlength; lia|].
  rewrite Hgt. simpl. rewrite set_idx_in by (unfold zlength; lia). simpl.
  eexists h, _. split; [done|]. split; [done|]. split; [by rewrite length_insert|].
  apply get_idx_Ok in Hgt as [_ Hgt].
  apply list_eq. intros i. rewrite !list_lookup_fmap.
  destruct (decide (i = Z.to_nat (get_template (m_template_id rxh)))) as [-> | Hne].
  - rewrite list_lookup_insert_eq by (apply lookup_lt_Some in Hgt; done). by rewrite Hgt.
  - by rewrite list_lookup_insert_ne.
Qed.

(** The flow ends, or its timer is moved. *)
Definition settled_flow (rxh : CRx_check_header) (f : CRxCheckFlow) (m m' : RxCheckManager Q) : Prop :=
  let fid := rx_flow_id rxh in
  let r := tables m in let r' := tables m' in
  if is_all_pkts_seen f then
    m_ft r' = delete fid (m_ft r) /\ tw_abs (m_tw m') = delete fid (tw_abs (m_tw m)) /\
    m_stats r' = m_stats (on_flow_end (set_aged_correctly f) r)
  else
    m_ft r' = m_ft r /\ m_stats r' = m_stats r /\
    tw_abs (m_tw m') = <[fid := aging_time (m_cur_time r) rxh]> (tw_abs (m_tw m)).

Lemma flow_timer_ok rxh f m :
  tw_ok (m_tw m) -> tables_ok (tables m) ->
  m_ft (tables m) !! rx_flow_id rxh = Some f ->
  good_time (aging_time (m_cur_time (tables m)) rxh) = true ->
  exists m', flow_timer rxh f m = Ok m' /\ tw_ok (m_tw m') /\ tables_ok (tables m') /\
    settled_flow rxh f m m' /\ m_cur_time (tables m') = m_cur_time (tables m) /\
    m_on_drain (tables m') = m_on_drain (tables m) /\
    m_template_info (tables m') = m_template_info (tables m).
Proof.
  intros Hw Hr Hf Hg. unfold flow_timer, settled_flow. set (fid := rx_flow_id rxh) in *.
  destruct (restart_spec (m_tw m) fid _ Hw Hg) as (w1 & -> & Hw1 & Ha1). simpl.
  destruct (is_all_pkts_seen f) eqn:Hall.
  2:{ eexists. split; [done|]. split_and!; done. }
  destruct (stop_spec w1 fid Hw1) as (w2 & -> & Hw2 & Ha2). simpl.
  pose proof (ok_flows _ Hr fid f Hf) as (Hid & _ & _).
  assert (Hfid : m_flow_id (set_aged_correctly f) = fid) by done.
  eexists. split; [done|]. simpl tables. simpl m_tw.
  assert (Hd : m_ft (on_flow_end (set_aged_correctly f)
      (set_ft (<[fid:=set_aged_correctly f]> (m_ft (tables m))) (tables m)))
      = delete fid (m_ft (tables m))).
  { rewrite on_flow_end_ft, Hfid. simpl. apply delete_insert_eq. }
  split_and!; try done.
  - apply (tables_ok_frame (on_flow_end (set_aged_correctly f) (tables m))); try done.
    + apply on_flow_end_ok; [done|]. by rewrite Hfid, Hf.
    + by rewrite Hd, on_flow_end_ft, Hfid.
  - rewrite Ha2, Ha1. apply delete_insert_eq.
Qed.

(** The packet passes the checks of its header: the flow, the tables [r2] before the
    timer, and the manager [m1] before the aging that is done from time to time. *)
Lemma handle_packet_core tick tick32 rxh m :
  rx_ok m -> rxh_ok rxh -> m_magic rxh = RX_CHECK_MAGIC -> m_pkt_id rxh < rx_flow_size rxh ->
  clock_ok tick rxh = true ->
  exists f s e r2 m1,
    flow_packet rxh (m_ft (tables m) !! rx_flow_id rxh) (packet_stats (m_stats (tables m)))
      = (f, s, e) /\
    m_ft r2 = <[rx_flow_id rxh := f]> (m_ft (tables m)) /\ m_stats r2 = s /\
    m_cur_time r2 = now_sec start_time tick /\ m_on_drain r2 = false /\
    (e = false -> ti_errors <$> m_template_info r2 = ti_errors <$> m_template_info (tables m)) /\
    settled_flow rxh f (mkManager (m_tw m) r2) m1 /\ rx_ok m1 /\
    m_cur_time (tables m1) = now_sec start_time tick /\
    m_template_info (tables m1) = m_template_info r2 /\
    handle_packet start_time tick tick32 rxh m
      = (if Z.land (m_stats (tables m1) m_lookup) 0xff =? 0 then tw_handle m1 else Ok m1).
Proof.
  intros [Hw Hr Hs Hc Hd] Hx Hmagic Hid (Hn & Hg & _)%clock_ok_inv.
  unfold handle_packet. rewrite Hmagic, Z.eqb_refl. simpl negb. cbv iota.
  assert (rx_flow_size rxh <? m_pkt_id rxh + 1 = false) as -> by lia.
  set (r0 := rx_set_cur_time (now_sec start_time tick)
    (set_stats (inc m_total_rx (m_stats (tables m))) (tables m))).
  assert (Hlat : exists h l, latency_stats rxh tick32 r0 = Ok (set_template_info l (set_hist h r0))
    /\ hist_ok h /\ length l = 32%nat /\ ti_errors <$> l = ti_errors <$> m_template_info (tables m)).
  { destruct (latency_stats_ok rxh tick32 (tables m) Hr Hx) as (h & l & Hl & ? & ? & ?).
    unfold latency_stats in *. exists h, l. split; [|done].
    change (m_hist r0) with (m_hist (tables m)). revert Hl.
    destruct (hist_Add _ _) as [[h0 b]|]; simpl; [|done]. unfold update_template. simpl.
    destruct (get_idx _ _); simpl; [|done]. destruct (set_idx _ _ _); simpl; [|done].
    intros [= -> ->]. done. }
  destruct Hlat as (h & l & -> & Hh & Hl & Herr). cbn [mbind res_bind].
  destruct (flow_packet rxh (m_ft (set_template_info l (set_hist h r0)) !! rx_flow_id rxh)
    (inc m_lookup (m_stats (set_template_info l (set_hist h r0))))) as [[f s] e] eqn:Hp.
  set (r1 := set_ft _ _).
  assert (Hr1 : exists l2, (if e then update_template_err (m_template_id rxh) r1 else Ok r1)
      = Ok (set_template_info l2 r1) /\ length l2 = 32%nat /\
      (e = false -> ti_errors <$> l2 = ti_errors <$> m_template_info (tables m))).
  { destruct e; [|exists l; by split_and!].
    destruct (update_template_Ok (m_template_id rxh) inc_error_counter r1 Hl) as (l2 & Hl2 & ?);
      [destruct Hx; lia|]. exists l2. by split_and!. }
  destruct Hr1 as (l2 & -> & Hl2 & Herr2). cbn [mbind res_bind].
  set (r2 := set_template_info l2 r1).
  assert (Hr2 : tables_ok r2) by by apply (packet_tables_ok rxh (tables m) r2 f s e).
  destruct (flow_timer_ok rxh f (mkManager (m_tw m) r2)) as
    (m1 & -> & Hw1 & Hr1 & Hset & Hcur & Hdr & Htpl); try done.
  { apply lookup_insert_eq. }
  exists f, s, e, r2, m1. split_and!; try done; simpl in *.
  split; try done.
  - unfold settled_flow in Hset. simpl in Hset. intros k. unfold in_sync in Hs.
    destruct (is_all_pkts_seen f);
      [destruct Hset as (-> & -> & _)|destruct Hset as (-> & _ & ->)].
    + rewrite delete_insert_eq, !lookup_delete_is_Some. by rewrite Hs.
    + rewrite !lookup_insert_is_Some. by rewrite Hs.
  - by rewrite Hcur.
  - by rewrite Hdr.
Qed.

(** A packet that fails the checks of its header is counted and nothing more. *)
Lemma handle_packet_bad tick tick32 rxh m :
  rx_ok m -> rxh_ok rxh -> m_magic rxh <> RX_CHECK_MAGIC \/ rx_flow_size rxh <= m_pkt_id rxh ->
  exists m', handle_packet start_time tick tick32 rxh m = Ok m' /\ rx_ok m' /\
    m_tw m' = m_tw m /\ m_ft (tables m') = m_ft (tables m).
Proof.
  intros [Hw Hr Hs Hc Hd] Hx Hbad. unfold handle_packet.
  assert (Hcount : forall c, c = m_err_no_magic \/ c = m_err_wrong_pkt_id ->
    tables_ok (set_stats (inc c (inc m_total_rx (m_stats (tables m)))) (tables m))).
  { intros c Hcc. pose proof (ok_range _ Hr). pose proof (ok_total _ Hr) as Ht.
    destruct Hcc as [-> | ->]; split; simpl; stats; try apply Hr; try (by auto with flows);
      rewrite Ht; word_lia. }
  assert (Hdone : forall c, c = m_err_no_magic \/ c = m_err_wrong_pkt_id ->
    exists m', (r ← update_template_err (m_template_id rxh)
        (set_stats (inc c (inc m_total_rx (m_stats (tables m)))) (tables m));
      Ok (mkManager (m_tw m) r)) = Ok m' /\ rx_ok m' /\
    m_tw m' = m_tw m /\ m_ft (tables m') = m_ft (tables m)).
  { intros c Hcc. specialize (Hcount c Hcc).
    destruct (update_template_Ok (m_template_id rxh) inc_error_counter _ (ok_templates _ Hcount))
      as (l & Hl & Hlen); [destruct Hx; lia|].
    unfold update_template_err. rewrite Hl. simpl. eexists. split; [done|].
    split; [|done]. split; simpl; try done. destruct Hcount. by split. }
  destruct (negb (m_magic rxh =? RX_CHECK_MAGIC)) eqn:E; [by apply Hdone; left|].
  apply negb_false_iff in E. assert (rx_flow_size rxh <? m_pkt_id rxh + 1 = true) as -> by lia.
  by apply Hdone; right.
Qed.

(** ** A packet and the aging that may follow *)

Lemma land_if_tw m (b : bool) :
  rx_ok m -> exists m' l, (if b then tw_handle m else Ok m) = Ok m' /\ rx_ok m' /\
    aged l (tables m) (tables m') /\ fires (tw_abs (m_tw m)) l (tw_abs (m_tw m')) /\
    (forall k d, tw_abs (m_tw m) !! k = Some d -> k ∈ l ->
       double_ltb d (m_cur_time (tables m)) = true).
Proof.
  intros Hok. destruct b.
  - destruct (tw_handle_spec m Hok) as (m' & l & Hrun & Hok' & Hag & Hf & Hin).
    exists m', l. split_and!; try done. intros k d Hk Hl. by apply (Hin k d Hk).
  - exists m, []. split_and!; try done; [apply aged_nil, Hok|constructor|].
    intros k d _ Hl. by apply elem_of_nil in Hl.
Qed.

(** The flow of the packet afterwards, and its deadline. *)
Lemma handle_packet_flow tick tick32 rxh m :
  rx_ok m -> rxh_ok rxh -> m_magic rxh = RX_CHECK_MAGIC -> m_pkt_id rxh < rx_flow_size rxh ->
  clock_ok tick rxh = true ->
  exists m' f s e, handle_packet start_time tick tick32 rxh m = Ok m' /\ rx_ok m' /\
    flow_packet rxh (m_ft (tables m) !! rx_flow_id rxh) (packet_stats (m_stats (tables m)))
      = (f, s, e) /\
    m_ft (tables m') !! rx_flow_id rxh = stored f /\
    (is_all_pkts_seen f = false -> tw_abs (m_tw m') !! rx_flow_id rxh
       = Some (aging_time (now_sec start_time tick) rxh)).
Proof.
  intros Hok Hx Hmagic Hid Hck. pose proof (clock_ok_inv _ _ Hck) as (_ & _ & Hlate).
  destruct (handle_packet_core tick tick32 rxh m Hok Hx Hmagic Hid Hck)
    as (f & s & e & r2 & m1 & Hp & Hft2 & _ & Hc2 & _ & _ & Hset & Hok1 & Hc1 & _ & ->).
  destruct (land_if_tw m1 (Z.land (m_stats (tables m1) m_lookup) 0xff =? 0) Hok1)
    as (m' & l & -> & Hok' & Hag & Hf & Hin).
  exists m', f, s, e. split; [done|]. split; [done|]. split; [done|].
  destruct Hag as [Hft _]. unfold settled_flow in Hset. simpl in Hset. unfold stored.
  destruct (is_all_pkts_seen f).
  - destruct Hset as (Hft1 & _ & _). split; [|done].
    rewrite Hft, Hft1, lookup_delete_eq. by destruct (decide _).
  - destruct Hset as (Hft1 & _ & Habs1). rewrite Hc2 in Habs1.
    assert (Hk : tw_abs (m_tw m1) !! rx_flow_id rxh
        = Some (aging_time (now_sec start_time tick) rxh)) by (rewrite Habs1; apply lookup_insert_eq).
    assert (Hnl : rx_flow_id rxh ∉ l).
    { intros Hl. pose proof (Hin _ _ Hk Hl) as Hlt. rewrite Hc1 in Hlt. congruence. }
    split.
    + rewrite Hft, decide_False, Hft1, Hft2 by done. apply lookup_insert_eq.
    + intros _. by apply (fires_Some _ _ _ _ _ Hf).
Qed.

(** Another flow keeps its entry and its deadline, unless it is over. *)
Lemma handle_packet_other tick tick32 rxh m fid dl :
  rx_ok m -> rxh_ok rxh -> clock_ok tick rxh = true -> rx_flow_id rxh <> fid ->
  tw_abs (m_tw m) !! fid = dl ->
  (forall t, dl = Some t -> double_ltb t (now_sec start_time tick) = false) ->
  exists m', handle_packet start_time tick tick32 rxh m = Ok m' /\ rx_ok m' /\
    m_ft (tables m') !! fid = m_ft (tables m) !! fid /\ tw_abs (m_tw m') !! fid = dl.
Proof.
  intros Hok Hx Hck Hne Hdl Hlate.
  destruct (decide (m_magic rxh = RX_CHECK_MAGIC)) as [Hmagic|Hmagic].
  2:{ destruct (handle_packet_bad tick tick32 rxh m Hok Hx) as (m' & ? & ? & Htw & Hft); [by left|].
      exists m'. rewrite Htw, Hft. done. }
  destruct (decide (m_pkt_id rxh < rx_flow_size rxh)) as [Hid|Hid].
  2:{ destruct (handle_packet_bad tick tick32 rxh m Hok Hx) as (m' & ? & ? & Htw & Hft); [right; lia|].
      exists m'. rewrite Htw, Hft. done. }
  destruct (handle_packet_core tick tick32 rxh m Hok Hx Hmagic Hid Hck)
    as (f & s & e & r2 & m1 & Hp & Hft2 & _ & Hc2 & _ & _ & Hset & Hok1 & Hc1 & _ & ->).
  destruct (land_if_tw m1 (Z.land (m_stats (tables m1) m_lookup) 0xff =? 0) Hok1)
    as (m' & l & -> & Hok' & Hag & Hf & Hin).
  exists m'. split; [done|]. split; [done|].
  assert (Hsame : m_ft (tables m1) !! fid = m_ft (tables m) !! fid /\ tw_abs (m_tw m1) !! fid = dl).
  { unfold settled_flow in Hset. simpl in Hset. rewrite Hft2 in Hset.
    destruct (is_all_pkts_seen f);
      [destruct Hset as (-> & -> & _)|destruct Hset as (-> & _ & ->)];
      rewrite ?lookup_delete_ne, ?lookup_insert_ne by done; done. }
  destruct Hsame as [<- Habs1]. destruct Hag as [Hft _].
  assert (Hnl : fid ∉ l).
  { intros Hl. destruct (fires_deadline _ _ _ _ Hf Hl) as [t Ht].
    pose proof (Hin _ _ Ht Hl) as Hlt. rewrite Hc1 in Hlt. rewrite (Hlate t) in Hlt; congruence. }
  split; [by rewrite Hft, decide_False|].
  destruct (tw_abs (m_tw m') !! fid) as [t|] eqn:Ht.
  - apply (fires_Some _ _ _ _ _ Hf) in Ht as [Ht _]. congruence.
  - destruct dl as [t|]; [|done]. exfalso.
    rewrite (proj2 (fires_Some _ _ _ fid t Hf)) in Ht by done. done.
Qed.

(** ** Runs *)

Record rx_event : Type := mkEvent { ev_tick : Z; ev_tick32 : Z; ev_hdr : CRx_check_header }.

Fixpoint run_events (l : list rx_event) m : res (RxCheckManager Q) :=
  match l with
  | [] => Ok m
  | ev :: l =>
      m ← handle_packet start_time (ev_tick ev) (ev_tick32 ev) (ev_hdr ev) m; run_events l m
  end.

Definition event_ok (ev : rx_event) : Prop :=
  rxh_ok (ev_hdr ev) /\ clock_ok (ev_tick ev) (ev_hdr ev) = true.

(** The packets of flow [fid] in a run. *)
Definition ids_of (fid : Z) (l : list rx_event) : list Z :=
  (fun ev => m_pkt_id (ev_hdr ev)) <$> filter (fun ev => rx_flow_id (ev_hdr ev) = fid) l.

(** No deadline of flow [fid] passes during the run. *)
Definition stays_young (fid : Z) (l : list rx_event) : Prop :=
  forall p t, p ∈ l -> t ∈ l -> rx_flow_id (ev_hdr p) = fid ->
    double_ltb (aging_time (now_sec start_time (ev_tick p)) (ev_hdr p))
      (now_sec start_time (ev_tick t)) = false.

Lemma run_events_track fid d n l : forall m ids,
  d = 0 \/ d = 1 -> 0 < n < 65536 -> rx_ok m -> Forall event_ok l ->
  (forall ev, ev ∈ l -> rx_flow_id (ev_hdr ev) = fid ->
     m_magic (ev_hdr ev) = RX_CHECK_MAGIC /\ flow_hdr fid d n (ev_hdr ev)) ->
  stays_young fid l ->
  (forall t ev, tw_abs (m_tw m) !! fid = Some t -> ev ∈ l ->
     double_ltb t (now_sec start_time (ev_tick ev)) = false) ->
  tracked d n ids (m_ft (tables m) !! fid) -> zlength ids + zlength (ids_of fid l) <= n ->
  exists m', run_events l m = Ok m' /\ rx_ok m' /\
    tracked d n (ids ++ ids_of fid l) (m_ft (tables m') !! fid).
Proof.
  induction l as [|ev l IH]; intros m ids Hd Hn Hok Hev Hfl Hyoung Hdl Ht Hlen.
  { exists m. unfold ids_of. simpl. by rewrite app_nil_r. }
  apply Forall_cons in Hev as [[Hx Hck] Hev]. simpl run_events.
  assert (Hyoung' : stays_young fid l) by (intros p t Hp Hq; apply Hyoung; set_solver).
  assert (Hfl' : forall e', e' ∈ l -> rx_flow_id (ev_hdr e') = fid ->
    m_magic (ev_hdr e') = RX_CHECK_MAGIC /\ flow_hdr fid d n (ev_hdr e'))
    by (intros; apply Hfl; set_solver).
  unfold ids_of in *. rewrite filter_cons in *.
  destruct (decide (rx_flow_id (ev_hdr ev) = fid)) as [Hfid|Hne].
  - destruct (Hfl ev ltac:(set_solver) Hfid) as [Hmagic Hh].
    destruct (handle_packet_flow (ev_tick ev) (ev_tick32 ev) (ev_hdr ev) m)
      as (m1 & f & s & e & -> & Hok1 & Hp & Hft1 & Hdl1); try done.
    { destruct Hh as [_ Hsz _ _ ?]. lia. }
    rewrite Hfid in Hp, Hft1, Hdl1. simpl mbind. cbv beta iota.
    rewrite fmap_cons, cons_middle, app_assoc in *.
    unfold zlength in Hlen. rewrite length_cons in Hlen.
    apply IH; try done.
    + intros t e' Ht' He'. destruct (is_all_pkts_seen f) eqn:Hall.
      * exfalso. unfold stored in Hft1. rewrite Hall in Hft1.
        pose proof (rx_sync _ Hok1 fid) as Hsync. rewrite Hft1, Ht' in Hsync.
        destruct Hsync as [Hsync _]. destruct Hsync; [eauto|done].
      * rewrite Hdl1 in Ht' by done. injection Ht' as <-. apply Hyoung; set_solver.
    + rewrite Hft1. eapply tracked_step; try done. unfold zlength. lia.
    + unfold zlength. rewrite length_app. simpl. lia.
  - destruct (handle_packet_other (ev_tick ev) (ev_tick32 ev) (ev_hdr ev) m fid _ Hok Hx Hck Hne eq_refl)
      as (m1 & -> & Hok1 & Hft1 & Hdl1).
    { intros t Ht'. apply (Hdl t ev Ht'). set_solver. }
    simpl mbind. cbv beta iota. apply IH; try done.
    + intros t e' Ht' He'. rewrite Hdl1 in Ht'. apply (Hdl t e' Ht'). set_solver.
    + by rewrite Hft1.
Qed.

(** ** The claims *)

(** C31: The receive check is well formed between any two calls, and stays so. A
    new manager is; handle_packet on any header, good or bad, tw_handle and tw_drain
    return (no assertion fails, no deleted flow or timer is used, no table is
    indexed out of range) and keep: every flow of the table is keyed by its own
    number, is tied to the manager and has exactly one running timer, and every
    running timer belongs to a flow of the table; m_active is the number of flows
    and is m_add minus m_remove, every lookup is a found flow or an added one, and
    every packet received is a lookup or a rejected header. *)
Theorem rx_check_well_formed (m : RxCheckManager Q) (h : CTimeHistogram) (Hok : rx_ok m) :
  rx_ok (RxCheckManager_Create h) /\
  (forall tick tick32 rxh, rxh_ok rxh -> clock_ok tick rxh = true ->
     exists m', handle_packet start_time tick tick32 rxh m = Ok m' /\ rx_ok m') /\
  (exists m', tw_handle m = Ok m' /\ rx_ok m') /\
  (exists m', tw_drain m = Ok m' /\ rx_ok m').
Proof.
  split; [apply create_ok|]. split; [|split].
  - intros tick tick32 rxh Hx Hck.
    destruct (decide (m_magic rxh = RX_CHECK_MAGIC /\ m_pkt_id rxh < rx_flow_size rxh)) as [[Hm Hi]|Hbad].
    + destruct (handle_packet_flow tick tick32 rxh m Hok Hx Hm Hi Hck) as (m' & ? & ? & ? & ? & ? & _).
      eauto.
    + destruct (handle_packet_bad tick tick32 rxh m Hok Hx) as (m' & ? & ? & _); [|eauto].
      destruct (decide (m_magic rxh = RX_CHECK_MAGIC)); [right; lia|by left].
  - destruct (tw_handle_spec m Hok) as (m' & l & ? & ? & _). eauto.
  - destruct (tw_drain_spec m Hok) as (m' & r' & l & ? & ? & _). eauto.
Qed.

(** Every flow ends. A packet that leaves its flow incomplete sets the flow's
    deadline to now plus its aging time (at least five seconds). tw_handle removes
    exactly the flows whose deadline has passed, and for every one counts one aged
    flow and its missing packets as dropped; the other flows and the other counters
    stay. tw_drain empties the table, brings m_active to zero and counts no error. *)
Theorem rx_flows_age (m : RxCheckManager Q) (Hok : rx_ok m) :
  (forall tick tick32 rxh, rxh_ok rxh -> m_magic rxh = RX_CHECK_MAGIC ->
     m_pkt_id rxh < rx_flow_size rxh -> clock_ok tick rxh = true ->
     exists m', handle_packet start_time tick tick32 rxh m = Ok m' /\
       (is_Some (m_ft (tables m') !! rx_flow_id rxh) ->
        tw_abs (m_tw m') !! rx_flow_id rxh = Some (aging_time (now_sec start_time tick) rxh))) /\
  (exists m' l, tw_handle m = Ok m' /\ aged l (tables m) (tables m') /\
     (forall fid d, tw_abs (m_tw m) !! fid = Some d ->
        fid ∈ l <-> double_ltb d (m_cur_time (tables m)) = true)) /\
  (exists m', tw_drain m = Ok m' /\ m_ft (tables m') = ∅ /\ m_stats (tables m') m_active = 0 /\
     forall c, c ∉ [m_active; m_remove] -> m_stats (tables m') c = m_stats (tables m) c).
Proof.
  split; [|split].
  - intros tick tick32 rxh Hx Hm Hi Hck.
    destruct (handle_packet_flow tick tick32 rxh m Hok Hx Hm Hi Hck)
      as (m' & f & s & e & Hrun & _ & _ & Hft & Hdl).
    exists m'. split; [done|]. rewrite Hft. unfold stored.
    destruct (is_all_pkts_seen f); [by intros []|auto].
  - destruct (tw_handle_spec m Hok) as (m' & l & Hrun & _ & Hag & _ & Hin). eauto.
  - destruct (tw_drain_spec m Hok) as (m' & r' & l & Hrun & Hok' & Ht & Hag & _ & He).
    exists m'. split; [done|]. assert (Hft : m_ft (tables m') = ∅).
    { apply map_empty. intros k. pose proof (rx_sync _ Hok' k) as Hs.
      rewrite He, lookup_empty in Hs. destruct (m_ft (tables m') !! k); [|done].
      destruct (proj2 Hs ltac:(eauto)) as [? ?]. done. }
    split; [done|]. split.
    { rewrite (ok_active _ (rx_tables _ Hok')), Hft, map_size_empty. done. }
    destruct Hag as (_ & _ & _ & Hage & Hdrop & Ho). rewrite Ht. simpl in *.
    rewrite Z.add_0_r in Hage, Hdrop.
    intros c Hc. destruct (decide (c = m_err_aged)) as [-> | ]; [rewrite Hage; apply (ok_range _ (rx_tables _ Hok))|].
    destruct (decide (c = m_err_drop)) as [-> | ]; [rewrite Hdrop; apply (ok_range _ (rx_tables _ Hok))|].
    apply Ho. set_solver.
Qed.

Lemma rx_flow_run (fid d n : Z) (l : list rx_event) (m : RxCheckManager Q)
    (Hok : rx_ok m) (Hd : d = 0 \/ d = 1) (Hn : 0 < n < 65536)
    (Hnew : m_ft (tables m) !! fid = None)
    (Hev : Forall event_ok l)
    (Hfl : forall ev, ev ∈ l -> rx_flow_id (ev_hdr ev) = fid ->
       m_magic (ev_hdr ev) = RX_CHECK_MAGIC /\ flow_hdr fid d n (ev_hdr ev))
    (Hyoung : stays_young fid l)
    (Hlen : 1 <= zlength (ids_of fid l) <= n) :
  exists m', run_events l m = Ok m' /\ rx_ok m' /\
    (m_ft (tables m') !! fid = None <-> ids_of fid l = seqZ 0 n).
Proof.
  destruct (run_events_track fid d n l m []) as (m' & Hrun & Hok' & Ht); try done.
  - intros t ev Ht. exfalso. pose proof (rx_sync _ Hok fid) as Hs. rewrite Ht, Hnew in Hs.
    destruct Hs as [Hs _]. destruct Hs; [eauto|done].
  - rewrite Hnew. by left.
  - unfold zlength at 1. simpl. lia.
  - exists m'. split; [done|]. split; [done|]. simpl in Ht.
    destruct (m_ft (tables m') !! fid) as [f|]; simpl in Ht.
    + split; [done|]. intros Hids. exfalso. rewrite Hids in Ht.
      assert (Hz : zlength (seqZ 0 n) = n) by (unfold zlength; rewrite length_seqZ; lia).
      destruct Ht as [_ [(_ & ? & _)|(Hin & _)]]; [lia|]. apply Hin. unfold in_order. by rewrite Hz.
    + split; [intros _|done]. destruct Ht as [Ht|Ht]; [|done].
      rewrite Ht in Hlen. unfold zlength in Hlen. simpl in Hlen. lia.
Qed.

(** C28: The check decides the order of a flow exactly. Take a flow fid of n
    packets that travels in one direction and is not in the table, and any run of
    packets, with the traffic of other flows interleaved in any way, that has
    between one and n packets of fid and in which no deadline of fid passes. Then at
    the end the flow has been closed as complete if and only if its packets were the
    numbers 0, 1, ..., n-1, each once and in this order. *)
Theorem rx_flow_complete_iff_in_order (fid d n : Z) (l : list rx_event) (m : RxCheckManager Q)
    (Hok : rx_ok m) (Hd : d = 0 \/ d = 1) (Hn : 0 < n < 65536)
    (Hnew : m_ft (tables m) !! fid = None)
    (Hev : Forall event_ok l)
    (Hfl : forall ev, ev ∈ l -> rx_flow_id (ev_hdr ev) = fid ->
       m_magic (ev_hdr ev) = RX_CHECK_MAGIC /\ flow_hdr fid d n (ev_hdr ev))
    (Hyoung : stays_young fid l)
    (Hlen : 1 <= zlength (ids_of fid l) <= n) :
  exists m', run_events l m = Ok m' /\ rx_ok m' /\
    (m_ft (tables m') !! fid = None <-> ids_of fid l = seqZ 0 n).
Proof. by apply (rx_flow_run fid d n). Qed.
End Thms.

(** ** Witnesses *)

(** Flow 7 of three packets with two packets of flow 8, a millisecond apart. *)
Definition demo_events : list rx_event :=
  [mkEvent 1000000 1000000 (demo_pkt 7 0 3 1 0); mkEvent 2000000 2000000 (demo_pkt 8 0 9 0 1);
   mkEvent 3000000 3000000 (demo_pkt 7 1 3 1 0); mkEvent 4000000 4000000 (demo_pkt 8 4 9 0 1);
   mkEvent 5000000 5000000 (demo_pkt 7 2 3 1 0)].

Lemma demo_event_ok : Forall (event_ok 0) demo_events.
Proof. repeat constructor; vm_compute; done. Qed.

Lemma demo_flow_hdr ev :
  ev ∈ demo_events -> rx_flow_id (ev_hdr ev) = 7 ->
  m_magic (ev_hdr ev) = RX_CHECK_MAGIC /\ flow_hdr 7 1 3 (ev_hdr ev).
Proof.
  unfold demo_events. rewrite !elem_of_cons.
  intros [-> |[-> |[-> |[-> |[-> | []%elem_of_nil]]]]] Hid; try (vm_compute in Hid; discriminate);
    (split; [reflexivity|]); split; reflexivity || (split; vm_compute; done).
Qed.

Lemma demo_young : stays_young 0 7 demo_events.
Proof.
  assert (Hb : forallb (fun p => forallb (fun t =>
    negb (double_ltb (aging_time (now_sec 0 (ev_tick p)) (ev_hdr p)) (now_sec 0 (ev_tick t))))
    demo_events) demo_events = true) by (vm_compute; reflexivity).
  intros p t Hp Ht _. rewrite forallb_forall in Hb. apply list_elem_of_In in Hp, Ht.
  specialize (Hb p Hp). rewrite forallb_forall in Hb. apply negb_true_iff. by apply Hb.
Qed.

Lemma demo_manager_ok : rx_ok demo_manager.
Proof. apply create_ok. Qed.

Example rx_check_well_formed_witness :
  exists m', handle_packet 0 1000000 1000000 (demo_pkt 7 1 3 1 0) demo_manager = Ok m' /\ rx_ok m'.
Proof.
  apply (proj1 (proj2 (rx_check_well_formed 0 demo_manager (m_hist (tables demo_manager))
    demo_manager_ok))); [|reflexivity].
  split_and!; vm_compute; done.
Defined.

Example rx_flows_age_witness :
  exists m', tw_drain demo_manager = Ok m' /\ m_ft (tables m') = ∅ /\
    m_stats (tables m') m_active = 0 /\
    forall c, c ∉ [m_active; m_remove] -> m_stats (tables m') c = m_stats (tables demo_manager) c.
Proof. exact (proj2 (proj2 (rx_flows_age 0 demo_manager demo_manager_ok))). Defined.

Example rx_flow_complete_iff_in_order_witness :
  exists m', run_events 0 demo_events demo_manager = Ok m' /\ rx_ok m' /\
    (m_ft (tables m') !! 7 = None <-> ids_of 7 demo_events = seqZ 0 3).
Proof.
  apply (rx_flow_complete_iff_in_order 0 7 1 3 demo_events demo_manager demo_manager_ok);
    [by right|lia|reflexivity|apply demo_event_ok|apply demo_flow_hdr|apply demo_young|].
  vm_compute. done.
Defined.
