(* ===== verification/RxTemplate.v ===== *)
(** * From the template to the receive check

    Composes the capture templates, the header the generator inserts and the receive
    check: a flow that is sent as its template says is seen as complete. *)

From S2P Require Import Prelude Double PrioQueue TimerWheel TimerWheelFacts TimerWheelThms Histogram RxHeader RxCheck RxCheckFacts RxCheckFlows RxCheckThms PktDesc PktParser CapTemplate CapTemplateFacts RxInsert.

(** The flow of the receive check for the flow [fid] of a template, sent as [node_flow]. *)
Definition rx_flow_of (node_flow fid : Z) : Z := Z.lor node_flow (u64 (Z.shiftl (Z.land fid 0xf) 52)).

(** The header of a packet [p] of the template on its way, at whatever time. *)
Definition header_of (node_flow : Z) (p : CFlowPktInfo) (h : CRx_check_header) : Prop :=
  exists ts option_type option_len, h = rxcheck_header (fpi_desc p) node_flow ts option_type option_len false.

Lemma header_of_fields node_flow p h :
  header_of node_flow p h ->
  0 <= m_dir_pkt_num (GetDirInfo (fpi_desc p)) < 65536 ->
  0 <= m_max_dir_flow_pkts (GetDirInfo (fpi_desc p)) < 65536 ->
  rx_flow_id h = rx_flow_of node_flow (getFlowId (fpi_desc p)) /\ m_magic h = RX_CHECK_MAGIC /\
  m_pkt_id h = m_dir_pkt_num (GetDirInfo (fpi_desc p)) /\
  rx_flow_size h = m_max_dir_flow_pkts (GetDirInfo (fpi_desc p)) /\
  get_dir h = b2z (IsInitSide (fpi_desc p)) /\ get_both_dir h = IsBiDirectionalFlow (fpi_desc p).
Proof.
  intros (ts & ot & ol & ->) Hn Hm. unfold rxcheck_header.
  rewrite (u16_id (m_dir_pkt_num _)), (u16_id (m_max_dir_flow_pkts _)) by lia.
  set (h0 := mkRxHeader _ _ _ _ _ _ _ _ _ _).
  destruct (dir_roundtrip (b2z (IsInitSide (fpi_desc p))) h0) as (E1 & _ & _ & _); [cbn; lia|].
  assert (Hf : 0 <= rx_flags (set_dir (b2z (IsInitSide (fpi_desc p))) h0) < 256)
    by (destruct (IsInitSide (fpi_desc p)); vm_compute; split; congruence).
  destruct (dir_roundtrip (b2z (IsBiDirectionalFlow (fpi_desc p))) _ Hf) as (_ & _ & E2 & E3).
  split_and!; try done.
  - rewrite E3, E1. by destruct (IsInitSide (fpi_desc p)).
  - rewrite E2. by destruct (IsBiDirectionalFlow (fpi_desc p)).
Qed.

Section Compose.
Context {Q : Type} `{PQueueOk Q} (start_time : Z).

Lemma Forall2_ids fid nf ps evs :
  Forall2 (fun p ev => header_of nf p (ev_hdr ev)) ps evs ->
  Forall (fun p => getFlowId (fpi_desc p) = fid /\
            0 <= m_dir_pkt_num (GetDirInfo (fpi_desc p)) < 65536 /\
            0 <= m_max_dir_flow_pkts (GetDirInfo (fpi_desc p)) < 65536) ps ->
  (fun ev => m_pkt_id (ev_hdr ev)) <$> evs = (fun p => m_dir_pkt_num (GetDirInfo (fpi_desc p))) <$> ps.
Proof.
  induction 1 as [|p ev ps evs Hh _ IH]; [done|]. intros [(Hf & Hn & Hm) Hall]%Forall_cons.
  destruct (header_of_fields _ _ _ Hh Hn Hm) as (_ & _ & Hi & _). rewrite !fmap_cons, Hi. f_equal. by apply IH.
Qed.

(** The packets of a flow with one direction, after [update_info]. *)
Lemma one_way_packets (c : CCapFileFlowInfo) l' fid init :
  Forall2 (told (m_flow_pkts c)) (m_flow_pkts c) l' ->
  dir_size fid (negb init) (m_flow_pkts c) = 0 ->
  (forall p, p ∈ m_flow_pkts c -> IsBiDirectionalFlow (fpi_desc p) = false) ->
  (fun p => m_dir_pkt_num (GetDirInfo (fpi_desc p))) <$> filter (in_dir fid init) l' =
    seqZ 0 (dir_size fid init (m_flow_pkts c)) ->
  forall p, p ∈ filter (in_dir fid init) l' ->
    getFlowId (fpi_desc p) = fid /\ IsInitSide (fpi_desc p) = init /\ IsBiDirectionalFlow (fpi_desc p) = false /\
    0 <= m_dir_pkt_num (GetDirInfo (fpi_desc p)) < dir_size fid init (m_flow_pkts c) /\
    m_max_dir_flow_pkts (GetDirInfo (fpi_desc p)) = dir_size fid init (m_flow_pkts c).
Proof.
  intros Htold Hone Huni Hnum p' Hin. pose proof Hin as [[Hf Hi] Hin']%list_elem_of_filter.
  split; [done|]. split; [done|].
  apply list_elem_of_lookup in Hin' as [k Hk].
  destruct (Forall2_lookup_r _ _ _ _ _ Htold Hk) as (p & Hp & [Hr Hd _ Hb _]).
  destruct Hr as (d & -> & Hfd & Hid). change (fpi_desc (fpi_upd_desc (fun _ => d) p)) with d in *.
  rewrite <- Hfd, <- Hid, Hf, Hi in Hd. rewrite <- Hfd, Hf in Hb. split.
  - rewrite Hb, Huni by by eapply list_elem_of_lookup_2.
    destruct init; cbn [negb] in Hone; rewrite Hone; cbn; rewrite ?andb_false_r; done.
  - split; [|done].
    assert (m_dir_pkt_num (GetDirInfo d) ∈ seqZ 0 (dir_size fid init (m_flow_pkts c))) as Hs%elem_of_seqZ; [|lia].
    rewrite <- Hnum. apply list_elem_of_fmap. eexists. split; [|exact Hin]. done.
Qed.

(** C8: outside learn mode, a one-directional flow [fid] of a template of fewer than 65000
    packets, numbered by [update_info] and sent once, in the order of the template and with
    the headers the generator makes, is closed as complete by the receive check, however the
    packets of other flows are interleaved, unless it ages on the way. *)
Theorem template_flow_completes (c : CCapFileFlowInfo) (junk : ByteMem.bytes) (fid nf : Z) (init : bool)
    (l : list rx_event) (m : RxCheckManager Q)
    (Hsize : cap_Size c < 65000)
    (Hone : dir_size fid (negb init) (m_flow_pkts c) = 0)
    (Hsome : 0 < dir_size fid init (m_flow_pkts c))
    (Huni : forall p, p ∈ m_flow_pkts c -> IsBiDirectionalFlow (fpi_desc p) = false) :
  exists c', update_info false junk c = Ok c' /\
    forall (Hok : rx_ok m) (Hnew : m_ft (tables m) !! rx_flow_of nf fid = None)
      (Hev : Forall (event_ok start_time) l) (Hyoung : stays_young start_time (rx_flow_of nf fid) l)
      (Hsent : Forall2 (fun p ev => header_of nf p (ev_hdr ev)) (filter (in_dir fid init) (m_flow_pkts c'))
                 (filter (fun ev => rx_flow_id (ev_hdr ev) = rx_flow_of nf fid) l)),
    exists m', run_events start_time l m = Ok m' /\ rx_ok m' /\
      m_ft (tables m') !! rx_flow_of nf fid = None.
Proof.
  destruct (update_info_spec c junk Hsize) as (l' & E & Htold & Hnum). exists (cap_set_pkts l' c).
  split; [done|]. cbn [cap_set_pkts m_flow_pkts]. intros Hok Hnew Hev Hyoung Hsent.
  set (n := dir_size fid init (m_flow_pkts c)) in *. specialize (Hnum fid init). fold n in Hnum.
  assert (Hn : 0 < n < 65000).
  { pose proof (dir_size_range fid init (m_flow_pkts c)). pose proof (flow_size_range fid (m_flow_pkts c)).
    unfold cap_Size in Hsize. lia. }
  pose proof (one_way_packets c l' fid init Htold Hone Huni Hnum) as Hps. fold n in Hps.
  assert (Hall : Forall (fun p => getFlowId (fpi_desc p) = fid /\
            0 <= m_dir_pkt_num (GetDirInfo (fpi_desc p)) < 65536 /\
            0 <= m_max_dir_flow_pkts (GetDirInfo (fpi_desc p)) < 65536) (filter (in_dir fid init) l')).
  { apply Forall_forall. intros p (? & _ & _ & ? & ?)%Hps. split_and!; try done; lia. }
  assert (Hids : ids_of (rx_flow_of nf fid) l = seqZ 0 n).
  { unfold ids_of. rewrite <- Hnum. by eapply Forall2_ids. }
  destruct (rx_flow_run start_time (rx_flow_of nf fid) (b2z init) n l m) as (m' & Hrun & Hok' & Hiff); try done.
  - destruct init; [by right|by left].
  - lia.
  - intros ev Hin Hid. assert (ev ∈ filter (fun ev => rx_flow_id (ev_hdr ev) = rx_flow_of nf fid) l) as [k Hk]%list_elem_of_lookup
      by by apply list_elem_of_filter.
    destruct (Forall2_lookup_r _ _ _ _ _ Hsent Hk) as (p & Hp & Hh).
    destruct (Hps p) as (Hf & Hi & Hb & Hpn & Hmx); [by eapply list_elem_of_lookup_2|].
    destruct (header_of_fields _ _ _ Hh) as (E1 & E2 & E3 & E4 & E5 & E6); [lia|lia|].
    split; [done|]. split; [done|congruence|congruence|congruence|lia].
  - rewrite Hids. unfold zlength. rewrite length_seqZ. lia.
  - exists m'. split; [done|]. split; [done|]. by apply Hiff.
Qed.
End Compose.

(** ** A template of two packets *)

Definition demo_desc : CPacketDescriptor := SetInitSide true (mkDesc 0 0 0 0 0 PerDir_new PerDir_new).
Definition demo_template : CCapFileFlowInfo :=
  let p := mkPktInfo (mkInd (Double.double_of_Z 0) (mkRaw [] 0 0 0 0) None None false None None 0 0
                        FlowKey_clean demo_desc 0 0 0 0) None in
  mkCap [p; p] 120 1 0.
Definition demo_told (c : CCapFileFlowInfo) : res CCapFileFlowInfo := update_info false [] c.
Definition demo_header (k : nat) (tick : Z) : CRx_check_header :=
  match demo_told demo_template with
  | Ok c => match m_flow_pkts c !! k with
            | Some p => rxcheck_header (fpi_desc p) 9 tick RX_CHECK_V4_OPT_TYPE RX_CHECK_V4_OPT_LEN false
            | None => rxh_clean end
  | Err _ => rxh_clean
  end.
Definition demo_run : list rx_event :=
  [mkEvent 1000000 1000000 (demo_header 0 1000000);
   mkEvent 3000000 3000000 (RxCheckFlows.demo_pkt 8 0 9 0 1);
   mkEvent 4000000 4000000 (demo_header 1 4000000)].

Lemma template_flow_completes_witness :
  exists m', run_events 0 demo_run demo_manager = Ok m' /\ m_ft (tables m') !! 9 = None.
Proof.
  destruct (template_flow_completes 0 demo_template [] 0 9 true demo_run demo_manager)
    as (c' & E & Hthm); [vm_compute; reflexivity|vm_compute; reflexivity|vm_compute; reflexivity| |].
  { intros p Hp. apply list_elem_of_In in Hp. destruct Hp as [<-|[<-|[]]]; vm_compute; reflexivity. }
  assert (Hev : Forall (event_ok 0) demo_run) by (repeat constructor; vm_compute; done).
  assert (Hyoung : stays_young 0 (rx_flow_of 9 0) demo_run).
  { assert (Hb : forallb (fun p => forallb (fun t =>
      negb (Double.double_ltb (aging_time (now_sec 0 (ev_tick p)) (ev_hdr p)) (now_sec 0 (ev_tick t))))
      demo_run) demo_run = true) by (vm_compute; reflexivity).
    intros p t Hp Ht _. rewrite forallb_forall in Hb. apply list_elem_of_In in Hp, Ht.
    specialize (Hb p Hp). rewrite forallb_forall in Hb. apply negb_true_iff. by apply Hb. }
  destruct (Hthm demo_manager_ok eq_refl Hev Hyoung) as (m' & Hrun & _ & Hft).
  - assert (Hl : filter (fun ev => rx_flow_id (ev_hdr ev) = rx_flow_of 9 0) demo_run =
      [mkEvent 1000000 1000000 (demo_header 0 1000000); mkEvent 4000000 4000000 (demo_header 1 4000000)])
      by (vm_compute; reflexivity).
    rewrite Hl. clear Hl. assert (Ec : demo_told demo_template = Ok c') by exact E.
    assert (Hh : forall k t, demo_header k t = match m_flow_pkts c' !! k with
            | Some p => rxcheck_header (fpi_desc p) 9 t RX_CHECK_V4_OPT_TYPE RX_CHECK_V4_OPT_LEN false
            | None => rxh_clean end) by (intros; unfold demo_header; by rewrite Ec).
    assert (Hlen : exists p q, m_flow_pkts c' = [p; q] /\ filter (in_dir 0 true) (m_flow_pkts c') = [p; q]).
    { vm_compute in Ec. injection Ec as <-. do 2 eexists. split; vm_compute; reflexivity. }
    destruct Hlen as (p & q & Hpq & ->). rewrite !Hh, Hpq.
    repeat constructor; eexists _, _, _; reflexivity.
  - exists m'. split; [exact Hrun|exact Hft].
Defined.
