(* ===== verification/StreamsGraph.v ===== *)
(** * The rate graph of a port's streams

    Models the second half of [src/src/stateless/cp/trex_streams_compiler.{h,cpp}]
    (from [TrexStreamsGraph] on): the events at which the rate of a port rises and
    falls, and its maximum. *)

From S2P Require Import Prelude Double StreamVm TrexStream.

(** [rate_event_st] *)
Record rate_event_st : Type := mkRateEvent {
  re_time : double;
  diff_pps : double;
  diff_bps : double;
  re_stream_id : Z }.

Record TrexStreamsGraphObj : Type := mkGraphObj {
  m_max_pps : double;
  m_max_bps : double;
  m_expected_duration : Z;
  m_rate_events : list rate_event_st }.

Definition GraphObj_new : TrexStreamsGraphObj := mkGraphObj (double_of_Z 0) (double_of_Z 0) 0 [].

Definition set_expected_duration (d : Z) (g : TrexStreamsGraphObj) : TrexStreamsGraphObj :=
  mkGraphObj (m_max_pps g) (m_max_bps g) d (m_rate_events g).
Definition set_rate_events (l : list rate_event_st) (g : TrexStreamsGraphObj) : TrexStreamsGraphObj :=
  mkGraphObj (m_max_pps g) (m_max_bps g) (m_expected_duration g) l.
Definition set_max (pps bps : double) (g : TrexStreamsGraphObj) : TrexStreamsGraphObj :=
  mkGraphObj pps bps (m_expected_duration g) (m_rate_events g).

Definition on_loop_detection (g : TrexStreamsGraphObj) : TrexStreamsGraphObj :=
  set_expected_duration (-1) g.
Definition add_rate_event (ev : rate_event_st) (g : TrexStreamsGraphObj) : TrexStreamsGraphObj :=
  set_rate_events (m_rate_events g ++ [ev]) g.
Definition get_duration (g : TrexStreamsGraphObj) : Z := m_expected_duration g.

(** ** The events of one stream *)

(** The rate goes up by the rate of the stream, or down again. *)
Definition start_event (time : double) (s : TrexStream) : rate_event_st :=
  mkRateEvent time (ts_pps s) (get_bps s) (ts_stream_id s).
Definition stop_event (time : double) (s : TrexStream) : rate_event_st :=
  mkRateEvent time (double_opp (ts_pps s)) (double_opp (get_bps s)) (ts_stream_id s).

(** Every function returns the offset at which the next stream starts. *)
Definition add_rate_events_for_stream_cont (offset_usec : double) (s : TrexStream)
    (g : TrexStreamsGraphObj) : double * TrexStreamsGraphObj :=
  let g := add_rate_event (start_event (double_add offset_usec (ts_isg_usec s)) s) g in
  (double_of_Z (-1), set_expected_duration (-1) g).

Definition add_rate_events_for_stream_single_burst (offset_usec : double) (s : TrexStream)
    (g : TrexStreamsGraphObj) : double * TrexStreamsGraphObj :=
  let start_time := double_add offset_usec (ts_isg_usec s) in
  let g := add_rate_event (start_event start_time s) g in
  let stop_time := double_add start_time (get_burst_length_usec s) in
  (stop_time, add_rate_event (stop_event stop_time s) g).

(** The loop of the multi burst, [n] bursts to go. *)
Fixpoint multi_burst_events (n : nat) (offset_usec delay : double) (s : TrexStream)
    (g : TrexStreamsGraphObj) : double * TrexStreamsGraphObj :=
  match n with
  | O => (offset_usec, g)
  | S n =>
      let start_time := double_add offset_usec delay in
      let g := add_rate_event (start_event start_time s) g in
      let stop_time := double_add start_time (get_burst_length_usec s) in
      let g := add_rate_event (stop_event stop_time s) g in
      multi_burst_events n stop_time (ts_ibg_usec s) s g
  end.

Definition add_rate_events_for_stream_multi_burst (offset_usec : double) (s : TrexStream)
    (g : TrexStreamsGraphObj) : double * TrexStreamsGraphObj :=
  multi_burst_events (Z.to_nat (ts_num_bursts s)) offset_usec (ts_isg_usec s) s g.

Definition add_rate_events_for_stream (offset_usec : double) (s : TrexStream)
    (g : TrexStreamsGraphObj) : double * TrexStreamsGraphObj :=
  if ts_type s =? stCONTINUOUS then add_rate_events_for_stream_cont offset_usec s g
  else if ts_type s =? stSINGLE_BURST then add_rate_events_for_stream_single_burst offset_usec s g
  else if ts_type s =? stMULTI_BURST then add_rate_events_for_stream_multi_burst offset_usec s g
  else (offset_usec, g).

(** ** The chain of a root *)

(** The loop of [generate_graph_for_one_root]; the ids are [uint32_t]. *)
Fixpoint one_root_loop (fuel : nat) (hash : gmap Z TrexStream) (loop_hash : gset Z)
    (stream_id : Z) (offset : double) (g : TrexStreamsGraphObj) : res TrexStreamsGraphObj :=
  match fuel with
  | O => Err OutOfFuel
  | S fuel =>
      match hash !! stream_id with
      | None => throw "stream id does not exists"
      | Some s =>
          let loop_hash := {[ stream_id ]} ∪ loop_hash in
          let '(offset, g) := add_rate_events_for_stream offset s g in
          if ts_next_stream_id s =? -1 then Ok g
          else if decide (u32 (ts_next_stream_id s) ∈ loop_hash) then Ok (on_loop_detection g)
          else one_root_loop fuel hash loop_hash (u32 (ts_next_stream_id s)) offset g
      end
  end.

(** Every turn enters another stream in [loop_hash]; the last may be missing. *)
Definition one_root_fuel (hash : gmap Z TrexStream) : nat := S (size hash).

Definition generate_graph_for_one_root (hash : gmap Z TrexStream) (root_stream_id : Z)
    (g : TrexStreamsGraphObj) : res TrexStreamsGraphObj :=
  one_root_loop (one_root_fuel hash) hash ∅ root_stream_id (double_of_Z 0) g.

(** ** The maximum *)

(** [std::list::sort], which is stable, by [event_compare]. *)
Definition event_compare (a b : rate_event_st) : bool := double_ltb (re_time a) (re_time b).
Fixpoint event_insert (e : rate_event_st) (l : list rate_event_st) : list rate_event_st :=
  match l with
  | [] => [e]
  | e' :: l' => if event_compare e' e then e' :: event_insert e l' else e :: l
  end.
Definition event_sort (l : list rate_event_st) : list rate_event_st := foldr event_insert [] l.

(** The walk of [find_max_rate]: the current rates and the maxima so far. *)
Fixpoint max_rate_loop (l : list rate_event_st) (cur_pps cur_bps max_pps max_bps : double)
  : double * double :=
  match l with
  | [] => (max_pps, max_bps)
  | ev :: l =>
      let cur_pps := double_add cur_pps (diff_pps ev) in
      let cur_bps := double_add cur_bps (diff_bps ev) in
      max_rate_loop l cur_pps cur_bps (double_max max_pps cur_pps) (double_max max_bps cur_bps)
  end.

(** [back()] of an empty list is outside the list. *)
Definition find_max_rate (g : TrexStreamsGraphObj) : res TrexStreamsGraphObj :=
  let z := double_of_Z 0 in
  let '(pps, bps) := max_rate_loop (m_rate_events g) z z z z in
  g ← (if negb (m_expected_duration g =? -1) then
         match last (m_rate_events g) with
         | Some ev => Ok (set_expected_duration (i32_of_double (re_time ev)) g)
         | None => Err OutOfBounds
         end
       else Ok g);
  Ok (set_max pps bps g).

Definition graph_obj_generate (g : TrexStreamsGraphObj) : res TrexStreamsGraphObj :=
  find_max_rate (set_rate_events (event_sort (m_rate_events g)) g).

(** ** All roots *)

(** The hash of the enabled streams (a later stream replaces an earlier one with
    its id) and the roots in order. *)
Fixpoint populate (streams : list TrexStream) (hash : gmap Z TrexStream) (root_streams : list Z)
  : gmap Z TrexStream * list Z :=
  match streams with
  | [] => (hash, root_streams)
  | s :: streams =>
      if negb (ts_enabled s) then populate streams hash root_streams
      else
        let hash := <[ts_stream_id s := s]> hash in
        let root_streams :=
          if ts_self_start s then root_streams ++ [ts_stream_id s] else root_streams in
        populate streams hash root_streams
  end.

Fixpoint all_roots (roots : list Z) (hash : gmap Z TrexStream) (g : TrexStreamsGraphObj)
  : res TrexStreamsGraphObj :=
  match roots with
  | [] => Ok g
  | r :: roots => g ← generate_graph_for_one_root hash r g; all_roots roots hash g
  end.

(** [TrexStreamsGraph::generate] *)
Definition graph_generate (streams : list TrexStream) : res TrexStreamsGraphObj :=
  let '(hash, root_streams) := populate streams ∅ [] in
  g ← all_roots root_streams hash GraphObj_new;
  graph_obj_generate g.
