(* ===== verification/StreamsGraphFacts.v ===== *)
(** * Rate graph: theorems

    The graph of a port is computed for every set of streams, from the paths that
    start at its roots. *)

From S2P Require Import Prelude Double StreamVm TrexStream StreamsGraph.
From Stdlib Require Import Sorted.

(** ** Reference: the events of a path *)

Fixpoint bursts (n : nat) (off delay : double) (s : TrexStream) : list rate_event_st * double :=
  match n with
  | O => ([], off)
  | S n =>
      let up := double_add off delay in
      let down := double_add up (get_burst_length_usec s) in
      let '(l, e) := bursts n down (ts_ibg_usec s) s in
      (start_event up s :: stop_event down s :: l, e)
  end.

(** The events of a stream that starts at [off], and where the next one starts. *)
Definition stream_events (off : double) (s : TrexStream) : list rate_event_st * double :=
  if ts_type s =? stCONTINUOUS then
    ([start_event (double_add off (ts_isg_usec s)) s], double_of_Z (-1))
  else if ts_type s =? stSINGLE_BURST then bursts 1 off (ts_isg_usec s) s
  else if ts_type s =? stMULTI_BURST then bursts (Z.to_nat (ts_num_bursts s)) off (ts_isg_usec s) s
  else ([], off).

Fixpoint path_events (hash : gmap Z TrexStream) (off : double) (ids : list Z) : list rate_event_st :=
  match ids with
  | [] => []
  | id :: ids =>
      match hash !! id with
      | Some s => let '(l, e) := stream_events off s in l ++ path_events hash e ids
      | None => []
      end
  end.

Definition continuous_at (hash : gmap Z TrexStream) (id : Z) : Prop :=
  exists s, hash !! id = Some s /\ ts_type s = stCONTINUOUS.

(** [ids] follows the next stream of each of its streams and visits none twice. *)
Definition path (hash : gmap Z TrexStream) (ids : list Z) : Prop :=
  NoDup ids /\ forall i a b, ids !! i = Some a -> ids !! S i = Some b ->
    exists s, hash !! a = Some s /\ ts_next_stream_id s ≠ -1 /\ u32 (ts_next_stream_id s) = b.

(** The path cannot be extended: its last stream has no next one, or one of the path. *)
Definition path_end (hash : gmap Z TrexStream) (ids : list Z) (loop : bool) : Prop :=
  exists a s, last ids = Some a /\ hash !! a = Some s /\
    if loop then ts_next_stream_id s ≠ -1 /\ u32 (ts_next_stream_id s) ∈ ids
    else ts_next_stream_id s = -1.

(** Every stream that is named as next is there, as the compiler demands. *)
Definition closed (hash : gmap Z TrexStream) : Prop :=
  forall id s, hash !! id = Some s ->
    ts_next_stream_id s = -1 \/ is_Some (hash !! u32 (ts_next_stream_id s)).

(** ** One stream *)

Lemma add_rate_event_events e g : m_rate_events (add_rate_event e g) = m_rate_events g ++ [e].
Proof. done. Qed.

Lemma multi_burst_events_spec n : forall off delay s g,
  let '(l, e) := bursts n off delay s in
  exists g', multi_burst_events n off delay s g = (e, g') /\
    m_rate_events g' = m_rate_events g ++ l /\ m_expected_duration g' = m_expected_duration g.
Proof.
  induction n as [|n IH]; intros off delay s g; simpl.
  - exists g. by rewrite app_nil_r.
  - set (up := double_add off delay). set (down := double_add up _).
    specialize (IH down (ts_ibg_usec s) s
      (add_rate_event (stop_event down s) (add_rate_event (start_event up s) g))).
    destruct (bursts n down (ts_ibg_usec s) s) as [l e].
    destruct IH as (g' & Hr & He & Hd). exists g'. split; [exact Hr|].
    split; [|exact Hd]. rewrite He, !add_rate_event_events, <- !app_assoc. done.
Qed.

Lemma add_rate_events_spec off s g :
  let '(l, e) := stream_events off s in
  exists g', add_rate_events_for_stream off s g = (e, g') /\
    m_rate_events g' = m_rate_events g ++ l /\
    m_expected_duration g' = if ts_type s =? stCONTINUOUS then -1 else m_expected_duration g.
Proof.
  unfold stream_events, add_rate_events_for_stream. destruct (ts_type s =? stCONTINUOUS).
  { eexists. split; [reflexivity|]. done. }
  destruct (ts_type s =? stSINGLE_BURST).
  { simpl. eexists. split; [reflexivity|]. split; [|done].
    rewrite !add_rate_event_events, <- app_assoc. done. }
  destruct (ts_type s =? stMULTI_BURST).
  - apply multi_burst_events_spec.
  - exists g. by rewrite app_nil_r.
Qed.

(** ** One root *)

(** A loop that has visited [vis] and goes on at [id]; [b] tells that it runs into a
    stream already visited. *)
Inductive walk (hash : gmap Z TrexStream) : gset Z -> Z -> list Z -> bool -> Prop :=
  | walk_end vis id s :
      hash !! id = Some s -> ts_next_stream_id s = -1 -> walk hash vis id [id] false
  | walk_loop vis id s :
      hash !! id = Some s -> ts_next_stream_id s ≠ -1 ->
      u32 (ts_next_stream_id s) ∈ ({[id]} ∪ vis : gset Z) -> walk hash vis id [id] true
  | walk_next vis id s ids b :
      hash !! id = Some s -> ts_next_stream_id s ≠ -1 ->
      u32 (ts_next_stream_id s) ∉ ({[id]} ∪ vis : gset Z) ->
      walk hash ({[id]} ∪ vis) (u32 (ts_next_stream_id s)) ids b -> walk hash vis id (id :: ids) b.

Lemma walk_head hash vis id ids b : walk hash vis id ids b -> head ids = Some id.
Proof. by destruct 1. Qed.

Lemma walk_fresh hash vis id ids b :
  walk hash vis id ids b -> id ∉ vis -> NoDup ids /\ forall k, k ∈ ids -> k ∉ vis.
Proof.
  induction 1 as [vis id s|vis id s|vis id s ids b Hs Hn Hnv Hw IH]; intros Hid.
  1,2: split; [apply NoDup_singleton|]; intros k ->%list_elem_of_singleton; done.
  destruct (IH Hnv) as [Hnd Hf]. split.
  - apply NoDup_cons. split; [|done]. intros Hin. apply (Hf id Hin). set_solver.
  - intros k [-> | Hk]%elem_of_cons; [done|]. specialize (Hf k Hk). set_solver.
Qed.

Lemma walk_links hash vis id ids b :
  walk hash vis id ids b -> forall i a c, ids !! i = Some a -> ids !! S i = Some c ->
  exists s, hash !! a = Some s /\ ts_next_stream_id s ≠ -1 /\ u32 (ts_next_stream_id s) = c.
Proof.
  induction 1 as [vis id s|vis id s|vis id s ids b Hs Hn Hnv Hw IH]; intros i a c Ha Hc; try done.
  destruct i as [|i]; [|by apply (IH i)]. simpl in Ha, Hc. injection Ha as <-.
  pose proof (walk_head _ _ _ _ _ Hw) as Hh. rewrite head_lookup in Hh. exists s. naive_solver.
Qed.

Lemma walk_last hash vis id ids b :
  walk hash vis id ids b -> exists a s, last ids = Some a /\ hash !! a = Some s /\
    if b then ts_next_stream_id s ≠ -1 /\ (u32 (ts_next_stream_id s) ∈ ids \/ u32 (ts_next_stream_id s) ∈ vis)
    else ts_next_stream_id s = -1.
Proof.
  induction 1 as [vis id s Hs Hn|vis id s Hs Hn Hv|vis id s ids b Hs Hn Hnv Hw IH].
  - by exists id, s.
  - exists id, s. split_and!; try done. set_solver.
  - destruct IH as (a & t & Hl & Ht & Hb). exists a, t. split.
    { destruct ids; [by inversion Hw|done]. }
    split; [done|]. destruct b; [|done]. destruct Hb as [? Hb]. split; [done|]. set_solver.
Qed.

Lemma walk_path hash id ids b :
  walk hash ∅ id ids b -> path hash ids /\ path_end hash ids b.
Proof.
  intros Hw. split.
  - split; [|by eapply walk_links]. by destruct (walk_fresh _ _ _ _ _ Hw); [set_solver|].
  - destruct (walk_last _ _ _ _ _ Hw) as (a & s & Hl & Hs & Hb). exists a, s.
    split_and!; try done. destruct b; [|done]. destruct Hb as [? [?|?]]; [done|set_solver].
Qed.

Lemma one_root_loop_spec hash fuel : forall vis id off g,
  closed hash -> is_Some (hash !! id) -> id ∉ vis -> vis ⊆ dom hash ->
  (size (dom hash ∖ vis) < fuel)%nat ->
  exists ids b g', one_root_loop fuel hash vis id off g = Ok g' /\ walk hash vis id ids b /\
    m_rate_events g' = m_rate_events g ++ path_events hash off ids /\
    (b = true \/ Exists (continuous_at hash) ids -> m_expected_duration g' = -1) /\
    (b = false -> ~ Exists (continuous_at hash) ids -> m_expected_duration g' = m_expected_duration g).
Proof.
  induction fuel as [|fuel IH]; intros vis id off g Hc [s Hs] Hid Hv Hf; [lia|]. simpl. rewrite Hs.
  pose proof (add_rate_events_spec off s g) as Hadd. destruct (stream_events off s) as [l e] eqn:Hse.
  destruct Hadd as (g1 & -> & He1 & Hd1).
  assert (Hcont : continuous_at hash id <-> ts_type s =? stCONTINUOUS = true).
  { rewrite Z.eqb_eq. unfold continuous_at. split; [|eauto].
    intros (s' & ? & ?). by simplify_eq. }
  destruct (ts_next_stream_id s =? -1) eqn:Hn.
  { apply Z.eqb_eq in Hn. exists [id], false, g1. split; [done|]. split; [by eapply walk_end|].
    simpl. rewrite Hs, Hse, app_nil_r. split; [done|]. rewrite Exists_cons, Exists_nil, Hd1.
    destruct (ts_type s =? stCONTINUOUS); naive_solver. }
  apply Z.eqb_neq in Hn. case_decide as Hin.
  { exists [id], true, (on_loop_detection g1). split; [done|]. split; [by eapply walk_loop|].
    simpl. by rewrite Hs, Hse, app_nil_r. }
  destruct (Hc id s Hs) as [?|Hnext]; [done|].
  destruct (IH ({[id]} ∪ vis) (u32 (ts_next_stream_id s)) e g1) as (ids & b & g' & -> & Hw & He & Hd & Hd'); try done.
  { apply elem_of_dom_2 in Hs. set_solver. }
  { enough (size (dom hash ∖ ({[id]} ∪ vis)) < size (dom hash ∖ vis))%nat by lia.
    apply subset_size. apply elem_of_dom_2 in Hs. set_solver. }
  exists (id :: ids), b, g'. split; [done|]. split; [by eapply walk_next|].
  simpl. rewrite Hs, Hse, He, He1, <- app_assoc. split; [done|]. rewrite Exists_cons, Hcont.
  destruct (ts_type s =? stCONTINUOUS).
  - split; [|naive_solver]. intros _.
    destruct b; [apply Hd; by left|].
    destruct (decide (m_expected_duration g' = -1)) as [|Hne]; [done|].
    exfalso. apply Hne. rewrite Hd', Hd1; [done|done|].
    intros Hex. apply Hne, Hd. by right.
  - rewrite Hd1 in Hd'. split; [intros [?|[?|?]]; [apply Hd; by left|done|apply Hd; by right]|].
    intros Hb Hno. apply Hd'; naive_solver.
Qed.

(** What one root adds: the events of its path, and whether the path is endless. *)
Definition endless (hash : gmap Z TrexStream) (ids : list Z) (loop : bool) : Prop :=
  loop = true \/ Exists (continuous_at hash) ids.

Definition root_path (hash : gmap Z TrexStream) (root : Z) (p : list Z * bool) : Prop :=
  head p.1 = Some root /\ path hash p.1 /\ path_end hash p.1 p.2.

Lemma one_root_spec hash root g :
  closed hash -> is_Some (hash !! root) ->
  exists p g', generate_graph_for_one_root hash root g = Ok g' /\ root_path hash root p /\
    m_rate_events g' = m_rate_events g ++ path_events hash (double_of_Z 0) p.1 /\
    (endless hash p.1 p.2 -> m_expected_duration g' = -1) /\
    (~ endless hash p.1 p.2 -> m_expected_duration g' = m_expected_duration g).
Proof.
  intros Hc Hr. unfold generate_graph_for_one_root, one_root_fuel.
  destruct (one_root_loop_spec hash (S (size hash)) ∅ root (double_of_Z 0) g)
    as (ids & b & g' & Hrun & Hw & He & Hd & Hd'); try done.
  { rewrite difference_empty_L, size_dom. lia. }
  exists (ids, b), g'. split; [done|]. destruct (walk_path _ _ _ _ Hw).
  split; [split_and!; [by eapply walk_head|done..]|]. split; [done|]. split; [done|].
  intros Hne. unfold endless in Hne. simpl in Hne. apply Hd'; [|tauto].
  destruct b; [exfalso; tauto|done].
Qed.

(** ** All roots *)

Definition paths_events (hash : gmap Z TrexStream) (ps : list (list Z * bool)) : list rate_event_st :=
  concat (map (fun p => path_events hash (double_of_Z 0) p.1) ps).
Definition some_endless (hash : gmap Z TrexStream) (ps : list (list Z * bool)) : Prop :=
  Exists (fun p => endless hash p.1 p.2) ps.

Lemma all_roots_spec hash roots : forall g,
  closed hash -> Forall (fun r => is_Some (hash !! r)) roots ->
  exists ps g', all_roots roots hash g = Ok g' /\ Forall2 (root_path hash) roots ps /\
    m_rate_events g' = m_rate_events g ++ paths_events hash ps /\
    (some_endless hash ps -> m_expected_duration g' = -1) /\
    (~ some_endless hash ps -> m_expected_duration g' = m_expected_duration g).
Proof.
  induction roots as [|r roots IH]; intros g Hc Hr; simpl.
  { exists [], g. unfold paths_events, some_endless. rewrite Exists_nil, app_nil_r. done. }
  apply Forall_cons in Hr as [Hr Hrs].
  destruct (one_root_spec hash r g Hc Hr) as (p & g1 & -> & Hp & He1 & Hd1 & Hd1').
  destruct (IH g1 Hc Hrs) as (ps & g' & Hrun & Hps & He & Hd & Hd'). cbn [mbind res_bind].
  exists (p :: ps), g'. split; [done|]. split; [by constructor|]. split.
  { rewrite He, He1, <- app_assoc. done. }
  unfold some_endless in *. rewrite Exists_cons. split.
  - intros [Hp'|Hps']; [|auto]. destruct (decide (m_expected_duration g' = -1)) as [|Hne]; [done|].
    exfalso. apply Hne. rewrite Hd'; [by apply Hd1|]. intros Hex. by apply Hne, Hd.
  - intros Hno. rewrite Hd' by tauto. apply Hd1'. tauto.
Qed.

(** ** Sorting and the maximum *)

Definition event_le (a b : rate_event_st) : Prop := event_compare b a = false.

Lemma ltb_asym a b : double_ltb a b = true -> double_ltb b a = false.
Proof.
  intros E. assert (is_number a = true /\ is_number b = true) as [Ha Hb].
  { destruct a as [[]|[]| |[]], b as [[]|[]| |[]]; done. }
  by apply double_ltb_not_ltb.
Qed.

Lemma event_insert_perm e l : event_insert e l ≡ₚ e :: l.
Proof.
  induction l as [|e' l IH]; simpl; [done|]. destruct (event_compare e' e); [|done].
  rewrite IH. apply perm_swap.
Qed.

Lemma event_insert_sorted e l : Sorted event_le l -> Sorted event_le (event_insert e l).
Proof.
  induction 1 as [|e' l Hs IH Hh]; simpl; [by repeat constructor|].
  destruct (event_compare e' e) eqn:E; [|by repeat constructor].
  constructor; [done|]. destruct l as [|e2 l]; simpl.
  - constructor. by apply ltb_asym.
  - destruct (event_compare e2 e).
    + inversion_clear Hh. by constructor.
    + constructor. by apply ltb_asym.
Qed.

Lemma event_sort_spec l : event_sort l ≡ₚ l /\ Sorted event_le (event_sort l).
Proof.
  induction l as [|e l [IHp IHs]]; simpl; [done|]. split.
  - rewrite event_insert_perm. by apply Permutation_cons.
  - by apply event_insert_sorted.
Qed.

(** The rates after each event, and the largest of them (or the initial maximum). *)
Fixpoint rates (f : rate_event_st -> double) (cur : double) (l : list rate_event_st) : list double :=
  match l with
  | [] => []
  | e :: l => double_add cur (f e) :: rates f (double_add cur (f e)) l
  end.

Lemma max_rate_loop_spec l : forall cp cb mp mb,
  max_rate_loop l cp cb mp mb
  = (foldl double_max mp (rates diff_pps cp l), foldl double_max mb (rates diff_bps cb l)).
Proof. induction l as [|e l IH]; intros; simpl; [done|]. by rewrite IH. Qed.

(** ** The whole graph *)

(** A known type, and a multi burst has a burst.  The commands of the control plane only make
    the three types, but they take any number of bursts. *)
Definition graph_stream_ok (s : TrexStream) : Prop :=
  ts_type s = stCONTINUOUS \/ ts_type s = stSINGLE_BURST \/
  (ts_type s = stMULTI_BURST /\ 0 < ts_num_bursts s).

Lemma stream_events_some off s : graph_stream_ok s -> (stream_events off s).1 ≠ [].
Proof.
  unfold stream_events. intros [-> |[-> |[-> Hn]]]; simpl; [done..|].
  destruct (Z.to_nat (ts_num_bursts s)) as [|n] eqn:E; [lia|]. simpl.
  by destruct (bursts n _ _ s).
Qed.

Lemma root_path_events hash r p s :
  root_path hash r p -> hash !! r = Some s -> graph_stream_ok s ->
  path_events hash (double_of_Z 0) p.1 ≠ [].
Proof.
  intros (Hh & _ & _) Hs Hok. destruct (p.1) as [|k ids]; [done|]. injection Hh as ->.
  cbn [path_events]. rewrite Hs. pose proof (stream_events_some (double_of_Z 0) s Hok) as Hne.
  destruct (stream_events (double_of_Z 0) s) as [l e]. simpl in Hne. destruct l; done.
Qed.

Lemma populate_roots streams : forall hash roots hash' roots',
  populate streams hash roots = (hash', roots') ->
  Forall (fun r => is_Some (hash !! r)) roots -> Forall (fun r => is_Some (hash' !! r)) roots'.
Proof.
  induction streams as [|s streams IH]; simpl; intros hash roots hash' roots' Hp Hr; [by simplify_eq|].
  destruct (ts_enabled s); simpl in Hp; [|by eapply IH]. eapply IH; [done|].
  assert (Hr' : Forall (fun r => is_Some (<[ts_stream_id s:=s]> hash !! r)) roots).
  { eapply Forall_impl; [done|]. intros r Hs. apply lookup_insert_is_Some.
    destruct (decide (ts_stream_id s = r)); auto. }
  destruct (ts_self_start s); [|done]. apply Forall_app. split; [done|].
  apply Forall_singleton. by rewrite lookup_insert_eq.
Qed.

(** C21: The rate graph is computed for every set of enabled streams in which every next
    stream exists, at least one stream starts by itself, every stream has one of the three
    types, and every multi-burst has at least one burst (a condition the compiler does not
    check, see [graph_zero_bursts]): the scan of every root ends, having followed its next
    streams without visiting one twice until there is none or the path runs into itself; the
    events are the ups and downs of the bursts on these paths, sorted by time; the duration
    is infinite (-1) if a path has a continuous stream or a loop, and otherwise the time of
    the last event; the maxima are the largest rates reached after an event. *)
Theorem graph_generate_ok (streams : list TrexStream) (hash : gmap Z TrexStream) (roots : list Z)
    (Hp : populate streams ∅ [] = (hash, roots)) (Hc : closed hash) (Hr : roots ≠ [])
    (Hok : forall id s, hash !! id = Some s -> graph_stream_ok s) :
  exists g ps, graph_generate streams = Ok g /\ Forall2 (root_path hash) roots ps /\
    m_rate_events g ≡ₚ paths_events hash ps /\ Sorted event_le (m_rate_events g) /\
    (some_endless hash ps -> m_expected_duration g = -1) /\
    (~ some_endless hash ps -> exists ev, last (m_rate_events g) = Some ev /\
       m_expected_duration g = i32_of_double (re_time ev)) /\
    m_max_pps g = foldl double_max (double_of_Z 0) (rates diff_pps (double_of_Z 0) (m_rate_events g)) /\
    m_max_bps g = foldl double_max (double_of_Z 0) (rates diff_bps (double_of_Z 0) (m_rate_events g)).
Proof.
  pose proof (populate_roots _ _ _ _ _ Hp (Forall_nil_2 _)) as Hroots.
  unfold graph_generate. rewrite Hp.
  destruct (all_roots_spec hash roots GraphObj_new Hc Hroots) as (ps & g1 & -> & Hps & He & Hd & Hd').
  cbn [mbind res_bind]. simpl in He. destruct (event_sort_spec (m_rate_events g1)) as [Hperm Hsort].
  unfold graph_obj_generate, find_max_rate. simpl m_rate_events. rewrite max_rate_loop_spec.
  assert (Hne : event_sort (m_rate_events g1) ≠ []).
  { intros Hnil. rewrite Hnil in Hperm. apply Permutation_nil_l in Hperm. rewrite He in Hperm.
    destruct roots as [|r roots]; [done|]. inversion Hps as [|? p ? ps' Hrp]; subst.
    apply Forall_cons in Hroots as [[s Hs] _].
    unfold paths_events in Hperm. simpl in Hperm. symmetry in Hperm.
    apply app_eq_nil in Hperm as [Hnil' _]. by eapply root_path_events; [| |apply (Hok r s)|]. }
  destruct (last (event_sort (m_rate_events g1))) as [ev|] eqn:Hlast;
    [|by apply last_None in Hlast].
  change (m_expected_duration (set_rate_events _ g1)) with (m_expected_duration g1).
  destruct (m_expected_duration g1 =? -1) eqn:Hm; simpl; rewrite ?Hlast; simpl;
    eexists _, ps; (split; [reflexivity|]); split_and!; try done; simpl;
    try (by rewrite <- He).
  - intros Hno. rewrite Hd' in Hm by done. done.
  - intros Hex. rewrite Hd in Hm by done. done.
  - intros _. by exists ev.
Qed.

(** ** A looping and a finite port *)

Definition demo_graph_stream (id next type : Z) (start : bool) : TrexStream :=
  mkTrexStream type 0 id (double_of_Z 10) next true start StreamVm_new None (mkPktData None 60)
    (mkRxCheck false false false 0) (double_of_Z 1000) 100 2 (double_of_Z 5).

Definition demo_graph_streams : list TrexStream :=
  [demo_graph_stream 1 2 stSINGLE_BURST true; demo_graph_stream 2 (-1) stMULTI_BURST false].

Example demo_graph :
  match graph_generate demo_graph_streams with
  | Ok g => (length (m_rate_events g), m_expected_duration g, i32_of_double (m_max_pps g))
  | Err _ => (0%nat, 0, 0)
  end = (6%nat, 300025, 1000).
Proof. vm_compute. reflexivity. Qed.

Example demo_graph_loop :
  match graph_generate [demo_graph_stream 1 2 stSINGLE_BURST true;
                        demo_graph_stream 2 1 stSINGLE_BURST false] with
  | Ok g => m_expected_duration g | Err _ => 0 end = -1.
Proof. vm_compute. reflexivity. Qed.

(** Without an enabled stream that starts by itself there are no events, and the
    last one is read all the same. *)
Example graph_without_events :
  graph_generate [demo_graph_stream 1 (-1) stSINGLE_BURST false] = Err OutOfBounds.
Proof. vm_compute. reflexivity. Qed.

(** A multi-burst of no bursts has no events either: no check refuses it, and the last event
    of the empty list is read. *)
Definition zero_bursts : TrexStream :=
  mkTrexStream stMULTI_BURST 0 1 (double_of_Z 0) (-1) true true StreamVm_new None
    (mkPktData None 60) (mkRxCheck false false false 0) (double_of_Z 1000) 100 0 (double_of_Z 5).

Example graph_zero_bursts : graph_generate [zero_bursts] = Err OutOfBounds.
Proof. vm_compute. reflexivity. Qed.

(** The duration is an [int] of microseconds: a burst of 2500 seconds does not fit. *)
Example long_duration_overflows :
  match graph_generate [mkTrexStream stSINGLE_BURST 0 1 (double_of_Z 0) (-1) true true StreamVm_new None
                          (mkPktData None 60) (mkRxCheck false false false 0) (double_of_Z 1000)
                          2500000 1 (double_of_Z 0)] with
  | Ok g => get_duration g | Err _ => 0 end = -2147483648.
Proof. vm_compute. reflexivity. Qed.

Definition demo_hash : gmap Z TrexStream :=
  <[2 := demo_graph_stream 2 (-1) stMULTI_BURST false]>
    (<[1 := demo_graph_stream 1 2 stSINGLE_BURST true]> ∅).

Lemma demo_populate : populate demo_graph_streams ∅ [] = (demo_hash, [1]).
Proof. reflexivity. Qed.

Lemma demo_graph_hash id s :
  demo_hash !! id = Some s ->
  (id = 1 /\ s = demo_graph_stream 1 2 stSINGLE_BURST true) \/
  (id = 2 /\ s = demo_graph_stream 2 (-1) stMULTI_BURST false).
Proof.
  unfold demo_hash.
  intros [[<- <-]|[_ [[<- <-]|[_ Hx]]%lookup_insert_Some]]%lookup_insert_Some;
    [by right|by left|]. by rewrite lookup_empty in Hx.
Qed.

Lemma demo_closed : closed demo_hash.
Proof.
  intros id s [[-> ->]|[-> ->]]%demo_graph_hash; [right|by left].
  exists (demo_graph_stream 2 (-1) stMULTI_BURST false). apply lookup_insert_eq.
Qed.

Lemma demo_graph_streams_ok id s : demo_hash !! id = Some s -> graph_stream_ok s.
Proof.
  intros [[-> ->]|[-> ->]]%demo_graph_hash; right; [by left|right]. split; [done|].
  vm_compute. reflexivity.
Qed.

Example graph_generate_ok_witness :
  exists g ps, graph_generate demo_graph_streams = Ok g /\ Forall2 (root_path demo_hash) [1] ps /\
    m_rate_events g ≡ₚ paths_events demo_hash ps.
Proof.
  destruct (graph_generate_ok demo_graph_streams demo_hash [1] demo_populate demo_closed
    ltac:(discriminate) demo_graph_streams_ok) as (g & ps & Hg & Hps & He & _).
  exists g, ps. exact (conj Hg (conj Hps He)).
Defined.
