(* ===== verification/PortEvents.v ===== *)
(** * Events the data path reports to a port

    Models [src/src/stateless/cp/trex_dp_port_events.{h,cpp}]: an event is over when
    every data path core of the port has signalled it with the event's number. *)

From S2P Require Import Prelude.

Definition EVENT_STOP : Z := 1.
Definition EVENT_MAX : Z := 2.
Definition EVENT_ID_INVALID : Z := -1.

Inductive event_status_e : Type := EVENT_DISABLE | EVENT_PENDING | EVENT_TIMED_OUT | EVENT_OCCURED.

#[export] Instance event_status_eq_dec : EqDecision event_status_e.
Proof. solve_decision. Defined.

(** [TrexDpPortEvent] without the pointer to its port. *)
Record TrexDpPortEvent : Type := mkDpPortEvent {
  m_event_type : Z;
  m_signal : gmap Z bool;
  m_pending_cnt : Z;
  m_event_id : Z;
  m_expire_limit_ms : Z }.

Definition event_disable (e : TrexDpPortEvent) : TrexDpPortEvent :=
  mkDpPortEvent (m_event_type e) (m_signal e) (m_pending_cnt e) EVENT_ID_INVALID
    (m_expire_limit_ms e).

(** [create]; the count and the time limit keep whatever they were. *)
Definition event_create (type : Z) (core_id_list : list Z) (e : TrexDpPortEvent) : TrexDpPortEvent :=
  let signal := foldl (fun m core_id => <[core_id := false]> m) ∅ core_id_list in
  event_disable (mkDpPortEvent type signal (m_pending_cnt e) (m_event_id e) (m_expire_limit_ms e)).

(** [wait_for_event] of one event, at the time [now] (a [uint32_t]). *)
Definition event_wait (event_id timeout_ms now : Z) (e : TrexDpPortEvent) : TrexDpPortEvent :=
  mkDpPortEvent (m_event_type e) ((fun _ => false) <$> m_signal e)
    (Z.of_nat (size (m_signal e))) event_id
    (if 0 <? timeout_ms then s32 (now + timeout_ms) else -1).

Definition event_status (now : Z) (e : TrexDpPortEvent) : event_status_e :=
  if m_event_id e =? EVENT_ID_INVALID then EVENT_DISABLE
  else if m_pending_cnt e =? 0 then EVENT_OCCURED
  else if (0 <? m_expire_limit_ms e) && (u32 (m_expire_limit_ms e) <? now) then EVENT_TIMED_OUT
  else EVENT_PENDING.

Definition event_is_active (now : Z) (e : TrexDpPortEvent) : bool :=
  negb (bool_decide (event_status now e = EVENT_DISABLE)).
Definition event_has_timeout_expired (now : Z) (e : TrexDpPortEvent) : bool :=
  bool_decide (event_status now e = EVENT_TIMED_OUT).

(** [handle_event]: the event, and whether it has occurred now (the port is told,
    then the event is disabled). A signal of a core that is not one of the port's
    throws out of [at]; a core that signals twice is only reported. *)
Definition event_handle (now thread_id event_id : Z) (e : TrexDpPortEvent)
  : res (TrexDpPortEvent * bool) :=
  if negb (event_is_active now e) then Ok (e, false)
  else if negb (event_id =? m_event_id e) then Ok (e, false)
  else
    match m_signal e !! thread_id with
    | None => throw "out_of_range"
    | Some sig =>
        let e :=
          if (sig : bool) then e
          else mkDpPortEvent (m_event_type e) (<[thread_id := true]> (m_signal e))
                 (m_pending_cnt e - 1) (m_event_id e) (m_expire_limit_ms e) in
        if m_pending_cnt e =? 0 then Ok (event_disable e, true) else Ok (e, false)
    end.

(** ** [TrexDpPortEvents] *)

Record TrexDpPortEvents : Type := mkDpPortEvents {
  m_events : list TrexDpPortEvent;
  m_event_id_counter : Z }.

(** The events of a new port, before [create] sets what it sets. *)
Definition raw_event : TrexDpPortEvent := mkDpPortEvent 0 ∅ 0 0 0.

Definition events_create (core_id_list : list Z) : TrexDpPortEvents :=
  mkDpPortEvents
    (map (fun i => event_create i core_id_list raw_event) [0; EVENT_STOP]) EVENT_ID_INVALID.

Definition generate_event_id (ev : TrexDpPortEvents) : Z * TrexDpPortEvents :=
  let id := s32 (m_event_id_counter ev + 1) in
  (id, mkDpPortEvents (m_events ev) id).

Definition update_event (i : Z) (f : TrexDpPortEvent -> TrexDpPortEvent) (ev : TrexDpPortEvents)
  : res TrexDpPortEvents :=
  e ← get_idx (m_events ev) i;
  l ← set_idx (m_events ev) i (f e);
  Ok (mkDpPortEvents l (m_event_id_counter ev)).

(** [wait_for_event]: all the other events are disabled. *)
Definition events_wait (i event_id timeout_ms now : Z) (ev : TrexDpPortEvents)
  : res TrexDpPortEvents :=
  update_event i (event_wait event_id timeout_ms now)
    (mkDpPortEvents (map event_disable (m_events ev)) (m_event_id_counter ev)).

Definition events_disable (i : Z) (ev : TrexDpPortEvents) : res TrexDpPortEvents :=
  update_event i event_disable ev.

Definition events_handle (i now thread_id event_id : Z) (ev : TrexDpPortEvents)
  : res (TrexDpPortEvents * bool) :=
  e ← get_idx (m_events ev) i;
  '(e, occurred) ← event_handle now thread_id event_id e;
  l ← set_idx (m_events ev) i e;
  Ok (mkDpPortEvents l (m_event_id_counter ev), occurred).
