(* ===== verification/StatelessPort.v ===== *)
(** * The stateless port of the control plane

    Models [src/src/stateless/cp/trex_stateless_port.{h,cpp}] and the ports of
    [trex_stateless.{h,cpp}]: ownership, the state machine of a port, its streams and
    their graph, and the messages it sends to the cores of the data path. *)

From S2P Require Import Prelude Double ByteMem StreamVm TrexStream StreamsCompiler StreamsGraph DpNode DpCore PortEvents.

(** ** Ownership *)

Record TrexPortOwner : Type := mkOwner {
  m_is_free : bool;
  m_owner_name : string;
  m_handler : string }.

Definition TrexPortOwner_new : TrexPortOwner := mkOwner true "" "".
Definition owner_release (o : TrexPortOwner) : TrexPortOwner := mkOwner true "" "".
Definition is_owned_by (user : string) (o : TrexPortOwner) : bool :=
  negb (m_is_free o) && bool_decide (m_owner_name o = user).

Definition alphanum : string :=
  "0123456789ABCDEFGHIJKLMNOPQRSTUVWXYZabcdefghijklmnopqrstuvwxyz".

(** [generate_handler]: eight draws of [rand()]. *)
Fixpoint handler_loop (n : nat) (rand : nat -> Z) : string :=
  match n with
  | O => ""
  | S n =>
      String (default Ascii.zero
                (String.get (Z.to_nat (rand 0%nat mod Z.of_nat (String.length alphanum))) alphanum))
        (handler_loop n (fun k => rand (S k)))
  end.
Definition generate_handler (rand : nat -> Z) : string := handler_loop 8 rand.

Definition own (rand : nat -> Z) (owner_name : string) (o : TrexPortOwner) : TrexPortOwner :=
  mkOwner false owner_name (generate_handler rand).
Definition owner_verify (handler : string) (o : TrexPortOwner) : bool :=
  negb (m_is_free o) && bool_decide (m_handler o = handler).
Definition owner_get_name (o : TrexPortOwner) : string :=
  if negb (m_is_free o) then m_owner_name o else "<FREE>".
Definition owner_get_handler (o : TrexPortOwner) : string :=
  if negb (m_is_free o) then m_handler o else "".

(** ** Multipliers *)

Inductive mul_type_e : Type := MUL_FACTOR | MUL_BPS | MUL_PPS | MUL_PERCENTAGE.
Inductive mul_op_e : Type := OP_ABS | OP_ADD | OP_SUB.
Record TrexPortMultiplier : Type := mkMultiplier {
  mul_type : mul_type_e; mul_op : mul_op_e; mul_value : double }.

#[export] Instance mul_op_eq_dec : EqDecision mul_op_e.
Proof. solve_decision. Defined.

Definition multiplier_of_strings (type_str op_str : string) (value : double)
  : res TrexPortMultiplier :=
  type ← (if bool_decide (type_str = "raw") then Ok MUL_FACTOR
          else if bool_decide (type_str = "bps") then Ok MUL_BPS
          else if bool_decide (type_str = "pps") then Ok MUL_PPS
          else if bool_decide (type_str = "percentage") then Ok MUL_PERCENTAGE
          else throw ("bad type str: " +:+ type_str));
  op ← (if bool_decide (op_str = "abs") then Ok OP_ABS
        else if bool_decide (op_str = "add") then Ok OP_ADD
        else if bool_decide (op_str = "sub") then Ok OP_SUB
        else throw ("bad op str: " +:+ op_str));
  Ok (mkMultiplier type op value).

(** ** The port *)

Definition PORT_STATE_DOWN : Z := 0x1.
Definition PORT_STATE_IDLE : Z := 0x2.
Definition PORT_STATE_STREAMS : Z := 0x4.
Definition PORT_STATE_TX : Z := 0x8.
Definition PORT_STATE_PAUSE : Z := 0x10.

Inductive driver_speed_e : Type := SPEED_INVALID | SPEED_1G | SPEED_10G | SPEED_40G.

(** What a port publishes to its subscribers; all carry the port's number. *)
Inductive pub_event : Type :=
  | EVENT_PORT_STARTED (port_id : Z)
  | EVENT_PORT_STOPPED (port_id : Z)
  | EVENT_PORT_PAUSED (port_id : Z)
  | EVENT_PORT_RESUMED (port_id : Z)
  | EVENT_PORT_FINISHED_TX (port_id : Z)
  | EVENT_PORT_FORCE_ACQUIRED (port_id : Z) (who : string) (session_id : Z).

(** [TrexStatelessPort] with what it has sent: the messages put on the rings of the
    cores, and the published events. *)
Record TrexStatelessPort : Type := mkPort {
  m_owner : TrexPortOwner;
  m_stream_table : TrexStreamTable;
  m_port_id : Z;
  m_port_state : Z;
  m_speed : driver_speed_e;
  m_cores_id_list : list Z;
  m_last_all_streams_continues : bool;
  m_last_duration : double;
  m_factor : double;
  m_dp_events : TrexDpPortEvents;
  m_graph_obj : option TrexStreamsGraphObj;
  sent : list (Z * cp_msg);
  published : list pub_event }.

(** Commands throw: the exception leaves the port as it was then. *)
Definition PortM (A : Type) : Type := TrexStatelessPort -> res A * TrexStatelessPort.
#[export] Instance port_ret : MRet PortM := fun A a p => (Ok a, p).
#[export] Instance port_bind : MBind PortM := fun A B k m p =>
  match m p with (Ok a, p) => k a p | (Err e, p) => (Err e, p) end.

Definition getp : PortM TrexStatelessPort := fun p => (Ok p, p).
Definition modify (f : TrexStatelessPort -> TrexStatelessPort) : PortM unit := fun p => (Ok tt, f p).
Definition lift {A} (r : res A) : PortM A := fun p => (r, p).

Definition set_owner (x : TrexPortOwner) (p : TrexStatelessPort) : TrexStatelessPort :=
  mkPort x (m_stream_table p) (m_port_id p) (m_port_state p) (m_speed p) (m_cores_id_list p)
    (m_last_all_streams_continues p) (m_last_duration p) (m_factor p) (m_dp_events p)
    (m_graph_obj p) (sent p) (published p).
Definition set_stream_table (x : TrexStreamTable) (p : TrexStatelessPort) : TrexStatelessPort :=
  mkPort (m_owner p) x (m_port_id p) (m_port_state p) (m_speed p) (m_cores_id_list p)
    (m_last_all_streams_continues p) (m_last_duration p) (m_factor p) (m_dp_events p)
    (m_graph_obj p) (sent p) (published p).
Definition change_state (x : Z) (p : TrexStatelessPort) : TrexStatelessPort :=
  mkPort (m_owner p) (m_stream_table p) (m_port_id p) x (m_speed p) (m_cores_id_list p)
    (m_last_all_streams_continues p) (m_last_duration p) (m_factor p) (m_dp_events p)
    (m_graph_obj p) (sent p) (published p).
Definition set_last (continues : bool) (duration : double) (p : TrexStatelessPort)
  : TrexStatelessPort :=
  mkPort (m_owner p) (m_stream_table p) (m_port_id p) (m_port_state p) (m_speed p)
    (m_cores_id_list p) continues duration (m_factor p) (m_dp_events p)
    (m_graph_obj p) (sent p) (published p).
Definition set_factor (x : double) (p : TrexStatelessPort) : TrexStatelessPort :=
  mkPort (m_owner p) (m_stream_table p) (m_port_id p) (m_port_state p) (m_speed p)
    (m_cores_id_list p) (m_last_all_streams_continues p) (m_last_duration p) x (m_dp_events p)
    (m_graph_obj p) (sent p) (published p).
Definition set_dp_events (x : TrexDpPortEvents) (p : TrexStatelessPort) : TrexStatelessPort :=
  mkPort (m_owner p) (m_stream_table p) (m_port_id p) (m_port_state p) (m_speed p)
    (m_cores_id_list p) (m_last_all_streams_continues p) (m_last_duration p) (m_factor p) x
    (m_graph_obj p) (sent p) (published p).
Definition set_graph_obj (x : option TrexStreamsGraphObj) (p : TrexStatelessPort)
  : TrexStatelessPort :=
  mkPort (m_owner p) (m_stream_table p) (m_port_id p) (m_port_state p) (m_speed p)
    (m_cores_id_list p) (m_last_all_streams_continues p) (m_last_duration p) (m_factor p)
    (m_dp_events p) x (sent p) (published p).
Definition add_sent (x : list (Z * cp_msg)) (p : TrexStatelessPort) : TrexStatelessPort :=
  mkPort (m_owner p) (m_stream_table p) (m_port_id p) (m_port_state p) (m_speed p)
    (m_cores_id_list p) (m_last_all_streams_continues p) (m_last_duration p) (m_factor p)
    (m_dp_events p) (m_graph_obj p) (sent p ++ x) (published p).
Definition publish_event (x : pub_event) (p : TrexStatelessPort) : TrexStatelessPort :=
  mkPort (m_owner p) (m_stream_table p) (m_port_id p) (m_port_state p) (m_speed p)
    (m_cores_id_list p) (m_last_all_streams_continues p) (m_last_duration p) (m_factor p)
    (m_dp_events p) (m_graph_obj p) (sent p) (published p ++ [x]).

Definition delete_streams_graph (p : TrexStatelessPort) : TrexStatelessPort := set_graph_obj None p.
Definition get_dp_core_count (p : TrexStatelessPort) : Z := u8 (zlength (m_cores_id_list p)).

Definition get_state_as_string (p : TrexStatelessPort) : string :=
  let st := m_port_state p in
  if st =? PORT_STATE_DOWN then "DOWN" else if st =? PORT_STATE_IDLE then "IDLE"
  else if st =? PORT_STATE_STREAMS then "STREAMS" else if st =? PORT_STATE_TX then "TX"
  else if st =? PORT_STATE_PAUSE then "PAUSE" else "UNKNOWN".

(** [verify_state], which throws unless told otherwise. *)
Definition verify_state (state : Z) : PortM unit :=
  p ← getp;
  if Z.land state (m_port_state p) =? 0 then
    lift (throw ("command cannot be executed on current state: '"
                 +:+ get_state_as_string p +:+ "'"))
  else mret tt.

Definition get_port_speed_bps (p : TrexStatelessPort) : Z :=
  match m_speed p with
  | SPEED_1G => 1000000000
  | SPEED_10G => 10000000000
  | SPEED_40G => 40000000000
  | SPEED_INVALID => 0
  end.

(** The constructor. [cores] is what the platform answers to [port_id_to_cores]; the
    members it leaves alone have some value. *)
Definition TrexStatelessPort_new (port_id : Z) (cores : list Z) (speed : driver_speed_e)
    (last_continues : bool) (last_duration factor : double) : TrexStatelessPort :=
  mkPort TrexPortOwner_new ∅ port_id PORT_STATE_IDLE speed cores last_continues last_duration
    factor (events_create cores) None [] [].

Section Port.
Context (malloc : Z -> option bytes) (compile_rand : nat -> nat -> Z).

(** ** Ownership *)

Definition acquire (rand : nat -> Z) (user : string) (session_id : Z) (force : bool) : PortM unit :=
  p ← getp;
  if m_is_free (m_owner p) then modify (set_owner (own rand user (m_owner p)))
  else if force then
    _ ← modify (set_owner (own rand user (m_owner p)));
    modify (publish_event (EVENT_PORT_FORCE_ACQUIRED (m_port_id p) user session_id))
  else if bool_decide (owner_get_name (m_owner p) = user) then
    lift (throw ("port is already owned by another session of '" +:+ user +:+ "'"))
  else
    lift (throw ("port is already taken by '" +:+ owner_get_name (m_owner p) +:+ "'")).

Definition release : PortM unit := modify (fun p => set_owner (owner_release (m_owner p)) p).

(** ** Messages to the cores *)

Definition send_message_to_dp (core_id : Z) (msg : cp_msg) : PortM unit :=
  modify (add_sent [(core_id, msg)]).

Fixpoint send_loop (cores : list Z) (msg : cp_msg) : PortM unit :=
  match cores with
  | [] => mret tt
  | c :: cores => _ ← send_message_to_dp c msg; send_loop cores msg
  end.
Definition send_message_to_all_dp (msg : cp_msg) : PortM unit :=
  p ← getp; send_loop (m_cores_id_list p) msg.

(** The loop of [start_traffic]: every core gets its own compiled object. *)
Fixpoint start_loop (cores : list Z) (index port_id event_id : Z)
    (objs : list TrexStreamsCompiledObj) (duration : double) : PortM unit :=
  match cores with
  | [] => mret tt
  | c :: cores =>
      obj ← lift (get_idx objs index);
      _ ← send_message_to_dp c (TrexStatelessDpStart port_id event_id obj duration);
      start_loop cores (index + 1) port_id event_id objs duration
  end.

(** ** The graph *)

Definition generate_streams_graph : PortM unit :=
  _ ← modify (fun p => match m_graph_obj p with Some _ => delete_streams_graph p | None => p end);
  p ← getp;
  g ← lift (graph_generate (get_object_list (m_stream_table p)));
  modify (set_graph_obj (Some g)).

Definition get_graph : PortM TrexStreamsGraphObj :=
  p ← getp;
  _ ← (match m_graph_obj p with None => generate_streams_graph | Some _ => mret tt end);
  p ← getp;
  lift (match m_graph_obj p with Some g => Ok g | None => Err NullDeref end).

Definition calculate_effective_factor (mul : TrexPortMultiplier) : PortM double :=
  match mul_type mul with
  | MUL_FACTOR => mret (mul_value mul)
  | MUL_BPS => g ← get_graph; mret (double_div (mul_value mul) (m_max_bps g))
  | MUL_PPS => g ← get_graph; mret (double_div (mul_value mul) (m_max_pps g))
  | MUL_PERCENTAGE =>
      g ← get_graph;
      p ← getp;
      let percent := double_div (mul_value mul) (double_of_Z 100) in
      if decide (mul_op mul = OP_ABS) then
        mret (double_div (double_mul percent (double_of_Z (get_port_speed_bps p))) (m_max_bps g))
      else mret (double_mul (m_factor p) percent)
  end.

(** ** Events *)

Definition port_events {A} (f : TrexDpPortEvents -> res (TrexDpPortEvents * A)) : PortM A :=
  p ← getp;
  '(ev, a) ← lift (f (m_dp_events p));
  _ ← modify (set_dp_events ev);
  mret a.

Definition port_generate_event_id : PortM Z :=
  port_events (fun ev => let '(id, ev) := generate_event_id ev in Ok (ev, id)).
Definition port_wait_for_event (i event_id : Z) : PortM unit :=
  port_events (fun ev => ev ← events_wait i event_id (-1) 0 ev; Ok (ev, tt)).
Definition port_disable_event (i : Z) : PortM unit :=
  port_events (fun ev => ev ← events_disable i ev; Ok (ev, tt)).

Definition on_dp_event_occured (event_type : Z) : PortM unit :=
  if event_type =? EVENT_STOP then
    _ ← modify (change_state PORT_STATE_STREAMS);
    p ← getp;
    modify (publish_event (EVENT_PORT_FINISHED_TX (m_port_id p)))
  else lift (Err AssertFail).

(** [TrexDpPortEventMsg::handle] for this port, at time [now]. *)
Definition handle_dp_event (now i thread_id event_id : Z) : PortM unit :=
  occurred ← port_events (events_handle i now thread_id event_id);
  if (occurred : bool) then on_dp_event_occured i else mret tt.

(** ** Traffic *)

Definition cp_start_traffic (mul : TrexPortMultiplier) (duration : double) : PortM unit :=
  _ ← verify_state PORT_STATE_STREAMS;
  _ ← modify delete_streams_graph;
  _ ← lift (c_assert (bool_decide (mul_op mul = OP_ABS)));
  factor ← calculate_effective_factor mul;
  p ← getp;
  rc ← lift (compile_all malloc compile_rand (m_port_id p) (get_object_list (m_stream_table p))
               (get_dp_core_count p) factor);
  match rc with
  | inl fail_msg => lift (throw fail_msg)
  | inr objs =>
      event_id ← port_generate_event_id;
      _ ← port_wait_for_event EVENT_STOP event_id;
      _ ← modify (set_factor factor);
      obj ← lift (get_idx objs 0);
      _ ← modify (set_last (m_all_continues obj) duration);
      _ ← modify (change_state PORT_STATE_TX);
      _ ← start_loop (m_cores_id_list p) 0 (m_port_id p) event_id objs duration;
      modify (publish_event (EVENT_PORT_STARTED (m_port_id p)))
  end.

Definition cp_stop_traffic : PortM unit :=
  p ← getp;
  if negb ((m_port_state p =? PORT_STATE_TX) || (m_port_state p =? PORT_STATE_PAUSE)) then mret tt
  else
    _ ← modify delete_streams_graph;
    _ ← port_disable_event EVENT_STOP;
    _ ← send_message_to_all_dp (TrexStatelessDpStop (m_port_id p) false 0 false);
    _ ← modify (change_state PORT_STATE_STREAMS);
    modify (publish_event (EVENT_PORT_STOPPED (m_port_id p))).

Definition cp_pause_traffic : PortM unit :=
  _ ← verify_state PORT_STATE_TX;
  p ← getp;
  if negb (m_last_all_streams_continues p) then
    lift (throw " pause is supported when all streams are in continues mode ")
  else if double_ltb (double_of_Z 0) (m_last_duration p) then
    lift (throw " pause is supported when duration is not enable is start command ")
  else
    _ ← send_message_to_all_dp (TrexStatelessDpPause (m_port_id p));
    _ ← modify (change_state PORT_STATE_PAUSE);
    modify (publish_event (EVENT_PORT_PAUSED (m_port_id p))).

Definition cp_resume_traffic : PortM unit :=
  _ ← verify_state PORT_STATE_PAUSE;
  p ← getp;
  _ ← send_message_to_all_dp (TrexStatelessDpResume (m_port_id p));
  _ ← modify (change_state PORT_STATE_TX);
  modify (publish_event (EVENT_PORT_RESUMED (m_port_id p))).

(** The factor [update_traffic] multiplies the rates by. *)
Definition update_factor (op : mul_op_e) (m_factor new_factor : double) : res double :=
  match op with
  | OP_ABS => Ok (double_div new_factor m_factor)
  | OP_ADD => Ok (double_div (double_add m_factor new_factor) m_factor)
  | OP_SUB =>
      let factor := double_div (double_sub m_factor new_factor) m_factor in
      if double_leb factor (double_of_Z 0)
      then throw "Update request will lower traffic to less than zero" else Ok factor
  end.

Definition cp_update_traffic (mul : TrexPortMultiplier) : PortM unit :=
  _ ← verify_state (Z.lor PORT_STATE_TX PORT_STATE_PAUSE);
  new_factor ← calculate_effective_factor mul;
  p ← getp;
  factor ← lift (update_factor (mul_op mul) (m_factor p) new_factor);
  _ ← send_message_to_all_dp (TrexStatelessDpUpdate (m_port_id p) factor);
  modify (fun p => set_factor (double_mul (m_factor p) factor) p).

Definition validate : PortM TrexStreamsGraphObj :=
  p ← getp;
  let streams := get_object_list (m_stream_table p) in
  if zlength streams =? 0 then lift (throw "no streams attached to port")
  else
    rc ← lift (compile_all malloc compile_rand (m_port_id p) streams (get_dp_core_count p)
                 (double_of_Z 1));
    match rc with
    | inl fail_msg => lift (throw fail_msg)
    | inr _ => get_graph
    end.

(** ** Streams *)

Definition port_add_stream (s : TrexStream) : PortM unit :=
  _ ← verify_state (Z.lor PORT_STATE_IDLE PORT_STATE_STREAMS);
  _ ← modify (fun p => set_stream_table (table_add_stream s (m_stream_table p)) p);
  _ ← modify delete_streams_graph;
  modify (change_state PORT_STATE_STREAMS).

Definition port_remove_stream (s : TrexStream) : PortM unit :=
  _ ← verify_state PORT_STATE_STREAMS;
  _ ← modify (fun p => set_stream_table (remove_stream s (m_stream_table p)) p);
  _ ← modify delete_streams_graph;
  p ← getp;
  if table_size (m_stream_table p) =? 0 then modify (change_state PORT_STATE_IDLE) else mret tt.

Definition port_remove_and_delete_all_streams : PortM unit :=
  _ ← verify_state (Z.lor PORT_STATE_IDLE PORT_STATE_STREAMS);
  _ ← modify (fun p => set_stream_table (remove_and_delete_all_streams (m_stream_table p)) p);
  _ ← modify delete_streams_graph;
  modify (change_state PORT_STATE_IDLE).
End Port.

(** ** All ports *)

(** [TrexStateless::get_port_by_id]: the ports are numbered from 0. *)
Definition get_port_by_id (ports : list TrexStatelessPort) (port_id : Z) : res TrexStatelessPort :=
  if u8 (zlength ports) <=? port_id then throw "index out of range" else get_idx ports port_id.

(** [TrexDpPortEventMsg::handle] *)
Definition dp_event_msg_handle (now : Z) (msg : TrexDpPortEventMsg) (ports : list TrexStatelessPort)
  : res unit * list TrexStatelessPort :=
  match get_port_by_id ports (pe_port_id msg) with
  | Err e => (Err e, ports)
  | Ok p =>
      let '(r, p) := handle_dp_event now EVENT_STOP (pe_thread_id msg) (pe_event_id msg) p in
      (r, <[Z.to_nat (pe_port_id msg) := p]> ports)
  end.
