(* ===== verification/StatelessPortFacts.v ===== *)
(** * Stateless port: rules and invariant

    A small program logic for the commands of a port, which throw, and the invariant
    every command keeps. *)

From S2P Require Import Prelude Double ByteMem StreamVm TrexStream StreamsCompiler StreamsGraph DpNode DpCore PortEvents StatelessPort.

(** ** Triples *)

(** From [P] the command ends in [Q], or throws in [E]; other faults end the
    process. *)
Definition triple {A} (P : TrexStatelessPort -> Prop) (m : PortM A)
    (Q : A -> TrexStatelessPort -> Prop) (E : TrexStatelessPort -> Prop) : Prop :=
  forall p, P p ->
    match m p with
    | (Ok a, p') => Q a p'
    | (Err (Thrown _), p') => E p'
    | (Err _, _) => True
    end.

Lemma triple_bind {A B} P (m : PortM A) R (k : A -> PortM B) Q E :
  triple P m R E -> (forall a, triple (R a) (k a) Q E) -> triple P (m ≫= k) Q E.
Proof.
  intros Hm Hk p Hp. specialize (Hm p Hp). unfold mbind, port_bind.
  destruct (m p) as [[a|[]] p']; try done. by apply Hk.
Qed.

Lemma triple_ret {A} (P : TrexStatelessPort -> Prop) (a : A) (Q : A -> TrexStatelessPort -> Prop) E :
  (forall p, P p -> Q a p) -> triple P (mret a) Q E.
Proof. intros H p Hp. by apply H. Qed.

Lemma triple_modify P f (Q : unit -> TrexStatelessPort -> Prop) E :
  (forall p, P p -> Q tt (f p)) -> triple P (modify f) Q E.
Proof. intros H p Hp. by apply H. Qed.

Lemma triple_getp P (Q : TrexStatelessPort -> TrexStatelessPort -> Prop) E :
  (forall p, P p -> Q p p) -> triple P getp Q E.
Proof. intros H p Hp. by apply H. Qed.

Lemma triple_lift {A} P (r : res A) (Q : A -> TrexStatelessPort -> Prop) (E : TrexStatelessPort -> Prop) :
  (forall p a, P p -> r = Ok a -> Q a p) -> (forall p s, P p -> r = Err (Thrown s) -> E p) ->
  triple P (lift r) Q E.
Proof. intros HQ HE p Hp. unfold lift. destruct r as [a|[]]; naive_solver. Qed.

Lemma triple_conseq {A} (P P' : TrexStatelessPort -> Prop) (m : PortM A) Q Q' (E E' : TrexStatelessPort -> Prop) :
  triple P' m Q' E' -> (forall p, P p -> P' p) -> (forall a p, Q' a p -> Q a p) ->
  (forall p, E' p -> E p) -> triple P m Q E.
Proof.
  intros Hm HP HQ HE p Hp. specialize (Hm p (HP p Hp)).
  destruct (m p) as [[a|[]] p']; auto.
Qed.

(** ** The invariant *)

Definition count_false (m : gmap Z bool) : Z := Z.of_nat (size (filter (fun x => x.2 = false) m)).

Definition stop_event_of (p : TrexStatelessPort) : TrexDpPortEvent :=
  default raw_event (m_events (m_dp_events p) !! 1%nat).

Definition running (st : Z) : Prop := st = PORT_STATE_TX \/ st = PORT_STATE_PAUSE.

(** The stop event of a port with the cores [cores], whose counter is [n]. *)
Record events_ok (cores : list Z) (ev : TrexDpPortEvents) : Prop := {
  ev_len : length (m_events ev) = 2%nat;
  ev_dom e : e ∈ m_events ev -> dom (m_signal e) = list_to_set cores;
  ev_counter : -1 <= m_event_id_counter ev;
  ev_pending e : m_events ev !! 1%nat = Some e -> m_event_id e ≠ EVENT_ID_INVALID ->
    m_event_id e = m_event_id_counter ev /\ m_pending_cnt e = count_false (m_signal e) /\
    (cores ≠ [] -> 0 < m_pending_cnt e) }.

Record port_ok (p : TrexStatelessPort) : Prop := {
  po_events : events_ok (m_cores_id_list p) (m_dp_events p);
  po_state : m_port_state p = PORT_STATE_IDLE \/ m_port_state p = PORT_STATE_STREAMS \/
             running (m_port_state p);
  po_table : m_port_state p = PORT_STATE_IDLE <-> m_stream_table p = ∅;
  po_active : running (m_port_state p) <-> m_event_id (stop_event_of p) ≠ EVENT_ID_INVALID }.

(** Everything the invariant speaks of. *)
Definition same_view (p p' : TrexStatelessPort) : Prop :=
  m_cores_id_list p' = m_cores_id_list p /\ m_dp_events p' = m_dp_events p /\
  m_port_state p' = m_port_state p /\ m_stream_table p' = m_stream_table p.

Lemma same_view_ok p p' : same_view p p' -> port_ok p -> port_ok p'.
Proof.
  intros (Hc & He & Hs & Ht) []. split; rewrite ?Hc, ?Hs, ?Ht; try done; [by rewrite He|].
  unfold stop_event_of. by rewrite He.
Qed.

(** A command that changes nothing the invariant speaks of. *)
Definition quiet {A} (m : PortM A) : Prop := forall p, same_view p (m p).2.

Lemma quiet_bind {A B} (m : PortM A) (k : A -> PortM B) :
  quiet m -> (forall a, quiet (k a)) -> quiet (m ≫= k).
Proof.
  intros Hm Hk p. specialize (Hm p). unfold mbind, port_bind.
  destruct (m p) as [[a|e] p']; [|done]. simpl in Hm. specialize (Hk a p').
  destruct Hm as (? & ? & ? & ?), Hk as (? & ? & ? & ?). split_and!; congruence.
Qed.
Lemma quiet_ret {A} (a : A) : quiet (mret a). Proof. done. Qed.
Lemma quiet_getp : quiet getp. Proof. done. Qed.
Lemma quiet_lift {A} (r : res A) : quiet (lift r). Proof. done. Qed.
Lemma quiet_modify f : (forall p, same_view p (f p)) -> quiet (modify f). Proof. done. Qed.

Lemma quiet_triple {A} (m : PortM A) (V : TrexStatelessPort -> Prop) :
  quiet m -> (forall p p', same_view p p' -> V p -> V p') -> triple V m (fun _ => V) V.
Proof.
  intros Hq HV p Hp. specialize (Hq p). destruct (m p) as [[a|[]] p']; try done; by eapply HV.
Qed.

Create HintDb quiet.
#[export] Hint Resolve quiet_ret quiet_getp quiet_lift : quiet.
#[export] Hint Extern 1 (quiet (modify _)) =>
  (apply quiet_modify; intros []; done) : quiet.
#[export] Hint Extern 1 (quiet (_ ≫= _)) => (apply quiet_bind; [|intros]) : quiet.

Lemma send_quiet cores msg : quiet (send_loop cores msg).
Proof. induction cores; simpl; unfold send_message_to_dp; auto with quiet. Qed.
Lemma send_all_quiet msg : quiet (send_message_to_all_dp msg).
Proof. unfold send_message_to_all_dp. pose proof send_quiet. auto with quiet. Qed.
Lemma start_loop_quiet cores : forall i port_id event_id objs d,
  quiet (start_loop cores i port_id event_id objs d).
Proof. induction cores; intros; simpl; unfold send_message_to_dp; auto with quiet. Qed.

Lemma get_graph_quiet : quiet get_graph.
Proof.
  unfold get_graph, generate_streams_graph. apply quiet_bind; [auto with quiet|]. intros p.
  apply quiet_bind; [|auto with quiet]. destruct (m_graph_obj p); [auto with quiet|].
  apply quiet_bind; [|intros; auto with quiet].
  apply quiet_modify. intros q. by destruct (m_graph_obj q).
Qed.

Lemma factor_quiet mul : quiet (calculate_effective_factor mul).
Proof.
  unfold calculate_effective_factor. pose proof get_graph_quiet.
  destruct (mul_type mul); auto with quiet.
  apply quiet_bind; [done|]. intros. apply quiet_bind; [auto with quiet|]. intros.
  destruct (decide _); auto with quiet.
Qed.
#[export] Hint Resolve send_all_quiet start_loop_quiet get_graph_quiet factor_quiet : quiet.

Lemma acquire_quiet rand user sid force : quiet (acquire rand user sid force).
Proof.
  unfold acquire. apply quiet_bind; [auto with quiet|]. intros p.
  destruct (m_is_free (m_owner p)); [auto with quiet|].
  destruct force; [auto with quiet|]. destruct (bool_decide _); auto with quiet.
Qed.

Lemma validate_quiet malloc rand : quiet (validate malloc rand).
Proof.
  unfold validate. apply quiet_bind; [auto with quiet|]. intros p.
  destruct (_ =? 0); [auto with quiet|]. apply quiet_bind; [auto with quiet|]. intros [|]; auto with quiet.
Qed.

(** ** Events *)

Lemma foldl_dom (l : list Z) : forall m : gmap Z bool,
  dom (foldl (fun m c => <[c := false]> m) m l) = dom m ∪ list_to_set l.
Proof. induction l as [|c l IH]; intros m; simpl; [set_solver|]. rewrite IH. set_solver. Qed.

Lemma events_create_ok cores : events_ok cores (events_create cores).
Proof.
  split; simpl; try done.
  - intros e. rewrite !elem_of_cons. intros [-> |[-> |[]%elem_of_nil]]; simpl;
      rewrite foldl_dom; set_solver.
  - intros e [= <-]. done.
Qed.

Lemma events_two cores ev :
  events_ok cores ev -> exists e0 e1, m_events ev = [e0; e1] /\
    dom (m_signal e0) = list_to_set cores /\ dom (m_signal e1) = list_to_set cores.
Proof.
  intros []. destruct (m_events ev) as [|e0 [|e1 [|]]] eqn:E; try done. exists e0, e1.
  split; [done|]. split; apply ev_dom0; set_solver.
Qed.

Lemma count_false_fmap (m : gmap Z bool) :
  count_false ((fun _ => false) <$> m) = Z.of_nat (size m).
Proof.
  unfold count_false. f_equal. rewrite <- (map_size_fmap (fun _ => false) m). f_equal.
  apply map_filter_id. by intros k x (? & <- & _)%lookup_fmap_Some.
Qed.

Lemma events_wait_ok cores ev id :
  events_ok cores ev -> exists e0 e1, m_events ev = [e0; e1] /\
    events_wait EVENT_STOP id (-1) 0 ev =
      Ok (mkDpPortEvents [event_disable e0; event_wait id (-1) 0 (event_disable e1)]
            (m_event_id_counter ev)).
Proof.
  intros Hev. destruct (events_two _ _ Hev) as (e0 & e1 & He & _). exists e0, e1.
  split; [done|]. unfold events_wait, update_event. simpl. by rewrite He.
Qed.

Lemma events_disable_ok cores ev :
  events_ok cores ev -> exists e0 e1, m_events ev = [e0; e1] /\
    events_disable EVENT_STOP ev
      = Ok (mkDpPortEvents [e0; event_disable e1] (m_event_id_counter ev)).
Proof.
  intros Hev. destruct (events_two _ _ Hev) as (e0 & e1 & He & _). exists e0, e1.
  split; [done|]. unfold events_disable, update_event. by rewrite He.
Qed.

(** One signal: ignored, or counted once. *)
Lemma count_false_mark (m : gmap Z bool) k :
  m !! k = Some false -> count_false (<[k := true]> m) = count_false m - 1.
Proof.
  intros Hk. unfold count_false. rewrite map_filter_insert_False by done.
  rewrite map_filter_delete, map_size_delete_Some by (exists false; by apply map_lookup_filter_Some).
  assert (size (filter (fun x : Z * bool => x.2 = false) m) ≠ 0%nat); [|lia].
  intros H0%map_size_empty_inv. assert (filter (fun x : Z * bool => x.2 = false) m !! k = Some false)
    as Hf by by apply map_lookup_filter_Some. by rewrite H0, lookup_empty in Hf.
Qed.

Lemma count_false_zero (m : gmap Z bool) :
  count_false m = 0 <-> forall k, k ∈ dom m -> m !! k = Some true.
Proof.
  unfold count_false. split.
  - intros H0 k [b Hb]%elem_of_dom. destruct b; [done|]. exfalso.
    assert (filter (fun x : Z * bool => x.2 = false) m = ∅) as He by (apply map_size_empty_inv; lia).
    assert (filter (fun x : Z * bool => x.2 = false) m !! k = Some false) as Hf
      by by apply map_lookup_filter_Some.
    by rewrite He, lookup_empty in Hf.
  - intros Hall. assert (filter (fun x : Z * bool => x.2 = false) m = ∅) as ->; [|done].
    apply map_empty. intros k. apply map_lookup_filter_None. right. intros b Hb. simpl. intros ->.
    rewrite Hall in Hb; [done|]. by apply elem_of_dom_2 in Hb.
Qed.

(** An event that waits for number [id], with the count it should have. *)
Definition waiting (id : Z) (e : TrexDpPortEvent) : Prop :=
  m_event_id e = id /\ id ≠ EVENT_ID_INVALID /\ m_pending_cnt e = count_false (m_signal e) /\
  0 < m_pending_cnt e.

Definition marked (t : Z) (e : TrexDpPortEvent) : TrexDpPortEvent :=
  mkDpPortEvent (m_event_type e) (<[t := true]> (m_signal e))
    (count_false (<[t := true]> (m_signal e))) (m_event_id e) (m_expire_limit_ms e).

Lemma is_active_iff now e : event_is_active now e = negb (m_event_id e =? EVENT_ID_INVALID).
Proof.
  unfold event_is_active, event_status. destruct (m_event_id e =? EVENT_ID_INVALID); [done|].
  destruct (_ =? 0); [done|]. by destruct (_ && _).
Qed.

Lemma event_handle_stale now t i e :
  m_event_id e = EVENT_ID_INVALID \/ i ≠ m_event_id e -> event_handle now t i e = Ok (e, false).
Proof.
  intros Hst. unfold event_handle. rewrite is_active_iff.
  destruct (m_event_id e =? EVENT_ID_INVALID) eqn:E; [done|]. simpl.
  assert (i =? m_event_id e = false) as -> by lia. done.
Qed.

Lemma event_handle_current now t id e :
  waiting id e -> t ∈ dom (m_signal e) ->
  event_handle now t id e =
    if count_false (<[t := true]> (m_signal e)) =? 0
    then Ok (event_disable (marked t e), true) else Ok (marked t e, false).
Proof.
  intros (Hid & Hv & Hp & Hpos) [b Hb]%elem_of_dom. unfold event_handle. rewrite is_active_iff, Hid.
  assert (id =? EVENT_ID_INVALID = false) as -> by by apply Z.eqb_neq.
  rewrite Z.eqb_refl, Hb. simpl. destruct b.
  - assert (Hsame : <[t := true]> (m_signal e) = m_signal e) by by apply insert_id.
    assert (marked t e = e) as ->.
    { unfold marked. rewrite Hsame, <- Hp. by destruct e. }
    rewrite Hsame, <- Hp. done.
  - unfold marked. rewrite count_false_mark, Hid, <- Hp by done. done.
Qed.

Lemma list_to_set_nonempty (cores : list Z) : cores ≠ [] -> (list_to_set cores : gset Z) ≠ ∅.
Proof. destruct cores; [done|]. set_solver. Qed.

Lemma event_disable_dom cores e : dom (m_signal e) = list_to_set cores ->
  dom (m_signal (event_disable e)) = (list_to_set cores : gset Z).
Proof. done. Qed.

(** The events of a port as its three operations leave them. *)
Lemma wait_events_ok cores ev id :
  events_ok cores ev -> id = m_event_id_counter ev ->
  forall ev', events_wait EVENT_STOP id (-1) 0 ev = Ok ev' ->
  events_ok cores ev' /\ m_event_id_counter ev' = m_event_id_counter ev /\
  exists e, m_events ev' !! 1%nat = Some e /\ m_event_id e = id /\
    forall c, c ∈ cores -> m_signal e !! c = Some false.
Proof.
  intros Hev -> ev' Hrun. destruct (events_two _ _ Hev) as (e0 & e1 & He & Hd0 & Hd1).
  destruct (events_wait_ok cores ev (m_event_id_counter ev) Hev) as (e0' & e1' & He' & Hrun').
  rewrite He in He'. injection He' as <- <-. rewrite Hrun in Hrun'. injection Hrun' as ->.
  assert (Hdw : dom (m_signal (event_wait (m_event_id_counter ev) (-1) 0 (event_disable e1)))
    = (list_to_set cores : gset Z)) by (simpl; by rewrite dom_fmap_L).
  split; [split; simpl|].
  - done.
  - intros e. rewrite !elem_of_cons. intros [-> |[-> |[]%elem_of_nil]]; done.
  - apply (ev_counter _ _ Hev).
  - intros e [= <-] _. simpl. split; [done|]. rewrite count_false_fmap. split; [done|].
    intros Hne. destruct (decide (size (m_signal e1) = 0%nat)) as [H0%map_size_empty_inv|]; [|lia].
    exfalso. apply (list_to_set_nonempty cores Hne). by rewrite <- Hd1, H0, dom_empty_L.
  - split; [done|]. eexists. split; [done|]. split; [done|]. intros c Hc. simpl.
    apply lookup_fmap_Some. assert (c ∈ dom (m_signal e1)) as [b Hb]%elem_of_dom by (rewrite Hd1; set_solver).
    eauto.
Qed.

Lemma disable_events_ok cores ev ev' :
  events_ok cores ev -> events_disable EVENT_STOP ev = Ok ev' ->
  events_ok cores ev' /\
  exists e, m_events ev' !! 1%nat = Some e /\ m_event_id e = EVENT_ID_INVALID.
Proof.
  intros Hev Hrun. destruct (events_two _ _ Hev) as (e0 & e1 & He & Hd0 & Hd1).
  destruct (events_disable_ok cores ev Hev) as (e0' & e1' & He' & Hrun').
  rewrite He in He'. injection He' as <- <-. rewrite Hrun in Hrun'. injection Hrun' as ->.
  split; [split; simpl|eexists; split; done].
  - done.
  - intros e. rewrite !elem_of_cons. intros [-> |[-> |[]%elem_of_nil]]; done.
  - apply (ev_counter _ _ Hev).
  - by intros e [= <-].
Qed.

Lemma generate_id_ok cores ev :
  events_ok cores ev -> m_event_id_counter ev < 2147483647 ->
  (forall e, m_events ev !! 1%nat = Some e -> m_event_id e = EVENT_ID_INVALID) ->
  let '(id, ev') := generate_event_id ev in
  id = m_event_id_counter ev + 1 /\ id ≠ EVENT_ID_INVALID /\ events_ok cores ev' /\
  m_event_id_counter ev' = id /\ m_events ev' = m_events ev.
Proof.
  intros Hev Hlt Hoff. pose proof (ev_counter _ _ Hev). unfold generate_event_id.
  assert (Hid : s32 (m_event_id_counter ev + 1) = m_event_id_counter ev + 1) by word_lia.
  rewrite Hid. split; [done|]. split; [unfold EVENT_ID_INVALID; lia|].
  split; [|done]. destruct Hev. split; simpl; try done; [lia|].
  intros e He Hne. by rewrite Hoff in Hne.
Qed.

Lemma marked_ok cores ev e0 e1 t :
  events_ok cores ev -> m_events ev = [e0; e1] -> t ∈ dom (m_signal e1) ->
  waiting (m_event_id e1) e1 -> count_false (<[t := true]> (m_signal e1)) ≠ 0 ->
  events_ok cores (mkDpPortEvents [e0; marked t e1] (m_event_id_counter ev)).
Proof.
  intros Hev He Ht Hw Hne. destruct (events_two _ _ Hev) as (? & ? & He' & Hd0 & Hd1).
  rewrite He in He'. injection He' as <- <-.
  split; simpl; try done.
  - intros e. rewrite !elem_of_cons. intros [-> |[-> |[]%elem_of_nil]]; [done|]. simpl.
    rewrite dom_insert_L. set_solver.
  - apply (ev_counter _ _ Hev).
  - intros e [= <-] Hv. simpl in *. split; [|split; [done|]].
    + apply (ev_pending _ _ Hev); [by rewrite He|done].
    + intros _. unfold count_false in *. lia.
Qed.

Lemma disabled_ok cores ev e0 e1 t :
  events_ok cores ev -> m_events ev = [e0; e1] -> t ∈ dom (m_signal e1) ->
  events_ok cores (mkDpPortEvents [e0; event_disable (marked t e1)] (m_event_id_counter ev)).
Proof.
  intros Hev He Ht. destruct (events_two _ _ Hev) as (? & ? & He' & Hd0 & Hd1).
  rewrite He in He'. injection He' as <- <-.
  split; simpl; try done.
  - intros e. rewrite !elem_of_cons. intros [-> |[-> |[]%elem_of_nil]]; [done|]. simpl.
    rewrite dom_insert_L. set_solver.
  - apply (ev_counter _ _ Hev).
  - by intros e [= <-].
Qed.
