(* ===== verification/StatelessPortThms.v ===== *)
(** * Stateless port: theorems

    The states a port can reach, and the protocol by which the cores of the data
    path end a run. *)

From S2P Require Import Prelude Double ByteMem StreamVm TrexStream StreamsCompiler StreamsGraph DpNode DpCore PortEvents StatelessPort StatelessPortFacts.

Section Port.
Context (malloc : Z -> option bytes) (compile_rand : nat -> nat -> Z).

(** What can happen to a port: the commands of its users and the signals of the
    data path. *)
Inductive port_cmd : Type :=
  | Acquire (rand : nat -> Z) (user : string) (session_id : Z) (force : bool)
  | Release
  | AddStream (s : TrexStream)
  | RemoveStream (s : TrexStream)
  | RemoveAllStreams
  | Validate
  | Start (mul : TrexPortMultiplier) (duration : double)
  | Stop
  | Pause
  | Resume
  | Update (mul : TrexPortMultiplier)
  | Signal (now thread_id event_id : Z).

Definition run_cmd (c : port_cmd) : PortM unit :=
  match c with
  | Acquire rand user session_id force => acquire rand user session_id force
  | Release => release
  | AddStream s => port_add_stream s
  | RemoveStream s => port_remove_stream s
  | RemoveAllStreams => port_remove_and_delete_all_streams
  | Validate => _ ← validate malloc compile_rand; mret tt
  | Start mul duration => cp_start_traffic malloc compile_rand mul duration
  | Stop => cp_stop_traffic
  | Pause => cp_pause_traffic
  | Resume => cp_resume_traffic
  | Update mul => cp_update_traffic mul
  | Signal now thread_id event_id => handle_dp_event now EVENT_STOP thread_id event_id
  end.

(** A step ends, or throws and is reported to the user. A port that was started
    2^31 - 1 times is not started again. *)
Definition returned {A} (r : res A) : Prop :=
  match r with Ok _ | Err (Thrown _) => True | Err _ => False end.

Inductive port_step : TrexStatelessPort -> TrexStatelessPort -> Prop :=
  | port_step_cmd c p r p' :
      run_cmd c p = (r, p') -> returned r ->
      m_event_id_counter (m_dp_events p) < 2147483647 -> port_step p p'.

Inductive port_reachable (port_id : Z) (cores : list Z) (speed : driver_speed_e)
    (lc : bool) (ld fa : double) : TrexStatelessPort -> Prop :=
  | reachable_new :
      port_reachable port_id cores speed lc ld fa
        (TrexStatelessPort_new port_id cores speed lc ld fa)
  | reachable_step p p' :
      port_reachable port_id cores speed lc ld fa p -> port_step p p' ->
      port_reachable port_id cores speed lc ld fa p'.

Lemma quiet_ok {A} (m : PortM A) p r p' :
  quiet m -> port_ok p -> m p = (r, p') -> port_ok p'.
Proof. intros Hq Hp Hr. specialize (Hq p). rewrite Hr in Hq. by eapply same_view_ok. Qed.

Ltac run := unfold mbind, port_bind, getp, modify, lift, mret, port_ret; cbn beta iota.

Lemma verify_state_run st p :
  verify_state st p =
    if Z.land st (m_port_state p) =? 0
    then (throw ("command cannot be executed on current state: '" +:+ get_state_as_string p +:+ "'"), p)
    else (Ok tt, p).
Proof. unfold verify_state. run. by destruct (_ =? 0). Qed.

Lemma bind_run {A B} (m : PortM A) (k : A -> PortM B) p r p' :
  (m ≫= k) p = (r, p') ->
  (exists a p1, m p = (Ok a, p1) /\ k a p1 = (r, p')) \/ (exists e, m p = (Err e, p') /\ r = Err e).
Proof.
  unfold mbind, port_bind. destruct (m p) as [[a|e] p1]; [by left; eauto|].
  intros [= <- <-]. right. eauto.
Qed.

(** The first command of a sequence has run, or its failure is the result. *)
Ltac step H E a q := apply bind_run in H as [(a & q & E & H)|(a & E & ->)].

(** A port that may change its streams does not run. *)
Lemma not_running_event p :
  port_ok p -> ~ running (m_port_state p) -> m_event_id (stop_event_of p) = EVENT_ID_INVALID.
Proof.
  intros Hp Hn. destruct (decide (m_event_id (stop_event_of p) = EVENT_ID_INVALID)) as [|Hne]; [done|].
  exfalso. apply Hn. by apply (po_active p Hp).
Qed.

Lemma streams_state_ok p st t g :
  port_ok p -> ~ running (m_port_state p) ->
  (st = PORT_STATE_STREAMS /\ t ≠ ∅ \/ st = PORT_STATE_IDLE /\ t = ∅) ->
  port_ok (change_state st (set_graph_obj g (set_stream_table t p))).
Proof.
  intros Hp Hn Hst. pose proof (not_running_event p Hp Hn) as Hev.
  split; cbn [m_cores_id_list m_dp_events m_port_state m_stream_table change_state set_graph_obj set_stream_table].
  - apply Hp.
  - destruct Hst as [[-> _]|[-> _]]; auto.
  - destruct Hst as [[-> Ht]|[-> ->]]; [|done]. split; [done|]. intros He. by destruct Ht.
  - change (stop_event_of _) with (stop_event_of p). rewrite Hev.
    split; [|done]. intros [Hr|Hr]; destruct Hst as [[-> _]|[-> _]]; done.
Qed.

Lemma idle_or_streams p :
  port_ok p -> Z.land (Z.lor PORT_STATE_IDLE PORT_STATE_STREAMS) (m_port_state p) =? 0 = false ->
  ~ running (m_port_state p).
Proof. intros Hp Hl [Hr|Hr]; by rewrite Hr in Hl. Qed.

Lemma streams_only p :
  port_ok p -> Z.land PORT_STATE_STREAMS (m_port_state p) =? 0 = false ->
  m_port_state p = PORT_STATE_STREAMS.
Proof. intros Hp Hl. destruct (po_state p Hp) as [Hs|[Hs|[Hs|Hs]]]; [|done|..]; by rewrite Hs in Hl. Qed.

Lemma add_stream_ok s p r p' : port_ok p -> port_add_stream s p = (r, p') -> port_ok p'.
Proof.
  intros Hp. unfold port_add_stream. run. rewrite verify_state_run.
  destruct (_ =? 0) eqn:E; intros [= <- <-]; [done|].
  pose proof (idle_or_streams p Hp E) as Hn. unfold delete_streams_graph. simpl.
  apply streams_state_ok; [done..|]. left. split; [done|]. unfold table_add_stream.
  apply insert_non_empty.
Qed.

Lemma remove_stream_ok s p r p' : port_ok p -> port_remove_stream s p = (r, p') -> port_ok p'.
Proof.
  intros Hp. unfold port_remove_stream. run. rewrite verify_state_run.
  destruct (Z.land _ _ =? 0) eqn:E; [by intros [= <- <-]|].
  pose proof (streams_only p Hp E) as Hs.
  assert (Hn : ~ running (m_port_state p)) by (rewrite Hs; by intros []).
  unfold delete_streams_graph. simpl. set (t := remove_stream s (m_stream_table p)).
  unfold table_size. destruct (Z.of_nat (size t) =? 0) eqn:Et; intros [= <- <-].
  - apply streams_state_ok; [done..|]. right. split; [done|]. apply map_size_empty_inv. lia.
  - pose proof (streams_state_ok p PORT_STATE_STREAMS t None Hp Hn) as Hok.
    unfold change_state in Hok. simpl in Hok. rewrite <- Hs in Hok.
    apply Hok. left. split; [done|]. intros He. by rewrite He, map_size_empty in Et.
Qed.

Lemma remove_all_ok p r p' :
  port_ok p -> port_remove_and_delete_all_streams p = (r, p') -> port_ok p'.
Proof.
  intros Hp. unfold port_remove_and_delete_all_streams. run. rewrite verify_state_run.
  destruct (_ =? 0) eqn:E; intros [= <- <-]; [done|].
  pose proof (idle_or_streams p Hp E) as Hn. unfold delete_streams_graph. simpl.
  apply streams_state_ok; [done..|]. by right.
Qed.

(** ** Runs *)

Lemma get_idx_thrown {A} (l : list A) i s : get_idx l i ≠ Err (Thrown s).
Proof. unfold get_idx. case_decide; [|done]. by destruct (_ !! _). Qed.

Lemma start_loop_thrown cores : forall i port_id event_id objs d p s p',
  start_loop cores i port_id event_id objs d p ≠ (Err (Thrown s), p').
Proof.
  induction cores as [|c cores IH]; intros; simpl; [done|]. unfold lift, send_message_to_dp. run.
  pose proof (get_idx_thrown objs i s) as Hn. destruct (get_idx objs i) as [o|e]; [apply IH|].
  intros [= -> _]. done.
Qed.

(** A command that publishes nothing, and is of the same port. *)
Definition silent {A} (m : PortM A) : Prop :=
  forall p, published (m p).2 = published p /\ m_port_id (m p).2 = m_port_id p.

Lemma silent_bind {A B} (m : PortM A) (k : A -> PortM B) :
  silent m -> (forall a, silent (k a)) -> silent (m ≫= k).
Proof.
  intros Hm Hk p. specialize (Hm p). unfold mbind, port_bind.
  destruct (m p) as [[a|e] p']; [|done]. simpl in Hm. specialize (Hk a p').
  destruct Hm, Hk. split; congruence.
Qed.

Lemma start_loop_silent cores : forall i port_id event_id objs d,
  silent (start_loop cores i port_id event_id objs d).
Proof.
  induction cores as [|c cores IH]; intros; simpl; [done|]. apply silent_bind; [done|]. intros.
  by apply silent_bind.
Qed.

Lemma send_silent cores msg : silent (send_loop cores msg).
Proof. induction cores; simpl; [done|]. by apply silent_bind. Qed.

Lemma get_graph_silent : silent get_graph.
Proof.
  unfold get_graph, generate_streams_graph. apply silent_bind; [done|]. intros p.
  apply silent_bind; [|done]. destruct (m_graph_obj p); [done|].
  apply silent_bind; [intros q; simpl; by destruct (m_graph_obj q)|]. intros _.
  apply silent_bind; [done|]. intros q. by apply silent_bind.
Qed.

Lemma factor_silent mul : silent (calculate_effective_factor mul).
Proof.
  unfold calculate_effective_factor. pose proof get_graph_silent.
  destruct (mul_type mul); [done|by apply silent_bind..|].
  apply silent_bind; [done|]. intros. apply silent_bind; [done|]. intros. by destruct (decide _).
Qed.

(** What a successful start leaves: the port runs and waits for a new number, which
    no core has signalled. *)
Definition fresh_run (p p' : TrexStatelessPort) : Prop :=
  m_port_state p = PORT_STATE_STREAMS /\ m_port_state p' = PORT_STATE_TX /\
  m_cores_id_list p' = m_cores_id_list p /\ m_stream_table p' = m_stream_table p /\
  published p' = published p ++ [EVENT_PORT_STARTED (m_port_id p)] /\
  events_ok (m_cores_id_list p) (m_dp_events p') /\
  m_event_id_counter (m_dp_events p') = m_event_id_counter (m_dp_events p) + 1 /\
  exists e, m_events (m_dp_events p') !! 1%nat = Some e /\
    m_event_id e = m_event_id_counter (m_dp_events p) + 1 /\
    forall c, c ∈ m_cores_id_list p -> m_signal e !! c = Some false.

Lemma port_start_spec mul duration p r p' :
  port_ok p -> m_event_id_counter (m_dp_events p) < 2147483647 ->
  cp_start_traffic malloc compile_rand mul duration p = (r, p') ->
  match r with
  | Ok _ => fresh_run p p'
  | Err (Thrown _) => same_view p p'
  | Err _ => True
  end.
Proof.
  intros Hp Hlt Hrun. unfold cp_start_traffic in Hrun.
  step Hrun E u p0; rewrite verify_state_run in E; unfold throw in E;
    destruct (Z.land _ _ =? 0) eqn:El in E; simplify_eq; [|done].
  pose proof (streams_only _ Hp El) as Hs.
  assert (Hn : ~ running (m_port_state p0)) by (rewrite Hs; by intros []).
  pose proof (not_running_event _ Hp Hn) as Hoff.
  step Hrun E u1 p1; [|done]. unfold modify in E. simplify_eq.
  step Hrun E u1 p1; unfold lift, c_assert in E; destruct (bool_decide _) in E; simplify_eq; [|done].
  pose proof (factor_quiet mul (delete_streams_graph p0)) as Hq.
  destruct (factor_silent mul (delete_streams_graph p0)) as [Hpub1 Hpid1].
  step Hrun E factor p1; rewrite E in Hq; [|by destruct factor].
  rewrite E in Hpub1, Hpid1. clear E. destruct Hq as (Hc1 & He1 & Hs1 & Ht1).
  simpl in Hc1, He1, Hs1, Ht1, Hpub1, Hpid1.
  step Hrun E p2 p3; [|done]. unfold getp in E. simplify_eq.
  step Hrun E rc p4; unfold lift in E; injection E as E ?; subst; [|by destruct rc].
  destruct rc as [msg|objs]; [by unfold lift in Hrun; simplify_eq|]. clear E.
  pose proof (generate_id_ok _ _ (po_events _ Hp) Hlt) as Hgen. rewrite <- He1 in Hgen.
  unfold port_generate_event_id, port_wait_for_event, port_events in Hrun.
  step Hrun E eid p3; unfold mbind, port_bind, getp, lift, modify, mret, port_ret in E;
    destruct (generate_event_id _) as [eid' ev1] eqn:Eg in E; simpl in E; simplify_eq.
  rewrite Eg in Hgen. specialize (Hgen ltac:(intros e He; unfold stop_event_of in Hoff;
    rewrite He1 in He; by rewrite He in Hoff)).
  pose proof (proj1 (proj2 (proj2 Hgen))) as Hev1.
  destruct (events_wait_ok _ _ eid Hev1) as (w0 & w1 & _ & Hwait).
  step Hrun E u1 p3; unfold mbind, port_bind, getp, lift, modify, mret, port_ret, res_bind in E;
    simpl in E; rewrite Hwait in E; simplify_eq.
  destruct Hgen as (Hid & Hidv & _ & Hcnt1 & _).
  destruct (wait_events_ok _ ev1 eid Hev1 (eq_sym Hcnt1) _ Hwait) as (Hev2 & Hcnt2 & Hst).
  set (ev2 := mkDpPortEvents _ _) in *. clearbody ev2. clear Hwait.
  step Hrun E u1 p3; [|done]. unfold modify in E. simplify_eq.
  step Hrun E obj p3; unfold lift in E; injection E as E ?; subst.
  2:{ destruct obj; try done. by apply get_idx_thrown in E. }
  clear E.
  step Hrun E u1 p3; [|done]. unfold modify in E. simplify_eq.
  step Hrun E u1 p3; [|done]. unfold modify in E. simplify_eq.
  step Hrun E u1 p3.
  2:{ destruct u1; try done. by apply start_loop_thrown in E. }
  match type of E with start_loop ?cs ?i ?pt ?eid ?ob ?d ?q = _ =>
    pose proof (start_loop_quiet cs i pt eid ob d q) as Hq3;
    pose proof (start_loop_silent cs i pt eid ob d q) as Hpub3 end.
  rewrite E in Hq3, Hpub3. destruct Hq3 as (Hc3 & He3 & Hs3 & Ht3), Hpub3 as [Hpub3 _].
  simpl in Hc3, He3, Hs3, Ht3, Hpub3. unfold modify in Hrun. injection Hrun as <- <-.
  unfold fresh_run. simpl. rewrite Hc3, He3, Hs3, Ht3, Hpub3, Hcnt2, Hcnt1, Hc1, He1. simpl.
  rewrite Hpub1, Hpid1. split_and!; try done. by rewrite <- He1.
Qed.

Lemma port_start_ok p p' : port_ok p -> fresh_run p p' -> port_ok p'.
Proof.
  intros Hp (Hs & Hs' & Hc & Ht & _ & Hev & Hcnt & e & He & Hid & _).
  split; rewrite ?Hs', ?Hc, ?Ht.
  - done.
  - right; right. by left.
  - split; [done|]. intros Hemp. by rewrite (proj2 (po_table p Hp) Hemp) in Hs.
  - split; [|intros _; by left]. intros _. unfold stop_event_of. rewrite He. simpl. rewrite Hid.
    pose proof (ev_counter _ _ (po_events p Hp)). unfold EVENT_ID_INVALID. lia.
Qed.

(** The messages to the cores are always sent. *)
Lemma send_loop_run cores msg : forall p,
  send_loop cores msg p = (Ok tt, add_sent (map (fun c => (c, msg)) cores) p).
Proof.
  induction cores as [|c cores IH]; intros p; simpl.
  - unfold add_sent. rewrite app_nil_r. by destruct p.
  - unfold send_message_to_dp. run. rewrite IH. unfold add_sent. simpl. by rewrite <- app_assoc.
Qed.

Lemma send_all_run msg p :
  send_message_to_all_dp msg p = (Ok tt, add_sent (map (fun c => (c, msg)) (m_cores_id_list p)) p).
Proof. apply send_loop_run. Qed.

(** A stopped port waits for nothing. *)
Definition port_stopped (p p' : TrexStatelessPort) : Prop :=
  m_port_state p' = PORT_STATE_STREAMS /\ m_cores_id_list p' = m_cores_id_list p /\
  m_stream_table p' = m_stream_table p /\ events_ok (m_cores_id_list p) (m_dp_events p') /\
  m_event_id (stop_event_of p') = EVENT_ID_INVALID.

Lemma stopped_ok p p' : port_ok p -> running (m_port_state p) -> port_stopped p p' -> port_ok p'.
Proof.
  intros Hp Hr (Hs & Hc & Ht & Hev & Hid). split; rewrite ?Hs, ?Hc, ?Ht, ?Hid; try done; auto.
  - split; [done|]. intros Hemp. exfalso. apply (po_table p Hp) in Hemp.
    destruct Hr as [Hr|Hr]; by rewrite Hr in Hemp.
  - split; [|done]. by intros [].
Qed.

Lemma is_running p :
  negb ((m_port_state p =? PORT_STATE_TX) || (m_port_state p =? PORT_STATE_PAUSE)) = false ->
  running (m_port_state p).
Proof. unfold running. lia. Qed.

Lemma port_stop_spec p r p' :
  port_ok p -> cp_stop_traffic p = (r, p') ->
  r = Ok tt /\ (p' = p /\ ~ running (m_port_state p) \/ running (m_port_state p) /\ port_stopped p p').
Proof.
  intros Hp Hrun. unfold cp_stop_traffic in Hrun.
  step Hrun E q0 p0; [|done]. unfold getp in E. injection E as <- <-.
  destruct (negb _) eqn:En in Hrun.
  { injection Hrun as <- <-. split; [done|]. left. split; [done|]. unfold running. lia. }
  apply is_running in En. step Hrun E u p1; [|done]. unfold modify in E. injection E as _ <-.
  destruct (events_disable_ok _ _ (po_events p Hp)) as (e0 & e1 & He & Hdis).
  destruct (disable_events_ok _ _ _ (po_events p Hp) Hdis) as (Hev & e & Hl & Hid).
  unfold port_disable_event, port_events in Hrun.
  step Hrun E u1 p1; unfold mbind, port_bind, getp, lift, modify, mret, port_ret, res_bind in E;
    simpl in E; rewrite Hdis in E; [|done]. injection E as _ <-.
  step Hrun E u2 p1; rewrite send_all_run in E; [|done]. injection E as _ <-.
  step Hrun E1 u3 p2; [|done]. unfold modify in E1. injection E1 as _ <-. injection Hrun as <- <-.
  split; [done|]. right. split; [done|]. unfold port_stopped, stop_event_of. simpl.
  by split_and!.
Qed.

(** A running port that goes on to another running state. *)
Lemma switch_ok st p p' :
  port_ok p -> running (m_port_state p) -> running st -> same_view (change_state st p) p' -> port_ok p'.
Proof.
  intros Hp Hr Hst (Hc & He & Hs & Ht). simpl in *. destruct Hp as [Hev Hsts Htab Hact].
  split; rewrite ?Hc, ?He, ?Hs, ?Ht; auto.
  - rewrite <- Htab. destruct Hr as [Hr|Hr], Hst as [-> | ->]; by rewrite Hr.
  - unfold stop_event_of. rewrite He. change (default _ _) with (stop_event_of p).
    split; [intros _; by apply Hact|done].
Qed.

Lemma state_is st p :
  port_ok p -> (st = PORT_STATE_TX \/ st = PORT_STATE_PAUSE) ->
  Z.land st (m_port_state p) =? 0 = false -> m_port_state p = st.
Proof.
  intros Hp Hst Hl. destruct (po_state p Hp) as [Hs|[Hs|[Hs|Hs]]]; rewrite Hs in *;
    by destruct Hst as [-> | ->].
Qed.

Lemma pause_ok p r p' : port_ok p -> cp_pause_traffic p = (r, p') -> port_ok p'.
Proof.
  intros Hp. unfold cp_pause_traffic. run. rewrite verify_state_run.
  destruct (_ =? 0) eqn:E; [by intros [= <- <-]|]. apply state_is in E; [|done|by left].
  destruct (negb _); [by intros [= <- <-]|]. destruct (double_ltb _ _); [by intros [= <- <-]|].
  rewrite send_all_run. intros [= <- <-]. apply (switch_ok PORT_STATE_PAUSE p); [done|by left|by right|done].
Qed.

Lemma resume_ok p r p' : port_ok p -> cp_resume_traffic p = (r, p') -> port_ok p'.
Proof.
  intros Hp. unfold cp_resume_traffic. run. rewrite verify_state_run.
  destruct (_ =? 0) eqn:E; [by intros [= <- <-]|]. apply state_is in E; [|done|by right].
  rewrite send_all_run. intros [= <- <-]. apply (switch_ok PORT_STATE_TX p); [done|by right|by left|done].
Qed.

Lemma update_quiet mul : quiet (cp_update_traffic mul).
Proof.
  unfold cp_update_traffic. apply quiet_bind; [intros p; by rewrite verify_state_run; destruct (_ =? 0)|].
  intros. apply quiet_bind; [auto with quiet|]. intros. apply quiet_bind; [auto with quiet|]. intros.
  apply quiet_bind; [auto with quiet|]. intros. apply quiet_bind; [auto with quiet|]. intros. done.
Qed.

(** ** Signals *)

Definition finished (p : TrexStatelessPort) : TrexStatelessPort :=
  publish_event (EVENT_PORT_FINISHED_TX (m_port_id p)) (change_state PORT_STATE_STREAMS p).

Definition set_stop_event (e : TrexDpPortEvent) (p : TrexStatelessPort) : TrexStatelessPort :=
  set_dp_events
    (mkDpPortEvents (take 1 (m_events (m_dp_events p)) ++ [e]) (m_event_id_counter (m_dp_events p))) p.

Lemma handle_run now t i p e0 e1 :
  m_events (m_dp_events p) = [e0; e1] ->
  handle_dp_event now EVENT_STOP t i p =
    match event_handle now t i e1 with
    | Err x => (Err x, p)
    | Ok (e, true) => (Ok tt, finished (set_stop_event e p))
    | Ok (e, false) => (Ok tt, set_stop_event e p)
    end.
Proof.
  intros He. unfold handle_dp_event, port_events, events_handle, set_stop_event. run. unfold res_bind.
  rewrite He. simpl. destruct (event_handle now t i e1) as [[e []]|x]; simpl; [|done..].
  reflexivity.
Qed.

Lemma set_same_event p e0 e1 : m_events (m_dp_events p) = [e0; e1] -> set_stop_event e1 p = p.
Proof.
  intros He. unfold set_stop_event, set_dp_events. rewrite He. simpl. rewrite <- He.
  destruct p as [? ? ? ? ? ? ? ? ? []]. done.
Qed.

Lemma active_waiting p e0 e1 t :
  port_ok p -> m_events (m_dp_events p) = [e0; e1] -> m_event_id e1 ≠ EVENT_ID_INVALID ->
  t ∈ dom (m_signal e1) -> waiting (m_event_id e1) e1.
Proof.
  intros Hp He Hne Ht. assert (Hl : m_events (m_dp_events p) !! 1%nat = Some e1) by by rewrite He.
  destruct (ev_pending _ _ (po_events p Hp) e1 Hl Hne) as (_ & Hcnt & Hpos). split_and!; try done.
  apply Hpos. intros Hc.
  rewrite (ev_dom _ _ (po_events p Hp) e1), Hc in Ht by (rewrite He; set_solver). set_solver.
Qed.

Lemma stop_event_of_two p e0 e1 : m_events (m_dp_events p) = [e0; e1] -> stop_event_of p = e1.
Proof. intros He. unfold stop_event_of. by rewrite He. Qed.

Lemma signal_ok now t i p r p' :
  port_ok p -> handle_dp_event now EVENT_STOP t i p = (r, p') -> port_ok p'.
Proof.
  intros Hp. destruct (events_two _ _ (po_events p Hp)) as (e0 & e1 & He & Hd0 & Hd1).
  rewrite (handle_run _ _ _ _ _ _ He).
  pose proof (stop_event_of_two p e0 e1 He) as Hst.
  destruct (decide (m_event_id e1 = EVENT_ID_INVALID \/ i ≠ m_event_id e1)) as [Hstale|Hcur].
  { rewrite event_handle_stale by done. intros [= <- <-]. by rewrite (set_same_event p e0 e1 He). }
  apply Decidable.not_or in Hcur as [Hne Hi]. apply dec_stable in Hi as ->.
  assert (Hr : running (m_port_state p)) by by (apply (po_active p Hp); rewrite Hst).
  destruct (decide (t ∈ dom (m_signal e1))) as [Ht|Ht].
  - pose proof (active_waiting p e0 e1 t Hp He Hne Ht) as Hw. rewrite event_handle_current by done.
    destruct (_ =? 0) eqn:Ez; intros [= <- <-].
    + apply (stopped_ok p); [done..|]. pose proof (disabled_ok _ _ e0 e1 t (po_events p Hp) He Ht) as Hev.
      unfold port_stopped, stop_event_of. simpl. rewrite He. by split_and!.
    + assert (Hz : count_false (<[t:=true]> (m_signal e1)) ≠ 0) by lia.
      pose proof (marked_ok _ _ e0 e1 t (po_events p Hp) He Ht Hw Hz) as Hev.
      destruct Hp as [_ Hsts Htab Hact]. split; simpl; rewrite ?He; simpl; try done.
      unfold stop_event_of. simpl. rewrite He. simpl. rewrite <- Hst. done.
  - unfold event_handle. apply not_elem_of_dom in Ht. rewrite Ht.
    destruct (negb (event_is_active now e1)); [intros [= <- <-]; by rewrite (set_same_event p e0 e1 He)|].
    destruct (negb _); intros [= <- <-]; [by rewrite (set_same_event p e0 e1 He)|done].
Qed.

Lemma run_cmd_ok c p r p' :
  port_ok p -> m_event_id_counter (m_dp_events p) < 2147483647 ->
  run_cmd c p = (r, p') -> returned r -> port_ok p'.
Proof.
  intros Hp Hlt Hrun Hret. destruct c; simpl in Hrun.
  - eapply quiet_ok; [apply acquire_quiet|..]; done.
  - eapply (quiet_ok release); [|done..]. apply quiet_modify. done.
  - by eapply add_stream_ok.
  - by eapply remove_stream_ok.
  - by eapply remove_all_ok.
  - eapply (quiet_ok (_ ← validate malloc compile_rand; mret tt)); [|done..].
    apply quiet_bind; [apply validate_quiet|done].
  - pose proof (port_start_spec _ _ _ _ _ Hp Hlt Hrun) as Hs. destruct r as [u|[]]; try done.
    + by eapply port_start_ok.
    + by eapply same_view_ok.
  - destruct (port_stop_spec _ _ _ Hp Hrun) as (_ & [[-> _]|[Hr Hst]]); [done|by eapply stopped_ok].
  - by eapply pause_ok.
  - by eapply resume_ok.
  - eapply quiet_ok; [apply update_quiet|..]; done.
  - by eapply signal_ok.
Qed.

Lemma new_ok port_id cores speed lc ld fa :
  port_ok (TrexStatelessPort_new port_id cores speed lc ld fa).
Proof.
  split; simpl; [apply events_create_ok|by left|done|].
  split; [by intros []|done].
Qed.

(** ** The end of a run *)

(** Signals in the order the control plane takes them from the rings: the time, the
    core and the number each carries. *)
Fixpoint deliver_signals (sigs : list (Z * Z * Z)) : PortM unit :=
  match sigs with
  | [] => mret tt
  | (now, thread_id, event_id) :: sigs =>
      _ ← handle_dp_event now EVENT_STOP thread_id event_id;
      deliver_signals sigs
  end.

Definition signalled (sigs : list (Z * Z * Z)) (id c : Z) : Prop := exists now, (now, c, id) ∈ sigs.

Lemma deliver_off sigs : forall p e0 e1,
  m_events (m_dp_events p) = [e0; e1] -> m_event_id e1 = EVENT_ID_INVALID ->
  deliver_signals sigs p = (Ok tt, p).
Proof.
  induction sigs as [|[[now t] i] sigs IH]; intros p e0 e1 He Hid; [done|]. simpl.
  unfold mbind, port_bind. rewrite (handle_run _ _ _ _ _ _ He), event_handle_stale by auto.
  rewrite (set_same_event p e0 e1 He). by eapply IH.
Qed.

(** The run goes on, or every core had signalled and the port has finished. *)
Definition run_outcome (all : Prop) (p p2 : TrexStatelessPort) : Prop :=
  all /\ m_port_state p2 = PORT_STATE_STREAMS /\
    published p2 = published p ++ [EVENT_PORT_FINISHED_TX (m_port_id p)] \/
  ~ all /\ m_port_state p2 = PORT_STATE_TX /\ published p2 = published p.

Lemma outcome_iff (all all' : Prop) p p2 :
  (all <-> all') -> run_outcome all p p2 -> run_outcome all' p p2.
Proof. unfold run_outcome. tauto. Qed.

Lemma deliver_run sigs id cores : forall p e0 e1,
  m_events (m_dp_events p) = [e0; e1] -> waiting id e1 ->
  dom (m_signal e1) = list_to_set cores -> m_port_state p = PORT_STATE_TX ->
  (forall now t, (now, t, id) ∈ sigs -> t ∈ cores) ->
  exists p2, deliver_signals sigs p = (Ok tt, p2) /\
    run_outcome (forall c, c ∈ cores -> m_signal e1 !! c = Some true \/ signalled sigs id c) p p2.
Proof.
  induction sigs as [|[[now t] i] sigs IH]; intros p e0 e1 He Hw Hd Hs Hin.
  { exists p. split; [done|]. right. split; [|done]. intros Hall.
    destruct Hw as (_ & _ & Hp & Hpos). assert (count_false (m_signal e1) = 0); [|lia].
    apply count_false_zero. intros k Hk. rewrite Hd in Hk.
    destruct (Hall k) as [|[? []%elem_of_nil]]; [set_solver|done]. }
  simpl. unfold mbind, port_bind. rewrite (handle_run _ _ _ _ _ _ He).
  assert (Hin' : forall now t, (now, t, id) ∈ sigs -> t ∈ cores) by (intros; eapply Hin; by right).
  destruct (decide (i = id)) as [-> |Hi].
  2:{ rewrite event_handle_stale by (right; by destruct Hw as (-> & _)).
      rewrite (set_same_event p e0 e1 He). destruct (IH p e0 e1) as (p2 & Hrun & Hout); [done..|].
      exists p2. split; [done|]. eapply outcome_iff; [|done]. unfold signalled.
      setoid_rewrite elem_of_cons. naive_solver. }
  assert (Ht : t ∈ cores) by (eapply Hin; left).
  rewrite (event_handle_current now t id) by (first [done|rewrite Hd; set_solver]).
  assert (Hlook : forall c, <[t:=true]> (m_signal e1) !! c = Some true <-> t = c \/ m_signal e1 !! c = Some true).
  { intros c. rewrite lookup_insert_Some. destruct (decide (t = c)); naive_solver. }
  assert (Hiff : (forall c, c ∈ cores -> <[t:=true]> (m_signal e1) !! c = Some true \/ signalled sigs id c)
    <-> (forall c, c ∈ cores -> m_signal e1 !! c = Some true \/ signalled ((now, t, id) :: sigs) id c)).
  { unfold signalled. setoid_rewrite elem_of_cons. setoid_rewrite Hlook. naive_solver. }
  destruct (count_false _ =? 0) eqn:Ez.
  - apply Z.eqb_eq in Ez. pose proof (proj1 (count_false_zero _) Ez) as Hall.
    rewrite dom_insert_L, Hd in Hall.
    eexists. split; [by eapply deliver_off; [simpl; by rewrite He|]|]. left.
    split; [|done]. apply Hiff. intros c Hc. left. apply Hall. set_solver.
  - destruct (IH (set_stop_event (marked t e1) p) e0 (marked t e1)) as (p2 & Hrun & Hout).
    + simpl. by rewrite He.
    + destruct Hw as (<- & Hv & _). split_and!; try done. simpl. unfold count_false in *. lia.
    + simpl. rewrite dom_insert_L. set_solver.
    + done.
    + done.
    + exists p2. split; [done|]. by eapply outcome_iff.
Qed.

Lemma reachable_ok port_id cores speed lc ld fa p :
  port_reachable port_id cores speed lc ld fa p -> port_ok p.
Proof.
  induction 1 as [|p p' _ IH Hstep]; [apply new_ok|].
  destruct Hstep. by eapply run_cmd_ok.
Qed.

(** C17: In every state a port reaches from its construction by commands of its users
    (acquire, release, add, remove and remove all streams, validate, start, stop,
    pause, resume, update; carried out or refused with an exception) and by signals of
    data path cores, in any order and with any numbers: the state is IDLE, STREAMS, TX
    or PAUSE; it is IDLE exactly when the port has no streams; the port is in TX or
    PAUSE exactly when it waits for its stop event; and then the event carries the
    number generated last, and its count is that of the cores which have not signalled
    that number, never zero. *)
Theorem port_invariant port_id cores speed lc ld fa p :
  port_reachable port_id cores speed lc ld fa p -> port_ok p.
Proof. apply reachable_ok. Qed.

(** C16: A run ends exactly when the last core says so. After a start that did not
    throw, whatever signals arrive in whatever order (those that carry the number of
    this run come from the cores of the port), all of them are handled; the port is
    back in STREAMS exactly when every one of its cores has signalled the number of
    this run, and has then published FINISHED_TX once; otherwise it is still in TX and
    has published nothing. Signals that carry another number (of a run that was
    stopped), and repeated ones, have no effect; the number of the run differs from
    those of all earlier runs. *)
Theorem port_run_ends_with_last_core port_id cores speed lc ld fa mul duration p p1 sigs :
  port_reachable port_id cores speed lc ld fa p ->
  m_event_id_counter (m_dp_events p) < 2147483647 -> m_cores_id_list p ≠ [] ->
  cp_start_traffic malloc compile_rand mul duration p = (Ok tt, p1) ->
  (forall now t, (now, t, m_event_id_counter (m_dp_events p1)) ∈ sigs -> t ∈ m_cores_id_list p1) ->
  m_port_state p1 = PORT_STATE_TX /\
  m_event_id_counter (m_dp_events p1) = m_event_id_counter (m_dp_events p) + 1 /\
  published p1 = published p ++ [EVENT_PORT_STARTED (m_port_id p)] /\
  exists p2, deliver_signals sigs p1 = (Ok tt, p2) /\
    run_outcome
      (forall c, c ∈ m_cores_id_list p1 -> signalled sigs (m_event_id_counter (m_dp_events p1)) c) p1 p2.
Proof.
  intros Hp%reachable_ok Hlt Hne Hrun Hin.
  pose proof (port_start_spec _ _ _ _ _ Hp Hlt Hrun) as Hf.
  pose proof (port_start_ok p p1 Hp Hf) as Hp1.
  destruct Hf as (_ & Hs & Hc & _ & Hpub & Hev & Hcnt & e & He & Hid & Hfresh).
  split_and!; try done. destruct (events_two _ _ (po_events p1 Hp1)) as (e0 & e1 & He1 & Hd0 & Hd1).
  rewrite He1 in He. injection He as ->. rewrite Hcnt, <- Hid in Hin |- *. rewrite Hc in *.
  assert (Hv : m_event_id e ≠ EVENT_ID_INVALID).
  { pose proof (ev_counter _ _ (po_events p Hp)). unfold EVENT_ID_INVALID. lia. }
  assert (exists c, c ∈ m_cores_id_list p) as [c Hcin].
  { destruct (m_cores_id_list p) as [|c l]; [done|]. exists c. left. }
  destruct (deliver_run sigs (m_event_id e) (m_cores_id_list p) p1 e0 e) as (p2 & Hd & Hout); try done.
  { eapply (active_waiting p1 e0 e c); try done. rewrite Hd1. set_solver. }
  exists p2. split; [done|]. eapply outcome_iff; [|done].
  split; intros Hall k Hk; [|by right; apply Hall]. destruct (Hall k Hk) as [Ht|]; [|done].
  by rewrite Hfresh in Ht.
Qed.
End Port.

(** ** A port with two cores *)

Definition demo_add_stream (id next : Z) (root : bool) : TrexStream :=
  mkTrexStream stSINGLE_BURST 0 id (double_of_Z 0) next true root StreamVm_new None
    (mkPktData (Some (replicate 64 0)) 64) (mkRxCheck false false false 0) (double_of_Z 100) 1001 1
    (double_of_Z 0).

Definition demo_new_port : TrexStatelessPort :=
  TrexStatelessPort_new 0 [1; 2] SPEED_10G false (double_of_Z 0) (double_of_Z 0).

Definition demo_cmd (c : port_cmd) (p : TrexStatelessPort) : TrexStatelessPort :=
  (run_cmd (fun _ => None) (fun _ _ => 0) c p).2.

(** Two streams, the first leading to the second; a run that is stopped; and a
    second run. *)
Definition demo_streams_port : TrexStatelessPort :=
  demo_cmd Stop
    (demo_cmd (Start (mkMultiplier MUL_FACTOR OP_ABS (double_of_Z 1)) (double_of_Z 0))
       (demo_cmd (AddStream (demo_add_stream 9 (-1) false))
          (demo_cmd (AddStream (demo_add_stream 7 9 true)) demo_new_port))).
Definition demo_started_port : TrexStatelessPort :=
  demo_cmd (Start (mkMultiplier MUL_FACTOR OP_ABS (double_of_Z 1)) (double_of_Z 0)) demo_streams_port.

Lemma demo_reachable_cmd c p :
  port_reachable (fun _ => None) (fun _ _ => 0) 0 [1; 2] SPEED_10G false (double_of_Z 0) (double_of_Z 0) p ->
  match run_cmd (fun _ => None) (fun _ _ => 0) c p with (r, _) => returned r end ->
  m_event_id_counter (m_dp_events p) < 2147483647 ->
  port_reachable (fun _ => None) (fun _ _ => 0) 0 [1; 2] SPEED_10G false (double_of_Z 0) (double_of_Z 0)
    (demo_cmd c p).
Proof.
  intros Hp Hr Hlt. eapply reachable_step; [done|]. unfold demo_cmd.
  destruct (run_cmd _ _ c p) as [r p'] eqn:E. by eapply port_step_cmd.
Qed.

Lemma demo_streams_reachable :
  port_reachable (fun _ => None) (fun _ _ => 0) 0 [1; 2] SPEED_10G false (double_of_Z 0) (double_of_Z 0)
    demo_streams_port.
Proof.
  unfold demo_streams_port.
  repeat (apply demo_reachable_cmd; [|vm_compute; exact I|vm_compute; reflexivity]).
  apply reachable_new.
Qed.

Lemma port_invariant_witness :
  m_port_state demo_streams_port = PORT_STATE_STREAMS /\ port_ok demo_streams_port.
Proof.
  split; [vm_compute; reflexivity|].
  exact (port_invariant _ _ _ _ _ _ _ _ _ demo_streams_reachable).
Defined.

(** The signal of the first run's number and the repeated signal do not count. *)
Lemma port_run_ends_with_last_core_witness :
  exists p2, deliver_signals [(5, 1, 1); (5, 2, 0); (6, 1, 1); (9, 2, 1)] demo_started_port = (Ok tt, p2) /\
    run_outcome
      (forall c, c ∈ m_cores_id_list demo_started_port ->
         signalled [(5, 1, 1); (5, 2, 0); (6, 1, 1); (9, 2, 1)]
           (m_event_id_counter (m_dp_events demo_started_port)) c) demo_started_port p2.
Proof.
  assert (Hrun : cp_start_traffic (fun _ => None) (fun _ _ => 0)
    (mkMultiplier MUL_FACTOR OP_ABS (double_of_Z 1)) (double_of_Z 0) demo_streams_port
    = (Ok tt, demo_started_port)) by (vm_compute; reflexivity).
  assert (Hid : m_event_id_counter (m_dp_events demo_started_port) = 1) by (vm_compute; reflexivity).
  assert (Hc : m_cores_id_list demo_started_port = [1; 2]) by (vm_compute; reflexivity).
  destruct (port_run_ends_with_last_core _ _ _ _ _ _ _ _ _ _ _ _
    [(5, 1, 1); (5, 2, 0); (6, 1, 1); (9, 2, 1)] demo_streams_reachable ltac:(vm_compute; reflexivity)
    ltac:(vm_compute; discriminate) Hrun) as (_ & _ & _ & Hout).
  - rewrite Hid, Hc. clear. intros now t. rewrite !elem_of_cons.
    intros [E|[E|[E|[E|[]%elem_of_nil]]]]; first [discriminate E|injection E as _ ->; tauto].
  - exact Hout.
Defined.

Example demo_run_finishes :
  match deliver_signals [(5, 1, 1); (5, 2, 0); (6, 1, 1); (9, 2, 1)] demo_started_port with
  | (Ok _, p) => m_port_state p = PORT_STATE_STREAMS /\
      published p = published demo_started_port ++ [EVENT_PORT_FINISHED_TX 0]
  | _ => False
  end.
Proof. vm_compute. done. Qed.
