(* ===== verification/FlowNode.v ===== *)
(** * The node of a generated flow and its packets

    Models [CGenNode] of [src/src/bp_sim.h] and the part of [CFlowPktInfo] that makes a
    packet of a flow out of a packet of its template: addresses, ports, lengths and
    checksums are rewritten in a buffer taken from a pool. *)

From S2P Require Import Prelude Double ByteMem PktCmn PacketHdrs PktDesc PktParser RxHeader CapTemplate RxInsert TupleGen.

(** ** The node *)

Inductive flow_type : Type := FLOW_PKT | FLOW_PKT_NAT.

Definition NODE_FLAGS_DIR : Z := 1.
Definition NODE_FLAGS_MBUF_CACHE : Z := 2.
Definition NODE_FLAGS_SAMPLE_RX_CHECK : Z := 4.
Definition NODE_FLAGS_INIT_START_FROM_SERVER_SIDE : Z := 0x40.
Definition NODE_FLAGS_ALL_FLOW_SAME_PORT_SIDE : Z := 0x80.
Definition NODE_FLAGS_INIT_START_FROM_SERVER_SIDE_SERVER_ADDR : Z := 0x100.

(** [CTcpSeq] and [CPlugin_rtsp]. *)
Record CTcpSeq : Type := mkSeq { client_seq_delta : Z; server_seq_delta : Z }.
Record CPlugin_rtsp : Type := mkRtsp { rtsp_seq : CTcpSeq; rtp_client_0 : Z; rtp_client_1 : Z }.

(** What [m_plugin_info] points to. *)
Inductive plugin_info : Type :=
  | pi_null
  | pi_rtsp (x : CPlugin_rtsp)
  | pi_seq (x : CTcpSeq)
  | pi_mbuf (pkt : bytes).

(** [m_flow_info], [m_template_info] and [m_tuple_gen] belong to one template of the thread,
    [n_template]; [n_pkt_info] is the place of the packet in it. *)
Record CGenNode : Type := mkGenNode {
  n_type : flow_type;
  n_thread_id : Z;
  n_src_port : Z;
  n_flags : Z;
  n_time : double;
  n_src_ip : Z;
  n_dest_ip : Z;
  n_flow_id : Z;
  n_pkt_info : Z;
  n_template : Z;
  n_plugin_info : plugin_info;
  n_nat_external_ipv4 : Z;
  n_nat_external_ipv4_server : Z;
  n_nat_external_port : Z;
  n_src_mac : mac_addr_align_t;
  n_src_idx : Z;
  n_dest_idx : Z }.

Definition node_set_type (x : flow_type) (n : CGenNode) : CGenNode :=
  mkGenNode x (n_thread_id n) (n_src_port n) (n_flags n) (n_time n) (n_src_ip n) (n_dest_ip n)
    (n_flow_id n) (n_pkt_info n) (n_template n) (n_plugin_info n) (n_nat_external_ipv4 n)
    (n_nat_external_ipv4_server n) (n_nat_external_port n) (n_src_mac n) (n_src_idx n) (n_dest_idx n).
Definition node_set_flags (x : Z) (n : CGenNode) : CGenNode :=
  mkGenNode (n_type n) (n_thread_id n) (n_src_port n) (u16 x) (n_time n) (n_src_ip n) (n_dest_ip n)
    (n_flow_id n) (n_pkt_info n) (n_template n) (n_plugin_info n) (n_nat_external_ipv4 n)
    (n_nat_external_ipv4_server n) (n_nat_external_port n) (n_src_mac n) (n_src_idx n) (n_dest_idx n).
Definition node_set_time (x : double) (n : CGenNode) : CGenNode :=
  mkGenNode (n_type n) (n_thread_id n) (n_src_port n) (n_flags n) x (n_src_ip n) (n_dest_ip n)
    (n_flow_id n) (n_pkt_info n) (n_template n) (n_plugin_info n) (n_nat_external_ipv4 n)
    (n_nat_external_ipv4_server n) (n_nat_external_port n) (n_src_mac n) (n_src_idx n) (n_dest_idx n).
Definition node_set_pkt_info (x : Z) (n : CGenNode) : CGenNode :=
  mkGenNode (n_type n) (n_thread_id n) (n_src_port n) (n_flags n) (n_time n) (n_src_ip n) (n_dest_ip n)
    (n_flow_id n) x (n_template n) (n_plugin_info n) (n_nat_external_ipv4 n)
    (n_nat_external_ipv4_server n) (n_nat_external_port n) (n_src_mac n) (n_src_idx n) (n_dest_idx n).
Definition node_set_plugin (x : plugin_info) (n : CGenNode) : CGenNode :=
  mkGenNode (n_type n) (n_thread_id n) (n_src_port n) (n_flags n) (n_time n) (n_src_ip n) (n_dest_ip n)
    (n_flow_id n) (n_pkt_info n) (n_template n) x (n_nat_external_ipv4 n)
    (n_nat_external_ipv4_server n) (n_nat_external_port n) (n_src_mac n) (n_src_idx n) (n_dest_idx n).

(** [set_nat_ipv4_addr], [set_nat_ipv4_port], [set_nat_ipv4_addr_server]. *)
Definition set_nat_ipv4 (ip port ip_server : Z) (n : CGenNode) : CGenNode :=
  mkGenNode (n_type n) (n_thread_id n) (n_src_port n) (n_flags n) (n_time n) (n_src_ip n) (n_dest_ip n)
    (n_flow_id n) (n_pkt_info n) (n_template n) (n_plugin_info n) ip ip_server port
    (n_src_mac n) (n_src_idx n) (n_dest_idx n).

(** *** Flags *)

Definition set_flag (mask : Z) (enable : bool) (n : CGenNode) : CGenNode :=
  node_set_flags (if enable then Z.lor (n_flags n) mask else Z.land (n_flags n) (Z.lnot mask)) n.
Definition has_flag (mask : Z) (n : CGenNode) : bool := negb (Z.land (n_flags n) mask =? 0).

Definition is_eligible_from_server_side (n : CGenNode) : bool := Z.land (n_src_ip n) 1 =? 1.
Definition set_initiator_start_from_server_side_with_server_addr :=
  set_flag NODE_FLAGS_INIT_START_FROM_SERVER_SIDE_SERVER_ADDR.
Definition get_is_initiator_start_from_server_with_server_addr :=
  has_flag NODE_FLAGS_INIT_START_FROM_SERVER_SIDE_SERVER_ADDR.
Definition set_initiator_start_from_server := set_flag NODE_FLAGS_INIT_START_FROM_SERVER_SIDE.
Definition get_is_initiator_start_from_server := has_flag NODE_FLAGS_INIT_START_FROM_SERVER_SIDE.
Definition set_all_flow_from_same_dir := set_flag NODE_FLAGS_ALL_FLOW_SAME_PORT_SIDE.
Definition get_is_all_flow_from_same_dir := has_flag NODE_FLAGS_ALL_FLOW_SAME_PORT_SIDE.
Definition set_mbuf_cache_dir (dir : Z) : CGenNode -> CGenNode := set_flag NODE_FLAGS_DIR (negb (dir =? 0)).
Definition get_mbuf_cache_dir (n : CGenNode) : Z := Z.land (n_flags n) 1.
Definition node_set_rx_check : CGenNode -> CGenNode := set_flag NODE_FLAGS_SAMPLE_RX_CHECK true.
Definition is_rx_check_enabled := has_flag NODE_FLAGS_SAMPLE_RX_CHECK.

(** The buffer goes where a plugin keeps its state. *)
Definition set_cache_mbuf (pkt : bytes) (n : CGenNode) : CGenNode :=
  set_flag NODE_FLAGS_MBUF_CACHE true (node_set_plugin (pi_mbuf pkt) n).
(** [None] without a buffer; a pointer to something else read as a buffer is a fault. *)
Definition get_cache_mbuf (n : CGenNode) : res (option bytes) :=
  if has_flag NODE_FLAGS_MBUF_CACHE n then
    match n_plugin_info n with
    | pi_mbuf pkt => Ok (Some pkt)
    | pi_null => Ok None
    | _ => Err OutOfBounds
    end
  else Ok None.

(** The states of address learning, in bits 3 and 4. *)
Definition nat_state (n : CGenNode) : Z := btGetMaskBit 16 (n_flags n) 4 3.
Definition set_nat_state (x : Z) (n : CGenNode) : CGenNode :=
  node_set_flags (btSetMaskBit 16 (n_flags n) 4 3 x) n.
Definition set_nat_first_state (n : CGenNode) : CGenNode := node_set_type FLOW_PKT_NAT (set_nat_state 1 n).
Definition is_nat_first_state (n : CGenNode) : bool := nat_state n =? 1.
Definition set_nat_wait_state : CGenNode -> CGenNode := set_nat_state 2.
Definition is_nat_wait_state (n : CGenNode) : bool := nat_state n =? 2.
Definition set_nat_learn_state : CGenNode -> CGenNode := node_set_type FLOW_PKT.

Definition get_short_fid (n : CGenNode) : Z := u32 (n_flow_id n).
Definition is_external_is_eq_to_internal_ip (n : CGenNode) : bool :=
  (n_nat_external_ipv4 n =? n_src_ip n) && (n_nat_external_port n =? n_src_port n) &&
  (n_nat_external_ipv4_server n =? n_dest_ip n).

(** *** The current packet

    [lp] is the packet that [m_pkt_info] points to. *)
Definition CLIENT_SIDE : Z := 0.
Definition SERVER_SIDE : Z := 1.
Definition side (is_client : bool) : Z := if is_client then CLIENT_SIDE else SERVER_SIDE.

Definition is_responder_pkt (lp : CFlowPktInfo) : bool := negb (IsInitSide (fpi_desc lp)).
Definition is_initiator_pkt (lp : CFlowPktInfo) : bool := IsInitSide (fpi_desc lp).

Definition cur_pkt_ip_addr_dir (lp : CFlowPktInfo) (n : CGenNode) : Z :=
  side (xorb (IsInitSide (fpi_desc lp)) (get_is_initiator_start_from_server_with_server_addr n)).
Definition cur_pkt_port_addr_dir (lp : CFlowPktInfo) : Z := side (IsInitSide (fpi_desc lp)).
Definition cur_interface_dir (lp : CFlowPktInfo) (n : CGenNode) : Z :=
  let init_from_server :=
    get_is_initiator_start_from_server n || get_is_initiator_start_from_server_with_server_addr n in
  let is_init := xorb (IsInitSide (fpi_desc lp)) init_from_server in
  if get_is_all_flow_from_same_dir n then side (negb (is_eligible_from_server_side n))
  else side is_init.

(** ** Rewriting a packet *)

(** The packet is at offset 0 of [p]. *)
Definition fast_ip (lp : CFlowPktInfo) : Z := m_ip_offset (m_pkt_indication lp).
Definition fast_l4 (lp : CFlowPktInfo) : Z := m_udp_tcp_offset (m_pkt_indication lp).

(** What a learn packet carries for the receiver: TTL, flow, thread and whether the flow is
    sampled. *)
Definition write_learn (n : CGenNode) (p : bytes) (ip : Z) : res bytes :=
  p ← IP_setTimeToLive p ip TTL_RESERVE_DUPLICATE;
  let opt := ip + IPV4_HDR_LEN in
  p ← set_fid p opt (get_short_fid n);
  p ← set_thread_id p opt (n_thread_id n);
  set_rx_check p opt (is_rx_check_enabled n).

(** The addresses of an IPv4 packet, and the port of the client's side. *)
Definition update_ipv4 (is_learn_mode : bool) (lp : CFlowPktInfo) (n : CGenNode) (p : bytes) : res (bytes * Z) :=
  let ip := fast_ip lp in
  let addrs p src dst := p ← IP_updateIpSrc p ip src; IP_updateIpDst p ip dst in
  '(p, src_port) ←
    (if is_learn_mode then
       p ← (if IsLearn (fpi_desc lp) then write_learn n p ip else Ok p);
       if IsInitSide (fpi_desc lp) then
         p ← addrs p (n_src_ip n) (n_dest_ip n); Ok (p, n_src_port n)
       else
         p ← addrs p (n_nat_external_ipv4_server n) (n_nat_external_ipv4 n);
         Ok (p, n_nat_external_port n)
     else
       p ← (if cur_pkt_ip_addr_dir lp n =? CLIENT_SIDE
            then addrs p (n_src_ip n) (n_dest_ip n) else addrs p (n_dest_ip n) (n_src_ip n));
       Ok (p, n_src_port n));
  p ← IP_updateCheckSum p ip;
  Ok (p, src_port).

Definition update_ipv6 (client_first : bool) (src dst : Z) (lp : CFlowPktInfo) (p : bytes) : res bytes :=
  let ip := fast_ip lp in
  let '(src, dst) := if client_first then (src, dst) else (dst, src) in
  p ← IPv6_updateLSBIpv6Src p ip src; IPv6_updateLSBIpv6Dst p ip dst.

(** [update_pkt_info]. The last assertion is one of the debug build. *)
Definition update_pkt_info (is_learn_mode : bool) (lp : CFlowPktInfo) (n : CGenNode) (p : bytes) : res bytes :=
  '(p, src_port) ←
    (if m_is_ipv6 (m_pkt_indication lp) then
       p ← update_ipv6 (cur_pkt_ip_addr_dir lp n =? CLIENT_SIDE) (n_src_ip n) (n_dest_ip n) lp p;
       Ok (p, n_src_port n)
     else update_ipv4 is_learn_mode lp n p);
  let l4 := fast_l4 lp in
  if IsTcp (fpi_desc lp) then
    if cur_pkt_port_addr_dir lp =? CLIENT_SIDE then TCP_setSourcePort p l4 src_port
    else TCP_setDestPort p l4 src_port
  else if IsUdp (fpi_desc lp) then
    p ← UDP_setChecksum p l4 0;
    if cur_pkt_port_addr_dir lp =? CLIENT_SIDE then UDP_setSourcePort p l4 src_port
    else UDP_setDestPort p l4 src_port
  else _ ← c_assert (IsIcmp (fpi_desc lp)); Ok p.

(** [CFlowInfo], without the program. *)
Record CFlowInfo : Type := mkFlowInfo {
  client_ip : Z; server_ip : Z; client_port : Z; server_port : Z;
  is_init_ip_dir : bool; is_init_port_dir : bool; replace_server_port : bool }.

(** The ports of a TCP or UDP header, which have the same places. *)
Definition update_ports (fi : CFlowInfo) (p : bytes) (l4 : Z) : res bytes :=
  let client := u16 (client_port fi) in let server := u16 (server_port fi) in
  if is_init_port_dir fi then
    p ← set_be16 p l4 client;
    if replace_server_port fi then set_be16 p (l4 + 2) server else Ok p
  else
    p ← set_be16 p (l4 + 2) client;
    if replace_server_port fi then set_be16 p l4 server else Ok p.

Definition update_pkt_info2 (lp : CFlowPktInfo) (fi : CFlowInfo) (update_len : Z) (p : bytes) : res bytes :=
  let ip := fast_ip lp in
  p ← (if m_is_ipv6 (m_pkt_indication lp) then
         p ← (if update_len =? 0 then Ok p
              else pl ← IPv6_getPayloadLen p ip; IPv6_setPayloadLen p ip (u16 (pl + update_len)));
         update_ipv6 (is_init_ip_dir fi) (client_ip fi) (server_ip fi) lp p
       else
         p ← (if update_len =? 0 then Ok p
              else tl ← IP_getTotalLength p ip; IP_setTotalLength p ip (u16 (tl + update_len)));
         p ← (if is_init_ip_dir fi
              then p ← IP_setSourceIp p ip (client_ip fi); IP_setDestIp p ip (server_ip fi)
              else p ← IP_setSourceIp p ip (server_ip fi); IP_setDestIp p ip (client_ip fi));
         IP_updateCheckSum p ip);
  let l4 := fast_l4 lp in
  if IsTcp (fpi_desc lp) then update_ports fi p l4
  else if IsUdp (fpi_desc lp) then
    l ← UDP_getLength p l4;
    p ← UDP_setLength p l4 (u16 (l + update_len));
    p ← UDP_setChecksum p l4 0;
    update_ports fi p l4
  else Err AssertFail.

(** ** Packet buffers *)

(** A buffer: its memory, the length of its data, and the data of the buffers behind it. *)
Record rte_mbuf : Type := mkMbuf { mb_mem : bytes; mb_len : Z; mb_next : bytes }.
Definition pktmbuf_bytes (m : rte_mbuf) : bytes := take (Z.to_nat (mb_len m)) (mb_mem m) ++ mb_next m.
Definition mbuf_upd (f : bytes -> res bytes) (m : rte_mbuf) : res rte_mbuf :=
  p ← f (mb_mem m); Ok (mkMbuf p (mb_len m) (mb_next m)).

Section Mbuf.
Context (pool_get : Z -> option bytes).

(** [rte_pktmbuf_append] of [len] bytes and a copy of the first [n] of the template's
    packet. *)
Definition append_copy (mem : bytes) (len n : Z) (lp : CFlowPktInfo) : res rte_mbuf :=
  if zlength mem <? len then Err NullDeref
  else p ← mem_copy mem 0 (raw (fpi_packet lp)) 0 n; Ok (mkMbuf p len []).

Definition append_big_mbuf (lp : CFlowPktInfo) (m : rte_mbuf) : rte_mbuf :=
  match m_big_mbuf lp with
  | None => m
  | Some big => mkMbuf (mb_mem m) (mb_len m) big
  end.

(** The first part of the packet in a small buffer, all of it in a big one. *)
Definition small_mbuf (update : bytes -> res bytes) (lp : CFlowPktInfo) : res rte_mbuf :=
  mem ← pktmbuf_alloc_small pool_get;
  let len := if FIRST_PKT_SIZE <? pkt_len (fpi_packet lp) then FIRST_PKT_SIZE else pkt_len (fpi_packet lp) in
  m ← append_copy mem len len lp;
  m ← mbuf_upd update m;
  Ok (append_big_mbuf lp m).
Definition whole_mbuf (update : bytes -> res bytes) (lp : CFlowPktInfo) : res rte_mbuf :=
  let len := pkt_len (fpi_packet lp) in
  mem ← pktmbuf_alloc pool_get len;
  m ← append_copy mem len len lp;
  mbuf_upd update m.

Definition do_generate_new_mbuf (is_learn_mode : bool) (n : CGenNode) (lp : CFlowPktInfo) : res rte_mbuf :=
  small_mbuf (update_pkt_info is_learn_mode lp n) lp.
Definition do_generate_new_mbuf_big (is_learn_mode : bool) (n : CGenNode) (lp : CFlowPktInfo) : res rte_mbuf :=
  whole_mbuf (update_pkt_info is_learn_mode lp n) lp.
Definition do_generate_new_mbuf_ex (fi : CFlowInfo) (lp : CFlowPktInfo) : res rte_mbuf :=
  small_mbuf (update_pkt_info2 lp fi 0) lp.
Definition do_generate_new_mbuf_ex_big (fi : CFlowInfo) (lp : CFlowPktInfo) : res rte_mbuf :=
  whole_mbuf (update_pkt_info2 lp fi 0) lp.
End Mbuf.
