(* ===== verification/FlowNodeFacts.v ===== *)
(** * Facts about packets of generated flows

    A packet of a flow is the packet of the template with the addresses and the port of the
    flow, on the side its direction asks for, and right checksums. *)

From S2P Require Import Prelude Double ByteMem PktCmn PktCmnFacts PacketHdrs PacketHdrsFacts ByteFrame PktDesc PktParser PktParserFacts RxHeader CapTemplate RxInsert TupleGen FlowNode.

(** ** What the packet is to say *)

(** Source and destination address and the port of the client's side, with and without
    address learning. *)
Definition wire_tuple (learn : bool) (lp : CFlowPktInfo) (n : CGenNode) : Z * Z * Z :=
  if learn then
    if IsInitSide (fpi_desc lp) then (n_src_ip n, n_dest_ip n, n_src_port n)
    else (n_nat_external_ipv4_server n, n_nat_external_ipv4 n, n_nat_external_port n)
  else if cur_pkt_ip_addr_dir lp n =? CLIENT_SIDE then (n_src_ip n, n_dest_ip n, n_src_port n)
  else (n_dest_ip n, n_src_ip n, n_src_port n).

(** The place of that port: the source port for the initiator. *)
Definition port_place (lp : CFlowPktInfo) : Z :=
  fast_l4 lp + (if IsInitSide (fpi_desc lp) then 0 else 2).

(** The bytes that are the flow's own. *)
Definition rewritten_regions (learn : bool) (lp : CFlowPktInfo) : list (Z * Z) :=
  [(14 + 10, 2); (14 + 12, 8); (port_place lp, 2)] ++
  (if IsTcp (fpi_desc lp) then [] else [(fast_l4 lp + 6, 2)]) ++
  (if learn && IsLearn (fpi_desc lp) then [(14 + 8, 1); (34 + 2, 6)] else []).

(** What a learn packet tells the receiver. *)
Record learn_info (n : CGenNode) (pkt : bytes) : Prop := {
  li_ttl : IP_getTimeToLive pkt 14 = Ok TTL_RESERVE_DUPLICATE;
  li_fid : get_fid pkt 34 = Ok (get_short_fid n);
  li_thread : get_thread_id pkt 34 = Ok (u8 (n_thread_id n));
  li_rx : is_rx_check pkt 34 = Ok (is_rx_check_enabled n) }.

Record rewritten (learn : bool) (lp : CFlowPktInfo) (n : CGenNode) (pkt : bytes) : Prop := {
  rw_sum : IP_isChecksumOK pkt 14 = Ok true;
  rw_src : IP_getSourceIp pkt 14 = Ok (fst (fst (wire_tuple learn lp n)));
  rw_dst : IP_getDestIp pkt 14 = Ok (snd (fst (wire_tuple learn lp n)));
  rw_port : get_be16 pkt (port_place lp) = Ok (snd (wire_tuple learn lp n));
  rw_udp : IsTcp (fpi_desc lp) = false -> UDP_getChecksum pkt (fast_l4 lp) = Ok 0;
  rw_learn : learn && IsLearn (fpi_desc lp) = true -> learn_info n pkt }.

Record node_words (n : CGenNode) : Prop := {
  nw_src : 0 <= n_src_ip n < 4294967296;
  nw_dst : 0 <= n_dest_ip n < 4294967296;
  nw_port : 0 <= n_src_port n < 65536;
  nw_nat : 0 <= n_nat_external_ipv4 n < 4294967296;
  nw_nat_server : 0 <= n_nat_external_ipv4_server n < 4294967296;
  nw_nat_port : 0 <= n_nat_external_port n < 65536 }.

Lemma wire_tuple_words learn lp n :
  node_words n ->
  let '(src, dst, port) := wire_tuple learn lp n in
  0 <= src < 4294967296 /\ 0 <= dst < 4294967296 /\ 0 <= port < 65536.
Proof. intros []. unfold wire_tuple. repeat case_match; simplify_eq; done. Qed.

(** A buffer [p] with the headers of the IPv4 template packet [lp]. *)
Record v4_headers (lp : CFlowPktInfo) (p : bytes) : Prop := {
  vh_v4 : m_is_ipv6 (m_pkt_indication lp) = false;
  vh_ip : fast_ip lp = 14;
  vh_hdr : ip_header p 14;
  vh_l4 : fast_l4 lp = 14 + 4 * ihl p 14;
  vh_in : fast_l4 lp + 8 <= zlength p;
  vh_proto : IsTcp (fpi_desc lp) || IsUdp (fpi_desc lp) = true;
  vh_learn : IsLearn (fpi_desc lp) = true -> 7 <= ihl p 14 }.

(** ** The steps *)

Lemma write_learn_ok n p :
  ip_header p 14 -> 7 <= ihl p 14 ->
  exists p', write_learn n p 14 = Ok p' /\ ip_header p' 14 /\ ihl p' 14 = ihl p 14 /\ learn_info n p' /\
    frame p p' [(14 + 8, 1); (34 + 2, 6)].
Proof.
  intros Hh H7. pose proof Hh as [Hm _ _ Hi]. unfold write_learn, IP_setTimeToLive, o_TTL.
  change (14 + IPV4_HDR_LEN) with 34. change (14 + 8) with 22.
  destruct (st_frame 1 p 22 TTL_RESERVE_DUPLICATE Hm) as (p1 & E1 & L1 & F1); [unfold in_range; lia|].
  rewrite E1. cbn [mbind res_bind]. unfold set_fid. change (34 + 4) with 38.
  destruct (st_frame 4 p1 38 (get_short_fid n) (fr_ok _ _ _ F1)) as (p2 & E2 & L2 & F2).
  { unfold in_range. rewrite (fr_len _ _ _ F1). lia. }
  rewrite E2. cbn [mbind res_bind]. unfold set_thread_id. change (34 + 3) with 37.
  destruct (st_frame 1 p2 37 (n_thread_id n) (fr_ok _ _ _ F2)) as (p3 & E3 & L3 & F3).
  { unfold in_range. rewrite (fr_len _ _ _ F2), (fr_len _ _ _ F1). lia. }
  rewrite E3. cbn [mbind res_bind]. unfold set_rx_check, set_magic. change (34 + 2) with 36.
  set (g := if is_rx_check_enabled n then noIPV4_MAGIC_RX else noIPV4_MAGIC).
  destruct (st_frame 1 p3 36 g (fr_ok _ _ _ F3)) as (p4 & E4 & L4 & F4).
  { unfold in_range. rewrite (fr_len _ _ _ F3), (fr_len _ _ _ F2), (fr_len _ _ _ F1). lia. }
  assert (E4' : (if is_rx_check_enabled n then st8 p3 36 noIPV4_MAGIC_RX else st8 p3 36 noIPV4_MAGIC) = Ok p4)
    by (unfold g in E4; by destruct (is_rx_check_enabled n)).
  exists p4. split; [exact E4'|].
  assert (F : frame p p4 [(14 + 8, 1); (34 + 2, 6)]).
  { eapply frame_weaken; [exact (frame_trans _ _ _ _ _ F1 (frame_trans _ _ _ _ _ F2 (frame_trans _ _ _ _ _ F3 F4)))|].
    intros j Ha. apart_tac. }
  destruct (frame_ip_header _ _ _ _ F Hh) as [Hh4 Hih4]; [apart_tac|].
  split; [done|]. split; [done|]. split; [|exact F]. split.
  - unfold IP_getTimeToLive, o_TTL. change (14 + 8) with 22.
    rewrite (frame_ld 1 _ _ _ _ F4), (frame_ld 1 _ _ _ _ F3), (frame_ld 1 _ _ _ _ F2), L1 by apart_tac. done.
  - unfold get_fid. change (34 + 4) with 38. rewrite (frame_ld 4 _ _ _ _ F4), (frame_ld 4 _ _ _ _ F3), L2 by apart_tac.
    f_equal. apply Z.mod_small. unfold get_short_fid. change (256 ^ Z.of_nat 4) with 4294967296. apply u32_range.
  - unfold get_thread_id. change (34 + 3) with 37. rewrite (frame_ld 1 _ _ _ _ F4), L3 by apart_tac. done.
  - unfold is_rx_check, get_magic. change (34 + 2) with 36. rewrite L4. unfold g. cbn [mbind res_bind].
    by destruct (is_rx_check_enabled n).
Qed.

Lemma apart_sub f n f' n' l : apart f n l -> f <= f' -> f' + n' <= f + n -> apart f' n' l.
Proof. intros Ha H1 H2. eapply Forall_impl; [exact Ha|]. cbn. intros. lia. Qed.

Lemma learn_info_frame n p p' l :
  frame p p' l -> apart 22 1 l -> apart 36 6 l -> learn_info n p -> learn_info n p'.
Proof.
  intros F H1 H2 [A B C D]. unfold IP_getTimeToLive, get_fid, get_thread_id, is_rx_check, get_magic, o_TTL in *.
  change (14 + 8) with 22 in *. change (34 + 4) with 38 in *. change (34 + 3) with 37 in *. change (34 + 2) with 36 in *.
  split; unfold IP_getTimeToLive, get_fid, get_thread_id, is_rx_check, get_magic, o_TTL.
  - change (14 + 8) with 22. by rewrite (frame_ld 1 _ _ _ _ F).
  - change (34 + 4) with 38. rewrite (frame_ld 4 _ _ _ _ F); [done|]. eapply apart_sub; [exact H2|lia|cbn; lia].
  - change (34 + 3) with 37. rewrite (frame_ld 1 _ _ _ _ F); [done|]. eapply apart_sub; [exact H2|lia|cbn; lia].
  - change (34 + 2) with 36. rewrite (frame_ld 1 _ _ _ _ F); [done|]. eapply apart_sub; [exact H2|lia|cbn; lia].
Qed.

(** The addresses and the checksum, from a header that is complete. *)
Lemma addrs_checksum p src dst (x : Z) :
  ip_header p 14 -> 0 <= src < 4294967296 -> 0 <= dst < 4294967296 ->
  exists p', (p ← (p ← IP_updateIpSrc p 14 src; IP_updateIpDst p 14 dst);
              p ← IP_updateCheckSum p 14; Ok (p, x)) = Ok (p', x) /\
    ip_header p' 14 /\ ihl p' 14 = ihl p 14 /\ IP_isChecksumOK p' 14 = Ok true /\
    IP_getSourceIp p' 14 = Ok src /\ IP_getDestIp p' 14 = Ok dst /\
    frame p p' [(14 + 10, 2); (14 + 12, 8)].
Proof.
  intros Hh Hs Hd. destruct (update_addrs p 14 src dst Hh Hs Hd) as (p1 & E1 & Hh1 & Hi1 & Hs1 & Hd1 & F1).
  destruct (updateCheckSum_frame p1 14 Hh1) as (p2 & E2 & Hc & Hh2 & Hi2 & F2).
  exists p2. rewrite E1. cbn [mbind res_bind]. rewrite E2. cbn [mbind res_bind].
  split; [done|]. split; [done|]. split; [by rewrite Hi2|]. split; [done|].
  unfold IP_getSourceIp, IP_getDestIp, o_Source, o_Destination in *.
  rewrite !(frame_ld 4 _ _ _ _ F2) by apart_tac. split; [done|]. split; [done|].
  eapply frame_weaken; [exact (frame_trans _ _ _ _ _ F1 F2)|]. intros j Ha. apart_tac.
Qed.

(** The buffer [q] has the addresses of the flow and a right checksum. *)
Record addressed (learn : bool) (lp : CFlowPktInfo) (n : CGenNode) (p q : bytes) : Prop := {
  ad_hdr : ip_header q 14;
  ad_ihl : ihl q 14 = ihl p 14;
  ad_sum : IP_isChecksumOK q 14 = Ok true;
  ad_src : IP_getSourceIp q 14 = Ok (fst (fst (wire_tuple learn lp n)));
  ad_dst : IP_getDestIp q 14 = Ok (snd (fst (wire_tuple learn lp n)));
  ad_learn : learn && IsLearn (fpi_desc lp) = true -> learn_info n q }.

Definition addr_regions (learn : bool) (lp : CFlowPktInfo) : list (Z * Z) :=
  [(14 + 10, 2); (14 + 12, 8)] ++ (if learn && IsLearn (fpi_desc lp) then [(14 + 8, 1); (34 + 2, 6)] else []).

Lemma update_ipv4_spec learn lp n p :
  fast_ip lp = 14 -> ip_header p 14 -> (IsLearn (fpi_desc lp) = true -> 7 <= ihl p 14) -> node_words n ->
  exists p', update_ipv4 learn lp n p = Ok (p', snd (wire_tuple learn lp n)) /\
    addressed learn lp n p p' /\ frame p p' (addr_regions learn lp).
Proof.
  intros Hip Hh Hlr Hn. pose proof (wire_tuple_words learn lp n Hn) as Hw.
  unfold addr_regions. destruct (wire_tuple learn lp n) as [[src dst] port] eqn:Ew. destruct Hw as (Hs & Hd & Hp). cbn [fst snd].
  (* what precedes the addresses *)
  assert (Hpre : exists q, (if learn && IsLearn (fpi_desc lp) then write_learn n p 14 else Ok p) = Ok q /\
    ip_header q 14 /\ ihl q 14 = ihl p 14 /\ (learn && IsLearn (fpi_desc lp) = true -> learn_info n q) /\
    frame p q (if learn && IsLearn (fpi_desc lp) then [(14 + 8, 1); (34 + 2, 6)] else [])).
  { destruct (learn && IsLearn (fpi_desc lp)) eqn:El.
    - apply andb_true_iff in El as [_ El].
      destruct (write_learn_ok n p Hh (Hlr El)) as (q & E & Hq & Hi & Hli & F). by exists q.
    - exists p. split_and!; try done. by apply frame_refl, Hh. }
  destruct Hpre as (q & Eq & Hq & Hiq & Hliq & Fq).
  destruct (addrs_checksum q src dst port Hq Hs Hd) as (p' & E & Hh' & Hi' & Hc & Hs' & Hd' & F).
  exists p'. split.
  { unfold update_ipv4. rewrite Hip. unfold wire_tuple in Ew. destruct learn; cbn [andb] in Eq.
    - rewrite Eq. cbn [mbind res_bind]. destruct (IsInitSide (fpi_desc lp)); simplify_eq.
      + apply bind_Ok in E as (a & Ea & E). rewrite Ea. cbn [mbind res_bind]. exact E.
      + apply bind_Ok in E as (a & Ea & E). rewrite Ea. cbn [mbind res_bind]. exact E.
    - injection Eq as <-. destruct (cur_pkt_ip_addr_dir lp n =? CLIENT_SIDE); simplify_eq.
      + apply bind_Ok in E as (a & Ea & E). rewrite Ea. cbn [mbind res_bind]. exact E.
      + apply bind_Ok in E as (a & Ea & E). rewrite Ea. cbn [mbind res_bind]. exact E. }
  split.
  - split; rewrite ?Ew; try done; [by rewrite Hi'|]. intros El.
    eapply learn_info_frame; [exact F|apart_tac|apart_tac|by apply Hliq].
  - eapply frame_weaken; [exact (frame_trans _ _ _ _ _ Fq F)|]. intros j Ha.
    apply apart_app in Ha as [H1 H2]. by apply apart_app.
Qed.

Lemma update_ipv4_ok learn lp n p :
  v4_headers lp p -> node_words n ->
  exists p', update_ipv4 learn lp n p = Ok (p', snd (wire_tuple learn lp n)) /\
    addressed learn lp n p p' /\ frame p p' (addr_regions learn lp).
Proof. intros [] Hn. by apply update_ipv4_spec. Qed.

(** Stores behind the IP header leave it alone. *)
Lemma addressed_frame learn lp n p q q' l :
  v4_headers lp p -> addressed learn lp n p q -> frame q q' l ->
  (forall f k, 0 <= k -> 0 <= f -> f + k <= fast_l4 lp -> apart f k l) -> addressed learn lp n p q'.
Proof.
  intros Hv [Hh Hi Hc Hs Hd Hli] F Ha. pose proof (vh_l4 _ _ Hv) as Hl4. pose proof (ih_len _ _ Hh) as H5.
  pose proof (vh_learn _ _ Hv) as H7.
  destruct (frame_ip_header _ _ _ _ F Hh) as [Hh' Hi']; [apply Ha; lia|].
  unfold IP_getSourceIp, IP_getDestIp, o_Source, o_Destination in *. split.
  - done.
  - by rewrite Hi'.
  - rewrite (frame_checksum _ _ _ _ F Hh); [done|apply Ha; lia].
  - unfold IP_getSourceIp, o_Source. rewrite (frame_ld 4 _ _ _ _ F); [done|apply Ha; lia].
  - unfold IP_getDestIp, o_Destination. rewrite (frame_ld 4 _ _ _ _ F); [done|apply Ha; lia].
  - intros El. apply andb_true_iff in El as El'. destruct El' as [_ El']. specialize (H7 El').
    eapply learn_info_frame; [exact F|apply Ha; lia|apply Ha; lia|by apply Hli].
Qed.

(** The port of the client's side, the last store. *)
Lemma set_port_ok learn lp n p q :
  v4_headers lp p -> addressed learn lp n p q -> zlength q = zlength p -> node_words n ->
  (IsTcp (fpi_desc lp) = false -> UDP_getChecksum q (fast_l4 lp) = Ok 0) ->
  exists p', (if cur_pkt_port_addr_dir lp =? CLIENT_SIDE then set_be16 q (fast_l4 lp) (snd (wire_tuple learn lp n))
              else set_be16 q (fast_l4 lp + 2) (snd (wire_tuple learn lp n))) = Ok p' /\
    addressed learn lp n p p' /\ rewritten learn lp n p' /\ frame q p' [(port_place lp, 2)].
Proof.
  intros Hv Had Hz Hn Hu. pose proof (wire_tuple_words learn lp n Hn) as Hw.
  destruct (wire_tuple learn lp n) as [[src dst] port] eqn:Ew. destruct Hw as (_ & _ & Hp). cbn [snd].
  pose proof (vh_l4 _ _ Hv) as Hl4. pose proof (vh_in _ _ Hv) as Hin. pose proof (ih_len _ _ (vh_hdr _ _ Hv)) as H5.
  destruct (set_be16_frame q (port_place lp) port (ih_bytes _ _ (ad_hdr _ _ _ _ _ Had))) as (p' & Ep & Gp & F);
    [unfold in_range, port_place; destruct (IsInitSide (fpi_desc lp)); lia|done|].
  assert (Had' : addressed learn lp n p p').
  { eapply addressed_frame; [done|done|exact F|]. intros f k Hk Hf Hl.
    unfold port_place. destruct (IsInitSide (fpi_desc lp)); apart_tac. }
  exists p'. split; [|split; [done|split; [|done]]].
  - rewrite <- Ep. unfold port_place, cur_pkt_port_addr_dir, side. destruct (IsInitSide (fpi_desc lp)); cbn; [|done].
    by rewrite Z.add_0_r.
  - destruct Had' as [_ _ Hc Hs Hd Hli]. split; try done; [by rewrite Gp, Ew|]. intros Et.
    rewrite <- Hu by done. unfold UDP_getChecksum. apply (frame_be16 _ _ _ _ F).
    unfold port_place. destruct (IsInitSide (fpi_desc lp)); apart_tac.
Qed.

(** The whole update, on any buffer that holds the headers. *)
Lemma update_pkt_info_ok learn lp n p :
  v4_headers lp p -> node_words n ->
  exists p', update_pkt_info learn lp n p = Ok p' /\ addressed learn lp n p p' /\
    rewritten learn lp n p' /\ frame p p' (rewritten_regions learn lp).
Proof.
  intros Hv Hn. destruct (update_ipv4_ok learn lp n p Hv Hn) as (q & E & Had & F).
  pose proof Hv as [H4 _ Hh Hl4 Hin Hpr _]. pose proof (ih_len _ _ Hh) as H5. pose proof (fr_len _ _ _ F) as Hz.
  unfold update_pkt_info. rewrite H4, E. cbn [mbind res_bind].
  destruct (IsTcp (fpi_desc lp)) eqn:Et.
  - destruct (set_port_ok learn lp n p q Hv Had Hz Hn) as (p' & Ep & Had' & Hrw & Fp); [congruence|].
    exists p'. split; [exact Ep|]. split; [done|]. split; [done|].
    eapply frame_weaken; [exact (frame_trans _ _ _ _ _ F Fp)|]. unfold rewritten_regions, addr_regions.
    rewrite Et. intros j Ha. rewrite !apart_app in *. intuition apart_tac.
  - cbn [orb] in Hpr. rewrite Hpr. unfold UDP_setChecksum.
    destruct (set_be16_frame q (fast_l4 lp + 6) 0 (fr_ok _ _ _ F)) as (q' & Eq & Gq & Fq);
      [unfold in_range; lia|lia|]. rewrite Eq. cbn [mbind res_bind].
    assert (Had' : addressed learn lp n p q') by (eapply addressed_frame; [done|done|exact Fq|intros; apart_tac]).
    destruct (set_port_ok learn lp n p q' Hv Had') as (p' & Ep & Had2 & Hrw & Fp); [by rewrite (fr_len _ _ _ Fq)|done|done|].
    exists p'. split; [exact Ep|]. split; [done|]. split; [done|].
    eapply frame_weaken; [exact (frame_trans _ _ _ _ _ F (frame_trans _ _ _ _ _ Fq Fp))|].
    unfold rewritten_regions, addr_regions. rewrite Et. intros j Ha. rewrite !apart_app in *. intuition apart_tac.
Qed.

(** ** The packet in its buffers *)

Lemma v4_headers_agree lp p q k :
  v4_headers lp p -> agree k p q -> bytes_ok q -> fast_l4 lp + 8 <= k -> v4_headers lp q.
Proof.
  intros [H4 Hip Hh Hl4 Hin Hpr Hlr] Ha Hq Hk.
  destruct (agree_ip_header k p q 14 Ha Hq Hh) as [Hh' Hi']; [lia|].
  split; try done; rewrite ?Hi'; try done. pose proof (ag_r _ _ _ Ha). lia.
Qed.

Lemma learn_info_agree n k p q : agree k p q -> 42 <= k -> learn_info n p -> learn_info n q.
Proof.
  intros Ha Hk [A B C D]. split; unfold IP_getTimeToLive, get_fid, get_thread_id, is_rx_check, get_magic, o_TTL.
  - by rewrite (agree_ld 1 k p q) by (done || lia).
  - by rewrite (agree_ld 4 k p q) by (done || lia).
  - by rewrite (agree_ld 1 k p q) by (done || lia).
  - by rewrite (agree_ld 1 k p q) by (done || lia).
Qed.

Lemma rewritten_agree learn lp n k p p' q :
  v4_headers lp p -> addressed learn lp n p p' -> rewritten learn lp n p' -> agree k p' q -> bytes_ok q ->
  fast_l4 lp + 8 <= k -> rewritten learn lp n q.
Proof.
  intros Hv Had [Hc Hs Hd Hp Hu Hli] Ha Hq Hk. pose proof (vh_l4 _ _ Hv) as Hl4.
  pose proof (ih_len _ _ (vh_hdr _ _ Hv)) as H5. pose proof (vh_learn _ _ Hv) as H7.
  unfold IP_getSourceIp, IP_getDestIp, o_Source, o_Destination, UDP_getChecksum in *.
  assert (Hplace : fast_l4 lp <= port_place lp <= fast_l4 lp + 2)
    by (unfold port_place; destruct (IsInitSide (fpi_desc lp)); lia).
  split; unfold IP_getSourceIp, IP_getDestIp, o_Source, o_Destination, UDP_getChecksum.
  - rewrite (agree_checksum k p' q); [done|done|done|apply Had|]. rewrite (ad_ihl _ _ _ _ _ Had). lia.
  - by rewrite (agree_ld 4 k p' q) by (done || lia).
  - by rewrite (agree_ld 4 k p' q) by (done || lia).
  - by rewrite (agree_be16 k p' q) by (done || lia).
  - intros Et. rewrite (agree_be16 k p' q) by (done || lia). by apply Hu.
  - intros El. apply andb_true_iff in El as El'. destruct El' as [_ El']. specialize (H7 El').
    eapply learn_info_agree; [done|lia|by apply Hli].
Qed.

(** A packet of an IPv4 template, as loading leaves it: a buffer of its size, the rest of a
    long packet in the buffer of the sockets, its headers within the first 64 bytes. *)
Record v4_template (lp : CFlowPktInfo) : Prop := {
  vt_hdr : v4_headers lp (raw (fpi_packet lp));
  vt_len : zlength (raw (fpi_packet lp)) = pkt_len (fpi_packet lp);
  vt_first : fast_l4 lp + 8 <= FIRST_PKT_SIZE;
  vt_big : m_big_mbuf lp = if FIRST_PKT_SIZE <? pkt_len (fpi_packet lp)
                           then Some (drop (Z.to_nat FIRST_PKT_SIZE) (raw (fpi_packet lp))) else None }.

(** A buffer of which the first [len] bytes are data and [rest] follows. *)
Lemma joined_frame raw p p' len rest l :
  agree len raw p -> frame p p' l -> 0 <= len <= zlength raw -> rest = drop (Z.to_nat len) raw -> bytes_ok raw ->
  let pkt := take (Z.to_nat len) p' ++ rest in
  agree len p' pkt /\ frame raw pkt l.
Proof.
  intros Ha F Hlen -> Hraw. cbv zeta. pose proof (ag_r _ _ _ Ha) as Hr. pose proof (fr_len _ _ _ F) as Hz.
  pose proof (agree_app_take len p' (drop (Z.to_nat len) raw)) as Ha'. specialize (Ha' ltac:(lia)).
  split; [done|]. unfold zlength in *. split.
  - unfold zlength. rewrite length_app, length_take, length_drop. lia.
  - apply Forall_app. split; [apply Forall_take, F|by apply Forall_drop].
  - intros j Hj Hap. destruct (Z_lt_le_dec j len) as [Hlt|Hge].
    + rewrite (agree_byte len p' _ j Ha'), (frame_byte _ _ _ _ F) by (done || lia).
      apply (agree_byte len); [done|lia].
    + unfold byte_at. rewrite lookup_app_r by (rewrite length_take; lia).
      rewrite length_take, lookup_drop. do 2 f_equal. lia.
Qed.

Lemma do_generate_new_mbuf_spec (pool_get : Z -> option bytes) (learn : bool) (n : CGenNode) (lp : CFlowPktInfo)
    (mem : bytes) :
  v4_template lp -> node_words n -> pool_get FIRST_PKT_SIZE = Some mem -> bytes_ok mem ->
  zlength mem = FIRST_PKT_SIZE ->
  exists m, do_generate_new_mbuf pool_get learn n lp = Ok m /\
    (rewritten learn lp n (pktmbuf_bytes m) /\
     frame (raw (fpi_packet lp)) (pktmbuf_bytes m) (rewritten_regions learn lp)) /\
    bytes_ok (mb_mem m) /\ zlength (mb_mem m) = FIRST_PKT_SIZE /\ fast_l4 lp + 8 <= mb_len m <= FIRST_PKT_SIZE.
Proof.
  intros [Hv Hlen Hfirst Hbig] Hn Hpool Hmem Hz. change FIRST_PKT_SIZE with 64 in *.
  pose proof (vh_hdr _ _ Hv) as Hh. pose proof (ih_bytes _ _ Hh) as Hraw. pose proof (vh_in _ _ Hv) as Hin.
  unfold do_generate_new_mbuf, small_mbuf, pktmbuf_alloc_small, alloc_from. change FIRST_PKT_SIZE with 64.
  rewrite Hpool. cbn [mbind res_bind].
  set (first := if 64 <? pkt_len (fpi_packet lp) then 64 else pkt_len (fpi_packet lp)).
  pose proof (vh_l4 _ _ Hv) as Hl4. pose proof (ih_len _ _ Hh) as H5.
  assert (Hf : fast_l4 lp + 8 <= first <= 64 /\ first <= zlength (raw (fpi_packet lp))).
  { unfold first. destruct (Z.ltb_spec 64 (pkt_len (fpi_packet lp))); lia. }
  unfold append_copy, mem_copy. rewrite Hz. rewrite (proj2 (Z.ltb_ge 64 first)) by lia.
  rewrite decide_True by lia. cbn [mbind res_bind]. change (Z.to_nat 0) with 0%nat. rewrite drop_0.
  destruct (mem_copy_start mem (raw (fpi_packet lp)) first Hmem Hraw) as (p & -> & Hp & Hzp & Ha); [lia..|].
  assert (Hvp : v4_headers lp p) by (eapply v4_headers_agree; [exact Hv|exact Ha|done|lia]).
  destruct (update_pkt_info_ok learn lp n p Hvp Hn) as (p' & E & Had & Hrw & F).
  unfold mbuf_upd. cbn [mb_mem mb_len mb_next]. rewrite E. cbn [mbind res_bind]. eexists. split; [reflexivity|].
  assert (Hb : pktmbuf_bytes (append_big_mbuf lp (mkMbuf p' first [])) =
               take (Z.to_nat first) p' ++ drop (Z.to_nat first) (raw (fpi_packet lp))).
  { unfold append_big_mbuf, pktmbuf_bytes. rewrite Hbig. unfold first.
    destruct (Z.ltb_spec 64 (pkt_len (fpi_packet lp))); cbn [mb_mem mb_len mb_next]; [done|].
    rewrite <- Hlen. unfold zlength. by rewrite Nat2Z.id, drop_all. }
  rewrite Hb. destruct (joined_frame (raw (fpi_packet lp)) p p' first _ _ Ha F ltac:(lia) eq_refl Hraw) as [Hag Hfr].
  split; [split; [|exact Hfr]; eapply rewritten_agree; [exact Hvp|done|done|exact Hag|apply Hfr|lia]|].
  unfold append_big_mbuf. destruct (m_big_mbuf lp); cbn [mb_mem mb_len]; (split; [apply F|split; [|lia]]); rewrite (fr_len _ _ _ F); lia.
Qed.

(** Every packet the stateful generator makes of an IPv4 template is the packet of the
    template with the addresses of the flow, in the direction of the packet, and the port of
    the flow on the side of the client (in learn mode, for packets of the server: the addresses and the port that
    were learned), a right header checksum, no UDP checksum, and, in the packet that learns, the
    identity of the flow; no other byte changes, whatever the buffer held before. *)
Theorem do_generate_new_mbuf_ok (pool_get : Z -> option bytes) (learn : bool) (n : CGenNode) (lp : CFlowPktInfo)
    (mem : bytes) :
  v4_template lp -> node_words n -> pool_get FIRST_PKT_SIZE = Some mem -> bytes_ok mem ->
  zlength mem = FIRST_PKT_SIZE ->
  exists m, do_generate_new_mbuf pool_get learn n lp = Ok m /\
    rewritten learn lp n (pktmbuf_bytes m) /\
    frame (raw (fpi_packet lp)) (pktmbuf_bytes m) (rewritten_regions learn lp).
Proof.
  intros Hv Hn Hp Hm Hz. destruct (do_generate_new_mbuf_spec pool_get learn n lp mem Hv Hn Hp Hm Hz) as (m & E & [A B] & _).
  by exists m.
Qed.

(** A UDP packet of 60 bytes, of the client, and a flow. *)
Definition demo_lp : CFlowPktInfo :=
  mkPktInfo
    (ind_set_desc (SetInitSide true (SetIsUdp true (m_desc demo_ind)))
       (ind_set_offsets 0 14 34 42 (ind_set_packet (mkRaw demo_udp 60 1 0 0) demo_ind))) None.
Definition demo_node : CGenNode :=
  mkGenNode FLOW_PKT 0 2000 0 (double_of_Z 1) 0x10000001 0x30000001 1 0 0 pi_null 0 0 0
    (MkMac (replicate 6 0) UNUSED) 0 0.

Lemma demo_lp_template : v4_template demo_lp.
Proof.
  split; try (vm_compute; reflexivity); [|vm_compute; congruence].
  split; try (vm_compute; reflexivity); try (vm_compute; congruence).
  split; try (vm_compute; congruence). repeat constructor; vm_compute; congruence.
Qed.
Lemma demo_node_words : node_words demo_node.
Proof. split; vm_compute; split; congruence. Qed.

Lemma do_generate_new_mbuf_ok_witness :
  exists m, do_generate_new_mbuf (fun size => Some (replicate (Z.to_nat size) 0)) false demo_node demo_lp = Ok m /\
    IP_getSourceIp (pktmbuf_bytes m) 14 = Ok 0x10000001 /\ get_be16 (pktmbuf_bytes m) 34 = Ok 2000.
Proof.
  destruct (do_generate_new_mbuf_ok (fun size => Some (replicate (Z.to_nat size) 0)) false demo_node demo_lp
              (replicate 64 0) demo_lp_template demo_node_words eq_refl) as (m & E & [_ Hs _ Hp _ _] & _).
  - apply Forall_replicate. vm_compute. split; congruence.
  - vm_compute. reflexivity.
  - exists m. split; [exact E|]. split; [exact Hs|exact Hp].
Defined.
