(* ===== verification/MiniVm.v ===== *)
(** * Plugins: packets whose payload is rewritten

    Models the mini VM, [CTcpSeq] and the plugins of [src/src/bp_sim.{h,cpp}]: in the
    packets of RTSP, SIP and HTTP flows that carry addresses and ports as text, the text
    is replaced by that of the flow, lengths follow, and TCP sequence numbers of later
    packets are shifted by what the earlier ones have grown. *)

From S2P Require Import Prelude Double ByteMem PktCmn PacketHdrs PktDesc PktParser CapTemplate RxInsert TupleGen FlowNode.

(** ** Text *)

(** [%u] of [sprintf]; a 32-bit number has at most ten digits. *)
Fixpoint dec_digits (fuel : nat) (n : Z) : bytes :=
  match fuel with
  | O => []
  | S fuel => if n <? 10 then [48 + n] else dec_digits fuel (n / 10) ++ [48 + n mod 10]
  end.
Definition dec (n : Z) : bytes := dec_digits 10 n.

Definition ch_dot : Z := 46.
Definition ch_minus : Z := 45.
Definition ch_colon : Z := 58.
(** ";server_port=" *)
Definition server_port_text : bytes := [59; 115; 101; 114; 118; 101; 114; 95; 112; 111; 114; 116; 61].

Definition INET_PORTSTRLEN : Z := 5.
Definition INET_ADDRSTRLEN : Z := 16.
Definition INET6_ADDRSTRLEN : Z := 46.

(** [inet_ntop] of the address in network order. *)
Definition ip_to_str (ip : Z) : bytes :=
  match be_split 4 (u32 ip) with
  | [a; b; c; d] => dec a ++ [ch_dot] ++ dec b ++ [ch_dot] ++ dec c ++ [ch_dot] ++ dec d
  | _ => []
  end.

Record ipaddr_t : Type := mkIpaddr { v6 : list Z; v4 : Z }.

(** ** Commands *)

Record CMiniVMCmdBase : Type := mkCmd { m_v6 : bool; m_start_0 : Z; m_stop_1 : Z; m_add_pkt_len : Z }.

(** [CFlowYamlDpPkt] *)
Record CFlowYamlDpPkt : Type := mkDpPkt {
  dp_pkt_id : Z; m_pyld_offset : Z; dp_type : Z; dp_len : Z; m_pkt_mask : Z }.
(** The three fields of an address or port that is replaced: from, to (behind it). *)
Record span : Type := mkSpan { sp_start : Z; sp_stop : Z }.

Inductive mini_vm_cmd : Type :=
  | VM_REPLACE_IP_OFFSET (b : CMiniVMCmdBase) (server_ip : ipaddr_t)
  | VM_REPLACE_IP_PORT_OFFSET (b : CMiniVMCmdBase) (server_ip : ipaddr_t) (port : span) (client_port : Z)
  | VM_REPLACE_IP_PORT_RESPONSE_OFFSET (b : CMiniVMCmdBase) (port : span) (client_port server_port : Z)
  | VM_REPLACE_IP_IP_PORT (b : CMiniVMCmdBase) (ip : ipaddr_t) (ip0 ip1 : span) (port : Z) (pspan : span)
  | VM_REPLACE_IPVIA_IP_IP_PORT (b : CMiniVMCmdBase) (ip : ipaddr_t) (ip0 ip1 : span) (port : Z) (pspan : span)
      (ip_via : ipaddr_t) (port_via : Z) (via : span)
  | VM_DYN_PYLOAD (b : CMiniVMCmdBase) (dyn : CFlowYamlDpPkt) (ip : Z)
  | VM_EOP.

Definition cmd_base (c : mini_vm_cmd) : option CMiniVMCmdBase :=
  match c with
  | VM_REPLACE_IP_OFFSET b _ | VM_REPLACE_IP_PORT_OFFSET b _ _ _ | VM_REPLACE_IP_PORT_RESPONSE_OFFSET b _ _ _
  | VM_REPLACE_IP_IP_PORT b _ _ _ _ _ | VM_REPLACE_IPVIA_IP_IP_PORT b _ _ _ _ _ _ _ _ | VM_DYN_PYLOAD b _ _ => Some b
  | VM_EOP => None
  end.

(** ** Writing the new payload *)

(** The memory of the new packet, and the place of [p] in it. *)
Definition cursor : Type := bytes * Z.

(** [memcpy] of [len] bytes of the old payload. *)
Definition cp_pkt_len (src : bytes) (from_offset len : Z) (w : cursor) : res cursor :=
  m ← mem_copy (fst w) (snd w) src from_offset len; Ok (m, snd w + len).
Definition cp_pkt_to_from (src : bytes) (from_offset to_offset : Z) (w : cursor) : res cursor :=
  cp_pkt_len src from_offset (to_offset - from_offset) w.
(** A string with its end. *)
Definition put_text (t : bytes) (w : cursor) : res cursor :=
  m ← mem_copy (fst w) (snd w) (t ++ [0]) 0 (zlength t + 1); Ok (m, snd w + zlength t).

Section MiniVm.
(** [inet_ntop] for IPv6, of the eight groups in network order, and [rand]. *)
Context (inet_ntop6 : list Z -> bytes) (rand : nat -> Z).

Definition ipv6_to_str (ip : ipaddr_t) : bytes :=
  let ipv4 := PKT_HTONL (v4 ip) in
  [91] ++ inet_ntop6 ((PKT_HTONS <$> v6 ip) ++ [Z.land ipv4 0xffff; Z.shiftr ipv4 16]) ++ [93].

Definition put_ip (is_v6 : bool) (ip : ipaddr_t) (w : cursor) : res cursor :=
  put_text (if is_v6 then ipv6_to_str ip else ip_to_str (v4 ip)) w.
(** For IPv6 the digit before the address becomes a 6 ("IP6"). *)
Definition mark_ip6 (is_v6 : bool) (w : cursor) : res cursor :=
  if is_v6 then m ← st8 (fst w) (snd w - 2) 54; Ok (m, snd w) else Ok w.

Section Commands.
(** The old payload, of the template's packet, and the place of the new one. *)
Context (lp : CFlowPktInfo).
Definition l7_offset : Z := m_payload_offset (m_pkt_indication lp).
Definition l7_len : Z := u16 (pkt_len (fpi_packet lp) - l7_offset).
Definition original_l7 : bytes := drop (Z.to_nat l7_offset) (raw (fpi_packet lp)).

(** The size of the packet that ends at [p], when the payload began at [start]. *)
Definition new_size (start : Z) (w : cursor) : bytes * Z := (fst w, s16 (snd w + l7_offset - start)).

Definition mini_vm_replace_ip (b : CMiniVMCmdBase) (ip : ipaddr_t) (start : Z) (m : bytes) : res (bytes * Z) :=
  w ← cp_pkt_len original_l7 0 (m_start_0 b) (m, start);
  w ← put_ip (m_v6 b) ip w;
  w ← cp_pkt_len original_l7 (m_stop_1 b) (l7_len - m_stop_1 b) w;
  Ok (new_size start w).

Definition mini_vm_replace_port_ip (b : CMiniVMCmdBase) (ip : ipaddr_t) (port : span) (client_port start : Z)
    (m : bytes) : res (bytes * Z) :=
  w ← cp_pkt_len original_l7 0 (m_start_0 b) (m, start);
  w ← put_ip (m_v6 b) ip w;
  w ← cp_pkt_len original_l7 (m_stop_1 b) (sp_start port - m_stop_1 b) w;
  w ← put_text (dec client_port ++ [ch_minus] ++ dec (client_port + 1)) w;
  w ← cp_pkt_len original_l7 (sp_stop port) (l7_len - sp_stop port) w;
  Ok (new_size start w).

Definition mini_vm_replace_ports (port : span) (client_port server_port start : Z) (m : bytes)
  : res (bytes * Z) :=
  w ← cp_pkt_len original_l7 0 (sp_start port) (m, start);
  w ← put_text (dec client_port ++ [ch_minus] ++ dec (client_port + 1) ++ server_port_text ++
                dec server_port ++ [ch_minus] ++ dec (server_port + 1)) w;
  w ← cp_pkt_len original_l7 (sp_stop port) (l7_len - sp_stop port) w;
  Ok (new_size start w).

Definition mini_vm_replace_ip_ip_ports (b : CMiniVMCmdBase) (ip : ipaddr_t) (ip0 ip1 : span) (port : Z)
    (pspan : span) (start : Z) (m : bytes) : res (bytes * Z) :=
  w ← cp_pkt_to_from original_l7 0 (sp_start ip0) (m, start);
  w ← put_ip (m_v6 b) ip w;
  w ← cp_pkt_to_from original_l7 (sp_stop ip0) (sp_start ip1) w;
  w ← put_ip (m_v6 b) ip w;
  w ← cp_pkt_to_from original_l7 (sp_stop ip1) (sp_start pspan) w;
  w ← put_text (dec port) w;
  w ← cp_pkt_to_from original_l7 (sp_stop pspan) l7_len w;
  Ok (new_size start w).

Definition mini_vm_replace_ip_via_ip_ip_ports (b : CMiniVMCmdBase) (ip : ipaddr_t) (ip0 ip1 : span) (port : Z)
    (pspan : span) (ip_via : ipaddr_t) (port_via : Z) (via : span) (start : Z) (m : bytes) : res (bytes * Z) :=
  w ← cp_pkt_to_from original_l7 0 (sp_start via) (m, start);
  w ← put_ip (m_v6 b) ip_via w;
  w ← put_text ([ch_colon] ++ dec port_via) w;
  w ← cp_pkt_to_from original_l7 (sp_stop via) (sp_start ip0) w;
  w ← mark_ip6 (m_v6 b) w;
  w ← put_ip (m_v6 b) ip w;
  w ← cp_pkt_to_from original_l7 (sp_stop ip0) (sp_start ip1) w;
  w ← mark_ip6 (m_v6 b) w;
  w ← put_ip (m_v6 b) ip w;
  w ← cp_pkt_to_from original_l7 (sp_stop ip1) (sp_start pspan) w;
  w ← put_text (dec port) w;
  w ← cp_pkt_to_from original_l7 (sp_stop pspan) l7_len w;
  Ok (new_size start w).

(** The words that the command fills; other types leave them. *)
Fixpoint dyn_words (n : nat) (dyn : CFlowYamlDpPkt) (ip : Z) (i : nat) (m : bytes) (off : Z) : res bytes :=
  match n with
  | O => Ok m
  | S n =>
      m ← (if dp_type dyn =? 0 then st32 m off (Z.land (rand i) (m_pkt_mask dyn))
           else if dp_type dyn =? 1 then st32 m off (Z.land (PKT_NTOHL ip) (m_pkt_mask dyn))
           else Ok m);
      dyn_words n dyn ip (S i) m (off + 4)
  end.

Definition mini_vm_dyn_payload (dyn : CFlowYamlDpPkt) (ip start : Z) (m : bytes) : res (bytes * Z) :=
  w ← cp_pkt_len original_l7 0 l7_len (m, start);
  m ← (if m_pyld_offset dyn + dp_len dyn * 4 <? l7_len - 4
       then dyn_words (Z.to_nat (dp_len dyn)) dyn ip 0 (fst w) (start + m_pyld_offset dyn) else Ok (fst w));
  Ok (m, s16 (pkt_len (fpi_packet lp))).

Definition mini_vm_cmd_run (c : mini_vm_cmd) (start : Z) (m : bytes) : res (bytes * Z) :=
  match c with
  | VM_REPLACE_IP_OFFSET b ip => mini_vm_replace_ip b ip start m
  | VM_REPLACE_IP_PORT_OFFSET b ip port client_port => mini_vm_replace_port_ip b ip port client_port start m
  | VM_REPLACE_IP_PORT_RESPONSE_OFFSET b port client_port server_port =>
      mini_vm_replace_ports port client_port server_port start m
  | VM_REPLACE_IP_IP_PORT b ip ip0 ip1 port pspan => mini_vm_replace_ip_ip_ports b ip ip0 ip1 port pspan start m
  | VM_REPLACE_IPVIA_IP_IP_PORT b ip ip0 ip1 port pspan ip_via port_via via =>
      mini_vm_replace_ip_via_ip_ip_ports b ip ip0 ip1 port pspan ip_via port_via via start m
  | VM_DYN_PYLOAD b dyn ip => mini_vm_dyn_payload dyn ip start m
  | VM_EOP => Ok (m, 0)
  end.

(** The loop also loads the pointer behind the last command, which it does not follow. *)
Fixpoint mini_vm_run (cmds : list mini_vm_cmd) (start : Z) (m : bytes) (size : Z) : res (bytes * Z) :=
  match cmds with
  | [] => Err OutOfBounds
  | VM_EOP :: _ => Ok (m, size)
  | c :: cmds => '(m, size) ← mini_vm_cmd_run c start m; mini_vm_run cmds start m size
  end.
End Commands.

(** ** The packet *)

(** [rte_pktmbuf_trim]: nothing happens when there is less than that. *)
Definition pktmbuf_trim (len : Z) (m : rte_mbuf) : rte_mbuf :=
  if mb_len m <? len then m else mkMbuf (mb_mem m) (u16 (mb_len m - len)) (mb_next m).

(** The packet, and by how much it grew. *)
Definition do_generate_new_mbuf_ex_vm (pool_get : Z -> option bytes) (lp : CFlowPktInfo) (fi : CFlowInfo)
    (program : list mini_vm_cmd) (s_size : Z) : res (rte_mbuf * Z) :=
  if m_payload_len (m_pkt_indication lp) =? 0 then
    m ← do_generate_new_mbuf_ex pool_get fi lp; Ok (m, s_size)
  else
    match head program ≫= cmd_base with
    | None => Err OutOfBounds
    | Some b =>
        let size := pkt_len (fpi_packet lp) in
        let len := u16 (size + m_add_pkt_len b) in
        let start := getPayloadOffset (m_pkt_indication lp) in
        mem ← pktmbuf_alloc pool_get len;
        m ← append_copy mem len start lp;
        '(p, new_pkt_size) ← mini_vm_run lp program start (mb_mem m) 0;
        let m := pktmbuf_trim (u16 (len - new_pkt_size)) (mkMbuf p (mb_len m) (mb_next m)) in
        m ← mbuf_upd (update_pkt_info2 lp fi (u16 (new_pkt_size - size))) m;
        Ok (m, s16 (new_pkt_size - size))
    end.

(** [CTcpSeq::update]; [s_size] is how much this packet grew. *)
Definition CTcpSeq_update (lp : CFlowPktInfo) (s_size : Z) (q : CTcpSeq) (p : bytes) : res (bytes * CTcpSeq) :=
  let tcp := fast_l4 lp in
  let is_init := IsInitSide (fpi_desc lp) in
  seqnum ← TCP_getSeqNumber p tcp;
  acknum ← TCP_getAckNumber p tcp;
  let '(ds, da) := if is_init then (client_seq_delta q, server_seq_delta q)
                   else (server_seq_delta q, client_seq_delta q) in
  p ← TCP_setSeqNumber p tcp (u32 (seqnum + ds));
  p ← TCP_setAckNumber p tcp (u32 (acknum + da));
  Ok (p, if is_init then mkSeq (u32 (client_seq_delta q + s_size)) (server_seq_delta q)
         else mkSeq (client_seq_delta q) (u32 (server_seq_delta q + s_size))).
Definition seq_mbuf (lp : CFlowPktInfo) (s_size : Z) (q : CTcpSeq) (m : rte_mbuf) : res (rte_mbuf * CTcpSeq) :=
  '(p, q) ← CTcpSeq_update lp s_size q (mb_mem m); Ok (mkMbuf p (mb_len m) (mb_next m), q).
End MiniVm.
