(* ===== verification/MiniVmFacts.v ===== *)
(** * Facts about rewritten payloads

    The commands of the mini VM are edits of the old payload: spans of it are replaced by
    text. The new payload fits the buffer that was asked for, and the lengths in the
    headers follow. *)

From S2P Require Import Prelude Double ByteMem PktCmn PktCmnFacts PacketHdrs PacketHdrsFacts ByteFrame PktDesc PktParser PktParserFacts CapTemplate TupleGen FlowNode FlowNodeFacts MiniVm.

(** ** Text *)

Definition is_digit (b : Z) : Prop := 48 <= b < 58.

Lemma dec_digits_bounds fuel : forall n k, (0 < fuel)%nat -> (k <= fuel)%nat -> (0 < k)%nat ->
  0 <= n < 10 ^ Z.of_nat k -> (1 <= length (dec_digits fuel n) <= k)%nat.
Proof.
  induction fuel as [|fuel IH]; intros n k Hf Hk Hk0 Hn; [lia|]. cbn [dec_digits].
  destruct (Z.ltb_spec n 10); [cbn; lia|]. destruct k as [|[|k]]; [lia|cbn in Hn; lia|].
  rewrite length_app. cbn [length].
  destruct (IH (n / 10) (S k)); [lia..| |lia].
  replace (Z.of_nat (S (S k))) with (1 + Z.of_nat (S k)) in Hn by lia.
  rewrite Z.pow_add_r in Hn by lia. split; [apply Z.div_pos; lia|apply Z.div_lt_upper_bound; lia].
Qed.

Lemma dec_digits_ok fuel : forall n, 0 <= n -> Forall is_digit (dec_digits fuel n).
Proof.
  induction fuel as [|fuel IH]; intros n Hn; cbn [dec_digits]; [constructor|].
  destruct (Z.ltb_spec n 10).
  - apply Forall_singleton. unfold is_digit. lia.
  - apply Forall_app. split; [apply IH, Z.div_pos; lia|]. apply Forall_singleton. unfold is_digit.
    pose proof (Z.mod_pos_bound n 10). lia.
Qed.

Lemma digit_byte b : is_digit b -> byte_ok b.
Proof. unfold is_digit, byte_ok. lia. Qed.

Lemma dec_bytes_ok n : 0 <= n -> bytes_ok (dec n).
Proof. intros Hn. eapply Forall_impl; [by apply dec_digits_ok|apply digit_byte]. Qed.

(** A number of five digits. *)
Lemma dec_port n : 0 <= n <= 65536 -> 1 <= zlength (dec n) <= INET_PORTSTRLEN.
Proof.
  intros Hn. unfold zlength, INET_PORTSTRLEN, dec.
  pose proof (dec_digits_bounds 10 n 5 ltac:(lia) ltac:(lia) ltac:(lia)) as H.
  change (10 ^ Z.of_nat 5) with 100000 in H. specialize (H ltac:(lia)). lia.
Qed.

Lemma dec_byte_len b : 0 <= b < 256 -> 1 <= zlength (dec b) <= 3.
Proof.
  intros Hb. unfold zlength, dec.
  pose proof (dec_digits_bounds 10 b 3 ltac:(lia) ltac:(lia) ltac:(lia)) as H.
  change (10 ^ Z.of_nat 3) with 1000 in H. specialize (H ltac:(lia)). lia.
Qed.

Lemma ip_to_str_ok ip :
  7 <= zlength (ip_to_str ip) < INET_ADDRSTRLEN /\ bytes_ok (ip_to_str ip).
Proof.
  unfold ip_to_str. pose proof (length_le_split 4 (u32 ip)) as Hl. pose proof (le_split_ok 4 (u32 ip)) as Hok.
  unfold be_split. apply Forall_rev in Hok. rewrite <- length_rev in Hl.
  destruct (rev (le_split 4 (u32 ip))) as [|a [|b [|c [|d []]]]] eqn:E; try discriminate.
  rename Hok into Hb. clear E Hl. apply Forall_cons in Hb as [Ha Hb]. apply Forall_cons in Hb as [Hb Hc].
  apply Forall_cons in Hc as [Hc Hd]. apply Forall_cons in Hd as [Hd _]. unfold byte_ok in *.
  pose proof (dec_byte_len a Ha). pose proof (dec_byte_len b Hb).
  pose proof (dec_byte_len c Hc). pose proof (dec_byte_len d Hd).
  unfold INET_ADDRSTRLEN. split.
  - unfold zlength in *. rewrite !length_app. cbn [length]. lia.
  - rewrite !Forall_app. split_and!; try (apply dec_bytes_ok; lia); repeat constructor; unfold byte_ok, ch_dot; lia.
Qed.

(** ** Edits *)

(** Replace the bytes from [e_start] to [e_stop] by [e_text]. *)
Record edit : Type := mkEdit { e_start : Z; e_stop : Z; e_text : bytes }.

Definition slice (l : bytes) (a b : Z) : bytes := take (Z.to_nat (b - a)) (drop (Z.to_nat a) l).

(** The payload [l] from [pos] on, edited. *)
Fixpoint apply_edits (l : bytes) (pos : Z) (es : list edit) : bytes :=
  match es with
  | [] => drop (Z.to_nat pos) l
  | e :: es => slice l pos (e_start e) ++ e_text e ++ apply_edits l (e_stop e) es
  end.

(** The spans follow each other within [len] bytes. *)
Fixpoint edits_in (len pos : Z) (es : list edit) : Prop :=
  match es with
  | [] => pos <= len
  | e :: es => pos <= e_start e /\ e_start e <= e_stop e /\ edits_in len (e_stop e) es
  end.

(** By how much the payload grows. *)
Fixpoint growth (es : list edit) : Z :=
  match es with [] => 0 | e :: es => zlength (e_text e) - (e_stop e - e_start e) + growth es end.
(** Room for what is written on the way: each text has its end behind it. *)
Fixpoint room_needed (pos w : Z) (es : list edit) : Z :=
  match es with
  | [] => w
  | e :: es => let w' := w + (e_start e - pos) + zlength (e_text e) in Z.max (w' + 1) (room_needed (e_stop e) w' es)
  end.

Lemma edits_in_le len es : forall pos, edits_in len pos es -> pos <= len.
Proof. induction es as [|e es IH]; cbn [edits_in]; intros pos; [done|]. intros (? & ? & ?%IH). lia. Qed.

Lemma zlength_slice l a b : 0 <= a -> a <= b -> b <= zlength l -> zlength (slice l a b) = b - a.
Proof. unfold slice, zlength. intros. rewrite length_take, length_drop. lia. Qed.

Lemma zlength_apply_edits l es : forall pos, 0 <= pos -> edits_in (zlength l) pos es ->
  zlength (apply_edits l pos es) = zlength l - pos + growth es.
Proof.
  induction es as [|e es IH]; cbn [edits_in growth apply_edits]; intros pos Hp He.
  - unfold zlength in *. rewrite length_drop. lia.
  - destruct He as (H1 & H2 & H3). pose proof (edits_in_le _ _ _ H3).
    rewrite !zlength_app, zlength_slice, IH by (done || lia). lia.
Qed.

(** ** Writing *)

(** The memory [fst w] begins with the first [start] bytes of [m0] and then [out]. *)
Record wrote (m0 : bytes) (start : Z) (out : bytes) (w : cursor) : Prop := {
  wr_pos : snd w = start + zlength out;
  wr_len : zlength (fst w) = zlength m0;
  wr_ok : bytes_ok (fst w);
  wr_take : take (Z.to_nat (snd w)) (fst w) = take (Z.to_nat start) m0 ++ out }.

Lemma wrote_nil m0 start : bytes_ok m0 -> wrote m0 start [] (m0, start).
Proof. intros Hm. split; cbn; [unfold zlength; cbn; lia|done|done|]. by rewrite app_nil_r. Qed.

Lemma mem_copy_next m pos src soff n out' :
  bytes_ok m -> bytes_ok src -> 0 <= pos -> 0 <= soff -> 0 <= n -> soff + n <= zlength src -> pos + n <= zlength m ->
  out' = slice src soff (soff + n) ->
  exists m', mem_copy m pos src soff n = Ok m' /\ bytes_ok m' /\ zlength m' = zlength m /\
    forall k, 0 <= k <= n -> take (Z.to_nat (pos + k)) m' = take (Z.to_nat pos) m ++ take (Z.to_nat k) out'.
Proof.
  intros Hm Hs Hp Ho Hn Hsn Hpn ->. unfold mem_copy. rewrite decide_True by lia. unfold slice.
  replace (soff + n - soff) with n by lia. set (new := take (Z.to_nat n) (drop (Z.to_nat soff) src)).
  assert (Hl : length new = Z.to_nat n) by (unfold new, zlength in *; rewrite length_take, length_drop; lia).
  eexists. split; [reflexivity|]. unfold zlength in *. split_and!.
  - apply splice_ok; [done|]. by apply Forall_take, Forall_drop.
  - rewrite length_splice; lia.
  - intros k Hk. unfold splice. rewrite app_assoc, take_app_le.
    + replace (Z.to_nat (pos + k)) with (length (take (Z.to_nat pos) m) + Z.to_nat k)%nat
        by (rewrite length_take; lia). by rewrite take_app_add.
    + rewrite length_app, length_take. lia.
Qed.

Lemma step_cp m0 start out src from n w :
  wrote m0 start out w -> bytes_ok src -> 0 <= start -> 0 <= from -> 0 <= n -> from + n <= zlength src ->
  start + zlength out + n <= zlength m0 ->
  exists w', cp_pkt_len src from n w = Ok w' /\ wrote m0 start (out ++ slice src from (from + n)) w'.
Proof.
  intros [Hpos Hlen Hok Ht] Hs H0 Hf Hn H1 H2. destruct w as [m pos]. cbn [fst snd] in *.
  pose proof (Nat2Z.is_nonneg (length out)) as Hz. fold (zlength out) in Hz.
  destruct (mem_copy_next m pos src from n (slice src from (from + n)) Hok Hs) as (m' & E & Hok' & Hlen' & Hk); [lia..|reflexivity|].
  unfold cp_pkt_len. cbn [fst snd]. rewrite E. cbn [mbind res_bind]. eexists. split; [reflexivity|].
  split; cbn [fst snd]; [rewrite zlength_app, zlength_slice by lia; lia|lia|done|].
  rewrite Hk, Ht, <- app_assoc by lia. do 2 f_equal. apply take_ge.
  unfold slice. rewrite length_take. lia.
Qed.

Lemma step_put m0 start out t w :
  wrote m0 start out w -> bytes_ok t -> 0 <= start -> start + zlength out + zlength t + 1 <= zlength m0 ->
  exists w', put_text t w = Ok w' /\ wrote m0 start (out ++ t) w'.
Proof.
  intros [Hpos Hlen Hok Ht] Hs H0 H2. destruct w as [m pos]. cbn [fst snd] in *.
  pose proof (Nat2Z.is_nonneg (length out)) as Hz. fold (zlength out) in Hz.
  pose proof (Nat2Z.is_nonneg (length t)) as Hz2. fold (zlength t) in Hz2.
  assert (Hsl : slice (t ++ [0]) 0 (0 + (zlength t + 1)) = t ++ [0]).
  { unfold slice. rewrite drop_0. apply take_ge. unfold zlength. rewrite length_app. cbn [length]. lia. }
  destruct (mem_copy_next m pos (t ++ [0]) 0 (zlength t + 1) (t ++ [0]) Hok) as (m' & E & Hok' & Hlen' & Hk);
    try lia; try done.
  { apply Forall_app. split; [done|]. apply Forall_singleton. unfold byte_ok. lia. }
  { rewrite zlength_app. change (zlength [0]) with 1. lia. }
  unfold put_text. cbn [fst snd]. rewrite E. cbn [mbind res_bind]. eexists. split; [reflexivity|].
  split; cbn [fst snd]; [rewrite zlength_app; lia|lia|done|].
  rewrite Hk, Ht, <- app_assoc by lia. do 2 f_equal. apply take_app_length'. unfold zlength. lia.
Qed.

(** The commands, as copies and texts in turn. *)
Fixpoint run_edits (src : bytes) (len pos : Z) (es : list edit) (w : cursor) : res cursor :=
  match es with
  | [] => cp_pkt_len src pos (len - pos) w
  | e :: es =>
      w ← cp_pkt_len src pos (e_start e - pos) w;
      w ← put_text (e_text e) w;
      run_edits src len (e_stop e) es w
  end.

Lemma run_edits_ok src len es : forall pos m0 start out w,
  wrote m0 start out w -> bytes_ok src -> 0 <= start -> 0 <= pos -> edits_in len pos es -> len <= zlength src ->
  Forall (fun e => bytes_ok (e_text e)) es ->
  room_needed pos (start + zlength out) es <= zlength m0 ->
  start + zlength out + (len - pos) + growth es <= zlength m0 ->
  exists w', run_edits src len pos es w = Ok w' /\
    wrote m0 start (out ++ apply_edits (take (Z.to_nat len) src) pos es) w'.
Proof.
  induction es as [|e es IH]; cbn [edits_in room_needed growth run_edits apply_edits];
    intros pos m0 start out w Hw Hs H0 Hp He Hl Ht Hr Hg.
  - destruct (step_cp m0 start out src pos (len - pos) w Hw Hs) as (w' & E & Hw'); [lia..|].
    exists w'. split; [done|]. replace (drop (Z.to_nat pos) (take (Z.to_nat len) src)) with (slice src pos (pos + (len - pos))); [done|].
    unfold slice. apply list_eq. intros i.
    destruct (decide (i < Z.to_nat (len - pos))%nat).
    + rewrite lookup_take_lt, !lookup_drop, lookup_take_lt by lia. done.
    + rewrite lookup_take_ge, lookup_drop, lookup_take_ge by lia. done.
  - destruct He as (H1 & H2 & H3). pose proof (edits_in_le _ _ _ H3) as H4.
    apply Forall_cons in Ht as [Hte Ht].
    pose proof (Nat2Z.is_nonneg (length (e_text e))) as Hz. fold (zlength (e_text e)) in Hz.
    assert (Hgr : zlength (e_text e) - (e_stop e - e_start e) + growth es = growth (e :: es)) by done.
    destruct (step_cp m0 start out src pos (e_start e - pos) w Hw Hs) as (w1 & E1 & Hw1); try lia.
    rewrite E1. cbn [mbind res_bind].
    assert (Hsl : zlength (slice src pos (pos + (e_start e - pos))) = e_start e - pos) by (rewrite zlength_slice; lia).
    destruct (step_put m0 start _ (e_text e) w1 Hw1 Hte H0) as (w2 & E2 & Hw2); [rewrite zlength_app; lia|].
    rewrite E2. cbn [mbind res_bind].
    destruct (IH (e_stop e) m0 start _ w2 Hw2 Hs H0) as (w3 & E3 & Hw3); try lia; try done.
    { rewrite !zlength_app, Hsl. etransitivity; [|exact Hr]. etransitivity; [|apply Z.le_max_r]. apply Z.eq_le_incl. f_equal. lia. }
    { rewrite !zlength_app, Hsl. lia. }
    exists w3. split; [done|]. replace (slice (take (Z.to_nat len) src) pos (e_start e)) with (slice src pos (pos + (e_start e - pos))).
    { by rewrite <- !app_assoc in Hw3. }
    unfold slice. apply list_eq. intros i. replace (pos + (e_start e - pos) - pos) with (e_start e - pos) by lia.
    destruct (decide (i < Z.to_nat (e_start e - pos))%nat).
    + rewrite !lookup_take_lt, !lookup_drop, lookup_take_lt by lia. done.
    + by rewrite !lookup_take_ge by lia.
Qed.

(** ** The commands as edits

    With IPv4 addresses. *)
Definition ip_edit (sp : span) (ip : Z) : edit := mkEdit (sp_start sp) (sp_stop sp) (ip_to_str ip).
Definition two_ports (p : Z) : bytes := dec p ++ [ch_minus] ++ dec (p + 1).

Definition cmd_edits (c : mini_vm_cmd) : option (list edit) :=
  match c with
  | VM_REPLACE_IP_OFFSET b ip => Some [mkEdit (m_start_0 b) (m_stop_1 b) (ip_to_str (v4 ip))]
  | VM_REPLACE_IP_PORT_OFFSET b ip port client_port =>
      Some [mkEdit (m_start_0 b) (m_stop_1 b) (ip_to_str (v4 ip));
            mkEdit (sp_start port) (sp_stop port) (two_ports client_port)]
  | VM_REPLACE_IP_PORT_RESPONSE_OFFSET _ port client_port server_port =>
      Some [mkEdit (sp_start port) (sp_stop port)
              (dec client_port ++ [ch_minus] ++ dec (client_port + 1) ++ server_port_text ++ two_ports server_port)]
  | VM_REPLACE_IP_IP_PORT _ ip ip0 ip1 port pspan =>
      Some [ip_edit ip0 (v4 ip); ip_edit ip1 (v4 ip); mkEdit (sp_start pspan) (sp_stop pspan) (dec port)]
  | VM_REPLACE_IPVIA_IP_IP_PORT _ ip ip0 ip1 port pspan ip_via port_via via =>
      Some [mkEdit (sp_start via) (sp_stop via) (ip_to_str (v4 ip_via) ++ [ch_colon] ++ dec port_via);
            ip_edit ip0 (v4 ip); ip_edit ip1 (v4 ip); mkEdit (sp_start pspan) (sp_stop pspan) (dec port)]
  | VM_DYN_PYLOAD _ _ _ | VM_EOP => None
  end.

(** No prefix of the edits makes the payload grow by more than [g]. *)
Fixpoint grows_within (g : Z) (es : list edit) : Prop :=
  match es with
  | [] => 0 <= g
  | e :: es => 0 <= g /\ grows_within (g - (zlength (e_text e) - (e_stop e - e_start e))) es
  end.

Lemma grows_within_pos g es : grows_within g es -> 0 <= g.
Proof. destruct es; cbn; tauto. Qed.
Lemma grows_within_growth es : forall g, grows_within g es -> growth es <= g.
Proof. induction es as [|e es IH]; cbn [grows_within growth]; intros g; [done|]. intros [_ H%IH]. lia. Qed.

Lemma room_needed_bound len es : forall pos w g,
  edits_in len pos es -> grows_within g es -> room_needed pos w es <= w + (len - pos) + g + 1.
Proof.
  induction es as [|e es IH]; cbn [edits_in grows_within room_needed]; intros pos w g He Hg; [lia|].
  destruct He as (H1 & H2 & H3). destruct Hg as [Hg0 Hg]. pose proof (edits_in_le _ _ _ H3).
  apply Z.max_lub.
  - pose proof (grows_within_pos _ _ Hg). lia.
  - etransitivity; [apply (IH _ _ _ H3 Hg)|]. lia.
Qed.

Section Commands.
Context (inet_ntop6 : list Z -> bytes) (rand : nat -> Z) (lp : CFlowPktInfo).
(** The payload of a packet of the template, which fills its buffer. *)
Context (Hraw : bytes_ok (raw (fpi_packet lp))) (Hlen : zlength (raw (fpi_packet lp)) = pkt_len (fpi_packet lp)).
Context (Hl7 : 0 <= l7_offset lp <= pkt_len (fpi_packet lp)) (H16 : pkt_len (fpi_packet lp) < 65536).

Lemma original_l7_len : zlength (original_l7 lp) = pkt_len (fpi_packet lp) - l7_offset lp.
Proof. unfold original_l7, zlength in *. rewrite length_drop. lia. Qed.
Lemma l7_len_eq : l7_len lp = zlength (original_l7 lp).
Proof. rewrite original_l7_len. unfold l7_len. rewrite u16_id; lia. Qed.
Lemma original_l7_ok : bytes_ok (original_l7 lp).
Proof. by apply Forall_drop. Qed.

(** What a command leaves: the beginning of the memory, the edited payload, and the size. *)
Definition edited (m0 : bytes) (start : Z) (es : list edit) (r : bytes * Z) : Prop :=
  snd r = s16 (pkt_len (fpi_packet lp) + growth es) /\ zlength (fst r) = zlength m0 /\ bytes_ok (fst r) /\
  take (Z.to_nat (start + zlength (original_l7 lp) + growth es)) (fst r) =
    take (Z.to_nat start) m0 ++ apply_edits (original_l7 lp) 0 es.

Lemma finish_edits m0 start es w :
  edits_in (zlength (original_l7 lp)) 0 es ->
  wrote m0 start (apply_edits (original_l7 lp) 0 es) w -> edited m0 start es (new_size lp start w).
Proof.
  intros He [Hpos Hl Hok Ht]. rewrite zlength_apply_edits in Hpos by (done || lia).
  unfold edited, new_size. cbn [fst snd]. pose proof original_l7_len as Ho. split_and!; try done.
  - f_equal. lia.
  - rewrite <- Ht, Hpos. do 2 f_equal. lia.
Qed.

Lemma run_edits_payload m0 start es :
  bytes_ok m0 -> 0 <= start -> edits_in (zlength (original_l7 lp)) 0 es ->
  Forall (fun e => bytes_ok (e_text e)) es ->
  room_needed 0 start es <= zlength m0 -> start + zlength (original_l7 lp) + growth es <= zlength m0 ->
  exists w, run_edits (original_l7 lp) (l7_len lp) 0 es (m0, start) = Ok w /\ edited m0 start es (new_size lp start w).
Proof.
  intros Hm Hs He Ht Hr Hg.
  destruct (run_edits_ok (original_l7 lp) (l7_len lp) es 0 m0 start [] (m0, start)) as (w & E & Hw);
    rewrite ?l7_len_eq; change (zlength []) with 0; rewrite ?Z.add_0_r, ?Z.sub_0_r; try done; try lia.
  - by apply wrote_nil.
  - apply original_l7_ok.
  - exists w. split; [by rewrite <- l7_len_eq|]. apply finish_edits; [done|]. cbn [app] in Hw. rewrite l7_len_eq in Hw.
    rewrite take_ge in Hw by (unfold zlength; lia). exact Hw.
Qed.

Lemma bind_assoc {A B C} (x : res A) (f : A -> res B) (g : B -> res C) :
  (x ≫= f) ≫= g = x ≫= fun a => f a ≫= g.
Proof. by destruct x. Qed.

(** Its first span takes two texts, one after the other. *)
Lemma replace_via_ok b ip ip0 ip1 port pspan ip_via port_via via m0 start :
  m_v6 b = false -> bytes_ok m0 -> 0 <= start ->
  let tail := [ip_edit ip0 (v4 ip); ip_edit ip1 (v4 ip); mkEdit (sp_start pspan) (sp_stop pspan) (dec port)] in
  let text := ip_to_str (v4 ip_via) ++ [ch_colon] ++ dec port_via in
  let es := mkEdit (sp_start via) (sp_stop via) text :: tail in
  edits_in (zlength (original_l7 lp)) 0 es -> Forall (fun e => bytes_ok (e_text e)) es ->
  room_needed 0 start es <= zlength m0 -> start + zlength (original_l7 lp) + growth es <= zlength m0 ->
  exists r, mini_vm_replace_ip_via_ip_ip_ports inet_ntop6 lp b ip ip0 ip1 port pspan ip_via port_via via start m0 = Ok r /\
    edited m0 start es r.
Proof.
  intros H4 Hm Hs tail text es Hes (Htt & Ht)%Forall_cons Hr Hg.
  assert (Hes' := Hes). destruct Hes' as (H1 & H2 & He). cbn [e_start e_stop e_text] in *.
  assert (Htt' := Htt). unfold text in Htt'. apply Forall_app in Htt' as [Ht1 Ht2].
  pose proof original_l7_ok as Hok. pose proof (edits_in_le _ _ _ He) as Hle.
  assert (Hr1 : start + (sp_start via - 0) + zlength text + 1 <= zlength m0)
    by (etransitivity; [|exact Hr]; apply Z.le_max_l).
  assert (Hr2 : room_needed (sp_stop via) (start + (sp_start via - 0) + zlength text) tail <= zlength m0)
    by (etransitivity; [|exact Hr]; apply Z.le_max_r).
  change (growth es) with (zlength text - (sp_stop via - sp_start via) + growth tail) in Hg.
  assert (Hzt : zlength text = zlength (ip_to_str (v4 ip_via)) + zlength ([ch_colon] ++ dec port_via)) by apply zlength_app.
  pose proof (Nat2Z.is_nonneg (length (ip_to_str (v4 ip_via)))) as Hz1. fold (zlength (ip_to_str (v4 ip_via))) in Hz1.
  pose proof (Nat2Z.is_nonneg (length ([ch_colon] ++ dec port_via))) as Hz2. fold (zlength ([ch_colon] ++ dec port_via)) in Hz2.
  unfold mini_vm_replace_ip_via_ip_ip_ports, cp_pkt_to_from, put_ip, mark_ip6. rewrite H4.
  destruct (step_cp m0 start [] (original_l7 lp) 0 (sp_start via - 0) (m0, start)) as (w1 & E1 & Hw1);
    try done; try lia; [by apply wrote_nil|change (zlength []) with 0; lia|].
  rewrite E1. cbn [mbind res_bind]. rewrite app_nil_l in Hw1.
  assert (Hsl : zlength (slice (original_l7 lp) 0 (0 + (sp_start via - 0))) = sp_start via) by (rewrite zlength_slice; lia).
  destruct (step_put m0 start _ (ip_to_str (v4 ip_via)) w1 Hw1) as (w2 & E2 & Hw2); try done; [lia|].
  rewrite E2. cbn [mbind res_bind].
  destruct (step_put m0 start _ ([ch_colon] ++ dec port_via) w2 Hw2) as (w3 & E3 & Hw3); try done.
  { rewrite !zlength_app in *. lia. }
  rewrite E3. cbn [mbind res_bind]. rewrite <- app_assoc in Hw3. fold text in Hw3.
  destruct (run_edits_ok (original_l7 lp) (l7_len lp) tail (sp_stop via) m0 start _ w3 Hw3) as (w4 & E4 & Hw4);
    rewrite ?l7_len_eq; try done; try lia.
  { rewrite zlength_app, Hsl. etransitivity; [|exact Hr2]. apply Z.eq_le_incl. f_equal. lia. }
  { rewrite zlength_app, Hsl. lia. }
  unfold tail in E4. cbn [run_edits e_start e_stop e_text ip_edit] in E4.
  exists (new_size lp start w4). split.
  - repeat (apply bind_Ok in E4 as (? & ? & E4);
      match goal with H : _ = Ok _ |- _ => rewrite H; clear H; cbn [mbind res_bind] end).
    rewrite <- ?l7_len_eq; rewrite E4. done.
  - apply finish_edits; [done|]. rewrite l7_len_eq, (take_ge (original_l7 lp)) in Hw4 by (unfold zlength; lia).
    unfold es. cbn [apply_edits e_start e_stop e_text]. rewrite <- app_assoc in Hw4.
    replace (0 + (sp_start via - 0)) with (sp_start via) in Hw4 by lia. exact Hw4.
Qed.

Lemma cmd_run_ok c b es m0 start :
  cmd_base c = Some b -> m_v6 b = false -> cmd_edits c = Some es ->
  bytes_ok m0 -> 0 <= start -> edits_in (zlength (original_l7 lp)) 0 es ->
  Forall (fun e => bytes_ok (e_text e)) es ->
  room_needed 0 start es <= zlength m0 -> start + zlength (original_l7 lp) + growth es <= zlength m0 ->
  exists r, mini_vm_cmd_run inet_ntop6 rand lp c start m0 = Ok r /\ edited m0 start es r.
Proof.
  intros Hb H4 Hes Hm Hs He Ht Hr Hg. destruct c; cbn [cmd_base cmd_edits mini_vm_cmd_run] in *; simplify_eq.
  5: by apply replace_via_ok.
  all: match goal with |- context [edited _ _ ?es] =>
    destruct (run_edits_payload m0 start es) as (w & E & Hw); [done..|] end.
  all: cbn [run_edits e_start e_stop e_text ip_edit] in E; rewrite ?Z.sub_0_r in E.
  all: eexists; split; [|exact Hw].
  all: unfold mini_vm_replace_ip, mini_vm_replace_port_ip, mini_vm_replace_ports, mini_vm_replace_ip_ip_ports,
    cp_pkt_to_from, put_ip; rewrite ?H4, ?Z.sub_0_r; unfold two_ports in E.
  all: rewrite ?bind_assoc in E.
  all: repeat (apply bind_Ok in E as (? & ? & E);
    match goal with H : _ = Ok _ |- _ => rewrite H; clear H; cbn [mbind res_bind] end).
  all: rewrite E; done.
Qed.
End Commands.
