(* ===== verification/Plugins.v ===== *)
(** * The plugins and the packets of a node

    Models [CPluginCallbackSimple] of [src/src/bp_sim.cpp] (RTSP, SIP, HTTP and dynamic
    payloads), [CFlowPktInfo::generate_new_mbuf], and the two interfaces that send a node:
    [CErfIF] writes a file, [CCoreEthIF] ([main_dpdk.cpp]) fills a port's queue. *)

From S2P Require Import Prelude Double ByteMem PktCmn PacketHdrs PktDesc PktParser RxHeader CapTemplate TupleGen RxInsert FlowNode MiniVm.

Definition mpRTSP : Z := 1.
Definition mpSIP_VOICE : Z := 2.
Definition mpDYN_PYLOAD : Z := 3.
Definition mpAVL_HTTP_BROWSIN : Z := 4.

Definition MAX_PYLOAD_PKT_CHANGE : Z := 4.
(** [CFlowYamlDynamicPyloadPlugin::Add]; [m_pkt_ids] holds the ids of the programs. *)
Definition dyn_Add (fd : CFlowYamlDpPkt) (l : list CFlowYamlDpPkt) : res (list CFlowYamlDpPkt) :=
  if zlength l =? MAX_PYLOAD_PKT_CHANGE then exit_process else Ok (l ++ [fd]).

(** The options of [CGlobalInfo] that the plugins read. *)
Record plugin_opts : Type := mkPluginOpts {
  po_ipv6 : bool; po_learn : bool; po_src_ipv6 : list Z; po_dst_ipv6 : list Z }.

Section Plugins.
Context (inet_ntop6 : list Z -> bytes) (rand : nat -> Z) (pool_get : Z -> option bytes) (o : plugin_opts).

Definition flow_info (n : CGenNode) (lp : CFlowPktInfo) (client server : Z) (replace : bool) : CFlowInfo :=
  mkFlowInfo (n_src_ip n) (n_dest_ip n) client server
    (cur_pkt_ip_addr_dir lp n =? CLIENT_SIDE) (cur_pkt_port_addr_dir lp =? CLIENT_SIDE) replace.

(** How much longer an address of [n] bytes can become; brackets are added for IPv6. *)
Definition addr_room (n : Z) : Z := if po_ipv6 o then INET6_ADDRSTRLEN + 2 - n else INET_ADDRSTRLEN - n.
Definition ip_cmd (start n extra : Z) : CMiniVMCmdBase :=
  mkCmd (po_ipv6 o) start (start + n) (addr_room n + extra).
Definition replace_ip (start n server : Z) : list mini_vm_cmd :=
  [VM_REPLACE_IP_OFFSET (ip_cmd start n 0) (mkIpaddr (po_dst_ipv6 o) server); VM_EOP].

(** *** HTTP *)

Definition plugin_seq (n : CGenNode) : res CTcpSeq :=
  match n_plugin_info n with pi_seq q => Ok q | pi_null => Err AssertFail | _ => Err OutOfBounds end.

Definition http_plugin (n : CGenNode) (lp : CFlowPktInfo) : res (rte_mbuf * CGenNode) :=
  let d := fpi_desc lp in
  _ ← c_assert (getFlowId d =? 0);
  q ← plugin_seq n;
  '(m, s_size) ←
    (if negb (getFlowPktNum d =? 3) then
       m ← (if po_ipv6 o then do_generate_new_mbuf_big pool_get (po_learn o) n lp
            else do_generate_new_mbuf pool_get (po_learn o) n lp);
       Ok (m, 0)
     else
       do_generate_new_mbuf_ex_vm inet_ntop6 rand pool_get lp (flow_info n lp (n_src_port n) 0 false)
         (replace_ip (10 + 16) 8 (n_dest_ip n)) 0);
  '(m, q) ← seq_mbuf lp s_size q m;
  Ok (m, node_set_plugin (pi_seq q) n).

(** *** Dynamic payload *)

(** The last program of the packet. *)
Definition dyn_program (l : list CFlowYamlDpPkt) (pkt_num : Z) : option CFlowYamlDpPkt :=
  foldl (fun r d => if dp_pkt_id d =? pkt_num then Some d else r) None l.

Definition dyn_pyload_plugin (dpPkt : option (list CFlowYamlDpPkt)) (n : CGenNode) (lp : CFlowPktInfo)
  : res (rte_mbuf * CGenNode) :=
  lpt ← match dpPkt with Some l => Ok l | None => Err AssertFail end;
  if po_ipv6 o then exit_process
  else if negb (getFlowId (fpi_desc lp) =? 0) then exit_process
  else
    let fi := flow_info n lp (n_src_port n) 0 false in
    let pkt_num := getFlowPktNum (fpi_desc lp) in
    match (if pkt_num <? 253 then dyn_program lpt pkt_num else None) with
    | Some d =>
        '(m, _) ← do_generate_new_mbuf_ex_vm inet_ntop6 rand pool_get lp fi
                    [VM_DYN_PYLOAD (mkCmd false 0 0 (INET_ADDRSTRLEN - 8)) d (n_src_ip n); VM_EOP] 0;
        Ok (m, n)
    | None => m ← do_generate_new_mbuf_ex pool_get fi lp; Ok (m, n)
    end.

(** *** SIP *)

Definition plugin_rtsp (n : CGenNode) : res CPlugin_rtsp :=
  match n_plugin_info n with pi_rtsp q => Ok q | pi_null => Err AssertFail | _ => Err OutOfBounds end.

Definition sip_cmd : CMiniVMCmdBase :=
  mkCmd (po_ipv6 o) 0 0
    ((if po_ipv6 o then INET6_ADDRSTRLEN + 2 - 9 else INET_ADDRSTRLEN - 9) * 3 + (INET_PORTSTRLEN * 2 - 9)).

(** The request of the client and the answer of the server. *)
Definition sip_request (n : CGenNode) (q : CPlugin_rtsp) : list mini_vm_cmd :=
  [VM_REPLACE_IPVIA_IP_IP_PORT sip_cmd (mkIpaddr (po_src_ipv6 o) (n_src_ip n))
     (mkSpan 377 (377 + 9)) (mkSpan 409 (409 + 9)) (rtp_client_0 q) (mkSpan 435 (435 + 5))
     (mkIpaddr (po_src_ipv6 o) (n_src_ip n)) (n_src_port n) (mkSpan 208 (208 + 9 + 5)); VM_EOP].
Definition sip_response (n : CGenNode) (q : CPlugin_rtsp) : list mini_vm_cmd :=
  [VM_REPLACE_IPVIA_IP_IP_PORT sip_cmd (mkIpaddr (po_dst_ipv6 o) (n_dest_ip n))
     (mkSpan 370 (370 + 8)) (mkSpan 401 (401 + 8)) (rtp_client_0 q) (mkSpan 426 (426 + 5))
     (mkIpaddr (po_src_ipv6 o) (n_src_ip n)) (n_src_port n) (mkSpan 207 (207 + 9 + 5)); VM_EOP].

Definition sip_voice_plugin (n : CGenNode) (lp : CFlowPktInfo) : res (rte_mbuf * CGenNode) :=
  let d := fpi_desc lp in
  q ← plugin_rtsp n;
  '(fi, program) ←
    (if getFlowId d =? 0 then
       Ok (flow_info n lp (n_src_port n) 0 false,
           if getFlowPktNum d =? 0 then sip_request n q
           else if getFlowPktNum d =? 1 then sip_response n q else [])
     else if getFlowId d =? 1 then Ok (flow_info n lp (rtp_client_0 q) (rtp_client_0 q) true, [])
     else Err AssertFail);
  match program with
  | [] => m ← do_generate_new_mbuf_ex pool_get fi lp; Ok (m, n)
  | _ => '(m, _) ← do_generate_new_mbuf_ex_vm inet_ntop6 rand pool_get lp fi program 0; Ok (m, n)
  end.

(** *** RTSP *)

(** Packets of the control flow by their number: options and describe, the two setups with
    their answers, play and what follows. *)
Definition rtsp_describe (pkt_num server : Z) : list mini_vm_cmd :=
  if pkt_num =? 3 then replace_ip 16 9 server
  else if pkt_num =? 4 then replace_ip 46 9 server
  else [].
Definition rtsp_setup (server port : Z) : list mini_vm_cmd :=
  [VM_REPLACE_IP_PORT_OFFSET (ip_cmd 13 9 (INET_PORTSTRLEN * 2 - 8)) (mkIpaddr (po_dst_ipv6 o) server)
     (mkSpan 164 (164 + 4 * 2 + 1)) port; VM_EOP].
Definition rtsp_setup_answer (port : Z) : list mini_vm_cmd :=
  [VM_REPLACE_IP_PORT_RESPONSE_OFFSET (mkCmd false 0 0 (INET_PORTSTRLEN * 4 - 16))
     (mkSpan 247 (247 + 4 * 4 + 2 + 13)) port port; VM_EOP].
Definition rtsp_play (pkt_num server : Z) : list mini_vm_cmd :=
  if pkt_num =? 9 then replace_ip 12 9 server
  else if pkt_num =? 12 then replace_ip 15 9 server
  else if pkt_num =? 15 then replace_ip 15 9 server
  else if pkt_num =? 18 then replace_ip 16 9 server
  else [].
Definition rtsp_program (pkt_num : Z) (n : CGenNode) (q : CPlugin_rtsp) : list mini_vm_cmd :=
  if pkt_num =? 5 then rtsp_setup (n_dest_ip n) (rtp_client_0 q)
  else if pkt_num =? 6 then rtsp_setup_answer (rtp_client_0 q)
  else if pkt_num =? 7 then rtsp_setup (n_dest_ip n) (rtp_client_1 q)
  else if pkt_num =? 8 then rtsp_setup_answer (rtp_client_1 q)
  else rtsp_describe pkt_num (n_dest_ip n) ++ rtsp_play pkt_num (n_dest_ip n).

Definition rtsp_plugin (n : CGenNode) (lp : CFlowPktInfo) : res (rte_mbuf * CGenNode) :=
  let d := fpi_desc lp in
  q ← plugin_rtsp n;
  '(fi, program) ←
    (if getFlowId d =? 0 then
       Ok (flow_info n lp (n_src_port n) 0 false, rtsp_program (getFlowPktNum d) n q)
     else if getFlowId d =? 1 then Ok (flow_info n lp (rtp_client_0 q) (rtp_client_0 q) true, [])
     else if getFlowId d =? 2 then Ok (flow_info n lp (rtp_client_1 q) (rtp_client_1 q) true, [])
     else Err AssertFail);
  '(m, s_size) ←
    match program with
    | [] => m ← (if po_ipv6 o then do_generate_new_mbuf_ex_big pool_get fi lp
                 else do_generate_new_mbuf_ex pool_get fi lp); Ok (m, 0)
    | _ => do_generate_new_mbuf_ex_vm inet_ntop6 rand pool_get lp fi program 0
    end;
  if getFlowId d =? 0 then
    '(m, s) ← seq_mbuf lp s_size (rtsp_seq q) m;
    Ok (m, node_set_plugin (pi_rtsp (mkRtsp s (rtp_client_0 q) (rtp_client_1 q))) n)
  else Ok (m, n).

(** ** The packet of a node *)

Definition on_node_generate_mbuf (plugin_id : Z) (dpPkt : option (list CFlowYamlDpPkt)) (n : CGenNode)
    (lp : CFlowPktInfo) : res (rte_mbuf * CGenNode) :=
  if plugin_id =? mpRTSP then rtsp_plugin n lp
  else if plugin_id =? mpSIP_VOICE then sip_voice_plugin n lp
  else if plugin_id =? mpDYN_PYLOAD then dyn_pyload_plugin dpPkt n lp
  else if plugin_id =? mpAVL_HTTP_BROWSIN then http_plugin n lp
  else Err AssertFail.

Definition generate_new_mbuf (plugin_id : Z) (dpPkt : option (list CFlowYamlDpPkt)) (n : CGenNode)
    (lp : CFlowPktInfo) : res (rte_mbuf * CGenNode) :=
  if IsPluginEnable (fpi_desc lp) then on_node_generate_mbuf plugin_id dpPkt n lp
  else m ← do_generate_new_mbuf pool_get (po_learn o) n lp; Ok (m, n).

(** ** Sending it *)

(** The MAC options: the addresses of a port (destination and source, 12 bytes), the number
    of destinations to spread over, a source address per client or its IP address in it. *)
Record mac_opts : Type := mkMacOpts {
  mo_dst_src : Z -> bytes;
  mo_features : bool; mo_dest_split : bool; mo_splitter : Z; mo_mapping : bool; mo_override : bool }.

Definition update_mac_addr (mo : mac_opts) (n : CGenNode) (lp : CFlowPktInfo) (p : bytes) : res bytes :=
  p ← (if mo_dest_split mo then
         if mo_splitter mo =? 0 then Err DivByZero
         else b ← ld8 p 5; st8 p 5 (b + n_src_ip n mod mo_splitter mo)
       else Ok p);
  if mo_mapping mo then
    if inused (n_src_mac n) =? INUSED then mem_copy p 6 (mac (n_src_mac n)) 0 6 else Ok p
  else if mo_override mo then
    if is_initiator_pkt lp then st32 p 6 (PKT_NTOHL (n_src_ip n)) else Ok p
  else Ok p.

(** [CCoreEthIF::send_node]: direction and packet of what the port sends. [tick] is the clock,
    [cache_left] whether one more buffer may be cached and [can_cache] whether the node is of
    a repeated flow of one packet. *)
Definition core_send_node (mo : mac_opts) (port_of_dir : Z -> Z) (tick : Z) (can_cache cache_left : bool)
    (plugin_id : Z) (dpPkt : option (list CFlowYamlDpPkt)) (n : CGenNode) (lp : CFlowPktInfo)
  : res (Z * bytes * CGenNode) :=
  cached ← get_cache_mbuf n;
  match cached with
  | Some pkt => Ok (get_mbuf_cache_dir n, pkt, n)
  | None =>
      '(m, n) ← generate_new_mbuf plugin_id dpPkt n lp;
      let dir := cur_interface_dir lp n in
      let single_port := get_is_all_flow_from_same_dir n in
      m ← mbuf_upd (fun p => mem_copy p 0 (mo_dst_src mo (port_of_dir dir)) 0 12) m;
      m ← (if mo_features mo then mbuf_upd (update_mac_addr mo n lp) m else Ok m);
      if is_rx_check_enabled n then
        b ← do_generate_new_mbuf_rxcheck pool_get lp (fpi_desc lp) (n_flow_id n) tick single_port (mb_mem m) (mb_len m);
        Ok (dir, mbuf_bytes b ++ mb_next m, n)
      else
        let n := if can_cache && cache_left then set_cache_mbuf (pktmbuf_bytes m) (set_mbuf_cache_dir dir n) else n in
        Ok (dir, pktmbuf_bytes m, n)
  end.

(** [CErfIF::send_node]: the packet of a simulation, with a VLAN header if there are VLANs. *)
Definition erf_send_node (dst_src : Z -> bytes) (vlan : option (Z * Z)) (plugin_id : Z)
    (dpPkt : option (list CFlowYamlDpPkt)) (n : CGenNode) (lp : CFlowPktInfo) : res (Z * bytes * CGenNode) :=
  '(m, n) ← generate_new_mbuf plugin_id dpPkt n lp;
  let dir := cur_interface_dir lp n in
  p ← mem_copy (pktmbuf_bytes m) 0 (dst_src dir) 0 12;
  match vlan with
  | None => Ok (dir, p, n)
  | Some (v0, v1) =>
      let vlan_id := if Z.land (n_src_ip n) 1 =? 0 then v0 else v1 in
      let tag := Z.lor (Z.shiftl ETH_VLAN 16) vlan_id in
      Ok (dir, take 12 p ++ le_split 4 (PKT_HTONL tag) ++ drop 12 p, n)
  end.
End Plugins.
