(* ===== verification/MiniVmThms.v ===== *)
(** * Packets of plugins

    A packet whose payload a plugin rewrites is well formed: the new payload behind headers
    with the addresses of the flow and the lengths of the new packet. The plugins' programs
    ask for enough room, and the sequence numbers of a TCP flow stay without gaps. *)

From S2P Require Import Prelude Double ByteMem PktCmn PktCmnFacts PacketHdrs PacketHdrsFacts ByteFrame PktDesc PktParser PktParserFacts RxHeader CapTemplate RxInsert TupleGen FlowNode FlowNodeFacts MiniVm MiniVmFacts Plugins.

(** ** The headers *)

Definition client_place (lp : CFlowPktInfo) (fi : CFlowInfo) : Z := fast_l4 lp + (if is_init_port_dir fi then 0 else 2).
Definition server_place (lp : CFlowPktInfo) (fi : CFlowInfo) : Z := fast_l4 lp + (if is_init_port_dir fi then 2 else 0).

Definition regions2 (lp : CFlowPktInfo) (fi : CFlowInfo) : list (Z * Z) :=
  [(14 + 2, 2); (14 + 10, 2); (14 + 12, 8); (client_place lp fi, 2)] ++
  (if replace_server_port fi then [(server_place lp fi, 2)] else []) ++
  (if IsTcp (fpi_desc lp) then [] else [(fast_l4 lp + 4, 4)]).

(** The headers of [pkt] are those of [p] with the flow's tuple and [n] bytes more. *)
Record resized (lp : CFlowPktInfo) (fi : CFlowInfo) (n : Z) (p pkt : bytes) : Prop := {
  rs_sum : IP_isChecksumOK pkt 14 = Ok true;
  rs_src : IP_getSourceIp pkt 14 = Ok (if is_init_ip_dir fi then client_ip fi else server_ip fi);
  rs_dst : IP_getDestIp pkt 14 = Ok (if is_init_ip_dir fi then server_ip fi else client_ip fi);
  rs_len : IP_getTotalLength pkt 14 = (tl ← IP_getTotalLength p 14; Ok (u16 (tl + n)));
  rs_client : get_be16 pkt (client_place lp fi) = Ok (u16 (client_port fi));
  rs_server : replace_server_port fi = true -> get_be16 pkt (server_place lp fi) = Ok (u16 (server_port fi));
  rs_udp : IsTcp (fpi_desc lp) = false ->
    UDP_getLength pkt (fast_l4 lp) = (l ← UDP_getLength p (fast_l4 lp); Ok (u16 (l + n))) /\
    UDP_getChecksum pkt (fast_l4 lp) = Ok 0 }.

Lemma st_ip_addr q f a :
  ip_header q 14 -> f = 12 \/ f = 16 -> 0 <= a < 4294967296 ->
  exists q', st32 q (14 + f) (PKT_NTOHL a) = Ok q' /\ ip_header q' 14 /\ ihl q' 14 = ihl q 14 /\
    (v ← ld32 q' (14 + f); Ok (PKT_NTOHL v)) = Ok a /\ frame q q' [(14 + f, 4)].
Proof.
  intros Hh Hf Ha. pose proof Hh as [Hm _ H5 Hi].
  destruct (st_frame 4 q (14 + f) (PKT_NTOHL a) Hm) as (q' & E & L & F); [unfold in_range; lia|].
  exists q'. split; [done|]. destruct (frame_ip_header _ _ _ _ F Hh) as [Hh' Hi']; [apart_tac|].
  split; [done|]. split; [done|]. split; [|exact F]. rewrite L. cbn [mbind res_bind]. f_equal.
  unfold PKT_NTOHL. change (256 ^ Z.of_nat 4) with 4294967296. pose proof (PAL_NTOHL_range a).
  rewrite Z.mod_small by done. by apply PAL_NTOHL_involutive.
Qed.

(** The IP header of the update. *)
Lemma update2_ip lp fi n p :
  v4_headers lp p -> 0 <= client_ip fi < 4294967296 -> 0 <= server_ip fi < 4294967296 ->
  exists q, (p ← (if n =? 0 then Ok p
                  else tl ← IP_getTotalLength p 14; IP_setTotalLength p 14 (u16 (tl + n)));
             p ← (if is_init_ip_dir fi
                  then p ← IP_setSourceIp p 14 (client_ip fi); IP_setDestIp p 14 (server_ip fi)
                  else p ← IP_setSourceIp p 14 (server_ip fi); IP_setDestIp p 14 (client_ip fi));
             IP_updateCheckSum p 14) = Ok q /\
    ip_header q 14 /\ ihl q 14 = ihl p 14 /\ IP_isChecksumOK q 14 = Ok true /\
    IP_getSourceIp q 14 = Ok (if is_init_ip_dir fi then client_ip fi else server_ip fi) /\
    IP_getDestIp q 14 = Ok (if is_init_ip_dir fi then server_ip fi else client_ip fi) /\
    IP_getTotalLength q 14 = (tl ← IP_getTotalLength p 14; Ok (u16 (tl + n))) /\
    frame p q [(14 + 2, 2); (14 + 10, 2); (14 + 12, 8)].
Proof.
  intros Hv Hc Hs. pose proof (vh_hdr _ _ Hv) as Hh. pose proof Hh as [Hm Hpos H5 Hi].
  destruct (IP_getTotalLength_Ok p 14) as (tl & Etl & Htl); [lia|lia|].
  assert (H1 : exists q1, (if n =? 0 then Ok p
      else tl ← IP_getTotalLength p 14; IP_setTotalLength p 14 (u16 (tl + n))) = Ok q1 /\
    ip_header q1 14 /\ ihl q1 14 = ihl p 14 /\ IP_getTotalLength q1 14 = Ok (u16 (tl + n)) /\ frame p q1 [(14 + 2, 2)]).
  { destruct (Z.eqb_spec n 0) as [->|Hn].
    - exists p. split_and!; try done. rewrite Etl, Z.add_0_r, u16_id by lia. done.
    - rewrite Etl. cbn [mbind res_bind]. unfold IP_setTotalLength, o_Length.
      destruct (set_be16_frame p (14 + 2) (u16 (tl + n)) Hm) as (q1 & E1 & G1 & F1);
        [unfold in_range; lia|apply u16_range|]. exists q1.
      destruct (frame_ip_header _ _ _ _ F1 Hh) as [Hh1 Hi1]; [apart_tac|]. by split_and!. }
  destruct H1 as (q1 & -> & Hh1 & Hi1 & Ht1 & F1). cbn [mbind res_bind].
  set (src := if is_init_ip_dir fi then client_ip fi else server_ip fi).
  set (dst := if is_init_ip_dir fi then server_ip fi else client_ip fi).
  assert (Hsrc : 0 <= src < 4294967296) by (unfold src; by destruct (is_init_ip_dir fi)).
  assert (Hdst : 0 <= dst < 4294967296) by (unfold dst; by destruct (is_init_ip_dir fi)).
  destruct (st_ip_addr q1 12 src Hh1 (or_introl eq_refl) Hsrc) as (q2 & E2 & Hh2 & Hi2 & G2 & F2).
  destruct (st_ip_addr q2 16 dst Hh2 (or_intror eq_refl) Hdst) as (q3 & E3 & Hh3 & Hi3 & G3 & F3).
  destruct (updateCheckSum_frame q3 14 Hh3) as (q & E & Hck & Hh4 & Hi4 & F4).
  assert (Ea : (if is_init_ip_dir fi
                then p ← IP_setSourceIp q1 14 (client_ip fi); IP_setDestIp p 14 (server_ip fi)
                else p ← IP_setSourceIp q1 14 (server_ip fi); IP_setDestIp p 14 (client_ip fi)) = Ok q3).
  { unfold IP_setSourceIp, IP_setDestIp, o_Source, o_Destination, src, dst in *.
    destruct (is_init_ip_dir fi); rewrite E2; cbn [mbind res_bind]; exact E3. }
  exists q. rewrite Ea. cbn [mbind res_bind]. split; [done|]. split; [done|].
  split; [by rewrite Hi4, Hi3, Hi2|]. split; [done|].
  unfold IP_getSourceIp, IP_getDestIp, o_Source, o_Destination. split_and!.
  - rewrite (frame_ld 4 _ _ _ _ F4), (frame_ld 4 _ _ _ _ F3) by apart_tac. exact G2.
  - rewrite (frame_ld 4 _ _ _ _ F4) by apart_tac. exact G3.
  - rewrite Etl. cbn [mbind res_bind]. rewrite <- Ht1. unfold IP_getTotalLength, o_Length.
    by rewrite (frame_ld 2 _ _ _ _ F4), (frame_ld 2 _ _ _ _ F3), (frame_ld 2 _ _ _ _ F2) by apart_tac.
  - eapply frame_weaken; [exact (frame_trans _ _ _ _ _ F1 (frame_trans _ _ _ _ _ F2 (frame_trans _ _ _ _ _ F3 F4)))|].
    intros j Ha. apart_tac.
Qed.

(** The ports. *)
Lemma update_ports_ok lp fi q :
  bytes_ok q -> 0 <= fast_l4 lp -> fast_l4 lp + 4 <= zlength q ->
  exists q', update_ports fi q (fast_l4 lp) = Ok q' /\
    get_be16 q' (client_place lp fi) = Ok (u16 (client_port fi)) /\
    (replace_server_port fi = true -> get_be16 q' (server_place lp fi) = Ok (u16 (server_port fi))) /\
    frame q q' ([(client_place lp fi, 2)] ++ (if replace_server_port fi then [(server_place lp fi, 2)] else [])).
Proof.
  intros Hq H0 Hl. pose proof (u16_range (client_port fi)) as Hc. pose proof (u16_range (server_port fi)) as Hs.
  destruct (set_be16_frame q (client_place lp fi) (u16 (client_port fi)) Hq) as (q1 & E1 & G1 & F1); [|done|].
  { unfold in_range, client_place. destruct (is_init_port_dir fi); lia. }
  destruct (set_be16_frame q1 (server_place lp fi) (u16 (server_port fi)) (fr_ok _ _ _ F1)) as (q2 & E2 & G2 & F2); [|done|].
  { unfold in_range, server_place. rewrite (fr_len _ _ _ F1). destruct (is_init_port_dir fi); lia. }
  unfold update_ports, client_place, server_place in *.
  destruct (is_init_port_dir fi), (replace_server_port fi); rewrite ?Z.add_0_r in *; rewrite E1; cbn [mbind res_bind].
  all: eexists; split; [first [exact E2|reflexivity]|].
  all: split; [first [exact G1|rewrite (frame_be16 _ _ _ _ F2) by apart_tac; exact G1]|].
  all: split; [intros; first [exact G2|discriminate]|].
  all: first [exact (frame_trans _ _ _ _ _ F1 F2)|exact F1].
Qed.

Lemma update_pkt_info2_ok lp fi n p :
  v4_headers lp p -> 0 <= client_ip fi < 4294967296 -> 0 <= server_ip fi < 4294967296 ->
  exists p', update_pkt_info2 lp fi n p = Ok p' /\ ip_header p' 14 /\ ihl p' 14 = ihl p 14 /\
    resized lp fi n p p' /\ frame p p' (regions2 lp fi).
Proof.
  intros Hv Hc Hs. pose proof Hv as [H4 Hip Hh Hl4 Hin Hpr _]. pose proof (ih_len _ _ Hh) as H5.
  destruct (update2_ip lp fi n p Hv Hc Hs) as (q & E & Hhq & Hiq & Hck & Hsrc & Hdst & Htl & F).
  pose proof (fr_len _ _ _ F) as Hz.
  assert (Hcl : fast_l4 lp <= client_place lp fi <= fast_l4 lp + 2 /\ fast_l4 lp <= server_place lp fi <= fast_l4 lp + 2).
  { unfold client_place, server_place. destruct (is_init_port_dir fi); lia. }
  (* the rest does not touch the IP header *)
  assert (Hrest : forall q' l, frame q q' l -> (forall f k, 0 <= k -> 0 <= f -> f + k <= fast_l4 lp -> apart f k l) ->
    (forall j, apart j 1 (regions2 lp fi) -> apart j 1 ([(14 + 2, 2); (14 + 10, 2); (14 + 12, 8)] ++ l)) ->
    get_be16 q' (client_place lp fi) = Ok (u16 (client_port fi)) ->
    (replace_server_port fi = true -> get_be16 q' (server_place lp fi) = Ok (u16 (server_port fi))) ->
    (IsTcp (fpi_desc lp) = false ->
      UDP_getLength q' (fast_l4 lp) = (l ← UDP_getLength p (fast_l4 lp); Ok (u16 (l + n))) /\
      UDP_getChecksum q' (fast_l4 lp) = Ok 0) ->
    ip_header q' 14 /\ ihl q' 14 = ihl p 14 /\ resized lp fi n p q' /\ frame p q' (regions2 lp fi)).
  { intros q' l F' Hl Hreg Hcp Hsp Hu. destruct (frame_ip_header _ _ _ _ F' Hhq) as [Hh' Hi']; [apply Hl; lia|].
    split; [done|]. split; [by rewrite Hi'|]. split.
    - split; try done.
      + rewrite (frame_checksum _ _ _ _ F' Hhq); [done|apply Hl; lia].
      + unfold IP_getSourceIp, o_Source in *. rewrite (frame_ld 4 _ _ _ _ F'); [done|apply Hl; lia].
      + unfold IP_getDestIp, o_Destination in *. rewrite (frame_ld 4 _ _ _ _ F'); [done|apply Hl; lia].
      + rewrite <- Htl. unfold IP_getTotalLength, o_Length. rewrite (frame_ld 2 _ _ _ _ F'); [done|apply Hl; lia].
    - eapply frame_weaken; [exact (frame_trans _ _ _ _ _ F F')|exact Hreg]. }
  unfold update_pkt_info2. rewrite H4, Hip, E. cbn [mbind res_bind]. unfold regions2 in *.
  destruct (IsTcp (fpi_desc lp)) eqn:Et.
  - destruct (update_ports_ok lp fi q (fr_ok _ _ _ F)) as (p' & Ep & Gc & Gs & Fp); [lia|lia|].
    exists p'. split; [done|]. apply (Hrest p' _ Fp); try done.
    + intros f k Hk Hf Hle. destruct (replace_server_port fi); apart_tac.
    + intros j. destruct (replace_server_port fi); apart_tac.
  - cbn [orb] in Hpr. rewrite Hpr. unfold UDP_getLength, UDP_setLength, UDP_setChecksum, UDP_getChecksum in *.
    assert (Hlen : get_be16 q (fast_l4 lp + 4) = get_be16 p (fast_l4 lp + 4)) by (apply (frame_be16 _ _ _ _ F); apart_tac).
    assert (exists l, get_be16 p (fast_l4 lp + 4) = Ok l) as [l El].
    { destruct (get_be16_Ok p (fast_l4 lp + 4)) as [l El]; [lia|lia|by exists l]. }
    rewrite Hlen, El. cbn [mbind res_bind].
    destruct (set_be16_frame q (fast_l4 lp + 4) (u16 (l + n)) (fr_ok _ _ _ F)) as (q1 & E1 & G1 & F1);
      [unfold in_range; lia|apply u16_range|]. rewrite E1. cbn [mbind res_bind].
    destruct (set_be16_frame q1 (fast_l4 lp + 6) 0 (fr_ok _ _ _ F1)) as (q2 & E2 & G2 & F2);
      [unfold in_range; rewrite (fr_len _ _ _ F1); lia|lia|]. rewrite E2. cbn [mbind res_bind].
    destruct (update_ports_ok lp fi q2 (fr_ok _ _ _ F2)) as (p' & Ep & Gc & Gs & Fp);
      [lia|rewrite (fr_len _ _ _ F2), (fr_len _ _ _ F1); lia|].
    exists p'. split; [done|].
    apply (Hrest p' _ (frame_trans _ _ _ _ _ F1 (frame_trans _ _ _ _ _ F2 Fp))); try done.
    + intros f k Hk Hf Hle. destruct (replace_server_port fi); apart_tac.
    + intros j. destruct (replace_server_port fi); apart_tac.
    + intros _. rewrite El. cbn [mbind res_bind]. split.
      * rewrite (frame_be16 _ _ _ _ Fp), (frame_be16 _ _ _ _ F2) by (destruct (replace_server_port fi); apart_tac). done.
      * rewrite (frame_be16 _ _ _ _ Fp) by (destruct (replace_server_port fi); apart_tac). done.
Qed.

(** ** Pools and buffers *)

(** Every pool has a buffer left. *)
Definition pools_full (pool_get : Z -> option bytes) : Prop :=
  forall size, 0 <= size -> exists mem, pool_get size = Some mem /\ bytes_ok mem /\ zlength mem = size.

(** A buffer has at least one byte more than was asked for. *)
Lemma pktmbuf_alloc_room pool_get size :
  pools_full pool_get -> size < MAX_BUF_SIZE ->
  exists mem, RxInsert.pktmbuf_alloc pool_get size = Ok mem /\ bytes_ok mem /\ size < zlength mem.
Proof.
  intros Hp Hs. unfold RxInsert.pktmbuf_alloc, pktmbuf_alloc_small, alloc_from.
  assert (H : forall k, 0 <= k -> size < k ->
    exists mem, match pool_get k with Some m => Ok m | None => Err AssertFail end = Ok mem /\ bytes_ok mem /\ size < zlength mem).
  { intros k Hk Hlt. destruct (Hp k Hk) as (mem & -> & Hok & Hz). exists mem. split_and!; try done. lia. }
  change FIRST_PKT_SIZE with 64. change MAX_BUF_SIZE with 2048 in *.
  destruct (Z.ltb_spec size 64); [apply H; lia|]. destruct (Z.ltb_spec size 128); [apply H; lia|].
  destruct (Z.ltb_spec size 256); [apply H; lia|]. destruct (Z.ltb_spec size 512); [apply H; lia|].
  destruct (Z.ltb_spec size 1024); [apply H; lia|]. rewrite (proj2 (Z.ltb_lt size 2048)) by lia. apply H; lia.
Qed.

Lemma u16_add_u16 x y : u16 (x + u16 y) = u16 (x + y).
Proof. unfold u16. by rewrite Z.add_mod_idemp_r. Qed.

Lemma resized_u16 lp fi g p q : resized lp fi (u16 g) p q -> resized lp fi g p q.
Proof.
  intros [A B C D E F G]. split; try done.
  - rewrite D. destruct (IP_getTotalLength p 14); [|done..]. cbn. by rewrite u16_add_u16.
  - intros Et. destruct (G Et) as [G1 G2]. split; [|done]. rewrite G1.
    destruct (UDP_getLength p (fast_l4 lp)); [|done..]. cbn. by rewrite u16_add_u16.
Qed.

Lemma place_bounds lp fi :
  (fast_l4 lp <= client_place lp fi <= fast_l4 lp + 2) /\ (fast_l4 lp <= server_place lp fi <= fast_l4 lp + 2).
Proof. unfold client_place, server_place. destruct (is_init_port_dir fi); lia. Qed.

(** Only the headers matter. *)
Lemma resized_agree lp fi g k p p' q q' :
  v4_headers lp p -> ip_header q 14 -> ihl q 14 = ihl p 14 -> resized lp fi g p q ->
  agree k p' p -> agree k q q' -> bytes_ok q' -> fast_l4 lp + 8 <= k -> resized lp fi g p' q'.
Proof.
  intros Hv Hh Hi [Hc Hs Hd Hl Hcp Hsp Hu] Ha Ha' Hq Hk. pose proof (vh_l4 _ _ Hv) as Hl4.
  pose proof (ih_len _ _ (vh_hdr _ _ Hv)) as H5. pose proof (place_bounds lp fi) as [P1 P2].
  unfold IP_getSourceIp, IP_getDestIp, IP_getTotalLength, UDP_getLength, UDP_getChecksum,
    o_Source, o_Destination, o_Length in *.
  split; unfold IP_getSourceIp, IP_getDestIp, IP_getTotalLength, UDP_getLength, UDP_getChecksum,
    o_Source, o_Destination, o_Length.
  - rewrite (agree_checksum k q q'); try done. rewrite Hi. lia.
  - by rewrite (agree_ld 4 k q q') by (done || lia).
  - by rewrite (agree_ld 4 k q q') by (done || lia).
  - rewrite (agree_ld 2 k q q'), Hl by (done || lia). by rewrite (agree_ld 2 k p' p) by (done || lia).
  - by rewrite (agree_be16 k q q') by (done || lia).
  - intros R. rewrite (agree_be16 k q q') by (done || lia). by apply Hsp.
  - intros Et. destruct (Hu Et) as [U1 U2]. rewrite (agree_be16 k q q'), U1 by (done || lia).
    split; [by rewrite (agree_be16 k p' p) by (done || lia)|]. by rewrite (agree_be16 k q q') by (done || lia).
Qed.

Lemma agree_sym k m m' : agree k m m' -> agree k m' m.
Proof. intros [A B C]. split; [done..|]. intros j Hj. by rewrite C. Qed.
Lemma agree_take k m m' : 0 <= k -> k <= zlength m -> k <= zlength m' ->
  take (Z.to_nat k) m' = take (Z.to_nat k) m -> agree k m m'.
Proof.
  intros H0 H1 H2 E. split; [done..|]. intros j Hj. unfold byte_at. f_equal.
  rewrite <- (lookup_take_lt m' (Z.to_nat k)), <- (lookup_take_lt m (Z.to_nat k)) by lia. by rewrite E.
Qed.

(** ** The packet *)

(** A packet of an IPv4 template with a payload behind its headers. *)
Record v4_payload (lp : CFlowPktInfo) : Prop := {
  vp_hdr : v4_headers lp (raw (fpi_packet lp));
  vp_len : zlength (raw (fpi_packet lp)) = pkt_len (fpi_packet lp);
  vp_start : l7_offset lp = getPayloadOffset (m_pkt_indication lp);
  vp_in : fast_l4 lp + 8 <= l7_offset lp <= pkt_len (fpi_packet lp);
  vp_some : m_payload_len (m_pkt_indication lp) <> 0 }.

(** A program of one command that edits the payload, and asks for enough room. *)
Record editing (lp : CFlowPktInfo) (program : list mini_vm_cmd) (room : Z) (es : list edit) : Prop := {
  ed_prog : exists c b, program = [c; VM_EOP] /\ cmd_base c = Some b /\ m_v6 b = false /\ m_add_pkt_len b = room /\
    cmd_edits c = Some es;
  ed_in : edits_in (zlength (original_l7 lp)) 0 es;
  ed_bytes : Forall (fun e => bytes_ok (e_text e)) es;
  ed_room : grows_within room es }.

Lemma growth_lower len es : forall pos, edits_in len pos es -> pos - len <= growth es.
Proof.
  induction es as [|e es IH]; cbn [edits_in growth]; intros pos; [lia|]. intros (H1 & H2 & H3%IH).
  pose proof (Nat2Z.is_nonneg (length (e_text e))). unfold zlength. lia.
Qed.

Lemma s16_id x : -32768 <= x < 32768 -> s16 x = x.
Proof. unfold s16. intros H. rewrite Z.mod_small by lia. lia. Qed.

(** The program, run on a copy of the headers. *)
Lemma editing_run inet_ntop6 rand lp program room es p0 :
  editing lp program room es -> v4_payload lp -> pkt_len (fpi_packet lp) + room < MAX_BUF_SIZE ->
  bytes_ok p0 -> pkt_len (fpi_packet lp) + room < zlength p0 ->
  exists p, mini_vm_run inet_ntop6 rand lp program (l7_offset lp) p0 0 = Ok (p, pkt_len (fpi_packet lp) + growth es) /\
    zlength p = zlength p0 /\ bytes_ok p /\
    take (Z.to_nat (pkt_len (fpi_packet lp) + growth es)) p =
      take (Z.to_nat (l7_offset lp)) p0 ++ apply_edits (original_l7 lp) 0 es.
Proof.
  intros [(c & b & -> & Hb & H4 & Hr & Hes) Hin Htx Hg] [Hv Hz Hst Hl _] Hmax Hp0 Hroom.
  change MAX_BUF_SIZE with 2048 in *. pose proof (grows_within_growth _ _ Hg) as Hgr.
  pose proof (grows_within_pos _ _ Hg) as Hpos. pose proof (growth_lower _ _ _ Hin) as Hlow.
  pose proof (ih_bytes _ _ (vh_hdr _ _ Hv)) as Hraw.
  pose proof (vh_l4 _ _ Hv) as Hl4. pose proof (ih_len _ _ (vh_hdr _ _ Hv)) as H5.
  assert (Ho : zlength (original_l7 lp) = pkt_len (fpi_packet lp) - l7_offset lp) by (apply original_l7_len; lia).
  pose proof (room_needed_bound _ _ 0 (l7_offset lp) room Hin Hg) as Hneed.
  destruct (cmd_run_ok inet_ntop6 rand lp Hraw Hz ltac:(lia) ltac:(lia) c b es p0 (l7_offset lp))
    as ([p sz] & E & Hsz & Hzp & Hok & Ht); try done; try lia.
  cbn [fst snd] in *. exists p. split.
  - rewrite s16_id in Hsz by lia. subst sz.
    destruct c; try discriminate; cbn [mini_vm_run]; rewrite E; done.
  - split; [done|]. split; [done|]. rewrite <- Ht. do 2 f_equal. lia.
Qed.

(** The copied headers are still there when the payload has been written. *)
Lemma run_keeps_headers src p0 p start n tail :
  agree start src p0 -> 0 <= start <= n -> n <= zlength p -> zlength p = zlength p0 ->
  take (Z.to_nat n) p = take (Z.to_nat start) p0 ++ tail -> agree start src p.
Proof.
  intros Ha0 Hs Hn Hz Ht. pose proof (ag_r _ _ _ Ha0) as Hr.
  assert (Ha1 : agree start p0 p).
  { apply agree_take; [lia..|]. pose proof (f_equal (take (Z.to_nat start)) Ht) as Ht'.
    rewrite take_take, take_app_le, take_take in Ht' by (unfold zlength in *; rewrite length_take; lia).
    rewrite !Nat.min_l in Ht' by lia. exact Ht'. }
  split; [apply Ha0|lia|]. intros j Hj. by rewrite (agree_byte _ _ _ _ Ha1), (agree_byte _ _ _ _ Ha0).
Qed.

(** Stores to the headers leave the payload. *)
Lemma frame_payload p q l head tail start n :
  frame p q l -> (forall j, start <= j -> apart j 1 l) -> 0 <= start <= n -> n <= zlength p ->
  zlength head = start -> take (Z.to_nat n) p = head ++ tail ->
  drop (Z.to_nat start) (take (Z.to_nat n) q) = tail.
Proof.
  intros F Hap Hs Hn Hh Ht. pose proof (fr_len _ _ _ F) as Hzq.
  rewrite <- (drop_app_length' head tail (Z.to_nat start)) by (unfold zlength in *; lia). rewrite <- Ht.
  apply list_eq. intros i. rewrite !lookup_drop.
  destruct (decide (Z.to_nat start + i < Z.to_nat n)%nat); [|by rewrite !lookup_take_ge by lia].
  rewrite !lookup_take_lt by lia. replace (Z.to_nat start + i)%nat with (Z.to_nat (start + Z.of_nat i)) by lia.
  rewrite !lookup_in_range by (unfold zlength in *; lia). f_equal. apply (frame_byte _ _ _ _ F); [lia|]. apply Hap. lia.
Qed.

Lemma regions2_before_payload lp fi j : ip_header (raw (fpi_packet lp)) 14 -> v4_headers lp (raw (fpi_packet lp)) ->
  fast_l4 lp + 8 <= j -> apart j 1 (regions2 lp fi).
Proof.
  intros Hh Hv Hj. pose proof (place_bounds lp fi). pose proof (vh_l4 _ _ Hv) as Hl4. pose proof (ih_len _ _ Hh) as H5.
  unfold regions2. destruct (replace_server_port fi), (IsTcp (fpi_desc lp)); apart_tac.
Qed.

(** C22: when a plugin's program of one command rewrites the payload of an IPv4 packet of
    TCP or UDP, with buffers in the pools and room for the growth asked for, the packet that
    is sent has the edited payload behind headers that carry the addresses and ports of the
    flow, the IP and UDP lengths of the new packet, a right checksum of the IP header and no
    UDP checksum; the other bytes of the headers are the template's, and so is a TCP
    checksum, which is not computed again for the new payload. The packet is longer by
    exactly what the payload has grown, which is what the caller is told; and nothing is
    written outside the buffer, though each text is written with an end of its own. *)
Theorem do_generate_new_mbuf_ex_vm_ok (inet_ntop6 : list Z -> bytes) (rand : nat -> Z) (pool_get : Z -> option bytes)
    (lp : CFlowPktInfo) (fi : CFlowInfo) (program : list mini_vm_cmd) (room : Z) (es : list edit) (s_size : Z) :
  v4_payload lp -> editing lp program room es -> pkt_len (fpi_packet lp) + room < MAX_BUF_SIZE ->
  pools_full pool_get -> 0 <= client_ip fi < 4294967296 -> 0 <= server_ip fi < 4294967296 ->
  exists m, do_generate_new_mbuf_ex_vm inet_ntop6 rand pool_get lp fi program s_size = Ok (m, growth es) /\
    zlength (pktmbuf_bytes m) = pkt_len (fpi_packet lp) + growth es /\
    drop (Z.to_nat (l7_offset lp)) (pktmbuf_bytes m) = apply_edits (original_l7 lp) 0 es /\
    resized lp fi (growth es) (raw (fpi_packet lp)) (pktmbuf_bytes m) /\
    (forall j, 0 <= j < l7_offset lp -> apart j 1 (regions2 lp fi) ->
      byte_at (pktmbuf_bytes m) j = byte_at (raw (fpi_packet lp)) j).
Proof.
  intros Hvp Hed Hmax Hpools Hc Hs. pose proof Hvp as [Hv Hz Hst Hl Hsome].
  pose proof Hed as [(c & b & -> & Hb & H4 & Hr & Hes) Hin Htx Hg].
  pose proof (grows_within_growth _ _ Hg) as Hgr. pose proof (grows_within_pos _ _ Hg) as Hpos.
  pose proof (growth_lower _ _ _ Hin) as Hlow. pose proof (vh_hdr _ _ Hv) as Hh. pose proof (ih_bytes _ _ Hh) as Hraw.
  pose proof (vh_l4 _ _ Hv) as Hl4. pose proof (ih_len _ _ Hh) as H5.
  set (sz := pkt_len (fpi_packet lp)) in *. set (start := l7_offset lp) in *.
  assert (Hs16 : 0 <= sz + room < 2048) by (change MAX_BUF_SIZE with 2048 in *; lia).
  assert (Ho : zlength (original_l7 lp) = sz - start) by (apply original_l7_len; unfold sz, start in *; lia).
  unfold do_generate_new_mbuf_ex_vm. rewrite (proj2 (Z.eqb_neq _ _) Hsome). cbn [head mbind option_bind].
  rewrite Hb. cbn [mbind]. rewrite Hr, <- Hst. fold sz start. rewrite u16_id by lia.
  destruct (pktmbuf_alloc_room pool_get (sz + room) Hpools Hmax) as (mem & -> & Hmem & Hzm). cbn [mbind res_bind].
  unfold append_copy, mem_copy. rewrite (proj2 (Z.ltb_ge _ _)), decide_True by lia.
  cbn [mbind res_bind]. change (Z.to_nat 0) with 0%nat. rewrite drop_0.
  destruct (mem_copy_start mem (raw (fpi_packet lp)) start Hmem Hraw) as (p0 & -> & Hp0 & Hzp0 & Ha0); [lia..|].
  destruct (editing_run inet_ntop6 rand lp [c; VM_EOP] room es p0 Hed Hvp Hmax Hp0) as (p & E & Hzp & Hp & Ht); [fold sz; lia|].
  fold sz start in E, Ht. cbn [mb_mem]. rewrite E. cbn [mbind res_bind].
  assert (Ha : agree start (raw (fpi_packet lp)) p) by (eapply run_keeps_headers; [exact Ha0| | | |exact Ht]; lia).
  pose proof (v4_headers_agree lp _ _ _ Hv Ha Hp ltac:(lia)) as Hv1.
  destruct (update_pkt_info2_ok lp fi (u16 (growth es)) p Hv1 Hc Hs) as (q & Eq & Hhq & Hiq & Hrs & F).
  unfold pktmbuf_trim. cbn [mb_len mb_mem mb_next]. rewrite (u16_id (sz + room - (sz + growth es))) by lia.
  rewrite (proj2 (Z.ltb_ge (sz + room) _)) by lia. unfold mbuf_upd. cbn [mb_len mb_mem mb_next].
  replace (sz + growth es - sz) with (growth es) by lia. rewrite Eq. cbn [mbind res_bind].
  rewrite (s16_id (growth es)), u16_id by lia. eexists. split; [reflexivity|].
  unfold pktmbuf_bytes. cbn [mb_len mb_mem mb_next]. rewrite app_nil_r.
  replace (sz + room - (sz + room - (sz + growth es))) with (sz + growth es) by lia.
  pose proof (fr_len _ _ _ F) as Hzq.
  assert (Haq : agree (sz + growth es) q (take (Z.to_nat (sz + growth es)) q)).
  { pose proof (agree_app_take (sz + growth es) q [] ltac:(lia)) as H. by rewrite app_nil_r in H. }
  split; [unfold zlength in *; rewrite length_take; lia|]. split.
  { eapply frame_payload; [exact F| | | | |exact Ht]; try lia.
    - intros j Hj. apply regions2_before_payload; [done|done|lia].
    - unfold zlength in *. rewrite length_take. lia. }
  split.
  - apply resized_u16. eapply (resized_agree lp fi _ start); [exact Hv1|done|exact Hiq|exact Hrs|exact Ha| |by apply Forall_take, F|lia].
    destruct Haq as [A B C]. split; [lia|lia|]. intros j Hj. apply C. lia.
  - intros j Hj Hap. rewrite (agree_byte _ _ _ _ Haq), (frame_byte _ _ _ _ F) by (done || lia). by apply (agree_byte start).
Qed.
