(* ===== verification/PluginThms.v ===== *)
(** * Theorems on plugins

    The programs of the plugins ask for enough room, and the sequence numbers of a TCP flow
    follow what its packets have grown. *)

From S2P Require Import Prelude Double ByteMem PktCmn PktCmnFacts PacketHdrs PacketHdrsFacts ByteFrame PktDesc PktParser PktParserFacts RxHeader CapTemplate TupleGen FlowNode FlowNodeFacts MiniVm MiniVmFacts Plugins MiniVmThms.

#[local] Arguments ip_to_str : simpl never.
#[local] Arguments dec : simpl never.
#[local] Arguments two_ports : simpl never.

(** ** The programs *)

Section Programs.
Context (o : plugin_opts) (n : CGenNode) (q : CPlugin_rtsp).

#[local] Ltac one_cmd H :=
  eexists _, _; split; [reflexivity|]; split; [reflexivity|];
  unfold ip_cmd, sip_cmd, addr_room; cbn [m_v6 m_add_pkt_len]; rewrite H;
  split; [reflexivity|]; split; [unfold INET_ADDRSTRLEN, INET_PORTSTRLEN; lia|reflexivity].

(** A program that a plugin runs, and the end of the last span that it replaces. *)
Inductive plugin_program : Z -> list mini_vm_cmd -> Prop :=
  | pp_http : plugin_program 34 (replace_ip o (10 + 16) 8 (n_dest_ip n))
  | pp_rtsp k : rtsp_program o k n q <> [] -> plugin_program 278 (rtsp_program o k n q)
  | pp_sip_request : plugin_program 440 (sip_request o n q)
  | pp_sip_response : plugin_program 431 (sip_response o n q).

Context (lp : CFlowPktInfo) (Hv4 : po_ipv6 o = false).
Context (Hp0 : 0 <= rtp_client_0 q < 65536) (Hp1 : 0 <= rtp_client_1 q < 65536) (Hsp : 0 <= n_src_port n < 65536).

Lemma two_ports_ok p : 0 <= p < 65536 -> zlength (two_ports p) <= 11 /\ bytes_ok (two_ports p).
Proof.
  intros Hp. pose proof (dec_port p ltac:(lia)). pose proof (dec_port (p + 1) ltac:(lia)).
  unfold two_ports, INET_PORTSTRLEN in *. rewrite !zlength_app. change (zlength [ch_minus]) with 1. split; [lia|].
  apply Forall_app. split; [apply dec_bytes_ok; lia|]. apply Forall_app. split; [|apply dec_bytes_ok; lia].
  apply Forall_singleton. vm_compute. split; congruence.
Qed.

Lemma replace_ip_editing start len server :
  0 <= start -> 0 <= len <= 16 -> start + len <= zlength (original_l7 lp) ->
  editing lp (replace_ip o start len server) (INET_ADDRSTRLEN - len) [mkEdit start (start + len) (ip_to_str server)].
Proof.
  intros H0 Hl Hz. pose proof (ip_to_str_ok server) as [Hi Hb]. unfold INET_ADDRSTRLEN in *. split.
  - one_cmd Hv4.
  - cbn. lia.
  - by apply Forall_singleton.
  - cbn. lia.
Qed.

Lemma rtsp_setup_editing server port :
  0 <= port < 65536 -> 278 <= zlength (original_l7 lp) ->
  exists es, editing lp (rtsp_setup o server port) 9 es.
Proof.
  intros Hp Hz. pose proof (ip_to_str_ok server) as [Hi Hb]. pose proof (two_ports_ok port Hp) as [Ht Htb].
  unfold INET_ADDRSTRLEN in *. eexists. split.
  - one_cmd Hv4.
  - cbn. lia.
  - by repeat constructor.
  - cbn. lia.
Qed.

Lemma rtsp_setup_answer_editing port :
  0 <= port < 65536 -> 278 <= zlength (original_l7 lp) ->
  exists es, editing lp (rtsp_setup_answer port) 4 es.
Proof.
  intros Hp Hz. pose proof (two_ports_ok port Hp) as [Ht Htb].
  assert (E : dec port ++ [ch_minus] ++ dec (port + 1) ++ server_port_text ++ two_ports port =
              two_ports port ++ server_port_text ++ two_ports port) by (unfold two_ports; by rewrite <- !app_assoc).
  eexists. split.
  - eexists _, _. split; [reflexivity|]. cbn [cmd_base cmd_edits]. rewrite E. done.
  - cbn. lia.
  - apply Forall_singleton. cbn [e_text]. rewrite !Forall_app. split_and!; try done.
    repeat constructor; vm_compute; congruence.
  - cbn [grows_within e_text e_start e_stop sp_start sp_stop]. rewrite !zlength_app.
    change (zlength server_port_text) with 13. lia.
Qed.

(** The two SIP programs differ in their places. *)
Lemma sip_editing (a b c d ip_len : Z) (ip ip_via : ipaddr_t) :
  0 <= d -> d + 14 <= a -> 8 <= ip_len <= 9 -> a + ip_len <= b -> b + ip_len <= c -> c + 5 <= zlength (original_l7 lp) ->
  exists es, editing lp [VM_REPLACE_IPVIA_IP_IP_PORT (sip_cmd o) ip (mkSpan a (a + ip_len)) (mkSpan b (b + ip_len))
    (rtp_client_0 q) (mkSpan c (c + 5)) ip_via (n_src_port n) (mkSpan d (d + 9 + 5)); VM_EOP] 22 es.
Proof.
  intros Hd Ha Hl Hb Hc Hz. pose proof (ip_to_str_ok (v4 ip)) as [Hi Hib].
  pose proof (ip_to_str_ok (v4 ip_via)) as [Hv Hvb].
  pose proof (dec_port (rtp_client_0 q) ltac:(lia)) as Hr. pose proof (dec_port (n_src_port n) ltac:(lia)) as Hs.
  unfold INET_ADDRSTRLEN, INET_PORTSTRLEN in *. eexists. split.
  - one_cmd Hv4.
  - cbn. lia.
  - repeat constructor; cbn [e_text ip_edit]; try done; [|apply dec_bytes_ok; lia].
    rewrite !Forall_app. split_and!; [done| |apply dec_bytes_ok; lia].
    apply Forall_singleton. vm_compute. split; congruence.
  - cbn [grows_within e_text e_start e_stop sp_start sp_stop ip_edit]. rewrite !zlength_app.
    change (zlength [ch_colon]) with 1. lia.
Qed.

(** C24: every program that the HTTP, RTSP and SIP plugins run over IPv4 edits the payload
    in spans that follow one another and asks for room enough for whatever addresses and
    ports it is given, when the payload is long enough to contain the spans; the room is at
    most 22 bytes, so a packet of an Ethernet frame's size still fits a buffer. *)
Theorem plugin_programs_fit (len : Z) (program : list mini_vm_cmd) :
  plugin_program len program -> len <= zlength (original_l7 lp) ->
  exists room es, editing lp program room es /\ room <= 22.
Proof.
  intros Hp Hz. destruct Hp as [|k Hk| |].
  - eexists _, _. split; [apply replace_ip_editing; lia|]. unfold INET_ADDRSTRLEN. lia.
  - unfold rtsp_program, rtsp_describe, rtsp_play in *.
    repeat case_match; cbn [app] in *; try done.
    all: first
      [ destruct (rtsp_setup_editing (n_dest_ip n) (rtp_client_0 q) Hp0 ltac:(lia)) as [es He]; exists 9, es; split; [exact He|lia]
      | destruct (rtsp_setup_editing (n_dest_ip n) (rtp_client_1 q) Hp1 ltac:(lia)) as [es He]; exists 9, es; split; [exact He|lia]
      | destruct (rtsp_setup_answer_editing (rtp_client_0 q) Hp0 ltac:(lia)) as [es He]; exists 4, es; split; [exact He|lia]
      | destruct (rtsp_setup_answer_editing (rtp_client_1 q) Hp1 ltac:(lia)) as [es He]; exists 4, es; split; [exact He|lia]
      | rewrite ?app_nil_r; eexists _, _; split; [apply replace_ip_editing; lia|unfold INET_ADDRSTRLEN; lia]
      | idtac ].
    all: lia.
  - destruct (sip_editing 377 409 435 208 9 (mkIpaddr (po_src_ipv6 o) (n_src_ip n)) (mkIpaddr (po_src_ipv6 o) (n_src_ip n))) as [es He]; [lia..|].
    exists 22, es. split; [exact He|lia].
  - destruct (sip_editing 370 401 426 207 8 (mkIpaddr (po_dst_ipv6 o) (n_dest_ip n)) (mkIpaddr (po_src_ipv6 o) (n_src_ip n))) as [es He]; [lia..|].
    exists 22, es. split; [exact He|lia].
Qed.
End Programs.

(** A UDP packet of the client with 58 bytes of payload, its flow, and a plugin's options. *)
Definition demo_payload : bytes := replicate 58 65.
Definition demo_plugin_lp : CFlowPktInfo :=
  mkPktInfo
    (ind_set_desc (SetInitSide true (SetIsUdp true (m_desc demo_ind)))
       (ind_set_offsets 0 14 34 42 (ind_set_payload (Some 42) 58
          (ind_set_packet (mkRaw (take 42 demo_udp ++ demo_payload) 100 1 0 0) demo_ind)))) None.
Definition demo_opts : plugin_opts := mkPluginOpts false false [] [].
Definition demo_rtsp : CPlugin_rtsp := mkRtsp (mkSeq 0 0) 4000 4002.

Lemma demo_plugin_payload : v4_payload demo_plugin_lp.
Proof.
  split; try (vm_compute; reflexivity); try (vm_compute; split; congruence); try (vm_compute; congruence).
  split; try (vm_compute; reflexivity); try (vm_compute; congruence).
  split; try (vm_compute; congruence). repeat constructor; vm_compute; congruence.
Qed.

Lemma plugin_programs_fit_witness :
  exists room es, editing demo_plugin_lp (replace_ip demo_opts 26 8 (n_dest_ip demo_node)) room es /\ room <= 22.
Proof.
  apply (plugin_programs_fit demo_opts demo_node demo_rtsp demo_plugin_lp eq_refl) with (len := 34).
  - vm_compute. split; congruence.
  - vm_compute. split; congruence.
  - vm_compute. split; congruence.
  - exact (pp_http demo_opts demo_node demo_rtsp).
  - vm_compute. congruence.
Defined.

Lemma demo_plugin_editing :
  editing demo_plugin_lp (replace_ip demo_opts 26 8 0x30000001) 8 [mkEdit 26 34 (ip_to_str 0x30000001)].
Proof. apply replace_ip_editing; vm_compute; try split; congruence. Qed.

(** The address of eight digits becomes "48.0.0.1": the payload keeps its length. *)
Lemma do_generate_new_mbuf_ex_vm_ok_witness :
  exists m, do_generate_new_mbuf_ex_vm (fun _ => []) (fun _ => 0)
      (fun size => Some (replicate (Z.to_nat size) 0)) demo_plugin_lp
      (mkFlowInfo 0x10000001 0x30000001 2000 0 true true false) (replace_ip demo_opts 26 8 0x30000001) 0 = Ok (m, 0) /\
    zlength (pktmbuf_bytes m) = 100 /\
    slice (pktmbuf_bytes m) 68 76 = [52; 56; 46; 48; 46; 48; 46; 49].
Proof.
  destruct (do_generate_new_mbuf_ex_vm_ok (fun _ => []) (fun _ => 0) (fun size => Some (replicate (Z.to_nat size) 0))
    demo_plugin_lp (mkFlowInfo 0x10000001 0x30000001 2000 0 true true false) (replace_ip demo_opts 26 8 0x30000001) 8 _ 0
    demo_plugin_payload demo_plugin_editing) as (m & E & Hz & Hd & _).
  - vm_compute. congruence.
  - intros size Hs. eexists. split; [reflexivity|]. split; [|unfold zlength; rewrite length_replicate; lia].
    apply Forall_replicate. vm_compute. split; congruence.
  - vm_compute. split; congruence.
  - vm_compute. split; congruence.
  - exists m. split; [exact E|]. split; [exact Hz|].
    unfold slice. change (Z.to_nat 68) with (42 + 26)%nat. rewrite <- drop_drop.
    change 42%nat with (Z.to_nat (l7_offset demo_plugin_lp)). rewrite Hd. vm_compute. reflexivity.
Defined.

(** ** Sequence numbers *)

(** A packet of the flow: its place in the template, by how much its payload grew, and its
    bytes. *)
Record seq_pkt : Type := mkSeqPkt { sp_lp : CFlowPktInfo; sp_growth : Z; sp_bytes : bytes }.
Definition sp_init (p : seq_pkt) : bool := IsInitSide (fpi_desc (sp_lp p)).

(** The packets of a flow, one after another, as the plugins send them. *)
Fixpoint seq_run (l : list seq_pkt) (q : CTcpSeq) : res (list bytes * CTcpSeq) :=
  match l with
  | [] => Ok ([], q)
  | p :: l =>
      '(b, q) ← CTcpSeq_update (sp_lp p) (sp_growth p) q (sp_bytes p);
      '(bs, q) ← seq_run l q;
      Ok (b :: bs, q)
  end.

(** What the packets of a side have grown. *)
Definition grown (side : bool) (l : list seq_pkt) : Z :=
  foldr (fun p s => (if Bool.eqb (sp_init p) side then sp_growth p else 0) + s) 0 l.

Record tcp_pkt (p : seq_pkt) : Prop := {
  tp_bytes : bytes_ok (sp_bytes p);
  tp_pos : 0 <= fast_l4 (sp_lp p);
  tp_in : fast_l4 (sp_lp p) + 20 <= zlength (sp_bytes p) }.

(** The number in [p] that counts the bytes of [side], and its place. *)
Definition counter_place (side : bool) (p : seq_pkt) : Z :=
  fast_l4 (sp_lp p) + (if Bool.eqb (sp_init p) side then 4 else 8).
Definition counter_of (side : bool) (p : seq_pkt) (b : bytes) : res Z := get_be32 b (counter_place side p).
Definition delta_of (side : bool) (q : CTcpSeq) : Z := if side then client_seq_delta q else server_seq_delta q.

Lemma be32_Ok m off : in_range 4 m off -> exists v, get_be32 m off = Ok v.
Proof. intros Hr. unfold get_be32. rewrite ld_Ok by done. by eexists. Qed.
Lemma set_be32_frame m off v :
  bytes_ok m -> in_range 4 m off -> 0 <= v < 4294967296 ->
  exists m', set_be32 m off v = Ok m' /\ get_be32 m' off = Ok v /\ frame m m' [(off, 4)].
Proof.
  intros Hm Hr Hv. destruct (st_frame 4 m off (PKT_NTOHL v) Hm Hr) as (m' & E & _ & F).
  exists m'. split; [exact E|]. split; [by eapply get_set_be32|exact F].
Qed.
Lemma frame_be32 m m' l off : frame m m' l -> apart off 4 l -> get_be32 m' off = get_be32 m off.
Proof. intros Hf Ha. unfold get_be32. by rewrite (frame_ld 4 _ _ _ _ Hf) by done. Qed.

(** One packet: both numbers move by the deltas of their sides. *)
Lemma seq_update_ok p q :
  tcp_pkt p ->
  exists b q', CTcpSeq_update (sp_lp p) (sp_growth p) q (sp_bytes p) = Ok (b, q') /\
    frame (sp_bytes p) b [(fast_l4 (sp_lp p) + 4, 8)] /\
    forall side,
      counter_of side p b = (c ← counter_of side p (sp_bytes p); Ok (u32 (c + delta_of side q))) /\
      delta_of side q' = if Bool.eqb (sp_init p) side then u32 (delta_of side q + sp_growth p) else delta_of side q.
Proof.
  intros [Hb H0 Hl]. unfold CTcpSeq_update, TCP_getSeqNumber, TCP_getAckNumber, TCP_setSeqNumber, TCP_setAckNumber.
  set (t := fast_l4 (sp_lp p)) in *. fold (sp_init p).
  destruct (be32_Ok (sp_bytes p) (t + 4)) as [sq Es]; [unfold in_range; lia|].
  destruct (be32_Ok (sp_bytes p) (t + 8)) as [ak Ea]; [unfold in_range; lia|].
  rewrite Es, Ea. cbn [mbind res_bind].
  destruct (if sp_init p then (client_seq_delta q, server_seq_delta q) else (server_seq_delta q, client_seq_delta q))
    as [ds da] eqn:Ed.
  destruct (set_be32_frame (sp_bytes p) (t + 4) (u32 (sq + ds)) Hb) as (m1 & E1 & G1 & F1);
    [unfold in_range; lia|apply u32_range|]. rewrite E1. cbn [mbind res_bind].
  destruct (set_be32_frame m1 (t + 8) (u32 (ak + da)) (fr_ok _ _ _ F1)) as (m2 & E2 & G2 & F2);
    [unfold in_range; rewrite (fr_len _ _ _ F1); lia|apply u32_range|]. rewrite E2. cbn [mbind res_bind].
  assert (G1' : get_be32 m2 (t + 4) = Ok (u32 (sq + ds))) by (rewrite (frame_be32 _ _ _ _ F2) by apart_tac; done).
  eexists m2, _. split; [reflexivity|]. split.
  { eapply frame_weaken; [exact (frame_trans _ _ _ _ _ F1 F2)|]. intros j Ha. apart_tac. }
  intros side. unfold counter_of, counter_place, delta_of. fold t.
  destruct (sp_init p), side; cbn [Bool.eqb client_seq_delta server_seq_delta]; simplify_eq;
    rewrite ?G1', ?G2, ?Es, ?Ea; done.
Qed.

Lemma u32_add_u32 x y : u32 (u32 x + y) = u32 (x + y).
Proof. unfold u32. by rewrite Z.add_mod_idemp_l. Qed.

Lemma seq_run_ok l : forall q, Forall tcp_pkt l ->
  exists bs q', seq_run l q = Ok (bs, q') /\ length bs = length l /\
    forall k p, l !! k = Some p -> exists b, bs !! k = Some b /\
      frame (sp_bytes p) b [(fast_l4 (sp_lp p) + 4, 8)] /\
      forall side, counter_of side p b =
        (c ← counter_of side p (sp_bytes p); Ok (u32 (c + delta_of side q + grown side (take k l)))).
Proof.
  induction l as [|p l IH]; intros q Hl; [by exists [], q|]. apply Forall_cons in Hl as [Hp Hl].
  destruct (seq_update_ok p q Hp) as (b & q1 & E & F & Hd). cbn [seq_run]. rewrite E. cbn [mbind res_bind].
  destruct (IH q1 Hl) as (bs & q2 & E2 & Hlen & Hk). rewrite E2. cbn [mbind res_bind].
  exists (b :: bs), q2. split; [done|]. split; [cbn; lia|]. intros [|k] p' Hp'; cbn in Hp'.
  - injection Hp' as <-. exists b. split; [done|]. split; [done|]. intros side. rewrite (proj1 (Hd side)).
    destruct (counter_of side p (sp_bytes p)); [|done..]. cbn. do 2 f_equal. lia.
  - destruct (Hk k p' Hp') as (b' & Hb' & F' & Hc). exists b'. split; [done|]. split; [done|]. intros side.
    rewrite Hc. destruct (counter_of side p' (sp_bytes p')) as [c|]; [|done..]. cbn [mbind res_bind]. f_equal.
    rewrite (proj2 (Hd side)). cbn [take grown foldr]. fold (grown side (take k l)).
    destruct (Bool.eqb (sp_init p) side); [|f_equal; lia].
    replace (c + u32 (delta_of side q + sp_growth p) + grown side (take k l))
      with (u32 (delta_of side q + sp_growth p) + (c + grown side (take k l))) by lia.
    rewrite u32_add_u32. f_equal. lia.
Qed.

(** C23: over a TCP flow whose payloads plugins rewrite, each packet's sequence number is the
    template's plus what the earlier packets of its own side have grown, and its
    acknowledgement number the template's plus what the earlier packets of the other side
    have grown, modulo [2^32]: the stream of each side has neither gaps nor overlaps and is
    acknowledged as the template's was; nothing else of a packet changes. *)
Theorem tcp_seq_follows_growth (l : list seq_pkt) :
  Forall tcp_pkt l ->
  exists bs q, seq_run l (mkSeq 0 0) = Ok (bs, q) /\ length bs = length l /\
    forall k p, l !! k = Some p -> exists b, bs !! k = Some b /\
      frame (sp_bytes p) b [(fast_l4 (sp_lp p) + 4, 8)] /\
      forall side, counter_of side p b =
        (c ← counter_of side p (sp_bytes p); Ok (u32 (c + grown side (take k l)))).
Proof.
  intros Hl. destruct (seq_run_ok l (mkSeq 0 0) Hl) as (bs & q & E & Hlen & Hk). exists bs, q.
  split; [done|]. split; [done|]. intros k p Hp. destruct (Hk k p Hp) as (b & Hb & F & Hc). exists b.
  split; [done|]. split; [done|]. intros side. rewrite Hc.
  assert (H0 : delta_of side (mkSeq 0 0) = 0) by (by destruct side). rewrite H0.
  destruct (counter_of side p (sp_bytes p)); [|done..]. cbn. do 2 f_equal. lia.
Qed.

(** Two packets of the client; the first grows by 7 bytes. *)
Definition demo_seq_pkt (g : Z) : seq_pkt := mkSeqPkt demo_plugin_lp g (replicate 60 1).
Lemma tcp_seq_follows_growth_witness :
  exists bs q b, seq_run [demo_seq_pkt 7; demo_seq_pkt 0] (mkSeq 0 0) = Ok (bs, q) /\
    bs !! 1%nat = Some b /\ get_be32 b 38 = Ok (0x01010101 + 7) /\ get_be32 b 42 = Ok 0x01010101.
Proof.
  destruct (tcp_seq_follows_growth [demo_seq_pkt 7; demo_seq_pkt 0]) as (bs & q & E & _ & H).
  - repeat constructor; vm_compute; congruence.
  - destruct (H 1%nat (demo_seq_pkt 0) eq_refl) as (b & Hb & _ & Hc). exists bs, q, b.
    split; [exact E|]. split; [exact Hb|]. split; [exact (Hc true)|exact (Hc false)].
Defined.
