(* ===== verification/SendNode.v ===== *)
(** * Sending a packet of a flow

    What [CCoreEthIF::send_node] and [CErfIF::send_node] put on the wire for a packet of a
    template without plugin: the packet of the flow, with the addresses of the port, and, when
    the flow is sampled, with the header of the receive check. *)

From S2P Require Import Prelude Double ByteMem PktCmn PktCmnFacts PacketHdrs PacketHdrsFacts ByteFrame PktDesc PktParser PktParserFacts RxHeader CapTemplate RxInsert RxInsertFacts TupleGen FlowNode FlowNodeFacts MiniVm Plugins.

(** ** Words *)

(** The node as the stores of the packet see it: addresses of 32 bits, ports of 16. *)
Definition words (n : CGenNode) : CGenNode :=
  mkGenNode (n_type n) (n_thread_id n) (u16 (n_src_port n)) (n_flags n) (n_time n) (u32 (n_src_ip n)) (u32 (n_dest_ip n))
    (n_flow_id n) (n_pkt_info n) (n_template n) (n_plugin_info n) (u32 (n_nat_external_ipv4 n))
    (u32 (n_nat_external_ipv4_server n)) (u16 (n_nat_external_port n)) (n_src_mac n) (n_src_idx n) (n_dest_idx n).

Lemma words_ok n : node_words (words n).
Proof. split; cbn; first [apply u32_range|apply u16_range]. Qed.
Lemma words_id n : node_words n -> words n = n.
Proof.
  intros [A B C D E F]. unfold words. rewrite !u32_id, !u16_id by done. by destruct n.
Qed.

Lemma addr_word m ip f a : IP_update_addr m ip f (u32 a) = IP_update_addr m ip f a.
Proof. unfold IP_update_addr, PKT_NTOHL, PKT_HTONL, PAL_NTOHL. by rewrite (u32_id (u32 a)) by apply u32_range. Qed.
Lemma be16_word m f v : set_be16 m f (u16 v) = set_be16 m f v.
Proof. unfold set_be16, PKT_NTOHS, PAL_NTOHS. by rewrite (u16_id (u16 v)) by apply u16_range. Qed.

Lemma update_ipv4_words learn lp n p :
  update_ipv4 learn lp (words n) p = ('(q, port) ← update_ipv4 learn lp n p; Ok (q, u16 port)).
Proof.
  unfold update_ipv4, IP_updateIpSrc, IP_updateIpDst. change (write_learn (words n)) with (write_learn n).
  change (cur_pkt_ip_addr_dir lp (words n)) with (cur_pkt_ip_addr_dir lp n).
  cbn [words n_src_ip n_dest_ip n_src_port n_nat_external_ipv4 n_nat_external_ipv4_server n_nat_external_port].
  destruct learn; [destruct (if IsLearn (fpi_desc lp) then _ else _) as [q|]; cbn [mbind res_bind]; [|done];
    destruct (IsInitSide (fpi_desc lp))|destruct (_ =? CLIENT_SIDE)];
    rewrite !addr_word; (destruct (IP_update_addr _ _ o_Source _) as [q1|]; cbn [mbind res_bind]; [|done]);
    rewrite !addr_word; (destruct (IP_update_addr _ _ o_Destination _) as [q2|]; cbn [mbind res_bind]; [|done]);
    destruct (IP_updateCheckSum _ _); done.
Qed.

Lemma update_pkt_info_words learn lp n p :
  m_is_ipv6 (m_pkt_indication lp) = false -> update_pkt_info learn lp (words n) p = update_pkt_info learn lp n p.
Proof.
  intros H6. unfold update_pkt_info. rewrite H6, update_ipv4_words.
  unfold TCP_setSourcePort, TCP_setDestPort, UDP_setSourcePort, UDP_setDestPort.
  destruct (update_ipv4 learn lp n p) as [[q port]|]; cbn [mbind res_bind]; [|done]. rewrite !be16_word.
  destruct (IsTcp (fpi_desc lp)), (IsUdp (fpi_desc lp)); try done. destruct (UDP_setChecksum _ _ _); cbn [mbind res_bind]; [|done]. by rewrite !be16_word.
Qed.

(** ** The packet before it is sent *)

(** A template whose packets do not concern a plugin. *)
Record plain_packet (lp : CFlowPktInfo) : Prop := {
  pp_template : v4_template lp;
  pp_plain : IsPluginEnable (fpi_desc lp) = false;
  pp_options : ihl (raw (fpi_packet lp)) 14 = 5;
  pp_length : exists tl, IP_getTotalLength (raw (fpi_packet lp)) 14 = Ok tl /\ tl + 24 < 65536 }.

(** The packet of the flow, behind the addresses of the port. *)
Record flow_packet (learn : bool) (lp : CFlowPktInfo) (n : CGenNode) (q : bytes) : Prop := {
  fp_tuple : rewritten learn lp (words n) q;
  fp_rest : frame (raw (fpi_packet lp)) q ((0, 12) :: rewritten_regions learn lp) }.

(** The buffer: its first part, with all headers, is its memory. *)
Record made (lp : CFlowPktInfo) (m : rte_mbuf) : Prop := {
  md_ok : bytes_ok (mb_mem m);
  md_size : zlength (mb_mem m) = FIRST_PKT_SIZE;
  md_len : fast_l4 lp + 8 <= mb_len m <= FIRST_PKT_SIZE }.

Lemma l4_place lp : v4_template lp -> 34 <= fast_l4 lp.
Proof. intros [Hv _ _ _]. rewrite (vh_l4 _ _ Hv). pose proof (ih_len _ _ (vh_hdr _ _ Hv)). lia. Qed.

Lemma mem_copy_frame p off src k :
  bytes_ok p -> bytes_ok src -> 0 <= k <= zlength src -> 0 <= off -> off + k <= zlength p ->
  exists p', mem_copy p off src 0 k = Ok p' /\ frame p p' [(off, k)].
Proof.
  intros Hp Hs Hk Ho Hz. unfold mem_copy. rewrite decide_True by lia. eexists. split; [reflexivity|].
  change (Z.to_nat 0) with 0%nat. rewrite drop_0. unfold zlength in *.
  assert (Hl : length (take (Z.to_nat k) src) = Z.to_nat k) by (rewrite length_take; lia). split.
  - unfold zlength. rewrite length_splice; lia.
  - apply splice_ok; [done|by apply Forall_take].
  - intros j Hj Ha. unfold byte_at. rewrite splice_lookup, Hl by lia. rewrite decide_False; [done|].
    unfold apart in Ha. rewrite Forall_singleton in Ha. cbn in Ha. lia.
Qed.

Section Sent.
Context (inet_ntop6 : list Z -> bytes) (rand : nat -> Z) (pool_get : Z -> option bytes) (o : plugin_opts) (mem : bytes).
Context (Hpool : pool_get FIRST_PKT_SIZE = Some mem) (Hmem : bytes_ok mem) (Hsize : zlength mem = FIRST_PKT_SIZE).

Lemma generate_plain plugin_id dp n lp :
  plain_packet lp ->
  exists m, generate_new_mbuf inet_ntop6 rand pool_get o plugin_id dp n lp = Ok (m, n) /\
    flow_packet (po_learn o) lp n (pktmbuf_bytes m) /\ made lp m.
Proof using Hpool Hmem Hsize.
  intros [Ht Hp _ _]. unfold generate_new_mbuf. rewrite Hp.
  destruct (do_generate_new_mbuf_spec pool_get (po_learn o) (words n) lp mem Ht (words_ok n) Hpool Hmem Hsize)
    as (m & E & [Hrw F] & A & B & C).
  assert (E' : do_generate_new_mbuf pool_get (po_learn o) n lp = Ok m).
  { rewrite <- E. unfold do_generate_new_mbuf, small_mbuf. destruct (pktmbuf_alloc_small pool_get); cbn [mbind res_bind]; [|done].
    destruct (append_copy _ _ _ lp); cbn [mbind res_bind]; [|done]. unfold mbuf_upd.
    by rewrite update_pkt_info_words by apply Ht. }
  rewrite E'. exists m. split; [done|]. split; [|done]. split; [done|].
  eapply frame_weaken; [exact F|]. intros j. by intros [_ ?]%Forall_cons.
Qed.

(** Stores into the addresses of the link layer. *)
Definition heads (f : bytes -> res bytes) : Prop :=
  forall p, bytes_ok p -> 14 <= zlength p -> exists p', f p = Ok p' /\ frame p p' [(0, 12)].

Lemma rewritten_head learn lp n q q' :
  v4_template lp -> flow_packet learn lp n q -> frame q q' [(0, 12)] -> flow_packet learn lp n q'.
Proof.
  intros Ht [[Hc Hs Hd Hp Hu Hli] F] F'. pose proof (l4_place lp Ht) as Hl4.
  assert (Ha : apart 14 1 ((0, 12) :: rewritten_regions learn lp)).
  { unfold rewritten_regions, port_place. destruct (IsInitSide (fpi_desc lp)), (IsTcp (fpi_desc lp)), (learn && IsLearn (fpi_desc lp)); apart_tac. }
  destruct (frame_ip_header _ _ _ _ F (vh_hdr _ _ (vt_hdr _ Ht)) Ha) as [Hh _]. pose proof (ih_len _ _ Hh) as H5.
  assert (Hplace : fast_l4 lp <= port_place lp) by (unfold port_place; destruct (IsInitSide (fpi_desc lp)); lia).
  unfold IP_getSourceIp, IP_getDestIp, o_Source, o_Destination, UDP_getChecksum in *. split.
  - split; unfold IP_getSourceIp, IP_getDestIp, o_Source, o_Destination, UDP_getChecksum.
    + rewrite (frame_checksum _ _ _ _ F' Hh); [done|apart_tac].
    + by rewrite (frame_ld 4 _ _ _ _ F') by apart_tac.
    + by rewrite (frame_ld 4 _ _ _ _ F') by apart_tac.
    + by rewrite (frame_be16 _ _ _ _ F') by apart_tac.
    + intros Et. rewrite (frame_be16 _ _ _ _ F') by apart_tac. by apply Hu.
    + intros El. eapply learn_info_frame; [exact F'|apart_tac|apart_tac|by apply Hli].
  - eapply frame_weaken; [exact (frame_trans _ _ _ _ _ F F')|]. intros j Hj. apply apart_app. split; [done|apart_tac].
Qed.

Lemma head_upd lp f n m :
  v4_template lp -> heads f -> made lp m -> flow_packet (po_learn o) lp n (pktmbuf_bytes m) ->
  exists m', mbuf_upd f m = Ok m' /\ made lp m' /\ flow_packet (po_learn o) lp n (pktmbuf_bytes m') /\
    frame (mb_mem m) (mb_mem m') [(0, 12)] /\ mb_len m' = mb_len m /\ mb_next m' = mb_next m.
Proof.
  intros Ht Hf [A B C] Hp. pose proof (l4_place lp Ht). change FIRST_PKT_SIZE with 64 in *.
  destruct (Hf (mb_mem m) A) as (p' & E & F); [lia|].
  unfold mbuf_upd. rewrite E. cbn [mbind res_bind]. eexists. split; [reflexivity|].
  assert (Hmade : made lp (mkMbuf p' (mb_len m) (mb_next m))).
  { split; cbn [mb_mem mb_len]; [apply F|rewrite (fr_len _ _ _ F); exact B|exact C]. }
  split; [done|]. split; [|done]. eapply rewritten_head; [exact Ht|exact Hp|].
  unfold pktmbuf_bytes. cbn [mb_mem mb_len mb_next]. pose proof (fr_len _ _ _ F) as Hz. unfold zlength in *. split.
  - unfold zlength. rewrite !length_app, !length_take. lia.
  - apply Forall_app. split; [apply Forall_take, F|]. pose proof (fr_ok _ _ _ (fp_rest _ _ _ _ Hp)) as Hok.
    unfold pktmbuf_bytes in Hok. by apply Forall_app in Hok as [_ ?].
  - intros j Hj Ha. pose proof (fr_same _ _ _ F j Hj Ha) as Hs. unfold byte_at in *.
    destruct (decide (Z.to_nat j < Z.to_nat (mb_len m))%nat) as [Hlt|Hge].
    + rewrite !lookup_app_l by (rewrite length_take; lia). by rewrite !lookup_take_lt by lia.
    + rewrite !lookup_app_r by (rewrite length_take; lia). rewrite !length_take.
      by replace (length p') with (length (mb_mem m)) by lia.
Qed.

(** ** The addresses of the port *)

Record macs_ok (mo : mac_opts) (n : CGenNode) : Prop := {
  mk_ports : forall k, bytes_ok (mo_dst_src mo k) /\ 12 <= zlength (mo_dst_src mo k);
  mk_split : mo_dest_split mo = true -> mo_splitter mo <> 0;
  mk_client : mo_mapping mo = true -> inused (n_src_mac n) = INUSED -> bytes_ok (mac (n_src_mac n)) /\ 6 <= zlength (mac (n_src_mac n)) }.

Lemma heads_weaken f p p' l : f p = Ok p' -> frame p p' l -> (forall j, apart j 1 [(0, 12)] -> apart j 1 l) ->
  exists p', f p = Ok p' /\ frame p p' [(0, 12)].
Proof. intros E F Hl. exists p'. split; [exact E|]. by eapply frame_weaken. Qed.

Lemma heads_port mo n k : macs_ok mo n -> heads (fun p => mem_copy p 0 (mo_dst_src mo k) 0 12).
Proof. intros [A _ _] p Hp Hz. destruct (A k). apply mem_copy_frame; try done; lia. Qed.

Lemma heads_mac mo n lp : macs_ok mo n -> heads (update_mac_addr mo n lp).
Proof.
  intros [_ B C] p Hp Hz. unfold update_mac_addr.
  assert (H1 : exists p1, (if mo_dest_split mo then
       if mo_splitter mo =? 0 then Err DivByZero else b ← ld8 p 5; st8 p 5 (b + n_src_ip n mod mo_splitter mo)
     else Ok p) = Ok p1 /\ frame p p1 [(0, 12)]).
  { destruct (mo_dest_split mo); [|exists p; split; [done|by apply frame_refl]].
    rewrite (proj2 (Z.eqb_neq _ _)) by (by apply B). rewrite ld_Ok by (unfold in_range; lia). cbn [mbind res_bind]. destruct (st_frame 1 p 5 (le_combine (take 1 (drop (Z.to_nat 5) p)) + n_src_ip n mod mo_splitter mo) Hp) as (p' & E & _ & F); [unfold in_range; lia|].
    eapply (heads_weaken (fun p => st8 p 5 _)); [exact E|exact F|intros; apart_tac]. }
  destruct H1 as (p1 & -> & F1). cbn [mbind res_bind]. pose proof (fr_ok _ _ _ F1) as Hp1. pose proof (fr_len _ _ _ F1) as Hz1.
  assert (Hall : forall f p2 l, f p1 = Ok p2 -> frame p1 p2 l -> (forall j, apart j 1 [(0, 12)] -> apart j 1 l) ->
    exists p', f p1 = Ok p' /\ frame p p' [(0, 12)]).
  { intros f p2 l E F Hl. exists p2. split; [exact E|]. eapply frame_weaken; [exact (frame_trans _ _ _ _ _ F1 F)|].
    intros j Hj. apply apart_app. auto. }
  destruct (mo_mapping mo).
  - destruct (Z.eqb_spec (inused (n_src_mac n)) INUSED) as [Ei|]; [|by exists p1]. destruct (C eq_refl Ei) as [Hm Hl].
    destruct (mem_copy_frame p1 6 (mac (n_src_mac n)) 6) as (p2 & E & F); try done; try lia.
    eapply (Hall (fun p => mem_copy p 6 _ 0 6)); [exact E|exact F|intros; apart_tac].
  - destruct (mo_override mo); [|by exists p1]. destruct (is_initiator_pkt lp); [|by exists p1].
    destruct (st_frame 4 p1 6 (PKT_NTOHL (n_src_ip n)) Hp1) as (p2 & E & _ & F); [unfold in_range; lia|].
    eapply (Hall (fun p => st32 p 6 _)); [exact E|exact F|intros; apart_tac].
Qed.

(** ** The receive check *)

Lemma rx_packet_more h m len out next :
  34 <= len <= zlength m -> bytes_ok next -> rx_packet h m len out ->
  rx_packet h (take (Z.to_nat len) m ++ next) (len + zlength next) (out ++ next).
Proof.
  intros Hlen Hn [A B C D E F I J K].
  assert (Hag : agree (zlength out) out (out ++ next)).
  { pose proof (agree_app_take (zlength out) out next) as Ha. unfold zlength in *. rewrite Nat2Z.id, firstn_all in Ha. apply Ha. lia. }
  assert (Hag' : agree len m (take (Z.to_nat len) m ++ next)) by (apply agree_app_take; lia).
  assert (Hok : bytes_ok (out ++ next)) by (by apply Forall_app).
  assert (Hih : ihl out 14 = 11).
  { rewrite IP_getHeaderLength_eq in D by (done || lia). injection D as D. lia. }
  assert (Hh : ip_header out 14) by (split; try done; lia).
  unfold IP_getTotalLength, IP_getTimeToLive, o_Length, o_TTL in *.
  split; unfold IP_getTotalLength, IP_getTimeToLive, o_Length, o_TTL.
  - done.
  - unfold zlength in *. rewrite length_app. lia.
  - rewrite (agree_checksum _ _ _ _ Hag Hok Hh); [done|lia].
  - destruct (agree_ip_header _ _ _ 14 Hag Hok Hh) as [Hh' Hi]; [lia|]. rewrite IP_getHeaderLength_eq, Hi, Hih by (done || destruct Hag; lia). done.
  - rewrite (agree_ld 2 _ _ _ _ Hag) by lia. rewrite E. by rewrite (agree_ld 2 _ _ _ _ Hag') by lia.
  - by rewrite (agree_ld 1 _ _ _ _ Hag) by lia.
  - unfold zlength in *. rewrite drop_app_le, take_app_le; [done|rewrite length_drop; lia|lia].
  - unfold zlength in *. rewrite drop_app_le by lia. rewrite J. rewrite (take_ge (drop 34 (take (Z.to_nat len) m ++ next))).
    2: { rewrite length_drop, length_app, length_take. lia. }
    rewrite drop_app_le by (rewrite length_take; lia). f_equal. rewrite take_drop_commute. do 2 f_equal. lia.
  - intros j Hj Ho. rewrite (agree_byte _ _ _ j Hag) by lia. rewrite (agree_byte _ _ _ j Hag') by lia. by apply K.
Qed.

(** The header goes into the packet of a flow. *)
Lemma rx_insert_ok lp n m tick single :
  plain_packet lp -> made lp m -> flow_packet (po_learn o) lp n (pktmbuf_bytes m) ->
  exists b, do_generate_new_mbuf_rxcheck pool_get lp (fpi_desc lp) (n_flow_id n) tick single (mb_mem m) (mb_len m) = Ok b /\
    rx_packet (rxcheck_header (fpi_desc lp) (n_flow_id n) tick RX_CHECK_V4_OPT_TYPE RX_CHECK_V4_OPT_LEN single)
      (pktmbuf_bytes m) (zlength (pktmbuf_bytes m)) (mbuf_bytes b ++ mb_next m).
Proof.
  intros [Ht Hp Hopt (tl & Htl & Htlb)] [A B C] [_ F]. pose proof (l4_place lp Ht) as Hl4. change FIRST_PKT_SIZE with 64 in *.
  assert (Hag : agree (mb_len m) (mb_mem m) (pktmbuf_bytes m)) by (apply agree_app_take; lia).
  assert (Ha : apart 14 4 ((0, 12) :: rewritten_regions (po_learn o) lp)).
  { unfold rewritten_regions, port_place. destruct (IsInitSide (fpi_desc lp)), (IsTcp (fpi_desc lp)), (po_learn o && IsLearn (fpi_desc lp)); apart_tac. }
  assert (Hih : ihl (mb_mem m) 14 = 5).
  { rewrite <- Hopt. unfold ihl. rewrite <- (agree_byte _ _ _ 14 Hag) by lia. rewrite (frame_byte _ _ _ _ F); [done|lia|].
    eapply apart_sub; [exact Ha|lia|lia]. }
  assert (Htl' : IP_getTotalLength (mb_mem m) 14 = Ok tl).
  { rewrite <- Htl. unfold IP_getTotalLength, o_Length. rewrite <- (agree_ld 2 _ _ _ _ Hag) by lia.
    rewrite (frame_ld 2 _ _ _ _ F); [done|]. eapply apart_sub; [exact Ha|lia|cbn; lia]. }
  pose proof (vt_hdr _ Ht) as Hv.
  assert (Hnew : pktmbuf_alloc pool_get (mb_len m - 10) = Ok mem).
  { unfold pktmbuf_alloc, pktmbuf_alloc_small, alloc_from. rewrite (proj2 (Z.ltb_lt _ _)) by (change FIRST_PKT_SIZE with 64; lia).
    change FIRST_PKT_SIZE with 64. by rewrite Hpool. }
  destruct (rxcheck_insert_spec pool_get mem lp (fpi_desc lp) (n_flow_id n) tick single (mb_mem m) (mb_len m) tl A) as (b & E & Hrx);
    [lia|lia|apply Hv|exact (vh_ip _ _ Hv)|done|done|done|exact Hnew|change FIRST_PKT_SIZE with 64 in Hsize; lia|].
  exists b. split; [exact E|]. pose proof (fr_ok _ _ _ F) as Hok. unfold pktmbuf_bytes in Hok. apply Forall_app in Hok as [_ Hok].
  pose proof (rx_packet_more _ (mb_mem m) (mb_len m) _ (mb_next m) ltac:(lia) Hok Hrx) as Hmore.
  assert (Hz : zlength (pktmbuf_bytes m) = mb_len m + zlength (mb_next m)).
  { unfold pktmbuf_bytes, zlength in *. rewrite length_app, length_take. lia. }
  rewrite Hz. exact Hmore.
Qed.

(** What is sent for a node without a cached packet. *)
Definition core_sent (mo : mac_opts) (port_of_dir : Z -> Z) (tick : Z) (cache : bool) (n : CGenNode) (lp : CFlowPktInfo)
    (p : bytes) (n' : CGenNode) : Prop :=
  let dir := cur_interface_dir lp n in
  exists q, flow_packet (po_learn o) lp n q /\
    (mo_features mo = false -> take 12 q = take 12 (mo_dst_src mo (port_of_dir dir))) /\
    if is_rx_check_enabled n
    then rx_packet (rxcheck_header (fpi_desc lp) (n_flow_id n) tick RX_CHECK_V4_OPT_TYPE RX_CHECK_V4_OPT_LEN
           (get_is_all_flow_from_same_dir n)) q (zlength q) p /\ n' = n
    else p = q /\ n' = if cache then set_cache_mbuf q (set_mbuf_cache_dir dir n) else n.

Lemma core_send_spec mo port_of_dir tick can_cache cache_left plugin_id dp n lp :
  plain_packet lp -> macs_ok mo n -> get_cache_mbuf n = Ok None ->
  exists p n', core_send_node inet_ntop6 rand pool_get o mo port_of_dir tick can_cache cache_left plugin_id dp n lp =
      Ok (cur_interface_dir lp n, p, n') /\ core_sent mo port_of_dir tick (can_cache && cache_left) n lp p n'.
Proof using Hpool Hmem Hsize.
  intros Hpl Hmo Hc. pose proof (pp_template _ Hpl) as Ht. pose proof (l4_place lp Ht) as Hl4.
  unfold core_send_node. rewrite Hc. cbn [mbind res_bind].
  destruct (generate_plain plugin_id dp n lp Hpl) as (m & -> & Hq & Hm). cbn [mbind res_bind].
  set (dir := cur_interface_dir lp n).
  destruct (head_upd lp _ n m Ht (heads_port mo n (port_of_dir dir) Hmo) Hm Hq) as (m1 & E1 & Hm1 & Hq1 & _). rewrite E1. cbn [mbind res_bind].
  assert (Hmac : take 12 (pktmbuf_bytes m1) = take 12 (mo_dst_src mo (port_of_dir dir))).
  { unfold mbuf_upd in E1. apply bind_Ok in E1 as (p1 & E1 & [= <-]). unfold mem_copy in E1. case_decide as Hr; [|done].
    injection E1 as <-. destruct Hm1 as [_ Hz1 Hl1]. cbn [mb_mem mb_len] in *. unfold pktmbuf_bytes. cbn [mb_mem mb_len mb_next].
    change (Z.to_nat 0) with 0%nat in *. change (Z.to_nat 12) with 12%nat in *. rewrite drop_0 in *. change FIRST_PKT_SIZE with 64 in *.
    unfold splice, zlength in *. rewrite take_app_le by (rewrite length_take; lia). rewrite take_take.
    replace (12 `min` Z.to_nat (mb_len m))%nat with 12%nat by lia. rewrite take_0, app_nil_l.
    apply take_app_length'. rewrite length_take. lia. }
  assert (H2 : exists m2, (if mo_features mo then mbuf_upd (update_mac_addr mo n lp) m1 else Ok m1) = Ok m2 /\ made lp m2 /\
    flow_packet (po_learn o) lp n (pktmbuf_bytes m2) /\
    (mo_features mo = false -> take 12 (pktmbuf_bytes m2) = take 12 (mo_dst_src mo (port_of_dir dir)))).
  { destruct (mo_features mo); [|by exists m1].
    destruct (head_upd lp _ n m1 Ht (heads_mac mo n lp Hmo) Hm1 Hq1) as (m2 & E2 & Hm2 & Hq2 & _). by exists m2. }
  destruct H2 as (m2 & -> & Hm2 & Hq2 & Hmac2). cbn [mbind res_bind].
  destruct (is_rx_check_enabled n) eqn:Erx.
  - destruct (rx_insert_ok lp n m2 tick (get_is_all_flow_from_same_dir n) Hpl Hm2 Hq2) as (b & -> & Hrx). cbn [mbind res_bind].
    do 2 eexists. split; [reflexivity|]. exists (pktmbuf_bytes m2). rewrite Erx. by split_and!.
  - do 2 eexists. split; [reflexivity|]. exists (pktmbuf_bytes m2). rewrite Erx. by split_and!.
Qed.

(** The same for a simulation that writes its packets to a file. *)
Lemma erf_send_spec dst_src plugin_id dp n lp :
  plain_packet lp -> (forall k, bytes_ok (dst_src k) /\ 12 <= zlength (dst_src k)) ->
  exists p, erf_send_node inet_ntop6 rand pool_get o dst_src None plugin_id dp n lp = Ok (cur_interface_dir lp n, p, n) /\
    flow_packet (po_learn o) lp n p.
Proof using Hpool Hmem Hsize.
  intros Hpl Hd. pose proof (pp_template _ Hpl) as Ht. pose proof (l4_place lp Ht) as Hl4. unfold erf_send_node.
  destruct (generate_plain plugin_id dp n lp Hpl) as (m & -> & Hq & [A B C]). cbn [mbind res_bind].
  destruct (Hd (cur_interface_dir lp n)) as [Hd1 Hd2]. change FIRST_PKT_SIZE with 64 in *.
  destruct (mem_copy_frame (pktmbuf_bytes m) 0 (dst_src (cur_interface_dir lp n)) 12) as (p & E & F); [apply (fp_rest _ _ _ _ Hq)|done|lia|lia| |].
  { unfold pktmbuf_bytes, zlength in *. rewrite length_app, length_take. lia. }
  rewrite E. cbn [mbind res_bind]. exists p. split; [done|]. by eapply rewritten_head.
Qed.

(** ** Buffers that are kept *)

Lemma u16_bit x j : 0 <= j < 16 -> Z.testbit (u16 x) j = Z.testbit x j.
Proof. intros Hj. unfold u16. change 65536 with (2 ^ 16). apply Z.mod_pow2_bits_low. lia. Qed.

Lemma cached_node q dir n :
  dir = 0 \/ dir = 1 -> let n' := set_cache_mbuf q (set_mbuf_cache_dir dir n) in
  get_cache_mbuf n' = Ok (Some q) /\ get_mbuf_cache_dir n' = dir.
Proof.
  intros Hd n'. split.
  - unfold get_cache_mbuf. replace (has_flag NODE_FLAGS_MBUF_CACHE n') with true; [done|].
    unfold has_flag. symmetry. apply negb_true_iff, Z.eqb_neq. intros E. apply (f_equal (fun x => Z.testbit x 1)) in E.
    cbv beta in E. unfold n', set_cache_mbuf, set_flag in E. cbn [n_flags node_set_flags] in E.
    rewrite Z.land_spec in E. change (Z.testbit NODE_FLAGS_MBUF_CACHE 1) with true in E.
    rewrite u16_bit, Z.lor_spec, Z.bits_0 in E by lia. change (Z.testbit NODE_FLAGS_MBUF_CACHE 1) with true in E. by rewrite orb_true_r in E.
  - unfold get_mbuf_cache_dir. assert (Hb : forall x, Z.land x 1 = Z.b2z (Z.testbit x 0)).
    { intros x. change 1 with (Z.ones 1). by rewrite Z.land_ones, Z.bit0_mod by lia. }
    rewrite Hb. unfold n', set_cache_mbuf, set_mbuf_cache_dir, set_flag. cbn [n_flags node_set_flags node_set_plugin].
    rewrite u16_bit, Z.lor_spec by lia. destruct Hd as [-> | ->]; cbn [Z.eqb negb].
    + rewrite u16_bit, Z.land_spec by lia. by rewrite andb_false_r.
    + rewrite u16_bit, Z.lor_spec, orb_true_r by lia. done.
Qed.

Lemma interface_dir_bit lp n : cur_interface_dir lp n = 0 \/ cur_interface_dir lp n = 1.
Proof. unfold cur_interface_dir, side, CLIENT_SIDE, SERVER_SIDE. repeat case_match; auto. Qed.
End Sent.

(** C19: The packet that a port sends for a flow of an IPv4 template of TCP or UDP packets
    without plugin and without IP options (hence no learn packet, which needs room for its
    option). With a buffer of the pool of small packets, from which the second buffer of a
    sampled packet comes too, with addresses of the port and settings of the MAC features in
    place and no kept packet in the node, [send_node] succeeds, on the side that the packet
    and the flow ask for. The packet has the addresses and the port of the flow, a right
    checksum of the IP header and no UDP checksum; its first twelve bytes are the link
    addresses, those of the port unless MAC features rewrite them; every other byte is the
    template's, the TCP checksum too. When the flow is sampled, what is sent is this packet
    with the header of the receive check put in, of right lengths and IP checksum over both
    buffers. A packet that is kept is what is sent, on the same side, whenever the node is
    sent again. *)
Theorem core_send_node_ok (inet_ntop6 : list Z -> bytes) (rand : nat -> Z) (pool_get : Z -> option bytes)
    (o : plugin_opts) (mem : bytes) (mo : mac_opts) (port_of_dir : Z -> Z) (tick : Z) (can_cache cache_left : bool)
    (plugin_id : Z) dp (n : CGenNode) (lp : CFlowPktInfo) :
  pool_get FIRST_PKT_SIZE = Some mem -> bytes_ok mem -> zlength mem = FIRST_PKT_SIZE ->
  plain_packet lp -> macs_ok mo n -> get_cache_mbuf n = Ok None ->
  exists p n', core_send_node inet_ntop6 rand pool_get o mo port_of_dir tick can_cache cache_left plugin_id dp n lp =
      Ok (cur_interface_dir lp n, p, n') /\
    core_sent o mo port_of_dir tick (can_cache && cache_left) n lp p n' /\
    (can_cache && cache_left = true -> is_rx_check_enabled n = false ->
     forall pool' tick' can' left' lp',
       core_send_node inet_ntop6 rand pool' o mo port_of_dir tick' can' left' plugin_id dp n' lp' =
         Ok (cur_interface_dir lp n, p, n')).
Proof.
  intros Hpool Hmem Hsize Hpl Hmo Hc.
  destruct (core_send_spec inet_ntop6 rand pool_get o mem Hpool Hmem Hsize mo port_of_dir tick can_cache cache_left
    plugin_id dp n lp Hpl Hmo Hc) as (p & n' & E & Hsent).
  exists p, n'. split; [exact E|]. split; [exact Hsent|]. intros Hcache Hrx pool' tick' can' left' lp'.
  destruct Hsent as (q & _ & _ & Hq). rewrite Hrx, Hcache in Hq. destruct Hq as [-> ->].
  destruct (cached_node q _ n (interface_dir_bit lp n)) as [Ec Ed].
  unfold core_send_node. rewrite Ec. cbn [mbind res_bind]. by rewrite Ed.
Qed.

(** The UDP packet of 60 bytes of [demo_lp], sent from port 0, sampled or kept. *)
Definition demo_macs : mac_opts :=
  mkMacOpts (fun _ => [2; 0; 0; 0; 0; 1; 2; 0; 0; 0; 0; 2]) false false 0 false false.
Definition demo_opts : plugin_opts := mkPluginOpts false false [] [].
Definition demo_pool (size : Z) : option bytes := Some (replicate 64 0).

Lemma demo_plain : plain_packet demo_lp.
Proof.
  split; [exact demo_lp_template|vm_compute; reflexivity|vm_compute; reflexivity|].
  exists 38. split; [vm_compute; reflexivity|lia].
Qed.

Lemma core_send_node_ok_witness :
  exists p n', core_send_node (fun _ => []) (fun _ => 0) demo_pool demo_opts demo_macs (fun d => d) 0 true true 0 None
      demo_node demo_lp = Ok (0, p, n') /\ take 12 p = [2; 0; 0; 0; 0; 1; 2; 0; 0; 0; 0; 2] /\
    get_cache_mbuf n' = Ok (Some p).
Proof.
  destruct (core_send_node_ok (fun _ => []) (fun _ => 0) demo_pool demo_opts (replicate 64 0) demo_macs (fun d => d) 0 true true 0 None
    demo_node demo_lp) as (p & n' & E & (q & _ & Hm & Hq) & _).
  - reflexivity.
  - apply Forall_replicate. unfold byte_ok. lia.
  - reflexivity.
  - exact demo_plain.
  - split; [|done|done]. intros k. split; [repeat constructor; lia|vm_compute; congruence].
  - reflexivity.
  - exists p, n'. split; [exact E|]. vm_compute in Hq. destruct Hq as [-> ->]. split; [by apply Hm|reflexivity].
Defined.
