(* ===== verification/NatCheck.v ===== *)
(** * The NAT manager of the receive core

    Models [src/src/nat_check.{h,cpp}]. The packets that carry the option of a learn packet
    come back translated; [CNatRxManager] collects, per thread that generates traffic, what
    the translation made of their addresses, and sends it in messages of up to seven flows,
    when a message is full or has waited for 2 ms. *)

From S2P Require Import Prelude Double ByteMem PktCmn PacketHdrs RxHeader CapTemplate.

(** 2 ms. *)
Definition MAX_TIME_MSG_IN_QUEUE_SEC : double := double_div (double_of_Z 2) (double_of_Z 1000).
Definition MAX_NAT_FLOW_INFO : Z := 7.
Definition NAT_FIRST : Z := 7.

Record CNatFlowInfo : Type := mkNatFlow {
  m_external_ip : Z; m_external_ip_server : Z; m_fid : Z; m_external_port : Z; m_pad : Z }.

(** A message; [m_data] holds the first [m_cnt] entries of the array. *)
Record CGenNodeNatInfo : Type := mkNatInfo { m_msg_type : Z; m_data : list CNatFlowInfo }.
Definition m_cnt (i : CGenNodeNatInfo) : Z := zlength (m_data i).
Definition nat_info_init : CGenNodeNatInfo := mkNatInfo NAT_FIRST [].
(** [get_next_msg] and the stores to it. *)
Definition nat_info_add (f : CNatFlowInfo) (i : CGenNodeNatInfo) : res CGenNodeNatInfo :=
  if m_cnt i <? MAX_NAT_FLOW_INFO then Ok (mkNatInfo (m_msg_type i) (m_data i ++ [f])) else Err OutOfBounds.
Definition is_full (i : CGenNodeNatInfo) : bool := m_cnt i =? MAX_NAT_FLOW_INFO.

(** [m_sent] is what was put on the thread's ring, in order. *)
Record CNatPerThreadInfo : Type := mkNatThread {
  m_last_time : double; m_cur_nat_msg : option CGenNodeNatInfo; m_sent : list CGenNodeNatInfo }.
Definition nat_thread_new : CNatPerThreadInfo := mkNatThread (double_of_Z 0) None [].

Record CNatStats : Type := mkNatStats {
  m_total_rx : Z; m_total_msg : Z;
  m_err_no_valid_thread_id : Z; m_err_no_valid_proto : Z; m_err_queue_full : Z }.
Definition nat_stats_reset : CNatStats := mkNatStats 0 0 0 0 0.
Definition get_errs (s : CNatStats) : Z :=
  u64 (m_err_no_valid_thread_id s + m_err_no_valid_proto s + m_err_queue_full s).
Definition inc_thread_id (s : CNatStats) : CNatStats :=
  mkNatStats (m_total_rx s) (m_total_msg s) (u64 (m_err_no_valid_thread_id s + 1)) (m_err_no_valid_proto s) (m_err_queue_full s).
Definition inc_proto (s : CNatStats) : CNatStats :=
  mkNatStats (m_total_rx s) (m_total_msg s) (m_err_no_valid_thread_id s) (u64 (m_err_no_valid_proto s + 1)) (m_err_queue_full s).
Definition inc_queue_full (s : CNatStats) : CNatStats :=
  mkNatStats (m_total_rx s) (m_total_msg s) (m_err_no_valid_thread_id s) (m_err_no_valid_proto s) (u64 (m_err_queue_full s + 1)).

Record CNatRxManager : Type := mkNatMgr { m_per_thread : list CNatPerThreadInfo; m_stats : CNatStats }.

(** [Create], for [num] threads. It does not clear the statistics, which are what the memory
    held. *)
Definition Create (num : Z) (stats : CNatStats) : CNatRxManager :=
  mkNatMgr (replicate (Z.to_nat (u8 num)) nat_thread_new) stats.

(** [get_thread_info]: the state of a thread, or [None] and a counted error. *)
Definition get_thread_info (thread_id : Z) (g : CNatRxManager) : option CNatPerThreadInfo * CNatRxManager :=
  if thread_id <? zlength (m_per_thread g) then (m_per_thread g !! Z.to_nat thread_id, g)
  else (None, mkNatMgr (m_per_thread g) (inc_thread_id (m_stats g))).
Definition set_thread_info (thread_id : Z) (t : CNatPerThreadInfo) (g : CNatRxManager) : CNatRxManager :=
  mkNatMgr (<[Z.to_nat thread_id := t]> (m_per_thread g)) (m_stats g).

(** What a flush meets: whether the ring has room at each try. *)
Definition ring_room : Type := nat -> bool.

(** The loop of [flush_node]: up to eleven tries, a millisecond apart. *)
Fixpoint enqueue_tries (tries i : nat) (room : ring_room) (s : CNatStats) : res CNatStats :=
  match tries with
  | O => exit_process
  | S tries => if room i then Ok s else enqueue_tries tries (S i) room (inc_queue_full s)
  end.

Definition flush_node (room : ring_room) (thread_id : Z) (t : CNatPerThreadInfo) (g : CNatRxManager) : res CNatRxManager :=
  match m_cur_nat_msg t with
  | None => Err NullDeref
  | Some msg =>
      s ← enqueue_tries 11 0 room (m_stats g);
      Ok (set_thread_info thread_id (mkNatThread (m_last_time t) None (m_sent t ++ [msg])) (mkNatMgr (m_per_thread g) s))
  end.

(** [handle_aging] at [now]; [room i] is the ring of thread [i]. *)
Definition age_thread (now : double) (room : Z -> ring_room) (i : Z) (g : CNatRxManager) : res CNatRxManager :=
  match get_thread_info i g with
  | (None, _) => Err NullDeref
  | (Some t, g) =>
      match m_cur_nat_msg t with
      | Some _ =>
          if double_ltb MAX_TIME_MSG_IN_QUEUE_SEC (double_sub now (m_last_time t))
          then flush_node (room i) i t g else Ok g
      | None => Ok g
      end
  end.
Fixpoint age_threads (n : nat) (i : Z) (now : double) (room : Z -> ring_room) (g : CNatRxManager) : res CNatRxManager :=
  match n with
  | O => Ok g
  | S n => g ← age_thread now room i g; age_threads n (i + 1) now room g
  end.
Definition handle_aging (now : double) (room : Z -> ring_room) (g : CNatRxManager) : res CNatRxManager :=
  age_threads (length (m_per_thread g)) 0 now room g.

(** [handle_packet_ipv4]: the option is at [opt] and the IP header at [ip] of the packet [m].
    [node_left] says whether there is a node for a new message. *)
Definition handle_packet_ipv4 (now : double) (node_left : bool) (room : ring_room) (m : bytes) (opt ip : Z)
    (g : CNatRxManager) : res CNatRxManager :=
  thread_id ← get_thread_id m opt;
  match get_thread_info thread_id g with
  | (None, g) => Ok g
  | (Some t, g) =>
      ext_ip ← IP_getSourceIp m ip;
      ext_ip_server ← IP_getDestIp m ip;
      proto ← IP_getProtocol m ip;
      if negb ((proto =? 6) || (proto =? 17)) then Ok (mkNatMgr (m_per_thread g) (inc_proto (m_stats g)))
      else
        hl ← IP_getHeaderLength m ip;
        ext_port ← UDP_getSourcePort m (ip + hl);
        t ← match m_cur_nat_msg t with
            | Some _ => Ok t
            | None => _ ← c_assert node_left; Ok (mkNatThread now (Some nat_info_init) (m_sent t))
            end;
        node ← match m_cur_nat_msg t with Some node => Ok node | None => Err NullDeref end;
        fid ← get_fid m opt;
        node ← nat_info_add (mkNatFlow ext_ip ext_ip_server fid ext_port 0xee) node;
        let t := mkNatThread (m_last_time t) (Some node) (m_sent t) in
        if is_full node then flush_node room thread_id t g
        else Ok (set_thread_info thread_id t g)
  end.
