(* ===== verification/NatCheckFacts.v ===== *)
(** * Facts about the NAT manager

    Whatever the packets and the times are, each thread is sent what was learned for it, in
    order, in messages of at most seven flows, and nothing waits for more than 2 ms. *)

From S2P Require Import Prelude Double ByteMem PktCmn PktCmnFacts PacketHdrs PacketHdrsFacts ByteFrame PktDesc PktParser PktParserFacts RxHeader CapTemplate TupleGen FlowNode FlowNodeFacts NatCheck.

(** ** Events *)

Inductive nat_event : Type :=
  | ne_packet (now : double) (node_left : bool) (room : ring_room) (m : bytes) (opt ip : Z)
  | ne_aging (now : double) (room : Z -> ring_room).

Definition nat_step (e : nat_event) (g : CNatRxManager) : res CNatRxManager :=
  match e with
  | ne_packet now node_left room m opt ip => handle_packet_ipv4 now node_left room m opt ip g
  | ne_aging now room => handle_aging now room g
  end.
Fixpoint nat_run (evs : list nat_event) (g : CNatRxManager) : res CNatRxManager :=
  match evs with
  | [] => Ok g
  | e :: evs => g ← nat_step e g; nat_run evs g
  end.

(** ** What is to be sent *)

(** What a packet tells of its flow. *)
Definition flow_of (m : bytes) (opt ip : Z) : res CNatFlowInfo :=
  ext_ip ← IP_getSourceIp m ip;
  ext_ip_server ← IP_getDestIp m ip;
  hl ← IP_getHeaderLength m ip;
  ext_port ← UDP_getSourcePort m (ip + hl);
  fid ← get_fid m opt;
  Ok (mkNatFlow ext_ip ext_ip_server fid ext_port 0xee).
Definition is_l4 (proto : Z) : bool := (proto =? 6) || (proto =? 17).

(** The flow that an event announces, and to whom, with [n] threads. *)
Definition heard (n : Z) (e : nat_event) : option (Z * CNatFlowInfo) :=
  match e with
  | ne_packet _ _ _ m opt ip =>
      match get_thread_id m opt, IP_getProtocol m ip, flow_of m opt ip with
      | Ok tid, Ok proto, Ok f => if (tid <? n) && is_l4 proto then Some (tid, f) else None
      | _, _, _ => None
      end
  | ne_aging _ _ => None
  end.
Definition flows_for (n tid : Z) (evs : list nat_event) : list CNatFlowInfo :=
  omap (fun e => match heard n e with
                 | Some (t, f) => if t =? tid then Some f else None
                 | None => None
                 end) evs.

(** What the manager has of a thread: what was sent and what waits. *)
Definition waiting (t : CNatPerThreadInfo) : list CNatFlowInfo :=
  match m_cur_nat_msg t with Some i => m_data i | None => [] end.
Definition held (t : CNatPerThreadInfo) : list CNatFlowInfo := concat (m_data <$> m_sent t) ++ waiting t.

(** A message that is sent has one to seven flows, one that waits is not full. *)
Record nat_thread_ok (t : CNatPerThreadInfo) : Prop := {
  nt_sent : Forall (fun i => m_msg_type i = NAT_FIRST /\ 1 <= m_cnt i <= MAX_NAT_FLOW_INFO) (m_sent t);
  nt_cur : match m_cur_nat_msg t with
           | Some i => m_msg_type i = NAT_FIRST /\ 1 <= m_cnt i < MAX_NAT_FLOW_INFO
           | None => True
           end }.

(** ** Events that can be handled

    The packet has its option and its headers, there is a node, and the ring has room within
    eleven tries. *)
Definition room_in_time (room : ring_room) : Prop := exists i, (i < 11)%nat /\ room i = true.
Definition event_ok (e : nat_event) : Prop :=
  match e with
  | ne_packet _ node_left room m opt ip =>
      bytes_ok m /\ 0 <= ip /\ ip + 20 <= zlength m /\ ip + 4 * ihl m ip + 2 <= zlength m /\
      0 <= opt /\ opt + 8 <= zlength m /\ node_left = true /\ room_in_time room
  | ne_aging _ room => forall i, room_in_time (room i)
  end.

(** ** The loop of a flush *)

Lemma enqueue_tries_ok tries : forall i room s,
  (exists j, (i <= j < i + tries)%nat /\ room j = true) -> exists s', enqueue_tries tries i room s = Ok s'.
Proof.
  induction tries as [|tries IH]; intros i room s (j & Hj & Hr); [lia|]. cbn [enqueue_tries].
  destruct (room i) eqn:E; [by eexists|]. apply IH. exists j. split; [|done].
  destruct (decide (i = j)) as [->|]; [congruence|lia].
Qed.

Lemma flush_node_ok room tid t g msg :
  room_in_time room -> m_cur_nat_msg t = Some msg ->
  exists s, flush_node room tid t g =
    Ok (mkNatMgr (<[Z.to_nat tid := mkNatThread (m_last_time t) None (m_sent t ++ [msg])]> (m_per_thread g)) s).
Proof.
  intros (i & Hi & Hr) Hm. unfold flush_node. rewrite Hm.
  destruct (enqueue_tries_ok 11 0 room (m_stats g)) as [s ->]; [by exists i; split; [lia|]|]. by exists s.
Qed.

Lemma held_flush last t msg :
  m_cur_nat_msg t = Some msg -> held (mkNatThread last None (m_sent t ++ [msg])) = held t.
Proof.
  intros Hm. unfold held, waiting. rewrite Hm. cbn [m_sent m_cur_nat_msg].
  rewrite fmap_app, concat_app. cbn. by rewrite !app_nil_r.
Qed.

Lemma flush_thread_ok last t msg :
  nat_thread_ok t -> m_msg_type msg = NAT_FIRST -> 1 <= m_cnt msg <= MAX_NAT_FLOW_INFO ->
  nat_thread_ok (mkNatThread last None (m_sent t ++ [msg])).
Proof. intros [Hs _] Ht Hc. split; [|done]. cbn. apply Forall_app. split; [done|]. by apply Forall_singleton. Qed.

(** ** The invariant of the manager *)

(** Thread [tid] of [g] has [l]. *)
Definition threads_hold (g : CNatRxManager) (l : Z -> list CNatFlowInfo) : Prop :=
  forall tid, 0 <= tid < zlength (m_per_thread g) ->
    exists t, m_per_thread g !! Z.to_nat tid = Some t /\ nat_thread_ok t /\ held t = l tid.

Lemma threads_hold_insert g tid t s l l' :
  threads_hold g l -> 0 <= tid < zlength (m_per_thread g) -> nat_thread_ok t -> held t = l' tid ->
  (forall k, k <> tid -> l' k = l k) ->
  threads_hold (mkNatMgr (<[Z.to_nat tid := t]> (m_per_thread g)) s) l'.
Proof.
  intros Hg Hr Ht Hl Hk k Hkr. cbn [m_per_thread] in *. unfold zlength in *. rewrite length_insert in Hkr.
  destruct (decide (k = tid)) as [->|Hne].
  - exists t. rewrite list_lookup_insert_eq by lia. done.
  - rewrite list_lookup_insert_ne by lia. rewrite Hk by done. by apply Hg.
Qed.

Lemma get_thread_info_in tid g :
  0 <= tid < zlength (m_per_thread g) ->
  exists t, m_per_thread g !! Z.to_nat tid = Some t /\ get_thread_info tid g = (Some t, g).
Proof.
  intros Hr. unfold zlength in *. destruct (lookup_lt_is_Some_2 (m_per_thread g) (Z.to_nat tid)) as [t Ht]; [lia|].
  exists t. split; [done|]. unfold get_thread_info, zlength. rewrite (proj2 (Z.ltb_lt _ _)) by lia. by rewrite Ht.
Qed.

(** *** Aging *)

Definition aged (now : double) (t : CNatPerThreadInfo) : Prop :=
  match m_cur_nat_msg t with
  | Some _ => double_ltb MAX_TIME_MSG_IN_QUEUE_SEC (double_sub now (m_last_time t)) = false
  | None => True
  end.

Lemma age_thread_ok now room i g l :
  threads_hold g l -> room_in_time (room i) -> 0 <= i < zlength (m_per_thread g) ->
  exists t s, age_thread now room i g = Ok (mkNatMgr (<[Z.to_nat i := t]> (m_per_thread g)) s) /\
    threads_hold (mkNatMgr (<[Z.to_nat i := t]> (m_per_thread g)) s) l /\ aged now t.
Proof.
  intros Hg Hroom Hi. destruct (get_thread_info_in i g Hi) as (t & Ht & E). destruct (Hg i Hi) as (t' & Ht' & Hok & Hl).
  rewrite Ht in Ht'. injection Ht' as <-. unfold age_thread. rewrite E.
  assert (Hsame : forall s, threads_hold (mkNatMgr (<[Z.to_nat i := t]> (m_per_thread g)) s) l)
    by (intros s; by eapply threads_hold_insert).
  destruct (m_cur_nat_msg t) as [msg|] eqn:Em.
  - destruct (double_ltb _ _) eqn:Ed.
    + destruct (flush_node_ok (room i) i t g msg Hroom Em) as [s Es]. rewrite Es.
      exists (mkNatThread (m_last_time t) None (m_sent t ++ [msg])), s. split; [done|]. split; [|done].
      destruct Hok as [Hs Hc]. rewrite Em in Hc. destruct Hc.
      eapply threads_hold_insert; [done|done| | |done].
      * apply flush_thread_ok; [split; [done|by rewrite Em]|done|lia].
      * by rewrite held_flush.
    + exists t, (m_stats g). rewrite list_insert_id by done. split; [by destruct g|].
      split; [destruct g; by rewrite <- (list_insert_id _ _ _ Ht)|]. unfold aged. by rewrite Em.
  - exists t, (m_stats g). rewrite list_insert_id by done. split; [by destruct g|].
    split; [destruct g; by rewrite <- (list_insert_id _ _ _ Ht)|]. unfold aged. by rewrite Em.
Qed.

Lemma age_threads_ok n now room l : forall i g,
  threads_hold g l -> (forall i, room_in_time (room i)) -> 0 <= i -> i + Z.of_nat n = zlength (m_per_thread g) ->
  exists g', age_threads n i now room g = Ok g' /\ threads_hold g' l /\
    zlength (m_per_thread g') = zlength (m_per_thread g) /\
    (forall k t, 0 <= k < i -> m_per_thread g' !! Z.to_nat k = Some t -> m_per_thread g !! Z.to_nat k = Some t) /\
    (forall k t, i <= k -> m_per_thread g' !! Z.to_nat k = Some t -> aged now t).
Proof.
  induction n as [|n IH]; intros i g Hg Hroom Hi Hn; cbn [age_threads].
  - exists g. split; [done|]. split; [done|]. split; [done|]. split; [done|]. intros k t Hk Ht.
    apply lookup_lt_Some in Ht. unfold zlength in *. lia.
  - destruct (age_thread_ok now room i g l Hg (Hroom i)) as (t0 & s & E & Hg1 & Ha); [lia|].
    rewrite E. cbn [mbind res_bind]. set (g1 := mkNatMgr _ s) in *.
    assert (Hz : zlength (m_per_thread g1) = zlength (m_per_thread g)).
    { unfold g1, zlength. cbn [m_per_thread]. by rewrite length_insert. }
    destruct (IH (i + 1) g1 Hg1 Hroom) as (g' & E' & Hg' & Hz' & Hlt & Hge); [lia..|].
    exists g'. split; [done|]. split; [done|]. split; [lia|]. split.
    + intros k t Hk Ht. apply Hlt in Ht; [|lia]. unfold g1 in Ht. cbn [m_per_thread] in Ht.
      by rewrite list_lookup_insert_ne in Ht by lia.
    + intros k t Hk Ht. destruct (decide (k = i)) as [->|]; [|apply (Hge k); [lia|done]].
      apply Hlt in Ht; [|lia]. unfold g1 in Ht. cbn [m_per_thread] in Ht.
      rewrite list_lookup_insert_eq in Ht by (unfold zlength in *; lia). by injection Ht as <-.
Qed.

(** *** A packet *)

Lemma packet_reads m opt ip :
  bytes_ok m -> 0 <= ip -> ip + 20 <= zlength m -> ip + 4 * ihl m ip + 2 <= zlength m -> 0 <= opt ->
  opt + 8 <= zlength m ->
  exists tid proto f, get_thread_id m opt = Ok tid /\ 0 <= tid /\ IP_getProtocol m ip = Ok proto /\ flow_of m opt ip = Ok f.
Proof.
  intros Hm Hp Hi Hin Ho Hol. pose proof (ihl_range m ip).
  unfold get_thread_id, IP_getProtocol, o_Protocol, flow_of, IP_getSourceIp, IP_getDestIp, o_Source, o_Destination,
    UDP_getSourcePort, get_fid.
  rewrite !ld8_byte by (unfold in_range; lia). rewrite IP_getHeaderLength_eq by (done || lia).
  rewrite !(ld_Ok 4) by (unfold in_range; lia). cbn [mbind res_bind].
  destruct (get_be16_Ok m (ip + 4 * ihl m ip)) as [p ->]; [lia|lia|]. cbn [mbind res_bind].
  do 3 eexists. split; [reflexivity|]. split; [apply byte_at_range; done|]. by split.
Qed.

(** The handler, by what the packet says. *)
Lemma handle_packet_eq now room m opt ip g tid proto f :
  get_thread_id m opt = Ok tid -> IP_getProtocol m ip = Ok proto -> flow_of m opt ip = Ok f ->
  handle_packet_ipv4 now true room m opt ip g =
    match get_thread_info tid g with
    | (None, g) => Ok g
    | (Some t, g) =>
        if is_l4 proto then
          node ← nat_info_add f (default nat_info_init (m_cur_nat_msg t));
          let last := match m_cur_nat_msg t with Some _ => m_last_time t | None => now end in
          let t := mkNatThread last (Some node) (m_sent t) in
          if is_full node then flush_node room tid t g else Ok (set_thread_info tid t g)
        else Ok (mkNatMgr (m_per_thread g) (inc_proto (m_stats g)))
    end.
Proof.
  intros Et Ep Ef. unfold handle_packet_ipv4. rewrite Et. cbn [mbind res_bind].
  destruct (get_thread_info tid g) as [[t|] g']; [|done]. unfold flow_of in Ef.
  apply bind_Ok in Ef as (a & -> & Ef). cbn [mbind res_bind]. apply bind_Ok in Ef as (b & -> & Ef). cbn [mbind res_bind].
  rewrite Ep. cbn [mbind res_bind]. unfold is_l4. destruct ((proto =? 6) || (proto =? 17)); cbn [negb]; [|done].
  apply bind_Ok in Ef as (c & -> & Ef). cbn [mbind res_bind]. apply bind_Ok in Ef as (d & -> & Ef). cbn [mbind res_bind].
  apply bind_Ok in Ef as (e & -> & Ef). injection Ef as <-.
  by destruct (m_cur_nat_msg t) eqn:Em; cbn [c_assert mbind res_bind m_cur_nat_msg default]; rewrite ?Em.
Qed.

(** A flow put where one more is to go. *)
Lemma add_flow_ok room tid t g l f last :
  threads_hold g l -> 0 <= tid < zlength (m_per_thread g) -> m_per_thread g !! Z.to_nat tid = Some t ->
  room_in_time room ->
  exists t' s, (node ← nat_info_add f (default nat_info_init (m_cur_nat_msg t));
      let t := mkNatThread last (Some node) (m_sent t) in
      if is_full node then flush_node room tid t g else Ok (set_thread_info tid t g)) =
        Ok (mkNatMgr (<[Z.to_nat tid := t']> (m_per_thread g)) s) /\
    nat_thread_ok t' /\ held t' = l tid ++ [f].
Proof.
  intros Hg Hr Ht Hroom. destruct (Hg tid Hr) as (t' & Ht' & [Hs Hc] & Hl). rewrite Ht in Ht'. injection Ht' as <-.
  set (node := default nat_info_init (m_cur_nat_msg t)).
  assert (Hn : m_msg_type node = NAT_FIRST /\ m_data node = waiting t /\ m_cnt node < MAX_NAT_FLOW_INFO).
  { unfold node, waiting. destruct (m_cur_nat_msg t) as [i|]; cbn [default]; [by destruct Hc as (? & ? & ?)|done]. }
  destruct Hn as (Hty & Hd & Hlt). unfold nat_info_add. rewrite (proj2 (Z.ltb_lt _ _) Hlt). cbn [mbind res_bind].
  set (node' := mkNatInfo (m_msg_type node) (m_data node ++ [f])).
  assert (Hcnt : m_cnt node' = m_cnt node + 1).
  { unfold m_cnt, node', zlength. cbn [m_data]. rewrite length_app. cbn. lia. }
  pose proof (Nat2Z.is_nonneg (length (m_data node))) as H0. fold (zlength (m_data node)) in H0. fold (m_cnt node) in H0.
  assert (Hheld : held (mkNatThread last (Some node') (m_sent t)) = l tid ++ [f]).
  { rewrite <- Hl. unfold held. cbn [m_sent]. change (waiting _) with (m_data node ++ [f]) at 1. by rewrite Hd, app_assoc. }
  unfold is_full. destruct (Z.eqb_spec (m_cnt node') MAX_NAT_FLOW_INFO) as [Hfull|Hfull].
  - destruct (flush_node_ok room tid (mkNatThread last (Some node') (m_sent t)) g node' Hroom eq_refl) as [s ->].
    cbn [m_last_time m_sent]. eexists _, s. split; [reflexivity|]. split.
    + apply (flush_thread_ok last t); [by split|done|]. unfold MAX_NAT_FLOW_INFO in *. lia.
    + rewrite <- Hheld. by apply (held_flush last (mkNatThread last (Some node') (m_sent t))).
  - eexists _, (m_stats g). split; [reflexivity|]. split; [|done]. split; [done|]. cbn [m_cur_nat_msg].
    unfold MAX_NAT_FLOW_INFO in *. split; [done|lia].
Qed.

Lemma nat_step_ok e g l :
  threads_hold g l -> event_ok e ->
  exists g', nat_step e g = Ok g' /\ zlength (m_per_thread g') = zlength (m_per_thread g) /\
    threads_hold g' (fun tid => l tid ++ flows_for (zlength (m_per_thread g)) tid [e]).
Proof.
  intros Hg He. destruct e as [now left room m opt ip|now room]; cbn [nat_step].
  - destruct He as (Hm & Hp & Hi & Hin & Ho & Hol & -> & Hroom).
    destruct (packet_reads m opt ip Hm Hp Hi Hin Ho Hol) as (tid & proto & f & Et & H0 & Ep & Ef).
    rewrite (handle_packet_eq now room m opt ip g tid proto f Et Ep Ef).
    assert (Hf : forall k, flows_for (zlength (m_per_thread g)) k [ne_packet now true room m opt ip] =
      if (tid <? zlength (m_per_thread g)) && is_l4 proto && (tid =? k) then [f] else []).
    { intros k. cbn. rewrite Et, Ep, Ef. destruct ((tid <? zlength (m_per_thread g)) && is_l4 proto); cbn; [|done].
      by destruct (tid =? k). }
    assert (Hnone : (tid <? zlength (m_per_thread g)) && is_l4 proto = false -> forall s,
      threads_hold (mkNatMgr (m_per_thread g) s)
        (fun k => l k ++ flows_for (zlength (m_per_thread g)) k [ne_packet now true room m opt ip])).
    { intros E s k Hk. destruct (Hg k Hk) as (t & Ht & Hok & Hl). exists t. split; [done|]. split; [done|].
      by rewrite Hf, E, app_nil_r. }
    destruct (Z.ltb_spec tid (zlength (m_per_thread g))) as [Hlt|Hge].
    + destruct (get_thread_info_in tid g (conj H0 Hlt)) as (t & Ht & ->). destruct (is_l4 proto) eqn:El.
      * destruct (add_flow_ok room tid t g l f (match m_cur_nat_msg t with Some _ => m_last_time t | None => now end)
          Hg (conj H0 Hlt) Ht Hroom) as (t' & s & E & Hok & Hheld).
        exists (mkNatMgr (<[Z.to_nat tid := t']> (m_per_thread g)) s). split; [exact E|].
        split; [unfold zlength; cbn [m_per_thread]; by rewrite length_insert|].
        eapply threads_hold_insert; [done|done|done| |].
        -- rewrite Hf, Z.eqb_refl. done.
        -- intros k Hk. rewrite Hf. cbn [andb]. rewrite (proj2 (Z.eqb_neq tid k)) by lia. by rewrite app_nil_r.
      * eexists. split; [reflexivity|]. split; [done|]. by apply Hnone.
    + unfold get_thread_info. rewrite (proj2 (Z.ltb_ge _ _) Hge). eexists. split; [reflexivity|]. split; [done|].
      by apply Hnone.
  - cbn [event_ok] in He. unfold handle_aging.
    destruct (age_threads_ok (length (m_per_thread g)) now room l 0 g Hg He) as (g' & E & Hg' & Hz & _);
      [lia|unfold zlength; lia|]. exists g'. split; [done|]. split; [done|].
    intros k Hk. destruct (Hg' k Hk) as (t & Ht & Hok & Hl). exists t. by rewrite app_nil_r.
Qed.

Lemma nat_run_ok evs : forall g l,
  threads_hold g l -> Forall event_ok evs ->
  exists g', nat_run evs g = Ok g' /\ zlength (m_per_thread g') = zlength (m_per_thread g) /\
    threads_hold g' (fun tid => l tid ++ flows_for (zlength (m_per_thread g)) tid evs).
Proof.
  induction evs as [|e evs IH]; intros g l Hg He; cbn [nat_run].
  - exists g. split; [done|]. split; [done|]. intros k Hk. destruct (Hg k Hk) as (t & ? & ? & ?).
    exists t. cbn. by rewrite app_nil_r.
  - apply Forall_cons in He as [He Hes]. destruct (nat_step_ok e g l Hg He) as (g1 & E & Hz & Hg1). rewrite E.
    cbn [mbind res_bind]. destruct (IH g1 _ Hg1 Hes) as (g' & E' & Hz' & Hg'). exists g'. split; [done|].
    split; [lia|]. intros k Hk. destruct (Hg' k Hk) as (t & Ht & Hok & Hl). exists t. split; [done|]. split; [done|].
    rewrite Hl, Hz, <- app_assoc. f_equal. unfold flows_for. cbn [omap list_omap].
    by destruct (heard (zlength (m_per_thread g)) e) as [[k' f]|]; [destruct (k' =? k)|].
Qed.

(** C25: from the start, over any packets and agings at any times, the NAT manager has for
    each thread exactly the flows that the packets announced to it, in the order in which
    they came: what was sent on its ring, followed by what waits for the next message, is
    that list, none lost and none twice. Messages have one to seven flows, one that waits
    has room. Packets for no thread of the generator, and packets that are neither TCP nor
    UDP, change nothing for any thread. The packets are those the receiver hands over, with
    complete headers; a message finds room on its ring within eleven tries, and memory for a
    new one. *)
Theorem nat_flows_in_order (num : Z) (stats : CNatStats) (evs : list nat_event) :
  Forall event_ok evs ->
  exists g, nat_run evs (Create num stats) = Ok g /\ zlength (m_per_thread g) = u8 num /\
    forall tid, 0 <= tid < u8 num -> exists t, m_per_thread g !! Z.to_nat tid = Some t /\
      nat_thread_ok t /\ concat (m_data <$> m_sent t) ++ waiting t = flows_for (u8 num) tid evs.
Proof.
  intros He. pose proof (u8_range num) as Hu.
  assert (Hz : zlength (m_per_thread (Create num stats)) = u8 num).
  { unfold Create, zlength. cbn [m_per_thread]. rewrite length_replicate. lia. }
  destruct (nat_run_ok evs (Create num stats) (fun _ => [])) as (g & E & Hz' & Hg).
  - intros tid Hr. rewrite Hz in Hr. exists nat_thread_new. cbn [Create m_per_thread].
    rewrite lookup_replicate_2 by lia. split; [done|]. split; [|done]. by split.
  - done.
  - exists g. split; [done|]. rewrite Hz', Hz in *. split; [done|]. intros tid Hr.
    destruct (Hg tid) as (t & Ht & Hok & Hl); [lia|]. by exists t.
Qed.

(** after an aging at [now] nothing waits that has waited for more than 2 ms, whatever the
    rings did within their eleven tries, and no thread has lost or gained a flow. *)
Theorem handle_aging_sends (now : double) (room : Z -> ring_room) (g : CNatRxManager) (l : Z -> list CNatFlowInfo) :
  threads_hold g l -> (forall i, room_in_time (room i)) ->
  exists g', handle_aging now room g = Ok g' /\ threads_hold g' l /\ Forall (aged now) (m_per_thread g').
Proof.
  intros Hg Hroom. unfold handle_aging.
  destruct (age_threads_ok (length (m_per_thread g)) now room l 0 g Hg Hroom) as (g' & E & Hg' & Hz & _ & Ha);
    [lia|unfold zlength; lia|]. exists g'. split; [done|]. split; [done|].
  apply Forall_lookup. intros k t Ht. apply (Ha (Z.of_nat k)); [lia|]. by rewrite Nat2Z.id.
Qed.

(** ** The packet that learns *)

(** What the NAT manager reads in a packet with the headers of the template. *)
Lemma learn_heard num now left room lp n p pkt proto :
  v4_headers lp p -> frame p pkt (rewritten_regions true lp) -> rewritten true lp n pkt ->
  IsLearn (fpi_desc lp) = true -> IsInitSide (fpi_desc lp) = true -> IP_getProtocol p 14 = Ok proto -> is_l4 proto = true ->
  u8 (n_thread_id n) < num ->
  heard num (ne_packet now left room pkt 34 14) =
    Some (u8 (n_thread_id n), mkNatFlow (n_src_ip n) (n_dest_ip n) (get_short_fid n) (n_src_port n) 0xee).
Proof.
  intros Hv F Hrw HL HI Hp Hl4 Ht. pose proof Hv as [_ Hip Hh Hl Hin Hpr H7]. specialize (H7 HL).
  pose proof (frame_ip_header _ _ _ 14 F Hh) as Hfr. unfold rewritten_regions in F, Hfr. rewrite HL in F, Hfr.
  cbn [andb] in F, Hfr. unfold port_place in *. rewrite HI in F, Hfr.
  destruct Hfr as [Hh' Hi']; [destruct (IsTcp (fpi_desc lp)); apart_tac|].
  destruct Hrw as [_ Hs Hd Hport _ Hli]. specialize (Hli ltac:(by rewrite HL)). destruct Hli as [_ Hfid Hth _].
  unfold wire_tuple in *. unfold port_place in Hport. rewrite HI in Hs, Hd, Hport. cbn [fst snd] in *. rewrite Z.add_0_r in Hport.
  cbn [heard]. rewrite Hth.
  assert (Hproto : IP_getProtocol pkt 14 = Ok proto).
  { rewrite <- Hp. unfold IP_getProtocol, o_Protocol. apply (frame_ld 1 _ _ _ _ F). destruct (IsTcp (fpi_desc lp)); apart_tac. }
  rewrite Hproto. unfold flow_of. rewrite Hs. cbn [mbind res_bind]. rewrite Hd. cbn [mbind res_bind].
  pose proof (ih_in _ _ Hh'). pose proof (ih_len _ _ Hh').
  rewrite IP_getHeaderLength_eq by (try apply Hh'; lia). cbn [mbind res_bind].
  unfold UDP_getSourcePort. rewrite Hi', <- Hl, Hport. cbn [mbind res_bind]. rewrite Hfid. cbn [mbind res_bind].
  rewrite (proj2 (Z.ltb_lt _ _) Ht), Hl4. done.
Qed.

(** C26: the packet that the generator sends to learn a translation, if it comes back as it was
    sent, tells the NAT manager the flow and the thread that sent it, and the addresses and
    port of the flow. *)
Theorem learn_packet_round_trip (pool_get : Z -> option bytes) (n : CGenNode) (lp : CFlowPktInfo) (mem : bytes)
    (num proto : Z) (now : double) (left : bool) (room : ring_room) :
  v4_template lp -> node_words n -> pool_get FIRST_PKT_SIZE = Some mem -> bytes_ok mem ->
  zlength mem = FIRST_PKT_SIZE -> IsLearn (fpi_desc lp) = true -> IsInitSide (fpi_desc lp) = true ->
  IP_getProtocol (raw (fpi_packet lp)) 14 = Ok proto -> is_l4 proto = true -> u8 (n_thread_id n) < num ->
  exists m, do_generate_new_mbuf pool_get true n lp = Ok m /\
    heard num (ne_packet now left room (pktmbuf_bytes m) 34 14) =
      Some (u8 (n_thread_id n), mkNatFlow (n_src_ip n) (n_dest_ip n) (get_short_fid n) (n_src_port n) 0xee).
Proof.
  intros Hv Hn Hpool Hmem Hz HL HI Hp Hl4 Ht.
  destruct (do_generate_new_mbuf_spec pool_get true n lp mem Hv Hn Hpool Hmem Hz) as (m & E & [Hrw F] & _).
  exists m. split; [done|]. eapply learn_heard; try done. apply Hv.
Qed.

(** *** Inputs *)

(** A learn packet: 28 bytes of IP header, the option among them. *)
Definition demo_learn_pkt : bytes :=
  take 14 demo_udp ++ [0x47; 0; 0; 46; 0; 0; 0; 0; 64; 17; 0; 0; 16; 0; 0; 1; 48; 0; 0; 1; 0x10; 8; 0xee; 2; 9; 0; 0; 0] ++
  [7; 208; 0; 80; 0; 18; 0; 0] ++ replicate 10 0.
Definition demo_learn_lp : CFlowPktInfo :=
  mkPktInfo
    (ind_set_desc (SetLearn true (SetInitSide true (SetIsUdp true (m_desc demo_ind))))
       (ind_set_offsets 0 14 42 50 (ind_set_packet (mkRaw demo_learn_pkt 60 1 0 0) demo_ind))) None.
Lemma demo_learn_template : v4_template demo_learn_lp.
Proof.
  split; try (vm_compute; reflexivity); [|vm_compute; congruence].
  split; try (vm_compute; reflexivity); try (vm_compute; congruence).
  split; try (vm_compute; congruence). repeat constructor; vm_compute; congruence.
Qed.
Definition demo_events : list nat_event :=
  replicate 8 (ne_packet (double_of_Z 1) true (fun i => (3 <? i)%nat) demo_learn_pkt 34 14) ++
  [ne_aging (double_of_Z 2) (fun _ _ => true)].

Lemma nat_flows_in_order_witness :
  exists g t, nat_run demo_events (Create 4 nat_stats_reset) = Ok g /\ m_per_thread g !! 2%nat = Some t /\
    concat (m_data <$> m_sent t) ++ waiting t = replicate 8 (mkNatFlow 0x10000001 0x30000001 9 2000 0xee).
Proof.
  destruct (nat_flows_in_order 4 nat_stats_reset demo_events) as (g & E & _ & H).
  - assert (Hh : ip_header demo_learn_pkt 14) by apply demo_learn_template.
    apply Forall_app. split; [apply Forall_replicate|apply Forall_singleton].
    + split; [exact (ih_bytes _ _ Hh)|]. split; [lia|]. split; [vm_compute; congruence|].
      split; [vm_compute; congruence|]. split; [lia|]. split; [vm_compute; congruence|].
      split; [done|]. exists 5%nat. split; [lia|done].
    + intros i. exists 0%nat. split; [lia|done].
  - destruct (H 2) as (t & Ht & _ & Hl); [vm_compute; split; congruence|]. exists g, t.
    split; [exact E|]. split; [exact Ht|]. rewrite Hl. vm_compute. reflexivity.
Defined.

Lemma handle_aging_sends_witness :
  exists g, handle_aging (double_of_Z 1) (fun _ _ => true) (Create 4 nat_stats_reset) = Ok g /\
    Forall (aged (double_of_Z 1)) (m_per_thread g).
Proof.
  destruct (handle_aging_sends (double_of_Z 1) (fun _ _ => true) (Create 4 nat_stats_reset) (fun _ => [])) as (g & E & _ & H).
  - intros tid Hr. exists nat_thread_new. unfold Create, zlength in *. cbn [m_per_thread] in *. rewrite length_replicate in Hr.
    rewrite lookup_replicate_2 by lia. split; [done|]. split; [|done]. by split.
  - intros i. exists 0%nat. split; [lia|done].
  - by exists g.
Defined.

Lemma learn_packet_round_trip_witness :
  exists m, do_generate_new_mbuf (fun size => Some (replicate (Z.to_nat size) 0)) true demo_node demo_learn_lp = Ok m /\
    heard 4 (ne_packet (double_of_Z 1) true (fun _ => true) (pktmbuf_bytes m) 34 14) =
      Some (0, mkNatFlow 0x10000001 0x30000001 1 2000 0xee).
Proof.
  apply (learn_packet_round_trip (fun size => Some (replicate (Z.to_nat size) 0)) demo_node demo_learn_lp (replicate 64 0)
    4 17 (double_of_Z 1) true (fun _ => true) demo_learn_template demo_node_words eq_refl);
    try (vm_compute; reflexivity).
  apply Forall_replicate. vm_compute. split; congruence.
Defined.
