(* ===== verification/Latency.v ===== *)
(** * Latency packets and the latency counters of a port

    Models [CLatencyPktMode*], [CLatencyPktInfo] and [CCPortLatency] of
    [src/src/latency.{h,cpp}] and [CSimplePacketParser] of [src/src/bp_sim.cpp]: every port
    sends small SCTP or ICMP packets with a time stamp and a sequence number, and checks what
    it receives, which are the latency packets of its peer and the packets of generated flows
    that carry the header of the receive check or the option of a learn packet. *)

From S2P Require Import Prelude Double ByteMem PktCmn PacketHdrs PktDesc PktParser Histogram RxHeader CapTemplate TupleGen FlowNode NatCheck.

(** The options in use: the mode of the packets ([m_l_pkt_mode]), address learning, the receive
    check, and the MAC addresses of a port (destination and source, 12 bytes). *)
Record latency_opts : Type := mkLatencyOpts {
  lo_l_pkt_mode : Z; lo_learn : bool; lo_rx_check : bool; lo_dst_src : Z -> bytes }.

(** ** The modes *)

Definition L_PKT_SUBMODE_NO_REPLY : Z := 1.
Definition L_PKT_SUBMODE_REPLY : Z := 2.
Definition L_PKT_SUBMODE_0_SEQ : Z := 3.
Definition LATENCY_MAGIC : Z := 0x12345600.

Definition sctp_pkt : bytes :=
  [0x00;0x04;0x96;0x08;0xe0;0x40; 0x00;0x0e;0x2e;0x24;0x37;0x5f; 0x08;0x00;
   0x45;0x02;0x00;0x30; 0x00;0x00;0x40;0x00; 0xff;0x84;0xbd;0x04;
   0x9b;0xe6;0x18;0x9b; 0xcb;0xff;0xfc;0xc2;
   0x80;0x44; 0x00;0x50; 0x00;0x00;0x00;0x00;
   0x11;0x22;0x33;0x44; 0x00;0x00;0x00;0x00; 0x00;0x00;0x00;0x00; 0x00;0x01;0xa0;0x00; 0x00;0x00;0x00;0x00].
Definition icmp_pkt : bytes :=
  [0x00;0x04;0x96;0x08;0xe0;0x40; 0x00;0x0e;0x2e;0x24;0x37;0x5f; 0x08;0x00;
   0x45;0x02;0x00;0x30; 0x00;0x00;0x40;0x00; 0xff;0x01;0xbd;0x04;
   0x9b;0xe6;0x18;0x9b; 0xcb;0xff;0xfc;0xc2;
   0x08;0x00; 0x01;0x02; 0xaa;0xbb; 0x00;0x00;
   0x11;0x22;0x33;0x44; 0x00;0x00;0x00;0x00; 0x00;0x00;0x00;0x00; 0x00;0x01;0xa0;0x00; 0x00;0x00;0x00;0x00].

(** [CLatencyPktModeSCTP] and [CLatencyPktModeICMP], with [m_submode]. *)
Inductive CLatencyPktMode : Type := ModeSCTP (submode : Z) | ModeICMP (submode : Z).

Definition getPacketData (md : CLatencyPktMode) : bytes :=
  match md with ModeSCTP _ => sctp_pkt | ModeICMP _ => icmp_pkt end.
Definition getPacketLen (md : CLatencyPktMode) : Z := u8 (zlength (getPacketData md)).
Definition getProtocol (md : CLatencyPktMode) : Z := match md with ModeSCTP _ => 0x84 | ModeICMP _ => 0x1 end.
Definition l4_header_len : Z := 8.

(** [update_pkt] on the transport header at [off], and the next ICMP sequence number. *)
Definition update_pkt (md : CLatencyPktMode) (m : bytes) (off : Z) (is_client_to_server : bool) (l4_len tx_seq : Z)
  : res (bytes * Z) :=
  match md with
  | ModeSCTP _ => Ok (m, tx_seq)
  | ModeICMP submode =>
      '(m, tx_seq) ←
        (if submode =? L_PKT_SUBMODE_0_SEQ then m ← ICMP_setSeqNum m off 0; Ok (m, tx_seq)
         else m ← ICMP_setSeqNum m off tx_seq; Ok (m, u16 (tx_seq + 1)));
      m ← ICMP_setType m off (if negb is_client_to_server && (submode =? L_PKT_SUBMODE_REPLY) then 0 else 8);
      m ← ICMP_updateCheckSum m off l4_len;
      Ok (m, tx_seq)
  end.

(** [IsLatencyPkt] of the mode; [ip] is a pointer that may be null. *)
Definition mode_IsLatencyPkt (md : CLatencyPktMode) (m : bytes) (ip : option Z) : res bool :=
  match ip with
  | None => Ok false
  | Some ip => p ← IP_getProtocol m ip; Ok (p =? getProtocol md)
  end.

(** [update_recv]: the last sequence number received and the next one to send. *)
Definition update_recv (md : CLatencyPktMode) (m : bytes) (off : Z) (r_seq t_seq : Z) : res (Z * Z) :=
  match md with
  | ModeSCTP _ => Ok (r_seq, t_seq)
  | ModeICMP _ => r_seq ← ICMP_getSeqNum m off; Ok (r_seq, if r_seq =? 0 then 0 else t_seq)
  end.

(** ** [CLatencyPktInfo] *)

Definition NODE_FLAGS_LATENCY : Z := 0x20.

Record CLatencyPktInfo : Type := mkLatencyPkt {
  pi_client_ip : Z; pi_server_ip : Z; pi_dual_port_mask : Z;
  pi_dummy_node : CGenNode; pi_pkt_info : CFlowPktInfo; pi_indication : CPacketIndication }.

(** The indication of the packet, from the memory [i] of one. The pointer to the ICMP header
    is computed in units of that header. *)
Definition latency_indication (md : CLatencyPktMode) (i : CPacketIndication) : CPacketIndication :=
  let pkt := mkRaw (getPacketData md) (getPacketLen md) 0 0 0 in
  let d := SetIsLastPkt true (SetIsIcmp true (SetIsValidPkt true (SetSwapTuple false (SetInitSide true (desc_clear (m_desc i)))))) in
  mkInd (m_cap_ipg i) pkt (Some 0) (Some 14) false (Some (8 * (14 + 20))) (Some (14 + 20 + 16)) 0 4 (m_flow_key i) d
    0 14 34 (34 + 8).

Definition latency_node : CGenNode :=
  mkGenNode FLOW_PKT 0 0x11 NODE_FLAGS_LATENCY (double_div (double_of_Z 1) (double_of_Z 10)) 0 0 0 0 0 pi_null 0 0 0
    (MkMac (replicate 6 0) 0) 0 0.

Definition LatencyPktInfo_Create (md : CLatencyPktMode) (old : CLatencyPktInfo) : res CLatencyPktInfo :=
  let i := latency_indication md (pi_indication old) in
  info ← CFlowPktInfo_Create i;
  Ok (mkLatencyPkt (pi_client_ip old) (pi_server_ip old) (pi_dual_port_mask old) latency_node info i).

Definition set_ip (src dst dual_port_mask : Z) (g : CLatencyPktInfo) : CLatencyPktInfo :=
  mkLatencyPkt src dst dual_port_mask (pi_dummy_node g) (pi_pkt_info g) (pi_indication g).
Definition pi_get_payload_offset (g : CLatencyPktInfo) : Z := m_payload_offset (pi_indication g).
Definition pi_get_l4_offset (g : CLatencyPktInfo) : Z := m_udp_tcp_offset (pi_indication g).
Definition pi_get_pkt_size (g : CLatencyPktInfo) : Z := pkt_len (m_packet (pi_indication g)).

(** The addresses of a packet of a port: those of the client and the server, or what a NAT
    device made of the client's, swapped for odd ports. *)
Definition latency_addrs (g : CLatencyPktInfo) (port_id extern_ip : Z) : Z * Z :=
  let dual_port_index := Z.shiftr port_id 1 in
  let c := if extern_ip =? 0 then pi_client_ip g else extern_ip in
  let s := pi_server_ip g in
  let '(c, s) := if port_id mod 2 =? 0 then (c, s) else (s, c) in
  let mask := u32 (dual_port_index * pi_dual_port_mask g) in
  (if extern_ip =? 0 then u32 (c + mask) else c, u32 (s + mask)).

Definition latency_set_addrs (src dst : Z) (n : CGenNode) : CGenNode :=
  mkGenNode (n_type n) (n_thread_id n) (n_src_port n) (n_flags n) (n_time n) src dst
    (n_flow_id n) (n_pkt_info n) (n_template n) (n_plugin_info n) (n_nat_external_ipv4 n)
    (n_nat_external_ipv4_server n) (n_nat_external_port n) (n_src_mac n) (n_src_idx n) (n_dest_idx n).

(** [generate_pkt]. With a plugin the id would be read through the template of the node, which
    is null. *)
Definition generate_pkt (o : latency_opts) (pool_get : Z -> option bytes) (port_id extern_ip : Z) (g : CLatencyPktInfo)
  : res (rte_mbuf * CLatencyPktInfo) :=
  let '(src, dst) := latency_addrs g port_id extern_ip in
  let n := latency_set_addrs src dst (pi_dummy_node g) in
  m ← (if IsPluginEnable (fpi_desc (pi_pkt_info g)) then Err NullDeref
       else do_generate_new_mbuf pool_get (lo_learn o) n (pi_pkt_info g));
  Ok (m, mkLatencyPkt (pi_client_ip g) (pi_server_ip g) (pi_dual_port_mask g) n (pi_pkt_info g) (pi_indication g)).

(** ** [CSimplePacketParser] *)

(** [m_l4] is unset until [Parse] finds an IP header. *)
Record CSimplePacketParser : Type := mkParser {
  sp_ipv4 : option Z; sp_ipv6 : option Z; sp_protocol : Z;
  sp_vlan_offset : Z; sp_option_offset : Z; sp_l4 : option Z }.

Definition parse_ip4 (m : bytes) (vlan ip : Z) : res CSimplePacketParser :=
  hl ← IP_getHeaderLength m ip; proto ← IP_getProtocol m ip;
  Ok (mkParser (Some ip) None proto vlan (ip + IPV4_HDR_LEN) (Some (ip + hl))).
Definition parse_ip6 (m : bytes) (vlan ip : Z) : res CSimplePacketParser :=
  proto ← IPv6_getNextHdr m ip;
  Ok (mkParser None (Some ip) proto vlan (ip + IPV6_HDR_LEN) (Some (ip + IPV6_HDR_LEN))).

(** [Parse] fails for protocol 0. *)
Definition Parse (m : bytes) : res (CSimplePacketParser * bool) :=
  next ← ETH_getNextProtocol m 0;
  p ← (if next =? ETH_IP then parse_ip4 m 0 14
       else if next =? ETH_IPv6 then parse_ip6 m 0 14
       else if next =? ETH_VLAN then
         inner ← ETH_getVlanProtocol m 0;
         if inner =? ETH_IP then parse_ip4 m 4 18
         else if inner =? ETH_IPv6 then parse_ip6 m 4 18
         else Ok (mkParser None None 0 4 0 None)
       else Ok (mkParser None None 0 0 0 None));
  Ok (p, negb (sp_protocol p =? 0)).

Definition getTTl (m : bytes) (p : CSimplePacketParser) : res Z :=
  match sp_ipv4 p, sp_ipv6 p with
  | Some ip, _ => IP_getTimeToLive m ip
  | None, Some ip => IPv6_getHopLimit m ip
  | None, None => Ok 0
  end.
Definition getPktSize (m : bytes) (p : CSimplePacketParser) : res Z :=
  ip_len ← (match sp_ipv6 p, sp_ipv4 p with
            | Some ip, _ => pl ← IPv6_getPayloadLen m ip; Ok (u16 (IPV6_HDR_LEN + pl))
            | None, Some ip => IP_getTotalLength m ip
            | None, None => Ok 0
            end);
  Ok (u16 (ip_len + sp_vlan_offset p + 14)).

(** [IsLatencyPkt] of the parser: the magic of the latency header at [p]. *)
Definition parser_IsLatencyPkt (m : bytes) (p : Z) : res bool :=
  magic ← ld32 m (p + 8); Ok (Z.land magic 0xffffff00 =? LATENCY_MAGIC).

(** ** [CCPortLatency] *)

Inductive lcounter : Type :=
  | l_tx_pkt_ok | l_tx_pkt_err | l_pkt_ok | l_unsup_prot | l_no_magic | l_no_id | l_seq_error
  | l_rx_check | l_no_ipv4_option | l_length_error.
#[export] Instance lcounter_eq_dec : EqDecision lcounter.
Proof. solve_decision. Defined.

(** The [uint64_t] counters. *)
Definition lcounters : Type := lcounter -> Z.
Definition lc_clear : lcounters := fun _ => 0.
Definition lc_inc (c : lcounter) (k : lcounters) : lcounters :=
  fun c' => if decide (c' = c) then u64 (k c + 1) else k c'.

(** [lp_rx_port] is the index of the peer. *)
Record CCPortLatency : Type := mkLatencyPort {
  lp_rx_port : Z;
  lp_nat_learn : bool; lp_nat_can_send : bool; lp_nat_external_ip : Z;
  lp_tx_seq : Z; lp_rx_seq : Z;
  lp_id : Z; lp_payload_offset : Z; lp_l4_offset : Z; lp_pkt_size : Z;
  lp_icmp_tx_seq : Z; lp_icmp_rx_seq : Z;
  lp_cnt : lcounters;
  lp_hist : CTimeHistogram; lp_jitter : CJitter }.

Definition lp_upd_cnt (f : lcounters -> lcounters) (p : CCPortLatency) : CCPortLatency :=
  mkLatencyPort (lp_rx_port p) (lp_nat_learn p) (lp_nat_can_send p) (lp_nat_external_ip p) (lp_tx_seq p) (lp_rx_seq p)
    (lp_id p) (lp_payload_offset p) (lp_l4_offset p) (lp_pkt_size p) (lp_icmp_tx_seq p) (lp_icmp_rx_seq p)
    (f (lp_cnt p)) (lp_hist p) (lp_jitter p).
Definition lp_set_nat (learn can_send : bool) (ip : Z) (p : CCPortLatency) : CCPortLatency :=
  mkLatencyPort (lp_rx_port p) learn can_send ip (lp_tx_seq p) (lp_rx_seq p)
    (lp_id p) (lp_payload_offset p) (lp_l4_offset p) (lp_pkt_size p) (lp_icmp_tx_seq p) (lp_icmp_rx_seq p)
    (lp_cnt p) (lp_hist p) (lp_jitter p).
Definition lp_set_seqs (tx rx : Z) (p : CCPortLatency) : CCPortLatency :=
  mkLatencyPort (lp_rx_port p) (lp_nat_learn p) (lp_nat_can_send p) (lp_nat_external_ip p) tx rx
    (lp_id p) (lp_payload_offset p) (lp_l4_offset p) (lp_pkt_size p) (lp_icmp_tx_seq p) (lp_icmp_rx_seq p)
    (lp_cnt p) (lp_hist p) (lp_jitter p).
Definition lp_set_icmp (tx rx : Z) (p : CCPortLatency) : CCPortLatency :=
  mkLatencyPort (lp_rx_port p) (lp_nat_learn p) (lp_nat_can_send p) (lp_nat_external_ip p) (lp_tx_seq p) (lp_rx_seq p)
    (lp_id p) (lp_payload_offset p) (lp_l4_offset p) (lp_pkt_size p) tx rx (lp_cnt p) (lp_hist p) (lp_jitter p).
Definition lp_set_stats (h : CTimeHistogram) (j : CJitter) (p : CCPortLatency) : CCPortLatency :=
  mkLatencyPort (lp_rx_port p) (lp_nat_learn p) (lp_nat_can_send p) (lp_nat_external_ip p) (lp_tx_seq p) (lp_rx_seq p)
    (lp_id p) (lp_payload_offset p) (lp_l4_offset p) (lp_pkt_size p) (lp_icmp_tx_seq p) (lp_icmp_rx_seq p)
    (lp_cnt p) h j.
Definition lp_inc (c : lcounter) : CCPortLatency -> CCPortLatency := lp_upd_cnt (lc_inc c).

(** [reset]: what is expected next is what this port itself will send. *)
Definition lp_reset (p : CCPortLatency) : CCPortLatency :=
  lp_set_stats (hist_Reset (lp_hist p)) (lp_jitter p)
    (lp_upd_cnt (fun _ => lc_clear) (lp_set_seqs (lp_tx_seq p) (lp_tx_seq p) p)).

Definition nat_is_port_can_send (port_id : Z) : bool := port_id mod 2 =? 0.

(** [Create], on the memory [old]. *)
Definition lp_Create (id payload_offset l4_offset pkt_size rx_port : Z) (old : CCPortLatency) : CCPortLatency :=
  let can := nat_is_port_can_send id in
  lp_reset (mkLatencyPort rx_port can can 0 0x12345678 (lp_rx_seq old) id payload_offset l4_offset pkt_size 1 0
    (lp_cnt old) (hist_Create (lp_hist old)) (lp_jitter old)).

Definition can_send_packet (o : latency_opts) (direction : Z) (p : CCPortLatency) : bool :=
  if (lo_l_pkt_mode o =? L_PKT_SUBMODE_REPLY) && (direction =? 1) then lp_icmp_tx_seq p <=? lp_icmp_rx_seq p
  else if negb (lo_learn o) then true
  else lp_nat_can_send p.
Definition external_nat_ip (p : CCPortLatency) : Z := lp_nat_external_ip p.

(** [update_packet]; [tick] is the clock. *)
Definition update_packet (o : latency_opts) (md : CLatencyPktMode) (tick port_id : Z) (m : bytes) (p : CCPortLatency)
  : res (bytes * CCPortLatency) :=
  m ← mem_copy m 0 (lo_dst_src o (lp_id p)) 0 12;
  let h := lp_payload_offset p in
  m ← st32 m (h + 8) (Z.lor LATENCY_MAGIC (lp_id p));
  m ← st64 m h tick;
  m ← st32 m (h + 12) (lp_tx_seq p);
  let p := lp_set_seqs (u32 (lp_tx_seq p + 1)) (lp_rx_seq p) p in
  '(m, tx) ← update_pkt md m (lp_l4_offset p) (port_id mod 2 =? 0) (u16 (lp_pkt_size p - lp_l4_offset p)) (lp_icmp_tx_seq p);
  Ok (m, lp_set_icmp tx (lp_icmp_rx_seq p) p).

Definition do_learn (external_ip : Z) (p : CCPortLatency) : CCPortLatency := lp_set_nat true true external_ip p.
Definition check_rx_check (p : CCPortLatency) : CCPortLatency := lp_inc l_rx_check p.

Definition is_any_err (p : CCPortLatency) (rx_port_pkt_ok : Z) : bool :=
  let k := lp_cnt p in
  negb ((k l_tx_pkt_ok =? rx_port_pkt_ok) &&
        (u64 (k l_unsup_prot + k l_no_magic + k l_no_id + k l_seq_error + k l_length_error + k l_no_ipv4_option
              + k l_tx_pkt_err) =? 0)).

Definition lp_get_jitter_usec (p : CCPortLatency) : Z :=
  u32_of_double (double_mul (m_jitter (lp_jitter p)) (double_of_Z 1000000)).

(** ** A received packet *)

(** What the port meets: the clock, and for the NAT manager the time, whether there is a node
    for a message and whether the rings have room. *)
Record rx_env : Type := mkRxEnv {
  re_tick : Z; re_now : double; re_node_left : bool; re_room : ring_room }.

(** The outcome: the result, the pointer to the header of the receive check, the port and the
    NAT manager. *)
Notation rx_result := (bool * option Z * CCPortLatency * CNatRxManager)%type.

(** The loop over the options of the IP header at [ip]; [opt_len] is a [uint8_t], and every
    turn takes at least eight bytes off it. *)
Fixpoint option_loop (fuel : nat) (o : latency_opts) (e : rx_env) (m : bytes) (ip opt_ptr opt_len : Z) (rx_p : option Z)
    (p : CCPortLatency) (g : CNatRxManager) : res rx_result :=
  match fuel with
  | O => Err OutOfFuel
  | S fuel =>
      if opt_len =? 0 then Ok (true, rx_p, p, g)
      else
        ty ← ld8 m opt_ptr;
        if ty =? RX_CHECK_V4_OPT_TYPE then
          if negb (lo_rx_check o) || (opt_len <? RX_CHECK_LEN) then Ok (false, rx_p, lp_inc l_seq_error p, g)
          else option_loop fuel o e m ip (opt_ptr + RX_CHECK_LEN) (u8 (opt_len - RX_CHECK_LEN)) (Some opt_ptr)
                 (lp_inc l_rx_check p) g
        else if ty =? noIPV4_OPTION then
          if negb (lo_learn o) || (opt_len <? noOPTION_LEN) then Ok (false, rx_p, lp_inc l_seq_error p, g)
          else
            valid ← is_valid_ipv4_magic m opt_ptr;
            if negb (valid : bool) then Ok (false, rx_p, lp_inc l_no_ipv4_option p, g)
            else
              g ← handle_packet_ipv4 (re_now e) (re_node_left e) (re_room e) m opt_ptr ip g;
              option_loop fuel o e m ip (opt_ptr + noOPTION_LEN) (u8 (opt_len - noOPTION_LEN)) rx_p p g
        else Ok (false, rx_p, lp_inc l_seq_error p, g)
  end.
Definition option_fuel : nat := 33.

(** A packet that is not a latency packet. *)
Definition check_other (o : latency_opts) (e : rx_env) (m : bytes) (ps : CSimplePacketParser) (p : CCPortLatency)
    (g : CNatRxManager) : res rx_result :=
  match sp_ipv6 ps with
  | Some ip6 =>
      if (sp_protocol ps =? RX_CHECK_V6_OPT_TYPE) && lo_rx_check o
      then Ok (true, Some (ip6 + IPV6_HDR_LEN), lp_inc l_rx_check p, g)
      else Ok (false, None, lp_inc l_seq_error p, g)
  | None =>
      match sp_ipv4 ps with
      | None => Err NullDeref
      | Some ip =>
          opt_len ← IP_getOptionLen m ip;
          option_loop option_fuel o e m ip (ip + IPV4_HDR_LEN) opt_len None p g
      end
  end.

(** The sequence number and the time of a latency packet. *)
Definition check_seq (e : rx_env) (m : bytes) (h : Z) (p : CCPortLatency) : res (bool * CCPortLatency) :=
  seq ← ld32 m (h + 12);
  if negb (seq =? lp_rx_seq p) then
    Ok (false, lp_set_seqs (lp_tx_seq p) (u32 (seq + 1)) (lp_inc l_seq_error p))
  else
    let p := lp_inc l_pkt_ok (lp_set_seqs (lp_tx_seq p) (u32 (lp_rx_seq p + 1)) p) in
    time_stamp ← ld64 m h;
    let ctime := ptime_convert_hr_dsec (u64 (re_tick e - time_stamp)) in
    '(hist, _) ← hist_Add ctime (lp_hist p);
    Ok (true, lp_set_stats hist (CJitter_calc ctime (lp_jitter p)) p).

(** [m_ipv4] is set: the packet has the protocol of the mode. *)
Definition check_latency (o : latency_opts) (md : CLatencyPktMode) (e : rx_env) (m : bytes) (ps : CSimplePacketParser)
    (pkt_size : Z) (p : CCPortLatency) : res (bool * CCPortLatency) :=
  p ← (if lo_learn o && negb (lp_nat_learn p) then
         match sp_ipv4 ps with
         | None => Err NullDeref
         | Some ip => src ← IP_getSourceIp m ip; Ok (do_learn src p)
         end
       else Ok p);
  if negb (pkt_size - sp_vlan_offset ps =? lp_pkt_size p) then Ok (false, lp_inc l_length_error p)
  else
    '(r, t) ← update_recv md m (lp_l4_offset p + sp_vlan_offset ps) (lp_icmp_rx_seq p) (lp_icmp_tx_seq p);
    check_seq e m (lp_payload_offset p + sp_vlan_offset ps) (lp_set_icmp t r p).

(** [rte_pktmbuf_pkt_len], a [uint16_t] here. *)
Definition mbuf_pkt_len (m : rte_mbuf) : Z := u16 (mb_len m + zlength (mb_next m)).

(** A driver that leaves the CRC in the packet. *)
Definition strip_crc (pkt_size parsed : Z) : Z := if parsed =? pkt_size - 4 then u16 (pkt_size - 4) else pkt_size.

Definition check_packet (o : latency_opts) (md : CLatencyPktMode) (e : rx_env) (b : rte_mbuf) (p : CCPortLatency)
    (g : CNatRxManager) : res rx_result :=
  let m := mb_mem b in
  '(ps, ok) ← Parse m;
  if negb (ok : bool) then Ok (false, None, lp_inc l_unsup_prot p, g)
  else
    parsed ← getPktSize m ps;
    let pkt_size := strip_crc (mbuf_pkt_len b) parsed in
    a ← mode_IsLatencyPkt md m (sp_ipv4 ps);
    l4 ← match sp_l4 ps with Some l4 => Ok l4 | None => Err NullDeref end;
    c ← parser_IsLatencyPkt m (l4 + l4_header_len);
    if negb (a && c) then check_other o e m ps p g
    else '(r, p) ← check_latency o md e m ps pkt_size p; Ok (r, None, p, g).
