(* ===== verification/LatencyFacts.v ===== *)
(** * Facts about received packets

    What the check of a port makes of the latency packets of its peer, and that it handles
    any packet at all. *)

From S2P Require Import Prelude Double ByteMem PktCmn PktCmnFacts PacketHdrs PktDesc PktParser PktParserFacts Histogram RxHeader RxCheck RxCheckFacts CapTemplate FlowNode NatCheck NatCheckFacts Latency.

(** ** Ports *)

(** The offsets and the size that [Create] of the manager sets, and a histogram with its rows. *)
Record port_shape (p : CCPortLatency) : Prop := {
  ps_payload : lp_payload_offset p = 42;
  ps_l4 : lp_l4_offset p = 34;
  ps_size : lp_pkt_size p = 62;
  ps_hist : hist_ok (lp_hist p) }.

Lemma lc_inc_eq c k : lc_inc c k c = u64 (k c + 1).
Proof. unfold lc_inc. by rewrite decide_True. Qed.
Lemma lc_inc_ne c c' k : c' <> c -> lc_inc c k c' = k c'.
Proof. intros. unfold lc_inc. by rewrite decide_False. Qed.

(** ** Latency packets *)

(** The header behind the VLAN tag, of [v] bytes, if there is one. *)
Definition ip_behind (v : Z) (m : bytes) : Prop :=
  (v = 0 /\ ETH_getNextProtocol m 0 = Ok ETH_IP) \/
  (v = 4 /\ ETH_getNextProtocol m 0 = Ok ETH_VLAN /\ ETH_getVlanProtocol m 0 = Ok ETH_IP).

(** [m] starts with a latency packet of port [id]: [iseq] is the sequence number of its ICMP
    header, where the mode has one. *)
Record latency_fields (md : CLatencyPktMode) (v id seq ts iseq : Z) (m : bytes) : Prop := {
  lf_ok : bytes_ok m;
  lf_size : 62 + v <= zlength m;
  lf_ip : ip_behind v m;
  lf_hlen : IP_getHeaderLength m (14 + v) = Ok 20;
  lf_tlen : IP_getTotalLength m (14 + v) = Ok 48;
  lf_proto : IP_getProtocol m (14 + v) = Ok (getProtocol md);
  lf_icmp : match md with ModeICMP _ => ICMP_getSeqNum m (34 + v) = Ok iseq | ModeSCTP _ => True end;
  lf_ts : ld64 m (42 + v) = Ok ts;
  lf_magic : ld32 m (50 + v) = Ok (Z.lor LATENCY_MAGIC id);
  lf_seq : ld32 m (54 + v) = Ok seq }.

Lemma magic_id id : 0 <= id < 256 -> (Z.land (Z.lor LATENCY_MAGIC id) 0xffffff00 =? LATENCY_MAGIC) = true.
Proof.
  intros Hid. assert (Hall : forallb (fun i => Z.land (Z.lor LATENCY_MAGIC i) 0xffffff00 =? LATENCY_MAGIC) (seqZ 0 256) = true)
    by (vm_compute; reflexivity).
  rewrite forallb_forall in Hall. apply Hall, list_elem_of_In, elem_of_seqZ. lia.
Qed.

Definition latency_parsed (md : CLatencyPktMode) (v : Z) : CSimplePacketParser :=
  mkParser (Some (14 + v)) None (getProtocol md) v (34 + v) (Some (34 + v)).

Lemma Parse_ip4 v m hl proto :
  ip_behind v m -> IP_getHeaderLength m (14 + v) = Ok hl -> IP_getProtocol m (14 + v) = Ok proto ->
  Parse m = Ok (mkParser (Some (14 + v)) None proto v (34 + v) (Some (14 + v + hl)), negb (proto =? 0)).
Proof.
  intros Hip Hh Hp. unfold Parse, parse_ip4. destruct Hip as [(-> & ->)|(-> & -> & Hv)]; cbn [mbind res_bind].
  - change (ETH_IP =? ETH_IP) with true. cbv iota. change (14 + 0) with 14 in *. by rewrite Hh, Hp.
  - change (ETH_VLAN =? ETH_IP) with false. change (ETH_VLAN =? ETH_IPv6) with false.
    change (ETH_VLAN =? ETH_VLAN) with true. cbv iota. rewrite Hv. cbn [mbind res_bind].
    change (ETH_IP =? ETH_IP) with true. cbv iota. change (14 + 4) with 18 in *. by rewrite Hh, Hp.
Qed.

Lemma ip_behind_vlan v m : ip_behind v m -> v = 0 \/ v = 4.
Proof. intros [[-> _]|(-> & _)]; auto. Qed.

Lemma Parse_latency md v id seq ts iseq m :
  latency_fields md v id seq ts iseq m -> Parse m = Ok (latency_parsed md v, true).
Proof.
  intros []. erewrite Parse_ip4 by done. unfold latency_parsed. do 2 f_equal; [do 2 f_equal; lia|].
  by destruct md.
Qed.

(** The packet as the driver gives it: as long as it is, or with its CRC. *)
Definition latency_len (v : Z) (b : rte_mbuf) : Prop := mbuf_pkt_len b = 62 + v \/ mbuf_pkt_len b = 66 + v.

Lemma latency_size md v id seq ts iseq m b :
  latency_fields md v id seq ts iseq m -> latency_len v b ->
  exists s, getPktSize m (latency_parsed md v) = Ok s /\ strip_crc (mbuf_pkt_len b) s - v = 62.
Proof.
  intros Hf Hb. unfold getPktSize, latency_parsed. cbn [sp_ipv6 sp_ipv4 sp_vlan_offset].
  rewrite (lf_tlen _ _ _ _ _ _ _ Hf). cbn [mbind res_bind]. eexists. split; [reflexivity|].
  destruct (ip_behind_vlan _ _ (lf_ip _ _ _ _ _ _ _ Hf)) as [-> | ->], Hb as [-> | ->]; vm_compute; reflexivity.
Qed.

(** What a port becomes by a latency packet with these numbers, from the address [src]. *)
Definition learned (o : latency_opts) (src : Z) (p : CCPortLatency) : CCPortLatency :=
  if lo_learn o && negb (lp_nat_learn p) then do_learn src p else p.
Definition icmp_seen (md : CLatencyPktMode) (iseq : Z) (p : CCPortLatency) : CCPortLatency :=
  match md with
  | ModeSCTP _ => p
  | ModeICMP _ => lp_set_icmp (if iseq =? 0 then 0 else lp_icmp_tx_seq p) iseq p
  end.

(** The port [p'] has taken the packet [seq] for the one it expects, or not. *)
Record seq_seen (seq : Z) (p p' : CCPortLatency) : Prop := {
  ss_rx : lp_rx_seq p' = u32 (seq + 1);
  ss_tx : lp_tx_seq p' = lp_tx_seq p;
  ss_cnt : lp_cnt p' = lc_inc (if seq =? lp_rx_seq p then l_pkt_ok else l_seq_error) (lp_cnt p);
  ss_icmp : lp_icmp_tx_seq p' = lp_icmp_tx_seq p /\ lp_icmp_rx_seq p' = lp_icmp_rx_seq p;
  ss_nat : lp_nat_learn p' = lp_nat_learn p /\ lp_nat_can_send p' = lp_nat_can_send p /\
           lp_nat_external_ip p' = lp_nat_external_ip p;
  ss_id : lp_id p' = lp_id p /\ lp_rx_port p' = lp_rx_port p;
  ss_shape : port_shape p' }.

Lemma check_seq_spec e m h p seq ts :
  port_shape p -> ld32 m (h + 12) = Ok seq -> ld64 m h = Ok ts ->
  exists p', check_seq e m h p = Ok (seq =? lp_rx_seq p, p') /\ seq_seen seq p p'.
Proof.
  intros [A B C D] Es Et. unfold check_seq. rewrite Es. cbn [mbind res_bind].
  destruct (Z.eqb_spec seq (lp_rx_seq p)) as [->|Hne]; cbn [negb].
  - rewrite Et. cbn [mbind res_bind]. change (lp_hist (lp_inc _ _)) with (lp_hist p).
    destruct (hist_Add_Ok (ptime_convert_hr_dsec (u64 (re_tick e - ts))) (lp_hist p) D) as (hh & bb & -> & Hh).
    cbn [mbind res_bind]. eexists. split; [reflexivity|]. split; try done. cbn. by rewrite Z.eqb_refl.
  - eexists. split; [reflexivity|]. split; try done. cbn. by rewrite (proj2 (Z.eqb_neq _ _) Hne).
Qed.

Lemma learned_spec o src p :
  port_shape p -> port_shape (learned o src p) /\ lp_rx_seq (learned o src p) = lp_rx_seq p /\
  lp_tx_seq (learned o src p) = lp_tx_seq p /\ lp_cnt (learned o src p) = lp_cnt p /\
  lp_id (learned o src p) = lp_id p /\ lp_rx_port (learned o src p) = lp_rx_port p /\
  lp_icmp_tx_seq (learned o src p) = lp_icmp_tx_seq p /\ lp_icmp_rx_seq (learned o src p) = lp_icmp_rx_seq p.
Proof. unfold learned. destruct (_ && _); intros []; done. Qed.

Lemma icmp_seen_shape md iseq p : port_shape p -> port_shape (icmp_seen md iseq p).
Proof. unfold icmp_seen. destruct md; intros []; done. Qed.

(** The check of a latency packet. *)
Lemma check_packet_latency o md e v id seq ts iseq b p g :
  port_shape p -> 0 <= id < 256 -> latency_fields md v id seq ts iseq (mb_mem b) -> latency_len v b ->
  exists src p', IP_getSourceIp (mb_mem b) (14 + v) = Ok src /\
    check_packet o md e b p g = Ok (seq =? lp_rx_seq p, None, p', g) /\
    seq_seen seq (icmp_seen md iseq (learned o src p)) p'.
Proof.
  intros Hp Hid Hf Hlen. pose proof Hf as [Hok Hz Hip Hhl Htl Hpr Hic Hts Hmg Hsq].
  assert (Hv : v = 0 \/ v = 4) by by eapply ip_behind_vlan.
  destruct (IP_getSourceIp (mb_mem b) (14 + v)) as [src|] eqn:Esrc.
  2: { unfold IP_getSourceIp, o_Source in Esrc. rewrite ld_Ok in Esrc by (unfold in_range; lia). discriminate. }
  exists src. unfold check_packet. rewrite (Parse_latency _ _ _ _ _ _ _ Hf). cbn [mbind res_bind negb].
  destruct (latency_size _ _ _ _ _ _ _ b Hf Hlen) as (s & -> & Hsz). cbn [mbind res_bind].
  change (sp_ipv4 (latency_parsed md v)) with (Some (14 + v)). change (sp_l4 (latency_parsed md v)) with (Some (34 + v)).
  cbn [mode_IsLatencyPkt]. rewrite Hpr. cbn [mbind res_bind].
  rewrite Z.eqb_refl. unfold parser_IsLatencyPkt, l4_header_len.
  replace (34 + v + 8 + 8) with (50 + v) by lia. rewrite Hmg. cbn [mbind res_bind]. rewrite magic_id by done. cbn [andb negb].
  unfold check_latency, latency_parsed. cbn [sp_ipv4 sp_vlan_offset].
  set (q := learned o src p).
  assert (Hq : (if lo_learn o && negb (lp_nat_learn p)
     then src0 ← IP_getSourceIp (mb_mem b) (14 + v); Ok (do_learn src0 p) else Ok p) = Ok q).
  { unfold q, learned. rewrite Esrc. by destruct (_ && _). }
  rewrite Hq. cbn [mbind res_bind].
  destruct (learned_spec o src p Hp) as (Hqs & Hqr & _). fold q in Hqs, Hqr.
  rewrite (ps_size _ Hqs), (ps_l4 _ Hqs), (ps_payload _ Hqs), Hsz, Z.eqb_refl. cbn [negb].
  assert (Hu : update_recv md (mb_mem b) (34 + v) (lp_icmp_rx_seq q) (lp_icmp_tx_seq q) =
    Ok (lp_icmp_rx_seq (icmp_seen md iseq q), lp_icmp_tx_seq (icmp_seen md iseq q))).
  { unfold update_recv, icmp_seen. destruct md; [done|]. rewrite Hic. cbn [mbind res_bind]. done. }
  rewrite Hu. cbn [mbind res_bind].
  replace (lp_set_icmp _ _ q) with (icmp_seen md iseq q) by (unfold icmp_seen; destruct md; [by destruct q|done]).
  destruct (check_seq_spec e (mb_mem b) (42 + v) (icmp_seen md iseq q) seq ts) as (p' & E & Hs).
  - by apply icmp_seen_shape.
  - rewrite <- Hsq. f_equal. lia.
  - done.
  - rewrite E. cbn [mbind res_bind]. exists p'. split; [done|]. split; [|done].
    replace (lp_rx_seq (icmp_seen md iseq q)) with (lp_rx_seq p); [done|]. rewrite <- Hqr. by destruct md.
Qed.

(** ** Losses *)

(** The packets that are not the one expected next, [x] first. *)
Fixpoint gaps (x : Z) (seqs : list Z) : Z :=
  match seqs with
  | [] => 0
  | s :: seqs => (if s =? x then 0 else 1) + gaps (u32 (s + 1)) seqs
  end.
Definition next_expected (x : Z) (seqs : list Z) : Z :=
  match last seqs with Some s => u32 (s + 1) | None => x end.

Lemma gaps_range seqs : forall x, 0 <= gaps x seqs <= Z.of_nat (length seqs).
Proof.
  induction seqs as [|s seqs IH]; intros x; cbn [gaps length]; [lia|].
  specialize (IH (u32 (s + 1))). destruct (s =? x); lia.
Qed.

Definition check_all (o : latency_opts) (md : CLatencyPktMode) (l : list (rx_env * rte_mbuf)) (p : CCPortLatency)
    (g : CNatRxManager) : res (CCPortLatency * CNatRxManager) :=
  foldl (fun r '(e, b) => '(p, g) ← r; '(_, _, p, g) ← check_packet o md e b p g; Ok (p, g)) (Ok (p, g)) l.

(** A latency packet number [seq], of any port, behind a VLAN tag or not. *)
Definition latency_item (md : CLatencyPktMode) (seq : Z) (x : rx_env * rte_mbuf) : Prop :=
  exists v id ts iseq, 0 <= id < 256 /\ latency_fields md v id seq ts iseq (mb_mem (snd x)) /\ latency_len v (snd x).

Lemma u64_add_l a b : u64 (u64 a + b) = u64 (a + b).
Proof. unfold u64. by rewrite Zplus_mod_idemp_l. Qed.

Lemma check_all_spec o md seqs : forall l p g,
  port_shape p -> Forall2 (latency_item md) seqs l -> lp_cnt p l_pkt_ok = u64 (lp_cnt p l_pkt_ok) ->
  lp_cnt p l_seq_error = u64 (lp_cnt p l_seq_error) ->
  exists p', check_all o md l p g = Ok (p', g) /\ port_shape p' /\
    lp_rx_seq p' = next_expected (lp_rx_seq p) seqs /\
    lp_cnt p' l_seq_error = u64 (lp_cnt p l_seq_error + gaps (lp_rx_seq p) seqs) /\
    lp_cnt p' l_pkt_ok = u64 (lp_cnt p l_pkt_ok + (Z.of_nat (length seqs) - gaps (lp_rx_seq p) seqs)).
Proof.
  induction seqs as [|seq seqs IH]; intros l p g Hp Hl Ho Hs.
  - apply Forall2_nil_inv_l in Hl as ->. exists p. cbn. rewrite !Z.add_0_r. done.
  - apply Forall2_cons_inv_l in Hl as ([e b] & l' & (v & id & ts & iseq & Hid & Hf & Hlen) & Hl & ->). cbn [snd] in *.
    destruct (check_packet_latency o md e v id seq ts iseq b p g Hp Hid Hf Hlen) as (src & p1 & _ & E & [A B C _ _ _ D]).
    assert (Hq : lp_rx_seq (icmp_seen md iseq (learned o src p)) = lp_rx_seq p /\
                 lp_cnt (icmp_seen md iseq (learned o src p)) = lp_cnt p).
    { unfold icmp_seen, learned. by destruct md, (_ && _). }
    destruct Hq as [Hq1 Hq2]. rewrite Hq1, Hq2 in C.
    destruct (IH l' p1 g D Hl) as (p' & E' & Hp' & Hr' & He' & Hk').
    { rewrite C. unfold lc_inc. case_decide; [by rewrite (u64_id (u64 _)) by apply u64_range|done]. }
    { rewrite C. unfold lc_inc. case_decide; [by rewrite (u64_id (u64 _)) by apply u64_range|done]. }
    exists p'. split.
    { unfold check_all in *. cbn [foldl]. cbn [mbind res_bind]. rewrite E. cbn [mbind res_bind]. exact E'. }
    split; [done|]. split.
    { rewrite Hr', A. unfold next_expected. rewrite last_cons. by destruct (last seqs). }
    rewrite He', Hk', A, C. cbn [gaps length]. destruct (Z.eqb_spec seq (lp_rx_seq p)) as [->|Hne].
    + rewrite lc_inc_eq, lc_inc_ne by done. rewrite u64_add_l. split; f_equal; lia.
    + rewrite lc_inc_eq, lc_inc_ne by done. rewrite u64_add_l. split; f_equal; lia.
Qed.

(** ** Any packet *)

Definition error_counters : list lcounter := [l_unsup_prot; l_no_magic; l_no_id; l_seq_error; l_length_error; l_no_ipv4_option].

(** A packet that is accepted is counted as no error, another one as exactly one. *)
Definition counted (r : bool) (k k' : lcounters) : Prop :=
  k' l_tx_pkt_ok = k l_tx_pkt_ok /\ k' l_tx_pkt_err = k l_tx_pkt_err /\
  if r then forall c, c ∈ error_counters -> k' c = k c
  else exists c, c ∈ error_counters /\ k' c = u64 (k c + 1) /\ forall c', c' ∈ error_counters -> c' <> c -> k' c' = k c'.

Lemma counted_error c k : c ∈ error_counters -> counted false k (lc_inc c k).
Proof.
  intros Hc. split; [apply lc_inc_ne; intros <-; set_solver|]. split; [apply lc_inc_ne; intros <-; set_solver|].
  exists c. split; [done|]. split; [apply lc_inc_eq|]. intros c' _ Hne. by apply lc_inc_ne.
Qed.
Lemma counted_same k : counted true k k.
Proof. by split. Qed.
Lemma counted_ok k : counted true k (lc_inc l_pkt_ok k).
Proof.
  split; [by apply lc_inc_ne|]. split; [by apply lc_inc_ne|]. intros c Hc. apply lc_inc_ne. intros ->. set_solver.
Qed.
Lemma counted_rx r k k' : counted r (lc_inc l_rx_check k) k' -> counted r k k'.
Proof.
  intros (A & B & C). rewrite lc_inc_ne in A, B by done. split; [done|]. split; [done|].
  assert (Hne : forall c, c ∈ error_counters -> lc_inc l_rx_check k c = k c)
    by (intros c Hc; apply lc_inc_ne; intros ->; set_solver).
  destruct r; [intros c Hc; by rewrite C, Hne|]. destruct C as (c & Hc & E & Ho). exists c.
  split; [done|]. rewrite E, Hne by done. split; [done|]. intros c' Hc' Hn. by rewrite Ho, Hne.
Qed.

(** The pointer to a header of the receive check: 24 bytes of the buffer, in that mode. *)
Definition rx_pointer (o : latency_opts) (m : bytes) (rxc : option Z) : Prop :=
  match rxc with Some off => lo_rx_check o = true /\ 0 <= off /\ off + 24 <= zlength m | None => True end.

(** Only counters change. *)
Definition checked (o : latency_opts) (m : bytes) (p : CCPortLatency) (x : rx_result) : Prop :=
  let '(r, rxc, p', g') := x in
  rx_pointer o m rxc /\ (exists l', threads_hold g' l') /\
  exists k, p' = lp_upd_cnt (fun _ => k) p /\ counted r (lp_cnt p) k.

Section Total.
Context (o : latency_opts) (e : rx_env) (m : bytes) (Hm : bytes_ok m).
Context (Hleft : re_node_left e = true) (Hroom : room_in_time (re_room e)).

Lemma checked_error c rxc p g l :
  c ∈ error_counters -> rx_pointer o m rxc -> threads_hold g l -> checked o m p (false, rxc, lp_inc c p, g).
Proof.
  intros Hc Hx Hg. split; [done|]. split; [by exists l|]. exists (lc_inc c (lp_cnt p)). split; [done|]. by apply counted_error.
Qed.

Lemma option_loop_total fuel ip : forall opt_ptr opt_len rx_p p g l,
  0 <= opt_len < 256 -> opt_len <= 8 * (Z.of_nat fuel - 1) -> 0 <= opt_ptr -> opt_ptr + opt_len <= zlength m ->
  0 <= ip -> ip + 80 <= zlength m -> rx_pointer o m rx_p -> threads_hold g l ->
  exists x, option_loop fuel o e m ip opt_ptr opt_len rx_p p g = Ok x /\ checked o m p x.
Proof using Hm Hleft Hroom.
  induction fuel as [|fuel IH]; intros opt_ptr opt_len rx_p p g l Hl Hf Ho Hz Hip Hipz Hx Hg; [lia|].
  cbn [option_loop]. destruct (Z.eqb_spec opt_len 0) as [->|Hne].
  { eexists. split; [reflexivity|]. split; [done|]. split; [by exists l|]. exists (lp_cnt p).
    split; [by destruct p|]. apply counted_same. }
  rewrite ld8_byte by (unfold in_range; lia). cbn [mbind res_bind].
  destruct (_ =? RX_CHECK_V4_OPT_TYPE).
  - change RX_CHECK_LEN with 24. destruct (lo_rx_check o) eqn:Erx; cbn [negb orb].
    2: { eexists. split; [reflexivity|]. eapply checked_error; [set_solver|done|done]. }
    destruct (Z.ltb_spec opt_len 24) as [Hlt|Hge].
    { eexists. split; [reflexivity|]. eapply checked_error; [set_solver|done|done]. }
    rewrite u8_id by lia.
    destruct (IH (opt_ptr + 24) (opt_len - 24) (Some opt_ptr) (lp_inc l_rx_check p) g l) as (x & -> & Hc); try done; try lia.
    { cbn. split; [done|lia]. }
    exists x. split; [done|]. destruct x as [[[r rxc] p'] g']. destruct Hc as (H1 & H2 & k & Hk & Hkc).
    split; [done|]. split; [done|]. exists k. split; [by rewrite Hk|]. by apply counted_rx.
  - destruct (_ =? noIPV4_OPTION); [|eexists; split; [reflexivity|]; eapply checked_error; [set_solver|done|done]].
    change noOPTION_LEN with 8. destruct (lo_learn o) eqn:Elr; cbn [negb orb].
    2: { eexists. split; [reflexivity|]. eapply checked_error; [set_solver|done|done]. }
    destruct (Z.ltb_spec opt_len 8) as [Hlt|Hge].
    { eexists. split; [reflexivity|]. eapply checked_error; [set_solver|done|done]. }
    assert (Hval : exists b, is_valid_ipv4_magic m opt_ptr = Ok b).
    { unfold is_valid_ipv4_magic, is_valid_ipv4_magic_op0, is_valid_ipv4_magic_op1.
      rewrite ld_Ok by (unfold in_range; lia). cbn [mbind res_bind]. destruct (_ =? _); by eexists. }
    destruct Hval as [valid ->]. cbn [mbind res_bind]. destruct valid; cbn [negb].
    2: { eexists. split; [reflexivity|]. eapply checked_error; [set_solver|done|done]. }
    pose proof (ihl_range m ip).
    destruct (nat_step_ok (ne_packet (re_now e) (re_node_left e) (re_room e) m opt_ptr ip) g l Hg) as (g1 & E & _ & Hg1).
    { cbn. split_and!; try done; lia. }
    cbn [nat_step] in E. rewrite E. cbn [mbind res_bind]. rewrite u8_id by lia.
    eapply (IH (opt_ptr + 8) (opt_len - 8) rx_p p g1); [lia..|done|exact Hg1].
Qed.

(** *** The stages of the check *)

Lemma parse_ip4_total v ip : 0 <= ip -> ip + 20 <= zlength m ->
  exists proto hl, parse_ip4 m v ip = Ok (mkParser (Some ip) None proto v (ip + 20) (Some (ip + hl))) /\ 0 <= hl <= 60.
Proof using Hm.
  intros Hi Hz. unfold parse_ip4, IP_getProtocol, o_Protocol. rewrite IP_getHeaderLength_eq by (done || lia). cbn [mbind res_bind].
  rewrite ld8_byte by (unfold in_range; lia). cbn [mbind res_bind]. pose proof (ihl_range m ip).
  do 2 eexists. split; [reflexivity|lia].
Qed.
Lemma parse_ip6_total v ip : 0 <= ip -> ip + 40 <= zlength m ->
  exists proto, parse_ip6 m v ip = Ok (mkParser None (Some ip) proto v (ip + 40) (Some (ip + 40))).
Proof using Hm.
  intros Hi Hz. unfold parse_ip6, IPv6_getNextHdr. rewrite ld8_byte by (unfold in_range; lia). by eexists.
Qed.

(** What the parser finds: one IP header in its place, or protocol 0. *)
Definition parsed (ps : CSimplePacketParser) : Prop :=
  (sp_vlan_offset ps = 0 \/ sp_vlan_offset ps = 4) /\
  ((exists ip l4, sp_ipv4 ps = Some ip /\ sp_ipv6 ps = None /\ sp_l4 ps = Some l4 /\ 14 <= ip <= 18 /\ ip <= l4 <= ip + 60) \/
   (exists ip, sp_ipv4 ps = None /\ sp_ipv6 ps = Some ip /\ sp_l4 ps = Some (ip + 40) /\ 14 <= ip <= 18) \/
   sp_protocol ps = 0).

Lemma Parse_total : 128 <= zlength m ->
  exists ps, Parse m = Ok (ps, negb (sp_protocol ps =? 0)) /\ parsed ps.
Proof using Hm.
  intros Hz. unfold Parse, ETH_getNextProtocol, ETH_getVlanProtocol.
  destruct (get_be16_Ok m (0 + 12)) as [next ->]; [lia|lia|]. cbn [mbind res_bind].
  destruct (get_be16_Ok m (0 + 16)) as [inner Hinner]; [lia|lia|].
  destruct (parse_ip4_total 0 14) as (p1 & h1 & E1 & H1); [lia|lia|].
  destruct (parse_ip4_total 4 18) as (p2 & h2 & E2 & H2); [lia|lia|].
  destruct (parse_ip6_total 0 14) as (p3 & E3); [lia|lia|].
  destruct (parse_ip6_total 4 18) as (p4 & E4); [lia|lia|].
  destruct (next =? ETH_IP); [|destruct (next =? ETH_IPv6); [|destruct (next =? ETH_VLAN);
    [rewrite Hinner; cbn [mbind res_bind]; destruct (inner =? ETH_IP); [|destruct (inner =? ETH_IPv6)]|]]];
    rewrite ?E1, ?E2, ?E3, ?E4; cbn [mbind res_bind]; eexists; (split; [reflexivity|]); (split; [cbn; auto|]);
    cbn [sp_ipv4 sp_ipv6 sp_l4 sp_protocol].
  - left. do 2 eexists. split_and!; try done; lia.
  - right. left. eexists. split_and!; try done; lia.
  - left. do 2 eexists. split_and!; try done; lia.
  - right. left. eexists. split_and!; try done; lia.
  - by right; right.
  - by right; right.
Qed.

(** The port [p'] is [p] after a packet: its place, its sending side and what it learned are
    kept, or become what the packet says. *)
Record handled (p : CCPortLatency) (r : bool) (p' : CCPortLatency) : Prop := {
  hd_id : lp_id p' = lp_id p /\ lp_rx_port p' = lp_rx_port p;
  hd_tx : lp_tx_seq p' = lp_tx_seq p;
  hd_shape : port_shape p -> port_shape p';
  hd_cnt : counted r (lp_cnt p) (lp_cnt p') }.

Lemma check_latency_total md ps pkt_size p ip :
  port_shape p -> 128 <= zlength m -> sp_ipv4 ps = Some ip -> 14 <= ip <= 18 -> (sp_vlan_offset ps = 0 \/ sp_vlan_offset ps = 4) ->
  exists r p', check_latency o md e m ps pkt_size p = Ok (r, p') /\ handled p r p'.
Proof using Hm.
  clear Hleft Hroom. intros Hp Hz Hip Hr Hv. unfold check_latency. rewrite Hip.
  assert (Hsrc : exists src, IP_getSourceIp m ip = Ok src)
    by (unfold IP_getSourceIp, o_Source; rewrite ld_Ok by (unfold in_range; lia); by eexists).
  destruct Hsrc as [src Hsrc]. set (q := learned o src p).
  assert (Hq : (if lo_learn o && negb (lp_nat_learn p)
     then src0 ← IP_getSourceIp m ip; Ok (do_learn src0 p) else Ok p) = Ok q).
  { unfold q, learned. rewrite Hsrc. by destruct (_ && _). }
  rewrite Hq. cbn [mbind res_bind].
  destruct (learned_spec o src p Hp) as (Hqs & Hqr & Hqt & Hqc & Hqi & Hqp & _). fold q in Hqs, Hqr, Hqt, Hqc, Hqi, Hqp.
  destruct (pkt_size - sp_vlan_offset ps =? lp_pkt_size q); cbn [negb].
  2: { do 2 eexists. split; [reflexivity|]. split; [by split|exact Hqt|intros _; by destruct Hqs|].
    change (lp_cnt (lp_inc _ q)) with (lc_inc l_length_error (lp_cnt q)).
    rewrite Hqc. apply counted_error. set_solver. }
  rewrite (ps_l4 _ Hqs), (ps_payload _ Hqs).
  assert (Hu : exists t r, update_recv md m (34 + sp_vlan_offset ps) (lp_icmp_rx_seq q) (lp_icmp_tx_seq q) = Ok (r, t)).
  { unfold update_recv. destruct md; [by do 2 eexists|]. unfold ICMP_getSeqNum.
    destruct (get_be16_Ok m (34 + sp_vlan_offset ps + 6)) as [x ->]; [lia|lia|]. by do 2 eexists. }
  destruct Hu as (t & r & ->). cbn [mbind res_bind].
  assert (Hl : forall n off, 0 <= off -> off + Z.of_nat n <= 128 -> exists x, ld n m off = Ok x)
    by (intros n off H1 H2; rewrite ld_Ok by (unfold in_range; lia); by eexists).
  destruct (Hl 4%nat (42 + sp_vlan_offset ps + 12)) as [seq Hseq]; [lia|lia|].
  destruct (Hl 8%nat (42 + sp_vlan_offset ps)) as [ts Hts]; [lia|lia|].
  destruct (check_seq_spec e m (42 + sp_vlan_offset ps) (lp_set_icmp t r q) seq ts) as (p' & E & [A B C _ _ D F]);
    [by destruct Hqs|done|done|]. do 2 eexists. split; [exact E|]. destruct D as [D1 D2].
  cbn [lp_set_icmp lp_tx_seq lp_rx_seq lp_cnt lp_id lp_rx_port] in B, C, D1, D2. split; try done.
  - by rewrite D1, D2.
  - by rewrite B.
  - rewrite C, Hqc. change (lp_rx_seq (lp_set_icmp t r q)) with (lp_rx_seq q).
    destruct (seq =? lp_rx_seq q); [apply counted_ok|apply counted_error; set_solver].
Qed.

Lemma checked_handled p r rxc k g :
  checked o m p (r, rxc, lp_upd_cnt (fun _ => k) p, g) -> handled p r (lp_upd_cnt (fun _ => k) p).
Proof.
  intros (_ & _ & k' & Hk & Hc). apply (f_equal lp_cnt) in Hk. cbn in Hk. subst k'.
  split; try done. by intros [].
Qed.

Lemma checked_is p r rxc p' g : checked o m p (r, rxc, p', g) -> rx_pointer o m rxc /\ (exists l, threads_hold g l) /\ handled p r p'.
Proof.
  intros Hc. pose proof Hc as (Hx & Hg & k & -> & _). split; [done|]. split; [done|]. by eapply checked_handled.
Qed.

Lemma check_other_total ps p g l :
  512 <= zlength m -> parsed ps -> sp_protocol ps <> 0 -> threads_hold g l ->
  exists x, check_other o e m ps p g = Ok x /\ checked o m p x.
Proof using Hm Hleft Hroom.
  intros Hz [_ Hps] Hpr Hg. unfold check_other. destruct Hps as [(ip & l4 & H4 & -> & _ & Hip & _)|[(ip & H4 & -> & _ & Hip)|]]; [| |done].
  - rewrite H4. unfold IP_getOptionLen. rewrite IP_getHeaderLength_eq by (done || lia). cbn [mbind res_bind].
    pose proof (u8_range (4 * ihl m ip - IP_DefaultSize)). change IPV4_HDR_LEN with 20.
    apply (option_loop_total option_fuel ip (ip + 20) _ None p g l); try done; unfold option_fuel; lia.
  - destruct (_ && _) eqn:E.
    + apply andb_true_iff in E as [_ E]. eexists. split; [reflexivity|]. split; [cbn; split; [done|change IPV6_HDR_LEN with 40; lia]|].
      split; [by exists l|]. exists (lc_inc l_rx_check (lp_cnt p)). split; [done|]. apply counted_rx, counted_same.
    + eexists. split; [reflexivity|]. eapply checked_error; [set_solver|done|done].
Qed.
End Total.

(** C14: whatever a port receives, its check handles it: with a buffer of 512 bytes or more
    (those of the pools have 2048), a node for a message and room on the rings, [check_packet]
    reads nothing outside the buffer, its loop over the IP options ends, also for an
    IP header that says it is shorter than 20 bytes, and every packet that it rejects is counted
    as one error, every other one as none. The header it hands to the receive check is inside the
    buffer, and the NAT manager stays well-formed. *)
Theorem check_packet_total (o : latency_opts) (md : CLatencyPktMode) (e : rx_env) (b : rte_mbuf) (p : CCPortLatency)
    (g : CNatRxManager) (l : Z -> list CNatFlowInfo) :
  bytes_ok (mb_mem b) -> 512 <= zlength (mb_mem b) -> port_shape p -> threads_hold g l ->
  re_node_left e = true -> room_in_time (re_room e) ->
  exists r rxc p' g', check_packet o md e b p g = Ok (r, rxc, p', g') /\
    rx_pointer o (mb_mem b) rxc /\ (exists l', threads_hold g' l') /\ handled p r p'.
Proof.
  intros Hm Hz Hp Hg Hleft Hroom. unfold check_packet. set (m := mb_mem b) in *.
  destruct (Parse_total m Hm) as (ps & -> & Hps); [lia|]. cbn [mbind res_bind].
  destruct (Z.eqb_spec (sp_protocol ps) 0) as [E0|Hne]; cbn [negb].
  { do 4 eexists. split; [reflexivity|].
    apply checked_is. eapply checked_error; [set_solver|done|exact Hg]. }
  pose proof Hps as (Hv & [(ip & l4 & H4 & H6 & Hl4 & Hip & Hl4r)|[(ip & H4 & H6 & Hl4 & Hip)|]]); [| |done].
  - unfold getPktSize. rewrite H4, H6, Hl4. unfold IP_getTotalLength, o_Length. rewrite (ld_Ok 2) by (unfold in_range; lia).
    cbn [mbind res_bind mode_IsLatencyPkt]. unfold IP_getProtocol, o_Protocol. rewrite ld8_byte by (unfold in_range; lia). cbn [mbind res_bind].
    unfold parser_IsLatencyPkt, l4_header_len. rewrite ld_Ok by (unfold in_range; lia). cbn [mbind res_bind].
    destruct (_ && _); cbn [negb].
    + match goal with |- context [check_latency o md e m ps ?s p] =>
        destruct (check_latency_total o e m Hm md ps s p ip Hp) as (r & p' & -> & Hh); [lia|done|done|done|] end.
      cbn [mbind res_bind]. do 4 eexists. split; [reflexivity|]. split; [done|]. split; [by exists l|done].
    + destruct (check_other_total o e m Hm Hleft Hroom ps p g l) as ([[[r rxc] p'] g'] & -> & Hc); [done..|].
      do 4 eexists. split; [reflexivity|]. by apply checked_is.
  - unfold getPktSize. rewrite H4, H6, Hl4. unfold IPv6_getPayloadLen. destruct (get_be16_Ok m (ip + 4)) as [pl ->]; [lia|lia|].
    cbn [mbind res_bind mode_IsLatencyPkt]. unfold parser_IsLatencyPkt, l4_header_len. rewrite ld_Ok by (unfold in_range; lia).
    cbn [mbind res_bind andb negb].
    destruct (check_other_total o e m Hm Hleft Hroom ps p g l) as ([[[r rxc] p'] g'] & -> & Hc); [done..|].
    do 4 eexists. split; [reflexivity|]. by apply checked_is.
Qed.

(** A learn option in a header that says it is zero bytes long. *)
Definition odd_packet : rte_mbuf :=
  mkMbuf (replicate 12 0 ++ [8; 0; 0x40] ++ replicate 8 0 ++ [17] ++ replicate 488 0) 60 [].
Definition odd_opts : latency_opts := mkLatencyOpts 2 true true (fun _ => []).
Definition odd_port : CCPortLatency :=
  let z := double_of_Z 0 in
  mkLatencyPort 1 true true 0 7 7 0 42 34 62 1 0 lc_clear (hist_Create (mkHist z 0 0 z z z z 0 [] [] [] 0 0)) CJitter_reset.

Lemma check_packet_total_witness :
  exists r rxc p' g', check_packet odd_opts (ModeICMP 2) (mkRxEnv 0 (double_of_Z 0) true (fun _ => true)) odd_packet odd_port
      (NatCheck.Create 1 nat_stats_reset) = Ok (r, rxc, p', g') /\ lp_cnt p' l_seq_error = 1.
Proof.
  destruct (check_packet_total odd_opts (ModeICMP 2) (mkRxEnv 0 (double_of_Z 0) true (fun _ => true)) odd_packet odd_port
    (NatCheck.Create 1 nat_stats_reset) (fun _ => [])) as (r & rxc & p' & g' & E & _).
  - repeat (apply Forall_app; split); first [apply Forall_replicate; unfold byte_ok; lia|repeat constructor; lia].
  - vm_compute. congruence.
  - split; [done|done|done|]. split; [reflexivity|]. cbn. by repeat constructor.
  - intros tid Hr. exists nat_thread_new. unfold NatCheck.Create, zlength in *. cbn [m_per_thread] in *. rewrite length_replicate in Hr.
    rewrite lookup_replicate_2 by lia. split; [done|]. split; [|done]. by split.
  - done.
  - exists 0%nat. split; [lia|done].
  - exists r, rxc, p', g'. split; [exact E|].
    assert (Hc : ('(_, _, p, _) ← check_packet odd_opts (ModeICMP 2) (mkRxEnv 0 (double_of_Z 0) true (fun _ => true)) odd_packet odd_port
      (NatCheck.Create 1 nat_stats_reset); Ok (lp_cnt p l_seq_error)) = Ok 1) by (vm_compute; reflexivity).
    rewrite E in Hc. cbn in Hc. congruence.
Defined.
