(* ===== verification/LatencyMgr.v ===== *)
(** * The latency manager

    Models [CLatencyManager] of [src/src/latency.{h,cpp}]: the thread that sends a latency
    packet on every port at a fixed rate, receives from the ports or from the rings of the
    cores, gives the headers of the receive check and the options of learn packets to their
    managers, and sums up the counters of the ports. *)

From S2P Require Import Prelude Double ByteMem PrioQueue Histogram RxHeader RxInsert RxCheck PktParser CapTemplate FlowNode NatCheck Latency.

Definition MAX_LATENCY_PORTS : Z := 12.

Record CLatencyManagerCfg : Type := mkLatencyCfg {
  cfg_max_ports : Z; cfg_cps : double;
  cfg_client_ip : Z; cfg_server_ip : Z; cfg_dual_port_mask : Z }.
(** The values of the constructor. *)
Definition LatencyCfg_new : CLatencyManagerCfg := mkLatencyCfg 0 (double_of_Z 0) 0x10000000 0x20000000 0x01000000.

(** [m_ports] has [MAX_LATENCY_PORTS] entries, of which [m_max_ports] are in use. *)
Record CLatencyManager (Q : Type) : Type := mkLatencyMgr {
  mg_mode : CLatencyPktMode;
  mg_pkt_gen : CLatencyPktInfo;
  mg_ports : list CCPortLatency;
  mg_cps : double; mg_delta_sec : double;
  mg_start_time : Z;
  mg_port_mask : Z; mg_max_ports : Z;
  mg_rx_check : RxCheckManager Q;
  mg_nat : CNatRxManager;
  mg_do_stop : bool }.
Arguments mkLatencyMgr {Q}.
Arguments mg_mode {Q}. Arguments mg_pkt_gen {Q}. Arguments mg_ports {Q}. Arguments mg_cps {Q}.
Arguments mg_delta_sec {Q}. Arguments mg_start_time {Q}. Arguments mg_port_mask {Q}. Arguments mg_max_ports {Q}.
Arguments mg_rx_check {Q}. Arguments mg_nat {Q}. Arguments mg_do_stop {Q}.

(** 0 and 1, 2 and 3, ... are peers. *)
Definition swap_port (port_id : Z) : Z :=
  let offset := u8 (Z.shiftl (Z.shiftr port_id 1) 1) in
  u8 (offset + Z.lxor (port_id mod 2) 1).

(** What sending meets, per port: the clock, the result of the port's [tx] and the pool. *)
Record send_env : Type := mkSendEnv { se_tick : Z -> Z; se_tx : Z -> Z; se_pool : Z -> Z -> option bytes }.

(** A received packet, with what its handling meets: [ri_tick] and [ri_tick32] are for the
    receive check. *)
Record rx_item : Type := mkRxItem { ri_buf : rte_mbuf; ri_env : rx_env; ri_tick : Z; ri_tick32 : Z }.

(** A message of a core. *)
Inductive latency_msg : Type :=
  | LATENCY_PKT (dir latency_offset : Z) (pkt : rx_item)
  | OTHER_MSG.

Section Manager.
Context {Q : Type} `{PQueue Q} (o : latency_opts) (start_time : Z).
Implicit Types (m : CLatencyManager Q).

Definition mg_set_ports (x : list CCPortLatency) m : CLatencyManager Q :=
  mkLatencyMgr (mg_mode m) (mg_pkt_gen m) x (mg_cps m) (mg_delta_sec m) (mg_start_time m) (mg_port_mask m)
    (mg_max_ports m) (mg_rx_check m) (mg_nat m) (mg_do_stop m).
Definition mg_set_pkt_gen (x : CLatencyPktInfo) m : CLatencyManager Q :=
  mkLatencyMgr (mg_mode m) x (mg_ports m) (mg_cps m) (mg_delta_sec m) (mg_start_time m) (mg_port_mask m)
    (mg_max_ports m) (mg_rx_check m) (mg_nat m) (mg_do_stop m).
Definition mg_set_start_time (x : Z) m : CLatencyManager Q :=
  mkLatencyMgr (mg_mode m) (mg_pkt_gen m) (mg_ports m) (mg_cps m) (mg_delta_sec m) x (mg_port_mask m)
    (mg_max_ports m) (mg_rx_check m) (mg_nat m) (mg_do_stop m).
Definition mg_set_checks (r : RxCheckManager Q) (g : CNatRxManager) m : CLatencyManager Q :=
  mkLatencyMgr (mg_mode m) (mg_pkt_gen m) (mg_ports m) (mg_cps m) (mg_delta_sec m) (mg_start_time m) (mg_port_mask m)
    (mg_max_ports m) r g (mg_do_stop m).
Definition mg_set_do_stop (x : bool) m : CLatencyManager Q :=
  mkLatencyMgr (mg_mode m) (mg_pkt_gen m) (mg_ports m) (mg_cps m) (mg_delta_sec m) (mg_start_time m) (mg_port_mask m)
    (mg_max_ports m) (mg_rx_check m) (mg_nat m) x.
Definition set_mask (x : Z) m : CLatencyManager Q :=
  mkLatencyMgr (mg_mode m) (mg_pkt_gen m) (mg_ports m) (mg_cps m) (mg_delta_sec m) (mg_start_time m) x
    (mg_max_ports m) (mg_rx_check m) (mg_nat m) (mg_do_stop m).

(** The ports in use, in order. *)
Definition port_ids m : list Z := seqZ 0 (mg_max_ports m).
Definition get_port (i : Z) m : res CCPortLatency := get_idx (mg_ports m) i.
Definition put_port (i : Z) (p : CCPortLatency) m : res (CLatencyManager Q) :=
  l ← set_idx (mg_ports m) i p; Ok (mg_set_ports l m).
Definition upd_port (f : CCPortLatency -> CCPortLatency) (i : Z) m : res (CLatencyManager Q) :=
  p ← get_port i m; put_port i (f p) m.
(** A loop over the ports in use. *)
Definition each_port (f : Z -> CLatencyManager Q -> res (CLatencyManager Q)) m : res (CLatencyManager Q) :=
  foldl (fun r i => m ← r; f i m) (Ok m) (port_ids m).

(** [Create], on the memory [old]. [threads] is the number of threads that generate traffic
    and [tick] the clock, for the receive check. The CPU meter and [m_d_time], which nothing
    reads, are left out. *)
Definition create_mode : CLatencyPktMode :=
  let md := lo_l_pkt_mode o in
  if (md =? 1) || (md =? 2) || (md =? 3) then ModeICMP md else ModeSCTP md.

Definition LatencyManager_Create (cfg : CLatencyManagerCfg) (threads tick : Z) (old : CLatencyManager Q)
  : res (CLatencyManager Q) :=
  let max_ports := cfg_max_ports cfg in
  _ ← c_assert (max_ports <=? MAX_LATENCY_PORTS);
  _ ← c_assert (max_ports mod 2 =? 0);
  g ← LatencyPktInfo_Create create_mode (mg_pkt_gen old);
  let m := mkLatencyMgr create_mode g (mg_ports old) (mg_cps old) (mg_delta_sec old) (mg_start_time old) 0xffffffff
             max_ports (mg_rx_check old) (mg_nat old) false in
  m ← each_port (fun i => upd_port (lp_Create i (pi_get_payload_offset g) (pi_get_l4_offset g) (pi_get_pkt_size g)
                                      (swap_port i)) i) m;
  let rx := if lo_rx_check o
            then let r := RxCheckManager_Create (m_hist (tables (mg_rx_check old))) in
                 mkManager (m_tw r) (rx_set_cur_time (now_sec start_time tick) (tables r))
            else mg_rx_check old in
  let nat := if lo_learn o then NatCheck.Create threads (NatCheck.m_stats (mg_nat old)) else mg_nat old in
  Ok (mkLatencyMgr create_mode (set_ip (cfg_client_ip cfg) (cfg_server_ip cfg) (cfg_dual_port_mask cfg) g) (mg_ports m)
        (cfg_cps cfg) (double_div (double_of_Z 1) (cfg_cps cfg)) (mg_start_time m) 0xffffffff max_ports rx nat false).

Definition lm_reset m : res (CLatencyManager Q) := each_port (upd_port lp_reset) m.
Definition lm_stop m : CLatencyManager Q := mg_set_do_stop true m.
(** [update], once a second: the windows of the histograms. *)
Definition update m : res (CLatencyManager Q) :=
  each_port (fun i m =>
    p ← get_port i m; h ← hist_update (lp_hist p); put_port i (lp_set_stats h (lp_jitter p) p) m) m.

(** ** Sending *)

(** A manager and the packets sent on the way, each with its port. *)
Notation sending := (CLatencyManager Q * list (Z * rte_mbuf))%type.

Definition port_enabled (i : Z) m : bool := negb (Z.land (mg_port_mask m) (Z.shiftl 1 i) =? 0).

Definition send_port (e : send_env) (i : Z) m : res sending :=
  if port_enabled i m then
    p ← get_port i m;
    if can_send_packet o (i mod 2) p then
      '(b, g) ← generate_pkt o (se_pool e i) i (external_nat_ip p) (mg_pkt_gen m);
      '(mem, p) ← update_packet o (mg_mode m) (se_tick e i) i (mb_mem b) p;
      let b := mkMbuf mem (mb_len b) (mb_next b) in
      let p := lp_inc (if se_tx e i =? 0 then l_tx_pkt_ok else l_tx_pkt_err) p in
      m ← put_port i p (mg_set_pkt_gen g m);
      Ok (m, [(i, b)])
    else Ok (m, [])
  else Ok (m, []).

Definition send_loop (e : send_env) (ids : list Z) (m : CLatencyManager Q) : res sending :=
  foldl (fun r i => '(m, out) ← r; '(m, new) ← send_port e i m; Ok (m, out ++ new)) (Ok (m, [])) ids.
Definition send_pkt_all_ports (tick : Z) (e : send_env) m : res sending :=
  let m := mg_set_start_time tick m in send_loop e (port_ids m) m.

(** ** Receiving *)

(** [handle_rx_pkt], on port [i]. *)
Definition handle_rx_pkt (i : Z) (x : rx_item) m : res (CLatencyManager Q) :=
  p ← get_port i m;
  '(_, rxc, p, g) ← check_packet o (mg_mode m) (ri_env x) (ri_buf x) p (mg_nat m);
  m ← put_port i p m;
  r ← (match rxc with
       | None => Ok (mg_rx_check m)
       | Some off => h ← rxh_read (mb_mem (ri_buf x)) off;
                     handle_packet start_time (ri_tick x) (ri_tick32 x) h (mg_rx_check m)
       end);
  Ok (mg_set_checks r g m).

Definition handle_rx_list (i : Z) (l : list rx_item) m : res (CLatencyManager Q) :=
  foldl (fun r x => m ← r; handle_rx_pkt i x m) (Ok m) l.

Definition handle_latency_pkt_msg (thread_id : Z) (dir latency_offset : Z) (pkt : rx_item) m : res (CLatencyManager Q) :=
  _ ← c_assert (latency_offset =? 0xdead);
  let rx_port_index := u8 (Z.shiftl thread_id 1 + Z.land dir 1) in
  _ ← c_assert (rx_port_index <? mg_max_ports m);
  handle_rx_pkt rx_port_index pkt m.

Definition run_rx_queue_msgs (thread_id : Z) (r : list latency_msg) m : res (CLatencyManager Q) :=
  foldl (fun st msg =>
      m ← st;
      match msg with
      | LATENCY_PKT dir off pkt => handle_latency_pkt_msg thread_id dir off pkt m
      | OTHER_MSG => Err AssertFail
      end) (Ok m) r.

(** [try_rx_queues], the rings in the order of their threads. *)
Definition try_rx_queues (rings : list (list latency_msg)) m : res (CLatencyManager Q) :=
  foldl (fun st '(ti, r) => m ← st; run_rx_queue_msgs (u8 ti) r m) (Ok m)
    (zip (seqZ 0 (zlength rings)) rings).

(** [try_rx]: [bursts] holds what each port gives, up to 64 packets. *)
Definition try_rx (bursts : list (list rx_item)) m : res (CLatencyManager Q) :=
  each_port (fun i m => handle_rx_list i (default [] (bursts !! Z.to_nat i)) m) m.

(** ** The loop of [start] *)

Definition SYNC_TIME_OUT : double := double_div (double_of_Z 1) (double_of_Z 1000).

(** A look at the clock, and what is received when it is too early. *)
Record poll : Type := mkPoll { po_tick : Z; po_rings : list (list latency_msg); po_bursts : list (list rx_item) }.

(** What a turn meets: the polls, the clock and the rings for the NAT manager, what sending
    meets, and whether [stop] is called in it. *)
Record turn_env : Type := mkTurnEnv {
  te_polls : list poll; te_now : double; te_rooms : Z -> ring_room;
  te_tick : Z; te_send : send_env; te_stop : bool }.

(** The node [FLOW_SYNC] is 0, [FLOW_PKT] is 1; [ll_sync] and [ll_pkt] are their times. *)
Record latency_loop : Type := mkLoop {
  ll_mgr : CLatencyManager Q; ll_q : Q; ll_sync : double; ll_pkt : double; ll_cnt : Z;
  ll_out : list (Z * rte_mbuf) }.
Definition node_time (sync pkt : double) (k : Z) : double := if k =? 0 then sync else pkt.

(** [vm_one_queue]: packets come from the rings too. The polls are the fuel. *)
Fixpoint wait_for_event (vm_one_queue : bool) (polls : list poll) (n_time : double) m : res (CLatencyManager Q) :=
  match polls with
  | [] => Err OutOfFuel
  | x :: polls =>
      if double_ltb (double_of_Z 0) (double_sub (now_sec start_time (po_tick x)) n_time) then Ok m
      else
        m ← (if vm_one_queue then try_rx_queues (po_rings x) m else Ok m);
        m ← try_rx (po_bursts x) m;
        wait_for_event vm_one_queue polls n_time m
  end.

(** A turn, and whether the loop goes on. *)
Definition latency_turn (iter : Z) (vm_one_queue : bool) (e : turn_env) (s : latency_loop) : res (latency_loop * bool) :=
  match pq_top (ll_q s) with
  | None => Ok (s, false)
  | Some node =>
      let key := node_time (ll_sync s) (ll_pkt s) in
      m ← wait_for_event vm_one_queue (te_polls e) (key node) (ll_mgr s);
      s ← (if node =? 0 then
             g ← (if lo_learn o then handle_aging (te_now e) (te_rooms e) (mg_nat m) else Ok (mg_nat m));
             let q := pq_pop key (ll_q s) in
             let sync := double_add (ll_sync s) SYNC_TIME_OUT in
             Ok (mkLoop (mg_set_checks (mg_rx_check m) g m) (pq_push (node_time sync (ll_pkt s)) node q) sync (ll_pkt s)
                   (ll_cnt s) (ll_out s))
           else
             '(m, out) ← send_pkt_all_ports (te_tick e) (te_send e) m;
             let q := pq_pop key (ll_q s) in
             let pkt := double_add (ll_pkt s) (mg_delta_sec m) in
             Ok (mkLoop m (pq_push (node_time (ll_sync s) pkt) node q) (ll_sync s) pkt (ll_cnt s) (ll_out s ++ out)));
      let m := mg_set_do_stop (mg_do_stop (ll_mgr s) || te_stop e) (ll_mgr s) in
      if mg_do_stop m || ((0 <? iter) && (iter <? ll_cnt s))
      then Ok (mkLoop m (ll_q s) (ll_sync s) (ll_pkt s) (ll_cnt s) (ll_out s), false)
      else Ok (mkLoop m (ll_q s) (ll_sync s) (ll_pkt s) (s32 (ll_cnt s + 1)) (ll_out s), true)
  end.

(** The turns, until the loop ends or the environment does; the result tells which. *)
Fixpoint latency_turns (iter : Z) (vm_one_queue : bool) (es : list turn_env) (s : latency_loop)
  : res (latency_loop * bool) :=
  match es with
  | [] => Ok (s, true)
  | e :: es =>
      '(s, go) ← latency_turn iter vm_one_queue e s;
      if (go : bool) then latency_turns iter vm_one_queue es s else Ok (s, false)
  end.

(** The first times of the nodes: [now1] and [now2] are the readings of the clock. *)
Definition SYNC_DELAY : double := double_div (double_of_Z 7) (double_of_Z 1000).
Definition loop_init (now1 now2 : double) m : latency_loop :=
  let sync := double_add now1 SYNC_DELAY in
  let q := pq_push (node_time sync now2) 0 pq_new in
  mkLoop (mg_set_do_stop false m) (pq_push (node_time sync now2) 1 q) sync now2 0 [].

(** [start], as far as the environment goes. *)
Definition start (iter : Z) (vm_one_queue : bool) (now1 now2 : double) (es : list turn_env) m
  : res (CLatencyManager Q * list (Z * rte_mbuf) * bool) :=
  '(s, going) ← latency_turns iter vm_one_queue es (loop_init now1 now2 m);
  let m := ll_mgr s in
  m ← (if negb (going : bool) && lo_rx_check o
       then r ← tw_drain (mg_rx_check m); Ok (mg_set_checks r (mg_nat m) m) else Ok m);
  Ok (m, ll_out s, going).

(** ** Totals *)

Definition ports_in_use m : list CCPortLatency := take (Z.to_nat (mg_max_ports m)) (mg_ports m).
Definition max_of (l : list double) : double :=
  foldl (fun l x => if double_ltb l x then x else l) (double_of_Z 0) l.
Definition get_max_latency m : double :=
  max_of ((fun p => double_of_Z (get_usec (m_max_dt (lp_hist p)))) <$> ports_in_use m).
Definition get_avr_latency m : double := max_of ((fun p => m_average (lp_hist p)) <$> ports_in_use m).
Definition get_total_pkt m : Z :=
  foldl (fun t p => u64 (t + lp_cnt p l_tx_pkt_ok)) 0 (ports_in_use m).
Definition get_total_bytes m : Z :=
  foldl (fun t p => u64 (t + lp_cnt p l_tx_pkt_ok * (pi_get_pkt_size (mg_pkt_gen m) + 4))) 0 (ports_in_use m).

(** [is_any_error] stops at the first port with one. *)
Fixpoint any_error (ports : list CCPortLatency) (l : list CCPortLatency) : res bool :=
  match l with
  | [] => Ok false
  | p :: l => rx ← get_idx ports (lp_rx_port p);
              if is_any_err p (lp_cnt rx l_pkt_ok) then Ok true else any_error ports l
  end.
Definition is_any_error m : res bool := any_error (mg_ports m) (ports_in_use m).
End Manager.
