(* ===== verification/LatencySend.v ===== *)
(** * The latency packets that are sent

    The packet that a port sends is the template of the mode with the addresses of the port
    pair, the number and the clock of the port, and right checksums. *)

From S2P Require Import Prelude Double ByteMem PktCmn PktCmnFacts PacketHdrs PacketHdrsFacts ByteFrame PktDesc PktParser PktParserFacts Histogram RxHeader RxCheck RxCheckFacts CapTemplate RxInsert TupleGen FlowNode FlowNodeFacts Plugins SendNode NatCheck NatCheckFacts PrioQueue Latency LatencyMgr LatencyFacts.

(** ** The template *)

(** What [Create] makes of a mode, whatever addresses the node has now. *)
Record latency_info (md : CLatencyPktMode) (g : CLatencyPktInfo) : Prop := {
  gi_node : exists src dst, pi_dummy_node g = latency_set_addrs src dst latency_node;
  gi_raw : raw (fpi_packet (pi_pkt_info g)) = getPacketData md;
  gi_len : pkt_len (fpi_packet (pi_pkt_info g)) = 62;
  gi_big : m_big_mbuf (pi_pkt_info g) = None;
  gi_v4 : m_is_ipv6 (m_pkt_indication (pi_pkt_info g)) = false;
  gi_ip : fast_ip (pi_pkt_info g) = 14;
  gi_desc : let d := fpi_desc (pi_pkt_info g) in
    IsTcp d = false /\ IsUdp d = false /\ IsIcmp d = true /\ IsInitSide d = true /\ IsLearn d = false /\ IsPluginEnable d = false;
  gi_offsets : pi_get_payload_offset g = 42 /\ pi_get_l4_offset g = 34 /\ pi_get_pkt_size g = 62;
  gi_client : 0 <= pi_client_ip g < 4294967296;
  gi_server : 0 <= pi_server_ip g < 4294967296 }.

Lemma LatencyPktInfo_Create_ok md old c s mask :
  0 <= c < 4294967296 -> 0 <= s < 4294967296 ->
  exists g, LatencyPktInfo_Create md old = Ok g /\ latency_info md (set_ip c s mask g) /\
    pi_get_payload_offset g = 42 /\ pi_get_l4_offset g = 34 /\ pi_get_pkt_size g = 62.
Proof.
  intros Hc Hs. destruct md; (eexists; split; [reflexivity|]; split; [|by split_and!]);
    (split; [by exists 0, 0|reflexivity..| | | |]; try done; cbv zeta; split_and!; vm_compute; reflexivity).
Qed.

(** The addresses of port [i]: client and server of the pair, the client's address as a NAT
    device has shown it once it is known. *)
Lemma latency_addrs_words g i ext :
  0 <= pi_client_ip g < 4294967296 -> 0 <= pi_server_ip g < 4294967296 -> 0 <= ext < 4294967296 ->
  0 <= fst (latency_addrs g i ext) < 4294967296 /\ 0 <= snd (latency_addrs g i ext) < 4294967296.
Proof.
  intros Hc Hs He. unfold latency_addrs. destruct (ext =? 0), (i mod 2 =? 0); cbn [fst snd]; split; try apply u32_range; lia.
Qed.

(** The first 62 bytes of [m] are the packet of the mode, but for the addresses. *)
Record generated (md : CLatencyPktMode) (src dst : Z) (b : rte_mbuf) : Prop := {
  gn_len : mb_len b = 62;
  gn_next : mb_next b = [];
  gn_size : zlength (mb_mem b) = FIRST_PKT_SIZE;
  gn_hdr : ip_header (mb_mem b) 14 /\ ihl (mb_mem b) 14 = 5;
  gn_sum : IP_isChecksumOK (mb_mem b) 14 = Ok true;
  gn_src : IP_getSourceIp (mb_mem b) 14 = Ok src;
  gn_dst : IP_getDestIp (mb_mem b) 14 = Ok dst;
  gn_rest : exists p0, agree 62 (getPacketData md) p0 /\ frame p0 (mb_mem b) [(14 + 10, 2); (14 + 12, 8)] }.

Lemma data_size md : zlength (getPacketData md) = 62 /\ bytes_ok (getPacketData md) /\ ihl (getPacketData md) 14 = 5.
Proof. destruct md; (split; [reflexivity|]); (split; [repeat constructor; lia|vm_compute; reflexivity]). Qed.

Lemma generate_pkt_spec o pool_get md i ext g mem :
  latency_info md g -> 0 <= ext < 4294967296 -> pool_get FIRST_PKT_SIZE = Some mem -> bytes_ok mem ->
  zlength mem = FIRST_PKT_SIZE ->
  exists b g', generate_pkt o pool_get i ext g = Ok (b, g') /\
    generated md (fst (latency_addrs g i ext)) (snd (latency_addrs g i ext)) b /\ latency_info md g' /\
    pi_client_ip g' = pi_client_ip g /\ pi_server_ip g' = pi_server_ip g /\ pi_dual_port_mask g' = pi_dual_port_mask g.
Proof.
  intros [(s0 & d0 & En) Eraw Elen Ebig E4 Eip (D1 & D2 & D3 & D4 & D5 & D6) Eoff Hc Hs] He Hpool Hmem Hz.
  pose proof (latency_addrs_words g i ext Hc Hs He) as Hw. destruct (data_size md) as (Hdz & Hdok & Hdi).
  unfold generate_pkt. destruct (latency_addrs g i ext) as [src dst] eqn:Ea. cbn [fst snd] in Hw. rewrite D6.
  set (n := latency_set_addrs src dst (pi_dummy_node g)).
  assert (Hn : node_words n) by (unfold n; rewrite En; split; cbn; lia).
  unfold do_generate_new_mbuf, small_mbuf, pktmbuf_alloc_small, alloc_from. rewrite Hpool. cbn [mbind res_bind].
  rewrite Elen. change (FIRST_PKT_SIZE <? 62) with false. cbv iota. unfold append_copy, mem_copy. rewrite Hz, Eraw, Hdz.
  change (FIRST_PKT_SIZE <? 62) with false. cbv iota. change FIRST_PKT_SIZE with 64 in *. rewrite decide_True by lia. cbn [mbind res_bind].
  change (Z.to_nat 0) with 0%nat. rewrite drop_0.
  destruct (mem_copy_start mem (getPacketData md) 62 Hmem Hdok) as (p0 & -> & Hp0 & Hzp & Hag); [lia..|].
  assert (Hh : ip_header (getPacketData md) 14) by (split; [done|lia|rewrite Hdi; lia|rewrite Hdi; lia]).
  destruct (agree_ip_header 62 _ p0 14 Hag Hp0 Hh) as [Hh0 Hi0]; [rewrite Hdi; lia|].
  destruct (update_ipv4_spec (lo_learn o) (pi_pkt_info g) n p0 Eip Hh0) as (p1 & E1 & [A1 A2 A3 A4 A5 _] & F); [by rewrite D5|done|].
  assert (Hwt : fst (wire_tuple (lo_learn o) (pi_pkt_info g) n) = (src, dst)).
  { unfold wire_tuple. rewrite D4. replace (cur_pkt_ip_addr_dir (pi_pkt_info g) n) with CLIENT_SIDE.
    - by destruct (lo_learn o).
    - unfold cur_pkt_ip_addr_dir. rewrite D4. unfold n. by rewrite En. }
  rewrite Hwt in A4, A5. cbn [fst snd] in A4, A5.
  unfold mbuf_upd, update_pkt_info. cbn [mb_mem mb_len mb_next]. rewrite E4, E1, D1, D2, D3. cbn [c_assert mbind res_bind].
  unfold append_big_mbuf. rewrite Ebig. do 2 eexists. split; [reflexivity|]. split; [|split; [|done]].
  - split; cbn [mb_mem mb_len mb_next fst snd]; try done; [change FIRST_PKT_SIZE with 64; rewrite (fr_len _ _ _ F); lia|split; [done|congruence]|]. exists p0. split; [done|].
    unfold addr_regions in F. by rewrite D5, andb_false_r, app_nil_r in F.
  - split; cbn [pi_dummy_node pi_pkt_info pi_client_ip pi_server_ip]; try done. exists src, dst. unfold n. by rewrite En.
Qed.

(** ** What the port adds *)

Record port_words (p : CCPortLatency) : Prop := {
  pw_id : 0 <= lp_id p < 256;
  pw_tx : 0 <= lp_tx_seq p < 4294967296;
  pw_icmp : 0 <= lp_icmp_tx_seq p < 65536;
  pw_ip : 0 <= lp_nat_external_ip p < 4294967296 }.

(** The ICMP number of the next packet, and the one after it. *)
Definition sent_iseq (md : CLatencyPktMode) (p : CCPortLatency) : Z :=
  match md with
  | ModeSCTP _ => 0
  | ModeICMP submode => if submode =? L_PKT_SUBMODE_0_SEQ then 0 else lp_icmp_tx_seq p
  end.
Definition next_icmp (md : CLatencyPktMode) (p : CCPortLatency) : Z :=
  match md with
  | ModeSCTP _ => lp_icmp_tx_seq p
  | ModeICMP submode => if submode =? L_PKT_SUBMODE_0_SEQ then lp_icmp_tx_seq p else u16 (lp_icmp_tx_seq p + 1)
  end.
Definition sent_port (md : CLatencyPktMode) (p : CCPortLatency) : CCPortLatency :=
  lp_set_icmp (next_icmp md p) (lp_icmp_rx_seq p) (lp_set_seqs (u32 (lp_tx_seq p + 1)) (lp_rx_seq p) p).

(** The packet [m] that port [p], the [i]-th one, sends at [tick]. *)
Record sent_packet (o : latency_opts) (md : CLatencyPktMode) (i : Z) (p : CCPortLatency) (src dst tick : Z) (m : bytes)
  : Prop := {
  sp_mac : take 12 m = take 12 (lo_dst_src o (lp_id p));
  sp_sum : IP_isChecksumOK m 14 = Ok true;
  sp_src : IP_getSourceIp m 14 = Ok src;
  sp_dst : IP_getDestIp m 14 = Ok dst;
  sp_fields : latency_fields md 0 (lp_id p) (lp_tx_seq p) (u64 tick) (sent_iseq md p) m;
  sp_icmp : match md with
            | ModeSCTP _ => True
            | ModeICMP submode =>
                ICMP_getType m 34 = Ok (if negb (i mod 2 =? 0) && (submode =? L_PKT_SUBMODE_REPLY) then 0 else 8) /\
                ICMP_isCheckSumOk m 34 28 = Ok true
            end }.

(** The ICMP header of the packet, the rest of which is [28] bytes with it. *)
Lemma update_pkt_ok md m i p :
  bytes_ok m -> 62 <= zlength m -> 0 <= lp_icmp_tx_seq p < 65536 ->
  exists m', update_pkt md m 34 (i mod 2 =? 0) 28 (lp_icmp_tx_seq p) = Ok (m', next_icmp md p) /\
    frame m m' (match md with ModeSCTP _ => [] | ModeICMP _ => [(34, 8)] end) /\
    match md with
    | ModeSCTP _ => True
    | ModeICMP submode =>
        ICMP_getSeqNum m' 34 = Ok (sent_iseq md p) /\
        ICMP_getType m' 34 = Ok (if negb (i mod 2 =? 0) && (submode =? L_PKT_SUBMODE_REPLY) then 0 else 8) /\
        ICMP_isCheckSumOk m' 34 28 = Ok true
    end.
Proof.
  intros Hm Hz Hi. destruct md as [sub|sub]; [exists m; split; [done|]; split; [by apply frame_refl|done]|].
  unfold update_pkt, next_icmp, sent_iseq.
  set (q := if sub =? L_PKT_SUBMODE_0_SEQ then 0 else lp_icmp_tx_seq p).
  destruct (set_be16_frame m (34 + 6) q Hm) as (m1 & E1 & G1 & F1); [unfold in_range; lia|unfold q; destruct (_ =? _); lia|].
  assert (Hq : (if sub =? L_PKT_SUBMODE_0_SEQ then m ← ICMP_setSeqNum m 34 0; Ok (m, lp_icmp_tx_seq p)
      else m ← ICMP_setSeqNum m 34 (lp_icmp_tx_seq p); Ok (m, u16 (lp_icmp_tx_seq p + 1))) =
    Ok (m1, if sub =? L_PKT_SUBMODE_0_SEQ then lp_icmp_tx_seq p else u16 (lp_icmp_tx_seq p + 1))).
  { unfold ICMP_setSeqNum. unfold q in E1. destruct (sub =? _); by rewrite E1. }
  rewrite Hq. cbn [mbind res_bind]. unfold ICMP_setType.
  set (t := if negb (i mod 2 =? 0) && (sub =? L_PKT_SUBMODE_REPLY) then 0 else 8).
  destruct (st_frame 1 m1 34 t (fr_ok _ _ _ F1)) as (m2 & E2 & G2 & F2); [unfold in_range; rewrite (fr_len _ _ _ F1); lia|].
  rewrite E2. cbn [mbind res_bind].
  destruct (ICMP_updateCheckSum_ok m2 34 28 (fr_ok _ _ _ F2)) as (m3 & E3 & Hc & Hs); [lia..| |].
  { rewrite (fr_len _ _ _ F2), (fr_len _ _ _ F1). change (28 mod 2) with 0. lia. }
  rewrite E3. cbn [mbind res_bind]. exists m3. split; [done|].
  assert (Hm3 : bytes_ok m3).
  { unfold ICMP_updateCheckSum, ICMP_setChecksum, set_be16 in E3. apply bind_Ok in E3 as (a & Ea & E3). apply bind_Ok in E3 as (c & _ & E3).
    eapply st_ok; [|exact E3]. eapply st_ok; [|exact Ea]. apply F2. }
  pose proof (frame_same_except _ _ _ _ Hm3 Hs) as F3. split.
  - eapply frame_weaken; [exact (frame_trans _ _ _ _ _ F1 (frame_trans _ _ _ _ _ F2 F3))|]. intros j Hj. apart_tac.
  - split; [|split; [|done]].
    + unfold ICMP_getSeqNum. rewrite (frame_be16 _ _ _ _ F3), (frame_be16 _ _ _ _ F2) by apart_tac. done.
    + unfold ICMP_getType. rewrite (frame_ld 1 _ _ _ _ F3) by apart_tac. rewrite G2. f_equal. unfold t. by destruct (_ && _).
Qed.

(** The template behind other bytes. *)
Lemma data_fields md m p0 l :
  agree 62 (getPacketData md) p0 -> frame p0 m l -> apart 12 12 l ->
  ETH_getNextProtocol m 0 = Ok ETH_IP /\ IP_getTotalLength m 14 = Ok 48 /\ IP_getProtocol m 14 = Ok (getProtocol md).
Proof.
  intros Ha F Hl.
  assert (Hsub : forall f n, 12 <= f -> f + n <= 24 -> apart f n l) by (intros f n H1 H2; eapply apart_sub; [exact Hl|lia|lia]).
  unfold ETH_getNextProtocol, IP_getTotalLength, IP_getProtocol, o_Length, o_Protocol.
  change (0 + 12) with 12. change (14 + 2) with 16. change (14 + 9) with 23.
  rewrite (frame_be16 _ _ _ 12 F), (frame_ld 2 _ _ _ 16 F), (frame_ld 1 _ _ _ 23 F) by (apply Hsub; cbn; lia).
  rewrite (agree_be16 62 _ _ 12 Ha), (agree_ld 2 62 _ _ 16 Ha), (agree_ld 1 62 _ _ 23 Ha) by (cbn; lia).
  destruct md; split_and!; vm_compute; reflexivity.
Qed.

(** The beginning of a buffer that is left alone. *)
Lemma frame_take m m' k n : 0 <= k -> frame m m' [(k, n)] -> take (Z.to_nat k) m' = take (Z.to_nat k) m.
Proof.
  intros Hk F. apply list_eq. intros j. destruct (decide (j < Z.to_nat k)%nat); [|by rewrite !lookup_take_ge by lia].
  rewrite !lookup_take_lt by lia. pose proof (fr_len _ _ _ F) as Hz. unfold zlength in Hz.
  destruct (decide (j < length m)%nat); [|by rewrite !lookup_ge_None_2 by lia].
  replace j with (Z.to_nat (Z.of_nat j)) by lia. rewrite !lookup_in_range by (unfold zlength; lia). f_equal.
  apply (frame_byte _ _ _ _ F); [lia|apart_tac].
Qed.

Lemma magic_range id : 0 <= id < 256 -> 0 <= Z.lor LATENCY_MAGIC id < 4294967296.
Proof.
  intros Hid. assert (Hall : forallb (fun i => (0 <=? Z.lor LATENCY_MAGIC i) && (Z.lor LATENCY_MAGIC i <? 4294967296)) (seqZ 0 256) = true)
    by (vm_compute; reflexivity).
  rewrite forallb_forall in Hall. specialize (Hall id). rewrite andb_true_iff in Hall. destruct Hall; [|lia].
  apply list_elem_of_In, elem_of_seqZ. lia.
Qed.

(** The stores of the latency header, from a packet that is generated. *)
Lemma update_packet_spec o md i p b src dst tick :
  port_shape p -> port_words p -> generated md src dst b ->
  bytes_ok (lo_dst_src o (lp_id p)) -> 12 <= zlength (lo_dst_src o (lp_id p)) ->
  exists m, update_packet o md tick i (mb_mem b) p = Ok (m, sent_port md p) /\ zlength m = 64 /\
    sent_packet o md i p src dst tick m.
Proof.
  intros [Spl Sl4 Ssz _] [Wid Wtx Wic _] [_ _ Gz [Hh0 Hi0] Gsum Gsrc Gdst (p0 & Hag & F0)] Hmac Hmacz.
  change FIRST_PKT_SIZE with 64 in Gz. set (m0 := mb_mem b) in *. pose proof (fr_ok _ _ _ F0) as Hm0.
  unfold update_packet. destruct (mem_copy_frame m0 0 (lo_dst_src o (lp_id p)) 12 Hm0 Hmac) as (m1 & E1 & F1); [lia..|].
  rewrite E1. cbn [mbind res_bind]. pose proof (fr_len _ _ _ F1) as Z1. rewrite Spl.
  destruct (st_frame 4 m1 (42 + 8) (Z.lor LATENCY_MAGIC (lp_id p)) (fr_ok _ _ _ F1)) as (m2 & E2 & G2 & F2); [unfold in_range; lia|].
  rewrite E2. cbn [mbind res_bind]. pose proof (fr_len _ _ _ F2) as Z2.
  destruct (st_frame 8 m2 42 tick (fr_ok _ _ _ F2)) as (m3 & E3 & G3 & F3); [unfold in_range; lia|].
  rewrite E3. cbn [mbind res_bind]. pose proof (fr_len _ _ _ F3) as Z3.
  destruct (st_frame 4 m3 (42 + 12) (lp_tx_seq p) (fr_ok _ _ _ F3)) as (m4 & E4 & G4 & F4); [unfold in_range; lia|].
  rewrite E4. cbn [mbind res_bind]. pose proof (fr_len _ _ _ F4) as Z4.
  cbn [lp_l4_offset lp_pkt_size lp_icmp_tx_seq lp_icmp_rx_seq lp_set_seqs]. rewrite Sl4, Ssz. change (u16 (62 - 34)) with 28.
  destruct (update_pkt_ok md m4 i p (fr_ok _ _ _ F4)) as (m & E5 & F5 & H5); [lia|done|].
  rewrite E5. cbn [mbind res_bind]. exists m. pose proof (fr_len _ _ _ F5) as Z5. split; [done|]. split; [lia|].
  set (l5 := match md with ModeSCTP _ => [] | ModeICMP _ => [(34, 8)] end) in *.
  assert (Hl5 : forall f n, 0 <= n -> f + n <= 34 \/ 42 <= f -> apart f n l5) by (intros f n Hn Hf; unfold l5; destruct md; apart_tac).
  assert (F : frame m0 m [(0, 12); (34, 28)]).
  { eapply frame_weaken; [exact (frame_trans _ _ _ _ _ F1 (frame_trans _ _ _ _ _ F2 (frame_trans _ _ _ _ _ F3 (frame_trans _ _ _ _ _ F4 F5))))|].
    intros j Hj. rewrite !apart_app. split_and!; try apart_tac. apply Hl5; [lia|]. apart_tac. }
  destruct (frame_ip_header _ _ _ 14 F Hh0) as [Hh Hi]; [apart_tac|].
  assert (Hd : ETH_getNextProtocol m 0 = Ok ETH_IP /\ IP_getTotalLength m 14 = Ok 48 /\ IP_getProtocol m 14 = Ok (getProtocol md)).
  { apply (data_fields md m p0 _ Hag (frame_trans _ _ _ _ _ F0 F)). apart_tac. }
  destruct Hd as (He & Htl & Hpr). unfold IP_getSourceIp, IP_getDestIp, o_Source, o_Destination in *. split.
  - unfold mem_copy in E1. case_decide as Hr; [|done]. injection E1 as E1.
    assert (T1 : take 12 m1 = take 12 (lo_dst_src o (lp_id p))).
    { subst m1. change (Z.to_nat 0) with 0%nat. change (Z.to_nat 12) with 12%nat. rewrite drop_0. unfold splice. rewrite take_0, app_nil_l.
      unfold zlength in *. rewrite take_app_le by (rewrite length_take; lia). rewrite take_take. by replace (12 `min` 12)%nat with 12%nat by lia. }
    rewrite <- T1. change 12%nat with (Z.to_nat 12). apply (frame_take m1 m 12 64); [lia|].
    eapply frame_weaken; [exact (frame_trans _ _ _ _ _ F2 (frame_trans _ _ _ _ _ F3 (frame_trans _ _ _ _ _ F4 F5)))|].
    intros j Hj. rewrite !apart_app. split_and!; try apart_tac. apply Hl5; [lia|]. apart_tac.
  - rewrite (frame_checksum _ _ _ _ F Hh0); [done|rewrite Hi0; apart_tac].
  - unfold IP_getSourceIp, o_Source. by rewrite (frame_ld 4 _ _ _ _ F) by apart_tac.
  - unfold IP_getDestIp, o_Destination. by rewrite (frame_ld 4 _ _ _ _ F) by apart_tac.
  - split; try done.
    + apply F5.
    + lia.
    + by left.
    + change (14 + 0) with 14. rewrite IP_getHeaderLength_eq by (apply F5 || lia). by rewrite Hi, Hi0.
    + destruct md; [done|apply H5].
    + change (42 + 0) with 42. rewrite (frame_ld 8 _ _ _ _ F5), (frame_ld 8 _ _ _ _ F4) by (apart_tac || (apply Hl5; lia)). exact G3.
    + change (50 + 0) with 50. rewrite (frame_ld 4 _ _ _ _ F5), (frame_ld 4 _ _ _ _ F4), (frame_ld 4 _ _ _ _ F3) by (apart_tac || (apply Hl5; cbn; lia)).
      change (42 + 8) with 50 in G2. rewrite G2. f_equal. apply Z.mod_small. change (256 ^ Z.of_nat 4) with 4294967296. by apply magic_range.
    + change (54 + 0) with 54. rewrite (frame_ld 4 _ _ _ _ F5) by (apply Hl5; cbn; lia). change (42 + 12) with 54 in G4. rewrite G4. f_equal.
      apply Z.mod_small. change (256 ^ Z.of_nat 4) with 4294967296. lia.
  - destruct md; [done|]. by destruct H5 as (_ & ? & ?).
Qed.

(** ** The ports of the manager *)

Record port_ok (i : Z) (p : CCPortLatency) : Prop := {
  po_shape : port_shape p;
  po_words : port_words p;
  po_id : lp_id p = i;
  po_peer : lp_rx_port p = swap_port i }.

Record mgr_ok {Q : Type} (m : CLatencyManager Q) : Prop := {
  mo_gen : latency_info (mg_mode m) (mg_pkt_gen m);
  mo_max : 0 <= mg_max_ports m <= MAX_LATENCY_PORTS;
  mo_even : mg_max_ports m mod 2 = 0;
  mo_size : mg_max_ports m <= zlength (mg_ports m);
  mo_port : forall i p, i < mg_max_ports m -> get_port i m = Ok p -> port_ok i p }.

(** What sending meets: addresses for every port, and a buffer of the pool. *)
Definition opts_ok (o : latency_opts) : Prop :=
  forall k, 0 <= k < MAX_LATENCY_PORTS -> bytes_ok (lo_dst_src o k) /\ 12 <= zlength (lo_dst_src o k).
Definition pool_ok (e : send_env) : Prop :=
  forall i, exists mem, se_pool e i FIRST_PKT_SIZE = Some mem /\ bytes_ok mem /\ zlength mem = FIRST_PKT_SIZE.

Section Ports.
Context {Q : Type} `{PQueue Q}.
Implicit Types (m : CLatencyManager Q).

Lemma put_port_Ok i p m : 0 <= i < zlength (mg_ports m) ->
  put_port i p m = Ok (mg_set_ports (<[Z.to_nat i := p]> (mg_ports m)) m).
Proof. intros Hi. unfold put_port. by rewrite set_idx_in. Qed.

Lemma get_port_put i j p m : 0 <= i < zlength (mg_ports m) -> 0 <= j ->
  get_port j (mg_set_ports (<[Z.to_nat i := p]> (mg_ports m)) m) = if j =? i then Ok p else get_port j m.
Proof.
  intros Hi Hj. unfold get_port. cbn [mg_ports mg_set_ports]. unfold zlength in Hi. destruct (Z.eqb_spec j i) as [->|Hne].
  - apply get_idx_Ok. split; [lia|]. apply list_lookup_insert_eq. lia.
  - unfold get_idx. rewrite !decide_True by lia. by rewrite list_lookup_insert_ne by lia.
Qed.

(** A loop that updates the ports [a], [a + 1], ... *)
Lemma upd_ports_loop (f : Z -> CCPortLatency -> CCPortLatency) n : forall a m,
  0 <= a -> a + Z.of_nat n <= zlength (mg_ports m) ->
  exists l, foldl (fun r i => m ← r; upd_port (f i) i m) (Ok m) (seqZ a (Z.of_nat n)) = Ok (mg_set_ports l m) /\
    zlength l = zlength (mg_ports m) /\
    forall j, 0 <= j -> get_port j (mg_set_ports l m) =
      if decide (a <= j < a + Z.of_nat n) then (p ← get_port j m; Ok (f j p)) else get_port j m.
Proof.
  induction n as [|n IH]; intros a m Ha Hz.
  - exists (mg_ports m). split; [by destruct m|]. split; [done|]. intros j Hj.
    rewrite decide_False by lia. by destruct m.
  - rewrite seqZ_cons by lia. cbn [foldl mbind res_bind]. unfold upd_port at 2.
    destruct (get_idx_total (mg_ports m) a) as [p Hp]; [lia|]. unfold get_port at 1. rewrite Hp. cbn [mbind res_bind].
    rewrite put_port_Ok by lia. replace (Z.pred (Z.of_nat (S n))) with (Z.of_nat n) by lia. rewrite <- Z.add_1_r.
    set (m1 := mg_set_ports _ m). assert (Hz1 : zlength (mg_ports m1) = zlength (mg_ports m)).
    { unfold m1, zlength. cbn [mg_ports mg_set_ports]. by rewrite length_insert. }
    destruct (IH (a + 1) m1) as (l & El & Hl & Hg); [lia|lia|]. exists l.
    split; [by rewrite El|]. split; [lia|]. intros j Hj. change (mg_set_ports l m) with (mg_set_ports l m1). rewrite Hg by done.
    unfold m1. rewrite get_port_put by lia. destruct (Z.eqb_spec j a) as [->|Hne].
    + rewrite decide_False, decide_True by lia. unfold get_port. by rewrite Hp.
    + by destruct (decide (a + 1 <= j < a + 1 + Z.of_nat n)); [rewrite decide_True by lia|rewrite decide_False by lia].
Qed.
End Ports.

Lemma swap_port_eq i : 0 <= i < 128 -> swap_port i = i + 1 - 2 * (i mod 2).
Proof.
  intros Hi. assert (Hall : forallb (fun i => swap_port i =? i + 1 - 2 * (i mod 2)) (seqZ 0 128) = true) by (vm_compute; reflexivity).
  rewrite forallb_forall in Hall. apply Z.eqb_eq, Hall, list_elem_of_In, elem_of_seqZ. lia.
Qed.

(** Peers are peers of each other. *)
Lemma swap_port_peer i n : 0 <= i < n -> n <= 12 -> n mod 2 = 0 ->
  0 <= swap_port i < n /\ swap_port (swap_port i) = i /\ swap_port i <> i.
Proof. intros Hi Hn He. rewrite (swap_port_eq i) by lia. rewrite swap_port_eq by (Z.div_mod_to_equations; lia). Z.div_mod_to_equations; lia. Qed.

Lemma lp_Create_ok i old : 0 <= i < MAX_LATENCY_PORTS -> port_ok i (lp_Create i 42 34 62 (swap_port i) old).
Proof.
  unfold MAX_LATENCY_PORTS. intros Hi. split; [|split; cbn; lia|done|done].
  split; [done|done|done|]. split; [reflexivity|]. cbn. by repeat constructor.
Qed.

(** What [Create] makes. *)
Lemma LatencyManager_Create_spec {Q} `{PQueue Q} o st cfg threads tick (old : CLatencyManager Q) :
  0 <= cfg_max_ports cfg <= MAX_LATENCY_PORTS -> cfg_max_ports cfg mod 2 = 0 ->
  zlength (mg_ports old) = MAX_LATENCY_PORTS ->
  0 <= cfg_client_ip cfg < 4294967296 -> 0 <= cfg_server_ip cfg < 4294967296 ->
  exists m, LatencyManager_Create o st cfg threads tick old = Ok m /\ mgr_ok m /\
    mg_mode m = create_mode o /\ mg_max_ports m = cfg_max_ports cfg /\
    forall i p, i < mg_max_ports m -> get_port i m = Ok p -> exists q, p = lp_Create i 42 34 62 (swap_port i) q.
Proof.
  intros Hm He Hz Hc Hs. unfold LatencyManager_Create. rewrite (proj2 (Z.leb_le _ _)) by lia. rewrite He. cbn [c_assert Z.eqb mbind res_bind].
  destruct (LatencyPktInfo_Create_ok (create_mode o) (mg_pkt_gen old) (cfg_client_ip cfg) (cfg_server_ip cfg)
    (cfg_dual_port_mask cfg) Hc Hs) as (g & -> & Hg & G1 & G2 & G3). cbn [mbind res_bind].
  rewrite G1, G2, G3. unfold each_port, port_ids. cbn [mg_max_ports].
  set (m0 := mkLatencyMgr _ _ _ _ _ _ _ _ _ _ _). destruct (upd_ports_loop (fun i => lp_Create i 42 34 62 (swap_port i)) (Z.to_nat (cfg_max_ports cfg)) 0 m0)
    as (l & El & Hl & Hp); [lia|unfold m0; cbn [mg_ports]; lia|].
  rewrite Z2Nat.id in El, Hp by lia. rewrite El. cbn [mbind res_bind]. eexists. split; [reflexivity|].
  assert (Hports : forall i p, i < cfg_max_ports cfg -> get_idx l i = Ok p -> exists q, p = lp_Create i 42 34 62 (swap_port i) q).
  { intros i p Hi Hget. pose proof (proj1 (proj1 (get_idx_Ok _ _ _) Hget)).
    specialize (Hp i ltac:(lia)). rewrite decide_True in Hp by lia. unfold get_port in Hp at 1. cbn [mg_ports mg_set_ports] in Hp.
    rewrite Hget in Hp. symmetry in Hp. apply bind_Ok in Hp as (q & _ & E). injection E as <-. by exists q. }
  split; [|by split_and!]. split; cbn [mg_mode mg_pkt_gen mg_max_ports mg_ports mg_set_ports]; try done.
  - unfold m0 in Hl. cbn [mg_ports] in Hl. lia.
  - intros i p Hi Hget. destruct (Hports i p Hi Hget) as [q ->]. apply lp_Create_ok.
    apply get_idx_Ok in Hget as [? _]. lia.
Qed.

(** ** A round of packets *)

Definition same_addrs (g g' : CLatencyPktInfo) : Prop :=
  pi_client_ip g' = pi_client_ip g /\ pi_server_ip g' = pi_server_ip g /\ pi_dual_port_mask g' = pi_dual_port_mask g.
Lemma latency_addrs_same g g' i ext : same_addrs g g' -> latency_addrs g' i ext = latency_addrs g i ext.
Proof. intros (A & B & C). unfold latency_addrs. by rewrite A, B, C. Qed.

Lemma filter_bool_ext {A} (f g : A -> bool) (l : list A) :
  (forall x, x ∈ l -> f x = g x) -> filter (fun x => f x = true) l = filter (fun x => g x = true) l.
Proof.
  induction l as [|x l IH]; [done|]. intros Hx. rewrite !filter_cons, IH by (intros y Hy; apply Hx, elem_of_cons; by right).
  rewrite (Hx x) by (apply elem_of_cons; by left). done.
Qed.

Section Round.
Context {Q : Type} `{PQueue Q} (o : latency_opts) (e : send_env).
Implicit Types (m : CLatencyManager Q).

(** Whether port [i] sends in a round. *)
Definition sends (i : Z) m : bool :=
  port_enabled i m && match get_port i m with Ok p => can_send_packet o (i mod 2) p | Err _ => false end.
Definition after_send (i : Z) m (p : CCPortLatency) : CCPortLatency :=
  if sends i m then lp_inc (if se_tx e i =? 0 then l_tx_pkt_ok else l_tx_pkt_err) (sent_port (mg_mode m) p) else p.
(** What it sends. *)
Definition port_packet m (i : Z) (b : rte_mbuf) : Prop :=
  exists p, get_port i m = Ok p /\ mb_len b = 62 /\ mb_next b = [] /\ zlength (mb_mem b) = 64 /\
    let a := latency_addrs (mg_pkt_gen m) i (lp_nat_external_ip p) in
    sent_packet o (mg_mode m) i p (fst a) (snd a) (se_tick e i) (mb_mem b).

Lemma after_send_ok i m p : port_ok i p -> port_ok i (after_send i m p).
Proof.
  intros [[A B C D] [E F G I] J K]. unfold after_send. destruct (sends i m); [|done]. split; [done| |done|done].
  split; [done|apply u32_range| |done]. cbn. unfold next_icmp. destruct (mg_mode m) as [|sub]; [done|]. destruct (sub =? _); [done|apply u16_range].
Qed.

Definition put_sent (g : CLatencyPktInfo) (l : list CCPortLatency) m : CLatencyManager Q := mg_set_ports l (mg_set_pkt_gen g m).

Lemma mgr_ok_put i p g m :
  mgr_ok m -> 0 <= i < mg_max_ports m -> port_ok i p -> latency_info (mg_mode m) g ->
  mgr_ok (put_sent g (<[Z.to_nat i := p]> (mg_ports m)) m).
Proof.
  intros [A B C D E] Hi Hp Hg. split; try done.
  - cbn. unfold zlength in *. by rewrite length_insert.
  - intros j q Hj Hq. pose proof (proj1 (proj1 (get_idx_Ok _ _ _) Hq)).
    change (get_port j (put_sent g (<[Z.to_nat i := p]> (mg_ports m)) m)) with (get_port j (mg_set_ports (<[Z.to_nat i := p]> (mg_ports m)) m)) in Hq.
    rewrite get_port_put in Hq by lia. destruct (Z.eqb_spec j i) as [->|]; [by injection Hq as <-|]. by apply (E j q).
Qed.

Context (Ho : opts_ok o) (He : pool_ok e).

Lemma send_port_spec i m p :
  mgr_ok m -> 0 <= i < mg_max_ports m -> get_port i m = Ok p ->
  exists g out, send_port o e i m = Ok (put_sent g (<[Z.to_nat i := after_send i m p]> (mg_ports m)) m, out) /\
    same_addrs (mg_pkt_gen m) g /\ latency_info (mg_mode m) g /\
    if sends i m then exists b, out = [(i, b)] /\ port_packet m i b else out = [].
Proof using Ho He.
  intros Hm Hi Hp. assert (Hsame : sends i m = false -> exists g out,
      Ok (m, @nil (Z * rte_mbuf)) = Ok (put_sent g (<[Z.to_nat i := after_send i m p]> (mg_ports m)) m, out) /\
      same_addrs (mg_pkt_gen m) g /\ latency_info (mg_mode m) g /\ out = []).
  { intros E. exists (mg_pkt_gen m), []. split; [|by destruct Hm]. unfold after_send. rewrite E.
    rewrite list_insert_id by by apply get_idx_Ok in Hp as [_ Hp]. by destruct m. }
  unfold send_port. destruct (sends i m) eqn:Es; unfold sends in Es; rewrite Hp in Es.
  2: { destruct (port_enabled i m); [|by apply Hsame]. rewrite Hp. cbn [mbind res_bind]. cbn [andb] in Es. rewrite Es. by apply Hsame. }
  apply andb_true_iff in Es as [Ee Ec]. rewrite Ee, Hp. cbn [mbind res_bind]. rewrite Ec.
  pose proof (mo_max _ Hm). pose proof (mo_size _ Hm) as Hsz.
  destruct (mo_port _ Hm i p ltac:(lia) Hp) as [Psh Pw Pid _]. destruct (He i) as (mem & Epool & Hmem & Hmz).
  destruct (generate_pkt_spec o (se_pool e i) (mg_mode m) i (external_nat_ip p) (mg_pkt_gen m) mem) as (b & g & E & Hb & Hg & Ha);
    [apply Hm|apply (pw_ip _ Pw)|done|done|done|].
  rewrite E. cbn [mbind res_bind]. destruct (Ho (lp_id p)) as [Hok Hoz]; [rewrite Pid; lia|].
  destruct (update_packet_spec o (mg_mode m) i p b _ _ (se_tick e i) Psh Pw Hb Hok Hoz) as (mem' & E' & Hz' & Hsent).
  rewrite E'. cbn [mbind res_bind].
  rewrite put_port_Ok by (cbn [mg_ports mg_set_pkt_gen]; lia). cbn [mbind res_bind]. do 2 eexists. split.
  { unfold after_send, sends. rewrite Ee, Hp, Ec. cbn [andb]. reflexivity. }
  split; [done|]. split; [done|]. eexists. split; [reflexivity|]. exists p. destruct Hb. by split_and!.
Qed.

(** The manager [m1], and the packets [out], after the ports [ids] of [m] had their turn. *)
Record round (ids : list Z) m m1 (out : list (Z * rte_mbuf)) : Prop := {
  rd_kept : exists g l, m1 = put_sent g l m /\ same_addrs (mg_pkt_gen m) g;
  rd_ok : mgr_ok m1;
  rd_ports : forall j p, get_port j m = Ok p -> get_port j m1 = Ok (if decide (j ∈ ids) then after_send j m p else p);
  rd_out : fst <$> out = filter (fun j => sends j m = true) ids;
  rd_packets : forall j b, (j, b) ∈ out -> port_packet m j b }.

Lemma send_loop_spec ids : forall m acc,
  NoDup ids -> (forall i, i ∈ ids -> 0 <= i < mg_max_ports m) -> mgr_ok m ->
  exists m1 out, foldl (fun r i => '(m, out) ← r; '(m, new) ← send_port o e i m; Ok (m, out ++ new)) (Ok (m, acc)) ids =
    Ok (m1, acc ++ out) /\ round ids m m1 out.
Proof using Ho He.
  induction ids as [|i ids IH]; intros m acc Hnd Hin Hm.
  - exists m, []. split; [by rewrite app_nil_r|]. split; try done.
    + exists (mg_pkt_gen m), (mg_ports m). by destruct m.
    + intros j b Hj. by apply elem_of_nil in Hj.
  - apply NoDup_cons in Hnd as [Hni Hnd]. cbn [foldl]. cbn [mbind res_bind].
    assert (Hi : 0 <= i < mg_max_ports m) by (apply Hin, elem_of_cons; by left).
    pose proof (mo_size _ Hm) as Hsz. destruct (get_idx_total (mg_ports m) i) as [p Hp]; [lia|].
    destruct (send_port_spec i m p Hm Hi Hp) as (g & new & -> & Hg & Hl & Hout). cbn [mbind res_bind].
    set (m1 := put_sent g _ m). assert (Hm1 : mgr_ok m1).
    { apply mgr_ok_put; try done. apply after_send_ok. apply (mo_port _ Hm); [lia|done]. }
    assert (Hget : forall j, 0 <= j -> get_port j m1 = if j =? i then Ok (after_send i m p) else get_port j m).
    { intros j Hj. apply (get_port_put i j (after_send i m p) m); lia. }
    assert (Hs : forall j, j ∈ ids -> sends j m1 = sends j m).
    { intros j Hj. unfold sends. change (port_enabled j m1) with (port_enabled j m). f_equal.
      pose proof (Hin j ltac:(apply elem_of_cons; by right)). rewrite Hget by lia. destruct (Z.eqb_spec j i) as [->|]; [done|done]. }
    destruct (IH m1 (acc ++ new) Hnd) as (m2 & out & -> & Hr); [intros j Hj; apply (Hin j), elem_of_cons; by right|done|].
    exists m2, (new ++ out). split; [by rewrite app_assoc|]. destruct Hr as [(g2 & l2 & -> & Hg2) Rok Rp Ro Rb]. split.
    + exists g2, l2. split; [done|]. destruct Hg as (? & ? & ?), Hg2 as (G1 & G2 & G3). cbn in G1, G2, G3. split_and!; congruence.
    + done.
    + intros j q Hq. pose proof (proj1 (proj1 (get_idx_Ok _ _ _) Hq)) as Hj. pose proof (Hget j Hj) as Hj1.
      destruct (Z.eqb_spec j i) as [->|Hne].
      * unfold get_port in Hq. rewrite Hp in Hq. injection Hq as <-. rewrite (Rp _ _ Hj1).
        rewrite decide_False by done. by rewrite decide_True by (apply elem_of_cons; by left).
      * rewrite Hq in Hj1. rewrite (Rp _ _ Hj1). destruct (decide (j ∈ ids)) as [Hd|Hd].
        { rewrite decide_True by (apply elem_of_cons; by right). unfold after_send. by rewrite Hs. }
        rewrite decide_False; [done|]. intros [?|?]%elem_of_cons; done.
    + rewrite fmap_app, Ro, filter_cons.
      assert (Hf : filter (fun j => sends j m1 = true) ids = filter (fun j => sends j m = true) ids).
      { by apply filter_bool_ext. }
      rewrite Hf. destruct (sends i m) eqn:Es; [destruct Hout as (b & -> & _)|subst new].
      * by rewrite decide_True by done.
      * by rewrite decide_False by done.
    + intros j b [Hb|Hb]%elem_of_app.
      * destruct (sends i m); [|subst new; by apply elem_of_nil in Hb]. destruct Hout as (b' & -> & Hpk).
        apply list_elem_of_singleton in Hb. injection Hb as -> ->. exact Hpk.
      * destruct (Rb j b Hb) as (q & Hq & Hpk). exists q. assert (Hj : j ∈ ids).
        { assert (j ∈ filter (fun j => sends j m1 = true) ids) as Hj by (rewrite <- Ro; apply list_elem_of_fmap; by exists (j, b)).
          by apply list_elem_of_filter in Hj as [_ Hj]. }
        pose proof (Hin j ltac:(apply elem_of_cons; by right)). rewrite Hget in Hq by lia.
        destruct (Z.eqb_spec j i) as [->|]; [done|]. split; [done|].
        change (latency_addrs (mg_pkt_gen m1)) with (latency_addrs g) in Hpk. by rewrite (latency_addrs_same _ _ _ _ Hg) in Hpk.
Qed.

Lemma send_round tick m :
  mgr_ok m -> exists m1 out, send_pkt_all_ports o tick e m = Ok (m1, out) /\
    round (port_ids m) (mg_set_start_time tick m) m1 out.
Proof using Ho He.
  intros Hm. unfold send_pkt_all_ports, send_loop.
  destruct (send_loop_spec (port_ids m) (mg_set_start_time tick m) []) as (m1 & out & E & Hr); [apply NoDup_seqZ| | |].
  - intros i Hi. apply elem_of_seqZ in Hi. change (mg_max_ports (mg_set_start_time tick m)) with (mg_max_ports m). lia.
  - by destruct Hm.
  - exists m1, out. split; [exact E|done].
Qed.
End Round.
