(* ===== verification/TupleGenTotal.v ===== *)
(** * The tuple generator does not fail

    With clients that only count their ports (which is what [CFlowGenListPerThread] creates),
    every operation of the tuple generator succeeds and keeps the shape of the pools. *)

From S2P Require Import Prelude Double TupleGen TupleGenFacts.

(** ** Positive doubles *)

Lemma digits2_shift m d : digits2_pos (Pos.iter xO m d) = (d + digits2_pos m)%positive.
Proof.
  induction d as [|d IH] using Pos.peano_ind; [cbn; lia|]. rewrite Pos.iter_succ. cbn [digits2_pos]. rewrite IH. lia.
Qed.
Lemma digits2_le m k : Z.pos m < 2 ^ Z.of_nat k -> Z.pos (digits2_pos m) <= Z.of_nat k.
Proof.
  revert k. induction m as [m IH|m IH|]; intros k Hk; cbn [digits2_pos].
  - destruct k as [|k]; [cbn in Hk; lia|]. rewrite Nat2Z.inj_succ, Z.pow_succ_r in Hk by lia. specialize (IH k). lia.
  - destruct k as [|k]; [cbn in Hk; lia|]. rewrite Nat2Z.inj_succ, Z.pow_succ_r in Hk by lia. specialize (IH k). lia.
  - destruct k; [cbn in Hk; lia|lia].
Qed.
(** A positive number of at most 53 bits is a positive double. *)
Lemma double_of_Z_pos n : 0 < n < 4294967296 -> exists m e, double_of_Z n = S754_finite false m e.
Proof.
  intros Hn. destruct n as [|m|m]; [lia| |lia]. unfold double_of_Z, binary_normalize, binary_round.
  assert (Hd : Z.pos (digits2_pos m) <= 32) by (apply (digits2_le m 32); lia).
  assert (Hf : fexp 53 1024 (Z.pos (digits2_pos m) + 0) = Z.pos (digits2_pos m) - 53) by (unfold fexp, emin; lia).
  rewrite Hf. unfold shl_align.
  destruct (Z.pos (digits2_pos m) - 53 - 0) as [|d|d] eqn:E; [lia|lia|].
  set (mz := Pos.iter xO m d).
  assert (Hmz : Z.pos (digits2_pos mz) = 53) by (unfold mz; rewrite digits2_shift; lia).
  assert (Hs : forall l, shr_fexp 53 1024 (Z.pos mz) (Z.pos (digits2_pos m) - 53) l =
     (shr_record_of_loc (Z.pos mz) l, Z.pos (digits2_pos m) - 53)).
  { intros l. unfold shr_fexp. cbn [Zdigits2]. rewrite Hmz.
    replace (fexp 53 1024 (53 + (Z.pos (digits2_pos m) - 53)) - (Z.pos (digits2_pos m) - 53)) with 0 by (unfold fexp, emin; lia). done. }
  unfold binary_round_aux. rewrite Hs. cbn [shr_record_of_loc loc_of_shr_record shr_m round_nearest_even]. rewrite Hs.
  cbn [shr_record_of_loc shr_m]. rewrite (proj2 (Z.leb_le _ _)) by lia. by do 2 eexists.
Qed.

(** With no flows known, the rate of a client is zero, and a count of its ports will do. *)
Lemma use_large_zero total :
  0 < total < 4294967296 ->
  use_large_info total (double_of_Z 0) (double_mul (double_of_Z 0) (double_of_Z 1000)) = true.
Proof.
  intros Ht. unfold use_large_info. destruct (double_of_Z_pos total Ht) as (m & e & ->). vm_compute. reflexivity.
Qed.

Section Total.
Context {G : Type} `{UniformInt G}.

(** ** Pools *)

Definition plain_info (x : option CIpInfoBase) : Prop :=
  exists i cur, x = Some i /\ i_ports i = PortsL cur /\ i_is_client i = true.
Definition client_plain (p : CIpPool G) : Prop := pool_wf p /\ Forall plain_info (p_ip_info p).
Definition server_plain (s : CServerPoolBase G) : Prop :=
  match s with
  | CServerPoolSimple _ _ _ => True
  | CServerPool p => pool_wf p /\ Forall is_Some (p_ip_info p)
  end.

(** What the operations keep of a client pool. *)
Definition client_shape (c : CClientPool G) : nat * Z * Z := (length (p_ip_info (cp_pool c)), cp_tcp_aging c, cp_udp_aging c).

Lemma plain_lookup p idx :
  client_plain p -> 0 <= idx < zlength (p_ip_info p) ->
  exists i cur, pool_info p idx = Ok i /\ i_ports i = PortsL cur /\ i_is_client i = true.
Proof.
  intros [_ Hf] Hr. unfold zlength in Hr.
  destruct (lookup_lt_is_Some_2 (p_ip_info p) (Z.to_nat idx)) as [x Hx]; [lia|].
  pose proof (proj1 (Forall_lookup _ _) Hf _ _ Hx) as (i & cur & -> & Hp & Hc).
  exists i, cur. unfold pool_info. rewrite (proj2 (get_idx_Ok _ _ _) (conj (proj1 Hr) Hx)). done.
Qed.

(** The information of one address changes. *)
Lemma plain_update p idx i cur :
  client_plain p -> 0 <= idx < zlength (p_ip_info p) -> i_ports i = PortsL cur -> i_is_client i = true ->
  exists p', pool_update_info p idx i = Ok p' /\ client_plain p' /\ length (p_ip_info p') = length (p_ip_info p).
Proof.
  intros [Hw Hf] Hr Hp Hc. unfold pool_update_info. rewrite set_idx_in by done. eexists. split; [reflexivity|].
  cbn [p_ip_info pool_set_infos]. unfold client_plain, pool_wf, zlength in *. cbn. rewrite length_insert. split; [|done].
  split; [done|]. apply Forall_insert; [done|]. by exists i, cur.
Qed.

Lemma plain_counters p a e : client_plain p -> client_plain (pool_set_counters p a e).
Proof. done. Qed.

Lemma plain_port p idx i cur :
  client_plain p -> 0 <= idx < zlength (p_ip_info p) -> i_ports i = PortsL cur -> i_is_client i = true ->
  exists port i' p', get_new_free_port i = Ok (port, i') /\ pool_update_info p idx i' = Ok p' /\ client_plain p' /\
    length (p_ip_info p') = length (p_ip_info p) /\ i_ip i' = i_ip i /\ i_mac i' = i_mac i.
Proof.
  intros Hp Hr Hi Hc. unfold get_new_free_port. rewrite Hi. destruct (CIpInfoL_get_new_free_port cur) as [port cur'].
  destruct (plain_update p idx (set_ports i (PortsL cur')) cur' Hp Hr eq_refl Hc) as (p' & E & Hp' & Hl).
  by exists port, (set_ports i (PortsL cur')), p'.
Qed.

Lemma client_tuple_ok c t :
  client_plain (cp_pool c) ->
  exists idx t' c', CClientPool_GenerateTuple c t = Ok (idx, t', c') /\ client_plain (cp_pool c') /\
    client_shape c' = client_shape c /\ t_client_idx t' = idx /\ 0 <= idx < zlength (p_ip_info (cp_pool c)).
Proof.
  intros Hp. destruct (generate_ip_step (cp_pool c) (proj1 Hp)) as (p1 & E1 & Hw1 & Hi1 & _).
  assert (Hp1 : client_plain p1) by (split; [done|]; rewrite Hi1; apply Hp).
  assert (Hr : 0 <= p_cur_idx (cp_pool c) < zlength (p_ip_info p1)) by (rewrite Hi1; apply Hp).
  destruct (plain_lookup p1 _ Hp1 Hr) as (i & cur & Ei & Hpi & Hci).
  destruct (plain_port p1 _ i cur Hp1 Hr Hpi Hci) as (port & i' & p2 & Ep & Eu & Hp2 & Hl2 & _).
  unfold CClientPool_GenerateTuple. rewrite E1. cbn [mbind res_bind]. rewrite Ei. cbn [mbind res_bind].
  unfold generate_tuple. rewrite Hci, Ep. cbn [mbind res_bind]. rewrite Eu. cbn [mbind res_bind].
  do 3 eexists. split; [reflexivity|]. split; [by apply plain_counters|]. split; [|split; [done|apply Hp]].
  unfold client_shape. cbn. by rewrite Hl2, Hi1.
Qed.

Lemma client_port_ok c idx :
  client_plain (cp_pool c) -> 0 <= idx < zlength (p_ip_info (cp_pool c)) ->
  exists port p', GenerateOnePort (cp_pool c) idx = Ok (port, p') /\ client_plain (cp_pool (cp_set_pool c p')) /\
    client_shape (cp_set_pool c p') = client_shape c.
Proof.
  intros Hp Hr. destruct (plain_lookup _ _ Hp Hr) as (i & cur & Ei & Hpi & Hci).
  destruct (plain_port _ _ i cur Hp Hr Hpi Hci) as (port & i' & p2 & Ep & Eu & Hp2 & Hl2 & _).
  unfold GenerateOnePort. rewrite Ei. cbn [mbind res_bind]. rewrite Ep. cbn [mbind res_bind]. rewrite Eu. cbn [mbind res_bind].
  do 2 eexists. split; [reflexivity|]. split; [by apply plain_counters|]. unfold client_shape. cbn. by rewrite Hl2.
Qed.

Lemma client_free_ok c idx port :
  client_plain (cp_pool c) -> 0 <= idx < zlength (p_ip_info (cp_pool c)) ->
  exists p', pool_FreePort (cp_pool c) idx port = Ok p' /\ client_plain (cp_pool (cp_set_pool c p')) /\
    client_shape (cp_set_pool c p') = client_shape c.
Proof.
  intros Hp Hr. unfold pool_FreePort. set (p := pool_set_counters _ _ _).
  assert (Hp1 : client_plain p) by done. destruct (plain_lookup p idx Hp1 Hr) as (i & cur & Ei & Hpi & Hci).
  rewrite Ei. cbn [mbind res_bind]. unfold return_port. rewrite Hpi. cbn [mbind res_bind].
  destruct (plain_update p idx i cur Hp1 Hr Hpi Hci) as (p2 & E2 & Hp2 & Hl2). exists p2. split; [done|]. split; [done|].
  unfold client_shape. cbn. by rewrite Hl2.
Qed.

Lemma server_tuple_ok s t :
  server_plain s -> exists t' s', server_GenerateTuple s t = Ok (t', s') /\ server_plain s' /\ t_client_idx t' = t_client_idx t.
Proof.
  destruct s as [mx mn cur|p]; cbn [server_plain server_GenerateTuple]; [by do 2 eexists|]. intros [Hw Hf].
  destruct (generate_ip_step p Hw) as (p1 & E1 & Hw1 & Hi1 & _). rewrite E1. cbn [mbind res_bind].
  assert (Hr : 0 <= p_cur_idx p < zlength (p_ip_info p)) by apply Hw. unfold zlength in Hr.
  destruct (lookup_lt_is_Some_2 (p_ip_info p) (Z.to_nat (p_cur_idx p))) as [x Hx]; [lia|].
  destruct (proj1 (Forall_lookup _ _) Hf _ _ Hx) as [i ->].
  unfold pool_get_ip, pool_info. rewrite Hi1, (proj2 (get_idx_Ok _ _ _) (conj (proj1 Hr) Hx)). cbn [mbind res_bind].
  do 2 eexists. split; [reflexivity|]. split; [|done]. cbn. by rewrite Hi1.
Qed.

(** ** The generator of a thread *)

Definition gen_plain (g : CTupleGeneratorSmart G) : Prop :=
  Forall (fun c => client_plain (cp_pool c)) (g_client_pool g) /\ Forall server_plain (g_server_pool g).
Definition gen_shape (g : CTupleGeneratorSmart G) : list (nat * Z * Z) * nat * Z :=
  (client_shape <$> g_client_pool g, length (g_server_pool g), g_thread_id g).

(** The number of addresses of a client pool, zero for no pool. *)
Definition pool_size (g : CTupleGeneratorSmart G) (k : Z) : Z :=
  match g_client_pool g !! Z.to_nat k with Some c => zlength (p_ip_info (cp_pool c)) | None => 0 end.
Definition is_client_pool (g : CTupleGeneratorSmart G) (k : Z) : Prop := 0 <= k < zlength (g_client_pool g).

Lemma shape_pools g g' : gen_shape g' = gen_shape g ->
  (forall k, pool_size g' k = pool_size g k) /\ (forall k, is_client_pool g' k <-> is_client_pool g k) /\
  length (g_server_pool g') = length (g_server_pool g) /\ g_thread_id g' = g_thread_id g.
Proof.
  unfold gen_shape. intros [= Hc Hs Ht]. split; [|split; [|done]].
  - intros k. unfold pool_size. pose proof (f_equal (fun l => l !! Z.to_nat k) Hc) as E. cbn in E.
    rewrite !list_lookup_fmap in E. destruct (g_client_pool g' !! Z.to_nat k), (g_client_pool g !! Z.to_nat k); cbn in E; try done.
    unfold client_shape in E. unfold zlength. congruence.
  - intros k. unfold is_client_pool, zlength. apply (f_equal length) in Hc. rewrite !length_fmap in Hc. by rewrite Hc.
Qed.

Lemma client_pool_get g k :
  gen_plain g -> is_client_pool g k ->
  exists c, get_idx (g_client_pool g) k = Ok c /\ g_client_pool g !! Z.to_nat k = Some c /\ client_plain (cp_pool c) /\
    pool_size g k = zlength (p_ip_info (cp_pool c)).
Proof.
  intros [Hf _] [H0 Hk]. unfold zlength in Hk.
  destruct (lookup_lt_is_Some_2 (g_client_pool g) (Z.to_nat k)) as [c Hc]; [lia|]. exists c.
  split; [by apply get_idx_Ok|]. split; [done|]. split; [exact (proj1 (Forall_lookup _ _) Hf _ _ Hc)|].
  unfold pool_size. by rewrite Hc.
Qed.

Lemma client_pool_set g k c c' :
  gen_plain g -> is_client_pool g k -> g_client_pool g !! Z.to_nat k = Some c -> client_plain (cp_pool c') ->
  client_shape c' = client_shape c ->
  exists l, set_idx (g_client_pool g) k c' = Ok l /\ gen_plain (gen_set_clients g l) /\
    gen_shape (gen_set_clients g l) = gen_shape g.
Proof.
  intros [Hf Hs] Hk Hc Hp Hsh. rewrite set_idx_in by done. eexists. split; [reflexivity|]. split.
  - split; [|done]. cbn. by apply Forall_insert.
  - unfold gen_shape. cbn. do 2 f_equal. apply list_eq. intros i. rewrite !list_lookup_fmap.
    destruct (decide (i = Z.to_nat k)) as [->|Hne]; [|by rewrite list_lookup_insert_ne by done].
    rewrite list_lookup_insert_eq by (by eapply lookup_lt_Some). rewrite Hc. cbn. by rewrite Hsh.
Qed.

Lemma gen_free_ok g k idx port :
  gen_plain g -> is_client_pool g k -> 0 <= idx < pool_size g k ->
  exists g', gen_FreePort k idx port g = Ok g' /\ gen_plain g' /\ gen_shape g' = gen_shape g.
Proof.
  intros Hg Hk Hr. destruct (client_pool_get g k Hg Hk) as (c & Ec & Hc & Hp & Hsz). rewrite Hsz in Hr.
  destruct (client_free_ok c idx port Hp Hr) as (p' & Ep & Hp' & Hsh).
  destruct (client_pool_set g k c _ Hg Hk Hc Hp' Hsh) as (l & El & Hg' & Hsh').
  unfold gen_FreePort. rewrite Ec. cbn [mbind res_bind]. rewrite Ep. cbn [mbind res_bind]. rewrite El. by eexists.
Qed.

Lemma aging_ok g k : gen_plain g -> is_client_pool g k ->
  (exists a, get_tcp_aging k g = Ok a) /\ (exists a, get_udp_aging k g = Ok a).
Proof.
  intros Hg Hk. destruct (client_pool_get g k Hg Hk) as (c & Ec & _). unfold get_tcp_aging, get_udp_aging.
  rewrite Ec. cbn. eauto.
Qed.

(** ** The generator of a template *)

(** Its pools exist, and the client that it has cached is one of them. *)
Record tmpl_ok (g : CTupleGeneratorSmart G) (tg : CTupleTemplateGeneratorSmart) : Prop := {
  to_client : is_client_pool g (tt_client_pool tg);
  to_server : 0 <= tt_server_pool tg < zlength (g_server_pool g);
  to_cache : tt_w tg <> 1 -> tt_cnt tg <> 0 -> 0 <= tt_cache_client_idx tg < pool_size g (tt_client_pool tg) }.

Lemma tmpl_ok_shape g g' tg : gen_shape g' = gen_shape g -> tmpl_ok g tg -> tmpl_ok g' tg.
Proof.
  intros E [A B C]. destruct (shape_pools g g' E) as (Hs & Hc & Hl & _). split.
  - by apply Hc.
  - unfold zlength in *. by rewrite Hl.
  - rewrite Hs. exact C.
Qed.

Lemma draw_ok g tg t :
  gen_plain g -> tmpl_ok g tg ->
  exists t' g', draw_client_server tg g t = Ok (t', g') /\ gen_plain g' /\ gen_shape g' = gen_shape g /\
    0 <= t_client_idx t' < pool_size g (tt_client_pool tg).
Proof.
  intros Hg [Hk Hs _]. destruct (client_pool_get g _ Hg Hk) as (c & Ec & Hc & Hp & Hsz).
  destruct (client_tuple_ok c t Hp) as (idx & t1 & c1 & E1 & Hp1 & Hsh1 & Hidx & Hr).
  destruct (client_pool_set g _ c c1 Hg Hk Hc Hp1 Hsh1) as (l & El & Hg1 & Hsh).
  unfold draw_client_server. rewrite Ec. cbn [mbind res_bind]. rewrite E1. cbn [mbind res_bind]. rewrite El. cbn [mbind res_bind].
  destruct Hs as [Hs0 Hs1]. unfold zlength in Hs1.
  destruct (lookup_lt_is_Some_2 (g_server_pool g) (Z.to_nat (tt_server_pool tg))) as [s Hlk]; [lia|].
  rewrite (proj2 (get_idx_Ok _ _ _) (conj Hs0 Hlk)). cbn [mbind res_bind].
  pose proof (proj1 (Forall_lookup _ _) (proj2 Hg) _ _ Hlk) as Hsp.
  destruct (server_tuple_ok s t1 Hsp) as (t2 & s2 & E2 & Hs2 & Hi2). rewrite E2. cbn [mbind res_bind].
  rewrite set_idx_in by (unfold zlength; lia). cbn [mbind res_bind]. do 2 eexists. split; [reflexivity|].
  split; [|split].
  - split; [apply Hg1|]. cbn. apply Forall_insert; [apply Hg|done].
  - rewrite <- Hsh. unfold gen_shape. cbn. by rewrite length_insert.
  - rewrite Hi2, Hidx, Hsz. done.
Qed.

Lemma one_port_ok g tg :
  gen_plain g -> is_client_pool g (tt_client_pool tg) -> 0 <= tt_cache_client_idx tg < pool_size g (tt_client_pool tg) ->
  exists port g', GenerateOneSourcePort tg g = Ok (port, g') /\ gen_plain g' /\ gen_shape g' = gen_shape g.
Proof.
  intros Hg Hk Hr. destruct (client_pool_get g _ Hg Hk) as (c & Ec & Hc & Hp & Hsz). rewrite Hsz in Hr.
  destruct (client_port_ok c _ Hp Hr) as (port & p' & Ep & Hp' & Hsh').
  destruct (client_pool_set g _ c _ Hg Hk Hc Hp' Hsh') as (l & El & Hg1 & Hsh).
  unfold GenerateOneSourcePort. rewrite Ec. cbn [mbind res_bind]. rewrite Ep. cbn [mbind res_bind]. rewrite El. cbn [mbind res_bind].
  by do 2 eexists.
Qed.

(** A tuple: its client is in the pool, and is the one that is cached. *)
Lemma template_tuple_ok g tg t :
  gen_plain g -> tmpl_ok g tg ->
  exists t' tg' g', template_GenerateTuple tg g t = Ok (t', tg', g') /\ gen_plain g' /\ gen_shape g' = gen_shape g /\
    tmpl_ok g' tg' /\ tt_client_pool tg' = tt_client_pool tg /\
    0 <= tt_cache_client_idx tg' < pool_size g (tt_client_pool tg) /\ 0 <= t_client_idx t' < pool_size g (tt_client_pool tg).
Proof.
  intros Hg Ht. pose proof Ht as [Hk Hs Hca]. unfold template_GenerateTuple.
  assert (Hmk : forall tg' g', gen_shape g' = gen_shape g -> tt_client_pool tg' = tt_client_pool tg ->
    tt_server_pool tg' = tt_server_pool tg -> 0 <= tt_cache_client_idx tg' < pool_size g (tt_client_pool tg) -> tmpl_ok g' tg').
  { intros tg' g' Hsh E1 E2 Hr. apply (tmpl_ok_shape g); [done|]. split; rewrite ?E1, ?E2; auto. }
  assert (Hsetsrv : forall b ip t, t_client_idx (if b : bool then setServer ip t else t) = t_client_idx t) by (by intros []).
  destruct (Z.eqb_spec (tt_w tg) 1) as [Hw|Hw].
  - destruct (draw_ok g tg t Hg Ht) as (t1 & g1 & E1 & Hg1 & Hsh1 & Hr). rewrite E1. cbn [mbind res_bind].
    do 3 eexists. split; [reflexivity|]. rewrite Hsetsrv. split_and!; try done; cbn; try lia. by apply Hmk.
  - destruct (Z.eqb_spec (tt_cnt tg) 0) as [Hc|Hc].
    + destruct (draw_ok g tg t Hg Ht) as (t1 & g1 & E1 & Hg1 & Hsh1 & Hr). rewrite E1. cbn [mbind res_bind].
      unfold getServerAll. cbn [mbind res_bind]. do 3 eexists. split; [reflexivity|].
      rewrite Hsetsrv. split_and!; try done; cbn; try lia. by apply Hmk.
    + specialize (Hca Hw Hc). destruct (one_port_ok g tg Hg Hk Hca) as (port & g1 & E1 & Hg1 & Hsh1). rewrite E1.
      cbn [mbind res_bind]. do 3 eexists. split; [reflexivity|]. rewrite Hsetsrv. split_and!; try done; cbn; try lia. by apply Hmk.
Qed.

(** ** Creation *)

Lemma fill_all new n (P : CIpInfoBase -> Prop) :
  (forall k, 0 <= k < Z.of_nat n -> exists i, new k = Some i /\ P i) ->
  exists l, fill_infos new 0 n (replicate n None) = Ok l /\ length l = n /\ Forall (fun x => exists i, x = Some i /\ P i) l.
Proof.
  intros Hnew. destruct (fill_infos_spec new n 0 (replicate n None)) as [(l & E & _ & Hl & Hk)|(_ & i & Hi & _ & Hz)]; [lia| |].
  2: { rewrite zlength_replicate in Hz. lia. }
  rewrite zlength_replicate in Hl, Hk. exists l. split; [done|]. assert (Hlen : length l = n) by (unfold zlength in Hl; lia).
  split; [done|]. apply Forall_lookup. intros k x Hx. pose proof (lookup_lt_Some _ _ _ Hx) as Hlt.
  specialize (Hk (Z.of_nat k)). rewrite Nat2Z.id in Hk. rewrite Hk, decide_True in Hx by lia.
  destruct (Hnew (Z.of_nat k)) as (i & Ei & Hp); [lia|]. rewrite Ei in Hx. injection Hx as <-. by exists i.
Qed.

Lemma CreateBase_wf (g : G) dist infos (n : Z) :
  0 < n < 2147483648 -> zlength infos = n -> pool_wf (CreateBase (MkPool infos (set_dist dist) 0 0 0 g None)).
Proof.
  intros Hn Hl. unfold pool_wf, CreateBase, get_total_ips. simpl. rewrite Hl, (u32_id n) by lia.
  repeat split; try done; try lia. intros ->. rewrite (u32_id (n - 1)) by lia. unfold s32. rewrite Z.mod_small by lia. f_equal. lia.
Qed.

(** Pools of a thread: made without a MAC map, before the rates of the templates are known. *)
Lemma client_create_plain (g : G) dist min_ip n mac tcp udp :
  0 <= min_ip -> 0 < n <= 1000000 -> min_ip + n <= 4294967296 ->
  exists c, CClientPool_Create g dist min_ip (min_ip + n - 1) (double_of_Z 0) (double_mul (double_of_Z 0) (double_of_Z 1000))
      mac false tcp udp = Ok c /\ client_plain (cp_pool c).
Proof.
  intros H0 Hn Hm. unfold CClientPool_Create, c_assert. destruct (Z.geb_spec (min_ip + n - 1) min_ip); [|lia].
  cbn [mbind res_bind]. replace (min_ip + n - 1 - min_ip + 1) with n by lia. rewrite (u32_id n) by lia.
  destruct (Z.eqb_spec n 0); [lia|]. cbn [negb]. rewrite use_large_zero by lia.
  destruct (fill_all (fun idx => Some (new_client true None (u32 (min_ip + idx)))) (Z.to_nat n)
    (fun i => i_ports i = PortsL MIN_PORT /\ i_is_client i = true)) as (l & E & Hl & Hp).
  { intros k _. by eexists. }
  rewrite E. cbn [mbind res_bind]. eexists. split; [reflexivity|]. split.
  - apply (CreateBase_wf g dist l n); [lia|unfold zlength; lia].
  - eapply Forall_impl; [exact Hp|]. intros x (i & -> & Hi & Hc). by exists i, MIN_PORT.
Qed.

Lemma server_create_plain (g : G) dist min_ip n l_flow t_cps :
  0 <= min_ip -> 0 < n <= 1000000 -> min_ip + n <= 4294967296 ->
  exists s, CServerPool_Create g dist min_ip (min_ip + n - 1) l_flow t_cps = Ok s /\ server_plain s.
Proof.
  intros H0 Hn Hm. unfold CServerPool_Create.
  replace (min_ip + n - 1 - min_ip + 1) with n by lia. rewrite (u32_id n) by lia.
  set (large := use_large_info _ _ _).
  destruct (fill_all (fun idx => Some (new_server large (u32 (min_ip + idx)))) (Z.to_nat n) (fun _ => True)) as (l & E & Hl & Hp).
  { intros k _. by eexists. }
  rewrite E. cbn [mbind res_bind]. eexists. split; [reflexivity|]. split.
  - apply (CreateBase_wf g dist l n); [lia|unfold zlength; lia].
  - eapply Forall_impl; [exact Hp|]. intros x (i & -> & _). by eexists.
Qed.
End Total.
