(* ===== verification/FlowGen.v ===== *)
(** * The generator of flows of one core

    Models [CFlowGenListPerThread], [CNodeGenerator::flush_file] and [CPolicer] of
    [src/src/bp_sim.{h,cpp}]: templates open flows at their rates, a flow is a node in a queue
    ordered by time that sends one packet per turn, ports go back after a while, and flows
    whose translation is to be learned wait in a map for the answer of the receiver. *)

From S2P Require Import Prelude Double ByteMem PktCmn PktDesc PktParser RxHeader CapTemplate TupleGen FlowNode MiniVm Plugins NatCheck.

(** ** The policer *)

Record CPolicer : Type := mkPolicer { m_cir : double; m_bucket_size : double; m_level : double; pol_last_time : double }.
Definition ClearMeter : CPolicer := mkPolicer (double_of_Z 0) (double_of_Z 1) (double_of_Z 0) (double_of_Z 0).
Definition set_cir (cir : double) (p : CPolicer) : res CPolicer :=
  _ ← c_assert (double_leb (double_of_Z 0) cir);
  Ok (mkPolicer cir (m_bucket_size p) (m_level p) (pol_last_time p)).
Definition set_level (level : double) (p : CPolicer) : CPolicer :=
  mkPolicer (m_cir p) (m_bucket_size p) level (pol_last_time p).
Definition set_bucket_size (bucket : double) (p : CPolicer) : CPolicer :=
  mkPolicer (m_cir p) bucket (m_level p) (pol_last_time p).

Definition policer_update (dsize now_sec : double) (p : CPolicer) : bool * CPolicer :=
  if double_eqb (pol_last_time p) (double_of_Z 0) then
    (true, mkPolicer (m_cir p) (m_bucket_size p) (m_level p) now_sec)
  else if double_eqb (m_cir p) (double_of_Z 0) then (false, p)
  else
    let p :=
      if double_ltb (pol_last_time p) now_sec then
        let dtime := double_sub now_sec (pol_last_time p) in
        let level := double_add (m_level p) (double_mul dtime (m_cir p)) in
        mkPolicer (m_cir p) (m_bucket_size p)
          (if double_ltb (m_bucket_size p) level then m_bucket_size p else level) now_sec
      else p in
    if double_ltb dsize (m_level p)
    then (true, mkPolicer (m_cir p) (m_bucket_size p) (double_sub (m_level p) dsize) (pol_last_time p))
    else (false, p).

(** ** Templates *)

(** [CFlowYamlInfo]; names, and flags that only the reader uses, are left out. *)
Record CFlowYamlInfo : Type := mkYaml {
  m_k_cps : double; m_restart_time : double; m_ipg_sec : double; m_rtt_sec : double;
  m_w : Z; m_wlength : Z; m_limit : Z; m_flowcnt : Z; m_plugin_id : Z;
  m_client_pool_idx : Z; m_server_pool_idx : Z; m_one_app_server : bool; m_server_addr : Z;
  m_cap_mode : bool; m_limit_was_set : bool; m_dpPkt : option (list CFlowYamlDpPkt) }.

Definition set_flowcnt (x : Z) (y : CFlowYamlInfo) : CFlowYamlInfo :=
  mkYaml (m_k_cps y) (m_restart_time y) (m_ipg_sec y) (m_rtt_sec y) (m_w y) (m_wlength y) (m_limit y) (u32 x)
    (m_plugin_id y) (m_client_pool_idx y) (m_server_pool_idx y) (m_one_app_server y) (m_server_addr y)
    (m_cap_mode y) (m_limit_was_set y) (m_dpPkt y).

(** [CFlowGeneratorRecPerThread] *)
Record CFlowGeneratorRecPerThread : Type := mkRec {
  m_flow_info : CCapFileFlowInfo; m_info : CFlowYamlInfo; m_policer : CPolicer;
  rec_tuple_gen : CTupleTemplateGeneratorSmart; m_id : Z }.
Definition rec_set (i : CFlowYamlInfo) (p : CPolicer) (t : CTupleTemplateGeneratorSmart)
    (r : CFlowGeneratorRecPerThread) : CFlowGeneratorRecPerThread := mkRec (m_flow_info r) i p t (m_id r).

(** ** Nodes *)

Definition DEFER_CLIENTS_NUM : Z := 16.
(** [CGenNodeDeferPort]: pool, client and port of each entry. *)
Definition CGenNodeDeferPort : Type := list (Z * Z * Z).

(** What the pool of nodes holds. *)
Inductive fnode : Type :=
  | FlowNode (n : CGenNode)
  | FifNode (time : double)
  | SyncNode (time : double)
  | ExitNode (time : double)
  | DeferNode (time : double) (d : CGenNodeDeferPort).

Definition fnode_time (x : fnode) : double :=
  match x with
  | FlowNode n => n_time n
  | FifNode t | SyncNode t | ExitNode t | DeferNode t _ => t
  end.

(** ** The state *)

Record CFlowGenStats : Type := mkFlowStats {
  st_bytes : Z; st_pkt : Z; st_open : Z; st_close : Z;
  st_no_flow_id : Z; st_remove_flow_id : Z; st_add_flow_id : Z; st_timeout : Z; st_learn_error : Z }.
Definition stats_clear : CFlowGenStats := mkFlowStats 0 0 0 0 0 0 0 0 0.

(** A packet that was sent: the flow, the place in the template, and what the port got. *)
Record sent_pkt : Type := mkSent { sp_flow : Z; sp_idx : Z; sp_dir : Z; sp_pkt : bytes }.

(** Messages of the receiver. *)
Inductive rx_msg : Type :=
  | msg_nat (i : CGenNodeNatInfo)
  | msg_latency (dir : Z) (offset : Z) (pkt : bytes).

Section FlowGen.
Context {G : Type} `{UniformInt G}.

(** [CFlowGenListPerThread]: nodes by address, the queue as the addresses in it, the map of
    flows that wait for their translation, and what was sent. *)
Record CFlowGenListPerThread : Type := mkGenThread {
  ft_pool : gmap Z fnode;
  ft_queue : list Z;
  ft_cap_gen : list CFlowGeneratorRecPerThread;
  ft_smart_gen : CTupleGeneratorSmart G;
  ft_cur_template : Z;
  ft_cur_flow_id : Z;
  ft_cur_time_sec : double;
  ft_stats : CFlowGenStats;
  ft_tcp_dpc : option Z;
  ft_udp_dpc : option Z;
  ft_lookup : gmap Z Z;
  ft_from_rx : list rx_msg;
  ft_sent : list sent_pkt }.

Definition set_nodes (p : gmap Z fnode) (q : list Z) (c : CFlowGenListPerThread) : CFlowGenListPerThread :=
  mkGenThread p q (ft_cap_gen c) (ft_smart_gen c) (ft_cur_template c) (ft_cur_flow_id c) (ft_cur_time_sec c)
    (ft_stats c) (ft_tcp_dpc c) (ft_udp_dpc c) (ft_lookup c) (ft_from_rx c) (ft_sent c).
Definition set_gens (l : list CFlowGeneratorRecPerThread) (g : CTupleGeneratorSmart G) (c : CFlowGenListPerThread)
  : CFlowGenListPerThread :=
  mkGenThread (ft_pool c) (ft_queue c) l g (ft_cur_template c) (ft_cur_flow_id c) (ft_cur_time_sec c)
    (ft_stats c) (ft_tcp_dpc c) (ft_udp_dpc c) (ft_lookup c) (ft_from_rx c) (ft_sent c).
Definition set_cursor (template flow_id : Z) (c : CFlowGenListPerThread) : CFlowGenListPerThread :=
  mkGenThread (ft_pool c) (ft_queue c) (ft_cap_gen c) (ft_smart_gen c) template (u64 flow_id) (ft_cur_time_sec c)
    (ft_stats c) (ft_tcp_dpc c) (ft_udp_dpc c) (ft_lookup c) (ft_from_rx c) (ft_sent c).
Definition set_cur_time (t : double) (c : CFlowGenListPerThread) : CFlowGenListPerThread :=
  mkGenThread (ft_pool c) (ft_queue c) (ft_cap_gen c) (ft_smart_gen c) (ft_cur_template c) (ft_cur_flow_id c) t
    (ft_stats c) (ft_tcp_dpc c) (ft_udp_dpc c) (ft_lookup c) (ft_from_rx c) (ft_sent c).
Definition set_stats (s : CFlowGenStats) (c : CFlowGenListPerThread) : CFlowGenListPerThread :=
  mkGenThread (ft_pool c) (ft_queue c) (ft_cap_gen c) (ft_smart_gen c) (ft_cur_template c) (ft_cur_flow_id c)
    (ft_cur_time_sec c) s (ft_tcp_dpc c) (ft_udp_dpc c) (ft_lookup c) (ft_from_rx c) (ft_sent c).
Definition set_dpc (is_tcp : bool) (a : option Z) (c : CFlowGenListPerThread) : CFlowGenListPerThread :=
  mkGenThread (ft_pool c) (ft_queue c) (ft_cap_gen c) (ft_smart_gen c) (ft_cur_template c) (ft_cur_flow_id c)
    (ft_cur_time_sec c) (ft_stats c) (if is_tcp then a else ft_tcp_dpc c) (if is_tcp then ft_udp_dpc c else a)
    (ft_lookup c) (ft_from_rx c) (ft_sent c).
Definition set_lookup (m : gmap Z Z) (c : CFlowGenListPerThread) : CFlowGenListPerThread :=
  mkGenThread (ft_pool c) (ft_queue c) (ft_cap_gen c) (ft_smart_gen c) (ft_cur_template c) (ft_cur_flow_id c)
    (ft_cur_time_sec c) (ft_stats c) (ft_tcp_dpc c) (ft_udp_dpc c) m (ft_from_rx c) (ft_sent c).
Definition set_io (r : list rx_msg) (s : list sent_pkt) (c : CFlowGenListPerThread) : CFlowGenListPerThread :=
  mkGenThread (ft_pool c) (ft_queue c) (ft_cap_gen c) (ft_smart_gen c) (ft_cur_template c) (ft_cur_flow_id c)
    (ft_cur_time_sec c) (ft_stats c) (ft_tcp_dpc c) (ft_udp_dpc c) (ft_lookup c) r s.

Definition add_flow_stats (open bytes pkt : Z) (s : CFlowGenStats) : CFlowGenStats :=
  mkFlowStats (u64 (st_bytes s + bytes)) (u64 (st_pkt s + pkt)) (u64 (st_open s + open)) (st_close s)
    (st_no_flow_id s) (st_remove_flow_id s) (st_add_flow_id s) (st_timeout s) (st_learn_error s).
Definition add_close (n : Z) (s : CFlowGenStats) : CFlowGenStats :=
  mkFlowStats (st_bytes s) (st_pkt s) (st_open s) (u64 (st_close s + n))
    (st_no_flow_id s) (st_remove_flow_id s) (st_add_flow_id s) (st_timeout s) (st_learn_error s).
(** The counters of address learning: no flow, removed, added, timed out, changed. *)
Definition add_nat_stats (no_id removed added timeout err : Z) (s : CFlowGenStats) : CFlowGenStats :=
  mkFlowStats (st_bytes s) (st_pkt s) (st_open s) (st_close s) (u64 (st_no_flow_id s + no_id))
    (u64 (st_remove_flow_id s + removed)) (u64 (st_add_flow_id s + added)) (u64 (st_timeout s + timeout))
    (u64 (st_learn_error s + err)).

(** *** The queue *)

Definition get_fnode (a : Z) (c : CFlowGenListPerThread) : res fnode :=
  match ft_pool c !! a with Some x => Ok x | None => Err OutOfBounds end.
Definition get_flow (a : Z) (c : CFlowGenListPerThread) : res CGenNode :=
  match ft_pool c !! a with Some (FlowNode n) => Ok n | _ => Err OutOfBounds end.
Definition put_fnode (a : Z) (x : fnode) (c : CFlowGenListPerThread) : CFlowGenListPerThread :=
  set_nodes (<[a := x]> (ft_pool c)) (ft_queue c) c.
(** [m_p_queue.push] and [add_node]; [pop] takes the top, whose address is given. *)
Definition fpush (a : Z) (c : CFlowGenListPerThread) : CFlowGenListPerThread :=
  set_nodes (ft_pool c) (ft_queue c ++ [a]) c.
Fixpoint remove_one (a : Z) (q : list Z) : list Z :=
  match q with [] => [] | b :: q => if b =? a then q else b :: remove_one a q end.
Definition fpop (a : Z) (c : CFlowGenListPerThread) : CFlowGenListPerThread :=
  set_nodes (ft_pool c) (remove_one a (ft_queue c)) c.

(** What the code asks of its surroundings: a free node (by the nodes in use), the options, and
    the interface that sends, with whether a buffer may be cached. *)
Record gen_opts : Type := mkGenOpts {
  go_learn : bool; go_learn_verify : bool;
  go_rx_check : bool; go_rx_sample : Z;
  go_flow_flip_addr : bool; go_flow_flip : bool; go_flip : bool }.

Context (mempool_get : gmap Z fnode -> option Z) (o : gen_opts).
Context (send_node : bool -> Z -> option (list CFlowYamlDpPkt) -> CGenNode -> CFlowPktInfo -> res (Z * bytes * CGenNode)).
(** Fields that are not initialised keep what the memory held. *)
Context (junk_node : CGenNode) (junk_tuple : CTupleBase).

(** [CFlowGenListPerThread::create_node] *)
Definition create_fnode (x : fnode) (c : CFlowGenListPerThread) : res (Z * CFlowGenListPerThread) :=
  match mempool_get (ft_pool c) with
  | None => throw "cant allocate object , need more"
  | Some a => Ok (a, put_fnode a x c)
  end.
(** [free_node]; the cached buffer of a node of type [FLOW_PKT] goes with it, which follows the
    pointer of the plugin. *)
Definition free_fnode (a : Z) (c : CFlowGenListPerThread) : res CFlowGenListPerThread :=
  x ← get_fnode a c;
  _ ← match x with
      | FlowNode n => match n_type n with FLOW_PKT => _ ← get_cache_mbuf n; Ok tt | FLOW_PKT_NAT => Ok tt end
      | _ => Ok tt
      end;
  Ok (set_nodes (delete a (ft_pool c)) (ft_queue c) c).

(** ** The packets of a flow *)

Definition template_of (n : CGenNode) (c : CFlowGenListPerThread) : res CFlowGeneratorRecPerThread :=
  get_idx (ft_cap_gen c) (n_template n).
Definition cur_pkt (n : CGenNode) (c : CFlowGenListPerThread) : res CFlowPktInfo :=
  r ← template_of n c; cap_GetPacket (n_pkt_info n) (m_flow_info r).

Definition is_last_in_flow (n : CGenNode) (c : CFlowGenListPerThread) : res bool :=
  lp ← cur_pkt n c; Ok (IsLastPkt (fpi_desc lp)).
Definition is_repeat_flow (n : CGenNode) (c : CFlowGenListPerThread) : res bool :=
  r ← template_of n c; Ok (m_limit_was_set (m_info r)).
Definition can_cache_mbuf (n : CGenNode) (c : CFlowGenListPerThread) : res bool :=
  r ← template_of n c; Ok (m_limit_was_set (m_info r) && (cap_Size (m_flow_info r) =? 1)).

(** The packet that follows is found by the packet's number in its capture file, which
    counts from one. *)
Definition update_next_pkt_in_flow (n : CGenNode) (c : CFlowGenListPerThread) : res CGenNode :=
  r ← template_of n c;
  lp ← cur_pkt n c;
  let gap := if IsPcapTiming (fpi_desc lp) then cap_ipg lp
             else if IsRtt (fpi_desc lp) then m_rtt_sec (m_info r) else m_ipg_sec (m_info r) in
  let idx := u32 (u32 (pkt_cnt (fpi_packet lp) + 1) - 1) in
  _ ← cap_GetPacket idx (m_flow_info r);
  Ok (node_set_pkt_info idx (node_set_time (double_add (n_time n) gap) n)).
Definition reset_pkt_in_flow (n : CGenNode) (c : CFlowGenListPerThread) : res CGenNode :=
  r ← template_of n c;
  _ ← cap_GetPacket 0 (m_flow_info r);
  Ok (node_set_pkt_info 0 n).

(** [flush_one_node_to_file] *)
Definition flush_one_node (a : Z) (c : CFlowGenListPerThread) : res CFlowGenListPerThread :=
  n ← get_flow a c;
  r ← template_of n c;
  lp ← cur_pkt n c;
  can_cache ← can_cache_mbuf n c;
  '(dir, p, n') ← send_node can_cache (m_plugin_id (m_info r)) (m_dpPkt (m_info r)) n lp;
  let c := put_fnode a (FlowNode n') c in
  Ok (set_io (ft_from_rx c) (ft_sent c ++ [mkSent (n_flow_id n) (n_pkt_info n) dir p]) c).

(** ** Ports that go back later *)

Definition free_port (pool_idx client port : Z) (c : CFlowGenListPerThread) : res CFlowGenListPerThread :=
  g ← gen_FreePort pool_idx client port (ft_smart_gen c); Ok (set_gens (ft_cap_gen c) g c).

(** [get_tcp_defer] and [get_udp_defer]; the entry of a node's time is set when it is scheduled. *)
Definition get_defer (is_tcp : bool) (c : CFlowGenListPerThread) : res (Z * CFlowGenListPerThread) :=
  match (if is_tcp then ft_tcp_dpc c else ft_udp_dpc c) with
  | Some a => Ok (a, c)
  | None => '(a, c) ← create_fnode (DeferNode (n_time junk_node) []) c; Ok (a, set_dpc is_tcp (Some a) c)
  end.
Definition get_defer_entries (a : Z) (c : CFlowGenListPerThread) : res CGenNodeDeferPort :=
  match ft_pool c !! a with Some (DeferNode _ d) => Ok d | _ => Err OutOfBounds end.
(** [add_client]; [true] when the node is full. *)
Definition add_client (pool_idx client port : Z) (d : CGenNodeDeferPort) : res (bool * CGenNodeDeferPort) :=
  if zlength d <? DEFER_CLIENTS_NUM
  then let d := d ++ [(pool_idx, client, port)] in Ok (zlength d =? DEFER_CLIENTS_NUM, d)
  else Err OutOfBounds.

(** [defer_client_port_free]; [now] is the time. *)
Definition defer_client_port_free (now : double) (is_tcp : bool) (c_idx port c_pool_idx : Z) (c : CFlowGenListPerThread)
  : res CFlowGenListPerThread :=
  aging ← (if is_tcp then get_tcp_aging c_pool_idx (ft_smart_gen c) else get_udp_aging c_pool_idx (ft_smart_gen c));
  if aging =? 0 then free_port c_pool_idx c_idx port c
  else
    '(a, c) ← get_defer is_tcp c;
    d ← get_defer_entries a c;
    '(full, d) ← add_client c_pool_idx c_idx port d;
    if (full : bool) then
      Ok (set_dpc is_tcp None (fpush a (put_fnode a (DeferNode (double_add now (double_of_Z aging)) d) c)))
    else
      Ok (put_fnode a (DeferNode (n_time junk_node) d) c).

Fixpoint free_ports (d : CGenNodeDeferPort) (c : CFlowGenListPerThread) : res CFlowGenListPerThread :=
  match d with
  | [] => Ok c
  | (pool_idx, client, port) :: d => c ← free_port pool_idx client port c; free_ports d c
  end.
Definition handler_defer_job (a : Z) (c : CFlowGenListPerThread) : res CFlowGenListPerThread :=
  d ← get_defer_entries a c; free_ports d c.
Definition flush_dpc (is_tcp : bool) (c : CFlowGenListPerThread) : res CFlowGenListPerThread :=
  match (if is_tcp then ft_tcp_dpc c else ft_udp_dpc c) with
  | None => Ok c
  | Some a => c ← handler_defer_job a c; c ← free_fnode a c; Ok (set_dpc is_tcp None c)
  end.
Definition handler_defer_job_flush (c : CFlowGenListPerThread) : res CFlowGenListPerThread :=
  c ← flush_dpc true c; flush_dpc false c.

(** ** The end of a flow *)

(** [on_node_last]: the ports of a plugin go back too. *)
Definition on_node_last (now : double) (plugin_id a : Z) (c : CFlowGenListPerThread) : res CFlowGenListPerThread :=
  n ← get_flow a c;
  if (plugin_id =? mpRTSP) || (plugin_id =? mpSIP_VOICE) then
    q ← match n_plugin_info n with pi_rtsp q => Ok q | _ => Err OutOfBounds end;
    lp ← cur_pkt n c;
    r ← template_of n c;
    let is_tcp := IsTcp (fpi_desc lp) in
    c ← defer_client_port_free now is_tcp (n_src_idx n) (rtp_client_0 q) (m_client_pool_idx (m_info r)) c;
    c ← defer_client_port_free now is_tcp (n_src_idx n) (rtp_client_1 q) (m_client_pool_idx (m_info r)) c;
    Ok (put_fnode a (FlowNode (node_set_plugin pi_null n)) c)
  else if plugin_id =? mpDYN_PYLOAD then Ok c
  else if plugin_id =? mpAVL_HTTP_BROWSIN then
    match n_plugin_info n with
    | pi_seq _ | pi_null => Ok (put_fnode a (FlowNode (node_set_plugin pi_null n)) c)
    | _ => Err OutOfBounds
    end
  else Err AssertFail.

Definition free_last_flow_node (now : double) (a : Z) (c : CFlowGenListPerThread) : res CFlowGenListPerThread :=
  n ← get_flow a c;
  r ← template_of n c;
  let c := set_stats (add_close (m_total_flows (m_flow_info r)) (ft_stats c)) c in
  let plugin_id := m_plugin_id (m_info r) in
  c ← (if plugin_id =? 0 then Ok c else on_node_last now plugin_id a c);
  lp ← cur_pkt n c;
  c ← defer_client_port_free now (IsTcp (fpi_desc lp)) (n_src_idx n) (n_src_port n) (m_client_pool_idx (m_info r)) c;
  free_fnode a c.

(** ** Address learning *)

Definition associate (fid a : Z) (c : CFlowGenListPerThread) : res CFlowGenListPerThread :=
  _ ← c_assert (bool_decide (ft_lookup c !! fid = None));
  let c := set_stats (add_nat_stats 0 0 1 0 0 (ft_stats c)) c in
  Ok (set_lookup (<[fid := a]> (ft_lookup c)) c).

Definition terminate_nat_flows (now : double) (a : Z) (c : CFlowGenListPerThread) : res CFlowGenListPerThread :=
  n ← get_flow a c;
  let c := set_stats (add_nat_stats 0 1 0 1 0 (ft_stats c)) c in
  let c := set_lookup (delete (get_short_fid n) (ft_lookup c)) c in
  free_last_flow_node now a c.

Definition handel_nat_flow (m : CNatFlowInfo) (c : CFlowGenListPerThread) : res CFlowGenListPerThread :=
  match ft_lookup c !! m_fid m with
  | None => Ok (set_stats (add_nat_stats 1 0 0 0 0 (ft_stats c)) c)
  | Some a =>
      n ← get_flow a c;
      let n := set_nat_ipv4 (m_external_ip m) (m_external_port m) (m_external_ip_server m) n in
      _ ← c_assert (is_nat_wait_state n);
      let err := if go_learn_verify o && negb (is_external_is_eq_to_internal_ip n) then 1 else 0 in
      let c := put_fnode a (FlowNode (set_nat_learn_state n)) c in
      let c := set_stats (add_nat_stats 0 1 0 0 err (ft_stats c)) c in
      Ok (set_lookup (delete (m_fid m) (ft_lookup c)) c)
  end.
Fixpoint handel_nat_flows (l : list CNatFlowInfo) (c : CFlowGenListPerThread) : res CFlowGenListPerThread :=
  match l with
  | [] => Ok c
  | m :: l => c ← handel_nat_flow m c; handel_nat_flows l c
  end.
Definition handel_nat_msg (i : CGenNodeNatInfo) : CFlowGenListPerThread -> res CFlowGenListPerThread :=
  handel_nat_flows (m_data i).

(** [handel_latecy_pkt_msg]: the packet with the time stamp of now, of the clock [tick]. It is
    no packet of a flow. *)
Definition handel_latecy_pkt_msg (tick dir offset : Z) (pkt : bytes) (c : CFlowGenListPerThread) : res CFlowGenListPerThread :=
  p ← st64 pkt offset tick;
  Ok (set_io (ft_from_rx c) (ft_sent c ++ [mkSent (-1) 0 dir p]) c).

(** [check_msgs], the messages of the receiver. *)
Fixpoint handle_rx_msgs (tick : Z) (l : list rx_msg) (c : CFlowGenListPerThread) : res CFlowGenListPerThread :=
  match l with
  | [] => Ok c
  | m :: l =>
      c ← match m with
          | msg_nat i => handel_nat_msg i c
          | msg_latency dir offset pkt => handel_latecy_pkt_msg tick dir offset pkt c
          end;
      handle_rx_msgs tick l c
  end.
Definition check_msgs (tick : Z) (c : CFlowGenListPerThread) : res CFlowGenListPerThread :=
  handle_rx_msgs tick (ft_from_rx c) (set_io [] (ft_sent c) c).

(** ** Opening a flow *)

Definition gen_thread_id (c : CFlowGenListPerThread) : Z := g_thread_id (ft_smart_gen c).
Definition make_flow_id (flow_id thread_id : Z) : Z :=
  Z.lor (Z.land flow_id 0x000fffffffffffff) (Z.shiftl (Z.land thread_id 0xff) 56).

(** The sampling of flows for the receiver to check; [rnd] is the random number. *)
Definition rx_sampled (rnd : Z) : res bool :=
  if go_rx_sample o =? 1 then Ok true
  else if go_rx_sample o =? 0 then Err DivByZero
  else Ok (rnd mod go_rx_sample o =? 1).

Definition set_directions (n : CGenNode) : CGenNode :=
  let eligible := is_eligible_from_server_side n in
  if go_flow_flip_addr o then set_initiator_start_from_server_side_with_server_addr eligible n
  else if go_flow_flip o then set_all_flow_from_same_dir true (set_initiator_start_from_server eligible n)
  else if go_flip o then set_initiator_start_from_server eligible n
  else n.

(** The template [i] with its generator, and the generator of the thread. *)
Definition put_rec (i : Z) (r : CFlowGeneratorRecPerThread) (g : CTupleGeneratorSmart G) (c : CFlowGenListPerThread)
  : res CFlowGenListPerThread :=
  l ← set_idx (ft_cap_gen c) i r; Ok (set_gens l g c).
Definition generate_port (i : Z) (c : CFlowGenListPerThread) : res (Z * CFlowGenListPerThread) :=
  r ← get_idx (ft_cap_gen c) i;
  '(port, g) ← GenerateOneSourcePort (rec_tuple_gen r) (ft_smart_gen c);
  Ok (port, set_gens (ft_cap_gen c) g c).

(** [on_node_first] *)
Definition on_node_first (plugin_id i : Z) (n : CGenNode) (c : CFlowGenListPerThread)
  : res (CGenNode * CFlowGenListPerThread) :=
  if (plugin_id =? mpRTSP) || (plugin_id =? mpSIP_VOICE) then
    '(p0, c) ← generate_port i c;
    '(p1, c) ← generate_port i c;
    Ok (node_set_plugin (pi_rtsp (mkRtsp (mkSeq 0 0) p0 p1)) n, c)
  else if plugin_id =? mpDYN_PYLOAD then Ok (n, c)
  else if plugin_id =? mpAVL_HTTP_BROWSIN then Ok (node_set_plugin (pi_seq (mkSeq 0 0)) n, c)
  else Err AssertFail.

(** The node of a new flow of template [i], with the tuple [t]. *)
Definition new_flow_node (i flow_id : Z) (time : double) (t : CTupleBase) (c : CFlowGenListPerThread) : CGenNode :=
  mkGenNode FLOW_PKT (gen_thread_id c) (t_client_port t) 0 time (t_client_ip t) (t_server_ip t)
    (make_flow_id flow_id (gen_thread_id c)) 0 i pi_null (n_nat_external_ipv4 junk_node)
    (n_nat_external_ipv4_server junk_node) (n_nat_external_port junk_node) (t_client_mac t) (t_client_idx t) (t_server_idx t).

(** [generate_flow] for the node at [a]. *)
Definition generate_flow (rnd i : Z) (time : double) (flow_id a : Z) (c : CFlowGenListPerThread)
  : res CFlowGenListPerThread :=
  r ← get_idx (ft_cap_gen c) i;
  '(t, tg, g) ← template_GenerateTuple (rec_tuple_gen r) (ft_smart_gen c) junk_tuple;
  c ← put_rec i (rec_set (m_info r) (m_policer r) tg r) g c;
  lp ← cap_GetPacket 0 (m_flow_info r);
  let n := new_flow_node i flow_id time t c in
  '(n, c) ← (if go_learn o && IsBiDirectionalFlow (fpi_desc lp) then
               c ← associate (u32 flow_id) a c; Ok (set_nat_first_state n, c)
             else Ok (n, c));
  n ← (if go_rx_check o then
         s ← rx_sampled rnd;
         Ok (if s && negb (m_limit_was_set (m_info r)) then node_set_rx_check n else n)
       else Ok n);
  let n := set_directions n in
  '(n, c) ← (if m_plugin_id (m_info r) =? 0 then Ok (n, c) else on_node_first (m_plugin_id (m_info r)) i n c);
  Ok (fpush a (put_fnode a (FlowNode n) c)).

Definition next_template (cur : Z) (c : CFlowGenListPerThread) : Z :=
  let cur := u32 (cur + 1) in if cur =? zlength (ft_cap_gen c) then 0 else cur.
Definition inc_current_template (c : CFlowGenListPerThread) : CFlowGenListPerThread :=
  set_cursor (next_template (ft_cur_template c) c) (ft_cur_flow_id c) c.

(** The template may open a flow: there is no limit, or it is not reached. *)
Definition may_open (y : CFlowYamlInfo) : bool := negb (m_limit_was_set y) || (m_flowcnt y <? m_limit y).

(** The search of [generate_flows_roundrobin]: whether a template was found, which is then the
    current one, and whether all have reached their limits. *)
Fixpoint find_template (n : nat) (done : bool) (c : CFlowGenListPerThread) : res (bool * bool * CFlowGenListPerThread) :=
  match n with
  | O => Ok (false, done, c)
  | S n =>
      r ← get_idx (ft_cap_gen c) (ft_cur_template c);
      if may_open (m_info r) then
        let '(ok, p) := policer_update (double_of_Z 1) (ft_cur_time_sec c) (m_policer r) in
        let info := if ok then set_flowcnt (m_flowcnt (m_info r) + 1) (m_info r) else m_info r in
        c ← put_rec (ft_cur_template c) (rec_set info p (rec_tuple_gen r) r) (ft_smart_gen c) c;
        if ok then Ok (true, false, c) else find_template n false (inc_current_template c)
      else find_template n done (inc_current_template c)
  end.

(** [generate_flows_roundrobin]; the result is [*done]. The node is taken before its fields
    are known. *)
Definition generate_flows_roundrobin (rnd : Z) (c : CFlowGenListPerThread) : res (bool * CFlowGenListPerThread) :=
  '(found, done, c) ← find_template (length (ft_cap_gen c)) true c;
  if found : bool then
    '(a, c) ← create_fnode (FlowNode junk_node) c;
    let i := ft_cur_template c in
    c ← generate_flow rnd i (ft_cur_time_sec c) (ft_cur_flow_id c) a c;
    r ← get_idx (ft_cap_gen c) i;
    let c := set_cursor (ft_cur_template c) (ft_cur_flow_id c + 1) c in
    let fi := m_flow_info r in
    let c := set_stats (add_flow_stats (m_total_flows fi) (m_total_bytes fi) (cap_Size fi) (ft_stats c)) c in
    Ok (done, inc_current_template c)
  else Ok (done, c).

(** [reschedule_flow] *)
Definition reschedule_flow (a : Z) (c : CFlowGenListPerThread) : res CFlowGenListPerThread :=
  n ← get_flow a c;
  r ← template_of n c;
  n ← reset_pkt_in_flow n c;
  let c := put_fnode a (FlowNode (node_set_time (double_add (n_time n) (m_restart_time (m_info r))) n)) c in
  let c := fpush a c in
  Ok (set_stats (add_flow_stats 0 (m_total_bytes (m_flow_info r)) (cap_Size (m_flow_info r)) (ft_stats c)) c).

(** ** The scheduler *)

(** What a turn finds: the time, a random number, and the clock. *)
Record turn_env : Type := mkTurn { te_now : double; te_rand : Z; te_tick : Z }.

Definition next_packet (a : Z) (c : CFlowGenListPerThread) : res CFlowGenListPerThread :=
  n ← get_flow a c;
  n ← update_next_pkt_in_flow n c;
  Ok (fpush a (put_fnode a (FlowNode n) c)).

(** A node of type [FLOW_PKT]. *)
Definition turn_flow_pkt (e : turn_env) (always : bool) (a : Z) (c : CFlowGenListPerThread) : res CFlowGenListPerThread :=
  n ← get_flow a c;
  repeat ← is_repeat_flow n c;
  c ← (if negb repeat || negb always then flush_one_node a c else Ok c);
  let c := fpop a c in
  n ← get_flow a c;
  last ← is_last_in_flow n c;
  if last : bool then
    if repeat && negb always then reschedule_flow a c else free_last_flow_node (te_now e) a c
  else next_packet a c.

(** A node whose flow learns: the packets of the initiator are sent; when the turn of the
    responder comes first, the flow is given up. *)
Definition turn_flow_nat (e : turn_env) (a : Z) (c : CFlowGenListPerThread) : res CFlowGenListPerThread :=
  n ← get_flow a c;
  let advance c :=
    let c := fpop a c in
    n ← get_flow a c;
    last ← is_last_in_flow n c;
    if last : bool then free_last_flow_node (te_now e) a c else next_packet a c in
  if is_nat_first_state n then
    c ← flush_one_node a (put_fnode a (FlowNode (set_nat_wait_state n)) c);
    advance c
  else if is_nat_wait_state n then
    lp ← cur_pkt n c;
    if is_responder_pkt lp then terminate_nat_flows (te_now e) a (fpop a c)
    else c ← flush_one_node a c; advance c
  else Err AssertFail.

(** One turn of [flush_file] for the node at the top: [true] when the scheduler exits. [always]
    says that the flows are only closed. *)
Definition turn (e : turn_env) (always : bool) (d_time : double) (a : Z) (c : CFlowGenListPerThread)
  : res (bool * CFlowGenListPerThread) :=
  x ← get_fnode a c;
  match x with
  | FlowNode n =>
      c ← match n_type n with FLOW_PKT => turn_flow_pkt e always a c | FLOW_PKT_NAT => turn_flow_nat e a c end;
      Ok (false, c)
  | FifNode t =>
      let c := fpop a c in
      if always then c ← free_fnode a c; Ok (false, c)
      else
        '(done, c) ← generate_flows_roundrobin (te_rand e) (set_cur_time t c);
        if done : bool then c ← free_fnode a c; Ok (false, c)
        else Ok (false, fpush a (put_fnode a (FifNode (double_add t d_time)) c))
  | DeferNode _ _ =>
      c ← handler_defer_job a (fpop a c);
      c ← free_fnode a c;
      Ok (false, c)
  | SyncNode t =>
      c ← check_msgs (te_tick e) (fpop a (set_cur_time t c));
      if zlength (ft_queue c) =? 0 then c ← free_fnode a c; Ok (true, c)
      else Ok (false, fpush a (put_fnode a (SyncNode (double_add t (double_div (double_of_Z 1) (double_of_Z 1000)))) c))
  | ExitNode _ => c ← free_fnode a (fpop a c); Ok (true, c)
  end.

(** The top of the queue: no element is earlier. Which of several equally early ones comes
    first is left open. *)
Definition is_ftop (c : CFlowGenListPerThread) (a : Z) : Prop :=
  a ∈ ft_queue c /\
  forall b xa xb, b ∈ ft_queue c -> ft_pool c !! a = Some xa -> ft_pool c !! b = Some xb ->
    double_ltb (fnode_time xb) (fnode_time xa) = false.

(** Messages of the receiver arrive. *)
Definition receive (ms : list rx_msg) (c : CFlowGenListPerThread) : CFlowGenListPerThread :=
  set_io (ft_from_rx c ++ ms) (ft_sent c) c.

(** The loop of [flush_file], with the number of its turns. *)
Inductive flush_loop (always : bool) (d_time : double) : nat -> CFlowGenListPerThread -> CFlowGenListPerThread -> Prop :=
  | loop_exit c a e c' :
      is_ftop c a -> turn e always d_time a c = Ok (true, c') -> flush_loop always d_time 1 c c'
  | loop_turn n c a e c1 ms c' :
      is_ftop c a -> turn e always d_time a c = Ok (false, c1) -> flush_loop always d_time n (receive ms c1) c' ->
      flush_loop always d_time (S n) c c'.

(** [flush_file]: a node that ends it is put at [max_time], and, when the flows are closed, the
    ports that wait go back at the end. *)
Definition flush_begin (max_time : double) (always : bool) (c : CFlowGenListPerThread) : res CFlowGenListPerThread :=
  if double_ltb (double_of_Z 0) max_time && negb always
  then '(a, c) ← create_fnode (ExitNode max_time) c; Ok (fpush a c)
  else Ok c.
Definition flush_end (always terminated : bool) (c : CFlowGenListPerThread) : res CFlowGenListPerThread :=
  if terminated then Ok c else if always then handler_defer_job_flush c else Ok c.
Inductive gen_flush_file (max_time d_time : double) (always terminated : bool)
    : nat -> CFlowGenListPerThread -> CFlowGenListPerThread -> Prop :=
  | flush_run n c c1 c2 c' :
      flush_begin max_time always c = Ok c1 -> flush_loop always d_time n c1 c2 ->
      flush_end always terminated c2 = Ok c' -> gen_flush_file max_time d_time always terminated n c c'.

(** [remove_all]. *)
Fixpoint gen_remove_all (q : list Z) (c : CFlowGenListPerThread) : res CFlowGenListPerThread :=
  match q with
  | [] => Ok c
  | a :: q => c ← free_fnode a (set_nodes (ft_pool c) q c); gen_remove_all q c
  end.

(** ** Rates *)

(** [get_longest_flow] and [get_total_kcps] of the flows that [sel] selects. *)
Definition get_longest_flow (sel : CFlowYamlInfo -> bool) (l : list CFlowGeneratorRecPerThread) : double :=
  fold_left (fun longest r =>
    let len := get_cap_file_length_sec (m_flow_info r) in
    if sel (m_info r) && double_ltb longest len then len else longest) l (double_of_Z 0).
Definition get_total_kcps (sel : CFlowYamlInfo -> bool) (l : list CFlowGeneratorRecPerThread) : double :=
  fold_left (fun total r => if sel (m_info r) then double_add total (m_k_cps (m_info r)) else total) l (double_of_Z 0).
Definition of_pool (pool_idx : Z) (is_client : bool) (y : CFlowYamlInfo) : bool :=
  if is_client then m_client_pool_idx y =? pool_idx else m_server_pool_idx y =? pool_idx.
Definition get_delta_flow_is_sec (l : list CFlowGeneratorRecPerThread) : double :=
  double_div (double_of_Z 1) (double_mul (double_of_Z 1000) (get_total_kcps (fun _ => true) l)).

(** ** The share of a thread *)

(** The limit of a thread: the first has the rest of the division, none has less than one. *)
Definition thread_limit (limit thread_id max_threads : Z) : Z :=
  if max_threads =? 1 then limit
  else
    let l := limit / max_threads in
    let l := if thread_id =? 0 then u32 (l + limit mod max_threads) else l in
    if l =? 0 then 1 else l.

Definition thread_info (thread_id max_threads : Z) (y : CFlowYamlInfo) : CFlowYamlInfo :=
  let k_cps := double_div (m_k_cps y) (double_of_Z max_threads) in
  let limit := thread_limit (m_limit y) thread_id max_threads in
  mkYaml k_cps
    (if m_limit_was_set y then double_div (double_of_Z limit) (double_mul k_cps (double_of_Z 1000)) else double_of_Z 0)
    (m_ipg_sec y) (m_rtt_sec y) (m_w y) (m_wlength y) limit 0 (m_plugin_id y) (m_client_pool_idx y)
    (m_server_pool_idx y) (m_one_app_server y) (m_server_addr y) (m_cap_mode y) (m_limit_was_set y) (m_dpPkt y).

(** [CFlowGeneratorRecPerThread::Create]; [masks] are the dual port masks of the client pools. *)
Definition rec_Create (g : CTupleGeneratorSmart G) (info : CFlowYamlInfo) (dual_port_id : Z) (masks : list Z)
    (flow_info : CCapFileFlowInfo) (id : Z) (tg : CTupleTemplateGeneratorSmart) : res CFlowGeneratorRecPerThread :=
  tg ← template_Create g (m_client_pool_idx info) (m_server_pool_idx info) tg;
  mask ← get_idx masks (m_client_pool_idx info);
  p ← set_cir (double_mul (m_k_cps info) (double_of_Z 1000)) ClearMeter;
  Ok (mkRec flow_info info (set_bucket_size (double_of_Z 100) (set_level (double_of_Z 0) p))
        (SetW (u16 (m_w info)) (SetSingleServer (m_one_app_server info) (m_server_addr info) dual_port_id mask tg)) id).

(** [init_from_global]: the templates of all threads, as this thread has them. *)
Fixpoint init_from_global (thread_id max_threads dual_port_id : Z) (masks : list Z) (g : CTupleGeneratorSmart G)
    (tg : CTupleTemplateGeneratorSmart) (l : list (CCapFileFlowInfo * CFlowYamlInfo * Z))
  : res (list CFlowGeneratorRecPerThread) :=
  match l with
  | [] => Ok []
  | (flow_info, y, id) :: l =>
      _ ← c_assert (0 <? max_threads);
      r ← rec_Create g (thread_info thread_id max_threads y) dual_port_id masks flow_info id tg;
      rs ← init_from_global thread_id max_threads dual_port_id masks g tg l;
      Ok (r :: rs)
  end.

(** The pools of [Create]: lengths and rates are of the templates the thread has then, which is
    none, since [init_from_global] comes after. *)
Fixpoint create_client_pools (rng : G) (mac : option CFlowGenListMac) (thread_id max_threads dual : Z) (i : Z)
    (cap_gen : list CFlowGeneratorRecPerThread) (l : list CTupleGenPoolYaml) (g : CTupleGeneratorSmart G)
  : res (CTupleGeneratorSmart G) :=
  match l with
  | [] => Ok g
  | y :: l =>
      p ← split_ips thread_id max_threads dual y;
      g ← add_client_pool rng (y_dist y) (portion_ip_start p) (portion_ip_end p)
            (get_longest_flow (of_pool i true) cap_gen)
            (double_mul (get_total_kcps (of_pool i true) cap_gen) (double_of_Z 1000)) mac (y_tcp_aging_sec y)
            (y_udp_aging_sec y) g;
      create_client_pools rng mac thread_id max_threads dual (i + 1) cap_gen l g
  end.
Fixpoint create_server_pools (rng : G) (thread_id max_threads dual : Z) (i : Z)
    (cap_gen : list CFlowGeneratorRecPerThread) (l : list CTupleGenPoolYaml) (g : CTupleGeneratorSmart G)
  : res (CTupleGeneratorSmart G) :=
  match l with
  | [] => Ok g
  | y :: l =>
      p ← split_ips thread_id max_threads dual y;
      g ← add_server_pool rng (y_dist y) (portion_ip_start p) (portion_ip_end p)
            (get_longest_flow (of_pool i false) cap_gen)
            (double_mul (get_total_kcps (of_pool i false) cap_gen) (double_of_Z 1000)) (y_is_bundling y) g;
      create_server_pools rng thread_id max_threads dual (i + 1) cap_gen l g
  end.

(** [CFlowGenListPerThread::Create]. *)
Definition thread_Create (rng : G) (mac : CFlowGenListMac) (thread_id max_threads dual : Z)
    (yi : CTupleGenYamlInfo) (cap_gen : list (CCapFileFlowInfo * CFlowYamlInfo * Z)) (tg : CTupleTemplateGeneratorSmart)
    (g0 : CTupleGeneratorSmart G) : res CFlowGenListPerThread :=
  let g := gen_Create 0 thread_id (is_mac_info_configured mac) g0 in
  g ← create_client_pools rng (Some mac) thread_id max_threads dual 0 [] (yi_client_pool yi) g;
  g ← create_server_pools rng thread_id max_threads dual 0 [] (yi_server_pool yi) g;
  l ← init_from_global thread_id max_threads dual (y_dual_interface_mask <$> yi_client_pool yi) g tg cap_gen;
  Ok (mkGenThread ∅ [] l g 0 0 (double_of_Z 0) stats_clear None None ∅ [] []).

(** [start_generate_stateful], up to the first turn: [delta] is the gap between flows of all
    threads together and [start] is half a second from now in real time, else zero. *)
Definition start_generate (thread_id : Z) (delta start : double) (c : CFlowGenListPerThread) : res CFlowGenListPerThread :=
  let t := double_add (double_add (double_div (double_of_Z 1) (double_of_Z 100)) (double_mul (double_of_Z thread_id) delta)) start in
  let c := set_stats stats_clear (set_cursor (thread_id mod zlength (ft_cap_gen c)) 1 (set_cur_time t c)) in
  '(a, c) ← create_fnode (FifNode t) c;
  let c := fpush a c in
  '(b, c) ← create_fnode (SyncNode (double_add t (double_div (double_of_Z 1) (double_of_Z 1000)))) c;
  Ok (fpush b c).

(** The run: until the duration is over, then the flows are closed, unless this is not asked for
    or the master ended the run; at last the queue is emptied. The number is that of the turns
    before the duration is over. *)
Inductive generate_stateful (thread_id : Z) (delta start duration : double) (no_clean terminated : bool)
    : nat -> CFlowGenListPerThread -> CFlowGenListPerThread -> Prop :=
  | generate_nothing c : ft_cap_gen c = [] -> generate_stateful thread_id delta start duration no_clean terminated 0 c c
  | generate_run n m c c0 c1 c2 c' :
      ft_cap_gen c <> [] -> start_generate thread_id delta start c = Ok c0 ->
      gen_flush_file (double_add (ft_cur_time_sec c0) duration) (get_delta_flow_is_sec (ft_cap_gen c)) false terminated n c0 c1 ->
      (if negb no_clean && negb terminated
       then gen_flush_file (ft_cur_time_sec c1) (get_delta_flow_is_sec (ft_cap_gen c)) true terminated m c1 c2
       else c2 = c1) ->
      gen_remove_all (ft_queue c2) c2 = Ok c' ->
      generate_stateful thread_id delta start duration no_clean terminated n c c'.
End FlowGen.
Arguments CFlowGenListPerThread : clear implicits.
