(* ===== verification/FlowGenFacts.v ===== *)
(** * Facts about the generator of flows

    What the operations on nodes, ports and flows do to the state, and that none of them
    fails: every node in use is in the queue or waits for ports, the map of learning flows
    holds exactly the nodes that learn, and each flow finds its template. *)

From S2P Require Import Prelude Double ByteMem PktCmn PktDesc PktParser RxHeader CapTemplate TupleGen TupleGenFacts TupleGenTotal FlowNode MiniVm Plugins NatCheck FlowGen.

(** ** What is promised by others *)

(** What the packets of a plugin need of the node. *)
Definition plugin_fits (plugin_id : Z) (i : plugin_info) : Prop :=
  if (plugin_id =? mpRTSP) || (plugin_id =? mpSIP_VOICE) then exists q, i = pi_rtsp q
  else if plugin_id =? mpAVL_HTTP_BROWSIN then exists q, i = pi_seq q
  else match i with pi_null | pi_mbuf _ => True | _ => False end.
Definition is_plugin (plugin_id : Z) : Prop := 0 <= plugin_id <= mpAVL_HTTP_BROWSIN.

(** A node that is the same flow at the same packet. *)
Record same_flow (n n' : CGenNode) : Prop := {
  sf_type : n_type n' = n_type n;
  sf_flow : n_flow_id n' = n_flow_id n;
  sf_pkt : n_pkt_info n' = n_pkt_info n;
  sf_template : n_template n' = n_template n;
  sf_src : n_src_idx n' = n_src_idx n;
  sf_state : nat_state n' = nat_state n }.

(** The interface that sends packets: it takes the packets that it knows, gives back the flow
    as it was, and leaves what the plugin needs. *)
Class NodeSender (send_node : bool -> Z -> option (list CFlowYamlDpPkt) -> CGenNode -> CFlowPktInfo ->
    res (Z * bytes * CGenNode)) : Type := {
  ns_pkt : Z -> option (list CFlowYamlDpPkt) -> CFlowPktInfo -> Prop;
  ns_send : forall can_cache plugin_id dp n lp, ns_pkt plugin_id dp lp -> plugin_fits plugin_id (n_plugin_info n) ->
    exists dir p n', send_node can_cache plugin_id dp n lp = Ok (dir, p, n') /\ same_flow n n' /\
      plugin_fits plugin_id (n_plugin_info n') }.

(** The pool of nodes: an address that is not in use, always. *)
Class NodePool (mempool_get : gmap Z fnode -> option Z) : Prop := {
  np_get : forall p, exists a, mempool_get p = Some a /\ p !! a = None }.

#[local] Set Default Proof Using "Type*".

Section Facts.
Context {G : Type} `{UniformInt G}.
Context (send_node : bool -> Z -> option (list CFlowYamlDpPkt) -> CGenNode -> CFlowPktInfo -> res (Z * bytes * CGenNode)).
Context `{!NodeSender send_node}.
Implicit Types (c : CFlowGenListPerThread G).

(** ** Templates *)

(** A template as loading leaves it: packets are numbered from one, the last one is marked; a
    flow of both directions has a packet of the responder behind the first. *)
Record template_ok (r : CFlowGeneratorRecPerThread) : Prop := {
  tk_size : 0 < cap_Size (m_flow_info r) < 4294967295;
  tk_cnt : forall i p, m_flow_pkts (m_flow_info r) !! i = Some p -> pkt_cnt (fpi_packet p) = Z.of_nat i + 1;
  tk_last : forall i p, m_flow_pkts (m_flow_info r) !! i = Some p ->
    IsLastPkt (fpi_desc p) = bool_decide (Z.of_nat i + 1 = cap_Size (m_flow_info r));
  tk_learn : forall p, m_flow_pkts (m_flow_info r) !! 0%nat = Some p -> IsBiDirectionalFlow (fpi_desc p) = true ->
    exists j q, (0 < j)%nat /\ m_flow_pkts (m_flow_info r) !! j = Some q /\ is_responder_pkt q = true;
  tk_plugin : is_plugin (m_plugin_id (m_info r));
  tk_pkts : Forall (ns_pkt (m_plugin_id (m_info r)) (m_dpPkt (m_info r))) (m_flow_pkts (m_flow_info r)) }.

(** What of a template does not change. *)
Definition static_of (r : CFlowGeneratorRecPerThread) : CCapFileFlowInfo * Z * Z * bool * double * double * double :=
  (m_flow_info r, m_plugin_id (m_info r), m_client_pool_idx (m_info r), m_limit_was_set (m_info r),
   m_restart_time (m_info r), m_ipg_sec (m_info r), m_rtt_sec (m_info r)).

Definition gen_fits (g : CTupleGeneratorSmart G) (r : CFlowGeneratorRecPerThread) : Prop :=
  tmpl_ok g (rec_tuple_gen r) /\ tt_client_pool (rec_tuple_gen r) = m_client_pool_idx (m_info r).

Record gens_ok (l : list CFlowGeneratorRecPerThread) (g : CTupleGeneratorSmart G) : Prop := {
  gk_templates : Forall template_ok l;
  gk_plain : gen_plain g;
  gk_fits : Forall (gen_fits g) l }.

Definition same_world c c' : Prop :=
  static_of <$> ft_cap_gen c' = static_of <$> ft_cap_gen c /\ gen_shape (ft_smart_gen c') = gen_shape (ft_smart_gen c).

Lemma same_world_refl c : same_world c c.
Proof. done. Qed.
Lemma same_world_trans c1 c2 c3 : same_world c1 c2 -> same_world c2 c3 -> same_world c1 c3.
Proof. intros [A B] [C D]. split; congruence. Qed.

Lemma static_lookup (l l' : list CFlowGeneratorRecPerThread) (i : nat) r :
  static_of <$> l' = static_of <$> l -> l !! i = Some r -> exists r', l' !! i = Some r' /\ static_of r' = static_of r.
Proof.
  intros E Hr. pose proof (f_equal (fun l => l !! i) E) as E'. cbn in E'. rewrite !list_lookup_fmap, Hr in E'.
  destruct (l' !! i) as [r'|]; cbn in E'; [|discriminate].
  apply (inj Some) in E'. by exists r'.
Qed.

Lemma gens_ok_shape l g g' : gens_ok l g -> gen_plain g' -> gen_shape g' = gen_shape g -> gens_ok l g'.
Proof.
  intros [A B C] Hp Hs. split; [done|done|]. eapply Forall_impl; [exact C|]. intros r [D E]. split; [|done].
  by eapply tmpl_ok_shape.
Qed.

(** ** Nodes *)

Definition flow_of_node (x : fnode) : option CGenNode := match x with FlowNode n => Some n | _ => None end.
(** The flows in the pool, by address. *)
Definition flows c : gmap Z CGenNode := omap flow_of_node (ft_pool c).

Lemma flows_lookup c a n : flows c !! a = Some n <-> ft_pool c !! a = Some (FlowNode n).
Proof.
  unfold flows. rewrite lookup_omap. destruct (ft_pool c !! a) as [[]|]; cbn; split; intros E; congruence.
Qed.
Lemma get_flow_Ok c a n : flows c !! a = Some n -> get_flow a c = Ok n.
Proof. intros E%flows_lookup. unfold get_flow. by rewrite E. Qed.

Lemma flows_put c a x :
  omap flow_of_node (<[a := x]> (ft_pool c)) = match x with FlowNode n => <[a := n]> (flows c) | _ => delete a (flows c) end.
Proof.
  apply map_eq. intros k. rewrite lookup_omap. destruct (decide (k = a)) as [->|Hk].
  - rewrite lookup_insert_eq. cbn. destruct x; cbn; by rewrite ?lookup_insert_eq, ?lookup_delete_eq.
  - rewrite lookup_insert_ne by done. unfold flows. destruct x; cbn;
      rewrite ?lookup_insert_ne, ?lookup_delete_ne, lookup_omap by done; done.
Qed.

(** The nodes that drive the scheduler, by address. *)
Definition tick_of (x : fnode) : option fnode :=
  match x with FlowNode _ | DeferNode _ _ => None | _ => Some x end.
Definition ticks c : gmap Z fnode := omap tick_of (ft_pool c).

Lemma ticks_lookup c a x : ticks c !! a = Some x <-> ft_pool c !! a = Some x /\ tick_of x = Some x.
Proof.
  unfold ticks. rewrite lookup_omap. destruct (ft_pool c !! a) as [[]|]; cbn; split; intros E; naive_solver.
Qed.
Lemma ticks_put_same c a x : tick_of x = None -> (forall y, ft_pool c !! a = Some y -> tick_of y = None) ->
  omap tick_of (<[a := x]> (ft_pool c)) = ticks c.
Proof.
  intros Hx Hy. rewrite omap_insert, Hx. apply delete_id. unfold ticks. rewrite lookup_omap.
  destruct (ft_pool c !! a) as [y|]; cbn; [by apply Hy|done].
Qed.
Lemma flow_no_tick c a n : flows c !! a = Some n -> forall y, ft_pool c !! a = Some y -> tick_of y = None.
Proof. intros ->%flows_lookup. by intros ? [= <-]. Qed.

Definition dpcs c : list Z := option_list (ft_tcp_dpc c) ++ option_list (ft_udp_dpc c).
Definition entry_ok c (e : Z * Z * Z) : Prop :=
  let '(k, idx, port) := e in is_client_pool (ft_smart_gen c) k /\ 0 <= idx < pool_size (ft_smart_gen c) k.
(** A flow: its template, its packet, its client, and what it has learned. *)
Definition learns (r : CFlowGeneratorRecPerThread) (n : CGenNode) : Prop :=
  (exists p, m_flow_pkts (m_flow_info r) !! 0%nat = Some p /\ IsBiDirectionalFlow (fpi_desc p) = true) /\
  ((nat_state n = 1 /\ n_pkt_info n = 0) \/
   (nat_state n = 2 /\
    forall j p, (0 < j)%nat -> Z.of_nat j < n_pkt_info n -> m_flow_pkts (m_flow_info r) !! j = Some p -> is_responder_pkt p = false)).
Record flow_fits (l : list CFlowGeneratorRecPerThread) (g : CTupleGeneratorSmart G) (n : CGenNode)
    (r : CFlowGeneratorRecPerThread) : Prop := {
  fk_template : 0 <= n_template n;
  fk_rec : l !! Z.to_nat (n_template n) = Some r;
  fk_pkt : 0 <= n_pkt_info n < cap_Size (m_flow_info r);
  fk_pool : is_client_pool g (m_client_pool_idx (m_info r));
  fk_client : 0 <= n_src_idx n < pool_size g (m_client_pool_idx (m_info r));
  fk_plugin : plugin_fits (m_plugin_id (m_info r)) (n_plugin_info n);
  fk_learn : n_type n = FLOW_PKT_NAT -> learns r n }.
Definition flow_ok c : CGenNode -> CFlowGeneratorRecPerThread -> Prop := flow_fits (ft_cap_gen c) (ft_smart_gen c).

Definition node_ok c (x : fnode) : Prop :=
  match x with
  | FlowNode n => exists r, flow_ok c n r
  | DeferNode _ d => Forall (entry_ok c) d
  | _ => True
  end.

(** Nodes are in the queue, waiting for ports to free, or, in [hole], in hand; what is in hand
    may be unfinished. *)
Record ginv (hole : list Z) c : Prop := {
  gi_nodup : NoDup (hole ++ ft_queue c ++ dpcs c);
  gi_dom : forall a, is_Some (ft_pool c !! a) <-> a ∈ hole ++ ft_queue c ++ dpcs c;
  gi_gens : gens_ok (ft_cap_gen c) (ft_smart_gen c);
  gi_nodes : forall a x, a ∉ hole -> ft_pool c !! a = Some x -> node_ok c x;
  gi_dpc : forall a, a ∈ dpcs c -> exists t d, ft_pool c !! a = Some (DeferNode t d) /\ zlength d < DEFER_CLIENTS_NUM }.

Lemma entry_ok_world c c' e : same_world c c' -> entry_ok c e -> entry_ok c' e.
Proof.
  intros [_ Hs] He. destruct e as [[k idx] port]. destruct (shape_pools _ _ Hs) as (E1 & E2 & _). destruct He as [A B].
  split; [by apply E2|by rewrite E1].
Qed.

Lemma flow_ok_world c c' n r : same_world c c' -> flow_ok c n r -> exists r', flow_ok c' n r' /\ static_of r' = static_of r.
Proof.
  intros [Hst Hs] [A B C D E F L]. destruct (static_lookup _ _ _ _ Hst B) as (r' & Hr' & Es). exists r'. split; [|done].
  destruct (shape_pools _ _ Hs) as (E1 & E2 & _). unfold static_of in Es. injection Es as e1 e2 e3 e4 _ _ _.
  split; rewrite ?e1, ?e2, ?e3, ?e4, ?E1; try done; [by apply E2|]. intros Hn. specialize (L Hn). unfold learns. by rewrite e1.
Qed.

Lemma node_ok_world c c' x : same_world c c' -> node_ok c x -> node_ok c' x.
Proof.
  intros Hw. destruct x as [n| | | |t d]; cbn; try done.
  - intros [r Hr]. destruct (flow_ok_world _ _ _ _ Hw Hr) as (r' & Hr' & _). by exists r'.
  - intros Hd. eapply Forall_impl; [exact Hd|]. intros e. by apply entry_ok_world.
Qed.

Lemma gi_flows hole c a n : ginv hole c -> a ∉ hole -> flows c !! a = Some n -> exists r, flow_ok c n r.
Proof. intros Hi Ha Hn%flows_lookup. exact (gi_nodes _ _ Hi _ _ Ha Hn). Qed.

(** ** Ports *)

(** What stays when ports move: the flows, the map, what was sent. *)
Record quiet c c' : Prop := {
  qu_world : same_world c c';
  qu_caps : ft_cap_gen c' = ft_cap_gen c;
  qu_flows : flows c' = flows c;
  qu_ticks : ticks c' = ticks c;
  qu_lookup : ft_lookup c' = ft_lookup c;
  qu_sent : ft_sent c' = ft_sent c;
  qu_id : ft_cur_flow_id c' = ft_cur_flow_id c;
  qu_template : ft_cur_template c' = ft_cur_template c }.
Lemma quiet_refl c : quiet c c.
Proof. done. Qed.
Lemma quiet_trans c1 c2 c3 : quiet c1 c2 -> quiet c2 c3 -> quiet c1 c3.
Proof. intros [] []. split; try congruence. by eapply same_world_trans. Qed.

(** The invariant, when nodes, templates and places stay. *)
Lemma ginv_world hole c c' :
  ginv hole c -> same_world c c' -> ft_pool c' = ft_pool c -> ft_queue c' = ft_queue c -> dpcs c' = dpcs c ->
  gens_ok (ft_cap_gen c') (ft_smart_gen c') -> ginv hole c'.
Proof.
  intros [A B C D E] Hw Hp Hq Hd Hg. split; rewrite ?Hq, ?Hd, ?Hp; try done.
  intros a x Ha Hx. eapply node_ok_world; [exact Hw|]. by eapply D.
Qed.

Lemma free_port_ok hole c k idx port :
  ginv hole c -> entry_ok c (k, idx, port) ->
  exists c', free_port k idx port c = Ok c' /\ ginv hole c' /\ quiet c c' /\ ft_queue c' = ft_queue c /\ ft_pool c' = ft_pool c /\
    dpcs c' = dpcs c.
Proof.
  intros Hi [Hk Hr]. pose proof (gi_gens _ _ Hi) as Hg.
  destruct (gen_free_ok _ _ _ port (gk_plain _ _ Hg) Hk Hr) as (g' & E & Hp & Hs).
  unfold free_port. rewrite E. cbn [mbind res_bind]. eexists. split; [reflexivity|].
  split; [|split; [|done]].
  - eapply ginv_world; [exact Hi| | | | |]; try done. cbn. by eapply gens_ok_shape.
  - by split.
Qed.

Lemma free_ports_ok hole d : forall c,
  ginv hole c -> Forall (entry_ok c) d ->
  exists c', free_ports d c = Ok c' /\ ginv hole c' /\ quiet c c' /\ ft_queue c' = ft_queue c /\ ft_pool c' = ft_pool c /\
    dpcs c' = dpcs c.
Proof.
  induction d as [|[[k idx] port] d IH]; intros c Hi Hd; cbn [free_ports]; [by exists c|].
  apply Forall_cons in Hd as [He Hd]. destruct (free_port_ok _ _ _ _ _ Hi He) as (c1 & -> & Hi1 & Hq1 & A & B & C).
  cbn [mbind res_bind]. destruct (IH c1 Hi1) as (c2 & -> & Hi2 & Hq2 & A2 & B2 & C2).
  { eapply Forall_impl; [exact Hd|]. intros e. apply entry_ok_world, Hq1. }
  exists c2. split; [done|]. split; [done|]. split; [by eapply quiet_trans|]. repeat split; congruence.
Qed.

(** *** Nodes in and out of the pool *)

(** The node in hand changes. *)
Lemma put_ok a hole c x : ginv (a :: hole) c -> ginv (a :: hole) (put_fnode a x c).
Proof.
  intros [A B C D E]. apply NoDup_cons in A as A'. destruct A' as [Hn _]. split; [done| |done| |].
  - intros k. change (dpcs (put_fnode a x c)) with (dpcs c). cbn in *.
    destruct (decide (k = a)) as [->|Hk]; [rewrite lookup_insert_eq|by rewrite lookup_insert_ne, B by done].
    split; [set_solver|by eexists].
  - intros k y Hk. cbn. rewrite lookup_insert_ne by set_solver. by apply D.
  - intros k Hk. cbn. rewrite lookup_insert_ne; [by apply E|]. intros ->. apply Hn. change (dpcs (put_fnode _ _ c)) with (dpcs c) in Hk. set_solver.
Qed.

(** A finished node goes into the queue. *)
Lemma push_ok a hole c x : ginv (a :: hole) c -> ft_pool c !! a = Some x -> node_ok c x -> ginv hole (fpush a c).
Proof.
  intros [A B C D E] Hx Hok. split; [| |done| |done]; unfold fpush; cbn [ft_queue ft_pool set_nodes].
  - change (dpcs (set_nodes _ _ c)) with (dpcs c). rewrite <- app_assoc. cbn.
    assert (P : hole ++ ft_queue c ++ a :: dpcs c ≡ₚ a :: hole ++ ft_queue c ++ dpcs c)
      by (rewrite !(app_assoc hole); by rewrite <- Permutation_middle).
    by rewrite P.
  - intros k. change (dpcs (set_nodes _ _ c)) with (dpcs c). rewrite B. set_solver.
  - intros k y Hk Hy. destruct (decide (k = a)) as [->|Hka]; [|apply (D k); [set_solver|done]].
    rewrite Hx in Hy. by injection Hy as <-.
Qed.

Lemma fremove_perm a q : a ∈ q -> q ≡ₚ a :: remove_one a q.
Proof.
  induction q as [|b q IH]; [set_solver|]. cbn. destruct (Z.eqb_spec b a) as [->|Hb]; [done|].
  intros [->|Hq]%elem_of_cons; [done|]. rewrite (IH Hq) at 1. apply Permutation_swap.
Qed.

Lemma pop_ok a hole c : ginv hole c -> a ∈ ft_queue c -> ginv (a :: hole) (fpop a c).
Proof.
  intros [A B C D E] Ha. pose proof (fremove_perm _ _ Ha) as Hp.
  assert (Hperm : hole ++ ft_queue c ++ dpcs c ≡ₚ (a :: hole) ++ remove_one a (ft_queue c) ++ dpcs c).
  { rewrite Hp at 1. cbn. by rewrite <- Permutation_middle. }
  split; [| |done| |done]; unfold fpop; cbn [ft_queue set_nodes ft_pool]; change (dpcs (set_nodes _ _ c)) with (dpcs c).
  - by rewrite <- Hperm.
  - intros k. by rewrite B, Hperm.
  - intros k x Hk. apply D. set_solver.
Qed.

(** *** Ports that wait *)

Definition dpc (is_tcp : bool) c : option Z := if is_tcp then ft_tcp_dpc c else ft_udp_dpc c.
Lemma dpcs_perm is_tcp c : dpcs c ≡ₚ option_list (dpc is_tcp c) ++ option_list (dpc (negb is_tcp) c).
Proof. destruct is_tcp; cbn; [done|]. unfold dpcs. by rewrite (Permutation_app_comm (option_list (ft_tcp_dpc c))). Qed.
Lemma dpc_set is_tcp x c : dpc is_tcp (set_dpc is_tcp x c) = x /\ dpc (negb is_tcp) (set_dpc is_tcp x c) = dpc (negb is_tcp) c.
Proof. by destruct is_tcp. Qed.
Lemma dpcs_set is_tcp x c : dpcs (set_dpc is_tcp x c) ≡ₚ option_list x ++ option_list (dpc (negb is_tcp) c).
Proof. rewrite (dpcs_perm is_tcp). by destruct (dpc_set is_tcp x c) as [-> ->]. Qed.

Lemma ginv_dpcs hole hole' is_tcp x c :
  ginv hole c -> hole ++ ft_queue c ++ dpcs c ≡ₚ hole' ++ ft_queue c ++ dpcs (set_dpc is_tcp x c) ->
  (forall a, x = Some a -> exists t d, ft_pool c !! a = Some (DeferNode t d) /\ zlength d < DEFER_CLIENTS_NUM) ->
  (forall a y, a ∉ hole' -> ft_pool c !! a = Some y -> node_ok c y) ->
  ginv hole' (set_dpc is_tcp x c).
Proof.
  intros [A B C D E] P Hx Hn. split; cbn [ft_queue set_dpc ft_pool]; [by rewrite <- P| |done|done|].
  - intros k. by rewrite B, P.
  - intros a Ha. rewrite (dpcs_set is_tcp) in Ha. apply elem_of_app in Ha as [Ha|Ha].
    + destruct x as [b|]; cbn in Ha; [|set_solver]. apply list_elem_of_singleton in Ha as ->. by apply Hx.
    + apply E. rewrite (dpcs_perm is_tcp). set_solver.
Qed.

Lemma dpc_take is_tcp a hole c : ginv hole c -> dpc is_tcp c = Some a -> ginv (a :: hole) (set_dpc is_tcp None c).
Proof.
  intros Hi Ha. eapply ginv_dpcs; [exact Hi| |done|].
  - rewrite (dpcs_set is_tcp), (dpcs_perm is_tcp), Ha. cbn. rewrite !(app_assoc hole). by rewrite <- Permutation_middle.
  - intros k y Hk. apply (gi_nodes _ _ Hi). set_solver.
Qed.
Lemma dpc_give is_tcp a hole c t d :
  ginv (a :: hole) c -> dpc is_tcp c = None -> ft_pool c !! a = Some (DeferNode t d) -> zlength d < DEFER_CLIENTS_NUM ->
  Forall (entry_ok c) d -> ginv hole (set_dpc is_tcp (Some a) c).
Proof.
  intros Hi Ha Hp Hd Hok. eapply ginv_dpcs; [exact Hi| | |].
  - rewrite (dpcs_set is_tcp), (dpcs_perm is_tcp), Ha. cbn. rewrite !(app_assoc hole). by rewrite <- Permutation_middle.
  - intros b [= <-]. by exists t, d.
  - intros k y Hk Hy. destruct (decide (k = a)) as [->|Hka]; [|apply (gi_nodes _ _ Hi k); [set_solver|done]].
    rewrite Hp in Hy. by injection Hy as <-.
Qed.
Lemma dpc_give_put is_tcp a x c :
  dpc is_tcp c = Some a -> set_dpc is_tcp (Some a) (put_fnode a x (set_dpc is_tcp None c)) = put_fnode a x c.
Proof. destruct is_tcp, c; cbn; by intros ->. Qed.

(** ** The packets of a flow *)

Lemma template_get c n r : flow_ok c n r -> template_of n c = Ok r.
Proof. intros [A B _ _ _ _ _]. by apply get_idx_Ok. Qed.
Lemma template_static hole c n r : ginv hole c -> flow_ok c n r -> template_ok r.
Proof. intros Hi Hf. exact (proj1 (Forall_lookup _ _) (gk_templates _ _ (gi_gens _ _ Hi)) _ _ (fk_rec _ _ _ _ Hf)). Qed.

Lemma cur_pkt_get hole c n r :
  ginv hole c -> flow_ok c n r ->
  exists lp, cur_pkt n c = Ok lp /\ m_flow_pkts (m_flow_info r) !! Z.to_nat (n_pkt_info n) = Some lp.
Proof.
  intros Hi Hf. pose proof (template_static _ _ _ _ Hi Hf) as Ht. unfold cur_pkt. rewrite (template_get _ _ _ Hf). cbn [mbind res_bind].
  unfold cap_GetPacket. pose proof (fk_pkt _ _ _ _ Hf) as Hp. pose proof (tk_size _ Ht). unfold cap_Size, zlength in *.
  rewrite u32_id by lia. destruct (lookup_lt_is_Some_2 (m_flow_pkts (m_flow_info r)) (Z.to_nat (n_pkt_info n))) as [lp Hlp]; [lia|].
  rewrite Hlp. by exists lp.
Qed.

Lemma is_last_get hole c n r :
  ginv hole c -> flow_ok c n r -> is_last_in_flow n c = Ok (bool_decide (n_pkt_info n + 1 = cap_Size (m_flow_info r))).
Proof.
  intros Hi Hf. destruct (cur_pkt_get _ _ _ _ Hi Hf) as (lp & E & Hlp). unfold is_last_in_flow. rewrite E. cbn [mbind res_bind].
  rewrite (tk_last _ (template_static _ _ _ _ Hi Hf) _ _ Hlp), Z2Nat.id by apply (fk_pkt _ _ _ _ Hf). done.
Qed.

(** The next packet is the next of the template. *)
Lemma update_next_get hole c n r :
  ginv hole c -> flow_ok c n r -> n_pkt_info n + 1 < cap_Size (m_flow_info r) ->
  exists t, update_next_pkt_in_flow n c = Ok (node_set_pkt_info (n_pkt_info n + 1) (node_set_time t n)).
Proof.
  intros Hi Hf Hl. pose proof (template_static _ _ _ _ Hi Hf) as Ht. destruct (cur_pkt_get _ _ _ _ Hi Hf) as (lp & E & Hlp).
  pose proof (fk_pkt _ _ _ _ Hf) as Hp. pose proof (tk_size _ Ht) as Hs.
  unfold update_next_pkt_in_flow. rewrite (template_get _ _ _ Hf). cbn [mbind res_bind]. rewrite E. cbn [mbind res_bind].
  rewrite (tk_cnt _ Ht _ _ Hlp), Z2Nat.id by lia.
  replace (u32 (u32 (n_pkt_info n + 1 + 1) - 1)) with (n_pkt_info n + 1) by (rewrite !u32_id by (rewrite ?u32_id by lia; lia); lia).
  unfold cap_GetPacket. rewrite u32_id by lia. unfold cap_Size, zlength in *.
  destruct (lookup_lt_is_Some_2 (m_flow_pkts (m_flow_info r)) (Z.to_nat (n_pkt_info n + 1))) as [q ->]; [lia|]. by eexists.
Qed.

(** ** Moving on *)

(** The flows become [fl] and the log [l]; the rest of what matters stays. *)
Record moves c c' (fl : gmap Z CGenNode) (l : list sent_pkt) : Prop := {
  mv_world : same_world c c';
  mv_caps : ft_cap_gen c' = ft_cap_gen c;
  mv_flows : flows c' = fl;
  mv_ticks : ticks c' = ticks c;
  mv_lookup : ft_lookup c' = ft_lookup c;
  mv_sent : ft_sent c' = ft_sent c ++ l;
  mv_id : ft_cur_flow_id c' = ft_cur_flow_id c;
  mv_template : ft_cur_template c' = ft_cur_template c }.

Lemma quiet_moves c c' fl l c'' : quiet c c' -> moves c' c'' fl l -> moves c c'' fl l.
Proof. intros [] []. split; try congruence. by eapply same_world_trans. Qed.
Lemma moves_quiet c c' c'' fl l : moves c c' fl l -> quiet c' c'' -> moves c c'' fl l.
Proof. intros [] []. split; try congruence. by eapply same_world_trans. Qed.
Lemma moves_trans c c' c'' fl fl' l l' : moves c c' fl l -> moves c' c'' fl' l' -> moves c c'' fl' (l ++ l').
Proof. intros [] []. split; try congruence; [by eapply same_world_trans|]. rewrite app_assoc. congruence. Qed.
Lemma quiet_is_moves c c' : quiet c c' -> moves c c' (flows c) [].
Proof. intros []. split; try done. by rewrite app_nil_r. Qed.

Lemma moves_put_flow a n n0 c : flows c !! a = Some n0 -> moves c (put_fnode a (FlowNode n) c) (<[a := n]> (flows c)) [].
Proof.
  intros Ha. split; try done; [exact (flows_put c a (FlowNode n))| |cbn; by rewrite app_nil_r].
  apply ticks_put_same; [done|]. by eapply flow_no_tick.
Qed.

(** A node in hand is freed. *)
Lemma free_fnode_ok a hole c x :
  ginv (a :: hole) c -> ft_pool c !! a = Some x ->
  (forall n, x = FlowNode n -> n_type n = FLOW_PKT -> exists m, get_cache_mbuf n = Ok m) ->
  exists c', free_fnode a c = Ok c' /\ c' = set_nodes (delete a (ft_pool c)) (ft_queue c) c /\ ginv hole c' /\
    flows c' = delete a (flows c) /\ ticks c' = delete a (ticks c).
Proof.
  intros [A B C D E] Hp Hx. unfold free_fnode, get_fnode. rewrite Hp. cbn [mbind res_bind].
  assert (Hc : (match x with
      | FlowNode n => match n_type n with FLOW_PKT => _ ← get_cache_mbuf n; Ok tt | FLOW_PKT_NAT => Ok tt end
      | _ => Ok tt end) = Ok tt).
  { destruct x as [n| | | |]; try done. destruct (n_type n) eqn:En; [|done]. by destruct (Hx n eq_refl En) as [m ->]. }
  rewrite Hc. cbn [mbind res_bind]. set (c' := set_nodes _ _ _). apply NoDup_cons in A as A'. destruct A' as [Hn Hnd].
  exists c'. split; [done|]. split; [done|]. split; [|by split; apply omap_delete].
  - split; [exact Hnd| |done| |].
    + intros k. cbn. change (dpcs c') with (dpcs c). cbn in B. destruct (decide (k = a)) as [->|Hk].
      * rewrite lookup_delete_eq. split; [by intros [? ?]|]. intros Hin. by destruct Hn.
      * rewrite lookup_delete_ne, B by done. set_solver.
    + intros k y Hk. cbn. intros [Hka Hy]%lookup_delete_Some. apply (D k); [set_solver|done].
    + intros k Hk. change (dpcs c') with (dpcs c) in Hk. destruct (E k Hk) as (t & d & Hkd & Hl). exists t, d. cbn.
      rewrite lookup_delete_ne; [done|]. intros ->. apply Hn. set_solver.
Qed.

Lemma free_flow_moves a c n :
  flows c !! a = Some n -> moves c (set_nodes (delete a (ft_pool c)) (ft_queue c) c) (delete a (flows c)) [].
Proof.
  intros Hn. split; try done; [apply omap_delete| |cbn; by rewrite app_nil_r].
  unfold ticks. cbn. rewrite omap_delete. apply delete_id. rewrite lookup_omap. apply flows_lookup in Hn. by rewrite Hn.
Qed.

Lemma fits_cache plugin_id n : plugin_fits plugin_id (n_plugin_info n) ->
  (plugin_id =? mpRTSP) || (plugin_id =? mpSIP_VOICE) = false -> plugin_id =? mpAVL_HTTP_BROWSIN = false ->
  exists m, get_cache_mbuf n = Ok m.
Proof.
  unfold plugin_fits. intros Hf E1 E2. rewrite E1, E2 in Hf. unfold get_cache_mbuf.
  destruct (has_flag NODE_FLAGS_MBUF_CACHE n), (n_plugin_info n); by eauto.
Qed.
Lemma null_cache n : exists m, get_cache_mbuf (node_set_plugin pi_null n) = Ok m.
Proof. unfold get_cache_mbuf. destruct (has_flag _ _); cbn; eauto. Qed.

(** ** Ports that wait, in nodes *)

Context (mempool_get : gmap Z fnode -> option Z) `{!NodePool mempool_get} (junk_node : CGenNode).

(** A new node is in hand. *)
Lemma create_fnode_ok hole c x :
  ginv hole c ->
  exists a, create_fnode mempool_get x c = Ok (a, put_fnode a x c) /\ ft_pool c !! a = None /\ ginv (a :: hole) (put_fnode a x c).
Proof.
  intros [A B C D E]. destruct (np_get (ft_pool c)) as (a & Ea & Ha). exists a.
  unfold create_fnode. rewrite Ea. split; [done|]. split; [done|].
  assert (Hn : a ∉ hole ++ ft_queue c ++ dpcs c) by (rewrite <- B, Ha; intros [? ?]; done).
  split; [cbn; by constructor| |done| |].
  - intros k. change (dpcs (put_fnode a x c)) with (dpcs c). cbn in *.
    destruct (decide (k = a)) as [->|Hk]; [rewrite lookup_insert_eq|rewrite lookup_insert_ne, B by done; set_solver].
    split; [set_solver|by eexists].
  - intros k y Hk. cbn. rewrite lookup_insert_ne by set_solver. apply D. set_solver.
  - intros k Hk. cbn. rewrite lookup_insert_ne; [by apply E|]. intros ->. apply Hn. change (dpcs (put_fnode _ _ c)) with (dpcs c) in Hk. set_solver.
Qed.

Lemma get_defer_ok is_tcp hole c :
  ginv hole c ->
  exists a c1 t d, get_defer mempool_get junk_node is_tcp c = Ok (a, c1) /\ ginv hole c1 /\ quiet c c1 /\ dpc is_tcp c1 = Some a /\
    ft_pool c1 !! a = Some (DeferNode t d) /\ zlength d < DEFER_CLIENTS_NUM /\ Forall (entry_ok c1) d /\
    ft_queue c1 = ft_queue c.
Proof.
  intros Hi. unfold get_defer. fold (dpc is_tcp c). destruct (dpc is_tcp c) as [a|] eqn:Ea.
  - assert (Ha : a ∈ dpcs c) by (rewrite (dpcs_perm is_tcp), Ea; set_solver).
    destruct (gi_dpc _ _ Hi a Ha) as (t & d & Hp & Hd). exists a, c, t, d. split_and!; try done.
    refine (gi_nodes _ _ Hi a _ _ Hp). intros Hh. pose proof (gi_nodup _ _ Hi) as Hnd. apply NoDup_app in Hnd as (_ & Hnd & _).
    apply (Hnd a Hh). set_solver.
  - destruct (create_fnode_ok hole c (DeferNode (n_time junk_node) []) Hi) as (a & -> & Hn & Hi1).
    cbn [mbind res_bind]. eexists a, _, (n_time junk_node), []. split; [reflexivity|].
    split; [|split; [|split; [by destruct is_tcp|split; [cbn; by rewrite lookup_insert_eq|done]]]].
    + eapply dpc_give; [exact Hi1|by destruct is_tcp|cbn; by rewrite lookup_insert_eq|done|done].
    + split; try done.
      * unfold flows. cbn. rewrite flows_put. apply delete_id. unfold flows. by rewrite lookup_omap, Hn.
      * apply ticks_put_same; [done|]. by rewrite Hn.
Qed.

Lemma flows_put_defer a t t' d d' c :
  ft_pool c !! a = Some (DeferNode t d) -> flows (put_fnode a (DeferNode t' d') c) = flows c.
Proof.
  intros Hp. unfold flows at 1. cbn. rewrite flows_put. apply delete_id. unfold flows. rewrite lookup_omap, Hp. done.
Qed.

(** Ports that are not freed at once wait, sixteen at a time. *)
Lemma defer_ok now is_tcp hole c k idx port :
  ginv hole c -> entry_ok c (k, idx, port) ->
  exists c', defer_client_port_free mempool_get junk_node now is_tcp idx port k c = Ok c' /\ ginv hole c' /\ quiet c c' /\
    (forall a, a ∈ ft_queue c -> a ∈ ft_queue c').
Proof.
  intros Hi He. unfold defer_client_port_free.
  destruct (aging_ok (ft_smart_gen c) k (gk_plain _ _ (gi_gens _ _ Hi)) (proj1 He)) as [[ta Eta] [ua Eua]].
  assert (exists ag, (if is_tcp then get_tcp_aging k (ft_smart_gen c) else get_udp_aging k (ft_smart_gen c)) = Ok ag) as [ag ->].
  { destruct is_tcp; eauto. }
  cbn [mbind res_bind]. destruct (ag =? 0).
  { destruct (free_port_ok _ _ _ _ _ Hi He) as (c' & E & Hi' & Hq & Eq & _). exists c'. rewrite Eq. by split_and!. }
  destruct (get_defer_ok is_tcp hole c Hi) as (a & c1 & t & d & -> & Hi1 & Hq1 & Hdpc & Hp & Hd & Hok & Eq). cbn [mbind res_bind].
  unfold get_defer_entries. rewrite Hp. cbn [mbind res_bind]. unfold add_client. rewrite (proj2 (Z.ltb_lt _ _) Hd).
  cbn [mbind res_bind]. set (d' := d ++ [(k, idx, port)]).
  assert (Hd' : Forall (entry_ok c1) d').
  { apply Forall_app. split; [done|]. apply Forall_singleton.
    eapply entry_ok_world; [apply Hq1|exact He]. }
  assert (Hlen : zlength d' = zlength d + 1) by (unfold d', zlength; rewrite length_app; cbn; lia).
  pose proof (dpc_take _ _ _ _ Hi1 Hdpc) as Ht.
  assert (Hput : forall t', ginv (a :: hole) (put_fnode a (DeferNode t' d') (set_dpc is_tcp None c1))).
  { intros t'. by apply put_ok. }
  assert (Hquiet : forall t', quiet c1 (put_fnode a (DeferNode t' d') c1)).
  { intros t'. split; try done; [by eapply flows_put_defer|]. apply ticks_put_same; [done|]. rewrite Hp. by intros ? [= <-]. }
  destruct (Z.eqb_spec (zlength d') DEFER_CLIENTS_NUM) as [Hfull|Hfull].
  - eexists. split; [reflexivity|]. split.
    { refine (push_ok _ _ _ _ (Hput _) _ _); [cbn; by rewrite lookup_insert_eq|exact Hd']. }
    split.
    + eapply quiet_trans; [exact Hq1|]. eapply quiet_trans; [apply Hquiet|]. by destruct is_tcp.
    + intros b Hb. cbn. rewrite Eq. set_solver.
  - eexists. split; [reflexivity|]. split.
    + rewrite <- (dpc_give_put is_tcp) by exact Hdpc. eapply dpc_give; [apply Hput|by destruct is_tcp|cbn; by rewrite lookup_insert_eq|lia|exact Hd'].
    + split; [by eapply quiet_trans|]. intros b Hb. cbn. by rewrite Eq.
Qed.

(** ** The end of a flow *)

Lemma flow_entry c n r port : flow_ok c n r -> entry_ok c (m_client_pool_idx (m_info r), n_src_idx n, port).
Proof. intros []. by split. Qed.

Lemma flow_ok_caps c c' n r : flow_ok c n r -> same_world c c' -> ft_cap_gen c' = ft_cap_gen c -> flow_ok c' n r.
Proof.
  intros Hf Hw E. destruct (flow_ok_world _ _ _ _ Hw Hf) as (r' & Hf' & _).
  pose proof (fk_rec _ _ _ _ Hf) as A. pose proof (fk_rec _ _ _ _ Hf') as B. rewrite E in B. congruence.
Qed.

Lemma node_set_plugin_ok c n r i :
  flow_ok c n r -> plugin_fits (m_plugin_id (m_info r)) i -> flow_ok c (node_set_plugin i n) r.
Proof. by intros [A B C D E F L]. Qed.

(** [on_node_last]: the flow stays, without its plugin. *)
Lemma on_node_last_ok now a hole c n r :
  ginv (a :: hole) c -> flows c !! a = Some n -> flow_ok c n r -> m_plugin_id (m_info r) <> 0 ->
  exists c' n', on_node_last mempool_get junk_node now (m_plugin_id (m_info r)) a c = Ok c' /\
    ginv (a :: hole) c' /\ moves c c' (<[a := n']> (flows c)) [] /\ ft_cap_gen c' = ft_cap_gen c /\
    same_flow n n' /\ (exists m, get_cache_mbuf n' = Ok m).
Proof.
  intros Hi Hn Hf Hp. pose proof (template_static _ _ _ _ Hi Hf) as Ht. pose proof (tk_plugin _ Ht) as Hpl.
  pose proof (fk_plugin _ _ _ _ Hf) as Hfit. unfold on_node_last. rewrite (get_flow_Ok _ _ _ Hn). cbn [mbind res_bind].
  assert (Hput : forall c2, ginv (a :: hole) c2 -> quiet c c2 ->
    let c' := put_fnode a (FlowNode (node_set_plugin pi_null n)) c2 in
    ginv (a :: hole) c' /\ moves c c' (<[a := node_set_plugin pi_null n]> (flows c)) [] /\ ft_cap_gen c' = ft_cap_gen c /\
    same_flow n (node_set_plugin pi_null n) /\ (exists m, get_cache_mbuf (node_set_plugin pi_null n) = Ok m)).
  { intros c2 Hi2 Hq. cbv zeta. split; [by apply put_ok|]. split; [|split; [apply Hq|split; [done|apply null_cache]]].
    eapply quiet_moves; [exact Hq|]. rewrite <- (qu_flows _ _ Hq). eapply moves_put_flow. by rewrite (qu_flows _ _ Hq). }
  destruct ((m_plugin_id (m_info r) =? mpRTSP) || (m_plugin_id (m_info r) =? mpSIP_VOICE)) eqn:E1.
  - unfold plugin_fits in Hfit. rewrite E1 in Hfit. destruct Hfit as [q Eq]. rewrite Eq. cbn [mbind res_bind].
    destruct (cur_pkt_get _ _ _ _ Hi Hf) as (lp & -> & _). cbn [mbind res_bind]. rewrite (template_get _ _ _ Hf). cbn [mbind res_bind].
    destruct (defer_ok now (IsTcp (fpi_desc lp)) _ c _ _ (rtp_client_0 q) Hi (flow_entry _ _ _ _ Hf)) as (c1 & -> & Hi1 & Hq1 & _).
    cbn [mbind res_bind].
    destruct (defer_ok now (IsTcp (fpi_desc lp)) _ c1 (m_client_pool_idx (m_info r)) (n_src_idx n) (rtp_client_1 q) Hi1) as (c2 & -> & Hi2 & Hq2 & _).
    { eapply entry_ok_world; [apply Hq1|by apply flow_entry]. }
    cbn [mbind res_bind]. do 2 eexists. split; [reflexivity|]. exact (Hput c2 Hi2 (quiet_trans _ _ _ Hq1 Hq2)).
  - destruct (m_plugin_id (m_info r) =? mpDYN_PYLOAD) eqn:E2.
    + exists c, n. split; [done|]. split; [done|]. split; [rewrite insert_id by done; by apply quiet_is_moves|].
      split; [done|]. split; [done|]. eapply fits_cache; [exact Hfit|done|]. apply Z.eqb_eq in E2. by rewrite E2.
    + destruct (m_plugin_id (m_info r) =? mpAVL_HTTP_BROWSIN) eqn:E3.
      * unfold plugin_fits in Hfit. rewrite E1, E3 in Hfit. destruct Hfit as [q Eq]. rewrite Eq.
        do 2 eexists. split; [reflexivity|]. exact (Hput c Hi (quiet_refl c)).
      * exfalso. unfold is_plugin, mpRTSP, mpSIP_VOICE, mpDYN_PYLOAD, mpAVL_HTTP_BROWSIN in *. lia.
Qed.

(** The end of a flow: its node is freed, and its ports go back now or later. *)
Lemma free_last_ok now a hole c n r :
  ginv (a :: hole) c -> flows c !! a = Some n -> flow_ok c n r ->
  exists c', free_last_flow_node mempool_get junk_node now a c = Ok c' /\ ginv hole c' /\ moves c c' (delete a (flows c)) [] /\
    ft_cap_gen c' = ft_cap_gen c.
Proof.
  intros Hi Hn Hf. unfold free_last_flow_node. rewrite (get_flow_Ok _ _ _ Hn). cbn [mbind res_bind].
  rewrite (template_get _ _ _ Hf). cbn [mbind res_bind]. set (c1 := set_stats _ c).
  assert (Hi1 : ginv (a :: hole) c1) by (by eapply ginv_world; [exact Hi|..|apply (gi_gens _ _ Hi)]).
  assert (Hplug : exists c2 n2, (if m_plugin_id (m_info r) =? 0 then Ok c1
      else on_node_last mempool_get junk_node now (m_plugin_id (m_info r)) a c1) = Ok c2 /\
    ginv (a :: hole) c2 /\ moves c1 c2 (<[a := n2]> (flows c1)) [] /\ ft_cap_gen c2 = ft_cap_gen c1 /\ same_flow n n2 /\
    (exists m, get_cache_mbuf n2 = Ok m)).
  { destruct (Z.eqb_spec (m_plugin_id (m_info r)) 0) as [E0|E0].
    - exists c1, n. split; [done|]. split; [done|]. split; [rewrite insert_id by done; by apply quiet_is_moves|].
      split; [done|]. split; [done|]. apply (fits_cache (m_plugin_id (m_info r))); [apply Hf|by rewrite E0|by rewrite E0].
    - exact (on_node_last_ok now a hole c1 n r Hi1 Hn Hf E0). }
  destruct Hplug as (c2 & n2 & -> & Hi2 & Hm2 & Hcap & Hsf & Hca). cbn [mbind res_bind].
  assert (Hf2 : flow_ok c2 n r) by (eapply flow_ok_caps; [exact Hf|apply Hm2|exact Hcap]).
  destruct (cur_pkt_get _ _ _ _ Hi2 Hf2) as (lp & -> & _). cbn [mbind res_bind].
  destruct (defer_ok now (IsTcp (fpi_desc lp)) _ c2 _ _ (n_src_port n) Hi2 (flow_entry _ _ _ _ Hf2)) as (c3 & -> & Hi3 & Hq3 & _).
  cbn [mbind res_bind]. assert (Hn3 : flows c3 !! a = Some n2).
  { rewrite (qu_flows _ _ Hq3), (mv_flows _ _ _ _ Hm2). apply lookup_insert_eq. }
  destruct (free_fnode_ok a hole c3 (FlowNode n2) Hi3) as (c4 & -> & E4 & Hi4 & _); [by apply flows_lookup| |].
  { intros ? [= <-] _. exact Hca. }
  pose proof (free_flow_moves _ _ _ Hn3) as Hm4. rewrite <- E4 in Hm4.
  exists c4. split; [done|]. split; [done|]. split.
  - pose proof (moves_trans _ _ _ _ _ _ _ (moves_quiet _ _ _ _ _ Hm2 Hq3) Hm4) as Hm. cbn [app] in Hm.
    replace (delete a (flows c)) with (delete a (flows c3)); [by destruct Hm|].
    rewrite (qu_flows _ _ Hq3), (mv_flows _ _ _ _ Hm2). apply delete_insert_eq.
  - rewrite (mv_caps _ _ _ _ Hm4), (qu_caps _ _ Hq3). exact Hcap.
Qed.
End Facts.
