(* ===== verification/FlowGenSteps.v ===== *)
(** * The turns of flows

    What a turn of a flow does: it sends the packet of the flow and moves on to the next, or
    ends the flow after the last. *)

From S2P Require Import Prelude Double ByteMem PktCmn PktCmnFacts PktDesc PktParser RxHeader CapTemplate TupleGen TupleGenFacts TupleGenTotal FlowNode MiniVm Plugins NatCheck FlowGen FlowGenFacts.

#[local] Set Default Proof Using "Type*".

Section Steps.
Context {G : Type} `{UniformInt G}.
Context (send_node : bool -> Z -> option (list CFlowYamlDpPkt) -> CGenNode -> CFlowPktInfo -> res (Z * bytes * CGenNode)).
Context `{!NodeSender send_node}.
Implicit Types (c : CFlowGenListPerThread G).
Notation ginv := (ginv send_node).
Notation template_ok := (template_ok send_node).

(** ** In place *)

Lemma flow_not_dpc hole c a n : ginv hole c -> flows c !! a = Some n -> a ∉ dpcs c.
Proof.
  intros Hi Hn%flows_lookup Ha. destruct (gi_dpc _ _ _ Hi a Ha) as (t & d & Hp & _). congruence.
Qed.
Lemma flow_in_queue hole c a n : ginv hole c -> a ∉ hole -> flows c !! a = Some n -> a ∈ ft_queue c.
Proof.
  intros Hi Ha Hn. pose proof (flow_not_dpc _ _ _ _ Hi Hn) as Hd. apply flows_lookup in Hn.
  assert (Hin : a ∈ hole ++ ft_queue c ++ dpcs c) by (apply (gi_dom _ _ _ Hi); by eexists). set_solver.
Qed.

(** A flow in the queue changes. *)
Lemma put_flow_ok hole c a n n' r :
  ginv hole c -> a ∉ hole -> flows c !! a = Some n -> flow_ok c n' r -> ginv hole (put_fnode a (FlowNode n') c).
Proof.
  intros Hi Ha Hn Hf. pose proof (flow_not_dpc _ _ _ _ Hi Hn) as Hd. apply flows_lookup in Hn. destruct Hi as [A B C D E].
  split; [done| |done| |].
  - intros k. change (dpcs (put_fnode a _ c)) with (dpcs c). cbn. destruct (decide (k = a)) as [->|Hk].
    + rewrite lookup_insert_eq, <- B, Hn. split; eauto.
    + by rewrite lookup_insert_ne, B by done.
  - intros k x Hk. cbn. destruct (decide (k = a)) as [->|Hka].
    + rewrite lookup_insert_eq. intros [= <-]. by exists r.
    + rewrite lookup_insert_ne by done. by apply D.
  - intros k Hk. change (dpcs (put_fnode a _ c)) with (dpcs c) in Hk. cbn. rewrite lookup_insert_ne; [by apply E|]. by intros ->.
Qed.

Lemma same_flow_ok c n n' r :
  flow_ok c n r -> same_flow n n' -> plugin_fits (m_plugin_id (m_info r)) (n_plugin_info n') -> flow_ok c n' r.
Proof.
  intros [A B C D E F L] [h1 h2 h3 h4 h5 h6] Hp. unfold learns in L. split; rewrite ?h3, ?h4, ?h5; try done.
  unfold learns. by rewrite h1, h3, h6.
Qed.

Lemma flush_one_ok hole c a n r :
  ginv hole c -> a ∉ hole -> flows c !! a = Some n -> flow_ok c n r ->
  exists dir p n' c', flush_one_node send_node a c = Ok c' /\ ginv hole c' /\
    moves c c' (<[a := n']> (flows c)) [mkSent (n_flow_id n) (n_pkt_info n) dir p] /\
    same_flow n n' /\ flow_ok c' n' r /\ ft_queue c' = ft_queue c.
Proof.
  intros Hi Ha Hn Hf. pose proof (template_static _ _ _ _ _ Hi Hf) as Ht. unfold flush_one_node.
  rewrite (get_flow_Ok _ _ _ Hn). cbn [mbind res_bind]. rewrite (template_get _ _ _ Hf). cbn [mbind res_bind].
  destruct (cur_pkt_get _ _ _ _ _ Hi Hf) as (lp & -> & Hlp). cbn [mbind res_bind].
  unfold can_cache_mbuf. rewrite (template_get _ _ _ Hf). cbn [mbind res_bind].
  pose proof (proj1 (Forall_lookup _ _) (tk_pkts _ _ Ht) _ _ Hlp) as Hpk.
  destruct (ns_send (m_limit_was_set (m_info r) && (cap_Size (m_flow_info r) =? 1)) _ _ n lp Hpk (fk_plugin _ _ _ _ Hf))
    as (dir & p & n' & E & Hsf & Hfit).
  rewrite E. cbn [mbind res_bind]. pose proof (same_flow_ok _ _ _ _ Hf Hsf Hfit) as Hf'.
  do 4 eexists. split; [reflexivity|]. split.
  - eapply ginv_world; [exact (put_flow_ok _ _ _ _ _ _ Hi Ha Hn Hf')|..]; try done. apply (gi_gens _ _ _ Hi).
  - split; [|split; [done|split; [exact Hf'|done]]].
    split; try done; [exact (flows_put c a (FlowNode n'))|]. apply ticks_put_same; [done|]. by eapply flow_no_tick.
Qed.

(** ** Moving on *)

Lemma set_next_ok c n r t :
  flow_ok c n r -> n_pkt_info n + 1 < cap_Size (m_flow_info r) ->
  (n_type n = FLOW_PKT_NAT -> nat_state n = 2 /\ (0 < n_pkt_info n -> forall p,
     m_flow_pkts (m_flow_info r) !! Z.to_nat (n_pkt_info n) = Some p -> is_responder_pkt p = false)) ->
  (n_type n = FLOW_PKT_NAT -> exists p, m_flow_pkts (m_flow_info r) !! 0%nat = Some p /\ IsBiDirectionalFlow (fpi_desc p) = true) ->
  (n_type n = FLOW_PKT_NAT -> forall j p, (0 < j)%nat -> Z.of_nat j < n_pkt_info n ->
     m_flow_pkts (m_flow_info r) !! j = Some p -> is_responder_pkt p = false) ->
  flow_ok c (node_set_pkt_info (n_pkt_info n + 1) (node_set_time t n)) r.
Proof.
  intros [A B C D E F L] Hl Hs Hb Hj. split; try done; cbn [n_pkt_info node_set_pkt_info node_set_time]; [lia|].
  cbn [n_type node_set_pkt_info node_set_time]. intros Hn. destruct (Hs Hn) as [Hst Hcur]. split; [by apply Hb|].
  right. split; [exact Hst|]. cbn [n_pkt_info node_set_pkt_info node_set_time].
  intros j p H0 H1 Hp. destruct (decide (Z.of_nat j = n_pkt_info n)) as [Ej|Ej].
  - apply Hcur; [lia|]. rewrite <- Hp, <- Ej, Nat2Z.id. done.
  - eapply Hj; [done|done| |done]. lia.
Qed.

(** The node in hand goes back for its next packet. *)
Lemma next_packet_ok hole c a n r :
  ginv (a :: hole) c -> flows c !! a = Some n -> flow_ok c n r -> n_pkt_info n + 1 < cap_Size (m_flow_info r) ->
  (n_type n = FLOW_PKT_NAT -> nat_state n = 2 /\ (0 < n_pkt_info n -> forall p,
     m_flow_pkts (m_flow_info r) !! Z.to_nat (n_pkt_info n) = Some p -> is_responder_pkt p = false)) ->
  (n_type n = FLOW_PKT_NAT -> exists p, m_flow_pkts (m_flow_info r) !! 0%nat = Some p /\ IsBiDirectionalFlow (fpi_desc p) = true) ->
  (n_type n = FLOW_PKT_NAT -> forall j p, (0 < j)%nat -> Z.of_nat j < n_pkt_info n ->
     m_flow_pkts (m_flow_info r) !! j = Some p -> is_responder_pkt p = false) ->
  exists n' c', next_packet a c = Ok c' /\ ginv hole c' /\ moves c c' (<[a := n']> (flows c)) [] /\
    flow_ok c' n' r /\ n_flow_id n' = n_flow_id n /\ n_pkt_info n' = n_pkt_info n + 1 /\ n_type n' = n_type n /\
    n_template n' = n_template n.
Proof.
  intros Hi Hn Hf Hl H1 H2 H3. unfold next_packet. rewrite (get_flow_Ok _ _ _ Hn). cbn [mbind res_bind].
  destruct (update_next_get _ _ _ _ _ Hi Hf Hl) as (t & ->). cbn [mbind res_bind].
  pose proof (set_next_ok c n r t Hf Hl H1 H2 H3) as Hf'. do 2 eexists. split; [reflexivity|].
  split; [|split; [|split; [exact Hf'|done]]].
  - eapply push_ok; [by apply put_ok|cbn; by rewrite lookup_insert_eq|]. by exists r.
  - split; try done; [exact (flows_put c a (FlowNode _))| |cbn; by rewrite app_nil_r].
    apply ticks_put_same; [done|]. by eapply flow_no_tick.
Qed.

Lemma reschedule_ok hole c a n r :
  ginv (a :: hole) c -> flows c !! a = Some n -> flow_ok c n r -> n_type n = FLOW_PKT ->
  exists n' c', reschedule_flow a c = Ok c' /\ ginv hole c' /\ moves c c' (<[a := n']> (flows c)) [] /\
    flow_ok c' n' r /\ n_flow_id n' = n_flow_id n /\ n_pkt_info n' = 0 /\ n_type n' = n_type n /\ n_template n' = n_template n.
Proof.
  intros Hi Hn Hf Hty. pose proof (template_static _ _ _ _ _ Hi Hf) as Ht. pose proof (tk_size _ _ Ht) as Hsz.
  unfold reschedule_flow. rewrite (get_flow_Ok _ _ _ Hn). cbn [mbind res_bind].
  rewrite (template_get _ _ _ Hf). cbn [mbind res_bind]. unfold reset_pkt_in_flow. rewrite (template_get _ _ _ Hf). cbn [mbind res_bind].
  unfold cap_GetPacket. rewrite u32_id by lia. unfold cap_Size, zlength in Hsz.
  destruct (lookup_lt_is_Some_2 (m_flow_pkts (m_flow_info r)) 0) as [q Hq]; [lia|]. change (Z.to_nat 0) with 0%nat. rewrite Hq.
  cbn [mbind res_bind]. set (n' := node_set_time _ _).
  assert (Hf' : flow_ok c n' r).
  { destruct Hf as [A B C D E F L]. split; try done; [cbn; unfold cap_Size, zlength in *; lia|].
    cbn. intros Hx. by rewrite Hty in Hx. }
  exists n'. eexists. split; [reflexivity|]. split; [|split; [|split; [exact Hf'|done]]].
  - eapply ginv_world; [eapply (push_ok _ a hole (put_fnode a (FlowNode n') c));
      [by apply put_ok|cbn; by rewrite lookup_insert_eq|by exists r]|..]; try done. apply (gi_gens _ _ _ Hi).
  - split; try done; [exact (flows_put c a (FlowNode _))| |cbn; by rewrite app_nil_r].
    apply ticks_put_same; [done|]. by eapply flow_no_tick.
Qed.

(** ** A turn of a flow *)

(** What becomes of the flow at [a]: it is at another packet, or ended. *)
Definition become (a : Z) (on : option CGenNode) (fl : gmap Z CGenNode) : gmap Z CGenNode :=
  match on with Some n => <[a := n]> fl | None => delete a fl end.
Record at_packet c (n n' : CGenNode) (r : CFlowGeneratorRecPerThread) (k : Z) : Prop := {
  ap_ok : flow_ok c n' r;
  ap_flow : n_flow_id n' = n_flow_id n;
  ap_type : n_type n' = n_type n;
  ap_template : n_template n' = n_template n;
  ap_pkt : n_pkt_info n' = k }.

Lemma moves_pop a c : moves c (fpop a c) (flows c) [].
Proof. split; try done. cbn. by rewrite app_nil_r. Qed.
Lemma moves_refl c : moves c c (flows c) [].
Proof. split; try done. by rewrite app_nil_r. Qed.

Lemma fpop_flow_ok a c n r : flow_ok c n r -> flow_ok (fpop a c) n r.
Proof. done. Qed.
Lemma same_flow_at c n n1 n2 r k : same_flow n n1 -> at_packet c n1 n2 r k -> at_packet c n n2 r k.
Proof. intros [] []. split; congruence || done. Qed.

Context (mempool_get : gmap Z fnode -> option Z) `{!NodePool mempool_get} (junk_node : CGenNode).

Lemma become_insert a on n1 fl : become a on (<[a := n1]> fl) = become a on fl.
Proof using. destruct on; cbn; [apply insert_insert_eq|apply delete_insert_eq]. Qed.

Lemma turn_flow_pkt_ok e always a c n r :
  ginv [] c -> flows c !! a = Some n -> flow_ok c n r -> n_type n = FLOW_PKT ->
  let last := bool_decide (n_pkt_info n + 1 = cap_Size (m_flow_info r)) in
  let repeat := m_limit_was_set (m_info r) in
  exists c' on l, turn_flow_pkt mempool_get send_node junk_node e always a c = Ok c' /\ ginv [] c' /\
    moves c c' (become a on (flows c)) l /\
    (if repeat && always then l = [] else exists dir p, l = [mkSent (n_flow_id n) (n_pkt_info n) dir p]) /\
    match on with
    | Some n' => at_packet c' n n' r (if last then 0 else n_pkt_info n + 1) /\ (last = true -> repeat && negb always = true)
    | None => last = true /\ repeat && negb always = false
    end.
Proof.
  intros Hi Hn Hf Hty last repeat. unfold turn_flow_pkt. rewrite (get_flow_Ok _ _ _ Hn). cbn [mbind res_bind].
  unfold is_repeat_flow. rewrite (template_get _ _ _ Hf). cbn [mbind res_bind]. fold repeat.
  pose proof (flow_in_queue _ _ _ _ Hi (not_elem_of_nil a) Hn) as Hq.
  (* the packet *)
  assert (Hsend : exists c1 n1 l, (if negb repeat || negb always then flush_one_node send_node a c else Ok c) = Ok c1 /\
    ginv [] c1 /\ moves c c1 (<[a := n1]> (flows c)) l /\ same_flow n n1 /\ flow_ok c1 n1 r /\ ft_queue c1 = ft_queue c /\
    (if repeat && always then l = [] else exists dir p, l = [mkSent (n_flow_id n) (n_pkt_info n) dir p])).
  { destruct (repeat && always) eqn:Er.
    - apply andb_true_iff in Er as [-> ->]. exists c, n, []. split_and!; try done. rewrite insert_id by done. apply moves_refl.
    - assert (E : negb repeat || negb always = true) by (by destruct repeat, always). rewrite E.
      destruct (flush_one_ok [] c a n r Hi (not_elem_of_nil a) Hn Hf) as (dir & p & n1 & c1 & -> & Hi1 & Hm1 & Hs1 & Hf1 & Hq1).
      exists c1, n1, [mkSent (n_flow_id n) (n_pkt_info n) dir p]. split_and!; try done. by exists dir, p. }
  destruct Hsend as (c1 & n1 & l & -> & Hi1 & Hm1 & Hs1 & Hf1 & Hq1 & Hl). cbn [mbind res_bind].
  pose proof (pop_ok _ a [] c1 Hi1) as Hi2. rewrite Hq1 in Hi2. specialize (Hi2 Hq).
  pose proof (moves_trans _ _ _ _ _ _ _ Hm1 (moves_pop a c1)) as Hm2. rewrite app_nil_r, (mv_flows _ _ _ _ Hm1) in Hm2.
  set (c2 := fpop a c1) in *. assert (Hf2 : flow_ok c2 n1 r) by exact Hf1.
  assert (Hn2 : flows c2 !! a = Some n1) by (rewrite (mv_flows _ _ _ _ Hm2); apply lookup_insert_eq).
  rewrite (get_flow_Ok _ _ _ Hn2). cbn [mbind res_bind]. rewrite (is_last_get _ _ _ _ _ Hi2 Hf2). cbn [mbind res_bind].
  rewrite (sf_pkt _ _ Hs1). fold last.
  assert (Hty1 : n_type n1 = FLOW_PKT) by (by rewrite (sf_type _ _ Hs1)).
  destruct last eqn:El.
  - destruct (repeat && negb always) eqn:Er.
    + destruct (reschedule_ok [] c2 a n1 r Hi2 Hn2 Hf2 Hty1) as (n3 & c3 & -> & Hi3 & Hm3 & Hf3 & A & B & C & D).
      exists c3, (Some n3), l. split; [done|]. split; [done|]. split; [|split; [done|split; [|done]]].
      * pose proof (moves_trans _ _ _ _ _ _ _ Hm2 Hm3) as Hm. rewrite app_nil_r, (mv_flows _ _ _ _ Hm2) in Hm.
        by rewrite (insert_insert_eq (flows c) a n3 n1) in Hm.
      * eapply same_flow_at; [exact Hs1|]. by split.
    + destruct (free_last_ok _ mempool_get junk_node (te_now e) a [] c2 n1 r Hi2 Hn2 Hf2) as (c3 & -> & Hi3 & Hm3 & _).
      exists c3, None, l. split; [done|]. split; [done|]. split; [|done].
      pose proof (moves_trans _ _ _ _ _ _ _ Hm2 Hm3) as Hm. rewrite app_nil_r, (mv_flows _ _ _ _ Hm2) in Hm.
      by rewrite (delete_insert_eq (flows c) a n1) in Hm.
  - unfold last in El. apply bool_decide_eq_false in El. pose proof (fk_pkt _ _ _ _ Hf) as Hp.
    destruct (next_packet_ok [] c2 a n1 r Hi2 Hn2 Hf2) as (n3 & c3 & -> & Hi3 & Hm3 & Hf3 & A & B & C & D);
      try (intros Hx; by rewrite Hty1 in Hx); [rewrite (sf_pkt _ _ Hs1); lia|].
    exists c3, (Some n3), l. split; [done|]. split; [done|]. split; [|split; [done|split; [|done]]].
    + pose proof (moves_trans _ _ _ _ _ _ _ Hm2 Hm3) as Hm. rewrite app_nil_r, (mv_flows _ _ _ _ Hm2) in Hm.
      by rewrite (insert_insert_eq (flows c) a n3 n1) in Hm.
    + eapply same_flow_at; [exact Hs1|]. split; try done. by rewrite B, (sf_pkt _ _ Hs1).
Qed.

(** *** A flow that learns *)

Lemma nat_state_set x n : 0 <= x < 4 -> nat_state (set_nat_state x n) = x.
Proof using.
  intros Hx. unfold nat_state, set_nat_state. cbn [n_flags node_set_flags]. rewrite u16_id.
  - rewrite bits_le_get_set_same by lia. change (2 ^ (4 - 3 + 1)) with 4. by apply Z.mod_small.
  - unfold btSetMaskBit, btSetMaskBitBigE. change (16 =? _) with false. cbv iota zeta. unfold wrap. change (2 ^ 16) with 65536.
    apply Z.mod_pos_bound. lia.
Qed.

Lemma waiting_ok c n r :
  flow_ok c n r -> n_type n = FLOW_PKT_NAT -> nat_state n = 1 -> flow_ok c (set_nat_wait_state n) r.
Proof.
  intros [A B C D E F L] Hty Hst. split; try done. intros _. destruct (L Hty) as [Hb [[_ Hp]|[Hs _]]]; [|congruence].
  split; [exact Hb|]. right. split; [by apply nat_state_set|]. cbn [n_pkt_info set_nat_wait_state set_nat_state node_set_flags]. lia.
Qed.

(** A learning flow sends and goes on: there is a packet of the responder ahead. *)
Lemma learn_turn_ok e a c n r :
  ginv [] c -> flows c !! a = Some n -> flow_ok c n r -> n_type n = FLOW_PKT_NAT -> nat_state n = 2 ->
  (forall p, 0 < n_pkt_info n -> m_flow_pkts (m_flow_info r) !! Z.to_nat (n_pkt_info n) = Some p -> is_responder_pkt p = false) ->
  exists n' c' dir p,
    (c ← flush_one_node send_node a c;
     let c := fpop a c in
     n ← get_flow a c;
     last ← is_last_in_flow n c;
     if last : bool then free_last_flow_node mempool_get junk_node (te_now e) a c else next_packet a c) = Ok c' /\
    ginv [] c' /\ moves c c' (<[a := n']> (flows c)) [mkSent (n_flow_id n) (n_pkt_info n) dir p] /\
    at_packet c' n n' r (n_pkt_info n + 1).
Proof.
  intros Hi Hn Hf Hty Hst Hcur. pose proof (template_static _ _ _ _ _ Hi Hf) as Ht.
  pose proof (flow_in_queue _ _ _ _ Hi (not_elem_of_nil a) Hn) as Hq. pose proof (fk_pkt _ _ _ _ Hf) as Hp.
  destruct (fk_learn _ _ _ _ Hf Hty) as [Hb [[Hs _]|[_ Hbefore]]]; [congruence|].
  assert (Hlast : n_pkt_info n + 1 < cap_Size (m_flow_info r)).
  { destruct Hb as (q0 & Hq0 & Hbi). destruct (tk_learn _ _ Ht _ Hq0 Hbi) as (j & q & Hj & Hjq & Hresp).
    pose proof (lookup_lt_Some _ _ _ Hjq) as Hjl. unfold cap_Size, zlength in *.
    destruct (decide (Z.of_nat j < n_pkt_info n)) as [Hlt|Hge]; [specialize (Hbefore j q Hj Hlt Hjq); congruence|].
    destruct (decide (Z.of_nat j = n_pkt_info n)) as [Heq|Hne]; [|lia].
    rewrite <- Heq, Nat2Z.id in Hcur. specialize (Hcur q ltac:(lia) Hjq). congruence. }
  destruct (flush_one_ok [] c a n r Hi (not_elem_of_nil a) Hn Hf) as (dir & p & n1 & c1 & -> & Hi1 & Hm1 & Hs1 & Hf1 & Hq1).
  cbn [mbind res_bind]. pose proof (pop_ok _ a [] c1 Hi1) as Hi2. rewrite Hq1 in Hi2. specialize (Hi2 Hq).
  pose proof (moves_trans _ _ _ _ _ _ _ Hm1 (moves_pop a c1)) as Hm2. rewrite app_nil_r, (mv_flows _ _ _ _ Hm1) in Hm2.
  set (c2 := fpop a c1) in *. cbv zeta. assert (Hf2 : flow_ok c2 n1 r) by exact Hf1.
  assert (Hn2 : flows c2 !! a = Some n1) by (rewrite (mv_flows _ _ _ _ Hm2); apply lookup_insert_eq).
  rewrite (get_flow_Ok _ _ _ Hn2). cbn [mbind res_bind]. rewrite (is_last_get _ _ _ _ _ Hi2 Hf2). cbn [mbind res_bind].
  rewrite (sf_pkt _ _ Hs1). rewrite bool_decide_eq_false_2 by lia.
  destruct (next_packet_ok [] c2 a n1 r Hi2 Hn2 Hf2) as (n3 & c3 & -> & Hi3 & Hm3 & Hf3 & A & B & C & D).
  - rewrite (sf_pkt _ _ Hs1). lia.
  - intros _. rewrite (sf_state _ _ Hs1), (sf_pkt _ _ Hs1). split; [done|]. intros H0 q Hq0. by apply Hcur.
  - intros _. exact Hb.
  - intros _. rewrite (sf_pkt _ _ Hs1). exact Hbefore.
  - exists n3, c3, dir, p. split; [done|]. split; [done|]. split.
    + pose proof (moves_trans _ _ _ _ _ _ _ Hm2 Hm3) as Hm. rewrite app_nil_r, (mv_flows _ _ _ _ Hm2) in Hm.
      by rewrite (insert_insert_eq (flows c) a n3 n1) in Hm.
    + eapply same_flow_at; [exact Hs1|]. split; try done. by rewrite B, (sf_pkt _ _ Hs1).
Qed.

(** The flow gave up: its packet [m] is the first of the server. *)
Definition gave_up (r : CFlowGeneratorRecPerThread) (m : Z) : Prop :=
  (exists p, m_flow_pkts (m_flow_info r) !! Z.to_nat m = Some p /\ is_responder_pkt p = true) /\
  forall j p, (0 < j)%nat -> Z.of_nat j < m -> m_flow_pkts (m_flow_info r) !! j = Some p -> is_responder_pkt p = false.

Lemma set_lookup_same c : set_lookup (ft_lookup c) c = c.
Proof. by destruct c. Qed.

Lemma turn_flow_nat_ok e a c n r :
  ginv [] c -> flows c !! a = Some n -> flow_ok c n r -> n_type n = FLOW_PKT_NAT ->
  exists c' on l lk, turn_flow_nat mempool_get send_node junk_node e a c = Ok c' /\ ginv [] c' /\
    moves (set_lookup lk c) c' (become a on (flows c)) l /\
    match on with
    | Some n' => lk = ft_lookup c /\ (exists dir p, l = [mkSent (n_flow_id n) (n_pkt_info n) dir p]) /\
        at_packet c' n n' r (n_pkt_info n + 1)
    | None => l = [] /\ lk = delete (get_short_fid n) (ft_lookup c) /\ nat_state n = 2 /\ gave_up r (n_pkt_info n)
    end.
Proof.
  intros Hi Hn Hf Hty. pose proof (flow_in_queue _ _ _ _ Hi (not_elem_of_nil a) Hn) as Hq.
  unfold turn_flow_nat. rewrite (get_flow_Ok _ _ _ Hn). cbn [mbind res_bind]. cbv zeta.
  destruct (fk_learn _ _ _ _ Hf Hty) as [Hb [[Hs Hp0]|[Hs Hbefore]]]; unfold is_nat_first_state, is_nat_wait_state; rewrite Hs.
  - change (1 =? 1) with true. cbv iota. set (n1 := set_nat_wait_state n).
    pose proof (waiting_ok _ _ _ Hf Hty Hs) as Hf1. fold n1 in Hf1.
    pose proof (put_flow_ok [] c a n n1 r Hi (not_elem_of_nil a) Hn Hf1) as Hi1.
    pose proof (moves_put_flow a n1 n c Hn) as Hm1. set (c1 := put_fnode a (FlowNode n1) c) in *.
    assert (Hn1 : flows c1 !! a = Some n1) by (rewrite (mv_flows _ _ _ _ Hm1); apply lookup_insert_eq).
    destruct (learn_turn_ok e a c1 n1 r Hi1 Hn1 Hf1 Hty) as (n' & c' & dir & p & E & Hi' & Hm' & Ha').
    { by apply nat_state_set. }
    { cbn. rewrite Hp0. lia. }
    exists c', (Some n'), [mkSent (n_flow_id n) (n_pkt_info n) dir p], (ft_lookup c).
    split; [exact E|]. split; [done|]. split; [|split; [done|split; [by exists dir, p|]]].
    + rewrite set_lookup_same. pose proof (moves_trans _ _ _ _ _ _ _ Hm1 Hm') as Hm.
      rewrite (mv_flows _ _ _ _ Hm1) in Hm. by rewrite (insert_insert_eq (flows c) a n' n1) in Hm.
    + by destruct Ha'.
  - change (2 =? 1) with false. change (2 =? 2) with true. cbv iota.
    destruct (cur_pkt_get _ _ _ _ _ Hi Hf) as (lp & -> & Hlp). cbn [mbind res_bind].
    destruct (is_responder_pkt lp) eqn:Er.
    + pose proof (pop_ok _ a [] c Hi Hq) as Hi1. unfold terminate_nat_flows.
      assert (Hn1 : flows (fpop a c) !! a = Some n) by exact Hn. rewrite (get_flow_Ok _ _ _ Hn1). cbn [mbind res_bind].
      set (c1 := set_lookup _ _).
      assert (Hi2 : ginv [a] c1) by (eapply ginv_world; [exact Hi1|..|apply (gi_gens _ _ _ Hi)]; done).
      destruct (free_last_ok _ mempool_get junk_node (te_now e) a [] c1 n r Hi2 Hn Hf) as (c' & -> & Hi' & Hm' & _).
      exists c', None, [], (delete (get_short_fid n) (ft_lookup c)). split; [done|]. split; [done|].
      split; [by destruct Hm'|]. split_and!; try done. split; [by exists lp|exact Hbefore].
    + destruct (learn_turn_ok e a c n r Hi Hn Hf Hty Hs) as (n' & c' & dir & p & E & Hi' & Hm' & Ha').
      { intros q _ Hq'. congruence. }
      exists c', (Some n'), [mkSent (n_flow_id n) (n_pkt_info n) dir p], (ft_lookup c).
      rewrite set_lookup_same. split; [exact E|]. split; [done|]. split; [done|]. split; [done|].
      split; [by exists dir, p|exact Ha'].
Qed.
End Steps.
