(* ===== verification/FlowGenInv.v ===== *)
(** * The invariant of the flow generator

    What a run keeps: each flow that was opened has sent the packets of its template in their
    order, live flows have identities of their own, and the map of learning flows has exactly
    the flows that learn. *)

From S2P Require Import Prelude Double ByteMem PktCmn PktCmnFacts PktDesc PktParser RxHeader CapTemplate TupleGen TupleGenFacts TupleGenTotal FlowNode MiniVm Plugins NatCheck FlowGen FlowGenFacts FlowGenSteps.

#[local] Set Default Proof Using "Type*".

(** ** Identities *)

Lemma make_flow_id_eq k th : 0 <= k < 4503599627370496 -> make_flow_id k th = k + 2 ^ 56 * (Z.land th 255).
Proof.
  intros Hk. unfold make_flow_id. change 4503599627370495 with (Z.ones 52). rewrite Z.land_ones, Z.mod_small by lia.
  assert (Ht : 0 <= Z.land th 255 < 256) by (change 255 with (Z.ones 8); rewrite Z.land_ones by lia; apply Z.mod_pos_bound; lia).
  assert (Hl : Z.land k (Z.shiftl (Z.land th 255) 56) = 0).
  { apply Z.bits_inj'. intros j Hj. rewrite Z.land_spec, Z.shiftl_spec, Z.bits_0 by lia.
    destruct (Z.ltb_spec j 56) as [Hlt|Hge].
    - rewrite (Z.testbit_neg_r (Z.land th 255)) by lia. apply andb_false_r.
    - destruct (Z.eq_dec k 0) as [->|]; [by rewrite Z.bits_0|].
      rewrite (Z.bits_above_log2 k); [done|lia|]. apply Z.log2_lt_pow2; [lia|].
      assert (2 ^ 56 <= 2 ^ j) by (apply Z.pow_le_mono_r; lia). lia. }
  rewrite <- Z.lxor_lor, <- Z.add_nocarry_lxor by done. rewrite Z.shiftl_mul_pow2 by lia. lia.
Qed.

Lemma make_flow_id_range k th : 0 <= k < 4503599627370496 -> 0 <= make_flow_id k th.
Proof.
  intros Hk. rewrite make_flow_id_eq by done.
  assert (0 <= Z.land th 255) by (apply Z.land_nonneg; right; lia). lia.
Qed.
Lemma make_flow_id_inj k k' th :
  0 <= k < 4503599627370496 -> 0 <= k' < 4503599627370496 -> make_flow_id k th = make_flow_id k' th -> k = k'.
Proof. intros Hk Hk'. rewrite !make_flow_id_eq by done. lia. Qed.
Lemma make_flow_id_short k th : 0 <= k < 4294967296 -> u32 (make_flow_id k th) = k.
Proof.
  intros Hk. rewrite make_flow_id_eq by lia. unfold u32, wrap.
  change (2 ^ 56) with (2 ^ 24 * 2 ^ 32). change (2 ^ 32) with 4294967296. rewrite Z.mul_comm, Z.mul_assoc, Z.mod_add by lia.
  by apply Z.mod_small.
Qed.

(** ** What a flow has sent *)

(** The places in the template of the packets that were sent for a flow. *)
Definition story (fid : Z) (l : list sent_pkt) : list Z := sp_idx <$> filter (fun s => sp_flow s = fid) l.
(** The first [m] of the places 0, 1, ..., N-1, 0, 1, ... *)
Definition rounds (N m : nat) : list Z := (fun i => Z.of_nat (i mod N)) <$> seq 0 m.

Lemma story_app fid l l' : story fid (l ++ l') = story fid l ++ story fid l'.
Proof. unfold story. by rewrite filter_app, fmap_app. Qed.
Lemma story_same fid i d p : story fid [mkSent fid i d p] = [i].
Proof. unfold story. rewrite filter_cons_True by done. done. Qed.
Lemma story_other fid l : Forall (fun s => sp_flow s <> fid) l -> story fid l = [].
Proof.
  intros Hl. unfold story. induction Hl as [|s l Hs Hl IH]; [done|]. rewrite filter_cons_False by done. exact IH.
Qed.
Lemma rounds_S N m : rounds N (S m) = rounds N m ++ [Z.of_nat (m mod N)].
Proof. unfold rounds. rewrite seq_S, fmap_app. done. Qed.
Lemma mod_next m N : (m mod N + 1 < N)%nat -> (S m mod N = m mod N + 1)%nat.
Proof.
  intros Hm. assert (N <> 0)%nat by lia. rewrite (Nat.div_mod_eq m N) at 1.
  replace (S (N * (m / N) + m mod N)) with ((m mod N + 1) + (m / N) * N)%nat by lia.
  rewrite Nat.Div0.mod_add. by apply Nat.mod_small.
Qed.
Lemma mod_wrap m N : (m mod N + 1 = N)%nat -> (S m mod N = 0)%nat.
Proof.
  intros Hm. rewrite (Nat.div_mod_eq m N) at 1.
  replace (S (N * (m / N) + m mod N)) with (0 + (m / N + 1) * N)%nat by lia.
  rewrite Nat.Div0.mod_add. apply Nat.Div0.mod_0_l.
Qed.

Section Inv.
Context {G : Type} `{UniformInt G}.
Context (send_node : bool -> Z -> option (list CFlowYamlDpPkt) -> CGenNode -> CFlowPktInfo -> res (Z * bytes * CGenNode)).
Context `{!NodeSender send_node}.
Implicit Types (c : CFlowGenListPerThread G).
Notation ginv := (ginv send_node).

Definition template_size (r : CFlowGeneratorRecPerThread) : nat := length (m_flow_pkts (m_flow_info r)).
Definition is_repeat (r : CFlowGeneratorRecPerThread) : bool := m_limit_was_set (m_info r).
Definition fid c (k : Z) : Z := make_flow_id k (gen_thread_id c).

(** A live flow has sent the packets before the one that it is at; a repeated flow, the
    packets of its rounds (when the flows are only closed it no longer sends). *)
Definition live_story (closing : bool) c (n : CGenNode) (r : CFlowGeneratorRecPerThread) : Prop :=
  exists m, story (n_flow_id n) (ft_sent c) = rounds (template_size r) m /\
    (is_repeat r = false \/ n_type n = FLOW_PKT_NAT -> Z.of_nat m = n_pkt_info n) /\
    (closing = false -> Z.of_nat (m mod template_size r) = n_pkt_info n).
(** A flow that has ended has sent all its packets in their order, each once; when it was to
    learn and was not told in time, those before the first answer of the server. A
    repeated flow has sent its packets round by round. *)
Definition ended_story c (f : Z) : Prop :=
  exists i r m, ft_cap_gen c !! i = Some r /\ story f (ft_sent c) = rounds (template_size r) m /\
    (is_repeat r = false -> m = template_size r \/ ((0 < m)%nat /\ gave_up r (Z.of_nat m))).

Definition is_flow_id c (f : Z) : Prop := exists k, 1 <= k < ft_cur_flow_id c /\ f = fid c k.

(** The map from short identities to nodes has exactly the flows that learn. *)
Definition lookup_exact (lk : gmap Z Z) (fl : gmap Z CGenNode) : Prop :=
  forall f a, lk !! f = Some a <-> exists n, fl !! a = Some n /\ n_type n = FLOW_PKT_NAT /\ get_short_fid n = f.

Record run_inv (hole : list Z) (closing : bool) c : Prop := {
  ri_ginv : ginv hole c;
  ri_hole : forall a, a ∈ hole -> flows c !! a = None;
  ri_bound : 1 <= ft_cur_flow_id c < 4294967296;
  ri_ids : forall a n, flows c !! a = Some n -> is_flow_id c (n_flow_id n);
  ri_unique : forall a b n n', flows c !! a = Some n -> flows c !! b = Some n' -> n_flow_id n = n_flow_id n' -> a = b;
  ri_lookup : lookup_exact (ft_lookup c) (flows c);
  ri_wait : forall a n, flows c !! a = Some n -> n_type n = FLOW_PKT_NAT -> nat_state n = 2 -> 0 < n_pkt_info n;
  ri_sent : Forall (fun s => sp_flow s = -1 \/ is_flow_id c (sp_flow s)) (ft_sent c);
  ri_live : forall a n r, flows c !! a = Some n -> flow_ok c n r -> live_story closing c n r;
  ri_ended : forall k, 1 <= k < ft_cur_flow_id c -> (forall a n, flows c !! a = Some n -> n_flow_id n <> fid c k) ->
    ended_story c (fid c k) }.

Lemma world_thread c c' : same_world c c' -> gen_thread_id c' = gen_thread_id c.
Proof. intros [_ Hs]. unfold gen_thread_id. by destruct (shape_pools _ _ Hs) as (_ & _ & _ & ->). Qed.
Lemma world_id c c' f : same_world c c' -> ft_cur_flow_id c' = ft_cur_flow_id c -> is_flow_id c' f <-> is_flow_id c f.
Proof. intros Hw E. unfold is_flow_id, fid. by rewrite (world_thread _ _ Hw), E. Qed.

Lemma static_size r r' : static_of r' = static_of r -> template_size r' = template_size r /\ is_repeat r' = is_repeat r /\
  (forall m, gave_up r m -> gave_up r' m).
Proof. unfold static_of, template_size, is_repeat, gave_up. intros [= -> _ _ -> _ _ _]. done. Qed.

Lemma ended_world c c' f : same_world c c' -> story f (ft_sent c') = story f (ft_sent c) -> ended_story c f -> ended_story c' f.
Proof.
  intros [Hst _] Es (i & r & m & Hr & Hs & Hm). destruct (static_lookup _ _ _ _ Hst Hr) as (r' & Hr' & Er).
  destruct (static_size _ _ Er) as (A & B & C). exists i, r', m. rewrite A, B, Es. split; [done|]. split; [done|].
  intros Hrep. destruct (Hm Hrep) as [->|[H0 Hg]]; [by left|right; split; [done|by apply C]].
Qed.

Lemma live_world closing c c' n r r' :
  static_of r' = static_of r -> story (n_flow_id n) (ft_sent c') = story (n_flow_id n) (ft_sent c) ->
  live_story closing c n r -> live_story closing c' n r'.
Proof.
  intros Er Es (m & Hs & Hm). destruct (static_size _ _ Er) as (A & B & _). exists m. by rewrite A, B, Es.
Qed.

Lemma flow_ok_static c c' n r r' : same_world c c' -> flow_ok c n r -> flow_ok c' n r' -> static_of r' = static_of r.
Proof.
  intros [Hst _] Hf Hf'. destruct (static_lookup _ _ _ _ Hst (fk_rec _ _ _ _ Hf)) as (r1 & Hr1 & E).
  pose proof (fk_rec _ _ _ _ Hf') as Hr'. congruence.
Qed.

Lemma run_flow_ok hole closing c a n : run_inv hole closing c -> flows c !! a = Some n -> exists r, flow_ok c n r.
Proof.
  intros Hi Hn. refine (gi_flows _ _ _ _ _ (ri_ginv _ _ _ Hi) _ Hn). intros Ha. pose proof (ri_hole _ _ _ Hi a Ha). congruence.
Qed.

(** Nothing of the flows changes. *)
Lemma run_inv_same hole hole' closing c c' :
  run_inv hole closing c -> ginv hole' c' -> (forall a, a ∈ hole' -> flows c !! a = None) -> same_world c c' ->
  flows c' = flows c -> ft_lookup c' = ft_lookup c -> ft_sent c' = ft_sent c -> ft_cur_flow_id c' = ft_cur_flow_id c ->
  run_inv hole' closing c'.
Proof.
  intros Hi Hg Hh Hw Ef El Es Ei. pose proof (fun a n => run_flow_ok hole closing c a n Hi) as Hrf.
  destruct Hi as [Hg0 Hh0 Hb Hids Huniq Hlk Hwait Hsent Hlive Hend].
  split; rewrite ?Ef, ?El, ?Es, ?Ei; try done.
  - intros a n Hn. apply (world_id _ _ _ Hw Ei). by eapply Hids.
  - eapply Forall_impl; [exact Hsent|]. intros s [Hs|Hs]; [by left|right; by apply (world_id _ _ _ Hw Ei)].
  - intros a n r Hn Hf. destruct (Hrf a n Hn) as [r0 Hf0].
    eapply live_world; [by eapply flow_ok_static|by rewrite Es|]. by eapply Hlive.
  - intros k Hk Hno. unfold fid in *. rewrite (world_thread _ _ Hw) in *. eapply ended_world; [exact Hw|by rewrite Es|]. by apply Hend.
Qed.
Lemma run_inv_quiet hole hole' closing c c' :
  run_inv hole closing c -> ginv hole' c' -> (forall a, a ∈ hole' -> flows c !! a = None) -> quiet c c' -> run_inv hole' closing c'.
Proof. intros Hi Hg Hh []. by eapply run_inv_same. Qed.

(** ** The turn of a flow *)

Definition skips (always : bool) (n : CGenNode) (r : CFlowGeneratorRecPerThread) : bool :=
  match n_type n with FLOW_PKT => is_repeat r && always | FLOW_PKT_NAT => false end.
Definition sends (skip : bool) (n : CGenNode) (l : list sent_pkt) : Prop :=
  if skip then l = [] else exists dir p, l = [mkSent (n_flow_id n) (n_pkt_info n) dir p].

(** What becomes of a flow in its turn, what is sent, and the map of learning flows. *)
Inductive flow_outcome (always : bool) c c' (n : CGenNode) (r : CFlowGeneratorRecPerThread)
    : option CGenNode -> list sent_pkt -> gmap Z Z -> Prop :=
  | out_next n' l : sends (skips always n r) n l -> at_packet c' n n' r (n_pkt_info n + 1) ->
      flow_outcome always c c' n r (Some n') l (ft_lookup c)
  | out_again n' l : sends (skips always n r) n l -> n_type n = FLOW_PKT -> is_repeat r = true -> always = false ->
      n_pkt_info n + 1 = cap_Size (m_flow_info r) -> at_packet c' n n' r 0 ->
      flow_outcome always c c' n r (Some n') l (ft_lookup c)
  | out_end l : sends (skips always n r) n l -> n_type n = FLOW_PKT -> n_pkt_info n + 1 = cap_Size (m_flow_info r) ->
      (is_repeat r = true -> always = true) -> flow_outcome always c c' n r None l (ft_lookup c)
  | out_gave_up : n_type n = FLOW_PKT_NAT -> nat_state n = 2 -> gave_up r (n_pkt_info n) ->
      flow_outcome always c c' n r None [] (delete (get_short_fid n) (ft_lookup c)).

Section Turn.
Context (mempool_get : gmap Z fnode -> option Z) `{!NodePool mempool_get} (junk_node : CGenNode).

Lemma flow_turn_ok e always a c n r :
  ginv [] c -> flows c !! a = Some n -> flow_ok c n r ->
  exists c' on l lk,
    match n_type n with
    | FLOW_PKT => turn_flow_pkt mempool_get send_node junk_node e always a c
    | FLOW_PKT_NAT => turn_flow_nat mempool_get send_node junk_node e a c
    end = Ok c' /\ ginv [] c' /\ moves (set_lookup lk c) c' (become a on (flows c)) l /\ flow_outcome always c c' n r on l lk.
Proof.
  intros Hi Hn Hf. destruct (n_type n) eqn:Hty.
  - destruct (turn_flow_pkt_ok send_node mempool_get junk_node e always a c n r Hi Hn Hf Hty) as (c' & on & l & E & Hi' & Hm & Hl & Hon).
    exists c', on, l, (ft_lookup c). rewrite set_lookup_same. split; [exact E|]. split; [done|]. split; [done|].
    assert (Hsend : sends (skips always n r) n l) by (unfold sends, skips, is_repeat; rewrite Hty; exact Hl).
    destruct on as [n'|].
    + destruct Hon as [Hat Hrep]. case_bool_decide as Hlast; [|by apply out_next].
      specialize (Hrep eq_refl). apply andb_true_iff in Hrep as [Hr Ha]. apply negb_true_iff in Ha. by apply out_again.
    + destruct Hon as [Hlast Hrep]. apply bool_decide_eq_true in Hlast. apply out_end; try done.
      unfold is_repeat. intros Hr. rewrite Hr in Hrep. by destruct always.
  - destruct (turn_flow_nat_ok send_node mempool_get junk_node e a c n r Hi Hn Hf Hty) as (c' & on & l & lk & E & Hi' & Hm & Hon).
    exists c', on, l, lk. split; [exact E|]. split; [done|]. split; [done|]. destruct on as [n'|].
    + destruct Hon as (-> & Hl & Hat). apply out_next; [|done]. unfold sends, skips. by rewrite Hty.
    + destruct Hon as (-> & -> & Hst & Hg). by apply out_gave_up.
Qed.
End Turn.

Lemma story_sends skip n l f : sends skip n l -> n_flow_id n <> f -> story f l = [].
Proof.
  unfold sends. destruct skip; [by intros ->|]. intros (dir & p & ->) Hne. apply story_other. by constructor.
Qed.

(** The story of the flow whose turn it is. *)
Lemma live_sends closing c n r l m :
  flow_ok c n r -> sends (skips closing n r) n l ->
  story (n_flow_id n) (ft_sent c) = rounds (template_size r) m ->
  (is_repeat r = false \/ n_type n = FLOW_PKT_NAT -> Z.of_nat m = n_pkt_info n) ->
  (closing = false -> Z.of_nat (m mod template_size r) = n_pkt_info n) ->
  exists m', story (n_flow_id n) (ft_sent c ++ l) = rounds (template_size r) m' /\
    (is_repeat r = false \/ n_type n = FLOW_PKT_NAT -> Z.of_nat m' = n_pkt_info n + 1) /\
    (closing = false -> m' = S m).
Proof.
  intros Hf Hl Hs H1 H2. rewrite story_app, Hs. unfold sends in Hl. destruct (skips closing n r) eqn:Ek.
  - subst l. exists m. unfold skips in Ek. destruct (n_type n); [|done]. apply andb_true_iff in Ek as [Hr ->].
    rewrite app_nil_r. split; [done|]. split; [intros [?|?]; congruence|done].
  - destruct Hl as (dir & p & ->). exists (S m). rewrite story_same, rounds_S. split; [|split; [intros Hx; specialize (H1 Hx); lia|done]].
    do 3 f_equal. pose proof (fk_pkt _ _ _ _ Hf) as Hp. unfold cap_Size, zlength in Hp. fold (template_size r) in Hp.
    unfold skips in Ek. destruct (n_type n) eqn:Hty.
    + destruct (is_repeat r) eqn:Hr; cbn in Ek.
      * symmetry. apply H2. by destruct closing.
      * rewrite Nat.mod_small; [symmetry; apply H1; by left|]. specialize (H1 (or_introl eq_refl)). lia.
    + rewrite Nat.mod_small; [symmetry; apply H1; by right|]. specialize (H1 (or_intror eq_refl)). lia.
Qed.

Lemma size_Z r : cap_Size (m_flow_info r) = Z.of_nat (template_size r).
Proof. done. Qed.

Section Outcome.
Context (closing : bool) c c' (n : CGenNode) (r : CFlowGeneratorRecPerThread) (on : option CGenNode)
  (l : list sent_pkt) (lk : gmap Z Z).
Context (Hf : flow_ok c n r) (Ho : flow_outcome closing c c' n r on l lk) (Es : ft_sent c' = ft_sent c ++ l).
Context (Hlive : live_story closing c n r).

Lemma outcome_other f : n_flow_id n <> f -> story f l = [].
Proof using Ho. clear Es. intros Hne. destruct Ho; try (by eapply story_sends); done. Qed.

Lemma outcome_sent : Forall (fun s => sp_flow s = n_flow_id n) l.
Proof using Ho.
  clear Es. assert (Hs : forall skip, sends skip n l -> Forall (fun s => sp_flow s = n_flow_id n) l).
  { intros skip. unfold sends. destruct skip; [by intros ->|]. intros (dir & p & ->). by constructor. }
  destruct Ho; try (by eapply Hs); done.
Qed.

Lemma outcome_on n' : on = Some n' ->
  lk = ft_lookup c /\ flow_ok c' n' r /\ n_flow_id n' = n_flow_id n /\ n_type n' = n_type n /\
  (n_type n = FLOW_PKT_NAT -> 0 < n_pkt_info n').
Proof using Hf Ho.
  clear Es. pose proof (fk_pkt _ _ _ _ Hf) as Hp.
  destruct Ho as [n1 l1 Hs [A B C D E]|n1 l1 Hs Hty Hr Hal Hl [A B C D E]| |]; intros [= <-]; split_and!; try done.
  - intros _. lia.
  - intros Hx. congruence.
Qed.

Lemma outcome_live n' : on = Some n' -> live_story closing c' n' r.
Proof using H Hf Ho Es Hlive.
  destruct Hlive as (m & Hs & H1 & H2). pose proof (fk_pkt _ _ _ _ Hf) as Hp. rewrite size_Z in Hp.
  destruct Ho as [n1 l1 Hl [A B C D E]|n1 l1 Hl Hty Hr Hal Hlast [A B C D E]| |]; intros [= <-];
    destruct (live_sends closing c n r l1 m Hf Hl Hs H1 H2) as (m' & Hs' & H1' & H2');
    exists m'; rewrite B, Es; (split; [exact Hs'|]); rewrite C, E.
  - split; [exact H1'|]. intros Hc. rewrite (H2' Hc). specialize (H2 Hc).
    pose proof (fk_pkt _ _ _ _ A) as Hp'. rewrite size_Z, E in Hp'. rewrite mod_next by lia. lia.
  - rewrite size_Z in Hlast. split; [intros [?|?]; congruence|]. intros Hc. rewrite (H2' Hc). specialize (H2 Hc).
    rewrite mod_wrap by lia. done.
Qed.

Lemma outcome_ended : on = None -> (n_type n = FLOW_PKT_NAT -> nat_state n = 2 -> 0 < n_pkt_info n) ->
  exists m, story (n_flow_id n) (ft_sent c') = rounds (template_size r) m /\
    (is_repeat r = false -> m = template_size r \/ ((0 < m)%nat /\ gave_up r (Z.of_nat m))).
Proof using H Hf Ho Es Hlive.
  intros Hon Hw. destruct Hlive as (m & Hs & H1 & H2). pose proof (fk_pkt _ _ _ _ Hf) as Hp. rewrite size_Z in Hp.
  destruct Ho as [| |l1 Hl Hty Hlast Hr|Hty Hst Hg]; try done.
  - destruct (live_sends closing c n r l1 m Hf Hl Hs H1 H2) as (m' & Hs' & H1' & H2'). exists m'. rewrite Es. split; [exact Hs'|].
    rewrite size_Z in Hlast. intros Hrep. left. specialize (H1' (or_introl Hrep)). lia.
  - exists m. rewrite Es, app_nil_r. split; [exact Hs|]. intros Hrep. right.
    rewrite (H1 (or_introl Hrep)). specialize (Hw Hty Hst). rewrite <- (H1 (or_introl Hrep)) in Hw. split; [lia|exact Hg].
Qed.

Lemma outcome_gone : on = None ->
  (n_type n = FLOW_PKT /\ lk = ft_lookup c) \/ (n_type n = FLOW_PKT_NAT /\ lk = delete (get_short_fid n) (ft_lookup c)).
Proof using Ho. clear Es. intros Hon. destruct Ho; try done; [left|right]; done. Qed.
End Outcome.

Lemma become_old a on fl b n' :
  become a on fl !! b = Some n' -> (b = a /\ on = Some n') \/ (b <> a /\ fl !! b = Some n').
Proof using.
  destruct (decide (b = a)) as [->|Hne]; destruct on; cbn; intros E; [left|left|right|right]; split; try done.
  - by rewrite lookup_insert_eq in E.
  - by rewrite lookup_delete_eq in E.
  - by rewrite lookup_insert_ne in E.
  - by rewrite lookup_delete_ne in E.
Qed.
Lemma become_new a on fl b : b <> a -> become a on fl !! b = fl !! b.
Proof using. intros Hne. destruct on; cbn; by rewrite ?lookup_insert_ne, ?lookup_delete_ne. Qed.
Lemma become_same a on fl : become a on fl !! a = on.
Proof using. destruct on; cbn; by rewrite ?lookup_insert_eq, ?lookup_delete_eq. Qed.

(** The map of learning flows stays exact. *)
Lemma exact_insert lk fl a n n' :
  lookup_exact lk fl -> fl !! a = Some n -> n_type n' = n_type n -> n_flow_id n' = n_flow_id n -> lookup_exact lk (<[a := n']> fl).
Proof using.
  intros Hlk Hn Hty Hid f b. rewrite (Hlk f b). unfold get_short_fid. destruct (decide (b = a)) as [->|Hne].
  - rewrite lookup_insert_eq. split.
    + intros (n0 & Hn0 & A & B). assert (n0 = n) as -> by congruence. exists n'. by rewrite Hty, Hid.
    + intros (n0 & [= <-] & A & B). exists n. by rewrite <- Hty, <- Hid.
  - by rewrite lookup_insert_ne.
Qed.
Lemma exact_drop lk fl a n :
  lookup_exact lk fl -> fl !! a = Some n -> n_type n = FLOW_PKT -> lookup_exact lk (delete a fl).
Proof using.
  intros Hlk Hn Hty f b. rewrite (Hlk f b). destruct (decide (b = a)) as [->|Hne].
  - rewrite lookup_delete_eq. split; [|by intros (n0 & ? & _)]. intros (n0 & Hn0 & A & _). congruence.
  - by rewrite lookup_delete_ne.
Qed.
(** A learning flow leaves the map, and ends or is at rest. *)
Lemma exact_unlearn lk fl a n on :
  lookup_exact lk fl -> fl !! a = Some n -> n_type n = FLOW_PKT_NAT -> (forall n', on = Some n' -> n_type n' = FLOW_PKT) ->
  lookup_exact (delete (get_short_fid n) lk) (become a on fl).
Proof using.
  intros Hlk Hn Hty Hon f b. rewrite lookup_delete_Some, (Hlk f b). destruct (decide (b = a)) as [->|Hne].
  - rewrite become_same. split.
    + intros [Hf (n0 & Hn0 & _ & Hs)]. assert (n0 = n) as -> by congruence. done.
    + intros (n0 & -> & Ht & _). specialize (Hon n0 eq_refl). congruence.
  - rewrite become_new by done. split; [by intros [_ ?]|]. intros (n0 & Hn0 & Ht & Hs). split; [|by exists n0].
    intros Hsame. assert (Ha : lk !! f = Some a) by (apply Hlk; by exists n).
    assert (Hb : lk !! f = Some b) by (apply Hlk; by exists n0). congruence.
Qed.

(** The turn of a flow keeps the invariant. *)
Lemma flow_turn_inv closing a c c' n r on l lk :
  run_inv [] closing c -> flows c !! a = Some n -> flow_ok c n r -> ginv [] c' ->
  moves (set_lookup lk c) c' (become a on (flows c)) l -> flow_outcome closing c c' n r on l lk -> run_inv [] closing c'.
Proof.
  intros Hi Hn Hf Hg Hm Ho. destruct Hm as [Hw _ Ef _ El Es Ei _]. cbn in El, Es, Ei. change (same_world c c') in Hw.
  destruct Hi as [Hg0 _ Hb Hids Huniq Hlk Hwait Hsent Hlive Hend]. pose proof (Hlive _ _ _ Hn Hf) as Hl.
  assert (Hold : forall b n', flows c' !! b = Some n' -> (b = a /\ on = Some n') \/ (b <> a /\ flows c !! b = Some n')).
  { intros b n'. rewrite Ef. apply become_old. }
  assert (Hnew : forall b n', b <> a -> flows c !! b = Some n' -> flows c' !! b = Some n').
  { intros b n' Hne Hb'. by rewrite Ef, become_new. }
  assert (Hprev : forall b n', flows c' !! b = Some n' -> exists n0, flows c !! b = Some n0 /\ n_flow_id n' = n_flow_id n0 /\
      n_type n' = n_type n0).
  { intros b n' Hb'. destruct (Hold b n' Hb') as [[-> Hon]|[_ H0]]; [|by exists n'].
    destruct (outcome_on _ _ _ _ _ _ _ _ Hf Ho n' Hon) as (_ & _ & A & B & _). exists n. by rewrite A, B. }
  split.
  - exact Hg.
  - set_solver.
  - by rewrite Ei.
  - intros b n' Hb'. destruct (Hprev b n' Hb') as (n0 & H0 & -> & _). apply (world_id _ _ _ Hw Ei). by eapply Hids.
  - intros b b' n1 n2 H1 H2 Hid. destruct (Hprev b n1 H1) as (m1 & Hm1 & E1 & _). destruct (Hprev b' n2 H2) as (m2 & Hm2 & E2 & _).
    eapply Huniq; [exact Hm1|exact Hm2|]. congruence.
  - rewrite El, Ef. destruct on as [n'|] eqn:Eon.
    + destruct (outcome_on _ _ _ _ _ _ _ _ Hf Ho n' eq_refl) as (-> & _ & A & B & _). by eapply exact_insert.
    + destruct (outcome_gone _ _ _ _ _ _ _ _ Ho eq_refl) as [[Hty ->]|[Hty ->]]; [by eapply exact_drop|by apply exact_unlearn].
  - intros b n' Hb' Hty Hst. destruct (Hold b n' Hb') as [[-> Hon]|[_ H0]]; [|by eapply Hwait].
    destruct (outcome_on _ _ _ _ _ _ _ _ Hf Ho n' Hon) as (_ & _ & _ & B & D). apply D. congruence.
  - rewrite Es. apply Forall_app. split.
    + eapply Forall_impl; [exact Hsent|]. intros s [Hs|Hs]; [by left|right; by apply (world_id _ _ _ Hw Ei)].
    + eapply Forall_impl; [by eapply outcome_sent|]. cbn. intros s ->. right. apply (world_id _ _ _ Hw Ei). by eapply Hids.
  - intros b n' r' Hb' Hf'. destruct (Hold b n' Hb') as [[-> Hon]|[Hne H0]].
    + destruct (outcome_on _ _ _ _ _ _ _ _ Hf Ho n' Hon) as (_ & Hfr & _).
      assert (r' = r) as -> by (pose proof (fk_rec _ _ _ _ Hfr); pose proof (fk_rec _ _ _ _ Hf'); congruence).
      exact (outcome_live _ _ _ _ _ _ _ _ Hf Ho Es Hl n' Hon).
    + destruct (gi_flows _ _ _ _ _ Hg0 (not_elem_of_nil b) H0) as [r0 Hf0].
      eapply live_world; [by eapply flow_ok_static| |by eapply Hlive]. rewrite Es, story_app.
      rewrite (outcome_other _ _ _ _ _ _ _ _ Ho (n_flow_id n')); [by rewrite app_nil_r|]. intros Hid. apply Hne. by eapply Huniq.
  - intros k Hk Hno. rewrite Ei in Hk. unfold fid in *. rewrite (world_thread _ _ Hw) in *.
    destruct (decide (n_flow_id n = make_flow_id k (gen_thread_id c))) as [Hid|Hid].
    + destruct on as [n'|] eqn:Eon.
      { destruct (outcome_on _ _ _ _ _ _ _ _ Hf Ho n' eq_refl) as (_ & _ & A & _). exfalso. apply (Hno a n'); [|congruence].
        rewrite Ef. cbn. apply lookup_insert_eq. }
      destruct (outcome_ended _ _ _ _ _ _ _ _ Hf Ho Es Hl eq_refl (Hwait _ _ Hn)) as (m & Hs & Hm).
      rewrite Hid in Hs. destruct Hw as [Hst _].
      destruct (static_lookup _ _ _ _ Hst (fk_rec _ _ _ _ Hf)) as (r' & Hr' & Er). destruct (static_size _ _ Er) as (A & B & C).
      exists (Z.to_nat (n_template n)), r', m. rewrite A, B. split; [done|]. split; [done|].
      intros Hrep. destruct (Hm Hrep) as [->|[H0 Hgu]]; [by left|right; split; [done|by apply C]].
    + eapply ended_world; [exact Hw| |apply Hend; [done|]].
      * rewrite Es, story_app. rewrite (outcome_other _ _ _ _ _ _ _ _ Ho _ Hid). by rewrite app_nil_r.
      * intros b n0 Hn0. destruct (decide (b = a)) as [->|Hne]; [congruence|]. apply (Hno b). by apply Hnew.
Qed.
End Inv.
