(* ===== verification/FlowGenMsgs.v ===== *)
(** * Messages of the receiver

    What the messages about translations and the latency packets do to the flows. *)

From S2P Require Import Prelude Double ByteMem PktCmn PktCmnFacts PktDesc PktParser RxHeader CapTemplate TupleGen TupleGenFacts TupleGenTotal FlowNode MiniVm Plugins NatCheck FlowGen FlowGenFacts FlowGenSteps FlowGenInv.

#[local] Set Default Proof Using "Type*".

Section Msgs.
Context {G : Type} `{UniformInt G}.
Context (send_node : bool -> Z -> option (list CFlowYamlDpPkt) -> CGenNode -> CFlowPktInfo -> res (Z * bytes * CGenNode)).
Context `{!NodeSender send_node} (o : gen_opts).
Implicit Types (c : CFlowGenListPerThread G).
Notation ginv := (ginv send_node).
Notation run_inv := (run_inv send_node).

(** What the scheduler sees stays. *)
Record steady c c' : Prop := {
  sy_world : same_world c c';
  sy_ticks : ticks c' = ticks c;
  sy_queue : ft_queue c' = ft_queue c;
  sy_id : ft_cur_flow_id c' = ft_cur_flow_id c;
  sy_template : ft_cur_template c' = ft_cur_template c }.
Lemma steady_refl c : steady c c.
Proof. done. Qed.
Lemma steady_trans c1 c2 c3 : steady c1 c2 -> steady c2 c3 -> steady c1 c3.
Proof. intros [] []. split; try congruence. by eapply same_world_trans. Qed.

(** A flow that is heard of has sent its first packet and waits. *)
Definition nat_heard c (m : CNatFlowInfo) : Prop :=
  forall a n, ft_lookup c !! m_fid m = Some a -> flows c !! a = Some n -> nat_state n = 2.
Definition rx_msg_ok c (m : rx_msg) : Prop :=
  match m with
  | msg_nat i => Forall (nat_heard c) (m_data i)
  | msg_latency _ offset pkt => 0 <= offset /\ offset + 8 <= zlength pkt
  end.
Definition rx_ok c : Prop := Forall (rx_msg_ok c) (ft_from_rx c).

(** Counters and messages may change. *)
Lemma run_inv_frame hole closing c c' :
  run_inv hole closing c -> same_world c c' -> ft_pool c' = ft_pool c -> ft_queue c' = ft_queue c -> dpcs c' = dpcs c ->
  ft_cap_gen c' = ft_cap_gen c -> ft_smart_gen c' = ft_smart_gen c -> ft_lookup c' = ft_lookup c ->
  ft_sent c' = ft_sent c -> ft_cur_flow_id c' = ft_cur_flow_id c -> run_inv hole closing c'.
Proof.
  intros Hi Hw Hp Hq Hd Hc Hg Hl Hs Hid. pose proof (ri_ginv _ _ _ _ Hi) as Hg0.
  eapply run_inv_same; [exact Hi|..]; try done; [|apply (ri_hole _ _ _ _ Hi)|unfold flows; by rewrite Hp].
  eapply ginv_world; [exact Hg0|..]; try done. rewrite Hc, Hg. apply (gi_gens _ _ _ Hg0).
Qed.

(** ** One flow *)

Definition told (m : CNatFlowInfo) (n : CGenNode) : CGenNode :=
  set_nat_learn_state (set_nat_ipv4 (m_external_ip m) (m_external_port m) (m_external_ip_server m) n).

(** The result for a flow that is in the map. *)
Definition tell (m : CNatFlowInfo) (a : Z) (n : CGenNode) (err : Z) c : CFlowGenListPerThread G :=
  set_lookup (delete (m_fid m) (ft_lookup c))
    (set_stats (add_nat_stats 0 1 0 0 err (ft_stats c)) (put_fnode a (FlowNode (told m n)) c)).

Lemma handel_nat_flow_eq hole closing m c :
  run_inv hole closing c ->
  (ft_lookup c !! m_fid m = None /\ handel_nat_flow o m c = Ok (set_stats (add_nat_stats 1 0 0 0 0 (ft_stats c)) c)) \/
  (exists a n, ft_lookup c !! m_fid m = Some a /\ flows c !! a = Some n /\ n_type n = FLOW_PKT_NAT /\ get_short_fid n = m_fid m /\
    exists err, handel_nat_flow o m c = (_ ← c_assert (nat_state n =? 2); Ok (tell m a n err c))).
Proof.
  intros Hi. unfold handel_nat_flow. destruct (ft_lookup c !! m_fid m) as [a|] eqn:El; [right|by left].
  destruct (proj1 (ri_lookup _ _ _ _ Hi (m_fid m) a) El) as (n & Hn & Hty & Hs).
  exists a, n. split_and!; try done. rewrite (get_flow_Ok _ _ _ Hn). cbn [mbind res_bind].
  eexists. reflexivity.
Qed.

Lemma told_ok c n r m : flow_ok c n r -> flow_ok c (told m n) r.
Proof. intros [A B C D E F L]. by split. Qed.

Lemma tell_inv hole closing m a n err c :
  run_inv hole closing c -> flows c !! a = Some n -> n_type n = FLOW_PKT_NAT -> get_short_fid n = m_fid m ->
  run_inv hole closing (tell m a n err c) /\ steady c (tell m a n err c).
Proof.
  intros Hi Hn Hty Hs. destruct (run_flow_ok _ _ _ _ _ _ Hi Hn) as [r Hf].
  assert (Ha : a ∉ hole) by (intros Ha; pose proof (ri_hole _ _ _ _ Hi a Ha); congruence).
  pose proof (put_flow_ok _ hole c a n (told m n) r (ri_ginv _ _ _ _ Hi) Ha Hn (told_ok _ _ _ m Hf)) as Hg.
  pose proof (moves_put_flow a (told m n) n c Hn) as Hm.
  assert (Ef : flows (tell m a n err c) = <[a := told m n]> (flows c)) by exact (mv_flows _ _ _ _ Hm).
  assert (Hsteady : steady c (tell m a n err c)) by (split; try done; exact (mv_ticks _ _ _ _ Hm)).
  split; [|done].
  pose proof Hi as [Hg0 Hh Hb Hids Huniq Hlk Hwait Hsent Hlive Hend].
  assert (Hprev : forall b n', flows (tell m a n err c) !! b = Some n' -> exists n0, flows c !! b = Some n0 /\
    n_flow_id n' = n_flow_id n0 /\ ((b = a /\ n' = told m n /\ n0 = n) \/ (b <> a /\ n0 = n'))).
  { intros b n'. rewrite Ef. destruct (decide (b = a)) as [->|Hne].
    - rewrite lookup_insert_eq. intros [= <-]. exists n. by split_and!; [| |left].
    - rewrite lookup_insert_ne by done. intros Hb'. exists n'. by split_and!; [| |right]. }
  split; try done.
  - eapply ginv_world; [exact Hg|..|apply (gi_gens _ _ _ Hg)]; done.
  - intros b Hb'. rewrite Ef, lookup_insert_ne; [by apply Hh|]. congruence.
  - intros b n' Hb'. destruct (Hprev b n' Hb') as (n0 & H0 & -> & _). by apply (Hids b).
  - intros b b' n1 n2 H1 H2 Hid. destruct (Hprev b n1 H1) as (m1 & Hm1 & E1 & _). destruct (Hprev b' n2 H2) as (m2 & Hm2 & E2 & _).
    eapply Huniq; [exact Hm1|exact Hm2|]. congruence.
  - rewrite Ef. cbn [ft_lookup tell set_lookup]. rewrite <- Hs. apply (exact_unlearn (ft_lookup c) (flows c) a n (Some (told m n)));
      try done. by intros n' [= <-].
  - intros b n' Hb' Ht Hst. destruct (Hprev b n' Hb') as (n0 & H0 & _ & [(-> & -> & _)|[_ ->]]); [done|]. by eapply Hwait.
  - intros b n' r' Hb' Hf'. change (flow_ok c n' r') in Hf'.
    destruct (Hprev b n' Hb') as (n0 & H0 & _ & [(-> & -> & ->)|[_ ->]]); [|by eapply Hlive].
    assert (r' = r) as -> by (pose proof (fk_rec _ _ _ _ Hf); pose proof (fk_rec _ _ _ _ Hf'); cbn in *; congruence).
    destruct (Hlive _ _ _ Hn Hf) as (k & A & B & C). exists k. split; [exact A|]. split; [|exact C].
    intros _. apply B. by right.
  - intros k Hk Hno. apply Hend; [done|]. intros b n0 Hn0. destruct (decide (b = a)) as [->|Hne].
    + assert (n0 = n) as -> by congruence. apply (Hno a (told m n)). rewrite Ef. apply lookup_insert_eq.
    + apply (Hno b). by rewrite Ef, lookup_insert_ne.
Qed.

Lemma tell_heard hole closing m a n err c m' :
  run_inv hole closing c -> ft_lookup c !! m_fid m = Some a -> flows c !! a = Some n -> n_type n = FLOW_PKT_NAT ->
  get_short_fid n = m_fid m -> nat_heard c m' -> nat_heard (tell m a n err c) m'.
Proof.
  intros Hi Hl Hn Hty Hs Hm b n' Hb Hn'. pose proof (mv_flows _ _ _ _ (moves_put_flow a (told m n) n c Hn)) as Ef.
  assert (Ef' : flows (tell m a n err c) = <[a := told m n]> (flows c)) by exact Ef. rewrite Ef' in Hn'.
  cbn [ft_lookup tell set_lookup] in Hb. apply lookup_delete_Some in Hb as [Hne Hb].
  destruct (decide (b = a)) as [->|Hba].
  - exfalso. apply (ri_lookup _ _ _ _ Hi) in Hb as (n0 & Hn0 & _ & Hs0). congruence.
  - rewrite lookup_insert_ne in Hn' by done. by eapply Hm.
Qed.

Lemma handel_nat_flows_inv hole closing l : forall c c',
  run_inv hole closing c -> handel_nat_flows o l c = Ok c' -> run_inv hole closing c' /\ steady c c'.
Proof.
  induction l as [|m l IH]; intros c c' Hi; cbn [handel_nat_flows]; [by intros [= <-]|].
  destruct (handel_nat_flow_eq _ _ m c Hi) as [[Hl ->]|(a & n & Hl & Hn & Hty & Hs & err & ->)].
  - cbn [mbind res_bind]. intros E. set (c1 := set_stats _ c) in *.
    assert (Hi1 : run_inv hole closing c1) by (by eapply run_inv_frame).
    destruct (IH c1 c' Hi1 E) as [A B]. split; [done|]. by eapply steady_trans; [|exact B].
  - destruct (nat_state n =? 2); cbn [c_assert mbind res_bind]; [|done]. intros E.
    destruct (tell_inv _ _ m a n err c Hi Hn Hty Hs) as [Hi1 Hst1].
    destruct (IH _ c' Hi1 E) as [A B]. split; [done|]. by eapply steady_trans.
Qed.

Lemma handel_nat_flows_ok hole closing l : forall c,
  run_inv hole closing c -> Forall (nat_heard c) l ->
  exists c', handel_nat_flows o l c = Ok c' /\ forall m, nat_heard c m -> nat_heard c' m.
Proof.
  induction l as [|m l IH]; intros c Hi Hl; cbn [handel_nat_flows]; [by exists c|]. apply Forall_cons in Hl as [Hm Hl].
  destruct (handel_nat_flow_eq _ _ m c Hi) as [[Hlk ->]|(a & n & Hlk & Hn & Hty & Hs & err & ->)].
  - cbn [mbind res_bind]. set (c1 := set_stats _ c) in *.
    assert (Hi1 : run_inv hole closing c1) by (by eapply run_inv_frame).
    exact (IH c1 Hi1 Hl).
  - rewrite (Hm a n Hlk Hn). change (2 =? 2) with true. cbn [c_assert mbind res_bind].
    destruct (tell_inv _ _ m a n err c Hi Hn Hty Hs) as [Hi1 _].
    assert (Hk : forall m', nat_heard c m' -> nat_heard (tell m a n err c) m') by (intros m'; by eapply tell_heard).
    destruct (IH _ Hi1) as (c' & E & Hh); [eapply Forall_impl; [exact Hl|done]|]. exists c'. split; [done|]. auto.
Qed.

(** ** Latency packets *)

Lemma fid_not_latency c f : 1 <= ft_cur_flow_id c < 4294967296 -> is_flow_id c f -> f <> -1.
Proof. intros Hb (k & Hk & ->). unfold fid. pose proof (make_flow_id_range k (gen_thread_id c)). lia. Qed.

Lemma latency_inv hole closing r d i p c :
  run_inv hole closing c -> let c' := set_io r (ft_sent c ++ [mkSent (-1) i d p]) c in run_inv hole closing c' /\ steady c c'.
Proof.
  intros Hi c'. split; [|done]. pose proof Hi as [Hg0 Hh Hb Hids Huniq Hlk Hwait Hsent Hlive Hend].
  assert (Hst : forall f, is_flow_id c f -> story f (ft_sent c') = story f (ft_sent c)).
  { intros f Hf. cbn [c' ft_sent set_io]. rewrite story_app, (story_other f [_]); [apply app_nil_r|].
    apply Forall_singleton. cbn. intros E. by eapply (fid_not_latency c f). }
  split; try done.
  - eapply ginv_world; [exact Hg0|..|apply (gi_gens _ _ _ Hg0)]; done.
  - cbn [c' ft_sent set_io]. apply Forall_app. split; [exact Hsent|]. apply Forall_singleton. by left.
  - intros a n r' Hn Hf. eapply live_world; [reflexivity| |by eapply (Hlive a n r')]. apply Hst. by eapply Hids.
  - intros k Hk Hno. change (ended_story c' (fid c k)). eapply (ended_world c c'); [done| |by apply Hend]. apply Hst. by exists k.
Qed.

(** ** All messages *)

Lemma handle_rx_inv hole closing tick l : forall c c',
  run_inv hole closing c -> handle_rx_msgs o tick l c = Ok c' -> run_inv hole closing c' /\ steady c c'.
Proof.
  induction l as [|m l IH]; intros c c' Hi; cbn [handle_rx_msgs]; [by intros [= <-]|].
  intros (c1 & E1 & E2)%bind_Ok.
  assert (H1 : run_inv hole closing c1 /\ steady c c1).
  { destruct m as [i|dir offset pkt]; [by eapply handel_nat_flows_inv|].
    unfold handel_latecy_pkt_msg in E1. apply bind_Ok in E1 as (p & _ & [= <-]). by apply latency_inv. }
  destruct H1 as [Hi1 Hs1]. destruct (IH c1 c' Hi1 E2) as [A B]. split; [done|]. by eapply steady_trans.
Qed.

Lemma handle_rx_ok hole closing tick l : forall c,
  run_inv hole closing c -> Forall (rx_msg_ok c) l -> exists c', handle_rx_msgs o tick l c = Ok c'.
Proof.
  induction l as [|m l IH]; intros c Hi Hl; cbn [handle_rx_msgs]; [by exists c|]. apply Forall_cons in Hl as [Hm Hl].
  destruct m as [i|dir offset pkt].
  - destruct (handel_nat_flows_ok _ _ (m_data i) c Hi Hm) as (c1 & E & Hh). unfold handel_nat_msg. rewrite E. cbn [mbind res_bind].
    destruct (handel_nat_flows_inv _ _ _ _ _ Hi E) as [Hi1 _]. apply IH; [done|].
    eapply Forall_impl; [exact Hl|]. intros [i'|? ? ?]; cbn; [|done]. intros Hi'. eapply Forall_impl; [exact Hi'|done].
  - unfold handel_latecy_pkt_msg. rewrite st_Ok by (unfold in_range; exact Hm). cbn [mbind res_bind].
    set (c1 := set_io _ _ c). destruct (latency_inv hole closing (ft_from_rx c) dir 0 (splice pkt (Z.to_nat offset) (le_split 8 tick)) c Hi) as [Hi1 _].
    apply IH; [exact Hi1|exact Hl].
Qed.

Lemma check_msgs_inv hole closing tick c c' :
  run_inv hole closing c -> check_msgs o tick c = Ok c' -> run_inv hole closing c' /\ steady c c'.
Proof.
  intros Hi E. unfold check_msgs in E. set (c1 := set_io [] (ft_sent c) c) in *.
  assert (Hi1 : run_inv hole closing c1) by (by eapply run_inv_frame).
  destruct (handle_rx_inv _ _ _ _ _ _ Hi1 E) as [A B]. split; [done|]. by eapply steady_trans; [|exact B].
Qed.
Lemma check_msgs_ok hole closing tick c : run_inv hole closing c -> rx_ok c -> exists c', check_msgs o tick c = Ok c'.
Proof.
  intros Hi Hr. unfold check_msgs. eapply (handle_rx_ok hole closing); [|exact Hr].
  by eapply run_inv_frame.
Qed.
End Msgs.
