(* ===== verification/FlowGenOpen.v ===== *)
(** * Opening flows

    A new flow gets a node, a client, a server and a port, starts at the first packet of its
    template, and takes an identity that no other flow has. *)

From S2P Require Import Prelude Double ByteMem PktCmn PktCmnFacts PktDesc PktParser RxHeader CapTemplate TupleGen TupleGenFacts TupleGenTotal FlowNode MiniVm Plugins NatCheck FlowGen FlowGenFacts FlowGenSteps FlowGenInv FlowGenMsgs.

#[local] Set Default Proof Using "Type*".

(** ** Flags *)

Lemma nat_state_flag mask b n :
  Z.testbit mask 3 = false -> Z.testbit mask 4 = false -> nat_state (set_flag mask b n) = nat_state n.
Proof.
  intros H3 H4. unfold nat_state, set_flag, btGetMaskBit. cbn [n_flags node_set_flags].
  apply Z.bits_inj'. intros j Hj. rewrite !btGetMaskBitBigE_testbit by lia.
  destruct (Z.ltb_spec j (16 - 1 - 3 - (16 - 1 - 4) + 1)) as [Hlt|]; cbn [andb]; [|done].
  change (16 - (16 - 1 - 3) - 1) with 3. unfold u16. change 65536 with (2 ^ 16). rewrite Z.mod_pow2_bits_low by lia.
  assert (Z.testbit mask (j + 3) = false) as Hm.
  { assert (j = 0 \/ j = 1) as [->| ->] by lia; done. }
  destruct b; rewrite ?Z.lor_spec, ?Z.land_spec, ?Z.lnot_spec, Hm by lia; by rewrite ?orb_false_r, ?andb_true_r.
Qed.

Lemma same_flow_refl n : same_flow n n.
Proof. done. Qed.
Lemma same_flow_trans n1 n2 n3 : same_flow n1 n2 -> same_flow n2 n3 -> same_flow n1 n3.
Proof. intros [] []. split; congruence. Qed.
Lemma same_flow_flag mask b n :
  Z.testbit mask 3 = false -> Z.testbit mask 4 = false -> same_flow n (set_flag mask b n).
Proof. intros H3 H4. split; try done. by apply nat_state_flag. Qed.
Lemma same_flow_plugin i n : same_flow n (node_set_plugin i n).
Proof. done. Qed.
Lemma same_flow_directions o n : same_flow n (set_directions o n) /\ n_plugin_info (set_directions o n) = n_plugin_info n.
Proof.
  unfold set_directions. destruct (go_flow_flip_addr o), (go_flow_flip o), (go_flip o); (split; [|done]);
    try apply same_flow_refl; repeat (eapply same_flow_trans; [|by apply same_flow_flag]); apply same_flow_refl.
Qed.

Section Open.
Context {G : Type} `{UniformInt G}.
Context (send_node : bool -> Z -> option (list CFlowYamlDpPkt) -> CGenNode -> CFlowPktInfo -> res (Z * bytes * CGenNode)).
Context `{!NodeSender send_node} (o : gen_opts).
Implicit Types (c : CFlowGenListPerThread G).
Notation ginv := (ginv send_node).
Notation run_inv := (run_inv send_node).
Notation gens_ok := (gens_ok send_node).
Notation template_ok := (template_ok send_node).

(** ** Templates and generators change, the flows do not *)

Record regen c c' : Prop := {
  rg_world : same_world c c';
  rg_gens : gens_ok (ft_cap_gen c') (ft_smart_gen c');
  rg_pool : ft_pool c' = ft_pool c;
  rg_queue : ft_queue c' = ft_queue c;
  rg_dpcs : dpcs c' = dpcs c;
  rg_lookup : ft_lookup c' = ft_lookup c;
  rg_sent : ft_sent c' = ft_sent c;
  rg_id : ft_cur_flow_id c' = ft_cur_flow_id c }.

Lemma regen_trans c1 c2 c3 : regen c1 c2 -> regen c2 c3 -> regen c1 c3.
Proof. intros [] []. split; first [done|congruence|by eapply same_world_trans]. Qed.
Lemma regen_ginv hole c c' : ginv hole c -> regen c c' -> ginv hole c'.
Proof. intros Hi []. by eapply ginv_world. Qed.
Lemma regen_flows c c' : regen c c' -> flows c' = flows c /\ ticks c' = ticks c.
Proof. intros []. unfold flows, ticks. by rewrite rg_pool0. Qed.
Lemma regen_run_inv hole closing c c' : run_inv hole closing c -> regen c c' -> run_inv hole closing c'.
Proof.
  intros Hi Hr. destruct (regen_flows _ _ Hr) as [Ef _]. pose proof (regen_ginv _ _ _ (ri_ginv _ _ _ _ Hi) Hr) as Hg. destruct Hr.
  eapply run_inv_same; [exact Hi|exact Hg|apply (ri_hole _ _ _ _ Hi)|done..].
Qed.

Lemma template_ok_gen r info p tg :
  template_ok r -> m_plugin_id info = m_plugin_id (m_info r) -> m_dpPkt info = m_dpPkt (m_info r) -> template_ok (rec_set info p tg r).
Proof. intros [A B C D E F] E1 E2. split; try done; cbn; by rewrite ?E1, ?E2. Qed.

(** A template, with its generator, is put back. *)
Lemma put_rec_ok hole c i r info p tg g :
  ginv hole c -> 0 <= i -> ft_cap_gen c !! Z.to_nat i = Some r ->
  static_of (rec_set info p tg r) = static_of r -> m_dpPkt info = m_dpPkt (m_info r) ->
  gen_plain g -> gen_shape g = gen_shape (ft_smart_gen c) -> tmpl_ok g tg -> tt_client_pool tg = m_client_pool_idx (m_info r) ->
  exists c', put_rec i (rec_set info p tg r) g c = Ok c' /\ regen c c' /\ ft_smart_gen c' = g /\
    ft_cap_gen c' = <[Z.to_nat i := rec_set info p tg r]> (ft_cap_gen c) /\ ft_cur_template c' = ft_cur_template c.
Proof.
  intros Hi H0 Hr Hst Hdp Hp Hsh Ht Hpool. pose proof (gi_gens _ _ _ Hi) as [Ha Hb Hc].
  pose proof (lookup_lt_Some _ _ _ Hr) as Hlt. unfold put_rec. rewrite set_idx_in by (unfold zlength; lia). cbn [mbind res_bind].
  pose proof Hst as Hst'. unfold static_of in Hst'. cbn in Hst'. injection Hst' as e1 e2 e3 e4 e5 e6.
  eexists. split; [reflexivity|]. split; [|done]. split; try done.
  - split; [|done]. cbn. rewrite list_fmap_insert, Hst. apply list_insert_id. by rewrite list_lookup_fmap, Hr.
  - split; cbn [ft_cap_gen ft_smart_gen set_gens]; [|done|].
    + apply Forall_insert; [done|]. apply template_ok_gen; try done. by eapply (proj1 (Forall_lookup _ _) Ha).
    + apply Forall_insert; [eapply Forall_impl; [exact Hc|]|].
      * intros r0 [D E]. split; [|done]. by eapply tmpl_ok_shape.
      * split; [done|]. cbn. congruence.
Qed.

Lemma gens_world hole c g : ginv hole c -> gen_plain g -> gen_shape g = gen_shape (ft_smart_gen c) ->
  regen c (set_gens (ft_cap_gen c) g c).
Proof. intros Hi Hp Hs. split; try done. cbn. eapply gens_ok_shape; [apply (gi_gens _ _ _ Hi)|done|done]. Qed.

Lemma generate_port_ok hole c i r :
  ginv hole c -> 0 <= i -> ft_cap_gen c !! Z.to_nat i = Some r ->
  0 <= tt_cache_client_idx (rec_tuple_gen r) < pool_size (ft_smart_gen c) (tt_client_pool (rec_tuple_gen r)) ->
  exists p c', generate_port i c = Ok (p, c') /\ regen c c' /\ ft_cap_gen c' = ft_cap_gen c /\ ft_cur_template c' = ft_cur_template c.
Proof.
  intros Hi H0 Hr Hc. pose proof (gi_gens _ _ _ Hi) as Hg.
  destruct (proj1 (Forall_lookup _ _) (gk_fits _ _ _ Hg) _ _ Hr) as [Ht _].
  destruct (one_port_ok _ _ (gk_plain _ _ _ Hg) (to_client _ _ Ht) Hc) as (p & g' & E & Hp & Hs).
  unfold generate_port. rewrite (proj2 (get_idx_Ok _ _ _) (conj H0 Hr)). cbn [mbind res_bind]. rewrite E. cbn [mbind res_bind].
  do 2 eexists. split; [reflexivity|]. split; [|done]. by eapply gens_world.
Qed.

Lemma pool_size_world c c' k : same_world c c' -> pool_size (ft_smart_gen c') k = pool_size (ft_smart_gen c) k.
Proof. intros [_ Hs]. by destruct (shape_pools _ _ Hs) as (-> & _). Qed.

Lemma on_node_first_ok hole c i r n :
  ginv hole c -> 0 <= i -> ft_cap_gen c !! Z.to_nat i = Some r ->
  0 <= tt_cache_client_idx (rec_tuple_gen r) < pool_size (ft_smart_gen c) (tt_client_pool (rec_tuple_gen r)) ->
  n_plugin_info n = pi_null ->
  exists n' c', (if m_plugin_id (m_info r) =? 0 then Ok (n, c) else on_node_first (m_plugin_id (m_info r)) i n c) = Ok (n', c') /\
    regen c c' /\ ft_cap_gen c' = ft_cap_gen c /\ ft_cur_template c' = ft_cur_template c /\ same_flow n n' /\
    plugin_fits (m_plugin_id (m_info r)) (n_plugin_info n').
Proof.
  intros Hi H0 Hr Hc Hn. pose proof (gi_gens _ _ _ Hi) as Hg.
  pose proof (tk_plugin _ _ (proj1 (Forall_lookup _ _) (gk_templates _ _ _ Hg) _ _ Hr)) as Hpl.
  assert (Hrefl : regen c c) by (split; done).
  unfold plugin_fits, on_node_first, is_plugin, mpRTSP, mpSIP_VOICE, mpDYN_PYLOAD, mpAVL_HTTP_BROWSIN in *.
  destruct (Z.eqb_spec (m_plugin_id (m_info r)) 0) as [E0|E0]; [exists n, c; rewrite E0, Hn; done|].
  destruct (((m_plugin_id (m_info r) =? 1) || (m_plugin_id (m_info r) =? 2))) eqn:E1.
  - destruct (generate_port_ok hole c i r Hi H0 Hr Hc) as (p0 & c1 & -> & Hr1 & Hcap1 & Ht1). cbn [mbind res_bind].
    pose proof (regen_ginv _ _ _ Hi Hr1) as Hi1.
    destruct (generate_port_ok hole c1 i r Hi1 H0) as (p1 & c2 & -> & Hr2 & Hcap2 & Ht2); [by rewrite Hcap1| |].
    { rewrite (pool_size_world c c1); [done|apply Hr1]. }
    cbn [mbind res_bind]. do 2 eexists. split; [reflexivity|]. split; [by eapply regen_trans|].
    split; [congruence|]. split; [congruence|]. split; [done|]. by eexists.
  - destruct (Z.eqb_spec (m_plugin_id (m_info r)) 3) as [E3|E3].
    + exists n, c. rewrite E3, Hn. done.
    + destruct (Z.eqb_spec (m_plugin_id (m_info r)) 4) as [E4|E4].
      * do 2 eexists. split; [reflexivity|]. split_and!; try done. by eexists.
      * exfalso. apply orb_false_iff in E1 as [A B]. apply Z.eqb_neq in A, B. lia.
Qed.

(** ** A new flow *)

Context (junk_node : CGenNode) (junk_tuple : CTupleBase).

Definition sampling_ok : Prop := go_rx_check o = true -> go_rx_sample o <> 0.

(** The flow that [generate_flow] makes; [cur] is its number. *)
Record new_flow c' (cur i : Z) (n : CGenNode) (r : CFlowGeneratorRecPerThread) : Prop := {
  nf_ok : flow_ok c' n r;
  nf_id : n_flow_id n = make_flow_id cur (gen_thread_id c');
  nf_pkt : n_pkt_info n = 0;
  nf_template : n_template n = i;
  nf_learn : n_type n = FLOW_PKT_NAT -> nat_state n = 1 }.

(** Learning: the flow goes into the map. *)
Definition learn_or_not (fid a : Z) (lp : CFlowPktInfo) (n : CGenNode) c : res (CGenNode * CFlowGenListPerThread G) :=
  if go_learn o && IsBiDirectionalFlow (fpi_desc lp) then c ← associate fid a c; Ok (set_nat_first_state n, c) else Ok (n, c).

Lemma learn_or_not_ok hole fid a lp n c :
  ginv hole c -> ft_lookup c !! fid = None ->
  n_type n = FLOW_PKT ->
  exists n' c' lk, learn_or_not fid a lp n c = Ok (n', c') /\ regen (set_lookup lk c) c' /\ ginv hole c' /\
    ft_cap_gen c' = ft_cap_gen c /\ ft_smart_gen c' = ft_smart_gen c /\ ft_cur_template c' = ft_cur_template c /\
    n_flow_id n' = n_flow_id n /\ n_pkt_info n' = n_pkt_info n /\
    n_template n' = n_template n /\ n_src_idx n' = n_src_idx n /\ n_plugin_info n' = n_plugin_info n /\
    ((n_type n' = FLOW_PKT /\ lk = ft_lookup c) \/
     (n_type n' = FLOW_PKT_NAT /\ lk = <[fid := a]> (ft_lookup c) /\ nat_state n' = 1 /\ IsBiDirectionalFlow (fpi_desc lp) = true)).
Proof.
  intros Hi Hl Hty. pose proof (gi_gens _ _ _ Hi) as Hg. unfold learn_or_not. destruct (go_learn o && IsBiDirectionalFlow (fpi_desc lp)) eqn:E.
  - apply andb_true_iff in E as [_ Hbi]. unfold associate. rewrite bool_decide_eq_true_2 by done. cbn [c_assert mbind res_bind].
    do 2 eexists. exists (<[fid := a]> (ft_lookup c)). split; [reflexivity|]. split; [split; done|].
    split; [eapply ginv_world; done|]. split_and!; try done. right. split_and!; try done. by apply nat_state_set.
  - exists n, c, (ft_lookup c). rewrite set_lookup_same. split; [done|]. split; [split; done|]. split_and!; try done. by left.
Qed.

(** What of the node the receiver checks and where it starts. *)
Lemma sampled_ok rnd (r : CFlowGeneratorRecPerThread) n :
  sampling_ok ->
  exists n', (if go_rx_check o then
         s ← rx_sampled o rnd;
         Ok (if s && negb (m_limit_was_set (m_info r)) then node_set_rx_check n else n)
       else Ok n) = Ok n' /\ same_flow n n' /\ n_plugin_info n' = n_plugin_info n.
Proof.
  intros Hs. destruct (go_rx_check o) eqn:E; [|by exists n].
  assert (exists s, rx_sampled o rnd = Ok s) as [s ->].
  { unfold rx_sampled. specialize (Hs E). destruct (go_rx_sample o =? 1); [eauto|]. rewrite (proj2 (Z.eqb_neq _ _)) by done. eauto. }
  cbn [mbind res_bind]. eexists. split; [reflexivity|]. destruct (s && _); [|done]. split; [by apply same_flow_flag|done].
Qed.

(** What opening does to the state. *)
Record opened (a cur i : Z) c c' (n : CGenNode) : Prop := {
  od_flow : exists r, new_flow c' cur i n r;
  od_world : same_world c c';
  od_pool : ft_pool c' = <[a := FlowNode n]> (ft_pool c);
  od_dpcs : dpcs c' = dpcs c;
  od_lookup : (n_type n = FLOW_PKT /\ ft_lookup c' = ft_lookup c) \/
    (n_type n = FLOW_PKT_NAT /\ ft_lookup c' = <[cur := a]> (ft_lookup c));
  od_sent : ft_sent c' = ft_sent c;
  od_id : ft_cur_flow_id c' = ft_cur_flow_id c;
  od_template : ft_cur_template c' = ft_cur_template c }.

Lemma generate_flow_ok hole rnd i time cur a c r :
  ginv (a :: hole) c -> 0 <= i -> ft_cap_gen c !! Z.to_nat i = Some r -> 0 <= cur < 4294967296 ->
  ft_lookup c !! cur = None -> sampling_ok ->
  exists n c', generate_flow o junk_node junk_tuple rnd i time cur a c = Ok c' /\ ginv hole c' /\ opened a cur i c c' n.
Proof.
  intros Hi H0 Hr Hcur Hl Hs. pose proof (gi_gens _ _ _ Hi) as Hg. destruct (proj1 (Forall_lookup _ _) (gk_fits _ _ _ Hg) _ _ Hr) as [Ht Hpool].
  pose proof (proj1 (Forall_lookup _ _) (gk_templates _ _ _ Hg) _ _ Hr) as Htk.
  unfold generate_flow. rewrite (proj2 (get_idx_Ok _ _ _) (conj H0 Hr)). cbn [mbind res_bind].
  destruct (template_tuple_ok _ _ junk_tuple (gk_plain _ _ _ Hg) Ht) as (t & tg & g & -> & Hgp & Hgs & Htg & Htp & Hca & Hci).
  cbn [mbind res_bind].
  destruct (put_rec_ok (a :: hole) c i r (m_info r) (m_policer r) tg g Hi H0 Hr eq_refl eq_refl Hgp Hgs Htg) as
    (c1 & -> & Hr1 & Eg1 & Ecap1 & Et1); [congruence|]. cbn [mbind res_bind].
  pose proof (regen_ginv _ _ _ Hi Hr1) as Hi1. set (r1 := rec_set (m_info r) (m_policer r) tg r) in *.
  assert (Hc1 : ft_cap_gen c1 !! Z.to_nat i = Some r1).
  { rewrite Ecap1. apply list_lookup_insert_eq. by apply lookup_lt_Some in Hr. }
  pose proof (tk_size _ _ Htk) as Hsz. unfold cap_GetPacket. change (u32 0) with 0. unfold cap_Size, zlength in Hsz.
  destruct (lookup_lt_is_Some_2 (m_flow_pkts (m_flow_info r)) 0) as [lp Hlp]; [lia|]. change (Z.to_nat 0) with 0%nat. rewrite Hlp.
  cbn [mbind res_bind]. rewrite u32_id by lia. set (n0 := new_flow_node junk_node i cur time t c1).
  fold (learn_or_not cur a lp n0 c1).
  destruct (learn_or_not_ok (a :: hole) cur a lp n0 c1 Hi1) as
    (n2 & c2 & lk & -> & Hr2 & Hi2 & Ecap2 & Eg2 & Et2 & A1 & A2 & A3 & A4 & A5 & Hlk); [by rewrite (rg_lookup _ _ Hr1)|done|].
  cbn [mbind res_bind]. destruct (sampled_ok rnd r n2 Hs) as (n3 & -> & Hs3 & Hp3). cbn [mbind res_bind].
  destruct (same_flow_directions o n3) as [Hs4 Hp4]. set (n4 := set_directions o n3) in *.
  assert (Hc2 : ft_cap_gen c2 !! Z.to_nat i = Some r1) by (by rewrite Ecap2).
  assert (Hsize : pool_size (ft_smart_gen c2) (tt_client_pool tg) = pool_size (ft_smart_gen c) (tt_client_pool (rec_tuple_gen r))).
  { rewrite Eg2, Htp. apply pool_size_world, Hr1. }
  destruct (on_node_first_ok (a :: hole) c2 i r1 n4 Hi2 H0 Hc2) as (n5 & c3 & E & Hr3 & Ecap3 & Et3 & Hs5 & Hfit);
    [cbn [rec_tuple_gen r1 rec_set]; by rewrite Hsize|by rewrite Hp4, Hp3, A5|].
  change (m_plugin_id (m_info r1)) with (m_plugin_id (m_info r)) in E. rewrite E. cbn [mbind res_bind]. clear E.
  pose proof (regen_ginv _ _ _ Hi2 Hr3) as Hi3. set (c' := fpush a (put_fnode a (FlowNode n5) c3)).
  pose proof (same_flow_trans _ _ _ Hs3 (same_flow_trans _ _ _ Hs4 Hs5)) as [B1 B2 B3 B4 B5 B6].
  assert (Hw2 : same_world c1 c2) by exact (rg_world _ _ Hr2).
  assert (Hw : same_world c c') by (eapply same_world_trans; [apply Hr1|]; eapply same_world_trans; [exact Hw2|]; exact (rg_world _ _ Hr3)).
  assert (Hf : flow_ok c' n5 r1).
  { destruct (shape_pools _ _ (proj2 Hw)) as (P1 & P2 & _). split.
    - by rewrite B4, A3.
    - rewrite B4, A3. cbn. by rewrite Ecap3.
    - rewrite B3, A2. cbn. unfold cap_Size, zlength. lia.
    - apply P2. cbn. rewrite <- Hpool. apply Ht.
    - rewrite B5, A4. rewrite P1. cbn. rewrite <- Hpool. exact Hci.
    - exact Hfit.
    - intros Hn. rewrite B1 in Hn. destruct Hlk as [[Hn' _]|(_ & _ & Hst & Hbi)]; [congruence|].
      split; [by exists lp|]. left. by rewrite B6, B3, A2. }
  exists n5, c'. split; [reflexivity|]. split.
  { eapply push_ok; [by apply put_ok|cbn; by rewrite lookup_insert_eq|]. by exists r1. }
  assert (Hthread : gen_thread_id c' = gen_thread_id c1).
  { unfold gen_thread_id. pose proof (world_thread c1 c2 Hw2) as W1. pose proof (world_thread c2 c3 (rg_world _ _ Hr3)) as W2.
    unfold gen_thread_id in *. cbn. congruence. }
  split; try done.
  - exists r1. split; try done.
    + rewrite B2, A1, Hthread. done.
    + by rewrite B3, A2.
    + by rewrite B4, A3.
    + rewrite B1, B6. intros Hn. destruct Hlk as [[Hn' _]|(_ & _ & Hst & _)]; [congruence|done].
  - cbn. by rewrite (rg_pool _ _ Hr3), (rg_pool _ _ Hr2), <- (rg_pool _ _ Hr1).
  - transitivity (dpcs c3); [done|]. by rewrite (rg_dpcs _ _ Hr3), (rg_dpcs _ _ Hr2), <- (rg_dpcs _ _ Hr1).
  - rewrite B1. cbn [c' fpush put_fnode set_nodes ft_lookup]. rewrite (rg_lookup _ _ Hr3), (rg_lookup _ _ Hr2). cbn [ft_lookup set_lookup].
    rewrite <- (rg_lookup _ _ Hr1). destruct Hlk as [[? ->]|(? & -> & _)]; [left|right]; by rewrite ?(rg_lookup _ _ Hr1).
  - cbn. by rewrite (rg_sent _ _ Hr3), (rg_sent _ _ Hr2), <- (rg_sent _ _ Hr1).
  - cbn. by rewrite (rg_id _ _ Hr3), (rg_id _ _ Hr2), <- (rg_id _ _ Hr1).
  - cbn. congruence.
Qed.

(** The new flow joins the others. *)
Lemma opened_inv hole closing a i c c0 c' n :
  run_inv hole closing c -> ft_cur_flow_id c + 1 < 4294967296 -> ft_pool c !! a = None -> a ∉ hole ->
  ginv hole c' -> same_world c c0 -> (forall b, b <> a -> ft_pool c0 !! b = ft_pool c !! b) -> ft_lookup c0 = ft_lookup c ->
  ft_sent c0 = ft_sent c ->
  opened a (ft_cur_flow_id c) i c0 c' n -> run_inv hole closing (set_cursor (ft_cur_template c') (ft_cur_flow_id c + 1) c').
Proof.
  intros Hi Hmax Ha Hah Hg Hw0 Hp0 El0 Es0 [[r Hnew] Hw1 Ep Ed Hlk1 Es Eid Et].
  pose proof (fun a n => run_flow_ok _ hole closing c a n Hi) as Hrf.
  destruct Hi as [Hg0 Hh Hb Hids Huniq Hlk Hwait Hsent Hlive Hend].
  set (c2 := set_cursor _ _ c'). assert (Ei2 : ft_cur_flow_id c2 = ft_cur_flow_id c + 1) by (cbn; apply u64_id; lia).
  assert (Hw : same_world c c2) by exact (same_world_trans _ _ _ Hw0 Hw1).
  assert (Hfa : flows c !! a = None) by (unfold flows; by rewrite lookup_omap, Ha).
  assert (Ef : flows c2 = <[a := n]> (flows c)).
  { unfold flows. change (ft_pool c2) with (ft_pool c'). rewrite Ep, omap_insert. cbn [flow_of_node].
    apply map_eq. intros b. destruct (decide (b = a)) as [->|Hne]; [by rewrite !lookup_insert_eq|].
    by rewrite !lookup_insert_ne, !lookup_omap, Hp0 by done. }
  assert (Hold : forall b n', flows c2 !! b = Some n' -> (b = a /\ n' = n) \/ (b <> a /\ flows c !! b = Some n')).
  { intros b n'. rewrite Ef. destruct (decide (b = a)) as [->|Hne].
    - rewrite lookup_insert_eq. intros [= <-]. by left.
    - rewrite lookup_insert_ne by done. by right. }
  assert (Hthr : gen_thread_id c2 = gen_thread_id c) by exact (world_thread _ _ Hw).
  assert (Hfid : forall k, fid c2 k = fid c k) by (intros k; unfold fid; by rewrite Hthr).
  assert (Hidn : n_flow_id n = fid c (ft_cur_flow_id c)).
  { rewrite (nf_id _ _ _ _ _ Hnew). change (gen_thread_id c') with (gen_thread_id c2). by rewrite Hthr. }
  assert (Hnotid : ~ is_flow_id c (n_flow_id n)).
  { intros (k & Hk & E). rewrite Hidn in E. apply make_flow_id_inj in E; lia. }
  assert (Hsub : forall f, is_flow_id c f -> is_flow_id c2 f).
  { intros f (k & Hk & ->). exists k. rewrite Ei2, Hfid. split; [lia|done]. }
  assert (Es2 : ft_sent c2 = ft_sent c) by (cbn; congruence).
  split.
  - eapply ginv_world; [exact Hg|..|apply (gi_gens _ _ _ Hg)]; done.
  - intros b Hb'. rewrite Ef, lookup_insert_ne; [by apply Hh|]. by intros ->.
  - rewrite Ei2. lia.
  - intros b n' Hb'. destruct (Hold b n' Hb') as [[-> ->]|[_ H0]]; [|apply Hsub; by eapply Hids].
    exists (ft_cur_flow_id c). rewrite Ei2, Hfid. split; [lia|done].
  - intros b b' n1 n2 H1 H2 Hid. destruct (Hold _ _ H1) as [[-> ->]|[Hb1 H1']], (Hold _ _ H2) as [[-> ->]|[Hb2 H2']]; try done.
    + destruct Hnotid. rewrite Hid. by eapply Hids.
    + destruct Hnotid. rewrite <- Hid. by eapply Hids.
    + by eapply Huniq.
  - change (ft_lookup c2) with (ft_lookup c'). rewrite Ef. intros f b.
    assert (Hshort : get_short_fid n = ft_cur_flow_id c).
    { unfold get_short_fid. rewrite Hidn. apply make_flow_id_short. lia. }
    assert (Hnone : forall b', ft_lookup c !! ft_cur_flow_id c = Some b' -> False).
    { intros b' (n0 & Hn0 & _ & Hs0)%Hlk. destruct (Hids _ _ Hn0) as (k & Hk & Ek). unfold get_short_fid in Hs0.
      rewrite Ek in Hs0. unfold fid in Hs0. rewrite make_flow_id_short in Hs0; lia. }
    destruct (decide (b = a)) as [->|Hne].
    + rewrite lookup_insert_eq. destruct Hlk1 as [[Hty ->]|[Hty ->]]; rewrite El0.
      * split; [intros (n0 & Hn0 & _)%Hlk; congruence|]. intros (n0 & [= <-] & Hx & _). congruence.
      * split; [|intros (n0 & [= <-] & _ & <-); rewrite Hshort; apply lookup_insert_eq].
        destruct (decide (f = ft_cur_flow_id c)) as [->|Hf]; [intros _; by exists n|].
        rewrite lookup_insert_ne by done. intros (n0 & Hn0 & _)%Hlk. congruence.
    + rewrite lookup_insert_ne by done. rewrite <- (Hlk f b). destruct Hlk1 as [[Hty ->]|[Hty ->]]; rewrite El0; [done|].
      destruct (decide (f = ft_cur_flow_id c)) as [->|Hf]; [|by rewrite lookup_insert_ne].
      rewrite lookup_insert_eq. split; [intros [= <-]; done|]. intros Hx. by destruct (Hnone b).
  - intros b n' Hb' Hty Hst. destruct (Hold b n' Hb') as [[-> ->]|[_ H0]]; [|by eapply Hwait].
    rewrite (nf_learn _ _ _ _ _ Hnew Hty) in Hst. done.
  - rewrite Es2. eapply Forall_impl; [exact Hsent|]. intros s [Hs|Hs]; [by left|right; by apply Hsub].
  - intros b n' r' Hb' Hf'. destruct (Hold b n' Hb') as [[-> ->]|[Hne H0]].
    + exists 0%nat. rewrite Es2, (nf_pkt _ _ _ _ _ Hnew). split; [|split; [done|intros _; by rewrite Nat.Div0.mod_0_l]].
      apply story_other. eapply Forall_impl; [exact Hsent|]. intros s [Hs|Hs] E.
      * rewrite Hidn in E. pose proof (make_flow_id_range (ft_cur_flow_id c) (gen_thread_id c)). unfold fid in E. lia.
      * apply Hnotid. by rewrite <- E.
    + destruct (Hrf b n' H0) as [r0 Hf0]. eapply live_world; [by eapply flow_ok_static|by rewrite Es2|]. by eapply Hlive.
  - intros k Hk Hno. rewrite Ei2 in Hk. rewrite Hfid in *. destruct (decide (k = ft_cur_flow_id c)) as [->|Hkc].
    + exfalso. apply (Hno a n); [rewrite Ef; apply lookup_insert_eq|exact Hidn].
    + eapply ended_world; [exact Hw|by rewrite Es2|]. apply Hend; [lia|]. intros b n0 Hn0. apply (Hno b).
      rewrite Ef, lookup_insert_ne; [done|]. intros <-. congruence.
Qed.

(** ** The choice of a template *)

Definition cursor_ok c : Prop := 0 <= ft_cur_template c < zlength (ft_cap_gen c) /\ zlength (ft_cap_gen c) < 4294967296.

Lemma world_caps c c' : same_world c c' -> length (ft_cap_gen c') = length (ft_cap_gen c).
Proof. intros [E _]. apply (f_equal length) in E. by rewrite !length_fmap in E. Qed.

Lemma inc_template_ok hole c :
  ginv hole c -> 0 <= ft_cur_flow_id c < 4294967296 -> cursor_ok c ->
  regen c (inc_current_template c) /\ cursor_ok (inc_current_template c).
Proof.
  intros Hi Hid [Hc Hz]. split.
  - split; try done; [apply (gi_gens _ _ _ Hi)|]. cbn. apply u64_id. lia.
  - unfold cursor_ok, inc_current_template. cbn [ft_cur_template ft_cap_gen set_cursor]. split; [|done].
    unfold next_template. rewrite u32_id by lia. destruct (Z.eqb_spec (ft_cur_template c + 1) (zlength (ft_cap_gen c))); lia.
Qed.

Lemma find_template_ok hole m : forall done c,
  ginv hole c -> 0 <= ft_cur_flow_id c < 4294967296 -> cursor_ok c ->
  exists found done' c', find_template m done c = Ok (found, done', c') /\ regen c c' /\ cursor_ok c'.
Proof.
  induction m as [|m IH]; intros done c Hi Hid Hc; cbn [find_template].
  { exists false, done, c. split; [done|]. split; [split; try done; apply (gi_gens _ _ _ Hi)|done]. }
  pose proof Hc as [[H0 H1] Hz]. unfold zlength in H1.
  destruct (lookup_lt_is_Some_2 (ft_cap_gen c) (Z.to_nat (ft_cur_template c))) as [r Hr]; [lia|].
  rewrite (proj2 (get_idx_Ok _ _ _) (conj H0 Hr)). cbn [mbind res_bind].
  assert (Hnext : forall d c1, regen c c1 -> cursor_ok c1 ->
    exists found done' c', find_template m d (inc_current_template c1) = Ok (found, done', c') /\ regen c c' /\ cursor_ok c').
  { intros d c1 Hr1 Hc1. pose proof (regen_ginv _ _ _ Hi Hr1) as Hi1.
    assert (Hid1 : 0 <= ft_cur_flow_id c1 < 4294967296) by (by rewrite (rg_id _ _ Hr1)).
    destruct (inc_template_ok _ _ Hi1 Hid1 Hc1) as [Hr2 Hc2].
    destruct (IH d _ (regen_ginv _ _ _ Hi1 Hr2)) as (fd & d' & c3 & E & Hr3 & Hc3); [by rewrite (rg_id _ _ Hr2)|done|].
    exists fd, d', c3. split; [done|]. split; [|done]. eapply regen_trans; [exact Hr1|]. by eapply regen_trans. }
  destruct (may_open (m_info r)).
  - destruct (policer_update (double_of_Z 1) (ft_cur_time_sec c) (m_policer r)) as [ok p].
    pose proof (gi_gens _ _ _ Hi) as Hg. destruct (proj1 (Forall_lookup _ _) (gk_fits _ _ _ Hg) _ _ Hr) as [Ht Hpool].
    set (info := if ok then _ else _).
    destruct (put_rec_ok hole c (ft_cur_template c) r info p (rec_tuple_gen r) (ft_smart_gen c) Hi H0 Hr) as
      (c1 & -> & Hr1 & _ & Ecap & Et); try done; [by destruct ok|by destruct ok|apply Hg|].
    cbn [mbind res_bind]. assert (Hc1 : cursor_ok c1).
    { unfold cursor_ok. rewrite Ecap, Et. unfold zlength. rewrite length_insert. exact Hc. }
    destruct ok; [|by apply Hnext]. exists true, false, c1. done.
  - apply Hnext; [split; try done; apply (gi_gens _ _ _ Hi)|done].
Qed.

Context (mempool_get : gmap Z fnode -> option Z) `{!NodePool mempool_get}.

Lemma u32_cur c : 1 <= ft_cur_flow_id c < 4294967296 -> u32 (ft_cur_flow_id c) = ft_cur_flow_id c.
Proof. intros Hc. apply u32_id. lia. Qed.

(** [generate_flows_roundrobin]: at most one flow is opened. *)
Lemma roundrobin_ok hole closing rnd c :
  run_inv hole closing c -> cursor_ok c -> ft_cur_flow_id c + 1 < 4294967296 -> sampling_ok ->
  exists done c', generate_flows_roundrobin mempool_get o junk_node junk_tuple rnd c = Ok (done, c') /\
    run_inv hole closing c' /\ cursor_ok c' /\ same_world c c' /\ ticks c' = ticks c /\
    ft_cur_flow_id c <= ft_cur_flow_id c' <= ft_cur_flow_id c + 1.
Proof.
  intros Hi Hc Hmax Hs. pose proof (ri_ginv _ _ _ _ Hi) as Hg. pose proof (ri_bound _ _ _ _ Hi) as Hb.
  unfold generate_flows_roundrobin.
  destruct (find_template_ok hole (length (ft_cap_gen c)) true c Hg) as (found & dn & c1 & -> & Hr1 & Hc1); [lia|done|].
  cbn [mbind res_bind]. pose proof (regen_run_inv _ _ _ _ Hi Hr1) as Hi1. destruct (regen_flows _ _ Hr1) as [Ef1 Etk1].
  destruct found.
  2: { exists dn, c1. split; [done|]. split; [done|]. split; [done|]. split; [apply Hr1|]. split; [done|]. rewrite (rg_id _ _ Hr1). lia. }
  destruct (create_fnode_ok send_node mempool_get hole c1 (FlowNode junk_node) (ri_ginv _ _ _ _ Hi1)) as (a & -> & Ha & Hg2).
  cbn [mbind res_bind]. set (c2 := put_fnode a (FlowNode junk_node) c1) in *.
  pose proof Hc1 as [[H0 H1] _]. unfold zlength in H1.
  destruct (lookup_lt_is_Some_2 (ft_cap_gen c1) (Z.to_nat (ft_cur_template c1))) as [r Hr]; [lia|].
  assert (Hb1 : 1 <= ft_cur_flow_id c1 < 4294967296) by (rewrite (rg_id _ _ Hr1); lia).
  assert (Hnone : ft_lookup c1 !! ft_cur_flow_id c1 = None).
  { destruct (ft_lookup c1 !! ft_cur_flow_id c1) as [b|] eqn:E; [|done]. exfalso.
    apply (ri_lookup _ _ _ _ Hi1) in E as (n0 & Hn0 & _ & Hs0). destruct (ri_ids _ _ _ _ Hi1 _ _ Hn0) as (k & Hk & Ek).
    unfold get_short_fid in Hs0. rewrite Ek in Hs0. unfold fid in Hs0. rewrite make_flow_id_short in Hs0; lia. }
  change (ft_cur_template c2) with (ft_cur_template c1). change (ft_cur_time_sec c2) with (ft_cur_time_sec c1).
  change (ft_cur_flow_id c2) with (ft_cur_flow_id c1).
  destruct (generate_flow_ok hole rnd (ft_cur_template c1) (ft_cur_time_sec c1) (ft_cur_flow_id c1) a c2 r Hg2 H0 Hr) as
    (n & c3 & -> & Hg3 & Hod); [lia|done|done|]. cbn [mbind res_bind].
  pose proof Hod as [_ Hw3 Hp3 _ _ _ Hid3 Ht3]. change (ft_cur_template c2) with (ft_cur_template c1) in Ht3.
  change (ft_cur_flow_id c2) with (ft_cur_flow_id c1) in Hid3.
  assert (Hr3 : exists r3, ft_cap_gen c3 !! Z.to_nat (ft_cur_template c1) = Some r3).
  { apply lookup_lt_is_Some_2. pose proof (world_caps _ _ Hw3) as E. cbn in E. lia. }
  destruct Hr3 as [r3 Hr3]. rewrite (proj2 (get_idx_Ok _ _ _) (conj H0 Hr3)). cbn [mbind res_bind].
  assert (Hah : a ∉ hole).
  { intros Hin. assert (Hx : is_Some (ft_pool c1 !! a)) by (apply (gi_dom _ _ _ (ri_ginv _ _ _ _ Hi1)); set_solver).
    rewrite Ha in Hx. by destruct Hx. }
  rewrite Hid3. set (c4 := set_cursor (ft_cur_template c3) (ft_cur_flow_id c1 + 1) c3) in *.
  assert (Hi4 : run_inv hole closing c4).
  { apply (opened_inv hole closing a (ft_cur_template c1) c1 c2 c3 n); try done; [rewrite (rg_id _ _ Hr1); lia|].
    intros b Hne. cbn. by rewrite lookup_insert_ne. }
  set (c5 := set_stats _ c4). assert (Hi5 : run_inv hole closing c5) by (by eapply run_inv_frame).
  assert (Hid5 : ft_cur_flow_id c5 = ft_cur_flow_id c1 + 1) by (cbn; rewrite (rg_id _ _ Hr1) in *; apply u64_id; lia).
  assert (Hc5 : cursor_ok c5).
  { unfold cursor_ok. cbn. rewrite Ht3. pose proof (world_caps _ _ Hw3) as E. cbn in E. unfold zlength. rewrite E. exact Hc1. }
  destruct (inc_template_ok hole c5 (ri_ginv _ _ _ _ Hi5)) as [Hr6 Hc6]; [pose proof (ri_bound _ _ _ _ Hi5); lia|done|].
  exists dn, (inc_current_template c5). split; [done|]. split; [by eapply regen_run_inv|]. split; [done|].
  destruct (regen_flows _ _ Hr6) as [_ Etk6]. split; [|split].
  - eapply same_world_trans; [apply Hr1|]. eapply same_world_trans; [|apply Hr6]. exact Hw3.
  - rewrite Etk6. unfold ticks. change (ft_pool c5) with (ft_pool c3). rewrite Hp3. cbn [ft_pool c2 put_fnode set_nodes].
    rewrite insert_insert_eq. change (omap tick_of (<[a := FlowNode n]> (ft_pool c1)) = ticks c). rewrite <- Etk1. apply ticks_put_same; [done|]. by rewrite Ha.
  - rewrite (rg_id _ _ Hr6), Hid5, (rg_id _ _ Hr1). lia.
Qed.
End Open.
