(* ===== verification/FlowGenTurn.v ===== *)
(** * The turn of the scheduler

    No turn fails, and each keeps the invariant of the flows; the node that drives the
    scheduler stays until it ends the run. *)

From S2P Require Import Prelude Double ByteMem PktCmn PktCmnFacts PktDesc PktParser RxHeader CapTemplate TupleGen TupleGenFacts TupleGenTotal FlowNode MiniVm Plugins NatCheck FlowGen FlowGenFacts FlowGenSteps FlowGenInv FlowGenMsgs FlowGenOpen.

#[local] Set Default Proof Using "Type*".

Section Turn.
Context {G : Type} `{UniformInt G}.
Context (send_node : bool -> Z -> option (list CFlowYamlDpPkt) -> CGenNode -> CFlowPktInfo -> res (Z * bytes * CGenNode)).
Context `{!NodeSender send_node} (o : gen_opts).
Implicit Types (c : CFlowGenListPerThread G).
Notation ginv := (ginv send_node).
Notation run_inv := (run_inv send_node).

(** ** Nodes that are no flows *)

Definition no_flow (x : fnode) : Prop := flow_of_node x = None.

Lemma no_flow_at c a x : ft_pool c !! a = Some x -> no_flow x -> flows c !! a = None.
Proof. intros E Hx. unfold flows. by rewrite lookup_omap, E. Qed.

Lemma pop_run_inv closing c a x :
  run_inv [] closing c -> a ∈ ft_queue c -> ft_pool c !! a = Some x -> no_flow x -> run_inv [a] closing (fpop a c).
Proof.
  intros Hi Ha Hx Hn. eapply run_inv_same; [exact Hi|by apply pop_ok; [apply (ri_ginv _ _ _ _ Hi)|]|..]; try done.
  intros b Hb. apply list_elem_of_singleton in Hb as ->. by eapply no_flow_at.
Qed.

Lemma requeue_run_inv closing c a x y :
  run_inv [a] closing c -> ft_pool c !! a = Some y -> no_flow y -> tick_of x = Some x ->
  let c' := fpush a (put_fnode a x c) in run_inv [] closing c' /\ ticks c' = <[a := x]> (ticks c).
Proof.
  intros Hi Hy Hn Hx c'. pose proof (no_flow_at _ _ _ Hy Hn) as Hfa.
  assert (Ef : flows c' = flows c).
  { unfold c', flows. cbn. rewrite flows_put. destruct x; try done; by apply delete_id. }
  split; [|unfold c', ticks; cbn; by rewrite omap_insert, Hx].
  eapply run_inv_same; [exact Hi|..]; try done; [|set_solver].
  eapply push_ok; [apply put_ok, (ri_ginv _ _ _ _ Hi)|cbn; by rewrite lookup_insert_eq|]. by destruct x.
Qed.

Lemma free_run_inv closing c a x :
  run_inv [a] closing c -> ft_pool c !! a = Some x -> no_flow x ->
  exists c', free_fnode a c = Ok c' /\ run_inv [] closing c' /\ ticks c' = delete a (ticks c) /\
    ft_queue c' = ft_queue c /\ same_world c c' /\ ft_cur_flow_id c' = ft_cur_flow_id c /\ ft_cur_template c' = ft_cur_template c /\
    (forall b, b <> a -> ft_pool c' !! b = ft_pool c !! b) /\ dpcs c' = dpcs c.
Proof.
  intros Hi Hx Hn. destruct (free_fnode_ok _ a [] c x (ri_ginv _ _ _ _ Hi) Hx) as (c' & E & Ec & Hg & Ef & Et).
  { intros n ->. discriminate. }
  exists c'. split; [done|]. assert (Efl : flows c' = flows c).
  { rewrite Ef. apply delete_id. by eapply no_flow_at. }
  assert (Hi' : run_inv [] closing c').
  { eapply (run_inv_same _ [a] []); [exact Hi|exact Hg|set_solver| |exact Efl| | |]; by rewrite Ec. }
  split; [done|]. split; [done|]. rewrite Ec. split_and!; try done. intros b Hb. cbn. by rewrite lookup_delete_ne.
Qed.
Context (junk_node : CGenNode) (junk_tuple : CTupleBase).
Context (mempool_get : gmap Z fnode -> option Z) `{!NodePool mempool_get}.
Notation turn := (turn mempool_get o send_node junk_node junk_tuple).

(** ** One turn *)

(** The exit node, if there is one, and the synchronisation node stay until they end the run. *)
Record turn_post (closing : bool) c (a : Z) (b : bool) c' : Prop := {
  tp_inv : run_inv [] closing c';
  tp_cursor : cursor_ok c';
  tp_world : same_world c c';
  tp_id : ft_cur_flow_id c <= ft_cur_flow_id c' <= ft_cur_flow_id c + (if closing then 0 else 1);
  tp_sync : b = false -> forall s t, ticks c !! s = Some (SyncNode t) -> exists t', ticks c' !! s = Some (SyncNode t');
  tp_exits : forall x t, ticks c' !! x = Some (ExitNode t) -> ticks c !! x = Some (ExitNode t);
  tp_stay : b = false -> forall x t, ticks c !! x = Some (ExitNode t) -> ticks c' !! x = Some (ExitNode t);
  tp_ended : b = true -> ticks c' = delete a (ticks c) /\
    ((exists t, ticks c !! a = Some (SyncNode t) /\ ft_queue c' = []) \/ exists t, ticks c !! a = Some (ExitNode t)) }.

Lemma cursor_world c c' : cursor_ok c -> same_world c c' -> ft_cur_template c' = ft_cur_template c -> cursor_ok c'.
Proof using H.
  intros [A B] Hw Et. unfold cursor_ok, zlength in *. rewrite Et. pose proof (world_caps _ _ Hw) as El. by rewrite El.
Qed.

Lemma turn_flow_post e always d a c n :
  run_inv [] always c -> cursor_ok c -> flows c !! a = Some n ->
  exists c', turn e always d a c = Ok (false, c') /\ turn_post always c a false c'.
Proof.
  intros Hi Hc Hn. destruct (run_flow_ok _ _ _ _ _ _ Hi Hn) as [r Hf].
  destruct (flow_turn_ok _ mempool_get junk_node e always a c n r (ri_ginv _ _ _ _ Hi) Hn Hf) as (c' & on & l & lk & E & Hg & Hm & Ho).
  pose proof (flow_turn_inv _ _ _ _ _ _ _ _ _ _ Hi Hn Hf Hg Hm Ho) as Hi'.
  unfold FlowGen.turn, get_fnode. apply flows_lookup in Hn. rewrite Hn. cbn [mbind res_bind]. rewrite E. cbn [mbind res_bind].
  exists c'. split; [done|]. pose proof (mv_ticks _ _ _ _ Hm) as Et. change (ticks (set_lookup lk c)) with (ticks c) in Et.
  pose proof (mv_id _ _ _ _ Hm) as Eid. change (ft_cur_flow_id c' = ft_cur_flow_id c) in Eid.
  split; try done.
  - eapply cursor_world; [done|exact (mv_world _ _ _ _ Hm)|exact (mv_template _ _ _ _ Hm)].
  - exact (mv_world _ _ _ _ Hm).
  - rewrite Eid. destruct always; lia.
  - intros _ s t Hs. exists t. by rewrite Et.
  - by rewrite Et.
  - by rewrite Et.
Qed.

Lemma turn_defer_post e always d a c t dp :
  run_inv [] always c -> cursor_ok c -> a ∈ ft_queue c -> ft_pool c !! a = Some (DeferNode t dp) ->
  exists c', turn e always d a c = Ok (false, c') /\ turn_post always c a false c'.
Proof.
  intros Hi Hc Ha Hx. pose proof (pop_run_inv always c a _ Hi Ha Hx eq_refl) as Hi1.
  pose proof (gi_nodes _ _ _ (ri_ginv _ _ _ _ Hi) a _ (not_elem_of_nil a) Hx) as Hd. cbn in Hd.
  unfold FlowGen.turn, get_fnode. rewrite Hx. cbn [mbind res_bind]. unfold handler_defer_job, get_defer_entries.
  change (ft_pool (fpop a c)) with (ft_pool c). rewrite Hx. cbn [mbind res_bind].
  destruct (free_ports_ok _ [a] dp (fpop a c) (ri_ginv _ _ _ _ Hi1) Hd) as (c1 & -> & Hg1 & Hq1 & Eq1 & Ep1 & Ed1). cbn [mbind res_bind].
  assert (Hi2 : run_inv [a] always c1) by (eapply run_inv_quiet; [exact Hi1|done|apply (ri_hole _ _ _ _ Hi1)|done]).
  destruct (free_run_inv always c1 a (DeferNode t dp) Hi2) as (c2 & -> & Hi3 & Et & Eq & Hw & Eid & Etm & _); [by rewrite Ep1|done|].
  cbn [mbind res_bind]. exists c2. split; [done|]. pose proof (qu_ticks _ _ Hq1) as Et1. change (ticks (fpop a c)) with (ticks c) in Et1.
  assert (Eta : ticks c2 = ticks c).
  { rewrite Et, Et1. apply delete_id. unfold ticks. by rewrite lookup_omap, Hx. }
  assert (Hw2 : same_world c c2) by (eapply same_world_trans; [|exact Hw]; exact (qu_world _ _ Hq1)).
  pose proof (qu_id _ _ Hq1) as Eid1. pose proof (qu_template _ _ Hq1) as Etm1. cbn in Eid1, Etm1.
  split; try done.
  - eapply cursor_world; [exact Hc|done|congruence].
  - rewrite Eid, Eid1. destruct always; lia.
  - intros _ s t' Hs. exists t'. by rewrite Eta.
  - by rewrite Eta.
  - by rewrite Eta.
Qed.

Lemma tick_at c a x : ft_pool c !! a = Some x -> tick_of x = Some x -> ticks c !! a = Some x.
Proof. intros E Hx. apply ticks_lookup. done. Qed.

Lemma turn_exit_post e always d a c t :
  run_inv [] always c -> cursor_ok c -> a ∈ ft_queue c -> ft_pool c !! a = Some (ExitNode t) ->
  exists c', turn e always d a c = Ok (true, c') /\ turn_post always c a true c'.
Proof.
  intros Hi Hc Ha Hx. pose proof (pop_run_inv always c a _ Hi Ha Hx eq_refl) as Hi1.
  unfold FlowGen.turn, get_fnode. rewrite Hx. cbn [mbind res_bind].
  destruct (free_run_inv always (fpop a c) a (ExitNode t) Hi1 Hx) as (c2 & -> & Hi3 & Et & Eq & Hw & Eid & Etm & _); [done|].
  cbn [mbind res_bind]. exists c2. split; [done|]. change (ticks (fpop a c)) with (ticks c) in Et. cbn in Eid, Etm. split; try done.
  - by eapply cursor_world.
  - rewrite Eid. destruct always; lia.
  - intros x t'. rewrite Et. by intros [_ ?]%lookup_delete_Some.
  - intros _. split; [exact Et|]. right. exists t. by apply tick_at.
Qed.

Lemma turn_fif_post e always d a c t :
  run_inv [] always c -> cursor_ok c -> a ∈ ft_queue c -> ft_pool c !! a = Some (FifNode t) ->
  (always = false -> ft_cur_flow_id c + 1 < 4294967296) -> sampling_ok o ->
  exists c', turn e always d a c = Ok (false, c') /\ turn_post always c a false c'.
Proof.
  intros Hi Hc Ha Hx Hmax Hs. pose proof (pop_run_inv always c a _ Hi Ha Hx eq_refl) as Hi1.
  unfold FlowGen.turn, get_fnode. rewrite Hx. cbn [mbind res_bind].
  assert (Htx : ticks c !! a = Some (FifNode t)) by (by apply tick_at).
  (* freeing it, or putting it back, later *)
  assert (Hend : forall c1, run_inv [a] always c1 -> cursor_ok c1 -> same_world c c1 -> ticks c1 = ticks c ->
      ft_cur_flow_id c <= ft_cur_flow_id c1 <= ft_cur_flow_id c + (if always then 0 else 1) ->
      exists c', (c ← free_fnode a c1; Ok (false, c)) = Ok (false, c') /\ turn_post always c a false c').
  { intros c1 Hi2 Hc1 Hw1 Et1 Hid1. assert (Hx1 : ft_pool c1 !! a = Some (FifNode t)) by (apply ticks_lookup; by rewrite Et1).
    destruct (free_run_inv always c1 a _ Hi2 Hx1) as (c2 & -> & Hi3 & Et & Eq & Hw & Eid & Etm & _); [done|].
    cbn [mbind res_bind]. exists c2. split; [done|]. split; try done.
    - by eapply cursor_world.
    - by eapply same_world_trans.
    - rewrite Eid. destruct always; lia.
    - intros _ s t' Hst. exists t'. rewrite Et, Et1, lookup_delete_ne; [done|]. intros ->. congruence.
    - intros x t'. rewrite Et, Et1. by intros [_ ?]%lookup_delete_Some.
    - intros _ x t' Hst. rewrite Et, Et1, lookup_delete_ne; [done|]. intros ->. congruence. }
  destruct always.
  { apply Hend; try done. cbn. lia. }
  set (c0 := set_cur_time t (fpop a c)).
  assert (Hi0 : run_inv [a] false c0) by (by eapply run_inv_frame).
  destruct (roundrobin_ok send_node o junk_node junk_tuple mempool_get [a] false (te_rand e) c0 Hi0) as
    (dn & c1 & -> & Hi2 & Hc1 & Hw1 & Et1 & Hid1); [done|by apply Hmax|done|].
  cbn [mbind res_bind]. change (ft_cur_flow_id c0) with (ft_cur_flow_id c) in Hid1. change (ticks c0) with (ticks c) in Et1.
  destruct dn; [by apply Hend|].
  assert (Hx1 : ft_pool c1 !! a = Some (FifNode t)) by (apply ticks_lookup; by rewrite Et1).
  destruct (requeue_run_inv false c1 a (FifNode (double_add t d)) _ Hi2 Hx1 eq_refl eq_refl) as [Hi3 Et3].
  eexists. split; [reflexivity|]. split; try done.
  - intros _ s t' Hst. exists t'. rewrite Et3, Et1, lookup_insert_ne; [done|]. intros ->. congruence.
  - intros x t'. rewrite Et3, Et1. intros [[_ ?]|[_ ?]]%lookup_insert_Some; done.
  - intros _ x t' Hst. rewrite Et3, Et1, lookup_insert_ne; [done|]. intros ->. congruence.
Qed.

Lemma turn_sync_post e always d a c t :
  run_inv [] always c -> cursor_ok c -> a ∈ ft_queue c -> ft_pool c !! a = Some (SyncNode t) ->
  (exists c1, check_msgs o (te_tick e) (fpop a (set_cur_time t c)) = Ok c1) ->
  exists b c', turn e always d a c = Ok (b, c') /\ turn_post always c a b c'.
Proof.
  intros Hi Hc Ha Hx [c1 E1]. set (c0 := fpop a (set_cur_time t c)) in *.
  assert (Hi0 : run_inv [a] always c0).
  { eapply run_inv_frame; [exact (pop_run_inv always c a _ Hi Ha Hx eq_refl)|..]; done. }
  assert (Htx : ticks c !! a = Some (SyncNode t)) by (by apply tick_at).
  destruct (check_msgs_inv _ _ _ _ _ _ _ Hi0 E1) as [Hi1 Hst]. pose proof Hst as [Hw1 Et1 Eq1 Eid1 Etm1].
  change (ticks c0) with (ticks c) in Et1. cbn in Eid1, Etm1.
  assert (Hx1 : ft_pool c1 !! a = Some (SyncNode t)) by (apply ticks_lookup; by rewrite Et1).
  unfold FlowGen.turn, get_fnode. rewrite Hx. cbn [mbind res_bind]. fold c0. rewrite E1. cbn [mbind res_bind].
  assert (Hc1 : cursor_ok c1) by (by eapply cursor_world).
  destruct (Z.eqb_spec (zlength (ft_queue c1)) 0) as [Hz|Hz].
  - destruct (free_run_inv always c1 a _ Hi1 Hx1) as (c2 & -> & Hi3 & Et & Eq & Hw & Eid & Etm & _); [done|].
    cbn [mbind res_bind]. exists true, c2. split; [done|]. split; try done.
    + by eapply cursor_world.
    + by eapply same_world_trans.
    + rewrite Eid, Eid1. destruct always; lia.
    + intros x t'. rewrite Et, Et1. by intros [_ ?]%lookup_delete_Some.
    + intros _. split; [by rewrite Et, Et1|]. left. exists t. split; [done|]. rewrite Eq. unfold zlength in Hz. destruct (ft_queue c1); [done|cbn in Hz; lia].
  - destruct (requeue_run_inv always c1 a (SyncNode (double_add t (double_div (double_of_Z 1) (double_of_Z 1000)))) _ Hi1 Hx1 eq_refl eq_refl) as [Hi3 Et3].
    eexists false, _. split; [reflexivity|]. split; try done.
    + rewrite <- Eid1. cbn. destruct always; lia.
    + intros _ s t' Hs. rewrite Et3, Et1. destruct (decide (s = a)) as [->|Hne]; [rewrite lookup_insert_eq; by eexists|].
      rewrite lookup_insert_ne by done. by exists t'.
    + intros x t'. rewrite Et3, Et1. intros [[_ ?]|[_ ?]]%lookup_insert_Some; done.
    + intros _ x t' Hex. rewrite Et3, Et1, lookup_insert_ne; [done|]. intros ->. congruence.
Qed.

(** The turn of any node. *)
Lemma turn_any e always d a c :
  run_inv [] always c -> cursor_ok c -> a ∈ ft_queue c -> (always = false -> ft_cur_flow_id c + 1 < 4294967296) -> sampling_ok o ->
  (forall t, ft_pool c !! a = Some (SyncNode t) -> exists c1, check_msgs o (te_tick e) (fpop a (set_cur_time t c)) = Ok c1) ->
  exists b c', turn e always d a c = Ok (b, c') /\ turn_post always c a b c'.
Proof.
  intros Hi Hc Ha Hmax Hs Hm. assert (Hp : is_Some (ft_pool c !! a)).
  { apply (gi_dom _ _ _ (ri_ginv _ _ _ _ Hi)). set_solver. }
  destruct Hp as [[n|t|t|t|t dp] Hx].
  - destruct (turn_flow_post e always d a c n Hi Hc) as (c' & A & B); [by apply flows_lookup|by exists false, c'].
  - destruct (turn_fif_post e always d a c t Hi Hc Ha Hx Hmax Hs) as (c' & A & B). by exists false, c'.
  - exact (turn_sync_post e always d a c t Hi Hc Ha Hx (Hm t Hx)).
  - destruct (turn_exit_post e always d a c t Hi Hc Ha Hx) as (c' & A & B). by exists true, c'.
  - destruct (turn_defer_post e always d a c t dp Hi Hc Ha Hx) as (c' & A & B). by exists false, c'.
Qed.
End Turn.
