(* ===== verification/FlowGenRun.v ===== *)
(** * The run of the flow generator

    From a thread that was made to the end of its run: the nodes that drive the scheduler, the
    loop, and the ports that go back at the end. *)

From S2P Require Import Prelude Double ByteMem PktCmn PktCmnFacts PktDesc PktParser RxHeader CapTemplate TupleGen TupleGenFacts TupleGenTotal FlowNode MiniVm Plugins NatCheck FlowGen FlowGenFacts FlowGenSteps FlowGenInv FlowGenMsgs FlowGenOpen FlowGenTurn.

#[local] Set Default Proof Using "Type*".

Section Run.
Context {G : Type} `{UniformInt G}.
Context (send_node : bool -> Z -> option (list CFlowYamlDpPkt) -> CGenNode -> CFlowPktInfo -> res (Z * bytes * CGenNode)).
Context `{!NodeSender send_node}.
Implicit Types (c : CFlowGenListPerThread G).
Notation ginv := (ginv send_node).
Notation run_inv := (run_inv send_node).

(** A thread before its run: no nodes, no ports that wait, and templates to open flows of. *)
Record ready c : Prop := {
  rd_pool : ft_pool c = ∅;
  rd_queue : ft_queue c = [];
  rd_dpcs : dpcs c = [];
  rd_lookup : ft_lookup c = ∅;
  rd_sent : ft_sent c = [];
  rd_gens : gens_ok send_node (ft_cap_gen c) (ft_smart_gen c);
  rd_some : 0 < zlength (ft_cap_gen c) < 4294967296 }.

Lemma ready_inv c t cur :
  ready c -> 0 <= cur < zlength (ft_cap_gen c) ->
  let c' := set_stats stats_clear (set_cursor cur 1 (set_cur_time t c)) in
  run_inv [] false c' /\ cursor_ok c' /\ ticks c' = ∅ /\ ft_cur_flow_id c' = 1.
Proof.
  intros Hr Hcur c'. destruct Hr as [A B C D E F I].
  assert (Ef : flows c' = ∅) by (unfold flows; cbn; rewrite A; apply omap_empty).
  assert (Ed : dpcs c' = []) by exact C. assert (Eid : ft_cur_flow_id c' = 1) by done.
  split; [|split; [split; [done|apply I]|split; [unfold ticks; cbn; rewrite A; apply omap_empty|done]]].
  split.
  - split; rewrite ?Ed; cbn; rewrite ?A, ?B; try done; try set_solver; [constructor|].
    intros a. rewrite lookup_empty. split; [by intros [? ?]|set_solver].
  - set_solver.
  - rewrite Eid. lia.
  - intros a n. by rewrite Ef.
  - intros a b n n'. by rewrite Ef.
  - intros f a. rewrite Ef. cbn. rewrite D, lookup_empty. split; [done|]. intros (n & Hn & _). done.
  - intros a n. by rewrite Ef.
  - cbn. rewrite E. constructor.
  - intros a n r. by rewrite Ef.
  - intros k Hk. rewrite Eid in Hk. lia.
Qed.

(** The scheduler runs: a synchronisation node is there, and the exit node is at [xs], if there is one. *)
Record running (closing : bool) (xs : option Z) c : Prop := {
  rn_inv : run_inv [] closing c;
  rn_cursor : cursor_ok c;
  rn_sync : exists s t, ticks c !! s = Some (SyncNode t);
  rn_exits : forall x, (exists t, ticks c !! x = Some (ExitNode t)) <-> xs = Some x }.

Lemma tick_in_queue hole c a x : ginv hole c -> a ∉ hole -> ticks c !! a = Some x -> a ∈ ft_queue c.
Proof.
  intros Hi Hh [Hx Ht]%ticks_lookup. assert (Hin : a ∈ hole ++ ft_queue c ++ dpcs c) by (apply (gi_dom _ _ _ Hi); by eexists).
  rewrite !elem_of_app in Hin. destruct Hin as [?|[?|Hd]]; [done|done|].
  destruct (gi_dpc _ _ _ Hi a Hd) as (t & d & Hp & _). rewrite Hx in Hp. injection Hp as ->. done.
Qed.

Lemma running_queue closing xs c : running closing xs c -> ft_queue c <> [].
Proof.
  intros [Hi _ (s & t & Hs) _] E. pose proof (tick_in_queue [] c s _ (ri_ginv _ _ _ _ Hi) (not_elem_of_nil s) Hs) as Hq.
  rewrite E in Hq. set_solver.
Qed.

Lemma receive_run_inv hole closing ms c : run_inv hole closing c -> run_inv hole closing (receive ms c).
Proof. intros Hi. by eapply run_inv_frame. Qed.

(** A turn that does not end the run. *)
Lemma turn_running closing xs c a c' :
  running closing xs c -> turn_post send_node closing c a false c' -> running closing xs c'.
Proof.
  intros [Hi Hc (s & t & Hs) Hx] [A B C _ D E F _]. split; [done|done| |].
  - destruct (D eq_refl s t Hs) as [t' ?]. by exists s, t'.
  - intros x. rewrite <- Hx. split; intros [t' Ht']; exists t'; [by apply E|by apply F].
Qed.

Lemma ended_exits closing xs c a c' :
  running closing xs c -> turn_post send_node closing c a true c' ->
  (forall x t, ticks c' !! x <> Some (ExitNode t)) /\
  if xs then exists s t, ticks c' !! s = Some (SyncNode t) else ft_queue c' = [].
Proof.
  intros [Hi Hc (s & t & Hs) Hx] [A B C _ _ F _ Hend]. destruct (Hend eq_refl) as [Et Ha]. clear Hend.
  assert (Hq : forall x y, ticks c' !! x = Some y -> ft_queue c' <> []).
  { intros x y Hxy Hq. pose proof (tick_in_queue [] c' x _ (ri_ginv _ _ _ _ A) (not_elem_of_nil x) Hxy) as Hin.
    rewrite Hq in Hin. by apply not_elem_of_nil in Hin. }
  destruct Ha as [(t' & Ht & Hq')|(t' & Ht)].
  - split; [intros x t'' Hx'; by apply (Hq x (ExitNode t''))|]. destruct xs as [x|]; [|done]. exfalso.
    destruct (proj2 (Hx x) eq_refl) as [t'' Hx']. apply (Hq x (ExitNode t'')); [|done]. rewrite Et, lookup_delete_ne; [done|].
    intros ->. congruence.
  - assert (Exs : xs = Some a) by (apply Hx; by exists t'). split.
    + intros x t'' Hx'. assert (Ea : xs = Some x) by (apply Hx; exists t''; by apply F). assert (x = a) as -> by congruence.
      rewrite Et, lookup_delete_eq in Hx'. done.
    + rewrite Exs. exists s, t. rewrite Et, lookup_delete_ne; [done|]. intros ->. congruence.
Qed.

(** How the loop ends: at the exit node, or, where there is none, with an empty queue. *)
Record loop_post (closing : bool) (n : nat) c c' : Prop := {
  lp_inv : run_inv [] closing c';
  lp_cursor : cursor_ok c';
  lp_world : same_world c c';
  lp_id : ft_cur_flow_id c <= ft_cur_flow_id c' <= ft_cur_flow_id c + (if closing then 0 else Z.of_nat n) }.

(** The invariant while flows are opened is stronger than the one while they are closed. *)
Lemma run_inv_closing hole c : run_inv hole false c -> run_inv hole true c.
Proof.
  intros [A B C D E F I J K L]. split; try done. intros a n r Hn Hf. destruct (K a n r Hn Hf) as (m & X & Y & Z). by exists m.
Qed.

(** The ports that still wait go back. *)
Lemma free_ports_dpc is_tcp d : forall c c', free_ports d c = Ok c' -> dpc is_tcp c' = dpc is_tcp c.
Proof.
  induction d as [|[[k idx] port] d IH]; intros c c'; cbn [free_ports]; [by intros [= <-]|].
  intros (c1 & E1 & E2)%bind_Ok. apply bind_Ok in E1 as (g & _ & [= <-]). rewrite (IH _ _ E2). by destruct is_tcp.
Qed.

Lemma flush_dpc_ok is_tcp closing c :
  run_inv [] closing c ->
  exists c', flush_dpc is_tcp c = Ok c' /\ run_inv [] closing c' /\ same_world c c' /\ ft_queue c' = ft_queue c /\
    ft_cur_flow_id c' = ft_cur_flow_id c /\ dpc is_tcp c' = None /\ dpc (negb is_tcp) c' = dpc (negb is_tcp) c.
Proof.
  intros Hi. unfold flush_dpc. fold (dpc is_tcp c). destruct (dpc is_tcp c) as [a|] eqn:Ea; [|by exists c].
  pose proof (ri_ginv _ _ _ _ Hi) as Hg. assert (Ha : a ∈ dpcs c) by (rewrite (dpcs_perm is_tcp), Ea; set_solver).
  destruct (gi_dpc _ _ _ Hg a Ha) as (t & d & Hp & _).
  pose proof (gi_nodes _ _ _ Hg a _ (not_elem_of_nil a) Hp) as Hd. cbn in Hd.
  unfold handler_defer_job, get_defer_entries. rewrite Hp. cbn [mbind res_bind].
  destruct (free_ports_ok send_node [] d c Hg Hd) as (c1 & E1 & Hg1 & Hq1 & Eq1 & Ep1 & _). rewrite E1. cbn [mbind res_bind].
  pose proof (free_ports_dpc is_tcp _ _ _ E1) as Ed. pose proof (free_ports_dpc (negb is_tcp) _ _ _ E1) as En. rewrite Ea in Ed.
  pose proof (dpc_take send_node is_tcp a [] c1 Hg1 Ed) as Hg2.
  assert (Hx : ft_pool (set_dpc is_tcp None c1) !! a = Some (DeferNode t d)) by (cbn; by rewrite Ep1).
  destruct (free_fnode_ok send_node a [] _ _ Hg2 Hx) as (c2 & _ & Ec2 & Hg3 & Ef & _); [done|].
  unfold free_fnode, get_fnode. rewrite Ep1, Hp. cbn [mbind res_bind].
  cbn [set_dpc ft_pool ft_queue] in Ec2. rewrite Ep1 in Ec2.
  assert (E2 : set_dpc is_tcp None (set_nodes (delete a (ft_pool c)) (ft_queue c1) c1) = c2) by (by rewrite Ec2).
  rewrite E2. exists c2. split; [done|].
  assert (Hw : same_world c c2) by (rewrite Ec2; exact (qu_world _ _ Hq1)).
  assert (Efl : flows c2 = flows c).
  { rewrite Ef. change (flows (set_dpc is_tcp None c1)) with (flows c1). rewrite (qu_flows _ _ Hq1). apply delete_id.
    by eapply no_flow_at. }
  split.
  - eapply run_inv_same; [exact Hi|exact Hg3|set_solver|exact Hw|exact Efl|..]; rewrite Ec2; apply Hq1.
  - split; [done|]. rewrite Ec2. split; [exact Eq1|]. split; [apply Hq1|].
    destruct (dpc_set is_tcp None (set_nodes (delete a (ft_pool c)) (ft_queue c1) c1)) as [A B]. split; [exact A|].
    rewrite <- En. exact B.
Qed.

(** Nothing is left, and what every flow has sent. *)
Record run_done (n : nat) c c' : Prop := {
  dn_pool : ft_pool c' = ∅;
  dn_queue : ft_queue c' = [];
  dn_lookup : ft_lookup c' = ∅;
  dn_ports : dpcs c' = [];
  dn_id : 1 <= ft_cur_flow_id c' <= 1 + Z.of_nat n;
  dn_world : same_world c c';
  dn_flows : forall k, 1 <= k < ft_cur_flow_id c' -> ended_story c' (fid c' k);
  dn_sent : Forall (fun s => sp_flow s = -1 \/ is_flow_id c' (sp_flow s)) (ft_sent c') }.

Lemma empty_done n c c' :
  run_inv [] true c' -> same_world c c' -> ft_queue c' = [] -> dpcs c' = [] -> ft_cur_flow_id c' <= 1 + Z.of_nat n -> run_done n c c'.
Proof.
  intros Hi Hw Hq Hd Hid. pose proof (ri_ginv _ _ _ _ Hi) as Hg.
  assert (Hp : ft_pool c' = ∅).
  { apply map_eq. intros a. rewrite lookup_empty. destruct (ft_pool c' !! a) as [x|] eqn:E; [|done].
    assert (Hin : a ∈ [] ++ ft_queue c' ++ dpcs c') by (apply (gi_dom _ _ _ Hg); by eexists). rewrite Hq, Hd in Hin. set_solver. }
  assert (Ef : flows c' = ∅) by (unfold flows; rewrite Hp; apply omap_empty).
  pose proof (ri_bound _ _ _ _ Hi). split; try done; [|lia| |apply (ri_sent _ _ _ _ Hi)].
  - apply map_eq. intros f. rewrite lookup_empty. destruct (ft_lookup c' !! f) as [a|] eqn:E; [|done].
    apply (ri_lookup _ _ _ _ Hi) in E as (n' & Hn & _). rewrite Ef in Hn. done.
  - intros k Hk. apply (ri_ended _ _ _ _ Hi k Hk). intros a n'. by rewrite Ef.
Qed.

(** ** Nodes that are added *)

Context (mempool_get : gmap Z fnode -> option Z) `{!NodePool mempool_get}.

(** A node that drives the scheduler is added. *)
Lemma add_tick_ok closing c x :
  run_inv [] closing c -> cursor_ok c -> tick_of x = Some x ->
  exists a, create_fnode mempool_get x c = Ok (a, put_fnode a x c) /\ ft_pool c !! a = None /\
    let c' := fpush a (put_fnode a x c) in
    run_inv [] closing c' /\ cursor_ok c' /\ ticks c' = <[a := x]> (ticks c).
Proof.
  intros Hi Hc Hx. destruct (create_fnode_ok send_node mempool_get [] c x (ri_ginv _ _ _ _ Hi)) as (a & E & Ha & Hg).
  exists a. split; [done|]. split; [done|]. cbv zeta.
  assert (Ef : flows (fpush a (put_fnode a x c)) = flows c).
  { unfold flows. cbn. rewrite flows_put. destruct x; try done; apply delete_id; unfold flows; by rewrite lookup_omap, Ha. }
  split; [|split; [done|unfold ticks; cbn; by rewrite omap_insert, Hx]].
  eapply run_inv_same; [exact Hi|..]; try done; [|set_solver].
  eapply push_ok; [exact Hg|cbn; by rewrite lookup_insert_eq|]. by destruct x.
Qed.

(** The start: a node for opening flows, and one for messages. *)
Lemma start_ok th delta start c :
  ready c ->
  exists c0, start_generate mempool_get th delta start c = Ok c0 /\ running false None c0 /\ same_world c c0 /\ ft_cur_flow_id c0 = 1.
Proof.
  intros Hr. unfold start_generate. set (t := double_add (double_add _ _) start).
  assert (Hcur : 0 <= th mod zlength (ft_cap_gen c) < zlength (ft_cap_gen c)) by (apply Z.mod_pos_bound; apply Hr).
  destruct (ready_inv c t _ Hr Hcur) as (Hi & Hc & Et & Eid). set (c1 := set_stats _ _) in *.
  destruct (add_tick_ok false c1 (FifNode t) Hi Hc eq_refl) as (a & -> & Ha & Hi2 & Hc2 & Et2). cbn [mbind res_bind].
  set (c2 := fpush a _) in *.
  destruct (add_tick_ok false c2 (SyncNode (double_add t (double_div (double_of_Z 1) (double_of_Z 1000)))) Hi2 Hc2 eq_refl)
    as (b & -> & Hb & Hi3 & Hc3 & Et3). cbn [mbind res_bind].
  eexists. split; [reflexivity|]. split; [|done]. split; [done|done| |].
  - rewrite Et3. eexists b, _. apply lookup_insert_eq.
  - intros x. split; [|done]. intros [t' Ht']. rewrite Et3, Et2, Et in Ht'.
    apply lookup_insert_Some in Ht' as [[_ ?]|[_ Ht']]; [done|]. apply lookup_insert_Some in Ht' as [[_ ?]|[_ ?]]; done.
Qed.

(** The exit node is added, when there is a limit. *)
Lemma begin_ok t closing c :
  running closing None c ->
  exists c1 xs, flush_begin mempool_get t closing c = Ok c1 /\ running closing xs c1 /\ same_world c c1 /\
    ft_cur_flow_id c1 = ft_cur_flow_id c /\ (closing = true -> c1 = c /\ xs = None) /\
    (closing = false -> double_ltb (double_of_Z 0) t = true -> xs <> None).
Proof.
  intros Hr. unfold flush_begin. destruct (double_ltb (double_of_Z 0) t && negb closing) eqn:Eb.
  - destruct Hr as [Hi Hc (s & ts & Hs) Hx]. destruct (add_tick_ok closing c (ExitNode t) Hi Hc eq_refl) as (a & -> & Ha & Hi2 & Hc2 & Et2).
    cbn [mbind res_bind]. eexists _, (Some a). split; [reflexivity|]. split; [|split; [done|split; [done|]]].
    + split; [done|done| |].
      * rewrite Et2. exists s, ts. rewrite lookup_insert_ne; [done|]. intros ->. apply ticks_lookup in Hs as [Hs _]. congruence.
      * intros x. rewrite Et2. split.
        -- intros [t' [[<- _]|[_ Ht']]%lookup_insert_Some]; [done|]. assert (None = Some x) by (apply Hx; by exists t'). done.
        -- intros [= ->]. exists t. apply lookup_insert_eq.
    + apply andb_true_iff in Eb as [_ Eb]. apply negb_true_iff in Eb as ->. done.
  - exists c, None. split_and!; try done. intros -> E. by rewrite E in Eb.
Qed.

(** ** The loop *)

Context (o : gen_opts) (junk_node : CGenNode) (junk_tuple : CTupleBase) (Hsample : sampling_ok o).
Notation turn := (turn mempool_get o send_node junk_node junk_tuple).
Notation flush_loop := (flush_loop mempool_get o send_node junk_node junk_tuple).

(** What is known when a turn returns. *)
Lemma turn_Ok_post e closing d a c b c' :
  run_inv [] closing c -> cursor_ok c -> a ∈ ft_queue c -> (closing = false -> ft_cur_flow_id c + 1 < 4294967296) ->
  turn e closing d a c = Ok (b, c') -> turn_post send_node closing c a b c'.
Proof.
  intros Hi Hc Ha Hmax E.
  destruct (turn_any send_node o junk_node junk_tuple mempool_get e closing d a c Hi Hc Ha Hmax Hsample) as (b' & c1 & E' & Hp).
  - intros t Ht. unfold FlowGen.turn, get_fnode in E. rewrite Ht in E. cbn [mbind res_bind] in E.
    apply bind_Ok in E as (c1 & E & _). eauto.
  - rewrite E' in E. by injection E as <- <-.
Qed.

Lemma loop_ok closing d n c c' : flush_loop closing d n c c' ->
  forall xs, running closing xs c -> (closing = false -> ft_cur_flow_id c + Z.of_nat n < 4294967296) ->
  loop_post closing n c c' /\ (forall x t, ticks c' !! x <> Some (ExitNode t)) /\
  if xs then exists s t, ticks c' !! s = Some (SyncNode t) else ft_queue c' = [].
Proof.
  induction 1 as [c a e c' [Ha _] E|n c a e c1 ms c' [Ha _] E Hl IH]; intros xs Hr Hid.
  - pose proof (turn_Ok_post e closing d a c true c' (rn_inv _ _ _ Hr) (rn_cursor _ _ _ Hr) Ha) as Hp.
    specialize (Hp ltac:(intros Hx; specialize (Hid Hx); lia) E).
    split; [|by eapply ended_exits]. destruct Hp as [A B C D _ _ _ _]. by split.
  - pose proof (turn_Ok_post e closing d a c false c1 (rn_inv _ _ _ Hr) (rn_cursor _ _ _ Hr) Ha) as Hp.
    specialize (Hp ltac:(intros Hx; specialize (Hid Hx); lia) E).
    destruct (turn_running _ _ _ _ _ Hr Hp) as [A B C D]. destruct Hp as [_ _ Hw Hd _ _ _ _].
    destruct (IH xs) as ([A' B' C' D'] & Hx & Hq).
    + split; [by apply receive_run_inv|done|done|done].
    + intros ->. specialize (Hid eq_refl). change (ft_cur_flow_id (receive ms c1)) with (ft_cur_flow_id c1). lia.
    + change (ft_cur_flow_id (receive ms c1)) with (ft_cur_flow_id c1) in D'.
      split; [|done]. split; try done; [by eapply same_world_trans|]. destruct closing; lia.
Qed.

(** A run that goes on, some turns. *)
Inductive flush_steps (closing : bool) (d : double) : nat -> CFlowGenListPerThread G -> CFlowGenListPerThread G -> Prop :=
  | steps_none c : flush_steps closing d 0 c c
  | steps_turn n c a e c1 ms c' :
      is_ftop c a -> turn e closing d a c = Ok (false, c1) -> flush_steps closing d n (receive ms c1) c' ->
      flush_steps closing d (S n) c c'.

Lemma steps_ok closing d n c c' : flush_steps closing d n c c' ->
  forall xs, running closing xs c -> (closing = false -> ft_cur_flow_id c + Z.of_nat n < 4294967296) ->
  running closing xs c' /\ ft_cur_flow_id c' <= ft_cur_flow_id c + (if closing then 0 else Z.of_nat n).
Proof.
  induction 1 as [c|n c a e c1 ms c' [Ha _] E Hl IH]; intros xs Hr Hid; [split; [done|destruct closing; lia]|].
  pose proof (turn_Ok_post e closing d a c false c1 (rn_inv _ _ _ Hr) (rn_cursor _ _ _ Hr) Ha) as Hp.
  specialize (Hp ltac:(intros Hx; specialize (Hid Hx); lia) E).
  destruct (turn_running _ _ _ _ _ Hr Hp) as [A B C D]. destruct Hp as [_ _ _ Hd _ _ _ _].
  destruct (IH xs) as [Hr' Hd'].
  - split; [by apply receive_run_inv|done|done|done].
  - intros ->. specialize (Hid eq_refl). change (ft_cur_flow_id (receive ms c1)) with (ft_cur_flow_id c1). lia.
  - change (ft_cur_flow_id (receive ms c1)) with (ft_cur_flow_id c1) in Hd'. split; [done|]. destruct closing; lia.
Qed.

(** A turn in a run does not fail, when the messages are about flows that wait for them. *)
Lemma running_turn closing xs c e d a :
  running closing xs c -> a ∈ ft_queue c -> (closing = false -> ft_cur_flow_id c + 1 < 4294967296) -> rx_ok c ->
  exists b c', turn e closing d a c = Ok (b, c').
Proof.
  intros [Hi Hc _ _] Ha Hid Hrx.
  destruct (turn_any send_node o junk_node junk_tuple mempool_get e closing d a c Hi Hc Ha Hid Hsample) as (b & c' & E & _); [|eauto].
  intros t Ht. eapply (check_msgs_ok send_node o [a] closing); [|exact Hrx].
  eapply run_inv_frame; [exact (pop_run_inv send_node closing c a _ Hi Ha Ht eq_refl)|..]; done.
Qed.

Lemma flush_parts t d closing n c c' :
  gen_flush_file mempool_get o send_node junk_node junk_tuple t d closing false n c c' ->
  exists c1 c2, flush_begin mempool_get t closing c = Ok c1 /\ flush_loop closing d n c1 c2 /\
    (if closing then handler_defer_job_flush c2 else Ok c2) = Ok c'.
Proof. destruct 1 as [n c c1 c2 c' A B C]. by exists c1, c2. Qed.

Lemma run_parts th delta start duration n c c' :
  generate_stateful mempool_get o send_node junk_node junk_tuple th delta start duration false false n c c' ->
  ft_cap_gen c <> [] ->
  exists m c0 c1 c2, start_generate mempool_get th delta start c = Ok c0 /\
    gen_flush_file mempool_get o send_node junk_node junk_tuple (double_add (ft_cur_time_sec c0) duration)
      (get_delta_flow_is_sec (ft_cap_gen c)) false false n c0 c1 /\
    gen_flush_file mempool_get o send_node junk_node junk_tuple (ft_cur_time_sec c1)
      (get_delta_flow_is_sec (ft_cap_gen c)) true false m c1 c2 /\ gen_remove_all (ft_queue c2) c2 = Ok c'.
Proof. destruct 1 as [c Hc|n m c c0 c1 c2 c' Hc A B C D]; [done|]. intros _. by exists m, c0, c1, c2. Qed.

Lemma run_all_ok th delta start duration n c c' :
  ready c -> Z.of_nat n < 4294967294 ->
  generate_stateful mempool_get o send_node junk_node junk_tuple th delta start duration false false n c c' ->
  run_done n c c'.
Proof.
  intros Hr Hn Hrun. apply run_parts in Hrun as (m & c0 & c3 & c6 & Hst & Hfl1 & Hfl2 & Hrem).
  2: { intros E. destruct (rd_some _ Hr) as [H0 _]. by rewrite E in H0. }
  destruct (start_ok th delta start c Hr) as (c0' & Est & Hr0 & Hw0 & Hid0). rewrite Hst in Est. injection Est as <-.
  (* flows are opened *)
  apply flush_parts in Hfl1 as (c1 & c2 & Eb1 & Hl1 & E). injection E as ->.
  destruct (begin_ok (double_add (ft_cur_time_sec c0) duration) false c0 Hr0) as (b & xs & Eb & Hrb & Hwb & Hidb & _).
  rewrite Eb in Eb1. injection Eb1 as ->.
  destruct (loop_ok false _ n _ _ Hl1 xs Hrb) as ([Hi1 Hc1 Hw1 Hid1] & Hx1 & Hs1); [intros _; rewrite Hidb, Hid0; lia|].
  (* they are closed *)
  apply flush_parts in Hfl2 as (c4 & c5 & Eb2 & Hl2 & Ee2).
  unfold flush_begin in Eb2. rewrite andb_false_r in Eb2. injection Eb2 as <-. unfold handler_defer_job_flush in Ee2.
  assert (Hr1 : running true None c3).
  { split; [by apply run_inv_closing|done| |].
    - destruct xs; [done|]. exfalso. inversion Hl2 as [? ? ? ? [Hin _]|? ? ? ? ? ? ? [Hin _]]; subst; rewrite Hs1 in Hin; set_solver.
    - intros x. split; [|done]. intros [t Ht]. by destruct (Hx1 x t). }
  destruct (loop_ok true _ _ _ _ Hl2 None Hr1) as ([Hi2 Hc2 Hw2 Hid2] & _ & Hq2); [done|].
  (* the ports that wait go back *)
  destruct (flush_dpc_ok true true c5 Hi2) as (f1 & E1 & Hi3 & Hw3 & Hq3 & Hid3 & Hd3 & _). rewrite E1 in Ee2. cbn [mbind res_bind] in Ee2.
  destruct (flush_dpc_ok false true f1 Hi3) as (f2 & E2 & Hi4 & Hw4 & Hq4 & Hid4 & Hd4 & Hd4'). rewrite E2 in Ee2. injection Ee2 as ->.
  assert (Hq : ft_queue c6 = []) by congruence. rewrite Hq in Hrem. cbn in Hrem. injection Hrem as <-.
  apply empty_done; [done| |done| |].
  - do 5 (eapply same_world_trans; [eassumption|]). done.
  - cbn in Hd4, Hd4'. unfold dpcs. cbn in Hd3. by rewrite Hd4, Hd4', Hd3.
  - rewrite Hid4, Hid3. lia.
Qed.
End Run.
