(* ===== verification/FlowGenCreate.v ===== *)
(** * The creation of a thread of the flow generator

    A thread that [Create] makes is ready to run: its pools have the addresses of its share,
    and its templates are those of all threads at its share of the rates. The interface it
    sends with, [CCoreEthIF::send_node], for templates without plugins and without a MAC file,
    and a pool that never runs out, keep what the generator asks of them. *)

From S2P Require Import Prelude Double ByteMem PktCmn PktDesc PktParser RxHeader CapTemplate TupleGen TupleGenFacts TupleGenTotal FlowNode MiniVm Plugins NatCheck FlowGen FlowGenFacts FlowGenSteps FlowGenInv FlowGenMsgs FlowGenOpen FlowGenTurn FlowGenRun FlowNodeFacts SendNode.

#[local] Set Default Proof Using "Type*".

(** A pool that passes [is_valid], and whose addresses, moved by the mask of the port, exist. *)
Record pool_fits (threads dual : Z) (y : CTupleGenPoolYaml) : Prop := {
  pf_start : 0 <= y_ip_start y;
  pf_end : 0 <= y_ip_end y < 4294967296;
  pf_valid : pool_yaml_is_valid threads y = true;
  pf_mask : 0 <= dual * y_dual_interface_mask y;
  pf_moved : y_ip_end y + dual * y_dual_interface_mask y < 4294967296 }.

Lemma share_ok threads dual th y :
  0 <= th < threads -> threads < 4294967296 -> pool_fits threads dual y ->
  exists start n, split_ips th threads dual y = Ok (MkPortion start (start + n - 1)) /\
    0 <= start /\ 0 < n <= 1000000 /\ start + n <= 4294967296.
Proof.
  intros Ht Hth [A B C D E]. destruct (split_ips_at y threads dual th A B ltac:(lia) C D E Ht) as (Hc & Hn & Es).
  set (n := (y_ip_end y - y_ip_start y + 1) / threads) in *. do 2 eexists. split; [exact Es|].
  assert (0 <= th * n) by nia. assert (th * n + n <= threads * n) by nia. lia.
Qed.

Section Create.
Context {G : Type} `{UniformInt G}.
Context (send_node : bool -> Z -> option (list CFlowYamlDpPkt) -> CGenNode -> CFlowPktInfo -> res (Z * bytes * CGenNode)).
Context `{!NodeSender send_node}.
Context (rng : G) (th threads dual : Z) (Hth : 0 <= th < threads) (Hthreads : threads < 4294967296).

Lemma client_pools_ok mac l : forall i g,
  Forall (pool_fits threads dual) l -> gen_plain g -> g_has_mac_mapping g = false ->
  exists g', create_client_pools rng mac th threads dual i [] l g = Ok g' /\ gen_plain g' /\
    g_has_mac_mapping g' = false /\ g_server_pool g' = g_server_pool g /\ g_thread_id g' = g_thread_id g /\
    zlength (g_client_pool g') = zlength (g_client_pool g) + zlength l.
Proof using Hth Hthreads.
  induction l as [|y l IH]; intros i g Hl Hg Hm; cbn [create_client_pools].
  { exists g. split_and!; try done. unfold zlength. cbn. lia. }
  apply Forall_cons in Hl as [Hy Hl]. destruct (share_ok threads dual th y Hth Hthreads Hy) as (s & n & -> & H0 & Hn & Hs).
  cbn [mbind res_bind portion_ip_start portion_ip_end]. unfold add_client_pool, c_assert. destruct (Z.geb_spec (s + n - 1) s); [|lia].
  cbn [mbind res_bind]. rewrite Hm.
  destruct (client_create_plain rng (y_dist y) s n mac (y_tcp_aging_sec y) (y_udp_aging_sec y) H0 Hn Hs) as (c & E & Hc).
  change (get_longest_flow (of_pool i true) []) with (double_of_Z 0). change (get_total_kcps (of_pool i true) []) with (double_of_Z 0).
  rewrite E. cbn [mbind res_bind]. destruct (IH (i + 1) (gen_set_clients g (g_client_pool g ++ [c])) Hl) as (g' & E' & A & B & C & D & F).
  - split; [|apply Hg]. cbn. apply Forall_app. split; [apply Hg|]. by apply Forall_singleton.
  - exact Hm.
  - exists g'. split; [exact E'|]. split_and!; try done. rewrite F. unfold zlength. cbn. rewrite length_app. cbn. lia.
Qed.

Lemma server_pools_ok l : forall i g,
  Forall (pool_fits threads dual) l -> gen_plain g ->
  exists g', create_server_pools rng th threads dual i [] l g = Ok g' /\ gen_plain g' /\
    g_client_pool g' = g_client_pool g /\ g_thread_id g' = g_thread_id g /\
    zlength (g_server_pool g') = zlength (g_server_pool g) + zlength l.
Proof using Hth Hthreads.
  induction l as [|y l IH]; intros i g Hl Hg; cbn [create_server_pools].
  { exists g. split_and!; try done. unfold zlength. cbn. lia. }
  apply Forall_cons in Hl as [Hy Hl]. destruct (share_ok threads dual th y Hth Hthreads Hy) as (s & n & -> & H0 & Hn & Hs).
  cbn [mbind res_bind portion_ip_start portion_ip_end]. unfold add_server_pool, c_assert. destruct (Z.geb_spec (s + n - 1) s); [|lia].
  cbn [mbind res_bind]. set (lf := get_longest_flow _ _). set (kc := double_mul _ _).
  assert (Hs' : exists p, (if y_is_bundling y then CServerPool_Create rng (y_dist y) s (s + n - 1) lf kc
      else Ok (CServerPoolSimple_Create s (s + n - 1))) = Ok p /\ server_plain p).
  { destruct (y_is_bundling y); [by apply server_create_plain|by eexists]. }
  destruct Hs' as (p & -> & Hp). cbn [mbind res_bind].
  destruct (IH (i + 1) (gen_set_servers g (g_server_pool g ++ [p])) Hl) as (g' & E' & A & B & C & D).
  - split; [apply Hg|]. cbn. apply Forall_app. split; [apply Hg|]. by apply Forall_singleton.
  - exists g'. split; [exact E'|]. split_and!; try done. rewrite D. unfold zlength. cbn. rewrite length_app. cbn. lia.
Qed.

(** A template of the configuration: its packets, its plugin, its pools and its rate. *)
Record source_ok (clients servers : Z) (s : CCapFileFlowInfo * CFlowYamlInfo * Z) : Prop := {
  so_template : forall p t id, template_ok send_node (mkRec s.1.1 s.1.2 p t id);
  so_client : 0 <= m_client_pool_idx s.1.2 < clients;
  so_server : 0 <= m_server_pool_idx s.1.2 < servers;
  so_rate : double_leb (double_of_Z 0) (double_mul (double_div (m_k_cps s.1.2) (double_of_Z threads)) (double_of_Z 1000)) = true }.

Lemma template_ok_same r r' :
  m_flow_info r' = m_flow_info r -> m_plugin_id (m_info r') = m_plugin_id (m_info r) -> m_dpPkt (m_info r') = m_dpPkt (m_info r) ->
  template_ok send_node r -> template_ok send_node r'.
Proof. intros E1 E2 E3 [A B C D E F]. split; rewrite ?E1, ?E2, ?E3; done. Qed.

Lemma get_idx_some {A} (l : list A) (k : Z) : 0 <= k < zlength l -> exists x, get_idx l k = Ok x.
Proof.
  intros [H0 Hk]. unfold zlength in Hk. destruct (lookup_lt_is_Some_2 l (Z.to_nat k)) as [x Hx]; [lia|].
  exists x. by apply get_idx_Ok.
Qed.

Lemma init_ok masks (g : CTupleGeneratorSmart G) tg l :
  gen_plain g -> zlength masks = zlength (g_client_pool g) ->
  Forall (source_ok (zlength (g_client_pool g)) (zlength (g_server_pool g))) l ->
  exists rs, init_from_global th threads dual masks g tg l = Ok rs /\ length rs = length l /\
    Forall (template_ok send_node) rs /\ Forall (gen_fits g) rs.
Proof using Hth.
  intros Hg Hmask. induction 1 as [|[[fi y] id] l Hs _ IH]; cbn [init_from_global]; [by exists []|].
  destruct IH as (rs & Ers & Hlen & Hok & Hfit). destruct Hs as [A B C D]. cbn [fst snd] in *.
  unfold c_assert at 1. rewrite (proj2 (Z.ltb_lt 0 threads)) by lia. cbn [mbind res_bind]. unfold rec_Create, template_Create.
  change (m_client_pool_idx (thread_info th threads y)) with (m_client_pool_idx y).
  change (m_server_pool_idx (thread_info th threads y)) with (m_server_pool_idx y).
  destruct (get_idx_some _ _ B) as [cp Ecp]. destruct (get_idx_some _ _ C) as [sp Esp]. rewrite Ecp. cbn [mbind res_bind].
  rewrite Esp. cbn [mbind res_bind]. rewrite <- Hmask in B. destruct (get_idx_some _ _ B) as [mk Emk]. rewrite Emk. cbn [mbind res_bind].
  unfold set_cir. change (m_k_cps (thread_info th threads y)) with (double_div (m_k_cps y) (double_of_Z threads)).
  unfold c_assert. rewrite D. cbn [mbind res_bind]. rewrite Ers. cbn [mbind res_bind].
  eexists. split; [reflexivity|]. split; [cbn; lia|]. split.
  - apply Forall_cons. split; [|done]. eapply template_ok_same; [..|apply (A ClearMeter tg 0)]; done.
  - apply Forall_cons. split; [|done]. rewrite Hmask in B. by split.
Qed.

(** [Create] of a thread without a MAC file. *)
Lemma create_ready mac yi cap_gen tg g0 :
  is_mac_info_configured mac = false -> g_client_pool g0 = [] -> g_server_pool g0 = [] ->
  Forall (pool_fits threads dual) (yi_client_pool yi) -> Forall (pool_fits threads dual) (yi_server_pool yi) ->
  Forall (source_ok (zlength (yi_client_pool yi)) (zlength (yi_server_pool yi))) cap_gen ->
  0 < zlength cap_gen < 4294967296 ->
  exists c, thread_Create rng mac th threads dual yi cap_gen tg g0 = Ok c /\ ready send_node c /\
    gen_thread_id c = th /\ length (ft_cap_gen c) = length cap_gen.
Proof using Hth Hthreads.
  intros Hmac Ec0 Es0 Hcl Hsv Hsrc Hlen. unfold thread_Create. rewrite Hmac. set (g := gen_Create 0 th false g0).
  assert (Hg : gen_plain g) by (unfold gen_plain, g; cbn; by rewrite Ec0, Es0).
  destruct (client_pools_ok (Some mac) (yi_client_pool yi) 0 g Hcl Hg eq_refl) as (g1 & -> & Hg1 & _ & Es1 & Et1 & Hc1).
  cbn [mbind res_bind]. destruct (server_pools_ok (yi_server_pool yi) 0 g1 Hsv Hg1) as (g2 & -> & Hg2 & Ec2 & Et2 & Hs2).
  cbn [mbind res_bind]. cbn in Hc1, Es1. rewrite Ec0 in Hc1. rewrite Es1, Es0 in Hs2. rewrite <- Ec2 in Hc1.
  change (zlength []) with 0 in Hc1, Hs2. rewrite Z.add_0_l in Hc1, Hs2.
  destruct (init_ok (y_dual_interface_mask <$> yi_client_pool yi) g2 tg cap_gen Hg2) as (rs & -> & Hl & Hok & Hfit).
  { unfold zlength. rewrite length_fmap. unfold zlength in Hc1. lia. }
  { by rewrite Hc1, Hs2. }
  cbn [mbind res_bind]. eexists. split; [reflexivity|]. unfold zlength in Hlen. split; [|split; [exact (eq_trans Et2 Et1)|exact Hl]].
  split; try done. cbn. unfold zlength. rewrite Hl. lia.
Qed.
End Create.

(** ** The sender and the pool of nodes *)

Section Core.
Context (inet_ntop6 : list Z -> bytes) (rand : nat -> Z) (pool_get : Z -> option bytes) (o : plugin_opts) (mem : bytes).
Context (Hpool : pool_get FIRST_PKT_SIZE = Some mem) (Hmem : bytes_ok mem) (Hsize : zlength mem = FIRST_PKT_SIZE).
Context (mo : mac_opts) (Hports : forall k, bytes_ok (mo_dst_src mo k) /\ 12 <= zlength (mo_dst_src mo k)).
Context (Hsplit : mo_dest_split mo = true -> mo_splitter mo <> 0) (Hmap : mo_mapping mo = false).
Context (port_of_dir : Z -> Z) (tick : Z) (cache_left : bool).

Definition core_sender (can_cache : bool) (plugin_id : Z) (dp : option (list CFlowYamlDpPkt)) (n : CGenNode) (lp : CFlowPktInfo)
  : res (Z * bytes * CGenNode) :=
  core_send_node inet_ntop6 rand pool_get o mo port_of_dir tick can_cache cache_left plugin_id dp n lp.

Definition core_pkt (plugin_id : Z) (dp : option (list CFlowYamlDpPkt)) (lp : CFlowPktInfo) : Prop :=
  plugin_id = 0 /\ plain_packet lp.

Lemma core_sends can_cache plugin_id dp n lp :
  core_pkt plugin_id dp lp -> plugin_fits plugin_id (n_plugin_info n) ->
  exists dir p n', core_sender can_cache plugin_id dp n lp = Ok (dir, p, n') /\ same_flow n n' /\
    plugin_fits plugin_id (n_plugin_info n').
Proof using Hpool Hmem Hsize Hports Hsplit Hmap.
  intros [-> Hpl] Hfit. unfold core_sender. destruct (fits_cache 0 n Hfit) as [[pkt|] Hc]; [done|done| |].
  - unfold core_send_node. rewrite Hc. cbn [mbind res_bind]. by do 3 eexists.
  - assert (Hmo : macs_ok mo n) by (split; [done|done|congruence]).
    destruct (core_send_spec inet_ntop6 rand pool_get o mem Hpool Hmem Hsize mo port_of_dir tick can_cache cache_left 0 dp n lp Hpl Hmo Hc)
      as (p & n' & -> & q & _ & _ & Hn). do 3 eexists. split; [reflexivity|].
    destruct (is_rx_check_enabled n); [by destruct Hn as [_ ->]|]. destruct Hn as [_ ->].
    destruct (can_cache && cache_left); [|done]. split; [|done].
    eapply same_flow_trans; [|by apply same_flow_flag]. eapply same_flow_trans; [|apply same_flow_plugin].
    by apply same_flow_flag.
Qed.

#[export] Instance core_NodeSender : NodeSender core_sender := { ns_pkt := core_pkt; ns_send := core_sends }.
End Core.

(** The address behind all that are in use. *)
Definition next_free (p : gmap Z fnode) : option Z := Some (map_fold (fun a _ m => Z.max (a + 1) m) 0 p).

Lemma next_free_above (p : gmap Z fnode) a : is_Some (p !! a) -> a < map_fold (fun a _ m => Z.max (a + 1) m) 0 p.
Proof.
  revert a. apply (map_fold_weak_ind (fun r p => forall a, is_Some (p !! a) -> a < r)).
  - intros a. rewrite lookup_empty. by intros [? ?].
  - intros i x m r _ IH a Ha. destruct (decide (a = i)) as [->|Hne]; [lia|].
    rewrite lookup_insert_ne in Ha by done. specialize (IH a Ha). lia.
Qed.

#[export] Instance next_free_NodePool : NodePool next_free.
Proof.
  split. intros p. eexists. split; [reflexivity|]. apply eq_None_not_Some. intros Hs. apply next_free_above in Hs. lia.
Qed.
