(* ===== verification/FlowGenThms.v ===== *)
(** * What a run of the flow generator does

    A thread that is created is ready to run; no turn of its run fails; and a run that ends
    leaves nothing behind: each flow has sent its packets in their order, no node is left in
    the queue or in the pool, no flow waits for its translation, and all ports have gone back. *)

From S2P Require Import Prelude Double ByteMem PktCmn PktDesc PktParser RxHeader CapTemplate TupleGen TupleGenFacts TupleGenTotal FlowNode MiniVm Plugins NatCheck FlowGen FlowGenFacts FlowGenSteps FlowGenInv FlowGenMsgs FlowGenOpen FlowGenTurn FlowGenRun FlowGenCreate FlowNodeFacts SendNode.

#[local] Set Default Proof Using "Type*".

(** ** The top of the queue *)

Lemma double_ltb_numbers a b : double_ltb a b = true -> is_number a = true /\ is_number b = true.
Proof. destruct a, b; try done. Qed.

(** Of some times, one has no earlier one. *)
Lemma earliest (f : Z -> double) (q : list Z) : q <> [] ->
  exists a, a ∈ q /\ forall b, b ∈ q -> double_ltb (f b) (f a) = false.
Proof.
  assert (Hirr : forall x, double_ltb x x = false).
  { intros x. destruct (double_ltb x x) eqn:E; [|done]. pose proof (double_ltb_numbers _ _ E) as [Hx _].
    by rewrite double_ltb_irrefl in E. }
  induction q as [|h q IH]; [done|]. intros _. destruct q as [|h' q].
  { exists h. split; [set_solver|]. intros b ->%list_elem_of_singleton. apply Hirr. }
  destruct IH as (a & Ha & Hmin); [done|]. destruct (double_ltb (f h) (f a)) eqn:E.
  - exists h. split; [set_solver|]. intros b [->|Hb]%elem_of_cons; [apply Hirr|].
    destruct (double_ltb (f b) (f h)) eqn:Eb; [|done]. destruct (double_ltb_numbers _ _ E), (double_ltb_numbers _ _ Eb).
    rewrite <- (Hmin b Hb). symmetry. by apply (double_ltb_trans _ (f h)).
  - exists a. split; [set_solver|]. intros b [->|Hb]%elem_of_cons; [done|by apply Hmin].
Qed.

Lemma top_exists {G} (c : CFlowGenListPerThread G) : ft_queue c <> [] -> exists a, is_ftop c a.
Proof.
  intros Hq. set (f := fun a => match ft_pool c !! a with Some x => fnode_time x | None => double_of_Z 0 end).
  destruct (earliest f _ Hq) as (a & Ha & Hmin). exists a. split; [done|]. intros b xa xb Hb Exa Exb.
  specialize (Hmin b Hb). unfold f in Hmin. by rewrite Exa, Exb in Hmin.
Qed.

Section Thms.
Context {G : Type} `{UniformInt G}.
Context (send_node : bool -> Z -> option (list CFlowYamlDpPkt) -> CGenNode -> CFlowPktInfo -> res (Z * bytes * CGenNode)).
Context `{!NodeSender send_node} (o : gen_opts) (junk_node : CGenNode) (junk_tuple : CTupleBase).
Context (mempool_get : gmap Z fnode -> option Z) `{!NodePool mempool_get}.
Implicit Types (c : CFlowGenListPerThread G).
Notation turn := (turn mempool_get o send_node junk_node junk_tuple).
Notation flush_steps := (flush_steps send_node mempool_get o junk_node junk_tuple).

(** The states of a run, in its first part, of [n] turns, and while the flows are closed. *)
Inductive reached (th : Z) (delta start duration : double) c : bool -> nat -> CFlowGenListPerThread G -> Prop :=
  | reached_open c0 c1 n c2 :
      start_generate mempool_get th delta start c = Ok c0 ->
      flush_begin mempool_get (double_add (ft_cur_time_sec c0) duration) false c0 = Ok c1 ->
      flush_steps false (get_delta_flow_is_sec (ft_cap_gen c)) n c1 c2 -> reached th delta start duration c false n c2
  | reached_close n c2 a e c3 m c4 :
      reached th delta start duration c false n c2 -> is_ftop c2 a ->
      turn e false (get_delta_flow_is_sec (ft_cap_gen c)) a c2 = Ok (true, c3) ->
      flush_steps true (get_delta_flow_is_sec (ft_cap_gen c)) m c3 c4 -> reached th delta start duration c true n c4.

(** The time at which flows are no longer opened is after zero. *)
Definition ends_later (th : Z) (delta start duration : double) c : Prop :=
  forall c0, start_generate mempool_get th delta start c = Ok c0 ->
    double_ltb (double_of_Z 0) (double_add (ft_cur_time_sec c0) duration) = true.

Lemma reached_running th delta start duration c closing n c' :
  ready send_node c -> sampling_ok o -> ends_later th delta start duration c ->
  reached th delta start duration c closing n c' -> Z.of_nat n < 4294967294 ->
  exists xs, running send_node closing xs c' /\ (closing = false -> ft_cur_flow_id c' <= 1 + Z.of_nat n /\ xs <> None).
Proof.
  intros Hr Hs Hlater. induction 1 as [c0 c1 n c2 E0 E1 Hst|n c2 a e c3 m c4 H2 IH [Ha Htop] E3 Hst]; intros Hn.
  - destruct (start_ok send_node mempool_get th delta start c Hr) as (c0' & E0' & Hr0 & _ & Hid0).
    rewrite E0 in E0'. injection E0' as <-.
    destruct (begin_ok send_node mempool_get (double_add (ft_cur_time_sec c0) duration) false c0 Hr0) as
      (c1' & xs & E1' & Hr1 & _ & Hid1 & _ & Hx). rewrite E1 in E1'. injection E1' as <-.
    destruct (steps_ok send_node mempool_get o junk_node junk_tuple Hs false _ n c1 c2 Hst xs Hr1) as [Hr2 Hid2]; [intros _; lia|].
    exists xs. split; [done|]. intros _. split; [lia|]. apply Hx; [done|]. by apply Hlater.
  - destruct (IH Hn) as (xs & Hr2 & Hx). clear IH. destruct (Hx eq_refl) as [Hid2 Hxs]. destruct xs as [x|]; [|done].
    assert (Hp : turn_post send_node false c2 a true c3).
    { eapply (turn_Ok_post send_node mempool_get o junk_node junk_tuple Hs e false); [apply Hr2|apply Hr2|done|intros _; lia|exact E3]. }
    destruct (ended_exits send_node _ _ _ _ _ Hr2 Hp) as [Hno Hsync].
    assert (Hr3 : running send_node true None c3).
    { split; [apply run_inv_closing, Hp|apply Hp|done|]. intros y. split; [|done]. intros [t Ht]. by destruct (Hno y t). }
    destruct (steps_ok send_node mempool_get o junk_node junk_tuple Hs true _ m c3 c4 Hst None Hr3) as [Hr4 Hid4]; [done|].
    by exists None.
Qed.

(** C5: The scheduler of flows never fails and never runs dry. A run of a thread that is ready
    starts; in each state that it reaches, while flows are opened or while they are only
    closed, there is a node at the top of the queue, and the turn of any such node succeeds:
    no packet, template, client, port or map entry is looked for in vain and no assertion
    fails. What the receiver tells is about flows whose first packet was sent; fewer than
    2^32 - 2 turns open flows. *)
Theorem scheduler_never_fails th delta start duration c :
  ready send_node c -> sampling_ok o -> ends_later th delta start duration c ->
  (exists c0 c1, start_generate mempool_get th delta start c = Ok c0 /\
    flush_begin mempool_get (double_add (ft_cur_time_sec c0) duration) false c0 = Ok c1) /\
  forall closing n c', reached th delta start duration c closing n c' -> Z.of_nat n < 4294967294 ->
    (exists a, is_ftop c' a) /\
    forall e a, is_ftop c' a -> rx_ok c' ->
      exists b c'', turn e closing (get_delta_flow_is_sec (ft_cap_gen c)) a c' = Ok (b, c'').
Proof.
  intros Hr Hs Hlater. split.
  - destruct (start_ok send_node mempool_get th delta start c Hr) as (c0 & E0 & Hr0 & _).
    destruct (begin_ok send_node mempool_get (double_add (ft_cur_time_sec c0) duration) false c0 Hr0) as (c1 & xs & E1 & _).
    by exists c0, c1.
  - intros closing n c' Hreach Hn.
    destruct (reached_running th delta start duration c closing n c' Hr Hs Hlater Hreach Hn) as (xs & Hr' & Hid).
    split; [eapply top_exists, running_queue, Hr'|]. intros e a [Ha _] Hrx.
    eapply (running_turn send_node mempool_get o junk_node junk_tuple Hs); [exact Hr'|done| |done].
    intros Hc. destruct (Hid Hc). lia.
Qed.

(** C4: A run of the flow generator to its end, of fewer than 2^32 - 2 turns, from a thread
    that is ready. However nodes of equal times are ordered and whatever the receiver tells
    in between: every flow that was opened has ended, and has sent the packets of its
    template in their order, each once (a repeated flow: round by round; a flow that was to
    learn its translation and was not told: those before the first answer of the server);
    the packets that were sent are of these flows, or of the latency check. No node is left
    in the queue or in the pool, no flow waits in the map of learning flows, and no port is
    kept for later. *)
Theorem run_leaves_nothing th delta start duration n c c' :
  ready send_node c -> sampling_ok o -> Z.of_nat n < 4294967294 ->
  generate_stateful mempool_get o send_node junk_node junk_tuple th delta start duration false false n c c' ->
  ft_queue c' = [] /\ ft_pool c' = ∅ /\ ft_lookup c' = ∅ /\ ft_tcp_dpc c' = None /\ ft_udp_dpc c' = None /\
  1 <= ft_cur_flow_id c' <= 1 + Z.of_nat n /\
  (forall k, 1 <= k < ft_cur_flow_id c' -> ended_story c' (make_flow_id k (gen_thread_id c'))) /\
  Forall (fun s => sp_flow s = -1 \/ exists k, 1 <= k < ft_cur_flow_id c' /\ sp_flow s = make_flow_id k (gen_thread_id c')) (ft_sent c').
Proof.
  intros Hr Hs Hn Hrun.
  destruct (run_all_ok send_node mempool_get o junk_node junk_tuple Hs th delta start duration n c c' Hr Hn Hrun)
    as [A B C D E F I J].
  assert (Hd : ft_tcp_dpc c' = None /\ ft_udp_dpc c' = None).
  { unfold dpcs in D. by destruct (ft_tcp_dpc c'), (ft_udp_dpc c'). }
  destruct Hd. split_and!; try done; lia.
Qed.
End Thms.

(** C20: [Create] of a thread, without a MAC file. With pools that pass [is_valid] and templates
    whose packets, pools and rates are sound, it succeeds, and the thread is ready to run. The
    pools are made before the thread has its templates, hence for a rate of zero: every client
    only counts its ports up, whatever the rates of the templates are. *)
Theorem thread_Create_ready {G} `{UniformInt G} send_node `{!NodeSender send_node} (rng : G) th threads dual mac yi cap_gen tg g0 :
  0 <= th < threads -> threads < 4294967296 ->
  is_mac_info_configured mac = false -> g_client_pool g0 = [] -> g_server_pool g0 = [] ->
  Forall (pool_fits threads dual) (yi_client_pool yi) -> Forall (pool_fits threads dual) (yi_server_pool yi) ->
  Forall (source_ok send_node threads (zlength (yi_client_pool yi)) (zlength (yi_server_pool yi))) cap_gen ->
  0 < zlength cap_gen < 4294967296 ->
  exists c, thread_Create rng mac th threads dual yi cap_gen tg g0 = Ok c /\ ready send_node c /\ gen_thread_id c = th /\
    length (ft_cap_gen c) = length cap_gen /\
    Forall (fun p => Forall plain_info (p_ip_info (cp_pool p))) (g_client_pool (ft_smart_gen c)).
Proof.
  intros Hth Hthr Hmac Hc0 Hs0 Hcl Hsv Hsrc Hlen.
  destruct (create_ready send_node rng th threads dual Hth Hthr mac yi cap_gen tg g0 Hmac Hc0 Hs0 Hcl Hsv Hsrc Hlen) as (c & E & Hr & Ht & Hl).
  exists c. split_and!; try done. eapply Forall_impl; [exact (proj1 (gk_plain _ _ _ (rd_gens _ _ Hr)))|]. by intros p [_ ?].
Qed.

(** ** A small run

    One client pool, one server pool and a template of one UDP packet, sent by [core_sender]. *)

Definition demo_last_lp : CFlowPktInfo := fpi_upd_desc (SetIsLastPkt true) demo_lp.
Definition demo_cap : CCapFileFlowInfo := mkCap [demo_last_lp] 60 1 0.
Definition demo_yaml : CFlowYamlInfo :=
  mkYaml (double_of_Z 1) (double_of_Z 0) (double_of_Z 0) (double_of_Z 0) 1 0 0 0 0 0 0 false 0 false false None.
Definition demo_clients : CTupleGenPoolYaml := MkPoolYaml cdSEQ_DIST 0x10000001 0x10000008 0 0 0x01000000 0 0 "default" false.
Definition demo_servers : CTupleGenPoolYaml := MkPoolYaml cdSEQ_DIST 0x30000001 0x30000008 0 0 0x01000000 0 0 "default" false.
Definition demo_pools : CTupleGenYamlInfo := MkYamlInfo [demo_clients] [demo_servers].
Definition demo_no_macs : CFlowGenListMac := MkMacList false ∅.
Definition demo_thread_res : res (CFlowGenListPerThread Z) :=
  thread_Create (G := Z) 1 demo_no_macs 0 2 0 demo_pools [(demo_cap, demo_yaml, 0)] (MkTemplate 0 0 1 0 0 0 0 0 0 false)
    (MkGen 0 0 [] [] false false).
Definition demo_sender := core_sender (fun _ => []) (fun _ => 0) demo_pool demo_opts demo_macs (fun d => d) 0 true.

Lemma demo_ports k : bytes_ok (mo_dst_src demo_macs k) /\ 12 <= zlength (mo_dst_src demo_macs k).
Proof. split; [repeat constructor; lia|vm_compute; congruence]. Qed.
Lemma demo_mem : bytes_ok (replicate 64 0).
Proof. apply Forall_replicate. unfold byte_ok. lia. Qed.
#[local] Instance demo_NodeSender : NodeSender demo_sender :=
  core_NodeSender (fun _ => []) (fun _ => 0) demo_pool demo_opts (replicate 64 0) eq_refl demo_mem eq_refl demo_macs demo_ports
    (fun E => match Bool.diff_false_true E with end) eq_refl (fun d => d) 0 true.

Lemma demo_last_plain : plain_packet demo_last_lp.
Proof.
  pose proof demo_plain as [[Hv Hl Hf Hb] Hp Ho Ht]. split; [|vm_compute; reflexivity|exact Ho|exact Ht].
  split; [|exact Hl|exact Hf|exact Hb]. destruct Hv as [A B C D E F I]. split; try done.
Qed.

Lemma demo_template_ok p t id : template_ok demo_sender (mkRec demo_cap demo_yaml p t id).
Proof.
  assert (Hone : forall i q, m_flow_pkts demo_cap !! i = Some q -> i = 0%nat /\ q = demo_last_lp).
  { intros [|i] q; [by intros [= <-]|by destruct i]. }
  split; cbn [m_flow_info m_info].
  - vm_compute. by split.
  - intros i q [-> ->]%Hone. reflexivity.
  - intros i q [-> ->]%Hone. reflexivity.
  - intros q [= <-] E. vm_compute in E. discriminate.
  - vm_compute. split; congruence.
  - apply Forall_singleton. split; [done|]. exact demo_last_plain.
Qed.

Lemma demo_pool_fits y : y = demo_clients \/ y = demo_servers -> pool_fits 2 0 y.
Proof. intros [-> | ->]; split; vm_compute; try reflexivity; try (split; [discriminate|reflexivity]); discriminate. Qed.
Lemma demo_source_ok : source_ok demo_sender 2 1 1 (demo_cap, demo_yaml, 0).
Proof.
  split; [exact demo_template_ok|vm_compute; split; [discriminate|reflexivity]..|vm_compute; reflexivity].
Qed.

Lemma thread_Create_ready_witness :
  exists c, demo_thread_res = Ok c /\ ready demo_sender c.
Proof.
  destruct (thread_Create_ready demo_sender 1 0 2 0 demo_no_macs demo_pools [(demo_cap, demo_yaml, 0)]
    (MkTemplate 0 0 1 0 0 0 0 0 0 false) (MkGen 0 0 [] [] false false)) as (c & E & Hr & _).
  - lia.
  - lia.
  - reflexivity.
  - reflexivity.
  - reflexivity.
  - apply Forall_singleton, demo_pool_fits. by left.
  - apply Forall_singleton, demo_pool_fits. by right.
  - apply Forall_singleton. exact demo_source_ok.
  - vm_compute. by split.
  - by exists c.
Defined.

Lemma demo_ready : exists c, demo_thread_res = Ok c /\ ready demo_sender c.
Proof.
  destruct (create_ready demo_sender 1 0 2 0 ltac:(lia) ltac:(lia) demo_no_macs demo_pools [(demo_cap, demo_yaml, 0)]
    (MkTemplate 0 0 1 0 0 0 0 0 0 false) (MkGen 0 0 [] [] false false)) as (c & E & Hr & _); try reflexivity.
  - apply Forall_singleton, demo_pool_fits. by left.
  - apply Forall_singleton, demo_pool_fits. by right.
  - apply Forall_singleton. exact demo_source_ok.
  - vm_compute. by split.
  - by exists c.
Qed.

(** A run that takes the first of the earliest nodes. *)
Section Drive.
Context {G : Type} `{UniformInt G}.
Context (send_node : bool -> Z -> option (list CFlowYamlDpPkt) -> CGenNode -> CFlowPktInfo -> res (Z * bytes * CGenNode)).
Context (o : gen_opts) (junk_node : CGenNode) (junk_tuple : CTupleBase) (mempool_get : gmap Z fnode -> option Z).
Implicit Types (c : CFlowGenListPerThread G).
Notation turn := (turn mempool_get o send_node junk_node junk_tuple).

Definition time_at c (a : Z) : double := match ft_pool c !! a with Some x => fnode_time x | None => double_of_Z 0 end.
Definition top_b c (a : Z) : bool := forallb (fun b => negb (double_ltb (time_at c b) (time_at c a))) (ft_queue c).
Definition pick c : option Z := find (top_b c) (ft_queue c).

Lemma pick_top c a : pick c = Some a -> is_ftop c a.
Proof.
  unfold pick. intros E. apply find_some in E as [Ha Hb]. split; [by apply list_elem_of_In|].
  intros b xa xb Hb' Exa Exb. unfold top_b in Hb. rewrite forallb_forall in Hb.
  specialize (Hb b ltac:(by apply list_elem_of_In)). unfold time_at in Hb. rewrite Exa, Exb in Hb. by apply negb_true_iff in Hb.
Qed.

Fixpoint drive (fuel : nat) (always : bool) (d : double) c : option (nat * CFlowGenListPerThread G) :=
  match fuel with
  | O => None
  | S fuel =>
      match pick c with
      | None => None
      | Some a =>
          match turn (mkTurn (time_at c a) 0 0) always d a c with
          | Ok (true, c) => Some (1%nat, c)
          | Ok (false, c) => match drive fuel always d (receive [] c) with Some (n, c) => Some (S n, c) | None => None end
          | Err _ => None
          end
      end
  end.

Lemma drive_loop fuel always d : forall c n c', drive fuel always d c = Some (n, c') ->
  flush_loop mempool_get o send_node junk_node junk_tuple always d n c c'.
Proof.
  induction fuel as [|fuel IH]; intros c n c'; cbn [drive]; [done|]. destruct (pick c) as [a|] eqn:Ea; [|done].
  destruct (turn _ always d a c) as [[b c1]|] eqn:Et; [|done]. pose proof (pick_top c a Ea) as Ha. destruct b.
  - intros [= <- <-]. by eapply loop_exit.
  - destruct (drive fuel always d (receive [] c1)) as [[m c2]|] eqn:Ed; [|done]. intros [= <- <-].
    eapply loop_turn; [exact Ha|exact Et|]. by apply IH.
Qed.

Definition drive_all (fuel : nat) (th : Z) (delta start duration : double) c : option (nat * CFlowGenListPerThread G) :=
  let d := get_delta_flow_is_sec (ft_cap_gen c) in
  match start_generate mempool_get th delta start c with
  | Err _ => None
  | Ok c0 =>
      match flush_begin mempool_get (double_add (ft_cur_time_sec c0) duration) false c0 with
      | Err _ => None
      | Ok c1 =>
          match drive fuel false d c1 with
          | None => None
          | Some (n, c2) =>
              match drive fuel true d c2 with
              | None => None
              | Some (m, c3) =>
                  match handler_defer_job_flush c3 with
                  | Err _ => None
                  | Ok c4 => match gen_remove_all (ft_queue c4) c4 with Ok c5 => Some (n, c5) | Err _ => None end
                  end
              end
          end
      end
  end.

Lemma drive_all_run fuel th delta start duration c n c' :
  ft_cap_gen c <> [] -> drive_all fuel th delta start duration c = Some (n, c') ->
  generate_stateful mempool_get o send_node junk_node junk_tuple th delta start duration false false n c c'.
Proof.
  intros Hc. unfold drive_all. destruct (start_generate _ _ _ _ c) as [c0|] eqn:E0; [|done].
  destruct (flush_begin _ _ _ c0) as [c1|] eqn:E1; [|done]. destruct (drive _ _ _ c1) as [[n2 c2]|] eqn:E2; [|done].
  destruct (drive _ _ _ c2) as [[m c3]|] eqn:E3; [|done]. destruct (handler_defer_job_flush c3) as [c4|] eqn:E4; [|done].
  destruct (gen_remove_all _ c4) as [c5|] eqn:E5; [|done]. intros [= <- <-].
  eapply (generate_run _ _ _ _ _ _ _ _ _ _ _ n2 m c c0 c2 c4); [exact Hc|exact E0| | |exact E5].
  - eapply flush_run; [exact E1|by eapply drive_loop|done].
  - cbn. eapply flush_run; [|by eapply drive_loop|exact E4]. unfold flush_begin. by rewrite andb_false_r.
Qed.
End Drive.

Definition demo_gen_opts : gen_opts := mkGenOpts false false true 1 false false false.
Definition demo_junk : CTupleBase := MkTuple 0 0 0 0 (MkMac [] UNUSED) 0 0.
Definition demo_drive (c : CFlowGenListPerThread Z) : option (nat * CFlowGenListPerThread Z) :=
  drive_all demo_sender demo_gen_opts demo_node demo_junk next_free 50 0 (double_of_Z 0) (double_of_Z 0) (double_of_Z 0) c.

(** The run ends after two turns and the closing, with one packet, which is sampled. *)
Lemma demo_drive_ends :
  match demo_thread_res with
  | Ok c => match demo_drive c with Some (n, c') => (n =? 2)%nat && (ft_cur_flow_id c' =? 2) | None => false end
  | Err _ => false
  end = true.
Proof. vm_compute. reflexivity. Qed.

Lemma demo_drive_run c n c' : ready demo_sender c -> demo_drive c = Some (n, c') ->
  generate_stateful next_free demo_gen_opts demo_sender demo_node demo_junk 0 (double_of_Z 0) (double_of_Z 0) (double_of_Z 0)
    false false n c c'.
Proof.
  intros Hr. unfold demo_drive. apply drive_all_run.
  destruct (rd_some _ _ Hr) as [H0 _]. intros Hc. by rewrite Hc in H0.
Qed.
Lemma demo_sampling : sampling_ok demo_gen_opts.
Proof. by intros _. Qed.

Lemma run_leaves_nothing_witness :
  exists c c', demo_thread_res = Ok c /\
    generate_stateful next_free demo_gen_opts demo_sender demo_node demo_junk 0 (double_of_Z 0) (double_of_Z 0) (double_of_Z 0)
      false false 2 c c' /\
    ft_pool c' = ∅ /\ ended_story c' (make_flow_id 1 (gen_thread_id c')).
Proof.
  destruct demo_ready as (c & E & Hr). pose proof demo_drive_ends as Hd. rewrite E in Hd.
  destruct (demo_drive c) as [[n c']|] eqn:Ed; [|discriminate]. apply andb_true_iff in Hd as [Hn Hid].
  apply Nat.eqb_eq in Hn as ->. apply Z.eqb_eq in Hid. apply (demo_drive_run c 2 c' Hr) in Ed.
  destruct (run_leaves_nothing demo_sender demo_gen_opts demo_node demo_junk next_free 0 (double_of_Z 0) (double_of_Z 0)
    (double_of_Z 0) 2 c c' Hr demo_sampling ltac:(lia) Ed) as (_ & Hp & _ & _ & _ & _ & Hk & _).
  exists c, c'. split; [exact E|]. split; [exact Ed|]. split; [exact Hp|]. apply Hk. lia.
Defined.

(** What the start leaves. *)
Definition demo_start_ok (c : CFlowGenListPerThread Z) : bool :=
  match start_generate next_free 0 (double_of_Z 0) (double_of_Z 0) c with
  | Ok c0 =>
      double_ltb (double_of_Z 0) (double_add (ft_cur_time_sec c0) (double_of_Z 0)) &&
      match flush_begin next_free (double_add (ft_cur_time_sec c0) (double_of_Z 0)) false c0 with
      | Ok c1 => match ft_from_rx c1 with [] => true | _ => false end
      | Err _ => false
      end
  | Err _ => false
  end.
Lemma demo_starts : match demo_thread_res with Ok c => demo_start_ok c | Err _ => false end = true.
Proof. vm_compute. reflexivity. Qed.

Lemma scheduler_never_fails_witness :
  exists c c1 a b c2, demo_thread_res = Ok c /\ is_ftop c1 a /\
    turn next_free demo_gen_opts demo_sender demo_node demo_junk (mkTurn (double_of_Z 0) 0 0) false
      (get_delta_flow_is_sec (ft_cap_gen c)) a c1 = Ok (b, c2).
Proof.
  destruct demo_ready as (c & E & Hr). pose proof demo_starts as Hd. rewrite E in Hd. unfold demo_start_ok in Hd.
  destruct (scheduler_never_fails demo_sender demo_gen_opts demo_node demo_junk next_free 0 (double_of_Z 0) (double_of_Z 0)
    (double_of_Z 0) c Hr demo_sampling) as [(c0 & c1 & E0 & E1) Hall].
  { intros c0 E0. rewrite E0 in Hd. by apply andb_true_iff in Hd as [? _]. }
  rewrite E0, E1 in Hd. apply andb_true_iff in Hd as [_ Hd]. destruct (ft_from_rx c1) eqn:Erx; [|discriminate].
  destruct (Hall false 0%nat c1) as [[a Ha] Hturn]; [eapply reached_open; [exact E0|exact E1|apply steps_none]|lia|].
  destruct (Hturn (mkTurn (double_of_Z 0) 0 0) a Ha) as (b & c2 & Et); [unfold rx_ok; rewrite Erx; constructor|].
  by exists c, c1, a, b, c2.
Defined.
