(* ===== verification/LatencyThms.v ===== *)
(** * The latency manager at work

    Rounds of packets, a link that loses nothing, losses, and the packets of sampled flows
    on their way to the receive check. *)

From Stdlib Require Import Sorted.
From S2P Require Import Prelude Double ByteMem PktCmn PktCmnFacts PacketHdrs ByteFrame PktDesc PktParser PktParserFacts Histogram PrioQueue TimerWheel RxHeader RxInsert RxInsertFacts RxCheck RxCheckFacts RxCheckThms CapTemplate FlowNode FlowNodeFacts Plugins SendNode NatCheck Latency LatencyFacts LatencyMgr LatencySend.

(** ** A link *)

(** The packets of port [i] among those of a round. *)
Definition on_port (i : Z) (out : list (Z * rte_mbuf)) : list rte_mbuf := snd <$> filter (fun x => fst x = i) out.

Lemma on_port_none i out : i ∉ out.*1 -> on_port i out = [].
Proof.
  unfold on_port. induction out as [|[j b] out IH]; [done|]. cbn [fmap list_fmap fst]. intros [Hne Hni]%not_elem_of_cons.
  rewrite filter_cons, decide_False by (cbn [fst]; congruence). by apply IH.
Qed.
Lemma on_port_one i out : NoDup out.*1 -> i ∈ out.*1 -> exists b, on_port i out = [b] /\ (i, b) ∈ out.
Proof.
  induction out as [|[j b] out IH]; [intros _ Hi; by apply elem_of_nil in Hi|]. cbn [fmap list_fmap fst]. intros [Hnj Hnd]%NoDup_cons Hi.
  unfold on_port. rewrite filter_cons. cbn [fst]. destruct (decide (j = i)) as [->|Hne].
  - exists b. fold (on_port i out). cbn [fmap list_fmap snd]. split; [|apply elem_of_cons; by left].
    f_equal. by apply on_port_none.
  - apply elem_of_cons in Hi as [?|Hi]; [done|]. destruct (IH Hnd Hi) as (b' & E & Hb). exists b'. split; [exact E|].
    apply elem_of_cons. by right.
Qed.

(** The way may change addresses, put a VLAN tag in front, and leave the CRC behind. *)
Definition carried (md : CLatencyPktMode) (b b' : rte_mbuf) : Prop :=
  forall id seq ts iseq, latency_fields md 0 id seq ts iseq (mb_mem b) ->
    exists v, latency_fields md v id seq ts iseq (mb_mem b') /\ latency_len v b'.

Lemma carried_same md b : latency_len 0 b -> carried md b b.
Proof. intros Hb id seq ts iseq Hf. by exists 0. Qed.

(** The packet number [seq] of a port. *)
Definition numbered (md : CLatencyPktMode) (seq : Z) (b : rte_mbuf) : Prop :=
  exists id ts iseq, 0 <= id < 256 /\ latency_fields md 0 id seq ts iseq (mb_mem b).

Section Link.
Context {Q : Type} `{PQueue Q} (o : latency_opts) (start_time : Z).

(** The manager, and the packets of every port that are on their way to its peer. *)
Record link : Type := mkLink { lk_mgr : CLatencyManager Q; lk_fly : Z -> list rte_mbuf }.

(** A round of packets, or the first packet of port [i] arrives at its peer as [x]. *)
Inductive link_event : Type := LkSend (tick : Z) (e : send_env) | LkDeliver (i : Z) (x : rx_item).

Definition link_step (ev : link_event) (s : link) : res link :=
  match ev with
  | LkSend tick e =>
      '(m, out) ← send_pkt_all_ports o tick e (lk_mgr s);
      Ok (mkLink m (fun i => lk_fly s i ++ on_port i out))
  | LkDeliver i x =>
      m ← handle_rx_pkt o start_time (swap_port i) x (lk_mgr s);
      Ok (mkLink m (fun j => if j =? i then tail (lk_fly s i) else lk_fly s j))
  end.
Definition link_run (evs : list link_event) (s : link) : res link :=
  foldl (fun r ev => s ← r; link_step ev s) (Ok s) evs.

Definition link_allowed (ev : link_event) (s : link) : Prop :=
  match ev with
  | LkSend _ e => pool_ok e /\ forall i, se_tx e i = 0
  | LkDeliver i x =>
      0 <= i < mg_max_ports (lk_mgr s) /\
      exists b l, lk_fly s i = b :: l /\ carried (mg_mode (lk_mgr s)) b (ri_buf x)
  end.
Fixpoint link_allows (evs : list link_event) (s : link) : Prop :=
  match evs with
  | [] => True
  | ev :: evs => link_allowed ev s /\ forall s', link_step ev s = Ok s' -> link_allows evs s'
  end.

(** The sender [p], the receiver [q] and what is on the way. *)
Record in_step (md : CLatencyPktMode) (p q : CCPortLatency) (fly : list rte_mbuf) : Prop := {
  is_fly : forall k b, fly !! k = Some b -> numbered md (u32 (lp_rx_seq q + Z.of_nat k)) b;
  is_tx : lp_tx_seq p = u32 (lp_rx_seq q + zlength fly);
  is_cnt : lp_cnt p l_tx_pkt_ok = u64 (lp_cnt q l_pkt_ok + zlength fly);
  is_rx : lp_rx_seq q = u32 (lp_rx_seq q);
  is_ok : lp_cnt q l_pkt_ok = u64 (lp_cnt q l_pkt_ok) }.
Definition no_errors (p : CCPortLatency) : Prop := forall c, c ∈ l_tx_pkt_err :: error_counters -> lp_cnt p c = 0.

Record link_ok (s : link) : Prop := {
  lk_ports : mgr_ok (lk_mgr s);
  lk_in_step : forall i p q, 0 <= i < mg_max_ports (lk_mgr s) ->
    get_port i (lk_mgr s) = Ok p -> get_port (swap_port i) (lk_mgr s) = Ok q ->
    in_step (mg_mode (lk_mgr s)) p q (lk_fly s i);
  lk_clean : forall i p, i < mg_max_ports (lk_mgr s) -> get_port i (lk_mgr s) = Ok p -> no_errors p }.

Lemma link_port s i : mgr_ok (lk_mgr s) -> 0 <= i < mg_max_ports (lk_mgr s) ->
  exists p q, get_port i (lk_mgr s) = Ok p /\ get_port (swap_port i) (lk_mgr s) = Ok q /\
    0 <= swap_port i < mg_max_ports (lk_mgr s) /\ swap_port (swap_port i) = i /\ swap_port i <> i.
Proof.
  intros Hm Hi. destruct (swap_port_peer i _ Hi) as (Hs & Hss & Hne); [apply (mo_max _ Hm)|apply (mo_even _ Hm)|].
  pose proof (mo_size _ Hm). destruct (get_idx_total (mg_ports (lk_mgr s)) i) as [p Hp]; [lia|].
  destruct (get_idx_total (mg_ports (lk_mgr s)) (swap_port i)) as [q Hq]; [lia|]. by exists p, q.
Qed.

(** *** A round *)

Lemma sent_no_errors e i (m : CLatencyManager Q) p :
  (forall i, se_tx e i = 0) -> no_errors p -> no_errors (after_send o e i m p).
Proof.
  intros He Hp c Hc. unfold after_send. rewrite He. destruct (sends o i m); [|by apply Hp]. cbn.
  rewrite lc_inc_ne; [by apply Hp|]. intros ->. set_solver.
Qed.

Lemma in_step_rx md p q q' fly :
  lp_rx_seq q' = lp_rx_seq q -> lp_cnt q' l_pkt_ok = lp_cnt q l_pkt_ok -> in_step md p q fly -> in_step md p q' fly.
Proof. intros E1 E2 [A B C D E]. split; rewrite ?E1, ?E2; done. Qed.

Lemma after_send_rx e i (m : CLatencyManager Q) p :
  (forall i, se_tx e i = 0) ->
  lp_rx_seq (after_send o e i m p) = lp_rx_seq p /\ lp_cnt (after_send o e i m p) l_pkt_ok = lp_cnt p l_pkt_ok.
Proof. intros He. unfold after_send. rewrite He. destruct (sends o i m); [|done]. split; [done|]. cbn. by apply lc_inc_ne. Qed.

Lemma in_step_sent e i (m : CLatencyManager Q) p q fly b :
  (forall i, se_tx e i = 0) -> mgr_ok m -> i < mg_max_ports m -> get_port i m = Ok p -> sends o i m = true ->
  in_step (mg_mode m) p q fly -> port_packet o e m i b ->
  in_step (mg_mode m) (after_send o e i m p) q (fly ++ [b]).
Proof.
  intros He Hm Hi Hp Hs [A B C D E] (p' & Hp' & _ & _ & _ & [_ _ _ _ F _]).
  assert (p' = p) as -> by congruence. destruct (mo_port _ Hm i p Hi Hp) as [_ Hw _ _].
  unfold after_send. rewrite He, Hs. cbn [Z.eqb]. split.
  - intros k b' Hk. apply lookup_app_Some in Hk as [Hk|[Hl Hk]]; [by apply A|].
    apply list_lookup_singleton_Some in Hk as [Hk <-]. replace (Z.of_nat k) with (zlength fly) by (unfold zlength; lia).
    rewrite <- B. do 3 eexists. split; [|exact F]. apply (pw_id _ Hw).
  - cbn. rewrite B. rewrite zlength_app. change (zlength [b]) with 1. unfold u32. rewrite Zplus_mod_idemp_l. f_equal. lia.
  - cbn. rewrite lc_inc_eq, C, zlength_app. change (zlength [b]) with 1. rewrite u64_add_l. f_equal. lia.
  - done.
  - done.
Qed.

Lemma link_send_ok tick e s :
  opts_ok o -> link_ok s -> link_allowed (LkSend tick e) s ->
  exists s', link_step (LkSend tick e) s = Ok s' /\ link_ok s'.
Proof.
  intros Ho [Hm Hst Hcl] [He Htx]. cbn [link_step]. destruct (send_round o e Ho He tick (lk_mgr s) Hm) as (m1 & out & -> & Hr).
  cbn [mbind res_bind]. eexists. split; [reflexivity|].
  destruct Hr as [(g & l & Em & Hg) Hok Hports Hout Hpk]. set (m0 := mg_set_start_time tick (lk_mgr s)) in *.
  assert (Hm0 : mgr_ok m0) by by destruct Hm.
  assert (Hmax : mg_max_ports m1 = mg_max_ports m0 /\ mg_mode m1 = mg_mode m0) by by rewrite Em. destruct Hmax as [Hmax Hmode].
  assert (Hmx : mg_max_ports m0 = mg_max_ports (lk_mgr s)) by done.
  assert (Hnd : NoDup out.*1) by (rewrite Hout; apply NoDup_filter, NoDup_seqZ).
  assert (Hback : forall j p', 0 <= j < mg_max_ports m0 -> get_port j m1 = Ok p' ->
    exists p, get_port j m0 = Ok p /\ p' = after_send o e j m0 p).
  { intros j p' Hj Hp'. destruct (get_idx_total (mg_ports m0) j) as [p Hp]; [pose proof (mo_size _ Hm0); lia|].
    exists p. split; [exact Hp|]. pose proof (Hports j p Hp) as E. rewrite decide_True in E by (apply elem_of_seqZ; lia). congruence. }
  split; cbn [lk_mgr lk_fly].
  - done.
  - intros i p' q' Hi Hp' Hq'. rewrite Hmax in Hi. rewrite Hmode. destruct (link_port s i Hm Hi) as (p & q & Hp & Hq & Hs & _ & _).
    destruct (Hback i p' Hi Hp') as (p1 & Hp1 & ->). destruct (Hback _ q' Hs Hq') as (q1 & Hq1 & ->).
    assert (p1 = p) as -> by (unfold get_port in *; cbn in *; congruence).
    assert (q1 = q) as -> by (unfold get_port in *; cbn in *; congruence).
    destruct (after_send_rx e (swap_port i) m0 q Htx) as [R1 R2]. apply (in_step_rx _ _ q _ _ R1 R2).
    pose proof (Hst i p q Hi Hp Hq) as Hold. destruct (sends o i m0) eqn:Es.
    + assert (Hin : i ∈ out.*1).
      { rewrite Hout. apply list_elem_of_filter. split; [exact Es|]. apply elem_of_seqZ. lia. }
      destruct (on_port_one i out Hnd Hin) as (b & -> & Hb). apply (in_step_sent e i m0); try done; [lia|by apply Hpk].
    + rewrite on_port_none, app_nil_r; [by unfold after_send; rewrite Es|]. rewrite Hout. intros [Hc _]%list_elem_of_filter. congruence.
  - intros i p' Hi Hp'. pose proof (proj1 (proj1 (get_idx_Ok _ _ _) Hp')). rewrite Hmax in Hi. destruct (Hback i p' ltac:(lia) Hp') as (p & Hp & ->).
    apply sent_no_errors; [done|]. by apply (Hcl i).
Qed.

(** *** A delivery *)

Lemma port_ok_received md iseq src i q q' :
  port_ok i q -> 0 <= src < 4294967296 -> seq_seen (lp_rx_seq q) (icmp_seen md iseq (learned o src q)) q' ->
  port_ok i q' /\ lp_rx_seq q' = u32 (lp_rx_seq q + 1) /\ lp_tx_seq q' = lp_tx_seq q /\
  lp_cnt q' = lc_inc l_pkt_ok (lp_cnt q).
Proof.
  intros [Sh [W1 W2 W3 W4] Id Peer] Hsrc [A B C [D1 D2] (E1 & E2 & E3) [F1 F2] G].
  destruct (learned_spec o src q Sh) as (_ & L1 & L2 & L3 & L4 & L5 & L6 & _).
  assert (Hn : 0 <= lp_nat_external_ip (learned o src q) < 4294967296) by (unfold learned; destruct (_ && _); done).
  set (r := learned o src q) in *. assert (Hi : lp_rx_seq (icmp_seen md iseq r) = lp_rx_seq r /\ lp_tx_seq (icmp_seen md iseq r) = lp_tx_seq r /\
    lp_cnt (icmp_seen md iseq r) = lp_cnt r /\ lp_id (icmp_seen md iseq r) = lp_id r /\ lp_rx_port (icmp_seen md iseq r) = lp_rx_port r /\
    lp_nat_external_ip (icmp_seen md iseq r) = lp_nat_external_ip r /\ 0 <= lp_icmp_tx_seq (icmp_seen md iseq r) < 65536).
  { unfold icmp_seen. destruct md; cbn [lp_set_icmp lp_rx_seq lp_tx_seq lp_cnt lp_id lp_rx_port lp_nat_external_ip lp_icmp_tx_seq].
    - rewrite L6. split_and!; try done; lia.
    - split_and!; try done; destruct (iseq =? 0); lia. }
  destruct Hi as (I1 & I2 & I3 & I4 & I5 & I6 & I7).
  split; [|split; [done|split; [congruence|]]].
  - split; [done| |congruence|congruence]. split; [rewrite F1, I4, L4|rewrite B, I2, L2|rewrite D1|rewrite E3, I6]; done.
  - rewrite C, I1, I3, L1, L3, Z.eqb_refl. done.
Qed.

Lemma source_range m ip src : IP_getSourceIp m ip = Ok src -> 0 <= src < 4294967296.
Proof. unfold IP_getSourceIp. intros (v & _ & E)%bind_Ok. injection E as <-. apply PAL_NTOHL_range. Qed.

(** The packet that is expected, on port [j]. *)
Lemma handle_expected j x (m : CLatencyManager Q) q v id ts iseq :
  mgr_ok m -> 0 <= j < mg_max_ports m -> get_port j m = Ok q -> 0 <= id < 256 ->
  latency_fields (mg_mode m) v id (lp_rx_seq q) ts iseq (mb_mem (ri_buf x)) -> latency_len v (ri_buf x) ->
  exists q', handle_rx_pkt o start_time j x m = Ok (mg_set_ports (<[Z.to_nat j := q']> (mg_ports m)) m) /\
    port_ok j q' /\ lp_rx_seq q' = u32 (lp_rx_seq q + 1) /\ lp_tx_seq q' = lp_tx_seq q /\
    lp_cnt q' = lc_inc l_pkt_ok (lp_cnt q).
Proof.
  intros Hm Hj Hq Hid Hf Hl. pose proof (mo_port _ Hm j q ltac:(lia) Hq) as Hpq. pose proof (mo_size _ Hm).
  destruct (check_packet_latency o (mg_mode m) (ri_env x) v id _ ts iseq (ri_buf x) q (mg_nat m) (po_shape _ _ Hpq) Hid Hf Hl)
    as (src & q' & Hsrc & E & Hseen).
  exists q'. split; [|by eapply port_ok_received; [exact Hpq|eapply source_range|]].
  unfold handle_rx_pkt. rewrite Hq. cbn [mbind res_bind]. rewrite E. cbn [mbind res_bind].
  rewrite put_port_Ok by lia. done.
Qed.

(** The sender: [p'] is [p], or what it is after having received. *)
Lemma in_step_tx md p p' q fly :
  lp_tx_seq p' = lp_tx_seq p -> lp_cnt p' l_tx_pkt_ok = lp_cnt p l_tx_pkt_ok -> in_step md p q fly -> in_step md p' q fly.
Proof. intros E1 E2 [A B C D E]. split; rewrite ?E1, ?E2; done. Qed.

Lemma in_step_received md p q q' b l :
  in_step md p q (b :: l) -> lp_rx_seq q' = u32 (lp_rx_seq q + 1) -> lp_cnt q' = lc_inc l_pkt_ok (lp_cnt q) -> in_step md p q' l.
Proof.
  intros [A B C D E] Hr Hc. assert (Hz : zlength (b :: l) = 1 + zlength l) by (unfold zlength; cbn [length]; lia). rewrite Hz in B, C. split.
  - intros k b' Hk. rewrite Hr. unfold u32. rewrite Zplus_mod_idemp_l. specialize (A (S k) b' Hk). unfold u32 in A.
    by replace (lp_rx_seq q + 1 + Z.of_nat k) with (lp_rx_seq q + Z.of_nat (S k)) by lia.
  - rewrite B, Hr. unfold u32. rewrite Zplus_mod_idemp_l. f_equal. lia.
  - rewrite C, Hc, lc_inc_eq, u64_add_l. f_equal. lia.
  - rewrite Hr. symmetry. apply u32_id, u32_range.
  - rewrite Hc, lc_inc_eq. symmetry. apply u64_id, u64_range.
Qed.

Lemma link_deliver_ok i x s :
  link_ok s -> link_allowed (LkDeliver i x) s -> exists s', link_step (LkDeliver i x) s = Ok s' /\ link_ok s'.
Proof.
  intros [Hm Hst Hcl] (Hi & b & l & Hfly & Hcar). cbn [link_step]. destruct (link_port s i Hm Hi) as (p & q & Hp & Hq & Hj & Hjj & Hne).
  set (m := lk_mgr s) in *. set (j := swap_port i) in *. pose proof (Hst i p q Hi Hp Hq) as Hold. rewrite Hfly in Hold.
  destruct (is_fly _ _ _ _ Hold 0%nat b eq_refl) as (id & ts & iseq & Hid & Hf). rewrite Z.add_0_r, <- (is_rx _ _ _ _ Hold) in Hf.
  destruct (Hcar _ _ _ _ Hf) as (v & Hf' & Hlen).
  destruct (handle_expected j x m q v id ts iseq Hm Hj Hq Hid Hf' Hlen) as (q' & -> & Hok & Hrx & Htx & Hcnt).
  cbn [mbind res_bind]. eexists. split; [reflexivity|]. set (m1 := mg_set_ports _ m). pose proof (mo_size _ Hm).
  assert (Hget : forall k, 0 <= k -> get_port k m1 = if k =? j then Ok q' else get_port k m).
  { intros k Hk. apply get_port_put; lia. }
  assert (Htok : lp_cnt q' l_tx_pkt_ok = lp_cnt q l_tx_pkt_ok) by (rewrite Hcnt; by apply lc_inc_ne).
  split; cbn [lk_mgr lk_fly]; change (mg_max_ports m1) with (mg_max_ports m); change (mg_mode m1) with (mg_mode m).
  - replace m1 with (put_sent (mg_pkt_gen m) (<[Z.to_nat j:=q']> (mg_ports m)) m) by (by unfold m1; destruct m).
    apply mgr_ok_put; try done. apply Hm.
  - intros k p1 q1 Hk Hp1 Hq1. destruct (link_port s k Hm Hk) as (pk & qk & Hpk & Hqk & Hsk & Hssk & Hnek).
    rewrite Hget in Hp1 by lia. rewrite Hget in Hq1 by lia. destruct (Z.eqb_spec k i) as [->|Hki].
    + rewrite (proj2 (Z.eqb_neq i j)) in Hp1 by done. fold j in Hq1. rewrite Z.eqb_refl in Hq1. injection Hq1 as <-.
      assert (p1 = p) as -> by congruence. rewrite Hfly. cbn [tail]. by apply (in_step_received _ p q q' b l).
    + rewrite (proj2 (Z.eqb_neq (swap_port k) j)) in Hq1 by (intros E; apply Hki; rewrite <- Hssk, E; done).
      assert (q1 = qk) as -> by (fold m in Hqk; congruence). destruct (Z.eqb_spec k j) as [->|Hkj].
      * injection Hp1 as <-. apply (in_step_tx _ q); [done|done|]. by apply Hst.
      * by apply Hst.
  - intros k p1 Hk Hp1. pose proof (proj1 (proj1 (get_idx_Ok _ _ _) Hp1)). rewrite Hget in Hp1 by lia. destruct (Z.eqb_spec k j) as [->|Hkj].
    + injection Hp1 as <-. intros c Hc. rewrite Hcnt, lc_inc_ne; [|intros ->; set_solver]. by apply (Hcl j q); [lia|done|].
    + by apply (Hcl k).
Qed.

Lemma link_run_ok evs : opts_ok o -> forall s, link_ok s -> link_allows evs s -> exists s', link_run evs s = Ok s' /\ link_ok s'.
Proof.
  intros Ho. unfold link_run. induction evs as [|ev evs IH]; intros s Hs Hal; [by exists s|]. destruct Hal as [Ha Hal].
  assert (Hstep : exists s', link_step ev s = Ok s' /\ link_ok s').
  { destruct ev; [by apply link_send_ok|by apply link_deliver_ok]. }
  destruct Hstep as (s1 & E & Hs1). cbn [foldl mbind res_bind]. rewrite E. by apply IH; [|apply Hal].
Qed.

(** *** The beginning, and the verdict *)

Lemma created_link m :
  mgr_ok m -> (forall i p, i < mg_max_ports m -> get_port i m = Ok p -> exists q, p = lp_Create i 42 34 62 (swap_port i) q) ->
  link_ok (mkLink m (fun _ => [])).
Proof.
  intros Hm Hnew. split; cbn [lk_mgr lk_fly]; [done| |].
  - intros i p q Hi Hp Hq. destruct (swap_port_peer i _ Hi) as (Hs & _); [apply (mo_max _ Hm)|apply (mo_even _ Hm)|].
    destruct (Hnew i p ltac:(lia) Hp) as [p0 ->], (Hnew (swap_port i) q ltac:(lia) Hq) as [q0 ->]. by split.
  - intros i p Hi Hp. destruct (Hnew i p Hi Hp) as [p0 ->]. intros c _. done.
Qed.

Lemma any_error_none ports l :
  (forall p, p ∈ l -> exists rx, get_idx ports (lp_rx_port p) = Ok rx /\ is_any_err p (lp_cnt rx l_pkt_ok) = false) ->
  any_error ports l = Ok false.
Proof.
  induction l as [|p l IH]; [done|]. intros Hl. cbn [any_error]. destruct (Hl p) as (rx & -> & E); [apply elem_of_cons; by left|].
  cbn [mbind res_bind]. rewrite E. apply IH. intros q Hq. apply Hl, elem_of_cons. by right.
Qed.

Lemma link_verdict s : link_ok s -> (forall i, lk_fly s i = []) -> is_any_error (lk_mgr s) = Ok false.
Proof.
  intros [Hm Hst Hcl] Hempty. apply any_error_none. intros p [k Hk]%list_elem_of_lookup.
  unfold ports_in_use in Hk. apply lookup_take_Some in Hk as [Hk Hlt]. pose proof (mo_max _ Hm).
  assert (Hp : get_port (Z.of_nat k) (lk_mgr s) = Ok p) by (apply get_idx_Ok; split; [lia|by rewrite Nat2Z.id]).
  destruct (link_port s (Z.of_nat k) Hm) as (p' & q & Hp' & Hq & _); [lia|]. assert (p' = p) as -> by congruence.
  destruct (mo_port _ Hm (Z.of_nat k) p ltac:(lia) Hp) as [_ _ _ Hpeer]. exists q. split; [by rewrite Hpeer|].
  pose proof (is_cnt _ _ _ _ (Hst (Z.of_nat k) p q ltac:(lia) Hp Hq)) as Hc. pose proof (is_ok _ _ _ _ (Hst (Z.of_nat k) p q ltac:(lia) Hp Hq)) as Hk'.
  rewrite Hempty in Hc. change (zlength []) with 0 in Hc. rewrite Z.add_0_r, <- Hk' in Hc.
  unfold is_any_err. rewrite Hc, Z.eqb_refl. pose proof (Hcl (Z.of_nat k) p ltac:(lia) Hp) as Hz.
  rewrite !Hz by set_solver. reflexivity.
Qed.
End Link.

(** ** Losses *)

(** Of the numbers from [a] up to [n], those of [ks] arrive, in order. *)
Lemma gaps_losses x ks : forall a n,
  StronglySorted Z.lt ks -> Forall (fun k => a <= k < n) ks -> 0 <= n - a < 4294967296 ->
  0 <= gaps (u32 (x + a)) ((fun k => u32 (x + k)) <$> ks) <= n - a - Z.of_nat (length ks) /\
  (gaps (u32 (x + a)) ((fun k => u32 (x + k)) <$> ks) = 0 <-> ks = seqZ a (Z.of_nat (length ks))).
Proof.
  induction ks as [|k ks IH]; intros a n Hs Hr Hn; cbn [fmap list_fmap gaps length].
  - split; [lia|]. by rewrite seqZ_nil.
  - apply StronglySorted_inv in Hs as [Hs Hk]. apply Forall_cons in Hr as [Hka Hr].
    assert (Hr' : Forall (fun k' => k + 1 <= k' < n) ks).
    { apply Forall_forall. intros k' Hk'. rewrite Forall_forall in Hk, Hr. specialize (Hk k' Hk'). specialize (Hr k' Hk'). lia. }
    destruct (IH (k + 1) n Hs Hr') as [H1 H2]; [lia|].
    replace (u32 (u32 (x + k) + 1)) with (u32 (x + (k + 1))) by (unfold u32; rewrite Zplus_mod_idemp_l; f_equal; lia).
    rewrite Nat2Z.inj_succ, seqZ_cons by lia. rewrite Z.pred_succ, <- (Z.add_1_r a).
    assert (Heq : (u32 (x + k) =? u32 (x + a)) = (k =? a)).
    { destruct (Z.eqb_spec k a) as [->|Hne]; [apply Z.eqb_refl|]. apply Z.eqb_neq. intros E. apply Hne.
      unfold u32 in E. Z.div_mod_to_equations. lia. }
    rewrite Heq. destruct (Z.eqb_spec k a) as [->|Hne]; split; try lia.
    + rewrite Z.add_0_l, H2. split; [by intros <-|]. intros E. injection E as E. exact E.
    + split; [lia|]. intros E. injection E as E _. lia.
Qed.

(** C30: losses are counted. When a port gets, in their order, some of the next [n] latency
    packets of its peer, whatever the sequence numbers wrap to, every packet is counted as
    good or as a sequence error, the errors are no more than the packets that are lost, and
    there is none exactly when nothing is missing before the last packet received. *)
Theorem latency_losses_counted (o : latency_opts) (md : CLatencyPktMode) (p : CCPortLatency) (g : CNatRxManager)
    (n : Z) (ks : list Z) (l : list (rx_env * rte_mbuf)) :
  port_shape p -> lp_rx_seq p = u32 (lp_rx_seq p) -> lp_cnt p l_pkt_ok = 0 -> lp_cnt p l_seq_error = 0 ->
  StronglySorted Z.lt ks -> Forall (fun k => 0 <= k < n) ks -> 0 <= n < 4294967296 ->
  Forall2 (latency_item md) ((fun k => u32 (lp_rx_seq p + k)) <$> ks) l ->
  exists p', check_all o md l p g = Ok (p', g) /\
    lp_cnt p' l_pkt_ok + lp_cnt p' l_seq_error = Z.of_nat (length ks) /\
    0 <= lp_cnt p' l_seq_error <= n - Z.of_nat (length ks) /\
    (lp_cnt p' l_seq_error = 0 <-> ks = seqZ 0 (Z.of_nat (length ks))).
Proof.
  intros Hp Hrx Hok Hse Hs Hr Hn Hl.
  destruct (check_all_spec o md _ l p g Hp Hl) as (p' & E & _ & _ & Ee & Ek); [by rewrite Hok|by rewrite Hse|].
  exists p'. split; [exact E|]. destruct (gaps_losses (lp_rx_seq p) ks 0 n Hs Hr) as [H1 H2]; [lia|].
  rewrite Z.add_0_r, <- Hrx in H1, H2. rewrite Hse in Ee. rewrite Hok, length_fmap in Ek.
  pose proof (gaps_range ((fun k => u32 (lp_rx_seq p + k)) <$> ks) (lp_rx_seq p)) as Hg. rewrite length_fmap in Hg.
  rewrite Ee, Ek, !u64_id by lia. split; [lia|]. split; [lia|exact H2].
Qed.

(** ** The header of the receive check *)

(** The values its fields can hold. *)
Record hdr_words (h : CRx_check_header) : Prop := {
  hw_type : 0 <= m_option_type h < 256;
  hw_len : 0 <= m_option_len h < 256;
  hw_magic : 0 <= m_magic h < 65536;
  hw_ts : 0 <= m_time_stamp h < 4294967296;
  hw_flow : 0 <= rx_flow_id h < 18446744073709551616;
  hw_pkt : 0 <= m_pkt_id h < 65536;
  hw_size : 0 <= rx_flow_size h < 65536;
  hw_flags : 0 <= rx_flags h < 256;
  hw_template : 0 <= m_template_id h < 256;
  hw_aging : 0 <= m_aging_sec h < 65536 }.

Lemma ld_in_list n v pre post : ld n (pre ++ le_split n v ++ post) (zlength pre) = Ok (v mod 256 ^ Z.of_nat n).
Proof.
  unfold ld, in_range, zlength. rewrite !length_app, length_le_split. rewrite decide_True by lia.
  rewrite Nat2Z.id, drop_app_length, take_app_length' by (by rewrite length_le_split). f_equal. apply le_combine_split.
Qed.

(** The field of [n] bytes behind [k] others of the header. *)
Lemma ld_field n v k a b h pre post m :
  m = pre ++ rxh_bytes h ++ post -> rxh_bytes h = a ++ le_split n v ++ b -> zlength a = k ->
  0 <= v < 256 ^ Z.of_nat n -> ld n m (zlength pre + k) = Ok v.
Proof.
  intros -> E <- Hv. rewrite E, <- !app_assoc, app_assoc, <- zlength_app, ld_in_list. f_equal. by apply Z.mod_small.
Qed.

Lemma rxh_read_bytes h pre post :
  hdr_words h -> rxh_read (pre ++ rxh_bytes h ++ post) (zlength pre) = Ok h.
Proof.
  intros [H1 H2 H3 H4 H5 H6 H7 H8 H9 H10]. set (m := pre ++ _).
  set (l := rxh_bytes h). unfold rxh_read. rewrite <- (Z.add_0_r (zlength pre)) at 1.
  assert (F : forall n v k, rxh_bytes h = take (Z.to_nat k) l ++ le_split n v ++ drop (Z.to_nat k + n)%nat l ->
    zlength (take (Z.to_nat k) l) = k -> 0 <= v < 256 ^ Z.of_nat n -> ld n m (zlength pre + k) = Ok v)
    by (intros n v k E Hk Hv; by apply (ld_field n v k _ _ h pre post m eq_refl E Hk)).
  rewrite (F 1%nat (m_option_type h) 0), (F 1%nat (m_option_len h) 1), (F 2%nat (m_magic h) 2), (F 4%nat (m_time_stamp h) 4),
    (F 8%nat (rx_flow_id h) 8), (F 2%nat (m_pkt_id h) 16), (F 2%nat (rx_flow_size h) 18), (F 1%nat (rx_flags h) 20),
    (F 1%nat (m_template_id h) 21), (F 2%nat (m_aging_sec h) 22) by (reflexivity || done).
  cbn [mbind res_bind]. by destruct h.
Qed.

(** [b] holds a packet with the header [h], of a protocol that is not the latency packets'. *)
Definition carries (md : CLatencyPktMode) (h : CRx_check_header) (b : rte_mbuf) : Prop :=
  exists q len pkt tl proto, rx_packet h q len pkt /\ agree (zlength pkt) pkt (mb_mem b) /\
    bytes_ok (mb_mem b) /\ 78 <= zlength (mb_mem b) /\ 34 <= len /\
    ETH_getNextProtocol q 0 = Ok ETH_IP /\ IP_getTotalLength q 14 = Ok tl /\
    IP_getProtocol q 14 = Ok proto /\ proto <> 0 /\ proto <> getProtocol md.

Lemma agree_same k m m' n : agree k m m' -> 0 <= n <= k -> agree n m m'.
Proof. intros [A B C] Hn. split; [lia..|]. intros j Hj. apply C. lia. Qed.

Lemma agree_region k m m' off n :
  agree k m m' -> 0 <= off -> 0 <= n -> off + n <= k ->
  take (Z.to_nat n) (drop (Z.to_nat off) m') = take (Z.to_nat n) (drop (Z.to_nat off) m).
Proof.
  intros [A B C] Ho Hn Hk. apply list_eq. intros j. destruct (decide (j < Z.to_nat n)%nat); [|by rewrite !lookup_take_ge by lia].
  rewrite !lookup_take_lt, !lookup_drop by lia.
  replace (Z.to_nat off + j)%nat with (Z.to_nat (off + Z.of_nat j)) by lia.
  rewrite !lookup_in_range by lia. f_equal. apply C. lia.
Qed.

Lemma region_read h m : hdr_words h -> 58 <= zlength m -> take 24 (drop 34 m) = rxh_bytes h -> rxh_read m 34 = Ok h.
Proof.
  intros Hh Hz E. assert (Hm : m = take 34 m ++ rxh_bytes h ++ drop 58 m).
  { rewrite <- E. rewrite <- (take_drop 34 m) at 1. f_equal. rewrite <- (take_drop 24 (drop 34 m)) at 1. by rewrite drop_drop. }
  rewrite Hm. replace 34 with (zlength (take 34 m)); [by apply rxh_read_bytes|].
  unfold zlength in *. rewrite length_take. lia.
Qed.

(** What the receiver sees of it. *)
Record received (md : CLatencyPktMode) (h : CRx_check_header) (m : bytes) : Prop := {
  rv_ip : ip_behind 0 m;
  rv_hlen : IP_getHeaderLength m 14 = Ok 44;
  rv_tlen : exists tl, IP_getTotalLength m 14 = Ok tl;
  rv_proto : exists proto, IP_getProtocol m 14 = Ok proto /\ proto <> 0 /\ proto <> getProtocol md;
  rv_hdr : rxh_read m 34 = Ok h;
  rv_size : 78 <= zlength m }.

Lemma carries_received md h b : carries md h b -> hdr_words h -> received md h (mb_mem b).
Proof.
  intros (q & len & pkt & tl & proto & [A B _ D E _ F _ G] & Ha & Hok & Hz & Hlen & Heth & Htl & Hpr & H0 & Hne) Hh.
  set (m := mb_mem b) in *. assert (Hag : agree 58 pkt m) by (eapply agree_same; [exact Ha|lia]).
  assert (Hq : zlength q >= 24).
  { unfold IP_getProtocol, o_Protocol in Hpr. apply ld_inv in Hpr. unfold in_range in Hpr. lia. }
  assert (Hld : forall n off, 0 <= off -> off + Z.of_nat n <= 14 \/ (off = 23 /\ n = 1%nat) -> ld n m off = ld n q off).
  { intros n off Ho Hr. rewrite (agree_ld n 58 pkt m off Hag) by lia. unfold ld. rewrite !decide_True by (unfold in_range; lia). do 2 f_equal.
    apply list_eq. intros j. destruct (decide (j < n)%nat); [|by rewrite !lookup_take_ge by lia].
    rewrite !lookup_take_lt, !lookup_drop by lia. replace (Z.to_nat off + j)%nat with (Z.to_nat (off + Z.of_nat j)) by lia.
    rewrite !lookup_in_range by lia. f_equal. apply G; lia. }
  split.
  - left. split; [done|]. unfold ETH_getNextProtocol, get_be16 in *. by rewrite Hld by lia.
  - rewrite IP_getHeaderLength_eq in D |- * by (done || lia). unfold ihl in *. by rewrite (agree_byte 58 pkt m) by (done || lia).
  - unfold IP_getTotalLength, o_Length in *. rewrite (agree_ld 2 58 pkt m) by (done || lia). rewrite E, Htl. by eexists.
  - exists proto. split; [|done]. unfold IP_getProtocol, o_Protocol in *. by rewrite Hld by lia.
  - apply region_read; [done|lia|]. rewrite <- F. exact (agree_region 58 pkt m 34 24 Hag ltac:(lia) ltac:(lia) ltac:(lia)).
  - done.
Qed.

Lemma option_loop_rx n o e m ip off p g :
  lo_rx_check o = true -> ld8 m off = Ok 0x57 ->
  option_loop (S (S n)) o e m ip off 24 None p g = Ok (true, Some off, lp_inc l_rx_check p, g).
Proof. intros Ho Hty. cbn [option_loop]. rewrite Hty. cbn [mbind res_bind]. rewrite Ho. reflexivity. Qed.

(** The check of the port lets it through and finds the header. *)
Lemma check_packet_received o md e h b p g :
  lo_rx_check o = true -> m_option_type h = RX_CHECK_V4_OPT_TYPE -> received md h (mb_mem b) ->
  check_packet o md e b p g = Ok (true, Some 34, lp_inc l_rx_check p, g).
Proof.
  intros Ho Ht [Hip Hh [tl Htl] (proto & Hp & H0 & Hne) Hr Hz]. unfold check_packet. set (m := mb_mem b) in *.
  rewrite (Parse_ip4 0 m 44 proto Hip Hh Hp). rewrite (proj2 (Z.eqb_neq proto 0)) by done. cbn [negb mbind res_bind].
  unfold getPktSize. cbn [sp_ipv6 sp_ipv4 sp_l4 sp_vlan_offset]. change (14 + 0) with 14. rewrite Htl. cbn [mbind res_bind mode_IsLatencyPkt].
  rewrite Hp. cbn [mbind res_bind]. rewrite (proj2 (Z.eqb_neq proto _)) by done.
  unfold parser_IsLatencyPkt, l4_header_len. rewrite ld_Ok by (unfold in_range; lia). cbn [mbind res_bind andb negb].
  unfold check_other. cbn [sp_ipv6 sp_ipv4]. unfold IP_getOptionLen. rewrite Hh. cbn [mbind res_bind].
  assert (Hty : ld8 m 34 = Ok 0x57).
  { unfold rxh_read in Hr. apply bind_Ok in Hr as (ty & E & Hr). repeat apply bind_Ok in Hr as (? & _ & Hr). injection Hr as <-.
    cbn in Ht. by rewrite E, Ht. }
  change (14 + IPV4_HDR_LEN) with 34. change (u8 (44 - IP_DefaultSize)) with 24. by apply (option_loop_rx 31).
Qed.

(** The values of the header that the generator makes. *)
Lemma rxcheck_header_words d nf ts ty len single :
  0 <= nf < 18446744073709551616 -> 0 <= ts < 4294967296 -> 0 <= ty < 256 -> 0 <= len < 256 ->
  0 <= GetMaxFlowTimeout d < 65536 -> hdr_words (rxcheck_header d nf ts ty len single).
Proof.
  intros Hn Hts Hty Hlen Ha. assert (Hfl : 0 <= Z.lor nf (u64 (Z.shiftl (Z.land (getFlowId d) 0xf) 52)) < 18446744073709551616).
  { pose proof (u64_range (Z.shiftl (Z.land (getFlowId d) 0xf) 52)) as Hu. set (x := u64 _) in *.
    split; [apply Z.lor_nonneg; lia|]. change 18446744073709551616 with (2 ^ 64) in *.
    destruct (Z.eq_dec (Z.lor nf x) 0) as [->|]; [lia|]. apply Z.log2_lt_pow2; [pose proof (Z.lor_nonneg nf x); lia|].
    rewrite Z.log2_lor by lia. apply Z.max_lub_lt.
    - destruct (Z.eq_dec nf 0) as [->|]; [done|apply Z.log2_lt_pow2; lia].
    - destruct (Z.eq_dec x 0) as [->|]; [done|apply Z.log2_lt_pow2; lia]. }
  assert (Hfg : forall a b, 0 <= rx_flags (RxHeader.set_both_dir a (RxHeader.set_dir b (mkRxHeader 0 0 0 0 0 0 0 0 0 0))) < 256).
  { intros a b. unfold RxHeader.set_both_dir, RxHeader.set_dir. destruct (a =? 0), (b =? 0); vm_compute; split; congruence. }
  pose proof (u16_range (getFlowPktNum d)). pose proof (u16_range (GetMaxPktsPerFlow d)).
  pose proof (u16_range (m_dir_pkt_num (GetDirInfo d))). pose proof (u16_range (m_max_dir_flow_pkts (GetDirInfo d))).
  pose proof (u8_range (desc_getId d)). assert (Hmg : 0 <= RX_CHECK_MAGIC < 65536) by done. unfold rxcheck_header. destruct single.
  - by split.
  - split; try done. apply (Hfg (b2z (IsBiDirectionalFlow d)) (b2z (IsInitSide d))).
Qed.

(** ** From the generator to the receive check *)

(** The packet [p] that a core sends for a sampled flow of an IPv4 template, TCP or UDP,
    and the header in it. *)
Inductive sampled : CRx_check_header -> bytes -> Prop :=
  | sampled_sent inet_ntop6 rand pool_get po mem mo port_of_dir tick can_cache cache_left plugin_id dp n lp proto d p n' :
      pool_get FIRST_PKT_SIZE = Some mem -> bytes_ok mem -> zlength mem = FIRST_PKT_SIZE ->
      plain_packet lp -> macs_ok mo n -> get_cache_mbuf n = Ok None -> is_rx_check_enabled n = true ->
      ETH_getNextProtocol (raw (fpi_packet lp)) 0 = Ok ETH_IP ->
      IP_getProtocol (raw (fpi_packet lp)) 14 = Ok proto -> proto = 6 \/ proto = 17 ->
      0 <= tick < 4294967296 -> 0 <= n_flow_id n < 18446744073709551616 ->
      0 <= GetMaxFlowTimeout (fpi_desc lp) < 65536 ->
      core_send_node inet_ntop6 rand pool_get po mo port_of_dir tick can_cache cache_left plugin_id dp n lp = Ok (d, p, n') ->
      sampled (rxcheck_header (fpi_desc lp) (n_flow_id n) tick RX_CHECK_V4_OPT_TYPE RX_CHECK_V4_OPT_LEN
                 (get_is_all_flow_from_same_dir n)) p.

Lemma sampled_carries md h p b :
  sampled h p -> agree (zlength p) p (mb_mem b) -> bytes_ok (mb_mem b) -> 78 <= zlength (mb_mem b) ->
  carries md h b /\ hdr_words h /\ m_option_type h = RX_CHECK_V4_OPT_TYPE.
Proof.
  intros Hs Ha Hok Hz. destruct Hs as [inet_ntop6 rand pool_get po mem mo port_of_dir tick can_cache cache_left plugin_id dp n lp proto d p n'
    Hpool Hmem Hsize Hpl Hmo Hc Hrx Heth Hpr Hp Ht Hf Hag E].
  destruct (core_send_spec inet_ntop6 rand pool_get po mem Hpool Hmem Hsize mo port_of_dir tick can_cache cache_left plugin_id dp n lp Hpl Hmo Hc)
    as (p1 & n1 & E1 & (q & Hq & _ & Hsent)).
  rewrite Hrx in Hsent. destruct Hsent as [Hpk _]. assert (p1 = p) as -> by congruence.
  split; [|split; [apply rxcheck_header_words; try done; split; done|]].
  2: { unfold rxcheck_header. by destruct (get_is_all_flow_from_same_dir n). }
  pose proof (l4_place lp (pp_template _ Hpl)) as Hl4. pose proof (vh_in _ _ (vt_hdr _ (pp_template _ Hpl))) as Hin.
  destruct Hq as [_ F]. pose proof (fr_len _ _ _ F) as Hzq.
  assert (Hap : forall f k, f = 12 /\ k = 2 \/ f = 16 /\ k = 2 \/ f = 23 /\ k = 1 ->
    apart f k ((0, 12) :: rewritten_regions (po_learn po) lp)).
  { intros f k Hfk. unfold rewritten_regions, port_place.
    destruct (IsInitSide (fpi_desc lp)), (IsTcp (fpi_desc lp)), (po_learn po && IsLearn (fpi_desc lp)); apart_tac. }
  destruct (pp_length _ Hpl) as (tl & Htl & _).
  exists q, (zlength q), p, tl, proto. split_and!; try done; try lia.
  - unfold ETH_getNextProtocol in *. change (0 + 12) with 12 in *. rewrite (frame_be16 _ _ _ _ F); [done|]. apply Hap. lia.
  - unfold IP_getTotalLength, o_Length in *. rewrite (frame_ld 2 _ _ _ _ F); [done|]. apply Hap. lia.
  - unfold IP_getProtocol, o_Protocol in *. rewrite (frame_ld 1 _ _ _ _ F); [done|]. apply Hap. lia.
  - destruct md; cbn; lia.
Qed.

(** A received packet and the event of the receive check it stands for. *)
Definition delivered (x : rx_item) (ev : rx_event) : Prop :=
  ev_tick ev = ri_tick x /\ ev_tick32 ev = ri_tick32 x /\
  exists p, sampled (ev_hdr ev) p /\ agree (zlength p) p (mb_mem (ri_buf x)) /\
    bytes_ok (mb_mem (ri_buf x)) /\ 78 <= zlength (mb_mem (ri_buf x)).

Section Reach.
Context {Q : Type} `{PQueue Q} (o : latency_opts) (start_time : Z) (Ho : lo_rx_check o = true).
Implicit Types (m : CLatencyManager Q).

Lemma handle_sampled j x ev m q :
  get_port j m = Ok q -> delivered x ev ->
  handle_rx_pkt o start_time j x m =
    (r ← handle_packet start_time (ev_tick ev) (ev_tick32 ev) (ev_hdr ev) (mg_rx_check m);
     Ok (mg_set_checks r (mg_nat m) (mg_set_ports (<[Z.to_nat j := lp_inc l_rx_check q]> (mg_ports m)) m))).
Proof using Ho.
  intros Hq (-> & -> & p & Hs & Ha & Hok & Hz).
  destruct (sampled_carries (mg_mode m) _ p (ri_buf x) Hs Ha Hok Hz) as (Hc & Hw & Ht).
  pose proof (carries_received _ _ _ Hc Hw) as Hr. unfold handle_rx_pkt. rewrite Hq. cbn [mbind res_bind].
  rewrite (check_packet_received o (mg_mode m) (ri_env x) (ev_hdr ev) (ri_buf x) q (mg_nat m) Ho Ht Hr). cbn [mbind res_bind].
  assert (Hj : 0 <= j < zlength (mg_ports m)).
  { apply get_idx_Ok in Hq as [H0 Hl]. apply lookup_lt_Some in Hl. unfold zlength. lia. }
  rewrite put_port_Ok by done. cbn [mbind res_bind]. rewrite (rv_hdr _ _ _ Hr). cbn [mbind res_bind]. done.
Qed.

Lemma handle_sampled_list j items : forall evs m q,
  get_port j m = Ok q -> Forall2 delivered items evs ->
  handle_rx_list o start_time j items m =
    (r ← run_events start_time evs (mg_rx_check m);
     Ok (mg_set_checks r (mg_nat m)
           (mg_set_ports (<[Z.to_nat j := Nat.iter (length items) (lp_inc l_rx_check) q]> (mg_ports m)) m))).
Proof using Ho.
  unfold handle_rx_list. induction items as [|x items IH]; intros evs m q Hq Hall.
  - apply Forall2_nil_inv_l in Hall as ->. cbn [foldl length Nat.iter run_events mbind res_bind].
    rewrite list_insert_id by by apply get_idx_Ok in Hq as [_ Hq]. by destruct m.
  - apply Forall2_cons_inv_l in Hall as (ev & evs' & Hx & Hall & ->). cbn [run_events foldl]. cbn [mbind res_bind].
    rewrite (handle_sampled j x ev m q Hq Hx).
    destruct (handle_packet start_time (ev_tick ev) (ev_tick32 ev) (ev_hdr ev) (mg_rx_check m)) as [r1|err]; cbn [mbind res_bind].
    2: { clear. by induction items. }
    assert (Hj : 0 <= j < zlength (mg_ports m)).
    { apply get_idx_Ok in Hq as [H0 Hl]. apply lookup_lt_Some in Hl. unfold zlength. lia. }
    rewrite (IH evs' _ (lp_inc l_rx_check q)).
    + cbn [mg_ports mg_set_checks mg_set_ports]. rewrite list_insert_insert_eq. cbn [length].
      rewrite Nat.iter_succ_r. reflexivity.
    + change (get_port j (mg_set_checks r1 (mg_nat m) (mg_set_ports (<[Z.to_nat j:=lp_inc l_rx_check q]> (mg_ports m)) m)))
        with (get_port j (mg_set_ports (<[Z.to_nat j:=lp_inc l_rx_check q]> (mg_ports m)) m)).
      rewrite get_port_put by lia. by rewrite Z.eqb_refl.
    + exact Hall.
Qed.
End Reach.

(** C6: what the cores send for sampled flows of plain templates is what is checked. Take
    packets that [core_send_node] sends for sampled flows whose packets are IPv4 ones of TCP
    or UDP without IP options and concern no plugin (so no learn packets and no IPv6), made
    from a full buffer of the pool and not kept from an earlier turn, with a time-out of the
    flow below 65536 and words of their width for the clock and the number of the flow.
    However long the buffers they arrive in at a port are, from 78 bytes on: the port counts
    each of them for the receive check, nothing else of the port or of the other ports
    changes, and the receive check takes them as exactly the headers that the generator put
    in. *)
Theorem sampled_packets_reach_check {Q : Type} `{PQueue Q} (o : latency_opts) (start_time j : Z) (items : list rx_item)
    (evs : list rx_event) (m : CLatencyManager Q) (q : CCPortLatency) :
  lo_rx_check o = true -> get_port j m = Ok q -> Forall2 delivered items evs ->
  handle_rx_list o start_time j items m =
    (r ← run_events start_time evs (mg_rx_check m);
     Ok (mg_set_checks r (mg_nat m)
           (mg_set_ports (<[Z.to_nat j := Nat.iter (length items) (lp_inc l_rx_check) q]> (mg_ports m)) m))).
Proof. intros Ho. by apply handle_sampled_list. Qed.

(** C29: a round of latency packets. With addresses for the ports and buffers in the pool,
    [send_pkt_all_ports] succeeds, and the ports that send are those that are enabled and may,
    in their order, one packet each. The packet is that of the mode with the MAC addresses of
    the port, the addresses of the port pair, right checksums, the port's number and clock and
    the ICMP type and number of the mode; the port goes on to the next numbers and counts the
    packet, and the manager stays well-formed. *)
Theorem latency_round_ok {Q : Type} `{PQueue Q} (o : latency_opts) (e : send_env) (tick : Z) (m : CLatencyManager Q) :
  opts_ok o -> pool_ok e -> mgr_ok m ->
  exists m1 out, send_pkt_all_ports o tick e m = Ok (m1, out) /\ mgr_ok m1 /\
    fst <$> out = filter (fun i => sends o i m = true) (port_ids m) /\
    (forall i b, (i, b) ∈ out -> port_packet o e m i b) /\
    (forall i p, 0 <= i < mg_max_ports m -> get_port i m = Ok p -> get_port i m1 = Ok (after_send o e i m p)).
Proof.
  intros Ho He Hm. destruct (send_round o e Ho He tick m Hm) as (m1 & out & E & [_ Hok Hp Hout Hpk]).
  exists m1, out. split; [exact E|]. split; [exact Hok|]. split; [exact Hout|]. split; [exact Hpk|].
  intros i p Hi Hget. specialize (Hp i p Hget). rewrite decide_True in Hp; [exact Hp|]. apply elem_of_seqZ. lia.
Qed.

(** C7: over links that lose nothing, no error is reported. From the ports that [Create] makes,
    in every mode, through any rounds of packets and deliveries in order, on a way that may
    translate addresses, put VLAN tags in front or leave the CRC behind: nothing fails, no port
    ever counts an error, what is on the way from a port is what its peer expects next, and
    whenever nothing is on the way [is_any_error] says so. *)
Theorem lossless_link_no_error {Q : Type} `{PQueue Q} (o : latency_opts) (start_time : Z) (cfg : CLatencyManagerCfg)
    (threads tick : Z) (old : CLatencyManager Q) (evs : list link_event) :
  opts_ok o -> 0 <= cfg_max_ports cfg <= MAX_LATENCY_PORTS -> cfg_max_ports cfg mod 2 = 0 ->
  zlength (mg_ports old) = MAX_LATENCY_PORTS ->
  0 <= cfg_client_ip cfg < 4294967296 -> 0 <= cfg_server_ip cfg < 4294967296 ->
  exists m, LatencyManager_Create o start_time cfg threads tick old = Ok m /\
    (link_allows o start_time evs (mkLink m (fun _ => [])) ->
     exists s, link_run o start_time evs (mkLink m (fun _ => [])) = Ok s /\
       (forall i p q, 0 <= i < mg_max_ports (lk_mgr s) -> get_port i (lk_mgr s) = Ok p ->
          get_port (swap_port i) (lk_mgr s) = Ok q ->
          no_errors p /\ in_step (mg_mode (lk_mgr s)) p q (lk_fly s i)) /\
       ((forall i, lk_fly s i = []) -> is_any_error (lk_mgr s) = Ok false)).
Proof.
  intros Ho Hm He Hz Hc Hs.
  destruct (LatencyManager_Create_spec o start_time cfg threads tick old Hm He Hz Hc Hs) as (m & E & Hok & _ & _ & Hnew).
  exists m. split; [exact E|]. intros Hal.
  destruct (link_run_ok o start_time evs Ho _ (created_link m Hok Hnew) Hal) as (s & Er & Hls).
  exists s. split; [exact Er|]. split; [|by apply link_verdict]. intros i p q Hi Hp Hq.
  split; [apply (lk_clean _ Hls i); [lia|done]|by apply (lk_in_step _ Hls)].
Qed.

(** ** Two ports in the ICMP mode with replies *)

Definition lat_cfg : CLatencyManagerCfg := mkLatencyCfg 2 (double_of_Z 10) 0x10000000 0x20000000 0x01000000.
Definition lat_opts : latency_opts := mkLatencyOpts 2 false true (fun i => [1; 2; 3; 4; 5; 6; 1; 2; 3; 4; 5; 7 + i]).
Definition lat_env : send_env := mkSendEnv (fun _ => 1000) (fun _ => 0) (fun _ _ => Some (replicate 64 0)).
Definition lat_rx_env : rx_env := mkRxEnv 5000 (double_of_Z 0) true (fun _ => true).

(** Memory that nothing has used. *)
Definition lat_old_hist : CTimeHistogram :=
  let z := double_of_Z 0 in mkHist z 0 0 z z z z 0 [] [] [] 0 0.
Definition lat_old : CLatencyManager (list Z) :=
  let i := mkInd (double_of_Z 0) (mkRaw [] 0 0 0 0) None None false None None 0 0 FlowKey_clean
             (mkDesc 0 0 0 0 0 PerDir_new PerDir_new) 0 0 0 0 in
  let p := mkLatencyPort 0 false false 0 0 0 0 0 0 0 0 0 lc_clear lat_old_hist CJitter_reset in
  mkLatencyMgr (ModeSCTP 0) (mkLatencyPkt 0 0 0 latency_node (mkPktInfo i None) i) (replicate 12 p) (double_of_Z 0)
    (double_of_Z 0) 0 0 0 (RxCheckManager_Create lat_old_hist) (NatCheck.Create 1 nat_stats_reset) false.

Definition lat_mgr : CLatencyManager (list Z) :=
  match LatencyManager_Create lat_opts 0 lat_cfg 1 0 lat_old with Ok m => m | Err _ => lat_old end.
Definition lat_new : link := mkLink lat_mgr (fun _ => []).
(** Port 0 sends; its packet arrives; then both ports send. *)
Definition lat_link (ev : link_event) (s : link) : link :=
  match link_step lat_opts 0 ev s with Ok s' => s' | Err _ => s end.
Definition lat_sent : link := lat_link (LkSend 5 lat_env) lat_new.
Definition lat_item : rx_item := mkRxItem (default (mkMbuf [] 0 []) (head (lk_fly lat_sent 0))) lat_rx_env 0 0.
Definition lat_arrived : link := lat_link (LkDeliver 0 lat_item) lat_sent.
Definition lat_events : list link_event := [LkSend 5 lat_env; LkDeliver 0 lat_item; LkSend 6 lat_env].

Lemma lat_step1 : link_step lat_opts 0 (LkSend 5 lat_env) lat_new = Ok lat_sent.
Proof. unfold lat_sent, lat_link. destruct (link_step lat_opts 0 (LkSend 5 lat_env) lat_new) eqn:E; [done|]. vm_compute in E. discriminate. Qed.
Lemma lat_step2 : link_step lat_opts 0 (LkDeliver 0 lat_item) lat_sent = Ok lat_arrived.
Proof. unfold lat_arrived, lat_link. destruct (link_step lat_opts 0 (LkDeliver 0 lat_item) lat_sent) eqn:E; [done|]. vm_compute in E. discriminate. Qed.

Lemma lat_pool : pool_ok lat_env.
Proof. intros i. exists (replicate 64 0). split; [done|]. split; [|done]. apply Forall_replicate. unfold byte_ok. lia. Qed.
Lemma lat_opts_ok : opts_ok lat_opts.
Proof.
  intros k Hk. unfold MAX_LATENCY_PORTS in Hk. unfold lat_opts. cbn [lo_dst_src]. split; [repeat constructor; lia|done].
Qed.

Lemma step_is {A} (r : res A) a b : r = Ok a -> r = Ok b -> b = a.
Proof. congruence. Qed.

Lemma lat_allows : link_allows lat_opts 0 lat_events lat_new.
Proof.
  split; [split; [exact lat_pool|done]|]. intros s1 E1. apply (step_is _ _ _ lat_step1) in E1 as ->.
  split.
  { split; [vm_compute; split; congruence|]. exists (ri_buf lat_item), []. split; [vm_compute; reflexivity|].
    apply carried_same. left. vm_compute. reflexivity. }
  intros s2 E2. apply (step_is _ _ _ lat_step2) in E2 as ->.
  split; [split; [exact lat_pool|done]|done].
Qed.

Lemma lossless_link_no_error_witness :
  exists m, LatencyManager_Create lat_opts 0 lat_cfg 1 0 lat_old = Ok m /\
    exists s, link_run lat_opts 0 lat_events (mkLink m (fun _ => [])) = Ok s.
Proof.
  destruct (lossless_link_no_error lat_opts 0 lat_cfg 1 0 lat_old lat_events) as (m & E & H);
    [exact lat_opts_ok|vm_compute; split; congruence|reflexivity|reflexivity|vm_compute; split; congruence|vm_compute; split; congruence|].
  exists m. split; [exact E|]. destruct H as (s & Er & _).
  - assert (m = lat_mgr) as -> by (unfold lat_mgr; by rewrite E). exact lat_allows.
  - by exists s.
Defined.

(** Port 0 sends in the first round, port 1 only after the request has come. *)
Lemma lat_replies :
  length (lk_fly lat_sent 0) = 1%nat /\ lk_fly lat_sent 1 = [] /\
  length (lk_fly (lat_link (LkSend 6 lat_env) lat_arrived) 1) = 1%nat /\
  is_any_error (lk_mgr lat_arrived) = Ok false /\ is_any_error (lk_mgr lat_sent) = Ok true.
Proof. split_and!; vm_compute; reflexivity. Qed.

Lemma lat_mgr_ok : mgr_ok lat_mgr.
Proof.
  destruct (LatencyManager_Create_spec lat_opts 0 lat_cfg 1 0 lat_old) as (m & E & Hm & _);
    [vm_compute; split; congruence|reflexivity|reflexivity|vm_compute; split; congruence|vm_compute; split; congruence|].
  unfold lat_mgr. by rewrite E.
Qed.

Lemma latency_round_ok_witness :
  exists m1 out, send_pkt_all_ports lat_opts 5 lat_env lat_mgr = Ok (m1, out) /\ fst <$> out = [0].
Proof.
  destruct (latency_round_ok lat_opts lat_env 5 lat_mgr lat_opts_ok lat_pool lat_mgr_ok) as (m1 & out & E & _ & Hout & _).
  exists m1, out. split; [exact E|]. rewrite Hout. vm_compute. reflexivity.
Defined.

(** A latency packet with the number [seq], before the port's addresses and checksum. *)
Definition lat_packet (seq : Z) : rte_mbuf :=
  mkMbuf (take 50 icmp_pkt ++ le_split 4 (Z.lor LATENCY_MAGIC 0) ++ le_split 4 seq ++ drop 58 icmp_pkt) 62 [].
Lemma lat_packet_item seq : seq ∈ [5; 6; 8] -> latency_item (ModeICMP 2) seq (lat_rx_env, lat_packet seq).
Proof.
  assert (H : forall b, bool_decide (bytes_ok b) = true -> bytes_ok b) by (intros b; apply bool_decide_eq_true).
  intros Hs. repeat (apply elem_of_cons in Hs as [->|Hs]); [..|by apply elem_of_nil in Hs];
    (exists 0, 0, 0x44332211, 0; split; [lia|]; split; [|left; vm_compute; reflexivity]);
    (split; [| | |vm_compute; reflexivity..]); try (vm_compute; congruence); try (left; split; vm_compute; reflexivity);
    repeat constructor; vm_compute; congruence.
Qed.

(** The packets 5, 6 and 8: 7 is lost. *)
Lemma latency_losses_counted_witness :
  let p := lp_set_seqs 5 5 (lp_Create 1 42 34 62 0 (mkLatencyPort 0 false false 0 0 0 0 0 0 0 0 0 lc_clear lat_old_hist CJitter_reset)) in
  exists p', check_all lat_opts (ModeICMP 2) ((fun s => (lat_rx_env, lat_packet s)) <$> [5; 6; 8]) p (NatCheck.Create 1 nat_stats_reset) =
      Ok (p', NatCheck.Create 1 nat_stats_reset) /\
    lp_cnt p' l_pkt_ok + lp_cnt p' l_seq_error = 3 /\ 0 <= lp_cnt p' l_seq_error <= 1.
Proof.
  intros p. destruct (latency_losses_counted lat_opts (ModeICMP 2) p (NatCheck.Create 1 nat_stats_reset) 4 [0; 1; 3]
    ((fun s => (lat_rx_env, lat_packet s)) <$> [5; 6; 8])) as (p' & E & H1 & H2 & _).
  - destruct (lp_Create_ok 1 (mkLatencyPort 0 false false 0 0 0 0 0 0 0 0 0 lc_clear lat_old_hist CJitter_reset)) as [[A B C D] _ _ _];
      [vm_compute; split; congruence|]. by split.
  - reflexivity.
  - reflexivity.
  - reflexivity.
  - repeat constructor; lia.
  - repeat constructor; lia.
  - lia.
  - repeat constructor; apply lat_packet_item; repeat (apply elem_of_cons; (by left) || right).
  - exists p'. split; [exact E|]. split; [exact H1|exact H2].
Defined.

(** The packet of [demo_node], sampled, in a buffer of the driver. *)
Definition lat_node : CGenNode := node_set_rx_check demo_node.
Definition lat_sampled : bytes :=
  match core_send_node (fun _ => []) (fun _ => 0) demo_pool demo_opts demo_macs (fun d => d) 0 true true 0 None lat_node demo_lp with
  | Ok (_, p, _) => p
  | Err _ => []
  end.
Definition lat_header : CRx_check_header :=
  rxcheck_header (fpi_desc demo_lp) (n_flow_id lat_node) 0 RX_CHECK_V4_OPT_TYPE RX_CHECK_V4_OPT_LEN (get_is_all_flow_from_same_dir lat_node).
Definition lat_sampled_item : rx_item := mkRxItem (mkMbuf (lat_sampled ++ replicate 428 0) (zlength lat_sampled) []) lat_rx_env 7 8.

Lemma lat_sampled_ok : sampled lat_header lat_sampled.
Proof.
  destruct (core_send_node (fun _ => []) (fun _ => 0) demo_pool demo_opts demo_macs (fun d => d) 0 true true 0 None lat_node demo_lp)
    as [[[d p] n']|] eqn:E; [|vm_compute in E; discriminate].
  assert (lat_sampled = p) as -> by (unfold lat_sampled; by rewrite E).
  apply (sampled_sent (fun _ => []) (fun _ => 0) demo_pool demo_opts (replicate 64 0) demo_macs (fun d => d) 0 true true 0 None lat_node
    demo_lp 17 d p n').
  - reflexivity.
  - apply Forall_replicate. unfold byte_ok. lia.
  - reflexivity.
  - exact demo_plain.
  - split; [|done|done]. intros k. split; [repeat constructor; lia|vm_compute; congruence].
  - vm_compute. reflexivity.
  - vm_compute. reflexivity.
  - vm_compute. reflexivity.
  - vm_compute. reflexivity.
  - by right.
  - lia.
  - vm_compute. split; congruence.
  - vm_compute. split; congruence.
  - exact E.
Qed.

Lemma lat_delivered : delivered lat_sampled_item (mkEvent 7 8 lat_header).
Proof.
  split; [done|]. split; [done|]. exists lat_sampled. split; [exact lat_sampled_ok|]. split; [|split].
  - pose proof (agree_app_take (zlength lat_sampled) lat_sampled (replicate 428 0)) as Ha.
    rewrite take_ge in Ha by (unfold zlength; lia). apply Ha. unfold zlength. lia.
  - cbn [lat_sampled_item ri_buf mb_mem]. apply Forall_app. split; [|apply Forall_replicate; unfold byte_ok; lia].
    vm_compute. repeat constructor; congruence.
  - vm_compute. congruence.
Qed.

Lemma sampled_packets_reach_check_witness :
  exists r, handle_rx_list lat_opts 0 1 [lat_sampled_item] lat_mgr = Ok r /\ RxCheck.m_stats (tables (mg_rx_check r)) RxCheck.m_total_rx = 1.
Proof.
  destruct (get_port 1 lat_mgr) as [q|] eqn:Eq; [|vm_compute in Eq; discriminate].
  rewrite (sampled_packets_reach_check lat_opts 0 1 [lat_sampled_item] [mkEvent 7 8 lat_header] lat_mgr q); [|reflexivity|exact Eq|].
  - destruct (run_events 0 [mkEvent 7 8 lat_header] (mg_rx_check lat_mgr)) as [r|] eqn:E; [|vm_compute in E; discriminate].
    eexists. split; [reflexivity|]. cbn [mg_rx_check mg_set_checks].
    assert (Hr : (r ← run_events 0 [mkEvent 7 8 lat_header] (mg_rx_check lat_mgr); Ok (RxCheck.m_stats (tables r) RxCheck.m_total_rx)) = Ok 1)
      by (vm_compute; reflexivity).
    rewrite E in Hr. by injection Hr.
  - by repeat constructor; apply lat_delivered.
Defined.

(** ** What the model shows *)

(** Once the address of the clients behind a NAT device is known, the packets of an odd port carry
    the server's address without the part of the port pair, and the learned address with it. *)
Lemma learned_addrs_odd_port g i ext :
  ext <> 0 -> i mod 2 = 1 ->
  latency_addrs g i ext = (pi_server_ip g, u32 (ext + u32 (Z.shiftr i 1 * pi_dual_port_mask g))).
Proof. intros He Hi. unfold latency_addrs. rewrite Hi. rewrite (proj2 (Z.eqb_neq ext 0)) by done. reflexivity. Qed.

(** A packet with the ICMP number 0 sets the number of the next packet to 0 too: when the numbers
    wrap, each port sends 0, receives 0, and starts at 0 again. *)
Lemma icmp_number_restarts sub m off r t :
  ICMP_getSeqNum m off = Ok 0 -> update_recv (ModeICMP sub) m off r t = Ok (0, 0).
Proof. intros E. unfold update_recv. by rewrite E. Qed.

(** After [reset] a port expects the number that it will itself send: the next request is a
    sequence error when the port has answered fewer than it received, though nothing is lost. *)
Definition lat_reset : link :=
  match lm_reset (lk_mgr lat_arrived) with Ok m => mkLink m (fun _ => []) | Err _ => lat_arrived end.
Definition lat_after_reset : link :=
  let s := lat_link (LkSend 6 lat_env) lat_reset in
  lat_link (LkDeliver 0 (mkRxItem (default (mkMbuf [] 0 []) (head (lk_fly s 0))) lat_rx_env 0 0)) s.
Lemma reset_counts_error :
  (p ← get_port 1 (lk_mgr lat_after_reset); Ok (lp_cnt p l_seq_error)) = Ok 1 /\ lk_fly lat_after_reset 0 = [].
Proof. split; vm_compute; reflexivity. Qed.
